(* ===== verification/_CoqProject ===== *)
-Q . S2P
Prelude.v
Loops.v
Vmac.v
Valu.v
Sram.v
Vlsu.v
Alu.v
Decoder.v
VectorUnit.v
Kernels.v
Inference.v
OpcodeDefs.v
Opcodes.v
Immediates.v
Disasm.v
Assembler.v
Custom.v
Cpu.v
Isa.v
Execution.v
UnitExec.v
Encoding.v
Instructions.v
Refinement.v
Widths.v
ExtTables.v
Subsets.v
MissingExt.v
ArchString.v
RegNames.v
CsrTable.v
DisasmPrint.v
Addresses.v
RawDirective.v
AsmRegs.v
AsmIp.v
AsmProofs.v
CustomText.v
LoadConst.v
Macros.v
MaskCompare.v
Relax.v
Statements.v
Uart.v
Top.v
SewCompare.v
FixedPoint.v
Print.v
Matmul.v
Syscalls.v
TestMain.v
