(* ===== verification/Prelude.v ===== *)
(** * A RISC-V core with packed and vector SIMD extensions, its tools and programs

    This development models the repository's own hardware, the parts of its customised
    binutils that decide how instructions are written and read, and its C programs, and
    proves what makes each correct and that they agree with each other.

    ** The parts and how they meet

    The chip ([top.v]) is a multi-cycle RV32I core ([ucrv32.v] with [decoder_control.v],
    [alu.v], [vreg_file.v]), three execution units (packed MAC [vmac.v], vector ALU
    [valu.v], vector load/store [vlsu.v]), 16 MB of memory ([sram.v]) and a serial port
    ([uart.v]) on one data bus. The assembler and disassembler (under
    [tools/binutils-2.41]) know the custom instructions as rows of one opcode table, which
    rows exist being decided by the architecture string. The C programs (under [sw/])
    reach the custom instructions through inline assembly.

    Hardware. Each module is a record of its registers and a function [step] from the
    inputs and the state before a clock edge to the state after it: the clocked blocks
    with their non-blocking assignments read all old values, the wires are definitions.
    A register of width [w] is a [Z]; truncations are written out ([wrap], [slice]) and
    [Widths] checks that every register of the model keeps its width. What nothing drives, and
    don't-care outputs, are parameters or [None].
    - [Vmac], [Valu], [Vlsu], [Sram], [Alu], [Decoder]: the modules of the same names;
      the bus wires of [top.v] are in [Sram], the gates of the ALU in [Alu].
    - [Cpu]: [ucrv32.v] with both register files (Module Cpu), and core with memory,
      bus and break flag of [top.v] (Module Soc), the rest of the chip as pins.
    - [Uart], [Top]: the serial port, and the whole chip.

    Instruction set. [Isa] is what the core promises: an instruction datatype, its words
    and its effect on an architectural state. [Execution], [UnitExec], [Encoding] and
    [Instructions] take the core through each instruction edge by edge; [Refinement]
    collects them for programs.

    Binutils. [OpcodeDefs] and [Opcodes] are the encodings and the opcode table of
    [opcodes/riscv-opc.c]; [Immediates] the immediate macros of
    [include/opcode/riscv.h]; [Disasm] the lookup of [opcodes/riscv-dis.c]; [Assembler]
    the startup self-check and the mnemonic hash of [gas/config/tc-riscv.c]; [Custom] the
    custom rows through assembler, disassembler and hardware decoder. [RegNames] and
    [CsrTable] are the name tables; [DisasmPrint] is the printing half of [riscv-dis.c],
    down to the text of an instruction, with its address pairs in [Addresses] and its raw
    directives in [RawDirective]; [AsmRegs] and [AsmIp] are the statement parser [riscv_ip]
    of the assembler on every operand letter, with its properties in [AsmProofs], and
    [CustomText] takes the custom instructions through both texts. What follows a parsed
    statement is in [LoadConst] (the lines of [load_const] and [riscv_ext]), [Macros]
    ([macro_build], [macro], [vector_macro], [append_insn]; output without frags),
    [MaskCompare] (what the [vmsge] macros compute), [Relax] (branch relaxation and its
    fixups) and [Statements] ([md_assemble], constant fixups, and [li] from text to the
    core). [ExtTables],
    [Subsets], [MissingExt] and [ArchString] are the extension tables, the subset list, the
    instruction-class test with its error message, and the parser and printer of
    [bfd/elfxx-riscv.c].

    C programs. Arrays are lists, [int] operations are checked, [None] is undefined
    behaviour, loops run over the values of their counters. [VectorUnit] is the interface
    between the programs and the hardware: a class of the operations the inline assembly
    executes and a class of their laws; the clocked units are an instance, so every
    theorem about a program holds on the hardware.
    - [Kernels], [Inference]: [benchmark_mnist_sew.c], [benchmark_wide_vec.c] and
      [benchmark_pvmac.c]; [SewCompare]: [benchmark_sew_compare.c].
    - [FixedPoint]: [benchmark_int8_relu.c] and [benchmark_int32_relu.c] of
      [sw/mnist-host], [benchmark_int32.c]; [Matmul]: [matmul.c].
    - [Print], [TestMain]: [print.c] and the packed-MAC part of [main.c] of [sw/test];
      [Syscalls]: [syscalls.c].
    [Prelude] (this file) and [Loops] carry what they share: words, lanes, the error
    monad, counted loops, accumulation and argmax.

    ** What the theorems show

    - Refinement: a program the core fetches runs in exactly the sum of its instructions'
      latencies and ends in the state the instruction set gives ([program_refinement],
      [instruction_refinement]), from reset ([reset_ready]); the sequence of
      [vec_mac_8] gives the dot product ([vec_mac_8_runs]); a store to the transmit
      register puts the byte's frame on the line ([store_transmits]).
    - Units: exact latency, handshake and result of every operation of the packed MAC
      unit and the vector ALU, and progress from any state ([vmac_operation],
      [valu_operation], [vmac_no_hang], [valu_progress]); transfers and their round trip
      ([vld_transfer], [vst_transfer], [vst_vld_roundtrip]); the gate-level ALU against
      arithmetic ([alu_correct]); the immediates ([immediates_correct]); a byte
      sent is the byte received ([uart_roundtrip]).
    - Tools: which tables the self-check accepts ([opcode_hash_exact]), both shipped ones
      among them; the two hashes lead to what a whole search finds; the custom
      instructions survive assembling and disassembling and mean to the hardware what
      they mean to the tools except [vmac.h] and [vmac.w]; the encodable immediates of every format; the architecture string: termination
      and what the memory around the letter table can change ([parser_total]), buffer
      bounds, parse after print, the sorted list as a finite map, exactly the entries
      that implicit extensions derive ([implicit_closure]), and that the extension a
      message asks for is enough.
    - Text: printing is total on every word ([disassembly_total]); the address printed
      behind an instruction pair is the one the machine computes, calls through [gp] and
      [tp] apart
      ([printed_address_computed]); raw digits read back ([raw_digits]); no statement makes
      the assembler die, and what it accepts matches its row and disassembles
      ([riscv_ip_never_dies], [assembled_is_disassembled]); the printed line of a custom
      instruction assembles to its word ([custom_text_roundtrip]).
    - Expansion: every macro but [flq] and [fsq] expands into instructions of the table
      ([macros_expand]); [li] loads its constant, as lines on RV32 and RV64 ([li_loads]) and
      from the statement's text to the instructions the core runs ([li_assembles]); the mask
      compares ([mask_compare]); a relaxed branch goes where it was to go, in the bytes
      reserved ([branch_relaxed], [rvc_branch_relaxed]). The meaning of the RV64 lines
      ([exec64]) and of the mask instructions ([exec_mask]) is that of the published
      instruction sets, which the core of this repository does not have.
    - Programs: the int8 kernels are total, compute the reference network and agree with
      each other; when the wider kernels are right and when they overflow; the biased and
      fixed-point networks; the dot products of the comparison benchmark; when [printint] is
      defined and what it prints, [printf] piece by piece; heap blocks never overlap.

    ** Bounds and fuel

    Hardware runs are lists of inputs, one per edge, so no fuel is involved. Loops of the
    C code are folds over the counter's values. The few loops without a counter take fuel:
    the digit loop of [printint] one more than its buffer, which the loop overruns
    before the fuel is gone; the operand strings and tables of the assembler their
    lengths, of which every turn uses up one, as do the modifiers of the printer; [load_const] four rounds
    and 64 bit positions ([load_const_returns]), [md_assemble] two levels, since the lines of
    a macro name no macro; the parser and the closure loop bounds that
    [parser_total] (with the strings it names) and [implicit_closure] prove sufficient. Numeric bounds appear as
    hypotheses on magnitudes where the C code relies on its data ([sum_fits],
    [layer_fits]); the witnesses instantiate them with the extremes of the shipped tables.

    ** Not modelled

    - [csr.v] is empty and [efu.v] has no logic. The trace file and [$display] output of
      the hardware, and the Verilator harness ([top.cc], [sim/]).
    - Of the assembler: the expression parser of [gas/expr.c], which [AsmIp] takes as a
      parameter with the symbols it defers ([Statements.constant_expression] is one for
      numbers), frags and the passes of [relax_segment] over them, relocations left to the
      linker, hard-coded [.insn] values and the directives. Of the disassembler: mapping symbols, data dumps, options and the byte
      fetching around [riscv_disassemble_insn]. Reading a subset list from an ELF file; all
      of binutils that the repository takes unchanged.
    - The float benchmark [benchmark.c], which is [expf] of the C library; messages,
      timing and ASCII art of the benchmarks; the CSR tests, the trap handler and the echo
      loop of [sw/test], which wait on hardware state the core never returns; assembly
      start-up code, except where [Refinement] runs instruction words.

    ** This file

    Fixed-width words as [Z] (truncation, sign interpretation, part selects, lane
    packing), the error monad in which the C code is written ([None] is undefined
    behaviour), counted loops, dot products and the tactics and hints the components
    share. *)

From Stdlib Require Export ZArith Lia.
From stdpp Require Export base list numbers option sets strings.

#[global] Open Scope Z_scope.

(** * Words *)

(** [wrap w x] keeps the low [w] bits of [x]: the value of a [w]-bit
    Verilog register, or of a C unsigned integer of that width. *)
Definition wrap (w x : Z) : Z := x mod 2 ^ w.

(** [sgn w x] reads the low [w] bits of [x] as a two's complement number. *)
Definition sgn (w x : Z) : Z :=
  let u := wrap w x in if u <? 2 ^ (w - 1) then u else u - 2 ^ w.

(** [slice lo w x] is the Verilog part select [x[lo +: w]]. *)
Definition slice (lo w x : Z) : Z := wrap w (Z.shiftr x lo).

(** [urange w x] / [srange w x]: [x] is representable as an unsigned / signed
    [w]-bit integer. *)
Definition urange (w x : Z) : Prop := 0 <= x < 2 ^ w.
Definition srange (w x : Z) : Prop := - 2 ^ (w - 1) <= x < 2 ^ (w - 1).

#[global] Instance urange_dec w x : Decision (urange w x).
Proof. unfold urange. apply _. Defined.
#[global] Instance srange_dec w x : Decision (srange w x).
Proof. unfold srange. apply _. Defined.

(** [pack w l] lays the lanes [l] out from the least significant end. *)
Fixpoint pack (w : Z) (l : list Z) : Z :=
  match l with
  | [] => 0
  | x :: l => wrap w x + 2 ^ w * pack w l
  end.

(** [lanes w n x] splits [x] into [n] lanes of [w] bits, least significant
    first; [slanes] reads the lanes as signed numbers. *)
Definition lane (w : Z) (i : nat) (x : Z) : Z := slice (w * Z.of_nat i) w x.
Definition lanes (w : Z) (n : nat) (x : Z) : list Z :=
  map (fun i => lane w i x) (seq 0 n).
Definition slanes (w : Z) (n : nat) (x : Z) : list Z := map (sgn w) (lanes w n x).

(** * Sums and dot products *)

Definition sumZ (l : list Z) : Z := foldr Z.add 0 l.
Definition dot (a b : list Z) : Z := sumZ (zip_with Z.mul a b).

(** * The error monad of the C code *)

Notation "'let*' x := c 'in' k" := (mbind (fun x => k) c)
  (at level 10, x pattern, c at level 100, k at level 200).

(** [guard P] is [Some tt] when [P] holds and undefined behaviour otherwise. *)
Definition assert (P : Prop) `{Decision P} : option unit :=
  if decide P then Some tt else None.

(** A C operation on [int32_t] operands: the exact result when it is
    representable, undefined behaviour otherwise. *)
Definition int_op (w r : Z) : option Z := if decide (srange w r) then Some r else None.
Definition add32 (a b : Z) : option Z := int_op 32 (a + b).
Definition mul32 (a b : Z) : option Z := int_op 32 (a * b).

(** Store to an array element; out of bounds is undefined behaviour. *)
Definition store (l : list Z) (i : nat) (v : Z) : option (list Z) :=
  if decide (i < length l)%nat then Some (<[i:=v]> l) else None.

(** The counted loop [for (i = lo; i < hi; i += step) s = body i s]. *)
Fixpoint loop {S : Type} (ixs : list nat) (body : nat -> S -> option S) (s : S) : option S :=
  match ixs with
  | [] => Some s
  | i :: ixs => let* s' := body i s in loop ixs body s'
  end.
(** [upto n] is [0, 1, .., n-1]; [every k n] is [0, k, .., (n-1)*k], the
    counter values of a loop with bound [n*k] and stride [k]. *)
Definition upto (n : nat) : list nat := seq 0 n.
Definition every (k n : nat) : list nat := map (fun i => i * k)%nat (seq 0 n).

(** * Tactics *)

(** Unfold word ranges and finish with linear arithmetic, with the
    powers of two evaluated. *)
Ltac word_pows :=
  repeat match goal with
  | |- context [2 ^ ?e] => let e' := eval vm_compute in (2 ^ e) in
        lazymatch e' with Zpos _ => change (2 ^ e) with e' end
  | H : context [2 ^ ?e] |- _ => let e' := eval vm_compute in (2 ^ e) in
        lazymatch e' with Zpos _ => change (2 ^ e) with e' in H end
  end.
Ltac word_lia := unfold urange, srange in *; word_pows; lia.

(** * Word lemmas *)

Lemma pow2_pos w : 0 <= w -> 0 < 2 ^ w.
Proof. intros. by apply Z.pow_pos_nonneg. Qed.

Lemma pow2_half w : 0 < w -> 2 ^ w = 2 * 2 ^ (w - 1).
Proof. intros. rewrite <- Z.pow_succ_r by lia. f_equal. lia. Qed.

Lemma wrap_range w x : 0 <= w -> urange w (wrap w x).
Proof. intros. unfold urange, wrap. by apply Z.mod_pos_bound, pow2_pos. Qed.

Lemma wrap_small w x : urange w x -> wrap w x = x.
Proof. apply Z.mod_small. Qed.

Lemma wrap_wrap w x : 0 <= w -> wrap w (wrap w x) = wrap w x.
Proof. intros. by apply wrap_small, wrap_range. Qed.

Lemma sgn_range w x : 0 < w -> srange w (sgn w x).
Proof.
  intros Hw. unfold srange, sgn.
  pose proof (wrap_range w x ltac:(lia)) as [? ?].
  pose proof (pow2_half w Hw). destruct (Z.ltb_spec (wrap w x) (2 ^ (w - 1))); lia.
Qed.

Lemma wrap_sgn w x : 0 <= w -> wrap w (sgn w x) = wrap w x.
Proof.
  intros. unfold sgn. pose proof (pow2_pos w).
  destruct (Z.ltb_spec (wrap w x) (2 ^ (w - 1))); [by apply wrap_wrap|].
  unfold wrap at 1. rewrite <- (Z_mod_plus_full _ 1).
  replace (wrap w x - 2 ^ w + 1 * 2 ^ w) with (wrap w x) by lia. by apply wrap_wrap.
Qed.

Lemma sgn_wrap w x : 0 <= w -> sgn w (wrap w x) = sgn w x.
Proof. intros. unfold sgn. by rewrite wrap_wrap. Qed.

Lemma sgn_small w x : 0 < w -> srange w x -> sgn w x = x.
Proof.
  intros Hw [Hl Hu]. unfold sgn, wrap. pose proof (pow2_half w Hw).
  destruct (decide (0 <= x)) as [Hx|Hx].
  - rewrite Z.mod_small by lia. destruct (Z.ltb_spec x (2 ^ (w - 1))); lia.
  - rewrite <- (Z_mod_plus_full _ 1), Z.mod_small by lia.
    destruct (Z.ltb_spec (x + 1 * 2 ^ w) (2 ^ (w - 1))); lia.
Qed.

Lemma wrap_eq_sgn w x y : wrap w x = wrap w y -> sgn w x = sgn w y.
Proof. intros E. unfold sgn. by rewrite E. Qed.

Lemma wrap_add w x y : wrap w (wrap w x + wrap w y) = wrap w (x + y).
Proof. unfold wrap. symmetry. apply Zplus_mod. Qed.
Lemma wrap_add_l w x y : wrap w (wrap w x + y) = wrap w (x + y).
Proof. unfold wrap. by rewrite Zplus_mod_idemp_l. Qed.
Lemma wrap_add_r w x y : wrap w (x + wrap w y) = wrap w (x + y).
Proof. unfold wrap. by rewrite Zplus_mod_idemp_r. Qed.
Lemma wrap_mul w x y : wrap w (wrap w x * wrap w y) = wrap w (x * y).
Proof. unfold wrap. symmetry. apply Zmult_mod. Qed.
Lemma wrap_sub w x y : wrap w (wrap w x - wrap w y) = wrap w (x - y).
Proof. unfold wrap. symmetry. apply Zminus_mod. Qed.

(** Truncating further makes an earlier, wider truncation irrelevant. *)
Lemma wrap_narrow v w x : 0 <= v <= w -> wrap v (wrap w x) = wrap v x.
Proof.
  intros. unfold wrap. replace w with (v + (w - v)) by lia.
  rewrite Z.pow_add_r by lia. apply Z.mod_mod_divide, Z.divide_factor_l.
Qed.

(** Congruence modulo [2^w]: [eqw w x y] when [x] and [y] agree as [w]-bit
    words. Additions, subtractions and products respect it, so intermediate
    truncations can be rewritten away with [setoid_rewrite] ([wrap_norm]). *)
Record eqw (w x y : Z) : Prop := Eqw { eqw_eq : wrap w x = wrap w y }.
Arguments eqw_eq {w x y}.

#[global] Instance eqw_equiv w : Equivalence (eqw w).
Proof.
  split; [done|intros ?? [H]; by split|intros ??? [H1] [H2]; split; congruence].
Qed.
#[global] Instance eqw_wrap w : Proper (eqw w ==> eq) (wrap w).
Proof. by intros ?? [?]. Qed.
#[global] Instance eqw_sgn w : Proper (eqw w ==> eq) (sgn w).
Proof. intros ?? [?]. by apply wrap_eq_sgn. Qed.
#[global] Instance eqw_add w : Proper (eqw w ==> eqw w ==> eqw w) Z.add.
Proof. intros x x' [Hx] y y' [Hy]. split. by rewrite <- (wrap_add w x), Hx, Hy, wrap_add. Qed.
#[global] Instance eqw_sub w : Proper (eqw w ==> eqw w ==> eqw w) Z.sub.
Proof. intros x x' [Hx] y y' [Hy]. split. by rewrite <- (wrap_sub w x), Hx, Hy, wrap_sub. Qed.
#[global] Instance eqw_mul w : Proper (eqw w ==> eqw w ==> eqw w) Z.mul.
Proof. intros x x' [Hx] y y' [Hy]. split. by rewrite <- (wrap_mul w x), Hx, Hy, wrap_mul. Qed.

Lemma eqw_wrap_id w v x : 0 <= w <= v -> eqw w (wrap v x) x.
Proof. intros. split. by apply wrap_narrow. Qed.
Lemma eqw_sgn_id w x : 0 <= w -> eqw w (sgn w x) x.
Proof. intros. split. by apply wrap_sgn. Qed.
Lemma eqw_sext_id v w x : 0 <= v <= w -> eqw v (wrap w (sgn v x)) x.
Proof. intros. split. rewrite wrap_narrow by lia. apply wrap_sgn. lia. Qed.

(** Prove [wrap w e = wrap w e'] after erasing the inner truncations. *)
Ltac wrap_norm :=
  lazymatch goal with
  | |- wrap ?w _ = wrap ?w _ => apply (@eqw_eq w); wrap_norm
  | |- sgn ?w _ = sgn ?w _ => apply (eqw_sgn w); wrap_norm
  | |- eqw ?w _ _ =>
      repeat first
        [ rewrite (eqw_sext_id w) by lia | rewrite (eqw_wrap_id w) by lia
        | rewrite (eqw_sgn_id w) by lia ];
      try (split; f_equal; ring)
  end.

Lemma slice_range lo w x : 0 <= w -> urange w (slice lo w x).
Proof. apply wrap_range. Qed.

Lemma slice_0 w x : slice 0 w x = wrap w x.
Proof. unfold slice. by rewrite Z.shiftr_0_r. Qed.

(** The sign bit decides [sgn]. *)
Lemma sgn_neg_bit w x : 0 < w -> (sgn w x <? 0) = Z.testbit x (w - 1).
Proof.
  intros Hw. unfold sgn. pose proof (wrap_range w x ltac:(lia)) as [? Hu].
  pose proof (pow2_half w Hw) as Hh.
  assert (Z.testbit x (w - 1) = Z.testbit (wrap w x) (w - 1)) as ->.
  { unfold wrap. by rewrite Z.mod_pow2_bits_low by lia. }
  destruct (Z.ltb_spec (wrap w x) (2 ^ (w - 1))) as [Hlt|Hge].
  - replace (Z.testbit (wrap w x) (w - 1)) with false; [apply Z.ltb_ge; lia|].
    symmetry. apply Z.testbit_false; [lia|]. by rewrite Z.div_small by lia.
  - replace (Z.testbit (wrap w x) (w - 1)) with true; [by apply Z.ltb_lt; lia|].
    symmetry. apply Z.testbit_true; [lia|].
    replace (wrap w x / 2 ^ (w - 1)) with 1; [done|].
    apply Z.div_unique with (wrap w x - 2 ^ (w - 1)); lia.
Qed.

(** * Lane lemmas *)

Lemma slice_lt lo w x : 0 <= lo -> slice lo w x = wrap w (x / 2 ^ lo).
Proof. intros. unfold slice. by rewrite Z.shiftr_div_pow2. Qed.

(** A part select of a truncated word is a part select of the word. *)
Lemma slice_wrap lo w v x :
  0 <= lo -> 0 <= w -> lo + w <= v -> slice lo w (wrap v x) = slice lo w x.
Proof.
  intros. unfold slice, wrap. rewrite <- !Z.land_ones by lia.
  apply Z.bits_inj'. intros n Hn.
  rewrite !Z.land_spec, !Z.shiftr_spec, Z.land_spec by lia.
  destruct (decide (n < w)) as [Hlt|Hge].
  - rewrite (Z.ones_spec_low v (n + lo)) by lia. by rewrite andb_true_r.
  - rewrite (Z.ones_spec_high w n) by lia. by rewrite !andb_false_r.
Qed.

Lemma length_lanes w n x : length (lanes w n x) = n.
Proof. unfold lanes. by rewrite length_map, length_seq. Qed.
Lemma length_slanes w n x : length (slanes w n x) = n.
Proof. unfold slanes. by rewrite length_map, length_lanes. Qed.

Lemma lanes_S w n x :
  0 <= w -> lanes w (S n) x = wrap w x :: lanes w n (Z.shiftr x w).
Proof.
  intros. unfold lanes. simpl. f_equal.
  - unfold lane. by rewrite Z.mul_0_r, slice_0.
  - rewrite <- seq_shift, map_map. apply map_ext. intros i. unfold lane, slice.
    rewrite Z.shiftr_shiftr by lia. do 2 f_equal. lia.
Qed.

Lemma pack_range w l : 0 <= w -> urange (w * Z.of_nat (length l)) (pack w l).
Proof.
  intros Hw. unfold urange. induction l as [|x l IH]; simpl pack; [simpl; rewrite Z.mul_0_r; simpl; lia|].
  pose proof (wrap_range w x Hw) as [? ?]. pose proof (pow2_pos w Hw).
  replace (w * Z.of_nat (length (x :: l))) with (w + w * Z.of_nat (length l))
    by (simpl length; lia).
  rewrite Z.pow_add_r by lia. nia.
Qed.

Lemma pack_cons_low w x l : 0 <= w -> wrap w (pack w (x :: l)) = wrap w x.
Proof.
  intros. simpl. unfold wrap. rewrite Z.mul_comm, Z_mod_plus_full. by apply wrap_wrap.
Qed.

Lemma pack_cons_high w x l : 0 <= w -> Z.shiftr (pack w (x :: l)) w = pack w l.
Proof.
  intros Hw. simpl. rewrite Z.shiftr_div_pow2 by done.
  pose proof (pow2_pos w Hw). rewrite Z.mul_comm, Z_div_plus_full by lia.
  rewrite Z.div_small; [lia|]. by apply wrap_range.
Qed.

(** Unpacking what was packed gives the lanes back (truncated). *)
Lemma lanes_pack w l : 0 <= w -> lanes w (length l) (pack w l) = map (wrap w) l.
Proof.
  intros Hw. induction l as [|x l IH]; [done|].
  cbn [length]. rewrite lanes_S by done.
  rewrite pack_cons_low, pack_cons_high by done. by rewrite IH.
Qed.

Lemma slanes_pack w l :
  0 < w -> Forall (srange w) l -> slanes w (length l) (pack w l) = l.
Proof.
  intros Hw Hl. unfold slanes. rewrite lanes_pack by lia. rewrite map_map.
  induction Hl as [|x l Hx _ IH]; [done|]. simpl. rewrite IH.
  by rewrite sgn_wrap, sgn_small by (done || lia).
Qed.

(** Packing the lanes of a word gives the word back (truncated). *)
Lemma pack_lanes w n x : 0 <= w -> pack w (lanes w n x) = wrap (w * Z.of_nat n) x.
Proof.
  intros Hw. revert x. induction n as [|n IH]; intros x.
  - simpl. rewrite Z.mul_0_r. unfold wrap. simpl. by rewrite Z.mod_1_r.
  - rewrite lanes_S by done. cbn [pack]. rewrite IH, wrap_wrap by done.
    rewrite Z.shiftr_div_pow2 by done. unfold wrap.
    replace (w * Z.of_nat (S n)) with (w + w * Z.of_nat n) by lia.
    rewrite Z.pow_add_r by lia. pose proof (pow2_pos w Hw).
    pose proof (pow2_pos (w * Z.of_nat n) ltac:(lia)).
    rewrite Z.rem_mul_r by lia. lia.
Qed.

Lemma pack_app w l1 l2 :
  0 <= w -> pack w (l1 ++ l2) = pack w l1 + 2 ^ (w * Z.of_nat (length l1)) * pack w l2.
Proof.
  intros Hw. induction l1 as [|x l1 IH].
  - simpl. rewrite Z.mul_0_r, Z.pow_0_r. lia.
  - cbn [app pack length]. rewrite IH.
    replace (w * Z.of_nat (S (length l1))) with (w + w * Z.of_nat (length l1)) by lia.
    rewrite Z.pow_add_r by lia. lia.
Qed.

(** Regrouping: [k] lanes of [w] bits per element against one lane of
    [w * k] bits per element. *)
Lemma pack_flat_lanes w k l :
  0 <= w -> pack w (flat_map (lanes w k) l) = pack (w * Z.of_nat k) l.
Proof.
  intros Hw. induction l as [|x l IH]; [done|].
  cbn [flat_map pack]. rewrite pack_app, pack_lanes, IH, length_lanes by done. done.
Qed.

(** Each lane of a word is in range; signed lanes too. *)
Lemma lanes_range w n x : 0 <= w -> Forall (urange w) (lanes w n x).
Proof. intros. apply Forall_map, Forall_true. intros. by apply slice_range. Qed.
Lemma slanes_range w n x : 0 < w -> Forall (srange w) (slanes w n x).
Proof. intros. apply Forall_map, Forall_true. intros. by apply sgn_range. Qed.

(** Sign extension [{{(w-v){x[v-1]}}, x[v-1:0]}] of a [v]-bit value to [w] bits. *)
Definition sext (v w x : Z) : Z := wrap w (sgn v x).

(** The product of two signed [v]-bit numbers is exact in [2*v] bits. *)
Lemma prod_srange v x y : 0 < v -> srange v x -> srange v y -> srange (2 * v) (x * y).
Proof.
  intros Hv [? ?] [? ?]. unfold srange.
  replace (2 * v - 1) with (1 + (v - 1) + (v - 1)) by lia.
  rewrite !Z.pow_add_r, Z.pow_1_r by lia. pose proof (pow2_pos (v - 1)). nia.
Qed.

Lemma sgn_prod v a b :
  0 < v -> sgn (2 * v) (sgn v a * sgn v b) = sgn v a * sgn v b.
Proof. intros. apply sgn_small; [lia|]. by apply prod_srange; [|apply sgn_range..]. Qed.

(** What the multipliers compute: sign-extend, multiply and truncate to
    twice the width, then read the product back as a signed number. *)
Lemma sgn_wide_mul v a b :
  0 < v ->
  sgn (2 * v) (wrap (2 * v) (sext v (2 * v) a * sext v (2 * v) b)) = sgn v a * sgn v b.
Proof.
  intros. unfold sext. rewrite wrap_mul, sgn_wrap by lia. by apply sgn_prod.
Qed.

Lemma map_seq_shift {A} (f : nat -> A) m n :
  map f (seq m n) = map (fun k => f (m + k)%nat) (seq 0 n).
Proof.
  rewrite <- (Nat.add_0_r m) at 1. generalize 0%nat.
  induction n as [|n IH]; intros j; [done|]. simpl. f_equal.
  replace (S (m + j)) with (m + S j)%nat by lia. apply IH.
Qed.

(** Bit-wise assembly of a word from disjoint parts is an addition. *)
Lemma lor_disjoint n a b : 0 <= n -> 0 <= b < 2 ^ n -> Z.lor (a * 2 ^ n) b = a * 2 ^ n + b.
Proof.
  intros Hn Hb. rewrite <- Z.shiftl_mul_pow2 by done.
  assert (E : Z.land (Z.shiftl a n) b = 0).
  { apply Z.bits_inj'. intros i Hi. rewrite Z.land_spec, Z.shiftl_spec, Z.bits_0 by done.
    destruct (decide (i < n)); [by rewrite Z.testbit_neg_r by lia|].
    replace b with (wrap n b) by (by apply wrap_small). unfold wrap.
    rewrite Z.mod_pow2_bits_high by lia. apply andb_false_r. }
  rewrite Z.add_nocarry_lxor by done. symmetry. by apply Z.lxor_lor.
Qed.

(** Lanes only see the low bits. *)
Lemma lanes_wrap w n v x :
  0 <= w -> w * Z.of_nat n <= v -> lanes w n (wrap v x) = lanes w n x.
Proof.
  intros. unfold lanes. apply map_ext_in. intros i Hi. apply in_seq in Hi.
  apply slice_wrap; nia.
Qed.
Lemma lanes_sgn w n v x :
  0 <= w -> 0 <= v -> w * Z.of_nat n <= v -> lanes w n (sgn v x) = lanes w n x.
Proof. intros. rewrite <- (lanes_wrap w n v), wrap_sgn, lanes_wrap by done. done. Qed.

(** * Bits *)

Lemma testbit_shiftl a n i : 0 <= n -> Z.testbit (Z.shiftl a n) i = (n <=? i) && Z.testbit a (i - n).
Proof.
  intros. destruct (Z.leb_spec n i).
  - by rewrite Z.shiftl_spec by lia.
  - destruct (decide (0 <= i)); [rewrite Z.shiftl_spec_low by lia; done|].
    by rewrite Z.testbit_neg_r by lia.
Qed.
Lemma testbit_shiftr a n i : 0 <= n -> Z.testbit (Z.shiftr a n) i = (0 <=? i) && Z.testbit a (i + n).
Proof.
  intros. destruct (Z.leb_spec 0 i); [by rewrite Z.shiftr_spec by lia|].
  by rewrite Z.testbit_neg_r by lia.
Qed.
Lemma testbit_wrap w x i : 0 <= w -> Z.testbit (wrap w x) i = (i <? w) && Z.testbit x i.
Proof.
  intros. unfold wrap. destruct (Z.ltb_spec i w).
  - by rewrite Z.mod_pow2_bits_low by lia.
  - by rewrite Z.mod_pow2_bits_high by lia.
Qed.
Lemma testbit_slice lo w x i :
  0 <= lo -> 0 <= w -> Z.testbit (slice lo w x) i = (0 <=? i) && (i <? w) && Z.testbit x (i + lo).
Proof.
  intros. unfold slice. rewrite testbit_wrap, testbit_shiftr by done.
  by destruct (_ <? _), (_ <=? _).
Qed.
Lemma testbit_m1 i : Z.testbit (-1) i = (0 <=? i).
Proof.
  destruct (Z.leb_spec 0 i); [by apply Z.bits_m1|by rewrite Z.testbit_neg_r by lia].
Qed.
Lemma testbit_sgn w x i :
  0 < w -> 0 <= i -> Z.testbit (sgn w x) i = Z.testbit x (Z.min i (w - 1)).
Proof.
  intros Hw Hi. rewrite <- (sgn_wrap w x) by lia.
  replace (Z.testbit x (Z.min i (w - 1))) with (Z.testbit (wrap w x) (Z.min i (w - 1)))
    by (rewrite testbit_wrap by lia; replace (_ <? w) with true by lia; done).
  pose proof (wrap_range w x ltac:(lia)) as [U0 U1].
  assert (Hw2 : wrap w (wrap w x) = wrap w x) by (apply wrap_wrap; lia).
  set (u := wrap w x) in *.
  pose proof (pow2_half w Hw) as Hh.
  assert (B : Z.testbit u (w - 1) = negb (u <? 2 ^ (w - 1))).
  { rewrite <- sgn_neg_bit by done. unfold sgn. rewrite Hw2.
    destruct (Z.ltb_spec u (2 ^ (w - 1))); lia. }
  unfold sgn. rewrite Hw2.
  destruct (Z.ltb_spec u (2 ^ (w - 1))) as [Hu|Hu].
  - destruct (decide (i < w)); [by replace (Z.min i (w - 1)) with i by lia|].
    replace (Z.min i (w - 1)) with (w - 1) by lia. rewrite B.
    apply (Z.bits_above_log2 u); [lia|].
    destruct (decide (u = 0)) as [->|]; [simpl; lia|]. apply Z.log2_lt_pow2; [lia|].
    apply Z.lt_le_trans with (2 ^ w); [lia|]. apply Z.pow_le_mono_r; lia.
  - replace (u - 2 ^ w) with (Z.lor u (Z.shiftl (-1) w)).
    2:{ rewrite Z.lor_comm, Z.shiftl_mul_pow2, lor_disjoint; lia. }
    rewrite Z.lor_spec, testbit_shiftl by lia. destruct (Z.leb_spec w i).
    + rewrite Z.bits_m1 by lia. replace (Z.min i (w - 1)) with (w - 1) by lia.
      by rewrite B, orb_true_r.
    + replace (Z.min i (w - 1)) with i by lia. by rewrite orb_false_r.
Qed.

Create Rewrite HintDb bits.
#[export] Hint Rewrite Z.lor_spec Z.land_spec Z.bits_0 testbit_m1 : bits.
#[export] Hint Rewrite testbit_shiftl testbit_shiftr testbit_wrap testbit_slice using lia : bits.

(** * Record updates *)

(** [r <| f := v |>] replaces the field [f]. A record gets its updates from an
    instance of [Eta], the record rebuilt from its own projections. *)
Class Eta (R : Type) := eta : R -> R.
Class Setter {R A : Type} (f : R -> A) := setter : A -> R -> R.
Arguments setter {R A} f {_} _ _.

Ltac make_setter R f :=
  let e := constr:(_ : Eta R) in
  let v := fresh "v" in let r := fresh "r" in
  refine (fun v r => _);
  let e' := (match e with ?c => eval unfold c in e | _ => e end) in
  let b := eval cbv beta in (e' r) in
  let g := (eval pattern (f r) in b) in
  lazymatch g with ?h _ => let t := eval cbv beta in (h v) in exact t end.
#[export] Hint Extern 1 (@Setter ?R _ ?f) => make_setter R f : typeclass_instances.

Notation "r <| f := v |>" := (setter f v r) (at level 1, left associativity, f at level 10,
  format "r  <| f  :=  v |>").

(** * Register arrays *)

(** [reg [w-1:0] m [0:n-1]] as a total function; [upd] is a clocked write. *)
Definition upd {A} (f : nat -> A) (i : nat) (v : A) : nat -> A :=
  fun j => if Nat.eqb j i then v else f j.

Lemma upd_eq {A} (f : nat -> A) i v : upd f i v i = v.
Proof. unfold upd. by rewrite Nat.eqb_refl. Qed.
Lemma upd_ne {A} (f : nat -> A) i j v : i <> j -> upd f i v j = f j.
Proof. intros. unfold upd. destruct (Nat.eqb_spec j i); congruence. Qed.

(** Synchronous circuits: [run step ins s] clocks [step] through the
    input vectors [ins]. *)
Definition run {I S} (step : I -> S -> S) (ins : list I) (s : S) : S :=
  fold_left (fun s i => step i s) ins s.

Lemma run_cons {I S} (step : I -> S -> S) i l s : run step (i :: l) s = run step l (step i s).
Proof. done. Qed.

Lemma run_app {I S} (step : I -> S -> S) l1 l2 s :
  run step (l1 ++ l2) s = run step l2 (run step l1 s).
Proof. apply fold_left_app. Qed.

(** Rule induction over clock edges. *)
Lemma run_invariant {I S} (P : S -> Prop) (step : I -> S -> S) ins s :
  (forall i t, P t -> P (step i t)) -> P s -> P (run step ins s).
Proof. intros Hstep. revert s. induction ins as [|i ins IH]; intros s Hs; [done|]. by apply IH, Hstep. Qed.

Create HintDb words.
#[export] Hint Resolve wrap_range sgn_range slice_range lanes_range slanes_range : words.
