(* ===== verification/Loops.v ===== *)
(** Lemmas about the loops of the C code: invariants, accumulation without
    overflow, array filling, two-dimensional arrays, chunked dot products and the
    two argmax loops of the benchmarks. *)

From S2P Require Import Prelude.

(** * Counted loops *)

Lemma loop_app {A} ixs1 ixs2 (body : nat -> A -> option A) s :
  loop (ixs1 ++ ixs2) body s = let* s' := loop ixs1 body s in loop ixs2 body s'.
Proof. revert s. induction ixs1 as [|i ixs1 IH]; intros s; [done|]. simpl. by destruct (body i s); simpl. Qed.

Lemma loop_ext {A} ixs (f g : nat -> A -> option A) s :
  (forall i t, i ∈ ixs -> f i t = g i t) -> loop ixs f s = loop ixs g s.
Proof.
  revert s. induction ixs as [|i ixs IH]; intros s Hfg; [done|]. simpl.
  rewrite Hfg by set_solver. destruct (g i s); simpl; [|done]. apply IH. set_solver.
Qed.

Lemma elem_of_upto i n : i ∈ upto n <-> (i < n)%nat.
Proof. unfold upto. rewrite list_elem_of_In, in_seq. lia. Qed.

(** Total correctness of [for (i = m; i < m + n; i++)] by an invariant. *)
Lemma loop_seq_inv {A} (P : nat -> A -> Prop) m n body s :
  P m s ->
  (forall i t, (m <= i < m + n)%nat -> P i t -> exists t', body i t = Some t' /\ P (i + 1)%nat t') ->
  exists s', loop (seq m n) body s = Some s' /\ P (m + n)%nat s'.
Proof.
  revert m s. induction n as [|n IH]; intros m s H0 Hstep; simpl.
  - exists s. by rewrite Nat.add_0_r.
  - destruct (Hstep m s) as (t & -> & Ht); [lia|done|]. cbn.
    destruct (IH (m + 1)%nat t Ht) as (s' & Hs' & HP); [intros; apply Hstep; [lia|done]|].
    exists s'. rewrite (Nat.add_1_r m) in *. split; [done|].
    by replace (m + S n)%nat with (S m + n)%nat by lia.
Qed.

Lemma loop_upto_inv {A} (P : nat -> A -> Prop) n body s :
  P 0%nat s ->
  (forall i t, (i < n)%nat -> P i t -> exists t', body i t = Some t' /\ P (i + 1)%nat t') ->
  exists s', loop (upto n) body s = Some s' /\ P n s'.
Proof. intros H0 Hs. apply (loop_seq_inv P 0 n); [done|]. intros i t Hi. apply Hs. lia. Qed.

(** A loop over two independent accumulators is two loops. *)
Lemma loop_pair_eq {A B} ixs (f : nat -> A -> option A) (g : nat -> B -> option B) s t :
  loop ixs (fun i st => let* a := f i (fst st) in let* b := g i (snd st) in Some (a, b)) (s, t)
  = let* a := loop ixs f s in let* b := loop ixs g t in Some (a, b).
Proof.
  revert s t. induction ixs as [|i ixs IH]; intros s t; cbn; [done|].
  destruct (f i s) as [a|], (g i t) as [b|]; cbn; try done. by destruct (loop ixs f a).
Qed.

Lemma loop_pair {A B} ixs (f : nat -> A -> option A) (g : nat -> B -> option B) s t s' t' :
  loop ixs f s = Some s' -> loop ixs g t = Some t' ->
  loop ixs (fun i st => let* a := f i (fst st) in let* b := g i (snd st) in Some (a, b)) (s, t)
  = Some (s', t').
Proof. intros Hs Ht. by rewrite loop_pair_eq, Hs, Ht. Qed.

(** * Accumulation *)

Lemma sumZ_app l1 l2 : sumZ (l1 ++ l2) = sumZ l1 + sumZ l2.
Proof. unfold sumZ. induction l1 as [|x l1 IH]; simpl; lia. Qed.

Lemma sumZ_bound l B : Forall (fun x => Z.abs x <= B) l -> Z.abs (sumZ l) <= Z.of_nat (length l) * B.
Proof. induction 1 as [|x l Hx _ IH]; simpl; lia. Qed.

(** [acc += term(i)] on a [w]-bit accumulator does not overflow while the terms are
    small; the result is the exact sum. *)
Lemma loop_sum_w w ixs (term : nat -> option Z) (f : nat -> Z) acc B :
  0 <= B -> (forall i, i ∈ ixs -> term i = Some (f i) /\ Z.abs (f i) <= B) ->
  Z.abs acc + Z.of_nat (length ixs) * B < 2 ^ (w - 1) ->
  loop ixs (fun i a => let* t := term i in int_op w (a + t)) acc = Some (acc + sumZ (map f ixs)).
Proof.
  intros HB. revert acc. induction ixs as [|i ixs IH]; intros acc Ht Hacc; cbn [loop map sumZ foldr].
  - by rewrite Z.add_0_r.
  - assert (Ht' : forall k, k ∈ ixs -> term k = Some (f k) /\ Z.abs (f k) <= B)
      by (intros; apply Ht; by right).
    destruct (Ht i ltac:(by left)) as [E Hi]. rewrite E. cbn [mbind option_bind].
    unfold int_op. cbn [length] in Hacc.
    rewrite decide_True by (unfold srange; nia). cbn [mbind option_bind].
    rewrite IH by (done || nia). f_equal. unfold sumZ. lia.
Qed.

Lemma loop_sum ixs (term : nat -> option Z) (f : nat -> Z) acc B :
  0 <= B -> (forall i, i ∈ ixs -> term i = Some (f i) /\ Z.abs (f i) <= B) ->
  Z.abs acc + Z.of_nat (length ixs) * B < 2 ^ 31 ->
  loop ixs (fun i a => let* t := term i in add32 a t) acc = Some (acc + sumZ (map f ixs)).
Proof. apply (loop_sum_w 32). Qed.

(** * Filling arrays *)

Lemma store_lt l i v : (i < length l)%nat -> store l i v = Some (<[i:=v]> l).
Proof. intros. unfold store. by rewrite decide_True. Qed.

(** [for (j = 0; j < n; j++) out[j] = g(j)] *)
Lemma loop_fill n (g : nat -> option Z) (h : nat -> Z) out :
  length out = n -> (forall j, (j < n)%nat -> g j = Some (h j)) ->
  loop (upto n) (fun j o => let* v := g j in store o j v) out = Some (map h (upto n)).
Proof.
  intros Hlen Hg.
  destruct (loop_upto_inv (fun k o => o = map h (upto k) ++ drop k out) n
    (fun j o => let* v := g j in store o j v) out) as (o & Ho & ->).
  - done.
  - intros i t Hi ->. rewrite Hg by done. cbn. eexists. split; [apply store_lt|].
    + rewrite length_app, length_map, length_drop. unfold upto. rewrite length_seq. lia.
    + rewrite insert_app_r_alt by (rewrite length_map; unfold upto; by rewrite length_seq).
      rewrite length_map. unfold upto at 1 2. rewrite length_seq, Nat.sub_diag.
      destruct (lookup_lt_is_Some_2 out i) as [x Hx]; [lia|].
      rewrite (drop_S out x i Hx). cbn. unfold upto. rewrite seq_app, map_app, <- app_assoc.
      by rewrite Nat.add_1_r.
  - rewrite Ho. rewrite drop_ge by lia. by rewrite app_nil_r.
Qed.

(** * Two-dimensional arrays *)

Definition get2 (a : list (list Z)) (i j : nat) : option Z := let* r := a !! i in r !! j.
Definition store2 (a : list (list Z)) (i j : nat) (v : Z) : option (list (list Z)) :=
  let* r := a !! i in let* r' := store r j v in Some (<[i:=r']> a).

(** [a] has [m] rows of [n] elements. *)
Definition shape (m n : nat) (a : list (list Z)) : Prop :=
  length a = m /\ Forall (fun r => length r = n) a.

#[export] Instance shape_dec m n a : Decision (shape m n a).
Proof. unfold shape. apply _. Defined.

Definition column (a : list (list Z)) (j : nat) : list Z := map (fun r => nth j r 0) a.
(** The transpose of an [m] x [n] array. *)
Definition transpose (n : nat) (a : list (list Z)) : list (list Z) := map (column a) (upto n).

Lemma shape_row m n a i r : shape m n a -> a !! i = Some r -> length r = n.
Proof. intros [_ Ha] Hi. by apply (Forall_lookup_1 _ _ _ _ Ha Hi). Qed.

Lemma get2_nth m n a i j :
  shape m n a -> (i < m)%nat -> (j < n)%nat -> get2 a i j = Some (nth i (column a j) 0).
Proof.
  intros Ha Hi Hj. unfold get2, column.
  destruct (lookup_lt_is_Some_2 a i) as [r Hr]; [destruct Ha; lia|].
  rewrite Hr. cbn. rewrite nth_lookup, list_lookup_fmap, Hr. cbn.
  rewrite nth_lookup. destruct (lookup_lt_is_Some_2 r j) as [x Hx]; [|by rewrite Hx].
  by rewrite (shape_row _ _ _ _ _ Ha Hr).
Qed.

Lemma transpose_shape m n a : shape m n a -> shape n m (transpose n a).
Proof.
  intros [Hm Hn]. unfold transpose, column. split.
  - by rewrite length_map; unfold upto; rewrite length_seq.
  - apply Forall_map, Forall_true. intros j. cbn. by rewrite length_map.
Qed.

(** The nested loop that fills [a[j][i] = f(j, i)]. *)
Lemma loop_fill2 m n (g : nat -> nat -> option Z) (f : nat -> nat -> Z) a :
  shape m n a -> (forall j i, (j < m)%nat -> (i < n)%nat -> g j i = Some (f j i)) ->
  loop (upto m) (fun j a => loop (upto n) (fun i a => let* v := g j i in store2 a j i v) a) a
  = Some (map (fun j => map (f j) (upto n)) (upto m)).
Proof.
  intros [Hm Hn] Hg.
  destruct (loop_upto_inv (fun k o => o = map (fun j => map (f j) (upto n)) (upto k) ++ drop k a) m
    (fun j a => loop (upto n) (fun i a => let* v := g j i in store2 a j i v) a) a)
    as (o & -> & ->); [done| |by rewrite drop_ge, app_nil_r by lia].
  intros j t Hj ->. set (pre := map (fun j => map (f j) (upto n)) (upto j)).
  assert (Hpre : length pre = j) by (unfold pre; rewrite length_map; unfold upto; apply length_seq).
  destruct (lookup_lt_is_Some_2 a j) as [r Hr]; [lia|]. rewrite (drop_S a r j Hr).
  assert (Hrow : forall ixs x, loop ixs (fun i a => let* v := g j i in store2 a j i v) (pre ++ x :: drop (S j) a)
    = let* x' := loop ixs (fun i o => let* v := g j i in store o i v) x in Some (pre ++ x' :: drop (S j) a)).
  { induction ixs as [|i ixs IH]; intros x; cbn; [done|].
    destruct (g j i) as [v|]; cbn; [|done]. unfold store2.
    rewrite lookup_app_r, Hpre, Nat.sub_diag by lia. cbn.
    destruct (store x i v) as [x'|]; cbn; [|done].
    rewrite insert_app_r_alt, Hpre, Nat.sub_diag by lia. cbn. apply IH. }
  rewrite Hrow, (loop_fill n (g j) (f j)); [|by apply (Forall_lookup_1 _ _ _ _ Hn Hr)|auto].
  cbn. eexists. split; [done|]. rewrite Nat.add_1_r. unfold pre, upto.
  rewrite seq_S, map_app, <- app_assoc. done.
Qed.

(** * Dot products *)

Lemma dot_cons x l y r : dot (x :: l) (y :: r) = x * y + dot l r.
Proof. done. Qed.

Lemma dot_app l1 l2 r1 r2 :
  length l1 = length r1 -> dot (l1 ++ l2) (r1 ++ r2) = dot l1 r1 + dot l2 r2.
Proof. intros. unfold dot. rewrite zip_with_app by done. apply sumZ_app. Qed.

Lemma length_every k n : length (every k n) = n.
Proof. unfold every. by rewrite length_map, length_seq. Qed.

Lemma elem_of_every i k n : i ∈ every k n <-> exists q, i = (q * k)%nat /\ (q < n)%nat.
Proof.
  unfold every. rewrite list_elem_of_fmap. setoid_rewrite list_elem_of_In.
  setoid_rewrite in_seq. split; intros [q Hq]; exists q; intuition lia.
Qed.

(** A dot product computed [k] elements at a time. *)
Lemma dot_chunks k n x y :
  length x = (n * k)%nat -> length y = (n * k)%nat ->
  sumZ (map (fun i => dot (take k (drop i x)) (take k (drop i y))) (every k n)) = dot x y.
Proof.
  revert x y. induction n as [|n IH]; intros x y Hx Hy.
  - destruct x; [|done]. done.
  - unfold every. cbn [seq map]. rewrite <- seq_shift, !map_map. cbn [Nat.mul sumZ foldr].
    rewrite !drop_0. rewrite <- (take_drop k x) at 2. rewrite <- (take_drop k y) at 2.
    rewrite dot_app by (rewrite !length_take; lia). f_equal.
    rewrite <- IH by (rewrite length_drop; lia). unfold every. rewrite map_map.
    unfold sumZ. f_equal. apply map_ext. intros q. rewrite !drop_drop. do 3 f_equal; lia.
Qed.

(** One element at a time. *)
Lemma dot_nth x y :
  length x = length y ->
  sumZ (map (fun i => nth i x 0 * nth i y 0) (upto (length x))) = dot x y.
Proof.
  revert y. induction x as [|a x IH]; intros [|b y] Hl; try done. cbn [length upto].
  unfold upto. cbn [seq map]. rewrite <- seq_shift, map_map. cbn [sumZ foldr nth].
  rewrite dot_cons. f_equal. apply IH. by injection Hl.
Qed.

Definition bounded (B : Z) (l : list Z) : Prop := Forall (fun x => Z.abs x <= B) l.

#[export] Instance bounded_dec B l : Decision (bounded B l).
Proof. unfold bounded. apply _. Defined.

Lemma dot_bound A B x y :
  0 <= A -> 0 <= B -> bounded A x -> bounded B y ->
  Z.abs (dot x y) <= Z.of_nat (length x) * (A * B).
Proof.
  intros HA HB Hx. revert y. induction Hx as [|a x Ha _ IH]; intros y Hy; [by destruct y|].
  destruct y as [|b y]; [cbn; nia|]. apply Forall_cons_1 in Hy as [Hb Hy].
  specialize (IH y Hy). rewrite dot_cons. cbn [length].
  assert (Z.abs (a * b) <= A * B) by (rewrite Z.abs_mul; nia). nia.
Qed.

Lemma bounded_take B k l : bounded B l -> bounded B (take k l).
Proof. apply Forall_take. Qed.
Lemma bounded_drop B k l : bounded B l -> bounded B (drop k l).
Proof. apply Forall_drop. Qed.
Lemma bounded_nth B l i : 0 <= B -> bounded B l -> Z.abs (nth i l 0) <= B.
Proof.
  intros HB Hl. rewrite nth_lookup. destruct (l !! i) eqn:E; cbn; [|lia].
  by apply (Forall_lookup_1 _ _ _ _ Hl E).
Qed.

(** Constant arrays. *)
Lemma Forall_repeat {A} (P : A -> Prop) x n : P x -> Forall P (repeat x n).
Proof. intros Hx. induction n; cbn; by constructor. Qed.

Lemma shape_repeat x m n : shape m n (repeat (repeat x n) m).
Proof. split; [apply repeat_length|]. apply Forall_repeat, repeat_length. Qed.

Lemma map_const_upto {A} (x : A) n (f : nat -> A) :
  (forall j, (j < n)%nat -> f j = x) -> map f (upto n) = repeat x n.
Proof.
  unfold upto. intros Hf.
  assert (H : forall k m, (k + m <= n)%nat -> map f (seq k m) = repeat x m).
  { intros k m. revert k. induction m as [|m IH]; intros k Hk; cbn; [done|].
    rewrite Hf by lia. f_equal. apply IH. lia. }
  apply H. lia.
Qed.

Lemma map_repeat {A B} (f : A -> B) x n : map f (repeat x n) = repeat (f x) n.
Proof. induction n; cbn; congruence. Qed.

Lemma transpose_repeat x m n : transpose n (repeat (repeat x n) m) = repeat (repeat x m) n.
Proof.
  unfold transpose, column. apply map_const_upto. intros j Hj. rewrite map_repeat. f_equal.
  rewrite nth_lookup. destruct (lookup_lt_is_Some_2 (repeat x n) j) as [y Hy]; [by rewrite repeat_length|].
  rewrite Hy. cbn. apply list_elem_of_lookup_2, list_elem_of_In, repeat_spec in Hy. done.
Qed.

Lemma dot_repeat a b n : dot (repeat a n) (repeat b n) = Z.of_nat n * (a * b).
Proof. induction n as [|n IH]; [done|]. cbn [repeat]. rewrite dot_cons, IH. lia. Qed.

(** * Argmax *)

(** [pred = 0; for (i = 1; i < n; i++) if (out[i] > out[pred]) pred = i;] *)
Definition argmax_index (out : list Z) (n : nat) : option nat :=
  loop (seq 1 (n - 1)) (fun i pred =>
    let* x := out !! i in let* p := out !! pred in
    Some (if x >? p then i else pred)) 0%nat.

(** The variant that also keeps the maximum. *)
Definition argmax_value (arr : list Z) (size : nat) : option nat :=
  let* v0 := arr !! 0%nat in
  let* r := loop (seq 1 (size - 1)) (fun i s =>
    let* x := arr !! i in
    Some (if x >? snd s then (i, x) else s)) (0%nat, v0) in
  Some (fst r).

(** [p] is the first position of the maximum of the first [n] elements. *)
Definition first_max (l : list Z) (n p : nat) : Prop :=
  (p < n)%nat /\
  forall i, (i < n)%nat -> nth i l 0 <= nth p l 0 /\ ((i < p)%nat -> nth i l 0 < nth p l 0).

Lemma first_max_unique l n p q : first_max l n p -> first_max l n q -> p = q.
Proof.
  intros [Hp Hpm] [Hq Hqm]. destruct (Hpm q Hq) as [H1 H2]. destruct (Hqm p Hp) as [H3 H4].
  destruct (decide (p < q)%nat); [specialize (H4 ltac:(lia)); lia|].
  destruct (decide (q < p)%nat); [specialize (H2 ltac:(lia)); lia|]. lia.
Qed.

Lemma first_max_step l i p :
  first_max l i p -> first_max l (i + 1) (if nth i l 0 >? nth p l 0 then i else p).
Proof.
  intros [Hp Hm]. destruct (Z.gtb_spec (nth i l 0) (nth p l 0)); (split; [lia|]); intros k Hk;
    (destruct (decide (k = i)) as [->|]; [lia|]);
    specialize (Hm k ltac:(lia)); lia.
Qed.

Lemma first_max_0 l : first_max l 1 0.
Proof. split; [lia|]. intros i Hi. replace i with 0%nat by lia. lia. Qed.

Lemma lookup_nth_lt (l : list Z) i : (i < length l)%nat -> l !! i = Some (nth i l 0).
Proof. intros Hi. rewrite nth_lookup. by destruct (lookup_lt_is_Some_2 l i Hi) as [x ->]. Qed.

Lemma argmax_index_first l n :
  (0 < n)%nat -> (n <= length l)%nat ->
  exists p, argmax_index l n = Some p /\ first_max l n p.
Proof.
  intros Hn Hl. unfold argmax_index.
  destruct (loop_seq_inv (first_max l) 1 (n - 1) (fun i pred =>
    let* x := l !! i in let* p := l !! pred in Some (if x >? p then i else pred)) 0%nat)
    as (p & -> & Hp); [apply first_max_0| |].
  - intros i t Hi Ht. rewrite !lookup_nth_lt by (destruct Ht; lia). cbn.
    eexists. split; [done|]. by apply first_max_step.
  - exists p. split; [done|]. by replace (1 + (n - 1))%nat with n in Hp by lia.
Qed.

Lemma argmax_value_first l n :
  (0 < n)%nat -> (n <= length l)%nat ->
  exists p, argmax_value l n = Some p /\ first_max l n p.
Proof.
  intros Hn Hl. unfold argmax_value. rewrite (lookup_nth_lt l 0) by lia. cbn.
  destruct (loop_seq_inv (fun i s => first_max l i (fst s) /\ snd s = nth (fst s) l 0) 1 (n - 1)
    (fun i s => let* x := l !! i in Some (if x >? snd s then (i, x) else s)) (0%nat, nth 0 l 0))
    as ([p v] & -> & Hp & _); [by split; [apply first_max_0|]| |].
  - intros i [q v] Hi [Hq Hv]. cbn in Hv; subst v. cbn [fst snd] in *.
    rewrite lookup_nth_lt by lia. cbn. eexists. split; [done|].
    pose proof (first_max_step _ _ _ Hq) as Hs. by destruct (nth i l 0 >? nth q l 0).
  - exists p. cbn. split; [done|]. cbn in Hp. by replace (S (n - 1))%nat with n in Hp by lia.
Qed.

(** Both loops find the same class. *)
Lemma argmax_agree l n :
  (0 < n)%nat -> (n <= length l)%nat -> argmax_index l n = argmax_value l n.
Proof.
  intros Hn Hl. destruct (argmax_index_first l n Hn Hl) as (p & -> & Hp).
  destruct (argmax_value_first l n Hn Hl) as (q & -> & Hq).
  by rewrite (first_max_unique _ _ _ _ Hp Hq).
Qed.
