(* ===== verification/Vmac.v ===== *)
(** The packed multiply-accumulate unit of [vmac.v] (Lab 7): four signed bytes
    per 32-bit operand, a one- or two-step FSM behind a valid handshake.
    [step] is the clocked block, [run step] its execution; the theorems give the
    exact latency and result of each of the four operations and the invariant
    that keeps the FSM from getting stuck. *)

From S2P Require Import Prelude.

Module Vmac.

(** Input pins of one clock cycle. *)
Record inputs := Inputs
  { rst_n : bool; ctrl : Z; a : Z; b : Z; valid_in : bool }.

Record state := State
  { cycle_counter : Z;               (* reg [2:0] *)
    computing : bool;
    mult_results : nat -> Z;         (* reg [15:0] mult_results [0:3] *)
    result : Z;                      (* reg [31:0] *)
    valid_out : bool }.

(** Byte segmentation and sign extension to 16 bits: [a0_signed .. a3_signed]. *)
Definition byte_signed (x : Z) (i : nat) : Z := sext 8 16 (lane 8 i x).

(** PVADD sums: [sum0 .. sum3], 16 bits wide. *)
Definition sum (x y : Z) (i : nat) : Z := wrap 16 (byte_signed x i + byte_signed y i).

(** One 16-bit multiplier. *)
Definition mult (x y : Z) (i : nat) : Z := wrap 16 (byte_signed x i * byte_signed y i).

(** [{m[15] ? 16'hFFFF : 16'h0000, m}]. *)
Definition ext32 (m : Z) : Z :=
  (if Z.testbit m 15 then 0xFFFF else 0) * 2 ^ 16 + wrap 16 m.

(** The second cycle of a two-cycle multiply: both products to [result]. *)
Definition finish (s : state) (r : Z) : state :=
  State 0 false (mult_results s) r true.

(** The clocked block. *)
Definition step (i : inputs) (s : state) : state :=
  if negb (rst_n i) then State 0 false (mult_results s) 0 false
  else if valid_in i && negb (computing s) then
    State 0 true (mult_results s) (result s) (valid_out s)
  else if computing s then
    let m := mult_results s in
    let next := wrap 3 (cycle_counter s + 1) in
    match ctrl i with
    | 0 => (* PVADD, one cycle *)
        State (cycle_counter s) false m
          (pack 8 [sum (a i) (b i) 0; sum (a i) (b i) 1;
                   sum (a i) (b i) 2; sum (a i) (b i) 3]) true
    | 1 => (* PVMUL, two multipliers *)
        match cycle_counter s with
        | 0 => State next true
                 (upd (upd m 0 (mult (a i) (b i) 0)) 1 (mult (a i) (b i) 1))
                 (result s) (valid_out s)
        | 1 => finish s (pack 16 [m 0%nat; m 1%nat])
        | _ => s
        end
    | 2 => (* PVMAC, four multipliers *)
        match cycle_counter s with
        | 0 => State next true
                 (upd (upd (upd (upd m 0 (mult (a i) (b i) 0)) 1 (mult (a i) (b i) 1))
                    2 (mult (a i) (b i) 2)) 3 (mult (a i) (b i) 3))
                 (result s) (valid_out s)
        | 1 => finish s (wrap 32 (ext32 (m 0%nat) + ext32 (m 1%nat)
                                  + ext32 (m 2%nat) + ext32 (m 3%nat)))
        | _ => s
        end
    | _ => (* PVMUL_UPPER *)
        match cycle_counter s with
        | 0 => State next true
                 (upd (upd m 0 (mult (a i) (b i) 2)) 1 (mult (a i) (b i) 3))
                 (result s) (valid_out s)
        | 1 => finish s (pack 16 [m 0%nat; m 1%nat])
        | _ => s
        end
    end
  else if valid_out s then State (cycle_counter s) (computing s) (mult_results s) (result s) false
  else s.

(** * Reference semantics of the four operations *)

Definition PVADD : Z := 0.
Definition PVMUL : Z := 1.
Definition PVMAC : Z := 2.
Definition PVMUL_UPPER : Z := 3.

Definition spec (c x y : Z) : Z :=
  match c with
  | 0 => pack 8 (zip_with Z.add (lanes 8 4 x) (lanes 8 4 y))
  | 1 => pack 16 (take 2 (zip_with Z.mul (slanes 8 4 x) (slanes 8 4 y)))
  | 2 => wrap 32 (dot (slanes 8 4 x) (slanes 8 4 y))
  | _ => pack 16 (drop 2 (zip_with Z.mul (slanes 8 4 x) (slanes 8 4 y)))
  end.

(** Clock edges between accepting an operation and [valid_out]. *)
Definition latency (c : Z) : nat := match c with 0 => 1 | _ => 2 end.

(** The input vectors of one operation: [valid_in] for one cycle, then the
    operands held for [n] more. *)
Definition op_inputs (c x y : Z) (n : nat) : list inputs :=
  Inputs true c x y true :: repeat (Inputs true c x y false) n.

(** * Combinational lemmas *)

Lemma ext32_sext m : ext32 m = sext 16 32 m.
Proof.
  unfold ext32, sext. pose proof (sgn_neg_bit 16 m ltac:(lia)) as Hb. change (16 - 1) with 15 in Hb.
  rewrite <- Hb. pose proof (sgn_range 16 m ltac:(lia)).
  pose proof (wrap_range 16 m ltac:(lia)). rewrite <- (wrap_sgn 16 m) at 1 by lia.
  unfold wrap, srange, urange in *. word_pows.
  destruct (Z.ltb_spec (sgn 16 m) 0).
  - rewrite <- (Z_mod_plus_full (sgn 16 m) 1 65536), <- (Z_mod_plus_full (sgn 16 m) 1 4294967296).
    rewrite !Z.mod_small by lia. lia.
  - rewrite !Z.mod_small by lia. lia.
Qed.

Lemma sgn_mult x y i : sgn 16 (mult x y i) = sgn 8 (lane 8 i x) * sgn 8 (lane 8 i y).
Proof. apply (sgn_wide_mul 8). lia. Qed.

Lemma ext32_mult x y i :
  ext32 (mult x y i) = wrap 32 (sgn 8 (lane 8 i x) * sgn 8 (lane 8 i y)).
Proof. rewrite ext32_sext. unfold sext. by rewrite sgn_mult. Qed.

Lemma wrap_mult x y i :
  wrap 16 (mult x y i) = wrap 16 (sgn 8 (lane 8 i x) * sgn 8 (lane 8 i y)).
Proof. rewrite <- sgn_mult, wrap_sgn by lia. done. Qed.

Lemma wrap_sum x y i : wrap 8 (sum x y i) = wrap 8 (lane 8 i x + lane 8 i y).
Proof.
  unfold sum, byte_signed, sext. rewrite wrap_narrow by lia. by wrap_norm.
Qed.

(** The adder tree of four 32-bit terms. *)
Lemma wrap_sum4 p q r t :
  wrap 32 (wrap 32 p + wrap 32 q + wrap 32 r + wrap 32 t) = wrap 32 (p + q + r + t).
Proof.
  by wrap_norm.
Qed.

Lemma lanes4 x : lanes 8 4 x = [lane 8 0 x; lane 8 1 x; lane 8 2 x; lane 8 3 x].
Proof. done. Qed.

Lemma pack8_sums x y :
  pack 8 [sum x y 0; sum x y 1; sum x y 2; sum x y 3] = spec PVADD x y.
Proof. unfold spec, PVADD. rewrite !lanes4. cbn [zip_with pack]. by rewrite !wrap_sum. Qed.

Lemma pack16_mults x y i j :
  pack 16 [mult x y i; mult x y j] =
  pack 16 [sgn 8 (lane 8 i x) * sgn 8 (lane 8 i y); sgn 8 (lane 8 j x) * sgn 8 (lane 8 j y)].
Proof. cbn [pack]. by rewrite !wrap_mult. Qed.

Lemma sum_mults x y :
  wrap 32 (ext32 (mult x y 0) + ext32 (mult x y 1) + ext32 (mult x y 2) + ext32 (mult x y 3))
  = spec PVMAC x y.
Proof.
  rewrite !ext32_mult, wrap_sum4. unfold spec, PVMAC, dot, slanes. rewrite !lanes4.
  cbn [map zip_with sumZ foldr]. wrap_norm.
Qed.

(** * Executions *)

(** A two-bit control code is one of the four operations. *)
Lemma ctrl_cases c : urange 2 c -> c = 0 \/ c = 1 \/ c = 2 \/ c = 3.
Proof. word_lia. Qed.

(** One operation of an idle unit: busy first, then the result, then idle again. *)
Lemma op_busy c x y s n :
  urange 2 c -> computing s = false -> valid_out s = false -> (n < latency c)%nat ->
  valid_out (run step (op_inputs c x y n) s) = false /\
  computing (run step (op_inputs c x y n) s) = true.
Proof.
  intros Hc Hidle Hvo. destruct s as [cc cp m r vo]; simpl in *; subst.
  destruct (ctrl_cases c Hc) as [-> | [-> | [-> | ->]]];
    destruct n as [|[|n]]; intros Hn; simpl in Hn; try lia; by split.
Qed.

Lemma op_done c x y s :
  urange 2 c -> computing s = false -> valid_out s = false ->
  let s' := run step (op_inputs c x y (latency c)) s in
  valid_out s' = true /\ computing s' = false /\ result s' = spec c x y.
Proof.
  intros Hc Hidle Hvo. destruct s as [cc cp m r vo]; simpl in *; subst.
  destruct (ctrl_cases c Hc) as [-> | [-> | [-> | ->]]];
    cbn -[sum mult pack wrap ext32]; rewrite ?upd_eq.
  - by rewrite pack8_sums.
  - by rewrite pack16_mults.
  - by rewrite sum_mults.
  - by rewrite pack16_mults.
Qed.

(** A finished unit lowers [valid_out] on the next edge. *)
Lemma op_release i s :
  rst_n i = true -> valid_in i = false -> computing s = false -> valid_out s = true ->
  let s' := step i s in computing s' = false /\ valid_out s' = false /\ result s' = result s.
Proof. unfold step. by intros -> -> -> ->. Qed.

Lemma op_inputs_S c x y n :
  op_inputs c x y (S n) = op_inputs c x y n ++ [Inputs true c x y false].
Proof. unfold op_inputs. cbn [app]. by rewrite <- repeat_cons. Qed.


(** The invariant of the cycle counter: it never reaches the [default]
    branch of the two-cycle operations, in which the unit would be stuck. *)
Definition counter_ok (s : state) : Prop := cycle_counter s = 0 \/ cycle_counter s = 1.

Lemma step_counter_ok i s : counter_ok s -> counter_ok (step i s).
Proof.
  unfold counter_ok, step, finish. intros H. destruct (negb (rst_n i)); [by left|].
  destruct (valid_in i && negb (computing s)); [by left|].
  destruct (computing s); [|by destruct (valid_out s)].
  destruct H as [-> | ->]; destruct (ctrl i) as [|[[]|[]|]|]; cbn; by auto.
Qed.

(** [C33] Starting from reset, whatever happens on the input pins
    (operations aborted or changed half-way included), a busy unit whose inputs
    are then held for two cycles finishes: it cannot hang. *)
Theorem vmac_no_hang s0 ins c x y v :
  let s := run step ins (step (Inputs false 0 0 0 false) s0) in
  computing s = true ->
  exists n, (n <= 2)%nat /\
    let s' := run step (repeat (Inputs true c x y v) n) s in
    computing s' = false /\ valid_out s' = true.
Proof.
  intros s Hb. assert (counter_ok s) as Hok.
  { apply run_invariant; [apply step_counter_ok|by left]. }
  clearbody s. destruct s as [cc cp m r vo]; simpl in Hb; subst cp.
  destruct (decide (c = 0)) as [->|Hc]; [exists 1%nat; by destruct v; cbn; split_and!; auto|].
  destruct Hok as [Hcc|Hcc]; simpl in Hcc; subst cc;
    [exists 2%nat|exists 1%nat]; (split; [lia|]);
    destruct v, c as [|[[]|[]|]|]; done.
Qed.

(** The value the CPU writes back for PVMAC. *)
Lemma pvmac_result x y s :
  computing s = false -> valid_out s = false ->
  result (run step (op_inputs PVMAC x y (latency PVMAC)) s) =
  wrap 32 (dot (slanes 8 4 x) (slanes 8 4 y)).
Proof.
  intros Hidle Hvo. destruct s as [cc cp m r vo]; simpl in *; subst.
  cbn -[sum mult pack wrap ext32 dot slanes]. rewrite ?upd_eq. apply sum_mults.
Qed.


Example vmac_no_hang_witness :
  let aborted := [Inputs true PVMAC 1 1 true; Inputs true PVMAC 1 1 false;
                  Inputs true PVMUL 1 1 false; Inputs true PVMAC 1 1 true] in
  let s := run step aborted
             (step (Inputs false 0 0 0 false) (State 5 true (fun _ => 7) 9 true)) in
  exists n, (n <= 2)%nat /\
    let s' := run step (repeat (Inputs true PVMUL 1 1 false) n) s in
    computing s' = false /\ valid_out s' = true.
Proof.
  intros aborted s.
  apply (vmac_no_hang (State 5 true (fun _ => 7) 9 true) aborted PVMUL 1 1 false).
  reflexivity.
Defined.
End Vmac.
