(* ===== verification/Valu.v ===== *)
(** The vector ALU of [valu.v]: VADD, VSUB, VMUL and VMAC on 64-bit vectors of
    8-, 16- or 32-bit lanes, four multipliers, one to three execution cycles
    behind a valid handshake. The theorems give the exact latency and value of
    every operation and element width, the reserved width included, and progress
    from any register contents. *)

From S2P Require Import Prelude.

Module Valu.

Record inputs := Inputs
  { rst_n : bool; op : Z; sew : Z; vs1_data : Z; vs2_data : Z; valid_in : bool }.

Record state := State
  { mul_counter : Z;                 (* reg [2:0] *)
    computing : bool;
    result : Z;                      (* reg [63:0] *)
    valid_out : bool;
    mul8 : nat -> Z;                 (* reg [7:0] mul8 [0:7], and so on *)
    mul16 : nat -> Z;
    mul32 : nat -> Z;
    mac8_prod : nat -> Z;            (* reg signed [15:0] mac8_prod [0:7] *)
    mac16_prod : nat -> Z;           (* reg signed [31:0] mac16_prod [0:3] *)
    mac32_prod : nat -> Z }.         (* reg signed [63:0] mac32_prod [0:1] *)

Definition OP_VADD : Z := 0.
Definition OP_VSUB : Z := 1.
Definition OP_VMUL : Z := 2.
Definition OP_VMAC : Z := 3.

Definition SEW_8 : Z := 0.
Definition SEW_16 : Z := 1.
Definition SEW_32 : Z := 2.

(** Signed lane [i] of an operand: [a8], [a16], [a32] and their [b]s. *)
Definition el (w : Z) (x : Z) (i : nat) : Z := sgn w (lane w i x).

(** Combinational lane results, truncated to the element width. *)
Definition add_lane (w x y : Z) (i : nat) : Z := wrap w (el w x i + el w y i).
Definition sub_lane (w x y : Z) (i : nat) : Z := wrap w (el w x i - el w y i).
Definition mul_lane (w x y : Z) (i : nat) : Z := wrap w (el w x i * el w y i).
(** Widening product [$signed(a) * $signed(b)] in [2*w] bits. *)
Definition prod_lane (w x y : Z) (i : nat) : Z := wrap (2 * w) (el w x i * el w y i).

Definition by_sew (s : Z) (f : Z -> nat -> Z) : Z :=
  if s =? SEW_8 then f 8 8%nat else if s =? SEW_16 then f 16 4%nat else f 32 2%nat.

Definition vadd_result (s x y : Z) : Z :=
  by_sew s (fun w n => pack w (map (add_lane w x y) (seq 0 n))).
Definition vsub_result (s x y : Z) : Z :=
  by_sew s (fun w n => pack w (map (sub_lane w x y) (seq 0 n))).

(** Writes of four (or two) multiplier outputs starting at lane [i]. *)
Definition upd4 (f : nat -> Z) (i : nat) (g : nat -> Z) : nat -> Z :=
  upd (upd (upd (upd f i (g i)) (i + 1) (g (i + 1)%nat))
    (i + 2) (g (i + 2)%nat)) (i + 3) (g (i + 3)%nat).
Definition upd2 (f : nat -> Z) (g : nat -> Z) : nat -> Z := upd (upd f 0 (g 0%nat)) 1 (g 1%nat).

(** [mul_counter <= mul_counter + 1] while one multiplier array is written. *)
Definition count (s : state) : Z := wrap 3 (mul_counter s + 1).
Definition with_mul8 s f := State (count s) (computing s) (result s) (valid_out s)
  f (mul16 s) (mul32 s) (mac8_prod s) (mac16_prod s) (mac32_prod s).
Definition with_mul16 s f := State (count s) (computing s) (result s) (valid_out s)
  (mul8 s) f (mul32 s) (mac8_prod s) (mac16_prod s) (mac32_prod s).
Definition with_mul32 s f := State (count s) (computing s) (result s) (valid_out s)
  (mul8 s) (mul16 s) f (mac8_prod s) (mac16_prod s) (mac32_prod s).
Definition with_mac8 s f := State (count s) (computing s) (result s) (valid_out s)
  (mul8 s) (mul16 s) (mul32 s) f (mac16_prod s) (mac32_prod s).
Definition with_mac16 s f := State (count s) (computing s) (result s) (valid_out s)
  (mul8 s) (mul16 s) (mul32 s) (mac8_prod s) f (mac32_prod s).
Definition with_mac32 s f := State (count s) (computing s) (result s) (valid_out s)
  (mul8 s) (mul16 s) (mul32 s) (mac8_prod s) (mac16_prod s) f.
(** Control registers, result and handshake. *)
Definition ctl s mc cp r vo := State mc cp r vo
  (mul8 s) (mul16 s) (mul32 s) (mac8_prod s) (mac16_prod s) (mac32_prod s).
Definition done_with s r := ctl s 0 false r true.

(** Adder trees of the VMAC sum cycles (32-bit, upper half zero). *)
Definition sum8 (m : nat -> Z) : Z :=
  wrap 32 (sext 16 32 (m 0%nat) + sext 16 32 (m 1%nat) + sext 16 32 (m 2%nat)
    + sext 16 32 (m 3%nat) + sext 16 32 (m 4%nat) + sext 16 32 (m 5%nat)
    + sext 16 32 (m 6%nat) + sext 16 32 (m 7%nat)).
Definition sum16 (m : nat -> Z) : Z :=
  wrap 32 (m 0%nat + m 1%nat + m 2%nat + m 3%nat).
Definition sum32 (m : nat -> Z) : Z :=
  wrap 32 (slice 0 32 (m 0%nat) + slice 0 32 (m 1%nat)).

(** One cycle of OP_VMAC while computing. *)
Definition step_vmac (i : inputs) (s : state) : state :=
  let p w := prod_lane w (vs1_data i) (vs2_data i) in
  match sew i with
  | 0 => match mul_counter s with
         | 0 => with_mac8 s (upd4 (mac8_prod s) 0 (p 8))
         | 1 => with_mac8 s (upd4 (mac8_prod s) 4 (p 8))
         | 2 => done_with s (sum8 (mac8_prod s))
         | _ => ctl s 0 (computing s) (result s) (valid_out s)
         end
  | 1 => match mul_counter s with
         | 0 => with_mac16 s (upd4 (mac16_prod s) 0 (p 16))
         | 1 => done_with s (sum16 (mac16_prod s))
         | _ => ctl s 0 (computing s) (result s) (valid_out s)
         end
  | 2 => match mul_counter s with
         | 0 => with_mac32 s (upd2 (mac32_prod s) (p 32))
         | 1 => done_with s (sum32 (mac32_prod s))
         | _ => ctl s 0 (computing s) (result s) (valid_out s)
         end
  | _ => ctl s (mul_counter s) false (result s) true
  end.

(** One cycle of OP_VMUL while computing. *)
Definition step_vmul (i : inputs) (s : state) : state :=
  let p w := mul_lane w (vs1_data i) (vs2_data i) in
  match sew i with
  | 0 => match mul_counter s with
         | 0 => with_mul8 s (upd4 (mul8 s) 0 (p 8))
         | 1 => with_mul8 s (upd4 (mul8 s) 4 (p 8))
         | 2 => done_with s (pack 8 (map (mul8 s) (seq 0 8)))
         | _ => ctl s 0 (computing s) (result s) (valid_out s)
         end
  | 1 => match mul_counter s with
         | 0 => with_mul16 s (upd4 (mul16 s) 0 (p 16))
         | 1 => done_with s (pack 16 (map (mul16 s) (seq 0 4)))
         | _ => ctl s 0 (computing s) (result s) (valid_out s)
         end
  | 2 => match mul_counter s with
         | 0 => with_mul32 s (upd2 (mul32 s) (p 32))
         | 1 => done_with s (pack 32 (map (mul32 s) (seq 0 2)))
         | _ => ctl s 0 (computing s) (result s) (valid_out s)
         end
  | _ => ctl s (mul_counter s) false (result s) true
  end.

(** The clocked block. *)
Definition step (i : inputs) (s : state) : state :=
  if negb (rst_n i) then ctl s 0 false 0 false
  else if valid_in i && negb (computing s) then ctl s 0 true (result s) false
  else if computing s then
    match op i with
    | 0 => ctl s (mul_counter s) false (vadd_result (sew i) (vs1_data i) (vs2_data i)) true
    | 1 => ctl s (mul_counter s) false (vsub_result (sew i) (vs1_data i) (vs2_data i)) true
    | 3 => step_vmac i s
    | 2 => step_vmul i s
    | _ => ctl s (mul_counter s) false (result s) false
    end
  else if valid_out s then ctl s (mul_counter s) (computing s) (result s) false
  else s.

(** * Reference semantics *)

(** Element width and lane count of a SEW code (the reserved code 3 falls
    in with 32 bits for the additions). *)
Definition width (s : Z) : Z := match s with 0 => 8 | 1 => 16 | _ => 32 end.
Definition count_of (s : Z) : nat := match s with 0 => 8 | 1 => 4 | _ => 2 end.

Definition elementwise (f : Z -> Z -> Z) (s x y : Z) : Z :=
  pack (width s) (zip_with f (lanes (width s) (count_of s) x) (lanes (width s) (count_of s) y)).
Definition dot_product (s x y : Z) : Z :=
  wrap 32 (dot (slanes (width s) (count_of s) x) (slanes (width s) (count_of s) y)).

(** The value an operation leaves in [result], [old] being its previous
    contents. *)
Definition spec (o s x y old : Z) : Z :=
  match o with
  | 0 => elementwise Z.add s x y
  | 1 => elementwise Z.sub s x y
  | 2 => if s =? 3 then old else elementwise Z.mul s x y
  | _ => if s =? 3 then old else dot_product s x y
  end.

Definition latency (o s : Z) : nat :=
  match o with
  | 0 | 1 => 1
  | _ => match s with 0 => 3 | 1 | 2 => 2 | _ => 1 end
  end.

(** The inputs of one operation: [valid_in] for a cycle, operands held. *)
Definition op_inputs (o s x y : Z) (n : nat) : list inputs :=
  Inputs true o s x y true :: repeat (Inputs true o s x y false) n.

(** * Lane lemmas *)

Lemma lanes_map w n x : lanes w n x = map (fun i => lane w i x) (seq 0 n).
Proof. done. Qed.

(** Lane operations computed on signed lanes agree with the unsigned
    reference after truncation. *)
Lemma pack_lane_op w n x y (f : Z -> Z -> Z) (g : nat -> Z) :
  (forall i, wrap w (g i) = wrap w (f (lane w i x) (lane w i y))) ->
  pack w (map g (seq 0 n)) = pack w (zip_with f (lanes w n x) (lanes w n y)).
Proof.
  intros Hg. unfold lanes. generalize 0%nat. induction n as [|n IH]; intros k; [done|].
  cbn [seq map zip_with pack]. by rewrite Hg, IH.
Qed.

Lemma vadd_result_spec s x y : vadd_result s x y = elementwise Z.add s x y.
Proof.
  unfold vadd_result, by_sew, elementwise, SEW_8, SEW_16.
  destruct s as [|[]|]; cbn [Z.eqb Pos.eqb width count_of];
    apply pack_lane_op; intros i; unfold add_lane, el; wrap_norm.
Qed.

Lemma vsub_result_spec s x y : vsub_result s x y = elementwise Z.sub s x y.
Proof.
  unfold vsub_result, by_sew, elementwise, SEW_8, SEW_16.
  destruct s as [|[]|]; cbn [Z.eqb Pos.eqb width count_of];
    apply pack_lane_op; intros i; unfold sub_lane, el; wrap_norm.
Qed.

Lemma mul_lane_spec w n x y :
  0 <= w -> pack w (map (mul_lane w x y) (seq 0 n)) =
            pack w (zip_with Z.mul (lanes w n x) (lanes w n y)).
Proof. intros. apply pack_lane_op. intros i. unfold mul_lane, el. wrap_norm. Qed.

Lemma sext_prod8 x y i : sext 16 32 (prod_lane 8 x y i) = wrap 32 (el 8 x i * el 8 y i).
Proof. unfold sext, prod_lane. rewrite sgn_wrap by lia. f_equal. apply (sgn_prod 8). lia. Qed.

Lemma sum8_spec x y : sum8 (prod_lane 8 x y) = dot_product SEW_8 x y.
Proof.
  unfold sum8. rewrite !sext_prod8. unfold dot_product, dot, slanes, lanes, el.
  cbn [width count_of SEW_8 seq map zip_with sumZ foldr]. wrap_norm.
Qed.

Lemma sum16_spec x y : sum16 (prod_lane 16 x y) = dot_product SEW_16 x y.
Proof.
  unfold sum16, prod_lane, dot_product, dot, slanes, lanes, el.
  cbn [width count_of SEW_16 seq map zip_with sumZ foldr]. change (2 * 16) with 32. wrap_norm.
Qed.

Lemma sum32_spec x y : sum32 (prod_lane 32 x y) = dot_product SEW_32 x y.
Proof.
  unfold sum32. rewrite (slice_0 32 (prod_lane 32 x y 0)), (slice_0 32 (prod_lane 32 x y 1)).
  unfold prod_lane, dot_product, dot, slanes, lanes, el.
  cbn [width count_of SEW_32 seq map zip_with sumZ foldr]. change (2 * 32) with 64. wrap_norm.
Qed.

(** * Executions *)

Lemma urange2_cases c : urange 2 c -> c = 0 \/ c = 1 \/ c = 2 \/ c = 3.
Proof. word_lia. Qed.

(** Storage written lane by lane holds the whole vector of products. *)
Lemma sum8_upd m g : sum8 (upd4 (upd4 m 0 g) 4 g) = sum8 g.
Proof. done. Qed.
Lemma sum16_upd m g : sum16 (upd4 m 0 g) = sum16 g.
Proof. done. Qed.
Lemma sum32_upd m g : sum32 (upd2 m g) = sum32 g.
Proof. done. Qed.
Lemma map8_upd m g : map (upd4 (upd4 m 0 g) 4 g) (seq 0 8) = map g (seq 0 8).
Proof. done. Qed.
Lemma map4_upd m g : map (upd4 m 0 g) (seq 0 4) = map g (seq 0 4).
Proof. done. Qed.
Lemma map2_upd m g : map (upd2 m g) (seq 0 2) = map g (seq 0 2).
Proof. done. Qed.

(** Clock the FSM symbolically: only the control is evaluated. *)
Ltac clock :=
  lazy -[pack map seq vadd_result vsub_result mul_lane prod_lane
        sum8 sum16 sum32 upd4 upd2 elementwise dot_product].

(** One operation of an idle unit: busy first, then the result, then idle again. *)
Lemma valu_op_busy o s x y st n :
  urange 2 o -> urange 2 s -> computing st = false -> (n < latency o s)%nat ->
  valid_out (run step (op_inputs o s x y n) st) = false /\
  computing (run step (op_inputs o s x y n) st) = true.
Proof.
  intros Ho Hs Hidle. destruct st as [mc cp r vo m8 m16 m32 p8 p16 p32]; simpl in Hidle; subst cp.
  destruct (urange2_cases o Ho) as [-> | [-> | [-> | ->]]];
    destruct (urange2_cases s Hs) as [-> | [-> | [-> | ->]]];
    destruct n as [|[|[|n]]]; intros Hn; simpl in Hn; try lia; by split.
Qed.

Lemma valu_op_done o s x y st :
  urange 2 o -> urange 2 s -> computing st = false ->
  let st' := run step (op_inputs o s x y (latency o s)) st in
  valid_out st' = true /\ computing st' = false /\ result st' = spec o s x y (result st).
Proof.
  intros Ho Hs Hidle. destruct st as [mc cp r vo m8 m16 m32 p8 p16 p32]; simpl in Hidle; subst cp.
  destruct (urange2_cases o Ho) as [-> | [-> | [-> | ->]]];
    destruct (urange2_cases s Hs) as [-> | [-> | [-> | ->]]]; clock;
    rewrite ?vadd_result_spec, ?vsub_result_spec, ?sum8_upd, ?sum16_upd, ?sum32_upd,
      ?map8_upd, ?map4_upd, ?map2_upd, ?sum8_spec, ?sum16_spec, ?sum32_spec,
      ?mul_lane_spec by lia; by unfold elementwise.
Qed.

(** A finished unit lowers [valid_out] on the next edge. *)
Lemma valu_op_release i st :
  rst_n i = true -> valid_in i = false -> computing st = false -> valid_out st = true ->
  let st' := step i st in computing st' = false /\ valid_out st' = false /\ result st' = result st.
Proof. unfold step. by intros -> -> -> ->. Qed.

Lemma valu_op_inputs_S o s x y n :
  op_inputs o s x y (S n) = op_inputs o s x y n ++ [Inputs true o s x y false].
Proof. unfold op_inputs. cbn [app]. by rewrite <- repeat_cons. Qed.

(** [C30] Functional correctness and timing of the vector ALU, for every operation and
    element width: from any idle state (leftover multiplier registers included),
    the unit stays busy with [valid_out] low for fewer than [latency] cycles after
    the start edge, then presents the reference result and becomes idle, and drops
    [valid_out] one cycle later with the result still in place. *)
Theorem valu_operation o s x y st :
  urange 2 o -> urange 2 s -> computing st = false ->
  let at_ n := run step (op_inputs o s x y n) st in
  (forall n, (n < latency o s)%nat ->
     valid_out (at_ n) = false /\ computing (at_ n) = true) /\
  (valid_out (at_ (latency o s)) = true /\ computing (at_ (latency o s)) = false /\
   result (at_ (latency o s)) = spec o s x y (result st)) /\
  (valid_out (at_ (S (latency o s))) = false /\
   result (at_ (S (latency o s))) = spec o s x y (result st)).
Proof.
  intros Ho Hs Hidle at_; subst at_. cbv beta.
  destruct (valu_op_done o s x y st Ho Hs Hidle) as (Hv & Hi & Hr).
  split; [by intros; apply valu_op_busy|]. split; [done|]. rewrite valu_op_inputs_S, run_app.
  destruct (valu_op_release (Inputs true o s x y false) _ eq_refl eq_refl Hi Hv) as (_ & ? & Hr').
  split; [done|]. cbn [run fold_left]. by rewrite <- Hr, <- Hr'.
Qed.

(** From any register contents whatever (the cycle counter
    included), a busy unit whose inputs are held finishes within four cycles: the
    [default] branches restart the count instead of deadlocking. *)
Theorem valu_progress o s x y v st :
  urange 2 o -> urange 2 s -> computing st = true ->
  exists n, (n <= 4)%nat /\
    let st' := run step (repeat (Inputs true o s x y v) n) st in
    computing st' = false /\ valid_out st' = true.
Proof.
  intros Ho Hs Hb. destruct st as [mc cp r vo m8 m16 m32 p8 p16 p32]; simpl in Hb; subst cp.
  destruct (urange2_cases o Ho) as [-> | [-> | [-> | ->]]];
    destruct (urange2_cases s Hs) as [-> | [-> | [-> | ->]]];
    destruct v, mc as [|[p|[p|p|]|]|p];
    first [ by exists 1%nat; split; [lia|] | by exists 2%nat; split; [lia|]
          | by exists 3%nat; split; [lia|] | by exists 4%nat; split; [lia|] ].
Qed.

(** The value the CPU writes back for VMAC. *)
Lemma vmac_result s x y st :
  0 <= s <= 2 -> computing st = false ->
  result (run step (op_inputs OP_VMAC s x y (latency OP_VMAC s)) st) = dot_product s x y.
Proof.
  intros Hs Hidle.
  destruct st as [mc cp r vo m8 m16 m32 p8 p16 p32]; simpl in Hidle; subst cp.
  assert (s = 0 \/ s = 1 \/ s = 2) as [-> | [-> | ->]] by lia; clock;
    rewrite ?sum8_upd, ?sum16_upd, ?sum32_upd, ?sum8_spec, ?sum16_spec, ?sum32_spec; done.
Qed.

(** Eight products in three cycles after the start edge. *)
Example valu_operation_witness :
  let st := State 6 false 99 true (fun _ => 1) (fun _ => 2) (fun _ => 3)
                  (fun _ => 4) (fun _ => 5) (fun _ => 6) in
  let st' := run step (op_inputs OP_VMAC SEW_8 0x0807060504030201 0xFFFFFFFFFFFFFFFF 3) st in
  valid_out st' = true /\ result st' = wrap 32 (-36).
Proof.
  intros st st'.
  destruct (valu_operation OP_VMAC SEW_8 0x0807060504030201 0xFFFFFFFFFFFFFFFF st)
    as [_ [[Hv [_ Hr]] _]]; [vm_compute; split; congruence..|reflexivity|].
  split; [exact Hv|]. exact Hr.
Defined.

Example valu_progress_witness :
  let st := State 6 true 99 true (fun _ => 1) (fun _ => 2) (fun _ => 3)
                  (fun _ => 4) (fun _ => 5) (fun _ => 6) in
  exists n, (n <= 4)%nat /\
    let st' := run step (repeat (Inputs true OP_VMUL SEW_8 1 2 false) n) st in
    computing st' = false /\ valid_out st' = true.
Proof.
  intros st. apply (valu_progress OP_VMUL SEW_8 1 2 false st);
    [vm_compute; split; congruence..|reflexivity].
Defined.
End Valu.
