(* ===== verification/Sram.v ===== *)
(** The 16 MB dual-port memory of [sram.v] and the part of the bus of [top.v]
    that connects it to the load/store ports: one-cycle read latency, byte write
    masks, always-ready SRAM and the UART page routed elsewhere. *)

From S2P Require Import Prelude.

Module Sram.

Record inputs := Inputs
  { imem_addr : Z; dmem_addr : Z; dmem_wdata : Z; dmem_wmask : Z;
    dmem_write : bool; dmem_valid : bool }.

Record state := State
  { mem : Z -> Z;                    (* reg [31:0] mem [0:4M-1] *)
    imem_addr_reg : Z;
    dmem_addr_reg : Z;
    dmem_resp_valid_reg : bool }.

(** [addr[23:2]]: the word a byte address selects. *)
Definition index (addr : Z) : Z := slice 2 22 addr.

Definition imem_rdata (s : state) : Z := mem s (index (imem_addr_reg s)).
Definition dmem_rdata (s : state) : Z := mem s (index (dmem_addr_reg s)).
Definition dmem_resp_valid (s : state) : bool := dmem_resp_valid_reg s.

(** Byte [k] of [old] is replaced by byte [k] of [new] where [mask[k]] is set. *)
Definition merge (mask old new : Z) : Z :=
  pack 8 (map (fun k => lane 8 k (if Z.testbit mask (Z.of_nat k) then new else old)) (seq 0 4)).

Definition write_word (m : Z -> Z) (i v : Z) : Z -> Z := fun j => if j =? i then v else m j.

(** The clocked blocks. *)
Definition step (i : inputs) (s : state) : state :=
  {| mem := if dmem_valid i && dmem_write i
            then write_word (mem s) (index (dmem_addr i))
                   (merge (dmem_wmask i) (mem s (index (dmem_addr i))) (dmem_wdata i))
            else mem s;
     imem_addr_reg := imem_addr i;
     dmem_addr_reg := if dmem_valid i && negb (dmem_write i) then dmem_addr i else dmem_addr_reg s;
     dmem_resp_valid_reg := dmem_valid i && negb (dmem_write i) |}.

(** Address decoding and response multiplexing of [top.v]. The UART ([uart.v])
    and its response are inputs; [use_par] is [sim_use_par_txrx]. *)
Definition is_uart (addr : Z) : bool := slice 12 20 addr =? 0x10000.

Definition req_ready (use_par uart_req_ready : bool) (addr : Z) : bool :=
  if is_uart addr && negb use_par then uart_req_ready else true.

Definition resp_valid (use_par uart_resp_valid : bool) (raddr : Z) (s : state) : bool :=
  if is_uart raddr && negb use_par then uart_resp_valid else dmem_resp_valid s.

Definition resp_rdata (use_par : bool) (uart_rdata par_rdata raddr : Z) (s : state) : Z :=
  if is_uart raddr then (if use_par then par_rdata else uart_rdata) else dmem_rdata s.

(** Every word of memory is a 32-bit value. *)
Definition wf (m : Z -> Z) : Prop := forall i, urange 32 (m i).

(** * Byte view *)

Definition byte_at (m : Z -> Z) (a : Z) : Z := lane 8 (Z.to_nat (a mod 4)) (m (index a)).
Definition bytes_at (m : Z -> Z) (a : Z) (n : nat) : list Z :=
  map (fun k => byte_at m (a + Z.of_nat k)) (seq 0 n).

Lemma merge_range mask old new : urange 32 (merge mask old new).
Proof. apply (pack_range 8). lia. Qed.

Lemma step_wf i s : wf (mem s) -> wf (mem (step i s)).
Proof.
  intros Hwf j. unfold step; simpl. destruct (dmem_valid i && dmem_write i); [|apply Hwf].
  unfold write_word. destruct (j =? _); [apply merge_range|apply Hwf].
Qed.

(** A full mask replaces the word. *)
Lemma merge_full old new : urange 32 new -> merge 15 old new = new.
Proof. intros. change (merge 15 old new) with (pack 8 (lanes 8 4 new)). rewrite pack_lanes by lia. by apply wrap_small. Qed.

(** Words of an aligned address, and its four bytes. *)
Lemma index_aligned a k :
  0 <= a -> a mod 4 = 0 -> 0 <= k < 4 -> index (a + k) = index a.
Proof.
  intros. unfold index, slice. f_equal. rewrite !Z.shiftr_div_pow2 by lia.
  change (2 ^ 2) with 4. Z.div_mod_to_equations. lia.
Qed.

Lemma bytes_at_word m a :
  0 <= a -> a mod 4 = 0 -> bytes_at m a 4 = lanes 8 4 (m (index a)).
Proof.
  intros Ha Hal. unfold bytes_at, lanes. apply map_ext_in. intros k Hk.
  apply in_seq in Hk. unfold byte_at. rewrite index_aligned by lia. do 2 f_equal.
  rewrite Zplus_mod, Hal. rewrite Z.add_0_l, Zmod_mod, Z.mod_small by lia. lia.
Qed.

Lemma bytes_at_app m a n1 n2 :
  bytes_at m a (n1 + n2) = bytes_at m a n1 ++ bytes_at m (a + Z.of_nat n1) n2.
Proof.
  unfold bytes_at. rewrite seq_app, map_app, (map_seq_shift _ (0 + n1)). f_equal.
  apply map_ext. intros k. f_equal. lia.
Qed.

(** Eight bytes at an aligned address are two consecutive words. *)
Lemma pack_bytes_at m a :
  wf m -> 0 <= a -> a mod 4 = 0 ->
  pack 8 (bytes_at m a 8) = m (index a) + 2 ^ 32 * m (index (a + 4)).
Proof.
  intros Hwf Ha Hal. change 8%nat with (4 + 4)%nat. rewrite bytes_at_app, pack_app by lia.
  rewrite !bytes_at_word; [|Z.div_mod_to_equations; lia..].
  rewrite !pack_lanes by lia. rewrite length_lanes. by rewrite !wrap_small by apply Hwf.
Qed.
End Sram.
