(* ===== verification/Vlsu.v ===== *)
(** The vector load/store unit of [vlsu.v]: a 64-bit transfer as two 32-bit bus
    transactions driven by a six-state FSM, alone and connected to the SRAM through
    the bus of [top.v]. The theorems give the exact number of cycles, the loaded
    value or the new memory contents, and the frame of a transfer. *)

From S2P Require Import Prelude Sram.

Module Vlsu.

Inductive fsm := IDLE | REQ_WORD0 | WAIT_WORD0 | REQ_WORD1 | WAIT_WORD1 | COMPLETE.

Record inputs := Inputs
  { rst_n : bool; start : bool; is_store : bool; base_addr : Z; store_data : Z;
    mem_ready : bool; mem_resp_valid : bool; mem_resp_rdata : Z }.

Record state := State
  { fsm_state : fsm;
    addr_reg : Z; data_reg : Z; is_store_reg : bool;
    done : bool; load_data : Z;
    mem_addr : Z; mem_wdata : Z; mem_wmask : Z; mem_write : bool; mem_valid : bool }.

Definition set_low (d v : Z) : Z := wrap 32 v + 2 ^ 32 * slice 32 32 d.   (* d[31:0] <= v *)
Definition set_high (d v : Z) : Z := wrap 32 d + 2 ^ 32 * wrap 32 v.      (* d[63:32] <= v *)

(** Issue the request of one word. *)
Definition request (s : state) (next : fsm) (addr wd : Z) : state :=
  {| fsm_state := next; addr_reg := addr_reg s; data_reg := data_reg s;
     is_store_reg := is_store_reg s; done := done s; load_data := load_data s;
     mem_addr := addr; mem_wdata := if is_store_reg s then wd else 0;
     mem_wmask := if is_store_reg s then 15 else 0;
     mem_write := is_store_reg s; mem_valid := true |}.

(** Wait for the word: the request is dropped when accepted; a store moves on, a
    load moves on when the response is there too; a response that comes before
    the acceptance is only recorded. *)
Definition wait (i : inputs) (s : state) (next : fsm) (put : Z -> Z -> Z) : state :=
  let upd_ st d v :=
    {| fsm_state := st; addr_reg := addr_reg s; data_reg := d;
       is_store_reg := is_store_reg s; done := done s; load_data := load_data s;
       mem_addr := mem_addr s; mem_wdata := mem_wdata s; mem_wmask := mem_wmask s;
       mem_write := mem_write s; mem_valid := v |} in
  if mem_ready i then
    if is_store_reg s then upd_ next (data_reg s) false
    else if mem_resp_valid i then upd_ next (put (data_reg s) (mem_resp_rdata i)) false
    else upd_ (fsm_state s) (data_reg s) false
  else if negb (is_store_reg s) && mem_resp_valid i then
    upd_ (fsm_state s) (put (data_reg s) (mem_resp_rdata i)) (mem_valid s)
  else s.

(** The clocked block. *)
Definition step (i : inputs) (s : state) : state :=
  if negb (rst_n i) then State IDLE 0 0 false false 0 0 0 0 false false
  else match fsm_state s with
  | IDLE =>
      {| fsm_state := if start i then REQ_WORD0 else IDLE;
         addr_reg := if start i then base_addr i else addr_reg s;
         data_reg := if start i then store_data i else data_reg s;
         is_store_reg := if start i then is_store i else is_store_reg s;
         done := false; load_data := load_data s;
         mem_addr := mem_addr s; mem_wdata := mem_wdata s; mem_wmask := mem_wmask s;
         mem_write := mem_write s; mem_valid := mem_valid s |}
  | REQ_WORD0 => request s WAIT_WORD0 (addr_reg s) (slice 0 32 (data_reg s))
  | WAIT_WORD0 => wait i s REQ_WORD1 set_low
  | REQ_WORD1 => request s WAIT_WORD1 (wrap 32 (addr_reg s + 4)) (slice 32 32 (data_reg s))
  | WAIT_WORD1 => wait i s COMPLETE set_high
  | COMPLETE =>
      {| fsm_state := IDLE; addr_reg := addr_reg s; data_reg := data_reg s;
         is_store_reg := is_store_reg s; done := true;
         load_data := if is_store_reg s then load_data s else data_reg s;
         mem_addr := mem_addr s; mem_wdata := mem_wdata s; mem_wmask := mem_wmask s;
         mem_write := mem_write s; mem_valid := mem_valid s |}
  end.

(** * The unit on the bus *)

(** What the CPU presents in a cycle, and what the rest of [top.v] (the
    UART and the parallel receive port) drives. *)
Record cpu := Cpu
  { c_start : bool; c_store : bool; c_base : Z; c_data : Z; c_imem : Z;
    uart_ready : bool; uart_valid : bool; uart_rdata : Z; par_rdata : Z }.

Section Bus.
(** [sim_use_par_txrx], constant after reset. *)
Context (use_par : bool).

(** One clock edge of the unit and the SRAM together. The response is routed by
    [dmem_raddr_reg], which [top.v] updates exactly as the SRAM does its
    [dmem_addr_reg]. *)
Definition sys_step (i : cpu) (s : state * Sram.state) : state * Sram.state :=
  let '(v, m) := s in
  let raddr := Sram.dmem_addr_reg m in
  (step {| rst_n := true; start := c_start i; is_store := c_store i;
           base_addr := c_base i; store_data := c_data i;
           mem_ready := Sram.req_ready use_par (uart_ready i) (mem_addr v);
           mem_resp_valid := Sram.resp_valid use_par (uart_valid i) raddr m;
           mem_resp_rdata := Sram.resp_rdata use_par (uart_rdata i) (par_rdata i) raddr m |} v,
   Sram.step {| Sram.imem_addr := c_imem i; Sram.dmem_addr := mem_addr v;
                Sram.dmem_wdata := mem_wdata v; Sram.dmem_wmask := mem_wmask v;
                Sram.dmem_write := mem_write v; Sram.dmem_valid := mem_valid v |} m).

Definition sys_run (ins : list cpu) s := run sys_step ins s.

(** Clock edges from the start edge to [done]. *)
Definition load_latency : nat := 7.
Definition store_latency : nat := 5.

(** Neither word of the transfer is in the UART page. *)
Definition in_sram (a : Z) : Prop :=
  Sram.is_uart a = false /\ Sram.is_uart (wrap 32 (a + 4)) = false.

Definition two_words (m : Z -> Z) (a : Z) : Z :=
  wrap 32 (m (Sram.index a)) + 2 ^ 32 * wrap 32 (m (Sram.index (wrap 32 (a + 4)))).

Lemma set_words d p q : set_high (set_low d p) q = wrap 32 p + 2 ^ 32 * wrap 32 q.
Proof.
  unfold set_high, set_low. f_equal. unfold wrap at 1.
  rewrite Z.mul_comm, Z_mod_plus_full. by apply (wrap_wrap 32 p).
Qed.

Lemma resp_sram u a m :
  Sram.is_uart a = false -> Sram.resp_valid use_par u a m = Sram.dmem_resp_valid m.
Proof. unfold Sram.resp_valid. by intros ->. Qed.
Lemma rdata_sram u p a m :
  Sram.is_uart a = false -> Sram.resp_rdata use_par u p a m = Sram.dmem_rdata m.
Proof. unfold Sram.resp_rdata. by intros ->. Qed.
Lemma ready_sram u a : Sram.is_uart a = false -> Sram.req_ready use_par u a = true.
Proof. unfold Sram.req_ready. by intros ->. Qed.

(** The unit at rest: idle, no request pending. *)
Definition resting (v : state) : Prop := fsm_state v = IDLE /\ mem_valid v = false.

(** No earlier UART read is still being answered on the response multiplexer. *)
Definition no_uart_response (m : Sram.state) : Prop :=
  Sram.is_uart (Sram.dmem_addr_reg m) && negb use_par = false.

Lemma resp_none u a m :
  Sram.is_uart a && negb use_par = false ->
  Sram.resp_valid use_par u a m = Sram.dmem_resp_valid m.
Proof. unfold Sram.resp_valid. by intros ->. Qed.

(** Evaluate one clock edge, routing SRAM requests and responses. *)
Ltac reduce_in H :=
  lazy beta iota zeta delta [sys_step Sram.step step request wait
        fsm_state addr_reg data_reg is_store_reg done load_data mem_addr mem_wdata
        mem_wmask mem_write mem_valid rst_n start is_store base_addr store_data
        mem_ready mem_resp_valid mem_resp_rdata
        Sram.mem Sram.imem_addr_reg Sram.dmem_addr_reg Sram.dmem_resp_valid_reg
        Sram.imem_addr Sram.dmem_addr Sram.dmem_wdata Sram.dmem_wmask Sram.dmem_write
        Sram.dmem_valid Sram.dmem_resp_valid Sram.dmem_rdata
        negb andb] in H.
Ltac edge :=
  rewrite run_cons;
  lazymatch goal with |- context [run sys_step _ (sys_step ?i ?s)] =>
    let E := fresh "E" in let t := fresh "t" in
    remember (sys_step i s) as t eqn:E;
    reduce_in E;
    repeat match goal with H : c_start i = _ |- _ => rewrite H in E
                         | H : c_store i = _ |- _ => rewrite H in E end;
    rewrite ?ready_sram, ?resp_sram, ?rdata_sram, ?resp_none in E by assumption;
    reduce_in E; subst t
  end.

(** A list of [n] inputs, as variables. *)
Ltac inputs_of l n :=
  lazymatch n with
  | O => destruct l; [|done]
  | S ?n => destruct l as [|? l]; [done|]; inputs_of l n
  end.

Lemma load_run v m i rest :
  resting v -> no_uart_response m -> in_sram (c_base i) ->
  c_start i = true -> c_store i = false -> length rest = load_latency ->
  let '(v', m') := sys_run (i :: rest) (v, m) in
  done v' = true /\ resting v' /\ load_data v' = two_words (Sram.mem m) (c_base i) /\
  Sram.mem m' = Sram.mem m /\ Sram.dmem_addr_reg m' = wrap 32 (c_base i + 4).
Proof.
  destruct v as [fs ar dr isr dn ld ma mw mm mwr mv], m as [mm0 ia da rv].
  unfold resting, no_uart_response, in_sram, sys_run.
  cbn [fsm_state mem_valid Sram.dmem_addr_reg Sram.mem].
  intros [-> ->] Hq [Hu Hu4] Hst Hld Hlen. unfold load_latency in Hlen.
  inputs_of rest 7%nat. clear Hlen. do 8 edge.
  cbn [run fold_left done fsm_state mem_valid load_data Sram.mem Sram.dmem_addr_reg].
  by rewrite set_words.
Qed.

(** Before that the unit is busy and [done] stays low. *)
Lemma load_busy v m i rest n :
  resting v -> no_uart_response m -> in_sram (c_base i) ->
  c_start i = true -> c_store i = false -> length rest = load_latency ->
  (n < load_latency)%nat -> done (fst (sys_run (i :: take n rest) (v, m))) = false.
Proof.
  destruct v as [fs ar dr isr dn ld ma mw mm mwr mv], m as [mm0 ia da rv].
  unfold resting, no_uart_response, in_sram, sys_run.
  cbn [fsm_state mem_valid Sram.dmem_addr_reg Sram.mem].
  intros [-> ->] Hq [Hu Hu4] Hst Hld Hlen Hn. unfold load_latency in Hlen, Hn.
  inputs_of rest 7%nat. clear Hlen. edge.
  do 7 (destruct n as [|n]; [by cbn|]; cbn [take]; edge). lia.
Qed.

Lemma store_run v m i rest :
  resting v -> in_sram (c_base i) ->
  c_start i = true -> c_store i = true -> length rest = store_latency ->
  let a := c_base i in let d := c_data i in
  let '(v', m') := sys_run (i :: rest) (v, m) in
  done v' = true /\ resting v' /\ load_data v' = load_data v /\
  Sram.dmem_addr_reg m' = Sram.dmem_addr_reg m /\
  Sram.mem m' =
    let m1 := Sram.write_word (Sram.mem m) (Sram.index a)
      (Sram.merge 15 (Sram.mem m (Sram.index a)) (slice 0 32 d)) in
    Sram.write_word m1 (Sram.index (wrap 32 (a + 4)))
      (Sram.merge 15 (m1 (Sram.index (wrap 32 (a + 4)))) (slice 32 32 d)).
Proof.
  destruct v as [fs ar dr isr dn ld ma mw mm mwr mv], m as [mm0 ia da rv].
  unfold resting, in_sram, sys_run.
  cbn [fsm_state mem_valid Sram.dmem_addr_reg Sram.mem].
  intros [-> ->] [Hu Hu4] Hst Hld Hlen. unfold store_latency in Hlen.
  inputs_of rest 5%nat. clear Hlen. do 6 edge. by cbn [run fold_left].
Qed.

(** Before that the unit is busy and [done] stays low. *)
Lemma store_busy v m i rest n :
  resting v -> in_sram (c_base i) -> c_start i = true -> c_store i = true ->
  length rest = store_latency -> (n < store_latency)%nat ->
  done (fst (sys_run (i :: take n rest) (v, m))) = false.
Proof.
  destruct v as [fs ar dr isr dn ld ma mw mm mwr mv], m as [mm0 ia da rv].
  unfold resting, in_sram, sys_run. cbn [fsm_state mem_valid].
  intros [-> ->] [Hu Hu4] Hst Hld Hlen Hn. unfold store_latency in Hlen, Hn.
  inputs_of rest 5%nat. clear Hlen. edge.
  do 5 (destruct n as [|n]; [by cbn|]; cbn [take]; edge). lia.
Qed.

(** The edge after [done]: the unit rests and the memory is untouched. *)
Lemma release v m i :
  resting v -> c_start i = false ->
  let s' := sys_step i (v, m) in
  resting s'.1 /\ done s'.1 = false /\ Sram.mem s'.2 = Sram.mem m /\
  Sram.dmem_addr_reg s'.2 = Sram.dmem_addr_reg m.
Proof.
  destruct v. unfold resting, sys_step, step. cbn [fsm_state mem_valid negb start]. intros [-> ->] ->. done.
Qed.

(** The memory after a store, word by word. *)
Definition stored (m : Z -> Z) (a d : Z) : Z -> Z :=
  fun j => if j =? Sram.index (wrap 32 (a + 4)) then slice 32 32 d
           else if j =? Sram.index a then slice 0 32 d else m j.

Lemma index_next a : Sram.index (wrap 32 (a + 4)) <> Sram.index a.
Proof.
  unfold Sram.index. rewrite slice_wrap by lia. unfold slice, wrap.
  rewrite !Z.shiftr_div_pow2 by lia. word_pows. Z.div_mod_to_equations. lia.
Qed.

(** A vector load (VLD): started on a resting unit, it completes
    in exactly [load_latency] cycles and no sooner, whatever the CPU and the UART do
    on the other pins meanwhile; the loaded vector is the word at the base address
    and the word after it, memory is unchanged and the unit is resting again. *)
Theorem vld_transfer v m i rest :
  resting v -> no_uart_response m -> in_sram (c_base i) ->
  c_start i = true -> c_store i = false -> length rest = load_latency ->
  (forall n, (n < load_latency)%nat ->
     done (fst (sys_run (i :: take n rest) (v, m))) = false) /\
  let '(v', m') := sys_run (i :: rest) (v, m) in
  done v' = true /\ resting v' /\ load_data v' = two_words (Sram.mem m) (c_base i) /\
  Sram.mem m' = Sram.mem m.
Proof.
  intros Hr Hq Ha Hs Hst Hlen. split; [intros; by apply load_busy|].
  pose proof (load_run v m i rest Hr Hq Ha Hs Hst Hlen) as Hl.
  destruct (sys_run (i :: rest) (v, m)) as [v' m'].
  destruct Hl as (? & ? & ? & ? & _). by split_and!.
Qed.

(** A vector store (VST): completes in exactly
    [store_latency] cycles, writes the two halves of the vector to consecutive words
    and nothing else, and leaves the load register alone. *)
Theorem vst_transfer v m i rest :
  resting v -> in_sram (c_base i) ->
  c_start i = true -> c_store i = true -> length rest = store_latency ->
  let '(v', m') := sys_run (i :: rest) (v, m) in
  done v' = true /\ resting v' /\ load_data v' = load_data v /\
  forall j, Sram.mem m' j = stored (Sram.mem m) (c_base i) (c_data i) j.
Proof.
  intros Hr Ha Hs Hst Hl. pose proof (store_run v m i rest Hr Ha Hs Hst Hl) as Hrun.
  cbv zeta in Hrun. destruct (sys_run (i :: rest) (v, m)) as [v' m'].
  destruct Hrun as (? & ? & ? & _ & ->). split_and!; try done.
  intros j. unfold Sram.write_word, stored.
  rewrite !Sram.merge_full by (by apply slice_range). done.
Qed.

(** [C31] What is stored is what is loaded back: a store followed by a
    load at the same address returns the stored 64-bit vector. *)
Theorem vst_vld_roundtrip v m a d s1 r1 s2 r2 :
  resting v -> no_uart_response m -> in_sram a -> urange 64 d ->
  c_start s1 = true -> c_store s1 = true -> c_base s1 = a -> c_data s1 = d ->
  length r1 = store_latency ->
  c_start s2 = true -> c_store s2 = false -> c_base s2 = a -> length r2 = load_latency ->
  load_data (fst (sys_run ((s1 :: r1) ++ (s2 :: r2)) (v, m))) = d.
Proof.
  intros Hr Hq Ha Hd Hs1 Hst1 Hb1 Hd1 Hl1 Hs2 Hst2 Hb2 Hl2. subst.
  unfold sys_run. rewrite run_app. fold (sys_run (s1 :: r1) (v, m)).
  pose proof (store_run v m s1 r1 Hr Ha Hs1 Hst1 Hl1) as Hw. cbv zeta in Hw.
  destruct (sys_run (s1 :: r1) (v, m)) as [v1 m1]. destruct Hw as (_ & Hr1 & _ & Hra & Hm).
  pose proof (load_run v1 m1 s2 r2 Hr1) as Hld. fold (sys_run (s2 :: r2) (v1, m1)).
  destruct (sys_run (s2 :: r2) (v1, m1)) as [v2 m2]; simpl.
  destruct Hld as (_ & _ & -> & _); try done; [by unfold no_uart_response; rewrite Hra|
    by rewrite Hb2|].
  rewrite Hb2. unfold two_words. rewrite Hm. unfold Sram.write_word.
  rewrite Z.eqb_refl. pose proof (index_next (c_base s1)).
  destruct (Z.eqb_spec (Sram.index (c_base s1)) (Sram.index (wrap 32 (c_base s1 + 4)))); [congruence|].
  rewrite Z.eqb_refl. rewrite !Sram.merge_full by (by apply slice_range).
  rewrite !(wrap_small 32 (slice _ 32 _)) by (by apply slice_range).
  rewrite slice_0. unfold slice, wrap. rewrite Z.shiftr_div_pow2 by lia.
  unfold urange in Hd. word_pows. Z.div_mod_to_equations. lia.
Qed.

(** Byte view of a load: at a word-aligned address the vector holds the eight
    bytes at that address, first byte in the lowest lane. *)
Lemma two_words_bytes m a :
  Sram.wf m -> 0 <= a -> a mod 4 = 0 -> a + 4 < 2 ^ 32 ->
  two_words m a = pack 8 (Sram.bytes_at m a 8).
Proof.
  intros Hwf Ha Hal Hmax. rewrite Sram.pack_bytes_at by done. unfold two_words.
  rewrite (wrap_small 32 (a + 4)) by word_lia. by rewrite !wrap_small by apply Hwf.
Qed.
End Bus.
(** * Concrete transfers *)

Definition v_reset : state := step (Inputs false false false 0 0 false false 0)
  (State WAIT_WORD1 7 7 true true 7 7 7 7 true true).
Definition m_demo : Sram.state := Sram.State (fun i => 0x01010101 * (i mod 251)) 0 0 false.
Definition cpu_idle : cpu := Cpu false false 0 0 0 true false 0 0.
Definition cpu_start (st : bool) (a d : Z) : cpu := Cpu true st a d 0 true false 0 0.

Example vld_transfer_witness :
  let ins := cpu_start false 0x1000 0 :: repeat cpu_idle 7 in
  let '(v', m') := sys_run false ins (v_reset, m_demo) in
  done v' = true /\ load_data v' = 0x1515151514141414.
Proof.
  intros ins.
  pose proof (vld_transfer false v_reset m_demo (cpu_start false 0x1000 0) (repeat cpu_idle 7)
    ltac:(by split) eq_refl ltac:(by split) eq_refl eq_refl eq_refl) as [_ H].
  subst ins. destruct (sys_run false _ (v_reset, m_demo)) as [v' m'].
  destruct H as (Hd & _ & -> & _). split; [exact Hd|reflexivity].
Defined.

Example vst_transfer_witness :
  let ins := cpu_start true 0x1000 0x1122334455667788 :: repeat cpu_idle 5 in
  let '(v', m') := sys_run false ins (v_reset, m_demo) in
  done v' = true /\ Sram.mem m' 0x400 = 0x55667788 /\ Sram.mem m' 0x401 = 0x11223344
  /\ Sram.mem m' 0x402 = 0x16161616.
Proof.
  intros ins.
  pose proof (vst_transfer false v_reset m_demo (cpu_start true 0x1000 0x1122334455667788)
    (repeat cpu_idle 5) ltac:(by split) ltac:(by split) eq_refl eq_refl eq_refl) as H.
  subst ins. destruct (sys_run false _ (v_reset, m_demo)) as [v' m'].
  destruct H as (Hd & _ & _ & Hm). rewrite !Hm. split_and!; [exact Hd|reflexivity..].
Defined.

Example vst_vld_roundtrip_witness :
  load_data (fst (sys_run true
    ((cpu_start true 0x1000 42 :: repeat cpu_idle 5)
     ++ (cpu_start false 0x1000 0 :: repeat cpu_idle 7)) (v_reset, m_demo))) = 42.
Proof.
  apply (vst_vld_roundtrip true v_reset m_demo 0x1000 42); try reflexivity;
    try (by split); vm_compute; split; congruence.
Defined.
End Vlsu.
