(* ===== verification/Alu.v ===== *)
(** The integer ALU of [alu.v]: the 32-stage ripple-carry adder of full adders, the
    five-stage barrel shifter that reverses the word for left shifts, and the
    comparisons taken from the subtractor. The theorems show that the gates compute
    the RV32I operations. *)

From S2P Require Import Prelude.

Module Alu.

(** A word from its bits, least significant first. *)
Definition of_bits (l : list bool) : Z := pack 1 (map Z.b2z l).
Definition word_of (f : nat -> bool) : Z := of_bits (map f (seq 0 32)).
Definition bit (x : Z) (i : nat) : bool := Z.testbit x (Z.of_nat i).

(** * Adder *)

(** [full_adder]: sum and carry out. *)
Definition full_adder (a b cin : bool) : bool * bool :=
  (xorb (xorb a b) cin, a && b || a && cin || b && cin).

(** [carry[i-1]], the carry into stage [i]. *)
Fixpoint carry (a b : Z) (cin : bool) (i : nat) : bool :=
  match i with
  | O => cin
  | S i => (full_adder (bit a i) (bit b i) (carry a b cin i)).2
  end.

(** [ripple_carry_adder_32]: sum and carry out. *)
Definition ripple_carry_adder_32 (a b : Z) (cin : bool) : Z * bool :=
  (word_of (fun i => (full_adder (bit a i) (bit b i) (carry a b cin i)).1), carry a b cin 32).

(** * Shifter *)

(** [reversed_data], [final_data]. *)
Definition reverse (x : Z) : Z := word_of (fun i => bit x (31 - i)).

(** One stage: [{{k{fill_bit}}, data[31:k]}] when the shift-amount bit is set. *)
Definition stage (en : bool) (k : Z) (fill : bool) (x : Z) : Z :=
  if en then (if fill then Z.shiftl (Z.ones k) (32 - k) else 0) + slice k (32 - k) x else x.

Definition barrel_shifter (data_in shift_amt : Z) (shift_left arithmetic : bool) : Z :=
  let shift_data := if shift_left then reverse data_in else data_in in
  let fill := (arithmetic && negb shift_left) && bit shift_data 31 in
  let stage0 := stage (bit shift_amt 0) 1 fill shift_data in
  let stage1 := stage (bit shift_amt 1) 2 fill stage0 in
  let stage2 := stage (bit shift_amt 2) 4 fill stage1 in
  let stage3 := stage (bit shift_amt 3) 8 fill stage2 in
  let stage4 := stage (bit shift_amt 4) 16 fill stage3 in
  if shift_left then reverse stage4 else stage4.

(** * ALU *)

Definition alu_out (op1 op2 ctrl : Z) : Z :=
  let subtract := (ctrl =? 1) || (ctrl =? 8) || (ctrl =? 9) in
  let op2_modified := if subtract then wrap 32 (Z.lnot op2) else op2 in
  let '(addsub, cout) := ripple_carry_adder_32 op1 op2_modified subtract in
  let shift_result := barrel_shifter op1 (wrap 5 op2) (ctrl =? 5) (ctrl =? 7) in
  let slt_result := if Bool.eqb (bit op1 31) (bit op2 31) then bit addsub 31 else bit op1 31 in
  let sltu_result := negb cout in
  match ctrl with
  | 0 | 1 => addsub
  | 2 => Z.land op1 op2
  | 3 => Z.lor op1 op2
  | 4 => Z.lxor op1 op2
  | 5 | 6 | 7 => shift_result
  | 8 => Z.b2z slt_result
  | 9 => Z.b2z sltu_result
  | _ => 0
  end.
Definition zero (op1 op2 ctrl : Z) : bool := alu_out op1 op2 ctrl =? 0.

(** * Reference operations *)

(** What RV32I prescribes for each control code. *)
Definition spec (ctrl x y : Z) : Z :=
  match ctrl with
  | 0 => wrap 32 (x + y)
  | 1 => wrap 32 (x - y)
  | 2 => Z.land x y
  | 3 => Z.lor x y
  | 4 => Z.lxor x y
  | 5 => wrap 32 (Z.shiftl x (wrap 5 y))
  | 6 => Z.shiftr x (wrap 5 y)
  | 7 => wrap 32 (Z.shiftr (sgn 32 x) (wrap 5 y))
  | 8 => if sgn 32 x <? sgn 32 y then 1 else 0
  | 9 => if x <? y then 1 else 0
  | _ => 0
  end.

(** * Words and bits *)

Lemma of_bits_cons b l : of_bits (b :: l) = Z.b2z b + 2 * of_bits l.
Proof. unfold of_bits. cbn [map pack]. by destruct b. Qed.

Lemma of_bits_app l b : of_bits (l ++ [b]) = of_bits l + 2 ^ Z.of_nat (length l) * Z.b2z b.
Proof.
  unfold of_bits. rewrite map_app, pack_app, length_map by lia. cbn [map pack].
  rewrite Z.mul_1_l, Z.mul_0_r, Z.add_0_r. by destruct b.
Qed.

Lemma testbit_of_bits l i : Z.testbit (of_bits l) (Z.of_nat i) = nth i l false.
Proof.
  revert i. induction l as [|b l IH]; intros i.
  - cbn [of_bits]. by destruct i.
  - rewrite of_bits_cons, Z.add_comm. destruct i as [|i].
    + by rewrite Z.testbit_0_r.
    + rewrite Nat2Z.inj_succ, Z.testbit_succ_r by lia. apply IH.
Qed.

Lemma bit_word_of f i : bit (word_of f) i = if (i <? 32)%nat then f i else false.
Proof.
  unfold bit, word_of. rewrite testbit_of_bits. destruct (Nat.ltb_spec i 32).
  - rewrite (nth_indep _ false (f 0%nat)) by (rewrite length_map, length_seq; lia).
    rewrite map_nth. by rewrite seq_nth by lia.
  - apply nth_overflow. rewrite length_map, length_seq. lia.
Qed.

Lemma word_of_range f : urange 32 (word_of f).
Proof. apply (pack_range 1). lia. Qed.

(** Words are determined by their 32 bits. *)
Lemma bit_high x i : urange 32 x -> (32 <= i)%nat -> bit x i = false.
Proof.
  intros Hx Hi. unfold bit. rewrite <- (wrap_small 32 x) by done. unfold wrap.
  by rewrite Z.mod_pow2_bits_high by lia.
Qed.
Lemma word_ext x y :
  urange 32 x -> urange 32 y -> (forall i, (i < 32)%nat -> bit x i = bit y i) -> x = y.
Proof.
  intros Hx Hy H. apply Z.bits_inj'. intros n Hn.
  replace n with (Z.of_nat (Z.to_nat n)) by lia. set (i := Z.to_nat n).
  change (bit x i = bit y i). destruct (decide (i < 32)%nat); [by apply H|].
  by rewrite !bit_high by (done || lia).
Qed.

Lemma wrap_S n x : wrap (Z.of_nat (S n)) x = wrap (Z.of_nat n) x + 2 ^ Z.of_nat n * Z.b2z (bit x n).
Proof.
  unfold wrap, bit. rewrite Z.testbit_spec' by lia. rewrite Nat2Z.inj_succ, Z.pow_succ_r by lia.
  rewrite (Z.mul_comm 2), Z.rem_mul_r by (pose proof (pow2_pos (Z.of_nat n)); lia). lia.
Qed.

(** * Adder lemmas *)

Lemma full_adder_sum a b c :
  Z.b2z (full_adder a b c).1 + 2 * Z.b2z (full_adder a b c).2 = Z.b2z a + Z.b2z b + Z.b2z c.
Proof. by destruct a, b, c. Qed.

(** The invariant of the carry chain: [n] stages add the low [n] bits. *)
Lemma carry_chain a b cin n :
  of_bits (map (fun i => (full_adder (bit a i) (bit b i) (carry a b cin i)).1) (seq 0 n))
  + 2 ^ Z.of_nat n * Z.b2z (carry a b cin n)
  = wrap (Z.of_nat n) a + wrap (Z.of_nat n) b + Z.b2z cin.
Proof.
  induction n as [|n IH].
  - cbn [map seq of_bits carry]. unfold wrap. cbn [Z.of_nat]. change (2 ^ 0) with 1.
    rewrite !Z.mod_1_r. cbn. by destruct cin.
  - rewrite seq_S, map_app. cbn [map]. rewrite of_bits_app, length_map, length_seq, !wrap_S.
    pose proof (full_adder_sum (bit a n) (bit b n) (carry a b cin n)) as Hf.
    rewrite Nat2Z.inj_succ, Z.pow_succ_r by lia. cbn [carry Nat.add]. nia.
Qed.

Lemma adder_correct a b cin :
  urange 32 a -> urange 32 b ->
  ripple_carry_adder_32 a b cin
  = (wrap 32 (a + b + Z.b2z cin), 2 ^ 32 <=? a + b + Z.b2z cin).
Proof.
  intros Ha Hb. unfold ripple_carry_adder_32. pose proof (carry_chain a b cin 32) as H.
  change (Z.of_nat 32) with 32 in H. rewrite !wrap_small in H by done.
  pose proof (word_of_range (fun i => (full_adder (bit a i) (bit b i) (carry a b cin i)).1)) as Hr.
  unfold word_of in *. set (s := of_bits _) in *. unfold urange in Hr.
  destruct (carry a b cin 32); cbn [Z.b2z] in H; f_equal.
  - unfold wrap. rewrite <- H. rewrite <- (Z.mod_small s (2 ^ 32)) at 1 by done.
    rewrite Z.mul_1_r. rewrite <- (Z_mod_plus_full s 1). f_equal; lia.
  - symmetry. apply Z.leb_le. lia.
  - unfold wrap. rewrite <- H, Z.mul_0_r, Z.add_0_r. by rewrite Z.mod_small.
  - symmetry. apply Z.leb_gt. lia.
Qed.

(** * Shifter lemmas *)

Lemma bit_reverse x i : (i < 32)%nat -> bit (reverse x) i = bit x (31 - i).
Proof. intros. unfold reverse. rewrite bit_word_of. by destruct (Nat.ltb_spec i 32); [|lia]. Qed.

(** The bits of a word continued by the fill bit. *)
Definition filled (x : Z) (fill : bool) (i : nat) : bool := if (i <? 32)%nat then bit x i else fill.

Lemma stage_spec en k fill x :
  urange 32 x -> (0 < k < 32)%nat ->
  urange 32 (stage en (Z.of_nat k) fill x) /\
  forall i, filled (stage en (Z.of_nat k) fill x) fill i
            = filled x fill (i + if en then k else 0).
Proof.
  intros Hx Hk. destruct en; cbn [stage]; [|by split; [|intros i; rewrite Nat.add_0_r]].
  set (top := if fill then Z.ones (Z.of_nat k) else 0).
  replace (if fill then Z.shiftl (Z.ones (Z.of_nat k)) (32 - Z.of_nat k) else 0)
    with (top * 2 ^ (32 - Z.of_nat k)).
  2:{ unfold top. destruct fill; [by rewrite Z.shiftl_mul_pow2 by lia|done]. }
  pose proof (slice_range (Z.of_nat k) (32 - Z.of_nat k) x ltac:(lia)) as Hs.
  split.
  - unfold urange in *. assert (0 <= top < 2 ^ Z.of_nat k).
    { pose proof (pow2_pos (Z.of_nat k)). unfold top. destruct fill; rewrite ?Z.ones_equiv; lia. }
    assert (2 ^ 32 = 2 ^ Z.of_nat k * 2 ^ (32 - Z.of_nat k))
      by (rewrite <- Z.pow_add_r by lia; f_equal; lia).
    nia.
  - intros i. rewrite <- lor_disjoint by (lia || done). rewrite <- Z.shiftl_mul_pow2 by lia.
    unfold filled, bit. autorewrite with bits.
    replace (Z.testbit top (Z.of_nat i - (32 - Z.of_nat k))) with
      (fill && (0 <=? Z.of_nat i - (32 - Z.of_nat k)) && (Z.of_nat i <? 32)).
    2:{ unfold top. destruct fill; [|by rewrite Z.bits_0].
        destruct (Z.leb_spec 0 (Z.of_nat i - (32 - Z.of_nat k)));
          [|by rewrite Z.testbit_neg_r by lia].
        destruct (Z.ltb_spec (Z.of_nat i) 32);
          [by rewrite Z.ones_spec_low by lia|by rewrite Z.ones_spec_high by lia]. }
    rewrite <- Nat2Z.inj_add.
    destruct (Nat.ltb_spec i 32), (Nat.ltb_spec (i + k) 32); destruct fill;
      repeat match goal with
      | |- context [?a <=? ?b] => destruct (Z.leb_spec a b); try lia
      | |- context [?a <? ?b] => destruct (Z.ltb_spec a b); try lia
      end; (done || lia).
Qed.

Lemma bit_b2z (b : bool) (n : nat) : (if b then n else 0%nat) = (n * Z.to_nat (Z.b2z b))%nat.
Proof. destruct b; cbn; lia. Qed.

(** A shift amount from its five bits. *)
Lemma amount_bits m :
  urange 5 m ->
  Z.of_nat ((if bit m 0 then 1 else 0) + ((if bit m 1 then 2 else 0) + ((if bit m 2 then 4 else 0)
    + ((if bit m 3 then 8 else 0) + (if bit m 4 then 16 else 0)))))%nat = m.
Proof.
  intros Hm. rewrite <- (wrap_small 5 m) at 6 by done. change 5 with (Z.of_nat 5).
  rewrite !wrap_S. unfold wrap. rewrite Z.mod_1_r.
  by destruct (bit m 0), (bit m 1), (bit m 2), (bit m 3), (bit m 4).
Qed.

(** The five stages shift right by the amount, filling from the left. *)
Lemma stages_spec x m fill :
  urange 32 x -> urange 5 m ->
  let r := stage (bit m 4) 16 fill (stage (bit m 3) 8 fill (stage (bit m 2) 4 fill
             (stage (bit m 1) 2 fill (stage (bit m 0) 1 fill x)))) in
  urange 32 r /\ forall i, (i < 32)%nat -> bit r i = filled x fill (i + Z.to_nat m).
Proof.
  intros Hx Hm r.
  destruct (stage_spec (bit m 0) 1 fill x Hx ltac:(lia)) as [H0 E0].
  destruct (stage_spec (bit m 1) 2 fill _ H0 ltac:(lia)) as [H1 E1].
  destruct (stage_spec (bit m 2) 4 fill _ H1 ltac:(lia)) as [H2 E2].
  destruct (stage_spec (bit m 3) 8 fill _ H2 ltac:(lia)) as [H3 E3].
  destruct (stage_spec (bit m 4) 16 fill _ H3 ltac:(lia)) as [H4 E4].
  split; [exact H4|]. intros i Hi. change r with
    (stage (bit m 4) 16 fill (stage (bit m 3) 8 fill (stage (bit m 2) 4 fill
             (stage (bit m 1) 2 fill (stage (bit m 0) 1 fill x))))).
  transitivity (filled r fill i); [unfold filled; by destruct (Nat.ltb_spec i 32); [|lia]|].
  unfold r. rewrite E4, E3, E2, E1, E0. f_equal.
  rewrite <- (amount_bits m Hm) at 6. rewrite Nat2Z.id. lia.
Qed.

(** Right shifts of a word, from the bits. *)
Lemma filled_logical x m : urange 32 x -> forall i, filled x false (i + m) = bit (Z.shiftr x (Z.of_nat m)) i.
Proof.
  intros Hx i. unfold filled, bit. rewrite Z.shiftr_spec by lia. rewrite <- Nat2Z.inj_add.
  destruct (Nat.ltb_spec (i + m) 32); [done|]. symmetry. by apply bit_high.
Qed.

Lemma filled_arith x m i :
  urange 32 x -> (i < 32)%nat ->
  filled x (bit x 31) (i + m) = bit (wrap 32 (Z.shiftr (sgn 32 x) (Z.of_nat m))) i.
Proof.
  intros Hx Hi. unfold filled, bit. rewrite testbit_wrap, testbit_shiftr by lia.
  rewrite testbit_sgn by lia. rewrite <- Nat2Z.inj_add.
  replace (Z.of_nat i <? 32) with true by lia. replace (0 <=? Z.of_nat i) with true by lia.
  cbn [andb]. destruct (Nat.ltb_spec (i + m) 32); f_equal; lia.
Qed.

Lemma shifter_right x m :
  urange 32 x -> urange 5 m ->
  barrel_shifter x m false false = Z.shiftr x m /\
  barrel_shifter x m false true = wrap 32 (Z.shiftr (sgn 32 x) m).
Proof.
  intros Hx Hm. assert (Em : Z.of_nat (Z.to_nat m) = m) by (unfold urange in Hm; lia).
  unfold barrel_shifter. cbn [andb negb]. split.
  - destruct (stages_spec x m false Hx Hm) as [Hr Hb]. apply word_ext; [exact Hr| |].
    + unfold urange in *. rewrite Z.shiftr_div_pow2 by lia. pose proof (pow2_pos m).
      split; [apply Z.div_pos; lia|]. apply Z.div_lt_upper_bound; [lia|]. nia.
    + intros i Hi. rewrite Hb by done. rewrite filled_logical by done. by rewrite Em.
  - destruct (stages_spec x m (bit x 31) Hx Hm) as [Hr Hb].
    apply word_ext; [exact Hr|by apply wrap_range|].
    intros i Hi. rewrite Hb by done. rewrite filled_arith by done. by rewrite Em.
Qed.

Lemma shifter_left x m a :
  urange 32 x -> urange 5 m -> barrel_shifter x m true a = wrap 32 (Z.shiftl x m).
Proof.
  intros Hx Hm. unfold barrel_shifter. rewrite andb_false_r. cbn [andb].
  destruct (stages_spec (reverse x) m false (word_of_range _) Hm) as [Hr Hb].
  apply word_ext; [apply word_of_range|by apply wrap_range|].
  intros i Hi. rewrite bit_reverse, Hb by lia. unfold filled.
  unfold bit at 2. rewrite testbit_wrap, testbit_shiftl by (unfold urange in Hm; lia).
  replace (Z.of_nat i <? 32) with true by lia. cbn [andb]. unfold urange in Hm.
  destruct (Nat.ltb_spec (31 - i + Z.to_nat m) 32), (Z.leb_spec m (Z.of_nat i)); try lia.
  rewrite bit_reverse by done. cbn [andb]. unfold bit. f_equal. lia.
Qed.

(** * The ALU *)

Lemma lnot_word y : urange 32 y -> wrap 32 (Z.lnot y) = 2 ^ 32 - 1 - y.
Proof. intros Hy. unfold wrap, Z.lnot. rewrite <- (Z_mod_plus_full _ 1). rewrite Z.mod_small; word_lia. Qed.

(** The subtractor: difference, and carry out exactly when there is no borrow. *)
Lemma subtract_spec x y :
  urange 32 x -> urange 32 y ->
  ripple_carry_adder_32 x (wrap 32 (Z.lnot y)) true = (wrap 32 (x - y), y <=? x).
Proof.
  intros Hx Hy. rewrite adder_correct by (auto with words || (apply wrap_range; lia)).
  rewrite lnot_word by done. cbn [Z.b2z]. f_equal.
  - unfold wrap. rewrite <- (Z_mod_plus_full (x - y) 1). f_equal. lia.
  - apply Bool.eq_true_iff_eq. rewrite !Z.leb_le. lia.
Qed.

Lemma bit31_neg x : bit x 31 = (sgn 32 x <? 0).
Proof. symmetry. apply (sgn_neg_bit 32). lia. Qed.

Lemma sgn_word x : urange 32 x -> sgn 32 x = if x <? 2 ^ 31 then x else x - 2 ^ 32.
Proof. intros Hx. unfold sgn. by rewrite wrap_small. Qed.

(** The signed comparison from the operand signs and the difference's sign. *)
Lemma slt_spec x y :
  urange 32 x -> urange 32 y ->
  (if Bool.eqb (bit x 31) (bit y 31) then bit (wrap 32 (x - y)) 31 else bit x 31)
  = (sgn 32 x <? sgn 32 y).
Proof.
  intros Hx Hy. rewrite !bit31_neg, sgn_wrap by lia.
  rewrite (sgn_word x), (sgn_word y) by done.
  assert (Hd : sgn 32 (x - y) = if decide (x < y) then
                 (if x - y + 2 ^ 32 <? 2 ^ 31 then x - y + 2 ^ 32 else x - y)
               else if x - y <? 2 ^ 31 then x - y else x - y - 2 ^ 32).
  { unfold sgn, wrap. destruct (decide (x < y)).
    - rewrite <- (Z_mod_plus_full _ 1), Z.mod_small by word_lia. cbn zeta.
      destruct (_ <? _); word_lia.
    - by rewrite Z.mod_small by word_lia. }
  rewrite Hd. unfold urange in *. word_pows.
  repeat match goal with
  | |- context [decide ?P] => destruct (decide P)
  | |- context [if ?a <? ?b then _ else _] => destruct (Z.ltb_spec a b)
  end; repeat match goal with |- context [?a <? ?b] => destruct (Z.ltb_spec a b) end;
  cbn [Bool.eqb]; first [reflexivity | lia].
Qed.

Lemma alu_out_spec ctrl x y :
  urange 32 x -> urange 32 y -> urange 4 ctrl -> alu_out x y ctrl = spec ctrl x y.
Proof.
  intros Hx Hy Hc.
  assert (Hm : urange 5 (wrap 5 y)) by (apply wrap_range; lia).
  assert (In ctrl [0; 1; 2; 3; 4; 5; 6; 7; 8; 9; 10; 11; 12; 13; 14; 15]) as Hin by (cbn; word_lia).
  unfold alu_out. destruct (shifter_right x (wrap 5 y) Hx Hm) as [Hl Ha].
  pose proof (shifter_left x (wrap 5 y) false Hx Hm) as Hsl.
  cbn in Hin. decompose [or] Hin; subst; try done; cbn [Z.eqb Pos.eqb orb spec];
    rewrite ?subtract_spec, ?adder_correct, ?Hl, ?Ha, ?Hsl by done;
    cbv beta iota zeta; cbn [Z.b2z]; rewrite ?Z.add_0_r; try done.
  - rewrite slt_spec by done. by destruct (_ <? _).
  - destruct (Z.leb_spec y x), (Z.ltb_spec x y); first [done | lia].
Qed.

(** [C38] The gate-level ALU (ripple-carry adder, barrel shifter and the comparisons
    read off the subtractor) computes, for every pair of words and every control code,
    the RV32I operation the code stands for, and [zero] says whether it is zero. *)
Theorem alu_correct ctrl x y :
  urange 32 x -> urange 32 y -> urange 4 ctrl ->
  alu_out x y ctrl = spec ctrl x y /\ zero x y ctrl = (spec ctrl x y =? 0).
Proof. intros. unfold zero. by rewrite alu_out_spec. Qed.

(** [-1 < 1] signed but not unsigned. *)
Example alu_correct_witness :
  alu_out 0xFFFFFFFF 1 8 = 1 /\ alu_out 0xFFFFFFFF 1 9 = 0 /\ zero 5 5 1 = true /\
  alu_out 0x80000000 4 7 = 0xF8000000.
Proof.
  split_and!;
    [ rewrite (proj1 (alu_correct 8 0xFFFFFFFF 1 ltac:(word_lia) ltac:(word_lia) ltac:(word_lia)))
    | rewrite (proj1 (alu_correct 9 0xFFFFFFFF 1 ltac:(word_lia) ltac:(word_lia) ltac:(word_lia)))
    | rewrite (proj2 (alu_correct 1 5 5 ltac:(word_lia) ltac:(word_lia) ltac:(word_lia)))
    | rewrite (proj1 (alu_correct 7 0x80000000 4 ltac:(word_lia) ltac:(word_lia) ltac:(word_lia))) ];
    reflexivity.
Defined.
End Alu.
