(* ===== verification/Decoder.v ===== *)
(** The combined decoder and control unit of [decoder_control.v]: instruction types,
    immediates, ALU, memory and branch control, the packed ([funct3 = 001]), counter
    ([000]) and vector ([010]) extensions of opcode [0x5B]. A don't-care output ([x]) is
    [None]. *)

From S2P Require Import Prelude.

Module Decoder.

Record outputs := Outputs
  { rd : Z; rs1 : Z; rs2 : Z; imm : Z;
    alu_ctrl : option Z; alu_src2_sel : bool; mem_write : bool; mem_read : bool;
    wb_from_mem : bool; mem_mask : Z; mem_sign_extend : bool;
    is_branch : bool; branch_if_set : bool; is_branch_compare : bool;
    is_jal : bool; is_jalr : bool; is_auipc : bool; is_lui : bool;
    reg_write : bool; ebreak_hit : bool;
    is_vmac : bool; vmac_ctrl : option Z;
    is_rdwrctr : bool; rdwrctr_wen : bool; rdwrctr_ctr_id : Z;
    is_vec_op : bool; vec_op : Z; vec_sew : Z; is_vec_load : bool; is_vec_store : bool;
    vec_reg_write : bool; is_vec_vmac : bool }.

Definition bit (i insn : Z) : Z := slice i 1 insn.

Definition opcode (insn : Z) : Z := slice 0 7 insn.
Definition funct3 (insn : Z) : Z := slice 12 3 insn.
Definition funct7 (insn : Z) : Z := slice 25 7 insn.

(** Instruction types. *)
Definition is_r_type insn : bool := opcode insn =? 0x33.
Definition is_i_type insn : bool :=
  (opcode insn =? 0x13) || (opcode insn =? 0x03) || (opcode insn =? 0x67) || (opcode insn =? 0x73).
Definition is_s_type insn : bool := opcode insn =? 0x23.
Definition is_b_type insn : bool := opcode insn =? 0x63.
Definition is_u_type insn : bool := (opcode insn =? 0x37) || (opcode insn =? 0x17).
Definition is_j_type insn : bool := opcode insn =? 0x6F.
Definition is_vmac_type insn : bool := (opcode insn =? 0x5B) && (funct3 insn =? 1).
Definition is_rdwrctr_type insn : bool := (opcode insn =? 0x5B) && (funct3 insn =? 0).
Definition is_vec_type insn : bool := (opcode insn =? 0x5B) && (funct3 insn =? 2).

(** [funct7[4:0]] of the vector instructions. *)
Definition VOP_VADD : Z := 0.
Definition VOP_VSUB : Z := 1.
Definition VOP_VMUL : Z := 2.
Definition VOP_VMAC : Z := 3.
Definition VOP_VLD : Z := 4.
Definition VOP_VST : Z := 5.
Definition VOP_VMOV_S2V : Z := 8.
Definition VOP_VMOV_V2S : Z := 9.

Definition vop (insn : Z) : Z := wrap 5 (funct7 insn).

(** Immediates, as 32-bit words: the replicated sign bit on top. *)
Definition sign (n : Z) (insn : Z) : Z := if Z.testbit insn 31 then 2 ^ n - 1 else 0.
Definition imm_i insn : Z := sign 20 insn * 2 ^ 12 + slice 20 12 insn.
Definition imm_s insn : Z := sign 20 insn * 2 ^ 12 + slice 25 7 insn * 2 ^ 5 + slice 7 5 insn.
Definition imm_b insn : Z :=
  sign 19 insn * 2 ^ 13 + bit 31 insn * 2 ^ 12 + bit 7 insn * 2 ^ 11
  + slice 25 6 insn * 2 ^ 5 + slice 8 4 insn * 2.
Definition imm_u insn : Z := slice 12 20 insn * 2 ^ 12.
Definition imm_j insn : Z :=
  sign 11 insn * 2 ^ 21 + bit 31 insn * 2 ^ 20 + slice 12 8 insn * 2 ^ 12
  + bit 20 insn * 2 ^ 11 + slice 21 10 insn * 2.

Definition select_imm insn : Z :=
  if is_i_type insn then imm_i insn else if is_s_type insn then imm_s insn
  else if is_b_type insn then imm_b insn else if is_u_type insn then imm_u insn
  else if is_j_type insn then imm_j insn else 0.

Definition decode_alu insn : option Z :=
  let f3 := funct3 insn in let f7 := funct7 insn in
  if is_r_type insn then
    match f7, f3 with
    | 0, 0 => Some 0 | 32, 0 => Some 1 | 0, 7 => Some 2 | 0, 6 => Some 3 | 0, 4 => Some 4
    | 0, 1 => Some 5 | 0, 5 => Some 6 | 32, 5 => Some 7 | 0, 2 => Some 8 | 0, 3 => Some 9
    | _, _ => None
    end
  else if is_i_type insn && (opcode insn =? 0x13) then
    match f3 with
    | 0 => Some 0 | 7 => Some 2 | 6 => Some 3 | 4 => Some 4 | 2 => Some 8 | 3 => Some 9
    | 1 => Some 5
    | 5 => if f7 =? 0 then Some 6 else if f7 =? 32 then Some 7 else None
    | _ => None
    end
  else if is_b_type insn then
    match f3 with
    | 0 | 1 => Some 1 | 4 | 5 => Some 8 | 6 | 7 => Some 9 | _ => None
    end
  else if is_vmac_type insn || is_vec_type insn then None
  else Some 0.

Definition decode_vec_op insn : Z :=
  if is_vec_type insn then
    match vop insn with
    | 0 => 0 | 1 => 1 | 2 => 2 | 3 => 3 | 4 => 4 | 5 => 5 | 8 => 6 | 9 => 7 | _ => 0
    end
  else 0.

Definition decode_mem_mask insn : Z :=
  match funct3 insn with
  | 0 | 4 => 0xFF | 1 | 5 => 0xFFFF | 2 => 0xFFFFFFFF | _ => 0
  end.

Definition decode_vmac_ctrl insn : option Z :=
  if is_vmac_type insn then
    match funct7 insn with 0 => Some 0 | 1 => Some 1 | 2 => Some 2 | 3 => Some 3 | _ => None end
  else Some 0.

Definition writes_vreg insn : bool :=
  is_vec_type insn &&
  ((vop insn =? VOP_VADD) || (vop insn =? VOP_VSUB) || (vop insn =? VOP_VMUL)
   || (vop insn =? VOP_VLD) || (vop insn =? VOP_VMOV_S2V)).

Definition decode (insn : Z) : outputs :=
  let mem_read := is_i_type insn && (opcode insn =? 0x03) in
  let vec_vmac := is_vec_type insn && (vop insn =? VOP_VMAC) in
  {| rd := slice 7 5 insn;
     rs1 := if is_u_type insn then 0 else slice 15 5 insn;
     rs2 := slice 20 5 insn;
     imm := select_imm insn;
     alu_ctrl := decode_alu insn;
     alu_src2_sel := is_i_type insn || is_s_type insn || is_u_type insn;
     mem_write := is_s_type insn;
     mem_read := mem_read;
     wb_from_mem := mem_read;
     mem_mask := decode_mem_mask insn;
     mem_sign_extend := mem_read && (bit 14 insn =? 0);
     is_branch := is_b_type insn;
     branch_if_set := bit 12 insn =? 1;
     is_branch_compare := is_b_type insn && (bit 14 insn =? 1);
     is_jal := is_j_type insn;
     is_jalr := is_i_type insn && (opcode insn =? 0x67);
     is_auipc := is_u_type insn && (opcode insn =? 0x17);
     is_lui := is_u_type insn && (opcode insn =? 0x37);
     reg_write := (negb (is_b_type insn) && negb (is_s_type insn) && negb (is_vec_type insn))
                  || is_vmac_type insn || (is_rdwrctr_type insn && (bit 31 insn =? 0)) || vec_vmac;
     ebreak_hit := is_i_type insn && (opcode insn =? 0x73) && (funct3 insn =? 0);
     is_vmac := is_vmac_type insn;
     vmac_ctrl := decode_vmac_ctrl insn;
     is_rdwrctr := is_rdwrctr_type insn;
     rdwrctr_wen := is_rdwrctr_type insn && (bit 31 insn =? 1);
     rdwrctr_ctr_id := slice 20 2 insn;
     is_vec_op := is_vec_type insn;
     vec_op := decode_vec_op insn;
     vec_sew := if is_vec_type insn then slice 5 2 (funct7 insn) else 0;
     is_vec_load := is_vec_type insn && (vop insn =? VOP_VLD);
     is_vec_store := is_vec_type insn && (vop insn =? VOP_VST);
     vec_reg_write := writes_vreg insn;
     is_vec_vmac := vec_vmac |}.

(** * Immediates against the instruction set *)

(** The RISC-V immediates as signed numbers. *)
Definition i_value insn : Z := sgn 12 (slice 20 12 insn).
Definition s_value insn : Z := sgn 12 (pack 5 [slice 7 5 insn] + 2 ^ 5 * slice 25 7 insn).
Definition b_value insn : Z :=
  sgn 13 (2 * slice 8 4 insn + 2 ^ 5 * slice 25 6 insn + 2 ^ 11 * bit 7 insn + 2 ^ 12 * bit 31 insn).
Definition u_value insn : Z := sgn 32 (2 ^ 12 * slice 12 20 insn).
Definition j_value insn : Z :=
  sgn 21 (2 * slice 21 10 insn + 2 ^ 11 * bit 20 insn + 2 ^ 12 * slice 12 8 insn + 2 ^ 20 * bit 31 insn).

(** The part selects of a word, as numbers, with bit 31 apart. *)
Lemma slice_bounds lo w x : 0 <= w -> 0 <= slice lo w x < 2 ^ w.
Proof. intros. by apply slice_range. Qed.

Lemma bit_testbit i x : 0 <= i -> bit i x = Z.b2z (Z.testbit x i).
Proof.
  intros Hi. unfold bit, slice, wrap. rewrite Z.testbit_spec' by done.
  by rewrite Z.shiftr_div_pow2.
Qed.

(** The top bit of a part select that ends at bit 31. *)
Lemma slice_top lo w x :
  0 <= lo -> 0 < w -> lo + w = 32 ->
  slice lo w x = 2 ^ (w - 1) * bit 31 x + slice lo (w - 1) x.
Proof.
  intros Hlo Hw H. unfold bit, slice, wrap. rewrite !Z.shiftr_div_pow2 by lia.
  replace (2 ^ w) with (2 ^ (w - 1) * 2) by (rewrite (pow2_half w Hw); lia).
  rewrite Z.rem_mul_r by (pose proof (pow2_pos (w - 1)); lia).
  rewrite Z.div_div by (pose proof (pow2_pos (w - 1)); pose proof (pow2_pos lo); lia).
  rewrite <- Z.pow_add_r by lia. replace (lo + (w - 1)) with 31 by lia.
  change (2 ^ 1) with 2. lia.
Qed.

(** A two's complement value from its sign bit and the rest. *)
Lemma sgn_split w b r :
  0 < w -> 0 <= b <= 1 -> 0 <= r < 2 ^ (w - 1) -> sgn w (2 ^ (w - 1) * b + r) = r - 2 ^ (w - 1) * b.
Proof.
  intros Hw Hb Hr. pose proof (pow2_half w Hw).
  assert (b = 0 \/ b = 1) as [-> | ->] by lia; unfold sgn, wrap.
  - rewrite Z.mod_small by lia. destruct (Z.ltb_spec (2 ^ (w - 1) * 0 + r) (2 ^ (w - 1))); lia.
  - rewrite Z.mod_small by lia. destruct (Z.ltb_spec (2 ^ (w - 1) * 1 + r) (2 ^ (w - 1))); lia.
Qed.

Lemma bit_bounds i x : 0 <= bit i x <= 1.
Proof. pose proof (slice_bounds i 1 x ltac:(lia)). unfold bit. change (2 ^ 1) with 2 in *. lia. Qed.

Lemma sign_bit n x : sign n x = (2 ^ n - 1) * bit 31 x.
Proof. unfold sign. rewrite bit_testbit by lia. destruct (Z.testbit x 31); cbn [Z.b2z]; lia. Qed.

(** Collect the bounds of every part select in sight. *)
Ltac slices insn :=
  repeat match goal with
  | |- context [slice ?lo ?w insn] => lazymatch goal with
      | H : 0 <= slice lo w insn < _ |- _ => fail
      | _ => pose proof (slice_bounds lo w insn ltac:(lia)) end
  | |- context [bit ?i insn] => lazymatch goal with
      | H : 0 <= bit i insn <= 1 |- _ => fail
      | _ => pose proof (bit_bounds i insn) end
  end.

(** A word with sign bit [b] on top of [w - 1] bits [r]. *)
Lemma extend_word w b r :
  0 < w <= 32 -> 0 <= b <= 1 -> 0 <= r < 2 ^ (w - 1) ->
  ((2 ^ (32 - w) - 1) * 2 ^ w * b + 2 ^ (w - 1) * b + r)
  = wrap 32 (sgn w (2 ^ (w - 1) * b + r)).
Proof.
  intros Hw Hb Hr. rewrite sgn_split by lia.
  assert (Hp : 2 ^ 32 = 2 ^ (32 - w) * 2 ^ w) by (rewrite <- Z.pow_add_r by lia; f_equal; lia).
  pose proof (pow2_half w ltac:(lia)). pose proof (pow2_pos (32 - w) ltac:(lia)).
  assert (b = 0 \/ b = 1) as [-> | ->] by lia; unfold wrap.
  - rewrite Z.mod_small by nia. lia.
  - rewrite <- (Z_mod_plus_full _ 1), Z.mod_small by nia. nia.
Qed.

(** [C34] The immediate generators produce, for every instruction word, the
    32-bit two's complement of the immediate that the RISC-V formats define. *)
Theorem immediates_correct insn :
  imm_i insn = wrap 32 (i_value insn) /\ imm_s insn = wrap 32 (s_value insn) /\
  imm_b insn = wrap 32 (b_value insn) /\ imm_u insn = wrap 32 (u_value insn) /\
  imm_j insn = wrap 32 (j_value insn).
Proof.
  unfold imm_i, imm_s, imm_b, imm_u, imm_j. rewrite !sign_bit.
  unfold i_value, s_value, b_value, u_value, j_value. cbn [pack].
  rewrite (wrap_small 5 (slice 7 5 insn)) by (apply slice_range; lia).
  split_and!.
  - rewrite (slice_top 20 12) by lia. slices insn.
    pose proof (extend_word 12 (bit 31 insn) (slice 20 (12 - 1) insn)) as He. word_lia.
  - rewrite (slice_top 25 7) by lia. slices insn.
    pose proof (extend_word 12 (bit 31 insn) (slice 25 (7 - 1) insn * 2 ^ 5 + slice 7 5 insn)) as He.
    replace (slice 7 5 insn + 2 ^ 5 * 0 + 2 ^ 5 * (2 ^ (7 - 1) * bit 31 insn + slice 25 (7 - 1) insn))
      with (2 ^ (12 - 1) * bit 31 insn + (slice 25 (7 - 1) insn * 2 ^ 5 + slice 7 5 insn)) by word_lia.
    word_lia.
  - slices insn.
    pose proof (extend_word 13 (bit 31 insn)
      (2 * slice 8 4 insn + 2 ^ 5 * slice 25 6 insn + 2 ^ 11 * bit 7 insn)) as He.
    replace (2 * slice 8 4 insn + 2 ^ 5 * slice 25 6 insn + 2 ^ 11 * bit 7 insn + 2 ^ 12 * bit 31 insn)
      with (2 ^ (13 - 1) * bit 31 insn + (2 * slice 8 4 insn + 2 ^ 5 * slice 25 6 insn + 2 ^ 11 * bit 7 insn))
      by word_lia.
    word_lia.
  - slices insn. rewrite wrap_sgn by lia. rewrite wrap_small; word_lia.
  - slices insn.
    pose proof (extend_word 21 (bit 31 insn)
      (2 * slice 21 10 insn + 2 ^ 11 * bit 20 insn + 2 ^ 12 * slice 12 8 insn)) as He.
    replace (2 * slice 21 10 insn + 2 ^ 11 * bit 20 insn + 2 ^ 12 * slice 12 8 insn + 2 ^ 20 * bit 31 insn)
      with (2 ^ (21 - 1) * bit 31 insn + (2 * slice 21 10 insn + 2 ^ 11 * bit 20 insn + 2 ^ 12 * slice 12 8 insn))
      by word_lia.
    word_lia.
Qed.
End Decoder.
