(* ===== verification/VectorUnit.v ===== *)
(** The interface between the vector hardware and the C kernels. [VectorUnit] is
    what the inline assembly of the kernels executes ([pvmac], [vld], [vmac]), its
    laws are the contract; the hardware of [vmac.v], [valu.v] and [vlsu.v], clocked
    from any resting state, is an instance. Arrays are placed in memory through
    their little-endian object representation. *)

From S2P Require Import Prelude Vmac Valu Sram Vlsu.

(** The instructions the kernels issue. Results are read as [int32_t]. *)
Class VectorUnit := {
  pvmac : Z -> Z -> Z;                  (* .insn r 0x5B, 1, 2 *)
  vmac : Z -> Z -> Z -> Z;              (* .insn r 0x5B, 2, SEW<<5|3 on v1, v2 *)
  vld : (Z -> Z) -> Z -> Z              (* .insn r 0x5B, 2, 4 from memory at an address *)
}.

Class VectorUnitLaws (U : VectorUnit) : Prop := {
  pvmac_dot a b : pvmac a b = sgn 32 (dot (slanes 8 4 a) (slanes 8 4 b));
  vmac_dot s x y : 0 <= s <= 2 ->
    vmac s x y = sgn 32 (dot (slanes (Valu.width s) (Valu.count_of s) x)
                             (slanes (Valu.width s) (Valu.count_of s) y));
  vld_bytes m a : Sram.wf m -> 0 <= a -> a mod 4 = 0 -> a + 8 <= 2 ^ 24 ->
    vld m a = pack 8 (Sram.bytes_at m a 8)
}.

(** * The hardware instance *)

Module Hardware.

(** The registers of the three units between two instructions: all idle,
    whatever their data registers hold. *)
Record idle_units := Idle
  { vmac_st : Vmac.state; valu_st : Valu.state; vlsu_st : Vlsu.state; use_par : bool;
    vmac_idle : Vmac.computing vmac_st = false /\ Vmac.valid_out vmac_st = false;
    valu_idle : Valu.computing valu_st = false;
    vlsu_idle : Vlsu.resting vlsu_st }.

(** Run one instruction on the unit that executes it. *)
Definition run_pvmac (u : idle_units) (a b : Z) : Z :=
  sgn 32 (Vmac.result (run Vmac.step
    (Vmac.op_inputs Vmac.PVMAC a b (Vmac.latency Vmac.PVMAC)) (vmac_st u))).

Definition run_vmac (u : idle_units) (s x y : Z) : Z :=
  sgn 32 (Valu.result (run Valu.step
    (Valu.op_inputs Valu.OP_VMAC s x y (Valu.latency Valu.OP_VMAC s)) (valu_st u))).

Definition cpu_pins (start : bool) (a : Z) : Vlsu.cpu :=
  Vlsu.Cpu start false a 0 0 true false 0 0.

Definition run_vld (u : idle_units) (m : Z -> Z) (a : Z) : Z :=
  Vlsu.load_data (fst (Vlsu.sys_run (use_par u)
    (cpu_pins true a :: repeat (cpu_pins false 0) Vlsu.load_latency)
    (vlsu_st u, Sram.State m 0 0 false))).

#[export] Instance unit_of (u : idle_units) : VectorUnit :=
  { pvmac := run_pvmac u; vmac := run_vmac u; vld := run_vld u }.

Lemma low_in_sram a : 0 <= a -> a + 8 <= 2 ^ 24 -> Vlsu.in_sram a.
Proof.
  intros. unfold Vlsu.in_sram, Sram.is_uart, slice, wrap.
  rewrite !Z.shiftr_div_pow2 by lia.
  split; apply Z.eqb_neq; word_pows; Z.div_mod_to_equations; lia.
Qed.

#[export] Instance laws_of (u : idle_units) : VectorUnitLaws (unit_of u).
Proof.
  split; cbn [pvmac vmac vld unit_of].
  - intros a b. unfold run_pvmac. destruct (vmac_idle u) as [Hc Hv].
    rewrite Vmac.pvmac_result by done. apply sgn_wrap. lia.
  - intros s x y Hs. unfold run_vmac. rewrite Valu.vmac_result by (done || apply valu_idle).
    apply sgn_wrap. lia.
  - intros m a Hwf Ha Hal Hmax. unfold run_vld.
    pose proof (Vlsu.load_run (use_par u) (vlsu_st u) (Sram.State m 0 0 false)
      (cpu_pins true a) (repeat (cpu_pins false 0) Vlsu.load_latency)
      (vlsu_idle u) eq_refl (low_in_sram a Ha Hmax) eq_refl eq_refl eq_refl) as Hld.
    destruct (Vlsu.sys_run _ _ _) as [v' m']. destruct Hld as (_ & _ & Hd & _).
    cbn [fst]. rewrite Hd. apply Vlsu.two_words_bytes; [done..|]. cbn. lia.
Qed.

(** The units right after reset. *)
Definition at_reset : idle_units :=
  Idle (Vmac.step (Vmac.Inputs false 0 0 0 false) (Vmac.State 7 true (fun _ => 5) 1 true))
    (Valu.step (Valu.Inputs false 0 0 0 0 false)
       (Valu.State 7 true 1 true (fun _ => 1) (fun _ => 2) (fun _ => 3)
          (fun _ => 4) (fun _ => 5) (fun _ => 6)))
    Vlsu.v_reset false (conj eq_refl eq_refl) eq_refl (conj eq_refl eq_refl).
End Hardware.

(** * Arrays in memory *)

Module Arrays.

(** Object representation of an array of [w]-bit integers. *)
Definition bytes_of (w : Z) (l : list Z) : list Z := flat_map (lanes 8 (Z.to_nat (w / 8))) l.

(** The memory words when the bytes [bs] lie at address [base]. *)
Definition image (base : Z) (bs : list Z) : Z -> Z :=
  fun j => pack 8 (take 4 (drop (Z.to_nat (4 * (j - Sram.index base))) bs)).

(** [vld] from element [i] of an array of [w]-bit integers at [base]; reading past
    the end of the object is undefined. *)
Definition vld_elem `{VectorUnit} (base w : Z) (l : list Z) (i : nat) : option Z :=
  let bs := bytes_of w l in
  let off := Z.of_nat i * (w / 8) in
  if decide (off + 8 <= Z.of_nat (length bs)) then Some (vld (image base bs) (base + off))
  else None.

(** An object of [n] bytes is 8-aligned and inside the 16 MB of memory. *)
Definition placed (base : Z) (n : nat) : Prop :=
  0 <= base /\ base mod 8 = 0 /\ base + Z.of_nat n <= 2 ^ 24.

#[export] Instance placed_dec base n : Decision (placed base n).
Proof. unfold placed. apply _. Defined.

Lemma length_bytes_of w l : length (bytes_of w l) = (Z.to_nat (w / 8) * length l)%nat.
Proof.
  unfold bytes_of. induction l as [|x l IH]; cbn [flat_map length]; [lia|].
  rewrite length_app, length_lanes, IH. lia.
Qed.

Lemma bytes_of_range w l : Forall (urange 8) (bytes_of w l).
Proof.
  unfold bytes_of. induction l as [|x l IH]; cbn [flat_map]; [constructor|].
  apply Forall_app. split; [|done]. apply lanes_range. lia.
Qed.

Lemma index_small a : 0 <= a < 2 ^ 24 -> Sram.index a = a / 4.
Proof.
  intros. unfold Sram.index, slice. rewrite Z.shiftr_div_pow2 by lia.
  apply wrap_small. unfold urange. word_pows. Z.div_mod_to_equations. lia.
Qed.

Lemma image_wf base bs : Sram.wf (image base bs).
Proof.
  intros j. unfold image. pose proof (pack_range 8 (take 4 (drop (Z.to_nat (4 * (j - Sram.index base))) bs)) ltac:(lia)) as H.
  rewrite length_take in H. unfold urange in *. split; [lia|].
  eapply Z.lt_le_trans; [apply H|]. apply Z.pow_le_mono_r; lia.
Qed.

Lemma lane_pack i l : Forall (urange 8) l -> lane 8 i (pack 8 l) = nth i l 0.
Proof.
  revert i. induction l as [|x l IH]; intros i Hl.
  - unfold lane, slice. rewrite Z.shiftr_0_l. by destruct i.
  - apply Forall_cons_1 in Hl as [Hx Hl]. destruct i as [|i].
    + unfold lane. rewrite Z.mul_0_r, slice_0, pack_cons_low by lia. by apply wrap_small.
    + cbn [nth]. rewrite <- (IH i) by done. unfold lane, slice. f_equal.
      rewrite <- (pack_cons_high 8 x l) by lia. rewrite Z.shiftr_shiftr by lia. f_equal. lia.
Qed.

(** Reading the image gives the object's bytes. *)
Lemma byte_at_image base bs k :
  placed base (length bs) -> Forall (urange 8) bs -> (k < length bs)%nat ->
  Sram.byte_at (image base bs) (base + Z.of_nat k) = nth k bs 0.
Proof.
  intros (H0 & Hal & Hmax) Hbs Hk. unfold Sram.byte_at, image.
  rewrite lane_pack by (by apply Forall_take, Forall_drop).
  rewrite !index_small by lia.
  assert (Hd : Z.to_nat (4 * ((base + Z.of_nat k) / 4 - base / 4)) = (4 * (k / 4))%nat).
  { apply Nat2Z.inj. rewrite Nat2Z.inj_mul, Nat2Z.inj_div. rewrite Z2Nat.id;
      Z.div_mod_to_equations; lia. }
  assert (Hm : Z.to_nat ((base + Z.of_nat k) mod 4) = (k mod 4)%nat).
  { apply Nat2Z.inj. rewrite Nat2Z.inj_mod. rewrite Z2Nat.id; Z.div_mod_to_equations; lia. }
  rewrite Hd, Hm. rewrite !nth_lookup, lookup_take_lt, lookup_drop by
    (apply Nat.mod_upper_bound; lia).
  f_equal. f_equal. symmetry. apply (Nat.div_mod_eq k 4).
Qed.

Lemma bytes_at_image base bs off n :
  placed base (length bs) -> Forall (urange 8) bs -> (off + n <= length bs)%nat ->
  Sram.bytes_at (image base bs) (base + Z.of_nat off) n = take n (drop off bs).
Proof.
  intros Hp Hbs Hn. unfold Sram.bytes_at. apply list_eq_same_length with n.
  - rewrite length_take, length_drop. lia.
  - by rewrite length_map, length_seq.
  - intros i x y Hi. rewrite list_lookup_fmap, lookup_seq_lt by lia. cbn.
    rewrite lookup_take_lt, lookup_drop by done.
    rewrite <- Z.add_assoc, <- Nat2Z.inj_add, byte_at_image by (done || lia).
    rewrite nth_lookup. intros [= <-] ->. done.
Qed.

Lemma take_drop_flat k n i l :
  take (k * n) (drop (k * i) (flat_map (lanes 8 k) l)) =
  flat_map (lanes 8 k) (take n (drop i l)).
Proof.
  revert i n. induction l as [|x l IH]; intros i n.
  - cbn [flat_map]. by rewrite !drop_nil, !take_nil.
  - cbn [flat_map]. destruct i as [|i].
    + rewrite Nat.mul_0_r, !drop_0. destruct n as [|n]; [by rewrite Nat.mul_0_r|].
      cbn [take flat_map]. rewrite take_app_ge by (rewrite length_lanes; lia).
      f_equal. rewrite length_lanes.
      replace (k * S n - k)%nat with (k * n)%nat by lia.
      pose proof (IH 0%nat n) as H. by rewrite Nat.mul_0_r, !drop_0 in H.
    + rewrite drop_app_ge by (rewrite length_lanes; lia).
      rewrite length_lanes. replace (k * S i - k)%nat with (k * i)%nat by lia.
      cbn [drop]. apply IH.
Qed.

(** The vector [vld] loads from an in-range element whose offset is a multiple of 8
    holds the next [8 / sizeof] elements. *)
Lemma vld_elem_pack `{U : VectorUnit} `{!VectorUnitLaws U} base k n l i :
  (k * n = 8)%nat -> placed base (k * length l) ->
  (i + n <= length l)%nat -> (Z.of_nat i * Z.of_nat k) mod 4 = 0 ->
  vld_elem base (8 * Z.of_nat k) l i = Some (pack (8 * Z.of_nat k) (take n (drop i l))).
Proof.
  intros Hkn Hp Hin Hal. unfold vld_elem.
  replace (8 * Z.of_nat k / 8) with (Z.of_nat k) by (rewrite Z.mul_comm, Z.div_mul; lia).
  assert (Hlen : length (bytes_of (8 * Z.of_nat k) l) = (k * length l)%nat).
  { rewrite length_bytes_of. f_equal. rewrite Z.mul_comm, Z.div_mul by lia. lia. }
  rewrite decide_True by (rewrite Hlen; nia). f_equal.
  destruct Hp as (? & ? & ?).
  rewrite vld_bytes; [|by apply image_wf|nia| |nia].
  2:{ rewrite Zplus_mod, Hal. Z.div_mod_to_equations. lia. }
  rewrite <- Nat2Z.inj_mul, bytes_at_image;
    [|by rewrite Hlen; split_and!|apply bytes_of_range|rewrite Hlen; nia].
  unfold bytes_of. replace (8 * Z.of_nat k / 8) with (Z.of_nat k)
    by (rewrite Z.mul_comm, Z.div_mul; lia).
  rewrite Nat2Z.id, <- Hkn, (Nat.mul_comm i k), take_drop_flat. apply pack_flat_lanes. lia.
Qed.
End Arrays.
