(* ===== verification/Kernels.v ===== *)
(** The int8 MNIST inference kernels of [sw/mnist-newlib]: [benchmark_mnist_sew.c]
    (scalar, PVMAC and the three VMAC widths over pre-transposed weights),
    [benchmark_wide_vec.c] and [benchmark_pvmac.c] (packing on the fly). Arrays
    are lists, [int32_t] arithmetic is checked for overflow, the vector instructions are
    those of a [VectorUnit]. The theorems: every int8 kernel is total and computes
    the same network and the same class as the scalar one; the int16 kernel computes
    its own saturation; the int32 kernel overflows on representable inputs. *)

From S2P Require Import Prelude Loops Valu VectorUnit.
Import Arrays.

Definition INPUT_SIZE : nat := 784.
Definition HIDDEN_SIZE : nat := 32.
Definition OUTPUT_SIZE : nat := 10.

(** Addresses of the arrays a kernel reads with vector loads. *)
Record layout := Layout { a_input : Z; a_hidden : Z; a_W1 : Z; a_W2 : Z }.

Module Kernels.

Definition relu_int8 (x : Z) : Z :=
  if x <? 0 then 0 else if x >? 127 then 127 else sgn 8 x.

(** The activation of the [int16_t] kernel: clamp to [0, 32767]. *)
Definition clamp_h (acc : Z) : Z :=
  if acc <? 0 then 0 else if acc >? 32767 then 32767 else sgn 16 acc.
(** The activation of the [int32_t] kernel. *)
Definition clamp_w (acc : Z) : Z := if acc <? 0 then 0 else acc.

(** [for j { acc = 0; for i in ixs { acc += term(j, i); } out[j] = act(acc); }] *)
Definition layer (n : nat) (ixs : list nat) (term : nat -> nat -> option Z)
    (act : Z -> Z) (out : list Z) : option (list Z) :=
  loop (upto n) (fun j out =>
    let* acc := loop ixs (fun i acc => let* t := term j i in add32 acc t) 0 in
    store out j (act acc)) out.

(** What a kernel leaves: the class, the hidden and the output activations. *)
Definition outcome : Type := nat * list Z * list Z.

(** The packed weight arrays of [benchmark_mnist_sew.c]. *)
Record packed := Packed
  { W1_packed : list (list Z); W2_packed : list (list Z);
    W1_packed_h : list (list Z); W2_packed_h : list (list Z);
    W1_packed_w : list (list Z); W2_packed_w : list (list Z) }.

(** One of the two loop nests of [prepare_weights]: the three copies of a
    transposed weight matrix. The int8 values are unchanged by the widening casts. *)
Definition transpose_loop (n_out n_in : nat) (W : list (list Z))
    (s : list (list Z) * (list (list Z) * list (list Z))) :=
  loop (upto n_out) (fun j s =>
    loop (upto n_in) (fun i s =>
      let* p := (let* v := get2 W i j in store2 (fst s) j i v) in
      let* q := (let* ph := (let* v := get2 W i j in store2 (fst (snd s)) j i (sgn 16 v)) in
                 let* pw := (let* v := get2 W i j in store2 (snd (snd s)) j i (sgn 32 v)) in
                 Some (ph, pw)) in
      Some (p, q)) s) s.

Definition prepare_weights (W1_i8 W2_i8 : list (list Z)) (p : packed) : option packed :=
  let* (w1, (w1h, w1w)) := transpose_loop HIDDEN_SIZE INPUT_SIZE W1_i8
     (W1_packed p, (W1_packed_h p, W1_packed_w p)) in
  let* (w2, (w2h, w2w)) := transpose_loop OUTPUT_SIZE HIDDEN_SIZE W2_i8
     (W2_packed p, (W2_packed_h p, W2_packed_w p)) in
  Some (Packed w1 w2 w1h w2h w1w w2w).

(** ** Scalar *)

(** [(int32_t)x[i] * (int32_t)W[j][i]] *)
Definition scalar_term (x : list Z) (W : list (list Z)) (j i : nat) : option Z :=
  let* a := x !! i in let* b := get2 W j i in mul32 a b.

Definition mlp_forward_scalar (W1 W2 : list (list Z)) (input hidden output : list Z)
    : option outcome :=
  let* hidden := layer HIDDEN_SIZE (upto INPUT_SIZE) (scalar_term input W1) relu_int8 hidden in
  let* output := layer OUTPUT_SIZE (upto HIDDEN_SIZE) (scalar_term hidden W2) relu_int8 output in
  let* pred := argmax_index output OUTPUT_SIZE in
  Some (pred, hidden, output).

Section Vector.
Context `{VectorUnit}.

(** ** PVMAC *)

(** [*(uint32_t * )&l[i]]: four bytes, little endian, at an aligned offset. *)
Definition load_u32 (l : list Z) (i : nat) : option Z :=
  let* _ := assert (i mod 4 = 0)%nat in
  let* _ := assert (i + 4 <= length l)%nat in
  Some (pack 8 (take 4 (drop i l))).

Definition pvmac_term (n : nat) (x : list Z) (W : list (list Z)) (j i : nat) : option Z :=
  let* a := load_u32 x i in
  let* b := load_u32 (concat W) (j * n + i) in
  Some (pvmac (sgn 32 a) (sgn 32 b)).

Definition mlp_forward_pvmac (W1 W2 : list (list Z)) (input hidden output : list Z)
    : option outcome :=
  let* hidden := layer HIDDEN_SIZE (every 4 (INPUT_SIZE / 4))
    (pvmac_term INPUT_SIZE input W1) relu_int8 hidden in
  let* output := layer OUTPUT_SIZE (every 4 (HIDDEN_SIZE / 4))
    (pvmac_term HIDDEN_SIZE hidden W2) relu_int8 output in
  let* pred := argmax_index output OUTPUT_SIZE in
  Some (pred, hidden, output).

(** ** VMAC *)

(** [vld_v1(&x[i]); vld_v2(&W[j][i]); vmac()] on [w]-bit elements. *)
Definition vmac_term (sew w ax aW : Z) (n : nat) (x : list Z) (W : list (list Z)) (j i : nat)
    : option Z :=
  let* v1 := vld_elem ax w x i in
  let* v2 := vld_elem aW w (concat W) (j * n + i) in
  Some (vmac sew v1 v2).

Definition mlp_forward_vmac_b (lay : layout) (W1 W2 : list (list Z)) (input hidden output : list Z)
    : option outcome :=
  let* hidden := layer HIDDEN_SIZE (every 8 (INPUT_SIZE / 8))
    (vmac_term 0 8 (a_input lay) (a_W1 lay) INPUT_SIZE input W1) relu_int8 hidden in
  let* output := layer OUTPUT_SIZE (every 8 (HIDDEN_SIZE / 8))
    (vmac_term 0 8 (a_hidden lay) (a_W2 lay) HIDDEN_SIZE hidden W2) relu_int8 output in
  let* pred := argmax_index output OUTPUT_SIZE in
  Some (pred, hidden, output).

Definition mlp_forward_vmac_h (lay : layout) (W1 W2 : list (list Z)) (input hidden output : list Z)
    : option outcome :=
  let* hidden := layer HIDDEN_SIZE (every 4 (INPUT_SIZE / 4))
    (vmac_term 1 16 (a_input lay) (a_W1 lay) INPUT_SIZE input W1) clamp_h hidden in
  let* output := layer OUTPUT_SIZE (every 4 (HIDDEN_SIZE / 4))
    (vmac_term 1 16 (a_hidden lay) (a_W2 lay) HIDDEN_SIZE hidden W2) clamp_h output in
  let* pred := argmax_index output OUTPUT_SIZE in
  Some (pred, hidden, output).

Definition mlp_forward_vmac_w (lay : layout) (W1 W2 : list (list Z)) (input hidden output : list Z)
    : option outcome :=
  let* hidden := layer HIDDEN_SIZE (every 2 (INPUT_SIZE / 2))
    (vmac_term 2 32 (a_input lay) (a_W1 lay) INPUT_SIZE input W1) clamp_w hidden in
  let* output := layer OUTPUT_SIZE (every 2 (HIDDEN_SIZE / 2))
    (vmac_term 2 32 (a_hidden lay) (a_W2 lay) HIDDEN_SIZE hidden W2) clamp_w output in
  let* pred := argmax_index output OUTPUT_SIZE in
  Some (pred, hidden, output).

(** ** Packing on the fly *)

(** [pack4] of [benchmark_pvmac.c]. *)
Definition pack4 (a b c d : Z) : Z :=
  sgn 32 (Z.lor (Z.lor (Z.lor (wrap 32 (Z.shiftl (wrap 8 d) 24))
    (wrap 32 (Z.shiftl (wrap 8 c) 16))) (wrap 32 (Z.shiftl (wrap 8 b) 8))) (wrap 8 a)).

Definition pvmac_packed_term (x : list Z) (W : list (list Z)) (j i : nat) : option Z :=
  let* x0 := x !! i in let* x1 := x !! (i + 1)%nat in
  let* x2 := x !! (i + 2)%nat in let* x3 := x !! (i + 3)%nat in
  let* w0 := get2 W i j in let* w1 := get2 W (i + 1) j in
  let* w2 := get2 W (i + 2) j in let* w3 := get2 W (i + 3) j in
  Some (pvmac (pack4 x0 x1 x2 x3) (pack4 w0 w1 w2 w3)).

(** [mlp_forward_pvmac] of [benchmark_pvmac.c], on the untransposed weights. *)
Definition mlp_forward_pvmac_packed (W1_i8 W2_i8 : list (list Z)) (input hidden output : list Z)
    : option outcome :=
  let* hidden := layer HIDDEN_SIZE (every 4 (INPUT_SIZE / 4))
    (pvmac_packed_term input W1_i8) relu_int8 hidden in
  let* output := layer OUTPUT_SIZE (every 4 (HIDDEN_SIZE / 4))
    (pvmac_packed_term hidden W2_i8) relu_int8 output in
  let* pred := argmax_value output OUTPUT_SIZE in
  Some (pred, hidden, output).

(** The 8-element gather loop of [benchmark_wide_vec.c] into two aligned
    temporaries, whose previous contents are indeterminate. *)
Definition gather8 (x : list Z) (W : list (list Z)) (j i : nat) (tmp : list Z * list Z)
    : option (list Z * list Z) :=
  loop (upto 8) (fun k s =>
    let* p := (let* v := x !! (i + k)%nat in store (fst s) k v) in
    let* q := (let* v := get2 W (i + k) j in store (snd s) k v) in
    Some (p, q)) tmp.

Definition vec_mac_8 (ap aw : Z) (input_vec weight_vec : list Z) : option Z :=
  let* v1 := vld_elem ap 8 input_vec 0 in
  let* v2 := vld_elem aw 8 weight_vec 0 in
  Some (vmac 0 v1 v2).

Definition wide_term (av aw : Z) (tmp : list Z * list Z) (x : list Z) (W : list (list Z))
    (j i : nat) : option Z :=
  let* (xv, wv) := gather8 x W j i tmp in vec_mac_8 av aw xv wv.

Definition mlp_forward_wide_vec (lay : layout) (tmp : list Z * list Z)
    (W1_i8 W2_i8 : list (list Z)) (input hidden output : list Z) : option outcome :=
  let* hidden := layer HIDDEN_SIZE (every 8 (INPUT_SIZE / 8))
    (wide_term (a_input lay) (a_W1 lay) tmp input W1_i8) relu_int8 hidden in
  let* output := layer OUTPUT_SIZE (every 8 (HIDDEN_SIZE / 8))
    (wide_term (a_hidden lay) (a_W2 lay) tmp hidden W2_i8) relu_int8 output in
  let* pred := argmax_value output OUTPUT_SIZE in
  Some (pred, hidden, output).
End Vector.

(** * Reference network *)

(** A dense layer: row [j] of [W] holds the weights of neuron [j]. *)
Definition dense (act : Z -> Z) (x : list Z) (W : list (list Z)) : list Z :=
  map (fun row => act (dot x row)) W.

(** The outcome of a kernel with activation [act]: both layers, and the first
    class of maximal output. *)
Definition infers (act : Z -> Z) (W1 W2 : list (list Z)) (x : list Z) (r : option outcome) : Prop :=
  let h := dense act x W1 in let o := dense act h W2 in
  exists p, r = Some (p, h, o) /\ first_max o (length W2) p.

(** Typed arrays: [w]-bit elements, fixed length. *)
Definition ints (w : Z) (n : nat) (l : list Z) : Prop := length l = n /\ Forall (srange w) l.
Definition matrix (w : Z) (m n : nat) (W : list (list Z)) : Prop :=
  shape m n W /\ Forall (Forall (srange w)) W.

#[export] Instance ints_dec w n l : Decision (ints w n l).
Proof. unfold ints. apply _. Defined.
#[export] Instance matrix_dec w m n W : Decision (matrix w m n W).
Proof. unfold matrix. apply _. Defined.

(** ** Activations *)

Lemma relu_int8_spec x : relu_int8 x = Z.max 0 (Z.min x 127).
Proof.
  unfold relu_int8. destruct (Z.ltb_spec x 0); [lia|]. destruct (Z.gtb_spec x 127); [lia|].
  rewrite sgn_small; [lia..|]. word_lia.
Qed.
Lemma clamp_h_spec x : clamp_h x = Z.max 0 (Z.min x 32767).
Proof.
  unfold clamp_h. destruct (Z.ltb_spec x 0); [lia|]. destruct (Z.gtb_spec x 32767); [lia|].
  rewrite sgn_small; [lia..|]. word_lia.
Qed.
Lemma clamp_w_spec x : clamp_w x = Z.max 0 x.
Proof. unfold clamp_w. destruct (Z.ltb_spec x 0); lia. Qed.

Lemma dense_range w act x W : (forall z, srange w (act z)) -> Forall (srange w) (dense act x W).
Proof. intros Ha. apply Forall_map, Forall_true. intros row. apply Ha. Qed.

Lemma relu_range z : srange 8 (relu_int8 z).
Proof. rewrite relu_int8_spec. word_lia. Qed.
Lemma clamp_h_range z : srange 16 (clamp_h z).
Proof. rewrite clamp_h_spec. word_lia. Qed.

Lemma length_dense act x W : length (dense act x W) = length W.
Proof. apply length_map. Qed.

Lemma srange_bounded w l : 0 < w -> Forall (srange w) l -> bounded (2 ^ (w - 1)) l.
Proof. intros Hw Hl. apply (Forall_impl _ _ _ Hl). unfold srange. intros x. lia. Qed.

Lemma matrix_row w m n W j row :
  matrix w m n W -> W !! j = Some row -> ints w n row.
Proof.
  intros [Hs Hr] Hj. split; [by apply (shape_row _ _ _ _ _ Hs Hj)|].
  by apply (Forall_lookup_1 _ _ _ _ Hr Hj).
Qed.

(** Constant arrays of a type. *)
Lemma ints_repeat w x n : srange w x -> ints w n (repeat x n).
Proof. intros Hx. split; [apply repeat_length|by apply Forall_repeat]. Qed.
Lemma matrix_repeat w x m n : srange w x -> matrix w m n (repeat (repeat x n) m).
Proof. intros Hx. split; [apply shape_repeat|by apply Forall_repeat, Forall_repeat]. Qed.
Lemma dense_repeat act a b n m :
  dense act (repeat a n) (repeat (repeat b n) m) = repeat (act (Z.of_nat n * (a * b))) m.
Proof. unfold dense. by rewrite map_repeat, dot_repeat. Qed.

(** ** Layers *)

Lemma map_nth_upto {A B} (f : A -> B) (l : list A) d :
  map (fun j => f (nth j l d)) (upto (length l)) = map f l.
Proof.
  unfold upto. induction l as [|x l IH]; [done|]. cbn [length seq map nth].
  f_equal. rewrite <- seq_shift, map_map. exact IH.
Qed.

(** A layer whose terms add up to the dot product of the input and the
    neuron's weights, small enough not to overflow. *)
Lemma layer_dense ixs term act x W out (f : list Z -> nat -> Z) B :
  length out = length W -> 0 <= B -> Z.of_nat (length ixs) * B < 2 ^ 31 ->
  (forall j row, W !! j = Some row ->
     sumZ (map (f row) ixs) = dot x row /\
     forall i, i ∈ ixs -> term j i = Some (f row i) /\ Z.abs (f row i) <= B) ->
  layer (length W) ixs term act out = Some (dense act x W).
Proof.
  intros Hlen HB Hmax Hterm. unfold layer.
  rewrite (loop_ext _ _ (fun j o => let* v := (let* acc := loop ixs (fun i acc =>
    let* t := term j i in add32 acc t) 0 in Some (act acc)) in store o j v))
    by (intros j t _; by destruct (loop ixs _ _)).
  rewrite (loop_fill _ _ (fun j => act (dot x (nth j W [])))); [|done|].
  - f_equal. apply (map_nth_upto (fun row => act (dot x row)) W []).
  - intros j Hj. destruct (lookup_lt_is_Some_2 W j Hj) as [row Hrow].
    destruct (Hterm j row Hrow) as [Hsum Ht].
    rewrite (loop_sum _ _ (f row) 0 B HB Ht) by (cbn; lia). cbn.
    by rewrite Hsum, (nth_lookup W), Hrow.
Qed.

(** The common tail of the kernels. *)
Lemma infers_intro act W1 W2 x (argmax : list Z -> nat -> option nat) n :
  length W2 = n -> (0 < n)%nat ->
  (forall l, length l = n -> exists p, argmax l n = Some p /\ first_max l n p) ->
  infers act W1 W2 x
    (let* p := argmax (dense act (dense act x W1) W2) n in
     Some (p, dense act x W1, dense act (dense act x W1) W2)).
Proof.
  intros Hn H0 Hmax. destruct (Hmax (dense act (dense act x W1) W2)) as (p & -> & Hp);
    [by rewrite length_dense|]. exists p. cbn. by rewrite Hn.
Qed.

Lemma get2_row W j i row : W !! j = Some row -> (i < length row)%nat -> get2 W j i = Some (nth i row 0).
Proof. intros Hj Hi. unfold get2. rewrite Hj. cbn. by apply lookup_nth_lt. Qed.

(** Scalar layer of int8 operands. *)
Lemma scalar_layer n act x W out :
  ints 8 n x -> matrix 8 (length W) n W -> length out = length W -> Z.of_nat n * 2 ^ 14 < 2 ^ 31 ->
  layer (length W) (upto n) (scalar_term x W) act out = Some (dense act x W).
Proof.
  intros [Hn Hx] HW Hout Hmax.
  apply (layer_dense _ _ _ _ _ _ (fun row i => nth i x 0 * nth i row 0) (2 ^ 14));
    [done|lia|by unfold upto; rewrite length_seq|].
  intros j row Hrow. destruct (matrix_row _ _ _ _ _ _ HW Hrow) as [Hl Hr]. split.
  - rewrite <- Hn. apply dot_nth. lia.
  - intros i Hi. apply elem_of_upto in Hi.
    pose proof (bounded_nth (2 ^ (8 - 1)) x i ltac:(done) (srange_bounded 8 x ltac:(lia) Hx)) as Hbx.
    pose proof (bounded_nth (2 ^ (8 - 1)) row i ltac:(done) (srange_bounded 8 row ltac:(lia) Hr)) as Hbr.
    assert (Hb : Z.abs (nth i x 0 * nth i row 0) <= 2 ^ 14) by (rewrite Z.abs_mul; word_pows; nia).
    split; [|done]. unfold scalar_term. rewrite lookup_nth_lt by lia. cbn.
    rewrite (get2_row _ _ _ _ Hrow) by lia. cbn. unfold mul32, int_op.
    rewrite decide_True; [done|]. word_lia.
Qed.

(** A layer that consumes [k] elements per step. *)
Lemma chunk_layer k q n A B term act x W out :
  n = (q * k)%nat -> length x = n -> shape (length W) n W -> length out = length W ->
  0 <= A -> 0 <= B -> bounded A x -> Forall (bounded B) W ->
  Z.of_nat n * (A * B) < 2 ^ 31 ->
  (forall j row i, W !! j = Some row -> i ∈ every k q ->
     term j i = Some (dot (take k (drop i x)) (take k (drop i row)))) ->
  layer (length W) (every k q) term act out = Some (dense act x W).
Proof.
  intros Hn Hx HW Hout HA HB Hbx HbW Hmax Hterm.
  apply (layer_dense _ _ _ _ _ _ (fun row i => dot (take k (drop i x)) (take k (drop i row)))
    (Z.of_nat k * (A * B))); [done|nia|by rewrite length_every, Z.mul_assoc, <- Nat2Z.inj_mul, <- Hn|].
  intros j row Hrow. pose proof (shape_row _ _ _ _ _ HW Hrow) as Hl. split.
  - apply dot_chunks; lia.
  - intros i Hi. split; [by apply Hterm|].
    etransitivity; [apply (dot_bound A B)|]; [done..| | |].
    + by apply bounded_take, bounded_drop.
    + apply bounded_take, bounded_drop. by apply (Forall_lookup_1 _ _ _ _ HbW Hrow).
    + rewrite length_take. apply Z.mul_le_mono_nonneg_r; [nia|lia].
Qed.

(** Rows of a matrix stored contiguously. *)
Lemma drop_concat m n W j row i k :
  shape m n W -> W !! j = Some row -> (i + k <= n)%nat ->
  take k (drop (j * n + i) (concat W)) = take k (drop i row).
Proof.
  intros [_ HW]. revert j. induction HW as [|r W Hr HW IH]; intros j Hj Hk; [done|].
  cbn [concat]. destruct j as [|j].
  - injection Hj as ->. rewrite Nat.mul_0_l, Nat.add_0_l, drop_app_le by lia.
    apply take_app_le. rewrite length_drop. lia.
  - rewrite drop_app_ge by lia. replace (S j * n + i - length r)%nat with (j * n + i)%nat by lia.
    by apply IH.
Qed.

Lemma length_concat_shape m n W : shape m n W -> length (concat W) = (m * n)%nat.
Proof.
  intros [<- HW]. induction HW as [|r W Hr _ IH]; [done|].
  cbn [concat length]. rewrite length_app. lia.
Qed.

Lemma row_bound m n W j (row : list Z) : shape m n W -> W !! j = Some row -> (j < m)%nat.
Proof. intros [<- _] Hj. by apply lookup_lt_Some in Hj. Qed.

(** ** The vector terms *)

Lemma slanes_sgn w n v x :
  0 <= w -> 0 <= v -> w * Z.of_nat n <= v -> slanes w n (sgn v x) = slanes w n x.
Proof. intros. unfold slanes. by rewrite lanes_sgn. Qed.

Lemma slanes_pack_n w n l :
  0 < w -> length l = n -> Forall (srange w) l -> slanes w n (pack w l) = l.
Proof. intros ? <- ?. by apply slanes_pack. Qed.

Lemma length_chunk {A} k i (l : list A) : (i + k <= length l)%nat -> length (take k (drop i l)) = k.
Proof. intros. rewrite length_take, length_drop. lia. Qed.

Lemma chunk_range w k i l : Forall (srange w) l -> Forall (srange w) (take k (drop i l)).
Proof. intros. by apply Forall_take, Forall_drop. Qed.

(** Reading a small dot product back as [int32_t] is exact. *)
Lemma sgn_dot A B k i x y :
  0 <= A -> 0 <= B -> bounded A x -> bounded B y -> Z.of_nat k * (A * B) < 2 ^ 31 ->
  sgn 32 (dot (take k (drop i x)) (take k (drop i y))) = dot (take k (drop i x)) (take k (drop i y)).
Proof.
  intros HA HB Hx Hy Hmax. apply sgn_small; [lia|].
  pose proof (dot_bound A B (take k (drop i x)) (take k (drop i y)) HA HB
    ltac:(by apply bounded_take, bounded_drop) ltac:(by apply bounded_take, bounded_drop)) as Hb.
  rewrite length_take in Hb.
  assert (Z.of_nat (k `min` length (drop i x)) * (A * B) <= Z.of_nat k * (A * B))
    by (apply Z.mul_le_mono_nonneg_r; [nia|lia]).
  word_lia.
Qed.

Section VectorTerms.
Context `{U : VectorUnit} `{!VectorUnitLaws U}.

Lemma pvmac_pack a b :
  ints 8 4 a -> ints 8 4 b -> pvmac (sgn 32 (pack 8 a)) (sgn 32 (pack 8 b)) = sgn 32 (dot a b).
Proof.
  intros [Ha Ra] [Hb Rb]. rewrite pvmac_dot. rewrite !slanes_sgn by lia.
  by rewrite !slanes_pack_n by (done || lia).
Qed.

Lemma int8_chunk_exact k i x y :
  Forall (srange 8) x -> Forall (srange 8) y -> (k <= 8)%nat ->
  sgn 32 (dot (take k (drop i x)) (take k (drop i y))) = dot (take k (drop i x)) (take k (drop i y)).
Proof.
  intros Hx Hy Hk. apply (sgn_dot (2 ^ 7) (2 ^ 7)); try done.
  - by apply (srange_bounded 8).
  - by apply (srange_bounded 8).
  - word_lia.
Qed.

Lemma pvmac_term_chunk n q x W j row i :
  n = (q * 4)%nat -> ints 8 n x -> matrix 8 (length W) n W -> W !! j = Some row -> i ∈ every 4 q ->
  pvmac_term n x W j i = Some (dot (take 4 (drop i x)) (take 4 (drop i row))).
Proof.
  intros Hn [Hlx Rx] HW Hj Hi. apply elem_of_every in Hi as (t & -> & Ht).
  destruct (matrix_row _ _ _ _ _ _ HW Hj) as [Hlr Rr].
  pose proof (row_bound _ _ _ _ _ (proj1 HW) Hj) as Hjl.
  unfold pvmac_term, load_u32, assert.
  rewrite (length_concat_shape _ _ _ (proj1 HW)).
  assert (j * n + n <= length W * n)%nat by nia.
  assert ((j * n + t * 4) mod 4 = 0)%nat.
  { rewrite Hn. replace (j * (q * 4) + t * 4)%nat with ((j * q + t) * 4)%nat by lia.
    apply Nat.Div0.mod_mul. }
  assert ((t * 4) mod 4 = 0)%nat by apply Nat.Div0.mod_mul.
  rewrite !decide_True by lia.
  cbn [mbind option_bind]. rewrite (drop_concat _ _ _ _ _ _ _ (proj1 HW) Hj) by lia.
  rewrite pvmac_pack by (split; [apply length_chunk; lia|by apply chunk_range]).
  by rewrite int8_chunk_exact by (done || lia).
Qed.

(** [k] bytes per element, [n] elements per vector. *)
Lemma vmac_term_chunk s k n m q A B ax aW x W j row i :
  0 <= s <= 2 -> Valu.width s = 8 * Z.of_nat k -> Valu.count_of s = n -> (k * n = 8)%nat ->
  m = (q * n)%nat -> ints (8 * Z.of_nat k) m x -> matrix (8 * Z.of_nat k) (length W) m W ->
  placed ax (k * m) -> placed aW (k * (length W * m)) ->
  0 <= A -> 0 <= B -> bounded A x -> bounded B row -> Z.of_nat n * (A * B) < 2 ^ 31 ->
  W !! j = Some row -> i ∈ every n q ->
  vmac_term s (8 * Z.of_nat k) ax aW m x W j i = Some (dot (take n (drop i x)) (take n (drop i row))).
Proof.
  intros Hs Hw Hc Hkn Hm [Hlx Rx] HW Hpx HpW HA HB Hbx Hbr Hmax Hj Hi.
  apply elem_of_every in Hi as (t & -> & Ht).
  destruct (matrix_row _ _ _ _ _ _ HW Hj) as [Hlr Rr].
  pose proof (row_bound _ _ _ _ _ (proj1 HW) Hj) as Hjl.
  pose proof (length_concat_shape _ _ _ (proj1 HW)) as HlW.
  assert (Hal : forall z, (Z.of_nat (z * n) * Z.of_nat k) mod 4 = 0).
  { intros z. replace (Z.of_nat (z * n) * Z.of_nat k) with (Z.of_nat z * 2 * 4) by nia.
    apply Z_mod_mult. }
  unfold vmac_term.
  rewrite (vld_elem_pack ax k n x) by (done || rewrite ?Hlx; done || nia). cbn [mbind option_bind].
  replace (j * m + t * n)%nat with ((j * q + t) * n)%nat by nia.
  rewrite (vld_elem_pack aW k n (concat W)) by (done || rewrite ?HlW; done || nia).
  cbn [mbind option_bind].
  replace ((j * q + t) * n)%nat with (j * m + t * n)%nat by nia.
  rewrite (drop_concat _ _ _ _ _ _ _ (proj1 HW) Hj) by nia.
  rewrite vmac_dot by done. rewrite Hw, Hc.
  rewrite !slanes_pack_n; [|nia|by apply length_chunk; nia|by apply chunk_range|nia
    |by apply length_chunk; nia|by apply chunk_range].
  by rewrite (sgn_dot A B) by done.
Qed.
End VectorTerms.

(** ** Whole kernels *)

Lemma forward_infers act W1 W2 x (L1 : option (list Z)) (L2 : list Z -> option (list Z))
    (argmax : list Z -> nat -> option nat) n :
  (forall l, length l = n -> exists p, argmax l n = Some p /\ first_max l n p) ->
  length W2 = n -> L1 = Some (dense act x W1) ->
  L2 (dense act x W1) = Some (dense act (dense act x W1) W2) ->
  infers act W1 W2 x
    (let* h := L1 in let* o := L2 h in let* p := argmax o n in Some (p, h, o)).
Proof.
  intros Hmax <- -> H2. cbn [mbind option_bind]. rewrite H2. cbn [mbind option_bind].
  destruct (Hmax (dense act (dense act x W1) W2)) as (p & E & Hp); [by rewrite length_dense|].
  exists p. by rewrite E.
Qed.

Lemma index_max n : (0 < n)%nat -> forall l, length l = n ->
  exists p, argmax_index l n = Some p /\ first_max l n p.
Proof. intros Hn l Hl. apply argmax_index_first; lia. Qed.
Lemma value_max n : (0 < n)%nat -> forall l, length l = n ->
  exists p, argmax_value l n = Some p /\ first_max l n p.
Proof. intros Hn l Hl. apply argmax_value_first; lia. Qed.

(** The network determines the outcome. *)
Lemma infers_unique act W1 W2 x r1 r2 :
  infers act W1 W2 x r1 -> infers act W1 W2 x r2 -> r1 = r2.
Proof. intros (p & -> & Hp) (q & -> & Hq). by rewrite (first_max_unique _ _ _ _ Hp Hq). Qed.

(** The activations of the int8 kernels are int8 vectors. *)
Lemma relu_ints x W n : length W = n -> ints 8 n (dense relu_int8 x W).
Proof. intros <-. split; [apply length_dense|]. apply dense_range, relu_range. Qed.

Lemma matrix_bounded w m n W : 0 < w -> matrix w m n W -> Forall (bounded (2 ^ (w - 1))) W.
Proof. intros Hw [_ HW]. apply (Forall_impl _ _ _ HW). intros r. by apply srange_bounded. Qed.

(** The rows of the transpose are the columns. *)
Lemma transpose_matrix w m n W : matrix w m n W -> 0 < w -> matrix w n m (transpose n W).
Proof.
  intros [Hs HW] Hw. split; [by apply transpose_shape|]. unfold transpose, column.
  apply Forall_map, Forall_true. intros j. apply Forall_map. apply (Forall_impl _ _ _ HW).
  intros r Hr. cbn. rewrite nth_lookup. destruct (r !! j) as [z|] eqn:E; cbn.
  - by apply (Forall_lookup_1 _ _ _ _ Hr E).
  - unfold srange. pose proof (pow2_pos (w - 1)). lia.
Qed.

Lemma length_transpose n W : length (transpose n W) = n.
Proof. unfold transpose, upto. by rewrite length_map, length_seq. Qed.

Lemma matrix_length w m n W : matrix w m n W -> length W = m.
Proof. by intros [[? _] _]. Qed.

Lemma infers_scalar W1 W2 input hidden output :
  matrix 8 HIDDEN_SIZE INPUT_SIZE W1 -> matrix 8 OUTPUT_SIZE HIDDEN_SIZE W2 ->
  ints 8 INPUT_SIZE input -> length hidden = HIDDEN_SIZE -> length output = OUTPUT_SIZE ->
  infers relu_int8 W1 W2 input (mlp_forward_scalar W1 W2 input hidden output).
Proof.
  intros HW1 HW2 Hin Hh Ho. pose proof (matrix_length _ _ _ _ HW1) as H1.
  pose proof (matrix_length _ _ _ _ HW2) as H2.
  apply forward_infers; [apply index_max; unfold OUTPUT_SIZE; lia|done|..].
  - rewrite <- H1 at 1. apply scalar_layer; rewrite ?H1; done.
  - rewrite <- H2 at 1. apply scalar_layer; rewrite ?H2; try done. by apply relu_ints.
Qed.

Section VectorKernels.
Context `{U : VectorUnit} `{!VectorUnitLaws U}.

Lemma infers_pvmac W1 W2 input hidden output :
  matrix 8 HIDDEN_SIZE INPUT_SIZE W1 -> matrix 8 OUTPUT_SIZE HIDDEN_SIZE W2 ->
  ints 8 INPUT_SIZE input -> length hidden = HIDDEN_SIZE -> length output = OUTPUT_SIZE ->
  infers relu_int8 W1 W2 input (mlp_forward_pvmac W1 W2 input hidden output).
Proof.
  intros HW1 HW2 Hin Hh Ho. pose proof (matrix_length _ _ _ _ HW1) as H1.
  pose proof (matrix_length _ _ _ _ HW2) as H2. pose proof (relu_ints input W1 _ H1) as Hrl.
  apply forward_infers; [apply index_max; unfold OUTPUT_SIZE; lia|done|..].
  - rewrite <- H1 at 1. apply (chunk_layer 4 (INPUT_SIZE / 4) INPUT_SIZE (2 ^ 7) (2 ^ 7));
      rewrite ?H1; try done; [apply Hin|apply HW1|by apply (srange_bounded 8), Hin
        |by apply (matrix_bounded 8 _ _ _ eq_refl HW1)|].
    intros j row i Hj Hi. eapply (pvmac_term_chunk _ (INPUT_SIZE / 4)); rewrite ?H1; done.
  - rewrite <- H2 at 1. apply (chunk_layer 4 (HIDDEN_SIZE / 4) HIDDEN_SIZE (2 ^ 7) (2 ^ 7));
      rewrite ?H2; try done; [apply Hrl|apply HW2|by apply (srange_bounded 8), Hrl
        |by apply (matrix_bounded 8 _ _ _ eq_refl HW2)|].
    intros j row i Hj Hi. eapply (pvmac_term_chunk _ (HIDDEN_SIZE / 4)); rewrite ?H2; done.
Qed.

(** The layer of a VMAC kernel with [k]-byte elements, [n] per vector. *)
Lemma vmac_layer s k n q m A B ax aW act x W out :
  0 <= s <= 2 -> Valu.width s = 8 * Z.of_nat k -> Valu.count_of s = n -> (k * n = 8)%nat ->
  m = (q * n)%nat -> ints (8 * Z.of_nat k) m x -> matrix (8 * Z.of_nat k) (length W) m W ->
  length out = length W -> placed ax (k * m) -> placed aW (k * (length W * m)) ->
  0 <= A -> 0 <= B -> bounded A x -> Forall (bounded B) W -> (n <= m)%nat ->
  Z.of_nat m * (A * B) < 2 ^ 31 ->
  layer (length W) (every n q) (vmac_term s (8 * Z.of_nat k) ax aW m x W) act out
  = Some (dense act x W).
Proof.
  intros Hs Hw Hc Hkn Hm Hx HW Hout Hpx HpW HA HB Hbx HbW Hnm Hmax.
  apply (chunk_layer n q m A B); try done; [apply Hx|apply HW|].
  intros j row i Hj Hi. eapply (vmac_term_chunk s k n m q A B); try done.
  - by apply (Forall_lookup_1 _ _ _ _ HbW Hj).
  - eapply Z.le_lt_trans; [|exact Hmax]. apply Z.mul_le_mono_nonneg_r; nia.
Qed.

(** The four arrays of a kernel with [k]-byte elements are 8-aligned objects
    inside the memory. *)
Definition layout_ok (k : nat) (lay : layout) : Prop :=
  placed (a_input lay) (k * INPUT_SIZE) /\ placed (a_W1 lay) (k * (HIDDEN_SIZE * INPUT_SIZE)) /\
  placed (a_hidden lay) (k * HIDDEN_SIZE) /\ placed (a_W2 lay) (k * (OUTPUT_SIZE * HIDDEN_SIZE)).

Lemma infers_vmac_b lay W1 W2 input hidden output :
  layout_ok 1 lay ->
  matrix 8 HIDDEN_SIZE INPUT_SIZE W1 -> matrix 8 OUTPUT_SIZE HIDDEN_SIZE W2 ->
  ints 8 INPUT_SIZE input -> length hidden = HIDDEN_SIZE -> length output = OUTPUT_SIZE ->
  infers relu_int8 W1 W2 input (mlp_forward_vmac_b lay W1 W2 input hidden output).
Proof.
  intros (P1 & P2 & P3 & P4) HW1 HW2 Hin Hh Ho. pose proof (matrix_length _ _ _ _ HW1) as H1.
  pose proof (matrix_length _ _ _ _ HW2) as H2. pose proof (relu_ints input W1 _ H1) as Hrl.
  apply forward_infers; [apply index_max; unfold OUTPUT_SIZE; lia|done|..].
  - rewrite <- H1 at 1. apply (vmac_layer 0 1 8 (INPUT_SIZE / 8) INPUT_SIZE (2 ^ 7) (2 ^ 7)); rewrite ?H1;
      try first [assumption|reflexivity|lia];
      [by apply (srange_bounded 8), Hin|by apply (matrix_bounded 8 _ _ _ eq_refl HW1)|
       unfold INPUT_SIZE; lia].
  - rewrite <- H2 at 1. apply (vmac_layer 0 1 8 _ _ (2 ^ 7) (2 ^ 7)); rewrite ?H2; try done;
      [by apply (srange_bounded 8), Hrl|by apply (matrix_bounded 8 _ _ _ eq_refl HW2)|
       unfold HIDDEN_SIZE; lia].
Qed.

(** ** Packing on the fly *)

Lemma take_drop_nth k i l :
  (i + k <= length l)%nat -> map (fun t => nth (i + t) l 0) (upto k) = take k (drop i l).
Proof.
  intros Hl. apply list_eq_same_length with k; [by apply length_chunk|
    unfold upto; by rewrite length_map, length_seq|].
  intros t a b Ht. unfold upto. rewrite list_lookup_fmap, lookup_seq_lt by done. cbn.
  rewrite lookup_take_lt, lookup_drop by done. rewrite nth_lookup.
  intros [= <-] E. by rewrite E.
Qed.

Lemma transpose_lookup n W j row :
  transpose n W !! j = Some row -> (j < n)%nat /\ row = column W j.
Proof.
  unfold transpose, upto. rewrite list_lookup_fmap. intros Hj.
  destruct (decide (j < n)%nat) as [Hlt|Hge].
  - rewrite lookup_seq_lt in Hj by done. by injection Hj.
  - by rewrite lookup_seq_ge in Hj by lia.
Qed.

Lemma pack4_spec a b c d : pack4 a b c d = sgn 32 (pack 8 [a; b; c; d]).
Proof.
  unfold pack4. f_equal. rewrite !Z.shiftl_mul_pow2 by lia.
  pose proof (wrap_range 8 a ltac:(lia)). pose proof (wrap_range 8 b ltac:(lia)).
  pose proof (wrap_range 8 c ltac:(lia)). pose proof (wrap_range 8 d ltac:(lia)).
  unfold urange in *. rewrite !(wrap_small 32) by word_lia. cbn [pack].
  generalize dependent (wrap 8 a). generalize dependent (wrap 8 b).
  generalize dependent (wrap 8 c). generalize dependent (wrap 8 d). intros d' Hd c' Hc b' Hb a' Ha.
  rewrite (lor_disjoint 24 d' (c' * 2 ^ 16)) by word_lia.
  replace (d' * 2 ^ 24 + c' * 2 ^ 16) with ((d' * 2 ^ 8 + c') * 2 ^ 16) by lia.
  rewrite (lor_disjoint 16 _ (b' * 2 ^ 8)) by word_lia.
  replace ((d' * 2 ^ 8 + c') * 2 ^ 16 + b' * 2 ^ 8) with (((d' * 2 ^ 8 + c') * 2 ^ 8 + b') * 2 ^ 8) by lia.
  rewrite (lor_disjoint 8 _ a') by word_lia. lia.
Qed.

Lemma chunk4 i l : (i + 4 <= length l)%nat ->
  [nth i l 0; nth (i + 1) l 0; nth (i + 2) l 0; nth (i + 3) l 0] = take 4 (drop i l).
Proof. intros H. rewrite <- take_drop_nth by done. cbn. by rewrite Nat.add_0_r. Qed.

Lemma length_column W j : length (column W j) = length W.
Proof. apply length_map. Qed.

Lemma pvmac_packed_chunk m n q x W j row i :
  m = (q * 4)%nat -> ints 8 m x -> matrix 8 m n W -> transpose n W !! j = Some row -> i ∈ every 4 q ->
  pvmac_packed_term x W j i = Some (dot (take 4 (drop i x)) (take 4 (drop i row))).
Proof.
  intros Hm [Hlx Rx] HW Hj Hi. apply elem_of_every in Hi as (t & -> & Ht).
  destruct (matrix_row _ _ _ _ _ _ (transpose_matrix _ _ _ _ HW eq_refl) Hj) as [Hlr Rr].
  apply transpose_lookup in Hj as [Hjn ->]. rewrite length_column in Hlr.
  unfold pvmac_packed_term. rewrite !lookup_nth_lt by lia. cbn [mbind option_bind].
  rewrite !(get2_nth m n W) by (lia || apply HW). cbn [mbind option_bind].
  rewrite !pack4_spec, !chunk4 by (rewrite ?length_column; lia).
  rewrite pvmac_pack; [|split; [apply length_chunk; lia|by apply chunk_range]
    |split; [apply length_chunk; rewrite length_column; lia|by apply chunk_range]].
  by rewrite int8_chunk_exact by (done || lia).
Qed.

(** The gather loop fills both temporaries whatever they held. *)
Lemma gather8_spec m n x W j i tmp :
  length x = m -> shape m n W -> (j < n)%nat -> (i + 8 <= m)%nat ->
  length (fst tmp) = 8%nat -> length (snd tmp) = 8%nat ->
  gather8 x W j i tmp = Some (take 8 (drop i x), take 8 (drop i (column W j))).
Proof.
  intros Hx HW Hj Hi H1 H2. destruct tmp as [tx tw]. unfold gather8.
  rewrite <- !take_drop_nth by (rewrite ?length_column; destruct HW; lia).
  apply (loop_pair (upto 8) (fun k s => let* v := x !! (i + k)%nat in store s k v)
    (fun k s => let* v := get2 W (i + k) j in store s k v)).
  - apply loop_fill; [done|]. intros k Hk. apply lookup_nth_lt. lia.
  - apply loop_fill; [done|]. intros k Hk. apply (get2_nth m n); [done|lia..].
Qed.

Lemma wide_chunk m n q av aw tmp x W j row i :
  m = (q * 8)%nat -> ints 8 m x -> matrix 8 m n W -> placed av 8 -> placed aw 8 ->
  length (fst tmp) = 8%nat -> length (snd tmp) = 8%nat ->
  transpose n W !! j = Some row -> i ∈ every 8 q ->
  wide_term av aw tmp x W j i = Some (dot (take 8 (drop i x)) (take 8 (drop i row))).
Proof.
  intros Hm [Hlx Rx] HW Hav Haw Ht1 Ht2 Hj Hi. apply elem_of_every in Hi as (t & -> & Ht).
  destruct (matrix_row _ _ _ _ _ _ (transpose_matrix _ _ _ _ HW eq_refl) Hj) as [Hlr Rr].
  apply transpose_lookup in Hj as [Hjn ->]. unfold wide_term.
  rewrite (gather8_spec m n) by (done || apply HW || lia). cbn [mbind option_bind].
  assert (Hcx : length (take 8 (drop (t * 8) x)) = 8%nat) by (apply length_chunk; lia).
  assert (Hcr : length (take 8 (drop (t * 8) (column W j))) = 8%nat) by (apply length_chunk; lia).
  unfold vec_mac_8. change 8 with (8 * Z.of_nat 1).
  rewrite (vld_elem_pack av 1 8) by (rewrite ?Hcx; done || lia). cbn [mbind option_bind].
  rewrite (vld_elem_pack aw 1 8) by (rewrite ?Hcr; done || lia). cbn [mbind option_bind].
  rewrite !drop_0, !take_take, vmac_dot by lia. cbn [Valu.width Valu.count_of].
  rewrite !slanes_pack_n by (done || by apply chunk_range).
  by rewrite int8_chunk_exact by (done || lia).
Qed.

Section OnTheFly.
Context (W1_i8 W2_i8 : list (list Z)) (input hidden output : list Z).
Context (HW1 : matrix 8 INPUT_SIZE HIDDEN_SIZE W1_i8) (HW2 : matrix 8 HIDDEN_SIZE OUTPUT_SIZE W2_i8).
Context (Hin : ints 8 INPUT_SIZE input).
Context (Hh : length hidden = HIDDEN_SIZE) (Ho : length output = OUTPUT_SIZE).
Let T1 := transpose HIDDEN_SIZE W1_i8.
Let T2 := transpose OUTPUT_SIZE W2_i8.

(** Both on-the-fly kernels, given what one step computes. *)
Lemma infers_on_the_fly k q1 q2 (t1 t2 : list Z -> nat -> nat -> option Z) :
  INPUT_SIZE = (q1 * k)%nat -> HIDDEN_SIZE = (q2 * k)%nat ->
  (forall j row i, T1 !! j = Some row -> i ∈ every k q1 ->
     t1 input j i = Some (dot (take k (drop i input)) (take k (drop i row)))) ->
  (forall x j row i, ints 8 HIDDEN_SIZE x -> T2 !! j = Some row -> i ∈ every k q2 ->
     t2 x j i = Some (dot (take k (drop i x)) (take k (drop i row)))) ->
  infers relu_int8 T1 T2 input
    (let* h := layer HIDDEN_SIZE (every k q1) (t1 input) relu_int8 hidden in
     let* o := layer OUTPUT_SIZE (every k q2) (t2 h) relu_int8 output in
     let* p := argmax_value o OUTPUT_SIZE in Some (p, h, o)).
Proof.
  intros Hq1 Hq2 Ht1 Ht2.
  pose proof (transpose_matrix _ _ _ _ HW1 eq_refl) as M1. fold T1 in M1.
  pose proof (transpose_matrix _ _ _ _ HW2 eq_refl) as M2. fold T2 in M2.
  pose proof (length_transpose HIDDEN_SIZE W1_i8) as H1. fold T1 in H1.
  pose proof (length_transpose OUTPUT_SIZE W2_i8) as H2. fold T2 in H2.
  pose proof (relu_ints input T1 _ H1) as Hrl.
  apply (forward_infers _ T1 T2 input _ (fun h => layer OUTPUT_SIZE (every k q2) (t2 h) relu_int8 output));
    [apply value_max; unfold OUTPUT_SIZE; lia|done|..].
  - rewrite <- H1 at 1. apply (chunk_layer k q1 INPUT_SIZE (2 ^ 7) (2 ^ 7)); rewrite ?H1; try done;
      [apply Hin|apply M1|by apply (srange_bounded 8), Hin|by apply (matrix_bounded 8 _ _ _ eq_refl M1)].
  - rewrite <- H2 at 1. apply (chunk_layer k q2 HIDDEN_SIZE (2 ^ 7) (2 ^ 7)); rewrite ?H2; try done;
      [apply M2|by apply (srange_bounded 8), Hrl
        |by apply (matrix_bounded 8 _ _ _ eq_refl M2)|].
    intros j row i Hj Hi. by apply Ht2.
Qed.

Lemma infers_pvmac_packed :
  infers relu_int8 T1 T2 input (mlp_forward_pvmac_packed W1_i8 W2_i8 input hidden output).
Proof.
  refine (infers_on_the_fly 4 (INPUT_SIZE / 4) (HIDDEN_SIZE / 4)
    (fun x => pvmac_packed_term x W1_i8) (fun x => pvmac_packed_term x W2_i8) eq_refl eq_refl _ _).
  - intros j row i Hj Hi. by apply (pvmac_packed_chunk INPUT_SIZE HIDDEN_SIZE (INPUT_SIZE / 4)).
  - intros x j row i Hx Hj Hi.
    by apply (pvmac_packed_chunk HIDDEN_SIZE OUTPUT_SIZE (HIDDEN_SIZE / 4)).
Qed.

Lemma infers_wide_vec lay tmp :
  placed (a_input lay) 8 -> placed (a_W1 lay) 8 -> placed (a_hidden lay) 8 -> placed (a_W2 lay) 8 ->
  length (fst tmp) = 8%nat -> length (snd tmp) = 8%nat ->
  infers relu_int8 T1 T2 input (mlp_forward_wide_vec lay tmp W1_i8 W2_i8 input hidden output).
Proof.
  intros. refine (infers_on_the_fly 8 (INPUT_SIZE / 8) (HIDDEN_SIZE / 8)
    (fun x => wide_term (a_input lay) (a_W1 lay) tmp x W1_i8)
    (fun x => wide_term (a_hidden lay) (a_W2 lay) tmp x W2_i8) eq_refl eq_refl _ _).
  - intros j row i Hj Hi. by apply (wide_chunk INPUT_SIZE HIDDEN_SIZE (INPUT_SIZE / 8)).
  - intros x j row i Hx Hj Hi. by apply (wide_chunk HIDDEN_SIZE OUTPUT_SIZE (HIDDEN_SIZE / 8)).
Qed.
End OnTheFly.
End VectorKernels.

(** ** Weight preparation *)

Lemma map_nth_id (l : list Z) n : length l = n -> map (fun i => nth i l 0) (upto n) = l.
Proof. intros <-. rewrite (map_nth_upto (fun x => x) l 0). apply map_id. Qed.

(** Filling a matrix with a cast that is the identity on the elements of [W]. *)
Lemma transpose_fill m n W cast a :
  matrix 8 m n W -> shape n m a -> (forall z, srange 8 z -> cast z = z) ->
  loop (upto n) (fun j a => loop (upto m) (fun i a =>
    let* v := get2 W i j in store2 a j i (cast v)) a) a = Some (transpose n W).
Proof.
  intros HW Ha Hcast.
  transitivity (loop (upto n) (fun j a => loop (upto m) (fun i a =>
    let* v := (let* v := get2 W i j in Some (cast v)) in store2 a j i v) a) a).
  { apply loop_ext. intros j t _. apply loop_ext. intros i u _. by destruct (get2 W i j). }
  rewrite (loop_fill2 n m _ (fun j i => nth i (column W j) 0)); [|done|].
  - f_equal. unfold transpose. apply map_ext. intros j. apply map_nth_id.
    rewrite length_column. by apply (matrix_length _ _ _ _ HW).
  - intros j i Hj Hi. rewrite (get2_nth m n) by (done || apply HW). cbn. f_equal. apply Hcast.
    destruct (transpose_matrix _ _ _ _ HW eq_refl) as [Hs Hr].
    assert (Hrow : transpose n W !! j = Some (column W j)).
    { unfold transpose, upto. by rewrite list_lookup_fmap, lookup_seq_lt. }
    apply (Forall_lookup_1 _ _ _ _ Hr) in Hrow.
    apply (Forall_lookup_1 _ _ i _ Hrow), lookup_nth_lt. rewrite length_column.
    by rewrite (matrix_length _ _ _ _ HW).
Qed.

Lemma transpose_loop_spec m n W a b c :
  matrix 8 m n W -> shape n m a -> shape n m b -> shape n m c ->
  transpose_loop n m W (a, (b, c)) = Some (transpose n W, (transpose n W, transpose n W)).
Proof.
  intros HW Ha Hb Hc. unfold transpose_loop.
  set (fill cast j a := loop (upto m) (fun i a => let* v := get2 W i j in store2 a j i (cast v)) a).
  transitivity (loop (upto n) (fun j s => let* p := fill id j (fst s) in
    let* q := (let* ph := fill (sgn 16) j (fst (snd s)) in
               let* pw := fill (sgn 32) j (snd (snd s)) in Some (ph, pw)) in
    Some (p, q)) (a, (b, c))).
  { apply loop_ext. intros j [t [u v]] _. cbn [fst snd]. unfold fill.
    rewrite <- (loop_pair_eq _ (fun i a => let* v := get2 W i j in store2 a j i (sgn 16 v))).
    apply (loop_pair_eq (upto m) (fun i a => let* v := get2 W i j in store2 a j i v)
      (fun i s => let* ph := (let* v := get2 W i j in store2 (fst s) j i (sgn 16 v)) in
         let* pw := (let* v := get2 W i j in store2 (snd s) j i (sgn 32 v)) in Some (ph, pw))). }
  apply (loop_pair (upto n) (fill id) (fun j s => let* ph := fill (sgn 16) j (fst s) in
    let* pw := fill (sgn 32) j (snd s) in Some (ph, pw))); [by apply transpose_fill|].
  apply loop_pair; apply transpose_fill; try done; intros z Hz; apply sgn_small; word_lia.
Qed.

(** The packed arrays as the program declares them. *)
Definition packed_ok (p : packed) : Prop :=
  (shape HIDDEN_SIZE INPUT_SIZE (W1_packed p) /\ shape HIDDEN_SIZE INPUT_SIZE (W1_packed_h p) /\
   shape HIDDEN_SIZE INPUT_SIZE (W1_packed_w p)) /\
  (shape OUTPUT_SIZE HIDDEN_SIZE (W2_packed p) /\ shape OUTPUT_SIZE HIDDEN_SIZE (W2_packed_h p) /\
   shape OUTPUT_SIZE HIDDEN_SIZE (W2_packed_w p)).

#[export] Instance packed_ok_dec p : Decision (packed_ok p).
Proof. unfold packed_ok. apply _. Defined.

Lemma prepare_weights_eq W1_i8 W2_i8 p :
  matrix 8 INPUT_SIZE HIDDEN_SIZE W1_i8 -> matrix 8 HIDDEN_SIZE OUTPUT_SIZE W2_i8 -> packed_ok p ->
  let T1 := transpose HIDDEN_SIZE W1_i8 in let T2 := transpose OUTPUT_SIZE W2_i8 in
  prepare_weights W1_i8 W2_i8 p = Some (Packed T1 T2 T1 T2 T1 T2).
Proof.
  intros HW1 HW2 [(? & ? & ?) (? & ? & ?)]. cbv zeta. unfold prepare_weights.
  rewrite (transpose_loop_spec INPUT_SIZE HIDDEN_SIZE) by done. cbn [mbind option_bind].
  by rewrite (transpose_loop_spec HIDDEN_SIZE OUTPUT_SIZE) by done.
Qed.
End Kernels.
