(* ===== verification/Inference.v ===== *)
(** The properties of the int8 MNIST kernels of [Kernels.v]: correctness of the
    scalar kernel, agreement of every vector kernel with it, the int16 kernel's own
    network, and when the int32 kernel is right and when it overflows. Each is proved
    for any lawful vector unit and instantiated with the hardware. *)

From S2P Require Import Prelude Loops VectorUnit Kernels.
Import Arrays Kernels.

Module Inference.

(** What the C code promises about its inputs: the weight tables, the input and
    the result buffers have their declared types. *)
Record workload := Workload
  { wl_W1 : list (list Z); wl_W2 : list (list Z); wl_input : list Z;
    wl_hidden : list Z; wl_output : list Z }.

Definition workload_ok (w : workload) : Prop :=
  (matrix 8 INPUT_SIZE HIDDEN_SIZE (wl_W1 w) /\ matrix 8 HIDDEN_SIZE OUTPUT_SIZE (wl_W2 w)) /\
  (ints 8 INPUT_SIZE (wl_input w) /\
   length (wl_hidden w) = HIDDEN_SIZE /\ length (wl_output w) = OUTPUT_SIZE).

#[export] Instance workload_ok_dec w : Decision (workload_ok w).
Proof. unfold workload_ok. apply _. Defined.

(** The transposed weights. *)
Definition wT1 (w : workload) := transpose HIDDEN_SIZE (wl_W1 w).
Definition wT2 (w : workload) := transpose OUTPUT_SIZE (wl_W2 w).

Lemma workload_T w : workload_ok w ->
  matrix 8 HIDDEN_SIZE INPUT_SIZE (wT1 w) /\ matrix 8 OUTPUT_SIZE HIDDEN_SIZE (wT2 w).
Proof. intros [[H1 H2] _]. split; by apply transpose_matrix. Qed.

(** Narrow values fit wider types. *)
Lemma srange_mono v w x : 0 < v <= w -> srange v x -> srange w x.
Proof. intros Hv. unfold srange. pose proof (Z.pow_le_mono_r 2 (v - 1) (w - 1)). lia. Qed.
Lemma ints_mono v w n l : 0 < v <= w -> ints v n l -> ints w n l.
Proof. intros Hv [? Hl]. split; [done|]. apply (Forall_impl _ _ _ Hl). intros x. by apply srange_mono. Qed.
Lemma matrix_mono v w m n W : 0 < v <= w -> matrix v m n W -> matrix w m n W.
Proof.
  intros Hv [? HW]. split; [done|]. apply (Forall_impl _ _ _ HW). intros r Hr.
  apply (Forall_impl _ _ _ Hr). intros x. by apply srange_mono.
Qed.

Lemma dense_ext f g x W : Forall (fun row => f (dot x row) = g (dot x row)) W -> dense f x W = dense g x W.
Proof. unfold dense. induction 1 as [|row W Hr _ IH]; cbn; [done|]. by f_equal. Qed.

(** [C13] The scalar kernel is total on all int8 data and computes the
    two-layer network: no [int32_t] accumulator overflows, every access is in bounds,
    both activation arrays are the clamped matrix-vector products, and the returned
    class is the first one of maximal output. *)
Theorem scalar_kernel_correct (w : workload) :
  workload_ok w ->
  infers (fun z => Z.max 0 (Z.min z 127)) (wT1 w) (wT2 w) (wl_input w)
    (mlp_forward_scalar (wT1 w) (wT2 w) (wl_input w) (wl_hidden w) (wl_output w)).
Proof.
  intros Hw. destruct (workload_T w Hw) as [M1 M2]. destruct Hw as [_ (Hi & Hh & Ho)].
  destruct (infers_scalar _ _ _ _ _ M1 M2 Hi Hh Ho) as (p & E & Hp).
  assert (Hd : forall x W, dense relu_int8 x W = dense (fun z => Z.max 0 (Z.min z 127)) x W).
  { intros x W. apply dense_ext, Forall_true. intros row. apply relu_int8_spec. }
  exists p. by rewrite E, <- !Hd.
Qed.

Section Agreement.
Context `{U : VectorUnit} `{!VectorUnitLaws U}.

(** [C12] All five int8 kernels agree: for every weight table and input of
    the declared types, [prepare_weights] succeeds and the 4-lane PVMAC and 8-lane VMAC.B
    kernels on its result, and the two kernels that pack on the fly from the original
    tables, return exactly the scalar kernel's class and activations. *)
Theorem int8_kernels_agree (w : workload) (p0 : packed) (lay lay' : layout) tmp :
  workload_ok w -> packed_ok p0 -> layout_ok 1 lay ->
  placed (a_input lay') 8 /\ placed (a_W1 lay') 8 /\ placed (a_hidden lay') 8 /\ placed (a_W2 lay') 8 ->
  length (fst tmp) = 8%nat -> length (snd tmp) = 8%nat ->
  exists p, prepare_weights (wl_W1 w) (wl_W2 w) p0 = Some p /\
  let go k := k (W1_packed p) (W2_packed p) (wl_input w) (wl_hidden w) (wl_output w) in
  let go_raw k := k (wl_W1 w) (wl_W2 w) (wl_input w) (wl_hidden w) (wl_output w) in
  is_Some (go mlp_forward_scalar) /\
  go mlp_forward_pvmac = go mlp_forward_scalar /\
  go (mlp_forward_vmac_b lay) = go mlp_forward_scalar /\
  go_raw mlp_forward_pvmac_packed = go mlp_forward_scalar /\
  go_raw (mlp_forward_wide_vec lay' tmp) = go mlp_forward_scalar.
Proof.
  intros Hw Hp0 Hlay (P1 & P2 & P3 & P4) Ht1 Ht2. destruct (workload_T w Hw) as [M1 M2].
  destruct Hw as [[R1 R2] (Hi & Hh & Ho)].
  eexists. split; [by apply prepare_weights_eq|]. cbn [W1_packed W2_packed].
  fold (wT1 w) (wT2 w).
  pose proof (infers_scalar _ _ _ _ _ M1 M2 Hi Hh Ho) as Hs.
  split_and!; [by destruct Hs as (? & -> & _)|..];
    (eapply infers_unique; [|exact Hs]).
  - by apply infers_pvmac.
  - by apply infers_vmac_b.
  - by apply infers_pvmac_packed.
  - by apply infers_wide_vec.
Qed.

(** The VMAC.H kernel is total on int8 data held in int16 arrays and
    computes the network with activations clamped to [0, 32767]; it agrees with the
    scalar kernel, class and activations, whenever no neuron exceeds 127. *)
Theorem vmac_h_kernel_correct (w : workload) (lay : layout) :
  workload_ok w -> layout_ok 2 lay ->
  let r := mlp_forward_vmac_h lay (wT1 w) (wT2 w) (wl_input w) (wl_hidden w) (wl_output w) in
  infers (fun z => Z.max 0 (Z.min z 32767)) (wT1 w) (wT2 w) (wl_input w) r /\
  (Forall (fun row => dot (wl_input w) row <= 127) (wT1 w) ->
   Forall (fun row => dot (dense relu_int8 (wl_input w) (wT1 w)) row <= 127) (wT2 w) ->
   r = mlp_forward_scalar (wT1 w) (wT2 w) (wl_input w) (wl_hidden w) (wl_output w)).
Proof.
  intros Hw (P1 & P2 & P3 & P4) r. destruct (workload_T w Hw) as [M1 M2].
  destruct Hw as [_ (Hi & Hh & Ho)].
  pose proof (matrix_length _ _ _ _ M1) as H1. pose proof (matrix_length _ _ _ _ M2) as H2.
  assert (Hr : infers clamp_h (wT1 w) (wT2 w) (wl_input w) r).
  { refine (forward_infers _ _ _ _ _ (fun h => layer OUTPUT_SIZE (every 4 (HIDDEN_SIZE / 4))
      (vmac_term 1 16 (a_hidden lay) (a_W2 lay) HIDDEN_SIZE h (wT2 w)) clamp_h (wl_output w))
      argmax_index OUTPUT_SIZE _ H2 _ _); [apply index_max; unfold OUTPUT_SIZE; lia|..].
    - rewrite <- H1 at 1. apply (vmac_layer 1 2 4 (INPUT_SIZE / 4) INPUT_SIZE (2 ^ 7) (2 ^ 7)); rewrite ?H1;
        try first [assumption|reflexivity|lia];
        [by apply (ints_mono 8)|by apply (matrix_mono 8)|by apply (srange_bounded 8), Hi
         |by apply (matrix_bounded 8 _ _ _ eq_refl M1)|unfold INPUT_SIZE; lia].
    - assert (Hd : Forall (srange 16) (dense clamp_h (wl_input w) (wT1 w)))
        by apply dense_range, clamp_h_range.
      rewrite <- H2 at 1. apply (vmac_layer 1 2 4 _ _ (2 ^ 15) (2 ^ 7)); rewrite ?H2; try done;
        [by apply (matrix_mono 8)|by apply (srange_bounded 16)
         |by apply (matrix_bounded 8 _ _ _ eq_refl M2)|unfold HIDDEN_SIZE; lia]. }
  split.
  - destruct Hr as (p & E & Hp).
    assert (Hd : forall x W, dense clamp_h x W = dense (fun z => Z.max 0 (Z.min z 32767)) x W).
    { intros x W. apply dense_ext, Forall_true. intros row. apply clamp_h_spec. }
    exists p. by rewrite E, <- !Hd.
  - intros Hu1 Hu2. apply (infers_unique relu_int8 (wT1 w) (wT2 w) (wl_input w));
      [|by apply infers_scalar].
    assert (E : forall x W, Forall (fun row => dot x row <= 127) W -> dense clamp_h x W = dense relu_int8 x W).
    { intros x W HW. apply dense_ext, (Forall_impl _ _ _ HW). intros row Hrow.
      rewrite clamp_h_spec, relu_int8_spec. lia. }
    unfold infers in *. by rewrite (E _ _ Hu1), (E _ _ Hu2) in Hr.
Qed.

(** Magnitude bounds [A] on the inputs and [B] on the weights of a layer keep its [n]-term
    sums inside [int32_t]. *)
Definition fits_int32 (n : nat) (A B : Z) (x : list Z) (W : list (list Z)) : Prop :=
  0 <= A /\ 0 <= B /\ bounded A x /\ Forall (bounded B) W /\ Z.of_nat n * (A * B) < 2 ^ 31.

(** The VMAC.W kernel computes the unclamped ReLU network on
    int32 data as long as the magnitudes of inputs, weights and hidden activations
    keep both layers' sums inside [int32_t]. *)
Theorem vmac_w_kernel_correct W1 W2 input hidden output lay A B A2 B2 :
  layout_ok 4 lay ->
  matrix 32 HIDDEN_SIZE INPUT_SIZE W1 -> matrix 32 OUTPUT_SIZE HIDDEN_SIZE W2 ->
  ints 32 INPUT_SIZE input -> length hidden = HIDDEN_SIZE -> length output = OUTPUT_SIZE ->
  fits_int32 INPUT_SIZE A B input W1 ->
  fits_int32 HIDDEN_SIZE A2 B2 (dense (Z.max 0) input W1) W2 ->
  infers (Z.max 0) W1 W2 input (mlp_forward_vmac_w lay W1 W2 input hidden output).
Proof.
  intros (P1 & P2 & P3 & P4) M1 M2 Hi Hh Ho (HA & HB & HbA & HbB & Hm1) (HA2 & HB2 & HbA2 & HbB2 & Hm2).
  pose proof (matrix_length _ _ _ _ M1) as H1. pose proof (matrix_length _ _ _ _ M2) as H2.
  assert (Hd : forall x W, dense clamp_w x W = dense (Z.max 0) x W).
  { intros x W. apply dense_ext, Forall_true. intros row. apply clamp_w_spec. }
  assert (Hx2 : ints 32 HIDDEN_SIZE (dense (Z.max 0) input W1)).
  { split; [by rewrite length_dense|]. apply Forall_map, Forall_lookup_2. intros j row Hj.
    pose proof (dot_bound A B input row HA HB HbA ltac:(by apply (Forall_lookup_1 _ _ _ _ HbB Hj))) as Hb.
    rewrite (proj1 Hi) in Hb. unfold srange. change (32 - 1) with 31. lia. }
  enough (infers clamp_w W1 W2 input (mlp_forward_vmac_w lay W1 W2 input hidden output))
    as (p & E & Hp) by (exists p; by rewrite E, <- !Hd).
  refine (forward_infers _ _ _ _ _ (fun h => layer OUTPUT_SIZE (every 2 (HIDDEN_SIZE / 2))
      (vmac_term 2 32 (a_hidden lay) (a_W2 lay) HIDDEN_SIZE h W2) clamp_w output)
      argmax_index OUTPUT_SIZE _ H2 _ _); [apply index_max; unfold OUTPUT_SIZE; lia|..].
  - rewrite <- H1 at 1. apply (vmac_layer 2 4 2 (INPUT_SIZE / 2) INPUT_SIZE A B); rewrite ?H1;
      first [assumption|reflexivity|lia|unfold INPUT_SIZE; lia].
  - rewrite Hd. rewrite <- H2 at 1.
    apply (vmac_layer 2 4 2 (HIDDEN_SIZE / 2) HIDDEN_SIZE A2 B2); rewrite ?H2;
      first [assumption|reflexivity|lia|unfold HIDDEN_SIZE; lia].
Qed.

(** A workload of int8 data: saturated pixels and large positive weights. *)
Definition hot : workload :=
  {| wl_W1 := repeat (repeat 127 HIDDEN_SIZE) INPUT_SIZE;
     wl_W2 := repeat (repeat 80 OUTPUT_SIZE) HIDDEN_SIZE;
     wl_input := repeat 127 INPUT_SIZE; wl_hidden := repeat 0 HIDDEN_SIZE;
     wl_output := repeat 0 OUTPUT_SIZE |}.

Lemma hot_ok : workload_ok hot.
Proof.
  split; split; [by apply matrix_repeat|by apply matrix_repeat|by apply ints_repeat|].
  split; apply repeat_length.
Qed.
Lemma hot_T1 : wT1 hot = repeat (repeat 127 INPUT_SIZE) HIDDEN_SIZE.
Proof. apply transpose_repeat. Qed.
Lemma hot_T2 : wT2 hot = repeat (repeat 80 HIDDEN_SIZE) OUTPUT_SIZE.
Proof. apply transpose_repeat. Qed.
Lemma hot_hidden : dense clamp_w (wl_input hot) (wT1 hot) = repeat 12645136 HIDDEN_SIZE.
Proof. rewrite hot_T1. apply dense_repeat. Qed.

Lemma bounded_repeat B x n : Z.abs x <= B -> bounded B (repeat x n).
Proof. intros. by apply Forall_repeat. Qed.
Lemma bounded_repeat2 B x n m : Z.abs x <= B -> Forall (bounded B) (repeat (repeat x n) m).
Proof. intros. by apply Forall_repeat, bounded_repeat. Qed.

(** One step of the second layer on the hot hidden activations. *)
Lemma hot_term lay i :
  layout_ok 4 lay -> i ∈ every 2 (HIDDEN_SIZE / 2) ->
  vmac_term 2 32 (a_hidden lay) (a_W2 lay) HIDDEN_SIZE (repeat 12645136 HIDDEN_SIZE) (wT2 hot) 0 i
  = Some 2023221760.
Proof.
  intros (_ & _ & P3 & P4) Hi. pose proof (proj2 (workload_T hot hot_ok)) as M2.
  pose proof (matrix_length _ _ _ _ M2) as H2.
  rewrite (vmac_term_chunk 2 4 2 HIDDEN_SIZE (HIDDEN_SIZE / 2) 12645136 80 (a_hidden lay)
    (a_W2 lay) (repeat 12645136 HIDDEN_SIZE) (wT2 hot) 0 (repeat 80 HIDDEN_SIZE) i);
    rewrite ?H2; try first [assumption|reflexivity|lia].
  - apply elem_of_every in Hi as (t & -> & Ht). f_equal.
    change (HIDDEN_SIZE / 2)%nat with 16%nat in Ht. do 16 (destruct t as [|t]; [reflexivity|]). lia.
  - by apply (ints_repeat 32).
  - by apply (matrix_mono 8).
  - by apply bounded_repeat.
  - by apply bounded_repeat.
Qed.

(** The VMAC.W kernel has undefined behaviour on some int8 data on which the
    scalar kernel is fine: its hidden activations are not clamped, and the second
    layer's [int32_t] accumulator overflows. *)
Theorem vmac_w_kernel_overflows lay :
  layout_ok 4 lay ->
  workload_ok hot /\
  is_Some (mlp_forward_scalar (wT1 hot) (wT2 hot) (wl_input hot) (wl_hidden hot) (wl_output hot)) /\
  mlp_forward_vmac_w lay (wT1 hot) (wT2 hot) (wl_input hot) (wl_hidden hot) (wl_output hot) = None.
Proof.
  intros Hlay. split; [apply hot_ok|]. destruct (workload_T hot hot_ok) as [M1 M2].
  pose proof (matrix_length _ _ _ _ M1) as H1. pose proof hot_ok as [_ (Hi & Hh & Ho)]. split.
  - destruct (infers_scalar _ _ _ _ _ M1 M2 Hi Hh Ho) as (p & -> & _). done.
  - unfold mlp_forward_vmac_w.
    assert (layer HIDDEN_SIZE (every 2 (INPUT_SIZE / 2)) (vmac_term 2 32 (a_input lay) (a_W1 lay)
      INPUT_SIZE (wl_input hot) (wT1 hot)) clamp_w (wl_hidden hot)
      = Some (dense clamp_w (wl_input hot) (wT1 hot))) as ->.
    { destruct Hlay as (P1 & P2 & _ & _). rewrite <- H1 at 1.
      apply (vmac_layer 2 4 2 (INPUT_SIZE / 2) INPUT_SIZE 127 127); rewrite ?H1;
        try first [assumption|reflexivity|lia].
      - by apply (ints_mono 8).
      - by apply (matrix_mono 8).
      - by apply bounded_repeat.
      - rewrite hot_T1. by apply bounded_repeat2.
      - unfold INPUT_SIZE. lia. }
    cbn [mbind option_bind]. rewrite hot_hidden. unfold layer.
    change (upto OUTPUT_SIZE) with (0 :: seq 1 9)%nat. cbn [loop].
    change (every 2 (HIDDEN_SIZE / 2)) with (0 :: 2 :: map (fun i => i * 2) (seq 2 14))%nat.
    cbn [loop]. rewrite (hot_term lay 0 Hlay) by (apply elem_of_every; exists 0%nat; by split; [|apply Nat.ltb_lt]).
    cbn [mbind option_bind]. rewrite (hot_term lay 2 Hlay) by (apply elem_of_every; exists 1%nat; by split; [|apply Nat.ltb_lt]).
    done.
Qed.
End Agreement.

(** * On the hardware *)

#[local] Instance hw : VectorUnit := Hardware.unit_of Hardware.at_reset.
#[local] Instance hw_laws : VectorUnitLaws hw := Hardware.laws_of Hardware.at_reset.

Definition demo_layout : layout := Layout 0x100000 0x110000 0x200000 0x300000.
Definition zero_packed : packed :=
  let z1 := repeat (repeat 0 INPUT_SIZE) HIDDEN_SIZE in
  let z2 := repeat (repeat 0 HIDDEN_SIZE) OUTPUT_SIZE in Packed z1 z2 z1 z2 z1 z2.

Lemma first_max_repeat x n : (0 < n)%nat -> first_max (repeat x n) n 0.
Proof.
  intros Hn. split; [done|]. intros i Hi. rewrite !nth_lookup.
  assert (H : forall k, (k < n)%nat -> repeat x n !! k = Some x).
  { intros k Hk. destruct (lookup_lt_is_Some_2 (repeat x n) k) as [y Hy]; [by rewrite repeat_length|].
    rewrite Hy. apply list_elem_of_lookup_2, list_elem_of_In, repeat_spec in Hy. by subst. }
  rewrite !H by done. cbn. lia.
Qed.

Example scalar_kernel_correct_witness :
  exists h, mlp_forward_scalar (wT1 hot) (wT2 hot) (wl_input hot) (wl_hidden hot) (wl_output hot)
    = Some (0%nat, h, repeat 127 OUTPUT_SIZE).
Proof.
  destruct (scalar_kernel_correct hot hot_ok) as (p & E & Hp).
  set (act := fun z => Z.max 0 (Z.min z 127)) in *.
  assert (Eh : dense act (wl_input hot) (wT1 hot) = repeat 127 HIDDEN_SIZE)
    by (rewrite hot_T1; apply dense_repeat).
  assert (Eo : dense act (repeat 127 HIDDEN_SIZE) (wT2 hot) = repeat 127 OUTPUT_SIZE)
    by (rewrite hot_T2; apply dense_repeat).
  rewrite Eh, Eo in *. exists (repeat 127 HIDDEN_SIZE). rewrite E.
  rewrite (first_max_unique _ _ p 0 Hp); [reflexivity|].
  rewrite hot_T2, repeat_length. apply first_max_repeat. unfold OUTPUT_SIZE. lia.
Defined.

Lemma zero_packed_ok : packed_ok zero_packed.
Proof. split; split_and!; apply shape_repeat. Qed.

Lemma demo_layout_ok k : (k <= 4)%nat -> layout_ok k demo_layout.
Proof.
  intros Hk. unfold layout_ok, placed, INPUT_SIZE, HIDDEN_SIZE, OUTPUT_SIZE. cbn. word_pows.
  split_and!; try done; lia.
Qed.

Example int8_kernels_agree_witness :
  let go k := k (wT1 hot) (wT2 hot) (wl_input hot) (wl_hidden hot) (wl_output hot) in
  go (mlp_forward_vmac_b demo_layout) = go mlp_forward_scalar.
Proof.
  destruct (int8_kernels_agree hot zero_packed demo_layout demo_layout (repeat 1 8, repeat 2 8))
    as (p & Hp & _ & _ & Hb & _).
  - exact hot_ok.
  - exact zero_packed_ok.
  - apply demo_layout_ok. lia.
  - vm_compute; repeat split; congruence.
  - reflexivity.
  - reflexivity.
  - rewrite prepare_weights_eq in Hp by (apply hot_ok || apply zero_packed_ok).
    injection Hp as <-. exact Hb.
Defined.

Example vmac_h_kernel_correct_witness :
  infers (fun z => Z.max 0 (Z.min z 32767)) (wT1 hot) (wT2 hot) (wl_input hot)
    (mlp_forward_vmac_h demo_layout (wT1 hot) (wT2 hot) (wl_input hot) (wl_hidden hot) (wl_output hot)).
Proof. apply (vmac_h_kernel_correct hot demo_layout hot_ok). apply demo_layout_ok. lia. Defined.

Example vmac_w_kernel_correct_witness :
  let W1 := repeat (repeat 5 INPUT_SIZE) HIDDEN_SIZE in
  let W2 := repeat (repeat (-3) HIDDEN_SIZE) OUTPUT_SIZE in
  let x := repeat 127 INPUT_SIZE in
  infers (Z.max 0) W1 W2 x
    (mlp_forward_vmac_w demo_layout W1 W2 x (repeat 0 HIDDEN_SIZE) (repeat 0 OUTPUT_SIZE)).
Proof.
  intros W1 W2 x.
  apply (vmac_w_kernel_correct W1 W2 x _ _ demo_layout 127 5 497840 3).
  - apply demo_layout_ok. lia.
  - by apply matrix_repeat.
  - by apply matrix_repeat.
  - by apply ints_repeat.
  - apply repeat_length.
  - apply repeat_length.
  - split_and!; [lia|lia|by apply bounded_repeat|by apply bounded_repeat2|reflexivity].
  - split_and!; [lia|lia| |by apply bounded_repeat2|reflexivity].
    unfold W1, x. rewrite dense_repeat. by apply bounded_repeat.
Defined.

Example vmac_w_kernel_overflows_witness :
  mlp_forward_vmac_w demo_layout (wT1 hot) (wT2 hot) (wl_input hot) (wl_hidden hot) (wl_output hot)
  = None.
Proof. apply (vmac_w_kernel_overflows demo_layout). apply demo_layout_ok. lia. Defined.
End Inference.
