(* ===== verification/OpcodeDefs.v ===== *)
(** The instruction encodings of [include/opcode/riscv-opc.h] that the opcode
    table of [opcodes/riscv-opc.c] names: one abbreviation per [#define] of a
    [MATCH_]/[MASK_] pair, with the header's values, the packed and wide-vector
    extensions of this repository included. *)

From S2P Require Import Prelude.

Abbreviation MASK_ADD := 0xfe00707f (only parsing).
Abbreviation MASK_ADDI := 0x707f (only parsing).
Abbreviation MASK_ADDIW := 0x707f (only parsing).
Abbreviation MASK_ADDW := 0xfe00707f (only parsing).
Abbreviation MASK_ADD_UW := 0xfe00707f (only parsing).
Abbreviation MASK_AES32DSI := 0x3e00707f (only parsing).
Abbreviation MASK_AES32DSMI := 0x3e00707f (only parsing).
Abbreviation MASK_AES32ESI := 0x3e00707f (only parsing).
Abbreviation MASK_AES32ESMI := 0x3e00707f (only parsing).
Abbreviation MASK_AES64DS := 0xfe00707f (only parsing).
Abbreviation MASK_AES64DSM := 0xfe00707f (only parsing).
Abbreviation MASK_AES64ES := 0xfe00707f (only parsing).
Abbreviation MASK_AES64ESM := 0xfe00707f (only parsing).
Abbreviation MASK_AES64IM := 0xfff0707f (only parsing).
Abbreviation MASK_AES64KS1I := 0xff00707f (only parsing).
Abbreviation MASK_AES64KS2 := 0xfe00707f (only parsing).
Abbreviation MASK_AMOADD_D := 0xf800707f (only parsing).
Abbreviation MASK_AMOADD_W := 0xf800707f (only parsing).
Abbreviation MASK_AMOAND_D := 0xf800707f (only parsing).
Abbreviation MASK_AMOAND_W := 0xf800707f (only parsing).
Abbreviation MASK_AMOMAXU_D := 0xf800707f (only parsing).
Abbreviation MASK_AMOMAXU_W := 0xf800707f (only parsing).
Abbreviation MASK_AMOMAX_D := 0xf800707f (only parsing).
Abbreviation MASK_AMOMAX_W := 0xf800707f (only parsing).
Abbreviation MASK_AMOMINU_D := 0xf800707f (only parsing).
Abbreviation MASK_AMOMINU_W := 0xf800707f (only parsing).
Abbreviation MASK_AMOMIN_D := 0xf800707f (only parsing).
Abbreviation MASK_AMOMIN_W := 0xf800707f (only parsing).
Abbreviation MASK_AMOOR_D := 0xf800707f (only parsing).
Abbreviation MASK_AMOOR_W := 0xf800707f (only parsing).
Abbreviation MASK_AMOSWAP_D := 0xf800707f (only parsing).
Abbreviation MASK_AMOSWAP_W := 0xf800707f (only parsing).
Abbreviation MASK_AMOXOR_D := 0xf800707f (only parsing).
Abbreviation MASK_AMOXOR_W := 0xf800707f (only parsing).
Abbreviation MASK_AND := 0xfe00707f (only parsing).
Abbreviation MASK_ANDI := 0x707f (only parsing).
Abbreviation MASK_ANDN := 0xfe00707f (only parsing).
Abbreviation MASK_AUIPC := 0x7f (only parsing).
Abbreviation MASK_BCLR := 0xfe00707f (only parsing).
Abbreviation MASK_BCLRI := 0xfc00707f (only parsing).
Abbreviation MASK_BEQ := 0x707f (only parsing).
Abbreviation MASK_BEXT := 0xfe00707f (only parsing).
Abbreviation MASK_BEXTI := 0xfc00707f (only parsing).
Abbreviation MASK_BGE := 0x707f (only parsing).
Abbreviation MASK_BGEU := 0x707f (only parsing).
Abbreviation MASK_BINV := 0xfe00707f (only parsing).
Abbreviation MASK_BINVI := 0xfc00707f (only parsing).
Abbreviation MASK_BLT := 0x707f (only parsing).
Abbreviation MASK_BLTU := 0x707f (only parsing).
Abbreviation MASK_BNE := 0x707f (only parsing).
Abbreviation MASK_BSET := 0xfe00707f (only parsing).
Abbreviation MASK_BSETI := 0xfc00707f (only parsing).
Abbreviation MASK_CBO_CLEAN := 0xfff07fff (only parsing).
Abbreviation MASK_CBO_FLUSH := 0xfff07fff (only parsing).
Abbreviation MASK_CBO_INVAL := 0xfff07fff (only parsing).
Abbreviation MASK_CBO_ZERO := 0xfff07fff (only parsing).
Abbreviation MASK_CLMUL := 0xfe00707f (only parsing).
Abbreviation MASK_CLMULH := 0xfe00707f (only parsing).
Abbreviation MASK_CLMULR := 0xfe00707f (only parsing).
Abbreviation MASK_CLZ := 0xfff0707f (only parsing).
Abbreviation MASK_CLZW := 0xfff0707f (only parsing).
Abbreviation MASK_CPOP := 0xfff0707f (only parsing).
Abbreviation MASK_CPOPW := 0xfff0707f (only parsing).
Abbreviation MASK_CSRRC := 0x707f (only parsing).
Abbreviation MASK_CSRRCI := 0x707f (only parsing).
Abbreviation MASK_CSRRS := 0x707f (only parsing).
Abbreviation MASK_CSRRSI := 0x707f (only parsing).
Abbreviation MASK_CSRRW := 0x707f (only parsing).
Abbreviation MASK_CSRRWI := 0x707f (only parsing).
Abbreviation MASK_CTZ := 0xfff0707f (only parsing).
Abbreviation MASK_CTZW := 0xfff0707f (only parsing).
Abbreviation MASK_CZERO_EQZ := 0xfe00707f (only parsing).
Abbreviation MASK_CZERO_NEZ := 0xfe00707f (only parsing).
Abbreviation MASK_C_ADD := 0xf003 (only parsing).
Abbreviation MASK_C_ADDI := 0xe003 (only parsing).
Abbreviation MASK_C_ADDI16SP := 0xef83 (only parsing).
Abbreviation MASK_C_ADDI4SPN := 0xe003 (only parsing).
Abbreviation MASK_C_ADDIW := 0xe003 (only parsing).
Abbreviation MASK_C_ADDW := 0xfc63 (only parsing).
Abbreviation MASK_C_AND := 0xfc63 (only parsing).
Abbreviation MASK_C_ANDI := 0xec03 (only parsing).
Abbreviation MASK_C_BEQZ := 0xe003 (only parsing).
Abbreviation MASK_C_BNEZ := 0xe003 (only parsing).
Abbreviation MASK_C_EBREAK := 0xffff (only parsing).
Abbreviation MASK_C_FLD := 0xe003 (only parsing).
Abbreviation MASK_C_FLDSP := 0xe003 (only parsing).
Abbreviation MASK_C_FLW := 0xe003 (only parsing).
Abbreviation MASK_C_FLWSP := 0xe003 (only parsing).
Abbreviation MASK_C_FSD := 0xe003 (only parsing).
Abbreviation MASK_C_FSDSP := 0xe003 (only parsing).
Abbreviation MASK_C_FSW := 0xe003 (only parsing).
Abbreviation MASK_C_FSWSP := 0xe003 (only parsing).
Abbreviation MASK_C_J := 0xe003 (only parsing).
Abbreviation MASK_C_JAL := 0xe003 (only parsing).
Abbreviation MASK_C_JALR := 0xf07f (only parsing).
Abbreviation MASK_C_JR := 0xf07f (only parsing).
Abbreviation MASK_C_LD := 0xe003 (only parsing).
Abbreviation MASK_C_LDSP := 0xe003 (only parsing).
Abbreviation MASK_C_LI := 0xe003 (only parsing).
Abbreviation MASK_C_LUI := 0xe003 (only parsing).
Abbreviation MASK_C_LW := 0xe003 (only parsing).
Abbreviation MASK_C_LWSP := 0xe003 (only parsing).
Abbreviation MASK_C_MV := 0xf003 (only parsing).
Abbreviation MASK_C_OR := 0xfc63 (only parsing).
Abbreviation MASK_C_SD := 0xe003 (only parsing).
Abbreviation MASK_C_SDSP := 0xe003 (only parsing).
Abbreviation MASK_C_SLLI := 0xe003 (only parsing).
Abbreviation MASK_C_SLLI64 := 0xf07f (only parsing).
Abbreviation MASK_C_SRAI := 0xec03 (only parsing).
Abbreviation MASK_C_SRAI64 := 0xfc7f (only parsing).
Abbreviation MASK_C_SRLI := 0xec03 (only parsing).
Abbreviation MASK_C_SRLI64 := 0xfc7f (only parsing).
Abbreviation MASK_C_SUB := 0xfc63 (only parsing).
Abbreviation MASK_C_SUBW := 0xfc63 (only parsing).
Abbreviation MASK_C_SW := 0xe003 (only parsing).
Abbreviation MASK_C_SWSP := 0xe003 (only parsing).
Abbreviation MASK_C_XOR := 0xfc63 (only parsing).
Abbreviation MASK_DIV := 0xfe00707f (only parsing).
Abbreviation MASK_DIVU := 0xfe00707f (only parsing).
Abbreviation MASK_DIVUW := 0xfe00707f (only parsing).
Abbreviation MASK_DIVW := 0xfe00707f (only parsing).
Abbreviation MASK_DRET := 0xffffffff (only parsing).
Abbreviation MASK_EBREAK := 0xffffffff (only parsing).
Abbreviation MASK_FADD_D := 0xfe00007f (only parsing).
Abbreviation MASK_FADD_H := 0xfe00007f (only parsing).
Abbreviation MASK_FADD_Q := 0xfe00007f (only parsing).
Abbreviation MASK_FADD_S := 0xfe00007f (only parsing).
Abbreviation MASK_FCLASS_D := 0xfff0707f (only parsing).
Abbreviation MASK_FCLASS_H := 0xfff0707f (only parsing).
Abbreviation MASK_FCLASS_Q := 0xfff0707f (only parsing).
Abbreviation MASK_FCLASS_S := 0xfff0707f (only parsing).
Abbreviation MASK_FCVTMOD_W_D := 0xfff0707f (only parsing).
Abbreviation MASK_FCVT_D_H := 0xfff0007f (only parsing).
Abbreviation MASK_FCVT_D_L := 0xfff0007f (only parsing).
Abbreviation MASK_FCVT_D_LU := 0xfff0007f (only parsing).
Abbreviation MASK_FCVT_D_Q := 0xfff0007f (only parsing).
Abbreviation MASK_FCVT_D_S := 0xfff0007f (only parsing).
Abbreviation MASK_FCVT_D_W := 0xfff0007f (only parsing).
Abbreviation MASK_FCVT_D_WU := 0xfff0007f (only parsing).
Abbreviation MASK_FCVT_H_D := 0xfff0007f (only parsing).
Abbreviation MASK_FCVT_H_L := 0xfff0007f (only parsing).
Abbreviation MASK_FCVT_H_LU := 0xfff0007f (only parsing).
Abbreviation MASK_FCVT_H_Q := 0xfff0007f (only parsing).
Abbreviation MASK_FCVT_H_S := 0xfff0007f (only parsing).
Abbreviation MASK_FCVT_H_W := 0xfff0007f (only parsing).
Abbreviation MASK_FCVT_H_WU := 0xfff0007f (only parsing).
Abbreviation MASK_FCVT_LU_D := 0xfff0007f (only parsing).
Abbreviation MASK_FCVT_LU_H := 0xfff0007f (only parsing).
Abbreviation MASK_FCVT_LU_Q := 0xfff0007f (only parsing).
Abbreviation MASK_FCVT_LU_S := 0xfff0007f (only parsing).
Abbreviation MASK_FCVT_L_D := 0xfff0007f (only parsing).
Abbreviation MASK_FCVT_L_H := 0xfff0007f (only parsing).
Abbreviation MASK_FCVT_L_Q := 0xfff0007f (only parsing).
Abbreviation MASK_FCVT_L_S := 0xfff0007f (only parsing).
Abbreviation MASK_FCVT_Q_D := 0xfff0007f (only parsing).
Abbreviation MASK_FCVT_Q_H := 0xfff0007f (only parsing).
Abbreviation MASK_FCVT_Q_L := 0xfff0007f (only parsing).
Abbreviation MASK_FCVT_Q_LU := 0xfff0007f (only parsing).
Abbreviation MASK_FCVT_Q_S := 0xfff0007f (only parsing).
Abbreviation MASK_FCVT_Q_W := 0xfff0007f (only parsing).
Abbreviation MASK_FCVT_Q_WU := 0xfff0007f (only parsing).
Abbreviation MASK_FCVT_S_D := 0xfff0007f (only parsing).
Abbreviation MASK_FCVT_S_H := 0xfff0007f (only parsing).
Abbreviation MASK_FCVT_S_L := 0xfff0007f (only parsing).
Abbreviation MASK_FCVT_S_LU := 0xfff0007f (only parsing).
Abbreviation MASK_FCVT_S_Q := 0xfff0007f (only parsing).
Abbreviation MASK_FCVT_S_W := 0xfff0007f (only parsing).
Abbreviation MASK_FCVT_S_WU := 0xfff0007f (only parsing).
Abbreviation MASK_FCVT_WU_D := 0xfff0007f (only parsing).
Abbreviation MASK_FCVT_WU_H := 0xfff0007f (only parsing).
Abbreviation MASK_FCVT_WU_Q := 0xfff0007f (only parsing).
Abbreviation MASK_FCVT_WU_S := 0xfff0007f (only parsing).
Abbreviation MASK_FCVT_W_D := 0xfff0007f (only parsing).
Abbreviation MASK_FCVT_W_H := 0xfff0007f (only parsing).
Abbreviation MASK_FCVT_W_Q := 0xfff0007f (only parsing).
Abbreviation MASK_FCVT_W_S := 0xfff0007f (only parsing).
Abbreviation MASK_FDIV_D := 0xfe00007f (only parsing).
Abbreviation MASK_FDIV_H := 0xfe00007f (only parsing).
Abbreviation MASK_FDIV_Q := 0xfe00007f (only parsing).
Abbreviation MASK_FDIV_S := 0xfe00007f (only parsing).
Abbreviation MASK_FENCE := 0x707f (only parsing).
Abbreviation MASK_FENCE_TSO := 0xfff0707f (only parsing).
Abbreviation MASK_FEQ_D := 0xfe00707f (only parsing).
Abbreviation MASK_FEQ_H := 0xfe00707f (only parsing).
Abbreviation MASK_FEQ_Q := 0xfe00707f (only parsing).
Abbreviation MASK_FEQ_S := 0xfe00707f (only parsing).
Abbreviation MASK_FLD := 0x707f (only parsing).
Abbreviation MASK_FLEQ_D := 0xfe00707f (only parsing).
Abbreviation MASK_FLEQ_H := 0xfe00707f (only parsing).
Abbreviation MASK_FLEQ_Q := 0xfe00707f (only parsing).
Abbreviation MASK_FLEQ_S := 0xfe00707f (only parsing).
Abbreviation MASK_FLE_D := 0xfe00707f (only parsing).
Abbreviation MASK_FLE_H := 0xfe00707f (only parsing).
Abbreviation MASK_FLE_Q := 0xfe00707f (only parsing).
Abbreviation MASK_FLE_S := 0xfe00707f (only parsing).
Abbreviation MASK_FLH := 0x707f (only parsing).
Abbreviation MASK_FLI_D := 0xfff0707f (only parsing).
Abbreviation MASK_FLI_H := 0xfff0707f (only parsing).
Abbreviation MASK_FLI_Q := 0xfff0707f (only parsing).
Abbreviation MASK_FLI_S := 0xfff0707f (only parsing).
Abbreviation MASK_FLQ := 0x707f (only parsing).
Abbreviation MASK_FLTQ_D := 0xfe00707f (only parsing).
Abbreviation MASK_FLTQ_H := 0xfe00707f (only parsing).
Abbreviation MASK_FLTQ_Q := 0xfe00707f (only parsing).
Abbreviation MASK_FLTQ_S := 0xfe00707f (only parsing).
Abbreviation MASK_FLT_D := 0xfe00707f (only parsing).
Abbreviation MASK_FLT_H := 0xfe00707f (only parsing).
Abbreviation MASK_FLT_Q := 0xfe00707f (only parsing).
Abbreviation MASK_FLT_S := 0xfe00707f (only parsing).
Abbreviation MASK_FLW := 0x707f (only parsing).
Abbreviation MASK_FMADD_D := 0x600007f (only parsing).
Abbreviation MASK_FMADD_H := 0x600007f (only parsing).
Abbreviation MASK_FMADD_Q := 0x600007f (only parsing).
Abbreviation MASK_FMADD_S := 0x600007f (only parsing).
Abbreviation MASK_FMAXM_D := 0xfe00707f (only parsing).
Abbreviation MASK_FMAXM_H := 0xfe00707f (only parsing).
Abbreviation MASK_FMAXM_Q := 0xfe00707f (only parsing).
Abbreviation MASK_FMAXM_S := 0xfe00707f (only parsing).
Abbreviation MASK_FMAX_D := 0xfe00707f (only parsing).
Abbreviation MASK_FMAX_H := 0xfe00707f (only parsing).
Abbreviation MASK_FMAX_Q := 0xfe00707f (only parsing).
Abbreviation MASK_FMAX_S := 0xfe00707f (only parsing).
Abbreviation MASK_FMINM_D := 0xfe00707f (only parsing).
Abbreviation MASK_FMINM_H := 0xfe00707f (only parsing).
Abbreviation MASK_FMINM_Q := 0xfe00707f (only parsing).
Abbreviation MASK_FMINM_S := 0xfe00707f (only parsing).
Abbreviation MASK_FMIN_D := 0xfe00707f (only parsing).
Abbreviation MASK_FMIN_H := 0xfe00707f (only parsing).
Abbreviation MASK_FMIN_Q := 0xfe00707f (only parsing).
Abbreviation MASK_FMIN_S := 0xfe00707f (only parsing).
Abbreviation MASK_FMSUB_D := 0x600007f (only parsing).
Abbreviation MASK_FMSUB_H := 0x600007f (only parsing).
Abbreviation MASK_FMSUB_Q := 0x600007f (only parsing).
Abbreviation MASK_FMSUB_S := 0x600007f (only parsing).
Abbreviation MASK_FMUL_D := 0xfe00007f (only parsing).
Abbreviation MASK_FMUL_H := 0xfe00007f (only parsing).
Abbreviation MASK_FMUL_Q := 0xfe00007f (only parsing).
Abbreviation MASK_FMUL_S := 0xfe00007f (only parsing).
Abbreviation MASK_FMVH_X_D := 0xfff0707f (only parsing).
Abbreviation MASK_FMVH_X_Q := 0xfff0707f (only parsing).
Abbreviation MASK_FMVP_D_X := 0xfe00707f (only parsing).
Abbreviation MASK_FMVP_Q_X := 0xfe00707f (only parsing).
Abbreviation MASK_FMV_D_X := 0xfff0707f (only parsing).
Abbreviation MASK_FMV_H_X := 0xfff0707f (only parsing).
Abbreviation MASK_FMV_S_X := 0xfff0707f (only parsing).
Abbreviation MASK_FMV_X_D := 0xfff0707f (only parsing).
Abbreviation MASK_FMV_X_H := 0xfff0707f (only parsing).
Abbreviation MASK_FMV_X_S := 0xfff0707f (only parsing).
Abbreviation MASK_FNMADD_D := 0x600007f (only parsing).
Abbreviation MASK_FNMADD_H := 0x600007f (only parsing).
Abbreviation MASK_FNMADD_Q := 0x600007f (only parsing).
Abbreviation MASK_FNMADD_S := 0x600007f (only parsing).
Abbreviation MASK_FNMSUB_D := 0x600007f (only parsing).
Abbreviation MASK_FNMSUB_H := 0x600007f (only parsing).
Abbreviation MASK_FNMSUB_Q := 0x600007f (only parsing).
Abbreviation MASK_FNMSUB_S := 0x600007f (only parsing).
Abbreviation MASK_FRCSR := 0xfffff07f (only parsing).
Abbreviation MASK_FRFLAGS := 0xfffff07f (only parsing).
Abbreviation MASK_FROUNDNX_D := 0xfff0007f (only parsing).
Abbreviation MASK_FROUNDNX_H := 0xfff0007f (only parsing).
Abbreviation MASK_FROUNDNX_Q := 0xfff0007f (only parsing).
Abbreviation MASK_FROUNDNX_S := 0xfff0007f (only parsing).
Abbreviation MASK_FROUND_D := 0xfff0007f (only parsing).
Abbreviation MASK_FROUND_H := 0xfff0007f (only parsing).
Abbreviation MASK_FROUND_Q := 0xfff0007f (only parsing).
Abbreviation MASK_FROUND_S := 0xfff0007f (only parsing).
Abbreviation MASK_FRRM := 0xfffff07f (only parsing).
Abbreviation MASK_FSCSR := 0xfff0707f (only parsing).
Abbreviation MASK_FSD := 0x707f (only parsing).
Abbreviation MASK_FSFLAGS := 0xfff0707f (only parsing).
Abbreviation MASK_FSFLAGSI := 0xfff0707f (only parsing).
Abbreviation MASK_FSGNJN_D := 0xfe00707f (only parsing).
Abbreviation MASK_FSGNJN_H := 0xfe00707f (only parsing).
Abbreviation MASK_FSGNJN_Q := 0xfe00707f (only parsing).
Abbreviation MASK_FSGNJN_S := 0xfe00707f (only parsing).
Abbreviation MASK_FSGNJX_D := 0xfe00707f (only parsing).
Abbreviation MASK_FSGNJX_H := 0xfe00707f (only parsing).
Abbreviation MASK_FSGNJX_Q := 0xfe00707f (only parsing).
Abbreviation MASK_FSGNJX_S := 0xfe00707f (only parsing).
Abbreviation MASK_FSGNJ_D := 0xfe00707f (only parsing).
Abbreviation MASK_FSGNJ_H := 0xfe00707f (only parsing).
Abbreviation MASK_FSGNJ_Q := 0xfe00707f (only parsing).
Abbreviation MASK_FSGNJ_S := 0xfe00707f (only parsing).
Abbreviation MASK_FSH := 0x707f (only parsing).
Abbreviation MASK_FSQ := 0x707f (only parsing).
Abbreviation MASK_FSQRT_D := 0xfff0007f (only parsing).
Abbreviation MASK_FSQRT_H := 0xfff0007f (only parsing).
Abbreviation MASK_FSQRT_Q := 0xfff0007f (only parsing).
Abbreviation MASK_FSQRT_S := 0xfff0007f (only parsing).
Abbreviation MASK_FSRM := 0xfff0707f (only parsing).
Abbreviation MASK_FSRMI := 0xfff0707f (only parsing).
Abbreviation MASK_FSUB_D := 0xfe00007f (only parsing).
Abbreviation MASK_FSUB_H := 0xfe00007f (only parsing).
Abbreviation MASK_FSUB_Q := 0xfe00007f (only parsing).
Abbreviation MASK_FSUB_S := 0xfe00007f (only parsing).
Abbreviation MASK_FSW := 0x707f (only parsing).
Abbreviation MASK_GORCI := 0xfc00707f (only parsing).
Abbreviation MASK_GREVI := 0xfc00707f (only parsing).
Abbreviation MASK_HFENCE_GVMA := 0xfe007fff (only parsing).
Abbreviation MASK_HFENCE_VVMA := 0xfe007fff (only parsing).
Abbreviation MASK_HINVAL_GVMA := 0xfe007fff (only parsing).
Abbreviation MASK_HINVAL_VVMA := 0xfe007fff (only parsing).
Abbreviation MASK_HLVX_HU := 0xfff0707f (only parsing).
Abbreviation MASK_HLVX_WU := 0xfff0707f (only parsing).
Abbreviation MASK_HLV_B := 0xfff0707f (only parsing).
Abbreviation MASK_HLV_BU := 0xfff0707f (only parsing).
Abbreviation MASK_HLV_D := 0xfff0707f (only parsing).
Abbreviation MASK_HLV_H := 0xfff0707f (only parsing).
Abbreviation MASK_HLV_HU := 0xfff0707f (only parsing).
Abbreviation MASK_HLV_W := 0xfff0707f (only parsing).
Abbreviation MASK_HLV_WU := 0xfff0707f (only parsing).
Abbreviation MASK_HRET := 0xffffffff (only parsing).
Abbreviation MASK_HSV_B := 0xfe007fff (only parsing).
Abbreviation MASK_HSV_D := 0xfe007fff (only parsing).
Abbreviation MASK_HSV_H := 0xfe007fff (only parsing).
Abbreviation MASK_HSV_W := 0xfe007fff (only parsing).
Abbreviation MASK_JAL := 0x7f (only parsing).
Abbreviation MASK_JALR := 0x707f (only parsing).
Abbreviation MASK_LB := 0x707f (only parsing).
Abbreviation MASK_LBU := 0x707f (only parsing).
Abbreviation MASK_LD := 0x707f (only parsing).
Abbreviation MASK_LH := 0x707f (only parsing).
Abbreviation MASK_LHU := 0x707f (only parsing).
Abbreviation MASK_LR_D := 0xf9f0707f (only parsing).
Abbreviation MASK_LR_W := 0xf9f0707f (only parsing).
Abbreviation MASK_LUI := 0x7f (only parsing).
Abbreviation MASK_LW := 0x707f (only parsing).
Abbreviation MASK_LWU := 0x707f (only parsing).
Abbreviation MASK_MAX := 0xfe00707f (only parsing).
Abbreviation MASK_MAXU := 0xfe00707f (only parsing).
Abbreviation MASK_MIN := 0xfe00707f (only parsing).
Abbreviation MASK_MINU := 0xfe00707f (only parsing).
Abbreviation MASK_MRET := 0xffffffff (only parsing).
Abbreviation MASK_MUL := 0xfe00707f (only parsing).
Abbreviation MASK_MULH := 0xfe00707f (only parsing).
Abbreviation MASK_MULHSU := 0xfe00707f (only parsing).
Abbreviation MASK_MULHU := 0xfe00707f (only parsing).
Abbreviation MASK_MULW := 0xfe00707f (only parsing).
Abbreviation MASK_OR := 0xfe00707f (only parsing).
Abbreviation MASK_ORI := 0x707f (only parsing).
Abbreviation MASK_ORN := 0xfe00707f (only parsing).
Abbreviation MASK_PACK := 0xfe00707f (only parsing).
Abbreviation MASK_PACKH := 0xfe00707f (only parsing).
Abbreviation MASK_PACKW := 0xfe00707f (only parsing).
Abbreviation MASK_PAUSE := 0xffffffff (only parsing).
Abbreviation MASK_PREFETCH_I := 0x1f07fff (only parsing).
Abbreviation MASK_PREFETCH_R := 0x1f07fff (only parsing).
Abbreviation MASK_PREFETCH_W := 0x1f07fff (only parsing).
Abbreviation MASK_PVADD := 0xfe00707f (only parsing).
Abbreviation MASK_PVMAC := 0xfe00707f (only parsing).
Abbreviation MASK_PVMUL := 0xfe00707f (only parsing).
Abbreviation MASK_PVMUL_UPPER := 0xfe00707f (only parsing).
Abbreviation MASK_RDCYCLE := 0xfffff07f (only parsing).
Abbreviation MASK_RDCYCLEH := 0xfffff07f (only parsing).
Abbreviation MASK_RDINSTRET := 0xfffff07f (only parsing).
Abbreviation MASK_RDINSTRETH := 0xfffff07f (only parsing).
Abbreviation MASK_RDTIME := 0xfffff07f (only parsing).
Abbreviation MASK_RDTIMEH := 0xfffff07f (only parsing).
Abbreviation MASK_REM := 0xfe00707f (only parsing).
Abbreviation MASK_REMU := 0xfe00707f (only parsing).
Abbreviation MASK_REMUW := 0xfe00707f (only parsing).
Abbreviation MASK_REMW := 0xfe00707f (only parsing).
Abbreviation MASK_ROL := 0xfe00707f (only parsing).
Abbreviation MASK_ROLW := 0xfe00707f (only parsing).
Abbreviation MASK_ROR := 0xfe00707f (only parsing).
Abbreviation MASK_RORI := 0xfc00707f (only parsing).
Abbreviation MASK_RORIW := 0xfe00707f (only parsing).
Abbreviation MASK_RORW := 0xfe00707f (only parsing).
Abbreviation MASK_SB := 0x707f (only parsing).
Abbreviation MASK_SCALL := 0xffffffff (only parsing).
Abbreviation MASK_SC_D := 0xf800707f (only parsing).
Abbreviation MASK_SC_W := 0xf800707f (only parsing).
Abbreviation MASK_SD := 0x707f (only parsing).
Abbreviation MASK_SEXT_B := 0xfff0707f (only parsing).
Abbreviation MASK_SEXT_H := 0xfff0707f (only parsing).
Abbreviation MASK_SFENCE_INVAL_IR := 0xffffffff (only parsing).
Abbreviation MASK_SFENCE_VM := 0xfff07fff (only parsing).
Abbreviation MASK_SFENCE_VMA := 0xfe007fff (only parsing).
Abbreviation MASK_SFENCE_W_INVAL := 0xffffffff (only parsing).
Abbreviation MASK_SH := 0x707f (only parsing).
Abbreviation MASK_SH1ADD := 0xfe00707f (only parsing).
Abbreviation MASK_SH1ADD_UW := 0xfe00707f (only parsing).
Abbreviation MASK_SH2ADD := 0xfe00707f (only parsing).
Abbreviation MASK_SH2ADD_UW := 0xfe00707f (only parsing).
Abbreviation MASK_SH3ADD := 0xfe00707f (only parsing).
Abbreviation MASK_SH3ADD_UW := 0xfe00707f (only parsing).
Abbreviation MASK_SHA256SIG0 := 0xfff0707f (only parsing).
Abbreviation MASK_SHA256SIG1 := 0xfff0707f (only parsing).
Abbreviation MASK_SHA256SUM0 := 0xfff0707f (only parsing).
Abbreviation MASK_SHA256SUM1 := 0xfff0707f (only parsing).
Abbreviation MASK_SHA512SIG0 := 0xfff0707f (only parsing).
Abbreviation MASK_SHA512SIG0H := 0xfe00707f (only parsing).
Abbreviation MASK_SHA512SIG0L := 0xfe00707f (only parsing).
Abbreviation MASK_SHA512SIG1 := 0xfff0707f (only parsing).
Abbreviation MASK_SHA512SIG1H := 0xfe00707f (only parsing).
Abbreviation MASK_SHA512SIG1L := 0xfe00707f (only parsing).
Abbreviation MASK_SHA512SUM0 := 0xfff0707f (only parsing).
Abbreviation MASK_SHA512SUM0R := 0xfe00707f (only parsing).
Abbreviation MASK_SHA512SUM1 := 0xfff0707f (only parsing).
Abbreviation MASK_SHA512SUM1R := 0xfe00707f (only parsing).
Abbreviation MASK_SHFLI := 0xfe00707f (only parsing).
Abbreviation MASK_SINVAL_VMA := 0xfe007fff (only parsing).
Abbreviation MASK_SLL := 0xfe00707f (only parsing).
Abbreviation MASK_SLLI := 0xfc00707f (only parsing).
Abbreviation MASK_SLLIW := 0xfe00707f (only parsing).
Abbreviation MASK_SLLI_UW := 0xfc00707f (only parsing).
Abbreviation MASK_SLLW := 0xfe00707f (only parsing).
Abbreviation MASK_SLT := 0xfe00707f (only parsing).
Abbreviation MASK_SLTI := 0x707f (only parsing).
Abbreviation MASK_SLTIU := 0x707f (only parsing).
Abbreviation MASK_SLTU := 0xfe00707f (only parsing).
Abbreviation MASK_SM3P0 := 0xfff0707f (only parsing).
Abbreviation MASK_SM3P1 := 0xfff0707f (only parsing).
Abbreviation MASK_SM4ED := 0x3e00707f (only parsing).
Abbreviation MASK_SM4KS := 0x3e00707f (only parsing).
Abbreviation MASK_SRA := 0xfe00707f (only parsing).
Abbreviation MASK_SRAI := 0xfc00707f (only parsing).
Abbreviation MASK_SRAIW := 0xfe00707f (only parsing).
Abbreviation MASK_SRAW := 0xfe00707f (only parsing).
Abbreviation MASK_SRET := 0xffffffff (only parsing).
Abbreviation MASK_SRL := 0xfe00707f (only parsing).
Abbreviation MASK_SRLI := 0xfc00707f (only parsing).
Abbreviation MASK_SRLIW := 0xfe00707f (only parsing).
Abbreviation MASK_SRLW := 0xfe00707f (only parsing).
Abbreviation MASK_SUB := 0xfe00707f (only parsing).
Abbreviation MASK_SUBW := 0xfe00707f (only parsing).
Abbreviation MASK_SW := 0x707f (only parsing).
Abbreviation MASK_TH_ADDSL := 0xf800707f (only parsing).
Abbreviation MASK_TH_DCACHE_CALL := 0xffffffff (only parsing).
Abbreviation MASK_TH_DCACHE_CIALL := 0xffffffff (only parsing).
Abbreviation MASK_TH_DCACHE_CIPA := 0xfff07fff (only parsing).
Abbreviation MASK_TH_DCACHE_CISW := 0xfff07fff (only parsing).
Abbreviation MASK_TH_DCACHE_CIVA := 0xfff07fff (only parsing).
Abbreviation MASK_TH_DCACHE_CPA := 0xfff07fff (only parsing).
Abbreviation MASK_TH_DCACHE_CPAL1 := 0xfff07fff (only parsing).
Abbreviation MASK_TH_DCACHE_CSW := 0xfff07fff (only parsing).
Abbreviation MASK_TH_DCACHE_CVA := 0xfff07fff (only parsing).
Abbreviation MASK_TH_DCACHE_CVAL1 := 0xfff07fff (only parsing).
Abbreviation MASK_TH_DCACHE_IALL := 0xffffffff (only parsing).
Abbreviation MASK_TH_DCACHE_IPA := 0xfff07fff (only parsing).
Abbreviation MASK_TH_DCACHE_ISW := 0xfff07fff (only parsing).
Abbreviation MASK_TH_DCACHE_IVA := 0xfff07fff (only parsing).
Abbreviation MASK_TH_EXT := 0x0000707f (only parsing).
Abbreviation MASK_TH_EXTU := 0x0000707f (only parsing).
Abbreviation MASK_TH_FF0 := 0xfff0707f (only parsing).
Abbreviation MASK_TH_FF1 := 0xfff0707f (only parsing).
Abbreviation MASK_TH_FLRD := 0xf800707f (only parsing).
Abbreviation MASK_TH_FLRW := 0xf800707f (only parsing).
Abbreviation MASK_TH_FLURD := 0xf800707f (only parsing).
Abbreviation MASK_TH_FLURW := 0xf800707f (only parsing).
Abbreviation MASK_TH_FMV_HW_X := 0xfff0707f (only parsing).
Abbreviation MASK_TH_FMV_X_HW := 0xfff0707f (only parsing).
Abbreviation MASK_TH_FSRD := 0xf800707f (only parsing).
Abbreviation MASK_TH_FSRW := 0xf800707f (only parsing).
Abbreviation MASK_TH_FSURD := 0xf800707f (only parsing).
Abbreviation MASK_TH_FSURW := 0xf800707f (only parsing).
Abbreviation MASK_TH_ICACHE_IALL := 0xffffffff (only parsing).
Abbreviation MASK_TH_ICACHE_IALLS := 0xffffffff (only parsing).
Abbreviation MASK_TH_ICACHE_IPA := 0xfff07fff (only parsing).
Abbreviation MASK_TH_ICACHE_IVA := 0xfff07fff (only parsing).
Abbreviation MASK_TH_IPOP := 0xffffffff (only parsing).
Abbreviation MASK_TH_IPUSH := 0xffffffff (only parsing).
Abbreviation MASK_TH_L2CACHE_CALL := 0xffffffff (only parsing).
Abbreviation MASK_TH_L2CACHE_CIALL := 0xffffffff (only parsing).
Abbreviation MASK_TH_L2CACHE_IALL := 0xffffffff (only parsing).
Abbreviation MASK_TH_LBIA := 0xf800707f (only parsing).
Abbreviation MASK_TH_LBIB := 0xf800707f (only parsing).
Abbreviation MASK_TH_LBUIA := 0xf800707f (only parsing).
Abbreviation MASK_TH_LBUIB := 0xf800707f (only parsing).
Abbreviation MASK_TH_LDD := 0xf800707f (only parsing).
Abbreviation MASK_TH_LDIA := 0xf800707f (only parsing).
Abbreviation MASK_TH_LDIB := 0xf800707f (only parsing).
Abbreviation MASK_TH_LHIA := 0xf800707f (only parsing).
Abbreviation MASK_TH_LHIB := 0xf800707f (only parsing).
Abbreviation MASK_TH_LHUIA := 0xf800707f (only parsing).
Abbreviation MASK_TH_LHUIB := 0xf800707f (only parsing).
Abbreviation MASK_TH_LRB := 0xf800707f (only parsing).
Abbreviation MASK_TH_LRBU := 0xf800707f (only parsing).
Abbreviation MASK_TH_LRD := 0xf800707f (only parsing).
Abbreviation MASK_TH_LRH := 0xf800707f (only parsing).
Abbreviation MASK_TH_LRHU := 0xf800707f (only parsing).
Abbreviation MASK_TH_LRW := 0xf800707f (only parsing).
Abbreviation MASK_TH_LRWU := 0xf800707f (only parsing).
Abbreviation MASK_TH_LURB := 0xf800707f (only parsing).
Abbreviation MASK_TH_LURBU := 0xf800707f (only parsing).
Abbreviation MASK_TH_LURD := 0xf800707f (only parsing).
Abbreviation MASK_TH_LURH := 0xf800707f (only parsing).
Abbreviation MASK_TH_LURHU := 0xf800707f (only parsing).
Abbreviation MASK_TH_LURW := 0xf800707f (only parsing).
Abbreviation MASK_TH_LURWU := 0xf800707f (only parsing).
Abbreviation MASK_TH_LWD := 0xf800707f (only parsing).
Abbreviation MASK_TH_LWIA := 0xf800707f (only parsing).
Abbreviation MASK_TH_LWIB := 0xf800707f (only parsing).
Abbreviation MASK_TH_LWUD := 0xf800707f (only parsing).
Abbreviation MASK_TH_LWUIA := 0xf800707f (only parsing).
Abbreviation MASK_TH_LWUIB := 0xf800707f (only parsing).
Abbreviation MASK_TH_MULA := 0xfe00707f (only parsing).
Abbreviation MASK_TH_MULAH := 0xfe00707f (only parsing).
Abbreviation MASK_TH_MULAW := 0xfe00707f (only parsing).
Abbreviation MASK_TH_MULS := 0xfe00707f (only parsing).
Abbreviation MASK_TH_MULSH := 0xfe00707f (only parsing).
Abbreviation MASK_TH_MULSW := 0xfe00707f (only parsing).
Abbreviation MASK_TH_MVEQZ := 0xfe00707f (only parsing).
Abbreviation MASK_TH_MVNEZ := 0xfe00707f (only parsing).
Abbreviation MASK_TH_REV := 0xfff0707f (only parsing).
Abbreviation MASK_TH_REVW := 0xfff0707f (only parsing).
Abbreviation MASK_TH_SBIA := 0xf800707f (only parsing).
Abbreviation MASK_TH_SBIB := 0xf800707f (only parsing).
Abbreviation MASK_TH_SDD := 0xf800707f (only parsing).
Abbreviation MASK_TH_SDIA := 0xf800707f (only parsing).
Abbreviation MASK_TH_SDIB := 0xf800707f (only parsing).
Abbreviation MASK_TH_SFENCE_VMAS := 0xfe007fff (only parsing).
Abbreviation MASK_TH_SHIA := 0xf800707f (only parsing).
Abbreviation MASK_TH_SHIB := 0xf800707f (only parsing).
Abbreviation MASK_TH_SRB := 0xf800707f (only parsing).
Abbreviation MASK_TH_SRD := 0xf800707f (only parsing).
Abbreviation MASK_TH_SRH := 0xf800707f (only parsing).
Abbreviation MASK_TH_SRRI := 0xfc00707f (only parsing).
Abbreviation MASK_TH_SRRIW := 0xfe00707f (only parsing).
Abbreviation MASK_TH_SRW := 0xf800707f (only parsing).
Abbreviation MASK_TH_SURB := 0xf800707f (only parsing).
Abbreviation MASK_TH_SURD := 0xf800707f (only parsing).
Abbreviation MASK_TH_SURH := 0xf800707f (only parsing).
Abbreviation MASK_TH_SURW := 0xf800707f (only parsing).
Abbreviation MASK_TH_SWD := 0xf800707f (only parsing).
Abbreviation MASK_TH_SWIA := 0xf800707f (only parsing).
Abbreviation MASK_TH_SWIB := 0xf800707f (only parsing).
Abbreviation MASK_TH_SYNC := 0xffffffff (only parsing).
Abbreviation MASK_TH_SYNC_I := 0xffffffff (only parsing).
Abbreviation MASK_TH_SYNC_IS := 0xffffffff (only parsing).
Abbreviation MASK_TH_SYNC_S := 0xffffffff (only parsing).
Abbreviation MASK_TH_TST := 0xfc00707f (only parsing).
Abbreviation MASK_TH_TSTNBZ := 0xfff0707f (only parsing).
Abbreviation MASK_UNSHFLI := 0xfe00707f (only parsing).
Abbreviation MASK_URET := 0xffffffff (only parsing).
Abbreviation MASK_VAADDUVV := 0xfc00707f (only parsing).
Abbreviation MASK_VAADDUVX := 0xfc00707f (only parsing).
Abbreviation MASK_VAADDVV := 0xfc00707f (only parsing).
Abbreviation MASK_VAADDVX := 0xfc00707f (only parsing).
Abbreviation MASK_VADCVIM := 0xfe00707f (only parsing).
Abbreviation MASK_VADCVVM := 0xfe00707f (only parsing).
Abbreviation MASK_VADCVXM := 0xfe00707f (only parsing).
Abbreviation MASK_VADDVI := 0xfc00707f (only parsing).
Abbreviation MASK_VADDVV := 0xfc00707f (only parsing).
Abbreviation MASK_VADDVX := 0xfc00707f (only parsing).
Abbreviation MASK_VADD_B := 0xfe00707f (only parsing).
Abbreviation MASK_VADD_H := 0xfe00707f (only parsing).
Abbreviation MASK_VADD_W := 0xfe00707f (only parsing).
Abbreviation MASK_VAESDF_VV := 0xfe0ff07f (only parsing).
Abbreviation MASK_VAESDM_VV := 0xfe0ff07f (only parsing).
Abbreviation MASK_VAESEF_VV := 0xfe0ff07f (only parsing).
Abbreviation MASK_VAESEM_VV := 0xfe0ff07f (only parsing).
Abbreviation MASK_VAESKF1_VI := 0xfe00707f (only parsing).
Abbreviation MASK_VAESKF2_VI := 0xfe00707f (only parsing).
Abbreviation MASK_VAESZ_VS := 0xfe0ff07f (only parsing).
Abbreviation MASK_VANDN_VV := 0xfc00707f (only parsing).
Abbreviation MASK_VANDN_VX := 0xfc00707f (only parsing).
Abbreviation MASK_VANDVI := 0xfc00707f (only parsing).
Abbreviation MASK_VANDVV := 0xfc00707f (only parsing).
Abbreviation MASK_VANDVX := 0xfc00707f (only parsing).
Abbreviation MASK_VASUBUVV := 0xfc00707f (only parsing).
Abbreviation MASK_VASUBUVX := 0xfc00707f (only parsing).
Abbreviation MASK_VASUBVV := 0xfc00707f (only parsing).
Abbreviation MASK_VASUBVX := 0xfc00707f (only parsing).
Abbreviation MASK_VBREV8_V := 0xfc0ff07f (only parsing).
Abbreviation MASK_VBREV_V := 0xfc0ff07f (only parsing).
Abbreviation MASK_VCLMULH_VV := 0xfc00707f (only parsing).
Abbreviation MASK_VCLMULH_VX := 0xfc00707f (only parsing).
Abbreviation MASK_VCLMUL_VV := 0xfc00707f (only parsing).
Abbreviation MASK_VCLMUL_VX := 0xfc00707f (only parsing).
Abbreviation MASK_VCLZ_V := 0xfc0ff07f (only parsing).
Abbreviation MASK_VCOMPRESSVM := 0xfe00707f (only parsing).
Abbreviation MASK_VCPOPM := 0xfc0ff07f (only parsing).
Abbreviation MASK_VCPOP_V := 0xfc0ff07f (only parsing).
Abbreviation MASK_VCTZ_V := 0xfc0ff07f (only parsing).
Abbreviation MASK_VDIVUVV := 0xfc00707f (only parsing).
Abbreviation MASK_VDIVUVX := 0xfc00707f (only parsing).
Abbreviation MASK_VDIVVV := 0xfc00707f (only parsing).
Abbreviation MASK_VDIVVX := 0xfc00707f (only parsing).
Abbreviation MASK_VFADDVF := 0xfc00707f (only parsing).
Abbreviation MASK_VFADDVV := 0xfc00707f (only parsing).
Abbreviation MASK_VFCLASSV := 0xfc0ff07f (only parsing).
Abbreviation MASK_VFCVTFXUV := 0xfc0ff07f (only parsing).
Abbreviation MASK_VFCVTFXV := 0xfc0ff07f (only parsing).
Abbreviation MASK_VFCVTRTZXFV := 0xfc0ff07f (only parsing).
Abbreviation MASK_VFCVTRTZXUFV := 0xfc0ff07f (only parsing).
Abbreviation MASK_VFCVTXFV := 0xfc0ff07f (only parsing).
Abbreviation MASK_VFCVTXUFV := 0xfc0ff07f (only parsing).
Abbreviation MASK_VFDIVVF := 0xfc00707f (only parsing).
Abbreviation MASK_VFDIVVV := 0xfc00707f (only parsing).
Abbreviation MASK_VFIRSTM := 0xfc0ff07f (only parsing).
Abbreviation MASK_VFMACCVF := 0xfc00707f (only parsing).
Abbreviation MASK_VFMACCVV := 0xfc00707f (only parsing).
Abbreviation MASK_VFMADDVF := 0xfc00707f (only parsing).
Abbreviation MASK_VFMADDVV := 0xfc00707f (only parsing).
Abbreviation MASK_VFMAXVF := 0xfc00707f (only parsing).
Abbreviation MASK_VFMAXVV := 0xfc00707f (only parsing).
Abbreviation MASK_VFMERGEVFM := 0xfe00707f (only parsing).
Abbreviation MASK_VFMINVF := 0xfc00707f (only parsing).
Abbreviation MASK_VFMINVV := 0xfc00707f (only parsing).
Abbreviation MASK_VFMSACVF := 0xfc00707f (only parsing).
Abbreviation MASK_VFMSACVV := 0xfc00707f (only parsing).
Abbreviation MASK_VFMSUBVF := 0xfc00707f (only parsing).
Abbreviation MASK_VFMSUBVV := 0xfc00707f (only parsing).
Abbreviation MASK_VFMULVF := 0xfc00707f (only parsing).
Abbreviation MASK_VFMULVV := 0xfc00707f (only parsing).
Abbreviation MASK_VFMVFS := 0xfe0ff07f (only parsing).
Abbreviation MASK_VFMVSF := 0xfff0707f (only parsing).
Abbreviation MASK_VFMVVF := 0xfff0707f (only parsing).
Abbreviation MASK_VFNCVTFFW := 0xfc0ff07f (only parsing).
Abbreviation MASK_VFNCVTFXUW := 0xfc0ff07f (only parsing).
Abbreviation MASK_VFNCVTFXW := 0xfc0ff07f (only parsing).
Abbreviation MASK_VFNCVTRODFFW := 0xfc0ff07f (only parsing).
Abbreviation MASK_VFNCVTRTZXFW := 0xfc0ff07f (only parsing).
Abbreviation MASK_VFNCVTRTZXUFW := 0xfc0ff07f (only parsing).
Abbreviation MASK_VFNCVTXFW := 0xfc0ff07f (only parsing).
Abbreviation MASK_VFNCVTXUFW := 0xfc0ff07f (only parsing).
Abbreviation MASK_VFNMACCVF := 0xfc00707f (only parsing).
Abbreviation MASK_VFNMACCVV := 0xfc00707f (only parsing).
Abbreviation MASK_VFNMADDVF := 0xfc00707f (only parsing).
Abbreviation MASK_VFNMADDVV := 0xfc00707f (only parsing).
Abbreviation MASK_VFNMSACVF := 0xfc00707f (only parsing).
Abbreviation MASK_VFNMSACVV := 0xfc00707f (only parsing).
Abbreviation MASK_VFNMSUBVF := 0xfc00707f (only parsing).
Abbreviation MASK_VFNMSUBVV := 0xfc00707f (only parsing).
Abbreviation MASK_VFRDIVVF := 0xfc00707f (only parsing).
Abbreviation MASK_VFREC7V := 0xfc0ff07f (only parsing).
Abbreviation MASK_VFREDMAXVS := 0xfc00707f (only parsing).
Abbreviation MASK_VFREDMINVS := 0xfc00707f (only parsing).
Abbreviation MASK_VFREDOSUMVS := 0xfc00707f (only parsing).
Abbreviation MASK_VFREDUSUMVS := 0xfc00707f (only parsing).
Abbreviation MASK_VFRSQRT7V := 0xfc0ff07f (only parsing).
Abbreviation MASK_VFRSUBVF := 0xfc00707f (only parsing).
Abbreviation MASK_VFSGNJNVF := 0xfc00707f (only parsing).
Abbreviation MASK_VFSGNJNVV := 0xfc00707f (only parsing).
Abbreviation MASK_VFSGNJVF := 0xfc00707f (only parsing).
Abbreviation MASK_VFSGNJVV := 0xfc00707f (only parsing).
Abbreviation MASK_VFSGNJXVF := 0xfc00707f (only parsing).
Abbreviation MASK_VFSGNJXVV := 0xfc00707f (only parsing).
Abbreviation MASK_VFSLIDE1DOWNVF := 0xfc00707f (only parsing).
Abbreviation MASK_VFSLIDE1UPVF := 0xfc00707f (only parsing).
Abbreviation MASK_VFSQRTV := 0xfc0ff07f (only parsing).
Abbreviation MASK_VFSUBVF := 0xfc00707f (only parsing).
Abbreviation MASK_VFSUBVV := 0xfc00707f (only parsing).
Abbreviation MASK_VFWADDVF := 0xfc00707f (only parsing).
Abbreviation MASK_VFWADDVV := 0xfc00707f (only parsing).
Abbreviation MASK_VFWADDWF := 0xfc00707f (only parsing).
Abbreviation MASK_VFWADDWV := 0xfc00707f (only parsing).
Abbreviation MASK_VFWCVTFFV := 0xfc0ff07f (only parsing).
Abbreviation MASK_VFWCVTFXUV := 0xfc0ff07f (only parsing).
Abbreviation MASK_VFWCVTFXV := 0xfc0ff07f (only parsing).
Abbreviation MASK_VFWCVTRTZXFV := 0xfc0ff07f (only parsing).
Abbreviation MASK_VFWCVTRTZXUFV := 0xfc0ff07f (only parsing).
Abbreviation MASK_VFWCVTXFV := 0xfc0ff07f (only parsing).
Abbreviation MASK_VFWCVTXUFV := 0xfc0ff07f (only parsing).
Abbreviation MASK_VFWMACCVF := 0xfc00707f (only parsing).
Abbreviation MASK_VFWMACCVV := 0xfc00707f (only parsing).
Abbreviation MASK_VFWMSACVF := 0xfc00707f (only parsing).
Abbreviation MASK_VFWMSACVV := 0xfc00707f (only parsing).
Abbreviation MASK_VFWMULVF := 0xfc00707f (only parsing).
Abbreviation MASK_VFWMULVV := 0xfc00707f (only parsing).
Abbreviation MASK_VFWNMACCVF := 0xfc00707f (only parsing).
Abbreviation MASK_VFWNMACCVV := 0xfc00707f (only parsing).
Abbreviation MASK_VFWNMSACVF := 0xfc00707f (only parsing).
Abbreviation MASK_VFWNMSACVV := 0xfc00707f (only parsing).
Abbreviation MASK_VFWREDOSUMVS := 0xfc00707f (only parsing).
Abbreviation MASK_VFWREDUSUMVS := 0xfc00707f (only parsing).
Abbreviation MASK_VFWSUBVF := 0xfc00707f (only parsing).
Abbreviation MASK_VFWSUBVV := 0xfc00707f (only parsing).
Abbreviation MASK_VFWSUBWF := 0xfc00707f (only parsing).
Abbreviation MASK_VFWSUBWV := 0xfc00707f (only parsing).
Abbreviation MASK_VGHSH_VV := 0xfe00707f (only parsing).
Abbreviation MASK_VGMUL_VV := 0xfe0ff07f (only parsing).
Abbreviation MASK_VIDV := 0xfdfff07f (only parsing).
Abbreviation MASK_VIOTAM := 0xfc0ff07f (only parsing).
Abbreviation MASK_VL1RE16V := 0xfff0707f (only parsing).
Abbreviation MASK_VL1RE32V := 0xfff0707f (only parsing).
Abbreviation MASK_VL1RE64V := 0xfff0707f (only parsing).
Abbreviation MASK_VL1RE8V := 0xfff0707f (only parsing).
Abbreviation MASK_VL2RE16V := 0xfff0707f (only parsing).
Abbreviation MASK_VL2RE32V := 0xfff0707f (only parsing).
Abbreviation MASK_VL2RE64V := 0xfff0707f (only parsing).
Abbreviation MASK_VL2RE8V := 0xfff0707f (only parsing).
Abbreviation MASK_VL4RE16V := 0xfff0707f (only parsing).
Abbreviation MASK_VL4RE32V := 0xfff0707f (only parsing).
Abbreviation MASK_VL4RE64V := 0xfff0707f (only parsing).
Abbreviation MASK_VL4RE8V := 0xfff0707f (only parsing).
Abbreviation MASK_VL8RE16V := 0xfff0707f (only parsing).
Abbreviation MASK_VL8RE32V := 0xfff0707f (only parsing).
Abbreviation MASK_VL8RE64V := 0xfff0707f (only parsing).
Abbreviation MASK_VL8RE8V := 0xfff0707f (only parsing).
Abbreviation MASK_VLD := 0xfff0707f (only parsing).
Abbreviation MASK_VLE16FFV := 0xfdf0707f (only parsing).
Abbreviation MASK_VLE16V := 0xfdf0707f (only parsing).
Abbreviation MASK_VLE32FFV := 0xfdf0707f (only parsing).
Abbreviation MASK_VLE32V := 0xfdf0707f (only parsing).
Abbreviation MASK_VLE64FFV := 0xfdf0707f (only parsing).
Abbreviation MASK_VLE64V := 0xfdf0707f (only parsing).
Abbreviation MASK_VLE8FFV := 0xfdf0707f (only parsing).
Abbreviation MASK_VLE8V := 0xfdf0707f (only parsing).
Abbreviation MASK_VLMV := 0xfff0707f (only parsing).
Abbreviation MASK_VLOXEI16V := 0xfc00707f (only parsing).
Abbreviation MASK_VLOXEI32V := 0xfc00707f (only parsing).
Abbreviation MASK_VLOXEI64V := 0xfc00707f (only parsing).
Abbreviation MASK_VLOXEI8V := 0xfc00707f (only parsing).
Abbreviation MASK_VLOXSEG2EI16V := 0xfc00707f (only parsing).
Abbreviation MASK_VLOXSEG2EI32V := 0xfc00707f (only parsing).
Abbreviation MASK_VLOXSEG2EI64V := 0xfc00707f (only parsing).
Abbreviation MASK_VLOXSEG2EI8V := 0xfc00707f (only parsing).
Abbreviation MASK_VLOXSEG3EI16V := 0xfc00707f (only parsing).
Abbreviation MASK_VLOXSEG3EI32V := 0xfc00707f (only parsing).
Abbreviation MASK_VLOXSEG3EI64V := 0xfc00707f (only parsing).
Abbreviation MASK_VLOXSEG3EI8V := 0xfc00707f (only parsing).
Abbreviation MASK_VLOXSEG4EI16V := 0xfc00707f (only parsing).
Abbreviation MASK_VLOXSEG4EI32V := 0xfc00707f (only parsing).
Abbreviation MASK_VLOXSEG4EI64V := 0xfc00707f (only parsing).
Abbreviation MASK_VLOXSEG4EI8V := 0xfc00707f (only parsing).
Abbreviation MASK_VLOXSEG5EI16V := 0xfc00707f (only parsing).
Abbreviation MASK_VLOXSEG5EI32V := 0xfc00707f (only parsing).
Abbreviation MASK_VLOXSEG5EI64V := 0xfc00707f (only parsing).
Abbreviation MASK_VLOXSEG5EI8V := 0xfc00707f (only parsing).
Abbreviation MASK_VLOXSEG6EI16V := 0xfc00707f (only parsing).
Abbreviation MASK_VLOXSEG6EI32V := 0xfc00707f (only parsing).
Abbreviation MASK_VLOXSEG6EI64V := 0xfc00707f (only parsing).
Abbreviation MASK_VLOXSEG6EI8V := 0xfc00707f (only parsing).
Abbreviation MASK_VLOXSEG7EI16V := 0xfc00707f (only parsing).
Abbreviation MASK_VLOXSEG7EI32V := 0xfc00707f (only parsing).
Abbreviation MASK_VLOXSEG7EI64V := 0xfc00707f (only parsing).
Abbreviation MASK_VLOXSEG7EI8V := 0xfc00707f (only parsing).
Abbreviation MASK_VLOXSEG8EI16V := 0xfc00707f (only parsing).
Abbreviation MASK_VLOXSEG8EI32V := 0xfc00707f (only parsing).
Abbreviation MASK_VLOXSEG8EI64V := 0xfc00707f (only parsing).
Abbreviation MASK_VLOXSEG8EI8V := 0xfc00707f (only parsing).
Abbreviation MASK_VLSE16V := 0xfc00707f (only parsing).
Abbreviation MASK_VLSE32V := 0xfc00707f (only parsing).
Abbreviation MASK_VLSE64V := 0xfc00707f (only parsing).
Abbreviation MASK_VLSE8V := 0xfc00707f (only parsing).
Abbreviation MASK_VLSEG2E16FFV := 0xfdf0707f (only parsing).
Abbreviation MASK_VLSEG2E16V := 0xfdf0707f (only parsing).
Abbreviation MASK_VLSEG2E32FFV := 0xfdf0707f (only parsing).
Abbreviation MASK_VLSEG2E32V := 0xfdf0707f (only parsing).
Abbreviation MASK_VLSEG2E64FFV := 0xfdf0707f (only parsing).
Abbreviation MASK_VLSEG2E64V := 0xfdf0707f (only parsing).
Abbreviation MASK_VLSEG2E8FFV := 0xfdf0707f (only parsing).
Abbreviation MASK_VLSEG2E8V := 0xfdf0707f (only parsing).
Abbreviation MASK_VLSEG3E16FFV := 0xfdf0707f (only parsing).
Abbreviation MASK_VLSEG3E16V := 0xfdf0707f (only parsing).
Abbreviation MASK_VLSEG3E32FFV := 0xfdf0707f (only parsing).
Abbreviation MASK_VLSEG3E32V := 0xfdf0707f (only parsing).
Abbreviation MASK_VLSEG3E64FFV := 0xfdf0707f (only parsing).
Abbreviation MASK_VLSEG3E64V := 0xfdf0707f (only parsing).
Abbreviation MASK_VLSEG3E8FFV := 0xfdf0707f (only parsing).
Abbreviation MASK_VLSEG3E8V := 0xfdf0707f (only parsing).
Abbreviation MASK_VLSEG4E16FFV := 0xfdf0707f (only parsing).
Abbreviation MASK_VLSEG4E16V := 0xfdf0707f (only parsing).
Abbreviation MASK_VLSEG4E32FFV := 0xfdf0707f (only parsing).
Abbreviation MASK_VLSEG4E32V := 0xfdf0707f (only parsing).
Abbreviation MASK_VLSEG4E64FFV := 0xfdf0707f (only parsing).
Abbreviation MASK_VLSEG4E64V := 0xfdf0707f (only parsing).
Abbreviation MASK_VLSEG4E8FFV := 0xfdf0707f (only parsing).
Abbreviation MASK_VLSEG4E8V := 0xfdf0707f (only parsing).
Abbreviation MASK_VLSEG5E16FFV := 0xfdf0707f (only parsing).
Abbreviation MASK_VLSEG5E16V := 0xfdf0707f (only parsing).
Abbreviation MASK_VLSEG5E32FFV := 0xfdf0707f (only parsing).
Abbreviation MASK_VLSEG5E32V := 0xfdf0707f (only parsing).
Abbreviation MASK_VLSEG5E64FFV := 0xfdf0707f (only parsing).
Abbreviation MASK_VLSEG5E64V := 0xfdf0707f (only parsing).
Abbreviation MASK_VLSEG5E8FFV := 0xfdf0707f (only parsing).
Abbreviation MASK_VLSEG5E8V := 0xfdf0707f (only parsing).
Abbreviation MASK_VLSEG6E16FFV := 0xfdf0707f (only parsing).
Abbreviation MASK_VLSEG6E16V := 0xfdf0707f (only parsing).
Abbreviation MASK_VLSEG6E32FFV := 0xfdf0707f (only parsing).
Abbreviation MASK_VLSEG6E32V := 0xfdf0707f (only parsing).
Abbreviation MASK_VLSEG6E64FFV := 0xfdf0707f (only parsing).
Abbreviation MASK_VLSEG6E64V := 0xfdf0707f (only parsing).
Abbreviation MASK_VLSEG6E8FFV := 0xfdf0707f (only parsing).
Abbreviation MASK_VLSEG6E8V := 0xfdf0707f (only parsing).
Abbreviation MASK_VLSEG7E16FFV := 0xfdf0707f (only parsing).
Abbreviation MASK_VLSEG7E16V := 0xfdf0707f (only parsing).
Abbreviation MASK_VLSEG7E32FFV := 0xfdf0707f (only parsing).
Abbreviation MASK_VLSEG7E32V := 0xfdf0707f (only parsing).
Abbreviation MASK_VLSEG7E64FFV := 0xfdf0707f (only parsing).
Abbreviation MASK_VLSEG7E64V := 0xfdf0707f (only parsing).
Abbreviation MASK_VLSEG7E8FFV := 0xfdf0707f (only parsing).
Abbreviation MASK_VLSEG7E8V := 0xfdf0707f (only parsing).
Abbreviation MASK_VLSEG8E16FFV := 0xfdf0707f (only parsing).
Abbreviation MASK_VLSEG8E16V := 0xfdf0707f (only parsing).
Abbreviation MASK_VLSEG8E32FFV := 0xfdf0707f (only parsing).
Abbreviation MASK_VLSEG8E32V := 0xfdf0707f (only parsing).
Abbreviation MASK_VLSEG8E64FFV := 0xfdf0707f (only parsing).
Abbreviation MASK_VLSEG8E64V := 0xfdf0707f (only parsing).
Abbreviation MASK_VLSEG8E8FFV := 0xfdf0707f (only parsing).
Abbreviation MASK_VLSEG8E8V := 0xfdf0707f (only parsing).
Abbreviation MASK_VLSSEG2E16V := 0xfc00707f (only parsing).
Abbreviation MASK_VLSSEG2E32V := 0xfc00707f (only parsing).
Abbreviation MASK_VLSSEG2E64V := 0xfc00707f (only parsing).
Abbreviation MASK_VLSSEG2E8V := 0xfc00707f (only parsing).
Abbreviation MASK_VLSSEG3E16V := 0xfc00707f (only parsing).
Abbreviation MASK_VLSSEG3E32V := 0xfc00707f (only parsing).
Abbreviation MASK_VLSSEG3E64V := 0xfc00707f (only parsing).
Abbreviation MASK_VLSSEG3E8V := 0xfc00707f (only parsing).
Abbreviation MASK_VLSSEG4E16V := 0xfc00707f (only parsing).
Abbreviation MASK_VLSSEG4E32V := 0xfc00707f (only parsing).
Abbreviation MASK_VLSSEG4E64V := 0xfc00707f (only parsing).
Abbreviation MASK_VLSSEG4E8V := 0xfc00707f (only parsing).
Abbreviation MASK_VLSSEG5E16V := 0xfc00707f (only parsing).
Abbreviation MASK_VLSSEG5E32V := 0xfc00707f (only parsing).
Abbreviation MASK_VLSSEG5E64V := 0xfc00707f (only parsing).
Abbreviation MASK_VLSSEG5E8V := 0xfc00707f (only parsing).
Abbreviation MASK_VLSSEG6E16V := 0xfc00707f (only parsing).
Abbreviation MASK_VLSSEG6E32V := 0xfc00707f (only parsing).
Abbreviation MASK_VLSSEG6E64V := 0xfc00707f (only parsing).
Abbreviation MASK_VLSSEG6E8V := 0xfc00707f (only parsing).
Abbreviation MASK_VLSSEG7E16V := 0xfc00707f (only parsing).
Abbreviation MASK_VLSSEG7E32V := 0xfc00707f (only parsing).
Abbreviation MASK_VLSSEG7E64V := 0xfc00707f (only parsing).
Abbreviation MASK_VLSSEG7E8V := 0xfc00707f (only parsing).
Abbreviation MASK_VLSSEG8E16V := 0xfc00707f (only parsing).
Abbreviation MASK_VLSSEG8E32V := 0xfc00707f (only parsing).
Abbreviation MASK_VLSSEG8E64V := 0xfc00707f (only parsing).
Abbreviation MASK_VLSSEG8E8V := 0xfc00707f (only parsing).
Abbreviation MASK_VLUXEI16V := 0xfc00707f (only parsing).
Abbreviation MASK_VLUXEI32V := 0xfc00707f (only parsing).
Abbreviation MASK_VLUXEI64V := 0xfc00707f (only parsing).
Abbreviation MASK_VLUXEI8V := 0xfc00707f (only parsing).
Abbreviation MASK_VLUXSEG2EI16V := 0xfc00707f (only parsing).
Abbreviation MASK_VLUXSEG2EI32V := 0xfc00707f (only parsing).
Abbreviation MASK_VLUXSEG2EI64V := 0xfc00707f (only parsing).
Abbreviation MASK_VLUXSEG2EI8V := 0xfc00707f (only parsing).
Abbreviation MASK_VLUXSEG3EI16V := 0xfc00707f (only parsing).
Abbreviation MASK_VLUXSEG3EI32V := 0xfc00707f (only parsing).
Abbreviation MASK_VLUXSEG3EI64V := 0xfc00707f (only parsing).
Abbreviation MASK_VLUXSEG3EI8V := 0xfc00707f (only parsing).
Abbreviation MASK_VLUXSEG4EI16V := 0xfc00707f (only parsing).
Abbreviation MASK_VLUXSEG4EI32V := 0xfc00707f (only parsing).
Abbreviation MASK_VLUXSEG4EI64V := 0xfc00707f (only parsing).
Abbreviation MASK_VLUXSEG4EI8V := 0xfc00707f (only parsing).
Abbreviation MASK_VLUXSEG5EI16V := 0xfc00707f (only parsing).
Abbreviation MASK_VLUXSEG5EI32V := 0xfc00707f (only parsing).
Abbreviation MASK_VLUXSEG5EI64V := 0xfc00707f (only parsing).
Abbreviation MASK_VLUXSEG5EI8V := 0xfc00707f (only parsing).
Abbreviation MASK_VLUXSEG6EI16V := 0xfc00707f (only parsing).
Abbreviation MASK_VLUXSEG6EI32V := 0xfc00707f (only parsing).
Abbreviation MASK_VLUXSEG6EI64V := 0xfc00707f (only parsing).
Abbreviation MASK_VLUXSEG6EI8V := 0xfc00707f (only parsing).
Abbreviation MASK_VLUXSEG7EI16V := 0xfc00707f (only parsing).
Abbreviation MASK_VLUXSEG7EI32V := 0xfc00707f (only parsing).
Abbreviation MASK_VLUXSEG7EI64V := 0xfc00707f (only parsing).
Abbreviation MASK_VLUXSEG7EI8V := 0xfc00707f (only parsing).
Abbreviation MASK_VLUXSEG8EI16V := 0xfc00707f (only parsing).
Abbreviation MASK_VLUXSEG8EI32V := 0xfc00707f (only parsing).
Abbreviation MASK_VLUXSEG8EI64V := 0xfc00707f (only parsing).
Abbreviation MASK_VLUXSEG8EI8V := 0xfc00707f (only parsing).
Abbreviation MASK_VMACCVV := 0xfc00707f (only parsing).
Abbreviation MASK_VMACCVX := 0xfc00707f (only parsing).
Abbreviation MASK_VMAC_B := 0xfe00707f (only parsing).
Abbreviation MASK_VMAC_H := 0xfe00707f (only parsing).
Abbreviation MASK_VMAC_W := 0xfe00707f (only parsing).
Abbreviation MASK_VMADCVI := 0xfe00707f (only parsing).
Abbreviation MASK_VMADCVIM := 0xfe00707f (only parsing).
Abbreviation MASK_VMADCVV := 0xfe00707f (only parsing).
Abbreviation MASK_VMADCVVM := 0xfe00707f (only parsing).
Abbreviation MASK_VMADCVX := 0xfe00707f (only parsing).
Abbreviation MASK_VMADCVXM := 0xfe00707f (only parsing).
Abbreviation MASK_VMADDVV := 0xfc00707f (only parsing).
Abbreviation MASK_VMADDVX := 0xfc00707f (only parsing).
Abbreviation MASK_VMANDMM := 0xfe00707f (only parsing).
Abbreviation MASK_VMANDNMM := 0xfe00707f (only parsing).
Abbreviation MASK_VMAXUVV := 0xfc00707f (only parsing).
Abbreviation MASK_VMAXUVX := 0xfc00707f (only parsing).
Abbreviation MASK_VMAXVV := 0xfc00707f (only parsing).
Abbreviation MASK_VMAXVX := 0xfc00707f (only parsing).
Abbreviation MASK_VMERGEVIM := 0xfe00707f (only parsing).
Abbreviation MASK_VMERGEVVM := 0xfe00707f (only parsing).
Abbreviation MASK_VMERGEVXM := 0xfe00707f (only parsing).
Abbreviation MASK_VMFEQVF := 0xfc00707f (only parsing).
Abbreviation MASK_VMFEQVV := 0xfc00707f (only parsing).
Abbreviation MASK_VMFGEVF := 0xfc00707f (only parsing).
Abbreviation MASK_VMFGTVF := 0xfc00707f (only parsing).
Abbreviation MASK_VMFLEVF := 0xfc00707f (only parsing).
Abbreviation MASK_VMFLEVV := 0xfc00707f (only parsing).
Abbreviation MASK_VMFLTVF := 0xfc00707f (only parsing).
Abbreviation MASK_VMFLTVV := 0xfc00707f (only parsing).
Abbreviation MASK_VMFNEVF := 0xfc00707f (only parsing).
Abbreviation MASK_VMFNEVV := 0xfc00707f (only parsing).
Abbreviation MASK_VMINUVV := 0xfc00707f (only parsing).
Abbreviation MASK_VMINUVX := 0xfc00707f (only parsing).
Abbreviation MASK_VMINVV := 0xfc00707f (only parsing).
Abbreviation MASK_VMINVX := 0xfc00707f (only parsing).
Abbreviation MASK_VMNANDMM := 0xfe00707f (only parsing).
Abbreviation MASK_VMNORMM := 0xfe00707f (only parsing).
Abbreviation MASK_VMORMM := 0xfe00707f (only parsing).
Abbreviation MASK_VMORNMM := 0xfe00707f (only parsing).
Abbreviation MASK_VMSBCVV := 0xfe00707f (only parsing).
Abbreviation MASK_VMSBCVVM := 0xfe00707f (only parsing).
Abbreviation MASK_VMSBCVX := 0xfe00707f (only parsing).
Abbreviation MASK_VMSBCVXM := 0xfe00707f (only parsing).
Abbreviation MASK_VMSBFM := 0xfc0ff07f (only parsing).
Abbreviation MASK_VMSEQVI := 0xfc00707f (only parsing).
Abbreviation MASK_VMSEQVV := 0xfc00707f (only parsing).
Abbreviation MASK_VMSEQVX := 0xfc00707f (only parsing).
Abbreviation MASK_VMSGTUVI := 0xfc00707f (only parsing).
Abbreviation MASK_VMSGTUVX := 0xfc00707f (only parsing).
Abbreviation MASK_VMSGTVI := 0xfc00707f (only parsing).
Abbreviation MASK_VMSGTVX := 0xfc00707f (only parsing).
Abbreviation MASK_VMSIFM := 0xfc0ff07f (only parsing).
Abbreviation MASK_VMSLEUVI := 0xfc00707f (only parsing).
Abbreviation MASK_VMSLEUVV := 0xfc00707f (only parsing).
Abbreviation MASK_VMSLEUVX := 0xfc00707f (only parsing).
Abbreviation MASK_VMSLEVI := 0xfc00707f (only parsing).
Abbreviation MASK_VMSLEVV := 0xfc00707f (only parsing).
Abbreviation MASK_VMSLEVX := 0xfc00707f (only parsing).
Abbreviation MASK_VMSLTUVV := 0xfc00707f (only parsing).
Abbreviation MASK_VMSLTUVX := 0xfc00707f (only parsing).
Abbreviation MASK_VMSLTVV := 0xfc00707f (only parsing).
Abbreviation MASK_VMSLTVX := 0xfc00707f (only parsing).
Abbreviation MASK_VMSNEVI := 0xfc00707f (only parsing).
Abbreviation MASK_VMSNEVV := 0xfc00707f (only parsing).
Abbreviation MASK_VMSNEVX := 0xfc00707f (only parsing).
Abbreviation MASK_VMSOFM := 0xfc0ff07f (only parsing).
Abbreviation MASK_VMULHSUVV := 0xfc00707f (only parsing).
Abbreviation MASK_VMULHSUVX := 0xfc00707f (only parsing).
Abbreviation MASK_VMULHUVV := 0xfc00707f (only parsing).
Abbreviation MASK_VMULHUVX := 0xfc00707f (only parsing).
Abbreviation MASK_VMULHVV := 0xfc00707f (only parsing).
Abbreviation MASK_VMULHVX := 0xfc00707f (only parsing).
Abbreviation MASK_VMULVV := 0xfc00707f (only parsing).
Abbreviation MASK_VMULVX := 0xfc00707f (only parsing).
Abbreviation MASK_VMUL_B := 0xfe00707f (only parsing).
Abbreviation MASK_VMUL_H := 0xfe00707f (only parsing).
Abbreviation MASK_VMUL_W := 0xfe00707f (only parsing).
Abbreviation MASK_VMV1RV := 0xfe0ff07f (only parsing).
Abbreviation MASK_VMV2RV := 0xfe0ff07f (only parsing).
Abbreviation MASK_VMV4RV := 0xfe0ff07f (only parsing).
Abbreviation MASK_VMV8RV := 0xfe0ff07f (only parsing).
Abbreviation MASK_VMVSX := 0xfff0707f (only parsing).
Abbreviation MASK_VMVVI := 0xfff0707f (only parsing).
Abbreviation MASK_VMVVV := 0xfff0707f (only parsing).
Abbreviation MASK_VMVVX := 0xfff0707f (only parsing).
Abbreviation MASK_VMVXS := 0xfe0ff07f (only parsing).
Abbreviation MASK_VMXNORMM := 0xfe00707f (only parsing).
Abbreviation MASK_VMXORMM := 0xfe00707f (only parsing).
Abbreviation MASK_VNCLIPUWI := 0xfc00707f (only parsing).
Abbreviation MASK_VNCLIPUWV := 0xfc00707f (only parsing).
Abbreviation MASK_VNCLIPUWX := 0xfc00707f (only parsing).
Abbreviation MASK_VNCLIPWI := 0xfc00707f (only parsing).
Abbreviation MASK_VNCLIPWV := 0xfc00707f (only parsing).
Abbreviation MASK_VNCLIPWX := 0xfc00707f (only parsing).
Abbreviation MASK_VNCVTXXW := 0xfc0ff07f (only parsing).
Abbreviation MASK_VNMSACVV := 0xfc00707f (only parsing).
Abbreviation MASK_VNMSACVX := 0xfc00707f (only parsing).
Abbreviation MASK_VNMSUBVV := 0xfc00707f (only parsing).
Abbreviation MASK_VNMSUBVX := 0xfc00707f (only parsing).
Abbreviation MASK_VNOTV := 0xfc0ff07f (only parsing).
Abbreviation MASK_VNSRAWI := 0xfc00707f (only parsing).
Abbreviation MASK_VNSRAWV := 0xfc00707f (only parsing).
Abbreviation MASK_VNSRAWX := 0xfc00707f (only parsing).
Abbreviation MASK_VNSRLWI := 0xfc00707f (only parsing).
Abbreviation MASK_VNSRLWV := 0xfc00707f (only parsing).
Abbreviation MASK_VNSRLWX := 0xfc00707f (only parsing).
Abbreviation MASK_VORVI := 0xfc00707f (only parsing).
Abbreviation MASK_VORVV := 0xfc00707f (only parsing).
Abbreviation MASK_VORVX := 0xfc00707f (only parsing).
Abbreviation MASK_VREDANDVS := 0xfc00707f (only parsing).
Abbreviation MASK_VREDMAXUVS := 0xfc00707f (only parsing).
Abbreviation MASK_VREDMAXVS := 0xfc00707f (only parsing).
Abbreviation MASK_VREDMINUVS := 0xfc00707f (only parsing).
Abbreviation MASK_VREDMINVS := 0xfc00707f (only parsing).
Abbreviation MASK_VREDORVS := 0xfc00707f (only parsing).
Abbreviation MASK_VREDSUMVS := 0xfc00707f (only parsing).
Abbreviation MASK_VREDXORVS := 0xfc00707f (only parsing).
Abbreviation MASK_VREMUVV := 0xfc00707f (only parsing).
Abbreviation MASK_VREMUVX := 0xfc00707f (only parsing).
Abbreviation MASK_VREMVV := 0xfc00707f (only parsing).
Abbreviation MASK_VREMVX := 0xfc00707f (only parsing).
Abbreviation MASK_VREV8_V := 0xfc0ff07f (only parsing).
Abbreviation MASK_VRGATHEREI16VV := 0xfc00707f (only parsing).
Abbreviation MASK_VRGATHERVI := 0xfc00707f (only parsing).
Abbreviation MASK_VRGATHERVV := 0xfc00707f (only parsing).
Abbreviation MASK_VRGATHERVX := 0xfc00707f (only parsing).
Abbreviation MASK_VROL_VV := 0xfc00707f (only parsing).
Abbreviation MASK_VROL_VX := 0xfc00707f (only parsing).
Abbreviation MASK_VROR_VI := 0xf800707f (only parsing).
Abbreviation MASK_VROR_VV := 0xfc00707f (only parsing).
Abbreviation MASK_VROR_VX := 0xfc00707f (only parsing).
Abbreviation MASK_VRSUBVI := 0xfc00707f (only parsing).
Abbreviation MASK_VRSUBVX := 0xfc00707f (only parsing).
Abbreviation MASK_VS1RV := 0xfff0707f (only parsing).
Abbreviation MASK_VS2RV := 0xfff0707f (only parsing).
Abbreviation MASK_VS4RV := 0xfff0707f (only parsing).
Abbreviation MASK_VS8RV := 0xfff0707f (only parsing).
Abbreviation MASK_VSADDUVI := 0xfc00707f (only parsing).
Abbreviation MASK_VSADDUVV := 0xfc00707f (only parsing).
Abbreviation MASK_VSADDUVX := 0xfc00707f (only parsing).
Abbreviation MASK_VSADDVI := 0xfc00707f (only parsing).
Abbreviation MASK_VSADDVV := 0xfc00707f (only parsing).
Abbreviation MASK_VSADDVX := 0xfc00707f (only parsing).
Abbreviation MASK_VSBCVVM := 0xfe00707f (only parsing).
Abbreviation MASK_VSBCVXM := 0xfe00707f (only parsing).
Abbreviation MASK_VSE16V := 0xfdf0707f (only parsing).
Abbreviation MASK_VSE32V := 0xfdf0707f (only parsing).
Abbreviation MASK_VSE64V := 0xfdf0707f (only parsing).
Abbreviation MASK_VSE8V := 0xfdf0707f (only parsing).
Abbreviation MASK_VSETIVLI := 0xc000707f (only parsing).
Abbreviation MASK_VSETVL := 0xfe00707f (only parsing).
Abbreviation MASK_VSETVLI := 0x8000707f (only parsing).
Abbreviation MASK_VSEXT_VF2 := 0xfc0ff07f (only parsing).
Abbreviation MASK_VSEXT_VF4 := 0xfc0ff07f (only parsing).
Abbreviation MASK_VSEXT_VF8 := 0xfc0ff07f (only parsing).
Abbreviation MASK_VSHA2CH_VV := 0xfe00707f (only parsing).
Abbreviation MASK_VSHA2CL_VV := 0xfe00707f (only parsing).
Abbreviation MASK_VSHA2MS_VV := 0xfe00707f (only parsing).
Abbreviation MASK_VSLIDE1DOWNVX := 0xfc00707f (only parsing).
Abbreviation MASK_VSLIDE1UPVX := 0xfc00707f (only parsing).
Abbreviation MASK_VSLIDEDOWNVI := 0xfc00707f (only parsing).
Abbreviation MASK_VSLIDEDOWNVX := 0xfc00707f (only parsing).
Abbreviation MASK_VSLIDEUPVI := 0xfc00707f (only parsing).
Abbreviation MASK_VSLIDEUPVX := 0xfc00707f (only parsing).
Abbreviation MASK_VSLLVI := 0xfc00707f (only parsing).
Abbreviation MASK_VSLLVV := 0xfc00707f (only parsing).
Abbreviation MASK_VSLLVX := 0xfc00707f (only parsing).
Abbreviation MASK_VSM3C_VI := 0xfe00707f (only parsing).
Abbreviation MASK_VSM3ME_VV := 0xfe00707f (only parsing).
Abbreviation MASK_VSM4K_VI := 0xfe00707f (only parsing).
Abbreviation MASK_VSM4R_VS := 0xfe0ff07f (only parsing).
Abbreviation MASK_VSM4R_VV := 0xfe0ff07f (only parsing).
Abbreviation MASK_VSMULVV := 0xfc00707f (only parsing).
Abbreviation MASK_VSMULVX := 0xfc00707f (only parsing).
Abbreviation MASK_VSMV := 0xfff0707f (only parsing).
Abbreviation MASK_VSOXEI16V := 0xfc00707f (only parsing).
Abbreviation MASK_VSOXEI32V := 0xfc00707f (only parsing).
Abbreviation MASK_VSOXEI64V := 0xfc00707f (only parsing).
Abbreviation MASK_VSOXEI8V := 0xfc00707f (only parsing).
Abbreviation MASK_VSOXSEG2EI16V := 0xfc00707f (only parsing).
Abbreviation MASK_VSOXSEG2EI32V := 0xfc00707f (only parsing).
Abbreviation MASK_VSOXSEG2EI64V := 0xfc00707f (only parsing).
Abbreviation MASK_VSOXSEG2EI8V := 0xfc00707f (only parsing).
Abbreviation MASK_VSOXSEG3EI16V := 0xfc00707f (only parsing).
Abbreviation MASK_VSOXSEG3EI32V := 0xfc00707f (only parsing).
Abbreviation MASK_VSOXSEG3EI64V := 0xfc00707f (only parsing).
Abbreviation MASK_VSOXSEG3EI8V := 0xfc00707f (only parsing).
Abbreviation MASK_VSOXSEG4EI16V := 0xfc00707f (only parsing).
Abbreviation MASK_VSOXSEG4EI32V := 0xfc00707f (only parsing).
Abbreviation MASK_VSOXSEG4EI64V := 0xfc00707f (only parsing).
Abbreviation MASK_VSOXSEG4EI8V := 0xfc00707f (only parsing).
Abbreviation MASK_VSOXSEG5EI16V := 0xfc00707f (only parsing).
Abbreviation MASK_VSOXSEG5EI32V := 0xfc00707f (only parsing).
Abbreviation MASK_VSOXSEG5EI64V := 0xfc00707f (only parsing).
Abbreviation MASK_VSOXSEG5EI8V := 0xfc00707f (only parsing).
Abbreviation MASK_VSOXSEG6EI16V := 0xfc00707f (only parsing).
Abbreviation MASK_VSOXSEG6EI32V := 0xfc00707f (only parsing).
Abbreviation MASK_VSOXSEG6EI64V := 0xfc00707f (only parsing).
Abbreviation MASK_VSOXSEG6EI8V := 0xfc00707f (only parsing).
Abbreviation MASK_VSOXSEG7EI16V := 0xfc00707f (only parsing).
Abbreviation MASK_VSOXSEG7EI32V := 0xfc00707f (only parsing).
Abbreviation MASK_VSOXSEG7EI64V := 0xfc00707f (only parsing).
Abbreviation MASK_VSOXSEG7EI8V := 0xfc00707f (only parsing).
Abbreviation MASK_VSOXSEG8EI16V := 0xfc00707f (only parsing).
Abbreviation MASK_VSOXSEG8EI32V := 0xfc00707f (only parsing).
Abbreviation MASK_VSOXSEG8EI64V := 0xfc00707f (only parsing).
Abbreviation MASK_VSOXSEG8EI8V := 0xfc00707f (only parsing).
Abbreviation MASK_VSRAVI := 0xfc00707f (only parsing).
Abbreviation MASK_VSRAVV := 0xfc00707f (only parsing).
Abbreviation MASK_VSRAVX := 0xfc00707f (only parsing).
Abbreviation MASK_VSRLVI := 0xfc00707f (only parsing).
Abbreviation MASK_VSRLVV := 0xfc00707f (only parsing).
Abbreviation MASK_VSRLVX := 0xfc00707f (only parsing).
Abbreviation MASK_VSSE16V := 0xfc00707f (only parsing).
Abbreviation MASK_VSSE32V := 0xfc00707f (only parsing).
Abbreviation MASK_VSSE64V := 0xfc00707f (only parsing).
Abbreviation MASK_VSSE8V := 0xfc00707f (only parsing).
Abbreviation MASK_VSSEG2E16V := 0xfdf0707f (only parsing).
Abbreviation MASK_VSSEG2E32V := 0xfdf0707f (only parsing).
Abbreviation MASK_VSSEG2E64V := 0xfdf0707f (only parsing).
Abbreviation MASK_VSSEG2E8V := 0xfdf0707f (only parsing).
Abbreviation MASK_VSSEG3E16V := 0xfdf0707f (only parsing).
Abbreviation MASK_VSSEG3E32V := 0xfdf0707f (only parsing).
Abbreviation MASK_VSSEG3E64V := 0xfdf0707f (only parsing).
Abbreviation MASK_VSSEG3E8V := 0xfdf0707f (only parsing).
Abbreviation MASK_VSSEG4E16V := 0xfdf0707f (only parsing).
Abbreviation MASK_VSSEG4E32V := 0xfdf0707f (only parsing).
Abbreviation MASK_VSSEG4E64V := 0xfdf0707f (only parsing).
Abbreviation MASK_VSSEG4E8V := 0xfdf0707f (only parsing).
Abbreviation MASK_VSSEG5E16V := 0xfdf0707f (only parsing).
Abbreviation MASK_VSSEG5E32V := 0xfdf0707f (only parsing).
Abbreviation MASK_VSSEG5E64V := 0xfdf0707f (only parsing).
Abbreviation MASK_VSSEG5E8V := 0xfdf0707f (only parsing).
Abbreviation MASK_VSSEG6E16V := 0xfdf0707f (only parsing).
Abbreviation MASK_VSSEG6E32V := 0xfdf0707f (only parsing).
Abbreviation MASK_VSSEG6E64V := 0xfdf0707f (only parsing).
Abbreviation MASK_VSSEG6E8V := 0xfdf0707f (only parsing).
Abbreviation MASK_VSSEG7E16V := 0xfdf0707f (only parsing).
Abbreviation MASK_VSSEG7E32V := 0xfdf0707f (only parsing).
Abbreviation MASK_VSSEG7E64V := 0xfdf0707f (only parsing).
Abbreviation MASK_VSSEG7E8V := 0xfdf0707f (only parsing).
Abbreviation MASK_VSSEG8E16V := 0xfdf0707f (only parsing).
Abbreviation MASK_VSSEG8E32V := 0xfdf0707f (only parsing).
Abbreviation MASK_VSSEG8E64V := 0xfdf0707f (only parsing).
Abbreviation MASK_VSSEG8E8V := 0xfdf0707f (only parsing).
Abbreviation MASK_VSSRAVI := 0xfc00707f (only parsing).
Abbreviation MASK_VSSRAVV := 0xfc00707f (only parsing).
Abbreviation MASK_VSSRAVX := 0xfc00707f (only parsing).
Abbreviation MASK_VSSRLVI := 0xfc00707f (only parsing).
Abbreviation MASK_VSSRLVV := 0xfc00707f (only parsing).
Abbreviation MASK_VSSRLVX := 0xfc00707f (only parsing).
Abbreviation MASK_VSSSEG2E16V := 0xfc00707f (only parsing).
Abbreviation MASK_VSSSEG2E32V := 0xfc00707f (only parsing).
Abbreviation MASK_VSSSEG2E64V := 0xfc00707f (only parsing).
Abbreviation MASK_VSSSEG2E8V := 0xfc00707f (only parsing).
Abbreviation MASK_VSSSEG3E16V := 0xfc00707f (only parsing).
Abbreviation MASK_VSSSEG3E32V := 0xfc00707f (only parsing).
Abbreviation MASK_VSSSEG3E64V := 0xfc00707f (only parsing).
Abbreviation MASK_VSSSEG3E8V := 0xfc00707f (only parsing).
Abbreviation MASK_VSSSEG4E16V := 0xfc00707f (only parsing).
Abbreviation MASK_VSSSEG4E32V := 0xfc00707f (only parsing).
Abbreviation MASK_VSSSEG4E64V := 0xfc00707f (only parsing).
Abbreviation MASK_VSSSEG4E8V := 0xfc00707f (only parsing).
Abbreviation MASK_VSSSEG5E16V := 0xfc00707f (only parsing).
Abbreviation MASK_VSSSEG5E32V := 0xfc00707f (only parsing).
Abbreviation MASK_VSSSEG5E64V := 0xfc00707f (only parsing).
Abbreviation MASK_VSSSEG5E8V := 0xfc00707f (only parsing).
Abbreviation MASK_VSSSEG6E16V := 0xfc00707f (only parsing).
Abbreviation MASK_VSSSEG6E32V := 0xfc00707f (only parsing).
Abbreviation MASK_VSSSEG6E64V := 0xfc00707f (only parsing).
Abbreviation MASK_VSSSEG6E8V := 0xfc00707f (only parsing).
Abbreviation MASK_VSSSEG7E16V := 0xfc00707f (only parsing).
Abbreviation MASK_VSSSEG7E32V := 0xfc00707f (only parsing).
Abbreviation MASK_VSSSEG7E64V := 0xfc00707f (only parsing).
Abbreviation MASK_VSSSEG7E8V := 0xfc00707f (only parsing).
Abbreviation MASK_VSSSEG8E16V := 0xfc00707f (only parsing).
Abbreviation MASK_VSSSEG8E32V := 0xfc00707f (only parsing).
Abbreviation MASK_VSSSEG8E64V := 0xfc00707f (only parsing).
Abbreviation MASK_VSSSEG8E8V := 0xfc00707f (only parsing).
Abbreviation MASK_VSSUBUVV := 0xfc00707f (only parsing).
Abbreviation MASK_VSSUBUVX := 0xfc00707f (only parsing).
Abbreviation MASK_VSSUBVV := 0xfc00707f (only parsing).
Abbreviation MASK_VSSUBVX := 0xfc00707f (only parsing).
Abbreviation MASK_VST := 0xfe00707f (only parsing).
Abbreviation MASK_VSUBVV := 0xfc00707f (only parsing).
Abbreviation MASK_VSUBVX := 0xfc00707f (only parsing).
Abbreviation MASK_VSUB_B := 0xfe00707f (only parsing).
Abbreviation MASK_VSUB_H := 0xfe00707f (only parsing).
Abbreviation MASK_VSUB_W := 0xfe00707f (only parsing).
Abbreviation MASK_VSUXEI16V := 0xfc00707f (only parsing).
Abbreviation MASK_VSUXEI32V := 0xfc00707f (only parsing).
Abbreviation MASK_VSUXEI64V := 0xfc00707f (only parsing).
Abbreviation MASK_VSUXEI8V := 0xfc00707f (only parsing).
Abbreviation MASK_VSUXSEG2EI16V := 0xfc00707f (only parsing).
Abbreviation MASK_VSUXSEG2EI32V := 0xfc00707f (only parsing).
Abbreviation MASK_VSUXSEG2EI64V := 0xfc00707f (only parsing).
Abbreviation MASK_VSUXSEG2EI8V := 0xfc00707f (only parsing).
Abbreviation MASK_VSUXSEG3EI16V := 0xfc00707f (only parsing).
Abbreviation MASK_VSUXSEG3EI32V := 0xfc00707f (only parsing).
Abbreviation MASK_VSUXSEG3EI64V := 0xfc00707f (only parsing).
Abbreviation MASK_VSUXSEG3EI8V := 0xfc00707f (only parsing).
Abbreviation MASK_VSUXSEG4EI16V := 0xfc00707f (only parsing).
Abbreviation MASK_VSUXSEG4EI32V := 0xfc00707f (only parsing).
Abbreviation MASK_VSUXSEG4EI64V := 0xfc00707f (only parsing).
Abbreviation MASK_VSUXSEG4EI8V := 0xfc00707f (only parsing).
Abbreviation MASK_VSUXSEG5EI16V := 0xfc00707f (only parsing).
Abbreviation MASK_VSUXSEG5EI32V := 0xfc00707f (only parsing).
Abbreviation MASK_VSUXSEG5EI64V := 0xfc00707f (only parsing).
Abbreviation MASK_VSUXSEG5EI8V := 0xfc00707f (only parsing).
Abbreviation MASK_VSUXSEG6EI16V := 0xfc00707f (only parsing).
Abbreviation MASK_VSUXSEG6EI32V := 0xfc00707f (only parsing).
Abbreviation MASK_VSUXSEG6EI64V := 0xfc00707f (only parsing).
Abbreviation MASK_VSUXSEG6EI8V := 0xfc00707f (only parsing).
Abbreviation MASK_VSUXSEG7EI16V := 0xfc00707f (only parsing).
Abbreviation MASK_VSUXSEG7EI32V := 0xfc00707f (only parsing).
Abbreviation MASK_VSUXSEG7EI64V := 0xfc00707f (only parsing).
Abbreviation MASK_VSUXSEG7EI8V := 0xfc00707f (only parsing).
Abbreviation MASK_VSUXSEG8EI16V := 0xfc00707f (only parsing).
Abbreviation MASK_VSUXSEG8EI32V := 0xfc00707f (only parsing).
Abbreviation MASK_VSUXSEG8EI64V := 0xfc00707f (only parsing).
Abbreviation MASK_VSUXSEG8EI8V := 0xfc00707f (only parsing).
Abbreviation MASK_VT_MASKC := 0xfe00707f (only parsing).
Abbreviation MASK_VT_MASKCN := 0xfe00707f (only parsing).
Abbreviation MASK_VWADDUVV := 0xfc00707f (only parsing).
Abbreviation MASK_VWADDUVX := 0xfc00707f (only parsing).
Abbreviation MASK_VWADDUWV := 0xfc00707f (only parsing).
Abbreviation MASK_VWADDUWX := 0xfc00707f (only parsing).
Abbreviation MASK_VWADDVV := 0xfc00707f (only parsing).
Abbreviation MASK_VWADDVX := 0xfc00707f (only parsing).
Abbreviation MASK_VWADDWV := 0xfc00707f (only parsing).
Abbreviation MASK_VWADDWX := 0xfc00707f (only parsing).
Abbreviation MASK_VWCVTUXXV := 0xfc0ff07f (only parsing).
Abbreviation MASK_VWCVTXXV := 0xfc0ff07f (only parsing).
Abbreviation MASK_VWMACCSUVV := 0xfc00707f (only parsing).
Abbreviation MASK_VWMACCSUVX := 0xfc00707f (only parsing).
Abbreviation MASK_VWMACCUSVX := 0xfc00707f (only parsing).
Abbreviation MASK_VWMACCUVV := 0xfc00707f (only parsing).
Abbreviation MASK_VWMACCUVX := 0xfc00707f (only parsing).
Abbreviation MASK_VWMACCVV := 0xfc00707f (only parsing).
Abbreviation MASK_VWMACCVX := 0xfc00707f (only parsing).
Abbreviation MASK_VWMULSUVV := 0xfc00707f (only parsing).
Abbreviation MASK_VWMULSUVX := 0xfc00707f (only parsing).
Abbreviation MASK_VWMULUVV := 0xfc00707f (only parsing).
Abbreviation MASK_VWMULUVX := 0xfc00707f (only parsing).
Abbreviation MASK_VWMULVV := 0xfc00707f (only parsing).
Abbreviation MASK_VWMULVX := 0xfc00707f (only parsing).
Abbreviation MASK_VWREDSUMUVS := 0xfc00707f (only parsing).
Abbreviation MASK_VWREDSUMVS := 0xfc00707f (only parsing).
Abbreviation MASK_VWSLL_VI := 0xfc00707f (only parsing).
Abbreviation MASK_VWSLL_VV := 0xfc00707f (only parsing).
Abbreviation MASK_VWSLL_VX := 0xfc00707f (only parsing).
Abbreviation MASK_VWSUBUVV := 0xfc00707f (only parsing).
Abbreviation MASK_VWSUBUVX := 0xfc00707f (only parsing).
Abbreviation MASK_VWSUBUWV := 0xfc00707f (only parsing).
Abbreviation MASK_VWSUBUWX := 0xfc00707f (only parsing).
Abbreviation MASK_VWSUBVV := 0xfc00707f (only parsing).
Abbreviation MASK_VWSUBVX := 0xfc00707f (only parsing).
Abbreviation MASK_VWSUBWV := 0xfc00707f (only parsing).
Abbreviation MASK_VWSUBWX := 0xfc00707f (only parsing).
Abbreviation MASK_VXORVI := 0xfc00707f (only parsing).
Abbreviation MASK_VXORVV := 0xfc00707f (only parsing).
Abbreviation MASK_VXORVX := 0xfc00707f (only parsing).
Abbreviation MASK_VZEXT_VF2 := 0xfc0ff07f (only parsing).
Abbreviation MASK_VZEXT_VF4 := 0xfc0ff07f (only parsing).
Abbreviation MASK_VZEXT_VF8 := 0xfc0ff07f (only parsing).
Abbreviation MASK_WFI := 0xffffffff (only parsing).
Abbreviation MASK_WRS_NTO := 0xffffffff (only parsing).
Abbreviation MASK_WRS_STO := 0xffffffff (only parsing).
Abbreviation MASK_XNOR := 0xfe00707f (only parsing).
Abbreviation MASK_XOR := 0xfe00707f (only parsing).
Abbreviation MASK_XORI := 0x707f (only parsing).
Abbreviation MASK_XPERM4 := 0xfe00707f (only parsing).
Abbreviation MASK_XPERM8 := 0xfe00707f (only parsing).
Abbreviation MATCH_ADD := 0x33 (only parsing).
Abbreviation MATCH_ADDI := 0x13 (only parsing).
Abbreviation MATCH_ADDIW := 0x1b (only parsing).
Abbreviation MATCH_ADDW := 0x3b (only parsing).
Abbreviation MATCH_ADD_UW := 0x800003b (only parsing).
Abbreviation MATCH_AES32DSI := 0x2a000033 (only parsing).
Abbreviation MATCH_AES32DSMI := 0x2e000033 (only parsing).
Abbreviation MATCH_AES32ESI := 0x22000033 (only parsing).
Abbreviation MATCH_AES32ESMI := 0x26000033 (only parsing).
Abbreviation MATCH_AES64DS := 0x3a000033 (only parsing).
Abbreviation MATCH_AES64DSM := 0x3e000033 (only parsing).
Abbreviation MATCH_AES64ES := 0x32000033 (only parsing).
Abbreviation MATCH_AES64ESM := 0x36000033 (only parsing).
Abbreviation MATCH_AES64IM := 0x30001013 (only parsing).
Abbreviation MATCH_AES64KS1I := 0x31001013 (only parsing).
Abbreviation MATCH_AES64KS2 := 0x7e000033 (only parsing).
Abbreviation MATCH_AMOADD_D := 0x302f (only parsing).
Abbreviation MATCH_AMOADD_W := 0x202f (only parsing).
Abbreviation MATCH_AMOAND_D := 0x6000302f (only parsing).
Abbreviation MATCH_AMOAND_W := 0x6000202f (only parsing).
Abbreviation MATCH_AMOMAXU_D := 0xe000302f (only parsing).
Abbreviation MATCH_AMOMAXU_W := 0xe000202f (only parsing).
Abbreviation MATCH_AMOMAX_D := 0xa000302f (only parsing).
Abbreviation MATCH_AMOMAX_W := 0xa000202f (only parsing).
Abbreviation MATCH_AMOMINU_D := 0xc000302f (only parsing).
Abbreviation MATCH_AMOMINU_W := 0xc000202f (only parsing).
Abbreviation MATCH_AMOMIN_D := 0x8000302f (only parsing).
Abbreviation MATCH_AMOMIN_W := 0x8000202f (only parsing).
Abbreviation MATCH_AMOOR_D := 0x4000302f (only parsing).
Abbreviation MATCH_AMOOR_W := 0x4000202f (only parsing).
Abbreviation MATCH_AMOSWAP_D := 0x800302f (only parsing).
Abbreviation MATCH_AMOSWAP_W := 0x800202f (only parsing).
Abbreviation MATCH_AMOXOR_D := 0x2000302f (only parsing).
Abbreviation MATCH_AMOXOR_W := 0x2000202f (only parsing).
Abbreviation MATCH_AND := 0x7033 (only parsing).
Abbreviation MATCH_ANDI := 0x7013 (only parsing).
Abbreviation MATCH_ANDN := 0x40007033 (only parsing).
Abbreviation MATCH_AUIPC := 0x17 (only parsing).
Abbreviation MATCH_BCLR := 0x48001033 (only parsing).
Abbreviation MATCH_BCLRI := 0x48001013 (only parsing).
Abbreviation MATCH_BEQ := 0x63 (only parsing).
Abbreviation MATCH_BEXT := 0x48005033 (only parsing).
Abbreviation MATCH_BEXTI := 0x48005013 (only parsing).
Abbreviation MATCH_BGE := 0x5063 (only parsing).
Abbreviation MATCH_BGEU := 0x7063 (only parsing).
Abbreviation MATCH_BINV := 0x68001033 (only parsing).
Abbreviation MATCH_BINVI := 0x68001013 (only parsing).
Abbreviation MATCH_BLT := 0x4063 (only parsing).
Abbreviation MATCH_BLTU := 0x6063 (only parsing).
Abbreviation MATCH_BNE := 0x1063 (only parsing).
Abbreviation MATCH_BSET := 0x28001033 (only parsing).
Abbreviation MATCH_BSETI := 0x28001013 (only parsing).
Abbreviation MATCH_CBO_CLEAN := 0x10200f (only parsing).
Abbreviation MATCH_CBO_FLUSH := 0x20200f (only parsing).
Abbreviation MATCH_CBO_INVAL := 0x200f (only parsing).
Abbreviation MATCH_CBO_ZERO := 0x40200f (only parsing).
Abbreviation MATCH_CLMUL := 0xa001033 (only parsing).
Abbreviation MATCH_CLMULH := 0xa003033 (only parsing).
Abbreviation MATCH_CLMULR := 0xa002033 (only parsing).
Abbreviation MATCH_CLZ := 0x60001013 (only parsing).
Abbreviation MATCH_CLZW := 0x6000101b (only parsing).
Abbreviation MATCH_CPOP := 0x60201013 (only parsing).
Abbreviation MATCH_CPOPW := 0x6020101b (only parsing).
Abbreviation MATCH_CSRRC := 0x3073 (only parsing).
Abbreviation MATCH_CSRRCI := 0x7073 (only parsing).
Abbreviation MATCH_CSRRS := 0x2073 (only parsing).
Abbreviation MATCH_CSRRSI := 0x6073 (only parsing).
Abbreviation MATCH_CSRRW := 0x1073 (only parsing).
Abbreviation MATCH_CSRRWI := 0x5073 (only parsing).
Abbreviation MATCH_CTZ := 0x60101013 (only parsing).
Abbreviation MATCH_CTZW := 0x6010101b (only parsing).
Abbreviation MATCH_CZERO_EQZ := 0xe005033 (only parsing).
Abbreviation MATCH_CZERO_NEZ := 0xe007033 (only parsing).
Abbreviation MATCH_C_ADD := 0x9002 (only parsing).
Abbreviation MATCH_C_ADDI := 0x1 (only parsing).
Abbreviation MATCH_C_ADDI16SP := 0x6101 (only parsing).
Abbreviation MATCH_C_ADDI4SPN := 0x0 (only parsing).
Abbreviation MATCH_C_ADDIW := 0x2001 (only parsing).
Abbreviation MATCH_C_ADDW := 0x9c21 (only parsing).
Abbreviation MATCH_C_AND := 0x8c61 (only parsing).
Abbreviation MATCH_C_ANDI := 0x8801 (only parsing).
Abbreviation MATCH_C_BEQZ := 0xc001 (only parsing).
Abbreviation MATCH_C_BNEZ := 0xe001 (only parsing).
Abbreviation MATCH_C_EBREAK := 0x9002 (only parsing).
Abbreviation MATCH_C_FLD := 0x2000 (only parsing).
Abbreviation MATCH_C_FLDSP := 0x2002 (only parsing).
Abbreviation MATCH_C_FLW := 0x6000 (only parsing).
Abbreviation MATCH_C_FLWSP := 0x6002 (only parsing).
Abbreviation MATCH_C_FSD := 0xa000 (only parsing).
Abbreviation MATCH_C_FSDSP := 0xa002 (only parsing).
Abbreviation MATCH_C_FSW := 0xe000 (only parsing).
Abbreviation MATCH_C_FSWSP := 0xe002 (only parsing).
Abbreviation MATCH_C_J := 0xa001 (only parsing).
Abbreviation MATCH_C_JAL := 0x2001 (only parsing).
Abbreviation MATCH_C_JALR := 0x9002 (only parsing).
Abbreviation MATCH_C_JR := 0x8002 (only parsing).
Abbreviation MATCH_C_LD := 0x6000 (only parsing).
Abbreviation MATCH_C_LDSP := 0x6002 (only parsing).
Abbreviation MATCH_C_LI := 0x4001 (only parsing).
Abbreviation MATCH_C_LUI := 0x6001 (only parsing).
Abbreviation MATCH_C_LW := 0x4000 (only parsing).
Abbreviation MATCH_C_LWSP := 0x4002 (only parsing).
Abbreviation MATCH_C_MV := 0x8002 (only parsing).
Abbreviation MATCH_C_NOP := 0x1 (only parsing).
Abbreviation MATCH_C_OR := 0x8c41 (only parsing).
Abbreviation MATCH_C_SD := 0xe000 (only parsing).
Abbreviation MATCH_C_SDSP := 0xe002 (only parsing).
Abbreviation MATCH_C_SLLI := 0x2 (only parsing).
Abbreviation MATCH_C_SLLI64 := 0x2 (only parsing).
Abbreviation MATCH_C_SRAI := 0x8401 (only parsing).
Abbreviation MATCH_C_SRAI64 := 0x8401 (only parsing).
Abbreviation MATCH_C_SRLI := 0x8001 (only parsing).
Abbreviation MATCH_C_SRLI64 := 0x8001 (only parsing).
Abbreviation MATCH_C_SUB := 0x8c01 (only parsing).
Abbreviation MATCH_C_SUBW := 0x9c01 (only parsing).
Abbreviation MATCH_C_SW := 0xc000 (only parsing).
Abbreviation MATCH_C_SWSP := 0xc002 (only parsing).
Abbreviation MATCH_C_XOR := 0x8c21 (only parsing).
Abbreviation MATCH_DIV := 0x2004033 (only parsing).
Abbreviation MATCH_DIVU := 0x2005033 (only parsing).
Abbreviation MATCH_DIVUW := 0x200503b (only parsing).
Abbreviation MATCH_DIVW := 0x200403b (only parsing).
Abbreviation MATCH_DRET := 0x7b200073 (only parsing).
Abbreviation MATCH_EBREAK := 0x100073 (only parsing).
Abbreviation MATCH_FADD_D := 0x2000053 (only parsing).
Abbreviation MATCH_FADD_H := 0x4000053 (only parsing).
Abbreviation MATCH_FADD_Q := 0x6000053 (only parsing).
Abbreviation MATCH_FADD_S := 0x53 (only parsing).
Abbreviation MATCH_FCLASS_D := 0xe2001053 (only parsing).
Abbreviation MATCH_FCLASS_H := 0xe4001053 (only parsing).
Abbreviation MATCH_FCLASS_Q := 0xe6001053 (only parsing).
Abbreviation MATCH_FCLASS_S := 0xe0001053 (only parsing).
Abbreviation MATCH_FCVTMOD_W_D := 0xc2801053 (only parsing).
Abbreviation MATCH_FCVT_D_H := 0x42200053 (only parsing).
Abbreviation MATCH_FCVT_D_L := 0xd2200053 (only parsing).
Abbreviation MATCH_FCVT_D_LU := 0xd2300053 (only parsing).
Abbreviation MATCH_FCVT_D_Q := 0x42300053 (only parsing).
Abbreviation MATCH_FCVT_D_S := 0x42000053 (only parsing).
Abbreviation MATCH_FCVT_D_W := 0xd2000053 (only parsing).
Abbreviation MATCH_FCVT_D_WU := 0xd2100053 (only parsing).
Abbreviation MATCH_FCVT_H_D := 0x44100053 (only parsing).
Abbreviation MATCH_FCVT_H_L := 0xd4200053 (only parsing).
Abbreviation MATCH_FCVT_H_LU := 0xd4300053 (only parsing).
Abbreviation MATCH_FCVT_H_Q := 0x44300053 (only parsing).
Abbreviation MATCH_FCVT_H_S := 0x44000053 (only parsing).
Abbreviation MATCH_FCVT_H_W := 0xd4000053 (only parsing).
Abbreviation MATCH_FCVT_H_WU := 0xd4100053 (only parsing).
Abbreviation MATCH_FCVT_LU_D := 0xc2300053 (only parsing).
Abbreviation MATCH_FCVT_LU_H := 0xc4300053 (only parsing).
Abbreviation MATCH_FCVT_LU_Q := 0xc6300053 (only parsing).
Abbreviation MATCH_FCVT_LU_S := 0xc0300053 (only parsing).
Abbreviation MATCH_FCVT_L_D := 0xc2200053 (only parsing).
Abbreviation MATCH_FCVT_L_H := 0xc4200053 (only parsing).
Abbreviation MATCH_FCVT_L_Q := 0xc6200053 (only parsing).
Abbreviation MATCH_FCVT_L_S := 0xc0200053 (only parsing).
Abbreviation MATCH_FCVT_Q_D := 0x46100053 (only parsing).
Abbreviation MATCH_FCVT_Q_H := 0x46200053 (only parsing).
Abbreviation MATCH_FCVT_Q_L := 0xd6200053 (only parsing).
Abbreviation MATCH_FCVT_Q_LU := 0xd6300053 (only parsing).
Abbreviation MATCH_FCVT_Q_S := 0x46000053 (only parsing).
Abbreviation MATCH_FCVT_Q_W := 0xd6000053 (only parsing).
Abbreviation MATCH_FCVT_Q_WU := 0xd6100053 (only parsing).
Abbreviation MATCH_FCVT_S_D := 0x40100053 (only parsing).
Abbreviation MATCH_FCVT_S_H := 0x40200053 (only parsing).
Abbreviation MATCH_FCVT_S_L := 0xd0200053 (only parsing).
Abbreviation MATCH_FCVT_S_LU := 0xd0300053 (only parsing).
Abbreviation MATCH_FCVT_S_Q := 0x40300053 (only parsing).
Abbreviation MATCH_FCVT_S_W := 0xd0000053 (only parsing).
Abbreviation MATCH_FCVT_S_WU := 0xd0100053 (only parsing).
Abbreviation MATCH_FCVT_WU_D := 0xc2100053 (only parsing).
Abbreviation MATCH_FCVT_WU_H := 0xc4100053 (only parsing).
Abbreviation MATCH_FCVT_WU_Q := 0xc6100053 (only parsing).
Abbreviation MATCH_FCVT_WU_S := 0xc0100053 (only parsing).
Abbreviation MATCH_FCVT_W_D := 0xc2000053 (only parsing).
Abbreviation MATCH_FCVT_W_H := 0xc4000053 (only parsing).
Abbreviation MATCH_FCVT_W_Q := 0xc6000053 (only parsing).
Abbreviation MATCH_FCVT_W_S := 0xc0000053 (only parsing).
Abbreviation MATCH_FDIV_D := 0x1a000053 (only parsing).
Abbreviation MATCH_FDIV_H := 0x1c000053 (only parsing).
Abbreviation MATCH_FDIV_Q := 0x1e000053 (only parsing).
Abbreviation MATCH_FDIV_S := 0x18000053 (only parsing).
Abbreviation MATCH_FENCE := 0xf (only parsing).
Abbreviation MATCH_FENCE_I := 0x100f (only parsing).
Abbreviation MATCH_FENCE_TSO := 0x8330000f (only parsing).
Abbreviation MATCH_FEQ_D := 0xa2002053 (only parsing).
Abbreviation MATCH_FEQ_H := 0xa4002053 (only parsing).
Abbreviation MATCH_FEQ_Q := 0xa6002053 (only parsing).
Abbreviation MATCH_FEQ_S := 0xa0002053 (only parsing).
Abbreviation MATCH_FLD := 0x3007 (only parsing).
Abbreviation MATCH_FLEQ_D := 0xa2004053 (only parsing).
Abbreviation MATCH_FLEQ_H := 0xa4004053 (only parsing).
Abbreviation MATCH_FLEQ_Q := 0xa6004053 (only parsing).
Abbreviation MATCH_FLEQ_S := 0xa0004053 (only parsing).
Abbreviation MATCH_FLE_D := 0xa2000053 (only parsing).
Abbreviation MATCH_FLE_H := 0xa4000053 (only parsing).
Abbreviation MATCH_FLE_Q := 0xa6000053 (only parsing).
Abbreviation MATCH_FLE_S := 0xa0000053 (only parsing).
Abbreviation MATCH_FLH := 0x1007 (only parsing).
Abbreviation MATCH_FLI_D := 0xf2100053 (only parsing).
Abbreviation MATCH_FLI_H := 0xf4100053 (only parsing).
Abbreviation MATCH_FLI_Q := 0xf6100053 (only parsing).
Abbreviation MATCH_FLI_S := 0xf0100053 (only parsing).
Abbreviation MATCH_FLQ := 0x4007 (only parsing).
Abbreviation MATCH_FLTQ_D := 0xa2005053 (only parsing).
Abbreviation MATCH_FLTQ_H := 0xa4005053 (only parsing).
Abbreviation MATCH_FLTQ_Q := 0xa6005053 (only parsing).
Abbreviation MATCH_FLTQ_S := 0xa0005053 (only parsing).
Abbreviation MATCH_FLT_D := 0xa2001053 (only parsing).
Abbreviation MATCH_FLT_H := 0xa4001053 (only parsing).
Abbreviation MATCH_FLT_Q := 0xa6001053 (only parsing).
Abbreviation MATCH_FLT_S := 0xa0001053 (only parsing).
Abbreviation MATCH_FLW := 0x2007 (only parsing).
Abbreviation MATCH_FMADD_D := 0x2000043 (only parsing).
Abbreviation MATCH_FMADD_H := 0x4000043 (only parsing).
Abbreviation MATCH_FMADD_Q := 0x6000043 (only parsing).
Abbreviation MATCH_FMADD_S := 0x43 (only parsing).
Abbreviation MATCH_FMAXM_D := 0x2a003053 (only parsing).
Abbreviation MATCH_FMAXM_H := 0x2c003053 (only parsing).
Abbreviation MATCH_FMAXM_Q := 0x2e003053 (only parsing).
Abbreviation MATCH_FMAXM_S := 0x28003053 (only parsing).
Abbreviation MATCH_FMAX_D := 0x2a001053 (only parsing).
Abbreviation MATCH_FMAX_H := 0x2c001053 (only parsing).
Abbreviation MATCH_FMAX_Q := 0x2e001053 (only parsing).
Abbreviation MATCH_FMAX_S := 0x28001053 (only parsing).
Abbreviation MATCH_FMINM_D := 0x2a002053 (only parsing).
Abbreviation MATCH_FMINM_H := 0x2c002053 (only parsing).
Abbreviation MATCH_FMINM_Q := 0x2e002053 (only parsing).
Abbreviation MATCH_FMINM_S := 0x28002053 (only parsing).
Abbreviation MATCH_FMIN_D := 0x2a000053 (only parsing).
Abbreviation MATCH_FMIN_H := 0x2c000053 (only parsing).
Abbreviation MATCH_FMIN_Q := 0x2e000053 (only parsing).
Abbreviation MATCH_FMIN_S := 0x28000053 (only parsing).
Abbreviation MATCH_FMSUB_D := 0x2000047 (only parsing).
Abbreviation MATCH_FMSUB_H := 0x4000047 (only parsing).
Abbreviation MATCH_FMSUB_Q := 0x6000047 (only parsing).
Abbreviation MATCH_FMSUB_S := 0x47 (only parsing).
Abbreviation MATCH_FMUL_D := 0x12000053 (only parsing).
Abbreviation MATCH_FMUL_H := 0x14000053 (only parsing).
Abbreviation MATCH_FMUL_Q := 0x16000053 (only parsing).
Abbreviation MATCH_FMUL_S := 0x10000053 (only parsing).
Abbreviation MATCH_FMVH_X_D := 0xe2100053 (only parsing).
Abbreviation MATCH_FMVH_X_Q := 0xe6100053 (only parsing).
Abbreviation MATCH_FMVP_D_X := 0xb2000053 (only parsing).
Abbreviation MATCH_FMVP_Q_X := 0xb6000053 (only parsing).
Abbreviation MATCH_FMV_D_X := 0xf2000053 (only parsing).
Abbreviation MATCH_FMV_H_X := 0xf4000053 (only parsing).
Abbreviation MATCH_FMV_S_X := 0xf0000053 (only parsing).
Abbreviation MATCH_FMV_X_D := 0xe2000053 (only parsing).
Abbreviation MATCH_FMV_X_H := 0xe4000053 (only parsing).
Abbreviation MATCH_FMV_X_S := 0xe0000053 (only parsing).
Abbreviation MATCH_FNMADD_D := 0x200004f (only parsing).
Abbreviation MATCH_FNMADD_H := 0x400004f (only parsing).
Abbreviation MATCH_FNMADD_Q := 0x600004f (only parsing).
Abbreviation MATCH_FNMADD_S := 0x4f (only parsing).
Abbreviation MATCH_FNMSUB_D := 0x200004b (only parsing).
Abbreviation MATCH_FNMSUB_H := 0x400004b (only parsing).
Abbreviation MATCH_FNMSUB_Q := 0x600004b (only parsing).
Abbreviation MATCH_FNMSUB_S := 0x4b (only parsing).
Abbreviation MATCH_FRCSR := 0x302073 (only parsing).
Abbreviation MATCH_FRFLAGS := 0x102073 (only parsing).
Abbreviation MATCH_FROUNDNX_D := 0x42500053 (only parsing).
Abbreviation MATCH_FROUNDNX_H := 0x44500053 (only parsing).
Abbreviation MATCH_FROUNDNX_Q := 0x46500053 (only parsing).
Abbreviation MATCH_FROUNDNX_S := 0x40500053 (only parsing).
Abbreviation MATCH_FROUND_D := 0x42400053 (only parsing).
Abbreviation MATCH_FROUND_H := 0x44400053 (only parsing).
Abbreviation MATCH_FROUND_Q := 0x46400053 (only parsing).
Abbreviation MATCH_FROUND_S := 0x40400053 (only parsing).
Abbreviation MATCH_FRRM := 0x202073 (only parsing).
Abbreviation MATCH_FSCSR := 0x301073 (only parsing).
Abbreviation MATCH_FSD := 0x3027 (only parsing).
Abbreviation MATCH_FSFLAGS := 0x101073 (only parsing).
Abbreviation MATCH_FSFLAGSI := 0x105073 (only parsing).
Abbreviation MATCH_FSGNJN_D := 0x22001053 (only parsing).
Abbreviation MATCH_FSGNJN_H := 0x24001053 (only parsing).
Abbreviation MATCH_FSGNJN_Q := 0x26001053 (only parsing).
Abbreviation MATCH_FSGNJN_S := 0x20001053 (only parsing).
Abbreviation MATCH_FSGNJX_D := 0x22002053 (only parsing).
Abbreviation MATCH_FSGNJX_H := 0x24002053 (only parsing).
Abbreviation MATCH_FSGNJX_Q := 0x26002053 (only parsing).
Abbreviation MATCH_FSGNJX_S := 0x20002053 (only parsing).
Abbreviation MATCH_FSGNJ_D := 0x22000053 (only parsing).
Abbreviation MATCH_FSGNJ_H := 0x24000053 (only parsing).
Abbreviation MATCH_FSGNJ_Q := 0x26000053 (only parsing).
Abbreviation MATCH_FSGNJ_S := 0x20000053 (only parsing).
Abbreviation MATCH_FSH := 0x1027 (only parsing).
Abbreviation MATCH_FSQ := 0x4027 (only parsing).
Abbreviation MATCH_FSQRT_D := 0x5a000053 (only parsing).
Abbreviation MATCH_FSQRT_H := 0x5c000053 (only parsing).
Abbreviation MATCH_FSQRT_Q := 0x5e000053 (only parsing).
Abbreviation MATCH_FSQRT_S := 0x58000053 (only parsing).
Abbreviation MATCH_FSRM := 0x201073 (only parsing).
Abbreviation MATCH_FSRMI := 0x205073 (only parsing).
Abbreviation MATCH_FSUB_D := 0xa000053 (only parsing).
Abbreviation MATCH_FSUB_H := 0xc000053 (only parsing).
Abbreviation MATCH_FSUB_Q := 0xe000053 (only parsing).
Abbreviation MATCH_FSUB_S := 0x8000053 (only parsing).
Abbreviation MATCH_FSW := 0x2027 (only parsing).
Abbreviation MATCH_GORCI := 0x28005013 (only parsing).
Abbreviation MATCH_GREVI := 0x68005013 (only parsing).
Abbreviation MATCH_HFENCE_GVMA := 0x62000073 (only parsing).
Abbreviation MATCH_HFENCE_VVMA := 0x22000073 (only parsing).
Abbreviation MATCH_HINVAL_GVMA := 0x66000073 (only parsing).
Abbreviation MATCH_HINVAL_VVMA := 0x26000073 (only parsing).
Abbreviation MATCH_HLVX_HU := 0x64304073 (only parsing).
Abbreviation MATCH_HLVX_WU := 0x68304073 (only parsing).
Abbreviation MATCH_HLV_B := 0x60004073 (only parsing).
Abbreviation MATCH_HLV_BU := 0x60104073 (only parsing).
Abbreviation MATCH_HLV_D := 0x6c004073 (only parsing).
Abbreviation MATCH_HLV_H := 0x64004073 (only parsing).
Abbreviation MATCH_HLV_HU := 0x64104073 (only parsing).
Abbreviation MATCH_HLV_W := 0x68004073 (only parsing).
Abbreviation MATCH_HLV_WU := 0x68104073 (only parsing).
Abbreviation MATCH_HRET := 0x20200073 (only parsing).
Abbreviation MATCH_HSV_B := 0x62004073 (only parsing).
Abbreviation MATCH_HSV_D := 0x6e004073 (only parsing).
Abbreviation MATCH_HSV_H := 0x66004073 (only parsing).
Abbreviation MATCH_HSV_W := 0x6a004073 (only parsing).
Abbreviation MATCH_JAL := 0x6f (only parsing).
Abbreviation MATCH_JALR := 0x67 (only parsing).
Abbreviation MATCH_LB := 0x3 (only parsing).
Abbreviation MATCH_LBU := 0x4003 (only parsing).
Abbreviation MATCH_LD := 0x3003 (only parsing).
Abbreviation MATCH_LH := 0x1003 (only parsing).
Abbreviation MATCH_LHU := 0x5003 (only parsing).
Abbreviation MATCH_LR_D := 0x1000302f (only parsing).
Abbreviation MATCH_LR_W := 0x1000202f (only parsing).
Abbreviation MATCH_LUI := 0x37 (only parsing).
Abbreviation MATCH_LW := 0x2003 (only parsing).
Abbreviation MATCH_LWU := 0x6003 (only parsing).
Abbreviation MATCH_MAX := 0xa006033 (only parsing).
Abbreviation MATCH_MAXU := 0xa007033 (only parsing).
Abbreviation MATCH_MIN := 0xa004033 (only parsing).
Abbreviation MATCH_MINU := 0xa005033 (only parsing).
Abbreviation MATCH_MRET := 0x30200073 (only parsing).
Abbreviation MATCH_MUL := 0x2000033 (only parsing).
Abbreviation MATCH_MULH := 0x2001033 (only parsing).
Abbreviation MATCH_MULHSU := 0x2002033 (only parsing).
Abbreviation MATCH_MULHU := 0x2003033 (only parsing).
Abbreviation MATCH_MULW := 0x200003b (only parsing).
Abbreviation MATCH_OR := 0x6033 (only parsing).
Abbreviation MATCH_ORI := 0x6013 (only parsing).
Abbreviation MATCH_ORN := 0x40006033 (only parsing).
Abbreviation MATCH_PACK := 0x8004033 (only parsing).
Abbreviation MATCH_PACKH := 0x8007033 (only parsing).
Abbreviation MATCH_PACKW := 0x800403b (only parsing).
Abbreviation MATCH_PAUSE := 0x0100000f (only parsing).
Abbreviation MATCH_PREFETCH_I := 0x6013 (only parsing).
Abbreviation MATCH_PREFETCH_R := 0x106013 (only parsing).
Abbreviation MATCH_PREFETCH_W := 0x306013 (only parsing).
Abbreviation MATCH_PVADD := 0x0000105b (only parsing).
Abbreviation MATCH_PVMAC := 0x0400105b (only parsing).
Abbreviation MATCH_PVMUL := 0x0200105b (only parsing).
Abbreviation MATCH_PVMUL_UPPER := 0x0600105b (only parsing).
Abbreviation MATCH_RDCYCLE := 0xc0002073 (only parsing).
Abbreviation MATCH_RDCYCLEH := 0xc8002073 (only parsing).
Abbreviation MATCH_RDINSTRET := 0xc0202073 (only parsing).
Abbreviation MATCH_RDINSTRETH := 0xc8202073 (only parsing).
Abbreviation MATCH_RDTIME := 0xc0102073 (only parsing).
Abbreviation MATCH_RDTIMEH := 0xc8102073 (only parsing).
Abbreviation MATCH_REM := 0x2006033 (only parsing).
Abbreviation MATCH_REMU := 0x2007033 (only parsing).
Abbreviation MATCH_REMUW := 0x200703b (only parsing).
Abbreviation MATCH_REMW := 0x200603b (only parsing).
Abbreviation MATCH_ROL := 0x60001033 (only parsing).
Abbreviation MATCH_ROLW := 0x6000103b (only parsing).
Abbreviation MATCH_ROR := 0x60005033 (only parsing).
Abbreviation MATCH_RORI := 0x60005013 (only parsing).
Abbreviation MATCH_RORIW := 0x6000501b (only parsing).
Abbreviation MATCH_RORW := 0x6000503b (only parsing).
Abbreviation MATCH_SB := 0x23 (only parsing).
Abbreviation MATCH_SCALL := 0x73 (only parsing).
Abbreviation MATCH_SC_D := 0x1800302f (only parsing).
Abbreviation MATCH_SC_W := 0x1800202f (only parsing).
Abbreviation MATCH_SD := 0x3023 (only parsing).
Abbreviation MATCH_SEXT_B := 0x60401013 (only parsing).
Abbreviation MATCH_SEXT_H := 0x60501013 (only parsing).
Abbreviation MATCH_SFENCE_INVAL_IR := 0x18100073 (only parsing).
Abbreviation MATCH_SFENCE_VM := 0x10400073 (only parsing).
Abbreviation MATCH_SFENCE_VMA := 0x12000073 (only parsing).
Abbreviation MATCH_SFENCE_W_INVAL := 0x18000073 (only parsing).
Abbreviation MATCH_SH := 0x1023 (only parsing).
Abbreviation MATCH_SH1ADD := 0x20002033 (only parsing).
Abbreviation MATCH_SH1ADD_UW := 0x2000203b (only parsing).
Abbreviation MATCH_SH2ADD := 0x20004033 (only parsing).
Abbreviation MATCH_SH2ADD_UW := 0x2000403b (only parsing).
Abbreviation MATCH_SH3ADD := 0x20006033 (only parsing).
Abbreviation MATCH_SH3ADD_UW := 0x2000603b (only parsing).
Abbreviation MATCH_SHA256SIG0 := 0x10201013 (only parsing).
Abbreviation MATCH_SHA256SIG1 := 0x10301013 (only parsing).
Abbreviation MATCH_SHA256SUM0 := 0x10001013 (only parsing).
Abbreviation MATCH_SHA256SUM1 := 0x10101013 (only parsing).
Abbreviation MATCH_SHA512SIG0 := 0x10601013 (only parsing).
Abbreviation MATCH_SHA512SIG0H := 0x5c000033 (only parsing).
Abbreviation MATCH_SHA512SIG0L := 0x54000033 (only parsing).
Abbreviation MATCH_SHA512SIG1 := 0x10701013 (only parsing).
Abbreviation MATCH_SHA512SIG1H := 0x5e000033 (only parsing).
Abbreviation MATCH_SHA512SIG1L := 0x56000033 (only parsing).
Abbreviation MATCH_SHA512SUM0 := 0x10401013 (only parsing).
Abbreviation MATCH_SHA512SUM0R := 0x50000033 (only parsing).
Abbreviation MATCH_SHA512SUM1 := 0x10501013 (only parsing).
Abbreviation MATCH_SHA512SUM1R := 0x52000033 (only parsing).
Abbreviation MATCH_SHFLI := 0x8001013 (only parsing).
Abbreviation MATCH_SINVAL_VMA := 0x16000073 (only parsing).
Abbreviation MATCH_SLL := 0x1033 (only parsing).
Abbreviation MATCH_SLLI := 0x1013 (only parsing).
Abbreviation MATCH_SLLIW := 0x101b (only parsing).
Abbreviation MATCH_SLLI_UW := 0x800101b (only parsing).
Abbreviation MATCH_SLLW := 0x103b (only parsing).
Abbreviation MATCH_SLT := 0x2033 (only parsing).
Abbreviation MATCH_SLTI := 0x2013 (only parsing).
Abbreviation MATCH_SLTIU := 0x3013 (only parsing).
Abbreviation MATCH_SLTU := 0x3033 (only parsing).
Abbreviation MATCH_SM3P0 := 0x10801013 (only parsing).
Abbreviation MATCH_SM3P1 := 0x10901013 (only parsing).
Abbreviation MATCH_SM4ED := 0x30000033 (only parsing).
Abbreviation MATCH_SM4KS := 0x34000033 (only parsing).
Abbreviation MATCH_SRA := 0x40005033 (only parsing).
Abbreviation MATCH_SRAI := 0x40005013 (only parsing).
Abbreviation MATCH_SRAIW := 0x4000501b (only parsing).
Abbreviation MATCH_SRAW := 0x4000503b (only parsing).
Abbreviation MATCH_SRET := 0x10200073 (only parsing).
Abbreviation MATCH_SRL := 0x5033 (only parsing).
Abbreviation MATCH_SRLI := 0x5013 (only parsing).
Abbreviation MATCH_SRLIW := 0x501b (only parsing).
Abbreviation MATCH_SRLW := 0x503b (only parsing).
Abbreviation MATCH_SUB := 0x40000033 (only parsing).
Abbreviation MATCH_SUBW := 0x4000003b (only parsing).
Abbreviation MATCH_SW := 0x2023 (only parsing).
Abbreviation MATCH_TH_ADDSL := 0x0000100b (only parsing).
Abbreviation MATCH_TH_DCACHE_CALL := 0x0010000b (only parsing).
Abbreviation MATCH_TH_DCACHE_CIALL := 0x0030000b (only parsing).
Abbreviation MATCH_TH_DCACHE_CIPA := 0x02b0000b (only parsing).
Abbreviation MATCH_TH_DCACHE_CISW := 0x0230000b (only parsing).
Abbreviation MATCH_TH_DCACHE_CIVA := 0x0270000b (only parsing).
Abbreviation MATCH_TH_DCACHE_CPA := 0x0290000b (only parsing).
Abbreviation MATCH_TH_DCACHE_CPAL1 := 0x0280000b (only parsing).
Abbreviation MATCH_TH_DCACHE_CSW := 0x0210000b (only parsing).
Abbreviation MATCH_TH_DCACHE_CVA := 0x0250000b (only parsing).
Abbreviation MATCH_TH_DCACHE_CVAL1 := 0x0240000b (only parsing).
Abbreviation MATCH_TH_DCACHE_IALL := 0x0020000b (only parsing).
Abbreviation MATCH_TH_DCACHE_IPA := 0x02a0000b (only parsing).
Abbreviation MATCH_TH_DCACHE_ISW := 0x0220000b (only parsing).
Abbreviation MATCH_TH_DCACHE_IVA := 0x0260000b (only parsing).
Abbreviation MATCH_TH_EXT := 0x0000200b (only parsing).
Abbreviation MATCH_TH_EXTU := 0x0000300b (only parsing).
Abbreviation MATCH_TH_FF0 := 0x8400100b (only parsing).
Abbreviation MATCH_TH_FF1 := 0x8600100b (only parsing).
Abbreviation MATCH_TH_FLRD := 0x6000600b (only parsing).
Abbreviation MATCH_TH_FLRW := 0x4000600b (only parsing).
Abbreviation MATCH_TH_FLURD := 0x7000600b (only parsing).
Abbreviation MATCH_TH_FLURW := 0x5000600b (only parsing).
Abbreviation MATCH_TH_FMV_HW_X := 0x5000100b (only parsing).
Abbreviation MATCH_TH_FMV_X_HW := 0x6000100b (only parsing).
Abbreviation MATCH_TH_FSRD := 0x6000700b (only parsing).
Abbreviation MATCH_TH_FSRW := 0x4000700b (only parsing).
Abbreviation MATCH_TH_FSURD := 0x7000700b (only parsing).
Abbreviation MATCH_TH_FSURW := 0x5000700b (only parsing).
Abbreviation MATCH_TH_ICACHE_IALL := 0x0100000b (only parsing).
Abbreviation MATCH_TH_ICACHE_IALLS := 0x0110000b (only parsing).
Abbreviation MATCH_TH_ICACHE_IPA := 0x0380000b (only parsing).
Abbreviation MATCH_TH_ICACHE_IVA := 0x0300000b (only parsing).
Abbreviation MATCH_TH_IPOP := 0x0050000b (only parsing).
Abbreviation MATCH_TH_IPUSH := 0x0040000b (only parsing).
Abbreviation MATCH_TH_L2CACHE_CALL := 0x0150000b (only parsing).
Abbreviation MATCH_TH_L2CACHE_CIALL := 0x0170000b (only parsing).
Abbreviation MATCH_TH_L2CACHE_IALL := 0x0160000b (only parsing).
Abbreviation MATCH_TH_LBIA := 0x1800400b (only parsing).
Abbreviation MATCH_TH_LBIB := 0x0800400b (only parsing).
Abbreviation MATCH_TH_LBUIA := 0x9800400b (only parsing).
Abbreviation MATCH_TH_LBUIB := 0x8800400b (only parsing).
Abbreviation MATCH_TH_LDD := 0xf800400b (only parsing).
Abbreviation MATCH_TH_LDIA := 0x7800400b (only parsing).
Abbreviation MATCH_TH_LDIB := 0x6800400b (only parsing).
Abbreviation MATCH_TH_LHIA := 0x3800400b (only parsing).
Abbreviation MATCH_TH_LHIB := 0x2800400b (only parsing).
Abbreviation MATCH_TH_LHUIA := 0xb800400b (only parsing).
Abbreviation MATCH_TH_LHUIB := 0xa800400b (only parsing).
Abbreviation MATCH_TH_LRB := 0x0000400b (only parsing).
Abbreviation MATCH_TH_LRBU := 0x8000400b (only parsing).
Abbreviation MATCH_TH_LRD := 0x6000400b (only parsing).
Abbreviation MATCH_TH_LRH := 0x2000400b (only parsing).
Abbreviation MATCH_TH_LRHU := 0xa000400b (only parsing).
Abbreviation MATCH_TH_LRW := 0x4000400b (only parsing).
Abbreviation MATCH_TH_LRWU := 0xc000400b (only parsing).
Abbreviation MATCH_TH_LURB := 0x1000400b (only parsing).
Abbreviation MATCH_TH_LURBU := 0x9000400b (only parsing).
Abbreviation MATCH_TH_LURD := 0x7000400b (only parsing).
Abbreviation MATCH_TH_LURH := 0x3000400b (only parsing).
Abbreviation MATCH_TH_LURHU := 0xb000400b (only parsing).
Abbreviation MATCH_TH_LURW := 0x5000400b (only parsing).
Abbreviation MATCH_TH_LURWU := 0xd000400b (only parsing).
Abbreviation MATCH_TH_LWD := 0xe000400b (only parsing).
Abbreviation MATCH_TH_LWIA := 0x5800400b (only parsing).
Abbreviation MATCH_TH_LWIB := 0x4800400b (only parsing).
Abbreviation MATCH_TH_LWUD := 0xf000400b (only parsing).
Abbreviation MATCH_TH_LWUIA := 0xd800400b (only parsing).
Abbreviation MATCH_TH_LWUIB := 0xc800400b (only parsing).
Abbreviation MATCH_TH_MULA := 0x2000100b (only parsing).
Abbreviation MATCH_TH_MULAH := 0x2800100b (only parsing).
Abbreviation MATCH_TH_MULAW := 0x2400100b (only parsing).
Abbreviation MATCH_TH_MULS := 0x2200100b (only parsing).
Abbreviation MATCH_TH_MULSH := 0x2a00100b (only parsing).
Abbreviation MATCH_TH_MULSW := 0x2600100b (only parsing).
Abbreviation MATCH_TH_MVEQZ := 0x4000100b (only parsing).
Abbreviation MATCH_TH_MVNEZ := 0x4200100b (only parsing).
Abbreviation MATCH_TH_REV := 0x8200100b (only parsing).
Abbreviation MATCH_TH_REVW := 0x9000100b (only parsing).
Abbreviation MATCH_TH_SBIA := 0x1800500b (only parsing).
Abbreviation MATCH_TH_SBIB := 0x0800500b (only parsing).
Abbreviation MATCH_TH_SDD := 0xf800500b (only parsing).
Abbreviation MATCH_TH_SDIA := 0x7800500b (only parsing).
Abbreviation MATCH_TH_SDIB := 0x6800500b (only parsing).
Abbreviation MATCH_TH_SFENCE_VMAS := 0x0400000b (only parsing).
Abbreviation MATCH_TH_SHIA := 0x3800500b (only parsing).
Abbreviation MATCH_TH_SHIB := 0x2800500b (only parsing).
Abbreviation MATCH_TH_SRB := 0x0000500b (only parsing).
Abbreviation MATCH_TH_SRD := 0x6000500b (only parsing).
Abbreviation MATCH_TH_SRH := 0x2000500b (only parsing).
Abbreviation MATCH_TH_SRRI := 0x1000100b (only parsing).
Abbreviation MATCH_TH_SRRIW := 0x1400100b (only parsing).
Abbreviation MATCH_TH_SRW := 0x4000500b (only parsing).
Abbreviation MATCH_TH_SURB := 0x1000500b (only parsing).
Abbreviation MATCH_TH_SURD := 0x7000500b (only parsing).
Abbreviation MATCH_TH_SURH := 0x3000500b (only parsing).
Abbreviation MATCH_TH_SURW := 0x5000500b (only parsing).
Abbreviation MATCH_TH_SWD := 0xe000500b (only parsing).
Abbreviation MATCH_TH_SWIA := 0x5800500b (only parsing).
Abbreviation MATCH_TH_SWIB := 0x4800500b (only parsing).
Abbreviation MATCH_TH_SYNC := 0x0180000b (only parsing).
Abbreviation MATCH_TH_SYNC_I := 0x01a0000b (only parsing).
Abbreviation MATCH_TH_SYNC_IS := 0x01b0000b (only parsing).
Abbreviation MATCH_TH_SYNC_S := 0x0190000b (only parsing).
Abbreviation MATCH_TH_TST := 0x8800100b (only parsing).
Abbreviation MATCH_TH_TSTNBZ := 0x8000100b (only parsing).
Abbreviation MATCH_UNSHFLI := 0x8005013 (only parsing).
Abbreviation MATCH_URET := 0x200073 (only parsing).
Abbreviation MATCH_VAADDUVV := 0x20002057 (only parsing).
Abbreviation MATCH_VAADDUVX := 0x20006057 (only parsing).
Abbreviation MATCH_VAADDVV := 0x24002057 (only parsing).
Abbreviation MATCH_VAADDVX := 0x24006057 (only parsing).
Abbreviation MATCH_VADCVIM := 0x40003057 (only parsing).
Abbreviation MATCH_VADCVVM := 0x40000057 (only parsing).
Abbreviation MATCH_VADCVXM := 0x40004057 (only parsing).
Abbreviation MATCH_VADDVI := 0x00003057 (only parsing).
Abbreviation MATCH_VADDVV := 0x00000057 (only parsing).
Abbreviation MATCH_VADDVX := 0x00004057 (only parsing).
Abbreviation MATCH_VADD_B := 0x0000205b (only parsing).
Abbreviation MATCH_VADD_H := 0x4000205b (only parsing).
Abbreviation MATCH_VADD_W := 0x8000205b (only parsing).
Abbreviation MATCH_VAESDF_VS := 0xa600a077 (only parsing).
Abbreviation MATCH_VAESDF_VV := 0xa200a077 (only parsing).
Abbreviation MATCH_VAESDM_VS := 0xa6002077 (only parsing).
Abbreviation MATCH_VAESDM_VV := 0xa2002077 (only parsing).
Abbreviation MATCH_VAESEF_VS := 0xa601a077 (only parsing).
Abbreviation MATCH_VAESEF_VV := 0xa201a077 (only parsing).
Abbreviation MATCH_VAESEM_VS := 0xa6012077 (only parsing).
Abbreviation MATCH_VAESEM_VV := 0xa2012077 (only parsing).
Abbreviation MATCH_VAESKF1_VI := 0x8a002077 (only parsing).
Abbreviation MATCH_VAESKF2_VI := 0xaa002077 (only parsing).
Abbreviation MATCH_VAESZ_VS := 0xa603a077 (only parsing).
Abbreviation MATCH_VANDN_VV := 0x4000057 (only parsing).
Abbreviation MATCH_VANDN_VX := 0x4004057 (only parsing).
Abbreviation MATCH_VANDVI := 0x24003057 (only parsing).
Abbreviation MATCH_VANDVV := 0x24000057 (only parsing).
Abbreviation MATCH_VANDVX := 0x24004057 (only parsing).
Abbreviation MATCH_VASUBUVV := 0x28002057 (only parsing).
Abbreviation MATCH_VASUBUVX := 0x28006057 (only parsing).
Abbreviation MATCH_VASUBVV := 0x2c002057 (only parsing).
Abbreviation MATCH_VASUBVX := 0x2c006057 (only parsing).
Abbreviation MATCH_VBREV8_V := 0x48042057 (only parsing).
Abbreviation MATCH_VBREV_V := 0x48052057 (only parsing).
Abbreviation MATCH_VCLMULH_VV := 0x34002057 (only parsing).
Abbreviation MATCH_VCLMULH_VX := 0x34006057 (only parsing).
Abbreviation MATCH_VCLMUL_VV := 0x30002057 (only parsing).
Abbreviation MATCH_VCLMUL_VX := 0x30006057 (only parsing).
Abbreviation MATCH_VCLZ_V := 0x48062057 (only parsing).
Abbreviation MATCH_VCOMPRESSVM := 0x5e002057 (only parsing).
Abbreviation MATCH_VCPOPM := 0x40082057 (only parsing).
Abbreviation MATCH_VCPOP_V := 0x48072057 (only parsing).
Abbreviation MATCH_VCTZ_V := 0x4806a057 (only parsing).
Abbreviation MATCH_VDIVUVV := 0x80002057 (only parsing).
Abbreviation MATCH_VDIVUVX := 0x80006057 (only parsing).
Abbreviation MATCH_VDIVVV := 0x84002057 (only parsing).
Abbreviation MATCH_VDIVVX := 0x84006057 (only parsing).
Abbreviation MATCH_VFADDVF := 0x00005057 (only parsing).
Abbreviation MATCH_VFADDVV := 0x00001057 (only parsing).
Abbreviation MATCH_VFCLASSV := 0x4c081057 (only parsing).
Abbreviation MATCH_VFCVTFXUV := 0x48011057 (only parsing).
Abbreviation MATCH_VFCVTFXV := 0x48019057 (only parsing).
Abbreviation MATCH_VFCVTRTZXFV := 0x48039057 (only parsing).
Abbreviation MATCH_VFCVTRTZXUFV := 0x48031057 (only parsing).
Abbreviation MATCH_VFCVTXFV := 0x48009057 (only parsing).
Abbreviation MATCH_VFCVTXUFV := 0x48001057 (only parsing).
Abbreviation MATCH_VFDIVVF := 0x80005057 (only parsing).
Abbreviation MATCH_VFDIVVV := 0x80001057 (only parsing).
Abbreviation MATCH_VFIRSTM := 0x4008a057 (only parsing).
Abbreviation MATCH_VFMACCVF := 0xb0005057 (only parsing).
Abbreviation MATCH_VFMACCVV := 0xb0001057 (only parsing).
Abbreviation MATCH_VFMADDVF := 0xa0005057 (only parsing).
Abbreviation MATCH_VFMADDVV := 0xa0001057 (only parsing).
Abbreviation MATCH_VFMAXVF := 0x18005057 (only parsing).
Abbreviation MATCH_VFMAXVV := 0x18001057 (only parsing).
Abbreviation MATCH_VFMERGEVFM := 0x5c005057 (only parsing).
Abbreviation MATCH_VFMINVF := 0x10005057 (only parsing).
Abbreviation MATCH_VFMINVV := 0x10001057 (only parsing).
Abbreviation MATCH_VFMSACVF := 0xb8005057 (only parsing).
Abbreviation MATCH_VFMSACVV := 0xb8001057 (only parsing).
Abbreviation MATCH_VFMSUBVF := 0xa8005057 (only parsing).
Abbreviation MATCH_VFMSUBVV := 0xa8001057 (only parsing).
Abbreviation MATCH_VFMULVF := 0x90005057 (only parsing).
Abbreviation MATCH_VFMULVV := 0x90001057 (only parsing).
Abbreviation MATCH_VFMVFS := 0x42001057 (only parsing).
Abbreviation MATCH_VFMVSF := 0x42005057 (only parsing).
Abbreviation MATCH_VFMVVF := 0x5e005057 (only parsing).
Abbreviation MATCH_VFNCVTFFW := 0x480a1057 (only parsing).
Abbreviation MATCH_VFNCVTFXUW := 0x48091057 (only parsing).
Abbreviation MATCH_VFNCVTFXW := 0x48099057 (only parsing).
Abbreviation MATCH_VFNCVTRODFFW := 0x480a9057 (only parsing).
Abbreviation MATCH_VFNCVTRTZXFW := 0x480b9057 (only parsing).
Abbreviation MATCH_VFNCVTRTZXUFW := 0x480b1057 (only parsing).
Abbreviation MATCH_VFNCVTXFW := 0x48089057 (only parsing).
Abbreviation MATCH_VFNCVTXUFW := 0x48081057 (only parsing).
Abbreviation MATCH_VFNMACCVF := 0xb4005057 (only parsing).
Abbreviation MATCH_VFNMACCVV := 0xb4001057 (only parsing).
Abbreviation MATCH_VFNMADDVF := 0xa4005057 (only parsing).
Abbreviation MATCH_VFNMADDVV := 0xa4001057 (only parsing).
Abbreviation MATCH_VFNMSACVF := 0xbc005057 (only parsing).
Abbreviation MATCH_VFNMSACVV := 0xbc001057 (only parsing).
Abbreviation MATCH_VFNMSUBVF := 0xac005057 (only parsing).
Abbreviation MATCH_VFNMSUBVV := 0xac001057 (only parsing).
Abbreviation MATCH_VFRDIVVF := 0x84005057 (only parsing).
Abbreviation MATCH_VFREC7V := 0x4c029057 (only parsing).
Abbreviation MATCH_VFREDMAXVS := 0x1c001057 (only parsing).
Abbreviation MATCH_VFREDMINVS := 0x14001057 (only parsing).
Abbreviation MATCH_VFREDOSUMVS := 0x0c001057 (only parsing).
Abbreviation MATCH_VFREDUSUMVS := 0x04001057 (only parsing).
Abbreviation MATCH_VFRSQRT7V := 0x4c021057 (only parsing).
Abbreviation MATCH_VFRSUBVF := 0x9c005057 (only parsing).
Abbreviation MATCH_VFSGNJNVF := 0x24005057 (only parsing).
Abbreviation MATCH_VFSGNJNVV := 0x24001057 (only parsing).
Abbreviation MATCH_VFSGNJVF := 0x20005057 (only parsing).
Abbreviation MATCH_VFSGNJVV := 0x20001057 (only parsing).
Abbreviation MATCH_VFSGNJXVF := 0x28005057 (only parsing).
Abbreviation MATCH_VFSGNJXVV := 0x28001057 (only parsing).
Abbreviation MATCH_VFSLIDE1DOWNVF := 0x3c005057 (only parsing).
Abbreviation MATCH_VFSLIDE1UPVF := 0x38005057 (only parsing).
Abbreviation MATCH_VFSQRTV := 0x4c001057 (only parsing).
Abbreviation MATCH_VFSUBVF := 0x08005057 (only parsing).
Abbreviation MATCH_VFSUBVV := 0x08001057 (only parsing).
Abbreviation MATCH_VFWADDVF := 0xc0005057 (only parsing).
Abbreviation MATCH_VFWADDVV := 0xc0001057 (only parsing).
Abbreviation MATCH_VFWADDWF := 0xd0005057 (only parsing).
Abbreviation MATCH_VFWADDWV := 0xd0001057 (only parsing).
Abbreviation MATCH_VFWCVTFFV := 0x48061057 (only parsing).
Abbreviation MATCH_VFWCVTFXUV := 0x48051057 (only parsing).
Abbreviation MATCH_VFWCVTFXV := 0x48059057 (only parsing).
Abbreviation MATCH_VFWCVTRTZXFV := 0x48079057 (only parsing).
Abbreviation MATCH_VFWCVTRTZXUFV := 0x48071057 (only parsing).
Abbreviation MATCH_VFWCVTXFV := 0x48049057 (only parsing).
Abbreviation MATCH_VFWCVTXUFV := 0x48041057 (only parsing).
Abbreviation MATCH_VFWMACCVF := 0xf0005057 (only parsing).
Abbreviation MATCH_VFWMACCVV := 0xf0001057 (only parsing).
Abbreviation MATCH_VFWMSACVF := 0xf8005057 (only parsing).
Abbreviation MATCH_VFWMSACVV := 0xf8001057 (only parsing).
Abbreviation MATCH_VFWMULVF := 0xe0005057 (only parsing).
Abbreviation MATCH_VFWMULVV := 0xe0001057 (only parsing).
Abbreviation MATCH_VFWNMACCVF := 0xf4005057 (only parsing).
Abbreviation MATCH_VFWNMACCVV := 0xf4001057 (only parsing).
Abbreviation MATCH_VFWNMSACVF := 0xfc005057 (only parsing).
Abbreviation MATCH_VFWNMSACVV := 0xfc001057 (only parsing).
Abbreviation MATCH_VFWREDOSUMVS := 0xcc001057 (only parsing).
Abbreviation MATCH_VFWREDUSUMVS := 0xc4001057 (only parsing).
Abbreviation MATCH_VFWSUBVF := 0xc8005057 (only parsing).
Abbreviation MATCH_VFWSUBVV := 0xc8001057 (only parsing).
Abbreviation MATCH_VFWSUBWF := 0xd8005057 (only parsing).
Abbreviation MATCH_VFWSUBWV := 0xd8001057 (only parsing).
Abbreviation MATCH_VGHSH_VV := 0xb2002077 (only parsing).
Abbreviation MATCH_VGMUL_VV := 0xa208a077 (only parsing).
Abbreviation MATCH_VIDV := 0x5008a057 (only parsing).
Abbreviation MATCH_VIOTAM := 0x50082057 (only parsing).
Abbreviation MATCH_VL1RE16V := 0x02805007 (only parsing).
Abbreviation MATCH_VL1RE32V := 0x02806007 (only parsing).
Abbreviation MATCH_VL1RE64V := 0x02807007 (only parsing).
Abbreviation MATCH_VL1RE8V := 0x02800007 (only parsing).
Abbreviation MATCH_VL2RE16V := 0x22805007 (only parsing).
Abbreviation MATCH_VL2RE32V := 0x22806007 (only parsing).
Abbreviation MATCH_VL2RE64V := 0x22807007 (only parsing).
Abbreviation MATCH_VL2RE8V := 0x22800007 (only parsing).
Abbreviation MATCH_VL4RE16V := 0x62805007 (only parsing).
Abbreviation MATCH_VL4RE32V := 0x62806007 (only parsing).
Abbreviation MATCH_VL4RE64V := 0x62807007 (only parsing).
Abbreviation MATCH_VL4RE8V := 0x62800007 (only parsing).
Abbreviation MATCH_VL8RE16V := 0xe2805007 (only parsing).
Abbreviation MATCH_VL8RE32V := 0xe2806007 (only parsing).
Abbreviation MATCH_VL8RE64V := 0xe2807007 (only parsing).
Abbreviation MATCH_VL8RE8V := 0xe2800007 (only parsing).
Abbreviation MATCH_VLD := 0x0800205b (only parsing).
Abbreviation MATCH_VLE16FFV := 0x01005007 (only parsing).
Abbreviation MATCH_VLE16V := 0x00005007 (only parsing).
Abbreviation MATCH_VLE32FFV := 0x01006007 (only parsing).
Abbreviation MATCH_VLE32V := 0x00006007 (only parsing).
Abbreviation MATCH_VLE64FFV := 0x01007007 (only parsing).
Abbreviation MATCH_VLE64V := 0x00007007 (only parsing).
Abbreviation MATCH_VLE8FFV := 0x01000007 (only parsing).
Abbreviation MATCH_VLE8V := 0x00000007 (only parsing).
Abbreviation MATCH_VLMV := 0x02b00007 (only parsing).
Abbreviation MATCH_VLOXEI16V := 0x0c005007 (only parsing).
Abbreviation MATCH_VLOXEI32V := 0x0c006007 (only parsing).
Abbreviation MATCH_VLOXEI64V := 0x0c007007 (only parsing).
Abbreviation MATCH_VLOXEI8V := 0x0c000007 (only parsing).
Abbreviation MATCH_VLOXSEG2EI16V := 0x2c005007 (only parsing).
Abbreviation MATCH_VLOXSEG2EI32V := 0x2c006007 (only parsing).
Abbreviation MATCH_VLOXSEG2EI64V := 0x2c007007 (only parsing).
Abbreviation MATCH_VLOXSEG2EI8V := 0x2c000007 (only parsing).
Abbreviation MATCH_VLOXSEG3EI16V := 0x4c005007 (only parsing).
Abbreviation MATCH_VLOXSEG3EI32V := 0x4c006007 (only parsing).
Abbreviation MATCH_VLOXSEG3EI64V := 0x4c007007 (only parsing).
Abbreviation MATCH_VLOXSEG3EI8V := 0x4c000007 (only parsing).
Abbreviation MATCH_VLOXSEG4EI16V := 0x6c005007 (only parsing).
Abbreviation MATCH_VLOXSEG4EI32V := 0x6c006007 (only parsing).
Abbreviation MATCH_VLOXSEG4EI64V := 0x6c007007 (only parsing).
Abbreviation MATCH_VLOXSEG4EI8V := 0x6c000007 (only parsing).
Abbreviation MATCH_VLOXSEG5EI16V := 0x8c005007 (only parsing).
Abbreviation MATCH_VLOXSEG5EI32V := 0x8c006007 (only parsing).
Abbreviation MATCH_VLOXSEG5EI64V := 0x8c007007 (only parsing).
Abbreviation MATCH_VLOXSEG5EI8V := 0x8c000007 (only parsing).
Abbreviation MATCH_VLOXSEG6EI16V := 0xac005007 (only parsing).
Abbreviation MATCH_VLOXSEG6EI32V := 0xac006007 (only parsing).
Abbreviation MATCH_VLOXSEG6EI64V := 0xac007007 (only parsing).
Abbreviation MATCH_VLOXSEG6EI8V := 0xac000007 (only parsing).
Abbreviation MATCH_VLOXSEG7EI16V := 0xcc005007 (only parsing).
Abbreviation MATCH_VLOXSEG7EI32V := 0xcc006007 (only parsing).
Abbreviation MATCH_VLOXSEG7EI64V := 0xcc007007 (only parsing).
Abbreviation MATCH_VLOXSEG7EI8V := 0xcc000007 (only parsing).
Abbreviation MATCH_VLOXSEG8EI16V := 0xec005007 (only parsing).
Abbreviation MATCH_VLOXSEG8EI32V := 0xec006007 (only parsing).
Abbreviation MATCH_VLOXSEG8EI64V := 0xec007007 (only parsing).
Abbreviation MATCH_VLOXSEG8EI8V := 0xec000007 (only parsing).
Abbreviation MATCH_VLSE16V := 0x08005007 (only parsing).
Abbreviation MATCH_VLSE32V := 0x08006007 (only parsing).
Abbreviation MATCH_VLSE64V := 0x08007007 (only parsing).
Abbreviation MATCH_VLSE8V := 0x08000007 (only parsing).
Abbreviation MATCH_VLSEG2E16FFV := 0x21005007 (only parsing).
Abbreviation MATCH_VLSEG2E16V := 0x20005007 (only parsing).
Abbreviation MATCH_VLSEG2E32FFV := 0x21006007 (only parsing).
Abbreviation MATCH_VLSEG2E32V := 0x20006007 (only parsing).
Abbreviation MATCH_VLSEG2E64FFV := 0x21007007 (only parsing).
Abbreviation MATCH_VLSEG2E64V := 0x20007007 (only parsing).
Abbreviation MATCH_VLSEG2E8FFV := 0x21000007 (only parsing).
Abbreviation MATCH_VLSEG2E8V := 0x20000007 (only parsing).
Abbreviation MATCH_VLSEG3E16FFV := 0x41005007 (only parsing).
Abbreviation MATCH_VLSEG3E16V := 0x40005007 (only parsing).
Abbreviation MATCH_VLSEG3E32FFV := 0x41006007 (only parsing).
Abbreviation MATCH_VLSEG3E32V := 0x40006007 (only parsing).
Abbreviation MATCH_VLSEG3E64FFV := 0x41007007 (only parsing).
Abbreviation MATCH_VLSEG3E64V := 0x40007007 (only parsing).
Abbreviation MATCH_VLSEG3E8FFV := 0x41000007 (only parsing).
Abbreviation MATCH_VLSEG3E8V := 0x40000007 (only parsing).
Abbreviation MATCH_VLSEG4E16FFV := 0x61005007 (only parsing).
Abbreviation MATCH_VLSEG4E16V := 0x60005007 (only parsing).
Abbreviation MATCH_VLSEG4E32FFV := 0x61006007 (only parsing).
Abbreviation MATCH_VLSEG4E32V := 0x60006007 (only parsing).
Abbreviation MATCH_VLSEG4E64FFV := 0x61007007 (only parsing).
Abbreviation MATCH_VLSEG4E64V := 0x60007007 (only parsing).
Abbreviation MATCH_VLSEG4E8FFV := 0x61000007 (only parsing).
Abbreviation MATCH_VLSEG4E8V := 0x60000007 (only parsing).
Abbreviation MATCH_VLSEG5E16FFV := 0x81005007 (only parsing).
Abbreviation MATCH_VLSEG5E16V := 0x80005007 (only parsing).
Abbreviation MATCH_VLSEG5E32FFV := 0x81006007 (only parsing).
Abbreviation MATCH_VLSEG5E32V := 0x80006007 (only parsing).
Abbreviation MATCH_VLSEG5E64FFV := 0x81007007 (only parsing).
Abbreviation MATCH_VLSEG5E64V := 0x80007007 (only parsing).
Abbreviation MATCH_VLSEG5E8FFV := 0x81000007 (only parsing).
Abbreviation MATCH_VLSEG5E8V := 0x80000007 (only parsing).
Abbreviation MATCH_VLSEG6E16FFV := 0xa1005007 (only parsing).
Abbreviation MATCH_VLSEG6E16V := 0xa0005007 (only parsing).
Abbreviation MATCH_VLSEG6E32FFV := 0xa1006007 (only parsing).
Abbreviation MATCH_VLSEG6E32V := 0xa0006007 (only parsing).
Abbreviation MATCH_VLSEG6E64FFV := 0xa1007007 (only parsing).
Abbreviation MATCH_VLSEG6E64V := 0xa0007007 (only parsing).
Abbreviation MATCH_VLSEG6E8FFV := 0xa1000007 (only parsing).
Abbreviation MATCH_VLSEG6E8V := 0xa0000007 (only parsing).
Abbreviation MATCH_VLSEG7E16FFV := 0xc1005007 (only parsing).
Abbreviation MATCH_VLSEG7E16V := 0xc0005007 (only parsing).
Abbreviation MATCH_VLSEG7E32FFV := 0xc1006007 (only parsing).
Abbreviation MATCH_VLSEG7E32V := 0xc0006007 (only parsing).
Abbreviation MATCH_VLSEG7E64FFV := 0xc1007007 (only parsing).
Abbreviation MATCH_VLSEG7E64V := 0xc0007007 (only parsing).
Abbreviation MATCH_VLSEG7E8FFV := 0xc1000007 (only parsing).
Abbreviation MATCH_VLSEG7E8V := 0xc0000007 (only parsing).
Abbreviation MATCH_VLSEG8E16FFV := 0xe1005007 (only parsing).
Abbreviation MATCH_VLSEG8E16V := 0xe0005007 (only parsing).
Abbreviation MATCH_VLSEG8E32FFV := 0xe1006007 (only parsing).
Abbreviation MATCH_VLSEG8E32V := 0xe0006007 (only parsing).
Abbreviation MATCH_VLSEG8E64FFV := 0xe1007007 (only parsing).
Abbreviation MATCH_VLSEG8E64V := 0xe0007007 (only parsing).
Abbreviation MATCH_VLSEG8E8FFV := 0xe1000007 (only parsing).
Abbreviation MATCH_VLSEG8E8V := 0xe0000007 (only parsing).
Abbreviation MATCH_VLSSEG2E16V := 0x28005007 (only parsing).
Abbreviation MATCH_VLSSEG2E32V := 0x28006007 (only parsing).
Abbreviation MATCH_VLSSEG2E64V := 0x28007007 (only parsing).
Abbreviation MATCH_VLSSEG2E8V := 0x28000007 (only parsing).
Abbreviation MATCH_VLSSEG3E16V := 0x48005007 (only parsing).
Abbreviation MATCH_VLSSEG3E32V := 0x48006007 (only parsing).
Abbreviation MATCH_VLSSEG3E64V := 0x48007007 (only parsing).
Abbreviation MATCH_VLSSEG3E8V := 0x48000007 (only parsing).
Abbreviation MATCH_VLSSEG4E16V := 0x68005007 (only parsing).
Abbreviation MATCH_VLSSEG4E32V := 0x68006007 (only parsing).
Abbreviation MATCH_VLSSEG4E64V := 0x68007007 (only parsing).
Abbreviation MATCH_VLSSEG4E8V := 0x68000007 (only parsing).
Abbreviation MATCH_VLSSEG5E16V := 0x88005007 (only parsing).
Abbreviation MATCH_VLSSEG5E32V := 0x88006007 (only parsing).
Abbreviation MATCH_VLSSEG5E64V := 0x88007007 (only parsing).
Abbreviation MATCH_VLSSEG5E8V := 0x88000007 (only parsing).
Abbreviation MATCH_VLSSEG6E16V := 0xa8005007 (only parsing).
Abbreviation MATCH_VLSSEG6E32V := 0xa8006007 (only parsing).
Abbreviation MATCH_VLSSEG6E64V := 0xa8007007 (only parsing).
Abbreviation MATCH_VLSSEG6E8V := 0xa8000007 (only parsing).
Abbreviation MATCH_VLSSEG7E16V := 0xc8005007 (only parsing).
Abbreviation MATCH_VLSSEG7E32V := 0xc8006007 (only parsing).
Abbreviation MATCH_VLSSEG7E64V := 0xc8007007 (only parsing).
Abbreviation MATCH_VLSSEG7E8V := 0xc8000007 (only parsing).
Abbreviation MATCH_VLSSEG8E16V := 0xe8005007 (only parsing).
Abbreviation MATCH_VLSSEG8E32V := 0xe8006007 (only parsing).
Abbreviation MATCH_VLSSEG8E64V := 0xe8007007 (only parsing).
Abbreviation MATCH_VLSSEG8E8V := 0xe8000007 (only parsing).
Abbreviation MATCH_VLUXEI16V := 0x04005007 (only parsing).
Abbreviation MATCH_VLUXEI32V := 0x04006007 (only parsing).
Abbreviation MATCH_VLUXEI64V := 0x04007007 (only parsing).
Abbreviation MATCH_VLUXEI8V := 0x04000007 (only parsing).
Abbreviation MATCH_VLUXSEG2EI16V := 0x24005007 (only parsing).
Abbreviation MATCH_VLUXSEG2EI32V := 0x24006007 (only parsing).
Abbreviation MATCH_VLUXSEG2EI64V := 0x24007007 (only parsing).
Abbreviation MATCH_VLUXSEG2EI8V := 0x24000007 (only parsing).
Abbreviation MATCH_VLUXSEG3EI16V := 0x44005007 (only parsing).
Abbreviation MATCH_VLUXSEG3EI32V := 0x44006007 (only parsing).
Abbreviation MATCH_VLUXSEG3EI64V := 0x44007007 (only parsing).
Abbreviation MATCH_VLUXSEG3EI8V := 0x44000007 (only parsing).
Abbreviation MATCH_VLUXSEG4EI16V := 0x64005007 (only parsing).
Abbreviation MATCH_VLUXSEG4EI32V := 0x64006007 (only parsing).
Abbreviation MATCH_VLUXSEG4EI64V := 0x64007007 (only parsing).
Abbreviation MATCH_VLUXSEG4EI8V := 0x64000007 (only parsing).
Abbreviation MATCH_VLUXSEG5EI16V := 0x84005007 (only parsing).
Abbreviation MATCH_VLUXSEG5EI32V := 0x84006007 (only parsing).
Abbreviation MATCH_VLUXSEG5EI64V := 0x84007007 (only parsing).
Abbreviation MATCH_VLUXSEG5EI8V := 0x84000007 (only parsing).
Abbreviation MATCH_VLUXSEG6EI16V := 0xa4005007 (only parsing).
Abbreviation MATCH_VLUXSEG6EI32V := 0xa4006007 (only parsing).
Abbreviation MATCH_VLUXSEG6EI64V := 0xa4007007 (only parsing).
Abbreviation MATCH_VLUXSEG6EI8V := 0xa4000007 (only parsing).
Abbreviation MATCH_VLUXSEG7EI16V := 0xc4005007 (only parsing).
Abbreviation MATCH_VLUXSEG7EI32V := 0xc4006007 (only parsing).
Abbreviation MATCH_VLUXSEG7EI64V := 0xc4007007 (only parsing).
Abbreviation MATCH_VLUXSEG7EI8V := 0xc4000007 (only parsing).
Abbreviation MATCH_VLUXSEG8EI16V := 0xe4005007 (only parsing).
Abbreviation MATCH_VLUXSEG8EI32V := 0xe4006007 (only parsing).
Abbreviation MATCH_VLUXSEG8EI64V := 0xe4007007 (only parsing).
Abbreviation MATCH_VLUXSEG8EI8V := 0xe4000007 (only parsing).
Abbreviation MATCH_VMACCVV := 0xb4002057 (only parsing).
Abbreviation MATCH_VMACCVX := 0xb4006057 (only parsing).
Abbreviation MATCH_VMAC_B := 0x0600205b (only parsing).
Abbreviation MATCH_VMAC_H := 0x2600205b (only parsing).
Abbreviation MATCH_VMAC_W := 0x4600205b (only parsing).
Abbreviation MATCH_VMADCVI := 0x46003057 (only parsing).
Abbreviation MATCH_VMADCVIM := 0x44003057 (only parsing).
Abbreviation MATCH_VMADCVV := 0x46000057 (only parsing).
Abbreviation MATCH_VMADCVVM := 0x44000057 (only parsing).
Abbreviation MATCH_VMADCVX := 0x46004057 (only parsing).
Abbreviation MATCH_VMADCVXM := 0x44004057 (only parsing).
Abbreviation MATCH_VMADDVV := 0xa4002057 (only parsing).
Abbreviation MATCH_VMADDVX := 0xa4006057 (only parsing).
Abbreviation MATCH_VMANDMM := 0x66002057 (only parsing).
Abbreviation MATCH_VMANDNMM := 0x62002057 (only parsing).
Abbreviation MATCH_VMAXUVV := 0x18000057 (only parsing).
Abbreviation MATCH_VMAXUVX := 0x18004057 (only parsing).
Abbreviation MATCH_VMAXVV := 0x1c000057 (only parsing).
Abbreviation MATCH_VMAXVX := 0x1c004057 (only parsing).
Abbreviation MATCH_VMERGEVIM := 0x5c003057 (only parsing).
Abbreviation MATCH_VMERGEVVM := 0x5c000057 (only parsing).
Abbreviation MATCH_VMERGEVXM := 0x5c004057 (only parsing).
Abbreviation MATCH_VMFEQVF := 0x60005057 (only parsing).
Abbreviation MATCH_VMFEQVV := 0x60001057 (only parsing).
Abbreviation MATCH_VMFGEVF := 0x7c005057 (only parsing).
Abbreviation MATCH_VMFGTVF := 0x74005057 (only parsing).
Abbreviation MATCH_VMFLEVF := 0x64005057 (only parsing).
Abbreviation MATCH_VMFLEVV := 0x64001057 (only parsing).
Abbreviation MATCH_VMFLTVF := 0x6c005057 (only parsing).
Abbreviation MATCH_VMFLTVV := 0x6c001057 (only parsing).
Abbreviation MATCH_VMFNEVF := 0x70005057 (only parsing).
Abbreviation MATCH_VMFNEVV := 0x70001057 (only parsing).
Abbreviation MATCH_VMINUVV := 0x10000057 (only parsing).
Abbreviation MATCH_VMINUVX := 0x10004057 (only parsing).
Abbreviation MATCH_VMINVV := 0x14000057 (only parsing).
Abbreviation MATCH_VMINVX := 0x14004057 (only parsing).
Abbreviation MATCH_VMNANDMM := 0x76002057 (only parsing).
Abbreviation MATCH_VMNORMM := 0x7a002057 (only parsing).
Abbreviation MATCH_VMORMM := 0x6a002057 (only parsing).
Abbreviation MATCH_VMORNMM := 0x72002057 (only parsing).
Abbreviation MATCH_VMSBCVV := 0x4e000057 (only parsing).
Abbreviation MATCH_VMSBCVVM := 0x4c000057 (only parsing).
Abbreviation MATCH_VMSBCVX := 0x4e004057 (only parsing).
Abbreviation MATCH_VMSBCVXM := 0x4c004057 (only parsing).
Abbreviation MATCH_VMSBFM := 0x5000a057 (only parsing).
Abbreviation MATCH_VMSEQVI := 0x60003057 (only parsing).
Abbreviation MATCH_VMSEQVV := 0x60000057 (only parsing).
Abbreviation MATCH_VMSEQVX := 0x60004057 (only parsing).
Abbreviation MATCH_VMSGTUVI := 0x78003057 (only parsing).
Abbreviation MATCH_VMSGTUVX := 0x78004057 (only parsing).
Abbreviation MATCH_VMSGTVI := 0x7c003057 (only parsing).
Abbreviation MATCH_VMSGTVX := 0x7c004057 (only parsing).
Abbreviation MATCH_VMSIFM := 0x5001a057 (only parsing).
Abbreviation MATCH_VMSLEUVI := 0x70003057 (only parsing).
Abbreviation MATCH_VMSLEUVV := 0x70000057 (only parsing).
Abbreviation MATCH_VMSLEUVX := 0x70004057 (only parsing).
Abbreviation MATCH_VMSLEVI := 0x74003057 (only parsing).
Abbreviation MATCH_VMSLEVV := 0x74000057 (only parsing).
Abbreviation MATCH_VMSLEVX := 0x74004057 (only parsing).
Abbreviation MATCH_VMSLTUVV := 0x68000057 (only parsing).
Abbreviation MATCH_VMSLTUVX := 0x68004057 (only parsing).
Abbreviation MATCH_VMSLTVV := 0x6c000057 (only parsing).
Abbreviation MATCH_VMSLTVX := 0x6c004057 (only parsing).
Abbreviation MATCH_VMSNEVI := 0x64003057 (only parsing).
Abbreviation MATCH_VMSNEVV := 0x64000057 (only parsing).
Abbreviation MATCH_VMSNEVX := 0x64004057 (only parsing).
Abbreviation MATCH_VMSOFM := 0x50012057 (only parsing).
Abbreviation MATCH_VMULHSUVV := 0x98002057 (only parsing).
Abbreviation MATCH_VMULHSUVX := 0x98006057 (only parsing).
Abbreviation MATCH_VMULHUVV := 0x90002057 (only parsing).
Abbreviation MATCH_VMULHUVX := 0x90006057 (only parsing).
Abbreviation MATCH_VMULHVV := 0x9c002057 (only parsing).
Abbreviation MATCH_VMULHVX := 0x9c006057 (only parsing).
Abbreviation MATCH_VMULVV := 0x94002057 (only parsing).
Abbreviation MATCH_VMULVX := 0x94006057 (only parsing).
Abbreviation MATCH_VMUL_B := 0x0400205b (only parsing).
Abbreviation MATCH_VMUL_H := 0x4400205b (only parsing).
Abbreviation MATCH_VMUL_W := 0x8400205b (only parsing).
Abbreviation MATCH_VMV1RV := 0x9e003057 (only parsing).
Abbreviation MATCH_VMV2RV := 0x9e00b057 (only parsing).
Abbreviation MATCH_VMV4RV := 0x9e01b057 (only parsing).
Abbreviation MATCH_VMV8RV := 0x9e03b057 (only parsing).
Abbreviation MATCH_VMVSX := 0x42006057 (only parsing).
Abbreviation MATCH_VMVVI := 0x5e003057 (only parsing).
Abbreviation MATCH_VMVVV := 0x5e000057 (only parsing).
Abbreviation MATCH_VMVVX := 0x5e004057 (only parsing).
Abbreviation MATCH_VMVXS := 0x42002057 (only parsing).
Abbreviation MATCH_VMXNORMM := 0x7e002057 (only parsing).
Abbreviation MATCH_VMXORMM := 0x6e002057 (only parsing).
Abbreviation MATCH_VNCLIPUWI := 0xb8003057 (only parsing).
Abbreviation MATCH_VNCLIPUWV := 0xb8000057 (only parsing).
Abbreviation MATCH_VNCLIPUWX := 0xb8004057 (only parsing).
Abbreviation MATCH_VNCLIPWI := 0xbc003057 (only parsing).
Abbreviation MATCH_VNCLIPWV := 0xbc000057 (only parsing).
Abbreviation MATCH_VNCLIPWX := 0xbc004057 (only parsing).
Abbreviation MATCH_VNCVTXXW := 0xb0004057 (only parsing).
Abbreviation MATCH_VNMSACVV := 0xbc002057 (only parsing).
Abbreviation MATCH_VNMSACVX := 0xbc006057 (only parsing).
Abbreviation MATCH_VNMSUBVV := 0xac002057 (only parsing).
Abbreviation MATCH_VNMSUBVX := 0xac006057 (only parsing).
Abbreviation MATCH_VNOTV := 0x2c0fb057 (only parsing).
Abbreviation MATCH_VNSRAWI := 0xb4003057 (only parsing).
Abbreviation MATCH_VNSRAWV := 0xb4000057 (only parsing).
Abbreviation MATCH_VNSRAWX := 0xb4004057 (only parsing).
Abbreviation MATCH_VNSRLWI := 0xb0003057 (only parsing).
Abbreviation MATCH_VNSRLWV := 0xb0000057 (only parsing).
Abbreviation MATCH_VNSRLWX := 0xb0004057 (only parsing).
Abbreviation MATCH_VORVI := 0x28003057 (only parsing).
Abbreviation MATCH_VORVV := 0x28000057 (only parsing).
Abbreviation MATCH_VORVX := 0x28004057 (only parsing).
Abbreviation MATCH_VREDANDVS := 0x04002057 (only parsing).
Abbreviation MATCH_VREDMAXUVS := 0x18002057 (only parsing).
Abbreviation MATCH_VREDMAXVS := 0x1c002057 (only parsing).
Abbreviation MATCH_VREDMINUVS := 0x10002057 (only parsing).
Abbreviation MATCH_VREDMINVS := 0x14002057 (only parsing).
Abbreviation MATCH_VREDORVS := 0x08002057 (only parsing).
Abbreviation MATCH_VREDSUMVS := 0x00002057 (only parsing).
Abbreviation MATCH_VREDXORVS := 0x0c002057 (only parsing).
Abbreviation MATCH_VREMUVV := 0x88002057 (only parsing).
Abbreviation MATCH_VREMUVX := 0x88006057 (only parsing).
Abbreviation MATCH_VREMVV := 0x8c002057 (only parsing).
Abbreviation MATCH_VREMVX := 0x8c006057 (only parsing).
Abbreviation MATCH_VREV8_V := 0x4804a057 (only parsing).
Abbreviation MATCH_VRGATHEREI16VV := 0x38000057 (only parsing).
Abbreviation MATCH_VRGATHERVI := 0x30003057 (only parsing).
Abbreviation MATCH_VRGATHERVV := 0x30000057 (only parsing).
Abbreviation MATCH_VRGATHERVX := 0x30004057 (only parsing).
Abbreviation MATCH_VROL_VV := 0x54000057 (only parsing).
Abbreviation MATCH_VROL_VX := 0x54004057 (only parsing).
Abbreviation MATCH_VROR_VI := 0x50003057 (only parsing).
Abbreviation MATCH_VROR_VV := 0x50000057 (only parsing).
Abbreviation MATCH_VROR_VX := 0x50004057 (only parsing).
Abbreviation MATCH_VRSUBVI := 0x0c003057 (only parsing).
Abbreviation MATCH_VRSUBVX := 0x0c004057 (only parsing).
Abbreviation MATCH_VS1RV := 0x02800027 (only parsing).
Abbreviation MATCH_VS2RV := 0x22800027 (only parsing).
Abbreviation MATCH_VS4RV := 0x62800027 (only parsing).
Abbreviation MATCH_VS8RV := 0xe2800027 (only parsing).
Abbreviation MATCH_VSADDUVI := 0x80003057 (only parsing).
Abbreviation MATCH_VSADDUVV := 0x80000057 (only parsing).
Abbreviation MATCH_VSADDUVX := 0x80004057 (only parsing).
Abbreviation MATCH_VSADDVI := 0x84003057 (only parsing).
Abbreviation MATCH_VSADDVV := 0x84000057 (only parsing).
Abbreviation MATCH_VSADDVX := 0x84004057 (only parsing).
Abbreviation MATCH_VSBCVVM := 0x48000057 (only parsing).
Abbreviation MATCH_VSBCVXM := 0x48004057 (only parsing).
Abbreviation MATCH_VSE16V := 0x00005027 (only parsing).
Abbreviation MATCH_VSE32V := 0x00006027 (only parsing).
Abbreviation MATCH_VSE64V := 0x00007027 (only parsing).
Abbreviation MATCH_VSE8V := 0x00000027 (only parsing).
Abbreviation MATCH_VSETIVLI := 0xc0007057 (only parsing).
Abbreviation MATCH_VSETVL := 0x80007057 (only parsing).
Abbreviation MATCH_VSETVLI := 0x00007057 (only parsing).
Abbreviation MATCH_VSEXT_VF2 := 0x4803a057 (only parsing).
Abbreviation MATCH_VSEXT_VF4 := 0x4802a057 (only parsing).
Abbreviation MATCH_VSEXT_VF8 := 0x4801a057 (only parsing).
Abbreviation MATCH_VSHA2CH_VV := 0xba002077 (only parsing).
Abbreviation MATCH_VSHA2CL_VV := 0xbe002077 (only parsing).
Abbreviation MATCH_VSHA2MS_VV := 0xb6002077 (only parsing).
Abbreviation MATCH_VSLIDE1DOWNVX := 0x3c006057 (only parsing).
Abbreviation MATCH_VSLIDE1UPVX := 0x38006057 (only parsing).
Abbreviation MATCH_VSLIDEDOWNVI := 0x3c003057 (only parsing).
Abbreviation MATCH_VSLIDEDOWNVX := 0x3c004057 (only parsing).
Abbreviation MATCH_VSLIDEUPVI := 0x38003057 (only parsing).
Abbreviation MATCH_VSLIDEUPVX := 0x38004057 (only parsing).
Abbreviation MATCH_VSLLVI := 0x94003057 (only parsing).
Abbreviation MATCH_VSLLVV := 0x94000057 (only parsing).
Abbreviation MATCH_VSLLVX := 0x94004057 (only parsing).
Abbreviation MATCH_VSM3C_VI := 0xae002077 (only parsing).
Abbreviation MATCH_VSM3ME_VV := 0x82002077 (only parsing).
Abbreviation MATCH_VSM4K_VI := 0x86002077 (only parsing).
Abbreviation MATCH_VSM4R_VS := 0xa6082077 (only parsing).
Abbreviation MATCH_VSM4R_VV := 0xa2082077 (only parsing).
Abbreviation MATCH_VSMULVV := 0x9c000057 (only parsing).
Abbreviation MATCH_VSMULVX := 0x9c004057 (only parsing).
Abbreviation MATCH_VSMV := 0x02b00027 (only parsing).
Abbreviation MATCH_VSOXEI16V := 0x0c005027 (only parsing).
Abbreviation MATCH_VSOXEI32V := 0x0c006027 (only parsing).
Abbreviation MATCH_VSOXEI64V := 0x0c007027 (only parsing).
Abbreviation MATCH_VSOXEI8V := 0x0c000027 (only parsing).
Abbreviation MATCH_VSOXSEG2EI16V := 0x2c005027 (only parsing).
Abbreviation MATCH_VSOXSEG2EI32V := 0x2c006027 (only parsing).
Abbreviation MATCH_VSOXSEG2EI64V := 0x2c007027 (only parsing).
Abbreviation MATCH_VSOXSEG2EI8V := 0x2c000027 (only parsing).
Abbreviation MATCH_VSOXSEG3EI16V := 0x4c005027 (only parsing).
Abbreviation MATCH_VSOXSEG3EI32V := 0x4c006027 (only parsing).
Abbreviation MATCH_VSOXSEG3EI64V := 0x4c007027 (only parsing).
Abbreviation MATCH_VSOXSEG3EI8V := 0x4c000027 (only parsing).
Abbreviation MATCH_VSOXSEG4EI16V := 0x6c005027 (only parsing).
Abbreviation MATCH_VSOXSEG4EI32V := 0x6c006027 (only parsing).
Abbreviation MATCH_VSOXSEG4EI64V := 0x6c007027 (only parsing).
Abbreviation MATCH_VSOXSEG4EI8V := 0x6c000027 (only parsing).
Abbreviation MATCH_VSOXSEG5EI16V := 0x8c005027 (only parsing).
Abbreviation MATCH_VSOXSEG5EI32V := 0x8c006027 (only parsing).
Abbreviation MATCH_VSOXSEG5EI64V := 0x8c007027 (only parsing).
Abbreviation MATCH_VSOXSEG5EI8V := 0x8c000027 (only parsing).
Abbreviation MATCH_VSOXSEG6EI16V := 0xac005027 (only parsing).
Abbreviation MATCH_VSOXSEG6EI32V := 0xac006027 (only parsing).
Abbreviation MATCH_VSOXSEG6EI64V := 0xac007027 (only parsing).
Abbreviation MATCH_VSOXSEG6EI8V := 0xac000027 (only parsing).
Abbreviation MATCH_VSOXSEG7EI16V := 0xcc005027 (only parsing).
Abbreviation MATCH_VSOXSEG7EI32V := 0xcc006027 (only parsing).
Abbreviation MATCH_VSOXSEG7EI64V := 0xcc007027 (only parsing).
Abbreviation MATCH_VSOXSEG7EI8V := 0xcc000027 (only parsing).
Abbreviation MATCH_VSOXSEG8EI16V := 0xec005027 (only parsing).
Abbreviation MATCH_VSOXSEG8EI32V := 0xec006027 (only parsing).
Abbreviation MATCH_VSOXSEG8EI64V := 0xec007027 (only parsing).
Abbreviation MATCH_VSOXSEG8EI8V := 0xec000027 (only parsing).
Abbreviation MATCH_VSRAVI := 0xa4003057 (only parsing).
Abbreviation MATCH_VSRAVV := 0xa4000057 (only parsing).
Abbreviation MATCH_VSRAVX := 0xa4004057 (only parsing).
Abbreviation MATCH_VSRLVI := 0xa0003057 (only parsing).
Abbreviation MATCH_VSRLVV := 0xa0000057 (only parsing).
Abbreviation MATCH_VSRLVX := 0xa0004057 (only parsing).
Abbreviation MATCH_VSSE16V := 0x08005027 (only parsing).
Abbreviation MATCH_VSSE32V := 0x08006027 (only parsing).
Abbreviation MATCH_VSSE64V := 0x08007027 (only parsing).
Abbreviation MATCH_VSSE8V := 0x08000027 (only parsing).
Abbreviation MATCH_VSSEG2E16V := 0x20005027 (only parsing).
Abbreviation MATCH_VSSEG2E32V := 0x20006027 (only parsing).
Abbreviation MATCH_VSSEG2E64V := 0x20007027 (only parsing).
Abbreviation MATCH_VSSEG2E8V := 0x20000027 (only parsing).
Abbreviation MATCH_VSSEG3E16V := 0x40005027 (only parsing).
Abbreviation MATCH_VSSEG3E32V := 0x40006027 (only parsing).
Abbreviation MATCH_VSSEG3E64V := 0x40007027 (only parsing).
Abbreviation MATCH_VSSEG3E8V := 0x40000027 (only parsing).
Abbreviation MATCH_VSSEG4E16V := 0x60005027 (only parsing).
Abbreviation MATCH_VSSEG4E32V := 0x60006027 (only parsing).
Abbreviation MATCH_VSSEG4E64V := 0x60007027 (only parsing).
Abbreviation MATCH_VSSEG4E8V := 0x60000027 (only parsing).
Abbreviation MATCH_VSSEG5E16V := 0x80005027 (only parsing).
Abbreviation MATCH_VSSEG5E32V := 0x80006027 (only parsing).
Abbreviation MATCH_VSSEG5E64V := 0x80007027 (only parsing).
Abbreviation MATCH_VSSEG5E8V := 0x80000027 (only parsing).
Abbreviation MATCH_VSSEG6E16V := 0xa0005027 (only parsing).
Abbreviation MATCH_VSSEG6E32V := 0xa0006027 (only parsing).
Abbreviation MATCH_VSSEG6E64V := 0xa0007027 (only parsing).
Abbreviation MATCH_VSSEG6E8V := 0xa0000027 (only parsing).
Abbreviation MATCH_VSSEG7E16V := 0xc0005027 (only parsing).
Abbreviation MATCH_VSSEG7E32V := 0xc0006027 (only parsing).
Abbreviation MATCH_VSSEG7E64V := 0xc0007027 (only parsing).
Abbreviation MATCH_VSSEG7E8V := 0xc0000027 (only parsing).
Abbreviation MATCH_VSSEG8E16V := 0xe0005027 (only parsing).
Abbreviation MATCH_VSSEG8E32V := 0xe0006027 (only parsing).
Abbreviation MATCH_VSSEG8E64V := 0xe0007027 (only parsing).
Abbreviation MATCH_VSSEG8E8V := 0xe0000027 (only parsing).
Abbreviation MATCH_VSSRAVI := 0xac003057 (only parsing).
Abbreviation MATCH_VSSRAVV := 0xac000057 (only parsing).
Abbreviation MATCH_VSSRAVX := 0xac004057 (only parsing).
Abbreviation MATCH_VSSRLVI := 0xa8003057 (only parsing).
Abbreviation MATCH_VSSRLVV := 0xa8000057 (only parsing).
Abbreviation MATCH_VSSRLVX := 0xa8004057 (only parsing).
Abbreviation MATCH_VSSSEG2E16V := 0x28005027 (only parsing).
Abbreviation MATCH_VSSSEG2E32V := 0x28006027 (only parsing).
Abbreviation MATCH_VSSSEG2E64V := 0x28007027 (only parsing).
Abbreviation MATCH_VSSSEG2E8V := 0x28000027 (only parsing).
Abbreviation MATCH_VSSSEG3E16V := 0x48005027 (only parsing).
Abbreviation MATCH_VSSSEG3E32V := 0x48006027 (only parsing).
Abbreviation MATCH_VSSSEG3E64V := 0x48007027 (only parsing).
Abbreviation MATCH_VSSSEG3E8V := 0x48000027 (only parsing).
Abbreviation MATCH_VSSSEG4E16V := 0x68005027 (only parsing).
Abbreviation MATCH_VSSSEG4E32V := 0x68006027 (only parsing).
Abbreviation MATCH_VSSSEG4E64V := 0x68007027 (only parsing).
Abbreviation MATCH_VSSSEG4E8V := 0x68000027 (only parsing).
Abbreviation MATCH_VSSSEG5E16V := 0x88005027 (only parsing).
Abbreviation MATCH_VSSSEG5E32V := 0x88006027 (only parsing).
Abbreviation MATCH_VSSSEG5E64V := 0x88007027 (only parsing).
Abbreviation MATCH_VSSSEG5E8V := 0x88000027 (only parsing).
Abbreviation MATCH_VSSSEG6E16V := 0xa8005027 (only parsing).
Abbreviation MATCH_VSSSEG6E32V := 0xa8006027 (only parsing).
Abbreviation MATCH_VSSSEG6E64V := 0xa8007027 (only parsing).
Abbreviation MATCH_VSSSEG6E8V := 0xa8000027 (only parsing).
Abbreviation MATCH_VSSSEG7E16V := 0xc8005027 (only parsing).
Abbreviation MATCH_VSSSEG7E32V := 0xc8006027 (only parsing).
Abbreviation MATCH_VSSSEG7E64V := 0xc8007027 (only parsing).
Abbreviation MATCH_VSSSEG7E8V := 0xc8000027 (only parsing).
Abbreviation MATCH_VSSSEG8E16V := 0xe8005027 (only parsing).
Abbreviation MATCH_VSSSEG8E32V := 0xe8006027 (only parsing).
Abbreviation MATCH_VSSSEG8E64V := 0xe8007027 (only parsing).
Abbreviation MATCH_VSSSEG8E8V := 0xe8000027 (only parsing).
Abbreviation MATCH_VSSUBUVV := 0x88000057 (only parsing).
Abbreviation MATCH_VSSUBUVX := 0x88004057 (only parsing).
Abbreviation MATCH_VSSUBVV := 0x8c000057 (only parsing).
Abbreviation MATCH_VSSUBVX := 0x8c004057 (only parsing).
Abbreviation MATCH_VST := 0x0a00205b (only parsing).
Abbreviation MATCH_VSUBVV := 0x08000057 (only parsing).
Abbreviation MATCH_VSUBVX := 0x08004057 (only parsing).
Abbreviation MATCH_VSUB_B := 0x0200205b (only parsing).
Abbreviation MATCH_VSUB_H := 0x4200205b (only parsing).
Abbreviation MATCH_VSUB_W := 0x8200205b (only parsing).
Abbreviation MATCH_VSUXEI16V := 0x04005027 (only parsing).
Abbreviation MATCH_VSUXEI32V := 0x04006027 (only parsing).
Abbreviation MATCH_VSUXEI64V := 0x04007027 (only parsing).
Abbreviation MATCH_VSUXEI8V := 0x04000027 (only parsing).
Abbreviation MATCH_VSUXSEG2EI16V := 0x24005027 (only parsing).
Abbreviation MATCH_VSUXSEG2EI32V := 0x24006027 (only parsing).
Abbreviation MATCH_VSUXSEG2EI64V := 0x24007027 (only parsing).
Abbreviation MATCH_VSUXSEG2EI8V := 0x24000027 (only parsing).
Abbreviation MATCH_VSUXSEG3EI16V := 0x44005027 (only parsing).
Abbreviation MATCH_VSUXSEG3EI32V := 0x44006027 (only parsing).
Abbreviation MATCH_VSUXSEG3EI64V := 0x44007027 (only parsing).
Abbreviation MATCH_VSUXSEG3EI8V := 0x44000027 (only parsing).
Abbreviation MATCH_VSUXSEG4EI16V := 0x64005027 (only parsing).
Abbreviation MATCH_VSUXSEG4EI32V := 0x64006027 (only parsing).
Abbreviation MATCH_VSUXSEG4EI64V := 0x64007027 (only parsing).
Abbreviation MATCH_VSUXSEG4EI8V := 0x64000027 (only parsing).
Abbreviation MATCH_VSUXSEG5EI16V := 0x84005027 (only parsing).
Abbreviation MATCH_VSUXSEG5EI32V := 0x84006027 (only parsing).
Abbreviation MATCH_VSUXSEG5EI64V := 0x84007027 (only parsing).
Abbreviation MATCH_VSUXSEG5EI8V := 0x84000027 (only parsing).
Abbreviation MATCH_VSUXSEG6EI16V := 0xa4005027 (only parsing).
Abbreviation MATCH_VSUXSEG6EI32V := 0xa4006027 (only parsing).
Abbreviation MATCH_VSUXSEG6EI64V := 0xa4007027 (only parsing).
Abbreviation MATCH_VSUXSEG6EI8V := 0xa4000027 (only parsing).
Abbreviation MATCH_VSUXSEG7EI16V := 0xc4005027 (only parsing).
Abbreviation MATCH_VSUXSEG7EI32V := 0xc4006027 (only parsing).
Abbreviation MATCH_VSUXSEG7EI64V := 0xc4007027 (only parsing).
Abbreviation MATCH_VSUXSEG7EI8V := 0xc4000027 (only parsing).
Abbreviation MATCH_VSUXSEG8EI16V := 0xe4005027 (only parsing).
Abbreviation MATCH_VSUXSEG8EI32V := 0xe4006027 (only parsing).
Abbreviation MATCH_VSUXSEG8EI64V := 0xe4007027 (only parsing).
Abbreviation MATCH_VSUXSEG8EI8V := 0xe4000027 (only parsing).
Abbreviation MATCH_VT_MASKC := 0x607b (only parsing).
Abbreviation MATCH_VT_MASKCN := 0x707b (only parsing).
Abbreviation MATCH_VWADDUVV := 0xc0002057 (only parsing).
Abbreviation MATCH_VWADDUVX := 0xc0006057 (only parsing).
Abbreviation MATCH_VWADDUWV := 0xd0002057 (only parsing).
Abbreviation MATCH_VWADDUWX := 0xd0006057 (only parsing).
Abbreviation MATCH_VWADDVV := 0xc4002057 (only parsing).
Abbreviation MATCH_VWADDVX := 0xc4006057 (only parsing).
Abbreviation MATCH_VWADDWV := 0xd4002057 (only parsing).
Abbreviation MATCH_VWADDWX := 0xd4006057 (only parsing).
Abbreviation MATCH_VWCVTUXXV := 0xc0006057 (only parsing).
Abbreviation MATCH_VWCVTXXV := 0xc4006057 (only parsing).
Abbreviation MATCH_VWMACCSUVV := 0xfc002057 (only parsing).
Abbreviation MATCH_VWMACCSUVX := 0xfc006057 (only parsing).
Abbreviation MATCH_VWMACCUSVX := 0xf8006057 (only parsing).
Abbreviation MATCH_VWMACCUVV := 0xf0002057 (only parsing).
Abbreviation MATCH_VWMACCUVX := 0xf0006057 (only parsing).
Abbreviation MATCH_VWMACCVV := 0xf4002057 (only parsing).
Abbreviation MATCH_VWMACCVX := 0xf4006057 (only parsing).
Abbreviation MATCH_VWMULSUVV := 0xe8002057 (only parsing).
Abbreviation MATCH_VWMULSUVX := 0xe8006057 (only parsing).
Abbreviation MATCH_VWMULUVV := 0xe0002057 (only parsing).
Abbreviation MATCH_VWMULUVX := 0xe0006057 (only parsing).
Abbreviation MATCH_VWMULVV := 0xec002057 (only parsing).
Abbreviation MATCH_VWMULVX := 0xec006057 (only parsing).
Abbreviation MATCH_VWREDSUMUVS := 0xc0000057 (only parsing).
Abbreviation MATCH_VWREDSUMVS := 0xc4000057 (only parsing).
Abbreviation MATCH_VWSLL_VI := 0xd4003057 (only parsing).
Abbreviation MATCH_VWSLL_VV := 0xd4000057 (only parsing).
Abbreviation MATCH_VWSLL_VX := 0xd4004057 (only parsing).
Abbreviation MATCH_VWSUBUVV := 0xc8002057 (only parsing).
Abbreviation MATCH_VWSUBUVX := 0xc8006057 (only parsing).
Abbreviation MATCH_VWSUBUWV := 0xd8002057 (only parsing).
Abbreviation MATCH_VWSUBUWX := 0xd8006057 (only parsing).
Abbreviation MATCH_VWSUBVV := 0xcc002057 (only parsing).
Abbreviation MATCH_VWSUBVX := 0xcc006057 (only parsing).
Abbreviation MATCH_VWSUBWV := 0xdc002057 (only parsing).
Abbreviation MATCH_VWSUBWX := 0xdc006057 (only parsing).
Abbreviation MATCH_VXORVI := 0x2c003057 (only parsing).
Abbreviation MATCH_VXORVV := 0x2c000057 (only parsing).
Abbreviation MATCH_VXORVX := 0x2c004057 (only parsing).
Abbreviation MATCH_VZEXT_VF2 := 0x48032057 (only parsing).
Abbreviation MATCH_VZEXT_VF4 := 0x48022057 (only parsing).
Abbreviation MATCH_VZEXT_VF8 := 0x48012057 (only parsing).
Abbreviation MATCH_WFI := 0x10500073 (only parsing).
Abbreviation MATCH_WRS_NTO := 0x00d00073 (only parsing).
Abbreviation MATCH_WRS_STO := 0x01d00073 (only parsing).
Abbreviation MATCH_XNOR := 0x40004033 (only parsing).
Abbreviation MATCH_XOR := 0x4033 (only parsing).
Abbreviation MATCH_XORI := 0x4013 (only parsing).
Abbreviation MATCH_XPERM4 := 0x28002033 (only parsing).
Abbreviation MATCH_XPERM8 := 0x28004033 (only parsing).
