(* ===== verification/Opcodes.v ===== *)
(** The opcode table of the customised binutils ([opcodes/riscv-opc.c] with the types and
    field macros of [include/opcode/riscv.h]): instruction classes, the [riscv_opcode]
    record, the match functions, and the rows of [riscv_opcodes] and
    [riscv_insn_types] in the source's order, the custom instructions of this repository
    among them. *)

From S2P Require Export Prelude OpcodeDefs.

#[global] Open Scope Z_scope.

Declare Scope c_scope.
Delimit Scope c_scope with c.

(** C operators on [int] and [unsigned int] operands; a left shift of an [int]
    wraps to 32 bits. *)
Definition shl_int (a n : Z) : Z := sgn 32 (Z.shiftl a n).
Infix ".<<" := shl_int (at level 35, no associativity) : Z_scope.
Infix ".&" := Z.land (at level 45, left associativity) : Z_scope.
Infix ".|" := Z.lor (at level 50, left associativity) : Z_scope.
Notation ".~ a" := (Z.lnot a) (at level 35) : Z_scope.

(** * Field macros *)

Abbreviation OP_MASK_OP := 0x7f (only parsing).
Abbreviation OP_MASK_RS1 := 0x1f (only parsing).
Abbreviation OP_SH_RS1 := 15 (only parsing).
Abbreviation OP_MASK_RS2 := 0x1f (only parsing).
Abbreviation OP_SH_RS2 := 20 (only parsing).
Abbreviation OP_MASK_RD := 0x1f (only parsing).
Abbreviation OP_SH_RD := 7 (only parsing).
Abbreviation OP_MASK_SHAMT := 0x3f (only parsing).
Abbreviation OP_SH_SHAMT := 20 (only parsing).
Abbreviation OP_MASK_RM := 0x7 (only parsing).
Abbreviation OP_SH_RM := 12 (only parsing).
Abbreviation OP_MASK_PRED := 0xf (only parsing).
Abbreviation OP_SH_PRED := 24 (only parsing).
Abbreviation OP_MASK_SUCC := 0xf (only parsing).
Abbreviation OP_SH_SUCC := 20 (only parsing).
Abbreviation OP_MASK_AQ := 0x1 (only parsing).
Abbreviation OP_SH_AQ := 26 (only parsing).
Abbreviation OP_MASK_RL := 0x1 (only parsing).
Abbreviation OP_SH_RL := 25 (only parsing).
Abbreviation OP_SH_CSR := 20 (only parsing).
Abbreviation OP_MASK_CRS2 := 0x1f (only parsing).
Abbreviation OP_SH_CRS2 := 2 (only parsing).
Abbreviation OP_MASK_VD := 0x1f (only parsing).
Abbreviation OP_SH_VD := 7 (only parsing).
Abbreviation OP_MASK_VS1 := 0x1f (only parsing).
Abbreviation OP_SH_VS1 := 15 (only parsing).
Abbreviation OP_MASK_VS2 := 0x1f (only parsing).
Abbreviation OP_SH_VS2 := 20 (only parsing).
Abbreviation X_RA := 1 (only parsing).
Abbreviation X_T1 := 6 (only parsing).
Abbreviation CSR_CYCLE := 0xc00 (only parsing).
Abbreviation RISCV_IMM_BITS := 12 (only parsing).

(** [RV_X(x, s, n)]: [n] bits of [x] from position [s]; the immediates that the
    table and the match functions use. *)
Definition RV_X (x s n : Z) : Z := Z.land (Z.shiftr x s) (Z.shiftl 1 n - 1).
Definition ENCODE_ITYPE_IMM (x : Z) : Z := Z.shiftl (RV_X x 0 12) 20.
Definition ENCODE_CITYPE_IMM (x : Z) : Z := Z.lor (Z.shiftl (RV_X x 0 5) 2) (Z.shiftl (RV_X x 5 1) 12).
Definition EXTRACT_CITYPE_IMM (x : Z) : Z := Z.lor (RV_X x 2 5) (Z.shiftl (- RV_X x 12 1) 5).
Definition EXTRACT_CITYPE_LUI_IMM (x : Z) : Z := Z.shiftl (EXTRACT_CITYPE_IMM x) RISCV_IMM_BITS.
Definition EXTRACT_CIWTYPE_ADDI4SPN_IMM (x : Z) : Z :=
  Z.lor (Z.lor (Z.lor (Z.shiftl (RV_X x 6 1) 2) (Z.shiftl (RV_X x 5 1) 3))
    (Z.shiftl (RV_X x 11 2) 4)) (Z.shiftl (RV_X x 7 4) 6).

Abbreviation MASK_RS1 := (OP_MASK_RS1 .<< OP_SH_RS1) (only parsing).
Abbreviation MASK_RS2 := (OP_MASK_RS2 .<< OP_SH_RS2) (only parsing).
Abbreviation MASK_RD := (OP_MASK_RD .<< OP_SH_RD) (only parsing).
Abbreviation MASK_CRS2 := (OP_MASK_CRS2 .<< OP_SH_CRS2) (only parsing).
Abbreviation MASK_IMM := (wrap 32 (ENCODE_ITYPE_IMM (wrap 32 (-1)))) (only parsing).
Abbreviation MASK_RVC_IMM := (wrap 32 (ENCODE_CITYPE_IMM (wrap 32 (-1)))) (only parsing).
Abbreviation MASK_RM := (OP_MASK_RM .<< OP_SH_RM) (only parsing).
Abbreviation MASK_PRED := (OP_MASK_PRED .<< OP_SH_PRED) (only parsing).
Abbreviation MASK_SUCC := (OP_MASK_SUCC .<< OP_SH_SUCC) (only parsing).
Abbreviation MASK_AQ := (OP_MASK_AQ .<< OP_SH_AQ) (only parsing).
Abbreviation MASK_RL := (OP_MASK_RL .<< OP_SH_RL) (only parsing).
Abbreviation MASK_AQRL := (MASK_AQ .| MASK_RL) (only parsing).
Abbreviation MASK_SHAMT := (OP_MASK_SHAMT .<< OP_SH_SHAMT) (only parsing).
Abbreviation MATCH_SHAMT_REV8_32 := (0x18 .<< OP_SH_SHAMT) (only parsing).
Abbreviation MATCH_SHAMT_REV8_64 := (0x38 .<< OP_SH_SHAMT) (only parsing).
Abbreviation MATCH_SHAMT_BREV8 := (0x7 .<< OP_SH_SHAMT) (only parsing).
Abbreviation MATCH_SHAMT_ZIP_32 := (0xf .<< OP_SH_SHAMT) (only parsing).
Abbreviation MATCH_SHAMT_ORC_B := (0x7 .<< OP_SH_SHAMT) (only parsing).
Abbreviation MASK_VD := (OP_MASK_VD .<< OP_SH_VD) (only parsing).
Abbreviation MASK_VS1 := (OP_MASK_VS1 .<< OP_SH_VS1) (only parsing).
Abbreviation MASK_VS2 := (OP_MASK_VS2 .<< OP_SH_VS2) (only parsing).

(** * Types *)

Inductive riscv_insn_class :=
  | INSN_CLASS_NONE | INSN_CLASS_I | INSN_CLASS_C | INSN_CLASS_A | INSN_CLASS_M
  | INSN_CLASS_F | INSN_CLASS_D | INSN_CLASS_Q | INSN_CLASS_F_AND_C | INSN_CLASS_D_AND_C
  | INSN_CLASS_ZICOND | INSN_CLASS_ZICSR | INSN_CLASS_ZIFENCEI | INSN_CLASS_ZIHINTPAUSE
  | INSN_CLASS_ZMMUL | INSN_CLASS_ZAWRS | INSN_CLASS_F_INX | INSN_CLASS_D_INX
  | INSN_CLASS_Q_INX | INSN_CLASS_ZFH_INX | INSN_CLASS_ZFHMIN | INSN_CLASS_ZFHMIN_INX
  | INSN_CLASS_ZFHMIN_AND_D_INX | INSN_CLASS_ZFHMIN_AND_Q_INX | INSN_CLASS_ZFA
  | INSN_CLASS_D_AND_ZFA | INSN_CLASS_Q_AND_ZFA | INSN_CLASS_ZFH_AND_ZFA | INSN_CLASS_ZBA
  | INSN_CLASS_ZBB | INSN_CLASS_ZBC | INSN_CLASS_ZBS | INSN_CLASS_ZBKB | INSN_CLASS_ZBKC
  | INSN_CLASS_ZBKX | INSN_CLASS_ZKND | INSN_CLASS_ZKNE | INSN_CLASS_ZKNH
  | INSN_CLASS_ZKSED | INSN_CLASS_ZKSH | INSN_CLASS_ZBB_OR_ZBKB | INSN_CLASS_ZBC_OR_ZBKC
  | INSN_CLASS_ZKND_OR_ZKNE | INSN_CLASS_V | INSN_CLASS_ZVEF | INSN_CLASS_ZVBB
  | INSN_CLASS_ZVBC | INSN_CLASS_ZVKG | INSN_CLASS_ZVKNED | INSN_CLASS_ZVKNHA
  | INSN_CLASS_ZVKNHB | INSN_CLASS_ZVKNHA_OR_ZVKNHB | INSN_CLASS_ZVKSED | INSN_CLASS_ZVKSH
  | INSN_CLASS_SVINVAL | INSN_CLASS_ZICBOM | INSN_CLASS_ZICBOP | INSN_CLASS_ZICBOZ
  | INSN_CLASS_H | INSN_CLASS_XTHEADBA | INSN_CLASS_XTHEADBB | INSN_CLASS_XTHEADBS
  | INSN_CLASS_XTHEADCMO | INSN_CLASS_XTHEADCONDMOV | INSN_CLASS_XTHEADFMEMIDX
  | INSN_CLASS_XTHEADFMV | INSN_CLASS_XTHEADINT | INSN_CLASS_XTHEADMAC
  | INSN_CLASS_XTHEADMEMIDX | INSN_CLASS_XTHEADMEMPAIR | INSN_CLASS_XTHEADSYNC
  | INSN_CLASS_XVENTANACONDOPS.

(** The static match functions, by name. *)
Inductive match_fn :=
  | match_opcode | match_never | match_rs1_eq_rs2 | match_rd_nonzero | match_c_add
  | match_c_add_with_hint | match_c_nop | match_c_addi16sp | match_c_lui | match_c_lui_with_hint
  | match_c_addi4spn | match_c_slli | match_slli_as_c_slli | match_c_slli64
  | match_srxi_as_c_srxi | match_vs1_eq_vs2 | match_vd_eq_vs1_eq_vs2
  | match_th_load_inc | match_th_load_pair.

#[global] Instance riscv_insn_class_eq_dec : EqDecision riscv_insn_class.
Proof. solve_decision. Defined.
#[global] Instance match_fn_eq_dec : EqDecision match_fn.
Proof. solve_decision. Defined.

Record riscv_opcode := RiscvOpcode
  { name : string; xlen_requirement : Z; insn_class : riscv_insn_class; args : string;
    match_bits : Z; mask : Z; match_func : match_fn; pinfo : Z }.

(** An initializer of the table: [match] and [mask] are converted to the 64-bit
    [insn_t], [pinfo] to an [unsigned long]. *)
Definition row (n : string) (x : Z) (c : riscv_insn_class) (a : string) (m k : Z)
    (f : match_fn) (p : Z) : riscv_opcode :=
  {| name := n; xlen_requirement := x; insn_class := c; args := a;
     match_bits := wrap 64 m; mask := wrap 64 k; match_func := f; pinfo := wrap 64 p |}.
Arguments row (n x)%_string c a%_string (m k)%_Z f p%_Z.

(** * Match functions *)

Module Match.

Definition opcode (op : riscv_opcode) (insn : Z) : bool :=
  Z.land (Z.lxor insn (match_bits op)) (mask op) =? 0.

Definition field (insn m sh : Z) : Z := Z.shiftr (Z.land insn m) sh.
Definition rd (insn : Z) : Z := field insn MASK_RD OP_SH_RD.
Definition rs1 (insn : Z) : Z := field insn MASK_RS1 OP_SH_RS1.
Definition rs2 (insn : Z) : Z := field insn MASK_RS2 OP_SH_RS2.
Definition rd_nonzero (op : riscv_opcode) (insn : Z) : bool :=
  opcode op insn && negb (Z.land insn MASK_RD =? 0).

(** [op->match_func (op, insn)]. *)
Definition call (op : riscv_opcode) (insn : Z) : bool :=
  match match_func op with
  | match_opcode => opcode op insn
  | match_never => false
  | match_rs1_eq_rs2 => opcode op insn && (rs1 insn =? rs2 insn)
  | match_rd_nonzero => rd_nonzero op insn
  | match_c_add => rd_nonzero op insn && negb (Z.land insn MASK_CRS2 =? 0)
  | match_c_add_with_hint => opcode op insn && negb (Z.land insn MASK_CRS2 =? 0)
  | match_c_nop => opcode op insn && (rd insn =? 0)
  | match_c_addi16sp => opcode op insn && (rd insn =? 2)
  | match_c_lui => rd_nonzero op insn && negb (rd insn =? 2)
                   && negb (wrap 64 (EXTRACT_CITYPE_LUI_IMM insn) =? 0)
  | match_c_lui_with_hint => opcode op insn && negb (rd insn =? 2)
                   && negb (wrap 64 (EXTRACT_CITYPE_LUI_IMM insn) =? 0)
  | match_c_addi4spn => opcode op insn && negb (EXTRACT_CIWTYPE_ADDI4SPN_IMM insn =? 0)
  | match_c_slli => opcode op insn && negb (wrap 64 (EXTRACT_CITYPE_IMM insn) =? 0)
  | match_slli_as_c_slli => rd_nonzero op insn && negb (wrap 64 (EXTRACT_CITYPE_IMM insn) =? 0)
  | match_c_slli64 => opcode op insn && (wrap 64 (EXTRACT_CITYPE_IMM insn) =? 0)
  | match_srxi_as_c_srxi => opcode op insn && negb (wrap 64 (EXTRACT_CITYPE_IMM insn) =? 0)
  | match_vs1_eq_vs2 =>
      opcode op insn && (field insn MASK_VS1 OP_SH_VS1 =? field insn MASK_VS2 OP_SH_VS2)
  | match_vd_eq_vs1_eq_vs2 =>
      opcode op insn && (field insn MASK_VD OP_SH_VD =? field insn MASK_VS1 OP_SH_VS1)
      && (field insn MASK_VS1 OP_SH_VS1 =? field insn MASK_VS2 OP_SH_VS2)
  | match_th_load_inc => negb (rd insn =? rs1 insn) && opcode op insn
  | match_th_load_pair =>
      negb (rd insn =? rs2 insn) && negb (rd insn =? rs1 insn) && negb (rs2 insn =? rs1 insn)
      && opcode op insn
  end.
End Match.

(** * Table constants *)

Abbreviation INSN_ALIAS := 0x00000001 (only parsing).
Abbreviation INSN_TYPE := 0x0000000e (only parsing).
Abbreviation INSN_BRANCH := 0x00000002 (only parsing).
Abbreviation INSN_CONDBRANCH := 0x00000004 (only parsing).
Abbreviation INSN_JSR := 0x00000006 (only parsing).
Abbreviation INSN_DREF := 0x00000008 (only parsing).
Abbreviation INSN_V_EEW64 := 0x10000000 (only parsing).
Abbreviation INSN_DATA_SIZE := 0x00000070 (only parsing).
Abbreviation INSN_DATA_SIZE_SHIFT := 4 (only parsing).
Abbreviation INSN_1_BYTE := 0x00000010 (only parsing).
Abbreviation INSN_2_BYTE := 0x00000020 (only parsing).
Abbreviation INSN_4_BYTE := 0x00000030 (only parsing).
Abbreviation INSN_8_BYTE := 0x00000040 (only parsing).
Abbreviation INSN_16_BYTE := 0x00000050 (only parsing).
Abbreviation INSN_MACRO := 0xffffffff (only parsing).
Abbreviation M_LA := 0 (only parsing).
Abbreviation M_LLA := 1 (only parsing).
Abbreviation M_LGA := 2 (only parsing).
Abbreviation M_LA_TLS_GD := 3 (only parsing).
Abbreviation M_LA_TLS_IE := 4 (only parsing).
Abbreviation M_LB := 5 (only parsing).
Abbreviation M_LBU := 6 (only parsing).
Abbreviation M_LH := 7 (only parsing).
Abbreviation M_LHU := 8 (only parsing).
Abbreviation M_LW := 9 (only parsing).
Abbreviation M_LWU := 10 (only parsing).
Abbreviation M_LD := 11 (only parsing).
Abbreviation M_SB := 12 (only parsing).
Abbreviation M_SH := 13 (only parsing).
Abbreviation M_SW := 14 (only parsing).
Abbreviation M_SD := 15 (only parsing).
Abbreviation M_FLW := 16 (only parsing).
Abbreviation M_FLD := 17 (only parsing).
Abbreviation M_FLQ := 18 (only parsing).
Abbreviation M_FSW := 19 (only parsing).
Abbreviation M_FSD := 20 (only parsing).
Abbreviation M_FSQ := 21 (only parsing).
Abbreviation M_CALL := 22 (only parsing).
Abbreviation M_J := 23 (only parsing).
Abbreviation M_LI := 24 (only parsing).
Abbreviation M_ZEXTH := 25 (only parsing).
Abbreviation M_ZEXTW := 26 (only parsing).
Abbreviation M_SEXTB := 27 (only parsing).
Abbreviation M_SEXTH := 28 (only parsing).
Abbreviation M_VMSGE := 29 (only parsing).
Abbreviation M_VMSGEU := 30 (only parsing).
Abbreviation M_FLH := 31 (only parsing).
Abbreviation M_FSH := 32 (only parsing).
(** * The table *)

Module Table.
Open Scope string_scope.
Open Scope Z_scope.

Definition riscv_opcodes_01 : list riscv_opcode := [
  row "prefetch.i" 0 INSN_CLASS_ZICBOP "Wif(s)" MATCH_PREFETCH_I MASK_PREFETCH_I match_opcode 0;
  row "prefetch.r" 0 INSN_CLASS_ZICBOP "Wif(s)" MATCH_PREFETCH_R MASK_PREFETCH_R match_opcode 0;
  row "prefetch.w" 0 INSN_CLASS_ZICBOP "Wif(s)" MATCH_PREFETCH_W MASK_PREFETCH_W match_opcode 0;
  row "pause" 0 INSN_CLASS_ZIHINTPAUSE "" MATCH_PAUSE MASK_PAUSE match_opcode 0;
  row "pvadd" 0 INSN_CLASS_I "d,s,t" MATCH_PVADD MASK_PVADD match_opcode 0;
  row "pvmul" 0 INSN_CLASS_I "d,s,t" MATCH_PVMUL MASK_PVMUL match_opcode 0;
  row "pvmac" 0 INSN_CLASS_I "d,s,t" MATCH_PVMAC MASK_PVMAC match_opcode 0;
  row "pvmul_upper" 0 INSN_CLASS_I "d,s,t" MATCH_PVMUL_UPPER MASK_PVMUL_UPPER match_opcode 0;
  row "vadd.b" 0 INSN_CLASS_I "d,s,t" MATCH_VADD_B MASK_VADD_B match_opcode 0;
  row "vadd.h" 0 INSN_CLASS_I "d,s,t" MATCH_VADD_H MASK_VADD_H match_opcode 0;
  row "vadd.w" 0 INSN_CLASS_I "d,s,t" MATCH_VADD_W MASK_VADD_W match_opcode 0;
  row "vsub.b" 0 INSN_CLASS_I "d,s,t" MATCH_VSUB_B MASK_VSUB_B match_opcode 0;
  row "vsub.h" 0 INSN_CLASS_I "d,s,t" MATCH_VSUB_H MASK_VSUB_H match_opcode 0;
  row "vsub.w" 0 INSN_CLASS_I "d,s,t" MATCH_VSUB_W MASK_VSUB_W match_opcode 0;
  row "vmul.b" 0 INSN_CLASS_I "d,s,t" MATCH_VMUL_B MASK_VMUL_B match_opcode 0;
  row "vmul.h" 0 INSN_CLASS_I "d,s,t" MATCH_VMUL_H MASK_VMUL_H match_opcode 0;
  row "vmul.w" 0 INSN_CLASS_I "d,s,t" MATCH_VMUL_W MASK_VMUL_W match_opcode 0;
  row "vmac.b" 0 INSN_CLASS_I "d,s,t" MATCH_VMAC_B MASK_VMAC_B match_opcode 0;
  row "vmac.h" 0 INSN_CLASS_I "d,s,t" MATCH_VMAC_H MASK_VMAC_H match_opcode 0;
  row "vmac.w" 0 INSN_CLASS_I "d,s,t" MATCH_VMAC_W MASK_VMAC_W match_opcode 0;
  row "vld" 0 INSN_CLASS_I "d,s" MATCH_VLD MASK_VLD match_opcode 0;
  row "vst" 0 INSN_CLASS_I "d,s,t" MATCH_VST MASK_VST match_opcode 0;
  row "unimp" 0 INSN_CLASS_C "" 0 0xffff match_opcode INSN_ALIAS;
  row "unimp" 0 INSN_CLASS_I "" (MATCH_CSRRW .| (CSR_CYCLE .<< OP_SH_CSR)) 0xffffffff match_opcode 0;
  row "ebreak" 0 INSN_CLASS_C "" MATCH_C_EBREAK MASK_C_EBREAK match_opcode INSN_ALIAS;
  row "ebreak" 0 INSN_CLASS_I "" MATCH_EBREAK MASK_EBREAK match_opcode 0;
  row "sbreak" 0 INSN_CLASS_C "" MATCH_C_EBREAK MASK_C_EBREAK match_opcode INSN_ALIAS;
  row "sbreak" 0 INSN_CLASS_I "" MATCH_EBREAK MASK_EBREAK match_opcode INSN_ALIAS;
  row "ret" 0 INSN_CLASS_C "" (MATCH_C_JR .| (X_RA .<< OP_SH_RD)) (MASK_C_JR .| MASK_RD) match_opcode (INSN_ALIAS .| INSN_BRANCH);
  row "ret" 0 INSN_CLASS_I "" (MATCH_JALR .| (X_RA .<< OP_SH_RS1)) (MASK_JALR .| MASK_RD .| MASK_RS1 .| MASK_IMM) match_opcode (INSN_ALIAS .| INSN_BRANCH);
  row "jr" 0 INSN_CLASS_C "d" MATCH_C_JR MASK_C_JR match_rd_nonzero (INSN_ALIAS .| INSN_BRANCH);
  row "jr" 0 INSN_CLASS_I "s" MATCH_JALR (MASK_JALR .| MASK_RD .| MASK_IMM) match_opcode (INSN_ALIAS .| INSN_BRANCH);
  row "jr" 0 INSN_CLASS_I "o(s)" MATCH_JALR (MASK_JALR .| MASK_RD) match_opcode (INSN_ALIAS .| INSN_BRANCH);
  row "jr" 0 INSN_CLASS_I "s,j" MATCH_JALR (MASK_JALR .| MASK_RD) match_opcode (INSN_ALIAS .| INSN_BRANCH);
  row "jalr" 0 INSN_CLASS_C "d" MATCH_C_JALR MASK_C_JALR match_rd_nonzero (INSN_ALIAS .| INSN_JSR);
  row "jalr" 0 INSN_CLASS_I "s" (MATCH_JALR .| (X_RA .<< OP_SH_RD)) (MASK_JALR .| MASK_RD .| MASK_IMM) match_opcode (INSN_ALIAS .| INSN_JSR);
  row "jalr" 0 INSN_CLASS_I "o(s)" (MATCH_JALR .| (X_RA .<< OP_SH_RD)) (MASK_JALR .| MASK_RD) match_opcode (INSN_ALIAS .| INSN_JSR);
  row "jalr" 0 INSN_CLASS_I "s,j" (MATCH_JALR .| (X_RA .<< OP_SH_RD)) (MASK_JALR .| MASK_RD) match_opcode (INSN_ALIAS .| INSN_JSR);
  row "jalr" 0 INSN_CLASS_I "d,s" MATCH_JALR (MASK_JALR .| MASK_IMM) match_opcode (INSN_ALIAS .| INSN_JSR);
  row "jalr" 0 INSN_CLASS_I "d,o(s)" MATCH_JALR MASK_JALR match_opcode INSN_JSR;
  row "jalr" 0 INSN_CLASS_I "d,s,j" MATCH_JALR MASK_JALR match_opcode INSN_JSR;
  row "j" 0 INSN_CLASS_C "Ca" MATCH_C_J MASK_C_J match_opcode (INSN_ALIAS .| INSN_BRANCH);
  row "j" 0 INSN_CLASS_I "a" MATCH_JAL (MASK_JAL .| MASK_RD) match_opcode (INSN_ALIAS .| INSN_BRANCH);
  row "jal" 32 INSN_CLASS_C "Ca" MATCH_C_JAL MASK_C_JAL match_opcode (INSN_ALIAS .| INSN_JSR);
  row "jal" 0 INSN_CLASS_I "a" (MATCH_JAL .| (X_RA .<< OP_SH_RD)) (MASK_JAL .| MASK_RD) match_opcode (INSN_ALIAS .| INSN_JSR);
  row "jal" 0 INSN_CLASS_I "d,a" MATCH_JAL MASK_JAL match_opcode INSN_JSR;
  row "call" 0 INSN_CLASS_I "d,c" (X_T1 .<< OP_SH_RS1) M_CALL match_never INSN_MACRO;
  row "call" 0 INSN_CLASS_I "c" ((X_RA .<< OP_SH_RS1) .| (X_RA .<< OP_SH_RD)) M_CALL match_never INSN_MACRO;
  row "tail" 0 INSN_CLASS_I "c" (X_T1 .<< OP_SH_RS1) M_CALL match_never INSN_MACRO;
  row "jump" 0 INSN_CLASS_I "c,s" 0 M_CALL match_never INSN_MACRO;
  row "nop" 0 INSN_CLASS_C "" MATCH_C_ADDI 0xffff match_opcode INSN_ALIAS;
  row "nop" 0 INSN_CLASS_I "" MATCH_ADDI (MASK_ADDI .| MASK_RD .| MASK_RS1 .| MASK_IMM) match_opcode INSN_ALIAS;
  row "lui" 0 INSN_CLASS_C "d,Cu" MATCH_C_LUI MASK_C_LUI match_c_lui INSN_ALIAS;
  row "lui" 0 INSN_CLASS_I "d,u" MATCH_LUI MASK_LUI match_opcode 0;
  row "li" 0 INSN_CLASS_C "d,Cv" MATCH_C_LUI MASK_C_LUI match_c_lui INSN_ALIAS;
  row "li" 0 INSN_CLASS_C "d,Co" MATCH_C_LI MASK_C_LI match_rd_nonzero INSN_ALIAS;
  row "li" 0 INSN_CLASS_I "d,j" MATCH_ADDI (MASK_ADDI .| MASK_RS1) match_opcode INSN_ALIAS;
  row "li" 0 INSN_CLASS_I "d,I" 0 M_LI match_never INSN_MACRO;
  row "mv" 0 INSN_CLASS_C "d,CV" MATCH_C_MV MASK_C_MV match_c_add INSN_ALIAS;
  row "mv" 0 INSN_CLASS_I "d,s" MATCH_ADDI (MASK_ADDI .| MASK_IMM) match_opcode INSN_ALIAS;
  row "move" 0 INSN_CLASS_C "d,CV" MATCH_C_MV MASK_C_MV match_c_add INSN_ALIAS;
  row "move" 0 INSN_CLASS_I "d,s" MATCH_ADDI (MASK_ADDI .| MASK_IMM) match_opcode INSN_ALIAS;
  row "zext.b" 0 INSN_CLASS_I "d,s" (MATCH_ANDI .| (ENCODE_ITYPE_IMM 255)) (MASK_ANDI .| MASK_IMM) match_opcode INSN_ALIAS;
  row "and" 0 INSN_CLASS_C "Cs,Cw,Ct" MATCH_C_AND MASK_C_AND match_opcode INSN_ALIAS;
  row "and" 0 INSN_CLASS_C "Cs,Ct,Cw" MATCH_C_AND MASK_C_AND match_opcode INSN_ALIAS;
  row "and" 0 INSN_CLASS_C "Cs,Cw,Co" MATCH_C_ANDI MASK_C_ANDI match_opcode INSN_ALIAS;
  row "and" 0 INSN_CLASS_I "d,s,t" MATCH_AND MASK_AND match_opcode 0;
  row "and" 0 INSN_CLASS_I "d,s,j" MATCH_ANDI MASK_ANDI match_opcode INSN_ALIAS;
  row "andi" 0 INSN_CLASS_C "Cs,Cw,Co" MATCH_C_ANDI MASK_C_ANDI match_opcode INSN_ALIAS;
  row "andi" 0 INSN_CLASS_I "d,s,j" MATCH_ANDI MASK_ANDI match_opcode 0;
  row "beqz" 0 INSN_CLASS_C "Cs,Cp" MATCH_C_BEQZ MASK_C_BEQZ match_opcode (INSN_ALIAS .| INSN_CONDBRANCH);
  row "beqz" 0 INSN_CLASS_I "s,p" MATCH_BEQ (MASK_BEQ .| MASK_RS2) match_opcode (INSN_ALIAS .| INSN_CONDBRANCH);
  row "beq" 0 INSN_CLASS_C "Cs,Cz,Cp" MATCH_C_BEQZ MASK_C_BEQZ match_opcode (INSN_ALIAS .| INSN_CONDBRANCH);
  row "beq" 0 INSN_CLASS_I "s,t,p" MATCH_BEQ MASK_BEQ match_opcode INSN_CONDBRANCH;
  row "blez" 0 INSN_CLASS_I "t,p" MATCH_BGE (MASK_BGE .| MASK_RS1) match_opcode (INSN_ALIAS .| INSN_CONDBRANCH);
  row "bgez" 0 INSN_CLASS_I "s,p" MATCH_BGE (MASK_BGE .| MASK_RS2) match_opcode (INSN_ALIAS .| INSN_CONDBRANCH);
  row "bge" 0 INSN_CLASS_I "s,t,p" MATCH_BGE MASK_BGE match_opcode INSN_CONDBRANCH;
  row "bgeu" 0 INSN_CLASS_I "s,t,p" MATCH_BGEU MASK_BGEU match_opcode INSN_CONDBRANCH;
  row "ble" 0 INSN_CLASS_I "t,s,p" MATCH_BGE MASK_BGE match_opcode (INSN_ALIAS .| INSN_CONDBRANCH);
  row "bleu" 0 INSN_CLASS_I "t,s,p" MATCH_BGEU MASK_BGEU match_opcode (INSN_ALIAS .| INSN_CONDBRANCH);
  row "bltz" 0 INSN_CLASS_I "s,p" MATCH_BLT (MASK_BLT .| MASK_RS2) match_opcode (INSN_ALIAS .| INSN_CONDBRANCH);
  row "bgtz" 0 INSN_CLASS_I "t,p" MATCH_BLT (MASK_BLT .| MASK_RS1) match_opcode (INSN_ALIAS .| INSN_CONDBRANCH);
  row "blt" 0 INSN_CLASS_I "s,t,p" MATCH_BLT MASK_BLT match_opcode INSN_CONDBRANCH;
  row "bltu" 0 INSN_CLASS_I "s,t,p" MATCH_BLTU MASK_BLTU match_opcode INSN_CONDBRANCH;
  row "bgt" 0 INSN_CLASS_I "t,s,p" MATCH_BLT MASK_BLT match_opcode (INSN_ALIAS .| INSN_CONDBRANCH);
  row "bgtu" 0 INSN_CLASS_I "t,s,p" MATCH_BLTU MASK_BLTU match_opcode (INSN_ALIAS .| INSN_CONDBRANCH);
  row "bnez" 0 INSN_CLASS_C "Cs,Cp" MATCH_C_BNEZ MASK_C_BNEZ match_opcode (INSN_ALIAS .| INSN_CONDBRANCH);
  row "bnez" 0 INSN_CLASS_I "s,p" MATCH_BNE (MASK_BNE .| MASK_RS2) match_opcode (INSN_ALIAS .| INSN_CONDBRANCH);
  row "bne" 0 INSN_CLASS_C "Cs,Cz,Cp" MATCH_C_BNEZ MASK_C_BNEZ match_opcode (INSN_ALIAS .| INSN_CONDBRANCH);
  row "bne" 0 INSN_CLASS_I "s,t,p" MATCH_BNE MASK_BNE match_opcode INSN_CONDBRANCH;
  row "add" 0 INSN_CLASS_C "d,CU,CV" MATCH_C_ADD MASK_C_ADD match_c_add INSN_ALIAS;
  row "add" 0 INSN_CLASS_C "d,CV,CU" MATCH_C_ADD MASK_C_ADD match_c_add INSN_ALIAS;
  row "add" 0 INSN_CLASS_C "d,CU,Co" MATCH_C_ADDI MASK_C_ADDI match_rd_nonzero INSN_ALIAS;
  row "add" 0 INSN_CLASS_C "Ct,Cc,CK" MATCH_C_ADDI4SPN MASK_C_ADDI4SPN match_c_addi4spn INSN_ALIAS;
  row "add" 0 INSN_CLASS_C "Cc,Cc,CL" MATCH_C_ADDI16SP MASK_C_ADDI16SP match_c_addi16sp INSN_ALIAS;
  row "add" 0 INSN_CLASS_C "d,Cz,CV" MATCH_C_MV MASK_C_MV match_c_add INSN_ALIAS;
  row "add" 0 INSN_CLASS_I "d,s,t" MATCH_ADD MASK_ADD match_opcode 0;
  row "add" 0 INSN_CLASS_I "d,s,t,1" MATCH_ADD MASK_ADD match_opcode 0;
  row "add" 0 INSN_CLASS_I "d,s,j" MATCH_ADDI MASK_ADDI match_opcode INSN_ALIAS;
  row "addi" 0 INSN_CLASS_C "Ct,Cc,CK" MATCH_C_ADDI4SPN MASK_C_ADDI4SPN match_c_addi4spn INSN_ALIAS;
  row "addi" 0 INSN_CLASS_C "d,CU,Cj" MATCH_C_ADDI MASK_C_ADDI match_rd_nonzero INSN_ALIAS;
  row "addi" 0 INSN_CLASS_C "d,CU,z" MATCH_C_NOP (MASK_C_ADDI .| MASK_RVC_IMM) match_c_nop INSN_ALIAS;
  row "addi" 0 INSN_CLASS_C "Cc,Cc,CL" MATCH_C_ADDI16SP MASK_C_ADDI16SP match_c_addi16sp INSN_ALIAS;
  row "addi" 0 INSN_CLASS_C "d,Cz,Co" MATCH_C_LI MASK_C_LI match_rd_nonzero INSN_ALIAS;
  row "addi" 0 INSN_CLASS_C "d,CV,z" MATCH_C_MV MASK_C_MV match_c_add INSN_ALIAS;
  row "addi" 0 INSN_CLASS_I "d,s,j" MATCH_ADDI MASK_ADDI match_opcode 0;
  row "la" 0 INSN_CLASS_I "d,B" 0 M_LA match_never INSN_MACRO;
  row "lla" 0 INSN_CLASS_I "d,B" 0 M_LLA match_never INSN_MACRO;
  row "lga" 0 INSN_CLASS_I "d,B" 0 M_LGA match_never INSN_MACRO;
  row "la.tls.gd" 0 INSN_CLASS_I "d,A" 0 M_LA_TLS_GD match_never INSN_MACRO;
  row "la.tls.ie" 0 INSN_CLASS_I "d,A" 0 M_LA_TLS_IE match_never INSN_MACRO;
  row "neg" 0 INSN_CLASS_I "d,t" MATCH_SUB (MASK_SUB .| MASK_RS1) match_opcode INSN_ALIAS;
  row "sll" 0 INSN_CLASS_C "d,CU,C>" MATCH_C_SLLI MASK_C_SLLI match_slli_as_c_slli INSN_ALIAS;
  row "sll" 0 INSN_CLASS_I "d,s,t" MATCH_SLL MASK_SLL match_opcode 0;
  row "sll" 0 INSN_CLASS_I "d,s,>" MATCH_SLLI MASK_SLLI match_opcode INSN_ALIAS;
  row "slli" 0 INSN_CLASS_C "d,CU,C>" MATCH_C_SLLI MASK_C_SLLI match_slli_as_c_slli INSN_ALIAS;
  row "slli" 0 INSN_CLASS_I "d,s,>" MATCH_SLLI MASK_SLLI match_opcode 0;
  row "srl" 0 INSN_CLASS_C "Cs,Cw,C>" MATCH_C_SRLI MASK_C_SRLI match_srxi_as_c_srxi INSN_ALIAS;
  row "srl" 0 INSN_CLASS_I "d,s,t" MATCH_SRL MASK_SRL match_opcode 0;
  row "srl" 0 INSN_CLASS_I "d,s,>" MATCH_SRLI MASK_SRLI match_opcode INSN_ALIAS;
  row "srli" 0 INSN_CLASS_C "Cs,Cw,C>" MATCH_C_SRLI MASK_C_SRLI match_srxi_as_c_srxi INSN_ALIAS;
  row "srli" 0 INSN_CLASS_I "d,s,>" MATCH_SRLI MASK_SRLI match_opcode 0;
  row "sra" 0 INSN_CLASS_C "Cs,Cw,C>" MATCH_C_SRAI MASK_C_SRAI match_srxi_as_c_srxi INSN_ALIAS;
  row "sra" 0 INSN_CLASS_I "d,s,t" MATCH_SRA MASK_SRA match_opcode 0;
  row "sra" 0 INSN_CLASS_I "d,s,>" MATCH_SRAI MASK_SRAI match_opcode INSN_ALIAS;
  row "srai" 0 INSN_CLASS_C "Cs,Cw,C>" MATCH_C_SRAI MASK_C_SRAI match_srxi_as_c_srxi INSN_ALIAS;
  row "srai" 0 INSN_CLASS_I "d,s,>" MATCH_SRAI MASK_SRAI match_opcode 0;
  row "sub" 0 INSN_CLASS_C "Cs,Cw,Ct" MATCH_C_SUB MASK_C_SUB match_opcode INSN_ALIAS;
  row "sub" 0 INSN_CLASS_I "d,s,t" MATCH_SUB MASK_SUB match_opcode 0;
  row "lb" 0 INSN_CLASS_I "d,o(s)" MATCH_LB MASK_LB match_opcode (INSN_DREF .| INSN_1_BYTE);
  row "lb" 0 INSN_CLASS_I "d,A" 0 M_LB match_never INSN_MACRO;
  row "lbu" 0 INSN_CLASS_I "d,o(s)" MATCH_LBU MASK_LBU match_opcode (INSN_DREF .| INSN_1_BYTE);
  row "lbu" 0 INSN_CLASS_I "d,A" 0 M_LBU match_never INSN_MACRO;
  row "lh" 0 INSN_CLASS_I "d,o(s)" MATCH_LH MASK_LH match_opcode (INSN_DREF .| INSN_2_BYTE);
  row "lh" 0 INSN_CLASS_I "d,A" 0 M_LH match_never INSN_MACRO;
  row "lhu" 0 INSN_CLASS_I "d,o(s)" MATCH_LHU MASK_LHU match_opcode (INSN_DREF .| INSN_2_BYTE)
].

Definition riscv_opcodes_02 : list riscv_opcode := [
  row "lhu" 0 INSN_CLASS_I "d,A" 0 M_LHU match_never INSN_MACRO;
  row "lw" 0 INSN_CLASS_C "d,Cm(Cc)" MATCH_C_LWSP MASK_C_LWSP match_rd_nonzero (INSN_ALIAS .| INSN_DREF .| INSN_4_BYTE);
  row "lw" 0 INSN_CLASS_C "Ct,Ck(Cs)" MATCH_C_LW MASK_C_LW match_opcode (INSN_ALIAS .| INSN_DREF .| INSN_4_BYTE);
  row "lw" 0 INSN_CLASS_I "d,o(s)" MATCH_LW MASK_LW match_opcode (INSN_DREF .| INSN_4_BYTE);
  row "lw" 0 INSN_CLASS_I "d,A" 0 M_LW match_never INSN_MACRO;
  row "not" 0 INSN_CLASS_I "d,s" (MATCH_XORI .| MASK_IMM) (MASK_XORI .| MASK_IMM) match_opcode INSN_ALIAS;
  row "or" 0 INSN_CLASS_I "d,s,j" MATCH_ORI MASK_ORI match_opcode INSN_ALIAS;
  row "or" 0 INSN_CLASS_C "Cs,Cw,Ct" MATCH_C_OR MASK_C_OR match_opcode INSN_ALIAS;
  row "or" 0 INSN_CLASS_C "Cs,Ct,Cw" MATCH_C_OR MASK_C_OR match_opcode INSN_ALIAS;
  row "or" 0 INSN_CLASS_I "d,s,t" MATCH_OR MASK_OR match_opcode 0;
  row "ori" 0 INSN_CLASS_I "d,s,j" MATCH_ORI MASK_ORI match_opcode 0;
  row "auipc" 0 INSN_CLASS_I "d,u" MATCH_AUIPC MASK_AUIPC match_opcode 0;
  row "seqz" 0 INSN_CLASS_I "d,s" (MATCH_SLTIU .| (ENCODE_ITYPE_IMM 1)) (MASK_SLTIU .| MASK_IMM) match_opcode INSN_ALIAS;
  row "snez" 0 INSN_CLASS_I "d,t" MATCH_SLTU (MASK_SLTU .| MASK_RS1) match_opcode INSN_ALIAS;
  row "sltz" 0 INSN_CLASS_I "d,s" MATCH_SLT (MASK_SLT .| MASK_RS2) match_opcode INSN_ALIAS;
  row "sgtz" 0 INSN_CLASS_I "d,t" MATCH_SLT (MASK_SLT .| MASK_RS1) match_opcode INSN_ALIAS;
  row "slti" 0 INSN_CLASS_I "d,s,j" MATCH_SLTI MASK_SLTI match_opcode 0;
  row "slt" 0 INSN_CLASS_I "d,s,t" MATCH_SLT MASK_SLT match_opcode 0;
  row "slt" 0 INSN_CLASS_I "d,s,j" MATCH_SLTI MASK_SLTI match_opcode INSN_ALIAS;
  row "sltiu" 0 INSN_CLASS_I "d,s,j" MATCH_SLTIU MASK_SLTIU match_opcode 0;
  row "sltu" 0 INSN_CLASS_I "d,s,t" MATCH_SLTU MASK_SLTU match_opcode 0;
  row "sltu" 0 INSN_CLASS_I "d,s,j" MATCH_SLTIU MASK_SLTIU match_opcode INSN_ALIAS;
  row "sgt" 0 INSN_CLASS_I "d,t,s" MATCH_SLT MASK_SLT match_opcode INSN_ALIAS;
  row "sgtu" 0 INSN_CLASS_I "d,t,s" MATCH_SLTU MASK_SLTU match_opcode INSN_ALIAS;
  row "sb" 0 INSN_CLASS_I "t,q(s)" MATCH_SB MASK_SB match_opcode (INSN_DREF .| INSN_1_BYTE);
  row "sb" 0 INSN_CLASS_I "t,A,s" 0 M_SB match_never INSN_MACRO;
  row "sh" 0 INSN_CLASS_I "t,q(s)" MATCH_SH MASK_SH match_opcode (INSN_DREF .| INSN_2_BYTE);
  row "sh" 0 INSN_CLASS_I "t,A,s" 0 M_SH match_never INSN_MACRO;
  row "sw" 0 INSN_CLASS_C "CV,CM(Cc)" MATCH_C_SWSP MASK_C_SWSP match_opcode (INSN_ALIAS .| INSN_DREF .| INSN_4_BYTE);
  row "sw" 0 INSN_CLASS_C "Ct,Ck(Cs)" MATCH_C_SW MASK_C_SW match_opcode (INSN_ALIAS .| INSN_DREF .| INSN_4_BYTE);
  row "sw" 0 INSN_CLASS_I "t,q(s)" MATCH_SW MASK_SW match_opcode (INSN_DREF .| INSN_4_BYTE);
  row "sw" 0 INSN_CLASS_I "t,A,s" 0 M_SW match_never INSN_MACRO;
  row "fence" 0 INSN_CLASS_I "" (MATCH_FENCE .| MASK_PRED .| MASK_SUCC) (MASK_FENCE .| MASK_RD .| MASK_RS1 .| MASK_IMM) match_opcode INSN_ALIAS;
  row "fence" 0 INSN_CLASS_I "P,Q" MATCH_FENCE (MASK_FENCE .| MASK_RD .| MASK_RS1 .| (MASK_IMM .& .~ MASK_PRED .& .~ MASK_SUCC)) match_opcode 0;
  row "fence.i" 0 INSN_CLASS_ZIFENCEI "" MATCH_FENCE_I (MASK_FENCE .| MASK_RD .| MASK_RS1 .| MASK_IMM) match_opcode 0;
  row "fence.tso" 0 INSN_CLASS_I "" MATCH_FENCE_TSO (MASK_FENCE_TSO .| MASK_RD .| MASK_RS1) match_opcode 0;
  row "rdcycle" 0 INSN_CLASS_I "d" MATCH_RDCYCLE MASK_RDCYCLE match_opcode INSN_ALIAS;
  row "rdinstret" 0 INSN_CLASS_I "d" MATCH_RDINSTRET MASK_RDINSTRET match_opcode INSN_ALIAS;
  row "rdtime" 0 INSN_CLASS_I "d" MATCH_RDTIME MASK_RDTIME match_opcode INSN_ALIAS;
  row "rdcycleh" 32 INSN_CLASS_I "d" MATCH_RDCYCLEH MASK_RDCYCLEH match_opcode INSN_ALIAS;
  row "rdinstreth" 32 INSN_CLASS_I "d" MATCH_RDINSTRETH MASK_RDINSTRETH match_opcode INSN_ALIAS;
  row "rdtimeh" 32 INSN_CLASS_I "d" MATCH_RDTIMEH MASK_RDTIMEH match_opcode INSN_ALIAS;
  row "ecall" 0 INSN_CLASS_I "" MATCH_SCALL MASK_SCALL match_opcode 0;
  row "scall" 0 INSN_CLASS_I "" MATCH_SCALL MASK_SCALL match_opcode 0;
  row "xor" 0 INSN_CLASS_I "d,s,j" MATCH_XORI MASK_XORI match_opcode INSN_ALIAS;
  row "xor" 0 INSN_CLASS_C "Cs,Cw,Ct" MATCH_C_XOR MASK_C_XOR match_opcode INSN_ALIAS;
  row "xor" 0 INSN_CLASS_C "Cs,Ct,Cw" MATCH_C_XOR MASK_C_XOR match_opcode INSN_ALIAS;
  row "xor" 0 INSN_CLASS_I "d,s,t" MATCH_XOR MASK_XOR match_opcode 0;
  row "xori" 0 INSN_CLASS_I "d,s,j" MATCH_XORI MASK_XORI match_opcode 0;
  row "lwu" 64 INSN_CLASS_I "d,o(s)" MATCH_LWU MASK_LWU match_opcode (INSN_DREF .| INSN_4_BYTE);
  row "lwu" 64 INSN_CLASS_I "d,A" 0 M_LWU match_never INSN_MACRO;
  row "ld" 64 INSN_CLASS_C "d,Cn(Cc)" MATCH_C_LDSP MASK_C_LDSP match_rd_nonzero (INSN_ALIAS .| INSN_DREF .| INSN_8_BYTE);
  row "ld" 64 INSN_CLASS_C "Ct,Cl(Cs)" MATCH_C_LD MASK_C_LD match_opcode (INSN_ALIAS .| INSN_DREF .| INSN_8_BYTE);
  row "ld" 64 INSN_CLASS_I "d,o(s)" MATCH_LD MASK_LD match_opcode (INSN_DREF .| INSN_8_BYTE);
  row "ld" 64 INSN_CLASS_I "d,A" 0 M_LD match_never INSN_MACRO;
  row "sd" 64 INSN_CLASS_C "CV,CN(Cc)" MATCH_C_SDSP MASK_C_SDSP match_opcode (INSN_ALIAS .| INSN_DREF .| INSN_8_BYTE);
  row "sd" 64 INSN_CLASS_C "Ct,Cl(Cs)" MATCH_C_SD MASK_C_SD match_opcode (INSN_ALIAS .| INSN_DREF .| INSN_8_BYTE);
  row "sd" 64 INSN_CLASS_I "t,q(s)" MATCH_SD MASK_SD match_opcode (INSN_DREF .| INSN_8_BYTE);
  row "sd" 64 INSN_CLASS_I "t,A,s" 0 M_SD match_never INSN_MACRO;
  row "sext.w" 64 INSN_CLASS_C "d,CU" MATCH_C_ADDIW (MASK_C_ADDIW .| MASK_RVC_IMM) match_rd_nonzero INSN_ALIAS;
  row "sext.w" 64 INSN_CLASS_I "d,s" MATCH_ADDIW (MASK_ADDIW .| MASK_IMM) match_opcode INSN_ALIAS;
  row "addw" 64 INSN_CLASS_C "Cs,Cw,Ct" MATCH_C_ADDW MASK_C_ADDW match_opcode INSN_ALIAS;
  row "addw" 64 INSN_CLASS_C "Cs,Ct,Cw" MATCH_C_ADDW MASK_C_ADDW match_opcode INSN_ALIAS;
  row "addw" 64 INSN_CLASS_C "d,CU,Co" MATCH_C_ADDIW MASK_C_ADDIW match_rd_nonzero INSN_ALIAS;
  row "addw" 64 INSN_CLASS_I "d,s,t" MATCH_ADDW MASK_ADDW match_opcode 0;
  row "addw" 64 INSN_CLASS_I "d,s,j" MATCH_ADDIW MASK_ADDIW match_opcode INSN_ALIAS;
  row "addiw" 64 INSN_CLASS_C "d,CU,Co" MATCH_C_ADDIW MASK_C_ADDIW match_rd_nonzero INSN_ALIAS;
  row "addiw" 64 INSN_CLASS_I "d,s,j" MATCH_ADDIW MASK_ADDIW match_opcode 0;
  row "negw" 64 INSN_CLASS_I "d,t" MATCH_SUBW (MASK_SUBW .| MASK_RS1) match_opcode INSN_ALIAS;
  row "sllw" 64 INSN_CLASS_I "d,s,t" MATCH_SLLW MASK_SLLW match_opcode 0;
  row "sllw" 64 INSN_CLASS_I "d,s,<" MATCH_SLLIW MASK_SLLIW match_opcode INSN_ALIAS;
  row "slliw" 64 INSN_CLASS_I "d,s,<" MATCH_SLLIW MASK_SLLIW match_opcode 0;
  row "srlw" 64 INSN_CLASS_I "d,s,t" MATCH_SRLW MASK_SRLW match_opcode 0;
  row "srlw" 64 INSN_CLASS_I "d,s,<" MATCH_SRLIW MASK_SRLIW match_opcode INSN_ALIAS;
  row "srliw" 64 INSN_CLASS_I "d,s,<" MATCH_SRLIW MASK_SRLIW match_opcode 0;
  row "sraw" 64 INSN_CLASS_I "d,s,t" MATCH_SRAW MASK_SRAW match_opcode 0;
  row "sraw" 64 INSN_CLASS_I "d,s,<" MATCH_SRAIW MASK_SRAIW match_opcode INSN_ALIAS;
  row "sraiw" 64 INSN_CLASS_I "d,s,<" MATCH_SRAIW MASK_SRAIW match_opcode 0;
  row "subw" 64 INSN_CLASS_C "Cs,Cw,Ct" MATCH_C_SUBW MASK_C_SUBW match_opcode INSN_ALIAS;
  row "subw" 64 INSN_CLASS_I "d,s,t" MATCH_SUBW MASK_SUBW match_opcode 0;
  row "lr.w" 0 INSN_CLASS_A "d,0(s)" MATCH_LR_W (MASK_LR_W .| MASK_AQRL) match_opcode (INSN_DREF .| INSN_4_BYTE);
  row "sc.w" 0 INSN_CLASS_A "d,t,0(s)" MATCH_SC_W (MASK_SC_W .| MASK_AQRL) match_opcode (INSN_DREF .| INSN_4_BYTE);
  row "amoadd.w" 0 INSN_CLASS_A "d,t,0(s)" MATCH_AMOADD_W (MASK_AMOADD_W .| MASK_AQRL) match_opcode (INSN_DREF .| INSN_4_BYTE);
  row "amoswap.w" 0 INSN_CLASS_A "d,t,0(s)" MATCH_AMOSWAP_W (MASK_AMOSWAP_W .| MASK_AQRL) match_opcode (INSN_DREF .| INSN_4_BYTE);
  row "amoand.w" 0 INSN_CLASS_A "d,t,0(s)" MATCH_AMOAND_W (MASK_AMOAND_W .| MASK_AQRL) match_opcode (INSN_DREF .| INSN_4_BYTE);
  row "amoor.w" 0 INSN_CLASS_A "d,t,0(s)" MATCH_AMOOR_W (MASK_AMOOR_W .| MASK_AQRL) match_opcode (INSN_DREF .| INSN_4_BYTE);
  row "amoxor.w" 0 INSN_CLASS_A "d,t,0(s)" MATCH_AMOXOR_W (MASK_AMOXOR_W .| MASK_AQRL) match_opcode (INSN_DREF .| INSN_4_BYTE);
  row "amomax.w" 0 INSN_CLASS_A "d,t,0(s)" MATCH_AMOMAX_W (MASK_AMOMAX_W .| MASK_AQRL) match_opcode (INSN_DREF .| INSN_4_BYTE);
  row "amomaxu.w" 0 INSN_CLASS_A "d,t,0(s)" MATCH_AMOMAXU_W (MASK_AMOMAXU_W .| MASK_AQRL) match_opcode (INSN_DREF .| INSN_4_BYTE);
  row "amomin.w" 0 INSN_CLASS_A "d,t,0(s)" MATCH_AMOMIN_W (MASK_AMOMIN_W .| MASK_AQRL) match_opcode (INSN_DREF .| INSN_4_BYTE);
  row "amominu.w" 0 INSN_CLASS_A "d,t,0(s)" MATCH_AMOMINU_W (MASK_AMOMINU_W .| MASK_AQRL) match_opcode (INSN_DREF .| INSN_4_BYTE);
  row "lr.w.aq" 0 INSN_CLASS_A "d,0(s)" (MATCH_LR_W .| MASK_AQ) (MASK_LR_W .| MASK_AQRL) match_opcode (INSN_DREF .| INSN_4_BYTE);
  row "sc.w.aq" 0 INSN_CLASS_A "d,t,0(s)" (MATCH_SC_W .| MASK_AQ) (MASK_SC_W .| MASK_AQRL) match_opcode (INSN_DREF .| INSN_4_BYTE);
  row "amoadd.w.aq" 0 INSN_CLASS_A "d,t,0(s)" (MATCH_AMOADD_W .| MASK_AQ) (MASK_AMOADD_W .| MASK_AQRL) match_opcode (INSN_DREF .| INSN_4_BYTE);
  row "amoswap.w.aq" 0 INSN_CLASS_A "d,t,0(s)" (MATCH_AMOSWAP_W .| MASK_AQ) (MASK_AMOSWAP_W .| MASK_AQRL) match_opcode (INSN_DREF .| INSN_4_BYTE);
  row "amoand.w.aq" 0 INSN_CLASS_A "d,t,0(s)" (MATCH_AMOAND_W .| MASK_AQ) (MASK_AMOAND_W .| MASK_AQRL) match_opcode (INSN_DREF .| INSN_4_BYTE);
  row "amoor.w.aq" 0 INSN_CLASS_A "d,t,0(s)" (MATCH_AMOOR_W .| MASK_AQ) (MASK_AMOOR_W .| MASK_AQRL) match_opcode (INSN_DREF .| INSN_4_BYTE);
  row "amoxor.w.aq" 0 INSN_CLASS_A "d,t,0(s)" (MATCH_AMOXOR_W .| MASK_AQ) (MASK_AMOXOR_W .| MASK_AQRL) match_opcode (INSN_DREF .| INSN_4_BYTE);
  row "amomax.w.aq" 0 INSN_CLASS_A "d,t,0(s)" (MATCH_AMOMAX_W .| MASK_AQ) (MASK_AMOMAX_W .| MASK_AQRL) match_opcode (INSN_DREF .| INSN_4_BYTE);
  row "amomaxu.w.aq" 0 INSN_CLASS_A "d,t,0(s)" (MATCH_AMOMAXU_W .| MASK_AQ) (MASK_AMOMAXU_W .| MASK_AQRL) match_opcode (INSN_DREF .| INSN_4_BYTE);
  row "amomin.w.aq" 0 INSN_CLASS_A "d,t,0(s)" (MATCH_AMOMIN_W .| MASK_AQ) (MASK_AMOMIN_W .| MASK_AQRL) match_opcode (INSN_DREF .| INSN_4_BYTE);
  row "amominu.w.aq" 0 INSN_CLASS_A "d,t,0(s)" (MATCH_AMOMINU_W .| MASK_AQ) (MASK_AMOMINU_W .| MASK_AQRL) match_opcode (INSN_DREF .| INSN_4_BYTE);
  row "lr.w.rl" 0 INSN_CLASS_A "d,0(s)" (MATCH_LR_W .| MASK_RL) (MASK_LR_W .| MASK_AQRL) match_opcode (INSN_DREF .| INSN_4_BYTE);
  row "sc.w.rl" 0 INSN_CLASS_A "d,t,0(s)" (MATCH_SC_W .| MASK_RL) (MASK_SC_W .| MASK_AQRL) match_opcode (INSN_DREF .| INSN_4_BYTE);
  row "amoadd.w.rl" 0 INSN_CLASS_A "d,t,0(s)" (MATCH_AMOADD_W .| MASK_RL) (MASK_AMOADD_W .| MASK_AQRL) match_opcode (INSN_DREF .| INSN_4_BYTE);
  row "amoswap.w.rl" 0 INSN_CLASS_A "d,t,0(s)" (MATCH_AMOSWAP_W .| MASK_RL) (MASK_AMOSWAP_W .| MASK_AQRL) match_opcode (INSN_DREF .| INSN_4_BYTE);
  row "amoand.w.rl" 0 INSN_CLASS_A "d,t,0(s)" (MATCH_AMOAND_W .| MASK_RL) (MASK_AMOAND_W .| MASK_AQRL) match_opcode (INSN_DREF .| INSN_4_BYTE);
  row "amoor.w.rl" 0 INSN_CLASS_A "d,t,0(s)" (MATCH_AMOOR_W .| MASK_RL) (MASK_AMOOR_W .| MASK_AQRL) match_opcode (INSN_DREF .| INSN_4_BYTE);
  row "amoxor.w.rl" 0 INSN_CLASS_A "d,t,0(s)" (MATCH_AMOXOR_W .| MASK_RL) (MASK_AMOXOR_W .| MASK_AQRL) match_opcode (INSN_DREF .| INSN_4_BYTE);
  row "amomax.w.rl" 0 INSN_CLASS_A "d,t,0(s)" (MATCH_AMOMAX_W .| MASK_RL) (MASK_AMOMAX_W .| MASK_AQRL) match_opcode (INSN_DREF .| INSN_4_BYTE);
  row "amomaxu.w.rl" 0 INSN_CLASS_A "d,t,0(s)" (MATCH_AMOMAXU_W .| MASK_RL) (MASK_AMOMAXU_W .| MASK_AQRL) match_opcode (INSN_DREF .| INSN_4_BYTE);
  row "amomin.w.rl" 0 INSN_CLASS_A "d,t,0(s)" (MATCH_AMOMIN_W .| MASK_RL) (MASK_AMOMIN_W .| MASK_AQRL) match_opcode (INSN_DREF .| INSN_4_BYTE);
  row "amominu.w.rl" 0 INSN_CLASS_A "d,t,0(s)" (MATCH_AMOMINU_W .| MASK_RL) (MASK_AMOMINU_W .| MASK_AQRL) match_opcode (INSN_DREF .| INSN_4_BYTE);
  row "lr.w.aqrl" 0 INSN_CLASS_A "d,0(s)" (MATCH_LR_W .| MASK_AQRL) (MASK_LR_W .| MASK_AQRL) match_opcode (INSN_DREF .| INSN_4_BYTE);
  row "sc.w.aqrl" 0 INSN_CLASS_A "d,t,0(s)" (MATCH_SC_W .| MASK_AQRL) (MASK_SC_W .| MASK_AQRL) match_opcode (INSN_DREF .| INSN_4_BYTE);
  row "amoadd.w.aqrl" 0 INSN_CLASS_A "d,t,0(s)" (MATCH_AMOADD_W .| MASK_AQRL) (MASK_AMOADD_W .| MASK_AQRL) match_opcode (INSN_DREF .| INSN_4_BYTE);
  row "amoswap.w.aqrl" 0 INSN_CLASS_A "d,t,0(s)" (MATCH_AMOSWAP_W .| MASK_AQRL) (MASK_AMOSWAP_W .| MASK_AQRL) match_opcode (INSN_DREF .| INSN_4_BYTE);
  row "amoand.w.aqrl" 0 INSN_CLASS_A "d,t,0(s)" (MATCH_AMOAND_W .| MASK_AQRL) (MASK_AMOAND_W .| MASK_AQRL) match_opcode (INSN_DREF .| INSN_4_BYTE);
  row "amoor.w.aqrl" 0 INSN_CLASS_A "d,t,0(s)" (MATCH_AMOOR_W .| MASK_AQRL) (MASK_AMOOR_W .| MASK_AQRL) match_opcode (INSN_DREF .| INSN_4_BYTE);
  row "amoxor.w.aqrl" 0 INSN_CLASS_A "d,t,0(s)" (MATCH_AMOXOR_W .| MASK_AQRL) (MASK_AMOXOR_W .| MASK_AQRL) match_opcode (INSN_DREF .| INSN_4_BYTE);
  row "amomax.w.aqrl" 0 INSN_CLASS_A "d,t,0(s)" (MATCH_AMOMAX_W .| MASK_AQRL) (MASK_AMOMAX_W .| MASK_AQRL) match_opcode (INSN_DREF .| INSN_4_BYTE);
  row "amomaxu.w.aqrl" 0 INSN_CLASS_A "d,t,0(s)" (MATCH_AMOMAXU_W .| MASK_AQRL) (MASK_AMOMAXU_W .| MASK_AQRL) match_opcode (INSN_DREF .| INSN_4_BYTE);
  row "amomin.w.aqrl" 0 INSN_CLASS_A "d,t,0(s)" (MATCH_AMOMIN_W .| MASK_AQRL) (MASK_AMOMIN_W .| MASK_AQRL) match_opcode (INSN_DREF .| INSN_4_BYTE);
  row "amominu.w.aqrl" 0 INSN_CLASS_A "d,t,0(s)" (MATCH_AMOMINU_W .| MASK_AQRL) (MASK_AMOMINU_W .| MASK_AQRL) match_opcode (INSN_DREF .| INSN_4_BYTE);
  row "lr.d" 64 INSN_CLASS_A "d,0(s)" MATCH_LR_D (MASK_LR_D .| MASK_AQRL) match_opcode (INSN_DREF .| INSN_8_BYTE);
  row "sc.d" 64 INSN_CLASS_A "d,t,0(s)" MATCH_SC_D (MASK_SC_D .| MASK_AQRL) match_opcode (INSN_DREF .| INSN_8_BYTE);
  row "amoadd.d" 64 INSN_CLASS_A "d,t,0(s)" MATCH_AMOADD_D (MASK_AMOADD_D .| MASK_AQRL) match_opcode (INSN_DREF .| INSN_8_BYTE);
  row "amoswap.d" 64 INSN_CLASS_A "d,t,0(s)" MATCH_AMOSWAP_D (MASK_AMOSWAP_D .| MASK_AQRL) match_opcode (INSN_DREF .| INSN_8_BYTE);
  row "amoand.d" 64 INSN_CLASS_A "d,t,0(s)" MATCH_AMOAND_D (MASK_AMOAND_D .| MASK_AQRL) match_opcode (INSN_DREF .| INSN_8_BYTE);
  row "amoor.d" 64 INSN_CLASS_A "d,t,0(s)" MATCH_AMOOR_D (MASK_AMOOR_D .| MASK_AQRL) match_opcode (INSN_DREF .| INSN_8_BYTE);
  row "amoxor.d" 64 INSN_CLASS_A "d,t,0(s)" MATCH_AMOXOR_D (MASK_AMOXOR_D .| MASK_AQRL) match_opcode (INSN_DREF .| INSN_8_BYTE);
  row "amomax.d" 64 INSN_CLASS_A "d,t,0(s)" MATCH_AMOMAX_D (MASK_AMOMAX_D .| MASK_AQRL) match_opcode (INSN_DREF .| INSN_8_BYTE);
  row "amomaxu.d" 64 INSN_CLASS_A "d,t,0(s)" MATCH_AMOMAXU_D (MASK_AMOMAXU_D .| MASK_AQRL) match_opcode (INSN_DREF .| INSN_8_BYTE);
  row "amomin.d" 64 INSN_CLASS_A "d,t,0(s)" MATCH_AMOMIN_D (MASK_AMOMIN_D .| MASK_AQRL) match_opcode (INSN_DREF .| INSN_8_BYTE);
  row "amominu.d" 64 INSN_CLASS_A "d,t,0(s)" MATCH_AMOMINU_D (MASK_AMOMINU_D .| MASK_AQRL) match_opcode (INSN_DREF .| INSN_8_BYTE);
  row "lr.d.aq" 64 INSN_CLASS_A "d,0(s)" (MATCH_LR_D .| MASK_AQ) (MASK_LR_D .| MASK_AQRL) match_opcode (INSN_DREF .| INSN_8_BYTE);
  row "sc.d.aq" 64 INSN_CLASS_A "d,t,0(s)" (MATCH_SC_D .| MASK_AQ) (MASK_SC_D .| MASK_AQRL) match_opcode (INSN_DREF .| INSN_8_BYTE);
  row "amoadd.d.aq" 64 INSN_CLASS_A "d,t,0(s)" (MATCH_AMOADD_D .| MASK_AQ) (MASK_AMOADD_D .| MASK_AQRL) match_opcode (INSN_DREF .| INSN_8_BYTE);
  row "amoswap.d.aq" 64 INSN_CLASS_A "d,t,0(s)" (MATCH_AMOSWAP_D .| MASK_AQ) (MASK_AMOSWAP_D .| MASK_AQRL) match_opcode (INSN_DREF .| INSN_8_BYTE);
  row "amoand.d.aq" 64 INSN_CLASS_A "d,t,0(s)" (MATCH_AMOAND_D .| MASK_AQ) (MASK_AMOAND_D .| MASK_AQRL) match_opcode (INSN_DREF .| INSN_8_BYTE);
  row "amoor.d.aq" 64 INSN_CLASS_A "d,t,0(s)" (MATCH_AMOOR_D .| MASK_AQ) (MASK_AMOOR_D .| MASK_AQRL) match_opcode (INSN_DREF .| INSN_8_BYTE);
  row "amoxor.d.aq" 64 INSN_CLASS_A "d,t,0(s)" (MATCH_AMOXOR_D .| MASK_AQ) (MASK_AMOXOR_D .| MASK_AQRL) match_opcode (INSN_DREF .| INSN_8_BYTE);
  row "amomax.d.aq" 64 INSN_CLASS_A "d,t,0(s)" (MATCH_AMOMAX_D .| MASK_AQ) (MASK_AMOMAX_D .| MASK_AQRL) match_opcode (INSN_DREF .| INSN_8_BYTE);
  row "amomaxu.d.aq" 64 INSN_CLASS_A "d,t,0(s)" (MATCH_AMOMAXU_D .| MASK_AQ) (MASK_AMOMAXU_D .| MASK_AQRL) match_opcode (INSN_DREF .| INSN_8_BYTE);
  row "amomin.d.aq" 64 INSN_CLASS_A "d,t,0(s)" (MATCH_AMOMIN_D .| MASK_AQ) (MASK_AMOMIN_D .| MASK_AQRL) match_opcode (INSN_DREF .| INSN_8_BYTE);
  row "amominu.d.aq" 64 INSN_CLASS_A "d,t,0(s)" (MATCH_AMOMINU_D .| MASK_AQ) (MASK_AMOMINU_D .| MASK_AQRL) match_opcode (INSN_DREF .| INSN_8_BYTE);
  row "lr.d.rl" 64 INSN_CLASS_A "d,0(s)" (MATCH_LR_D .| MASK_RL) (MASK_LR_D .| MASK_AQRL) match_opcode (INSN_DREF .| INSN_8_BYTE)
].

Definition riscv_opcodes_03 : list riscv_opcode := [
  row "sc.d.rl" 64 INSN_CLASS_A "d,t,0(s)" (MATCH_SC_D .| MASK_RL) (MASK_SC_D .| MASK_AQRL) match_opcode (INSN_DREF .| INSN_8_BYTE);
  row "amoadd.d.rl" 64 INSN_CLASS_A "d,t,0(s)" (MATCH_AMOADD_D .| MASK_RL) (MASK_AMOADD_D .| MASK_AQRL) match_opcode (INSN_DREF .| INSN_8_BYTE);
  row "amoswap.d.rl" 64 INSN_CLASS_A "d,t,0(s)" (MATCH_AMOSWAP_D .| MASK_RL) (MASK_AMOSWAP_D .| MASK_AQRL) match_opcode (INSN_DREF .| INSN_8_BYTE);
  row "amoand.d.rl" 64 INSN_CLASS_A "d,t,0(s)" (MATCH_AMOAND_D .| MASK_RL) (MASK_AMOAND_D .| MASK_AQRL) match_opcode (INSN_DREF .| INSN_8_BYTE);
  row "amoor.d.rl" 64 INSN_CLASS_A "d,t,0(s)" (MATCH_AMOOR_D .| MASK_RL) (MASK_AMOOR_D .| MASK_AQRL) match_opcode (INSN_DREF .| INSN_8_BYTE);
  row "amoxor.d.rl" 64 INSN_CLASS_A "d,t,0(s)" (MATCH_AMOXOR_D .| MASK_RL) (MASK_AMOXOR_D .| MASK_AQRL) match_opcode (INSN_DREF .| INSN_8_BYTE);
  row "amomax.d.rl" 64 INSN_CLASS_A "d,t,0(s)" (MATCH_AMOMAX_D .| MASK_RL) (MASK_AMOMAX_D .| MASK_AQRL) match_opcode (INSN_DREF .| INSN_8_BYTE);
  row "amomaxu.d.rl" 64 INSN_CLASS_A "d,t,0(s)" (MATCH_AMOMAXU_D .| MASK_RL) (MASK_AMOMAXU_D .| MASK_AQRL) match_opcode (INSN_DREF .| INSN_8_BYTE);
  row "amomin.d.rl" 64 INSN_CLASS_A "d,t,0(s)" (MATCH_AMOMIN_D .| MASK_RL) (MASK_AMOMIN_D .| MASK_AQRL) match_opcode (INSN_DREF .| INSN_8_BYTE);
  row "amominu.d.rl" 64 INSN_CLASS_A "d,t,0(s)" (MATCH_AMOMINU_D .| MASK_RL) (MASK_AMOMINU_D .| MASK_AQRL) match_opcode (INSN_DREF .| INSN_8_BYTE);
  row "lr.d.aqrl" 64 INSN_CLASS_A "d,0(s)" (MATCH_LR_D .| MASK_AQRL) (MASK_LR_D .| MASK_AQRL) match_opcode (INSN_DREF .| INSN_8_BYTE);
  row "sc.d.aqrl" 64 INSN_CLASS_A "d,t,0(s)" (MATCH_SC_D .| MASK_AQRL) (MASK_SC_D .| MASK_AQRL) match_opcode (INSN_DREF .| INSN_8_BYTE);
  row "amoadd.d.aqrl" 64 INSN_CLASS_A "d,t,0(s)" (MATCH_AMOADD_D .| MASK_AQRL) (MASK_AMOADD_D .| MASK_AQRL) match_opcode (INSN_DREF .| INSN_8_BYTE);
  row "amoswap.d.aqrl" 64 INSN_CLASS_A "d,t,0(s)" (MATCH_AMOSWAP_D .| MASK_AQRL) (MASK_AMOSWAP_D .| MASK_AQRL) match_opcode (INSN_DREF .| INSN_8_BYTE);
  row "amoand.d.aqrl" 64 INSN_CLASS_A "d,t,0(s)" (MATCH_AMOAND_D .| MASK_AQRL) (MASK_AMOAND_D .| MASK_AQRL) match_opcode (INSN_DREF .| INSN_8_BYTE);
  row "amoor.d.aqrl" 64 INSN_CLASS_A "d,t,0(s)" (MATCH_AMOOR_D .| MASK_AQRL) (MASK_AMOOR_D .| MASK_AQRL) match_opcode (INSN_DREF .| INSN_8_BYTE);
  row "amoxor.d.aqrl" 64 INSN_CLASS_A "d,t,0(s)" (MATCH_AMOXOR_D .| MASK_AQRL) (MASK_AMOXOR_D .| MASK_AQRL) match_opcode (INSN_DREF .| INSN_8_BYTE);
  row "amomax.d.aqrl" 64 INSN_CLASS_A "d,t,0(s)" (MATCH_AMOMAX_D .| MASK_AQRL) (MASK_AMOMAX_D .| MASK_AQRL) match_opcode (INSN_DREF .| INSN_8_BYTE);
  row "amomaxu.d.aqrl" 64 INSN_CLASS_A "d,t,0(s)" (MATCH_AMOMAXU_D .| MASK_AQRL) (MASK_AMOMAXU_D .| MASK_AQRL) match_opcode (INSN_DREF .| INSN_8_BYTE);
  row "amomin.d.aqrl" 64 INSN_CLASS_A "d,t,0(s)" (MATCH_AMOMIN_D .| MASK_AQRL) (MASK_AMOMIN_D .| MASK_AQRL) match_opcode (INSN_DREF .| INSN_8_BYTE);
  row "amominu.d.aqrl" 64 INSN_CLASS_A "d,t,0(s)" (MATCH_AMOMINU_D .| MASK_AQRL) (MASK_AMOMINU_D .| MASK_AQRL) match_opcode (INSN_DREF .| INSN_8_BYTE);
  row "mul" 0 INSN_CLASS_ZMMUL "d,s,t" MATCH_MUL MASK_MUL match_opcode 0;
  row "mulh" 0 INSN_CLASS_ZMMUL "d,s,t" MATCH_MULH MASK_MULH match_opcode 0;
  row "mulhu" 0 INSN_CLASS_ZMMUL "d,s,t" MATCH_MULHU MASK_MULHU match_opcode 0;
  row "mulhsu" 0 INSN_CLASS_ZMMUL "d,s,t" MATCH_MULHSU MASK_MULHSU match_opcode 0;
  row "div" 0 INSN_CLASS_M "d,s,t" MATCH_DIV MASK_DIV match_opcode 0;
  row "divu" 0 INSN_CLASS_M "d,s,t" MATCH_DIVU MASK_DIVU match_opcode 0;
  row "rem" 0 INSN_CLASS_M "d,s,t" MATCH_REM MASK_REM match_opcode 0;
  row "remu" 0 INSN_CLASS_M "d,s,t" MATCH_REMU MASK_REMU match_opcode 0;
  row "mulw" 64 INSN_CLASS_ZMMUL "d,s,t" MATCH_MULW MASK_MULW match_opcode 0;
  row "divw" 64 INSN_CLASS_M "d,s,t" MATCH_DIVW MASK_DIVW match_opcode 0;
  row "divuw" 64 INSN_CLASS_M "d,s,t" MATCH_DIVUW MASK_DIVUW match_opcode 0;
  row "remw" 64 INSN_CLASS_M "d,s,t" MATCH_REMW MASK_REMW match_opcode 0;
  row "remuw" 64 INSN_CLASS_M "d,s,t" MATCH_REMUW MASK_REMUW match_opcode 0;
  row "flh" 0 INSN_CLASS_ZFHMIN "D,o(s)" MATCH_FLH MASK_FLH match_opcode (INSN_DREF .| INSN_2_BYTE);
  row "flh" 0 INSN_CLASS_ZFHMIN "D,A,s" 0 M_FLH match_never INSN_MACRO;
  row "fsh" 0 INSN_CLASS_ZFHMIN "T,q(s)" MATCH_FSH MASK_FSH match_opcode (INSN_DREF .| INSN_2_BYTE);
  row "fsh" 0 INSN_CLASS_ZFHMIN "T,A,s" 0 M_FSH match_never INSN_MACRO;
  row "fmv.x.h" 0 INSN_CLASS_ZFHMIN "d,S" MATCH_FMV_X_H MASK_FMV_X_H match_opcode 0;
  row "fmv.h.x" 0 INSN_CLASS_ZFHMIN "D,s" MATCH_FMV_H_X MASK_FMV_H_X match_opcode 0;
  row "fmv.h" 0 INSN_CLASS_ZFH_INX "D,U" MATCH_FSGNJ_H MASK_FSGNJ_H match_rs1_eq_rs2 INSN_ALIAS;
  row "fneg.h" 0 INSN_CLASS_ZFH_INX "D,U" MATCH_FSGNJN_H MASK_FSGNJN_H match_rs1_eq_rs2 INSN_ALIAS;
  row "fabs.h" 0 INSN_CLASS_ZFH_INX "D,U" MATCH_FSGNJX_H MASK_FSGNJX_H match_rs1_eq_rs2 INSN_ALIAS;
  row "fsgnj.h" 0 INSN_CLASS_ZFH_INX "D,S,T" MATCH_FSGNJ_H MASK_FSGNJ_H match_opcode 0;
  row "fsgnjn.h" 0 INSN_CLASS_ZFH_INX "D,S,T" MATCH_FSGNJN_H MASK_FSGNJN_H match_opcode 0;
  row "fsgnjx.h" 0 INSN_CLASS_ZFH_INX "D,S,T" MATCH_FSGNJX_H MASK_FSGNJX_H match_opcode 0;
  row "fadd.h" 0 INSN_CLASS_ZFH_INX "D,S,T" (MATCH_FADD_H .| MASK_RM) (MASK_FADD_H .| MASK_RM) match_opcode 0;
  row "fadd.h" 0 INSN_CLASS_ZFH_INX "D,S,T,m" MATCH_FADD_H MASK_FADD_H match_opcode 0;
  row "fsub.h" 0 INSN_CLASS_ZFH_INX "D,S,T" (MATCH_FSUB_H .| MASK_RM) (MASK_FSUB_H .| MASK_RM) match_opcode 0;
  row "fsub.h" 0 INSN_CLASS_ZFH_INX "D,S,T,m" MATCH_FSUB_H MASK_FSUB_H match_opcode 0;
  row "fmul.h" 0 INSN_CLASS_ZFH_INX "D,S,T" (MATCH_FMUL_H .| MASK_RM) (MASK_FMUL_H .| MASK_RM) match_opcode 0;
  row "fmul.h" 0 INSN_CLASS_ZFH_INX "D,S,T,m" MATCH_FMUL_H MASK_FMUL_H match_opcode 0;
  row "fdiv.h" 0 INSN_CLASS_ZFH_INX "D,S,T" (MATCH_FDIV_H .| MASK_RM) (MASK_FDIV_H .| MASK_RM) match_opcode 0;
  row "fdiv.h" 0 INSN_CLASS_ZFH_INX "D,S,T,m" MATCH_FDIV_H MASK_FDIV_H match_opcode 0;
  row "fsqrt.h" 0 INSN_CLASS_ZFH_INX "D,S" (MATCH_FSQRT_H .| MASK_RM) (MASK_FSQRT_H .| MASK_RM) match_opcode 0;
  row "fsqrt.h" 0 INSN_CLASS_ZFH_INX "D,S,m" MATCH_FSQRT_H MASK_FSQRT_H match_opcode 0;
  row "fmin.h" 0 INSN_CLASS_ZFH_INX "D,S,T" MATCH_FMIN_H MASK_FMIN_H match_opcode 0;
  row "fmax.h" 0 INSN_CLASS_ZFH_INX "D,S,T" MATCH_FMAX_H MASK_FMAX_H match_opcode 0;
  row "fmadd.h" 0 INSN_CLASS_ZFH_INX "D,S,T,R" (MATCH_FMADD_H .| MASK_RM) (MASK_FMADD_H .| MASK_RM) match_opcode 0;
  row "fmadd.h" 0 INSN_CLASS_ZFH_INX "D,S,T,R,m" MATCH_FMADD_H MASK_FMADD_H match_opcode 0;
  row "fnmadd.h" 0 INSN_CLASS_ZFH_INX "D,S,T,R" (MATCH_FNMADD_H .| MASK_RM) (MASK_FNMADD_H .| MASK_RM) match_opcode 0;
  row "fnmadd.h" 0 INSN_CLASS_ZFH_INX "D,S,T,R,m" MATCH_FNMADD_H MASK_FNMADD_H match_opcode 0;
  row "fmsub.h" 0 INSN_CLASS_ZFH_INX "D,S,T,R" (MATCH_FMSUB_H .| MASK_RM) (MASK_FMSUB_H .| MASK_RM) match_opcode 0;
  row "fmsub.h" 0 INSN_CLASS_ZFH_INX "D,S,T,R,m" MATCH_FMSUB_H MASK_FMSUB_H match_opcode 0;
  row "fnmsub.h" 0 INSN_CLASS_ZFH_INX "D,S,T,R" (MATCH_FNMSUB_H .| MASK_RM) (MASK_FNMSUB_H .| MASK_RM) match_opcode 0;
  row "fnmsub.h" 0 INSN_CLASS_ZFH_INX "D,S,T,R,m" MATCH_FNMSUB_H MASK_FNMSUB_H match_opcode 0;
  row "fcvt.w.h" 0 INSN_CLASS_ZFH_INX "d,S" (MATCH_FCVT_W_H .| MASK_RM) (MASK_FCVT_W_H .| MASK_RM) match_opcode 0;
  row "fcvt.w.h" 0 INSN_CLASS_ZFH_INX "d,S,m" MATCH_FCVT_W_H MASK_FCVT_W_H match_opcode 0;
  row "fcvt.wu.h" 0 INSN_CLASS_ZFH_INX "d,S" (MATCH_FCVT_WU_H .| MASK_RM) (MASK_FCVT_WU_H .| MASK_RM) match_opcode 0;
  row "fcvt.wu.h" 0 INSN_CLASS_ZFH_INX "d,S,m" MATCH_FCVT_WU_H MASK_FCVT_WU_H match_opcode 0;
  row "fcvt.h.w" 0 INSN_CLASS_ZFH_INX "D,s" (MATCH_FCVT_H_W .| MASK_RM) (MASK_FCVT_H_W .| MASK_RM) match_opcode 0;
  row "fcvt.h.w" 0 INSN_CLASS_ZFH_INX "D,s,m" MATCH_FCVT_H_W MASK_FCVT_H_W match_opcode 0;
  row "fcvt.h.wu" 0 INSN_CLASS_ZFH_INX "D,s" (MATCH_FCVT_H_WU .| MASK_RM) (MASK_FCVT_H_WU .| MASK_RM) match_opcode 0;
  row "fcvt.h.wu" 0 INSN_CLASS_ZFH_INX "D,s,m" MATCH_FCVT_H_WU MASK_FCVT_H_WU match_opcode 0;
  row "fcvt.s.h" 0 INSN_CLASS_ZFHMIN_INX "D,S" MATCH_FCVT_S_H (MASK_FCVT_S_H .| MASK_RM) match_opcode 0;
  row "fcvt.d.h" 0 INSN_CLASS_ZFHMIN_AND_D_INX "D,S" MATCH_FCVT_D_H (MASK_FCVT_D_H .| MASK_RM) match_opcode 0;
  row "fcvt.q.h" 0 INSN_CLASS_ZFHMIN_AND_Q_INX "D,S" MATCH_FCVT_Q_H (MASK_FCVT_Q_H .| MASK_RM) match_opcode 0;
  row "fcvt.h.s" 0 INSN_CLASS_ZFHMIN_INX "D,S" (MATCH_FCVT_H_S .| MASK_RM) (MASK_FCVT_H_S .| MASK_RM) match_opcode 0;
  row "fcvt.h.s" 0 INSN_CLASS_ZFHMIN_INX "D,S,m" MATCH_FCVT_H_S MASK_FCVT_H_S match_opcode 0;
  row "fcvt.h.d" 0 INSN_CLASS_ZFHMIN_AND_D_INX "D,S" (MATCH_FCVT_H_D .| MASK_RM) (MASK_FCVT_H_D .| MASK_RM) match_opcode 0;
  row "fcvt.h.d" 0 INSN_CLASS_ZFHMIN_AND_D_INX "D,S,m" MATCH_FCVT_H_D MASK_FCVT_H_D match_opcode 0;
  row "fcvt.h.q" 0 INSN_CLASS_ZFHMIN_AND_Q_INX "D,S" (MATCH_FCVT_H_Q .| MASK_RM) (MASK_FCVT_H_Q .| MASK_RM) match_opcode 0;
  row "fcvt.h.q" 0 INSN_CLASS_ZFHMIN_AND_Q_INX "D,S,m" MATCH_FCVT_H_Q MASK_FCVT_H_Q match_opcode 0;
  row "fclass.h" 0 INSN_CLASS_ZFH_INX "d,S" MATCH_FCLASS_H MASK_FCLASS_H match_opcode 0;
  row "feq.h" 0 INSN_CLASS_ZFH_INX "d,S,T" MATCH_FEQ_H MASK_FEQ_H match_opcode 0;
  row "flt.h" 0 INSN_CLASS_ZFH_INX "d,S,T" MATCH_FLT_H MASK_FLT_H match_opcode 0;
  row "fle.h" 0 INSN_CLASS_ZFH_INX "d,S,T" MATCH_FLE_H MASK_FLE_H match_opcode 0;
  row "fgt.h" 0 INSN_CLASS_ZFH_INX "d,T,S" MATCH_FLT_H MASK_FLT_H match_opcode 0;
  row "fge.h" 0 INSN_CLASS_ZFH_INX "d,T,S" MATCH_FLE_H MASK_FLE_H match_opcode 0;
  row "fcvt.l.h" 64 INSN_CLASS_ZFH_INX "d,S" (MATCH_FCVT_L_H .| MASK_RM) (MASK_FCVT_L_H .| MASK_RM) match_opcode 0;
  row "fcvt.l.h" 64 INSN_CLASS_ZFH_INX "d,S,m" MATCH_FCVT_L_H MASK_FCVT_L_H match_opcode 0;
  row "fcvt.lu.h" 64 INSN_CLASS_ZFH_INX "d,S" (MATCH_FCVT_LU_H .| MASK_RM) (MASK_FCVT_LU_H .| MASK_RM) match_opcode 0;
  row "fcvt.lu.h" 64 INSN_CLASS_ZFH_INX "d,S,m" MATCH_FCVT_LU_H MASK_FCVT_LU_H match_opcode 0;
  row "fcvt.h.l" 64 INSN_CLASS_ZFH_INX "D,s" (MATCH_FCVT_H_L .| MASK_RM) (MASK_FCVT_H_L .| MASK_RM) match_opcode 0;
  row "fcvt.h.l" 64 INSN_CLASS_ZFH_INX "D,s,m" MATCH_FCVT_H_L MASK_FCVT_H_L match_opcode 0;
  row "fcvt.h.lu" 64 INSN_CLASS_ZFH_INX "D,s" (MATCH_FCVT_H_LU .| MASK_RM) (MASK_FCVT_H_LU .| MASK_RM) match_opcode 0;
  row "fcvt.h.lu" 64 INSN_CLASS_ZFH_INX "D,s,m" MATCH_FCVT_H_LU MASK_FCVT_H_LU match_opcode 0;
  row "frcsr" 0 INSN_CLASS_F_INX "d" MATCH_FRCSR MASK_FRCSR match_opcode INSN_ALIAS;
  row "frsr" 0 INSN_CLASS_F_INX "d" MATCH_FRCSR MASK_FRCSR match_opcode INSN_ALIAS;
  row "fscsr" 0 INSN_CLASS_F_INX "s" MATCH_FSCSR (MASK_FSCSR .| MASK_RD) match_opcode INSN_ALIAS;
  row "fscsr" 0 INSN_CLASS_F_INX "d,s" MATCH_FSCSR MASK_FSCSR match_opcode INSN_ALIAS;
  row "fssr" 0 INSN_CLASS_F_INX "s" MATCH_FSCSR (MASK_FSCSR .| MASK_RD) match_opcode INSN_ALIAS;
  row "fssr" 0 INSN_CLASS_F_INX "d,s" MATCH_FSCSR MASK_FSCSR match_opcode INSN_ALIAS;
  row "frrm" 0 INSN_CLASS_F_INX "d" MATCH_FRRM MASK_FRRM match_opcode INSN_ALIAS;
  row "fsrm" 0 INSN_CLASS_F_INX "s" MATCH_FSRM (MASK_FSRM .| MASK_RD) match_opcode INSN_ALIAS;
  row "fsrm" 0 INSN_CLASS_F_INX "d,s" MATCH_FSRM MASK_FSRM match_opcode INSN_ALIAS;
  row "fsrmi" 0 INSN_CLASS_F_INX "d,Z" MATCH_FSRMI MASK_FSRMI match_opcode INSN_ALIAS;
  row "fsrmi" 0 INSN_CLASS_F_INX "Z" MATCH_FSRMI (MASK_FSRMI .| MASK_RD) match_opcode INSN_ALIAS;
  row "frflags" 0 INSN_CLASS_F_INX "d" MATCH_FRFLAGS MASK_FRFLAGS match_opcode INSN_ALIAS;
  row "fsflags" 0 INSN_CLASS_F_INX "s" MATCH_FSFLAGS (MASK_FSFLAGS .| MASK_RD) match_opcode INSN_ALIAS;
  row "fsflags" 0 INSN_CLASS_F_INX "d,s" MATCH_FSFLAGS MASK_FSFLAGS match_opcode INSN_ALIAS;
  row "fsflagsi" 0 INSN_CLASS_F_INX "d,Z" MATCH_FSFLAGSI MASK_FSFLAGSI match_opcode INSN_ALIAS;
  row "fsflagsi" 0 INSN_CLASS_F_INX "Z" MATCH_FSFLAGSI (MASK_FSFLAGSI .| MASK_RD) match_opcode INSN_ALIAS;
  row "flw" 32 INSN_CLASS_F_AND_C "D,Cm(Cc)" MATCH_C_FLWSP MASK_C_FLWSP match_opcode (INSN_ALIAS .| INSN_DREF .| INSN_4_BYTE);
  row "flw" 32 INSN_CLASS_F_AND_C "CD,Ck(Cs)" MATCH_C_FLW MASK_C_FLW match_opcode (INSN_ALIAS .| INSN_DREF .| INSN_4_BYTE);
  row "flw" 0 INSN_CLASS_F "D,o(s)" MATCH_FLW MASK_FLW match_opcode (INSN_DREF .| INSN_4_BYTE);
  row "flw" 0 INSN_CLASS_F "D,A,s" 0 M_FLW match_never INSN_MACRO;
  row "fsw" 32 INSN_CLASS_F_AND_C "CT,CM(Cc)" MATCH_C_FSWSP MASK_C_FSWSP match_opcode (INSN_ALIAS .| INSN_DREF .| INSN_4_BYTE);
  row "fsw" 32 INSN_CLASS_F_AND_C "CD,Ck(Cs)" MATCH_C_FSW MASK_C_FSW match_opcode (INSN_ALIAS .| INSN_DREF .| INSN_4_BYTE);
  row "fsw" 0 INSN_CLASS_F "T,q(s)" MATCH_FSW MASK_FSW match_opcode (INSN_DREF .| INSN_4_BYTE);
  row "fsw" 0 INSN_CLASS_F "T,A,s" 0 M_FSW match_never INSN_MACRO;
  row "fmv.x.w" 0 INSN_CLASS_F "d,S" MATCH_FMV_X_S MASK_FMV_X_S match_opcode 0;
  row "fmv.w.x" 0 INSN_CLASS_F "D,s" MATCH_FMV_S_X MASK_FMV_S_X match_opcode 0;
  row "fmv.x.s" 0 INSN_CLASS_F "d,S" MATCH_FMV_X_S MASK_FMV_X_S match_opcode 0;
  row "fmv.s.x" 0 INSN_CLASS_F "D,s" MATCH_FMV_S_X MASK_FMV_S_X match_opcode 0;
  row "fmv.s" 0 INSN_CLASS_F_INX "D,U" MATCH_FSGNJ_S MASK_FSGNJ_S match_rs1_eq_rs2 INSN_ALIAS;
  row "fneg.s" 0 INSN_CLASS_F_INX "D,U" MATCH_FSGNJN_S MASK_FSGNJN_S match_rs1_eq_rs2 INSN_ALIAS;
  row "fabs.s" 0 INSN_CLASS_F_INX "D,U" MATCH_FSGNJX_S MASK_FSGNJX_S match_rs1_eq_rs2 INSN_ALIAS;
  row "fsgnj.s" 0 INSN_CLASS_F_INX "D,S,T" MATCH_FSGNJ_S MASK_FSGNJ_S match_opcode 0;
  row "fsgnjn.s" 0 INSN_CLASS_F_INX "D,S,T" MATCH_FSGNJN_S MASK_FSGNJN_S match_opcode 0;
  row "fsgnjx.s" 0 INSN_CLASS_F_INX "D,S,T" MATCH_FSGNJX_S MASK_FSGNJX_S match_opcode 0;
  row "fadd.s" 0 INSN_CLASS_F_INX "D,S,T" (MATCH_FADD_S .| MASK_RM) (MASK_FADD_S .| MASK_RM) match_opcode 0;
  row "fadd.s" 0 INSN_CLASS_F_INX "D,S,T,m" MATCH_FADD_S MASK_FADD_S match_opcode 0;
  row "fsub.s" 0 INSN_CLASS_F_INX "D,S,T" (MATCH_FSUB_S .| MASK_RM) (MASK_FSUB_S .| MASK_RM) match_opcode 0;
  row "fsub.s" 0 INSN_CLASS_F_INX "D,S,T,m" MATCH_FSUB_S MASK_FSUB_S match_opcode 0;
  row "fmul.s" 0 INSN_CLASS_F_INX "D,S,T" (MATCH_FMUL_S .| MASK_RM) (MASK_FMUL_S .| MASK_RM) match_opcode 0;
  row "fmul.s" 0 INSN_CLASS_F_INX "D,S,T,m" MATCH_FMUL_S MASK_FMUL_S match_opcode 0;
  row "fdiv.s" 0 INSN_CLASS_F_INX "D,S,T" (MATCH_FDIV_S .| MASK_RM) (MASK_FDIV_S .| MASK_RM) match_opcode 0;
  row "fdiv.s" 0 INSN_CLASS_F_INX "D,S,T,m" MATCH_FDIV_S MASK_FDIV_S match_opcode 0;
  row "fsqrt.s" 0 INSN_CLASS_F_INX "D,S" (MATCH_FSQRT_S .| MASK_RM) (MASK_FSQRT_S .| MASK_RM) match_opcode 0;
  row "fsqrt.s" 0 INSN_CLASS_F_INX "D,S,m" MATCH_FSQRT_S MASK_FSQRT_S match_opcode 0;
  row "fmin.s" 0 INSN_CLASS_F_INX "D,S,T" MATCH_FMIN_S MASK_FMIN_S match_opcode 0;
  row "fmax.s" 0 INSN_CLASS_F_INX "D,S,T" MATCH_FMAX_S MASK_FMAX_S match_opcode 0
].

Definition riscv_opcodes_04 : list riscv_opcode := [
  row "fmadd.s" 0 INSN_CLASS_F_INX "D,S,T,R" (MATCH_FMADD_S .| MASK_RM) (MASK_FMADD_S .| MASK_RM) match_opcode 0;
  row "fmadd.s" 0 INSN_CLASS_F_INX "D,S,T,R,m" MATCH_FMADD_S MASK_FMADD_S match_opcode 0;
  row "fnmadd.s" 0 INSN_CLASS_F_INX "D,S,T,R" (MATCH_FNMADD_S .| MASK_RM) (MASK_FNMADD_S .| MASK_RM) match_opcode 0;
  row "fnmadd.s" 0 INSN_CLASS_F_INX "D,S,T,R,m" MATCH_FNMADD_S MASK_FNMADD_S match_opcode 0;
  row "fmsub.s" 0 INSN_CLASS_F_INX "D,S,T,R" (MATCH_FMSUB_S .| MASK_RM) (MASK_FMSUB_S .| MASK_RM) match_opcode 0;
  row "fmsub.s" 0 INSN_CLASS_F_INX "D,S,T,R,m" MATCH_FMSUB_S MASK_FMSUB_S match_opcode 0;
  row "fnmsub.s" 0 INSN_CLASS_F_INX "D,S,T,R" (MATCH_FNMSUB_S .| MASK_RM) (MASK_FNMSUB_S .| MASK_RM) match_opcode 0;
  row "fnmsub.s" 0 INSN_CLASS_F_INX "D,S,T,R,m" MATCH_FNMSUB_S MASK_FNMSUB_S match_opcode 0;
  row "fcvt.w.s" 0 INSN_CLASS_F_INX "d,S" (MATCH_FCVT_W_S .| MASK_RM) (MASK_FCVT_W_S .| MASK_RM) match_opcode 0;
  row "fcvt.w.s" 0 INSN_CLASS_F_INX "d,S,m" MATCH_FCVT_W_S MASK_FCVT_W_S match_opcode 0;
  row "fcvt.wu.s" 0 INSN_CLASS_F_INX "d,S" (MATCH_FCVT_WU_S .| MASK_RM) (MASK_FCVT_WU_S .| MASK_RM) match_opcode 0;
  row "fcvt.wu.s" 0 INSN_CLASS_F_INX "d,S,m" MATCH_FCVT_WU_S MASK_FCVT_WU_S match_opcode 0;
  row "fcvt.s.w" 0 INSN_CLASS_F_INX "D,s" (MATCH_FCVT_S_W .| MASK_RM) (MASK_FCVT_S_W .| MASK_RM) match_opcode 0;
  row "fcvt.s.w" 0 INSN_CLASS_F_INX "D,s,m" MATCH_FCVT_S_W MASK_FCVT_S_W match_opcode 0;
  row "fcvt.s.wu" 0 INSN_CLASS_F_INX "D,s" (MATCH_FCVT_S_WU .| MASK_RM) (MASK_FCVT_S_WU .| MASK_RM) match_opcode 0;
  row "fcvt.s.wu" 0 INSN_CLASS_F_INX "D,s,m" MATCH_FCVT_S_WU MASK_FCVT_S_WU match_opcode 0;
  row "fclass.s" 0 INSN_CLASS_F_INX "d,S" MATCH_FCLASS_S MASK_FCLASS_S match_opcode 0;
  row "feq.s" 0 INSN_CLASS_F_INX "d,S,T" MATCH_FEQ_S MASK_FEQ_S match_opcode 0;
  row "flt.s" 0 INSN_CLASS_F_INX "d,S,T" MATCH_FLT_S MASK_FLT_S match_opcode 0;
  row "fle.s" 0 INSN_CLASS_F_INX "d,S,T" MATCH_FLE_S MASK_FLE_S match_opcode 0;
  row "fgt.s" 0 INSN_CLASS_F_INX "d,T,S" MATCH_FLT_S MASK_FLT_S match_opcode 0;
  row "fge.s" 0 INSN_CLASS_F_INX "d,T,S" MATCH_FLE_S MASK_FLE_S match_opcode 0;
  row "fcvt.l.s" 64 INSN_CLASS_F_INX "d,S" (MATCH_FCVT_L_S .| MASK_RM) (MASK_FCVT_L_S .| MASK_RM) match_opcode 0;
  row "fcvt.l.s" 64 INSN_CLASS_F_INX "d,S,m" MATCH_FCVT_L_S MASK_FCVT_L_S match_opcode 0;
  row "fcvt.lu.s" 64 INSN_CLASS_F_INX "d,S" (MATCH_FCVT_LU_S .| MASK_RM) (MASK_FCVT_LU_S .| MASK_RM) match_opcode 0;
  row "fcvt.lu.s" 64 INSN_CLASS_F_INX "d,S,m" MATCH_FCVT_LU_S MASK_FCVT_LU_S match_opcode 0;
  row "fcvt.s.l" 64 INSN_CLASS_F_INX "D,s" (MATCH_FCVT_S_L .| MASK_RM) (MASK_FCVT_S_L .| MASK_RM) match_opcode 0;
  row "fcvt.s.l" 64 INSN_CLASS_F_INX "D,s,m" MATCH_FCVT_S_L MASK_FCVT_S_L match_opcode 0;
  row "fcvt.s.lu" 64 INSN_CLASS_F_INX "D,s" (MATCH_FCVT_S_LU .| MASK_RM) (MASK_FCVT_S_LU .| MASK_RM) match_opcode 0;
  row "fcvt.s.lu" 64 INSN_CLASS_F_INX "D,s,m" MATCH_FCVT_S_LU MASK_FCVT_S_LU match_opcode 0;
  row "fld" 0 INSN_CLASS_D_AND_C "D,Cn(Cc)" MATCH_C_FLDSP MASK_C_FLDSP match_opcode (INSN_ALIAS .| INSN_DREF .| INSN_8_BYTE);
  row "fld" 0 INSN_CLASS_D_AND_C "CD,Cl(Cs)" MATCH_C_FLD MASK_C_FLD match_opcode (INSN_ALIAS .| INSN_DREF .| INSN_8_BYTE);
  row "fld" 0 INSN_CLASS_D "D,o(s)" MATCH_FLD MASK_FLD match_opcode (INSN_DREF .| INSN_8_BYTE);
  row "fld" 0 INSN_CLASS_D "D,A,s" 0 M_FLD match_never INSN_MACRO;
  row "fsd" 0 INSN_CLASS_D_AND_C "CT,CN(Cc)" MATCH_C_FSDSP MASK_C_FSDSP match_opcode (INSN_ALIAS .| INSN_DREF .| INSN_8_BYTE);
  row "fsd" 0 INSN_CLASS_D_AND_C "CD,Cl(Cs)" MATCH_C_FSD MASK_C_FSD match_opcode (INSN_ALIAS .| INSN_DREF .| INSN_8_BYTE);
  row "fsd" 0 INSN_CLASS_D "T,q(s)" MATCH_FSD MASK_FSD match_opcode (INSN_DREF .| INSN_8_BYTE);
  row "fsd" 0 INSN_CLASS_D "T,A,s" 0 M_FSD match_never INSN_MACRO;
  row "fmv.d" 0 INSN_CLASS_D_INX "D,U" MATCH_FSGNJ_D MASK_FSGNJ_D match_rs1_eq_rs2 INSN_ALIAS;
  row "fneg.d" 0 INSN_CLASS_D_INX "D,U" MATCH_FSGNJN_D MASK_FSGNJN_D match_rs1_eq_rs2 INSN_ALIAS;
  row "fabs.d" 0 INSN_CLASS_D_INX "D,U" MATCH_FSGNJX_D MASK_FSGNJX_D match_rs1_eq_rs2 INSN_ALIAS;
  row "fsgnj.d" 0 INSN_CLASS_D_INX "D,S,T" MATCH_FSGNJ_D MASK_FSGNJ_D match_opcode 0;
  row "fsgnjn.d" 0 INSN_CLASS_D_INX "D,S,T" MATCH_FSGNJN_D MASK_FSGNJN_D match_opcode 0;
  row "fsgnjx.d" 0 INSN_CLASS_D_INX "D,S,T" MATCH_FSGNJX_D MASK_FSGNJX_D match_opcode 0;
  row "fadd.d" 0 INSN_CLASS_D_INX "D,S,T" (MATCH_FADD_D .| MASK_RM) (MASK_FADD_D .| MASK_RM) match_opcode 0;
  row "fadd.d" 0 INSN_CLASS_D_INX "D,S,T,m" MATCH_FADD_D MASK_FADD_D match_opcode 0;
  row "fsub.d" 0 INSN_CLASS_D_INX "D,S,T" (MATCH_FSUB_D .| MASK_RM) (MASK_FSUB_D .| MASK_RM) match_opcode 0;
  row "fsub.d" 0 INSN_CLASS_D_INX "D,S,T,m" MATCH_FSUB_D MASK_FSUB_D match_opcode 0;
  row "fmul.d" 0 INSN_CLASS_D_INX "D,S,T" (MATCH_FMUL_D .| MASK_RM) (MASK_FMUL_D .| MASK_RM) match_opcode 0;
  row "fmul.d" 0 INSN_CLASS_D_INX "D,S,T,m" MATCH_FMUL_D MASK_FMUL_D match_opcode 0;
  row "fdiv.d" 0 INSN_CLASS_D_INX "D,S,T" (MATCH_FDIV_D .| MASK_RM) (MASK_FDIV_D .| MASK_RM) match_opcode 0;
  row "fdiv.d" 0 INSN_CLASS_D_INX "D,S,T,m" MATCH_FDIV_D MASK_FDIV_D match_opcode 0;
  row "fsqrt.d" 0 INSN_CLASS_D_INX "D,S" (MATCH_FSQRT_D .| MASK_RM) (MASK_FSQRT_D .| MASK_RM) match_opcode 0;
  row "fsqrt.d" 0 INSN_CLASS_D_INX "D,S,m" MATCH_FSQRT_D MASK_FSQRT_D match_opcode 0;
  row "fmin.d" 0 INSN_CLASS_D_INX "D,S,T" MATCH_FMIN_D MASK_FMIN_D match_opcode 0;
  row "fmax.d" 0 INSN_CLASS_D_INX "D,S,T" MATCH_FMAX_D MASK_FMAX_D match_opcode 0;
  row "fmadd.d" 0 INSN_CLASS_D_INX "D,S,T,R" (MATCH_FMADD_D .| MASK_RM) (MASK_FMADD_D .| MASK_RM) match_opcode 0;
  row "fmadd.d" 0 INSN_CLASS_D_INX "D,S,T,R,m" MATCH_FMADD_D MASK_FMADD_D match_opcode 0;
  row "fnmadd.d" 0 INSN_CLASS_D_INX "D,S,T,R" (MATCH_FNMADD_D .| MASK_RM) (MASK_FNMADD_D .| MASK_RM) match_opcode 0;
  row "fnmadd.d" 0 INSN_CLASS_D_INX "D,S,T,R,m" MATCH_FNMADD_D MASK_FNMADD_D match_opcode 0;
  row "fmsub.d" 0 INSN_CLASS_D_INX "D,S,T,R" (MATCH_FMSUB_D .| MASK_RM) (MASK_FMSUB_D .| MASK_RM) match_opcode 0;
  row "fmsub.d" 0 INSN_CLASS_D_INX "D,S,T,R,m" MATCH_FMSUB_D MASK_FMSUB_D match_opcode 0;
  row "fnmsub.d" 0 INSN_CLASS_D_INX "D,S,T,R" (MATCH_FNMSUB_D .| MASK_RM) (MASK_FNMSUB_D .| MASK_RM) match_opcode 0;
  row "fnmsub.d" 0 INSN_CLASS_D_INX "D,S,T,R,m" MATCH_FNMSUB_D MASK_FNMSUB_D match_opcode 0;
  row "fcvt.w.d" 0 INSN_CLASS_D_INX "d,S" (MATCH_FCVT_W_D .| MASK_RM) (MASK_FCVT_W_D .| MASK_RM) match_opcode 0;
  row "fcvt.w.d" 0 INSN_CLASS_D_INX "d,S,m" MATCH_FCVT_W_D MASK_FCVT_W_D match_opcode 0;
  row "fcvt.wu.d" 0 INSN_CLASS_D_INX "d,S" (MATCH_FCVT_WU_D .| MASK_RM) (MASK_FCVT_WU_D .| MASK_RM) match_opcode 0;
  row "fcvt.wu.d" 0 INSN_CLASS_D_INX "d,S,m" MATCH_FCVT_WU_D MASK_FCVT_WU_D match_opcode 0;
  row "fcvt.d.w" 0 INSN_CLASS_D_INX "D,s" MATCH_FCVT_D_W (MASK_FCVT_D_W .| MASK_RM) match_opcode 0;
  row "fcvt.d.wu" 0 INSN_CLASS_D_INX "D,s" MATCH_FCVT_D_WU (MASK_FCVT_D_WU .| MASK_RM) match_opcode 0;
  row "fcvt.d.s" 0 INSN_CLASS_D_INX "D,S" MATCH_FCVT_D_S (MASK_FCVT_D_S .| MASK_RM) match_opcode 0;
  row "fcvt.s.d" 0 INSN_CLASS_D_INX "D,S" (MATCH_FCVT_S_D .| MASK_RM) (MASK_FCVT_S_D .| MASK_RM) match_opcode 0;
  row "fcvt.s.d" 0 INSN_CLASS_D_INX "D,S,m" MATCH_FCVT_S_D MASK_FCVT_S_D match_opcode 0;
  row "fclass.d" 0 INSN_CLASS_D_INX "d,S" MATCH_FCLASS_D MASK_FCLASS_D match_opcode 0;
  row "feq.d" 0 INSN_CLASS_D_INX "d,S,T" MATCH_FEQ_D MASK_FEQ_D match_opcode 0;
  row "flt.d" 0 INSN_CLASS_D_INX "d,S,T" MATCH_FLT_D MASK_FLT_D match_opcode 0;
  row "fle.d" 0 INSN_CLASS_D_INX "d,S,T" MATCH_FLE_D MASK_FLE_D match_opcode 0;
  row "fgt.d" 0 INSN_CLASS_D_INX "d,T,S" MATCH_FLT_D MASK_FLT_D match_opcode 0;
  row "fge.d" 0 INSN_CLASS_D_INX "d,T,S" MATCH_FLE_D MASK_FLE_D match_opcode 0;
  row "fmv.x.d" 64 INSN_CLASS_D "d,S" MATCH_FMV_X_D MASK_FMV_X_D match_opcode 0;
  row "fmv.d.x" 64 INSN_CLASS_D "D,s" MATCH_FMV_D_X MASK_FMV_D_X match_opcode 0;
  row "fcvt.l.d" 64 INSN_CLASS_D_INX "d,S" (MATCH_FCVT_L_D .| MASK_RM) (MASK_FCVT_L_D .| MASK_RM) match_opcode 0;
  row "fcvt.l.d" 64 INSN_CLASS_D_INX "d,S,m" MATCH_FCVT_L_D MASK_FCVT_L_D match_opcode 0;
  row "fcvt.lu.d" 64 INSN_CLASS_D_INX "d,S" (MATCH_FCVT_LU_D .| MASK_RM) (MASK_FCVT_LU_D .| MASK_RM) match_opcode 0;
  row "fcvt.lu.d" 64 INSN_CLASS_D_INX "d,S,m" MATCH_FCVT_LU_D MASK_FCVT_LU_D match_opcode 0;
  row "fcvt.d.l" 64 INSN_CLASS_D_INX "D,s" (MATCH_FCVT_D_L .| MASK_RM) (MASK_FCVT_D_L .| MASK_RM) match_opcode 0;
  row "fcvt.d.l" 64 INSN_CLASS_D_INX "D,s,m" MATCH_FCVT_D_L MASK_FCVT_D_L match_opcode 0;
  row "fcvt.d.lu" 64 INSN_CLASS_D_INX "D,s" (MATCH_FCVT_D_LU .| MASK_RM) (MASK_FCVT_D_LU .| MASK_RM) match_opcode 0;
  row "fcvt.d.lu" 64 INSN_CLASS_D_INX "D,s,m" MATCH_FCVT_D_LU MASK_FCVT_D_LU match_opcode 0;
  row "flq" 0 INSN_CLASS_Q "D,o(s)" MATCH_FLQ MASK_FLQ match_opcode (INSN_DREF .| INSN_16_BYTE);
  row "flq" 0 INSN_CLASS_Q "D,A,s" 0 M_FLQ match_never INSN_MACRO;
  row "fsq" 0 INSN_CLASS_Q "T,q(s)" MATCH_FSQ MASK_FSQ match_opcode (INSN_DREF .| INSN_16_BYTE);
  row "fsq" 0 INSN_CLASS_Q "T,A,s" 0 M_FSQ match_never INSN_MACRO;
  row "fmv.q" 0 INSN_CLASS_Q_INX "D,U" MATCH_FSGNJ_Q MASK_FSGNJ_Q match_rs1_eq_rs2 INSN_ALIAS;
  row "fneg.q" 0 INSN_CLASS_Q_INX "D,U" MATCH_FSGNJN_Q MASK_FSGNJN_Q match_rs1_eq_rs2 INSN_ALIAS;
  row "fabs.q" 0 INSN_CLASS_Q_INX "D,U" MATCH_FSGNJX_Q MASK_FSGNJX_Q match_rs1_eq_rs2 INSN_ALIAS;
  row "fsgnj.q" 0 INSN_CLASS_Q_INX "D,S,T" MATCH_FSGNJ_Q MASK_FSGNJ_Q match_opcode 0;
  row "fsgnjn.q" 0 INSN_CLASS_Q_INX "D,S,T" MATCH_FSGNJN_Q MASK_FSGNJN_Q match_opcode 0;
  row "fsgnjx.q" 0 INSN_CLASS_Q_INX "D,S,T" MATCH_FSGNJX_Q MASK_FSGNJX_Q match_opcode 0;
  row "fadd.q" 0 INSN_CLASS_Q_INX "D,S,T" (MATCH_FADD_Q .| MASK_RM) (MASK_FADD_Q .| MASK_RM) match_opcode 0;
  row "fadd.q" 0 INSN_CLASS_Q_INX "D,S,T,m" MATCH_FADD_Q MASK_FADD_Q match_opcode 0;
  row "fsub.q" 0 INSN_CLASS_Q_INX "D,S,T" (MATCH_FSUB_Q .| MASK_RM) (MASK_FSUB_Q .| MASK_RM) match_opcode 0;
  row "fsub.q" 0 INSN_CLASS_Q_INX "D,S,T,m" MATCH_FSUB_Q MASK_FSUB_Q match_opcode 0;
  row "fmul.q" 0 INSN_CLASS_Q_INX "D,S,T" (MATCH_FMUL_Q .| MASK_RM) (MASK_FMUL_Q .| MASK_RM) match_opcode 0;
  row "fmul.q" 0 INSN_CLASS_Q_INX "D,S,T,m" MATCH_FMUL_Q MASK_FMUL_Q match_opcode 0;
  row "fdiv.q" 0 INSN_CLASS_Q_INX "D,S,T" (MATCH_FDIV_Q .| MASK_RM) (MASK_FDIV_Q .| MASK_RM) match_opcode 0;
  row "fdiv.q" 0 INSN_CLASS_Q_INX "D,S,T,m" MATCH_FDIV_Q MASK_FDIV_Q match_opcode 0;
  row "fsqrt.q" 0 INSN_CLASS_Q_INX "D,S" (MATCH_FSQRT_Q .| MASK_RM) (MASK_FSQRT_Q .| MASK_RM) match_opcode 0;
  row "fsqrt.q" 0 INSN_CLASS_Q_INX "D,S,m" MATCH_FSQRT_Q MASK_FSQRT_Q match_opcode 0;
  row "fmin.q" 0 INSN_CLASS_Q_INX "D,S,T" MATCH_FMIN_Q MASK_FMIN_Q match_opcode 0;
  row "fmax.q" 0 INSN_CLASS_Q_INX "D,S,T" MATCH_FMAX_Q MASK_FMAX_Q match_opcode 0;
  row "fmadd.q" 0 INSN_CLASS_Q_INX "D,S,T,R" (MATCH_FMADD_Q .| MASK_RM) (MASK_FMADD_Q .| MASK_RM) match_opcode 0;
  row "fmadd.q" 0 INSN_CLASS_Q_INX "D,S,T,R,m" MATCH_FMADD_Q MASK_FMADD_Q match_opcode 0;
  row "fnmadd.q" 0 INSN_CLASS_Q_INX "D,S,T,R" (MATCH_FNMADD_Q .| MASK_RM) (MASK_FNMADD_Q .| MASK_RM) match_opcode 0;
  row "fnmadd.q" 0 INSN_CLASS_Q_INX "D,S,T,R,m" MATCH_FNMADD_Q MASK_FNMADD_Q match_opcode 0;
  row "fmsub.q" 0 INSN_CLASS_Q_INX "D,S,T,R" (MATCH_FMSUB_Q .| MASK_RM) (MASK_FMSUB_Q .| MASK_RM) match_opcode 0;
  row "fmsub.q" 0 INSN_CLASS_Q_INX "D,S,T,R,m" MATCH_FMSUB_Q MASK_FMSUB_Q match_opcode 0;
  row "fnmsub.q" 0 INSN_CLASS_Q_INX "D,S,T,R" (MATCH_FNMSUB_Q .| MASK_RM) (MASK_FNMSUB_Q .| MASK_RM) match_opcode 0;
  row "fnmsub.q" 0 INSN_CLASS_Q_INX "D,S,T,R,m" MATCH_FNMSUB_Q MASK_FNMSUB_Q match_opcode 0;
  row "fcvt.w.q" 0 INSN_CLASS_Q_INX "d,S" (MATCH_FCVT_W_Q .| MASK_RM) (MASK_FCVT_W_Q .| MASK_RM) match_opcode 0;
  row "fcvt.w.q" 0 INSN_CLASS_Q_INX "d,S,m" MATCH_FCVT_W_Q MASK_FCVT_W_Q match_opcode 0;
  row "fcvt.wu.q" 0 INSN_CLASS_Q_INX "d,S" (MATCH_FCVT_WU_Q .| MASK_RM) (MASK_FCVT_WU_Q .| MASK_RM) match_opcode 0;
  row "fcvt.wu.q" 0 INSN_CLASS_Q_INX "d,S,m" MATCH_FCVT_WU_Q MASK_FCVT_WU_Q match_opcode 0;
  row "fcvt.q.w" 0 INSN_CLASS_Q_INX "D,s" MATCH_FCVT_Q_W (MASK_FCVT_Q_W .| MASK_RM) match_opcode 0;
  row "fcvt.q.wu" 0 INSN_CLASS_Q_INX "D,s" MATCH_FCVT_Q_WU (MASK_FCVT_Q_WU .| MASK_RM) match_opcode 0;
  row "fcvt.q.s" 0 INSN_CLASS_Q_INX "D,S" MATCH_FCVT_Q_S (MASK_FCVT_Q_S .| MASK_RM) match_opcode 0;
  row "fcvt.q.d" 0 INSN_CLASS_Q_INX "D,S" MATCH_FCVT_Q_D (MASK_FCVT_Q_D .| MASK_RM) match_opcode 0;
  row "fcvt.s.q" 0 INSN_CLASS_Q_INX "D,S" (MATCH_FCVT_S_Q .| MASK_RM) (MASK_FCVT_S_Q .| MASK_RM) match_opcode 0;
  row "fcvt.s.q" 0 INSN_CLASS_Q_INX "D,S,m" MATCH_FCVT_S_Q MASK_FCVT_S_Q match_opcode 0;
  row "fcvt.d.q" 0 INSN_CLASS_Q_INX "D,S" (MATCH_FCVT_D_Q .| MASK_RM) (MASK_FCVT_D_Q .| MASK_RM) match_opcode 0;
  row "fcvt.d.q" 0 INSN_CLASS_Q_INX "D,S,m" MATCH_FCVT_D_Q MASK_FCVT_D_Q match_opcode 0;
  row "fclass.q" 0 INSN_CLASS_Q_INX "d,S" MATCH_FCLASS_Q MASK_FCLASS_Q match_opcode 0;
  row "feq.q" 0 INSN_CLASS_Q_INX "d,S,T" MATCH_FEQ_Q MASK_FEQ_Q match_opcode 0;
  row "flt.q" 0 INSN_CLASS_Q_INX "d,S,T" MATCH_FLT_Q MASK_FLT_Q match_opcode 0;
  row "fle.q" 0 INSN_CLASS_Q_INX "d,S,T" MATCH_FLE_Q MASK_FLE_Q match_opcode 0;
  row "fgt.q" 0 INSN_CLASS_Q_INX "d,T,S" MATCH_FLT_Q MASK_FLT_Q match_opcode 0;
  row "fge.q" 0 INSN_CLASS_Q_INX "d,T,S" MATCH_FLE_Q MASK_FLE_Q match_opcode 0;
  row "fcvt.l.q" 64 INSN_CLASS_Q_INX "d,S" (MATCH_FCVT_L_Q .| MASK_RM) (MASK_FCVT_L_Q .| MASK_RM) match_opcode 0;
  row "fcvt.l.q" 64 INSN_CLASS_Q_INX "d,S,m" MATCH_FCVT_L_Q MASK_FCVT_L_Q match_opcode 0;
  row "fcvt.lu.q" 64 INSN_CLASS_Q_INX "d,S" (MATCH_FCVT_LU_Q .| MASK_RM) (MASK_FCVT_LU_Q .| MASK_RM) match_opcode 0;
  row "fcvt.lu.q" 64 INSN_CLASS_Q_INX "d,S,m" MATCH_FCVT_LU_Q MASK_FCVT_LU_Q match_opcode 0;
  row "fcvt.q.l" 64 INSN_CLASS_Q_INX "D,s" MATCH_FCVT_Q_L (MASK_FCVT_Q_L .| MASK_RM) match_opcode 0;
  row "fcvt.q.l" 64 INSN_CLASS_Q_INX "D,s,m" MATCH_FCVT_Q_L MASK_FCVT_Q_L match_opcode 0;
  row "fcvt.q.lu" 64 INSN_CLASS_Q_INX "D,s" MATCH_FCVT_Q_LU (MASK_FCVT_Q_LU .| MASK_RM) match_opcode 0;
  row "fcvt.q.lu" 64 INSN_CLASS_Q_INX "D,s,m" MATCH_FCVT_Q_LU MASK_FCVT_Q_LU match_opcode 0
].

Definition riscv_opcodes_05 : list riscv_opcode := [
  row "c.unimp" 0 INSN_CLASS_C "" 0 0xffff match_opcode 0;
  row "c.ebreak" 0 INSN_CLASS_C "" MATCH_C_EBREAK MASK_C_EBREAK match_opcode 0;
  row "c.jr" 0 INSN_CLASS_C "d" MATCH_C_JR MASK_C_JR match_rd_nonzero INSN_BRANCH;
  row "c.jalr" 0 INSN_CLASS_C "d" MATCH_C_JALR MASK_C_JALR match_rd_nonzero INSN_JSR;
  row "c.j" 0 INSN_CLASS_C "Ca" MATCH_C_J MASK_C_J match_opcode INSN_BRANCH;
  row "c.jal" 32 INSN_CLASS_C "Ca" MATCH_C_JAL MASK_C_JAL match_opcode INSN_JSR;
  row "c.beqz" 0 INSN_CLASS_C "Cs,Cp" MATCH_C_BEQZ MASK_C_BEQZ match_opcode INSN_CONDBRANCH;
  row "c.bnez" 0 INSN_CLASS_C "Cs,Cp" MATCH_C_BNEZ MASK_C_BNEZ match_opcode INSN_CONDBRANCH;
  row "c.lwsp" 0 INSN_CLASS_C "d,Cm(Cc)" MATCH_C_LWSP MASK_C_LWSP match_rd_nonzero 0;
  row "c.lw" 0 INSN_CLASS_C "Ct,Ck(Cs)" MATCH_C_LW MASK_C_LW match_opcode (INSN_DREF .| INSN_4_BYTE);
  row "c.swsp" 0 INSN_CLASS_C "CV,CM(Cc)" MATCH_C_SWSP MASK_C_SWSP match_opcode (INSN_DREF .| INSN_4_BYTE);
  row "c.sw" 0 INSN_CLASS_C "Ct,Ck(Cs)" MATCH_C_SW MASK_C_SW match_opcode (INSN_DREF .| INSN_4_BYTE);
  row "c.nop" 0 INSN_CLASS_C "" MATCH_C_ADDI 0xffff match_opcode INSN_ALIAS;
  row "c.nop" 0 INSN_CLASS_C "Cj" MATCH_C_ADDI (MASK_C_ADDI .| MASK_RD) match_opcode INSN_ALIAS;
  row "c.mv" 0 INSN_CLASS_C "d,CV" MATCH_C_MV MASK_C_MV match_c_add_with_hint 0;
  row "c.lui" 0 INSN_CLASS_C "d,Cu" MATCH_C_LUI MASK_C_LUI match_c_lui_with_hint 0;
  row "c.li" 0 INSN_CLASS_C "d,Co" MATCH_C_LI MASK_C_LI match_opcode 0;
  row "c.addi4spn" 0 INSN_CLASS_C "Ct,Cc,CK" MATCH_C_ADDI4SPN MASK_C_ADDI4SPN match_c_addi4spn 0;
  row "c.addi16sp" 0 INSN_CLASS_C "Cc,CL" MATCH_C_ADDI16SP MASK_C_ADDI16SP match_c_addi16sp 0;
  row "c.addi" 0 INSN_CLASS_C "d,Co" MATCH_C_ADDI MASK_C_ADDI match_opcode 0;
  row "c.add" 0 INSN_CLASS_C "d,CV" MATCH_C_ADD MASK_C_ADD match_c_add_with_hint 0;
  row "c.sub" 0 INSN_CLASS_C "Cs,Ct" MATCH_C_SUB MASK_C_SUB match_opcode 0;
  row "c.and" 0 INSN_CLASS_C "Cs,Ct" MATCH_C_AND MASK_C_AND match_opcode 0;
  row "c.or" 0 INSN_CLASS_C "Cs,Ct" MATCH_C_OR MASK_C_OR match_opcode 0;
  row "c.xor" 0 INSN_CLASS_C "Cs,Ct" MATCH_C_XOR MASK_C_XOR match_opcode 0;
  row "c.slli" 0 INSN_CLASS_C "d,C>" MATCH_C_SLLI MASK_C_SLLI match_c_slli 0;
  row "c.srli" 0 INSN_CLASS_C "Cs,C>" MATCH_C_SRLI MASK_C_SRLI match_c_slli 0;
  row "c.srai" 0 INSN_CLASS_C "Cs,C>" MATCH_C_SRAI MASK_C_SRAI match_c_slli 0;
  row "c.slli64" 0 INSN_CLASS_C "d" MATCH_C_SLLI64 MASK_C_SLLI64 match_c_slli64 0;
  row "c.srli64" 0 INSN_CLASS_C "Cs" MATCH_C_SRLI64 MASK_C_SRLI64 match_c_slli64 0;
  row "c.srai64" 0 INSN_CLASS_C "Cs" MATCH_C_SRAI64 MASK_C_SRAI64 match_c_slli64 0;
  row "c.andi" 0 INSN_CLASS_C "Cs,Co" MATCH_C_ANDI MASK_C_ANDI match_opcode 0;
  row "c.addiw" 64 INSN_CLASS_C "d,Co" MATCH_C_ADDIW MASK_C_ADDIW match_rd_nonzero 0;
  row "c.addw" 64 INSN_CLASS_C "Cs,Ct" MATCH_C_ADDW MASK_C_ADDW match_opcode 0;
  row "c.subw" 64 INSN_CLASS_C "Cs,Ct" MATCH_C_SUBW MASK_C_SUBW match_opcode 0;
  row "c.ldsp" 64 INSN_CLASS_C "d,Cn(Cc)" MATCH_C_LDSP MASK_C_LDSP match_rd_nonzero (INSN_DREF .| INSN_8_BYTE);
  row "c.ld" 64 INSN_CLASS_C "Ct,Cl(Cs)" MATCH_C_LD MASK_C_LD match_opcode (INSN_DREF .| INSN_8_BYTE);
  row "c.sdsp" 64 INSN_CLASS_C "CV,CN(Cc)" MATCH_C_SDSP MASK_C_SDSP match_opcode (INSN_DREF .| INSN_8_BYTE);
  row "c.sd" 64 INSN_CLASS_C "Ct,Cl(Cs)" MATCH_C_SD MASK_C_SD match_opcode (INSN_DREF .| INSN_8_BYTE);
  row "c.fldsp" 0 INSN_CLASS_D_AND_C "D,Cn(Cc)" MATCH_C_FLDSP MASK_C_FLDSP match_opcode (INSN_DREF .| INSN_8_BYTE);
  row "c.fld" 0 INSN_CLASS_D_AND_C "CD,Cl(Cs)" MATCH_C_FLD MASK_C_FLD match_opcode (INSN_DREF .| INSN_8_BYTE);
  row "c.fsdsp" 0 INSN_CLASS_D_AND_C "CT,CN(Cc)" MATCH_C_FSDSP MASK_C_FSDSP match_opcode (INSN_DREF .| INSN_8_BYTE);
  row "c.fsd" 0 INSN_CLASS_D_AND_C "CD,Cl(Cs)" MATCH_C_FSD MASK_C_FSD match_opcode (INSN_DREF .| INSN_8_BYTE);
  row "c.flwsp" 32 INSN_CLASS_F_AND_C "D,Cm(Cc)" MATCH_C_FLWSP MASK_C_FLWSP match_opcode (INSN_DREF .| INSN_4_BYTE);
  row "c.flw" 32 INSN_CLASS_F_AND_C "CD,Ck(Cs)" MATCH_C_FLW MASK_C_FLW match_opcode (INSN_DREF .| INSN_4_BYTE);
  row "c.fswsp" 32 INSN_CLASS_F_AND_C "CT,CM(Cc)" MATCH_C_FSWSP MASK_C_FSWSP match_opcode (INSN_DREF .| INSN_4_BYTE);
  row "c.fsw" 32 INSN_CLASS_F_AND_C "CD,Ck(Cs)" MATCH_C_FSW MASK_C_FSW match_opcode (INSN_DREF .| INSN_4_BYTE);
  row "cbo.clean" 0 INSN_CLASS_ZICBOM "0(s)" MATCH_CBO_CLEAN MASK_CBO_CLEAN match_opcode 0;
  row "cbo.flush" 0 INSN_CLASS_ZICBOM "0(s)" MATCH_CBO_FLUSH MASK_CBO_FLUSH match_opcode 0;
  row "cbo.inval" 0 INSN_CLASS_ZICBOM "0(s)" MATCH_CBO_INVAL MASK_CBO_INVAL match_opcode 0;
  row "cbo.zero" 0 INSN_CLASS_ZICBOZ "0(s)" MATCH_CBO_ZERO MASK_CBO_ZERO match_opcode 0;
  row "czero.eqz" 0 INSN_CLASS_ZICOND "d,s,t" MATCH_CZERO_EQZ MASK_CZERO_EQZ match_opcode 0;
  row "czero.nez" 0 INSN_CLASS_ZICOND "d,s,t" MATCH_CZERO_NEZ MASK_CZERO_NEZ match_opcode 0;
  row "wrs.nto" 0 INSN_CLASS_ZAWRS "" MATCH_WRS_NTO MASK_WRS_NTO match_opcode 0;
  row "wrs.sto" 0 INSN_CLASS_ZAWRS "" MATCH_WRS_STO MASK_WRS_STO match_opcode 0;
  row "fli.s" 0 INSN_CLASS_ZFA "D,Wfv" MATCH_FLI_S MASK_FLI_S match_opcode 0;
  row "fli.d" 0 INSN_CLASS_D_AND_ZFA "D,Wfv" MATCH_FLI_D MASK_FLI_D match_opcode 0;
  row "fli.q" 0 INSN_CLASS_Q_AND_ZFA "D,Wfv" MATCH_FLI_Q MASK_FLI_Q match_opcode 0;
  row "fli.h" 0 INSN_CLASS_ZFH_AND_ZFA "D,Wfv" MATCH_FLI_H MASK_FLI_H match_opcode 0;
  row "fminm.s" 0 INSN_CLASS_ZFA "D,S,T" MATCH_FMINM_S MASK_FMINM_S match_opcode 0;
  row "fmaxm.s" 0 INSN_CLASS_ZFA "D,S,T" MATCH_FMAXM_S MASK_FMAXM_S match_opcode 0;
  row "fminm.d" 0 INSN_CLASS_D_AND_ZFA "D,S,T" MATCH_FMINM_D MASK_FMINM_D match_opcode 0;
  row "fmaxm.d" 0 INSN_CLASS_D_AND_ZFA "D,S,T" MATCH_FMAXM_D MASK_FMAXM_D match_opcode 0;
  row "fminm.q" 0 INSN_CLASS_Q_AND_ZFA "D,S,T" MATCH_FMINM_Q MASK_FMINM_Q match_opcode 0;
  row "fmaxm.q" 0 INSN_CLASS_Q_AND_ZFA "D,S,T" MATCH_FMAXM_Q MASK_FMAXM_Q match_opcode 0;
  row "fminm.h" 0 INSN_CLASS_ZFH_AND_ZFA "D,S,T" MATCH_FMINM_H MASK_FMINM_H match_opcode 0;
  row "fmaxm.h" 0 INSN_CLASS_ZFH_AND_ZFA "D,S,T" MATCH_FMAXM_H MASK_FMAXM_H match_opcode 0;
  row "fround.s" 0 INSN_CLASS_ZFA "D,S" (MATCH_FROUND_S .| MASK_RM) (MASK_FROUND_S .| MASK_RM) match_opcode 0;
  row "fround.s" 0 INSN_CLASS_ZFA "D,S,m" MATCH_FROUND_S MASK_FROUND_S match_opcode 0;
  row "froundnx.s" 0 INSN_CLASS_ZFA "D,S" (MATCH_FROUNDNX_S .| MASK_RM) (MASK_FROUNDNX_S .| MASK_RM) match_opcode 0;
  row "froundnx.s" 0 INSN_CLASS_ZFA "D,S,m" MATCH_FROUNDNX_S MASK_FROUNDNX_S match_opcode 0;
  row "fround.d" 0 INSN_CLASS_D_AND_ZFA "D,S" (MATCH_FROUND_D .| MASK_RM) (MASK_FROUND_D .| MASK_RM) match_opcode 0;
  row "fround.d" 0 INSN_CLASS_D_AND_ZFA "D,S,m" MATCH_FROUND_D MASK_FROUND_D match_opcode 0;
  row "froundnx.d" 0 INSN_CLASS_D_AND_ZFA "D,S" (MATCH_FROUNDNX_D .| MASK_RM) (MASK_FROUNDNX_D .| MASK_RM) match_opcode 0;
  row "froundnx.d" 0 INSN_CLASS_D_AND_ZFA "D,S,m" MATCH_FROUNDNX_D MASK_FROUNDNX_D match_opcode 0;
  row "fround.q" 0 INSN_CLASS_Q_AND_ZFA "D,S" (MATCH_FROUND_Q .| MASK_RM) (MASK_FROUND_Q .| MASK_RM) match_opcode 0;
  row "fround.q" 0 INSN_CLASS_Q_AND_ZFA "D,S,m" MATCH_FROUND_Q MASK_FROUND_Q match_opcode 0;
  row "froundnx.q" 0 INSN_CLASS_Q_AND_ZFA "D,S" (MATCH_FROUNDNX_Q .| MASK_RM) (MASK_FROUNDNX_Q .| MASK_RM) match_opcode 0;
  row "froundnx.q" 0 INSN_CLASS_Q_AND_ZFA "D,S,m" MATCH_FROUNDNX_Q MASK_FROUNDNX_Q match_opcode 0;
  row "fround.h" 0 INSN_CLASS_ZFH_AND_ZFA "D,S" (MATCH_FROUND_H .| MASK_RM) (MASK_FROUND_H .| MASK_RM) match_opcode 0;
  row "fround.h" 0 INSN_CLASS_ZFH_AND_ZFA "D,S,m" MATCH_FROUND_H MASK_FROUND_H match_opcode 0;
  row "froundnx.h" 0 INSN_CLASS_ZFH_AND_ZFA "D,S" (MATCH_FROUNDNX_H .| MASK_RM) (MASK_FROUNDNX_H .| MASK_RM) match_opcode 0;
  row "froundnx.h" 0 INSN_CLASS_ZFH_AND_ZFA "D,S,m" MATCH_FROUNDNX_H MASK_FROUNDNX_H match_opcode 0;
  row "fcvtmod.w.d" 0 INSN_CLASS_D_AND_ZFA "d,S,m" MATCH_FCVTMOD_W_D MASK_FCVTMOD_W_D match_opcode 0;
  row "fmvh.x.d" 32 INSN_CLASS_D_AND_ZFA "d,S" MATCH_FMVH_X_D MASK_FMVH_X_D match_opcode 0;
  row "fmvp.d.x" 32 INSN_CLASS_D_AND_ZFA "D,s,t" MATCH_FMVP_D_X MASK_FMVP_D_X match_opcode 0;
  row "fmvh.x.q" 64 INSN_CLASS_Q_AND_ZFA "d,S" MATCH_FMVH_X_Q MASK_FMVH_X_Q match_opcode 0;
  row "fmvp.q.x" 64 INSN_CLASS_Q_AND_ZFA "D,s,t" MATCH_FMVP_Q_X MASK_FMVP_Q_X match_opcode 0;
  row "fltq.s" 0 INSN_CLASS_ZFA "d,S,T" MATCH_FLTQ_S MASK_FLTQ_S match_opcode 0;
  row "fleq.s" 0 INSN_CLASS_ZFA "d,S,T" MATCH_FLEQ_S MASK_FLEQ_S match_opcode 0;
  row "fltq.d" 0 INSN_CLASS_D_AND_ZFA "d,S,T" MATCH_FLTQ_D MASK_FLTQ_D match_opcode 0;
  row "fleq.d" 0 INSN_CLASS_D_AND_ZFA "d,S,T" MATCH_FLEQ_D MASK_FLEQ_D match_opcode 0;
  row "fltq.q" 0 INSN_CLASS_Q_AND_ZFA "d,S,T" MATCH_FLTQ_Q MASK_FLTQ_Q match_opcode 0;
  row "fleq.q" 0 INSN_CLASS_Q_AND_ZFA "d,S,T" MATCH_FLEQ_Q MASK_FLEQ_Q match_opcode 0;
  row "fltq.h" 0 INSN_CLASS_ZFH_AND_ZFA "d,S,T" MATCH_FLTQ_H MASK_FLTQ_H match_opcode 0;
  row "fleq.h" 0 INSN_CLASS_ZFH_AND_ZFA "d,S,T" MATCH_FLEQ_H MASK_FLEQ_H match_opcode 0;
  row "clz" 0 INSN_CLASS_ZBB "d,s" MATCH_CLZ MASK_CLZ match_opcode 0;
  row "ctz" 0 INSN_CLASS_ZBB "d,s" MATCH_CTZ MASK_CTZ match_opcode 0;
  row "cpop" 0 INSN_CLASS_ZBB "d,s" MATCH_CPOP MASK_CPOP match_opcode 0;
  row "min" 0 INSN_CLASS_ZBB "d,s,t" MATCH_MIN MASK_MIN match_opcode 0;
  row "max" 0 INSN_CLASS_ZBB "d,s,t" MATCH_MAX MASK_MAX match_opcode 0;
  row "minu" 0 INSN_CLASS_ZBB "d,s,t" MATCH_MINU MASK_MINU match_opcode 0;
  row "maxu" 0 INSN_CLASS_ZBB "d,s,t" MATCH_MAXU MASK_MAXU match_opcode 0;
  row "sext.b" 0 INSN_CLASS_ZBB "d,s" MATCH_SEXT_B MASK_SEXT_B match_opcode 0;
  row "sext.b" 0 INSN_CLASS_I "d,s" 0 M_SEXTB match_never INSN_MACRO;
  row "sext.h" 0 INSN_CLASS_ZBB "d,s" MATCH_SEXT_H MASK_SEXT_H match_opcode 0;
  row "sext.h" 0 INSN_CLASS_I "d,s" 0 M_SEXTH match_never INSN_MACRO;
  row "zext.h" 32 INSN_CLASS_ZBB "d,s" MATCH_PACK (MASK_PACK .| MASK_RS2) match_opcode 0;
  row "zext.h" 64 INSN_CLASS_ZBB "d,s" MATCH_PACKW (MASK_PACKW .| MASK_RS2) match_opcode 0;
  row "zext.h" 0 INSN_CLASS_I "d,s" 0 M_ZEXTH match_never INSN_MACRO;
  row "orc.b" 0 INSN_CLASS_ZBB "d,s" (MATCH_GORCI .| MATCH_SHAMT_ORC_B) (MASK_GORCI .| MASK_SHAMT) match_opcode 0;
  row "clzw" 64 INSN_CLASS_ZBB "d,s" MATCH_CLZW MASK_CLZW match_opcode 0;
  row "ctzw" 64 INSN_CLASS_ZBB "d,s" MATCH_CTZW MASK_CTZW match_opcode 0;
  row "cpopw" 64 INSN_CLASS_ZBB "d,s" MATCH_CPOPW MASK_CPOPW match_opcode 0;
  row "brev8" 32 INSN_CLASS_ZBKB "d,s" (MATCH_GREVI .| MATCH_SHAMT_BREV8) (MASK_GREVI .| MASK_SHAMT) match_opcode 0;
  row "brev8" 64 INSN_CLASS_ZBKB "d,s" (MATCH_GREVI .| MATCH_SHAMT_BREV8) (MASK_GREVI .| MASK_SHAMT) match_opcode 0;
  row "zip" 32 INSN_CLASS_ZBKB "d,s" (MATCH_SHFLI .| MATCH_SHAMT_ZIP_32) (MASK_SHFLI .| MASK_SHAMT) match_opcode 0;
  row "unzip" 32 INSN_CLASS_ZBKB "d,s" (MATCH_UNSHFLI .| MATCH_SHAMT_ZIP_32) (MASK_UNSHFLI .| MASK_SHAMT) match_opcode 0;
  row "pack" 0 INSN_CLASS_ZBKB "d,s,t" MATCH_PACK MASK_PACK match_opcode 0;
  row "packh" 0 INSN_CLASS_ZBKB "d,s,t" MATCH_PACKH MASK_PACKH match_opcode 0;
  row "packw" 64 INSN_CLASS_ZBKB "d,s,t" MATCH_PACKW MASK_PACKW match_opcode 0;
  row "andn" 0 INSN_CLASS_ZBB_OR_ZBKB "d,s,t" MATCH_ANDN MASK_ANDN match_opcode 0;
  row "orn" 0 INSN_CLASS_ZBB_OR_ZBKB "d,s,t" MATCH_ORN MASK_ORN match_opcode 0;
  row "xnor" 0 INSN_CLASS_ZBB_OR_ZBKB "d,s,t" MATCH_XNOR MASK_XNOR match_opcode 0;
  row "rol" 0 INSN_CLASS_ZBB_OR_ZBKB "d,s,t" MATCH_ROL MASK_ROL match_opcode 0;
  row "ror" 0 INSN_CLASS_ZBB_OR_ZBKB "d,s,t" MATCH_ROR MASK_ROR match_opcode 0;
  row "ror" 0 INSN_CLASS_ZBB_OR_ZBKB "d,s,>" MATCH_RORI MASK_RORI match_opcode INSN_ALIAS;
  row "rori" 0 INSN_CLASS_ZBB_OR_ZBKB "d,s,>" MATCH_RORI MASK_RORI match_opcode 0;
  row "rev8" 32 INSN_CLASS_ZBB_OR_ZBKB "d,s" (MATCH_GREVI .| MATCH_SHAMT_REV8_32) (MASK_GREVI .| MASK_SHAMT) match_opcode 0;
  row "rev8" 64 INSN_CLASS_ZBB_OR_ZBKB "d,s" (MATCH_GREVI .| MATCH_SHAMT_REV8_64) (MASK_GREVI .| MASK_SHAMT) match_opcode 0;
  row "rolw" 64 INSN_CLASS_ZBB_OR_ZBKB "d,s,t" MATCH_ROLW MASK_ROLW match_opcode 0;
  row "rorw" 64 INSN_CLASS_ZBB_OR_ZBKB "d,s,t" MATCH_RORW MASK_RORW match_opcode 0;
  row "rorw" 64 INSN_CLASS_ZBB_OR_ZBKB "d,s,<" MATCH_RORIW MASK_RORIW match_opcode INSN_ALIAS;
  row "roriw" 64 INSN_CLASS_ZBB_OR_ZBKB "d,s,<" MATCH_RORIW MASK_RORIW match_opcode 0;
  row "sh1add" 0 INSN_CLASS_ZBA "d,s,t" MATCH_SH1ADD MASK_SH1ADD match_opcode 0;
  row "sh2add" 0 INSN_CLASS_ZBA "d,s,t" MATCH_SH2ADD MASK_SH2ADD match_opcode 0;
  row "sh3add" 0 INSN_CLASS_ZBA "d,s,t" MATCH_SH3ADD MASK_SH3ADD match_opcode 0
].

Definition riscv_opcodes_06 : list riscv_opcode := [
  row "sh1add.uw" 64 INSN_CLASS_ZBA "d,s,t" MATCH_SH1ADD_UW MASK_SH1ADD_UW match_opcode 0;
  row "sh2add.uw" 64 INSN_CLASS_ZBA "d,s,t" MATCH_SH2ADD_UW MASK_SH2ADD_UW match_opcode 0;
  row "sh3add.uw" 64 INSN_CLASS_ZBA "d,s,t" MATCH_SH3ADD_UW MASK_SH3ADD_UW match_opcode 0;
  row "zext.w" 64 INSN_CLASS_ZBA "d,s" MATCH_ADD_UW (MASK_ADD_UW .| MASK_RS2) match_opcode INSN_ALIAS;
  row "zext.w" 64 INSN_CLASS_I "d,s" 0 M_ZEXTW match_never INSN_MACRO;
  row "add.uw" 64 INSN_CLASS_ZBA "d,s,t" MATCH_ADD_UW MASK_ADD_UW match_opcode 0;
  row "slli.uw" 64 INSN_CLASS_ZBA "d,s,>" MATCH_SLLI_UW MASK_SLLI_UW match_opcode 0;
  row "clmul" 0 INSN_CLASS_ZBC_OR_ZBKC "d,s,t" MATCH_CLMUL MASK_CLMUL match_opcode 0;
  row "clmulh" 0 INSN_CLASS_ZBC_OR_ZBKC "d,s,t" MATCH_CLMULH MASK_CLMULH match_opcode 0;
  row "clmulr" 0 INSN_CLASS_ZBC "d,s,t" MATCH_CLMULR MASK_CLMULR match_opcode 0;
  row "bclr" 0 INSN_CLASS_ZBS "d,s,t" MATCH_BCLR MASK_BCLR match_opcode 0;
  row "bclr" 0 INSN_CLASS_ZBS "d,s,>" MATCH_BCLRI MASK_BCLRI match_opcode INSN_ALIAS;
  row "bclri" 0 INSN_CLASS_ZBS "d,s,>" MATCH_BCLRI MASK_BCLRI match_opcode 0;
  row "bset" 0 INSN_CLASS_ZBS "d,s,t" MATCH_BSET MASK_BSET match_opcode 0;
  row "bset" 0 INSN_CLASS_ZBS "d,s,>" MATCH_BSETI MASK_BSETI match_opcode INSN_ALIAS;
  row "bseti" 0 INSN_CLASS_ZBS "d,s,>" MATCH_BSETI MASK_BSETI match_opcode 0;
  row "binv" 0 INSN_CLASS_ZBS "d,s,t" MATCH_BINV MASK_BINV match_opcode 0;
  row "binv" 0 INSN_CLASS_ZBS "d,s,>" MATCH_BINVI MASK_BINVI match_opcode INSN_ALIAS;
  row "binvi" 0 INSN_CLASS_ZBS "d,s,>" MATCH_BINVI MASK_BINVI match_opcode 0;
  row "bext" 0 INSN_CLASS_ZBS "d,s,t" MATCH_BEXT MASK_BEXT match_opcode 0;
  row "bext" 0 INSN_CLASS_ZBS "d,s,>" MATCH_BEXTI MASK_BEXTI match_opcode INSN_ALIAS;
  row "bexti" 0 INSN_CLASS_ZBS "d,s,>" MATCH_BEXTI MASK_BEXTI match_opcode 0;
  row "xperm4" 0 INSN_CLASS_ZBKX "d,s,t" MATCH_XPERM4 MASK_XPERM4 match_opcode 0;
  row "xperm8" 0 INSN_CLASS_ZBKX "d,s,t" MATCH_XPERM8 MASK_XPERM8 match_opcode 0;
  row "aes32dsi" 32 INSN_CLASS_ZKND "d,s,t,y" MATCH_AES32DSI MASK_AES32DSI match_opcode 0;
  row "aes32dsmi" 32 INSN_CLASS_ZKND "d,s,t,y" MATCH_AES32DSMI MASK_AES32DSMI match_opcode 0;
  row "aes64ds" 64 INSN_CLASS_ZKND "d,s,t" MATCH_AES64DS MASK_AES64DS match_opcode 0;
  row "aes64dsm" 64 INSN_CLASS_ZKND "d,s,t" MATCH_AES64DSM MASK_AES64DSM match_opcode 0;
  row "aes64im" 64 INSN_CLASS_ZKND "d,s" MATCH_AES64IM MASK_AES64IM match_opcode 0;
  row "aes64ks1i" 64 INSN_CLASS_ZKND_OR_ZKNE "d,s,Y" MATCH_AES64KS1I MASK_AES64KS1I match_opcode 0;
  row "aes64ks2" 64 INSN_CLASS_ZKND_OR_ZKNE "d,s,t" MATCH_AES64KS2 MASK_AES64KS2 match_opcode 0;
  row "aes32esi" 32 INSN_CLASS_ZKNE "d,s,t,y" MATCH_AES32ESI MASK_AES32ESI match_opcode 0;
  row "aes32esmi" 32 INSN_CLASS_ZKNE "d,s,t,y" MATCH_AES32ESMI MASK_AES32ESMI match_opcode 0;
  row "aes64es" 64 INSN_CLASS_ZKNE "d,s,t" MATCH_AES64ES MASK_AES64ES match_opcode 0;
  row "aes64esm" 64 INSN_CLASS_ZKNE "d,s,t" MATCH_AES64ESM MASK_AES64ESM match_opcode 0;
  row "sha256sig0" 0 INSN_CLASS_ZKNH "d,s" MATCH_SHA256SIG0 MASK_SHA256SIG0 match_opcode 0;
  row "sha256sig1" 0 INSN_CLASS_ZKNH "d,s" MATCH_SHA256SIG1 MASK_SHA256SIG1 match_opcode 0;
  row "sha256sum0" 0 INSN_CLASS_ZKNH "d,s" MATCH_SHA256SUM0 MASK_SHA256SUM0 match_opcode 0;
  row "sha256sum1" 0 INSN_CLASS_ZKNH "d,s" MATCH_SHA256SUM1 MASK_SHA256SUM1 match_opcode 0;
  row "sha512sig0h" 32 INSN_CLASS_ZKNH "d,s,t" MATCH_SHA512SIG0H MASK_SHA512SIG0H match_opcode 0;
  row "sha512sig0l" 32 INSN_CLASS_ZKNH "d,s,t" MATCH_SHA512SIG0L MASK_SHA512SIG0L match_opcode 0;
  row "sha512sig1h" 32 INSN_CLASS_ZKNH "d,s,t" MATCH_SHA512SIG1H MASK_SHA512SIG1H match_opcode 0;
  row "sha512sig1l" 32 INSN_CLASS_ZKNH "d,s,t" MATCH_SHA512SIG1L MASK_SHA512SIG1L match_opcode 0;
  row "sha512sum0r" 32 INSN_CLASS_ZKNH "d,s,t" MATCH_SHA512SUM0R MASK_SHA512SUM0R match_opcode 0;
  row "sha512sum1r" 32 INSN_CLASS_ZKNH "d,s,t" MATCH_SHA512SUM1R MASK_SHA512SUM1R match_opcode 0;
  row "sha512sig0" 64 INSN_CLASS_ZKNH "d,s" MATCH_SHA512SIG0 MASK_SHA512SIG0 match_opcode 0;
  row "sha512sig1" 64 INSN_CLASS_ZKNH "d,s" MATCH_SHA512SIG1 MASK_SHA512SIG1 match_opcode 0;
  row "sha512sum0" 64 INSN_CLASS_ZKNH "d,s" MATCH_SHA512SUM0 MASK_SHA512SUM0 match_opcode 0;
  row "sha512sum1" 64 INSN_CLASS_ZKNH "d,s" MATCH_SHA512SUM1 MASK_SHA512SUM1 match_opcode 0;
  row "sm4ed" 0 INSN_CLASS_ZKSED "d,s,t,y" MATCH_SM4ED MASK_SM4ED match_opcode 0;
  row "sm4ks" 0 INSN_CLASS_ZKSED "d,s,t,y" MATCH_SM4KS MASK_SM4KS match_opcode 0;
  row "sm3p0" 0 INSN_CLASS_ZKSH "d,s" MATCH_SM3P0 MASK_SM3P0 match_opcode 0;
  row "sm3p1" 0 INSN_CLASS_ZKSH "d,s" MATCH_SM3P1 MASK_SM3P1 match_opcode 0;
  row "vsetvl" 0 INSN_CLASS_V "d,s,t" MATCH_VSETVL MASK_VSETVL match_opcode 0;
  row "vsetvli" 0 INSN_CLASS_V "d,s,Vc" MATCH_VSETVLI MASK_VSETVLI match_opcode 0;
  row "vsetivli" 0 INSN_CLASS_V "d,Z,Vb" MATCH_VSETIVLI MASK_VSETIVLI match_opcode 0;
  row "vlm.v" 0 INSN_CLASS_V "Vd,0(s)" MATCH_VLMV MASK_VLMV match_opcode INSN_DREF;
  row "vsm.v" 0 INSN_CLASS_V "Vd,0(s)" MATCH_VSMV MASK_VSMV match_opcode INSN_DREF;
  row "vle1.v" 0 INSN_CLASS_V "Vd,0(s)" MATCH_VLMV MASK_VLMV match_opcode (INSN_DREF .| INSN_ALIAS);
  row "vse1.v" 0 INSN_CLASS_V "Vd,0(s)" MATCH_VSMV MASK_VSMV match_opcode (INSN_DREF .| INSN_ALIAS);
  row "vle8.v" 0 INSN_CLASS_V "Vd,0(s)Vm" MATCH_VLE8V MASK_VLE8V match_opcode INSN_DREF;
  row "vle16.v" 0 INSN_CLASS_V "Vd,0(s)Vm" MATCH_VLE16V MASK_VLE16V match_opcode INSN_DREF;
  row "vle32.v" 0 INSN_CLASS_V "Vd,0(s)Vm" MATCH_VLE32V MASK_VLE32V match_opcode INSN_DREF;
  row "vle64.v" 0 INSN_CLASS_V "Vd,0(s)Vm" MATCH_VLE64V MASK_VLE64V match_opcode (INSN_DREF .| INSN_V_EEW64);
  row "vse8.v" 0 INSN_CLASS_V "Vd,0(s)Vm" MATCH_VSE8V MASK_VSE8V match_opcode INSN_DREF;
  row "vse16.v" 0 INSN_CLASS_V "Vd,0(s)Vm" MATCH_VSE16V MASK_VSE16V match_opcode INSN_DREF;
  row "vse32.v" 0 INSN_CLASS_V "Vd,0(s)Vm" MATCH_VSE32V MASK_VSE32V match_opcode INSN_DREF;
  row "vse64.v" 0 INSN_CLASS_V "Vd,0(s)Vm" MATCH_VSE64V MASK_VSE64V match_opcode (INSN_DREF .| INSN_V_EEW64);
  row "vlse8.v" 0 INSN_CLASS_V "Vd,0(s),tVm" MATCH_VLSE8V MASK_VLSE8V match_opcode INSN_DREF;
  row "vlse16.v" 0 INSN_CLASS_V "Vd,0(s),tVm" MATCH_VLSE16V MASK_VLSE16V match_opcode INSN_DREF;
  row "vlse32.v" 0 INSN_CLASS_V "Vd,0(s),tVm" MATCH_VLSE32V MASK_VLSE32V match_opcode INSN_DREF;
  row "vlse64.v" 0 INSN_CLASS_V "Vd,0(s),tVm" MATCH_VLSE64V MASK_VLSE64V match_opcode (INSN_DREF .| INSN_V_EEW64);
  row "vsse8.v" 0 INSN_CLASS_V "Vd,0(s),tVm" MATCH_VSSE8V MASK_VSSE8V match_opcode INSN_DREF;
  row "vsse16.v" 0 INSN_CLASS_V "Vd,0(s),tVm" MATCH_VSSE16V MASK_VSSE16V match_opcode INSN_DREF;
  row "vsse32.v" 0 INSN_CLASS_V "Vd,0(s),tVm" MATCH_VSSE32V MASK_VSSE32V match_opcode INSN_DREF;
  row "vsse64.v" 0 INSN_CLASS_V "Vd,0(s),tVm" MATCH_VSSE64V MASK_VSSE64V match_opcode (INSN_DREF .| INSN_V_EEW64);
  row "vloxei8.v" 0 INSN_CLASS_V "Vd,0(s),VtVm" MATCH_VLOXEI8V MASK_VLOXEI8V match_opcode INSN_DREF;
  row "vloxei16.v" 0 INSN_CLASS_V "Vd,0(s),VtVm" MATCH_VLOXEI16V MASK_VLOXEI16V match_opcode INSN_DREF;
  row "vloxei32.v" 0 INSN_CLASS_V "Vd,0(s),VtVm" MATCH_VLOXEI32V MASK_VLOXEI32V match_opcode INSN_DREF;
  row "vloxei64.v" 0 INSN_CLASS_V "Vd,0(s),VtVm" MATCH_VLOXEI64V MASK_VLOXEI64V match_opcode (INSN_DREF .| INSN_V_EEW64);
  row "vsoxei8.v" 0 INSN_CLASS_V "Vd,0(s),VtVm" MATCH_VSOXEI8V MASK_VSOXEI8V match_opcode INSN_DREF;
  row "vsoxei16.v" 0 INSN_CLASS_V "Vd,0(s),VtVm" MATCH_VSOXEI16V MASK_VSOXEI16V match_opcode INSN_DREF;
  row "vsoxei32.v" 0 INSN_CLASS_V "Vd,0(s),VtVm" MATCH_VSOXEI32V MASK_VSOXEI32V match_opcode INSN_DREF;
  row "vsoxei64.v" 0 INSN_CLASS_V "Vd,0(s),VtVm" MATCH_VSOXEI64V MASK_VSOXEI64V match_opcode (INSN_DREF .| INSN_V_EEW64);
  row "vluxei8.v" 0 INSN_CLASS_V "Vd,0(s),VtVm" MATCH_VLUXEI8V MASK_VLUXEI8V match_opcode INSN_DREF;
  row "vluxei16.v" 0 INSN_CLASS_V "Vd,0(s),VtVm" MATCH_VLUXEI16V MASK_VLUXEI16V match_opcode INSN_DREF;
  row "vluxei32.v" 0 INSN_CLASS_V "Vd,0(s),VtVm" MATCH_VLUXEI32V MASK_VLUXEI32V match_opcode INSN_DREF;
  row "vluxei64.v" 0 INSN_CLASS_V "Vd,0(s),VtVm" MATCH_VLUXEI64V MASK_VLUXEI64V match_opcode (INSN_DREF .| INSN_V_EEW64);
  row "vsuxei8.v" 0 INSN_CLASS_V "Vd,0(s),VtVm" MATCH_VSUXEI8V MASK_VSUXEI8V match_opcode INSN_DREF;
  row "vsuxei16.v" 0 INSN_CLASS_V "Vd,0(s),VtVm" MATCH_VSUXEI16V MASK_VSUXEI16V match_opcode INSN_DREF;
  row "vsuxei32.v" 0 INSN_CLASS_V "Vd,0(s),VtVm" MATCH_VSUXEI32V MASK_VSUXEI32V match_opcode INSN_DREF;
  row "vsuxei64.v" 0 INSN_CLASS_V "Vd,0(s),VtVm" MATCH_VSUXEI64V MASK_VSUXEI64V match_opcode (INSN_DREF .| INSN_V_EEW64);
  row "vle8ff.v" 0 INSN_CLASS_V "Vd,0(s)Vm" MATCH_VLE8FFV MASK_VLE8FFV match_opcode INSN_DREF;
  row "vle16ff.v" 0 INSN_CLASS_V "Vd,0(s)Vm" MATCH_VLE16FFV MASK_VLE16FFV match_opcode INSN_DREF;
  row "vle32ff.v" 0 INSN_CLASS_V "Vd,0(s)Vm" MATCH_VLE32FFV MASK_VLE32FFV match_opcode INSN_DREF;
  row "vle64ff.v" 0 INSN_CLASS_V "Vd,0(s)Vm" MATCH_VLE64FFV MASK_VLE64FFV match_opcode (INSN_DREF .| INSN_V_EEW64);
  row "vlseg2e8.v" 0 INSN_CLASS_V "Vd,0(s)Vm" MATCH_VLSEG2E8V MASK_VLSEG2E8V match_opcode INSN_DREF;
  row "vsseg2e8.v" 0 INSN_CLASS_V "Vd,0(s)Vm" MATCH_VSSEG2E8V MASK_VSSEG2E8V match_opcode INSN_DREF;
  row "vlseg3e8.v" 0 INSN_CLASS_V "Vd,0(s)Vm" MATCH_VLSEG3E8V MASK_VLSEG3E8V match_opcode INSN_DREF;
  row "vsseg3e8.v" 0 INSN_CLASS_V "Vd,0(s)Vm" MATCH_VSSEG3E8V MASK_VSSEG3E8V match_opcode INSN_DREF;
  row "vlseg4e8.v" 0 INSN_CLASS_V "Vd,0(s)Vm" MATCH_VLSEG4E8V MASK_VLSEG4E8V match_opcode INSN_DREF;
  row "vsseg4e8.v" 0 INSN_CLASS_V "Vd,0(s)Vm" MATCH_VSSEG4E8V MASK_VSSEG4E8V match_opcode INSN_DREF;
  row "vlseg5e8.v" 0 INSN_CLASS_V "Vd,0(s)Vm" MATCH_VLSEG5E8V MASK_VLSEG5E8V match_opcode INSN_DREF;
  row "vsseg5e8.v" 0 INSN_CLASS_V "Vd,0(s)Vm" MATCH_VSSEG5E8V MASK_VSSEG5E8V match_opcode INSN_DREF;
  row "vlseg6e8.v" 0 INSN_CLASS_V "Vd,0(s)Vm" MATCH_VLSEG6E8V MASK_VLSEG6E8V match_opcode INSN_DREF;
  row "vsseg6e8.v" 0 INSN_CLASS_V "Vd,0(s)Vm" MATCH_VSSEG6E8V MASK_VSSEG6E8V match_opcode INSN_DREF;
  row "vlseg7e8.v" 0 INSN_CLASS_V "Vd,0(s)Vm" MATCH_VLSEG7E8V MASK_VLSEG7E8V match_opcode INSN_DREF;
  row "vsseg7e8.v" 0 INSN_CLASS_V "Vd,0(s)Vm" MATCH_VSSEG7E8V MASK_VSSEG7E8V match_opcode INSN_DREF;
  row "vlseg8e8.v" 0 INSN_CLASS_V "Vd,0(s)Vm" MATCH_VLSEG8E8V MASK_VLSEG8E8V match_opcode INSN_DREF;
  row "vsseg8e8.v" 0 INSN_CLASS_V "Vd,0(s)Vm" MATCH_VSSEG8E8V MASK_VSSEG8E8V match_opcode INSN_DREF;
  row "vlseg2e16.v" 0 INSN_CLASS_V "Vd,0(s)Vm" MATCH_VLSEG2E16V MASK_VLSEG2E16V match_opcode INSN_DREF;
  row "vsseg2e16.v" 0 INSN_CLASS_V "Vd,0(s)Vm" MATCH_VSSEG2E16V MASK_VSSEG2E16V match_opcode INSN_DREF;
  row "vlseg3e16.v" 0 INSN_CLASS_V "Vd,0(s)Vm" MATCH_VLSEG3E16V MASK_VLSEG3E16V match_opcode INSN_DREF;
  row "vsseg3e16.v" 0 INSN_CLASS_V "Vd,0(s)Vm" MATCH_VSSEG3E16V MASK_VSSEG3E16V match_opcode INSN_DREF;
  row "vlseg4e16.v" 0 INSN_CLASS_V "Vd,0(s)Vm" MATCH_VLSEG4E16V MASK_VLSEG4E16V match_opcode INSN_DREF;
  row "vsseg4e16.v" 0 INSN_CLASS_V "Vd,0(s)Vm" MATCH_VSSEG4E16V MASK_VSSEG4E16V match_opcode INSN_DREF;
  row "vlseg5e16.v" 0 INSN_CLASS_V "Vd,0(s)Vm" MATCH_VLSEG5E16V MASK_VLSEG5E16V match_opcode INSN_DREF;
  row "vsseg5e16.v" 0 INSN_CLASS_V "Vd,0(s)Vm" MATCH_VSSEG5E16V MASK_VSSEG5E16V match_opcode INSN_DREF;
  row "vlseg6e16.v" 0 INSN_CLASS_V "Vd,0(s)Vm" MATCH_VLSEG6E16V MASK_VLSEG6E16V match_opcode INSN_DREF
].

Definition riscv_opcodes_07 : list riscv_opcode := [
  row "vsseg6e16.v" 0 INSN_CLASS_V "Vd,0(s)Vm" MATCH_VSSEG6E16V MASK_VSSEG6E16V match_opcode INSN_DREF;
  row "vlseg7e16.v" 0 INSN_CLASS_V "Vd,0(s)Vm" MATCH_VLSEG7E16V MASK_VLSEG7E16V match_opcode INSN_DREF;
  row "vsseg7e16.v" 0 INSN_CLASS_V "Vd,0(s)Vm" MATCH_VSSEG7E16V MASK_VSSEG7E16V match_opcode INSN_DREF;
  row "vlseg8e16.v" 0 INSN_CLASS_V "Vd,0(s)Vm" MATCH_VLSEG8E16V MASK_VLSEG8E16V match_opcode INSN_DREF;
  row "vsseg8e16.v" 0 INSN_CLASS_V "Vd,0(s)Vm" MATCH_VSSEG8E16V MASK_VSSEG8E16V match_opcode INSN_DREF;
  row "vlseg2e32.v" 0 INSN_CLASS_V "Vd,0(s)Vm" MATCH_VLSEG2E32V MASK_VLSEG2E32V match_opcode INSN_DREF;
  row "vsseg2e32.v" 0 INSN_CLASS_V "Vd,0(s)Vm" MATCH_VSSEG2E32V MASK_VSSEG2E32V match_opcode INSN_DREF;
  row "vlseg3e32.v" 0 INSN_CLASS_V "Vd,0(s)Vm" MATCH_VLSEG3E32V MASK_VLSEG3E32V match_opcode INSN_DREF;
  row "vsseg3e32.v" 0 INSN_CLASS_V "Vd,0(s)Vm" MATCH_VSSEG3E32V MASK_VSSEG3E32V match_opcode INSN_DREF;
  row "vlseg4e32.v" 0 INSN_CLASS_V "Vd,0(s)Vm" MATCH_VLSEG4E32V MASK_VLSEG4E32V match_opcode INSN_DREF;
  row "vsseg4e32.v" 0 INSN_CLASS_V "Vd,0(s)Vm" MATCH_VSSEG4E32V MASK_VSSEG4E32V match_opcode INSN_DREF;
  row "vlseg5e32.v" 0 INSN_CLASS_V "Vd,0(s)Vm" MATCH_VLSEG5E32V MASK_VLSEG5E32V match_opcode INSN_DREF;
  row "vsseg5e32.v" 0 INSN_CLASS_V "Vd,0(s)Vm" MATCH_VSSEG5E32V MASK_VSSEG5E32V match_opcode INSN_DREF;
  row "vlseg6e32.v" 0 INSN_CLASS_V "Vd,0(s)Vm" MATCH_VLSEG6E32V MASK_VLSEG6E32V match_opcode INSN_DREF;
  row "vsseg6e32.v" 0 INSN_CLASS_V "Vd,0(s)Vm" MATCH_VSSEG6E32V MASK_VSSEG6E32V match_opcode INSN_DREF;
  row "vlseg7e32.v" 0 INSN_CLASS_V "Vd,0(s)Vm" MATCH_VLSEG7E32V MASK_VLSEG7E32V match_opcode INSN_DREF;
  row "vsseg7e32.v" 0 INSN_CLASS_V "Vd,0(s)Vm" MATCH_VSSEG7E32V MASK_VSSEG7E32V match_opcode INSN_DREF;
  row "vlseg8e32.v" 0 INSN_CLASS_V "Vd,0(s)Vm" MATCH_VLSEG8E32V MASK_VLSEG8E32V match_opcode INSN_DREF;
  row "vsseg8e32.v" 0 INSN_CLASS_V "Vd,0(s)Vm" MATCH_VSSEG8E32V MASK_VSSEG8E32V match_opcode INSN_DREF;
  row "vlseg2e64.v" 0 INSN_CLASS_V "Vd,0(s)Vm" MATCH_VLSEG2E64V MASK_VLSEG2E64V match_opcode (INSN_DREF .| INSN_V_EEW64);
  row "vsseg2e64.v" 0 INSN_CLASS_V "Vd,0(s)Vm" MATCH_VSSEG2E64V MASK_VSSEG2E64V match_opcode (INSN_DREF .| INSN_V_EEW64);
  row "vlseg3e64.v" 0 INSN_CLASS_V "Vd,0(s)Vm" MATCH_VLSEG3E64V MASK_VLSEG3E64V match_opcode (INSN_DREF .| INSN_V_EEW64);
  row "vsseg3e64.v" 0 INSN_CLASS_V "Vd,0(s)Vm" MATCH_VSSEG3E64V MASK_VSSEG3E64V match_opcode (INSN_DREF .| INSN_V_EEW64);
  row "vlseg4e64.v" 0 INSN_CLASS_V "Vd,0(s)Vm" MATCH_VLSEG4E64V MASK_VLSEG4E64V match_opcode (INSN_DREF .| INSN_V_EEW64);
  row "vsseg4e64.v" 0 INSN_CLASS_V "Vd,0(s)Vm" MATCH_VSSEG4E64V MASK_VSSEG4E64V match_opcode (INSN_DREF .| INSN_V_EEW64);
  row "vlseg5e64.v" 0 INSN_CLASS_V "Vd,0(s)Vm" MATCH_VLSEG5E64V MASK_VLSEG5E64V match_opcode (INSN_DREF .| INSN_V_EEW64);
  row "vsseg5e64.v" 0 INSN_CLASS_V "Vd,0(s)Vm" MATCH_VSSEG5E64V MASK_VSSEG5E64V match_opcode (INSN_DREF .| INSN_V_EEW64);
  row "vlseg6e64.v" 0 INSN_CLASS_V "Vd,0(s)Vm" MATCH_VLSEG6E64V MASK_VLSEG6E64V match_opcode (INSN_DREF .| INSN_V_EEW64);
  row "vsseg6e64.v" 0 INSN_CLASS_V "Vd,0(s)Vm" MATCH_VSSEG6E64V MASK_VSSEG6E64V match_opcode (INSN_DREF .| INSN_V_EEW64);
  row "vlseg7e64.v" 0 INSN_CLASS_V "Vd,0(s)Vm" MATCH_VLSEG7E64V MASK_VLSEG7E64V match_opcode (INSN_DREF .| INSN_V_EEW64);
  row "vsseg7e64.v" 0 INSN_CLASS_V "Vd,0(s)Vm" MATCH_VSSEG7E64V MASK_VSSEG7E64V match_opcode (INSN_DREF .| INSN_V_EEW64);
  row "vlseg8e64.v" 0 INSN_CLASS_V "Vd,0(s)Vm" MATCH_VLSEG8E64V MASK_VLSEG8E64V match_opcode (INSN_DREF .| INSN_V_EEW64);
  row "vsseg8e64.v" 0 INSN_CLASS_V "Vd,0(s)Vm" MATCH_VSSEG8E64V MASK_VSSEG8E64V match_opcode (INSN_DREF .| INSN_V_EEW64);
  row "vlsseg2e8.v" 0 INSN_CLASS_V "Vd,0(s),tVm" MATCH_VLSSEG2E8V MASK_VLSSEG2E8V match_opcode INSN_DREF;
  row "vssseg2e8.v" 0 INSN_CLASS_V "Vd,0(s),tVm" MATCH_VSSSEG2E8V MASK_VSSSEG2E8V match_opcode INSN_DREF;
  row "vlsseg3e8.v" 0 INSN_CLASS_V "Vd,0(s),tVm" MATCH_VLSSEG3E8V MASK_VLSSEG3E8V match_opcode INSN_DREF;
  row "vssseg3e8.v" 0 INSN_CLASS_V "Vd,0(s),tVm" MATCH_VSSSEG3E8V MASK_VSSSEG3E8V match_opcode INSN_DREF;
  row "vlsseg4e8.v" 0 INSN_CLASS_V "Vd,0(s),tVm" MATCH_VLSSEG4E8V MASK_VLSSEG4E8V match_opcode INSN_DREF;
  row "vssseg4e8.v" 0 INSN_CLASS_V "Vd,0(s),tVm" MATCH_VSSSEG4E8V MASK_VSSSEG4E8V match_opcode INSN_DREF;
  row "vlsseg5e8.v" 0 INSN_CLASS_V "Vd,0(s),tVm" MATCH_VLSSEG5E8V MASK_VLSSEG5E8V match_opcode INSN_DREF;
  row "vssseg5e8.v" 0 INSN_CLASS_V "Vd,0(s),tVm" MATCH_VSSSEG5E8V MASK_VSSSEG5E8V match_opcode INSN_DREF;
  row "vlsseg6e8.v" 0 INSN_CLASS_V "Vd,0(s),tVm" MATCH_VLSSEG6E8V MASK_VLSSEG6E8V match_opcode INSN_DREF;
  row "vssseg6e8.v" 0 INSN_CLASS_V "Vd,0(s),tVm" MATCH_VSSSEG6E8V MASK_VSSSEG6E8V match_opcode INSN_DREF;
  row "vlsseg7e8.v" 0 INSN_CLASS_V "Vd,0(s),tVm" MATCH_VLSSEG7E8V MASK_VLSSEG7E8V match_opcode INSN_DREF;
  row "vssseg7e8.v" 0 INSN_CLASS_V "Vd,0(s),tVm" MATCH_VSSSEG7E8V MASK_VSSSEG7E8V match_opcode INSN_DREF;
  row "vlsseg8e8.v" 0 INSN_CLASS_V "Vd,0(s),tVm" MATCH_VLSSEG8E8V MASK_VLSSEG8E8V match_opcode INSN_DREF;
  row "vssseg8e8.v" 0 INSN_CLASS_V "Vd,0(s),tVm" MATCH_VSSSEG8E8V MASK_VSSSEG8E8V match_opcode INSN_DREF;
  row "vlsseg2e16.v" 0 INSN_CLASS_V "Vd,0(s),tVm" MATCH_VLSSEG2E16V MASK_VLSSEG2E16V match_opcode INSN_DREF;
  row "vssseg2e16.v" 0 INSN_CLASS_V "Vd,0(s),tVm" MATCH_VSSSEG2E16V MASK_VSSSEG2E16V match_opcode INSN_DREF;
  row "vlsseg3e16.v" 0 INSN_CLASS_V "Vd,0(s),tVm" MATCH_VLSSEG3E16V MASK_VLSSEG3E16V match_opcode INSN_DREF;
  row "vssseg3e16.v" 0 INSN_CLASS_V "Vd,0(s),tVm" MATCH_VSSSEG3E16V MASK_VSSSEG3E16V match_opcode INSN_DREF;
  row "vlsseg4e16.v" 0 INSN_CLASS_V "Vd,0(s),tVm" MATCH_VLSSEG4E16V MASK_VLSSEG4E16V match_opcode INSN_DREF;
  row "vssseg4e16.v" 0 INSN_CLASS_V "Vd,0(s),tVm" MATCH_VSSSEG4E16V MASK_VSSSEG4E16V match_opcode INSN_DREF;
  row "vlsseg5e16.v" 0 INSN_CLASS_V "Vd,0(s),tVm" MATCH_VLSSEG5E16V MASK_VLSSEG5E16V match_opcode INSN_DREF;
  row "vssseg5e16.v" 0 INSN_CLASS_V "Vd,0(s),tVm" MATCH_VSSSEG5E16V MASK_VSSSEG5E16V match_opcode INSN_DREF;
  row "vlsseg6e16.v" 0 INSN_CLASS_V "Vd,0(s),tVm" MATCH_VLSSEG6E16V MASK_VLSSEG6E16V match_opcode INSN_DREF;
  row "vssseg6e16.v" 0 INSN_CLASS_V "Vd,0(s),tVm" MATCH_VSSSEG6E16V MASK_VSSSEG6E16V match_opcode INSN_DREF;
  row "vlsseg7e16.v" 0 INSN_CLASS_V "Vd,0(s),tVm" MATCH_VLSSEG7E16V MASK_VLSSEG7E16V match_opcode INSN_DREF;
  row "vssseg7e16.v" 0 INSN_CLASS_V "Vd,0(s),tVm" MATCH_VSSSEG7E16V MASK_VSSSEG7E16V match_opcode INSN_DREF;
  row "vlsseg8e16.v" 0 INSN_CLASS_V "Vd,0(s),tVm" MATCH_VLSSEG8E16V MASK_VLSSEG8E16V match_opcode INSN_DREF;
  row "vssseg8e16.v" 0 INSN_CLASS_V "Vd,0(s),tVm" MATCH_VSSSEG8E16V MASK_VSSSEG8E16V match_opcode INSN_DREF;
  row "vlsseg2e32.v" 0 INSN_CLASS_V "Vd,0(s),tVm" MATCH_VLSSEG2E32V MASK_VLSSEG2E32V match_opcode INSN_DREF;
  row "vssseg2e32.v" 0 INSN_CLASS_V "Vd,0(s),tVm" MATCH_VSSSEG2E32V MASK_VSSSEG2E32V match_opcode INSN_DREF;
  row "vlsseg3e32.v" 0 INSN_CLASS_V "Vd,0(s),tVm" MATCH_VLSSEG3E32V MASK_VLSSEG3E32V match_opcode INSN_DREF;
  row "vssseg3e32.v" 0 INSN_CLASS_V "Vd,0(s),tVm" MATCH_VSSSEG3E32V MASK_VSSSEG3E32V match_opcode INSN_DREF;
  row "vlsseg4e32.v" 0 INSN_CLASS_V "Vd,0(s),tVm" MATCH_VLSSEG4E32V MASK_VLSSEG4E32V match_opcode INSN_DREF;
  row "vssseg4e32.v" 0 INSN_CLASS_V "Vd,0(s),tVm" MATCH_VSSSEG4E32V MASK_VSSSEG4E32V match_opcode INSN_DREF;
  row "vlsseg5e32.v" 0 INSN_CLASS_V "Vd,0(s),tVm" MATCH_VLSSEG5E32V MASK_VLSSEG5E32V match_opcode INSN_DREF;
  row "vssseg5e32.v" 0 INSN_CLASS_V "Vd,0(s),tVm" MATCH_VSSSEG5E32V MASK_VSSSEG5E32V match_opcode INSN_DREF;
  row "vlsseg6e32.v" 0 INSN_CLASS_V "Vd,0(s),tVm" MATCH_VLSSEG6E32V MASK_VLSSEG6E32V match_opcode INSN_DREF;
  row "vssseg6e32.v" 0 INSN_CLASS_V "Vd,0(s),tVm" MATCH_VSSSEG6E32V MASK_VSSSEG6E32V match_opcode INSN_DREF;
  row "vlsseg7e32.v" 0 INSN_CLASS_V "Vd,0(s),tVm" MATCH_VLSSEG7E32V MASK_VLSSEG7E32V match_opcode INSN_DREF;
  row "vssseg7e32.v" 0 INSN_CLASS_V "Vd,0(s),tVm" MATCH_VSSSEG7E32V MASK_VSSSEG7E32V match_opcode INSN_DREF;
  row "vlsseg8e32.v" 0 INSN_CLASS_V "Vd,0(s),tVm" MATCH_VLSSEG8E32V MASK_VLSSEG8E32V match_opcode INSN_DREF;
  row "vssseg8e32.v" 0 INSN_CLASS_V "Vd,0(s),tVm" MATCH_VSSSEG8E32V MASK_VSSSEG8E32V match_opcode INSN_DREF;
  row "vlsseg2e64.v" 0 INSN_CLASS_V "Vd,0(s),tVm" MATCH_VLSSEG2E64V MASK_VLSSEG2E64V match_opcode (INSN_DREF .| INSN_V_EEW64);
  row "vssseg2e64.v" 0 INSN_CLASS_V "Vd,0(s),tVm" MATCH_VSSSEG2E64V MASK_VSSSEG2E64V match_opcode (INSN_DREF .| INSN_V_EEW64);
  row "vlsseg3e64.v" 0 INSN_CLASS_V "Vd,0(s),tVm" MATCH_VLSSEG3E64V MASK_VLSSEG3E64V match_opcode (INSN_DREF .| INSN_V_EEW64);
  row "vssseg3e64.v" 0 INSN_CLASS_V "Vd,0(s),tVm" MATCH_VSSSEG3E64V MASK_VSSSEG3E64V match_opcode (INSN_DREF .| INSN_V_EEW64);
  row "vlsseg4e64.v" 0 INSN_CLASS_V "Vd,0(s),tVm" MATCH_VLSSEG4E64V MASK_VLSSEG4E64V match_opcode (INSN_DREF .| INSN_V_EEW64);
  row "vssseg4e64.v" 0 INSN_CLASS_V "Vd,0(s),tVm" MATCH_VSSSEG4E64V MASK_VSSSEG4E64V match_opcode (INSN_DREF .| INSN_V_EEW64);
  row "vlsseg5e64.v" 0 INSN_CLASS_V "Vd,0(s),tVm" MATCH_VLSSEG5E64V MASK_VLSSEG5E64V match_opcode (INSN_DREF .| INSN_V_EEW64);
  row "vssseg5e64.v" 0 INSN_CLASS_V "Vd,0(s),tVm" MATCH_VSSSEG5E64V MASK_VSSSEG5E64V match_opcode (INSN_DREF .| INSN_V_EEW64);
  row "vlsseg6e64.v" 0 INSN_CLASS_V "Vd,0(s),tVm" MATCH_VLSSEG6E64V MASK_VLSSEG6E64V match_opcode (INSN_DREF .| INSN_V_EEW64);
  row "vssseg6e64.v" 0 INSN_CLASS_V "Vd,0(s),tVm" MATCH_VSSSEG6E64V MASK_VSSSEG6E64V match_opcode (INSN_DREF .| INSN_V_EEW64);
  row "vlsseg7e64.v" 0 INSN_CLASS_V "Vd,0(s),tVm" MATCH_VLSSEG7E64V MASK_VLSSEG7E64V match_opcode (INSN_DREF .| INSN_V_EEW64);
  row "vssseg7e64.v" 0 INSN_CLASS_V "Vd,0(s),tVm" MATCH_VSSSEG7E64V MASK_VSSSEG7E64V match_opcode (INSN_DREF .| INSN_V_EEW64);
  row "vlsseg8e64.v" 0 INSN_CLASS_V "Vd,0(s),tVm" MATCH_VLSSEG8E64V MASK_VLSSEG8E64V match_opcode (INSN_DREF .| INSN_V_EEW64);
  row "vssseg8e64.v" 0 INSN_CLASS_V "Vd,0(s),tVm" MATCH_VSSSEG8E64V MASK_VSSSEG8E64V match_opcode (INSN_DREF .| INSN_V_EEW64);
  row "vloxseg2ei8.v" 0 INSN_CLASS_V "Vd,0(s),VtVm" MATCH_VLOXSEG2EI8V MASK_VLOXSEG2EI8V match_opcode INSN_DREF;
  row "vsoxseg2ei8.v" 0 INSN_CLASS_V "Vd,0(s),VtVm" MATCH_VSOXSEG2EI8V MASK_VSOXSEG2EI8V match_opcode INSN_DREF;
  row "vloxseg3ei8.v" 0 INSN_CLASS_V "Vd,0(s),VtVm" MATCH_VLOXSEG3EI8V MASK_VLOXSEG3EI8V match_opcode INSN_DREF;
  row "vsoxseg3ei8.v" 0 INSN_CLASS_V "Vd,0(s),VtVm" MATCH_VSOXSEG3EI8V MASK_VSOXSEG3EI8V match_opcode INSN_DREF;
  row "vloxseg4ei8.v" 0 INSN_CLASS_V "Vd,0(s),VtVm" MATCH_VLOXSEG4EI8V MASK_VLOXSEG4EI8V match_opcode INSN_DREF;
  row "vsoxseg4ei8.v" 0 INSN_CLASS_V "Vd,0(s),VtVm" MATCH_VSOXSEG4EI8V MASK_VSOXSEG4EI8V match_opcode INSN_DREF;
  row "vloxseg5ei8.v" 0 INSN_CLASS_V "Vd,0(s),VtVm" MATCH_VLOXSEG5EI8V MASK_VLOXSEG5EI8V match_opcode INSN_DREF;
  row "vsoxseg5ei8.v" 0 INSN_CLASS_V "Vd,0(s),VtVm" MATCH_VSOXSEG5EI8V MASK_VSOXSEG5EI8V match_opcode INSN_DREF;
  row "vloxseg6ei8.v" 0 INSN_CLASS_V "Vd,0(s),VtVm" MATCH_VLOXSEG6EI8V MASK_VLOXSEG6EI8V match_opcode INSN_DREF;
  row "vsoxseg6ei8.v" 0 INSN_CLASS_V "Vd,0(s),VtVm" MATCH_VSOXSEG6EI8V MASK_VSOXSEG6EI8V match_opcode INSN_DREF;
  row "vloxseg7ei8.v" 0 INSN_CLASS_V "Vd,0(s),VtVm" MATCH_VLOXSEG7EI8V MASK_VLOXSEG7EI8V match_opcode INSN_DREF;
  row "vsoxseg7ei8.v" 0 INSN_CLASS_V "Vd,0(s),VtVm" MATCH_VSOXSEG7EI8V MASK_VSOXSEG7EI8V match_opcode INSN_DREF;
  row "vloxseg8ei8.v" 0 INSN_CLASS_V "Vd,0(s),VtVm" MATCH_VLOXSEG8EI8V MASK_VLOXSEG8EI8V match_opcode INSN_DREF;
  row "vsoxseg8ei8.v" 0 INSN_CLASS_V "Vd,0(s),VtVm" MATCH_VSOXSEG8EI8V MASK_VSOXSEG8EI8V match_opcode INSN_DREF;
  row "vloxseg2ei16.v" 0 INSN_CLASS_V "Vd,0(s),VtVm" MATCH_VLOXSEG2EI16V MASK_VLOXSEG2EI16V match_opcode INSN_DREF;
  row "vsoxseg2ei16.v" 0 INSN_CLASS_V "Vd,0(s),VtVm" MATCH_VSOXSEG2EI16V MASK_VSOXSEG2EI16V match_opcode INSN_DREF;
  row "vloxseg3ei16.v" 0 INSN_CLASS_V "Vd,0(s),VtVm" MATCH_VLOXSEG3EI16V MASK_VLOXSEG3EI16V match_opcode INSN_DREF;
  row "vsoxseg3ei16.v" 0 INSN_CLASS_V "Vd,0(s),VtVm" MATCH_VSOXSEG3EI16V MASK_VSOXSEG3EI16V match_opcode INSN_DREF;
  row "vloxseg4ei16.v" 0 INSN_CLASS_V "Vd,0(s),VtVm" MATCH_VLOXSEG4EI16V MASK_VLOXSEG4EI16V match_opcode INSN_DREF;
  row "vsoxseg4ei16.v" 0 INSN_CLASS_V "Vd,0(s),VtVm" MATCH_VSOXSEG4EI16V MASK_VSOXSEG4EI16V match_opcode INSN_DREF;
  row "vloxseg5ei16.v" 0 INSN_CLASS_V "Vd,0(s),VtVm" MATCH_VLOXSEG5EI16V MASK_VLOXSEG5EI16V match_opcode INSN_DREF;
  row "vsoxseg5ei16.v" 0 INSN_CLASS_V "Vd,0(s),VtVm" MATCH_VSOXSEG5EI16V MASK_VSOXSEG5EI16V match_opcode INSN_DREF;
  row "vloxseg6ei16.v" 0 INSN_CLASS_V "Vd,0(s),VtVm" MATCH_VLOXSEG6EI16V MASK_VLOXSEG6EI16V match_opcode INSN_DREF;
  row "vsoxseg6ei16.v" 0 INSN_CLASS_V "Vd,0(s),VtVm" MATCH_VSOXSEG6EI16V MASK_VSOXSEG6EI16V match_opcode INSN_DREF;
  row "vloxseg7ei16.v" 0 INSN_CLASS_V "Vd,0(s),VtVm" MATCH_VLOXSEG7EI16V MASK_VLOXSEG7EI16V match_opcode INSN_DREF;
  row "vsoxseg7ei16.v" 0 INSN_CLASS_V "Vd,0(s),VtVm" MATCH_VSOXSEG7EI16V MASK_VSOXSEG7EI16V match_opcode INSN_DREF;
  row "vloxseg8ei16.v" 0 INSN_CLASS_V "Vd,0(s),VtVm" MATCH_VLOXSEG8EI16V MASK_VLOXSEG8EI16V match_opcode INSN_DREF;
  row "vsoxseg8ei16.v" 0 INSN_CLASS_V "Vd,0(s),VtVm" MATCH_VSOXSEG8EI16V MASK_VSOXSEG8EI16V match_opcode INSN_DREF;
  row "vloxseg2ei32.v" 0 INSN_CLASS_V "Vd,0(s),VtVm" MATCH_VLOXSEG2EI32V MASK_VLOXSEG2EI32V match_opcode INSN_DREF;
  row "vsoxseg2ei32.v" 0 INSN_CLASS_V "Vd,0(s),VtVm" MATCH_VSOXSEG2EI32V MASK_VSOXSEG2EI32V match_opcode INSN_DREF;
  row "vloxseg3ei32.v" 0 INSN_CLASS_V "Vd,0(s),VtVm" MATCH_VLOXSEG3EI32V MASK_VLOXSEG3EI32V match_opcode INSN_DREF;
  row "vsoxseg3ei32.v" 0 INSN_CLASS_V "Vd,0(s),VtVm" MATCH_VSOXSEG3EI32V MASK_VSOXSEG3EI32V match_opcode INSN_DREF;
  row "vloxseg4ei32.v" 0 INSN_CLASS_V "Vd,0(s),VtVm" MATCH_VLOXSEG4EI32V MASK_VLOXSEG4EI32V match_opcode INSN_DREF;
  row "vsoxseg4ei32.v" 0 INSN_CLASS_V "Vd,0(s),VtVm" MATCH_VSOXSEG4EI32V MASK_VSOXSEG4EI32V match_opcode INSN_DREF;
  row "vloxseg5ei32.v" 0 INSN_CLASS_V "Vd,0(s),VtVm" MATCH_VLOXSEG5EI32V MASK_VLOXSEG5EI32V match_opcode INSN_DREF;
  row "vsoxseg5ei32.v" 0 INSN_CLASS_V "Vd,0(s),VtVm" MATCH_VSOXSEG5EI32V MASK_VSOXSEG5EI32V match_opcode INSN_DREF;
  row "vloxseg6ei32.v" 0 INSN_CLASS_V "Vd,0(s),VtVm" MATCH_VLOXSEG6EI32V MASK_VLOXSEG6EI32V match_opcode INSN_DREF;
  row "vsoxseg6ei32.v" 0 INSN_CLASS_V "Vd,0(s),VtVm" MATCH_VSOXSEG6EI32V MASK_VSOXSEG6EI32V match_opcode INSN_DREF;
  row "vloxseg7ei32.v" 0 INSN_CLASS_V "Vd,0(s),VtVm" MATCH_VLOXSEG7EI32V MASK_VLOXSEG7EI32V match_opcode INSN_DREF;
  row "vsoxseg7ei32.v" 0 INSN_CLASS_V "Vd,0(s),VtVm" MATCH_VSOXSEG7EI32V MASK_VSOXSEG7EI32V match_opcode INSN_DREF;
  row "vloxseg8ei32.v" 0 INSN_CLASS_V "Vd,0(s),VtVm" MATCH_VLOXSEG8EI32V MASK_VLOXSEG8EI32V match_opcode INSN_DREF;
  row "vsoxseg8ei32.v" 0 INSN_CLASS_V "Vd,0(s),VtVm" MATCH_VSOXSEG8EI32V MASK_VSOXSEG8EI32V match_opcode INSN_DREF;
  row "vloxseg2ei64.v" 0 INSN_CLASS_V "Vd,0(s),VtVm" MATCH_VLOXSEG2EI64V MASK_VLOXSEG2EI64V match_opcode (INSN_DREF .| INSN_V_EEW64);
  row "vsoxseg2ei64.v" 0 INSN_CLASS_V "Vd,0(s),VtVm" MATCH_VSOXSEG2EI64V MASK_VSOXSEG2EI64V match_opcode (INSN_DREF .| INSN_V_EEW64);
  row "vloxseg3ei64.v" 0 INSN_CLASS_V "Vd,0(s),VtVm" MATCH_VLOXSEG3EI64V MASK_VLOXSEG3EI64V match_opcode (INSN_DREF .| INSN_V_EEW64);
  row "vsoxseg3ei64.v" 0 INSN_CLASS_V "Vd,0(s),VtVm" MATCH_VSOXSEG3EI64V MASK_VSOXSEG3EI64V match_opcode (INSN_DREF .| INSN_V_EEW64);
  row "vloxseg4ei64.v" 0 INSN_CLASS_V "Vd,0(s),VtVm" MATCH_VLOXSEG4EI64V MASK_VLOXSEG4EI64V match_opcode (INSN_DREF .| INSN_V_EEW64);
  row "vsoxseg4ei64.v" 0 INSN_CLASS_V "Vd,0(s),VtVm" MATCH_VSOXSEG4EI64V MASK_VSOXSEG4EI64V match_opcode (INSN_DREF .| INSN_V_EEW64);
  row "vloxseg5ei64.v" 0 INSN_CLASS_V "Vd,0(s),VtVm" MATCH_VLOXSEG5EI64V MASK_VLOXSEG5EI64V match_opcode (INSN_DREF .| INSN_V_EEW64);
  row "vsoxseg5ei64.v" 0 INSN_CLASS_V "Vd,0(s),VtVm" MATCH_VSOXSEG5EI64V MASK_VSOXSEG5EI64V match_opcode (INSN_DREF .| INSN_V_EEW64)
].

Definition riscv_opcodes_08 : list riscv_opcode := [
  row "vloxseg6ei64.v" 0 INSN_CLASS_V "Vd,0(s),VtVm" MATCH_VLOXSEG6EI64V MASK_VLOXSEG6EI64V match_opcode (INSN_DREF .| INSN_V_EEW64);
  row "vsoxseg6ei64.v" 0 INSN_CLASS_V "Vd,0(s),VtVm" MATCH_VSOXSEG6EI64V MASK_VSOXSEG6EI64V match_opcode (INSN_DREF .| INSN_V_EEW64);
  row "vloxseg7ei64.v" 0 INSN_CLASS_V "Vd,0(s),VtVm" MATCH_VLOXSEG7EI64V MASK_VLOXSEG7EI64V match_opcode (INSN_DREF .| INSN_V_EEW64);
  row "vsoxseg7ei64.v" 0 INSN_CLASS_V "Vd,0(s),VtVm" MATCH_VSOXSEG7EI64V MASK_VSOXSEG7EI64V match_opcode (INSN_DREF .| INSN_V_EEW64);
  row "vloxseg8ei64.v" 0 INSN_CLASS_V "Vd,0(s),VtVm" MATCH_VLOXSEG8EI64V MASK_VLOXSEG8EI64V match_opcode (INSN_DREF .| INSN_V_EEW64);
  row "vsoxseg8ei64.v" 0 INSN_CLASS_V "Vd,0(s),VtVm" MATCH_VSOXSEG8EI64V MASK_VSOXSEG8EI64V match_opcode (INSN_DREF .| INSN_V_EEW64);
  row "vluxseg2ei8.v" 0 INSN_CLASS_V "Vd,0(s),VtVm" MATCH_VLUXSEG2EI8V MASK_VLUXSEG2EI8V match_opcode INSN_DREF;
  row "vsuxseg2ei8.v" 0 INSN_CLASS_V "Vd,0(s),VtVm" MATCH_VSUXSEG2EI8V MASK_VSUXSEG2EI8V match_opcode INSN_DREF;
  row "vluxseg3ei8.v" 0 INSN_CLASS_V "Vd,0(s),VtVm" MATCH_VLUXSEG3EI8V MASK_VLUXSEG3EI8V match_opcode INSN_DREF;
  row "vsuxseg3ei8.v" 0 INSN_CLASS_V "Vd,0(s),VtVm" MATCH_VSUXSEG3EI8V MASK_VSUXSEG3EI8V match_opcode INSN_DREF;
  row "vluxseg4ei8.v" 0 INSN_CLASS_V "Vd,0(s),VtVm" MATCH_VLUXSEG4EI8V MASK_VLUXSEG4EI8V match_opcode INSN_DREF;
  row "vsuxseg4ei8.v" 0 INSN_CLASS_V "Vd,0(s),VtVm" MATCH_VSUXSEG4EI8V MASK_VSUXSEG4EI8V match_opcode INSN_DREF;
  row "vluxseg5ei8.v" 0 INSN_CLASS_V "Vd,0(s),VtVm" MATCH_VLUXSEG5EI8V MASK_VLUXSEG5EI8V match_opcode INSN_DREF;
  row "vsuxseg5ei8.v" 0 INSN_CLASS_V "Vd,0(s),VtVm" MATCH_VSUXSEG5EI8V MASK_VSUXSEG5EI8V match_opcode INSN_DREF;
  row "vluxseg6ei8.v" 0 INSN_CLASS_V "Vd,0(s),VtVm" MATCH_VLUXSEG6EI8V MASK_VLUXSEG6EI8V match_opcode INSN_DREF;
  row "vsuxseg6ei8.v" 0 INSN_CLASS_V "Vd,0(s),VtVm" MATCH_VSUXSEG6EI8V MASK_VSUXSEG6EI8V match_opcode INSN_DREF;
  row "vluxseg7ei8.v" 0 INSN_CLASS_V "Vd,0(s),VtVm" MATCH_VLUXSEG7EI8V MASK_VLUXSEG7EI8V match_opcode INSN_DREF;
  row "vsuxseg7ei8.v" 0 INSN_CLASS_V "Vd,0(s),VtVm" MATCH_VSUXSEG7EI8V MASK_VSUXSEG7EI8V match_opcode INSN_DREF;
  row "vluxseg8ei8.v" 0 INSN_CLASS_V "Vd,0(s),VtVm" MATCH_VLUXSEG8EI8V MASK_VLUXSEG8EI8V match_opcode INSN_DREF;
  row "vsuxseg8ei8.v" 0 INSN_CLASS_V "Vd,0(s),VtVm" MATCH_VSUXSEG8EI8V MASK_VSUXSEG8EI8V match_opcode INSN_DREF;
  row "vluxseg2ei16.v" 0 INSN_CLASS_V "Vd,0(s),VtVm" MATCH_VLUXSEG2EI16V MASK_VLUXSEG2EI16V match_opcode INSN_DREF;
  row "vsuxseg2ei16.v" 0 INSN_CLASS_V "Vd,0(s),VtVm" MATCH_VSUXSEG2EI16V MASK_VSUXSEG2EI16V match_opcode INSN_DREF;
  row "vluxseg3ei16.v" 0 INSN_CLASS_V "Vd,0(s),VtVm" MATCH_VLUXSEG3EI16V MASK_VLUXSEG3EI16V match_opcode INSN_DREF;
  row "vsuxseg3ei16.v" 0 INSN_CLASS_V "Vd,0(s),VtVm" MATCH_VSUXSEG3EI16V MASK_VSUXSEG3EI16V match_opcode INSN_DREF;
  row "vluxseg4ei16.v" 0 INSN_CLASS_V "Vd,0(s),VtVm" MATCH_VLUXSEG4EI16V MASK_VLUXSEG4EI16V match_opcode INSN_DREF;
  row "vsuxseg4ei16.v" 0 INSN_CLASS_V "Vd,0(s),VtVm" MATCH_VSUXSEG4EI16V MASK_VSUXSEG4EI16V match_opcode INSN_DREF;
  row "vluxseg5ei16.v" 0 INSN_CLASS_V "Vd,0(s),VtVm" MATCH_VLUXSEG5EI16V MASK_VLUXSEG5EI16V match_opcode INSN_DREF;
  row "vsuxseg5ei16.v" 0 INSN_CLASS_V "Vd,0(s),VtVm" MATCH_VSUXSEG5EI16V MASK_VSUXSEG5EI16V match_opcode INSN_DREF;
  row "vluxseg6ei16.v" 0 INSN_CLASS_V "Vd,0(s),VtVm" MATCH_VLUXSEG6EI16V MASK_VLUXSEG6EI16V match_opcode INSN_DREF;
  row "vsuxseg6ei16.v" 0 INSN_CLASS_V "Vd,0(s),VtVm" MATCH_VSUXSEG6EI16V MASK_VSUXSEG6EI16V match_opcode INSN_DREF;
  row "vluxseg7ei16.v" 0 INSN_CLASS_V "Vd,0(s),VtVm" MATCH_VLUXSEG7EI16V MASK_VLUXSEG7EI16V match_opcode INSN_DREF;
  row "vsuxseg7ei16.v" 0 INSN_CLASS_V "Vd,0(s),VtVm" MATCH_VSUXSEG7EI16V MASK_VSUXSEG7EI16V match_opcode INSN_DREF;
  row "vluxseg8ei16.v" 0 INSN_CLASS_V "Vd,0(s),VtVm" MATCH_VLUXSEG8EI16V MASK_VLUXSEG8EI16V match_opcode INSN_DREF;
  row "vsuxseg8ei16.v" 0 INSN_CLASS_V "Vd,0(s),VtVm" MATCH_VSUXSEG8EI16V MASK_VSUXSEG8EI16V match_opcode INSN_DREF;
  row "vluxseg2ei32.v" 0 INSN_CLASS_V "Vd,0(s),VtVm" MATCH_VLUXSEG2EI32V MASK_VLUXSEG2EI32V match_opcode INSN_DREF;
  row "vsuxseg2ei32.v" 0 INSN_CLASS_V "Vd,0(s),VtVm" MATCH_VSUXSEG2EI32V MASK_VSUXSEG2EI32V match_opcode INSN_DREF;
  row "vluxseg3ei32.v" 0 INSN_CLASS_V "Vd,0(s),VtVm" MATCH_VLUXSEG3EI32V MASK_VLUXSEG3EI32V match_opcode INSN_DREF;
  row "vsuxseg3ei32.v" 0 INSN_CLASS_V "Vd,0(s),VtVm" MATCH_VSUXSEG3EI32V MASK_VSUXSEG3EI32V match_opcode INSN_DREF;
  row "vluxseg4ei32.v" 0 INSN_CLASS_V "Vd,0(s),VtVm" MATCH_VLUXSEG4EI32V MASK_VLUXSEG4EI32V match_opcode INSN_DREF;
  row "vsuxseg4ei32.v" 0 INSN_CLASS_V "Vd,0(s),VtVm" MATCH_VSUXSEG4EI32V MASK_VSUXSEG4EI32V match_opcode INSN_DREF;
  row "vluxseg5ei32.v" 0 INSN_CLASS_V "Vd,0(s),VtVm" MATCH_VLUXSEG5EI32V MASK_VLUXSEG5EI32V match_opcode INSN_DREF;
  row "vsuxseg5ei32.v" 0 INSN_CLASS_V "Vd,0(s),VtVm" MATCH_VSUXSEG5EI32V MASK_VSUXSEG5EI32V match_opcode INSN_DREF;
  row "vluxseg6ei32.v" 0 INSN_CLASS_V "Vd,0(s),VtVm" MATCH_VLUXSEG6EI32V MASK_VLUXSEG6EI32V match_opcode INSN_DREF;
  row "vsuxseg6ei32.v" 0 INSN_CLASS_V "Vd,0(s),VtVm" MATCH_VSUXSEG6EI32V MASK_VSUXSEG6EI32V match_opcode INSN_DREF;
  row "vluxseg7ei32.v" 0 INSN_CLASS_V "Vd,0(s),VtVm" MATCH_VLUXSEG7EI32V MASK_VLUXSEG7EI32V match_opcode INSN_DREF;
  row "vsuxseg7ei32.v" 0 INSN_CLASS_V "Vd,0(s),VtVm" MATCH_VSUXSEG7EI32V MASK_VSUXSEG7EI32V match_opcode INSN_DREF;
  row "vluxseg8ei32.v" 0 INSN_CLASS_V "Vd,0(s),VtVm" MATCH_VLUXSEG8EI32V MASK_VLUXSEG8EI32V match_opcode INSN_DREF;
  row "vsuxseg8ei32.v" 0 INSN_CLASS_V "Vd,0(s),VtVm" MATCH_VSUXSEG8EI32V MASK_VSUXSEG8EI32V match_opcode INSN_DREF;
  row "vluxseg2ei64.v" 0 INSN_CLASS_V "Vd,0(s),VtVm" MATCH_VLUXSEG2EI64V MASK_VLUXSEG2EI64V match_opcode (INSN_DREF .| INSN_V_EEW64);
  row "vsuxseg2ei64.v" 0 INSN_CLASS_V "Vd,0(s),VtVm" MATCH_VSUXSEG2EI64V MASK_VSUXSEG2EI64V match_opcode (INSN_DREF .| INSN_V_EEW64);
  row "vluxseg3ei64.v" 0 INSN_CLASS_V "Vd,0(s),VtVm" MATCH_VLUXSEG3EI64V MASK_VLUXSEG3EI64V match_opcode (INSN_DREF .| INSN_V_EEW64);
  row "vsuxseg3ei64.v" 0 INSN_CLASS_V "Vd,0(s),VtVm" MATCH_VSUXSEG3EI64V MASK_VSUXSEG3EI64V match_opcode (INSN_DREF .| INSN_V_EEW64);
  row "vluxseg4ei64.v" 0 INSN_CLASS_V "Vd,0(s),VtVm" MATCH_VLUXSEG4EI64V MASK_VLUXSEG4EI64V match_opcode (INSN_DREF .| INSN_V_EEW64);
  row "vsuxseg4ei64.v" 0 INSN_CLASS_V "Vd,0(s),VtVm" MATCH_VSUXSEG4EI64V MASK_VSUXSEG4EI64V match_opcode (INSN_DREF .| INSN_V_EEW64);
  row "vluxseg5ei64.v" 0 INSN_CLASS_V "Vd,0(s),VtVm" MATCH_VLUXSEG5EI64V MASK_VLUXSEG5EI64V match_opcode (INSN_DREF .| INSN_V_EEW64);
  row "vsuxseg5ei64.v" 0 INSN_CLASS_V "Vd,0(s),VtVm" MATCH_VSUXSEG5EI64V MASK_VSUXSEG5EI64V match_opcode (INSN_DREF .| INSN_V_EEW64);
  row "vluxseg6ei64.v" 0 INSN_CLASS_V "Vd,0(s),VtVm" MATCH_VLUXSEG6EI64V MASK_VLUXSEG6EI64V match_opcode (INSN_DREF .| INSN_V_EEW64);
  row "vsuxseg6ei64.v" 0 INSN_CLASS_V "Vd,0(s),VtVm" MATCH_VSUXSEG6EI64V MASK_VSUXSEG6EI64V match_opcode (INSN_DREF .| INSN_V_EEW64);
  row "vluxseg7ei64.v" 0 INSN_CLASS_V "Vd,0(s),VtVm" MATCH_VLUXSEG7EI64V MASK_VLUXSEG7EI64V match_opcode (INSN_DREF .| INSN_V_EEW64);
  row "vsuxseg7ei64.v" 0 INSN_CLASS_V "Vd,0(s),VtVm" MATCH_VSUXSEG7EI64V MASK_VSUXSEG7EI64V match_opcode (INSN_DREF .| INSN_V_EEW64);
  row "vluxseg8ei64.v" 0 INSN_CLASS_V "Vd,0(s),VtVm" MATCH_VLUXSEG8EI64V MASK_VLUXSEG8EI64V match_opcode (INSN_DREF .| INSN_V_EEW64);
  row "vsuxseg8ei64.v" 0 INSN_CLASS_V "Vd,0(s),VtVm" MATCH_VSUXSEG8EI64V MASK_VSUXSEG8EI64V match_opcode (INSN_DREF .| INSN_V_EEW64);
  row "vlseg2e8ff.v" 0 INSN_CLASS_V "Vd,0(s)Vm" MATCH_VLSEG2E8FFV MASK_VLSEG2E8FFV match_opcode INSN_DREF;
  row "vlseg3e8ff.v" 0 INSN_CLASS_V "Vd,0(s)Vm" MATCH_VLSEG3E8FFV MASK_VLSEG3E8FFV match_opcode INSN_DREF;
  row "vlseg4e8ff.v" 0 INSN_CLASS_V "Vd,0(s)Vm" MATCH_VLSEG4E8FFV MASK_VLSEG4E8FFV match_opcode INSN_DREF;
  row "vlseg5e8ff.v" 0 INSN_CLASS_V "Vd,0(s)Vm" MATCH_VLSEG5E8FFV MASK_VLSEG5E8FFV match_opcode INSN_DREF;
  row "vlseg6e8ff.v" 0 INSN_CLASS_V "Vd,0(s)Vm" MATCH_VLSEG6E8FFV MASK_VLSEG6E8FFV match_opcode INSN_DREF;
  row "vlseg7e8ff.v" 0 INSN_CLASS_V "Vd,0(s)Vm" MATCH_VLSEG7E8FFV MASK_VLSEG7E8FFV match_opcode INSN_DREF;
  row "vlseg8e8ff.v" 0 INSN_CLASS_V "Vd,0(s)Vm" MATCH_VLSEG8E8FFV MASK_VLSEG8E8FFV match_opcode INSN_DREF;
  row "vlseg2e16ff.v" 0 INSN_CLASS_V "Vd,0(s)Vm" MATCH_VLSEG2E16FFV MASK_VLSEG2E16FFV match_opcode INSN_DREF;
  row "vlseg3e16ff.v" 0 INSN_CLASS_V "Vd,0(s)Vm" MATCH_VLSEG3E16FFV MASK_VLSEG3E16FFV match_opcode INSN_DREF;
  row "vlseg4e16ff.v" 0 INSN_CLASS_V "Vd,0(s)Vm" MATCH_VLSEG4E16FFV MASK_VLSEG4E16FFV match_opcode INSN_DREF;
  row "vlseg5e16ff.v" 0 INSN_CLASS_V "Vd,0(s)Vm" MATCH_VLSEG5E16FFV MASK_VLSEG5E16FFV match_opcode INSN_DREF;
  row "vlseg6e16ff.v" 0 INSN_CLASS_V "Vd,0(s)Vm" MATCH_VLSEG6E16FFV MASK_VLSEG6E16FFV match_opcode INSN_DREF;
  row "vlseg7e16ff.v" 0 INSN_CLASS_V "Vd,0(s)Vm" MATCH_VLSEG7E16FFV MASK_VLSEG7E16FFV match_opcode INSN_DREF;
  row "vlseg8e16ff.v" 0 INSN_CLASS_V "Vd,0(s)Vm" MATCH_VLSEG8E16FFV MASK_VLSEG8E16FFV match_opcode INSN_DREF;
  row "vlseg2e32ff.v" 0 INSN_CLASS_V "Vd,0(s)Vm" MATCH_VLSEG2E32FFV MASK_VLSEG2E32FFV match_opcode INSN_DREF;
  row "vlseg3e32ff.v" 0 INSN_CLASS_V "Vd,0(s)Vm" MATCH_VLSEG3E32FFV MASK_VLSEG3E32FFV match_opcode INSN_DREF;
  row "vlseg4e32ff.v" 0 INSN_CLASS_V "Vd,0(s)Vm" MATCH_VLSEG4E32FFV MASK_VLSEG4E32FFV match_opcode INSN_DREF;
  row "vlseg5e32ff.v" 0 INSN_CLASS_V "Vd,0(s)Vm" MATCH_VLSEG5E32FFV MASK_VLSEG5E32FFV match_opcode INSN_DREF;
  row "vlseg6e32ff.v" 0 INSN_CLASS_V "Vd,0(s)Vm" MATCH_VLSEG6E32FFV MASK_VLSEG6E32FFV match_opcode INSN_DREF;
  row "vlseg7e32ff.v" 0 INSN_CLASS_V "Vd,0(s)Vm" MATCH_VLSEG7E32FFV MASK_VLSEG7E32FFV match_opcode INSN_DREF;
  row "vlseg8e32ff.v" 0 INSN_CLASS_V "Vd,0(s)Vm" MATCH_VLSEG8E32FFV MASK_VLSEG8E32FFV match_opcode INSN_DREF;
  row "vlseg2e64ff.v" 0 INSN_CLASS_V "Vd,0(s)Vm" MATCH_VLSEG2E64FFV MASK_VLSEG2E64FFV match_opcode (INSN_DREF .| INSN_V_EEW64);
  row "vlseg3e64ff.v" 0 INSN_CLASS_V "Vd,0(s)Vm" MATCH_VLSEG3E64FFV MASK_VLSEG3E64FFV match_opcode (INSN_DREF .| INSN_V_EEW64);
  row "vlseg4e64ff.v" 0 INSN_CLASS_V "Vd,0(s)Vm" MATCH_VLSEG4E64FFV MASK_VLSEG4E64FFV match_opcode (INSN_DREF .| INSN_V_EEW64);
  row "vlseg5e64ff.v" 0 INSN_CLASS_V "Vd,0(s)Vm" MATCH_VLSEG5E64FFV MASK_VLSEG5E64FFV match_opcode (INSN_DREF .| INSN_V_EEW64);
  row "vlseg6e64ff.v" 0 INSN_CLASS_V "Vd,0(s)Vm" MATCH_VLSEG6E64FFV MASK_VLSEG6E64FFV match_opcode (INSN_DREF .| INSN_V_EEW64);
  row "vlseg7e64ff.v" 0 INSN_CLASS_V "Vd,0(s)Vm" MATCH_VLSEG7E64FFV MASK_VLSEG7E64FFV match_opcode (INSN_DREF .| INSN_V_EEW64);
  row "vlseg8e64ff.v" 0 INSN_CLASS_V "Vd,0(s)Vm" MATCH_VLSEG8E64FFV MASK_VLSEG8E64FFV match_opcode (INSN_DREF .| INSN_V_EEW64);
  row "vl1r.v" 0 INSN_CLASS_V "Vd,0(s)" MATCH_VL1RE8V MASK_VL1RE8V match_opcode (INSN_DREF .| INSN_ALIAS);
  row "vl1re8.v" 0 INSN_CLASS_V "Vd,0(s)" MATCH_VL1RE8V MASK_VL1RE8V match_opcode INSN_DREF;
  row "vl1re16.v" 0 INSN_CLASS_V "Vd,0(s)" MATCH_VL1RE16V MASK_VL1RE16V match_opcode INSN_DREF;
  row "vl1re32.v" 0 INSN_CLASS_V "Vd,0(s)" MATCH_VL1RE32V MASK_VL1RE32V match_opcode INSN_DREF;
  row "vl1re64.v" 0 INSN_CLASS_V "Vd,0(s)" MATCH_VL1RE64V MASK_VL1RE64V match_opcode (INSN_DREF .| INSN_V_EEW64);
  row "vl2r.v" 0 INSN_CLASS_V "Vd,0(s)" MATCH_VL2RE8V MASK_VL2RE8V match_opcode (INSN_DREF .| INSN_ALIAS);
  row "vl2re8.v" 0 INSN_CLASS_V "Vd,0(s)" MATCH_VL2RE8V MASK_VL2RE8V match_opcode INSN_DREF;
  row "vl2re16.v" 0 INSN_CLASS_V "Vd,0(s)" MATCH_VL2RE16V MASK_VL2RE16V match_opcode INSN_DREF;
  row "vl2re32.v" 0 INSN_CLASS_V "Vd,0(s)" MATCH_VL2RE32V MASK_VL2RE32V match_opcode INSN_DREF;
  row "vl2re64.v" 0 INSN_CLASS_V "Vd,0(s)" MATCH_VL2RE64V MASK_VL2RE64V match_opcode (INSN_DREF .| INSN_V_EEW64);
  row "vl4r.v" 0 INSN_CLASS_V "Vd,0(s)" MATCH_VL4RE8V MASK_VL4RE8V match_opcode (INSN_DREF .| INSN_ALIAS);
  row "vl4re8.v" 0 INSN_CLASS_V "Vd,0(s)" MATCH_VL4RE8V MASK_VL4RE8V match_opcode INSN_DREF;
  row "vl4re16.v" 0 INSN_CLASS_V "Vd,0(s)" MATCH_VL4RE16V MASK_VL4RE16V match_opcode INSN_DREF;
  row "vl4re32.v" 0 INSN_CLASS_V "Vd,0(s)" MATCH_VL4RE32V MASK_VL4RE32V match_opcode INSN_DREF;
  row "vl4re64.v" 0 INSN_CLASS_V "Vd,0(s)" MATCH_VL4RE64V MASK_VL4RE64V match_opcode (INSN_DREF .| INSN_V_EEW64);
  row "vl8r.v" 0 INSN_CLASS_V "Vd,0(s)" MATCH_VL8RE8V MASK_VL8RE8V match_opcode (INSN_DREF .| INSN_ALIAS);
  row "vl8re8.v" 0 INSN_CLASS_V "Vd,0(s)" MATCH_VL8RE8V MASK_VL8RE8V match_opcode INSN_DREF;
  row "vl8re16.v" 0 INSN_CLASS_V "Vd,0(s)" MATCH_VL8RE16V MASK_VL8RE16V match_opcode INSN_DREF;
  row "vl8re32.v" 0 INSN_CLASS_V "Vd,0(s)" MATCH_VL8RE32V MASK_VL8RE32V match_opcode INSN_DREF;
  row "vl8re64.v" 0 INSN_CLASS_V "Vd,0(s)" MATCH_VL8RE64V MASK_VL8RE64V match_opcode (INSN_DREF .| INSN_V_EEW64);
  row "vs1r.v" 0 INSN_CLASS_V "Vd,0(s)" MATCH_VS1RV MASK_VS1RV match_opcode INSN_DREF;
  row "vs2r.v" 0 INSN_CLASS_V "Vd,0(s)" MATCH_VS2RV MASK_VS2RV match_opcode INSN_DREF;
  row "vs4r.v" 0 INSN_CLASS_V "Vd,0(s)" MATCH_VS4RV MASK_VS4RV match_opcode INSN_DREF;
  row "vs8r.v" 0 INSN_CLASS_V "Vd,0(s)" MATCH_VS8RV MASK_VS8RV match_opcode INSN_DREF;
  row "vneg.v" 0 INSN_CLASS_V "Vd,VtVm" MATCH_VRSUBVX (MASK_VRSUBVX .| MASK_RS1) match_opcode INSN_ALIAS;
  row "vadd.vv" 0 INSN_CLASS_V "Vd,Vt,VsVm" MATCH_VADDVV MASK_VADDVV match_opcode 0;
  row "vadd.vx" 0 INSN_CLASS_V "Vd,Vt,sVm" MATCH_VADDVX MASK_VADDVX match_opcode 0;
  row "vadd.vi" 0 INSN_CLASS_V "Vd,Vt,ViVm" MATCH_VADDVI MASK_VADDVI match_opcode 0;
  row "vsub.vv" 0 INSN_CLASS_V "Vd,Vt,VsVm" MATCH_VSUBVV MASK_VSUBVV match_opcode 0;
  row "vsub.vx" 0 INSN_CLASS_V "Vd,Vt,sVm" MATCH_VSUBVX MASK_VSUBVX match_opcode 0;
  row "vrsub.vx" 0 INSN_CLASS_V "Vd,Vt,sVm" MATCH_VRSUBVX MASK_VRSUBVX match_opcode 0;
  row "vrsub.vi" 0 INSN_CLASS_V "Vd,Vt,ViVm" MATCH_VRSUBVI MASK_VRSUBVI match_opcode 0;
  row "vwcvt.x.x.v" 0 INSN_CLASS_V "Vd,VtVm" MATCH_VWCVTXXV MASK_VWCVTXXV match_opcode INSN_ALIAS;
  row "vwcvtu.x.x.v" 0 INSN_CLASS_V "Vd,VtVm" MATCH_VWCVTUXXV MASK_VWCVTUXXV match_opcode INSN_ALIAS;
  row "vwaddu.vv" 0 INSN_CLASS_V "Vd,Vt,VsVm" MATCH_VWADDUVV MASK_VWADDUVV match_opcode 0;
  row "vwaddu.vx" 0 INSN_CLASS_V "Vd,Vt,sVm" MATCH_VWADDUVX MASK_VWADDUVX match_opcode 0;
  row "vwsubu.vv" 0 INSN_CLASS_V "Vd,Vt,VsVm" MATCH_VWSUBUVV MASK_VWSUBUVV match_opcode 0;
  row "vwsubu.vx" 0 INSN_CLASS_V "Vd,Vt,sVm" MATCH_VWSUBUVX MASK_VWSUBUVX match_opcode 0;
  row "vwadd.vv" 0 INSN_CLASS_V "Vd,Vt,VsVm" MATCH_VWADDVV MASK_VWADDVV match_opcode 0;
  row "vwadd.vx" 0 INSN_CLASS_V "Vd,Vt,sVm" MATCH_VWADDVX MASK_VWADDVX match_opcode 0;
  row "vwsub.vv" 0 INSN_CLASS_V "Vd,Vt,VsVm" MATCH_VWSUBVV MASK_VWSUBVV match_opcode 0;
  row "vwsub.vx" 0 INSN_CLASS_V "Vd,Vt,sVm" MATCH_VWSUBVX MASK_VWSUBVX match_opcode 0
].

Definition riscv_opcodes_09 : list riscv_opcode := [
  row "vwaddu.wv" 0 INSN_CLASS_V "Vd,Vt,VsVm" MATCH_VWADDUWV MASK_VWADDUWV match_opcode 0;
  row "vwaddu.wx" 0 INSN_CLASS_V "Vd,Vt,sVm" MATCH_VWADDUWX MASK_VWADDUWX match_opcode 0;
  row "vwsubu.wv" 0 INSN_CLASS_V "Vd,Vt,VsVm" MATCH_VWSUBUWV MASK_VWSUBUWV match_opcode 0;
  row "vwsubu.wx" 0 INSN_CLASS_V "Vd,Vt,sVm" MATCH_VWSUBUWX MASK_VWSUBUWX match_opcode 0;
  row "vwadd.wv" 0 INSN_CLASS_V "Vd,Vt,VsVm" MATCH_VWADDWV MASK_VWADDWV match_opcode 0;
  row "vwadd.wx" 0 INSN_CLASS_V "Vd,Vt,sVm" MATCH_VWADDWX MASK_VWADDWX match_opcode 0;
  row "vwsub.wv" 0 INSN_CLASS_V "Vd,Vt,VsVm" MATCH_VWSUBWV MASK_VWSUBWV match_opcode 0;
  row "vwsub.wx" 0 INSN_CLASS_V "Vd,Vt,sVm" MATCH_VWSUBWX MASK_VWSUBWX match_opcode 0;
  row "vzext.vf2" 0 INSN_CLASS_V "Vd,VtVm" MATCH_VZEXT_VF2 MASK_VZEXT_VF2 match_opcode 0;
  row "vsext.vf2" 0 INSN_CLASS_V "Vd,VtVm" MATCH_VSEXT_VF2 MASK_VSEXT_VF2 match_opcode 0;
  row "vzext.vf4" 0 INSN_CLASS_V "Vd,VtVm" MATCH_VZEXT_VF4 MASK_VZEXT_VF4 match_opcode 0;
  row "vsext.vf4" 0 INSN_CLASS_V "Vd,VtVm" MATCH_VSEXT_VF4 MASK_VSEXT_VF4 match_opcode 0;
  row "vzext.vf8" 0 INSN_CLASS_V "Vd,VtVm" MATCH_VZEXT_VF8 MASK_VZEXT_VF8 match_opcode 0;
  row "vsext.vf8" 0 INSN_CLASS_V "Vd,VtVm" MATCH_VSEXT_VF8 MASK_VSEXT_VF8 match_opcode 0;
  row "vadc.vvm" 0 INSN_CLASS_V "Vd,Vt,Vs,V0" MATCH_VADCVVM MASK_VADCVVM match_opcode 0;
  row "vadc.vxm" 0 INSN_CLASS_V "Vd,Vt,s,V0" MATCH_VADCVXM MASK_VADCVXM match_opcode 0;
  row "vadc.vim" 0 INSN_CLASS_V "Vd,Vt,Vi,V0" MATCH_VADCVIM MASK_VADCVIM match_opcode 0;
  row "vmadc.vvm" 0 INSN_CLASS_V "Vd,Vt,Vs,V0" MATCH_VMADCVVM MASK_VMADCVVM match_opcode 0;
  row "vmadc.vxm" 0 INSN_CLASS_V "Vd,Vt,s,V0" MATCH_VMADCVXM MASK_VMADCVXM match_opcode 0;
  row "vmadc.vim" 0 INSN_CLASS_V "Vd,Vt,Vi,V0" MATCH_VMADCVIM MASK_VMADCVIM match_opcode 0;
  row "vmadc.vv" 0 INSN_CLASS_V "Vd,Vt,Vs" MATCH_VMADCVV MASK_VMADCVV match_opcode 0;
  row "vmadc.vx" 0 INSN_CLASS_V "Vd,Vt,s" MATCH_VMADCVX MASK_VMADCVX match_opcode 0;
  row "vmadc.vi" 0 INSN_CLASS_V "Vd,Vt,Vi" MATCH_VMADCVI MASK_VMADCVI match_opcode 0;
  row "vsbc.vvm" 0 INSN_CLASS_V "Vd,Vt,Vs,V0" MATCH_VSBCVVM MASK_VSBCVVM match_opcode 0;
  row "vsbc.vxm" 0 INSN_CLASS_V "Vd,Vt,s,V0" MATCH_VSBCVXM MASK_VSBCVXM match_opcode 0;
  row "vmsbc.vvm" 0 INSN_CLASS_V "Vd,Vt,Vs,V0" MATCH_VMSBCVVM MASK_VMSBCVVM match_opcode 0;
  row "vmsbc.vxm" 0 INSN_CLASS_V "Vd,Vt,s,V0" MATCH_VMSBCVXM MASK_VMSBCVXM match_opcode 0;
  row "vmsbc.vv" 0 INSN_CLASS_V "Vd,Vt,Vs" MATCH_VMSBCVV MASK_VMSBCVV match_opcode 0;
  row "vmsbc.vx" 0 INSN_CLASS_V "Vd,Vt,s" MATCH_VMSBCVX MASK_VMSBCVX match_opcode 0;
  row "vnot.v" 0 INSN_CLASS_V "Vd,VtVm" MATCH_VNOTV MASK_VNOTV match_opcode INSN_ALIAS;
  row "vand.vv" 0 INSN_CLASS_V "Vd,Vt,VsVm" MATCH_VANDVV MASK_VANDVV match_opcode 0;
  row "vand.vx" 0 INSN_CLASS_V "Vd,Vt,sVm" MATCH_VANDVX MASK_VANDVX match_opcode 0;
  row "vand.vi" 0 INSN_CLASS_V "Vd,Vt,ViVm" MATCH_VANDVI MASK_VANDVI match_opcode 0;
  row "vor.vv" 0 INSN_CLASS_V "Vd,Vt,VsVm" MATCH_VORVV MASK_VORVV match_opcode 0;
  row "vor.vx" 0 INSN_CLASS_V "Vd,Vt,sVm" MATCH_VORVX MASK_VORVX match_opcode 0;
  row "vor.vi" 0 INSN_CLASS_V "Vd,Vt,ViVm" MATCH_VORVI MASK_VORVI match_opcode 0;
  row "vxor.vv" 0 INSN_CLASS_V "Vd,Vt,VsVm" MATCH_VXORVV MASK_VXORVV match_opcode 0;
  row "vxor.vx" 0 INSN_CLASS_V "Vd,Vt,sVm" MATCH_VXORVX MASK_VXORVX match_opcode 0;
  row "vxor.vi" 0 INSN_CLASS_V "Vd,Vt,ViVm" MATCH_VXORVI MASK_VXORVI match_opcode 0;
  row "vsll.vv" 0 INSN_CLASS_V "Vd,Vt,VsVm" MATCH_VSLLVV MASK_VSLLVV match_opcode 0;
  row "vsll.vx" 0 INSN_CLASS_V "Vd,Vt,sVm" MATCH_VSLLVX MASK_VSLLVX match_opcode 0;
  row "vsll.vi" 0 INSN_CLASS_V "Vd,Vt,VjVm" MATCH_VSLLVI MASK_VSLLVI match_opcode 0;
  row "vsrl.vv" 0 INSN_CLASS_V "Vd,Vt,VsVm" MATCH_VSRLVV MASK_VSRLVV match_opcode 0;
  row "vsrl.vx" 0 INSN_CLASS_V "Vd,Vt,sVm" MATCH_VSRLVX MASK_VSRLVX match_opcode 0;
  row "vsrl.vi" 0 INSN_CLASS_V "Vd,Vt,VjVm" MATCH_VSRLVI MASK_VSRLVI match_opcode 0;
  row "vsra.vv" 0 INSN_CLASS_V "Vd,Vt,VsVm" MATCH_VSRAVV MASK_VSRAVV match_opcode 0;
  row "vsra.vx" 0 INSN_CLASS_V "Vd,Vt,sVm" MATCH_VSRAVX MASK_VSRAVX match_opcode 0;
  row "vsra.vi" 0 INSN_CLASS_V "Vd,Vt,VjVm" MATCH_VSRAVI MASK_VSRAVI match_opcode 0;
  row "vncvt.x.x.w" 0 INSN_CLASS_V "Vd,VtVm" MATCH_VNCVTXXW MASK_VNCVTXXW match_opcode INSN_ALIAS;
  row "vnsrl.wv" 0 INSN_CLASS_V "Vd,Vt,VsVm" MATCH_VNSRLWV MASK_VNSRLWV match_opcode 0;
  row "vnsrl.wx" 0 INSN_CLASS_V "Vd,Vt,sVm" MATCH_VNSRLWX MASK_VNSRLWX match_opcode 0;
  row "vnsrl.wi" 0 INSN_CLASS_V "Vd,Vt,VjVm" MATCH_VNSRLWI MASK_VNSRLWI match_opcode 0;
  row "vnsra.wv" 0 INSN_CLASS_V "Vd,Vt,VsVm" MATCH_VNSRAWV MASK_VNSRAWV match_opcode 0;
  row "vnsra.wx" 0 INSN_CLASS_V "Vd,Vt,sVm" MATCH_VNSRAWX MASK_VNSRAWX match_opcode 0;
  row "vnsra.wi" 0 INSN_CLASS_V "Vd,Vt,VjVm" MATCH_VNSRAWI MASK_VNSRAWI match_opcode 0;
  row "vmseq.vv" 0 INSN_CLASS_V "Vd,Vt,VsVm" MATCH_VMSEQVV MASK_VMSEQVV match_opcode 0;
  row "vmseq.vx" 0 INSN_CLASS_V "Vd,Vt,sVm" MATCH_VMSEQVX MASK_VMSEQVX match_opcode 0;
  row "vmseq.vi" 0 INSN_CLASS_V "Vd,Vt,ViVm" MATCH_VMSEQVI MASK_VMSEQVI match_opcode 0;
  row "vmsne.vv" 0 INSN_CLASS_V "Vd,Vt,VsVm" MATCH_VMSNEVV MASK_VMSNEVV match_opcode 0;
  row "vmsne.vx" 0 INSN_CLASS_V "Vd,Vt,sVm" MATCH_VMSNEVX MASK_VMSNEVX match_opcode 0;
  row "vmsne.vi" 0 INSN_CLASS_V "Vd,Vt,ViVm" MATCH_VMSNEVI MASK_VMSNEVI match_opcode 0;
  row "vmsltu.vv" 0 INSN_CLASS_V "Vd,Vt,VsVm" MATCH_VMSLTUVV MASK_VMSLTUVV match_opcode 0;
  row "vmsltu.vx" 0 INSN_CLASS_V "Vd,Vt,sVm" MATCH_VMSLTUVX MASK_VMSLTUVX match_opcode 0;
  row "vmslt.vv" 0 INSN_CLASS_V "Vd,Vt,VsVm" MATCH_VMSLTVV MASK_VMSLTVV match_opcode 0;
  row "vmslt.vx" 0 INSN_CLASS_V "Vd,Vt,sVm" MATCH_VMSLTVX MASK_VMSLTVX match_opcode 0;
  row "vmsleu.vv" 0 INSN_CLASS_V "Vd,Vt,VsVm" MATCH_VMSLEUVV MASK_VMSLEUVV match_opcode 0;
  row "vmsleu.vx" 0 INSN_CLASS_V "Vd,Vt,sVm" MATCH_VMSLEUVX MASK_VMSLEUVX match_opcode 0;
  row "vmsleu.vi" 0 INSN_CLASS_V "Vd,Vt,ViVm" MATCH_VMSLEUVI MASK_VMSLEUVI match_opcode 0;
  row "vmsle.vv" 0 INSN_CLASS_V "Vd,Vt,VsVm" MATCH_VMSLEVV MASK_VMSLEVV match_opcode 0;
  row "vmsle.vx" 0 INSN_CLASS_V "Vd,Vt,sVm" MATCH_VMSLEVX MASK_VMSLEVX match_opcode 0;
  row "vmsle.vi" 0 INSN_CLASS_V "Vd,Vt,ViVm" MATCH_VMSLEVI MASK_VMSLEVI match_opcode 0;
  row "vmsgtu.vx" 0 INSN_CLASS_V "Vd,Vt,sVm" MATCH_VMSGTUVX MASK_VMSGTUVX match_opcode 0;
  row "vmsgtu.vi" 0 INSN_CLASS_V "Vd,Vt,ViVm" MATCH_VMSGTUVI MASK_VMSGTUVI match_opcode 0;
  row "vmsgt.vx" 0 INSN_CLASS_V "Vd,Vt,sVm" MATCH_VMSGTVX MASK_VMSGTVX match_opcode 0;
  row "vmsgt.vi" 0 INSN_CLASS_V "Vd,Vt,ViVm" MATCH_VMSGTVI MASK_VMSGTVI match_opcode 0;
  row "vmsgt.vv" 0 INSN_CLASS_V "Vd,Vs,VtVm" MATCH_VMSLTVV MASK_VMSLTVV match_opcode INSN_ALIAS;
  row "vmsgtu.vv" 0 INSN_CLASS_V "Vd,Vs,VtVm" MATCH_VMSLTUVV MASK_VMSLTUVV match_opcode INSN_ALIAS;
  row "vmsge.vv" 0 INSN_CLASS_V "Vd,Vs,VtVm" MATCH_VMSLEVV MASK_VMSLEVV match_opcode INSN_ALIAS;
  row "vmsgeu.vv" 0 INSN_CLASS_V "Vd,Vs,VtVm" MATCH_VMSLEUVV MASK_VMSLEUVV match_opcode INSN_ALIAS;
  row "vmslt.vi" 0 INSN_CLASS_V "Vd,Vt,VkVm" MATCH_VMSLEVI MASK_VMSLEVI match_opcode INSN_ALIAS;
  row "vmsltu.vi" 0 INSN_CLASS_V "Vd,Vu,0Vm" MATCH_VMSNEVV MASK_VMSNEVV match_vs1_eq_vs2 INSN_ALIAS;
  row "vmsltu.vi" 0 INSN_CLASS_V "Vd,Vt,VkVm" MATCH_VMSLEUVI MASK_VMSLEUVI match_opcode INSN_ALIAS;
  row "vmsge.vi" 0 INSN_CLASS_V "Vd,Vt,VkVm" MATCH_VMSGTVI MASK_VMSGTVI match_opcode INSN_ALIAS;
  row "vmsgeu.vi" 0 INSN_CLASS_V "Vd,Vu,0Vm" MATCH_VMSEQVV MASK_VMSEQVV match_vs1_eq_vs2 INSN_ALIAS;
  row "vmsgeu.vi" 0 INSN_CLASS_V "Vd,Vt,VkVm" MATCH_VMSGTUVI MASK_VMSGTUVI match_opcode INSN_ALIAS;
  row "vmsge.vx" 0 INSN_CLASS_V "Vd,Vt,sVm" 0 M_VMSGE match_opcode INSN_MACRO;
  row "vmsge.vx" 0 INSN_CLASS_V "Vd,Vt,s,VM,VT" 0 M_VMSGE match_opcode INSN_MACRO;
  row "vmsgeu.vx" 0 INSN_CLASS_V "Vd,Vt,sVm" 0 M_VMSGEU match_opcode INSN_MACRO;
  row "vmsgeu.vx" 0 INSN_CLASS_V "Vd,Vt,s,VM,VT" 0 M_VMSGEU match_opcode INSN_MACRO;
  row "vminu.vv" 0 INSN_CLASS_V "Vd,Vt,VsVm" MATCH_VMINUVV MASK_VMINUVV match_opcode 0;
  row "vminu.vx" 0 INSN_CLASS_V "Vd,Vt,sVm" MATCH_VMINUVX MASK_VMINUVX match_opcode 0;
  row "vmin.vv" 0 INSN_CLASS_V "Vd,Vt,VsVm" MATCH_VMINVV MASK_VMINVV match_opcode 0;
  row "vmin.vx" 0 INSN_CLASS_V "Vd,Vt,sVm" MATCH_VMINVX MASK_VMINVX match_opcode 0;
  row "vmaxu.vv" 0 INSN_CLASS_V "Vd,Vt,VsVm" MATCH_VMAXUVV MASK_VMAXUVV match_opcode 0;
  row "vmaxu.vx" 0 INSN_CLASS_V "Vd,Vt,sVm" MATCH_VMAXUVX MASK_VMAXUVX match_opcode 0;
  row "vmax.vv" 0 INSN_CLASS_V "Vd,Vt,VsVm" MATCH_VMAXVV MASK_VMAXVV match_opcode 0;
  row "vmax.vx" 0 INSN_CLASS_V "Vd,Vt,sVm" MATCH_VMAXVX MASK_VMAXVX match_opcode 0;
  row "vmul.vv" 0 INSN_CLASS_V "Vd,Vt,VsVm" MATCH_VMULVV MASK_VMULVV match_opcode 0;
  row "vmul.vx" 0 INSN_CLASS_V "Vd,Vt,sVm" MATCH_VMULVX MASK_VMULVX match_opcode 0;
  row "vmulh.vv" 0 INSN_CLASS_V "Vd,Vt,VsVm" MATCH_VMULHVV MASK_VMULHVV match_opcode 0;
  row "vmulh.vx" 0 INSN_CLASS_V "Vd,Vt,sVm" MATCH_VMULHVX MASK_VMULHVX match_opcode 0;
  row "vmulhu.vv" 0 INSN_CLASS_V "Vd,Vt,VsVm" MATCH_VMULHUVV MASK_VMULHUVV match_opcode 0;
  row "vmulhu.vx" 0 INSN_CLASS_V "Vd,Vt,sVm" MATCH_VMULHUVX MASK_VMULHUVX match_opcode 0;
  row "vmulhsu.vv" 0 INSN_CLASS_V "Vd,Vt,VsVm" MATCH_VMULHSUVV MASK_VMULHSUVV match_opcode 0;
  row "vmulhsu.vx" 0 INSN_CLASS_V "Vd,Vt,sVm" MATCH_VMULHSUVX MASK_VMULHSUVX match_opcode 0;
  row "vwmul.vv" 0 INSN_CLASS_V "Vd,Vt,VsVm" MATCH_VWMULVV MASK_VWMULVV match_opcode 0;
  row "vwmul.vx" 0 INSN_CLASS_V "Vd,Vt,sVm" MATCH_VWMULVX MASK_VWMULVX match_opcode 0;
  row "vwmulu.vv" 0 INSN_CLASS_V "Vd,Vt,VsVm" MATCH_VWMULUVV MASK_VWMULUVV match_opcode 0;
  row "vwmulu.vx" 0 INSN_CLASS_V "Vd,Vt,sVm" MATCH_VWMULUVX MASK_VWMULUVX match_opcode 0;
  row "vwmulsu.vv" 0 INSN_CLASS_V "Vd,Vt,VsVm" MATCH_VWMULSUVV MASK_VWMULSUVV match_opcode 0;
  row "vwmulsu.vx" 0 INSN_CLASS_V "Vd,Vt,sVm" MATCH_VWMULSUVX MASK_VWMULSUVX match_opcode 0;
  row "vmacc.vv" 0 INSN_CLASS_V "Vd,Vs,VtVm" MATCH_VMACCVV MASK_VMACCVV match_opcode 0;
  row "vmacc.vx" 0 INSN_CLASS_V "Vd,s,VtVm" MATCH_VMACCVX MASK_VMACCVX match_opcode 0;
  row "vnmsac.vv" 0 INSN_CLASS_V "Vd,Vs,VtVm" MATCH_VNMSACVV MASK_VNMSACVV match_opcode 0;
  row "vnmsac.vx" 0 INSN_CLASS_V "Vd,s,VtVm" MATCH_VNMSACVX MASK_VNMSACVX match_opcode 0;
  row "vmadd.vv" 0 INSN_CLASS_V "Vd,Vs,VtVm" MATCH_VMADDVV MASK_VMADDVV match_opcode 0;
  row "vmadd.vx" 0 INSN_CLASS_V "Vd,s,VtVm" MATCH_VMADDVX MASK_VMADDVX match_opcode 0;
  row "vnmsub.vv" 0 INSN_CLASS_V "Vd,Vs,VtVm" MATCH_VNMSUBVV MASK_VNMSUBVV match_opcode 0;
  row "vnmsub.vx" 0 INSN_CLASS_V "Vd,s,VtVm" MATCH_VNMSUBVX MASK_VNMSUBVX match_opcode 0;
  row "vwmaccu.vv" 0 INSN_CLASS_V "Vd,Vs,VtVm" MATCH_VWMACCUVV MASK_VWMACCUVV match_opcode 0;
  row "vwmaccu.vx" 0 INSN_CLASS_V "Vd,s,VtVm" MATCH_VWMACCUVX MASK_VWMACCUVX match_opcode 0;
  row "vwmacc.vv" 0 INSN_CLASS_V "Vd,Vs,VtVm" MATCH_VWMACCVV MASK_VWMACCVV match_opcode 0;
  row "vwmacc.vx" 0 INSN_CLASS_V "Vd,s,VtVm" MATCH_VWMACCVX MASK_VWMACCVX match_opcode 0;
  row "vwmaccsu.vv" 0 INSN_CLASS_V "Vd,Vs,VtVm" MATCH_VWMACCSUVV MASK_VWMACCSUVV match_opcode 0;
  row "vwmaccsu.vx" 0 INSN_CLASS_V "Vd,s,VtVm" MATCH_VWMACCSUVX MASK_VWMACCSUVX match_opcode 0;
  row "vwmaccus.vx" 0 INSN_CLASS_V "Vd,s,VtVm" MATCH_VWMACCUSVX MASK_VWMACCUSVX match_opcode 0;
  row "vdivu.vv" 0 INSN_CLASS_V "Vd,Vt,VsVm" MATCH_VDIVUVV MASK_VDIVUVV match_opcode 0;
  row "vdivu.vx" 0 INSN_CLASS_V "Vd,Vt,sVm" MATCH_VDIVUVX MASK_VDIVUVX match_opcode 0;
  row "vdiv.vv" 0 INSN_CLASS_V "Vd,Vt,VsVm" MATCH_VDIVVV MASK_VDIVVV match_opcode 0;
  row "vdiv.vx" 0 INSN_CLASS_V "Vd,Vt,sVm" MATCH_VDIVVX MASK_VDIVVX match_opcode 0;
  row "vremu.vv" 0 INSN_CLASS_V "Vd,Vt,VsVm" MATCH_VREMUVV MASK_VREMUVV match_opcode 0;
  row "vremu.vx" 0 INSN_CLASS_V "Vd,Vt,sVm" MATCH_VREMUVX MASK_VREMUVX match_opcode 0;
  row "vrem.vv" 0 INSN_CLASS_V "Vd,Vt,VsVm" MATCH_VREMVV MASK_VREMVV match_opcode 0;
  row "vrem.vx" 0 INSN_CLASS_V "Vd,Vt,sVm" MATCH_VREMVX MASK_VREMVX match_opcode 0
].

Definition riscv_opcodes_10 : list riscv_opcode := [
  row "vmerge.vvm" 0 INSN_CLASS_V "Vd,Vt,Vs,V0" MATCH_VMERGEVVM MASK_VMERGEVVM match_opcode 0;
  row "vmerge.vxm" 0 INSN_CLASS_V "Vd,Vt,s,V0" MATCH_VMERGEVXM MASK_VMERGEVXM match_opcode 0;
  row "vmerge.vim" 0 INSN_CLASS_V "Vd,Vt,Vi,V0" MATCH_VMERGEVIM MASK_VMERGEVIM match_opcode 0;
  row "vmv.v.v" 0 INSN_CLASS_V "Vd,Vs" MATCH_VMVVV MASK_VMVVV match_opcode 0;
  row "vmv.v.x" 0 INSN_CLASS_V "Vd,s" MATCH_VMVVX MASK_VMVVX match_opcode 0;
  row "vmv.v.i" 0 INSN_CLASS_V "Vd,Vi" MATCH_VMVVI MASK_VMVVI match_opcode 0;
  row "vsaddu.vv" 0 INSN_CLASS_V "Vd,Vt,VsVm" MATCH_VSADDUVV MASK_VSADDUVV match_opcode 0;
  row "vsaddu.vx" 0 INSN_CLASS_V "Vd,Vt,sVm" MATCH_VSADDUVX MASK_VSADDUVX match_opcode 0;
  row "vsaddu.vi" 0 INSN_CLASS_V "Vd,Vt,ViVm" MATCH_VSADDUVI MASK_VSADDUVI match_opcode 0;
  row "vsadd.vv" 0 INSN_CLASS_V "Vd,Vt,VsVm" MATCH_VSADDVV MASK_VSADDVV match_opcode 0;
  row "vsadd.vx" 0 INSN_CLASS_V "Vd,Vt,sVm" MATCH_VSADDVX MASK_VSADDVX match_opcode 0;
  row "vsadd.vi" 0 INSN_CLASS_V "Vd,Vt,ViVm" MATCH_VSADDVI MASK_VSADDVI match_opcode 0;
  row "vssubu.vv" 0 INSN_CLASS_V "Vd,Vt,VsVm" MATCH_VSSUBUVV MASK_VSSUBUVV match_opcode 0;
  row "vssubu.vx" 0 INSN_CLASS_V "Vd,Vt,sVm" MATCH_VSSUBUVX MASK_VSSUBUVX match_opcode 0;
  row "vssub.vv" 0 INSN_CLASS_V "Vd,Vt,VsVm" MATCH_VSSUBVV MASK_VSSUBVV match_opcode 0;
  row "vssub.vx" 0 INSN_CLASS_V "Vd,Vt,sVm" MATCH_VSSUBVX MASK_VSSUBVX match_opcode 0;
  row "vaaddu.vv" 0 INSN_CLASS_V "Vd,Vt,VsVm" MATCH_VAADDUVV MASK_VAADDUVV match_opcode 0;
  row "vaaddu.vx" 0 INSN_CLASS_V "Vd,Vt,sVm" MATCH_VAADDUVX MASK_VAADDUVX match_opcode 0;
  row "vaadd.vv" 0 INSN_CLASS_V "Vd,Vt,VsVm" MATCH_VAADDVV MASK_VAADDVV match_opcode 0;
  row "vaadd.vx" 0 INSN_CLASS_V "Vd,Vt,sVm" MATCH_VAADDVX MASK_VAADDVX match_opcode 0;
  row "vasubu.vv" 0 INSN_CLASS_V "Vd,Vt,VsVm" MATCH_VASUBUVV MASK_VASUBUVV match_opcode 0;
  row "vasubu.vx" 0 INSN_CLASS_V "Vd,Vt,sVm" MATCH_VASUBUVX MASK_VASUBUVX match_opcode 0;
  row "vasub.vv" 0 INSN_CLASS_V "Vd,Vt,VsVm" MATCH_VASUBVV MASK_VASUBVV match_opcode 0;
  row "vasub.vx" 0 INSN_CLASS_V "Vd,Vt,sVm" MATCH_VASUBVX MASK_VASUBVX match_opcode 0;
  row "vsmul.vv" 0 INSN_CLASS_V "Vd,Vt,VsVm" MATCH_VSMULVV MASK_VSMULVV match_opcode 0;
  row "vsmul.vx" 0 INSN_CLASS_V "Vd,Vt,sVm" MATCH_VSMULVX MASK_VSMULVX match_opcode 0;
  row "vssrl.vv" 0 INSN_CLASS_V "Vd,Vt,VsVm" MATCH_VSSRLVV MASK_VSSRLVV match_opcode 0;
  row "vssrl.vx" 0 INSN_CLASS_V "Vd,Vt,sVm" MATCH_VSSRLVX MASK_VSSRLVX match_opcode 0;
  row "vssrl.vi" 0 INSN_CLASS_V "Vd,Vt,VjVm" MATCH_VSSRLVI MASK_VSSRLVI match_opcode 0;
  row "vssra.vv" 0 INSN_CLASS_V "Vd,Vt,VsVm" MATCH_VSSRAVV MASK_VSSRAVV match_opcode 0;
  row "vssra.vx" 0 INSN_CLASS_V "Vd,Vt,sVm" MATCH_VSSRAVX MASK_VSSRAVX match_opcode 0;
  row "vssra.vi" 0 INSN_CLASS_V "Vd,Vt,VjVm" MATCH_VSSRAVI MASK_VSSRAVI match_opcode 0;
  row "vnclipu.wv" 0 INSN_CLASS_V "Vd,Vt,VsVm" MATCH_VNCLIPUWV MASK_VNCLIPUWV match_opcode 0;
  row "vnclipu.wx" 0 INSN_CLASS_V "Vd,Vt,sVm" MATCH_VNCLIPUWX MASK_VNCLIPUWX match_opcode 0;
  row "vnclipu.wi" 0 INSN_CLASS_V "Vd,Vt,VjVm" MATCH_VNCLIPUWI MASK_VNCLIPUWI match_opcode 0;
  row "vnclip.wv" 0 INSN_CLASS_V "Vd,Vt,VsVm" MATCH_VNCLIPWV MASK_VNCLIPWV match_opcode 0;
  row "vnclip.wx" 0 INSN_CLASS_V "Vd,Vt,sVm" MATCH_VNCLIPWX MASK_VNCLIPWX match_opcode 0;
  row "vnclip.wi" 0 INSN_CLASS_V "Vd,Vt,VjVm" MATCH_VNCLIPWI MASK_VNCLIPWI match_opcode 0;
  row "vfadd.vv" 0 INSN_CLASS_ZVEF "Vd,Vt,VsVm" MATCH_VFADDVV MASK_VFADDVV match_opcode 0;
  row "vfadd.vf" 0 INSN_CLASS_ZVEF "Vd,Vt,SVm" MATCH_VFADDVF MASK_VFADDVF match_opcode 0;
  row "vfsub.vv" 0 INSN_CLASS_ZVEF "Vd,Vt,VsVm" MATCH_VFSUBVV MASK_VFSUBVV match_opcode 0;
  row "vfsub.vf" 0 INSN_CLASS_ZVEF "Vd,Vt,SVm" MATCH_VFSUBVF MASK_VFSUBVF match_opcode 0;
  row "vfrsub.vf" 0 INSN_CLASS_ZVEF "Vd,Vt,SVm" MATCH_VFRSUBVF MASK_VFRSUBVF match_opcode 0;
  row "vfwadd.vv" 0 INSN_CLASS_ZVEF "Vd,Vt,VsVm" MATCH_VFWADDVV MASK_VFWADDVV match_opcode 0;
  row "vfwadd.vf" 0 INSN_CLASS_ZVEF "Vd,Vt,SVm" MATCH_VFWADDVF MASK_VFWADDVF match_opcode 0;
  row "vfwsub.vv" 0 INSN_CLASS_ZVEF "Vd,Vt,VsVm" MATCH_VFWSUBVV MASK_VFWSUBVV match_opcode 0;
  row "vfwsub.vf" 0 INSN_CLASS_ZVEF "Vd,Vt,SVm" MATCH_VFWSUBVF MASK_VFWSUBVF match_opcode 0;
  row "vfwadd.wv" 0 INSN_CLASS_ZVEF "Vd,Vt,VsVm" MATCH_VFWADDWV MASK_VFWADDWV match_opcode 0;
  row "vfwadd.wf" 0 INSN_CLASS_ZVEF "Vd,Vt,SVm" MATCH_VFWADDWF MASK_VFWADDWF match_opcode 0;
  row "vfwsub.wv" 0 INSN_CLASS_ZVEF "Vd,Vt,VsVm" MATCH_VFWSUBWV MASK_VFWSUBWV match_opcode 0;
  row "vfwsub.wf" 0 INSN_CLASS_ZVEF "Vd,Vt,SVm" MATCH_VFWSUBWF MASK_VFWSUBWF match_opcode 0;
  row "vfmul.vv" 0 INSN_CLASS_ZVEF "Vd,Vt,VsVm" MATCH_VFMULVV MASK_VFMULVV match_opcode 0;
  row "vfmul.vf" 0 INSN_CLASS_ZVEF "Vd,Vt,SVm" MATCH_VFMULVF MASK_VFMULVF match_opcode 0;
  row "vfdiv.vv" 0 INSN_CLASS_ZVEF "Vd,Vt,VsVm" MATCH_VFDIVVV MASK_VFDIVVV match_opcode 0;
  row "vfdiv.vf" 0 INSN_CLASS_ZVEF "Vd,Vt,SVm" MATCH_VFDIVVF MASK_VFDIVVF match_opcode 0;
  row "vfrdiv.vf" 0 INSN_CLASS_ZVEF "Vd,Vt,SVm" MATCH_VFRDIVVF MASK_VFRDIVVF match_opcode 0;
  row "vfwmul.vv" 0 INSN_CLASS_ZVEF "Vd,Vt,VsVm" MATCH_VFWMULVV MASK_VFWMULVV match_opcode 0;
  row "vfwmul.vf" 0 INSN_CLASS_ZVEF "Vd,Vt,SVm" MATCH_VFWMULVF MASK_VFWMULVF match_opcode 0;
  row "vfmadd.vv" 0 INSN_CLASS_ZVEF "Vd,Vs,VtVm" MATCH_VFMADDVV MASK_VFMADDVV match_opcode 0;
  row "vfmadd.vf" 0 INSN_CLASS_ZVEF "Vd,S,VtVm" MATCH_VFMADDVF MASK_VFMADDVF match_opcode 0;
  row "vfnmadd.vv" 0 INSN_CLASS_ZVEF "Vd,Vs,VtVm" MATCH_VFNMADDVV MASK_VFNMADDVV match_opcode 0;
  row "vfnmadd.vf" 0 INSN_CLASS_ZVEF "Vd,S,VtVm" MATCH_VFNMADDVF MASK_VFNMADDVF match_opcode 0;
  row "vfmsub.vv" 0 INSN_CLASS_ZVEF "Vd,Vs,VtVm" MATCH_VFMSUBVV MASK_VFMSUBVV match_opcode 0;
  row "vfmsub.vf" 0 INSN_CLASS_ZVEF "Vd,S,VtVm" MATCH_VFMSUBVF MASK_VFMSUBVF match_opcode 0;
  row "vfnmsub.vv" 0 INSN_CLASS_ZVEF "Vd,Vs,VtVm" MATCH_VFNMSUBVV MASK_VFNMSUBVV match_opcode 0;
  row "vfnmsub.vf" 0 INSN_CLASS_ZVEF "Vd,S,VtVm" MATCH_VFNMSUBVF MASK_VFNMSUBVF match_opcode 0;
  row "vfmacc.vv" 0 INSN_CLASS_ZVEF "Vd,Vs,VtVm" MATCH_VFMACCVV MASK_VFMACCVV match_opcode 0;
  row "vfmacc.vf" 0 INSN_CLASS_ZVEF "Vd,S,VtVm" MATCH_VFMACCVF MASK_VFMACCVF match_opcode 0;
  row "vfnmacc.vv" 0 INSN_CLASS_ZVEF "Vd,Vs,VtVm" MATCH_VFNMACCVV MASK_VFNMACCVV match_opcode 0;
  row "vfnmacc.vf" 0 INSN_CLASS_ZVEF "Vd,S,VtVm" MATCH_VFNMACCVF MASK_VFNMACCVF match_opcode 0;
  row "vfmsac.vv" 0 INSN_CLASS_ZVEF "Vd,Vs,VtVm" MATCH_VFMSACVV MASK_VFMSACVV match_opcode 0;
  row "vfmsac.vf" 0 INSN_CLASS_ZVEF "Vd,S,VtVm" MATCH_VFMSACVF MASK_VFMSACVF match_opcode 0;
  row "vfnmsac.vv" 0 INSN_CLASS_ZVEF "Vd,Vs,VtVm" MATCH_VFNMSACVV MASK_VFNMSACVV match_opcode 0;
  row "vfnmsac.vf" 0 INSN_CLASS_ZVEF "Vd,S,VtVm" MATCH_VFNMSACVF MASK_VFNMSACVF match_opcode 0;
  row "vfwmacc.vv" 0 INSN_CLASS_ZVEF "Vd,Vs,VtVm" MATCH_VFWMACCVV MASK_VFWMACCVV match_opcode 0;
  row "vfwmacc.vf" 0 INSN_CLASS_ZVEF "Vd,S,VtVm" MATCH_VFWMACCVF MASK_VFWMACCVF match_opcode 0;
  row "vfwnmacc.vv" 0 INSN_CLASS_ZVEF "Vd,Vs,VtVm" MATCH_VFWNMACCVV MASK_VFWNMACCVV match_opcode 0;
  row "vfwnmacc.vf" 0 INSN_CLASS_ZVEF "Vd,S,VtVm" MATCH_VFWNMACCVF MASK_VFWNMACCVF match_opcode 0;
  row "vfwmsac.vv" 0 INSN_CLASS_ZVEF "Vd,Vs,VtVm" MATCH_VFWMSACVV MASK_VFWMSACVV match_opcode 0;
  row "vfwmsac.vf" 0 INSN_CLASS_ZVEF "Vd,S,VtVm" MATCH_VFWMSACVF MASK_VFWMSACVF match_opcode 0;
  row "vfwnmsac.vv" 0 INSN_CLASS_ZVEF "Vd,Vs,VtVm" MATCH_VFWNMSACVV MASK_VFWNMSACVV match_opcode 0;
  row "vfwnmsac.vf" 0 INSN_CLASS_ZVEF "Vd,S,VtVm" MATCH_VFWNMSACVF MASK_VFWNMSACVF match_opcode 0;
  row "vfsqrt.v" 0 INSN_CLASS_ZVEF "Vd,VtVm" MATCH_VFSQRTV MASK_VFSQRTV match_opcode 0;
  row "vfrsqrt7.v" 0 INSN_CLASS_ZVEF "Vd,VtVm" MATCH_VFRSQRT7V MASK_VFRSQRT7V match_opcode 0;
  row "vfrsqrte7.v" 0 INSN_CLASS_ZVEF "Vd,VtVm" MATCH_VFRSQRT7V MASK_VFRSQRT7V match_opcode 0;
  row "vfrec7.v" 0 INSN_CLASS_ZVEF "Vd,VtVm" MATCH_VFREC7V MASK_VFREC7V match_opcode 0;
  row "vfrece7.v" 0 INSN_CLASS_ZVEF "Vd,VtVm" MATCH_VFREC7V MASK_VFREC7V match_opcode 0;
  row "vfclass.v" 0 INSN_CLASS_ZVEF "Vd,VtVm" MATCH_VFCLASSV MASK_VFCLASSV match_opcode 0;
  row "vfmin.vv" 0 INSN_CLASS_ZVEF "Vd,Vt,VsVm" MATCH_VFMINVV MASK_VFMINVV match_opcode 0;
  row "vfmin.vf" 0 INSN_CLASS_ZVEF "Vd,Vt,SVm" MATCH_VFMINVF MASK_VFMINVF match_opcode 0;
  row "vfmax.vv" 0 INSN_CLASS_ZVEF "Vd,Vt,VsVm" MATCH_VFMAXVV MASK_VFMAXVV match_opcode 0;
  row "vfmax.vf" 0 INSN_CLASS_ZVEF "Vd,Vt,SVm" MATCH_VFMAXVF MASK_VFMAXVF match_opcode 0;
  row "vfneg.v" 0 INSN_CLASS_ZVEF "Vd,VuVm" MATCH_VFSGNJNVV MASK_VFSGNJNVV match_vs1_eq_vs2 INSN_ALIAS;
  row "vfabs.v" 0 INSN_CLASS_ZVEF "Vd,VuVm" MATCH_VFSGNJXVV MASK_VFSGNJXVV match_vs1_eq_vs2 INSN_ALIAS;
  row "vfsgnj.vv" 0 INSN_CLASS_ZVEF "Vd,Vt,VsVm" MATCH_VFSGNJVV MASK_VFSGNJVV match_opcode 0;
  row "vfsgnj.vf" 0 INSN_CLASS_ZVEF "Vd,Vt,SVm" MATCH_VFSGNJVF MASK_VFSGNJVF match_opcode 0;
  row "vfsgnjn.vv" 0 INSN_CLASS_ZVEF "Vd,Vt,VsVm" MATCH_VFSGNJNVV MASK_VFSGNJNVV match_opcode 0;
  row "vfsgnjn.vf" 0 INSN_CLASS_ZVEF "Vd,Vt,SVm" MATCH_VFSGNJNVF MASK_VFSGNJNVF match_opcode 0;
  row "vfsgnjx.vv" 0 INSN_CLASS_ZVEF "Vd,Vt,VsVm" MATCH_VFSGNJXVV MASK_VFSGNJXVV match_opcode 0;
  row "vfsgnjx.vf" 0 INSN_CLASS_ZVEF "Vd,Vt,SVm" MATCH_VFSGNJXVF MASK_VFSGNJXVF match_opcode 0;
  row "vmfeq.vv" 0 INSN_CLASS_ZVEF "Vd,Vt,VsVm" MATCH_VMFEQVV MASK_VMFEQVV match_opcode 0;
  row "vmfeq.vf" 0 INSN_CLASS_ZVEF "Vd,Vt,SVm" MATCH_VMFEQVF MASK_VMFEQVF match_opcode 0;
  row "vmfne.vv" 0 INSN_CLASS_ZVEF "Vd,Vt,VsVm" MATCH_VMFNEVV MASK_VMFNEVV match_opcode 0;
  row "vmfne.vf" 0 INSN_CLASS_ZVEF "Vd,Vt,SVm" MATCH_VMFNEVF MASK_VMFNEVF match_opcode 0;
  row "vmflt.vv" 0 INSN_CLASS_ZVEF "Vd,Vt,VsVm" MATCH_VMFLTVV MASK_VMFLTVV match_opcode 0;
  row "vmflt.vf" 0 INSN_CLASS_ZVEF "Vd,Vt,SVm" MATCH_VMFLTVF MASK_VMFLTVF match_opcode 0;
  row "vmfle.vv" 0 INSN_CLASS_ZVEF "Vd,Vt,VsVm" MATCH_VMFLEVV MASK_VMFLEVV match_opcode 0;
  row "vmfle.vf" 0 INSN_CLASS_ZVEF "Vd,Vt,SVm" MATCH_VMFLEVF MASK_VMFLEVF match_opcode 0;
  row "vmfgt.vf" 0 INSN_CLASS_ZVEF "Vd,Vt,SVm" MATCH_VMFGTVF MASK_VMFGTVF match_opcode 0;
  row "vmfge.vf" 0 INSN_CLASS_ZVEF "Vd,Vt,SVm" MATCH_VMFGEVF MASK_VMFGEVF match_opcode 0;
  row "vmfgt.vv" 0 INSN_CLASS_ZVEF "Vd,Vs,VtVm" MATCH_VMFLTVV MASK_VMFLTVV match_opcode INSN_ALIAS;
  row "vmfge.vv" 0 INSN_CLASS_ZVEF "Vd,Vs,VtVm" MATCH_VMFLEVV MASK_VMFLEVV match_opcode INSN_ALIAS;
  row "vfmerge.vfm" 0 INSN_CLASS_ZVEF "Vd,Vt,S,V0" MATCH_VFMERGEVFM MASK_VFMERGEVFM match_opcode 0;
  row "vfmv.v.f" 0 INSN_CLASS_ZVEF "Vd,S" MATCH_VFMVVF MASK_VFMVVF match_opcode 0;
  row "vfcvt.xu.f.v" 0 INSN_CLASS_ZVEF "Vd,VtVm" MATCH_VFCVTXUFV MASK_VFCVTXUFV match_opcode 0;
  row "vfcvt.x.f.v" 0 INSN_CLASS_ZVEF "Vd,VtVm" MATCH_VFCVTXFV MASK_VFCVTXFV match_opcode 0;
  row "vfcvt.rtz.xu.f.v" 0 INSN_CLASS_ZVEF "Vd,VtVm" MATCH_VFCVTRTZXUFV MASK_VFCVTRTZXUFV match_opcode 0;
  row "vfcvt.rtz.x.f.v" 0 INSN_CLASS_ZVEF "Vd,VtVm" MATCH_VFCVTRTZXFV MASK_VFCVTRTZXFV match_opcode 0;
  row "vfcvt.f.xu.v" 0 INSN_CLASS_ZVEF "Vd,VtVm" MATCH_VFCVTFXUV MASK_VFCVTFXUV match_opcode 0;
  row "vfcvt.f.x.v" 0 INSN_CLASS_ZVEF "Vd,VtVm" MATCH_VFCVTFXV MASK_VFCVTFXV match_opcode 0;
  row "vfwcvt.xu.f.v" 0 INSN_CLASS_ZVEF "Vd,VtVm" MATCH_VFWCVTXUFV MASK_VFWCVTXUFV match_opcode 0;
  row "vfwcvt.x.f.v" 0 INSN_CLASS_ZVEF "Vd,VtVm" MATCH_VFWCVTXFV MASK_VFWCVTXFV match_opcode 0;
  row "vfwcvt.rtz.xu.f.v" 0 INSN_CLASS_ZVEF "Vd,VtVm" MATCH_VFWCVTRTZXUFV MASK_VFWCVTRTZXUFV match_opcode 0;
  row "vfwcvt.rtz.x.f.v" 0 INSN_CLASS_ZVEF "Vd,VtVm" MATCH_VFWCVTRTZXFV MASK_VFWCVTRTZXFV match_opcode 0;
  row "vfwcvt.f.xu.v" 0 INSN_CLASS_ZVEF "Vd,VtVm" MATCH_VFWCVTFXUV MASK_VFWCVTFXUV match_opcode 0;
  row "vfwcvt.f.x.v" 0 INSN_CLASS_ZVEF "Vd,VtVm" MATCH_VFWCVTFXV MASK_VFWCVTFXV match_opcode 0;
  row "vfwcvt.f.f.v" 0 INSN_CLASS_ZVEF "Vd,VtVm" MATCH_VFWCVTFFV MASK_VFWCVTFFV match_opcode 0
].

Definition riscv_opcodes_11 : list riscv_opcode := [
  row "vfncvt.xu.f.w" 0 INSN_CLASS_ZVEF "Vd,VtVm" MATCH_VFNCVTXUFW MASK_VFNCVTXUFW match_opcode 0;
  row "vfncvt.x.f.w" 0 INSN_CLASS_ZVEF "Vd,VtVm" MATCH_VFNCVTXFW MASK_VFNCVTXFW match_opcode 0;
  row "vfncvt.rtz.xu.f.w" 0 INSN_CLASS_ZVEF "Vd,VtVm" MATCH_VFNCVTRTZXUFW MASK_VFNCVTRTZXUFW match_opcode 0;
  row "vfncvt.rtz.x.f.w" 0 INSN_CLASS_ZVEF "Vd,VtVm" MATCH_VFNCVTRTZXFW MASK_VFNCVTRTZXFW match_opcode 0;
  row "vfncvt.f.xu.w" 0 INSN_CLASS_ZVEF "Vd,VtVm" MATCH_VFNCVTFXUW MASK_VFNCVTFXUW match_opcode 0;
  row "vfncvt.f.x.w" 0 INSN_CLASS_ZVEF "Vd,VtVm" MATCH_VFNCVTFXW MASK_VFNCVTFXW match_opcode 0;
  row "vfncvt.f.f.w" 0 INSN_CLASS_ZVEF "Vd,VtVm" MATCH_VFNCVTFFW MASK_VFNCVTFFW match_opcode 0;
  row "vfncvt.rod.f.f.w" 0 INSN_CLASS_ZVEF "Vd,VtVm" MATCH_VFNCVTRODFFW MASK_VFNCVTRODFFW match_opcode 0;
  row "vredsum.vs" 0 INSN_CLASS_V "Vd,Vt,VsVm" MATCH_VREDSUMVS MASK_VREDSUMVS match_opcode 0;
  row "vredmaxu.vs" 0 INSN_CLASS_V "Vd,Vt,VsVm" MATCH_VREDMAXUVS MASK_VREDMAXUVS match_opcode 0;
  row "vredmax.vs" 0 INSN_CLASS_V "Vd,Vt,VsVm" MATCH_VREDMAXVS MASK_VREDMAXVS match_opcode 0;
  row "vredminu.vs" 0 INSN_CLASS_V "Vd,Vt,VsVm" MATCH_VREDMINUVS MASK_VREDMINUVS match_opcode 0;
  row "vredmin.vs" 0 INSN_CLASS_V "Vd,Vt,VsVm" MATCH_VREDMINVS MASK_VREDMINVS match_opcode 0;
  row "vredand.vs" 0 INSN_CLASS_V "Vd,Vt,VsVm" MATCH_VREDANDVS MASK_VREDANDVS match_opcode 0;
  row "vredor.vs" 0 INSN_CLASS_V "Vd,Vt,VsVm" MATCH_VREDORVS MASK_VREDORVS match_opcode 0;
  row "vredxor.vs" 0 INSN_CLASS_V "Vd,Vt,VsVm" MATCH_VREDXORVS MASK_VREDXORVS match_opcode 0;
  row "vwredsumu.vs" 0 INSN_CLASS_V "Vd,Vt,VsVm" MATCH_VWREDSUMUVS MASK_VWREDSUMUVS match_opcode 0;
  row "vwredsum.vs" 0 INSN_CLASS_V "Vd,Vt,VsVm" MATCH_VWREDSUMVS MASK_VWREDSUMVS match_opcode 0;
  row "vfredosum.vs" 0 INSN_CLASS_ZVEF "Vd,Vt,VsVm" MATCH_VFREDOSUMVS MASK_VFREDOSUMVS match_opcode 0;
  row "vfredusum.vs" 0 INSN_CLASS_ZVEF "Vd,Vt,VsVm" MATCH_VFREDUSUMVS MASK_VFREDUSUMVS match_opcode 0;
  row "vfredsum.vs" 0 INSN_CLASS_ZVEF "Vd,Vt,VsVm" MATCH_VFREDUSUMVS MASK_VFREDUSUMVS match_opcode INSN_ALIAS;
  row "vfredmax.vs" 0 INSN_CLASS_ZVEF "Vd,Vt,VsVm" MATCH_VFREDMAXVS MASK_VFREDMAXVS match_opcode 0;
  row "vfredmin.vs" 0 INSN_CLASS_ZVEF "Vd,Vt,VsVm" MATCH_VFREDMINVS MASK_VFREDMINVS match_opcode 0;
  row "vfwredosum.vs" 0 INSN_CLASS_ZVEF "Vd,Vt,VsVm" MATCH_VFWREDOSUMVS MASK_VFWREDOSUMVS match_opcode 0;
  row "vfwredusum.vs" 0 INSN_CLASS_ZVEF "Vd,Vt,VsVm" MATCH_VFWREDUSUMVS MASK_VFWREDUSUMVS match_opcode 0;
  row "vfwredsum.vs" 0 INSN_CLASS_ZVEF "Vd,Vt,VsVm" MATCH_VFWREDUSUMVS MASK_VFWREDUSUMVS match_opcode INSN_ALIAS;
  row "vmmv.m" 0 INSN_CLASS_V "Vd,Vu" MATCH_VMANDMM MASK_VMANDMM match_vs1_eq_vs2 INSN_ALIAS;
  row "vmcpy.m" 0 INSN_CLASS_V "Vd,Vu" MATCH_VMANDMM MASK_VMANDMM match_vs1_eq_vs2 INSN_ALIAS;
  row "vmclr.m" 0 INSN_CLASS_V "Vv" MATCH_VMXORMM MASK_VMXORMM match_vd_eq_vs1_eq_vs2 INSN_ALIAS;
  row "vmset.m" 0 INSN_CLASS_V "Vv" MATCH_VMXNORMM MASK_VMXNORMM match_vd_eq_vs1_eq_vs2 INSN_ALIAS;
  row "vmnot.m" 0 INSN_CLASS_V "Vd,Vu" MATCH_VMNANDMM MASK_VMNANDMM match_vs1_eq_vs2 INSN_ALIAS;
  row "vmand.mm" 0 INSN_CLASS_V "Vd,Vt,Vs" MATCH_VMANDMM MASK_VMANDMM match_opcode 0;
  row "vmnand.mm" 0 INSN_CLASS_V "Vd,Vt,Vs" MATCH_VMNANDMM MASK_VMNANDMM match_opcode 0;
  row "vmandn.mm" 0 INSN_CLASS_V "Vd,Vt,Vs" MATCH_VMANDNMM MASK_VMANDNMM match_opcode 0;
  row "vmandnot.mm" 0 INSN_CLASS_V "Vd,Vt,Vs" MATCH_VMANDNMM MASK_VMANDNMM match_opcode INSN_ALIAS;
  row "vmxor.mm" 0 INSN_CLASS_V "Vd,Vt,Vs" MATCH_VMXORMM MASK_VMXORMM match_opcode 0;
  row "vmor.mm" 0 INSN_CLASS_V "Vd,Vt,Vs" MATCH_VMORMM MASK_VMORMM match_opcode 0;
  row "vmnor.mm" 0 INSN_CLASS_V "Vd,Vt,Vs" MATCH_VMNORMM MASK_VMNORMM match_opcode 0;
  row "vmorn.mm" 0 INSN_CLASS_V "Vd,Vt,Vs" MATCH_VMORNMM MASK_VMORNMM match_opcode 0;
  row "vmornot.mm" 0 INSN_CLASS_V "Vd,Vt,Vs" MATCH_VMORNMM MASK_VMORNMM match_opcode INSN_ALIAS;
  row "vmxnor.mm" 0 INSN_CLASS_V "Vd,Vt,Vs" MATCH_VMXNORMM MASK_VMXNORMM match_opcode 0;
  row "vcpop.m" 0 INSN_CLASS_V "d,VtVm" MATCH_VCPOPM MASK_VCPOPM match_opcode 0;
  row "vpopc.m" 0 INSN_CLASS_V "d,VtVm" MATCH_VCPOPM MASK_VCPOPM match_opcode INSN_ALIAS;
  row "vfirst.m" 0 INSN_CLASS_V "d,VtVm" MATCH_VFIRSTM MASK_VFIRSTM match_opcode 0;
  row "vmsbf.m" 0 INSN_CLASS_V "Vd,VtVm" MATCH_VMSBFM MASK_VMSBFM match_opcode 0;
  row "vmsif.m" 0 INSN_CLASS_V "Vd,VtVm" MATCH_VMSIFM MASK_VMSIFM match_opcode 0;
  row "vmsof.m" 0 INSN_CLASS_V "Vd,VtVm" MATCH_VMSOFM MASK_VMSOFM match_opcode 0;
  row "viota.m" 0 INSN_CLASS_V "Vd,VtVm" MATCH_VIOTAM MASK_VIOTAM match_opcode 0;
  row "vid.v" 0 INSN_CLASS_V "VdVm" MATCH_VIDV MASK_VIDV match_opcode 0;
  row "vmv.x.s" 0 INSN_CLASS_V "d,Vt" MATCH_VMVXS MASK_VMVXS match_opcode 0;
  row "vmv.s.x" 0 INSN_CLASS_V "Vd,s" MATCH_VMVSX MASK_VMVSX match_opcode 0;
  row "vfmv.f.s" 0 INSN_CLASS_ZVEF "D,Vt" MATCH_VFMVFS MASK_VFMVFS match_opcode 0;
  row "vfmv.s.f" 0 INSN_CLASS_ZVEF "Vd,S" MATCH_VFMVSF MASK_VFMVSF match_opcode 0;
  row "vslideup.vx" 0 INSN_CLASS_V "Vd,Vt,sVm" MATCH_VSLIDEUPVX MASK_VSLIDEUPVX match_opcode 0;
  row "vslideup.vi" 0 INSN_CLASS_V "Vd,Vt,VjVm" MATCH_VSLIDEUPVI MASK_VSLIDEUPVI match_opcode 0;
  row "vslidedown.vx" 0 INSN_CLASS_V "Vd,Vt,sVm" MATCH_VSLIDEDOWNVX MASK_VSLIDEDOWNVX match_opcode 0;
  row "vslidedown.vi" 0 INSN_CLASS_V "Vd,Vt,VjVm" MATCH_VSLIDEDOWNVI MASK_VSLIDEDOWNVI match_opcode 0;
  row "vslide1up.vx" 0 INSN_CLASS_V "Vd,Vt,sVm" MATCH_VSLIDE1UPVX MASK_VSLIDE1UPVX match_opcode 0;
  row "vslide1down.vx" 0 INSN_CLASS_V "Vd,Vt,sVm" MATCH_VSLIDE1DOWNVX MASK_VSLIDE1DOWNVX match_opcode 0;
  row "vfslide1up.vf" 0 INSN_CLASS_ZVEF "Vd,Vt,SVm" MATCH_VFSLIDE1UPVF MASK_VFSLIDE1UPVF match_opcode 0;
  row "vfslide1down.vf" 0 INSN_CLASS_ZVEF "Vd,Vt,SVm" MATCH_VFSLIDE1DOWNVF MASK_VFSLIDE1DOWNVF match_opcode 0;
  row "vrgather.vv" 0 INSN_CLASS_V "Vd,Vt,VsVm" MATCH_VRGATHERVV MASK_VRGATHERVV match_opcode 0;
  row "vrgather.vx" 0 INSN_CLASS_V "Vd,Vt,sVm" MATCH_VRGATHERVX MASK_VRGATHERVX match_opcode 0;
  row "vrgather.vi" 0 INSN_CLASS_V "Vd,Vt,VjVm" MATCH_VRGATHERVI MASK_VRGATHERVI match_opcode 0;
  row "vrgatherei16.vv" 0 INSN_CLASS_V "Vd,Vt,VsVm" MATCH_VRGATHEREI16VV MASK_VRGATHEREI16VV match_opcode 0;
  row "vcompress.vm" 0 INSN_CLASS_V "Vd,Vt,Vs" MATCH_VCOMPRESSVM MASK_VCOMPRESSVM match_opcode 0;
  row "vmv1r.v" 0 INSN_CLASS_V "Vd,Vt" MATCH_VMV1RV MASK_VMV1RV match_opcode 0;
  row "vmv2r.v" 0 INSN_CLASS_V "Vd,Vt" MATCH_VMV2RV MASK_VMV2RV match_opcode 0;
  row "vmv4r.v" 0 INSN_CLASS_V "Vd,Vt" MATCH_VMV4RV MASK_VMV4RV match_opcode 0;
  row "vmv8r.v" 0 INSN_CLASS_V "Vd,Vt" MATCH_VMV8RV MASK_VMV8RV match_opcode 0;
  row "vandn.vv" 0 INSN_CLASS_ZVBB "Vd,Vt,VsVm" MATCH_VANDN_VV MASK_VANDN_VV match_opcode 0;
  row "vandn.vx" 0 INSN_CLASS_ZVBB "Vd,Vt,sVm" MATCH_VANDN_VX MASK_VANDN_VX match_opcode 0;
  row "vbrev.v" 0 INSN_CLASS_ZVBB "Vd,VtVm" MATCH_VBREV_V MASK_VBREV_V match_opcode 0;
  row "vbrev8.v" 0 INSN_CLASS_ZVBB "Vd,VtVm" MATCH_VBREV8_V MASK_VBREV8_V match_opcode 0;
  row "vrev8.v" 0 INSN_CLASS_ZVBB "Vd,VtVm" MATCH_VREV8_V MASK_VREV8_V match_opcode 0;
  row "vclz.v" 0 INSN_CLASS_ZVBB "Vd,VtVm" MATCH_VCLZ_V MASK_VCLZ_V match_opcode 0;
  row "vctz.v" 0 INSN_CLASS_ZVBB "Vd,VtVm" MATCH_VCTZ_V MASK_VCTZ_V match_opcode 0;
  row "vcpop.v" 0 INSN_CLASS_ZVBB "Vd,VtVm" MATCH_VCPOP_V MASK_VCPOP_V match_opcode 0;
  row "vrol.vv" 0 INSN_CLASS_ZVBB "Vd,Vt,VsVm" MATCH_VROL_VV MASK_VROL_VV match_opcode 0;
  row "vrol.vx" 0 INSN_CLASS_ZVBB "Vd,Vt,sVm" MATCH_VROL_VX MASK_VROL_VX match_opcode 0;
  row "vror.vv" 0 INSN_CLASS_ZVBB "Vd,Vt,VsVm" MATCH_VROR_VV MASK_VROR_VV match_opcode 0;
  row "vror.vx" 0 INSN_CLASS_ZVBB "Vd,Vt,sVm" MATCH_VROR_VX MASK_VROR_VX match_opcode 0;
  row "vror.vi" 0 INSN_CLASS_ZVBB "Vd,Vt,VlVm" MATCH_VROR_VI MASK_VROR_VI match_opcode 0;
  row "vwsll.vv" 0 INSN_CLASS_ZVBB "Vd,Vt,VsVm" MATCH_VWSLL_VV MASK_VWSLL_VV match_opcode 0;
  row "vwsll.vx" 0 INSN_CLASS_ZVBB "Vd,Vt,sVm" MATCH_VWSLL_VX MASK_VWSLL_VX match_opcode 0;
  row "vwsll.vi" 0 INSN_CLASS_ZVBB "Vd,Vt,VjVm" MATCH_VWSLL_VI MASK_VWSLL_VI match_opcode 0;
  row "vclmul.vv" 0 INSN_CLASS_ZVBC "Vd,Vt,VsVm" MATCH_VCLMUL_VV MASK_VCLMUL_VV match_opcode 0;
  row "vclmul.vx" 0 INSN_CLASS_ZVBC "Vd,Vt,sVm" MATCH_VCLMUL_VX MASK_VCLMUL_VX match_opcode 0;
  row "vclmulh.vv" 0 INSN_CLASS_ZVBC "Vd,Vt,VsVm" MATCH_VCLMULH_VV MASK_VCLMULH_VV match_opcode 0;
  row "vclmulh.vx" 0 INSN_CLASS_ZVBC "Vd,Vt,sVm" MATCH_VCLMULH_VX MASK_VCLMULH_VX match_opcode 0;
  row "vghsh.vv" 0 INSN_CLASS_ZVKG "Vd,Vt,Vs" MATCH_VGHSH_VV MASK_VGHSH_VV match_opcode 0;
  row "vgmul.vv" 0 INSN_CLASS_ZVKG "Vd,Vt" MATCH_VGMUL_VV MASK_VGMUL_VV match_opcode 0;
  row "vaesdf.vv" 0 INSN_CLASS_ZVKNED "Vd,Vt" MATCH_VAESDF_VV MASK_VAESDF_VV match_opcode 0;
  row "vaesdf.vs" 0 INSN_CLASS_ZVKNED "Vd,Vt" MATCH_VAESDF_VS MASK_VAESDF_VV match_opcode 0;
  row "vaesdm.vv" 0 INSN_CLASS_ZVKNED "Vd,Vt" MATCH_VAESDM_VV MASK_VAESDM_VV match_opcode 0;
  row "vaesdm.vs" 0 INSN_CLASS_ZVKNED "Vd,Vt" MATCH_VAESDM_VS MASK_VAESDM_VV match_opcode 0;
  row "vaesef.vv" 0 INSN_CLASS_ZVKNED "Vd,Vt" MATCH_VAESEF_VV MASK_VAESEF_VV match_opcode 0;
  row "vaesef.vs" 0 INSN_CLASS_ZVKNED "Vd,Vt" MATCH_VAESEF_VS MASK_VAESEF_VV match_opcode 0;
  row "vaesem.vv" 0 INSN_CLASS_ZVKNED "Vd,Vt" MATCH_VAESEM_VV MASK_VAESEM_VV match_opcode 0;
  row "vaesem.vs" 0 INSN_CLASS_ZVKNED "Vd,Vt" MATCH_VAESEM_VS MASK_VAESEM_VV match_opcode 0;
  row "vaeskf1.vi" 0 INSN_CLASS_ZVKNED "Vd,Vt,Vj" MATCH_VAESKF1_VI MASK_VAESKF1_VI match_opcode 0;
  row "vaeskf2.vi" 0 INSN_CLASS_ZVKNED "Vd,Vt,Vj" MATCH_VAESKF2_VI MASK_VAESKF2_VI match_opcode 0;
  row "vaesz.vs" 0 INSN_CLASS_ZVKNED "Vd,Vt" MATCH_VAESZ_VS MASK_VAESZ_VS match_opcode 0;
  row "vsha2ch.vv" 0 INSN_CLASS_ZVKNHA_OR_ZVKNHB "Vd,Vt,Vs" MATCH_VSHA2CH_VV MASK_VSHA2CH_VV match_opcode 0;
  row "vsha2cl.vv" 0 INSN_CLASS_ZVKNHA_OR_ZVKNHB "Vd,Vt,Vs" MATCH_VSHA2CL_VV MASK_VSHA2CL_VV match_opcode 0;
  row "vsha2ms.vv" 0 INSN_CLASS_ZVKNHA_OR_ZVKNHB "Vd,Vt,Vs" MATCH_VSHA2MS_VV MASK_VSHA2MS_VV match_opcode 0;
  row "vsm4k.vi" 0 INSN_CLASS_ZVKSED "Vd,Vt,Vj" MATCH_VSM4K_VI MASK_VSM4K_VI match_opcode 0;
  row "vsm4r.vv" 0 INSN_CLASS_ZVKSED "Vd,Vt" MATCH_VSM4R_VV MASK_VSM4R_VV match_opcode 0;
  row "vsm4r.vs" 0 INSN_CLASS_ZVKSED "Vd,Vt" MATCH_VSM4R_VS MASK_VSM4R_VS match_opcode 0;
  row "vsm3c.vi" 0 INSN_CLASS_ZVKSH "Vd,Vt,Vj" MATCH_VSM3C_VI MASK_VSM3C_VI match_opcode 0;
  row "vsm3me.vv" 0 INSN_CLASS_ZVKSH "Vd,Vt,Vs" MATCH_VSM3ME_VV MASK_VSM3ME_VV match_opcode 0;
  row "csrr" 0 INSN_CLASS_ZICSR "d,E" MATCH_CSRRS (MASK_CSRRS .| MASK_RS1) match_opcode INSN_ALIAS;
  row "csrw" 0 INSN_CLASS_ZICSR "E,s" MATCH_CSRRW (MASK_CSRRW .| MASK_RD) match_opcode INSN_ALIAS;
  row "csrw" 0 INSN_CLASS_ZICSR "E,Z" MATCH_CSRRWI (MASK_CSRRWI .| MASK_RD) match_opcode INSN_ALIAS;
  row "csrwi" 0 INSN_CLASS_ZICSR "E,Z" MATCH_CSRRWI (MASK_CSRRWI .| MASK_RD) match_opcode INSN_ALIAS;
  row "csrs" 0 INSN_CLASS_ZICSR "E,s" MATCH_CSRRS (MASK_CSRRS .| MASK_RD) match_opcode INSN_ALIAS;
  row "csrs" 0 INSN_CLASS_ZICSR "E,Z" MATCH_CSRRSI (MASK_CSRRSI .| MASK_RD) match_opcode INSN_ALIAS;
  row "csrsi" 0 INSN_CLASS_ZICSR "E,Z" MATCH_CSRRSI (MASK_CSRRSI .| MASK_RD) match_opcode INSN_ALIAS;
  row "csrc" 0 INSN_CLASS_ZICSR "E,s" MATCH_CSRRC (MASK_CSRRC .| MASK_RD) match_opcode INSN_ALIAS
].

Definition riscv_opcodes_12 : list riscv_opcode := [
  row "csrc" 0 INSN_CLASS_ZICSR "E,Z" MATCH_CSRRCI (MASK_CSRRCI .| MASK_RD) match_opcode INSN_ALIAS;
  row "csrci" 0 INSN_CLASS_ZICSR "E,Z" MATCH_CSRRCI (MASK_CSRRCI .| MASK_RD) match_opcode INSN_ALIAS;
  row "csrrw" 0 INSN_CLASS_ZICSR "d,E,s" MATCH_CSRRW MASK_CSRRW match_opcode 0;
  row "csrrw" 0 INSN_CLASS_ZICSR "d,E,Z" MATCH_CSRRWI MASK_CSRRWI match_opcode INSN_ALIAS;
  row "csrrwi" 0 INSN_CLASS_ZICSR "d,E,Z" MATCH_CSRRWI MASK_CSRRWI match_opcode 0;
  row "csrrs" 0 INSN_CLASS_ZICSR "d,E,s" MATCH_CSRRS MASK_CSRRS match_opcode 0;
  row "csrrs" 0 INSN_CLASS_ZICSR "d,E,Z" MATCH_CSRRSI MASK_CSRRSI match_opcode INSN_ALIAS;
  row "csrrsi" 0 INSN_CLASS_ZICSR "d,E,Z" MATCH_CSRRSI MASK_CSRRSI match_opcode 0;
  row "csrrc" 0 INSN_CLASS_ZICSR "d,E,s" MATCH_CSRRC MASK_CSRRC match_opcode 0;
  row "csrrc" 0 INSN_CLASS_ZICSR "d,E,Z" MATCH_CSRRCI MASK_CSRRCI match_opcode INSN_ALIAS;
  row "csrrci" 0 INSN_CLASS_ZICSR "d,E,Z" MATCH_CSRRCI MASK_CSRRCI match_opcode 0;
  row "uret" 0 INSN_CLASS_I "" MATCH_URET MASK_URET match_opcode 0;
  row "sret" 0 INSN_CLASS_I "" MATCH_SRET MASK_SRET match_opcode 0;
  row "hret" 0 INSN_CLASS_I "" MATCH_HRET MASK_HRET match_opcode 0;
  row "mret" 0 INSN_CLASS_I "" MATCH_MRET MASK_MRET match_opcode 0;
  row "dret" 0 INSN_CLASS_I "" MATCH_DRET MASK_DRET match_opcode 0;
  row "sfence.vm" 0 INSN_CLASS_I "" MATCH_SFENCE_VM (MASK_SFENCE_VM .| MASK_RS1) match_opcode 0;
  row "sfence.vm" 0 INSN_CLASS_I "s" MATCH_SFENCE_VM MASK_SFENCE_VM match_opcode 0;
  row "sfence.vma" 0 INSN_CLASS_I "" MATCH_SFENCE_VMA (MASK_SFENCE_VMA .| MASK_RS1 .| MASK_RS2) match_opcode INSN_ALIAS;
  row "sfence.vma" 0 INSN_CLASS_I "s" MATCH_SFENCE_VMA (MASK_SFENCE_VMA .| MASK_RS2) match_opcode INSN_ALIAS;
  row "sfence.vma" 0 INSN_CLASS_I "s,t" MATCH_SFENCE_VMA MASK_SFENCE_VMA match_opcode 0;
  row "wfi" 0 INSN_CLASS_I "" MATCH_WFI MASK_WFI match_opcode 0;
  row "sinval.vma" 0 INSN_CLASS_SVINVAL "s,t" MATCH_SINVAL_VMA MASK_SINVAL_VMA match_opcode 0;
  row "sfence.w.inval" 0 INSN_CLASS_SVINVAL "" MATCH_SFENCE_W_INVAL MASK_SFENCE_W_INVAL match_opcode 0;
  row "sfence.inval.ir" 0 INSN_CLASS_SVINVAL "" MATCH_SFENCE_INVAL_IR MASK_SFENCE_INVAL_IR match_opcode 0;
  row "hinval.vvma" 0 INSN_CLASS_SVINVAL "s,t" MATCH_HINVAL_VVMA MASK_HINVAL_VVMA match_opcode 0;
  row "hinval.gvma" 0 INSN_CLASS_SVINVAL "s,t" MATCH_HINVAL_GVMA MASK_HINVAL_GVMA match_opcode 0;
  row "hfence.vvma" 0 INSN_CLASS_H "" MATCH_HFENCE_VVMA (MASK_HFENCE_VVMA .| MASK_RS1 .| MASK_RS2) match_opcode INSN_ALIAS;
  row "hfence.vvma" 0 INSN_CLASS_H "s" MATCH_HFENCE_VVMA (MASK_HFENCE_VVMA .| MASK_RS2) match_opcode INSN_ALIAS;
  row "hfence.vvma" 0 INSN_CLASS_H "s,t" MATCH_HFENCE_VVMA MASK_HFENCE_VVMA match_opcode 0;
  row "hfence.gvma" 0 INSN_CLASS_H "" MATCH_HFENCE_GVMA (MASK_HFENCE_GVMA .| MASK_RS1 .| MASK_RS2) match_opcode INSN_ALIAS;
  row "hfence.gvma" 0 INSN_CLASS_H "s" MATCH_HFENCE_GVMA (MASK_HFENCE_GVMA .| MASK_RS2) match_opcode INSN_ALIAS;
  row "hfence.gvma" 0 INSN_CLASS_H "s,t" MATCH_HFENCE_GVMA MASK_HFENCE_GVMA match_opcode 0;
  row "hlv.b" 0 INSN_CLASS_H "d,0(s)" MATCH_HLV_B MASK_HLV_B match_opcode (INSN_DREF .| INSN_1_BYTE);
  row "hlv.bu" 0 INSN_CLASS_H "d,0(s)" MATCH_HLV_BU MASK_HLV_BU match_opcode (INSN_DREF .| INSN_1_BYTE);
  row "hlv.h" 0 INSN_CLASS_H "d,0(s)" MATCH_HLV_H MASK_HLV_H match_opcode (INSN_DREF .| INSN_2_BYTE);
  row "hlv.hu" 0 INSN_CLASS_H "d,0(s)" MATCH_HLV_HU MASK_HLV_HU match_opcode (INSN_DREF .| INSN_2_BYTE);
  row "hlvx.hu" 0 INSN_CLASS_H "d,0(s)" MATCH_HLVX_HU MASK_HLVX_HU match_opcode (INSN_DREF .| INSN_2_BYTE);
  row "hlv.w" 0 INSN_CLASS_H "d,0(s)" MATCH_HLV_W MASK_HLV_W match_opcode (INSN_DREF .| INSN_4_BYTE);
  row "hlv.wu" 64 INSN_CLASS_H "d,0(s)" MATCH_HLV_WU MASK_HLV_WU match_opcode (INSN_DREF .| INSN_4_BYTE);
  row "hlvx.wu" 0 INSN_CLASS_H "d,0(s)" MATCH_HLVX_WU MASK_HLVX_WU match_opcode (INSN_DREF .| INSN_4_BYTE);
  row "hlv.d" 64 INSN_CLASS_H "d,0(s)" MATCH_HLV_D MASK_HLV_D match_opcode (INSN_DREF .| INSN_8_BYTE);
  row "hsv.b" 0 INSN_CLASS_H "t,0(s)" MATCH_HSV_B MASK_HSV_B match_opcode (INSN_DREF .| INSN_1_BYTE);
  row "hsv.h" 0 INSN_CLASS_H "t,0(s)" MATCH_HSV_H MASK_HSV_H match_opcode (INSN_DREF .| INSN_2_BYTE);
  row "hsv.w" 0 INSN_CLASS_H "t,0(s)" MATCH_HSV_W MASK_HSV_W match_opcode (INSN_DREF .| INSN_4_BYTE);
  row "hsv.d" 64 INSN_CLASS_H "t,0(s)" MATCH_HSV_D MASK_HSV_D match_opcode (INSN_DREF .| INSN_8_BYTE);
  row "th.addsl" 0 INSN_CLASS_XTHEADBA "d,s,t,Xu2@25" MATCH_TH_ADDSL MASK_TH_ADDSL match_opcode 0;
  row "th.srri" 0 INSN_CLASS_XTHEADBB "d,s,Xu6@20" MATCH_TH_SRRI MASK_TH_SRRI match_opcode 0;
  row "th.srriw" 64 INSN_CLASS_XTHEADBB "d,s,Xu5@20" MATCH_TH_SRRIW MASK_TH_SRRIW match_opcode 0;
  row "th.ext" 0 INSN_CLASS_XTHEADBB "d,s,Xu6@26,Xu6@20" MATCH_TH_EXT MASK_TH_EXT match_opcode 0;
  row "th.extu" 0 INSN_CLASS_XTHEADBB "d,s,Xu6@26,Xu6@20" MATCH_TH_EXTU MASK_TH_EXTU match_opcode 0;
  row "th.ff0" 0 INSN_CLASS_XTHEADBB "d,s" MATCH_TH_FF0 MASK_TH_FF0 match_opcode 0;
  row "th.ff1" 0 INSN_CLASS_XTHEADBB "d,s" MATCH_TH_FF1 MASK_TH_FF1 match_opcode 0;
  row "th.rev" 0 INSN_CLASS_XTHEADBB "d,s" MATCH_TH_REV MASK_TH_REV match_opcode 0;
  row "th.revw" 64 INSN_CLASS_XTHEADBB "d,s" MATCH_TH_REVW MASK_TH_REVW match_opcode 0;
  row "th.tstnbz" 0 INSN_CLASS_XTHEADBB "d,s" MATCH_TH_TSTNBZ MASK_TH_TSTNBZ match_opcode 0;
  row "th.tst" 0 INSN_CLASS_XTHEADBS "d,s,Xu6@20" MATCH_TH_TST MASK_TH_TST match_opcode 0;
  row "th.dcache.call" 0 INSN_CLASS_XTHEADCMO "" MATCH_TH_DCACHE_CALL MASK_TH_DCACHE_CALL match_opcode 0;
  row "th.dcache.ciall" 0 INSN_CLASS_XTHEADCMO "" MATCH_TH_DCACHE_CIALL MASK_TH_DCACHE_CIALL match_opcode 0;
  row "th.dcache.iall" 0 INSN_CLASS_XTHEADCMO "" MATCH_TH_DCACHE_IALL MASK_TH_DCACHE_IALL match_opcode 0;
  row "th.dcache.cpa" 0 INSN_CLASS_XTHEADCMO "s" MATCH_TH_DCACHE_CPA MASK_TH_DCACHE_CPA match_opcode 0;
  row "th.dcache.cipa" 0 INSN_CLASS_XTHEADCMO "s" MATCH_TH_DCACHE_CIPA MASK_TH_DCACHE_CIPA match_opcode 0;
  row "th.dcache.ipa" 0 INSN_CLASS_XTHEADCMO "s" MATCH_TH_DCACHE_IPA MASK_TH_DCACHE_IPA match_opcode 0;
  row "th.dcache.cva" 0 INSN_CLASS_XTHEADCMO "s" MATCH_TH_DCACHE_CVA MASK_TH_DCACHE_CVA match_opcode 0;
  row "th.dcache.civa" 0 INSN_CLASS_XTHEADCMO "s" MATCH_TH_DCACHE_CIVA MASK_TH_DCACHE_CIVA match_opcode 0;
  row "th.dcache.iva" 0 INSN_CLASS_XTHEADCMO "s" MATCH_TH_DCACHE_IVA MASK_TH_DCACHE_IVA match_opcode 0;
  row "th.dcache.csw" 0 INSN_CLASS_XTHEADCMO "s" MATCH_TH_DCACHE_CSW MASK_TH_DCACHE_CSW match_opcode 0;
  row "th.dcache.cisw" 0 INSN_CLASS_XTHEADCMO "s" MATCH_TH_DCACHE_CISW MASK_TH_DCACHE_CISW match_opcode 0;
  row "th.dcache.isw" 0 INSN_CLASS_XTHEADCMO "s" MATCH_TH_DCACHE_ISW MASK_TH_DCACHE_ISW match_opcode 0;
  row "th.dcache.cpal1" 0 INSN_CLASS_XTHEADCMO "s" MATCH_TH_DCACHE_CPAL1 MASK_TH_DCACHE_CPAL1 match_opcode 0;
  row "th.dcache.cval1" 0 INSN_CLASS_XTHEADCMO "s" MATCH_TH_DCACHE_CVAL1 MASK_TH_DCACHE_CVAL1 match_opcode 0;
  row "th.icache.iall" 0 INSN_CLASS_XTHEADCMO "" MATCH_TH_ICACHE_IALL MASK_TH_ICACHE_IALL match_opcode 0;
  row "th.icache.ialls" 0 INSN_CLASS_XTHEADCMO "" MATCH_TH_ICACHE_IALLS MASK_TH_ICACHE_IALLS match_opcode 0;
  row "th.icache.ipa" 0 INSN_CLASS_XTHEADCMO "s" MATCH_TH_ICACHE_IPA MASK_TH_ICACHE_IPA match_opcode 0;
  row "th.icache.iva" 0 INSN_CLASS_XTHEADCMO "s" MATCH_TH_ICACHE_IVA MASK_TH_ICACHE_IVA match_opcode 0;
  row "th.l2cache.call" 0 INSN_CLASS_XTHEADCMO "" MATCH_TH_L2CACHE_CALL MASK_TH_L2CACHE_CALL match_opcode 0;
  row "th.l2cache.ciall" 0 INSN_CLASS_XTHEADCMO "" MATCH_TH_L2CACHE_CIALL MASK_TH_L2CACHE_CIALL match_opcode 0;
  row "th.l2cache.iall" 0 INSN_CLASS_XTHEADCMO "" MATCH_TH_L2CACHE_IALL MASK_TH_L2CACHE_IALL match_opcode 0;
  row "th.mveqz" 0 INSN_CLASS_XTHEADCONDMOV "d,s,t" MATCH_TH_MVEQZ MASK_TH_MVEQZ match_opcode 0;
  row "th.mvnez" 0 INSN_CLASS_XTHEADCONDMOV "d,s,t" MATCH_TH_MVNEZ MASK_TH_MVNEZ match_opcode 0;
  row "th.flrd" 0 INSN_CLASS_XTHEADFMEMIDX "D,s,t,Xu2@25" MATCH_TH_FLRD MASK_TH_FLRD match_opcode 0;
  row "th.flrw" 0 INSN_CLASS_XTHEADFMEMIDX "D,s,t,Xu2@25" MATCH_TH_FLRW MASK_TH_FLRW match_opcode 0;
  row "th.flurd" 0 INSN_CLASS_XTHEADFMEMIDX "D,s,t,Xu2@25" MATCH_TH_FLURD MASK_TH_FLURD match_opcode 0;
  row "th.flurw" 0 INSN_CLASS_XTHEADFMEMIDX "D,s,t,Xu2@25" MATCH_TH_FLURW MASK_TH_FLURW match_opcode 0;
  row "th.fsrd" 0 INSN_CLASS_XTHEADFMEMIDX "D,s,t,Xu2@25" MATCH_TH_FSRD MASK_TH_FSRD match_opcode 0;
  row "th.fsrw" 0 INSN_CLASS_XTHEADFMEMIDX "D,s,t,Xu2@25" MATCH_TH_FSRW MASK_TH_FSRW match_opcode 0;
  row "th.fsurd" 0 INSN_CLASS_XTHEADFMEMIDX "D,s,t,Xu2@25" MATCH_TH_FSURD MASK_TH_FSURD match_opcode 0;
  row "th.fsurw" 0 INSN_CLASS_XTHEADFMEMIDX "D,s,t,Xu2@25" MATCH_TH_FSURW MASK_TH_FSURW match_opcode 0;
  row "th.fmv.hw.x" 32 INSN_CLASS_XTHEADFMV "d,S" MATCH_TH_FMV_HW_X MASK_TH_FMV_HW_X match_opcode 0;
  row "th.fmv.x.hw" 32 INSN_CLASS_XTHEADFMV "d,S" MATCH_TH_FMV_X_HW MASK_TH_FMV_X_HW match_opcode 0;
  row "th.ipop" 0 INSN_CLASS_XTHEADINT "" MATCH_TH_IPOP MASK_TH_IPOP match_opcode 0;
  row "th.ipush" 0 INSN_CLASS_XTHEADINT "" MATCH_TH_IPUSH MASK_TH_IPUSH match_opcode 0;
  row "th.ldia" 64 INSN_CLASS_XTHEADMEMIDX "d,(s),Xs5@20,Xu2@25" MATCH_TH_LDIA MASK_TH_LDIA match_th_load_inc 0;
  row "th.ldib" 64 INSN_CLASS_XTHEADMEMIDX "d,(s),Xs5@20,Xu2@25" MATCH_TH_LDIB MASK_TH_LDIB match_th_load_inc 0;
  row "th.lwia" 0 INSN_CLASS_XTHEADMEMIDX "d,(s),Xs5@20,Xu2@25" MATCH_TH_LWIA MASK_TH_LWIA match_th_load_inc 0;
  row "th.lwib" 0 INSN_CLASS_XTHEADMEMIDX "d,(s),Xs5@20,Xu2@25" MATCH_TH_LWIB MASK_TH_LWIB match_th_load_inc 0;
  row "th.lwuia" 64 INSN_CLASS_XTHEADMEMIDX "d,(s),Xs5@20,Xu2@25" MATCH_TH_LWUIA MASK_TH_LWUIA match_th_load_inc 0;
  row "th.lwuib" 64 INSN_CLASS_XTHEADMEMIDX "d,(s),Xs5@20,Xu2@25" MATCH_TH_LWUIB MASK_TH_LWUIB match_th_load_inc 0;
  row "th.lhia" 0 INSN_CLASS_XTHEADMEMIDX "d,(s),Xs5@20,Xu2@25" MATCH_TH_LHIA MASK_TH_LHIA match_th_load_inc 0;
  row "th.lhib" 0 INSN_CLASS_XTHEADMEMIDX "d,(s),Xs5@20,Xu2@25" MATCH_TH_LHIB MASK_TH_LHIB match_th_load_inc 0;
  row "th.lhuia" 0 INSN_CLASS_XTHEADMEMIDX "d,(s),Xs5@20,Xu2@25" MATCH_TH_LHUIA MASK_TH_LHUIA match_th_load_inc 0;
  row "th.lhuib" 0 INSN_CLASS_XTHEADMEMIDX "d,(s),Xs5@20,Xu2@25" MATCH_TH_LHUIB MASK_TH_LHUIB match_th_load_inc 0;
  row "th.lbia" 0 INSN_CLASS_XTHEADMEMIDX "d,(s),Xs5@20,Xu2@25" MATCH_TH_LBIA MASK_TH_LBIA match_th_load_inc 0;
  row "th.lbib" 0 INSN_CLASS_XTHEADMEMIDX "d,(s),Xs5@20,Xu2@25" MATCH_TH_LBIB MASK_TH_LBIB match_th_load_inc 0;
  row "th.lbuia" 0 INSN_CLASS_XTHEADMEMIDX "d,(s),Xs5@20,Xu2@25" MATCH_TH_LBUIA MASK_TH_LBUIA match_th_load_inc 0;
  row "th.lbuib" 0 INSN_CLASS_XTHEADMEMIDX "d,(s),Xs5@20,Xu2@25" MATCH_TH_LBUIB MASK_TH_LBUIB match_th_load_inc 0;
  row "th.sdia" 64 INSN_CLASS_XTHEADMEMIDX "d,(s),Xs5@20,Xu2@25" MATCH_TH_SDIA MASK_TH_SDIA match_opcode 0;
  row "th.sdib" 64 INSN_CLASS_XTHEADMEMIDX "d,(s),Xs5@20,Xu2@25" MATCH_TH_SDIB MASK_TH_SDIB match_opcode 0;
  row "th.swia" 0 INSN_CLASS_XTHEADMEMIDX "d,(s),Xs5@20,Xu2@25" MATCH_TH_SWIA MASK_TH_SWIA match_opcode 0;
  row "th.swib" 0 INSN_CLASS_XTHEADMEMIDX "d,(s),Xs5@20,Xu2@25" MATCH_TH_SWIB MASK_TH_SWIB match_opcode 0;
  row "th.shia" 0 INSN_CLASS_XTHEADMEMIDX "d,(s),Xs5@20,Xu2@25" MATCH_TH_SHIA MASK_TH_SHIA match_opcode 0;
  row "th.shib" 0 INSN_CLASS_XTHEADMEMIDX "d,(s),Xs5@20,Xu2@25" MATCH_TH_SHIB MASK_TH_SHIB match_opcode 0;
  row "th.sbia" 0 INSN_CLASS_XTHEADMEMIDX "d,(s),Xs5@20,Xu2@25" MATCH_TH_SBIA MASK_TH_SBIA match_opcode 0;
  row "th.sbib" 0 INSN_CLASS_XTHEADMEMIDX "d,(s),Xs5@20,Xu2@25" MATCH_TH_SBIB MASK_TH_SBIB match_opcode 0;
  row "th.lrd" 64 INSN_CLASS_XTHEADMEMIDX "d,s,t,Xu2@25" MATCH_TH_LRD MASK_TH_LRD match_opcode 0;
  row "th.lrw" 0 INSN_CLASS_XTHEADMEMIDX "d,s,t,Xu2@25" MATCH_TH_LRW MASK_TH_LRW match_opcode 0;
  row "th.lrwu" 64 INSN_CLASS_XTHEADMEMIDX "d,s,t,Xu2@25" MATCH_TH_LRWU MASK_TH_LRWU match_opcode 0;
  row "th.lrh" 0 INSN_CLASS_XTHEADMEMIDX "d,s,t,Xu2@25" MATCH_TH_LRH MASK_TH_LRH match_opcode 0;
  row "th.lrhu" 0 INSN_CLASS_XTHEADMEMIDX "d,s,t,Xu2@25" MATCH_TH_LRHU MASK_TH_LRHU match_opcode 0;
  row "th.lrb" 0 INSN_CLASS_XTHEADMEMIDX "d,s,t,Xu2@25" MATCH_TH_LRB MASK_TH_LRB match_opcode 0;
  row "th.lrbu" 0 INSN_CLASS_XTHEADMEMIDX "d,s,t,Xu2@25" MATCH_TH_LRBU MASK_TH_LRBU match_opcode 0;
  row "th.srd" 64 INSN_CLASS_XTHEADMEMIDX "d,s,t,Xu2@25" MATCH_TH_SRD MASK_TH_SRD match_opcode 0;
  row "th.srw" 0 INSN_CLASS_XTHEADMEMIDX "d,s,t,Xu2@25" MATCH_TH_SRW MASK_TH_SRW match_opcode 0;
  row "th.srh" 0 INSN_CLASS_XTHEADMEMIDX "d,s,t,Xu2@25" MATCH_TH_SRH MASK_TH_SRH match_opcode 0
].

Definition riscv_opcodes_13 : list riscv_opcode := [
  row "th.srb" 0 INSN_CLASS_XTHEADMEMIDX "d,s,t,Xu2@25" MATCH_TH_SRB MASK_TH_SRB match_opcode 0;
  row "th.lurd" 64 INSN_CLASS_XTHEADMEMIDX "d,s,t,Xu2@25" MATCH_TH_LURD MASK_TH_LURD match_opcode 0;
  row "th.lurw" 0 INSN_CLASS_XTHEADMEMIDX "d,s,t,Xu2@25" MATCH_TH_LURW MASK_TH_LURW match_opcode 0;
  row "th.lurwu" 64 INSN_CLASS_XTHEADMEMIDX "d,s,t,Xu2@25" MATCH_TH_LURWU MASK_TH_LURWU match_opcode 0;
  row "th.lurh" 0 INSN_CLASS_XTHEADMEMIDX "d,s,t,Xu2@25" MATCH_TH_LURH MASK_TH_LURH match_opcode 0;
  row "th.lurhu" 0 INSN_CLASS_XTHEADMEMIDX "d,s,t,Xu2@25" MATCH_TH_LURHU MASK_TH_LURHU match_opcode 0;
  row "th.lurb" 0 INSN_CLASS_XTHEADMEMIDX "d,s,t,Xu2@25" MATCH_TH_LURB MASK_TH_LURB match_opcode 0;
  row "th.lurbu" 0 INSN_CLASS_XTHEADMEMIDX "d,s,t,Xu2@25" MATCH_TH_LURBU MASK_TH_LURBU match_opcode 0;
  row "th.surd" 64 INSN_CLASS_XTHEADMEMIDX "d,s,t,Xu2@25" MATCH_TH_SURD MASK_TH_SURD match_opcode 0;
  row "th.surw" 0 INSN_CLASS_XTHEADMEMIDX "d,s,t,Xu2@25" MATCH_TH_SURW MASK_TH_SURW match_opcode 0;
  row "th.surh" 0 INSN_CLASS_XTHEADMEMIDX "d,s,t,Xu2@25" MATCH_TH_SURH MASK_TH_SURH match_opcode 0;
  row "th.surb" 0 INSN_CLASS_XTHEADMEMIDX "d,s,t,Xu2@25" MATCH_TH_SURB MASK_TH_SURB match_opcode 0;
  row "th.ldd" 64 INSN_CLASS_XTHEADMEMPAIR "d,t,(s),Xu2@25,Xl4" MATCH_TH_LDD MASK_TH_LDD match_th_load_pair 0;
  row "th.lwd" 0 INSN_CLASS_XTHEADMEMPAIR "d,t,(s),Xu2@25,Xl3" MATCH_TH_LWD MASK_TH_LWD match_th_load_pair 0;
  row "th.lwud" 0 INSN_CLASS_XTHEADMEMPAIR "d,t,(s),Xu2@25,Xl3" MATCH_TH_LWUD MASK_TH_LWUD match_th_load_pair 0;
  row "th.sdd" 64 INSN_CLASS_XTHEADMEMPAIR "d,t,(s),Xu2@25,Xl4" MATCH_TH_SDD MASK_TH_SDD match_opcode 0;
  row "th.swd" 0 INSN_CLASS_XTHEADMEMPAIR "d,t,(s),Xu2@25,Xl3" MATCH_TH_SWD MASK_TH_SWD match_opcode 0;
  row "th.mula" 0 INSN_CLASS_XTHEADMAC "d,s,t" MATCH_TH_MULA MASK_TH_MULA match_opcode 0;
  row "th.mulah" 0 INSN_CLASS_XTHEADMAC "d,s,t" MATCH_TH_MULAH MASK_TH_MULAH match_opcode 0;
  row "th.mulaw" 64 INSN_CLASS_XTHEADMAC "d,s,t" MATCH_TH_MULAW MASK_TH_MULAW match_opcode 0;
  row "th.muls" 0 INSN_CLASS_XTHEADMAC "d,s,t" MATCH_TH_MULS MASK_TH_MULS match_opcode 0;
  row "th.mulsh" 0 INSN_CLASS_XTHEADMAC "d,s,t" MATCH_TH_MULSH MASK_TH_MULSH match_opcode 0;
  row "th.mulsw" 64 INSN_CLASS_XTHEADMAC "d,s,t" MATCH_TH_MULSW MASK_TH_MULSW match_opcode 0;
  row "th.sfence.vmas" 0 INSN_CLASS_XTHEADSYNC "s,t" MATCH_TH_SFENCE_VMAS MASK_TH_SFENCE_VMAS match_opcode 0;
  row "th.sync" 0 INSN_CLASS_XTHEADSYNC "" MATCH_TH_SYNC MASK_TH_SYNC match_opcode 0;
  row "th.sync.i" 0 INSN_CLASS_XTHEADSYNC "" MATCH_TH_SYNC_I MASK_TH_SYNC_I match_opcode 0;
  row "th.sync.is" 0 INSN_CLASS_XTHEADSYNC "" MATCH_TH_SYNC_IS MASK_TH_SYNC_IS match_opcode 0;
  row "th.sync.s" 0 INSN_CLASS_XTHEADSYNC "" MATCH_TH_SYNC_S MASK_TH_SYNC_S match_opcode 0;
  row "vt.maskc" 0 INSN_CLASS_XVENTANACONDOPS "d,s,t" MATCH_VT_MASKC MASK_VT_MASKC match_opcode 0;
  row "vt.maskcn" 0 INSN_CLASS_XVENTANACONDOPS "d,s,t" MATCH_VT_MASKCN MASK_VT_MASKCN match_opcode 0
].

Definition riscv_insn_types_01 : list riscv_opcode := [
  row "r" 0 INSN_CLASS_I "O4,F3,F7,d,s,t" 0 0 match_opcode 0;
  row "r" 0 INSN_CLASS_F "O4,F3,F7,D,s,t" 0 0 match_opcode 0;
  row "r" 0 INSN_CLASS_F "O4,F3,F7,d,S,t" 0 0 match_opcode 0;
  row "r" 0 INSN_CLASS_F "O4,F3,F7,D,S,t" 0 0 match_opcode 0;
  row "r" 0 INSN_CLASS_F "O4,F3,F7,d,s,T" 0 0 match_opcode 0;
  row "r" 0 INSN_CLASS_F "O4,F3,F7,D,s,T" 0 0 match_opcode 0;
  row "r" 0 INSN_CLASS_F "O4,F3,F7,d,S,T" 0 0 match_opcode 0;
  row "r" 0 INSN_CLASS_F "O4,F3,F7,D,S,T" 0 0 match_opcode 0;
  row "r" 0 INSN_CLASS_I "O4,F3,F2,d,s,t,r" 0 0 match_opcode 0;
  row "r" 0 INSN_CLASS_F "O4,F3,F2,D,s,t,r" 0 0 match_opcode 0;
  row "r" 0 INSN_CLASS_F "O4,F3,F2,d,S,t,r" 0 0 match_opcode 0;
  row "r" 0 INSN_CLASS_F "O4,F3,F2,D,S,t,r" 0 0 match_opcode 0;
  row "r" 0 INSN_CLASS_F "O4,F3,F2,d,s,T,r" 0 0 match_opcode 0;
  row "r" 0 INSN_CLASS_F "O4,F3,F2,D,s,T,r" 0 0 match_opcode 0;
  row "r" 0 INSN_CLASS_F "O4,F3,F2,d,S,T,r" 0 0 match_opcode 0;
  row "r" 0 INSN_CLASS_F "O4,F3,F2,D,S,T,r" 0 0 match_opcode 0;
  row "r" 0 INSN_CLASS_F "O4,F3,F2,d,s,t,R" 0 0 match_opcode 0;
  row "r" 0 INSN_CLASS_F "O4,F3,F2,D,s,t,R" 0 0 match_opcode 0;
  row "r" 0 INSN_CLASS_F "O4,F3,F2,d,S,t,R" 0 0 match_opcode 0;
  row "r" 0 INSN_CLASS_F "O4,F3,F2,D,S,t,R" 0 0 match_opcode 0;
  row "r" 0 INSN_CLASS_F "O4,F3,F2,d,s,T,R" 0 0 match_opcode 0;
  row "r" 0 INSN_CLASS_F "O4,F3,F2,D,s,T,R" 0 0 match_opcode 0;
  row "r" 0 INSN_CLASS_F "O4,F3,F2,d,S,T,R" 0 0 match_opcode 0;
  row "r" 0 INSN_CLASS_F "O4,F3,F2,D,S,T,R" 0 0 match_opcode 0;
  row "r4" 0 INSN_CLASS_I "O4,F3,F2,d,s,t,r" 0 0 match_opcode 0;
  row "r4" 0 INSN_CLASS_F "O4,F3,F2,D,s,t,r" 0 0 match_opcode 0;
  row "r4" 0 INSN_CLASS_F "O4,F3,F2,d,S,t,r" 0 0 match_opcode 0;
  row "r4" 0 INSN_CLASS_F "O4,F3,F2,D,S,t,r" 0 0 match_opcode 0;
  row "r4" 0 INSN_CLASS_F "O4,F3,F2,d,s,T,r" 0 0 match_opcode 0;
  row "r4" 0 INSN_CLASS_F "O4,F3,F2,D,s,T,r" 0 0 match_opcode 0;
  row "r4" 0 INSN_CLASS_F "O4,F3,F2,d,S,T,r" 0 0 match_opcode 0;
  row "r4" 0 INSN_CLASS_F "O4,F3,F2,D,S,T,r" 0 0 match_opcode 0;
  row "r4" 0 INSN_CLASS_F "O4,F3,F2,d,s,t,R" 0 0 match_opcode 0;
  row "r4" 0 INSN_CLASS_F "O4,F3,F2,D,s,t,R" 0 0 match_opcode 0;
  row "r4" 0 INSN_CLASS_F "O4,F3,F2,d,S,t,R" 0 0 match_opcode 0;
  row "r4" 0 INSN_CLASS_F "O4,F3,F2,D,S,t,R" 0 0 match_opcode 0;
  row "r4" 0 INSN_CLASS_F "O4,F3,F2,d,s,T,R" 0 0 match_opcode 0;
  row "r4" 0 INSN_CLASS_F "O4,F3,F2,D,s,T,R" 0 0 match_opcode 0;
  row "r4" 0 INSN_CLASS_F "O4,F3,F2,d,S,T,R" 0 0 match_opcode 0;
  row "r4" 0 INSN_CLASS_F "O4,F3,F2,D,S,T,R" 0 0 match_opcode 0;
  row "i" 0 INSN_CLASS_I "O4,F3,d,s,j" 0 0 match_opcode 0;
  row "i" 0 INSN_CLASS_F "O4,F3,D,s,j" 0 0 match_opcode 0;
  row "i" 0 INSN_CLASS_F "O4,F3,d,S,j" 0 0 match_opcode 0;
  row "i" 0 INSN_CLASS_F "O4,F3,D,S,j" 0 0 match_opcode 0;
  row "i" 0 INSN_CLASS_I "O4,F3,d,o(s)" 0 0 match_opcode 0;
  row "i" 0 INSN_CLASS_F "O4,F3,D,o(s)" 0 0 match_opcode 0;
  row "s" 0 INSN_CLASS_I "O4,F3,t,q(s)" 0 0 match_opcode 0;
  row "s" 0 INSN_CLASS_F "O4,F3,T,q(s)" 0 0 match_opcode 0;
  row "sb" 0 INSN_CLASS_I "O4,F3,s,t,p" 0 0 match_opcode 0;
  row "sb" 0 INSN_CLASS_F "O4,F3,S,t,p" 0 0 match_opcode 0;
  row "sb" 0 INSN_CLASS_F "O4,F3,s,T,p" 0 0 match_opcode 0;
  row "sb" 0 INSN_CLASS_F "O4,F3,S,T,p" 0 0 match_opcode 0;
  row "b" 0 INSN_CLASS_I "O4,F3,s,t,p" 0 0 match_opcode 0;
  row "b" 0 INSN_CLASS_F "O4,F3,S,t,p" 0 0 match_opcode 0;
  row "b" 0 INSN_CLASS_F "O4,F3,s,T,p" 0 0 match_opcode 0;
  row "b" 0 INSN_CLASS_F "O4,F3,S,T,p" 0 0 match_opcode 0;
  row "u" 0 INSN_CLASS_I "O4,d,u" 0 0 match_opcode 0;
  row "u" 0 INSN_CLASS_F "O4,D,u" 0 0 match_opcode 0;
  row "uj" 0 INSN_CLASS_I "O4,d,a" 0 0 match_opcode 0;
  row "uj" 0 INSN_CLASS_F "O4,D,a" 0 0 match_opcode 0;
  row "j" 0 INSN_CLASS_I "O4,d,a" 0 0 match_opcode 0;
  row "j" 0 INSN_CLASS_F "O4,D,a" 0 0 match_opcode 0;
  row "cr" 0 INSN_CLASS_C "O2,CF4,d,CV" 0 0 match_opcode 0;
  row "cr" 0 INSN_CLASS_F_AND_C "O2,CF4,D,CV" 0 0 match_opcode 0;
  row "cr" 0 INSN_CLASS_F_AND_C "O2,CF4,d,CT" 0 0 match_opcode 0;
  row "cr" 0 INSN_CLASS_F_AND_C "O2,CF4,D,CT" 0 0 match_opcode 0;
  row "ci" 0 INSN_CLASS_C "O2,CF3,d,Co" 0 0 match_opcode 0;
  row "ci" 0 INSN_CLASS_F_AND_C "O2,CF3,D,Co" 0 0 match_opcode 0;
  row "ciw" 0 INSN_CLASS_C "O2,CF3,Ct,C8" 0 0 match_opcode 0;
  row "ciw" 0 INSN_CLASS_F_AND_C "O2,CF3,CD,C8" 0 0 match_opcode 0;
  row "css" 0 INSN_CLASS_C "O2,CF3,CV,C6" 0 0 match_opcode 0;
  row "css" 0 INSN_CLASS_F_AND_C "O2,CF3,CT,C6" 0 0 match_opcode 0;
  row "cl" 0 INSN_CLASS_C "O2,CF3,Ct,C5(Cs)" 0 0 match_opcode 0;
  row "cl" 0 INSN_CLASS_F_AND_C "O2,CF3,CD,C5(Cs)" 0 0 match_opcode 0;
  row "cl" 0 INSN_CLASS_F_AND_C "O2,CF3,Ct,C5(CS)" 0 0 match_opcode 0;
  row "cl" 0 INSN_CLASS_F_AND_C "O2,CF3,CD,C5(CS)" 0 0 match_opcode 0;
  row "cs" 0 INSN_CLASS_C "O2,CF3,Ct,C5(Cs)" 0 0 match_opcode 0;
  row "cs" 0 INSN_CLASS_F_AND_C "O2,CF3,CD,C5(Cs)" 0 0 match_opcode 0;
  row "cs" 0 INSN_CLASS_F_AND_C "O2,CF3,Ct,C5(CS)" 0 0 match_opcode 0;
  row "cs" 0 INSN_CLASS_F_AND_C "O2,CF3,CD,C5(CS)" 0 0 match_opcode 0;
  row "ca" 0 INSN_CLASS_C "O2,CF6,CF2,Cs,Ct" 0 0 match_opcode 0;
  row "ca" 0 INSN_CLASS_F_AND_C "O2,CF6,CF2,CS,Ct" 0 0 match_opcode 0;
  row "ca" 0 INSN_CLASS_F_AND_C "O2,CF6,CF2,Cs,CD" 0 0 match_opcode 0;
  row "ca" 0 INSN_CLASS_F_AND_C "O2,CF6,CF2,CS,CD" 0 0 match_opcode 0;
  row "cb" 0 INSN_CLASS_C "O2,CF3,Cs,Cp" 0 0 match_opcode 0;
  row "cb" 0 INSN_CLASS_F_AND_C "O2,CF3,CS,Cp" 0 0 match_opcode 0;
  row "cj" 0 INSN_CLASS_C "O2,CF3,Ca" 0 0 match_opcode 0
].

Definition riscv_opcodes : list riscv_opcode :=
  riscv_opcodes_01 ++ riscv_opcodes_02 ++ riscv_opcodes_03 ++ riscv_opcodes_04 ++ riscv_opcodes_05 ++ riscv_opcodes_06
  ++ riscv_opcodes_07 ++ riscv_opcodes_08 ++ riscv_opcodes_09 ++ riscv_opcodes_10 ++ riscv_opcodes_11 ++ riscv_opcodes_12 ++ riscv_opcodes_13.

Definition riscv_insn_types : list riscv_opcode := riscv_insn_types_01.

End Table.
