(* ===== verification/Immediates.v ===== *)
(** The immediate-field macros of [include/opcode/riscv.h]: [ENCODE_], [EXTRACT_] and
    [VALID_] of every instruction format, on [Z] (the C code uses 64-bit integers, which
    none of the intermediate values leaves). The theorems characterise the encodable
    immediates of each format exactly. *)

From S2P Require Import Opcodes Decoder.

(** * Macros *)

Definition RV_IMM_SIGN (x : Z) : Z := - Z.land (Z.shiftr x 31) 1.

Definition EXTRACT_ITYPE_IMM (x : Z) : Z :=
  Z.lor (RV_X x 20 12) (Z.shiftl (RV_IMM_SIGN x) 12).
Definition EXTRACT_STYPE_IMM (x : Z) : Z :=
  Z.lor (Z.lor (RV_X x 7 5) (Z.shiftl (RV_X x 25 7) 5)) (Z.shiftl (RV_IMM_SIGN x) 12).
Definition EXTRACT_BTYPE_IMM (x : Z) : Z :=
  Z.lor (Z.lor (Z.lor (Z.shiftl (RV_X x 8 4) 1) (Z.shiftl (RV_X x 25 6) 5)) (Z.shiftl (RV_X x 7 1) 11)) (Z.shiftl (RV_IMM_SIGN x) 12).
Definition EXTRACT_UTYPE_IMM (x : Z) : Z :=
  Z.lor (Z.shiftl (RV_X x 12 20) 12) (Z.shiftl (RV_IMM_SIGN x) 32).
Definition EXTRACT_JTYPE_IMM (x : Z) : Z :=
  Z.lor (Z.lor (Z.lor (Z.shiftl (RV_X x 21 10) 1) (Z.shiftl (RV_X x 20 1) 11)) (Z.shiftl (RV_X x 12 8) 12)) (Z.shiftl (RV_IMM_SIGN x) 20).
Definition EXTRACT_CITYPE_ADDI16SP_IMM (x : Z) : Z :=
  Z.lor (Z.lor (Z.lor (Z.lor (Z.shiftl (RV_X x 6 1) 4) (Z.shiftl (RV_X x 2 1) 5)) (Z.shiftl (RV_X x 5 1) 6)) (Z.shiftl (RV_X x 3 2) 7)) (Z.shiftl (- (RV_X x 12 1)) 9).
Definition EXTRACT_CITYPE_LWSP_IMM (x : Z) : Z :=
  Z.lor (Z.lor (Z.shiftl (RV_X x 4 3) 2) (Z.shiftl (RV_X x 12 1) 5)) (Z.shiftl (RV_X x 2 2) 6).
Definition EXTRACT_CITYPE_LDSP_IMM (x : Z) : Z :=
  Z.lor (Z.lor (Z.shiftl (RV_X x 5 2) 3) (Z.shiftl (RV_X x 12 1) 5)) (Z.shiftl (RV_X x 2 3) 6).
Definition EXTRACT_CSSTYPE_IMM (x : Z) : Z :=
  Z.shiftl (RV_X x 7 6) 0.
Definition EXTRACT_CSSTYPE_SWSP_IMM (x : Z) : Z :=
  Z.lor (Z.shiftl (RV_X x 9 4) 2) (Z.shiftl (RV_X x 7 2) 6).
Definition EXTRACT_CSSTYPE_SDSP_IMM (x : Z) : Z :=
  Z.lor (Z.shiftl (RV_X x 10 3) 3) (Z.shiftl (RV_X x 7 3) 6).
Definition EXTRACT_CIWTYPE_IMM (x : Z) : Z :=
  RV_X x 5 8.
Definition EXTRACT_CLTYPE_IMM (x : Z) : Z :=
  Z.lor (Z.shiftl (RV_X x 5 2) 0) (Z.shiftl (RV_X x 10 3) 2).
Definition EXTRACT_CLTYPE_LW_IMM (x : Z) : Z :=
  Z.lor (Z.lor (Z.shiftl (RV_X x 6 1) 2) (Z.shiftl (RV_X x 10 3) 3)) (Z.shiftl (RV_X x 5 1) 6).
Definition EXTRACT_CLTYPE_LD_IMM (x : Z) : Z :=
  Z.lor (Z.shiftl (RV_X x 10 3) 3) (Z.shiftl (RV_X x 5 2) 6).
Definition EXTRACT_CBTYPE_IMM (x : Z) : Z :=
  Z.lor (Z.lor (Z.lor (Z.lor (Z.shiftl (RV_X x 3 2) 1) (Z.shiftl (RV_X x 10 2) 3)) (Z.shiftl (RV_X x 2 1) 5)) (Z.shiftl (RV_X x 5 2) 6)) (Z.shiftl (- (RV_X x 12 1)) 8).
Definition EXTRACT_CJTYPE_IMM (x : Z) : Z :=
  Z.lor (Z.lor (Z.lor (Z.lor (Z.lor (Z.lor (Z.lor (Z.shiftl (RV_X x 3 3) 1) (Z.shiftl (RV_X x 11 1) 4)) (Z.shiftl (RV_X x 2 1) 5)) (Z.shiftl (RV_X x 7 1) 6)) (Z.shiftl (RV_X x 6 1) 7)) (Z.shiftl (RV_X x 9 2) 8)) (Z.shiftl (RV_X x 8 1) 10)) (Z.shiftl (- (RV_X x 12 1)) 11).
Definition EXTRACT_RVV_VI_IMM (x : Z) : Z :=
  Z.lor (RV_X x 15 5) (Z.shiftl (- (RV_X x 19 1)) 5).
Definition EXTRACT_RVV_VI_UIMM (x : Z) : Z :=
  RV_X x 15 5.
Definition EXTRACT_RVV_VI_UIMM6 (x : Z) : Z :=
  Z.lor (RV_X x 15 5) (Z.shiftl (RV_X x 26 1) 5).
Definition EXTRACT_RVV_OFFSET (x : Z) : Z :=
  RV_X x 29 3.
Definition EXTRACT_RVV_VB_IMM (x : Z) : Z :=
  RV_X x 20 10.
Definition EXTRACT_RVV_VC_IMM (x : Z) : Z :=
  RV_X x 20 11.

Definition ENCODE_STYPE_IMM (x : Z) : Z := Z.lor (Z.shiftl (RV_X x 0 5) 7) (Z.shiftl (RV_X x 5 7) 25).
Definition ENCODE_BTYPE_IMM (x : Z) : Z :=
  Z.lor (Z.lor (Z.lor (Z.shiftl (RV_X x 1 4) 8) (Z.shiftl (RV_X x 5 6) 25))
    (Z.shiftl (RV_X x 11 1) 7)) (Z.shiftl (RV_X x 12 1) 31).
Definition ENCODE_UTYPE_IMM (x : Z) : Z := Z.shiftl (RV_X x 12 20) 12.
Definition ENCODE_JTYPE_IMM (x : Z) : Z :=
  Z.lor (Z.lor (Z.lor (Z.shiftl (RV_X x 1 10) 21) (Z.shiftl (RV_X x 11 1) 20))
    (Z.shiftl (RV_X x 12 8) 12)) (Z.shiftl (RV_X x 20 1) 31).
Definition ENCODE_CITYPE_ADDI16SP_IMM (x : Z) : Z :=
  Z.lor (Z.lor (Z.lor (Z.lor (Z.shiftl (RV_X x 4 1) 6) (Z.shiftl (RV_X x 5 1) 2))
    (Z.shiftl (RV_X x 6 1) 5)) (Z.shiftl (RV_X x 7 2) 3)) (Z.shiftl (RV_X x 9 1) 12).
Definition ENCODE_CITYPE_LWSP_IMM (x : Z) : Z :=
  Z.lor (Z.lor (Z.shiftl (RV_X x 2 3) 4) (Z.shiftl (RV_X x 5 1) 12)) (Z.shiftl (RV_X x 6 2) 2).
Definition ENCODE_CITYPE_LDSP_IMM (x : Z) : Z :=
  Z.lor (Z.lor (Z.shiftl (RV_X x 3 2) 5) (Z.shiftl (RV_X x 5 1) 12)) (Z.shiftl (RV_X x 6 3) 2).
Definition ENCODE_CSSTYPE_IMM (x : Z) : Z := Z.shiftl (RV_X x 0 6) 7.
Definition ENCODE_CSSTYPE_SWSP_IMM (x : Z) : Z := Z.lor (Z.shiftl (RV_X x 2 4) 9) (Z.shiftl (RV_X x 6 2) 7).
Definition ENCODE_CSSTYPE_SDSP_IMM (x : Z) : Z := Z.lor (Z.shiftl (RV_X x 3 3) 10) (Z.shiftl (RV_X x 6 3) 7).
Definition ENCODE_CIWTYPE_IMM (x : Z) : Z := Z.shiftl (RV_X x 0 8) 5.
Definition ENCODE_CIWTYPE_ADDI4SPN_IMM (x : Z) : Z :=
  Z.lor (Z.lor (Z.lor (Z.shiftl (RV_X x 2 1) 6) (Z.shiftl (RV_X x 3 1) 5))
    (Z.shiftl (RV_X x 4 2) 11)) (Z.shiftl (RV_X x 6 4) 7).
Definition ENCODE_CLTYPE_IMM (x : Z) : Z := Z.lor (Z.shiftl (RV_X x 0 2) 5) (Z.shiftl (RV_X x 2 3) 10).
Definition ENCODE_CLTYPE_LW_IMM (x : Z) : Z :=
  Z.lor (Z.lor (Z.shiftl (RV_X x 2 1) 6) (Z.shiftl (RV_X x 3 3) 10)) (Z.shiftl (RV_X x 6 1) 5).
Definition ENCODE_CLTYPE_LD_IMM (x : Z) : Z := Z.lor (Z.shiftl (RV_X x 3 3) 10) (Z.shiftl (RV_X x 6 2) 5).
Definition ENCODE_CBTYPE_IMM (x : Z) : Z :=
  Z.lor (Z.lor (Z.lor (Z.lor (Z.shiftl (RV_X x 1 2) 3) (Z.shiftl (RV_X x 3 2) 10))
    (Z.shiftl (RV_X x 5 1) 2)) (Z.shiftl (RV_X x 6 2) 5)) (Z.shiftl (RV_X x 8 1) 12).
Definition ENCODE_CJTYPE_IMM (x : Z) : Z :=
  Z.lor (Z.lor (Z.lor (Z.lor (Z.lor (Z.lor (Z.lor (Z.shiftl (RV_X x 1 3) 3) (Z.shiftl (RV_X x 4 1) 11))
    (Z.shiftl (RV_X x 5 1) 2)) (Z.shiftl (RV_X x 6 1) 7)) (Z.shiftl (RV_X x 7 1) 6))
    (Z.shiftl (RV_X x 8 2) 9)) (Z.shiftl (RV_X x 10 1) 8)) (Z.shiftl (RV_X x 11 1) 12).
Definition ENCODE_RVV_VB_IMM (x : Z) : Z := Z.shiftl (RV_X x 0 10) 20.
Definition ENCODE_RVV_VC_IMM (x : Z) : Z := Z.shiftl (RV_X x 0 11) 20.
Definition ENCODE_RVV_VI_UIMM6 (x : Z) : Z := Z.lor (Z.shiftl (RV_X x 0 5) 15) (Z.shiftl (RV_X x 5 1) 26).

Definition ENCODE_CITYPE_LUI_IMM (x : Z) : Z := ENCODE_CITYPE_IMM (Z.shiftr x RISCV_IMM_BITS).

Definition VALID_ITYPE_IMM (x : Z) : bool := (EXTRACT_ITYPE_IMM (ENCODE_ITYPE_IMM x) =? x).
Definition VALID_STYPE_IMM (x : Z) : bool := (EXTRACT_STYPE_IMM (ENCODE_STYPE_IMM x) =? x).
Definition VALID_BTYPE_IMM (x : Z) : bool := (EXTRACT_BTYPE_IMM (ENCODE_BTYPE_IMM x) =? x).
Definition VALID_UTYPE_IMM (x : Z) : bool := (EXTRACT_UTYPE_IMM (ENCODE_UTYPE_IMM x) =? x).
Definition VALID_JTYPE_IMM (x : Z) : bool := (EXTRACT_JTYPE_IMM (ENCODE_JTYPE_IMM x) =? x).
Definition VALID_CITYPE_IMM (x : Z) : bool := (EXTRACT_CITYPE_IMM (ENCODE_CITYPE_IMM x) =? x).
Definition VALID_CITYPE_LUI_IMM (x : Z) : bool := negb (ENCODE_CITYPE_LUI_IMM x =? 0) && (EXTRACT_CITYPE_LUI_IMM (ENCODE_CITYPE_LUI_IMM x) =? x).
Definition VALID_CITYPE_ADDI16SP_IMM (x : Z) : bool := negb (ENCODE_CITYPE_ADDI16SP_IMM x =? 0) && (EXTRACT_CITYPE_ADDI16SP_IMM (ENCODE_CITYPE_ADDI16SP_IMM x) =? x).
Definition VALID_CITYPE_LWSP_IMM (x : Z) : bool := (EXTRACT_CITYPE_LWSP_IMM (ENCODE_CITYPE_LWSP_IMM x) =? x).
Definition VALID_CITYPE_LDSP_IMM (x : Z) : bool := (EXTRACT_CITYPE_LDSP_IMM (ENCODE_CITYPE_LDSP_IMM x) =? x).
Definition VALID_CSSTYPE_IMM (x : Z) : bool := (EXTRACT_CSSTYPE_IMM (ENCODE_CSSTYPE_IMM x) =? x).
Definition VALID_CSSTYPE_SWSP_IMM (x : Z) : bool := (EXTRACT_CSSTYPE_SWSP_IMM (ENCODE_CSSTYPE_SWSP_IMM x) =? x).
Definition VALID_CSSTYPE_SDSP_IMM (x : Z) : bool := (EXTRACT_CSSTYPE_SDSP_IMM (ENCODE_CSSTYPE_SDSP_IMM x) =? x).
Definition VALID_CIWTYPE_IMM (x : Z) : bool := (EXTRACT_CIWTYPE_IMM (ENCODE_CIWTYPE_IMM x) =? x).
Definition VALID_CIWTYPE_ADDI4SPN_IMM (x : Z) : bool := (EXTRACT_CIWTYPE_ADDI4SPN_IMM (ENCODE_CIWTYPE_ADDI4SPN_IMM x) =? x).
Definition VALID_CLTYPE_IMM (x : Z) : bool := (EXTRACT_CLTYPE_IMM (ENCODE_CLTYPE_IMM x) =? x).
Definition VALID_CLTYPE_LW_IMM (x : Z) : bool := (EXTRACT_CLTYPE_LW_IMM (ENCODE_CLTYPE_LW_IMM x) =? x).
Definition VALID_CLTYPE_LD_IMM (x : Z) : bool := (EXTRACT_CLTYPE_LD_IMM (ENCODE_CLTYPE_LD_IMM x) =? x).
Definition VALID_CBTYPE_IMM (x : Z) : bool := (EXTRACT_CBTYPE_IMM (ENCODE_CBTYPE_IMM x) =? x).
Definition VALID_CJTYPE_IMM (x : Z) : bool := (EXTRACT_CJTYPE_IMM (ENCODE_CJTYPE_IMM x) =? x).
Definition VALID_RVV_VB_IMM (x : Z) : bool := (EXTRACT_RVV_VB_IMM (ENCODE_RVV_VB_IMM x) =? x).
Definition VALID_RVV_VC_IMM (x : Z) : bool := (EXTRACT_RVV_VC_IMM (ENCODE_RVV_VC_IMM x) =? x).

(** * Canonical immediates *)

(** What a field of a format can hold: a signed or unsigned [w]-bit immediate whose
    low [a] bits are zero. *)
Definition simm (w a x : Z) : Z := sgn w (Z.shiftl (Z.shiftr x a) a).
Definition uimm (w a x : Z) : Z := wrap w (Z.shiftl (Z.shiftr x a) a).

Lemma shiftr_shiftl_mod a x : 0 <= a -> Z.shiftl (Z.shiftr x a) a = x - x mod 2 ^ a.
Proof.
  intros. rewrite Z.shiftl_mul_pow2, Z.shiftr_div_pow2 by done.
  pose proof (pow2_pos a). pose proof (Z.div_mod x (2 ^ a)). lia.
Qed.

Lemma simm_fixed w a x : 0 <= a < w -> simm w a x = x <-> srange w x /\ x mod 2 ^ a = 0.
Proof.
  intros. unfold simm. rewrite shiftr_shiftl_mod by lia. split.
  - intros E. assert (R : srange w x) by (rewrite <- E; apply sgn_range; lia).
    split; [done|]. pose proof (pow2_pos a). assert (0 <= x mod 2 ^ a < 2 ^ a) by (apply Z.mod_pos_bound; lia).
    assert (D : (2 ^ a | sgn w (x - x mod 2 ^ a))).
    { apply Z.mod_divide; [lia|]. apply (f_equal (wrap w)) in E.
      assert (F : wrap a (sgn w (x - x mod 2 ^ a)) = wrap a (x - x mod 2 ^ a)).
      { rewrite <- (wrap_narrow a w) by lia. rewrite wrap_sgn, wrap_narrow by lia. done. }
      unfold wrap in F. rewrite F, Zminus_mod_idemp_r, Z.sub_diag, Z.mod_0_l; lia. }
    rewrite E in D. apply Z.mod_divide; [lia|done].
  - intros [R ->]. rewrite Z.sub_0_r. apply sgn_small; [lia|done].
Qed.

Lemma uimm_fixed w a x : 0 <= a <= w -> uimm w a x = x <-> urange w x /\ x mod 2 ^ a = 0.
Proof.
  intros. unfold uimm. rewrite shiftr_shiftl_mod by lia. split.
  - intros E. assert (R : urange w x) by (rewrite <- E; apply wrap_range; lia).
    split; [done|]. pose proof (pow2_pos a).
    transitivity (wrap a (wrap w (x - x mod 2 ^ a))); [by rewrite E|].
    rewrite wrap_narrow by lia. unfold wrap. rewrite Zminus_mod_idemp_r, Z.sub_diag, Z.mod_0_l; lia.
  - intros [R ->]. rewrite Z.sub_0_r. by apply wrap_small.
Qed.

(** * Bits of the macros *)

Lemma testbit_RV_X x s n i :
  0 <= s -> 0 <= n -> Z.testbit (RV_X x s n) i = (0 <=? i) && (i <? n) && Z.testbit x (i + s).
Proof.
  intros. unfold RV_X.
  replace (Z.shiftl 1 n - 1) with (Z.ones n) by (rewrite Z.ones_equiv, Z.shiftl_1_l; lia).
  rewrite Z.land_ones by done. fold (wrap n (Z.shiftr x s)).
  rewrite testbit_wrap, testbit_shiftr by done. by destruct (_ <? _), (_ <=? _).
Qed.

Lemma RV_X_bit x s : 0 <= s -> RV_X x s 1 = Z.b2z (Z.testbit x s).
Proof.
  intros. apply Z.bits_inj'. intros i Hi. rewrite testbit_RV_X by lia.
  destruct (Z.ltb_spec i 1) as [?|?].
  - replace i with 0 by lia. by rewrite Z.b2z_bit0.
  - rewrite andb_false_r. destruct (Z.testbit x s); [by rewrite (Z.bits_above_log2 1) by (simpl; lia)|by rewrite Z.bits_0].
Qed.
(** A negated bit is a sign extension. *)
Lemma testbit_neg_bit x s i :
  0 <= s -> Z.testbit (- RV_X x s 1) i = (0 <=? i) && Z.testbit x s.
Proof.
  intros. rewrite RV_X_bit by done. destruct (Z.leb_spec 0 i); [|by rewrite Z.testbit_neg_r by lia].
  destruct (Z.testbit x s); [by apply Z.bits_m1|apply Z.bits_0].
Qed.
Lemma testbit_RV_IMM_SIGN x i : Z.testbit (RV_IMM_SIGN x) i = (0 <=? i) && Z.testbit x 31.
Proof. apply (testbit_neg_bit x 31). lia. Qed.


Lemma testbit_simm w a x i :
  0 <= a < w -> 0 <= i ->
  Z.testbit (simm w a x) i = (a <=? Z.min i (w - 1)) && Z.testbit x (Z.min i (w - 1)).
Proof.
  intros. unfold simm. rewrite testbit_sgn, testbit_shiftl, testbit_shiftr by lia.
  destruct (Z.leb_spec a (Z.min i (w - 1))); [|done].
  replace (0 <=? Z.min i (w - 1) - a) with true by lia.
  by replace (Z.min i (w - 1) - a + a) with (Z.min i (w - 1)) by lia.
Qed.
Lemma testbit_uimm w a x i :
  0 <= a <= w -> Z.testbit (uimm w a x) i = (i <? w) && (a <=? i) && Z.testbit x i.
Proof.
  intros. unfold uimm. rewrite testbit_wrap, testbit_shiftl, testbit_shiftr by lia.
  destruct (Z.leb_spec a i); [|by destruct (i <? w)]. replace (0 <=? i - a) with true by lia.
  replace (i - a + a) with i by lia. by destruct (i <? w).
Qed.

#[export] Hint Rewrite testbit_RV_X testbit_neg_bit
  testbit_RV_IMM_SIGN testbit_simm testbit_uimm using lia : bits.

(** The bits below a bound one by one, and those above it together. *)
Lemma bits_cases (n : nat) (P : Z -> Prop) :
  Forall P (map Z.of_nat (seq 0 n)) -> (forall i, Z.of_nat n <= i -> P i) -> forall i, 0 <= i -> P i.
Proof.
  intros Hl Hh i Hi. destruct (decide (i < Z.of_nat n)); [|apply Hh; lia].
  rewrite Forall_forall in Hl. apply Hl, list_elem_of_In, in_map_iff.
  exists (Z.to_nat i). split; [lia|]. apply in_seq. lia.
Qed.

(** Decide the comparisons of bit positions. *)
Ltac decide_bits :=
  repeat match goal with
  | |- context [?a <=? ?b] => first [replace (a <=? b) with true by lia | replace (a <=? b) with false by lia]
  | |- context [?a <? ?b] => first [replace (a <? b) with true by lia | replace (a <? b) with false by lia]
  end;
  cbn [andb orb].
(** Prove an equality of words from their bits: [n] bits one by one, the rest by
    comparing positions. *)
Ltac case_bits :=
  cbv -[Z.testbit]; repeat match goal with |- context [Z.testbit ?y ?i] => case (Z.testbit y i) end;
  reflexivity.
Ltac by_bits n :=
  let i := fresh "i" in let Hi := fresh "Hi" in
  apply Z.bits_inj'; intros i Hi; autorewrite with bits; revert i Hi;
  apply (bits_cases n);
  [ cbv [map seq]; repeat (apply List.Forall_cons; [case_bits|]); apply List.Forall_nil
  | intros i Hi; decide_bits; rewrite ?andb_true_r, ?andb_false_r, ?orb_false_r;
    first [reflexivity | f_equal; lia] ].

(** * Round trips *)

Lemma itype_trip x : EXTRACT_ITYPE_IMM (ENCODE_ITYPE_IMM x) = simm 12 0 x.
Proof. unfold EXTRACT_ITYPE_IMM, ENCODE_ITYPE_IMM. by_bits 12%nat. Qed.
Lemma stype_trip x : EXTRACT_STYPE_IMM (ENCODE_STYPE_IMM x) = simm 12 0 x.
Proof. unfold EXTRACT_STYPE_IMM, ENCODE_STYPE_IMM. by_bits 12%nat. Qed.
Lemma btype_trip x : EXTRACT_BTYPE_IMM (ENCODE_BTYPE_IMM x) = simm 13 1 x.
Proof. unfold EXTRACT_BTYPE_IMM, ENCODE_BTYPE_IMM. by_bits 13%nat. Qed.
Lemma utype_trip x : EXTRACT_UTYPE_IMM (ENCODE_UTYPE_IMM x) = simm 32 12 x.
Proof. unfold EXTRACT_UTYPE_IMM, ENCODE_UTYPE_IMM. by_bits 32%nat. Qed.
Lemma jtype_trip x : EXTRACT_JTYPE_IMM (ENCODE_JTYPE_IMM x) = simm 21 1 x.
Proof. unfold EXTRACT_JTYPE_IMM, ENCODE_JTYPE_IMM. by_bits 21%nat. Qed.
Lemma citype_trip x : EXTRACT_CITYPE_IMM (ENCODE_CITYPE_IMM x) = simm 6 0 x.
Proof. unfold EXTRACT_CITYPE_IMM, ENCODE_CITYPE_IMM. by_bits 6%nat. Qed.
Lemma citype_addi16sp_trip x : EXTRACT_CITYPE_ADDI16SP_IMM (ENCODE_CITYPE_ADDI16SP_IMM x) = simm 10 4 x.
Proof. unfold EXTRACT_CITYPE_ADDI16SP_IMM, ENCODE_CITYPE_ADDI16SP_IMM. by_bits 10%nat. Qed.
Lemma citype_lwsp_trip x : EXTRACT_CITYPE_LWSP_IMM (ENCODE_CITYPE_LWSP_IMM x) = uimm 8 2 x.
Proof. unfold EXTRACT_CITYPE_LWSP_IMM, ENCODE_CITYPE_LWSP_IMM. by_bits 8%nat. Qed.
Lemma citype_ldsp_trip x : EXTRACT_CITYPE_LDSP_IMM (ENCODE_CITYPE_LDSP_IMM x) = uimm 9 3 x.
Proof. unfold EXTRACT_CITYPE_LDSP_IMM, ENCODE_CITYPE_LDSP_IMM. by_bits 9%nat. Qed.
Lemma csstype_trip x : EXTRACT_CSSTYPE_IMM (ENCODE_CSSTYPE_IMM x) = uimm 6 0 x.
Proof. unfold EXTRACT_CSSTYPE_IMM, ENCODE_CSSTYPE_IMM. by_bits 6%nat. Qed.
Lemma csstype_swsp_trip x : EXTRACT_CSSTYPE_SWSP_IMM (ENCODE_CSSTYPE_SWSP_IMM x) = uimm 8 2 x.
Proof. unfold EXTRACT_CSSTYPE_SWSP_IMM, ENCODE_CSSTYPE_SWSP_IMM. by_bits 8%nat. Qed.
Lemma csstype_sdsp_trip x : EXTRACT_CSSTYPE_SDSP_IMM (ENCODE_CSSTYPE_SDSP_IMM x) = uimm 9 3 x.
Proof. unfold EXTRACT_CSSTYPE_SDSP_IMM, ENCODE_CSSTYPE_SDSP_IMM. by_bits 9%nat. Qed.
Lemma ciwtype_trip x : EXTRACT_CIWTYPE_IMM (ENCODE_CIWTYPE_IMM x) = uimm 8 0 x.
Proof. unfold EXTRACT_CIWTYPE_IMM, ENCODE_CIWTYPE_IMM. by_bits 8%nat. Qed.
Lemma ciwtype_addi4spn_trip x : EXTRACT_CIWTYPE_ADDI4SPN_IMM (ENCODE_CIWTYPE_ADDI4SPN_IMM x) = uimm 10 2 x.
Proof. unfold EXTRACT_CIWTYPE_ADDI4SPN_IMM, ENCODE_CIWTYPE_ADDI4SPN_IMM. by_bits 10%nat. Qed.
Lemma cltype_trip x : EXTRACT_CLTYPE_IMM (ENCODE_CLTYPE_IMM x) = uimm 5 0 x.
Proof. unfold EXTRACT_CLTYPE_IMM, ENCODE_CLTYPE_IMM. by_bits 5%nat. Qed.
Lemma cltype_lw_trip x : EXTRACT_CLTYPE_LW_IMM (ENCODE_CLTYPE_LW_IMM x) = uimm 7 2 x.
Proof. unfold EXTRACT_CLTYPE_LW_IMM, ENCODE_CLTYPE_LW_IMM. by_bits 7%nat. Qed.
Lemma cltype_ld_trip x : EXTRACT_CLTYPE_LD_IMM (ENCODE_CLTYPE_LD_IMM x) = uimm 8 3 x.
Proof. unfold EXTRACT_CLTYPE_LD_IMM, ENCODE_CLTYPE_LD_IMM. by_bits 8%nat. Qed.
Lemma cbtype_trip x : EXTRACT_CBTYPE_IMM (ENCODE_CBTYPE_IMM x) = simm 9 1 x.
Proof. unfold EXTRACT_CBTYPE_IMM, ENCODE_CBTYPE_IMM. by_bits 9%nat. Qed.
Lemma cjtype_trip x : EXTRACT_CJTYPE_IMM (ENCODE_CJTYPE_IMM x) = simm 12 1 x.
Proof. unfold EXTRACT_CJTYPE_IMM, ENCODE_CJTYPE_IMM. by_bits 12%nat. Qed.
Lemma rvv_vb_trip x : EXTRACT_RVV_VB_IMM (ENCODE_RVV_VB_IMM x) = uimm 10 0 x.
Proof. unfold EXTRACT_RVV_VB_IMM, ENCODE_RVV_VB_IMM. by_bits 10%nat. Qed.
Lemma rvv_vc_trip x : EXTRACT_RVV_VC_IMM (ENCODE_RVV_VC_IMM x) = uimm 11 0 x.
Proof. unfold EXTRACT_RVV_VC_IMM, ENCODE_RVV_VC_IMM. by_bits 11%nat. Qed.
Lemma citype_lui_trip x : EXTRACT_CITYPE_LUI_IMM (ENCODE_CITYPE_LUI_IMM x) = simm 18 12 x.
Proof.
  unfold EXTRACT_CITYPE_LUI_IMM, ENCODE_CITYPE_LUI_IMM, EXTRACT_CITYPE_IMM, ENCODE_CITYPE_IMM.
  by_bits 18%nat.
Qed.

Create HintDb trips.
#[export] Hint Resolve citype_trip citype_addi16sp_trip citype_lwsp_trip citype_ldsp_trip csstype_trip csstype_swsp_trip csstype_sdsp_trip ciwtype_trip ciwtype_addi4spn_trip cltype_trip cltype_lw_trip cltype_ld_trip cbtype_trip cjtype_trip rvv_vb_trip rvv_vc_trip citype_lui_trip : trips.

(** The scattered fields are zero only for the zero immediate. *)
Lemma addi16sp_nonzero x :
  simm 10 4 x = x -> (ENCODE_CITYPE_ADDI16SP_IMM x =? 0) = (x =? 0).
Proof.
  intros E. apply Bool.eq_true_iff_eq. rewrite !Z.eqb_eq. split; [|by intros ->].
  intros H. rewrite <- E, <- citype_addi16sp_trip, H. reflexivity.
Qed.
Lemma lui_nonzero x : simm 18 12 x = x -> (ENCODE_CITYPE_LUI_IMM x =? 0) = (x =? 0).
Proof.
  intros E. apply Bool.eq_true_iff_eq. rewrite !Z.eqb_eq. split; [|by intros ->].
  intros H. rewrite <- E, <- citype_lui_trip, H. reflexivity.
Qed.

(** [encodable signed w a x]: [x] is a [w]-bit immediate, a multiple of [2^a]. *)
Definition encodable (signed : bool) (w a x : Z) : Prop :=
  (if signed then srange w x else urange w x) /\ x mod 2 ^ a = 0.
#[export] Instance encodable_dec signed w a x : Decision (encodable signed w a x).
Proof. unfold encodable. destruct signed; apply _. Defined.

Lemma signed_valid w a f x :
  0 <= a < w -> f = simm w a x -> (f =? x) = true <-> encodable true w a x.
Proof. intros ? ->. rewrite Z.eqb_eq. by apply simm_fixed. Qed.
Lemma unsigned_valid w a f x :
  0 <= a <= w -> f = uimm w a x -> (f =? x) = true <-> encodable false w a x.
Proof. intros ? ->. rewrite Z.eqb_eq. by apply uimm_fixed. Qed.
Lemma nonzero_valid w a f x (z : bool) :
  0 <= a < w -> f = simm w a x -> (simm w a x = x -> z = (x =? 0)) ->
  negb z && (f =? x) = true <-> encodable true w a x /\ x <> 0.
Proof.
  intros Ha Hf Hz. rewrite andb_true_iff, (signed_valid w a f x Ha Hf), negb_true_iff.
  split; (intros [H1 H2] || intros [H2 H1]).
  - rewrite Hz in H1 by (by apply simm_fixed). split; [done|]. by apply Z.eqb_neq.
  - rewrite Hz by (by apply simm_fixed). split; [by apply Z.eqb_neq|done].
Qed.

(** The 32-bit formats: an immediate passes its [VALID_] test exactly when the
    format can hold it, the I and S formats any signed 12-bit value, branches and
    jumps an even signed 13- or 21-bit offset, and U a multiple of 4096 in 32 signed bits. *)
Theorem base_immediates_encodable x :
  (VALID_ITYPE_IMM x = true <-> encodable true 12 0 x) /\
  (VALID_STYPE_IMM x = true <-> encodable true 12 0 x) /\
  (VALID_BTYPE_IMM x = true <-> encodable true 13 1 x) /\
  (VALID_UTYPE_IMM x = true <-> encodable true 32 12 x) /\
  (VALID_JTYPE_IMM x = true <-> encodable true 21 1 x).
Proof.
  split_and!; (apply signed_valid; [lia|]); auto using itype_trip, stype_trip, btype_trip, utype_trip, jtype_trip.
Qed.

(** [C36] The compressed formats (and the two vector-configuration immediates): the
    bits of each immediate are scattered over the instruction, and a value passes its
    [VALID_] test exactly when it has the width, sign and alignment of the format;
    [c.lui] and [c.addi16sp] also exclude zero. *)
Theorem compressed_immediates_encodable x :
  (VALID_CITYPE_IMM x = true <-> encodable true 6 0 x) /\
  (VALID_CITYPE_LWSP_IMM x = true <-> encodable false 8 2 x) /\
  (VALID_CITYPE_LDSP_IMM x = true <-> encodable false 9 3 x) /\
  (VALID_CSSTYPE_IMM x = true <-> encodable false 6 0 x) /\
  (VALID_CSSTYPE_SWSP_IMM x = true <-> encodable false 8 2 x) /\
  (VALID_CSSTYPE_SDSP_IMM x = true <-> encodable false 9 3 x) /\
  (VALID_CIWTYPE_IMM x = true <-> encodable false 8 0 x) /\
  (VALID_CIWTYPE_ADDI4SPN_IMM x = true <-> encodable false 10 2 x) /\
  (VALID_CLTYPE_IMM x = true <-> encodable false 5 0 x) /\
  (VALID_CLTYPE_LW_IMM x = true <-> encodable false 7 2 x) /\
  (VALID_CLTYPE_LD_IMM x = true <-> encodable false 8 3 x) /\
  (VALID_CBTYPE_IMM x = true <-> encodable true 9 1 x) /\
  (VALID_CJTYPE_IMM x = true <-> encodable true 12 1 x) /\
  (VALID_RVV_VB_IMM x = true <-> encodable false 10 0 x) /\
  (VALID_RVV_VC_IMM x = true <-> encodable false 11 0 x) /\
  (VALID_CITYPE_ADDI16SP_IMM x = true <-> encodable true 10 4 x /\ x <> 0) /\
  (VALID_CITYPE_LUI_IMM x = true <-> encodable true 18 12 x /\ x <> 0).
Proof.
  split_and!;
    first [ apply signed_valid; [lia|] | apply unsigned_valid; [lia|] | apply nonzero_valid; [lia| |] ];
    auto with trips; auto using addi16sp_nonzero, lui_nonzero.
Qed.

(** * The hardware's immediate generators *)

Lemma add_lor n a b : 0 <= n -> urange n b -> a * 2 ^ n + b = Z.lor (Z.shiftl a n) b.
Proof. intros Hn Hb. by rewrite Z.shiftl_mul_pow2, lor_disjoint. Qed.

Lemma testbit_sign n x i :
  0 <= n -> Z.testbit (Decoder.sign n x) i = (0 <=? i) && (i <? n) && Z.testbit x 31.
Proof.
  intros. unfold Decoder.sign. destruct (Z.testbit x 31); [|by rewrite Z.bits_0, andb_false_r].
  replace (2 ^ n - 1) with (Z.ones n) by (rewrite Z.ones_equiv; lia).
  rewrite andb_true_r. destruct (Z.leb_spec 0 i); [|by rewrite Z.testbit_neg_r by lia].
  destruct (Z.ltb_spec i n); [by apply Z.ones_spec_low|by apply Z.ones_spec_high].
Qed.
#[export] Hint Rewrite testbit_sign using lia : bits.

(** Split a sum of part selects into disjoint fields, outermost first. *)
Ltac fields := rewrite <- ?Z.add_assoc, !add_lor by word_lia.

(** The generators compute the assembler's [EXTRACT_] macros, truncated to 32 bits. *)
Lemma imm_i_extract insn : Decoder.imm_i insn = wrap 32 (EXTRACT_ITYPE_IMM insn).
Proof.
  unfold Decoder.imm_i, EXTRACT_ITYPE_IMM. pose proof (slice_range 20 12 insn). fields. by_bits 32%nat.
Qed.
Lemma imm_s_extract insn : Decoder.imm_s insn = wrap 32 (EXTRACT_STYPE_IMM insn).
Proof.
  unfold Decoder.imm_s, EXTRACT_STYPE_IMM. pose proof (slice_range 7 5 insn).
  pose proof (slice_range 25 7 insn). fields. by_bits 32%nat.
Qed.
Lemma imm_b_extract insn : Decoder.imm_b insn = wrap 32 (EXTRACT_BTYPE_IMM insn).
Proof.
  unfold Decoder.imm_b, EXTRACT_BTYPE_IMM, Decoder.bit. pose proof (slice_range 31 1 insn).
  pose proof (slice_range 7 1 insn). pose proof (slice_range 25 6 insn). pose proof (slice_range 8 4 insn).
  change (slice 8 4 insn * 2) with (slice 8 4 insn * 2 ^ 1). fields.
  rewrite <- (Z.shiftl_mul_pow2 _ 1) by lia. by_bits 32%nat.
Qed.
Lemma imm_u_extract insn : Decoder.imm_u insn = wrap 32 (EXTRACT_UTYPE_IMM insn).
Proof.
  unfold Decoder.imm_u, EXTRACT_UTYPE_IMM. rewrite <- Z.shiftl_mul_pow2 by lia. by_bits 32%nat.
Qed.
Lemma imm_j_extract insn : Decoder.imm_j insn = wrap 32 (EXTRACT_JTYPE_IMM insn).
Proof.
  unfold Decoder.imm_j, EXTRACT_JTYPE_IMM, Decoder.bit. pose proof (slice_range 31 1 insn).
  pose proof (slice_range 12 8 insn). pose proof (slice_range 20 1 insn). pose proof (slice_range 21 10 insn).
  change (slice 21 10 insn * 2) with (slice 21 10 insn * 2 ^ 1). fields.
  rewrite <- (Z.shiftl_mul_pow2 _ 1) by lia. by_bits 32%nat.
Qed.

(** * From the assembler's operand to the hardware's immediate *)


(** What an immediate format needs for its operand to survive assembly: reading is
    additive on disjoint fields and ignores the bits outside the field. *)
Record format (enc ext : Z -> Z) : Prop := {
  ext_lor a b : ext (Z.lor a b) = Z.lor (ext a) (ext b);
  ext_field w : ext w = ext (Z.land w (enc (-1)));
  ext_0 : ext 0 = 0 }.

(** An immediate or-ed into an instruction whose field is clear is read back. *)
Lemma format_insert enc ext w x :
  format enc ext -> Z.land w (enc (-1)) = 0 -> (ext (enc x) =? x) = true ->
  ext (Z.lor w (enc x)) = x.
Proof.
  intros F Hw Hx. rewrite (ext_lor _ _ F), (ext_field _ _ F w), Hw, (ext_0 _ _ F).
  by apply Z.eqb_eq.
Qed.

Lemma itype_format : format ENCODE_ITYPE_IMM EXTRACT_ITYPE_IMM.
Proof. split; intros; unfold EXTRACT_ITYPE_IMM, ENCODE_ITYPE_IMM; [by_bits 12%nat..|reflexivity]. Qed.
Lemma stype_format : format ENCODE_STYPE_IMM EXTRACT_STYPE_IMM.
Proof. split; intros; unfold EXTRACT_STYPE_IMM, ENCODE_STYPE_IMM; [by_bits 12%nat..|reflexivity]. Qed.
Lemma btype_format : format ENCODE_BTYPE_IMM EXTRACT_BTYPE_IMM.
Proof. split; intros; unfold EXTRACT_BTYPE_IMM, ENCODE_BTYPE_IMM; [by_bits 13%nat..|reflexivity]. Qed.
Lemma utype_format : format ENCODE_UTYPE_IMM EXTRACT_UTYPE_IMM.
Proof. split; intros; unfold EXTRACT_UTYPE_IMM, ENCODE_UTYPE_IMM; [by_bits 32%nat..|reflexivity]. Qed.
Lemma jtype_format : format ENCODE_JTYPE_IMM EXTRACT_JTYPE_IMM.
Proof. split; intros; unfold EXTRACT_JTYPE_IMM, ENCODE_JTYPE_IMM; [by_bits 21%nat..|reflexivity]. Qed.

(** Assembled into a clear field, an accepted immediate reaches the generator. *)
Lemma imm_i_insert w x :
  Z.land w (ENCODE_ITYPE_IMM (-1)) = 0 -> VALID_ITYPE_IMM x = true ->
  Decoder.imm_i (Z.lor w (ENCODE_ITYPE_IMM x)) = wrap 32 x.
Proof. intros. rewrite imm_i_extract. f_equal. eapply format_insert; eauto using itype_format. Qed.
Lemma imm_s_insert w x :
  Z.land w (ENCODE_STYPE_IMM (-1)) = 0 -> VALID_STYPE_IMM x = true ->
  Decoder.imm_s (Z.lor w (ENCODE_STYPE_IMM x)) = wrap 32 x.
Proof. intros. rewrite imm_s_extract. f_equal. eapply format_insert; eauto using stype_format. Qed.
Lemma imm_b_insert w x :
  Z.land w (ENCODE_BTYPE_IMM (-1)) = 0 -> VALID_BTYPE_IMM x = true ->
  Decoder.imm_b (Z.lor w (ENCODE_BTYPE_IMM x)) = wrap 32 x.
Proof. intros. rewrite imm_b_extract. f_equal. eapply format_insert; eauto using btype_format. Qed.
Lemma imm_u_insert w x :
  Z.land w (ENCODE_UTYPE_IMM (-1)) = 0 -> VALID_UTYPE_IMM x = true ->
  Decoder.imm_u (Z.lor w (ENCODE_UTYPE_IMM x)) = wrap 32 x.
Proof. intros. rewrite imm_u_extract. f_equal. eapply format_insert; eauto using utype_format. Qed.
Lemma imm_j_insert w x :
  Z.land w (ENCODE_JTYPE_IMM (-1)) = 0 -> VALID_JTYPE_IMM x = true ->
  Decoder.imm_j (Z.lor w (ENCODE_JTYPE_IMM x)) = wrap 32 x.
Proof. intros. rewrite imm_j_extract. f_equal. eapply format_insert; eauto using jtype_format. Qed.

(** [C35] An immediate that the assembler accepts for a format and ors into an
    instruction whose field is clear comes out of the hardware's immediate generator
    as its 32-bit two's complement, in all five base formats. *)
Theorem immediates_reach_hardware w x :
  (Z.land w (ENCODE_ITYPE_IMM (-1)) = 0 -> VALID_ITYPE_IMM x = true ->
   Decoder.imm_i (Z.lor w (ENCODE_ITYPE_IMM x)) = wrap 32 x) /\
  (Z.land w (ENCODE_STYPE_IMM (-1)) = 0 -> VALID_STYPE_IMM x = true ->
   Decoder.imm_s (Z.lor w (ENCODE_STYPE_IMM x)) = wrap 32 x) /\
  (Z.land w (ENCODE_BTYPE_IMM (-1)) = 0 -> VALID_BTYPE_IMM x = true ->
   Decoder.imm_b (Z.lor w (ENCODE_BTYPE_IMM x)) = wrap 32 x) /\
  (Z.land w (ENCODE_UTYPE_IMM (-1)) = 0 -> VALID_UTYPE_IMM x = true ->
   Decoder.imm_u (Z.lor w (ENCODE_UTYPE_IMM x)) = wrap 32 x) /\
  (Z.land w (ENCODE_JTYPE_IMM (-1)) = 0 -> VALID_JTYPE_IMM x = true ->
   Decoder.imm_j (Z.lor w (ENCODE_JTYPE_IMM x)) = wrap 32 x).
Proof.
  split_and!; auto using imm_i_insert, imm_s_insert, imm_b_insert, imm_u_insert, imm_j_insert.
Qed.

(** [beq x1, x2, -8] and [jal x1, 2048]. *)
Lemma immediates_reach_hardware_witness :
  Decoder.imm_b (Z.lor 0x208063 (ENCODE_BTYPE_IMM (-8))) = wrap 32 (-8) /\
  Decoder.imm_j (Z.lor 0xEF (ENCODE_JTYPE_IMM 2048)) = 2048.
Proof.
  split.
  - apply (immediates_reach_hardware 0x208063 (-8)); reflexivity.
  - apply (immediates_reach_hardware 0xEF 2048); reflexivity.
Defined.
