(* ===== verification/Disasm.v ===== *)
(** The instruction lookup of the disassembler ([riscv_disassemble_insn] of
    [opcodes/riscv-dis.c]): instruction length, the lazily built hash of the opcode
    table, the scan from the hashed entry, and the fallback to a [.insn] directive.
    The hash is proved to be a pure optimisation, and every custom instruction to be
    found under its own name. *)

From S2P Require Import Opcodes.

Module Disasm.

Definition riscv_insn_length (insn : Z) : Z :=
  if negb (Z.land insn 0x3 =? 0x3) then 2
  else if negb (Z.land insn 0x1f =? 0x1f) then 4
  else if Z.land insn 0x3f =? 0x1f then 6
  else if Z.land insn 0x7f =? 0x3f then 8
  else if (Z.land insn 0x7f =? 0x7f) && negb (Z.land insn 0x7000 =? 0x7000)
  then 10 + Z.land (Z.shiftr insn 11) 0xe
  else 2.

(** [OP_HASH_IDX]. *)
Definition hash_idx (i : Z) : Z :=
  Z.land i (if riscv_insn_length i =? 2 then 0x3 else OP_MASK_OP).

(** A pointer into the table is the rest of the table from there; [None] is [NULL]. *)
Definition op_ptr : Type := option (list riscv_opcode).

(** [riscv_hash], [OP_MASK_OP + 1] pointers, all [NULL] at first. *)
Definition empty_hash : Z -> op_ptr := fun _ => None.

(** The loop that builds it: the first entry of each index is kept. *)
Fixpoint build_hash (ops : list riscv_opcode) (h : Z -> op_ptr) : Z -> op_ptr :=
  match ops with
  | [] => h
  | op :: rest =>
      let k := hash_idx (match_bits op) in
      build_hash rest
        (match h k with
         | None => fun j => if j =? k then Some ops else h j
         | Some _ => h
         end)
  end.

(** What the disassembler was configured with: [no_aliases], [xlen] and
    [riscv_multi_subset_supports] of the current architecture. *)
Record config := Config
  { no_aliases : bool; xlen : Z; subset_supports : riscv_insn_class -> bool }.

(** The conditions of the scan. *)
Definition accepts (c : config) (word : Z) (op : riscv_opcode) : bool :=
  Match.call op word
  && negb (no_aliases c && negb (Z.land (pinfo op) INSN_ALIAS =? 0))
  && negb (negb (xlen_requirement op =? 0) && negb (xlen_requirement op =? xlen c))
  && subset_supports c (insn_class op).

Fixpoint scan (c : config) (word : Z) (ops : list riscv_opcode) : option riscv_opcode :=
  match ops with
  | [] => None
  | op :: rest => if accepts c word op then Some op else scan c word rest
  end.

Inductive insn_type :=
  | dis_noninsn | dis_nonbranch | dis_branch | dis_condbranch | dis_jsr | dis_dref.

(** What the function reports in [disassemble_info]: the matched entry or [None]
    for a raw [.insn], the kind of instruction and the size of its data. *)
Record report := Report
  { entry : option riscv_opcode; kind : insn_type; data_size : Z; insnlen : Z }.

Definition type_of (op : riscv_opcode) : insn_type :=
  let t := Z.land (pinfo op) INSN_TYPE in
  if t =? INSN_BRANCH then dis_branch
  else if t =? INSN_CONDBRANCH then dis_condbranch
  else if t =? INSN_JSR then dis_jsr
  else if t =? INSN_DREF then dis_dref
  else dis_nonbranch.

Definition size_of (op : riscv_opcode) : Z :=
  let d := Z.land (pinfo op) INSN_DATA_SIZE in
  if d =? 0 then 0 else Z.shiftl 1 (Z.shiftr d INSN_DATA_SIZE_SHIFT - 1).

Definition report_of (word : Z) (r : option riscv_opcode) : report :=
  match r with
  | Some op => Report (Some op) (type_of op) (size_of op) (riscv_insn_length word)
  | None => Report None dis_noninsn 0 (riscv_insn_length word)
  end.

(** The hashed entry, then the scan from it. *)
Definition lookup (h : Z -> op_ptr) (c : config) (word : Z) : option riscv_opcode :=
  match h (hash_idx word) with Some ops => scan c word ops | None => None end.

Definition riscv_disassemble_insn (h : Z -> op_ptr) (c : config) (word : Z) : report :=
  report_of word (lookup h c word).

Definition riscv_hash : Z -> op_ptr := build_hash Table.riscv_opcodes empty_hash.

(** The reference: search the whole table. *)
Definition disassemble_ref (c : config) (word : Z) : report :=
  report_of word (scan c word Table.riscv_opcodes).

Lemma report_entry word r op : entry (report_of word r) = Some op -> r = Some op.
Proof. by destruct r. Qed.

(** * The hash *)

(** The entry [build_hash] keeps for an index is the first one with it. *)
Fixpoint first_with (k : Z) (ops : list riscv_opcode) : op_ptr :=
  match ops with
  | [] => None
  | op :: rest => if hash_idx (match_bits op) =? k then Some ops else first_with k rest
  end.

Lemma build_hash_first ops h k :
  build_hash ops h k = match h k with Some p => Some p | None => first_with k ops end.
Proof.
  revert h. induction ops as [|op rest IH]; intros h; cbn [build_hash first_with].
  - by destruct (h k).
  - rewrite IH. destruct (h (hash_idx (match_bits op))) as [p|] eqn:E.
    + destruct (h k) eqn:Ek; [done|].
      destruct (Z.eqb_spec (hash_idx (match_bits op)) k); [congruence|done].
    + set (k' := hash_idx (match_bits op)) in *. destruct (Z.eqb_spec k k') as [Hk|Hk].
      * subst k. by rewrite E, Z.eqb_refl.
      * destruct (Z.eqb_spec k' k); [congruence|done].
Qed.

(** An entry is sound after the indices [seen] when every word it matches has
    its index, or one that an earlier entry has. *)
Definition hash_sound (seen : list Z) (op : riscv_opcode) : Prop :=
  forall word, Match.call op word = true ->
    hash_idx word = hash_idx (match_bits op) \/ hash_idx word ∈ seen.

Fixpoint table_sound (seen : list Z) (ops : list riscv_opcode) : Prop :=
  match ops with
  | [] => True
  | op :: rest => hash_sound seen op /\ table_sound (hash_idx (match_bits op) :: seen) rest
  end.

Lemma scan_first_with c word seen ops :
  table_sound seen ops -> hash_idx word ∉ seen ->
  match first_with (hash_idx word) ops with Some p => scan c word p | None => None end
  = scan c word ops.
Proof.
  revert seen. induction ops as [|op rest IH]; intros seen; [done|].
  intros [Hop Hrest] Hseen. cbn [first_with].
  destruct (Z.eqb_spec (hash_idx (match_bits op)) (hash_idx word)) as [E|E]; [done|].
  rewrite (IH (hash_idx (match_bits op) :: seen)) by (exact Hrest || (apply not_elem_of_cons; split; [congruence|done])).
  cbn [scan]. unfold accepts.
  destruct (Match.call op word) eqn:Ec; [|done]. destruct (Hop _ Ec); [congruence|done].
Qed.

(** Every match function but [match_never] implies [match_opcode]. *)
Lemma call_opcode op word : Match.call op word = true -> Match.opcode op word = true.
Proof.
  unfold Match.call, Match.rd_nonzero. destruct (match_func op); intros H;
    rewrite ?andb_true_iff in H; tauto || done.
Qed.

Lemma opcode_land op word v :
  Match.opcode op word = true -> Z.land (mask op) v = v -> Z.land word v = Z.land (match_bits op) v.
Proof.
  unfold Match.opcode. intros H Hm. apply Z.eqb_eq in H. apply Z.bits_inj'. intros n Hn.
  apply (f_equal (fun z => Z.testbit z n)) in H, Hm.
  rewrite !Z.land_spec, Z.lxor_spec, Z.bits_0 in *.
  destruct (Z.testbit v n); [|by rewrite !andb_false_r].
  rewrite andb_true_r in Hm. rewrite Hm, andb_true_r in H.
  rewrite !andb_true_r. by destruct (Z.testbit word n), (Z.testbit (match_bits op) n).
Qed.

Lemma land_narrow a b u v : Z.land u v = v -> Z.land a u = Z.land b u -> Z.land a v = Z.land b v.
Proof. intros <- H. by rewrite !Z.land_assoc, H. Qed.

(** The check on a table entry: compressed entries fix their low two bits,
    others their low seven, and none is in the space of the long encodings. The macro entries
    that are matched as instructions only exclude the low bits [11]. *)
Definition hash_check (op : riscv_opcode) : bool :=
  match match_func op with
  | match_never => true
  | _ => (Z.land (mask op) 0x3 =? 0x3) &&
         (negb (Z.land (match_bits op) 0x3 =? 0x3) ||
          ((Z.land (mask op) 0x7f =? 0x7f) && negb (Z.land (match_bits op) 0x7f =? 0x7f)))
  end.
Definition macro_check (op : riscv_opcode) : bool :=
  (match_bits op =? 0) && negb (Z.land (mask op) 0x3 =? 0).

(** [seen] without repetitions, to keep the check linear. *)
Definition note (k : Z) (seen : list Z) : list Z := if decide (k ∈ seen) then seen else k :: seen.

Fixpoint table_check (seen : list Z) (ops : list riscv_opcode) : bool :=
  match ops with
  | [] => true
  | op :: rest =>
      (hash_check op || (macro_check op && bool_decide (0 ∈ seen /\ 1 ∈ seen /\ 2 ∈ seen)))
      && table_check (note (hash_idx (match_bits op)) seen) rest
  end.

Lemma hash_idx_compressed w : Z.land w 0x3 <> 0x3 -> hash_idx w = Z.land w 0x3.
Proof.
  intros H. unfold hash_idx, riscv_insn_length.
  destruct (Z.eqb_spec (Z.land w 0x3) 0x3); [done|]. done.
Qed.

Lemma hash_idx_standard w :
  Z.land w 0x3 = 0x3 -> Z.land w 0x7f <> 0x7f -> hash_idx w = Z.land w 0x7f.
Proof.
  intros H3 H7. unfold hash_idx, riscv_insn_length. rewrite H3. cbn [Z.eqb Pos.eqb negb].
  destruct (Z.eqb_spec (Z.land w 0x1f) 0x1f) as [E1|]; [|done]. cbn [negb].
  destruct (Z.eqb_spec (Z.land w 0x3f) 0x1f) as [|E2]; [done|].
  destruct (Z.eqb_spec (Z.land w 0x7f) 0x3f) as [|E3]; [done|].
  destruct (Z.eqb_spec (Z.land w 0x7f) 0x7f) as [|E4]; [done|]. cbn [andb].
  exfalso. (* low five bits all ones leave only 0x1f, 0x3f, 0x5f and 0x7f *)
  assert (Hr : 0 <= Z.land w 0x7f < 128).
  { change 0x7f with (Z.ones 7). rewrite Z.land_ones by lia. apply Z.mod_pos_bound. lia. }
  assert (H1 : Z.land (Z.land w 0x7f) 0x1f = 0x1f) by (by rewrite <- Z.land_assoc).
  assert (H2 : Z.land (Z.land w 0x7f) 0x3f <> 0x1f) by (by rewrite <- Z.land_assoc).
  revert H1 H2 H7 E3. generalize dependent (Z.land w 0x7f). intros z _ [Hz1 Hz2].
  assert (Hz : z = Z.of_nat (Z.to_nat z)) by lia. rewrite Hz.
  assert (Hn : (Z.to_nat z < 128)%nat) by lia. revert Hn. generalize (Z.to_nat z). clear.
  intros n Hn. do 128 (destruct n as [|n]; [vm_compute; congruence|]). lia.
Qed.

Lemma hash_check_sound seen op : hash_check op = true -> hash_sound seen op.
Proof.
  intros Hc word Hcall. left. pose proof (call_opcode _ _ Hcall) as Ho.
  assert (Hc' : (Z.land (mask op) 0x3 =? 0x3) &&
         (negb (Z.land (match_bits op) 0x3 =? 0x3) ||
          ((Z.land (mask op) 0x7f =? 0x7f) && negb (Z.land (match_bits op) 0x7f =? 0x7f))) = true).
  { unfold hash_check in Hc. unfold Match.call in Hcall. by destruct (match_func op). }
  apply andb_prop in Hc' as [H3 Hc']. apply Z.eqb_eq in H3.
  pose proof (opcode_land _ _ _ Ho H3) as E3.
  destruct (Z.eqb_spec (Z.land (match_bits op) 0x3) 0x3) as [Hm|Hm]; cbn [negb orb] in Hc'.
  - apply andb_prop in Hc' as [H7 Hl]. apply Z.eqb_eq in H7. apply negb_true_iff, Z.eqb_neq in Hl.
    pose proof (opcode_land _ _ _ Ho H7) as E7.
    rewrite !hash_idx_standard; congruence.
  - rewrite !hash_idx_compressed; congruence.
Qed.

Lemma land3_cases w : let z := Z.land w 0x3 in z = 0 \/ z = 1 \/ z = 2 \/ z = 3.
Proof.
  cbv zeta. change (Z.land w 0x3) with (Z.land w (Z.ones 2)). rewrite Z.land_ones by lia.
  change (2 ^ 2) with 4. pose proof (Z.mod_pos_bound w 4 eq_refl). lia.
Qed.

Lemma macro_check_sound seen op :
  macro_check op = true -> 0 ∈ seen /\ 1 ∈ seen /\ 2 ∈ seen -> hash_sound seen op.
Proof.
  intros Hc (S0 & S1 & S2) word Hcall. right. pose proof (call_opcode _ _ Hcall) as Ho.
  apply andb_prop in Hc as [Hm Hk]. apply Z.eqb_eq in Hm. apply negb_true_iff, Z.eqb_neq in Hk.
  unfold Match.opcode in Ho. apply Z.eqb_eq in Ho. rewrite Hm, Z.lxor_0_r in Ho.
  assert (Hw : Z.land word 0x3 <> 0x3).
  { intros H3. apply Hk. rewrite <- H3, Z.land_assoc, (Z.land_comm (mask op)), Ho. done. }
  rewrite hash_idx_compressed by done.
  destruct (land3_cases word) as [-> | [-> | [-> | H]]]; done.
Qed.

Lemma hash_sound_mono seen seen' op : seen ⊆ seen' -> hash_sound seen op -> hash_sound seen' op.
Proof. intros Hs Ho word Hc. destruct (Ho word Hc); [by left|right; by apply Hs]. Qed.

Lemma table_sound_mono seen seen' ops : seen ⊆ seen' -> table_sound seen ops -> table_sound seen' ops.
Proof.
  revert seen seen'. induction ops as [|op rest IH]; intros seen seen' Hs; [done|].
  intros [Ho Hr]. split; [by apply (hash_sound_mono seen)|]. eapply IH; [|exact Hr].
  intros x. rewrite !elem_of_cons. specialize (Hs x). tauto.
Qed.

Lemma note_subset k seen : note k seen ⊆ k :: seen.
Proof. unfold note. destruct (decide (k ∈ seen)); set_solver. Qed.

Lemma table_check_sound seen ops : table_check seen ops = true -> table_sound seen ops.
Proof.
  revert seen. induction ops as [|op rest IH]; intros seen; [done|]. cbn [table_check table_sound].
  intros H. apply andb_prop in H as [Ho Hr]. split.
  - apply orb_prop in Ho as [Ho|Ho]; [by apply hash_check_sound|].
    apply andb_prop in Ho as [Hm Hs]. apply bool_decide_eq_true in Hs. by apply macro_check_sound.
  - eapply table_sound_mono; [apply note_subset|]. by apply IH.
Qed.

Lemma table_checked : table_check [] Table.riscv_opcodes = true.
Proof. by vm_compute. Qed.

Lemma lookup_scan ops c word :
  table_check [] ops = true -> lookup (build_hash ops empty_hash) c word = scan c word ops.
Proof.
  intros Hc. unfold lookup. rewrite build_hash_first. unfold empty_hash.
  apply (scan_first_with _ _ []); [by apply table_check_sound|apply not_elem_of_nil].
Qed.

(** [C20] The hash only shortens the search: for every word and configuration, the
    disassembler with the hash of the table reports exactly what a search of the whole
    table from its first entry reports. *)
Theorem disassemble_hash_equiv c word :
  riscv_disassemble_insn riscv_hash c word = disassemble_ref c word.
Proof.
  unfold riscv_disassemble_insn, disassemble_ref, riscv_hash.
  rewrite (lookup_scan _ c word table_checked). exact eq_refl.
Qed.

(** * Macro entries *)

Definition is_macro (op : riscv_opcode) : bool := pinfo op =? INSN_MACRO.

Lemma scan_accepts c word ops op : scan c word ops = Some op -> op ∈ ops /\ accepts c word op = true.
Proof.
  induction ops as [|o rest IH]; [done|]. cbn [scan]. destruct (accepts c word o) eqn:E.
  - intros [= <-]. split; [left|done].
  - intros H. destruct (IH H). split; [by right|done].
Qed.

Lemma macros_checked :
  forallb (fun op => negb (is_macro op) || bool_decide (match_func op = match_never)
                     || bool_decide (insn_class op = INSN_CLASS_V)) Table.riscv_opcodes = true.
Proof. by vm_compute. Qed.

(** Unless the vector extension is enabled, the disassembler never reports
    an assembler macro as an instruction. *)
Theorem disassemble_no_macro c word op :
  subset_supports c INSN_CLASS_V = false ->
  entry (riscv_disassemble_insn riscv_hash c word) = Some op -> is_macro op = false.
Proof.
  intros HV H.
  unfold riscv_disassemble_insn, riscv_hash in H.
  rewrite (lookup_scan _ c word table_checked) in H. apply report_entry in H. rename H into Hs.
  apply scan_accepts in Hs as [Hin Ha]. unfold accepts in Ha.
  apply andb_prop in Ha as [Ha Hsub]. apply andb_prop in Ha as [Ha _]. apply andb_prop in Ha as [Hcall _].
  pose proof macros_checked as Hm. rewrite forallb_forall in Hm.
  specialize (Hm op (proj1 (list_elem_of_In _ _) Hin)).
  destruct (is_macro op); [|done]. cbn [negb orb] in Hm.
  apply orb_prop in Hm as [Hm|Hm]; apply bool_decide_eq_true in Hm.
  - unfold Match.call in Hcall. by rewrite Hm in Hcall.
  - by rewrite Hm, HV in Hsub.
Qed.

(** An RV32 configuration with the classes [cl]. *)
Definition rv32 (cl : list riscv_insn_class) : config :=
  Config false 32 (fun k => bool_decide (k ∈ cl)).

Example disassemble_no_macro_witness :
  exists op, entry (riscv_disassemble_insn riscv_hash (rv32 [INSN_CLASS_I; INSN_CLASS_C]) 0x00000513)
    = Some op /\ name op = "li"%string /\ is_macro op = false.
Proof.
  eexists. split; [vm_compute; reflexivity|]. split; [reflexivity|].
  eapply (disassemble_no_macro (rv32 [INSN_CLASS_I; INSN_CLASS_C]) 0x00000513);
    vm_compute; reflexivity.
Defined.

(** With the vector extension enabled it does: the four [vmsge.vx] macro
    entries are matched like instructions, their macro number taken as a mask, so
    the reserved compressed word [0x8000] is reported as the macro [vmsge.vx]. *)
Theorem disassemble_reports_macro :
  exists op, entry (riscv_disassemble_insn riscv_hash
      (rv32 [INSN_CLASS_I; INSN_CLASS_M; INSN_CLASS_C; INSN_CLASS_V]) 0x8000) = Some op
    /\ name op = "vmsge.vx"%string /\ is_macro op = true.
Proof. eexists. split; [vm_compute; reflexivity|]. by split. Qed.
End Disasm.
