(* ===== verification/Assembler.v ===== *)
(** The startup self-check of the assembler ([gas/config/tc-riscv.c]):
    [validate_riscv_insn] accounts for every bit of every table entry through its
    mask and its operand string, and [init_opcode_hash] runs it over a table and
    refuses split name groups. The theorem: it accepts exactly the tables of valid entries
    with grouped names, and the mnemonic hash it builds leads the assembler to all the
    entries of a name. *)

From S2P Require Import Opcodes Immediates Disasm.
From Stdlib Require Import Ascii.

Module Assembler.

(** [-1U] *)
Definition all_ones : Z := wrap 32 (-1).

(** * Operand strings *)

(** What one operand contributes to [used_bits] and the rest of the string. *)
Definition operand : Type := option (Z * string).
Definition use_bits (m sh : Z) (rest : string) : operand := Some (wrap 64 (Z.shiftl m sh), rest).
Definition use_enc (enc : Z -> Z) (rest : string) : operand := Some (wrap 64 (enc all_ones), rest).
Definition no_bits (rest : string) : operand := Some (0, rest).

(** [strtol (.., .., 10)] on a string of digits: the value and what follows. *)
Definition digit (c : ascii) : option Z :=
  let n := Z.of_nat (nat_of_ascii c) in
  if (48 <=? n) && (n <=? 57) then Some (n - 48) else None.
Fixpoint strtol (acc : Z) (s : string) : Z * string :=
  match s with
  | EmptyString => (acc, s)
  | String c rest => match digit c with Some d => strtol (10 * acc + d) rest | None => (acc, s) end
  end.

(** [strcspn (s, ",")]: the rest of [s] from its first comma. *)
Fixpoint to_comma (s : string) : string :=
  match s with
  | String "," _ => s
  | String _ rest => to_comma rest
  | EmptyString => s
  end.

(** The letter after [C]. *)
Definition rvc_operand (s : string) : operand :=
  match s with
  | String "U" r | String "c" r | String "w" r | String "x" r | String "z" r => no_bits r
  | String "T" r | String "V" r => use_bits 0x1f 2 r          (* CRS2 *)
  | String "S" r | String "s" r => use_bits 0x7 7 r           (* CRS1S *)
  | String "D" r | String "t" r => use_bits 0x7 2 r           (* CRS2S *)
  | String ">" r | String "u" r | String "v" r | String "o" r | String "j" r =>
      use_enc ENCODE_CITYPE_IMM r
  | String "L" r => use_enc ENCODE_CITYPE_ADDI16SP_IMM r
  | String "m" r => use_enc ENCODE_CITYPE_LWSP_IMM r
  | String "n" r => use_enc ENCODE_CITYPE_LDSP_IMM r
  | String "6" r => use_enc ENCODE_CSSTYPE_IMM r
  | String "M" r => use_enc ENCODE_CSSTYPE_SWSP_IMM r
  | String "N" r => use_enc ENCODE_CSSTYPE_SDSP_IMM r
  | String "8" r => use_enc ENCODE_CIWTYPE_IMM r
  | String "K" r => use_enc ENCODE_CIWTYPE_ADDI4SPN_IMM r
  | String "5" r => use_enc ENCODE_CLTYPE_IMM r
  | String "k" r => use_enc ENCODE_CLTYPE_LW_IMM r
  | String "l" r => use_enc ENCODE_CLTYPE_LD_IMM r
  | String "p" r => use_enc ENCODE_CBTYPE_IMM r
  | String "a" r => use_enc ENCODE_CJTYPE_IMM r
  | String "F" (String "6" r) => use_bits 0x3f 10 r
  | String "F" (String "4" r) => use_bits 0xf 12 r
  | String "F" (String "3" r) => use_bits 0x7 13 r
  | String "F" (String "2" r) => use_bits 0x3 5 r
  | _ => None
  end.

(** Two or three fields at once. *)
Definition both (a b : operand) : operand :=
  match a, b with Some (x, _), Some (y, r) => Some (Z.lor x y, r) | _, _ => None end.

(** The letter after [V]. *)
Definition rvv_operand (s : string) : operand :=
  match s with
  | String "d" r | String "f" r => use_bits 0x1f 7 r          (* VD *)
  | String "e" r => use_bits 0x1 26 r                         (* VWD *)
  | String "s" r => use_bits 0x1f 15 r                        (* VS1 *)
  | String "t" r => use_bits 0x1f 20 r                        (* VS2 *)
  | String "u" r => both (use_bits 0x1f 15 r) (use_bits 0x1f 20 r)
  | String "v" r => both (use_bits 0x1f 7 r) (both (use_bits 0x1f 15 r) (use_bits 0x1f 20 r))
  | String "0" r => no_bits r
  | String "b" r => use_enc ENCODE_RVV_VB_IMM r
  | String "c" r => use_enc ENCODE_RVV_VC_IMM r
  | String "i" r | String "j" r | String "k" r => use_bits 0x1f 15 r   (* VIMM *)
  | String "l" r => use_enc ENCODE_RVV_VI_UIMM6 r
  | String "m" r => use_bits 0x1 25 r                         (* VMASK *)
  | String "M" r | String "T" r => no_bits r
  | _ => None
  end.

(** The letters after [X]. *)
Definition imm_operand (s : string) : operand :=
  match s with
  | String "l" r => no_bits (to_comma r)
  | String "s" r | String "u" r =>
      match strtol 0 r with
      | (n, String "@" r') => let '(sh, r'') := strtol 0 r' in use_bits (2 ^ n - 1) sh r''
      | _ => None
      end
  | _ => None
  end.

(** One step of the outer switch. *)
Definition next_operand (s : string) : operand :=
  match s with
  | String "C" r => rvc_operand r
  | String "V" r => rvv_operand r
  | String "," r | String "(" r | String ")" r => no_bits r
  | String "<" r => use_bits 0x1f 20 r
  | String ">" r => use_bits 0x3f 20 r
  | String "A" r | String "B" r | String "c" r | String "I" r => no_bits r
  | String "D" r | String "d" r => use_bits OP_MASK_RD OP_SH_RD r
  | String "y" r => use_bits 3 30 r
  | String "Y" r => use_bits 0xf 20 r
  | String "Z" r | String "S" r | String "s" r => use_bits OP_MASK_RS1 OP_SH_RS1 r
  | String "U" r => both (use_bits OP_MASK_RS1 OP_SH_RS1 r) (use_bits OP_MASK_RS2 OP_SH_RS2 r)
  | String "T" r | String "t" r => use_bits OP_MASK_RS2 OP_SH_RS2 r
  | String "R" r | String "r" r => use_bits 0x1f 27 r
  | String "m" r => use_bits OP_MASK_RM OP_SH_RM r
  | String "E" r => use_bits 0xfff OP_SH_CSR r
  | String "P" r => use_bits OP_MASK_PRED OP_SH_PRED r
  | String "Q" r => use_bits OP_MASK_SUCC OP_SH_SUCC r
  | String "o" r | String "j" r => use_enc ENCODE_ITYPE_IMM r
  | String "a" r => use_enc ENCODE_JTYPE_IMM r
  | String "p" r => use_enc ENCODE_BTYPE_IMM r
  | String "q" r => use_enc ENCODE_STYPE_IMM r
  | String "u" r => use_enc ENCODE_UTYPE_IMM r
  | String "z" r | String "[" r | String "]" r | String "0" r | String "1" r => no_bits r
  | String "F" (String "7" r) => use_bits 0x7f 25 r
  | String "F" (String "3" r) => use_bits 0x7 12 r
  | String "F" (String "2" r) => use_bits 0x3 25 r
  | String "O" (String "4" r) => use_bits OP_MASK_OP 0 r
  | String "O" (String "2" r) => use_bits 0x3 0 r
  | String "W" (String "i" (String "f" r)) => use_enc ENCODE_STYPE_IMM r
  | String "W" (String "f" (String "v" r)) => use_bits OP_MASK_RS1 OP_SH_RS1 r
  | String "X" r => imm_operand r
  | _ => None
  end.

(** The operand loop; every operand consumes a letter, so the string's length
    is enough fuel. *)
Fixpoint operands (fuel : nat) (s : string) (used_bits : Z) : option Z :=
  match s, fuel with
  | EmptyString, _ => Some used_bits
  | _, O => None
  | _, S fuel =>
      match next_operand s with
      | Some (u, r) => operands fuel r (Z.lor used_bits u)
      | None => None
      end
  end.

Definition validate_riscv_insn (opc : riscv_opcode) (length : Z) : bool :=
  let length := if length =? 0 then Disasm.riscv_insn_length (match_bits opc) else length in
  let insn_width := 8 * (if length >? 8 then 8 else length) in
  let required_bits := Z.shiftr (2 ^ 64 - 1) (64 - insn_width) in
  (Z.land (mask opc) (match_bits opc) =? Z.land (match_bits opc) required_bits) &&
  match operands (String.length (args opc)) (args opc) (mask opc) with
  | Some used_bits => used_bits =? required_bits
  | None => false
  end.

(** * [init_opcode_hash] *)

(** The [do .. while] over one name group: [None] when an entry is broken,
    otherwise the entries after the group. *)
Fixpoint init_group (insn_directive_p : bool) (nm : string) (ops : list riscv_opcode)
    : option (list riscv_opcode) :=
  match ops with
  | [] => Some []
  | op :: rest =>
      if decide (name op = nm) then
        if pinfo op =? INSN_MACRO then
          if insn_directive_p then None else init_group insn_directive_p nm rest
        else
          let length :=
            if insn_directive_p
            then match nm with String "c" _ => 2 | _ => 4 end else 0 in
          if validate_riscv_insn op length then init_group insn_directive_p nm rest else None
      else Some ops
  end.

(** The hash of names: each name with its first entry, latest first. [None]
    is the fatal error. Every group is at least one entry long. *)
Fixpoint init_opcode_hash (fuel : nat) (insn_directive_p : bool) (ops : list riscv_opcode)
    (hash : list (string * list riscv_opcode)) : option (list (string * list riscv_opcode)) :=
  match ops, fuel with
  | [], _ => Some hash
  | _, O => None
  | op :: _, S fuel =>
      if decide (name op ∈ map fst hash) then None (* duplicate *)
      else match init_group insn_directive_p (name op) ops with
           | Some rest => init_opcode_hash fuel insn_directive_p rest ((name op, ops) :: hash)
           | None => None
           end
  end.

Definition op_hash := init_opcode_hash (length Table.riscv_opcodes) false Table.riscv_opcodes [].
Definition insn_type_hash :=
  init_opcode_hash (length Table.riscv_insn_types) true Table.riscv_insn_types [].


(** ** Name lookup *)

(** [str_hash_find]. *)
Fixpoint find (nm : string) (hash : list (string * list riscv_opcode)) : option (list riscv_opcode) :=
  match hash with
  | [] => None
  | (n, p) :: hash => if decide (n = nm) then Some p else find nm hash
  end.

(** The entries that [riscv_ip] tries for a mnemonic: from the hashed entry on,
    as long as the name is the same. *)
Fixpoint same_name (nm : string) (p : list riscv_opcode) : list riscv_opcode :=
  match p with
  | op :: rest => if decide (name op = nm) then op :: same_name nm rest else []
  | [] => []
  end.
Definition candidates (nm : string) (hash : list (string * list riscv_opcode)) : list riscv_opcode :=
  match find nm hash with Some p => same_name nm p | None => [] end.

(** All entries of a name, wherever they are. *)
Definition entries (nm : string) (ops : list riscv_opcode) : list riscv_opcode :=
  filter (fun op => name op = nm) ops.

Lemma entries_app nm g ops : entries nm (g ++ ops) = entries nm g ++ entries nm ops.
Proof. apply filter_app. Qed.

Lemma entries_same nm n g :
  Forall (fun op => name op = n) g -> entries nm g = if decide (n = nm) then g else [].
Proof.
  unfold entries. induction 1 as [|op g Hop _ IH]; [by destruct (decide (n = nm))|].
  rewrite filter_cons, IH, Hop. by destruct (decide (n = nm)).
Qed.

Lemma init_group_split dir nm ops rest :
  init_group dir nm ops = Some rest ->
  exists g, ops = g ++ rest /\ Forall (fun op => name op = nm) g /\
    Forall (fun op => pinfo op = INSN_MACRO \/ exists len, validate_riscv_insn op len = true) g /\
    same_name nm ops = g /\ same_name nm rest = [].
Proof.
  induction ops as [|op ops IH]; cbn [init_group same_name].
  - intros [= <-]. by exists [].
  - destruct (decide (name op = nm)) as [Hn|Hn].
    + intros H.
      assert ((pinfo op = INSN_MACRO \/ exists len, validate_riscv_insn op len = true) /\
              init_group dir nm ops = Some rest) as [Hv Hr].
      { destruct (Z.eqb_spec (pinfo op) INSN_MACRO); [destruct dir; [done|by split; [left|]]|].
        destruct (validate_riscv_insn op _) eqn:E; [|done]. split; [right; by eexists|done]. }
      destruct (IH Hr) as (g & -> & Hg & Hv' & Hs & He). exists (op :: g).
      rewrite Hs. split_and!; try done; by constructor.
    + intros [= <-]. exists []. cbn. by destruct (decide (name op = nm)).
Qed.

Lemma init_hash_step dir fuel ops hash hash' :
  init_opcode_hash fuel dir ops hash = Some hash' ->
  forall nm,
    match find nm hash with
    | Some p => find nm hash' = Some p /\ entries nm ops = []
    | None => candidates nm hash' = entries nm ops
    end.
Proof.
  revert ops hash. induction fuel as [|fuel IH]; intros ops hash.
  - destruct ops; [|done]. intros [= <-] nm. unfold candidates. by destruct (find nm hash).
  - destruct ops as [|op ops]; cbn [init_opcode_hash].
    { intros [= <-] nm. unfold candidates. by destruct (find nm hash). }
    destruct (decide (name op ∈ map fst hash)) as [|Hnew]; [done|].
    destruct (init_group dir (name op) (op :: ops)) as [rest|] eqn:Eg; [|done].
    intros Hinit nm. specialize (IH _ _ Hinit nm).
    destruct (init_group_split _ _ _ _ Eg) as (g & Hops & Hg & _ & Hsame & _).
    rewrite Hops, entries_app, (entries_same _ _ _ Hg). cbn [find] in IH.
    destruct (decide (name op = nm)) as [Hnm|Hnm].
    + destruct IH as [Hf He]. rewrite He, app_nil_r.
      assert (find nm hash = None) as ->.
      { revert Hnew. rewrite Hnm. clear. induction hash as [|[n p] hash IH]; [done|]. cbn.
        rewrite not_elem_of_cons. intros [Hn Hr]. destruct (decide (n = nm)); [congruence|by apply IH]. }
      unfold candidates. rewrite Hf, <- Hnm. exact Hsame.
    + destruct (find nm hash); exact IH.
Qed.

(** What a passed self-check of an entry means bit by bit. *)
Lemma init_hash_valid dir fuel ops hash hash' :
  init_opcode_hash fuel dir ops hash = Some hash' ->
  Forall (fun op => pinfo op = INSN_MACRO \/ exists len, validate_riscv_insn op len = true) ops.
Proof.
  revert ops hash. induction fuel as [|fuel IH]; intros ops hash; [by destruct ops|].
  destruct ops as [|op ops]; [by constructor|]. cbn [init_opcode_hash].
  destruct (decide (name op ∈ map fst hash)); [done|].
  destruct (init_group dir (name op) (op :: ops)) as [rest|] eqn:Eg; [|done].
  intros Hinit. destruct (init_group_split _ _ _ _ Eg) as (g & -> & _ & Hv & _).
  apply Forall_app. split; [done|]. by eapply IH.
Qed.

Lemma op_hash_built : is_Some op_hash.
Proof. apply (bool_decide_unpack _). by vm_compute. Qed.
Lemma insn_type_hash_built : is_Some insn_type_hash.
Proof. apply (bool_decide_unpack _). by vm_compute. Qed.

(** What [init_opcode_hash] asks of one entry, and of the order of a table: the entries of
    a name are neighbours. *)
Definition entry_valid (dir : bool) (op : riscv_opcode) : bool :=
  if pinfo op =? INSN_MACRO then negb dir
  else validate_riscv_insn op (if dir then match name op with String "c" _ => 2 | _ => 4 end else 0).
Definition grouped (ops : list riscv_opcode) : Prop :=
  forall nm, exists pre g post, ops = pre ++ g ++ post /\ Forall (fun op => name op = nm) g /\
    Forall (fun op => name op <> nm) pre /\ Forall (fun op => name op <> nm) post.

Lemma grouped_tail op ops : grouped (op :: ops) -> grouped ops.
Proof.
  intros H nm. destruct (H nm) as (pre & g & post & E & Hg & Hpre & Hpost).
  destruct pre as [|a pre]; [destruct g as [|b g]|].
  - destruct post as [|c post]; [done|]. injection E as _ ->. apply Forall_cons in Hpost as [_ Hpost].
    by exists [], [], post.
  - injection E as _ ->. apply Forall_cons in Hg as [_ Hg]. by exists [], g, post.
  - injection E as _ ->. apply Forall_cons in Hpre as [_ Hpre]. by exists pre, g, post.
Qed.
Lemma grouped_suffix g ops : grouped (g ++ ops) -> grouped ops.
Proof. induction g as [|op g IH]; [done|]. intros H. by apply IH, (grouped_tail op). Qed.

(** A group in front, and its name nowhere behind it. *)
Lemma grouped_app nm g rest :
  Forall (fun op => name op = nm) g -> Forall (fun op => name op <> nm) rest -> grouped rest -> grouped (g ++ rest).
Proof.
  intros Hg Hr H nm'. destruct (decide (nm' = nm)) as [->|Hne]; [by exists [], g, rest|].
  destruct (H nm') as (pre & g' & post & -> & Hg' & Hpre & Hpost).
  exists (g ++ pre), g', post. rewrite <- app_assoc. split_and!; try done. apply Forall_app. split; [|done].
  eapply Forall_impl; [exact Hg|]. cbn. congruence.
Qed.

Lemma grouped_head op rest :
  grouped (op :: rest) ->
  exists g post, op :: rest = g ++ post /\ Forall (fun o => name o = name op) g /\
    Forall (fun o => name o <> name op) post.
Proof.
  intros H. destruct (H (name op)) as (pre & g & post & E & Hg & Hpre & Hpost).
  destruct pre as [|a pre]; [by exists g, post|]. injection E as -> _. by apply Forall_cons in Hpre as [? _].
Qed.

(** The group in front of a table whose entries are valid, and what an accepted one was. *)
Lemma init_group_valid dir nm g rest :
  Forall (fun op => name op = nm) g -> Forall (fun op => name op <> nm) rest ->
  Forall (fun op => entry_valid dir op = true) g -> init_group dir nm (g ++ rest) = Some rest.
Proof.
  intros Hg Hr Hv. induction g as [|op g IH]; cbn [app init_group].
  - destruct Hr as [|op rest Hop]; [done|]. cbn [init_group]. by rewrite decide_False.
  - apply Forall_cons in Hg as [Hn Hg], Hv as [Hop Hv]. rewrite decide_True by done.
    unfold entry_valid in Hop. rewrite Hn in Hop. destruct (pinfo op =? INSN_MACRO); [destruct dir; [done|]; by apply IH|].
    destruct dir; rewrite Hop; by apply IH.
Qed.
Lemma init_group_entries dir nm ops rest :
  init_group dir nm ops = Some rest ->
  exists g, ops = g ++ rest /\ Forall (fun op => name op = nm) g /\ Forall (fun op => entry_valid dir op = true) g.
Proof.
  induction ops as [|op ops IH]; cbn [init_group]; [intros [= <-]; by exists []|].
  destruct (decide (name op = nm)) as [Hn|_]; [|intros [= <-]; by exists []].
  intros H. assert (Hv : entry_valid dir op = true /\ init_group dir nm ops = Some rest).
  { unfold entry_valid. rewrite Hn. destruct (pinfo op =? INSN_MACRO); [by destruct dir|].
    destruct dir; by destruct (validate_riscv_insn op _). }
  destruct Hv as [Hv Hr]. destruct (IH Hr) as (g & -> & Hg & Hgv). exists (op :: g). split_and!; by try constructor.
Qed.

Lemma init_hash_accepts dir fuel : forall ops hash,
  (length ops <= fuel)%nat -> Forall (fun op => entry_valid dir op = true) ops -> grouped ops ->
  Forall (fun op => name op ∉ map fst hash) ops -> is_Some (init_opcode_hash fuel dir ops hash).
Proof.
  induction fuel as [|fuel IH]; intros [|op ops] hash Hf Hv Hg Hnew; cbn [length] in Hf; try lia; try by eexists.
  cbn [init_opcode_hash]. pose proof Hnew as [Hop _]%Forall_cons. rewrite decide_False by done.
  destruct (grouped_head op ops Hg) as (g & post & E & Hgn & Hpn). rewrite E in Hv, Hg, Hnew |- *.
  apply Forall_app in Hv as [Hvg Hvp], Hnew as [_ Hnew].
  rewrite (init_group_valid dir (name op) g post) by done. apply IH; [|done|by eapply grouped_suffix|].
  - destruct g as [|o g].
    + cbn [app] in E. rewrite <- E in Hpn. by apply Forall_cons in Hpn as [Hpn _].
    + apply (f_equal length) in E. rewrite length_app in E. cbn [length] in E. lia.
  - rewrite Forall_forall in Hnew, Hpn |- *. intros o Ho. cbn [map fst]. rewrite not_elem_of_cons.
    split; [by apply Hpn|by apply Hnew].
Qed.

Lemma init_hash_accepted dir fuel : forall ops hash,
  is_Some (init_opcode_hash fuel dir ops hash) ->
  Forall (fun op => entry_valid dir op = true) ops /\ grouped ops /\ Forall (fun op => name op ∉ map fst hash) ops.
Proof.
  assert (Hnil : grouped []) by (intros nm; by exists [], [], []).
  induction fuel as [|fuel IH]; intros [|op ops] hash; cbn [init_opcode_hash]; try done; try by intros [? ?].
  destruct (decide (name op ∈ map fst hash)) as [|Hop]; [by intros [? ?]|].
  destruct (init_group dir (name op) (op :: ops)) as [rest|] eqn:E; [|by intros [? ?]]. intros H.
  destruct (IH _ _ H) as (Hv & Hg & Hnew). destruct (init_group_entries _ _ _ _ E) as (g & -> & Hgn & Hgv).
  assert (Hpn : Forall (fun o => name o <> name op /\ name o ∉ map fst hash) rest).
  { eapply Forall_impl; [exact Hnew|]. cbn [map fst]. intros o. rewrite not_elem_of_cons. tauto. }
  apply Forall_and in Hpn as [Hpn Hph]. split_and!.
  - by apply Forall_app.
  - by eapply grouped_app.
  - apply Forall_app. split; [|done]. eapply Forall_impl; [exact Hgn|]. by cbn; intros o ->.
Qed.

(** [C21] What the assembler's startup self-check demands, for any opcode table of either
    kind: [init_opcode_hash] builds the hash, reaching none of its fatal errors, exactly
    when every entry is valid (a macro in the instruction table, or every bit fixed by
    the mask or by exactly the fields the operand string names) and the entries of every
    name are neighbours; and in a hash it builds, what [riscv_ip] walks through for a
    mnemonic is all entries of that name, in table order, and none of another name. *)
Theorem opcode_hash_exact dir ops :
  (is_Some (init_opcode_hash (length ops) dir ops []) <->
   Forall (fun op => entry_valid dir op = true) ops /\ grouped ops) /\
  (forall hash, init_opcode_hash (length ops) dir ops [] = Some hash ->
   forall nm, candidates nm hash = entries nm ops).
Proof.
  split; [split|].
  - intros H. by destruct (init_hash_accepted _ _ _ _ H) as (? & ? & _).
  - intros [Hv Hg]. apply init_hash_accepts; [done..|]. apply Forall_forall. intros op _. by apply not_elem_of_nil.
  - intros hash H nm. exact (init_hash_step _ _ _ _ _ H nm).
Qed.

#[local] Strategy expand [op_hash insn_type_hash].

(** Both tables of the customised assembler pass, so their names are grouped. *)
Example opcode_hash_exact_witness :
  (Forall (fun op => entry_valid false op = true) Table.riscv_opcodes /\ grouped Table.riscv_opcodes) /\
  (Forall (fun op => entry_valid true op = true) Table.riscv_insn_types /\ grouped Table.riscv_insn_types).
Proof.
  split.
  - exact (proj1 (proj1 (opcode_hash_exact false Table.riscv_opcodes)) op_hash_built).
  - exact (proj1 (proj1 (opcode_hash_exact true Table.riscv_insn_types)) insn_type_hash_built).
Defined.

(** For any table that passes, the name hash is complete: the entries that
    [riscv_ip] walks through for a mnemonic are all the table's entries of that name, in
    table order, and none of another name. *)
Theorem name_hash_complete fuel dir ops hash nm :
  init_opcode_hash fuel dir ops [] = Some hash -> candidates nm hash = entries nm ops.
Proof. intros H. exact (init_hash_step _ _ _ _ _ H nm). Qed.

(** The beginning of the table, up to the jumps. *)
Example name_hash_complete_witness :
  match init_opcode_hash 40 false (take 34 Table.riscv_opcodes_01) [] with
  | Some hash => map args (candidates "jr" hash) = ["d"; "s"; "o(s)"; "s,j"]%string
  | None => False
  end.
Proof.
  destruct (init_opcode_hash 40 false (take 34 Table.riscv_opcodes_01) []) as [hash|] eqn:E.
  - rewrite (name_hash_complete 40 false (take 34 Table.riscv_opcodes_01) hash "jr"%string E).
    vm_compute. reflexivity.
  - vm_compute in E. discriminate E.
Defined.
End Assembler.
