(* ===== verification/Custom.v ===== *)
(** The custom instructions end to end: the register operands of the assembler
    ([riscv_ip] of [gas/config/tc-riscv.c]) on the custom rows of the opcode table, the
    disassembler on the encoded words, and the hardware decoder on the same words. The
    assembler and the disassembler agree on all of them; the hardware agrees on all but
    [vmac.h] and [vmac.w]. *)

From S2P Require Import Opcodes Disasm Assembler Decoder.
From Stdlib Require Import Ascii.

Module Custom.
Import Disasm.

(** [INSERT_BITS] on a 64-bit [insn_t]. *)
Definition insert_bits (insn value m sh : Z) : Z :=
  Z.lor (Z.land insn (wrap 64 (Z.lnot (wrap 64 (Z.shiftl m sh)))))
        (wrap 64 (Z.shiftl (Z.land value m) sh)).

(** The register operand letters of [riscv_ip], the register numbers being
    those [reg_lookup] found in the statement, in order. *)
Fixpoint insert_regs (s : string) (regs : list Z) (insn : Z) : option Z :=
  match s, regs with
  | EmptyString, [] => Some insn
  | String "," s, _ => insert_regs s regs insn
  | String "d" s, r :: regs => insert_regs s regs (insert_bits insn r OP_MASK_RD OP_SH_RD)
  | String "s" s, r :: regs => insert_regs s regs (insert_bits insn r OP_MASK_RS1 OP_SH_RS1)
  | String "t" s, r :: regs => insert_regs s regs (insert_bits insn r OP_MASK_RS2 OP_SH_RS2)
  | _, _ => None
  end.

(** One candidate of the [riscv_ip] loop: the operands are inserted into
    [insn->match] and the result must still match the entry. *)
Definition assemble (op : riscv_opcode) (regs : list Z) : option Z :=
  let* insn := insert_regs (args op) regs (match_bits op) in
  if Match.call op insn then Some insn else None.

Definition custom_names : list string :=
  ["pvadd"; "pvmul"; "pvmac"; "pvmul_upper";
   "vadd.b"; "vadd.h"; "vadd.w"; "vsub.b"; "vsub.h"; "vsub.w"; "vmul.b"; "vmul.h"; "vmul.w";
   "vmac.b"; "vmac.h"; "vmac.w"; "vld"; "vst"]%string.

(** The custom rows of the table. *)
Definition custom_ops : list riscv_opcode :=
  filter (fun op => name op ∈ custom_names) Table.riscv_opcodes.

(** * Operand insertion *)

Lemma wrap_land w a b : 0 <= w -> wrap w (Z.land a b) = Z.land (wrap w a) (wrap w b).
Proof.
  intros. unfold wrap. rewrite <- !Z.land_ones by done. apply Z.bits_inj'. intros n Hn.
  rewrite !Z.land_spec. destruct (Z.testbit a n), (Z.testbit b n), (Z.testbit (Z.ones w) n); done.
Qed.

(** Bits outside the field are untouched, the field holds the value. *)
Lemma insert_bits_testbit insn v m sh i :
  urange 64 insn -> 0 <= sh -> 0 <= i ->
  Z.testbit (insert_bits insn v m sh) i =
  (Z.testbit insn i && negb (Z.testbit m (i - sh))) ||
  ((i <? 64) && Z.testbit v (i - sh) && Z.testbit m (i - sh)).
Proof.
  intros Hr Hs Hi. unfold insert_bits, wrap.
  rewrite Z.lor_spec, Z.land_spec. destruct (Z.ltb_spec i 64) as [Hlt|Hge].
  - rewrite !Z.mod_pow2_bits_low by lia. rewrite Z.lnot_spec by done.
    rewrite Z.mod_pow2_bits_low by lia. rewrite !Z.shiftl_spec by done. by rewrite Z.land_spec.
  - rewrite !Z.mod_pow2_bits_high by lia.
    replace (Z.testbit insn i) with false; [done|]. rewrite <- (wrap_small 64 insn Hr).
    unfold wrap. by rewrite Z.mod_pow2_bits_high by lia.
Qed.

Lemma wrap_lor w a b : 0 <= w -> wrap w (Z.lor a b) = Z.lor (wrap w a) (wrap w b).
Proof.
  intros. unfold wrap. rewrite <- !Z.land_ones by done. apply Z.land_lor_distr_l.
Qed.

Lemma insert_bits_range insn v m sh : urange 64 insn -> urange 64 (insert_bits insn v m sh).
Proof.
  intros Hr. assert (insert_bits insn v m sh = wrap 64 (insert_bits insn v m sh)) as ->;
    [|apply wrap_range; lia].
  unfold insert_bits. rewrite wrap_lor, wrap_land, !wrap_wrap, (wrap_small 64 insn) by (done || lia).
  done.
Qed.

(** The part select of the inserted field, and of one disjoint from it. *)
Lemma slice_testbit lo w x i : 0 <= lo -> 0 <= w -> 0 <= i ->
  Z.testbit (slice lo w x) i = (i <? w) && Z.testbit x (i + lo).
Proof.
  intros. unfold slice, wrap. destruct (Z.ltb_spec i w).
  - by rewrite Z.mod_pow2_bits_low, Z.shiftr_spec by lia.
  - by rewrite Z.mod_pow2_bits_high by lia.
Qed.

Lemma slice_insert_same insn v w sh :
  urange 64 insn -> 0 <= sh -> 0 <= w -> sh + w <= 64 -> urange w v ->
  slice sh w (insert_bits insn v (Z.ones w) sh) = v.
Proof.
  intros Hr Hs Hw Hmax Hv. rewrite <- (wrap_small w v Hv). apply Z.bits_inj'. intros i Hi.
  rewrite slice_testbit, insert_bits_testbit by (done || lia).
  replace (i + sh - sh) with i by lia. unfold wrap. destruct (Z.ltb_spec i w).
  - rewrite !Z.ones_spec_low, !Z.mod_pow2_bits_low by lia.
    destruct (Z.ltb_spec (i + sh) 64); [|lia]. by rewrite andb_false_r, !andb_true_r.
  - by rewrite Z.mod_pow2_bits_high by lia.
Qed.

Lemma slice_insert_other insn v w sh lo w' :
  urange 64 insn -> 0 <= sh -> 0 <= w -> 0 <= lo -> 0 <= w' -> lo + w' <= sh \/ sh + w <= lo ->
  slice lo w' (insert_bits insn v (Z.ones w) sh) = slice lo w' insn.
Proof.
  intros Hr Hs Hw Hlo Hw' Hd. apply Z.bits_inj'. intros i Hi.
  rewrite !slice_testbit, insert_bits_testbit by (done || lia).
  destruct (Z.ltb_spec i w'); [|done]. cbn [andb].
  replace (Z.testbit (Z.ones w) (i + lo - sh)) with false; [cbn [negb]; rewrite andb_true_r, andb_false_r, orb_false_r; done|].
  destruct Hd; [by rewrite Z.testbit_neg_r by lia|]. by rewrite Z.ones_spec_high by lia.
Qed.

(** Insertion into fields the mask leaves free keeps the entry matched. *)
Lemma opcode_insert op insn v w sh :
  urange 64 insn -> 0 <= sh -> 0 <= w -> Z.land (mask op) (Z.shiftl (Z.ones w) sh) = 0 ->
  Match.opcode op (insert_bits insn v (Z.ones w) sh) = Match.opcode op insn.
Proof.
  intros Hr Hs Hw Hm. unfold Match.opcode. f_equal. apply Z.bits_inj'. intros i Hi.
  apply (f_equal (fun z => Z.testbit z i)) in Hm.
  rewrite Z.land_spec, Z.shiftl_spec, Z.bits_0 in Hm by done.
  rewrite !Z.land_spec, !Z.lxor_spec, insert_bits_testbit by done.
  destruct (Z.testbit (mask op) i); [|by rewrite !andb_false_r].
  cbn [andb] in Hm. rewrite Hm. cbn [negb]. by rewrite !andb_true_r, andb_false_r, orb_false_r.
Qed.

(** * Which entry a word selects *)

#[export] Instance riscv_opcode_eq_dec : EqDecision riscv_opcode.
Proof. solve_decision. Defined.

(** Two entries whose fixed bits disagree match no common word. *)
Definition conflict (r op : riscv_opcode) : bool :=
  negb (Z.land (Z.land (mask r) (mask op)) (Z.lxor (match_bits r) (match_bits op)) =? 0).

Lemma conflict_sound r op w :
  conflict r op = true -> Match.opcode op w = true -> Match.call r w = false.
Proof.
  unfold conflict. intros Hc Ho. apply not_true_is_false. intros Hr. apply call_opcode in Hr.
  unfold Match.opcode in *. apply Z.eqb_eq in Ho, Hr. apply negb_true_iff, Z.eqb_neq in Hc.
  apply Hc, Z.bits_inj'. intros i Hi. apply (f_equal (fun z => Z.testbit z i)) in Ho, Hr.
  rewrite !Z.land_spec, !Z.lxor_spec, Z.bits_0 in *.
  by destruct (Z.testbit w i), (Z.testbit (mask r) i), (Z.testbit (mask op) i),
    (Z.testbit (match_bits r) i), (Z.testbit (match_bits op) i).
Qed.

(** Every entry before [op] conflicts with it. *)
Fixpoint unambiguous (op : riscv_opcode) (ops : list riscv_opcode) : bool :=
  match ops with
  | [] => false
  | r :: rest => if decide (r = op) then true else conflict r op && unambiguous op rest
  end.

Lemma scan_unambiguous c w op ops :
  unambiguous op ops = true -> Match.opcode op w = true -> accepts c w op = true ->
  scan c w ops = Some op.
Proof.
  intros Hu Ho Ha. induction ops as [|r rest IH]; [done|]. cbn [unambiguous scan] in *.
  destruct (decide (r = op)) as [->|]; [by rewrite Ha|].
  apply andb_prop in Hu as [Hc Hu]. unfold accepts at 1.
  rewrite (conflict_sound _ _ _ Hc Ho). by apply IH.
Qed.

(** * The custom rows *)

(** What the proofs use of a custom row, checked on all of them: one of the two
    operand forms with exactly those register fields free, plain matching, base ISA. *)
Definition custom_check (op : riscv_opcode) : bool :=
  unambiguous op Table.riscv_opcodes
  && bool_decide (match_func op = match_opcode) && bool_decide (insn_class op = INSN_CLASS_I)
  && (xlen_requirement op =? 0) && (pinfo op =? 0)
  && bool_decide (urange 32 (match_bits op)) && (Z.land (Z.lnot (mask op)) (match_bits op) =? 0)
  && ((bool_decide (args op = "d,s,t"%string) && (mask op =? 0xfe00707f))
      || (bool_decide (args op = "d,s"%string) && (mask op =? 0xfff0707f))).

Lemma custom_checked : forallb custom_check custom_ops = true.
Proof. by vm_compute. Qed.

(** The registers an operand string asks for. *)
Definition arity (op : riscv_opcode) : nat := if decide (args op = "d,s"%string) then 2 else 3.

Lemma opcode_self op : Match.opcode op (match_bits op) = true.
Proof. unfold Match.opcode. by rewrite Z.lxor_nilpotent. Qed.

Lemma custom_facts op :
  op ∈ custom_ops ->
  (unambiguous op Table.riscv_opcodes = true /\ match_func op = match_opcode /\
   insn_class op = INSN_CLASS_I /\ xlen_requirement op = 0 /\ pinfo op = 0) /\
  urange 32 (match_bits op) /\ Z.land (Z.lnot (mask op)) (match_bits op) = 0 /\
  ((args op = "d,s,t"%string /\ mask op = 0xfe00707f) \/
   (args op = "d,s"%string /\ mask op = 0xfff0707f)).
Proof.
  intros Hin. pose proof custom_checked as H. rewrite forallb_forall in H.
  specialize (H op (proj1 (list_elem_of_In _ _) Hin)). unfold custom_check in H.
  rewrite !andb_true_iff, orb_true_iff, !andb_true_iff, !bool_decide_eq_true, !Z.eqb_eq in H. tauto.
Qed.

(** Words with two or three register fields. *)
Definition enc2 (m d s : Z) : Z := insert_bits (insert_bits m d (Z.ones 5) 7) s (Z.ones 5) 15.
Definition enc3 (m d s t : Z) : Z := insert_bits (enc2 m d s) t (Z.ones 5) 20.

Lemma urange_mono v w x : 0 <= v <= w -> urange v x -> urange w x.
Proof. intros Hv [? ?]. split; [done|]. eapply Z.lt_le_trans; [done|]. apply Z.pow_le_mono_r; lia. Qed.

Lemma enc2_range m d s : urange 64 m -> urange 64 (enc2 m d s).
Proof. intros. by apply insert_bits_range, insert_bits_range. Qed.

Lemma enc2_opcode op d s :
  urange 64 (match_bits op) -> Z.land (mask op) (Z.shiftl (Z.ones 5) 7) = 0 ->
  Z.land (mask op) (Z.shiftl (Z.ones 5) 15) = 0 -> Match.opcode op (enc2 (match_bits op) d s) = true.
Proof.
  intros Hr H7 H15. unfold enc2. rewrite !opcode_insert by (done || lia || by apply insert_bits_range).
  apply opcode_self.
Qed.

Section Fields.
Context (m d s t : Z) (Hm : urange 64 m) (Hd : urange 5 d) (Hs : urange 5 s) (Ht : urange 5 t).

Local Ltac fields :=
  unfold enc3, enc2;
  repeat first
    [ rewrite slice_insert_same by (done || lia || by repeat apply insert_bits_range)
    | rewrite slice_insert_other by (done || lia || by repeat apply insert_bits_range) ];
  done.

Lemma enc2_fields :
  slice 7 5 (enc2 m d s) = d /\ slice 15 5 (enc2 m d s) = s /\
  slice 20 5 (enc2 m d s) = slice 20 5 m /\ slice 0 7 (enc2 m d s) = slice 0 7 m /\
  slice 12 3 (enc2 m d s) = slice 12 3 m /\ slice 25 7 (enc2 m d s) = slice 25 7 m /\
  slice 32 32 (enc2 m d s) = slice 32 32 m.
Proof. split_and!; fields. Qed.

Lemma enc3_fields :
  slice 7 5 (enc3 m d s t) = d /\ slice 15 5 (enc3 m d s t) = s /\
  slice 20 5 (enc3 m d s t) = t /\ slice 0 7 (enc3 m d s t) = slice 0 7 m /\
  slice 12 3 (enc3 m d s t) = slice 12 3 m /\ slice 25 7 (enc3 m d s t) = slice 25 7 m /\
  slice 32 32 (enc3 m d s t) = slice 32 32 m.
Proof. split_and!; fields. Qed.
End Fields.

(** The register fields of a word. *)
Definition reg_fields (w : Z) : list Z := [slice 7 5 w; slice 15 5 w; slice 20 5 w].

(** What the assembler produces for a custom row: a 32-bit word with the row's fixed
    bits and the requested registers. *)
Lemma assemble_custom op regs :
  op ∈ custom_ops -> length regs = arity op -> Forall (urange 5) regs ->
  exists w, assemble op regs = Some w /\ Match.opcode op w = true /\ urange 32 w /\
    take (arity op) (reg_fields w) = regs /\
    slice 0 7 w = slice 0 7 (match_bits op) /\ slice 12 3 w = slice 12 3 (match_bits op) /\
    slice 25 7 w = slice 25 7 (match_bits op).
Proof.
  intros Hin Hlen Hregs.
  destruct (custom_facts op Hin) as ((_ & Hfn & _) & Hm32 & _ & Hform).
  assert (Hm : urange 64 (match_bits op)) by (by apply (urange_mono 32)).
  assert (Hlow : forall w, urange 64 w -> slice 32 32 w = slice 32 32 (match_bits op) -> urange 32 w).
  { intros w Hw Hhi. unfold slice in Hhi. rewrite !Z.shiftr_div_pow2 in Hhi by lia.
    rewrite (Z.div_small (match_bits op)) in Hhi by apply Hm32.
    unfold wrap in Hhi. rewrite Z.mod_small in Hhi by (unfold urange in Hw; word_pows; Z.div_mod_to_equations; lia).
    unfold urange in *. word_pows. Z.div_mod_to_equations. lia. }
  unfold assemble, arity in *. destruct Hform as [[Ha Hk] | [Ha Hk]]; rewrite Ha in *; cbn in Hlen.
  - destruct regs as [|d [|s [|t [|? ?]]]]; try done.
    apply Forall_cons_1 in Hregs as [Hd Hregs]. apply Forall_cons_1 in Hregs as [Hs Hregs].
    apply Forall_cons_1 in Hregs as [Ht _].
    change (insert_regs "d,s,t" [d; s; t] (match_bits op)) with (Some (enc3 (match_bits op) d s t)).
    destruct (enc3_fields (match_bits op) d s t Hm Hd Hs Ht) as (E1 & E2 & E3 & E4 & E5 & E6 & E7).
    assert (Ho : Match.opcode op (enc3 (match_bits op) d s t) = true).
    { unfold enc3. rewrite opcode_insert by (rewrite ?Hk; done || lia || by apply enc2_range).
      apply enc2_opcode; by rewrite ?Hk. }
    cbn [mbind option_bind]. unfold Match.call. rewrite Hfn, Ho.
    eexists. split; [done|]. split; [done|]. split; [by apply Hlow; [apply insert_bits_range, enc2_range|]|].
    cbn. unfold reg_fields. rewrite E1, E2, E3. by split_and!.
  - destruct regs as [|d [|s [|? ?]]]; try done.
    apply Forall_cons_1 in Hregs as [Hd Hregs]. apply Forall_cons_1 in Hregs as [Hs _].
    change (insert_regs "d,s" [d; s] (match_bits op)) with (Some (enc2 (match_bits op) d s)).
    destruct (enc2_fields (match_bits op) d s Hm Hd Hs) as (E1 & E2 & E3 & E4 & E5 & E6 & E7).
    assert (Ho : Match.opcode op (enc2 (match_bits op) d s) = true)
      by (apply enc2_opcode; by rewrite ?Hk).
    cbn [mbind option_bind]. unfold Match.call. rewrite Hfn, Ho.
    eexists. split; [done|]. split; [done|]. split; [by apply Hlow; [apply enc2_range|]|].
    cbn. unfold reg_fields. rewrite E1, E2. by split_and!.
Qed.

(** [C19] Assembler and disassembler agree on the whole custom extension: for
    each of the eighteen instructions and any registers, the assembler accepts the row and
    produces a 32-bit word from which the disassembler, searching through its hash with
    any RV32 or RV64 architecture and alias setting, recovers the row and the registers. *)
Theorem custom_roundtrip c op regs :
  op ∈ custom_ops -> length regs = arity op -> Forall (urange 5) regs ->
  subset_supports c INSN_CLASS_I = true ->
  exists w, assemble op regs = Some w /\ urange 32 w /\
    entry (riscv_disassemble_insn riscv_hash c w) = Some op /\
    take (arity op) (reg_fields w) = regs.
Proof.
  intros Hin Hlen Hregs HI. destruct (assemble_custom op regs Hin Hlen Hregs)
    as (w & Ha & Ho & Hw & Hr & _). exists w. split; [exact Ha|]. split; [exact Hw|].
  split; [|exact Hr].
  destruct (custom_facts op Hin) as ((Hu & Hfn & Hc & Hx & Hp) & _).
  unfold riscv_disassemble_insn, riscv_hash. rewrite (lookup_scan _ c w table_checked).
  rewrite (scan_unambiguous c w op) by (done || (unfold accepts, Match.call;
    rewrite Hfn, Ho, Hp, Hx, Hc, HI; by destruct (no_aliases c))).
  done.
Qed.

(** * The hardware's view *)

(** What the CPU is told to do by the control signals of an extension instruction:
    run the packed unit, or the vector unit with an operation code and element width
    and the destinations and memory direction selected. *)
Inductive action :=
  | Packed (ctrl : option Z)
  | Vector (vop sew : Z) (to_vreg to_xreg load store : bool)
  | Other.

Definition action_of (o : Decoder.outputs) : action :=
  if Decoder.is_vmac o then Packed (Decoder.vmac_ctrl o)
  else if Decoder.is_vec_op o then
    Vector (Decoder.vec_op o) (Decoder.vec_sew o) (Decoder.vec_reg_write o)
      (Decoder.reg_write o) (Decoder.is_vec_load o) (Decoder.is_vec_store o)
  else Other.

(** What each mnemonic means. *)
Definition elementwise (vop : Z) (sew : Z) : action := Vector vop sew true false false false.
Definition multiply_accumulate (sew : Z) : action := Vector 3 sew false true false false.
Definition meaning (n : string) : option action :=
  match n with
  | "pvadd" => Some (Packed (Some 0)) | "pvmul" => Some (Packed (Some 1))
  | "pvmac" => Some (Packed (Some 2)) | "pvmul_upper" => Some (Packed (Some 3))
  | "vadd.b" => Some (elementwise 0 0) | "vadd.h" => Some (elementwise 0 1)
  | "vadd.w" => Some (elementwise 0 2) | "vsub.b" => Some (elementwise 1 0)
  | "vsub.h" => Some (elementwise 1 1) | "vsub.w" => Some (elementwise 1 2)
  | "vmul.b" => Some (elementwise 2 0) | "vmul.h" => Some (elementwise 2 1)
  | "vmul.w" => Some (elementwise 2 2)
  | "vmac.b" => Some (multiply_accumulate 0) | "vmac.h" => Some (multiply_accumulate 1)
  | "vmac.w" => Some (multiply_accumulate 2)
  | "vld" => Some (Vector 4 0 true false true false)
  | "vst" => Some (Vector 5 0 false false false true)
  | _ => None
  end%string.

#[export] Instance action_eq_dec : EqDecision action.
Proof. solve_decision. Defined.

(** In the custom opcode the action only depends on the three fixed fields. *)
Lemma action_fixed w m :
  slice 0 7 w = slice 0 7 m -> slice 12 3 w = slice 12 3 m -> slice 25 7 w = slice 25 7 m ->
  slice 0 7 m = 0x5B -> slice 12 3 m <> 0 ->
  action_of (Decoder.decode w) = action_of (Decoder.decode m).
Proof.
  intros E1 E2 E3 Hop Hf3. unfold action_of, Decoder.decode. cbn.
  unfold Decoder.decode_vmac_ctrl, Decoder.decode_vec_op, Decoder.writes_vreg,
    Decoder.is_vmac_type, Decoder.is_vec_type, Decoder.is_rdwrctr_type, Decoder.is_b_type,
    Decoder.is_s_type, Decoder.vop, Decoder.opcode, Decoder.funct3, Decoder.funct7.
  rewrite E1, E2, E3, Hop. destruct (Z.eqb_spec (slice 12 3 m) 0); [done|].
  by rewrite !andb_false_r, !andb_false_l.
Qed.

Definition hw_check (op : riscv_opcode) : bool :=
  (slice 0 7 (match_bits op) =? 0x5B) && negb (slice 12 3 (match_bits op) =? 0) &&
  (bool_decide (name op ∈ ["vmac.h"; "vmac.w"]%string) ||
   bool_decide (Some (action_of (Decoder.decode (match_bits op))) = meaning (name op))).

Lemma hw_checked : forallb hw_check custom_ops = true.
Proof. by vm_compute. Qed.

(** [C14] The hardware understands the assembler: for the sixteen custom
    instructions other than [vmac.h] and [vmac.w], the decoder's control signals for every
    assembled word select exactly the operation, element width, destination and
    registers of the mnemonic. *)
Theorem hardware_decodes_custom op regs w :
  op ∈ custom_ops -> name op ∉ ["vmac.h"; "vmac.w"]%string ->
  length regs = arity op -> Forall (urange 5) regs -> assemble op regs = Some w ->
  let o := Decoder.decode w in
  Some (action_of o) = meaning (name op) /\
  take (arity op) [Decoder.rd o; Decoder.rs1 o; Decoder.rs2 o] = regs.
Proof.
  intros Hin Hn Hlen Hregs Hw. destruct (assemble_custom op regs Hin Hlen Hregs)
    as (w' & Hw' & _ & _ & Hr & E1 & E2 & E3).
  rewrite Hw in Hw'. injection Hw' as <-.
  pose proof hw_checked as H. rewrite forallb_forall in H.
  specialize (H op (proj1 (list_elem_of_In _ _) Hin)). unfold hw_check in H.
  rewrite !andb_true_iff, orb_true_iff, !bool_decide_eq_true, negb_true_iff, Z.eqb_eq, Z.eqb_neq in H.
  destruct H as [[Hop Hf3] [Hbad|Ha]]; [done|].
  cbv zeta. rewrite (action_fixed w (match_bits op)) by done. split; [done|].
  unfold Decoder.decode. cbn. unfold Decoder.is_u_type, Decoder.opcode. rewrite E1, Hop. exact Hr.
Qed.

(** On the other two it does not: whatever the registers, an assembled
    [vmac.h] selects no VMAC and writes no register at all (neither vector nor scalar), and
    an assembled [vmac.w] executes the 16-bit [vmac.h]. *)
Theorem hardware_misdecodes_vmac op regs w :
  op ∈ custom_ops -> length regs = arity op -> Forall (urange 5) regs -> assemble op regs = Some w ->
  (name op = "vmac.h"%string ->
     action_of (Decoder.decode w) = Vector 0 0 false false false false) /\
  (name op = "vmac.w"%string -> Some (action_of (Decoder.decode w)) = meaning "vmac.h").
Proof.
  intros Hin Hlen Hregs Hw. destruct (assemble_custom op regs Hin Hlen Hregs)
    as (w' & Hw' & _ & _ & _ & E1 & E2 & E3).
  rewrite Hw in Hw'. injection Hw' as <-.
  assert (H : forallb (fun op =>
    (slice 0 7 (match_bits op) =? 0x5B) && negb (slice 12 3 (match_bits op) =? 0) &&
    bool_decide (name op = "vmac.h"%string ->
      action_of (Decoder.decode (match_bits op)) = Vector 0 0 false false false false) &&
    bool_decide (name op = "vmac.w"%string ->
      Some (action_of (Decoder.decode (match_bits op))) = meaning "vmac.h")) custom_ops = true)
    by (by vm_compute).
  rewrite forallb_forall in H. specialize (H op (proj1 (list_elem_of_In _ _) Hin)).
  rewrite !andb_true_iff, !bool_decide_eq_true, negb_true_iff, Z.eqb_eq, Z.eqb_neq in H.
  destruct H as [[[Hop Hf3] Hh] Hwd].
  by rewrite (action_fixed w (match_bits op)) by done.
Qed.

(** * Concrete instructions *)

Definition row_vmac_b : riscv_opcode :=
  row "vmac.b" 0 INSN_CLASS_I "d,s,t" MATCH_VMAC_B MASK_VMAC_B match_opcode 0.
Definition row_vmac_h : riscv_opcode :=
  row "vmac.h" 0 INSN_CLASS_I "d,s,t" MATCH_VMAC_H MASK_VMAC_H match_opcode 0.
Definition row_vld : riscv_opcode :=
  row "vld" 0 INSN_CLASS_I "d,s" MATCH_VLD MASK_VLD match_opcode 0.

(** [vmac.b a0, x1, x2], the word that the kernels write with [.insn]. *)
Example custom_roundtrip_witness :
  exists w, assemble row_vmac_b [10; 1; 2] = Some w /\ w = 0x0620a55b /\
    entry (riscv_disassemble_insn riscv_hash (rv32 [INSN_CLASS_I; INSN_CLASS_M]) w) = Some row_vmac_b.
Proof.
  destruct (custom_roundtrip (rv32 [INSN_CLASS_I; INSN_CLASS_M]) row_vmac_b [10; 1; 2])
    as (w & Ha & _ & He & _).
  - apply (bool_decide_unpack _). vm_compute. exact I.
  - reflexivity.
  - apply (bool_decide_unpack _). vm_compute. exact I.
  - reflexivity.
  - exists w. split; [exact Ha|]. split; [|exact He].
    vm_compute in Ha. injection Ha as <-. reflexivity.
Defined.

Example hardware_decodes_custom_witness :
  let o := Decoder.decode 0x0805205b in
  Some (action_of o) = meaning "vld" /\ [Decoder.rd o; Decoder.rs1 o] = [0; 10].
Proof.
  apply (hardware_decodes_custom row_vld [0; 10] 0x0805205b).
  - apply (bool_decide_unpack _). vm_compute. exact I.
  - apply (bool_decide_unpack _). vm_compute. exact I.
  - reflexivity.
  - apply (bool_decide_unpack _). vm_compute. exact I.
  - vm_compute. reflexivity.
Defined.

Example hardware_misdecodes_vmac_witness :
  exists w, assemble row_vmac_h [10; 1; 2] = Some w /\
    action_of (Decoder.decode w) = Vector 0 0 false false false false.
Proof.
  eexists. split; [vm_compute; reflexivity|].
  eapply (proj1 (hardware_misdecodes_vmac row_vmac_h [10; 1; 2] _ _ _ _ _)). reflexivity.
  Unshelve.
  - apply (bool_decide_unpack _). vm_compute. exact I.
  - reflexivity.
  - apply (bool_decide_unpack _). vm_compute. exact I.
  - vm_compute. reflexivity.
Defined.
End Custom.
