(* ===== verification/Cpu.v ===== *)
(** The multi-cycle CPU of [ucrv32.v] with its register files ([register_file],
    [vreg_file]) and its three execution units, and the SoC of [top.v] that puts it on
    the SRAM bus. [Cpu.step] is all the clocked blocks of the core for one edge,
    [Soc.step] one edge of core and memory together. Registers latched from the decoder
    in DECODE form the record [ctrl]. *)

From S2P Require Import Prelude Vmac Valu Sram Vlsu Alu Decoder.

#[export] Instance eta_outputs : Eta Decoder.outputs := fun o =>
  Decoder.Outputs (Decoder.rd o) (Decoder.rs1 o) (Decoder.rs2 o) (Decoder.imm o)
    (Decoder.alu_ctrl o) (Decoder.alu_src2_sel o) (Decoder.mem_write o) (Decoder.mem_read o)
    (Decoder.wb_from_mem o) (Decoder.mem_mask o) (Decoder.mem_sign_extend o) (Decoder.is_branch o)
    (Decoder.branch_if_set o) (Decoder.is_branch_compare o) (Decoder.is_jal o) (Decoder.is_jalr o)
    (Decoder.is_auipc o) (Decoder.is_lui o) (Decoder.reg_write o) (Decoder.ebreak_hit o)
    (Decoder.is_vmac o) (Decoder.vmac_ctrl o) (Decoder.is_rdwrctr o) (Decoder.rdwrctr_wen o)
    (Decoder.rdwrctr_ctr_id o) (Decoder.is_vec_op o) (Decoder.vec_op o) (Decoder.vec_sew o)
    (Decoder.is_vec_load o) (Decoder.is_vec_store o) (Decoder.vec_reg_write o)
    (Decoder.is_vec_vmac o).

Module Cpu.
Import Decoder.

(** [cpu_state]; [UNUSED] stands for the three codes without a name. *)
Inductive stage := FETCH | DECODE | EXEC | MEM | WB | UNUSED.

Record inputs := Inputs
  { resetn : bool; imem_rdata : Z; dmem_req_ready : bool;
    dmem_resp_valid : bool; dmem_resp_rdata : Z }.

Record state := State
  { cpu_state : stage;
    pc_reg : Z; pc_saved : Z; insn_reg : Z; rdata1_reg : Z; rdata2_reg : Z;
    alu_out_reg : Z; mem_data_reg : Z;
    ctrl : outputs;                         (* the decoder's outputs, latched *)
    vd_reg : Z;
    mtvec : Z; mepc : Z; mcause : Z; mstatus : Z;
    cycle_counter : Z; insn_counter : Z; load_counter : Z; store_counter : Z;
    vmac_valid_in_reg : bool; vmac_busy : bool;
    vec_busy : bool; vec_valid_in_reg : bool; vlsu_start_reg : bool;
    vs1_data_reg : Z; vs2_data_reg : Z; vec_result_reg : Z;
    dmem_req_valid_reg : bool; dmem_req_write_reg : bool; dmem_req_addr_reg : Z;
    dmem_req_wdata_reg : Z; dmem_req_wmask_reg : Z;
    regs : Z -> Z;                          (* reg [31:0] regs [0:31] *)
    vregs : Z -> Z;                         (* reg [63:0] vregs [0:31] *)
    vmac_inst : Vmac.state; valu_inst : Valu.state; vlsu_inst : Vlsu.state;
    trace_pc_reg : Z; trace_insn_reg : Z }.

#[export] Instance eta_state : Eta state := fun s =>
  State (cpu_state s) (pc_reg s) (pc_saved s) (insn_reg s) (rdata1_reg s) (rdata2_reg s)
    (alu_out_reg s) (mem_data_reg s) (ctrl s) (vd_reg s) (mtvec s) (mepc s) (mcause s) (mstatus s)
    (cycle_counter s) (insn_counter s) (load_counter s) (store_counter s)
    (vmac_valid_in_reg s) (vmac_busy s) (vec_busy s) (vec_valid_in_reg s) (vlsu_start_reg s)
    (vs1_data_reg s) (vs2_data_reg s) (vec_result_reg s)
    (dmem_req_valid_reg s) (dmem_req_write_reg s) (dmem_req_addr_reg s)
    (dmem_req_wdata_reg s) (dmem_req_wmask_reg s) (regs s) (vregs s)
    (vmac_inst s) (valu_inst s) (vlsu_inst s) (trace_pc_reg s) (trace_insn_reg s).

Section Core.
(** What a don't-care control value becomes in the synthesised circuit. *)
Context (dontcare : Z).

(** * Register files *)

(** Read port and write port of [register_file] and of [vreg_file]. *)
Definition rf_read (f : Z -> Z) (r : Z) : Z := if r =? 0 then 0 else f r.
Definition rf_write (wen : bool) (waddr wdata : Z) (f : Z -> Z) : Z -> Z :=
  if wen && negb (waddr =? 0) then fun r => if r =? waddr then wdata else f r else f.

(** * Wires *)

Definition dec (s : state) : outputs := decode (insn_reg s).
Definition rf_rdata1 s : Z := rf_read (regs s) (rs1 (dec s)).
Definition rf_rdata2 s : Z := rf_read (regs s) (rs2 (dec s)).
Definition vrf_rdata1 s : Z := rf_read (vregs s) (rs1 (dec s)).
Definition vrf_rdata2 s : Z := rf_read (vregs s) (rs2 (dec s)).

Definition alu_op1 s : Z := if is_auipc (ctrl s) then pc_saved s else rf_rdata1 s.
Definition alu_op2 s : Z := if alu_src2_sel (ctrl s) then imm (ctrl s) else rf_rdata2 s.
Definition alu_ctrl_reg s : Z := default dontcare (alu_ctrl (ctrl s)).
Definition alu_out s : Z := Alu.alu_out (alu_op1 s) (alu_op2 s) (alu_ctrl_reg s).
Definition alu_zero s : bool := Alu.zero (alu_op1 s) (alu_op2 s) (alu_ctrl_reg s).

Definition is_vec_mem s : bool := is_vec_load (ctrl s) || is_vec_store (ctrl s).
Definition vec_mem_active s : bool := is_vec_mem s && vec_busy s.
Definition dmem_req_valid s : bool :=
  if vec_mem_active s then Vlsu.mem_valid (vlsu_inst s) else dmem_req_valid_reg s.
Definition dmem_req_write s : bool :=
  if vec_mem_active s then Vlsu.mem_write (vlsu_inst s) else dmem_req_write_reg s.
Definition dmem_req_addr s : Z :=
  if vec_mem_active s then Vlsu.mem_addr (vlsu_inst s) else dmem_req_addr_reg s.
Definition dmem_req_wdata s : Z :=
  if vec_mem_active s then Vlsu.mem_wdata (vlsu_inst s) else dmem_req_wdata_reg s.
Definition dmem_req_wmask s : Z :=
  if vec_mem_active s then Vlsu.mem_wmask (vlsu_inst s) else dmem_req_wmask_reg s.
Definition imem_addr s : Z := pc_reg s.

Definition branch_condition s : bool :=
  if is_branch_compare (ctrl s) then xorb (Alu.bit (alu_out s) 0) (branch_if_set (ctrl s))
  else xorb (alu_zero s) (branch_if_set (ctrl s)).
Definition take_branch s : bool := is_branch (ctrl s) && branch_condition s.

Definition mem_byte s : Z :=
  match wrap 2 (alu_out_reg s) with
  | 0 => slice 0 8 (mem_data_reg s) | 1 => slice 8 8 (mem_data_reg s)
  | 2 => slice 16 8 (mem_data_reg s) | _ => slice 24 8 (mem_data_reg s)
  end.
Definition mem_half s : Z :=
  if Alu.bit (alu_out_reg s) 1 then slice 16 16 (mem_data_reg s) else slice 0 16 (mem_data_reg s).
(** [{{(32-w){x[w-1]}}, x}] *)
Definition extend_sign (w : nat) (x : Z) : Z :=
  (if Alu.bit x (w - 1) then Z.ones (32 - Z.of_nat w) else 0) * 2 ^ Z.of_nat w + x.
Definition mem_data_extended s : Z :=
  if mem_sign_extend (ctrl s) then
    if mem_mask (ctrl s) =? 0xFF then extend_sign 8 (mem_byte s)
    else if mem_mask (ctrl s) =? 0xFFFF then extend_sign 16 (mem_half s)
    else mem_data_reg s
  else
    if mem_mask (ctrl s) =? 0xFF then mem_byte s
    else if mem_mask (ctrl s) =? 0xFFFF then mem_half s
    else mem_data_reg s.

Definition pc_plus_4 s : Z := (Alu.ripple_carry_adder_32 (pc_saved s) 4 false).1.
Definition pc_plus_imm s : Z := (Alu.ripple_carry_adder_32 (pc_saved s) (imm (ctrl s)) false).1.

Definition wb_data s : Z :=
  if is_jal (ctrl s) || is_jalr (ctrl s) then pc_plus_4 s
  else if wb_from_mem (ctrl s) then mem_data_extended s else alu_out_reg s.
Definition in_wb s : bool := match cpu_state s with WB => true | _ => false end.
Definition wb_enable s : bool := in_wb s && reg_write (ctrl s).
Definition vrf_wen s : bool := in_wb s && vec_reg_write (ctrl s).
Definition ebreak s : bool := ebreak_hit (ctrl s) && in_wb s.

(** * The clocked state machine *)

(** In each arm [s] is the state before the edge, which every right-hand side reads,
    and [t] collects the non-blocking assignments. *)

Definition fetch (i : inputs) (s t : state) : state :=
  t <| insn_reg := imem_rdata i |> <| pc_saved := pc_reg s |>
    <| trace_pc_reg := pc_reg s |> <| trace_insn_reg := imem_rdata i |> <| cpu_state := DECODE |>.

Definition decode_stage (s t : state) : state :=
  t <| ctrl := dec s |> <| vd_reg := rd (dec s) |>
    <| rdata1_reg := rf_rdata1 s |> <| rdata2_reg := rf_rdata2 s |>
    <| vs1_data_reg := vrf_rdata1 s |> <| vs2_data_reg := vrf_rdata2 s |>
    <| cpu_state := EXEC |>.

Definition to_wb (s t : state) : state := t <| pc_reg := pc_plus_4 s |> <| cpu_state := WB |>.

Definition exec_rdwrctr (s t : state) : state :=
  let c := ctrl s in
  to_wb s
    (if rdwrctr_wen c then
       match rdwrctr_ctr_id c with
       | 0 => t <| cycle_counter := rdata1_reg s |> | 1 => t <| insn_counter := rdata1_reg s |>
       | 2 => t <| load_counter := rdata1_reg s |> | _ => t <| store_counter := rdata1_reg s |>
       end
     else
       t <| alu_out_reg := match rdwrctr_ctr_id c with
                           | 0 => cycle_counter s | 1 => insn_counter s
                           | 2 => load_counter s | _ => store_counter s
                           end |>).

Definition exec_vec (s t : state) : state :=
  let c := ctrl s in
  let t :=
    if negb (vec_busy s) then
      let t := t <| vec_busy := true |> in
      if is_vec_mem s then t <| vlsu_start_reg := true |> else t <| vec_valid_in_reg := true |>
    else t <| vlsu_start_reg := false |> <| vec_valid_in_reg := false |> in
  if is_vec_mem s then
    if Vlsu.done (vlsu_inst s) then
      let t := if is_vec_load c then t <| vec_result_reg := Vlsu.load_data (vlsu_inst s) |> else t in
      to_wb s (t <| vec_busy := false |> <| vlsu_start_reg := false |>)
    else t <| cpu_state := EXEC |>
  else
    if Valu.valid_out (valu_inst s) then
      let t := if is_vec_vmac c then t <| alu_out_reg := slice 0 32 (Valu.result (valu_inst s)) |>
               else t <| vec_result_reg := Valu.result (valu_inst s) |> in
      to_wb s (t <| vec_busy := false |> <| vec_valid_in_reg := false |>)
    else t <| cpu_state := EXEC |>.

Definition exec_vmac (s t : state) : state :=
  let t := if negb (vmac_busy s) then t <| vmac_valid_in_reg := true |> <| vmac_busy := true |>
           else t <| vmac_valid_in_reg := false |> in
  if Vmac.valid_out (vmac_inst s) then
    to_wb s (t <| alu_out_reg := Vmac.result (vmac_inst s) |> <| vmac_busy := false |>
               <| vmac_valid_in_reg := false |>)
  else t <| cpu_state := EXEC |>.

(** Write data and byte mask of a store to address [a]. *)
Definition store_lanes (mask a d : Z) : Z * Z :=
  if mask =? 0xFF then
    (pack 8 [d; d; d; d], match wrap 2 a with 0 => 1 | 1 => 2 | 2 => 4 | _ => 8 end)
  else if mask =? 0xFFFF then (pack 16 [d; d], if Alu.bit a 1 then 12 else 3)
  else (d, 15).

Definition exec_alu (s t : state) : state :=
  let c := ctrl s in
  let t := t <| alu_out_reg := alu_out s |> in
  let t :=
    if is_jal c then t <| pc_reg := pc_plus_imm s |>
    else if is_jalr c then t <| pc_reg := 2 * slice 1 31 (alu_out s) |>
    else if take_branch s then t <| pc_reg := pc_plus_imm s |>
    else if negb (mem_read c) && negb (mem_write c) then t <| pc_reg := pc_plus_4 s |>
    else t in
  if mem_read c || mem_write c then
    let t := t <| dmem_req_valid_reg := true |> <| dmem_req_write_reg := mem_write c |>
               <| dmem_req_addr_reg := alu_out s |> in
    let t := if mem_write c then
               let '(d, m) := store_lanes (mem_mask c) (alu_out s) (rdata2_reg s) in
               t <| dmem_req_wdata_reg := d |> <| dmem_req_wmask_reg := m |>
             else t in
    t <| cpu_state := MEM |>
  else t <| cpu_state := WB |>.

Definition exec (s t : state) : state :=
  if is_rdwrctr (ctrl s) then exec_rdwrctr s t
  else if is_vec_op (ctrl s) then exec_vec s t
  else if is_vmac (ctrl s) then exec_vmac s t
  else exec_alu s t.

Definition mem_stage (i : inputs) (s t : state) : state :=
  if dmem_req_valid_reg s && dmem_req_ready i then
    let t := t <| dmem_req_valid_reg := false |> in
    if negb (mem_read (ctrl s)) then
      to_wb s (t <| store_counter := wrap 32 (store_counter s + 1) |>)
    else t
  else if negb (dmem_req_valid_reg s) && mem_read (ctrl s) then
    if dmem_resp_valid i then
      to_wb s (t <| mem_data_reg := dmem_resp_rdata i |>
                 <| load_counter := wrap 32 (load_counter s + 1) |>)
    else t
  else t.

Definition wb_stage (s t : state) : state :=
  t <| ctrl := (ctrl s) <| reg_write := false |> <| vec_reg_write := false |> |>
    <| cpu_state := FETCH |> <| insn_counter := wrap 32 (insn_counter s + 1) |>.

(** The FSM block outside reset. *)
Definition fsm (i : inputs) (s t : state) : state :=
  let t := t <| cycle_counter := wrap 32 (cycle_counter s + 1) |> in
  match cpu_state s with
  | FETCH => fetch i s t
  | DECODE => decode_stage s t
  | EXEC => exec s t
  | MEM => mem_stage i s t
  | WB => wb_stage s t
  | UNUSED => t <| cpu_state := FETCH |>
  end.

(** The FSM block in reset. *)
Definition fsm_reset (s t : state) : state :=
  t <| cpu_state := FETCH |> <| pc_reg := 0 |> <| dmem_req_valid_reg := false |>
    <| vmac_busy := false |> <| vmac_valid_in_reg := false |>
    <| cycle_counter := 0 |> <| insn_counter := 0 |> <| load_counter := 0 |> <| store_counter := 0 |>
    <| vd_reg := 0 |> <| vec_busy := false |> <| vec_valid_in_reg := false |>
    <| vlsu_start_reg := false |> <| vs1_data_reg := 0 |> <| vs2_data_reg := 0 |>
    <| vec_result_reg := 0 |>
    <| ctrl := (ctrl s) <| reg_write := false |> <| ebreak_hit := false |> <| is_vmac := false |>
         <| vmac_ctrl := Some 0 |> <| is_rdwrctr := false |> <| rdwrctr_wen := false |>
         <| rdwrctr_ctr_id := 0 |> <| is_vec_op := false |> <| vec_op := 0 |> <| vec_sew := 0 |>
         <| is_vec_load := false |> <| is_vec_store := false |> <| is_vec_vmac := false |>
         <| vec_reg_write := false |> |>.

(** The CSR block: in WB, whatever the instruction, the low immediate bits select a
    CSR that takes the first operand. *)
Definition csr_block (i : inputs) (s t : state) : state :=
  if negb (resetn i) then t <| mtvec := 0 |> <| mepc := 0 |> <| mcause := 0 |> <| mstatus := 0 |>
  else if in_wb s then
    match wrap 12 (imm (ctrl s)) with
    | 0x035 => t <| mtvec := rdata1_reg s |>
    | 0x341 => t <| mepc := rdata1_reg s |>
    | 0x342 => t <| mcause := rdata1_reg s |>
    | 0x300 => t <| mstatus := rdata1_reg s |>
    | _ => t
    end
  else t.

(** The pins of the execution units. *)
Definition vmac_pins (i : inputs) (s : state) : Vmac.inputs :=
  Vmac.Inputs (resetn i) (default dontcare (vmac_ctrl (ctrl s))) (rdata1_reg s) (rdata2_reg s)
    (vmac_valid_in_reg s).
Definition valu_pins (i : inputs) (s : state) : Valu.inputs :=
  Valu.Inputs (resetn i) (wrap 2 (vec_op (ctrl s))) (vec_sew (ctrl s))
    (vs1_data_reg s) (vs2_data_reg s)
    (vec_valid_in_reg s && negb (is_vec_load (ctrl s)) && negb (is_vec_store (ctrl s))).
Definition vlsu_pins (i : inputs) (s : state) : Vlsu.inputs :=
  Vlsu.Inputs (resetn i) (vlsu_start_reg s) (is_vec_store (ctrl s)) (rdata1_reg s) (vs2_data_reg s)
    (dmem_req_ready i) (dmem_resp_valid i) (dmem_resp_rdata i).

(** One clock edge of the core. *)
Definition step (i : inputs) (s : state) : state :=
  let t := s <| regs := rf_write (wb_enable s) (rd (ctrl s)) (wb_data s) (regs s) |>
             <| vregs := rf_write (vrf_wen s) (vd_reg s) (vec_result_reg s) (vregs s) |>
             <| vmac_inst := Vmac.step (vmac_pins i s) (vmac_inst s) |>
             <| valu_inst := Valu.step (valu_pins i s) (valu_inst s) |>
             <| vlsu_inst := Vlsu.step (vlsu_pins i s) (vlsu_inst s) |> in
  let t := csr_block i s t in
  if negb (resetn i) then fsm_reset s t else fsm i s t.
End Core.
End Cpu.

(** * Core, memory and bus *)

Module Soc.

(** Core, SRAM and [break_hit]. *)
Record state := State { cpu : Cpu.state; sram : Sram.state; break_hit : bool }.
#[export] Instance eta_state : Eta state := fun s => State (cpu s) (sram s) (break_hit s).

(** What the rest of [top.v] drives in a cycle: reset, the UART and the parallel port. *)
Record pins := Pins
  { resetn : bool; uart_ready : bool; uart_valid : bool; uart_rdata : Z; par_rdata : Z }.

Section Top.
Context (use_par : bool) (dontcare : Z).

(** The bus as the core sees it. *)
Definition cpu_inputs (p : pins) (s : state) : Cpu.inputs :=
  let raddr := Sram.dmem_addr_reg (sram s) in
  Cpu.Inputs (resetn p) (Sram.imem_rdata (sram s))
    (Sram.req_ready use_par (uart_ready p) (Cpu.dmem_req_addr (cpu s)))
    (Sram.resp_valid use_par (uart_valid p) raddr (sram s))
    (Sram.resp_rdata use_par (uart_rdata p) (par_rdata p) raddr (sram s)).

(** The core's request on the memory's pins; the UART page is not excluded. *)
Definition sram_inputs (s : state) : Sram.inputs :=
  Sram.Inputs (Cpu.imem_addr (cpu s)) (Cpu.dmem_req_addr (cpu s)) (Cpu.dmem_req_wdata (cpu s))
    (Cpu.dmem_req_wmask (cpu s)) (Cpu.dmem_req_write (cpu s)) (Cpu.dmem_req_valid (cpu s)).

Definition step (p : pins) (s : state) : state :=
  State (Cpu.step dontcare (cpu_inputs p s) (cpu s))
    (Sram.step (sram_inputs s) (sram s))
    (if negb (resetn p) then false else if Cpu.ebreak (cpu s) then true else break_hit s).
End Top.
End Soc.
