(* ===== verification/Isa.v ===== *)
(** The instruction set the core implements, as the assembler writes it: RV32I
    without FENCE and the CSR instructions, plus the custom SIMD and counter
    instructions. [encode] builds the instruction word from the register fields and the
    assembler's immediate macros and [step] is the architectural meaning of one
    instruction. *)

From S2P Require Import Prelude Vmac Valu Sram Decoder Opcodes Immediates.

Module Isa.

Inductive alu_op := ADD | SUB | AND | OR | XOR | SLL | SRL | SRA | SLT | SLTU.
Inductive cond := BEQ | BNE | BLT | BGE | BLTU | BGEU.
Inductive width := BYTE | HALF | WORD.
Inductive vec_op := VADD | VSUB | VMUL.

Inductive instr :=
  | Op (f : alu_op) (rd rs1 rs2 : Z)
  | OpImm (f : alu_op) (rd rs1 imm : Z)
  | Lui (rd imm : Z) | Auipc (rd imm : Z)
  | Jal (rd off : Z) | Jalr (rd rs1 imm : Z)
  | Branch (c : cond) (rs1 rs2 off : Z)
  | Load (w : width) (signed : bool) (rd rs1 imm : Z)
  | Store (w : width) (rs2 rs1 imm : Z)
  | Ebreak
  | Rdctr (rd ctr : Z) | Wrctr (ctr rs1 : Z)
  | Packed (op rd rs1 rs2 : Z)                 (* pvadd, pvmul, pvmac, pvmul_upper *)
  | Vec (f : vec_op) (sew vd vs1 vs2 : Z)      (* vadd, vsub, vmul *)
  | VMac (sew rd vs1 vs2 : Z)
  | Vld (vd rs1 : Z) | Vst (vs2 rs1 : Z).

(** * Encoding *)

(** Fields of the 32-bit formats. *)
Definition fields (opc rd f3 rs1 rs2 f7 : Z) : Z :=
  Z.lor (RV_X opc 0 7) (Z.lor (Z.shiftl (RV_X rd 0 5) 7) (Z.lor (Z.shiftl (RV_X f3 0 3) 12)
    (Z.lor (Z.shiftl (RV_X rs1 0 5) 15) (Z.lor (Z.shiftl (RV_X rs2 0 5) 20)
      (Z.shiftl (RV_X f7 0 7) 25))))).

Definition alu_funct3 (f : alu_op) : Z :=
  match f with
  | ADD | SUB => 0 | SLL => 1 | SLT => 2 | SLTU => 3 | XOR => 4 | SRL | SRA => 5 | OR => 6 | AND => 7
  end.
Definition alu_funct7 (f : alu_op) : Z := match f with SUB | SRA => 32 | _ => 0 end.
Definition is_shift (f : alu_op) : bool := match f with SLL | SRL | SRA => true | _ => false end.
Definition cond_funct3 (c : cond) : Z :=
  match c with BEQ => 0 | BNE => 1 | BLT => 4 | BGE => 5 | BLTU => 6 | BGEU => 7 end.
Definition width_funct3 (w : width) : Z := match w with BYTE => 0 | HALF => 1 | WORD => 2 end.
Definition vec_funct (f : vec_op) : Z := match f with VADD => 0 | VSUB => 1 | VMUL => 2 end.

Definition encode (i : instr) : Z :=
  match i with
  | Op f rd rs1 rs2 => fields 0x33 rd (alu_funct3 f) rs1 rs2 (alu_funct7 f)
  | OpImm f rd rs1 imm =>
      if is_shift f then fields 0x13 rd (alu_funct3 f) rs1 imm (alu_funct7 f)
      else Z.lor (fields 0x13 rd (alu_funct3 f) rs1 0 0) (ENCODE_ITYPE_IMM imm)
  | Lui rd imm => Z.lor (fields 0x37 rd 0 0 0 0) (ENCODE_UTYPE_IMM imm)
  | Auipc rd imm => Z.lor (fields 0x17 rd 0 0 0 0) (ENCODE_UTYPE_IMM imm)
  | Jal rd off => Z.lor (fields 0x6F rd 0 0 0 0) (ENCODE_JTYPE_IMM off)
  | Jalr rd rs1 imm => Z.lor (fields 0x67 rd 0 rs1 0 0) (ENCODE_ITYPE_IMM imm)
  | Branch c rs1 rs2 off =>
      Z.lor (fields 0x63 0 (cond_funct3 c) rs1 rs2 0) (ENCODE_BTYPE_IMM off)
  | Load w signed rd rs1 imm =>
      Z.lor (fields 0x03 rd (width_funct3 w + if signed then 0 else 4) rs1 0 0) (ENCODE_ITYPE_IMM imm)
  | Store w rs2 rs1 imm =>
      Z.lor (fields 0x23 0 (width_funct3 w) rs1 rs2 0) (ENCODE_STYPE_IMM imm)
  | Ebreak => 0x00100073
  | Rdctr rd ctr => fields 0x5B rd 0 0 ctr 0
  | Wrctr ctr rs1 => fields 0x5B 0 0 rs1 ctr 64
  | Packed op rd rs1 rs2 => fields 0x5B rd 1 rs1 rs2 op
  | Vec f sew vd vs1 vs2 => fields 0x5B vd 2 vs1 vs2 (32 * sew + vec_funct f)
  | VMac sew rd vs1 vs2 => fields 0x5B rd 2 vs1 vs2 (32 * sew + 3)
  | Vld vd rs1 => fields 0x5B vd 2 rs1 0 4
  | Vst vs2 rs1 => fields 0x5B 0 2 rs1 vs2 5
  end.

(** Operands in range; immediates accepted by the assembler. *)
Definition reg (r : Z) : Prop := urange 5 r.
#[export] Instance reg_dec r : Decision (reg r).
Proof. unfold reg. apply _. Defined.

(** What holds of all 32 register numbers can be checked one by one. *)
Definition registers : list Z := map Z.of_nat (seq 0 32).
Lemma forall_registers (P : Z -> bool) r : forallb P registers = true -> reg r -> P r = true.
Proof.
  intros H [H0 H1]. change (2 ^ 5) with 32 in H1. rewrite forallb_forall in H. apply H.
  unfold registers. rewrite <- (Z2Nat.id r) by done. apply in_map, in_seq. lia.
Qed.

Definition valid (i : instr) : Prop :=
  match i with
  | Op _ rd rs1 rs2 | Packed _ rd rs1 rs2 | Vec _ _ rd rs1 rs2 | VMac _ rd rs1 rs2 =>
      reg rd /\ reg rs1 /\ reg rs2 /\
      match i with
      | Packed op _ _ _ => urange 2 op | Vec _ sew _ _ _ | VMac sew _ _ _ => 0 <= sew <= 2
      | _ => True
      end
  | OpImm f rd rs1 imm =>
      reg rd /\ reg rs1 /\ f <> SUB /\
      (if is_shift f then urange 5 imm else VALID_ITYPE_IMM imm = true)
  | Lui rd imm | Auipc rd imm => reg rd /\ VALID_UTYPE_IMM imm = true
  | Jal rd off => reg rd /\ VALID_JTYPE_IMM off = true
  | Jalr rd rs1 imm => reg rd /\ reg rs1 /\ VALID_ITYPE_IMM imm = true
  | Branch _ rs1 rs2 off => reg rs1 /\ reg rs2 /\ VALID_BTYPE_IMM off = true
  | Load w signed rd rs1 imm =>
      reg rd /\ reg rs1 /\ VALID_ITYPE_IMM imm = true /\ (w = WORD -> signed = true)
  | Store _ rs2 rs1 imm => reg rs2 /\ reg rs1 /\ VALID_STYPE_IMM imm = true
  | Ebreak => True
  | Rdctr rd ctr => reg rd /\ urange 2 ctr
  | Wrctr ctr rs1 => reg rs1 /\ urange 2 ctr
  | Vld vd rs1 => reg vd /\ reg rs1
  | Vst vs2 rs1 => reg vs2 /\ reg rs1
  end.

(** * Architectural state *)

Record arch := Arch
  { pc : Z; x : Z -> Z; v : Z -> Z; mem : Z -> Z;
    cycle : Z; instret : Z; loads : Z; stores : Z;      (* the four counters *)
    halted : bool }.
#[export] Instance eta_arch : Eta arch := fun a =>
  Arch (pc a) (x a) (v a) (mem a) (cycle a) (instret a) (loads a) (stores a) (halted a).

(** Register 0 reads as zero and ignores writes, in both files. *)
Definition get (f : Z -> Z) (r : Z) : Z := if r =? 0 then 0 else f r.
Definition put (f : Z -> Z) (r d : Z) : Z -> Z :=
  if r =? 0 then f else fun q => if q =? r then d else f q.

(** Every register and memory word holds a value of its width. *)
Record wf (a : arch) : Prop := Wf
  { wf_pc : urange 32 (pc a);
    wf_x : forall r, urange 32 (x a r);
    wf_v : forall r, urange 64 (v a r);
    wf_mem : Sram.wf (mem a);
    wf_counters : urange 32 (cycle a) /\ urange 32 (instret a) /\
                  urange 32 (loads a) /\ urange 32 (stores a) }.

(** * Meaning *)

Definition alu (f : alu_op) (p q : Z) : Z :=
  match f with
  | ADD => wrap 32 (p + q) | SUB => wrap 32 (p - q)
  | AND => Z.land p q | OR => Z.lor p q | XOR => Z.lxor p q
  | SLL => wrap 32 (Z.shiftl p (wrap 5 q))
  | SRL => Z.shiftr p (wrap 5 q)
  | SRA => wrap 32 (Z.shiftr (sgn 32 p) (wrap 5 q))
  | SLT => if sgn 32 p <? sgn 32 q then 1 else 0
  | SLTU => if p <? q then 1 else 0
  end.

Definition holds (c : cond) (p q : Z) : bool :=
  match c with
  | BEQ => p =? q | BNE => negb (p =? q)
  | BLT => sgn 32 p <? sgn 32 q | BGE => negb (sgn 32 p <? sgn 32 q)
  | BLTU => p <? q | BGEU => negb (p <? q)
  end.

Definition bytes (w : width) : Z := match w with BYTE => 1 | HALF => 2 | WORD => 4 end.

(** The value of [n] bytes at an address, and a word memory with them replaced. *)
Definition load (m : Z -> Z) (w : width) (signed : bool) (a : Z) : Z :=
  let u := pack 8 (Sram.bytes_at m a (Z.to_nat (bytes w))) in
  if signed then wrap 32 (sgn (8 * bytes w) u) else u.
Definition store_mask (w : width) (a : Z) : Z := Z.shiftl (Z.ones (bytes w)) (a mod 4).
Definition store (m : Z -> Z) (w : width) (a d : Z) : Z -> Z :=
  Sram.write_word m (Sram.index a)
    (Sram.merge (store_mask w a) (m (Sram.index a)) (wrap 32 (Z.shiftl d (8 * (a mod 4))))).

Definition vec_fun (f : vec_op) : Z -> Z -> Z :=
  match f with VADD => Z.add | VSUB => Z.sub | VMUL => Z.mul end.

(** The two halves of a vector at an address and the word after it. *)
Definition vload (m : Z -> Z) (a : Z) : Z :=
  m (Sram.index a) + 2 ^ 32 * m (Sram.index (wrap 32 (a + 4))).
Definition vstore (m : Z -> Z) (a d : Z) : Z -> Z :=
  Sram.write_word (Sram.write_word m (Sram.index a) (slice 0 32 d))
    (Sram.index (wrap 32 (a + 4))) (slice 32 32 d).

(** Clock cycles of an instruction, from fetch to the next fetch. *)
Definition latency (i : instr) : nat :=
  match i with
  | Load _ _ _ _ _ => 6
  | Store _ _ _ _ => 5
  | Packed op _ _ _ => 6 + Vmac.latency op
  | Vec f sew _ _ _ => 6 + Valu.latency (vec_funct f) sew
  | VMac sew _ _ _ => 6 + Valu.latency 3 sew
  | Vld _ _ => 13
  | Vst _ _ => 11
  | _ => 4
  end.

(** Performance counters: the cycle counter is read two cycles into the instruction,
    and written one cycle before its end. *)
Definition counter (a : arch) (ctr : Z) : Z :=
  match ctr with 0 => wrap 32 (cycle a + 2) | 1 => instret a | 2 => loads a | _ => stores a end.
Definition set_counter (a : arch) (ctr d : Z) : arch :=
  match ctr with
  | 0 => a <| cycle := wrap 32 (d + 1) |> | 1 => a <| instret := wrap 32 (d + 1) |>
  | 2 => a <| loads := d |> | _ => a <| stores := d |>
  end.

(** The next state: [next] moves on, [seti] also writes a register. *)
Definition tick (i : instr) (a : arch) : arch :=
  a <| cycle := wrap 32 (cycle a + Z.of_nat (latency i)) |> <| instret := wrap 32 (instret a + 1) |>.
Definition goto (a : arch) (p : Z) : arch := a <| pc := wrap 32 p |>.
Definition next (a : arch) : arch := goto a (pc a + 4).
Definition setx (a : arch) (r d : Z) : arch := a <| x := put (x a) r d |>.
Definition setv (a : arch) (r d : Z) : arch := a <| v := put (v a) r d |>.

Definition step (i : instr) (a : arch) : arch :=
  let b := tick i a in
  match i with
  | Op f rd rs1 rs2 => setx (next b) rd (alu f (get (x a) rs1) (get (x a) rs2))
  | OpImm f rd rs1 imm => setx (next b) rd (alu f (get (x a) rs1) (wrap 32 imm))
  | Lui rd imm => setx (next b) rd (wrap 32 imm)
  | Auipc rd imm => setx (next b) rd (wrap 32 (pc a + imm))
  | Jal rd off => setx (goto b (pc a + off)) rd (wrap 32 (pc a + 4))
  | Jalr rd rs1 imm =>
      setx (goto b (2 * (wrap 32 (get (x a) rs1 + imm) / 2))) rd (wrap 32 (pc a + 4))
  | Branch c rs1 rs2 off =>
      if holds c (get (x a) rs1) (get (x a) rs2) then goto b (pc a + off) else next b
  | Load w signed rd rs1 imm =>
      (setx (next b) rd (load (mem a) w signed (wrap 32 (get (x a) rs1 + imm))))
        <| loads := wrap 32 (loads a + 1) |>
  | Store w rs2 rs1 imm =>
      (next b) <| mem := store (mem a) w (wrap 32 (get (x a) rs1 + imm)) (get (x a) rs2) |>
               <| stores := wrap 32 (stores a + 1) |>
  | Ebreak => (next b) <| halted := true |>
  | Rdctr rd ctr => setx (next b) rd (counter a ctr)
  | Wrctr ctr rs1 => set_counter (next b) ctr (get (x a) rs1)
  | Packed op rd rs1 rs2 => setx (next b) rd (Vmac.spec op (get (x a) rs1) (get (x a) rs2))
  | Vec f sew vd vs1 vs2 =>
      setv (next b) vd (Valu.elementwise (vec_fun f) sew (get (v a) vs1) (get (v a) vs2))
  | VMac sew rd vs1 vs2 =>
      setx (next b) rd (Valu.dot_product sew (get (v a) vs1) (get (v a) vs2))
  | Vld vd rs1 => setv (next b) vd (vload (mem a) (get (x a) rs1))
  | Vst vs2 rs1 => (next b) <| mem := vstore (mem a) (get (x a) rs1) (get (v a) vs2) |>
  end.

(** A sequence of instructions, in the order they execute. *)
Definition steps (l : list instr) (a : arch) : arch := fold_left (fun a i => step i a) l a.
Definition latencies (l : list instr) : nat := list_sum (map latency l).

(** * The type invariant *)

Lemma get_range w f r : 0 <= w -> (forall q, urange w (f q)) -> urange w (get f r).
Proof. intros Hw Hf. unfold get. destruct (r =? 0); [|apply Hf]. split; [lia|by apply pow2_pos]. Qed.
Lemma put_range w f r d q : (forall q, urange w (f q)) -> urange w d -> urange w (put f r d q).
Proof. intros Hf Hd. unfold put. destruct (r =? 0); [done|]. by destruct (q =? r). Qed.

Lemma bitwise_range w p q :
  0 <= w -> urange w p -> urange w q ->
  urange w (Z.land p q) /\ urange w (Z.lor p q) /\ urange w (Z.lxor p q).
Proof.
  intros Hw Hp Hq. rewrite <- (wrap_small w p), <- (wrap_small w q) by done.
  assert (H : forall op z, (forall i, Z.testbit z i = op (Z.testbit (wrap w p) i) (Z.testbit (wrap w q) i)) ->
            op false false = false -> urange w z).
  { intros op z Hz Hop. assert (z = wrap w z) as ->; [|by apply wrap_range].
    apply Z.bits_inj'. intros i Hi. rewrite testbit_wrap by done. destruct (Z.ltb_spec i w); [done|].
    rewrite Hz, !testbit_wrap by done. by replace (i <? w) with false by lia. }
  split_and!; [apply (H andb)|apply (H orb)|apply (H xorb)]; try done; intros i;
    [apply Z.land_spec|apply Z.lor_spec|apply Z.lxor_spec].
Qed.

Lemma alu_range f p q : urange 32 p -> urange 32 q -> urange 32 (alu f p q).
Proof.
  intros Hp Hq. destruct (bitwise_range 32 p q ltac:(lia) Hp Hq) as (? & ? & ?).
  destruct f; cbn [alu]; try done; try (apply wrap_range; lia).
  - pose proof (wrap_range 5 q ltac:(lia)). unfold urange in *. rewrite Z.shiftr_div_pow2 by lia.
    pose proof (pow2_pos (wrap 5 q)). split; [apply Z.div_pos; lia|].
    apply Z.div_lt_upper_bound; [lia|]. nia.
  - destruct (_ <? _); word_lia.
  - destruct (_ <? _); word_lia.
Qed.

Lemma pack_range' w n l : 0 <= w -> length l = n -> urange (w * Z.of_nat n) (pack w l).
Proof. intros Hw <-. by apply pack_range. Qed.

Lemma load_range m w signed a : urange 32 (load m w signed a).
Proof.
  unfold load. destruct signed; [apply wrap_range; lia|].
  pose proof (pack_range 8 (Sram.bytes_at m a (Z.to_nat (bytes w))) ltac:(lia)) as H.
  unfold Sram.bytes_at in *. rewrite length_map, length_seq in H.
  unfold urange in *. split; [lia|]. eapply Z.lt_le_trans; [apply H|].
  apply Z.pow_le_mono_r; destruct w; cbn; lia.
Qed.

Lemma zip_length {A B C} (f : A -> B -> C) l k n :
  length l = n -> length k = n -> length (zip_with f l k) = n.
Proof. intros H1 H2. rewrite length_zip_with. lia. Qed.

Lemma packed_range op p q : urange 32 (Vmac.spec op p q).
Proof.
  assert (Hl : forall z, length (slanes 8 4 z) = 4%nat) by (intros; apply length_slanes).
  unfold Vmac.spec. destruct op as [|[[]|[]|]|];
    first [ apply (pack_range' 8 4); [lia|]; apply zip_length; apply length_lanes
          | apply (pack_range' 16 2); [lia|]; rewrite ?length_take, ?length_drop, (zip_length _ _ _ 4) by done; done
          | apply wrap_range; lia ].
Qed.

Lemma elementwise_range g sew p q : urange 64 (Valu.elementwise g sew p q).
Proof.
  unfold Valu.elementwise.
  replace 64 with (Valu.width sew * Z.of_nat (Valu.count_of sew)).
  - apply pack_range'; [destruct sew as [|[]|]; cbn; lia|]. apply zip_length; apply length_lanes.
  - destruct sew as [|[]|]; done.
Qed.

Lemma write_wf m i d : Sram.wf m -> urange 32 d -> Sram.wf (Sram.write_word m i d).
Proof. intros Hm Hd j. unfold Sram.write_word. by destruct (j =? i). Qed.

Lemma vload_range m a : Sram.wf m -> urange 64 (vload m a).
Proof.
  intros Hm. unfold vload. pose proof (Hm (Sram.index a)). pose proof (Hm (Sram.index (wrap 32 (a + 4)))).
  unfold urange in *. word_pows. lia.
Qed.

Create HintDb isa.
#[export] Hint Resolve get_range put_range alu_range load_range packed_range elementwise_range write_wf
  vload_range wrap_range slice_range : isa.

Lemma wrap_word z : urange 32 (wrap 32 z).
Proof. apply wrap_range. lia. Qed.

Lemma counter_range a ctr : wf a -> urange 32 (counter a ctr).
Proof.
  intros [_ _ _ _ (? & ? & ? & ?)]. unfold counter.
  destruct ctr as [|[[]|[]|]|]; first [assumption | apply wrap_word].
Qed.

(** Updates of well-formed states. *)
Ltac wf_fields := split; try done; repeat first [assumption | apply wrap_word | apply conj].
Lemma tick_wf i a : wf a -> wf (tick i a).
Proof. intros [? ? ? ? (? & ? & ? & ?)]. wf_fields. Qed.
Lemma goto_wf a p : wf a -> wf (goto a p).
Proof. intros []. wf_fields. Qed.
Lemma setx_wf a r d : wf a -> urange 32 d -> wf (setx a r d).
Proof. intros [] ?. split; try done. intros q. by apply put_range. Qed.
Lemma setv_wf a r d : wf a -> urange 64 d -> wf (setv a r d).
Proof. intros [] ?. split; try done. intros q. by apply put_range. Qed.
Lemma set_mem_wf a m : wf a -> Sram.wf m -> wf (a <| mem := m |>).
Proof. intros [] ?. by split. Qed.
Lemma set_loads_wf a n : wf a -> urange 32 n -> wf (a <| loads := n |>).
Proof. intros [? ? ? ? (? & ? & ? & ?)] ?. wf_fields. Qed.
Lemma set_stores_wf a n : wf a -> urange 32 n -> wf (a <| stores := n |>).
Proof. intros [? ? ? ? (? & ? & ? & ?)] ?. wf_fields. Qed.
Lemma set_counter_wf a ctr d : wf a -> urange 32 d -> wf (set_counter a ctr d).
Proof.
  intros [? ? ? ? (? & ? & ? & ?)] ?. unfold set_counter.
  destruct ctr as [|[[]|[]|]|]; wf_fields.
Qed.
Lemma halt_wf a : wf a -> wf (a <| halted := true |>).
Proof. intros []. by split. Qed.
#[export] Hint Resolve tick_wf goto_wf setx_wf setv_wf set_mem_wf set_loads_wf set_stores_wf
  set_counter_wf halt_wf wrap_word counter_range Sram.merge_range : isa.

(** Every instruction keeps a well-formed state well-formed. *)
Lemma step_preserves i a : wf a -> wf (step i a).
Proof.
  intros Hwf. pose proof (tick_wf i a Hwf) as Ht. pose proof Hwf as [Hpc Hx Hv Hm (? & ? & ? & ?)].
  assert (Hg : forall r, urange 32 (get (x a) r)) by (intros; apply get_range; [lia|done]).
  assert (Hw : forall z lo, urange 32 (slice lo 32 z)) by (intros; apply slice_range; lia).
  destruct i; cbn [step]; unfold next, store, vstore; auto 6 with isa.
  - destruct (holds _ _ _); auto with isa.
  - apply setx_wf; auto with isa. unfold Valu.dot_product. auto with isa.
Qed.

End Isa.
