(* ===== verification/Execution.v ===== *)
(** How the core executes an instruction, clock edge by clock edge: fetch and decode,
    the execute (and memory) edges of each class, and write-back, from a [ready] state
    of the SoC to the next. The lemmas are stated on instruction words and decoder
    fields; [Refinement.v] puts the instruction set on top. *)

From S2P Require Import Prelude Vmac Valu Sram Vlsu Alu Decoder Cpu Isa.

Module Execution.
Import Cpu.

(** Compute the fields of updated records, and nothing else. *)
Ltac fields :=
  cbn [setter cpu_state pc_reg pc_saved insn_reg rdata1_reg rdata2_reg alu_out_reg mem_data_reg ctrl
    vd_reg cycle_counter insn_counter load_counter store_counter vmac_valid_in_reg vmac_busy
    vec_busy vec_valid_in_reg vlsu_start_reg vs1_data_reg vs2_data_reg vec_result_reg
    dmem_req_valid_reg dmem_req_write_reg dmem_req_addr_reg dmem_req_wdata_reg dmem_req_wmask_reg
    regs vregs vmac_inst valu_inst vlsu_inst
    Soc.cpu Soc.sram Soc.break_hit Sram.mem Sram.imem_addr_reg Sram.dmem_addr_reg
    Sram.dmem_resp_valid_reg Sram.imem_addr Sram.dmem_addr Sram.dmem_wdata Sram.dmem_wmask
    Sram.dmem_write Sram.dmem_valid].

(** Two update chains of one core, compared field by field. *)
Ltac same_core c :=
  destruct c;
  lazy beta iota zeta delta [setter cpu_state pc_reg pc_saved insn_reg rdata1_reg rdata2_reg alu_out_reg
    mem_data_reg ctrl vd_reg cycle_counter insn_counter load_counter store_counter vmac_valid_in_reg
    vmac_busy vec_busy vec_valid_in_reg vlsu_start_reg vs1_data_reg vs2_data_reg vec_result_reg
    dmem_req_valid_reg dmem_req_write_reg dmem_req_addr_reg dmem_req_wdata_reg dmem_req_wmask_reg
    regs vregs vmac_inst valu_inst vlsu_inst mtvec mepc mcause mstatus trace_pc_reg trace_insn_reg] in *;
  subst; reflexivity.

(** * Units at rest *)

Lemma vmac_rest i u :
  Vmac.rst_n i = true -> Vmac.valid_in i = false ->
  Vmac.computing u = false -> Vmac.valid_out u = false -> Vmac.step i u = u.
Proof. unfold Vmac.step. by intros -> -> -> ->. Qed.

Lemma valu_rest i u :
  Valu.rst_n i = true -> Valu.valid_in i = false ->
  Valu.computing u = false -> Valu.valid_out u = false -> Valu.step i u = u.
Proof. unfold Valu.step. by intros -> -> -> ->. Qed.

Lemma vlsu_rest i u :
  Vlsu.rst_n i = true -> Vlsu.start i = false ->
  Vlsu.fsm_state u = Vlsu.IDLE -> Vlsu.done u = false -> Vlsu.step i u = u.
Proof. destruct u. unfold Vlsu.step. cbn. by intros -> -> -> ->. Qed.

(** No unit is computing and none has an unread result. *)
Record units_rest (c : state) : Prop := UnitsRest
  { vmac_rests : Vmac.computing (vmac_inst c) = false /\ Vmac.valid_out (vmac_inst c) = false;
    valu_rests : Valu.computing (valu_inst c) = false /\ Valu.valid_out (valu_inst c) = false;
    vlsu_rests : Vlsu.resting (vlsu_inst c) /\ Vlsu.done (vlsu_inst c) = false }.

(** No unit is being started and no memory request is out. *)
Record quiet (c : state) : Prop := Quiet
  { q_units : units_rest c;
    q_vmac : vmac_valid_in_reg c = false /\ vmac_busy c = false;
    q_vec : vec_busy c = false /\ vec_valid_in_reg c = false /\ vlsu_start_reg c = false;
    q_req : dmem_req_valid_reg c = false }.

(** Between two instructions. The instruction port already reads the next word. *)
Record ready (s : Soc.state) : Prop := Ready
  { r_fetch : cpu_state (Soc.cpu s) = FETCH;
    r_quiet : quiet (Soc.cpu s);
    r_imem : Sram.imem_addr_reg (Soc.sram s) = pc_reg (Soc.cpu s) }.

Lemma quiet_intro c :
  units_rest c -> vmac_valid_in_reg c = false -> vmac_busy c = false -> vec_busy c = false ->
  vec_valid_in_reg c = false -> vlsu_start_reg c = false -> dmem_req_valid_reg c = false -> quiet c.
Proof. intros. by split. Qed.

(** Quietness only looks at the units and at the request and busy flags. *)
Lemma quiet_frame c c' :
  vmac_inst c' = vmac_inst c -> valu_inst c' = valu_inst c -> vlsu_inst c' = vlsu_inst c ->
  vmac_valid_in_reg c' = vmac_valid_in_reg c -> vmac_busy c' = vmac_busy c ->
  vec_busy c' = vec_busy c -> vec_valid_in_reg c' = vec_valid_in_reg c ->
  vlsu_start_reg c' = vlsu_start_reg c -> dmem_req_valid_reg c' = dmem_req_valid_reg c ->
  quiet c -> quiet c'.
Proof.
  intros E1 E2 E3 E4 E5 E6 E7 E8 E9 [[? ? ?] [? ?] (? & ? & ?) ?].
  apply quiet_intro; [split|..]; congruence.
Qed.
Ltac frame c := apply (quiet_frame c); [reflexivity..|].

(** Every pin vector of a run is out of reset. *)
Definition awake (ps : list Soc.pins) : Prop := Forall (fun p => Soc.resetn p = true) ps.

(** Split a run into its pin vectors. *)
Ltac pins ps :=
  repeat match goal with
  | H : length ps = S _ |- _ => destruct ps as [|?p ps]; [discriminate H|]; injection H as H
  | H : length ps = O |- _ => destruct ps; [clear H|discriminate H]
  end;
  unfold awake in *;
  repeat match goal with
  | H : Forall _ (_ :: _) |- _ => apply Forall_cons_1 in H as [? H]
  | H : Forall _ [] |- _ => clear H
  end.

(** * The core's step, apart from the units *)

Section Steps.
Context (use_par : bool) (dontcare : Z).
Abbreviation cstep := (Cpu.step dontcare).
Abbreviation sstep := (Soc.step use_par dontcare).

(** The units rest when they are idle and not started. *)
Definition unstarted (c : state) : Prop :=
  vmac_valid_in_reg c = false /\ vec_valid_in_reg c = false /\ vlsu_start_reg c = false.

Lemma quiet_unstarted c : quiet c -> unstarted c.
Proof. intros [_ [? ?] (? & ? & ?) _]. by split_and!. Qed.

(** Outside write-back only the FSM block changes anything. *)
Lemma step_fsm i c :
  resetn i = true -> units_rest c -> unstarted c -> in_wb c = false ->
  cstep i c = fsm dontcare i c c.
Proof.
  intros Hr [[Hm Hm'] [Ha Ha'] [[Hl Hl2] Hl']] (Hum & Huv & Hul) Hwb. unfold Cpu.step.
  rewrite vmac_rest, valu_rest, vlsu_rest by
    (first [done | cbn; by rewrite ?Hr, ?Hum, ?Huv, ?Hul]).
  unfold csr_block. rewrite Hr, Hwb. cbn [negb].
  unfold wb_enable, vrf_wen, rf_write. rewrite Hwb. cbn [andb]. by destruct c.
Qed.

(** In write-back the register files are written, and some CSR may be. *)
Lemma csr_block_only i s t :
  exists m1 m2 m3 m4, csr_block i s t
    = t <| mtvec := m1 |> <| mepc := m2 |> <| mcause := m3 |> <| mstatus := m4 |>.
Proof.
  exists (mtvec (csr_block i s t)), (mepc (csr_block i s t)), (mcause (csr_block i s t)),
    (mstatus (csr_block i s t)).
  destruct t. unfold csr_block. destruct (resetn i), (in_wb s); cbn [negb]; try reflexivity.
  repeat match goal with |- context [match ?z with _ => _ end] => destruct z end; reflexivity.
Qed.

(** What the architecture sees of the SoC. *)
Definition abs (s : Soc.state) : Isa.arch :=
  let c := Soc.cpu s in
  Isa.Arch (pc_reg c) (regs c) (vregs c) (Sram.mem (Soc.sram s))
    (cycle_counter c) (insn_counter c) (load_counter c) (store_counter c) (Soc.break_hit s).

(** * Write-back *)

Record at_wb (s : Soc.state) : Prop := AtWb
  { wb_state : cpu_state (Soc.cpu s) = WB; wb_quiet : quiet (Soc.cpu s) }.

Lemma step_wb i c :
  resetn i = true -> units_rest c -> unstarted c -> cpu_state c = WB ->
  exists m1 m2 m3 m4, cstep i c = wb_stage c
    (c <| regs := rf_write (Decoder.reg_write (ctrl c)) (Decoder.rd (ctrl c)) (wb_data c) (regs c) |>
       <| vregs := rf_write (Decoder.vec_reg_write (ctrl c)) (vd_reg c) (vec_result_reg c) (vregs c) |>
       <| mtvec := m1 |> <| mepc := m2 |> <| mcause := m3 |> <| mstatus := m4 |>
       <| cycle_counter := wrap 32 (cycle_counter c + 1) |>).
Proof.
  intros Hr [[Hm Hm'] [Ha Ha'] [[Hl Hl2] Hl']] (Hum & Huv & Hul) Hwb. unfold Cpu.step.
  rewrite vmac_rest, valu_rest, vlsu_rest by
    (first [done | cbn; by rewrite ?Hr, ?Hum, ?Huv, ?Hul]).
  match goal with |- context [csr_block i c ?t] =>
    destruct (csr_block_only i c t) as (m1 & m2 & m3 & m4 & ->) end.
  exists m1, m2, m3, m4. rewrite Hr. cbn [negb]. unfold fsm. rewrite Hwb.
  unfold wb_enable, vrf_wen, in_wb. rewrite Hwb. by destruct c.
Qed.

Lemma write_back p s :
  Soc.resetn p = true -> at_wb s ->
  let c := Soc.cpu s in let s' := sstep p s in
  ready s' /\ Sram.dmem_addr_reg (Soc.sram s') = Sram.dmem_addr_reg (Soc.sram s) /\
  abs s' = Isa.Arch (pc_reg c)
    (rf_write (Decoder.reg_write (ctrl c)) (Decoder.rd (ctrl c)) (wb_data c) (regs c))
    (rf_write (Decoder.vec_reg_write (ctrl c)) (vd_reg c) (vec_result_reg c) (vregs c))
    (Sram.mem (Soc.sram s)) (wrap 32 (cycle_counter c + 1)) (wrap 32 (insn_counter c + 1))
    (load_counter c) (store_counter c)
    (if Decoder.ebreak_hit (ctrl c) then true else Soc.break_hit s).
Proof.
  intros Hr [Hs Hq]. destruct s as [c m b]. cbn [Soc.cpu Soc.sram Soc.break_hit] in *.
  cbv zeta. unfold Soc.step. rewrite Hr. cbn [negb Soc.cpu Soc.sram Soc.break_hit].
  destruct (step_wb (Soc.cpu_inputs use_par p (Soc.State c m b)) c Hr (q_units c Hq)
    (quiet_unstarted c Hq) Hs) as (m1 & m2 & m3 & m4 & ->).
  destruct Hq as [[[Hm Hm'] [Ha Ha'] [[Hl Hl2] Hl']] [Hv Hvb] (Hb & Hvv & Hvl) Hrq]. split_and!.
  - by repeat split.
  - unfold Sram.step, Soc.sram_inputs, dmem_req_valid, vec_mem_active. cbn. by rewrite Hb, andb_false_r, Hrq.
  - unfold abs, ebreak, in_wb. cbn. rewrite Hs, andb_true_r. f_equal.
    unfold dmem_req_valid, vec_mem_active. by rewrite Hb, andb_false_r, Hrq.
Qed.

(** * Fetch and decode *)

(** One edge of the SoC outside write-back, the units at rest. *)
Lemma step_soc p c m b :
  Soc.resetn p = true -> units_rest c -> unstarted c -> in_wb c = false ->
  sstep p (Soc.State c m b)
  = Soc.State (fsm dontcare (Soc.cpu_inputs use_par p (Soc.State c m b)) c c)
      (Sram.step (Soc.sram_inputs (Soc.State c m b)) m) b.
Proof.
  intros Hr Hu Hs Hwb. unfold Soc.step. cbn [Soc.cpu Soc.sram Soc.break_hit].
  rewrite step_fsm by done. rewrite Hr. unfold ebreak. by rewrite Hwb, andb_false_r.
Qed.

(** Without a request the memory only follows the program counter. *)
Lemma sram_quiet c m b :
  dmem_req_valid c = false ->
  Sram.step (Soc.sram_inputs (Soc.State c m b)) m
  = Sram.State (Sram.mem m) (pc_reg c) (Sram.dmem_addr_reg m) false.
Proof. intros H. unfold Sram.step, Soc.sram_inputs. cbn. by rewrite H. Qed.

Lemma no_request c : vec_busy c = false -> dmem_req_valid_reg c = false -> dmem_req_valid c = false.
Proof. intros Hb Hv. unfold dmem_req_valid, vec_mem_active. by rewrite Hb, andb_false_r. Qed.

(** The core after fetching and decoding [insn]. *)
Definition fetched (c : state) (insn : Z) : state :=
  let d := Decoder.decode insn in
  c <| cpu_state := EXEC |> <| insn_reg := insn |> <| pc_saved := pc_reg c |>
    <| trace_pc_reg := pc_reg c |> <| trace_insn_reg := insn |>
    <| ctrl := d |> <| vd_reg := Decoder.rd d |>
    <| rdata1_reg := rf_read (regs c) (Decoder.rs1 d) |>
    <| rdata2_reg := rf_read (regs c) (Decoder.rs2 d) |>
    <| vs1_data_reg := rf_read (vregs c) (Decoder.rs1 d) |>
    <| vs2_data_reg := rf_read (vregs c) (Decoder.rs2 d) |>
    <| cycle_counter := wrap 32 (cycle_counter c + 2) |>.

Lemma wrap_succ n c : wrap 32 (wrap 32 (c + n) + 1) = wrap 32 (c + (n + 1)).
Proof. rewrite wrap_add_l. f_equal. lia. Qed.

Lemma fetched_quiet c insn : quiet c -> quiet (fetched c insn).
Proof. by frame c. Qed.

Lemma fetch_decode p1 p2 c m b :
  Soc.resetn p1 = true -> Soc.resetn p2 = true -> ready (Soc.State c m b) ->
  sstep p2 (sstep p1 (Soc.State c m b))
  = Soc.State (fetched c (Sram.mem m (Sram.index (pc_reg c))))
      (Sram.State (Sram.mem m) (pc_reg c) (Sram.dmem_addr_reg m) false) b.
Proof.
  intros H1 H2 [Hs Hq Hi]. cbn [Soc.cpu Soc.sram] in *.
  pose proof (quiet_unstarted c Hq) as Hun. pose proof Hq as [Hu _ (Hb & _ & _) Hrq].
  rewrite step_soc by (done || unfold in_wb; by rewrite Hs).
  rewrite sram_quiet by (by apply no_request).
  unfold fsm. rewrite Hs. unfold fetch. cbn [imem_rdata Soc.cpu_inputs Soc.sram Soc.cpu].
  unfold Sram.imem_rdata. rewrite Hi.
  rewrite step_soc by (first [done | exact Hun | by destruct Hu]).
  rewrite sram_quiet by (by apply no_request).
  f_equal. unfold fsm. cbn [cpu_state]. unfold decode_stage, fetched.
  cbn. by rewrite wrap_succ.
Qed.

(** * Execute *)

Lemma exec_edge p c m b :
  Soc.resetn p = true -> quiet c -> cpu_state c = EXEC ->
  sstep p (Soc.State c m b)
  = Soc.State (exec dontcare c (c <| cycle_counter := wrap 32 (cycle_counter c + 1) |>))
      (Sram.State (Sram.mem m) (pc_reg c) (Sram.dmem_addr_reg m) false) b.
Proof.
  intros Hr Hq Hs. pose proof (quiet_unstarted c Hq) as Hun. pose proof Hq as [Hu _ (Hb & _ & _) Hrq].
  rewrite step_soc by (done || unfold in_wb; by rewrite Hs).
  rewrite sram_quiet by (by apply no_request). f_equal. unfold fsm. by rewrite Hs.
Qed.

(** What the write-back of [c] leaves behind, from the memory [m]. *)
Definition retired (c : state) (m : Z -> Z) (b : bool) : Isa.arch :=
  let d := ctrl c in
  Isa.Arch (pc_reg c) (rf_write (Decoder.reg_write d) (Decoder.rd d) (wb_data c) (regs c))
    (rf_write (Decoder.vec_reg_write d) (vd_reg c) (vec_result_reg c) (vregs c))
    m (wrap 32 (cycle_counter c + 1)) (wrap 32 (insn_counter c + 1))
    (load_counter c) (store_counter c) (if Decoder.ebreak_hit d then true else b).

(** The last edge, in terms of the state before it. *)
Lemma retire p c m b :
  Soc.resetn p = true -> cpu_state c = WB -> quiet c ->
  let s' := sstep p (Soc.State c m b) in
  ready s' /\ Sram.dmem_addr_reg (Soc.sram s') = Sram.dmem_addr_reg m /\
  abs s' = retired c (Sram.mem m) b.
Proof. intros Hr Hs Hq. by apply (write_back p (Soc.State c m b)). Qed.

(** The first two edges of a run. *)
Lemma run_decoded p1 p2 ps c m b :
  Soc.resetn p1 = true -> Soc.resetn p2 = true -> ready (Soc.State c m b) ->
  run sstep (p1 :: p2 :: ps) (Soc.State c m b)
  = run sstep ps (Soc.State (fetched c (Sram.mem m (Sram.index (pc_reg c))))
      (Sram.State (Sram.mem m) (pc_reg c) (Sram.dmem_addr_reg m) false) b).
Proof. intros. rewrite !run_cons. by rewrite fetch_decode. Qed.

(** An instruction has executed: the SoC is ready for the next one, [a] is the
    architectural state and [ra] the last address read on the data port. *)
Definition executed (s : Soc.state) (ra : Z) (a : Isa.arch) : Prop :=
  ready s /\ Sram.dmem_addr_reg (Soc.sram s) = ra /\ abs s = a.

Lemma retire_executed p c m b ra a :
  Soc.resetn p = true -> cpu_state c = WB -> quiet c ->
  Sram.dmem_addr_reg m = ra -> retired c (Sram.mem m) b = a ->
  executed (sstep p (Soc.State c m b)) ra a.
Proof. intros ? ? ? <- <-. by apply retire. Qed.

Lemma executed_eq s ra a a' : executed s ra a -> a = a' -> executed s ra a'.
Proof. by intros H <-. Qed.

(** An instruction that leaves EXEC after one edge. *)
Lemma one_exec_edge ps c m b c3 :
  awake ps -> length ps = 2%nat -> quiet c -> cpu_state c = EXEC ->
  exec dontcare c (c <| cycle_counter := wrap 32 (cycle_counter c + 1) |>) = c3 ->
  cpu_state c3 = WB -> quiet c3 ->
  executed (run sstep ps (Soc.State c m b)) (Sram.dmem_addr_reg m) (retired c3 (Sram.mem m) b).
Proof.
  intros Ha Hl Hq Hs He Hwb Hq3. pins ps. unfold run. cbn [fold_left].
  rewrite exec_edge, He by done.
  by apply retire_executed.
Qed.

(** ** RV32I without memory *)

(** The next program counter of the core. *)
Definition next_pc (c : state) : Z :=
  let d := ctrl c in
  if Decoder.is_jal d then pc_plus_imm c
  else if Decoder.is_jalr d then 2 * slice 1 31 (alu_out dontcare c)
  else if take_branch dontcare c then pc_plus_imm c else pc_plus_4 c.

(** None of the special execution paths. *)
Definition plain (d : Decoder.outputs) : Prop :=
  Decoder.is_rdwrctr d = false /\ Decoder.is_vec_op d = false /\ Decoder.is_vmac d = false /\
  Decoder.vec_reg_write d = false.

Lemma alu_insn ps c m b :
  awake ps -> length ps = 2%nat -> quiet c -> cpu_state c = EXEC ->
  let d := ctrl c in
  plain d -> Decoder.mem_read d = false -> Decoder.mem_write d = false ->
  Decoder.wb_from_mem d = false ->
  executed (run sstep ps (Soc.State c m b)) (Sram.dmem_addr_reg m)
    (Isa.Arch (next_pc c)
      (rf_write (Decoder.reg_write d) (Decoder.rd d)
         (if Decoder.is_jal d || Decoder.is_jalr d then pc_plus_4 c else alu_out dontcare c) (regs c))
      (vregs c) (Sram.mem m) (wrap 32 (cycle_counter c + 2)) (wrap 32 (insn_counter c + 1))
      (load_counter c) (store_counter c) (if Decoder.ebreak_hit d then true else b)).
Proof.
  intros Ha Hl Hq Hs d (Hc & Hv & Hm & Hvw) Hrd Hwr Hfm. subst d.
  set (t := c <| cycle_counter := wrap 32 (cycle_counter c + 1) |>).
  assert (E : exec dontcare c t
    = t <| alu_out_reg := alu_out dontcare c |> <| pc_reg := next_pc c |> <| cpu_state := WB |>).
  { unfold exec, exec_alu, next_pc. rewrite Hc, Hv, Hm, Hrd, Hwr. cbn [orb andb negb].
    by destruct (Decoder.is_jal (ctrl c)), (Decoder.is_jalr (ctrl c)), (take_branch dontcare c). }
  eapply executed_eq; [apply (one_exec_edge ps c m b _ Ha Hl Hq Hs E); [reflexivity|by frame c]|].
  unfold retired, wb_data. subst t. fields. rewrite Hvw, Hfm, wrap_succ. by destruct (_ || _).
Qed.

(** ** Performance counters *)

Lemma rdctr_insn ps c m b :
  awake ps -> length ps = 2%nat -> quiet c -> cpu_state c = EXEC ->
  let d := ctrl c in
  Decoder.is_rdwrctr d = true -> Decoder.rdwrctr_wen d = false -> Decoder.vec_reg_write d = false ->
  Decoder.wb_from_mem d = false -> Decoder.is_jal d = false -> Decoder.is_jalr d = false ->
  executed (run sstep ps (Soc.State c m b)) (Sram.dmem_addr_reg m)
    (Isa.Arch (pc_plus_4 c)
      (rf_write (Decoder.reg_write d) (Decoder.rd d)
         (match Decoder.rdwrctr_ctr_id d with
          | 0 => cycle_counter c | 1 => insn_counter c | 2 => load_counter c | _ => store_counter c
          end) (regs c))
      (vregs c) (Sram.mem m) (wrap 32 (cycle_counter c + 2)) (wrap 32 (insn_counter c + 1))
      (load_counter c) (store_counter c) (if Decoder.ebreak_hit d then true else b)).
Proof.
  intros Ha Hl Hq Hs d Hc Hw Hvw Hfm Hj Hjr. subst d.
  eapply executed_eq; [eapply (one_exec_edge ps c m b _ Ha Hl Hq Hs)|].
  - unfold exec, exec_rdwrctr, to_wb. rewrite Hc, Hw. reflexivity.
  - reflexivity.
  - by frame c.
  - unfold retired, wb_data. fields. by rewrite Hvw, Hfm, Hj, Hjr, wrap_succ.
Qed.

Lemma wrctr_insn ps c m b :
  awake ps -> length ps = 2%nat -> quiet c -> cpu_state c = EXEC ->
  let d := ctrl c in
  Decoder.is_rdwrctr d = true -> Decoder.rdwrctr_wen d = true -> Decoder.vec_reg_write d = false ->
  Decoder.rd d = 0 -> Decoder.ebreak_hit d = false -> urange 2 (Decoder.rdwrctr_ctr_id d) ->
  executed (run sstep ps (Soc.State c m b)) (Sram.dmem_addr_reg m)
    (Isa.set_counter
      (Isa.Arch (pc_plus_4 c) (regs c) (vregs c) (Sram.mem m)
        (wrap 32 (cycle_counter c + 2)) (wrap 32 (insn_counter c + 1))
        (load_counter c) (store_counter c) b) (Decoder.rdwrctr_ctr_id d) (rdata1_reg c)).
Proof.
  intros Ha Hl Hq Hs d Hc Hw Hvw Hrd Hb Hid. subst d.
  assert (In (Decoder.rdwrctr_ctr_id (ctrl c)) [0; 1; 2; 3]) as Hin by (cbn; word_lia).
  assert (Hrf : forall v, rf_write (Decoder.reg_write (ctrl c)) 0 v (regs c) = regs c).
  { intros v. unfold rf_write. by rewrite andb_false_r. }
  eapply executed_eq; [eapply (one_exec_edge ps c m b _ Ha Hl Hq Hs)|].
  - unfold exec, exec_rdwrctr, to_wb. rewrite Hc, Hw. reflexivity.
  - by destruct Hin as [<-|[<-|[<-|[<-|[]]]]].
  - destruct Hin as [<-|[<-|[<-|[<-|[]]]]]; by frame c.
  - destruct Hin as [E|[E|[E|[E|[]]]]]; rewrite <- E; unfold retired; fields;
      rewrite Hvw, Hrd, Hb, Hrf, ?wrap_succ; reflexivity.
Qed.

(** ** Loads and stores *)

(** An edge of MEM with the units at rest: request and response of the SRAM. *)
Lemma mem_edge p c m b :
  Soc.resetn p = true -> units_rest c -> unstarted c -> vec_busy c = false ->
  cpu_state c = MEM -> Sram.req_ready use_par (Soc.uart_ready p) (dmem_req_addr_reg c) = true ->
  sstep p (Soc.State c m b)
  = Soc.State
      (let t := c <| cycle_counter := wrap 32 (cycle_counter c + 1) |> in
       if dmem_req_valid_reg c then
         let t := t <| dmem_req_valid_reg := false |> in
         if negb (Decoder.mem_read (ctrl c)) then
           to_wb c (t <| store_counter := wrap 32 (store_counter c + 1) |>)
         else t
       else mem_stage (Soc.cpu_inputs use_par p (Soc.State c m b)) c t)
      (Sram.step (Sram.Inputs (pc_reg c) (dmem_req_addr_reg c) (dmem_req_wdata_reg c)
         (dmem_req_wmask_reg c) (dmem_req_write_reg c) (dmem_req_valid_reg c)) m) b.
Proof.
  intros Hr Hu Hun Hb Hs Ha. rewrite step_soc by (done || unfold in_wb; by rewrite Hs).
  assert (Hv : vec_mem_active c = false) by (unfold vec_mem_active; by rewrite Hb, andb_false_r).
  f_equal.
  - unfold fsm. rewrite Hs. destruct (dmem_req_valid_reg c) eqn:Hd; [|done].
    unfold mem_stage. rewrite Hd. cbn [Soc.cpu_inputs dmem_req_ready Soc.cpu].
    unfold dmem_req_addr. rewrite Hv, Ha. done.
  - unfold Soc.sram_inputs, dmem_req_addr, dmem_req_wdata, dmem_req_wmask, dmem_req_write,
      dmem_req_valid, imem_addr. cbn [Soc.cpu]. by rewrite Hv.
Qed.

(** The request registers after the execute edge of a memory instruction. *)
Definition requested (c : state) : state :=
  let d := ctrl c in let a := alu_out dontcare c in
  let t := c <| cycle_counter := wrap 32 (cycle_counter c + 1) |> <| alu_out_reg := a |>
             <| dmem_req_valid_reg := true |> <| dmem_req_write_reg := Decoder.mem_write d |>
             <| dmem_req_addr_reg := a |> in
  (if Decoder.mem_write d then
     t <| dmem_req_wdata_reg := (store_lanes (Decoder.mem_mask d) a (rdata2_reg c)).1 |>
       <| dmem_req_wmask_reg := (store_lanes (Decoder.mem_mask d) a (rdata2_reg c)).2 |>
   else t) <| cpu_state := MEM |>.

(** Memory instructions do not jump. *)
Definition straight (d : Decoder.outputs) : Prop :=
  Decoder.is_jal d = false /\ Decoder.is_jalr d = false /\ Decoder.is_branch d = false.

Lemma request_edge c :
  plain (ctrl c) -> straight (ctrl c) ->
  Decoder.mem_read (ctrl c) || Decoder.mem_write (ctrl c) = true ->
  exec dontcare c (c <| cycle_counter := wrap 32 (cycle_counter c + 1) |>) = requested c.
Proof.
  intros (Hc & Hv & Hm & _) (Hj & Hjr & Hbr) Hrw. unfold exec, exec_alu, take_branch, requested.
  rewrite Hc, Hv, Hm, Hj, Hjr, Hbr, Hrw. cbn [andb].
  destruct (store_lanes _ _ _) as [w k]. cbn [fst snd].
  destruct (Decoder.mem_read (ctrl c)), (Decoder.mem_write (ctrl c)); done.
Qed.

Lemma store_insn ps c m b :
  awake ps -> length ps = 3%nat -> quiet c -> cpu_state c = EXEC ->
  let d := ctrl c in let a := alu_out dontcare c in
  plain d -> straight d -> Decoder.mem_read d = false -> Decoder.mem_write d = true ->
  Decoder.reg_write d = false -> Decoder.ebreak_hit d = false ->
  Forall (fun p => Sram.req_ready use_par (Soc.uart_ready p) a = true) ps ->
  let '(wd, wm) := store_lanes (Decoder.mem_mask d) a (rdata2_reg c) in
  executed (run sstep ps (Soc.State c m b)) (Sram.dmem_addr_reg m)
    (Isa.Arch (pc_plus_4 c) (regs c) (vregs c)
      (Sram.write_word (Sram.mem m) (Sram.index a) (Sram.merge wm (Sram.mem m (Sram.index a)) wd))
      (wrap 32 (cycle_counter c + 3)) (wrap 32 (insn_counter c + 1))
      (load_counter c) (wrap 32 (store_counter c + 1)) b).
Proof.
  intros Ha Hl Hq Hs d a Hp Hst Hrd Hwr Hrw Heb Hua. subst d a.
  pose proof (quiet_unstarted c Hq) as Hun. pose proof Hq as [[? ? ?] _ (Hb & _ & _) _].
  pins ps. repeat match goal with H : Forall _ (_ :: _) |- _ => apply Forall_cons_1 in H as [? H] end.
  unfold run. cbn [fold_left].
  rewrite exec_edge by done. rewrite request_edge by (done || by rewrite Hwr, orb_true_r).
  unfold requested. rewrite Hwr. destruct (store_lanes _ _ _) as [wd wm] eqn:Hsl. cbn [fst snd].
  rewrite mem_edge; [|done|by split|exact Hun|exact Hb|reflexivity|assumption].
  fields. rewrite Hrd. cbn [negb]. unfold Sram.step. cbn [Sram.dmem_valid Sram.dmem_write andb negb].
  apply retire_executed; [done|reflexivity| |reflexivity|].
  - destruct Hq as [[? ? ?] [? ?] (? & ? & ?) ?]. by apply quiet_intro.
  - unfold retired, to_wb. fields. destruct Hp as (_ & _ & _ & Hvw).
    rewrite Hvw, Hrw, Heb, !wrap_succ. reflexivity.
Qed.

Lemma load_insn ps c m b :
  awake ps -> length ps = 4%nat -> quiet c -> cpu_state c = EXEC ->
  let d := ctrl c in let a := alu_out dontcare c in
  plain d -> straight d -> Decoder.mem_read d = true -> Decoder.mem_write d = false ->
  Decoder.wb_from_mem d = true -> Decoder.ebreak_hit d = false -> Sram.is_uart a = false ->
  executed (run sstep ps (Soc.State c m b)) a
    (Isa.Arch (pc_plus_4 c)
      (rf_write (Decoder.reg_write d) (Decoder.rd d)
         (mem_data_extended (c <| alu_out_reg := a |>
                               <| mem_data_reg := Sram.mem m (Sram.index a) |>)) (regs c))
      (vregs c) (Sram.mem m) (wrap 32 (cycle_counter c + 4)) (wrap 32 (insn_counter c + 1))
      (wrap 32 (load_counter c + 1)) (store_counter c) b).
Proof.
  intros Ha Hl Hq Hs d a Hp Hst Hrd Hwr Hfm Heb Hua. subst d a.
  pose proof (quiet_unstarted c Hq) as Hun. pose proof Hq as [[? ? ?] _ (Hb & _ & _) _].
  pins ps. unfold run. cbn [fold_left].
  rewrite exec_edge by done. rewrite request_edge by (done || by rewrite Hrd).
  unfold requested. rewrite Hwr.
  rewrite mem_edge; [|done|by split|exact Hun|exact Hb|reflexivity|by apply Vlsu.ready_sram].
  fields. rewrite Hrd. cbn [negb]. unfold Sram.step. cbn [Sram.dmem_valid Sram.dmem_write andb negb].
  rewrite mem_edge; [|done|by split|exact Hun|exact Hb|reflexivity|by apply Vlsu.ready_sram].
  fields. unfold mem_stage. fields. rewrite Hrd. cbn [negb andb].
  unfold Soc.cpu_inputs. cbn [dmem_resp_valid dmem_resp_rdata Soc.sram].
  unfold Sram.resp_valid, Sram.resp_rdata. fields. rewrite Hua. cbn [andb].
  unfold Sram.dmem_resp_valid, Sram.dmem_rdata. fields.
  unfold Sram.step. cbn [Sram.dmem_valid Sram.dmem_write andb negb].
  apply retire_executed; [done|reflexivity| |reflexivity|].
  - destruct Hq as [[? ? ?] [? ?] (? & ? & ?) ?]. by apply quiet_intro.
  - unfold retired, to_wb, wb_data. fields. destruct Hp as (_ & _ & _ & Hvw). destruct Hst as (Hj & Hjr & _).
    rewrite Hvw, Hfm, Heb, Hj, Hjr, !wrap_succ. reflexivity.
Qed.
End Steps.
End Execution.
