(* ===== verification/UnitExec.v ===== *)
(** The instructions that wait in EXEC for a unit: PVMAC and friends on the packed
    MAC unit, the vector ALU operations, and the vector loads and stores that take
    over the bus. Each is an induction over the waiting edges that ends with the
    unit's own theorem. *)

From S2P Require Import Prelude Vmac Valu Sram Vlsu Alu Decoder Cpu Isa Execution.

Module UnitExec.
Import Cpu Execution.

(** The unit [k] edges after the one that started it: [start] is only high first. *)
Definition unit_run {I S} (step : I -> S -> S) (pins : bool -> I) (s : S) (k : nat) : S :=
  match k with O => s | Datatypes.S j => run step (pins true :: repeat (pins false) j) s end.

Lemma unit_run_S {I S} (step : I -> S -> S) pins s k :
  unit_run step pins s (Datatypes.S k) = step (pins (k =? 0)%nat) (unit_run step pins s k).
Proof.
  destruct k as [|k]; [done|]. unfold unit_run. cbn [Nat.eqb].
  cbn [repeat]. by rewrite repeat_cons, app_comm_cons, run_app.
Qed.

Section Units.
Context (use_par : bool) (dontcare : Z).
Abbreviation cstep := (Cpu.step dontcare).
Abbreviation sstep := (Soc.step use_par dontcare).

Lemma exec_not_wb c : cpu_state c = EXEC -> in_wb c = false.
Proof. unfold in_wb. by intros ->. Qed.

(** A core step outside write-back, units included. *)
Lemma step_units i c :
  resetn i = true -> in_wb c = false ->
  cstep i c = fsm dontcare i c
    (c <| vmac_inst := Vmac.step (vmac_pins dontcare i c) (vmac_inst c) |>
       <| valu_inst := Valu.step (valu_pins i c) (valu_inst c) |>
       <| vlsu_inst := Vlsu.step (vlsu_pins i c) (vlsu_inst c) |>).
Proof.
  intros Hr Hwb. unfold Cpu.step. unfold csr_block. rewrite Hr, Hwb. cbn [negb].
  unfold wb_enable, vrf_wen, rf_write. rewrite Hwb. cbn [andb]. by destruct c.
Qed.

(** The memory follows the program counter and sees no request. *)
Definition settled (c : state) (m : Sram.state) : Sram.state :=
  Sram.State (Sram.mem m) (pc_reg c) (Sram.dmem_addr_reg m) false.

Lemma step_soc_units p c m b :
  Soc.resetn p = true -> in_wb c = false -> dmem_req_valid c = false ->
  sstep p (Soc.State c m b)
  = Soc.State (cstep (Soc.cpu_inputs use_par p (Soc.State c m b)) c) (settled c m) b.
Proof.
  intros Hr Hwb Hq. unfold Soc.step. cbn [Soc.cpu Soc.sram Soc.break_hit].
  rewrite sram_quiet by done. rewrite Hr. unfold ebreak. by rewrite Hwb, andb_false_r.
Qed.

Lemma same_soc c c' m b : c = c' -> Soc.State c m b = Soc.State c' m b.
Proof. by intros ->. Qed.

(** * The packed MAC unit *)

Definition packed_pins (c : state) (v : bool) : Vmac.inputs :=
  Vmac.Inputs true (default dontcare (Decoder.vmac_ctrl (ctrl c))) (rdata1_reg c) (rdata2_reg c) v.

(** [k] edges into the wait. *)
Definition vmac_waiting (c : state) (k : nat) : state :=
  c <| vmac_valid_in_reg := (k =? 0)%nat |> <| vmac_busy := true |>
    <| vmac_inst := unit_run Vmac.step (packed_pins c) (vmac_inst c) k |>
    <| cycle_counter := wrap 32 (cycle_counter c + (Z.of_nat k + 1)) |>.

Lemma vmac_waiting_state c k : cpu_state (vmac_waiting c k) = cpu_state c.
Proof. reflexivity. Qed.
Lemma vmac_waiting_ctrl c k : ctrl (vmac_waiting c k) = ctrl c.
Proof. reflexivity. Qed.

Definition packed_insn (d : Decoder.outputs) : Prop :=
  Decoder.is_rdwrctr d = false /\ Decoder.is_vec_op d = false /\ Decoder.is_vmac d = true.

Lemma vmac_start c :
  quiet c -> cpu_state c = EXEC -> packed_insn (ctrl c) ->
  exec dontcare c (c <| cycle_counter := wrap 32 (cycle_counter c + 1) |>) = vmac_waiting c 0.
Proof.
  intros [[[_ Hv] _ _] [_ Hb] _ _] Hs (Hc & Hvo & Hm). unfold exec, exec_vmac.
  rewrite Hc, Hvo, Hm, Hb, Hv. unfold vmac_waiting, unit_run. clear - Hs. same_core c.
Qed.

Lemma vmac_wait p c m b k :
  Soc.resetn p = true -> quiet c -> cpu_state c = EXEC -> packed_insn (ctrl c) ->
  Vmac.valid_out (vmac_inst (vmac_waiting c k)) = false ->
  sstep p (Soc.State (vmac_waiting c k) (settled c m) b)
  = Soc.State (vmac_waiting c (S k)) (settled c m) b.
Proof.
  intros Hr Hq Hs (Hc & Hvo & Hm) Hout. pose proof Hq as [[_ [Ha Ha'] [[Hl Hl2] Hl']] _ (Hb & Hvi & Hls) Hrq].
  rewrite step_soc_units; [|done|by apply exec_not_wb|by apply no_request].
  apply same_soc. rewrite step_units; [|done|by apply exec_not_wb].
  rewrite valu_rest, vlsu_rest by (first [done | cbn; by rewrite ?Hvi, ?Hls]).
  unfold fsm. rewrite vmac_waiting_state, Hs.
  unfold exec, exec_vmac. rewrite vmac_waiting_ctrl, Hc, Hvo, Hm. cbn [negb].
  rewrite Hout. unfold vmac_waiting. rewrite unit_run_S.
  replace (wrap 32 (cycle_counter c + (Z.of_nat (S k) + 1)))
    with (wrap 32 (wrap 32 (cycle_counter c + (Z.of_nat k + 1)) + 1)) by (rewrite wrap_succ; do 2 f_equal; lia).
  unfold vmac_pins, packed_pins. cbn [resetn Soc.cpu_inputs]. rewrite Hr. clear - Hs. same_core c.
Qed.

(** A run through a family of states, one edge at a time. *)
Lemma run_family (F : nat -> Soc.state) ps k :
  awake ps ->
  (forall p j, Soc.resetn p = true -> (k <= j < k + length ps)%nat -> sstep p (F j) = F (S j)) ->
  run sstep ps (F k) = F (k + length ps)%nat.
Proof.
  intros Ha. revert k. induction Ha as [|p ps Hp Ha IH]; intros k H; cbn [length].
  - by rewrite Nat.add_0_r.
  - rewrite run_cons, H by (done || cbn; lia). rewrite IH.
    + f_equal. lia.
    + intros q j Hq Hj. apply H; [done|]. cbn [length]. lia.
Qed.

Lemma awake_app ps qs : awake (ps ++ qs) <-> awake ps /\ awake qs.
Proof. apply Forall_app. Qed.

(** Split a run after its first [n] edges. *)
Lemma run_split n ps s :
  run sstep ps s = run sstep (drop n ps) (run sstep (take n ps) s).
Proof. by rewrite <- run_app, take_drop. Qed.
Lemma awake_take n ps : awake ps -> awake (take n ps).
Proof. apply Forall_take. Qed.
Lemma awake_drop n ps : awake ps -> awake (drop n ps).
Proof. apply Forall_drop. Qed.

(** The core that took the unit's result [r] into [alu_out_reg]. *)
Definition vmac_finished (c : state) (k : nat) : state :=
  (vmac_waiting c (S k))
    <| alu_out_reg := Vmac.result (vmac_inst (vmac_waiting c k)) |>
    <| vmac_busy := false |> <| vmac_valid_in_reg := false |>
    <| pc_reg := pc_plus_4 c |> <| cpu_state := WB |>.

Lemma cycle_succ c k n :
  wrap 32 (wrap 32 (c + (Z.of_nat k + n)) + 1) = wrap 32 (c + (Z.of_nat (S k) + n)).
Proof. rewrite wrap_succ. do 2 f_equal. lia. Qed.

Lemma vmac_finish p c m b k :
  Soc.resetn p = true -> quiet c -> cpu_state c = EXEC -> packed_insn (ctrl c) ->
  Vmac.valid_out (vmac_inst (vmac_waiting c k)) = true ->
  sstep p (Soc.State (vmac_waiting c k) (settled c m) b)
  = Soc.State (vmac_finished c k) (settled c m) b.
Proof.
  intros Hr Hq Hs (Hc & Hvo & Hm) Hout. pose proof Hq as [[_ [Ha Ha'] [[Hl Hl2] Hl']] _ (Hb & Hvi & Hls) Hrq].
  rewrite step_soc_units; [|done|by apply exec_not_wb|by apply no_request].
  apply same_soc. rewrite step_units by (done || by apply exec_not_wb).
  rewrite valu_rest, vlsu_rest by (first [done | cbn; by rewrite ?Hvi, ?Hls]).
  unfold fsm. rewrite vmac_waiting_state, Hs.
  unfold exec, exec_vmac. rewrite vmac_waiting_ctrl, Hc, Hvo, Hm.
  rewrite Hout. unfold vmac_finished, vmac_waiting. rewrite unit_run_S, <- cycle_succ.
  unfold vmac_pins, packed_pins. cbn [resetn Soc.cpu_inputs]. rewrite Hr. clear. same_core c.
Qed.

(** Start, [L + 1] edges of waiting, the edge that takes the result, write-back. *)
Lemma wait_finish (F : nat -> state) c4 L ps c m b a :
  awake ps -> length ps = (4 + L)%nat -> quiet c -> cpu_state c = EXEC ->
  exec dontcare c (c <| cycle_counter := wrap 32 (cycle_counter c + 1) |>) = F O ->
  (forall p k, Soc.resetn p = true -> (k <= L)%nat ->
     sstep p (Soc.State (F k) (settled c m) b) = Soc.State (F (S k)) (settled c m) b) ->
  (forall p, Soc.resetn p = true ->
     sstep p (Soc.State (F (S L)) (settled c m) b) = Soc.State c4 (settled c m) b) ->
  cpu_state c4 = WB -> quiet c4 -> retired c4 (Sram.mem m) b = a ->
  executed (run sstep ps (Soc.State c m b)) (Sram.dmem_addr_reg m) a.
Proof.
  intros Ha Hl Hq Hs H0 Hk Hf Hwb Hq4 Hret.
  destruct ps as [|p ps]; [discriminate Hl|]. apply Forall_cons_1 in Ha as [Hp1 Ha].
  rewrite run_cons, exec_edge, H0 by done. rewrite (run_split (S L)). fold (settled c m).
  assert (Hlt : length (take (S L) ps) = S L) by (rewrite length_take; cbn in Hl; lia).
  rewrite (run_family (fun k => Soc.State (F k) (settled c m) b) _ 0);
    [|by apply awake_take|intros q j Hq' Hj; apply Hk; [done|lia]].
  rewrite Hlt. assert (Hld : length (drop (S L) ps) = 2%nat) by (rewrite length_drop; cbn in Hl; lia).
  pose proof (awake_drop (S L) ps Ha) as Had. set (qs := drop (S L) ps) in *. clearbody qs.
  pins qs. unfold run. cbn [fold_left Nat.add]. rewrite Hf by done. by apply retire_executed.
Qed.

Lemma packed_insn_runs ps c m b op :
  let d := ctrl c in
  awake ps -> length ps = (4 + Vmac.latency op)%nat -> quiet c -> cpu_state c = EXEC ->
  packed_insn d -> Decoder.vmac_ctrl d = Some op -> urange 2 op ->
  straight d -> Decoder.vec_reg_write d = false -> Decoder.wb_from_mem d = false ->
  Decoder.ebreak_hit d = false ->
  executed (run sstep ps (Soc.State c m b)) (Sram.dmem_addr_reg m)
    (Isa.Arch (pc_plus_4 c)
      (rf_write (Decoder.reg_write d) (Decoder.rd d) (Vmac.spec op (rdata1_reg c) (rdata2_reg c)) (regs c))
      (vregs c) (Sram.mem m) (wrap 32 (cycle_counter c + Z.of_nat (4 + Vmac.latency op)))
      (wrap 32 (insn_counter c + 1)) (load_counter c) (store_counter c) b).
Proof.
  intros d Ha Hl Hq Hs Hp Hop Hr (Hj & Hjr & _) Hvw Hfm Heb. subst d.
  pose proof Hq as [[[Hvc Hvo] ? ?] _ (Hb & Hvi & Hls) Hrq].
  assert (Hunit : forall j, vmac_inst (vmac_waiting c (S j))
    = run Vmac.step (Vmac.op_inputs op (rdata1_reg c) (rdata2_reg c) j) (vmac_inst c)).
  { intros j. unfold vmac_waiting, packed_pins. fields. by rewrite Hop. }
  destruct (Vmac.op_done op (rdata1_reg c) (rdata2_reg c) (vmac_inst c) Hr Hvc Hvo) as (Dv & Dc & Dr).
  apply (wait_finish (vmac_waiting c) (vmac_finished c (S (Vmac.latency op))) (Vmac.latency op));
    try done.
  - by apply vmac_start.
  - intros p [|k] Hp' Hk; apply vmac_wait; try done. rewrite Hunit. by apply Vmac.op_busy.
  - intros p Hp'. apply vmac_finish; try done. by rewrite Hunit.
  - destruct (Vmac.op_release (packed_pins c false) (vmac_inst (vmac_waiting c (S (Vmac.latency op)))))
      as (Rc & Rv & _); [done..|by rewrite Hunit|by rewrite Hunit|].
    apply quiet_intro; try done. split; [|done|done]. unfold vmac_finished, vmac_waiting in *. fields.
    rewrite unit_run_S. done.
  - unfold retired, wb_data, vmac_finished. rewrite Hunit, Dr. unfold vmac_waiting. fields.
    rewrite Hvw, Hfm, Heb, Hj, Hjr, wrap_succ. do 3 f_equal. lia.
Qed.

(** * The vector ALU *)

Definition valu_pins_of (c : state) (v : bool) : Valu.inputs :=
  Valu.Inputs true (wrap 2 (Decoder.vec_op (ctrl c))) (Decoder.vec_sew (ctrl c))
    (vs1_data_reg c) (vs2_data_reg c) v.

Definition valu_waiting (c : state) (k : nat) : state :=
  c <| vec_valid_in_reg := (k =? 0)%nat |> <| vec_busy := true |> <| vlsu_start_reg := false |>
    <| valu_inst := unit_run Valu.step (valu_pins_of c) (valu_inst c) k |>
    <| cycle_counter := wrap 32 (cycle_counter c + (Z.of_nat k + 1)) |>.

Lemma valu_waiting_state c k : cpu_state (valu_waiting c k) = cpu_state c.
Proof. reflexivity. Qed.
Lemma valu_waiting_ctrl c k : ctrl (valu_waiting c k) = ctrl c.
Proof. reflexivity. Qed.

Definition valu_insn (d : Decoder.outputs) : Prop :=
  Decoder.is_rdwrctr d = false /\ Decoder.is_vec_op d = true /\
  Decoder.is_vec_load d = false /\ Decoder.is_vec_store d = false.

Definition valu_finished (c : state) (k : nat) : state :=
  let r := Valu.result (valu_inst (valu_waiting c k)) in
  (if Decoder.is_vec_vmac (ctrl c) then (valu_waiting c (S k)) <| alu_out_reg := slice 0 32 r |>
   else (valu_waiting c (S k)) <| vec_result_reg := r |>)
    <| vec_busy := false |> <| pc_reg := pc_plus_4 c |> <| cpu_state := WB |>.

Lemma valu_start c :
  quiet c -> cpu_state c = EXEC -> valu_insn (ctrl c) ->
  exec dontcare c (c <| cycle_counter := wrap 32 (cycle_counter c + 1) |>) = valu_waiting c 0.
Proof.
  intros [[_ [_ Hv] _] _ (Hb & _ & Hls) _] Hs (Hc & Hvo & Hld & Hst). unfold exec, exec_vec, is_vec_mem.
  rewrite Hc, Hvo, Hld, Hst, Hb, Hv. unfold valu_waiting, unit_run. clear - Hs Hls. same_core c.
Qed.

(** The vector memory path is closed. *)
Lemma valu_no_request c k :
  quiet c -> valu_insn (ctrl c) -> dmem_req_valid (valu_waiting c k) = false.
Proof.
  intros [_ _ _ Hrq] (_ & _ & Hld & Hst). unfold dmem_req_valid, vec_mem_active, is_vec_mem.
  by rewrite valu_waiting_ctrl, Hld, Hst.
Qed.

Lemma valu_units p c m b k :
  Soc.resetn p = true -> quiet c -> cpu_state c = EXEC -> valu_insn (ctrl c) ->
  cstep (Soc.cpu_inputs use_par p (Soc.State (valu_waiting c k) m b)) (valu_waiting c k)
  = exec dontcare (valu_waiting c k)
      ((valu_waiting c k) <| valu_inst := valu_inst (valu_waiting c (S k)) |>
        <| cycle_counter := cycle_counter (valu_waiting c (S k)) |>).
Proof.
  intros Hr Hq Hs (Hc & Hvo & Hld & Hst).
  pose proof Hq as [[[Hm Hm'] _ [[Hl Hl2] Hl']] [Hv _] _ _].
  rewrite step_units by (done || by apply exec_not_wb).
  rewrite vmac_rest, vlsu_rest by (first [done | cbn; by rewrite ?Hv]).
  unfold fsm. rewrite valu_waiting_state, Hs.
  refine (f_equal (exec dontcare (valu_waiting c k)) _).
  unfold valu_pins. rewrite valu_waiting_ctrl, Hld, Hst.
  cbn [resetn Soc.cpu_inputs negb]. rewrite Hr, !andb_true_r.
  unfold valu_waiting. fields. rewrite unit_run_S, <- cycle_succ. clear. same_core c.
Qed.

Lemma valu_edge p c m b k :
  Soc.resetn p = true -> quiet c -> cpu_state c = EXEC -> valu_insn (ctrl c) ->
  sstep p (Soc.State (valu_waiting c k) (settled c m) b)
  = Soc.State (if Valu.valid_out (valu_inst (valu_waiting c k)) then valu_finished c k
               else valu_waiting c (S k)) (settled c m) b.
Proof.
  intros Hr Hq Hs Hi. pose proof Hi as (Hc & Hvo & Hld & Hst).
  rewrite step_soc_units; [|done|by apply exec_not_wb|by apply valu_no_request].
  rewrite valu_units by done. unfold exec, exec_vec, is_vec_mem.
  rewrite valu_waiting_ctrl, Hc, Hvo, Hld, Hst. cbn [orb].
  apply same_soc. unfold valu_finished. destruct (Valu.valid_out _).
  - unfold to_wb. destruct (Decoder.is_vec_vmac (ctrl c)); unfold valu_waiting; clear; same_core c.
  - unfold valu_waiting. clear - Hs. same_core c.
Qed.

Lemma valu_insn_runs ps c m b :
  let d := ctrl c in let o := wrap 2 (Decoder.vec_op d) in let sew := Decoder.vec_sew d in
  let r := Valu.spec o sew (vs1_data_reg c) (vs2_data_reg c) (Valu.result (valu_inst c)) in
  awake ps -> length ps = (4 + Valu.latency o sew)%nat -> quiet c -> cpu_state c = EXEC ->
  valu_insn d -> urange 2 sew -> straight d -> Decoder.wb_from_mem d = false ->
  Decoder.ebreak_hit d = false ->
  (if Decoder.is_vec_vmac d then Decoder.vec_reg_write d = false else Decoder.reg_write d = false) ->
  executed (run sstep ps (Soc.State c m b)) (Sram.dmem_addr_reg m)
    (Isa.Arch (pc_plus_4 c)
      (rf_write (Decoder.reg_write d) (Decoder.rd d) (slice 0 32 r) (regs c))
      (rf_write (Decoder.vec_reg_write d) (vd_reg c) r (vregs c))
      (Sram.mem m) (wrap 32 (cycle_counter c + Z.of_nat (4 + Valu.latency o sew)))
      (wrap 32 (insn_counter c + 1)) (load_counter c) (store_counter c) b).
Proof.
  intros d o sew r Ha Hl Hq Hs Hp Hr (Hj & Hjr & _) Hfm Heb Hw. subst d.
  pose proof Hq as [[? [Hvc Hvo] ?] [? ?] (Hb & Hvi & Hls) Hrq].
  assert (Ho : urange 2 o) by (apply wrap_range; lia).
  assert (Hunit : forall j, valu_inst (valu_waiting c (S j))
    = run Valu.step (Valu.op_inputs o sew (vs1_data_reg c) (vs2_data_reg c) j) (valu_inst c)) by done.
  destruct (Valu.valu_op_done o sew (vs1_data_reg c) (vs2_data_reg c) (valu_inst c) Ho Hr Hvc) as (Dv & Dc & Dr).
  fold r in Dr. set (L := Valu.latency o sew) in *.
  assert (Hbusy : forall k, (k <= L)%nat -> Valu.valid_out (valu_inst (valu_waiting c k)) = false).
  { intros [|k] Hk; [done|]. rewrite Hunit. by apply Valu.valu_op_busy. }
  apply (wait_finish (valu_waiting c) (valu_finished c (S L)) L); try done.
  - by apply valu_start.
  - intros p k Hp' Hk. rewrite valu_edge by done. by rewrite Hbusy.
  - intros p Hp'. rewrite valu_edge by done. by rewrite Hunit, Dv.
  - destruct (Valu.valu_op_release (valu_pins_of c false) (valu_inst (valu_waiting c (S L)))) as (Rc & Rv & _);
      [done..|by rewrite Hunit|by rewrite Hunit|].
    assert (Hi : valu_inst (valu_finished c (S L)) = Valu.step (valu_pins_of c false) (valu_inst (valu_waiting c (S L)))).
    { transitivity (unit_run Valu.step (valu_pins_of c) (valu_inst c) (S (S L))).
      - unfold valu_finished, valu_waiting. by destruct (Decoder.is_vec_vmac (ctrl c)).
      - by rewrite unit_run_S. }
    unfold valu_finished in *. destruct (Decoder.is_vec_vmac (ctrl c)); apply quiet_intro; try done;
      (split; [done|by rewrite Hi|done]).
  - unfold retired, wb_data, valu_finished. rewrite Hunit, Dr. unfold valu_waiting.
    destruct (Decoder.is_vec_vmac (ctrl c)); fields; rewrite Hfm, Heb, Hj, Hjr, wrap_succ, Hw; cbn [orb rf_write andb];
      do 2 f_equal; lia.
Qed.

(** * Vector loads and stores *)

(** The unit's pins while the core waits, [v] being [vlsu_start_reg]. *)
Definition vlsu_cpu (c : state) (v : bool) (p : Soc.pins) : Vlsu.cpu :=
  Vlsu.Cpu v (Decoder.is_vec_store (ctrl c)) (rdata1_reg c) (vs2_data_reg c) (pc_reg c)
    (Soc.uart_ready p) (Soc.uart_valid p) (Soc.uart_rdata p) (Soc.par_rdata p).
Fixpoint vlsu_ins (c : state) (k : nat) (ps : list Soc.pins) : list Vlsu.cpu :=
  match ps with [] => [] | p :: ps => vlsu_cpu c (k =? 0)%nat p :: vlsu_ins c (S k) ps end.

Definition vlsu_waiting (c : state) (k : nat) (u : Vlsu.state) : state :=
  c <| vlsu_start_reg := (k =? 0)%nat |> <| vec_busy := true |> <| vec_valid_in_reg := false |>
    <| vlsu_inst := u |> <| cycle_counter := wrap 32 (cycle_counter c + (Z.of_nat k + 1)) |>.

Definition vlsu_insn (d : Decoder.outputs) : Prop :=
  Decoder.is_rdwrctr d = false /\ Decoder.is_vec_op d = true /\
  Decoder.is_vec_load d || Decoder.is_vec_store d = true.

Definition vlsu_finished (c : state) (k : nat) (u u' : Vlsu.state) : state :=
  (if Decoder.is_vec_load (ctrl c)
   then (vlsu_waiting c k u') <| vec_result_reg := Vlsu.load_data u |> else vlsu_waiting c k u')
    <| vec_busy := false |> <| vlsu_start_reg := false |>
    <| pc_reg := pc_plus_4 c |> <| cpu_state := WB |>.

Lemma vlsu_start c :
  quiet c -> cpu_state c = EXEC -> vlsu_insn (ctrl c) ->
  exec dontcare c (c <| cycle_counter := wrap 32 (cycle_counter c + 1) |>)
  = vlsu_waiting c 0 (vlsu_inst c).
Proof.
  intros [[_ _ [_ Hv]] _ (Hb & Hvi & Hls) _] Hs (Hc & Hvo & Hm). unfold exec, exec_vec, is_vec_mem.
  rewrite Hc, Hvo, Hm, Hb, Hv. unfold vlsu_waiting. clear - Hs Hvi. same_core c.
Qed.

Lemma vlsu_waiting_state c k u : cpu_state (vlsu_waiting c k u) = cpu_state c.
Proof. reflexivity. Qed.
Lemma vlsu_waiting_ctrl c k u : ctrl (vlsu_waiting c k u) = ctrl c.
Proof. reflexivity. Qed.
Lemma vlsu_waiting_unit c k u : vlsu_inst (vlsu_waiting c k u) = u.
Proof. reflexivity. Qed.
Lemma vlsu_waiting_active c k u :
  vlsu_insn (ctrl c) -> vec_mem_active (vlsu_waiting c k u) = true.
Proof.
  intros (_ & _ & Hm). unfold vec_mem_active, is_vec_mem. by rewrite vlsu_waiting_ctrl, Hm.
Qed.

Lemma vlsu_units i c k u :
  resetn i = true -> quiet c -> cpu_state c = EXEC -> vlsu_insn (ctrl c) ->
  cstep i (vlsu_waiting c k u)
  = exec dontcare (vlsu_waiting c k u)
      ((vlsu_waiting c k (Vlsu.step (vlsu_pins i (vlsu_waiting c k u)) u))
        <| cycle_counter := wrap 32 (cycle_counter c + (Z.of_nat (S k) + 1)) |>).
Proof.
  intros Hr Hq Hs (Hc & Hvo & Hm).
  pose proof Hq as [[[Hvm Hvm'] [Ha Ha'] _] [Hv _] _ _].
  rewrite step_units by (done || by apply exec_not_wb).
  rewrite vmac_rest, valu_rest by (first [done | cbn; by rewrite ?Hv]).
  unfold fsm. rewrite vlsu_waiting_state, Hs.
  refine (f_equal (exec dontcare (vlsu_waiting c k u)) _).
  rewrite <- cycle_succ. rewrite vlsu_waiting_unit. generalize (Vlsu.step (vlsu_pins i (vlsu_waiting c k u)) u). intros u'.
  unfold vlsu_waiting. fields. clear. same_core c.
Qed.

(** The unit and the memory move together exactly as [Vlsu.sys_step] says. *)
Lemma vlsu_edge p c k u m b :
  Soc.resetn p = true -> quiet c -> cpu_state c = EXEC -> vlsu_insn (ctrl c) ->
  let s' := Vlsu.sys_step use_par (vlsu_cpu c (k =? 0)%nat p) (u, m) in
  sstep p (Soc.State (vlsu_waiting c k u) m b)
  = Soc.State (if Vlsu.done u then vlsu_finished c (S k) u s'.1 else vlsu_waiting c (S k) s'.1) s'.2 b.
Proof.
  intros Hr Hq Hs Hi s'. pose proof Hi as (Hc & Hvo & Hm).
  pose proof (vlsu_waiting_active c k u Hi) as Hact.
  unfold Soc.step. cbn [Soc.cpu Soc.sram Soc.break_hit].
  rewrite vlsu_units by done.
  assert (Hs1 : Vlsu.step (vlsu_pins (Soc.cpu_inputs use_par p (Soc.State (vlsu_waiting c k u) m b))
                  (vlsu_waiting c k u)) u = s'.1).
  { unfold s', Vlsu.sys_step, vlsu_pins, Soc.cpu_inputs, dmem_req_addr. rewrite vlsu_waiting_ctrl.
    cbn [Soc.cpu Soc.sram resetn dmem_req_ready dmem_resp_valid dmem_resp_rdata fst]. by rewrite Hact, Hr. }
  assert (Hs2 : Sram.step (Soc.sram_inputs (Soc.State (vlsu_waiting c k u) m b)) m = s'.2).
  { unfold s', Vlsu.sys_step, Soc.sram_inputs, dmem_req_addr, dmem_req_wdata, dmem_req_wmask,
      dmem_req_write, dmem_req_valid, imem_addr. cbn [Soc.cpu snd]. by rewrite Hact. }
  rewrite Hs1, Hs2, Hr. cbn [negb]. generalize s'.1, s'.2. intros u' m'. clear Hs1 Hs2 s'.
  assert (He : ebreak (vlsu_waiting c k u) = false)
    by (unfold ebreak; rewrite exec_not_wb by done; apply andb_false_r).
  rewrite He. apply same_soc. unfold exec, exec_vec, is_vec_mem.
  rewrite vlsu_waiting_ctrl, Hc, Hvo, Hm. clear - Hs.
  rewrite vlsu_waiting_unit. destruct (Vlsu.done u).
  - unfold vlsu_finished, to_wb. destruct (Decoder.is_vec_load (ctrl c)); unfold vlsu_waiting; same_core c.
  - unfold vlsu_waiting. same_core c.
Qed.

Lemma length_vlsu_ins c k ps : length (vlsu_ins c k ps) = length ps.
Proof. revert k. induction ps as [|p ps IH]; intros k; [done|]. cbn. by rewrite IH. Qed.

Lemma vlsu_waits ps c k u m b :
  awake ps -> quiet c -> cpu_state c = EXEC -> vlsu_insn (ctrl c) ->
  (forall n, (n < length ps)%nat ->
     Vlsu.done (Vlsu.sys_run use_par (take n (vlsu_ins c k ps)) (u, m)).1 = false) ->
  let s' := Vlsu.sys_run use_par (vlsu_ins c k ps) (u, m) in
  run sstep ps (Soc.State (vlsu_waiting c k u) m b)
  = Soc.State (vlsu_waiting c (k + length ps) s'.1) s'.2 b.
Proof.
  intros Ha Hq Hs Hi. revert k u m. induction Ha as [|p ps Hp Ha IH]; intros k u m Hd; cbn [length vlsu_ins].
  - by rewrite Nat.add_0_r.
  - unfold Vlsu.sys_run in *. rewrite !run_cons, vlsu_edge by done.
    rewrite (Hd 0%nat ltac:(cbn; lia) : Vlsu.done u = false).
    destruct (Vlsu.sys_step use_par (vlsu_cpu c (k =? 0)%nat p) (u, m)) as [u1 m1] eqn:E.
    cbn [fst snd]. rewrite IH.
    + by replace (S k + length ps)%nat with (k + S (length ps))%nat by lia.
    + intros n Hn. specialize (Hd (S n) ltac:(cbn; lia)). cbn [vlsu_ins take] in Hd.
      rewrite run_cons, E in Hd. done.
Qed.

(** From the execute edge to the next fetch: [L + 1] waiting edges bring the unit to
    [(u', m')] with [done] up; one takes the result, one writes back. *)
Lemma vlsu_runs L ps c m b u' m' a :
  awake ps -> length ps = (4 + L)%nat -> quiet c -> cpu_state c = EXEC -> vlsu_insn (ctrl c) ->
  straight (ctrl c) -> Decoder.wb_from_mem (ctrl c) = false -> Decoder.ebreak_hit (ctrl c) = false ->
  Decoder.reg_write (ctrl c) = false ->
  (forall i rest, i = vlsu_cpu c true (hd (Soc.Pins true true true 0 0) (tail ps)) -> length rest = L ->
     (forall n, (n < L)%nat ->
        Vlsu.done (Vlsu.sys_run use_par (i :: take n rest) (vlsu_inst c, settled c m)).1 = false) /\
     exists u1 m1, Vlsu.sys_run use_par (i :: rest) (vlsu_inst c, settled c m) = (u1, m1) /\
       Vlsu.done u1 = true /\ Vlsu.resting u1 /\ u' = Vlsu.load_data u1 /\
       Sram.mem m1 = m' /\ Sram.dmem_addr_reg m1 = a) ->
  executed (run sstep ps (Soc.State c m b)) a
    (Isa.Arch (pc_plus_4 c) (regs c)
      (rf_write (Decoder.vec_reg_write (ctrl c)) (vd_reg c)
         (if Decoder.is_vec_load (ctrl c) then u' else vec_result_reg c) (vregs c))
      m' (wrap 32 (cycle_counter c + Z.of_nat (4 + L)))
      (wrap 32 (insn_counter c + 1)) (load_counter c) (store_counter c) b).
Proof.
  intros Ha Hl Hq Hs Hi (Hj & Hjr & _) Hfm Heb Hrw Hunit. pose proof Hi as (Hc & Hvo & Hm).
  pose proof Hq as [[Hmr Har [Hlr Hld0]] Hv (Hb & Hvi & Hls) Hrq].
  destruct ps as [|p ps]; [discriminate Hl|]. apply Forall_cons_1 in Ha as [Hp1 Ha].
  rewrite run_cons, exec_edge, vlsu_start by done. rewrite (run_split (S L)). fold (settled c m).
  destruct ps as [|p2 ps]; [discriminate Hl|]. cbn [take drop tail hd] in *.
  pose proof (Forall_cons_1 _ _ _ Ha) as [Hp2 Ha'].
  assert (Hlt : length (take L ps) = L) by (rewrite length_take; cbn in Hl; lia).
  destruct (Hunit _ (vlsu_ins c 1 (take L ps)) eq_refl) as [Hbusy (u1 & m1 & Hrun & Hdone & Hrest & -> & <- & <-)].
  { by rewrite length_vlsu_ins. }
  rewrite vlsu_waits; [|constructor; [done|by apply awake_take]|done..|].
  2:{ intros [|n] Hn; [done|]. cbn [vlsu_ins take Nat.eqb]. apply Hbusy. cbn [length] in Hn. lia. }
  cbn [vlsu_ins Nat.eqb Nat.add]. rewrite Hrun. cbn [fst snd length]. rewrite Hlt.
  assert (Hld : length (drop L ps) = 2%nat) by (rewrite length_drop; cbn in Hl; lia).
  pose proof (awake_drop L ps Ha') as Had. set (qs := drop L ps) in *. clearbody qs.
  pins qs. unfold run. cbn [fold_left]. rewrite vlsu_edge, Hdone by done. cbn [Nat.eqb].
  pose proof (Vlsu.release use_par u1 m1 (vlsu_cpu c false p0) Hrest eq_refl) as (R1 & R2 & R3 & R4).
  destruct (Vlsu.sys_step _ _ _) as [u2 m2]. cbn [fst snd] in *.
  assert (Hq4 : quiet (vlsu_finished c (S (S L)) u1 u2)).
  { unfold vlsu_finished. destruct (Decoder.is_vec_load (ctrl c)); apply quiet_intro; try apply Hv; try done;
      by split. }
  apply retire_executed; [done|reflexivity|exact Hq4|exact R4|]. rewrite R3.
  unfold retired, wb_data, vlsu_finished, vlsu_waiting.
  destruct (Decoder.is_vec_load (ctrl c)); fields; rewrite Hfm, Heb, Hj, Hjr, Hrw, wrap_succ;
    cbn [orb rf_write andb]; do 2 f_equal; lia.
Qed.

Lemma vld_insn ps c m b :
  let d := ctrl c in let a := rdata1_reg c in
  awake ps -> length ps = (4 + Vlsu.load_latency)%nat -> quiet c -> cpu_state c = EXEC ->
  vlsu_insn d -> Decoder.is_vec_load d = true -> Decoder.is_vec_store d = false ->
  straight d -> Decoder.wb_from_mem d = false -> Decoder.ebreak_hit d = false ->
  Decoder.reg_write d = false -> Vlsu.in_sram a -> Vlsu.no_uart_response use_par m ->
  executed (run sstep ps (Soc.State c m b)) (wrap 32 (a + 4))
    (Isa.Arch (pc_plus_4 c) (regs c)
      (rf_write (Decoder.vec_reg_write d) (vd_reg c) (Vlsu.two_words (Sram.mem m) a) (vregs c))
      (Sram.mem m) (wrap 32 (cycle_counter c + Z.of_nat (4 + Vlsu.load_latency)))
      (wrap 32 (insn_counter c + 1)) (load_counter c) (store_counter c) b).
Proof.
  intros d a Ha Hl Hq Hs Hi Hld Hst Hsr Hfm Heb Hrw Hsram Hu. subst d a.
  pose proof Hq as [[_ _ [Hrest _]] _ _ _].
  eapply executed_eq; [eapply (vlsu_runs Vlsu.load_latency ps c m b); try done|by rewrite Hld].
  intros i rest -> Hlen. split.
  - intros n Hn. by apply Vlsu.load_busy.
  - pose proof (Vlsu.load_run use_par (vlsu_inst c) (settled c m)
      (vlsu_cpu c true (hd (Soc.Pins true true true 0 0) (tail ps))) rest Hrest Hu Hsram eq_refl Hst Hlen) as H.
    destruct (Vlsu.sys_run _ _ _) as [u1 m1]. destruct H as (? & ? & Hd & Hmem & Hra).
    exists u1, m1. by split_and!.
Qed.

Lemma vst_insn ps c m b :
  let d := ctrl c in let a := rdata1_reg c in let v := vs2_data_reg c in
  awake ps -> length ps = (4 + Vlsu.store_latency)%nat -> quiet c -> cpu_state c = EXEC ->
  vlsu_insn d -> Decoder.is_vec_load d = false -> Decoder.is_vec_store d = true ->
  straight d -> Decoder.wb_from_mem d = false -> Decoder.ebreak_hit d = false ->
  Decoder.reg_write d = false -> Decoder.vec_reg_write d = false -> Vlsu.in_sram a ->
  executed (run sstep ps (Soc.State c m b)) (Sram.dmem_addr_reg m)
    (Isa.Arch (pc_plus_4 c) (regs c) (vregs c) (Isa.vstore (Sram.mem m) a v)
      (wrap 32 (cycle_counter c + Z.of_nat (4 + Vlsu.store_latency)))
      (wrap 32 (insn_counter c + 1)) (load_counter c) (store_counter c) b).
Proof.
  intros d a v Ha Hl Hq Hs Hi Hld Hst Hsr Hfm Heb Hrw Hvw Hsram. subst d a v.
  pose proof Hq as [[_ _ [Hrest _]] _ _ _].
  eapply executed_eq; [eapply (vlsu_runs Vlsu.store_latency ps c m b (Vlsu.load_data (vlsu_inst c))
    (Isa.vstore (Sram.mem m) (rdata1_reg c) (vs2_data_reg c))); try done|by rewrite Hvw].
  intros i rest -> Hlen. split.
  - intros n Hn. by apply Vlsu.store_busy.
  - pose proof (Vlsu.store_run use_par (vlsu_inst c) (settled c m)
      (vlsu_cpu c true (hd (Soc.Pins true true true 0 0) (tail ps))) rest Hrest Hsram eq_refl Hst Hlen) as H.
    cbv zeta in H. destruct (Vlsu.sys_run _ _ _) as [u1 m1]. destruct H as (? & ? & Hd & Hra & Hmem).
    rewrite !Sram.merge_full in Hmem by (by apply slice_range).
    exists u1, m1. by split_and!.
Qed.
End Units.
End UnitExec.
