(* ===== verification/Encoding.v ===== *)
(** The decoder on the words that [Isa.encode] builds: each field of each format, the
    immediate of each format, and the control signals of each instruction class from
    its opcode. *)

From S2P Require Import Prelude Decoder Opcodes Immediates Cpu Isa.

Module Encoding.
Import Isa Decoder.

(** * Fields *)

Lemma slice_lor lo w p q : 0 <= w -> slice lo w (Z.lor p q) = Z.lor (slice lo w p) (slice lo w q).
Proof.
  intros. unfold slice. apply Z.bits_inj'. intros n Hn.
  rewrite Z.shiftr_lor. autorewrite with bits. by destruct (n <? w).
Qed.

(** The six fields of [fields]. *)
Lemma fields_opcode o d f p q g : slice 0 7 (fields o d f p q g) = wrap 7 o.
Proof. unfold fields. by_bits 7%nat. Qed.
Lemma fields_rd o d f p q g : slice 7 5 (fields o d f p q g) = wrap 5 d.
Proof. unfold fields. by_bits 5%nat. Qed.
Lemma fields_funct3 o d f p q g : slice 12 3 (fields o d f p q g) = wrap 3 f.
Proof. unfold fields. by_bits 3%nat. Qed.
Lemma fields_rs1 o d f p q g : slice 15 5 (fields o d f p q g) = wrap 5 p.
Proof. unfold fields. by_bits 5%nat. Qed.
Lemma fields_rs2 o d f p q g : slice 20 5 (fields o d f p q g) = wrap 5 q.
Proof. unfold fields. by_bits 5%nat. Qed.
Lemma fields_funct7 o d f p q g : slice 25 7 (fields o d f p q g) = wrap 7 g.
Proof. unfold fields. by_bits 7%nat. Qed.

(** What each immediate leaves alone. *)
Lemma itype_fields x :
  slice 0 7 (ENCODE_ITYPE_IMM x) = 0 /\ slice 7 5 (ENCODE_ITYPE_IMM x) = 0 /\
  slice 12 3 (ENCODE_ITYPE_IMM x) = 0 /\ slice 15 5 (ENCODE_ITYPE_IMM x) = 0.
Proof. unfold ENCODE_ITYPE_IMM. split_and!; by_bits 7%nat. Qed.
Lemma stype_fields x :
  slice 0 7 (ENCODE_STYPE_IMM x) = 0 /\ slice 12 3 (ENCODE_STYPE_IMM x) = 0 /\
  slice 15 5 (ENCODE_STYPE_IMM x) = 0 /\ slice 20 5 (ENCODE_STYPE_IMM x) = 0.
Proof. unfold ENCODE_STYPE_IMM. split_and!; by_bits 7%nat. Qed.
Lemma btype_fields x :
  slice 0 7 (ENCODE_BTYPE_IMM x) = 0 /\ slice 12 3 (ENCODE_BTYPE_IMM x) = 0 /\
  slice 15 5 (ENCODE_BTYPE_IMM x) = 0 /\ slice 20 5 (ENCODE_BTYPE_IMM x) = 0.
Proof. unfold ENCODE_BTYPE_IMM. split_and!; by_bits 7%nat. Qed.
Lemma utype_fields x :
  slice 0 7 (ENCODE_UTYPE_IMM x) = 0 /\ slice 7 5 (ENCODE_UTYPE_IMM x) = 0.
Proof. unfold ENCODE_UTYPE_IMM. split_and!; by_bits 7%nat. Qed.
Lemma jtype_fields x :
  slice 0 7 (ENCODE_JTYPE_IMM x) = 0 /\ slice 7 5 (ENCODE_JTYPE_IMM x) = 0.
Proof. unfold ENCODE_JTYPE_IMM. split_and!; by_bits 7%nat. Qed.

(** The immediate fields are clear before the immediate is inserted. *)
Lemma itype_clear o d f p : Z.land (fields o d f p 0 0) (ENCODE_ITYPE_IMM (-1)) = 0.
Proof. unfold fields, ENCODE_ITYPE_IMM. by_bits 32%nat. Qed.
Lemma stype_clear o f p q : Z.land (fields o 0 f p q 0) (ENCODE_STYPE_IMM (-1)) = 0.
Proof. unfold fields, ENCODE_STYPE_IMM. by_bits 32%nat. Qed.
Lemma btype_clear o f p q : Z.land (fields o 0 f p q 0) (ENCODE_BTYPE_IMM (-1)) = 0.
Proof. unfold fields, ENCODE_BTYPE_IMM. by_bits 32%nat. Qed.
Lemma utype_clear o d : Z.land (fields o d 0 0 0 0) (ENCODE_UTYPE_IMM (-1)) = 0.
Proof. unfold fields, ENCODE_UTYPE_IMM. by_bits 32%nat. Qed.
Lemma jtype_clear o d : Z.land (fields o d 0 0 0 0) (ENCODE_JTYPE_IMM (-1)) = 0.
Proof. unfold fields, ENCODE_JTYPE_IMM. by_bits 32%nat. Qed.

(** A shift's immediate keeps the amount in its low five bits. *)
Lemma shift_amount w : wrap 5 (imm_i w) = slice 20 5 w.
Proof. rewrite imm_i_extract. unfold EXTRACT_ITYPE_IMM. by_bits 5%nat. Qed.

(** * Words *)

(** The word of each format, read field by field. *)
Lemma r_word o d f p q g (w := fields o d f p q g) :
  urange 7 o -> urange 5 d -> urange 3 f -> urange 5 p -> urange 5 q -> urange 7 g ->
  opcode w = o /\ slice 7 5 w = d /\ funct3 w = f /\ slice 15 5 w = p /\ slice 20 5 w = q /\
  funct7 w = g.
Proof.
  intros. unfold w, opcode, funct3, funct7.
  rewrite fields_opcode, fields_rd, fields_funct3, fields_rs1, fields_rs2, fields_funct7.
  by rewrite !wrap_small.
Qed.

Lemma i_word o d f p x (w := Z.lor (fields o d f p 0 0) (ENCODE_ITYPE_IMM x)) :
  urange 7 o -> urange 5 d -> urange 3 f -> urange 5 p -> VALID_ITYPE_IMM x = true ->
  opcode w = o /\ slice 7 5 w = d /\ funct3 w = f /\ slice 15 5 w = p /\ imm_i w = wrap 32 x.
Proof.
  intros ? ? ? ? Hx. destruct (itype_fields x) as (E1 & E2 & E3 & E4). unfold w, opcode, funct3.
  rewrite imm_i_insert by (done || apply itype_clear). rewrite !slice_lor by lia.
  rewrite fields_opcode, fields_rd, fields_funct3, fields_rs1, E1, E2, E3, E4, !Z.lor_0_r.
  by rewrite !wrap_small by done.
Qed.

Lemma s_word o f p q x (w := Z.lor (fields o 0 f p q 0) (ENCODE_STYPE_IMM x)) :
  urange 7 o -> urange 3 f -> urange 5 p -> urange 5 q -> VALID_STYPE_IMM x = true ->
  opcode w = o /\ funct3 w = f /\ slice 15 5 w = p /\ slice 20 5 w = q /\ imm_s w = wrap 32 x.
Proof.
  intros ? ? ? ? Hx. destruct (stype_fields x) as (E1 & E2 & E3 & E4). unfold w, opcode, funct3.
  rewrite imm_s_insert by (done || apply stype_clear). rewrite !slice_lor by lia.
  rewrite fields_opcode, fields_funct3, fields_rs1, fields_rs2, E1, E2, E3, E4, !Z.lor_0_r.
  by rewrite !wrap_small by done.
Qed.

Lemma b_word o f p q x (w := Z.lor (fields o 0 f p q 0) (ENCODE_BTYPE_IMM x)) :
  urange 7 o -> urange 3 f -> urange 5 p -> urange 5 q -> VALID_BTYPE_IMM x = true ->
  opcode w = o /\ funct3 w = f /\ slice 15 5 w = p /\ slice 20 5 w = q /\ imm_b w = wrap 32 x.
Proof.
  intros ? ? ? ? Hx. destruct (btype_fields x) as (E1 & E2 & E3 & E4). unfold w, opcode, funct3.
  rewrite imm_b_insert by (done || apply btype_clear). rewrite !slice_lor by lia.
  rewrite fields_opcode, fields_funct3, fields_rs1, fields_rs2, E1, E2, E3, E4, !Z.lor_0_r.
  by rewrite !wrap_small by done.
Qed.

Lemma u_word o d x (w := Z.lor (fields o d 0 0 0 0) (ENCODE_UTYPE_IMM x)) :
  urange 7 o -> urange 5 d -> VALID_UTYPE_IMM x = true ->
  opcode w = o /\ slice 7 5 w = d /\ imm_u w = wrap 32 x.
Proof.
  intros ? ? Hx. destruct (utype_fields x) as (E1 & E2). unfold w, opcode.
  rewrite imm_u_insert by (done || apply utype_clear). rewrite !slice_lor by lia.
  rewrite fields_opcode, fields_rd, E1, E2, !Z.lor_0_r. by rewrite !wrap_small by done.
Qed.

Lemma j_word o d x (w := Z.lor (fields o d 0 0 0 0) (ENCODE_JTYPE_IMM x)) :
  urange 7 o -> urange 5 d -> VALID_JTYPE_IMM x = true ->
  opcode w = o /\ slice 7 5 w = d /\ imm_j w = wrap 32 x.
Proof.
  intros ? ? Hx. destruct (jtype_fields x) as (E1 & E2). unfold w, opcode.
  rewrite imm_j_insert by (done || apply jtype_clear). rewrite !slice_lor by lia.
  rewrite fields_opcode, fields_rd, E1, E2, !Z.lor_0_r. by rewrite !wrap_small by done.
Qed.

(** Single bits of the fields. *)
Lemma slice_slice lo v a w x :
  0 <= lo -> 0 <= a -> 0 <= w -> a + w <= v -> slice a w (slice lo v x) = slice (lo + a) w x.
Proof.
  intros. unfold slice at 2. rewrite slice_wrap by lia. unfold slice.
  by rewrite Z.shiftr_shiftr by lia.
Qed.
Lemma bit12 w : bit 12 w = bit 0 (funct3 w).
Proof. unfold bit, funct3. by rewrite slice_slice by lia. Qed.
Lemma bit14 w : bit 14 w = bit 2 (funct3 w).
Proof. unfold bit, funct3. by rewrite slice_slice by lia. Qed.
Lemma bit31 w : bit 31 w = bit 6 (funct7 w).
Proof. unfold bit, funct7. by rewrite slice_slice by lia. Qed.
Lemma ctr_field w : slice 20 2 w = slice 0 2 (slice 20 5 w).
Proof. by rewrite slice_slice by lia. Qed.

(** * Control signals by opcode *)

(** The decoder on an opcode that selects nothing. *)
Definition base (w : Z) : outputs :=
  Outputs (slice 7 5 w) (slice 15 5 w) (slice 20 5 w) 0 (Some 0) false false false false
    (decode_mem_mask w) false false (bit 12 w =? 1) false false false false false true false
    false (Some 0) false false (slice 20 2 w) false 0 0 false false false false.

(** Evaluate the instruction-type predicates at a known opcode. *)
Ltac by_opcode :=
  unfold decode, select_imm, decode_vec_op, decode_vmac_ctrl, writes_vreg, is_r_type, is_i_type,
    is_s_type, is_b_type, is_u_type, is_j_type, is_vmac_type, is_rdwrctr_type, is_vec_type;
  repeat match goal with H : opcode _ = _ |- _ => rewrite H | H : funct3 _ = _ |- _ => rewrite H end;
  reflexivity.

Lemma decode_op w : opcode w = 0x33 -> decode w = (base w) <| alu_ctrl := decode_alu w |>.
Proof. intros. by_opcode. Qed.
Lemma decode_op_imm w :
  opcode w = 0x13 ->
  decode w = (base w) <| alu_ctrl := decode_alu w |> <| imm := imm_i w |> <| alu_src2_sel := true |>.
Proof. intros. by_opcode. Qed.
Lemma decode_lui w :
  opcode w = 0x37 ->
  decode w = (base w) <| rs1 := 0 |> <| imm := imm_u w |> <| alu_src2_sel := true |>
    <| is_lui := true |> <| alu_ctrl := decode_alu w |>.
Proof. intros. by_opcode. Qed.
Lemma decode_auipc w :
  opcode w = 0x17 ->
  decode w = (base w) <| rs1 := 0 |> <| imm := imm_u w |> <| alu_src2_sel := true |>
    <| is_auipc := true |> <| alu_ctrl := decode_alu w |>.
Proof. intros. by_opcode. Qed.
Lemma decode_jal w :
  opcode w = 0x6F ->
  decode w = (base w) <| imm := imm_j w |> <| is_jal := true |> <| alu_ctrl := decode_alu w |>.
Proof. intros. by_opcode. Qed.
Lemma decode_jalr w :
  opcode w = 0x67 ->
  decode w = (base w) <| imm := imm_i w |> <| is_jalr := true |> <| alu_src2_sel := true |>
    <| alu_ctrl := decode_alu w |>.
Proof. intros. by_opcode. Qed.
Lemma decode_branch w :
  opcode w = 0x63 ->
  decode w = (base w) <| imm := imm_b w |> <| is_branch := true |> <| reg_write := false |>
    <| is_branch_compare := bit 14 w =? 1 |> <| alu_ctrl := decode_alu w |>.
Proof. intros. by_opcode. Qed.
Lemma decode_load w :
  opcode w = 0x03 ->
  decode w = (base w) <| imm := imm_i w |> <| mem_read := true |> <| wb_from_mem := true |>
    <| alu_src2_sel := true |> <| mem_sign_extend := bit 14 w =? 0 |> <| alu_ctrl := decode_alu w |>.
Proof. intros. by_opcode. Qed.
Lemma decode_store w :
  opcode w = 0x23 ->
  decode w = (base w) <| imm := imm_s w |> <| mem_write := true |> <| alu_src2_sel := true |>
    <| reg_write := false |> <| alu_ctrl := decode_alu w |>.
Proof. intros. by_opcode. Qed.
Lemma decode_rdwrctr w :
  opcode w = 0x5B -> funct3 w = 0 ->
  decode w = (base w) <| is_rdwrctr := true |> <| rdwrctr_wen := bit 31 w =? 1 |>
    <| alu_ctrl := decode_alu w |>.
Proof. intros. by_opcode. Qed.
Lemma decode_packed w :
  opcode w = 0x5B -> funct3 w = 1 ->
  decode w = (base w) <| is_vmac := true |> <| vmac_ctrl := decode_vmac_ctrl w |>
    <| alu_ctrl := decode_alu w |>.
Proof. intros. by_opcode. Qed.
Lemma decode_vec w :
  opcode w = 0x5B -> funct3 w = 2 ->
  decode w = (base w) <| is_vec_op := true |> <| vec_op := decode_vec_op w |>
    <| vec_sew := slice 5 2 (funct7 w) |> <| is_vec_load := vop w =? VOP_VLD |>
    <| is_vec_store := vop w =? VOP_VST |> <| vec_reg_write := writes_vreg w |>
    <| is_vec_vmac := vop w =? VOP_VMAC |> <| reg_write := vop w =? VOP_VMAC |>
    <| alu_ctrl := decode_alu w |>.
Proof. intros. by_opcode. Qed.
End Encoding.
