(* ===== verification/Instructions.v ===== *)
(** Every instruction of [Isa] on the core, one by one: from a [ready] SoC whose next
    word encodes a valid instruction, [Isa.latency] clock edges later the instruction has
    [executed] with the architectural effect of [Isa.step]. [Refinement.v] collects them. *)

From S2P Require Import Prelude Vmac Valu Sram Vlsu Alu Decoder.
From S2P Require Import Opcodes Immediates Cpu Isa Execution UnitExec Encoding.

Module Instructions.
Import Cpu Execution UnitExec.
#[local] Existing Instance Isa.eta_arch.

(** * Loads and stores, byte by byte *)

Lemma extend_sign_spec (w : nat) b :
  (0 < w <= 32)%nat -> urange (Z.of_nat w) b -> extend_sign w b = wrap 32 (sgn (Z.of_nat w) b).
Proof.
  intros Hw Hb. unfold extend_sign, Alu.bit.
  replace (Z.of_nat (w - 1)) with (Z.of_nat w - 1) by lia.
  rewrite <- sgn_neg_bit by lia. unfold sgn. rewrite wrap_small by done.
  assert (E : 2 ^ 32 = 2 ^ (32 - Z.of_nat w) * 2 ^ Z.of_nat w) by (rewrite <- Z.pow_add_r by lia; f_equal; lia).
  pose proof (pow2_half (Z.of_nat w) ltac:(lia)). pose proof (pow2_pos (32 - Z.of_nat w) ltac:(lia)).
  unfold urange in Hb. unfold wrap. destruct (Z.ltb_spec b (2 ^ (Z.of_nat w - 1))).
  - replace (b <? 0) with false by lia. rewrite Z.mod_small by nia. lia.
  - replace (b - 2 ^ Z.of_nat w <? 0) with true by lia. rewrite Z.ones_equiv.
    rewrite <- (Z_mod_plus_full _ 1), Z.mod_small by nia. nia.
Qed.

(** The byte lane an address selects. *)
Lemma wrap2 a : wrap 2 a = a mod 4.
Proof. done. Qed.
Lemma bit1 a : Alu.bit a 1 = (2 <=? a mod 4).
Proof.
  unfold Alu.bit. change 1%nat with (Z.to_nat 1). rewrite Z2Nat.id by lia.
  rewrite Z.testbit_eqb by lia. change (2 ^ 1) with 2.
  apply Bool.eq_true_iff_eq. rewrite Z.eqb_eq, Z.leb_le. Z.div_mod_to_equations. lia.
Qed.

Lemma index_offset a k : 0 <= a -> 0 <= k -> a mod 4 + k < 4 -> Sram.index (a + k) = Sram.index a.
Proof.
  intros. unfold Sram.index, slice. f_equal. rewrite !Z.shiftr_div_pow2 by lia.
  change (2 ^ 2) with 4. Z.div_mod_to_equations. lia.
Qed.

Lemma bytes_at_within m a n :
  0 <= a -> a mod 4 + Z.of_nat n <= 4 ->
  pack 8 (Sram.bytes_at m a n) = slice (8 * (a mod 4)) (8 * Z.of_nat n) (m (Sram.index a)).
Proof.
  intros Ha Hn. pose proof (Z.mod_pos_bound a 4 ltac:(lia)) as Hk.
  transitivity (pack 8 (lanes 8 n (Z.shiftr (m (Sram.index a)) (8 * (a mod 4))))).
  - f_equal. unfold Sram.bytes_at, lanes. apply map_ext_in. intros k Hin. apply in_seq in Hin.
    unfold Sram.byte_at. rewrite index_offset by lia. unfold lane, slice.
    rewrite Z.shiftr_shiftr by lia. do 2 f_equal.
    replace ((a + Z.of_nat k) mod 4) with (a mod 4 + Z.of_nat k) by (Z.div_mod_to_equations; lia). lia.
  - by rewrite pack_lanes by lia.
Qed.

(** What the load path makes of a word, for an aligned access. *)
Lemma mem_data_load c m w signed a :
  Sram.wf m -> urange 32 a -> a mod Isa.bytes w = 0 ->
  alu_out_reg c = a -> mem_data_reg c = m (Sram.index a) ->
  Decoder.mem_sign_extend (ctrl c) = signed ->
  Decoder.mem_mask (ctrl c) = match w with Isa.BYTE => 0xFF | Isa.HALF => 0xFFFF | Isa.WORD => 0xFFFFFFFF end ->
  (w = Isa.WORD -> signed = true) ->
  mem_data_extended c = Isa.load m w signed a.
Proof.
  intros Hm Ha Hal Hra Hrd Hs Hmask Hw. unfold mem_data_extended, Isa.load. rewrite Hs, Hmask, Hrd.
  pose proof (Z.mod_pos_bound a 4 ltac:(lia)) as Hk. unfold urange in Ha.
  assert (Hb : mem_byte c = slice (8 * (a mod 4)) 8 (m (Sram.index a))).
  { unfold mem_byte. rewrite Hra, Hrd, wrap2.
    assert (In (a mod 4) [0; 1; 2; 3]) as Hin by (cbn; lia).
    by destruct Hin as [<-|[<-|[<-|[<-|[]]]]]. }
  assert (Hh : a mod 2 = 0 -> mem_half c = slice (8 * (a mod 4)) 16 (m (Sram.index a))).
  { intros He. unfold mem_half. rewrite Hra, Hrd, bit1.
    assert (a mod 4 = 0 \/ a mod 4 = 2) as [-> | ->] by (Z.div_mod_to_equations; lia); done. }
  destruct w; cbn [Isa.bytes Z.eqb Pos.eqb] in *; rewrite bytes_at_within by
    (try lia; Z.div_mod_to_equations; lia).
  - rewrite Hb. change (8 * Z.of_nat (Z.to_nat 1)) with 8. destruct signed; [|done].
    rewrite (extend_sign_spec 8) by (first [lia | apply slice_range; lia]). done.
  - rewrite Hh by done. change (8 * Z.of_nat (Z.to_nat 2)) with 16. destruct signed; [|done].
    rewrite (extend_sign_spec 16) by (first [lia | apply slice_range; lia]). done.
  - rewrite (Hw eq_refl), Hal.
    assert (slice (8 * 0) (8 * Z.of_nat (Z.to_nat 4)) (m (Sram.index a)) = m (Sram.index a)) as ->.
    { transitivity (wrap 32 (m (Sram.index a))); [apply slice_0|apply wrap_small, Hm]. }
    rewrite (wrap_sgn 32) by lia. symmetry. apply wrap_small, Hm.
Qed.

Lemma merge_ext k1 k2 old d1 d2 :
  Forall (fun i => Z.testbit k1 (Z.of_nat i) = Z.testbit k2 (Z.of_nat i) /\
                   (Z.testbit k2 (Z.of_nat i) = true -> lane 8 i d1 = lane 8 i d2)) (seq 0 4) ->
  Sram.merge k1 old d1 = Sram.merge k2 old d2.
Proof.
  intros H. unfold Sram.merge. f_equal. apply map_ext_in. intros i Hi.
  rewrite Forall_forall in H. destruct (H i ltac:(by apply list_elem_of_In)) as [-> Hl].
  destruct (Z.testbit k2 (Z.of_nat i)); [by apply Hl|done].
Qed.

(** Lanes of a replicated byte or halfword, and of a shifted operand. *)
Lemma lanes_bytes d i : (i < 4)%nat -> lane 8 i (pack 8 [d; d; d; d]) = wrap 8 d.
Proof.
  intros Hi. pose proof (lanes_pack 8 [d; d; d; d] ltac:(lia)) as H. injection H as ? ? ? ?.
  by do 4 (destruct i as [|i]; [done|]); lia.
Qed.
Lemma lanes_halves d i : (i < 4)%nat -> lane 8 i (pack 16 [d; d]) = lane 8 (i mod 2) d.
Proof.
  intros Hi. pose proof (lanes_pack 16 [d; d] ltac:(lia)) as H. injection H as H0 H1.
  assert (E : forall k, (k < 2)%nat -> forall x, wrap 16 x = wrap 16 d -> lane 8 k x = lane 8 k d).
  { intros k Hk x Hx. unfold lane. rewrite <- (slice_wrap _ 8 16), Hx by lia. apply slice_wrap; lia. }
  destruct i as [|[|[|[|i]]]]; [| | | |lia]; cbn [Nat.modulo Nat.divmod fst snd Nat.sub].
  - apply E; [lia|]. by rewrite <- H0.
  - apply E; [lia|]. by rewrite <- H0.
  - transitivity (lane 8 0 (slice 16 16 (pack 16 [d; d]))); [by unfold lane; rewrite Encoding.slice_slice by lia|].
    apply E; [lia|]. unfold lane in H1. rewrite wrap_small by (apply slice_range; lia). exact H1.
  - transitivity (lane 8 1 (slice 16 16 (pack 16 [d; d]))); [by unfold lane; rewrite Encoding.slice_slice by lia|].
    apply E; [lia|]. unfold lane in H1. rewrite wrap_small by (apply slice_range; lia). exact H1.
Qed.
Lemma lane_shifted d i r :
  (r <= i)%nat -> (i < 4)%nat -> lane 8 i (wrap 32 (Z.shiftl d (8 * Z.of_nat r))) = lane 8 (i - r) d.
Proof.
  intros Hr Hi. unfold lane. rewrite slice_wrap by lia. apply Z.bits_inj'. intros n Hn.
  rewrite !testbit_slice, testbit_shiftl by lia.
  replace (8 * Z.of_nat r <=? n + 8 * Z.of_nat i) with true by lia. cbn [andb].
  do 2 f_equal. lia.
Qed.

(** What the store path writes, for an aligned access. *)
Lemma store_lanes_spec w mask a d old :
  urange 32 a -> urange 32 d -> a mod Isa.bytes w = 0 ->
  mask = match w with Isa.BYTE => 0xFF | Isa.HALF => 0xFFFF | Isa.WORD => 0xFFFFFFFF end ->
  Sram.merge (store_lanes mask a d).2 old (store_lanes mask a d).1
  = Sram.merge (Isa.store_mask w a) old (wrap 32 (Z.shiftl d (8 * (a mod 4)))).
Proof.
  intros Ha Hd Hal ->. unfold store_lanes, Isa.store_mask.
  pose proof (Z.mod_pos_bound a 4 ltac:(lia)) as Hk.
  destruct w; cbn [Isa.bytes Z.eqb Pos.eqb fst snd] in *.
  - rewrite wrap2. assert (exists r, (r < 4)%nat /\ a mod 4 = Z.of_nat r) as (r & Hr & ->)
      by (exists (Z.to_nat (a mod 4)); lia).
    apply merge_ext. destruct r as [|[|[|[|r]]]]; [| | | |lia];
      repeat (apply List.Forall_cons; [split; [reflexivity|]; intros Hb; try discriminate Hb;
        rewrite lanes_bytes by lia; rewrite (lane_shifted d _ _) by lia; symmetry; apply slice_0|]);
      apply List.Forall_nil.
  - rewrite bit1. assert (a mod 4 = 0 \/ a mod 4 = 2) as [E|E] by (Z.div_mod_to_equations; lia); rewrite E;
      apply merge_ext; cbn [Z.leb Z.compare Pos.compare Pos.compare_cont];
      [change (8 * 0) with (8 * Z.of_nat 0) | change (8 * 2) with (8 * Z.of_nat 2)];
      repeat (apply List.Forall_cons; [split; [reflexivity|]; intros Hb; try discriminate Hb;
        rewrite lanes_halves by lia; by rewrite (lane_shifted d _ _) by lia|]);
      apply List.Forall_nil.
  - rewrite Hal. change (8 * 0) with 0. rewrite Z.shiftl_0_r. by rewrite wrap_small.
Qed.

(** * One instruction *)

(** Read the control signals of a decoded word. *)
Ltac signals :=
  cbn [setter Encoding.base Decoder.rd Decoder.rs1 Decoder.rs2 Decoder.imm Decoder.alu_ctrl
    Decoder.alu_src2_sel Decoder.mem_write Decoder.mem_read Decoder.wb_from_mem Decoder.mem_mask
    Decoder.mem_sign_extend Decoder.is_branch Decoder.branch_if_set Decoder.is_branch_compare
    Decoder.is_jal Decoder.is_jalr Decoder.is_auipc Decoder.is_lui Decoder.reg_write
    Decoder.ebreak_hit Decoder.is_vmac Decoder.vmac_ctrl Decoder.is_rdwrctr Decoder.rdwrctr_wen
    Decoder.rdwrctr_ctr_id Decoder.is_vec_op Decoder.vec_op Decoder.vec_sew Decoder.is_vec_load
    Decoder.is_vec_store Decoder.vec_reg_write Decoder.is_vec_vmac default] in *.

(** Every other instruction has the ALU add. *)
Ltac adds :=
  unfold Decoder.decode_alu, Decoder.is_r_type, Decoder.is_i_type, Decoder.is_b_type,
    Decoder.is_vmac_type, Decoder.is_vec_type;
  match goal with H : Decoder.opcode _ = _ |- _ => rewrite H end; reflexivity.

Section OnCore.
(** [uart]: the UART accepts a byte in every cycle. *)
Context (use_par uart : bool) (dontcare : Z).
Abbreviation sstep := (Soc.step use_par dontcare).

Definition driven (ps : list Soc.pins) : Prop :=
  awake ps /\ Forall (fun p => uart = true -> Soc.uart_ready p = true) ps.

(** Memory accesses the refinement covers: naturally aligned scalar accesses; loads and
    vector accesses outside the UART page; stores wherever the bus accepts them. *)
Definition access_ok (i : Isa.instr) (a : Isa.arch) : Prop :=
  let at_ r k := wrap 32 (Isa.get (Isa.x a) r + k) in
  match i with
  | Isa.Load w _ _ rs1 k => at_ rs1 k mod Isa.bytes w = 0 /\ Sram.is_uart (at_ rs1 k) = false
  | Isa.Store w _ rs1 k =>
      at_ rs1 k mod Isa.bytes w = 0 /\ Sram.req_ready use_par uart (at_ rs1 k) = true
  | Isa.Vld _ rs1 | Isa.Vst _ rs1 => Vlsu.in_sram (Isa.get (Isa.x a) rs1)
  | _ => True
  end.

(** The last read on the data port did not go to the UART. *)
Definition clean (ra : Z) : Prop := Sram.is_uart ra && negb use_par = false.

(** The core after [fetched], wire by wire. *)
Lemma alu_out_fetched c w :
  let d := Decoder.decode w in
  alu_out dontcare (fetched c w)
  = Alu.alu_out (if Decoder.is_auipc d then pc_reg c else Isa.get (regs c) (Decoder.rs1 d))
      (if Decoder.alu_src2_sel d then Decoder.imm d else Isa.get (regs c) (Decoder.rs2 d))
      (default dontcare (Decoder.alu_ctrl d)).
Proof.
  cbv zeta. unfold alu_out, alu_op1, alu_op2, alu_ctrl_reg, rf_rdata1, rf_rdata2, dec, fetched. fields.
  reflexivity.
Qed.
Lemma alu_zero_fetched c w :
  alu_zero dontcare (fetched c w) = (alu_out dontcare (fetched c w) =? 0).
Proof. unfold alu_zero, Alu.zero, alu_out. reflexivity. Qed.
Lemma ctrl_fetched c w : ctrl (fetched c w) = Decoder.decode w.
Proof. unfold fetched. by fields. Qed.
Lemma pc_saved_fetched c w : pc_saved (fetched c w) = pc_reg c.
Proof. unfold fetched. by fields. Qed.
Lemma pc_plus_4_fetched c w :
  urange 32 (pc_reg c) -> pc_plus_4 (fetched c w) = wrap 32 (pc_reg c + 4).
Proof.
  intros H. unfold pc_plus_4. rewrite pc_saved_fetched.
  rewrite Alu.adder_correct by (done || word_lia). cbn [Z.b2z fst]. by rewrite Z.add_0_r.
Qed.
Lemma pc_plus_imm_fetched c w :
  urange 32 (pc_reg c) -> urange 32 (Decoder.imm (Decoder.decode w)) ->
  pc_plus_imm (fetched c w) = wrap 32 (pc_reg c + Decoder.imm (Decoder.decode w)).
Proof.
  intros H Hi. unfold pc_plus_imm. rewrite pc_saved_fetched, ctrl_fetched.
  rewrite Alu.adder_correct by done. cbn [Z.b2z fst]. by rewrite Z.add_0_r.
Qed.

Lemma rf_write_put v r f : rf_write true r v f = Isa.put f r v.
Proof. unfold rf_write, Isa.put. by destruct (r =? 0). Qed.
Lemma rf_write_off r v f : rf_write false r v f = f.
Proof. done. Qed.

(** Control codes of the ALU. *)
Definition alu_code (f : Isa.alu_op) : Z :=
  match f with
  | Isa.ADD => 0 | Isa.SUB => 1 | Isa.AND => 2 | Isa.OR => 3 | Isa.XOR => 4 | Isa.SLL => 5
  | Isa.SRL => 6 | Isa.SRA => 7 | Isa.SLT => 8 | Isa.SLTU => 9
  end.
Lemma alu_code_spec f p q :
  urange 32 p -> urange 32 q -> Alu.alu_out p q (default dontcare (Some (alu_code f))) = Isa.alu f p q.
Proof. intros. change (default dontcare (Some (alu_code f))) with (alu_code f). rewrite Alu.alu_out_spec by first [done | destruct f; unfold alu_code; word_lia]. by destruct f. Qed.

(** A straight instruction's next address. *)
Lemma next_pc_straight c w :
  straight (Decoder.decode w) -> urange 32 (pc_reg c) ->
  next_pc dontcare (fetched c w) = wrap 32 (pc_reg c + 4).
Proof.
  intros (Hj & Hjr & Hb) Hpc. unfold next_pc, take_branch. rewrite ctrl_fetched, Hj, Hjr, Hb.
  by apply pc_plus_4_fetched.
Qed.

(** What an instruction [i] has to reach, from a core [c] with memory [m]. *)
Definition implements (i : Isa.instr) : Prop :=
  forall ps c m b,
    driven ps -> length ps = Isa.latency i -> ready (Soc.State c m b) ->
    Isa.valid i -> Isa.wf (abs (Soc.State c m b)) -> access_ok i (abs (Soc.State c m b)) ->
    clean (Sram.dmem_addr_reg m) ->
    Sram.mem m (Sram.index (pc_reg c)) = Isa.encode i ->
    exists ra, clean ra /\
      executed (run sstep ps (Soc.State c m b)) ra (Isa.step i (abs (Soc.State c m b))).

(** Run fetch and decode, leaving the execution of the decoded word. *)
Lemma implement i :
  (forall ps c m b,
    driven ps -> (2 + length ps)%nat = Isa.latency i -> quiet (fetched c (Isa.encode i)) ->
    Isa.valid i -> Isa.wf (abs (Soc.State c m b)) -> access_ok i (abs (Soc.State c m b)) ->
    clean (Sram.dmem_addr_reg m) ->
    exists ra, clean ra /\
      executed (run sstep ps (Soc.State (fetched c (Isa.encode i))
        (settled c m) b)) ra
        (Isa.step i (abs (Soc.State c m b)))) ->
  implements i.
Proof.
  intros H ps c m b [Ha Hu] Hl Hr Hv Hwf Hok Hcl Hw.
  assert (2 <= Isa.latency i)%nat by (destruct i; cbn; lia).
  destruct ps as [|p1 [|p2 ps]]; cbn [length] in Hl; [lia..|].
  apply Forall_cons_1 in Ha as [H1 Ha]. apply Forall_cons_1 in Ha as [H2 Ha].
  apply Forall_cons_1 in Hu as [_ Hu]. apply Forall_cons_1 in Hu as [_ Hu].
  rewrite run_decoded, Hw by done. apply H; try done; apply fetched_quiet, Hr.
Qed.

(** The registers that fetch and decode leave alone, and those they set. *)
Lemma fetched_regs c w : regs (fetched c w) = regs c.
Proof. unfold fetched. by fields. Qed.
Lemma fetched_vregs c w : vregs (fetched c w) = vregs c.
Proof. unfold fetched. by fields. Qed.
Lemma fetched_state c w : cpu_state (fetched c w) = EXEC.
Proof. unfold fetched. by fields. Qed.
Lemma fetched_cycle c w : cycle_counter (fetched c w) = wrap 32 (cycle_counter c + 2).
Proof. unfold fetched. by fields. Qed.
Lemma fetched_insns c w : insn_counter (fetched c w) = insn_counter c.
Proof. unfold fetched. by fields. Qed.
Lemma fetched_loads c w : load_counter (fetched c w) = load_counter c.
Proof. unfold fetched. by fields. Qed.
Lemma fetched_stores c w : store_counter (fetched c w) = store_counter c.
Proof. unfold fetched. by fields. Qed.
Lemma fetched_vd c w : vd_reg (fetched c w) = Decoder.rd (Decoder.decode w).
Proof. unfold fetched. by fields. Qed.
Lemma fetched_rdata1 c w : rdata1_reg (fetched c w) = Isa.get (regs c) (Decoder.rs1 (Decoder.decode w)).
Proof. unfold fetched. by fields. Qed.
Lemma fetched_rdata2 c w : rdata2_reg (fetched c w) = Isa.get (regs c) (Decoder.rs2 (Decoder.decode w)).
Proof. unfold fetched. by fields. Qed.
Lemma fetched_vs1 c w : vs1_data_reg (fetched c w) = Isa.get (vregs c) (Decoder.rs1 (Decoder.decode w)).
Proof. unfold fetched. by fields. Qed.
Lemma fetched_vs2 c w : vs2_data_reg (fetched c w) = Isa.get (vregs c) (Decoder.rs2 (Decoder.decode w)).
Proof. unfold fetched. by fields. Qed.
Create Rewrite HintDb fetched.
Hint Rewrite fetched_regs fetched_vregs fetched_state fetched_cycle fetched_insns fetched_loads
  fetched_stores fetched_vd fetched_rdata1 fetched_rdata2 fetched_vs1 fetched_vs2 ctrl_fetched : fetched.

(** Compare two architectural states, the specification's updates evaluated. *)
Ltac same_arch :=
  lazy beta iota zeta delta [setter abs Isa.setx Isa.setv Isa.next Isa.goto Isa.tick Soc.cpu Soc.sram Soc.break_hit
    Isa.pc Isa.x Isa.v Isa.mem Isa.cycle Isa.instret Isa.loads Isa.stores Isa.halted];
  rewrite ?wrap_add_l; repeat first [reflexivity | lia | f_equal].

(** The operations of [alu_insn] on a straight instruction that writes a register. *)
Lemma alu_writes ps c m b w i d v :
  awake ps -> length ps = 2%nat -> quiet (fetched c w) ->
  Isa.wf (abs (Soc.State c m b)) -> Isa.latency i = 4%nat ->
  plain (Decoder.decode w) -> straight (Decoder.decode w) ->
  Decoder.mem_read (Decoder.decode w) = false -> Decoder.mem_write (Decoder.decode w) = false ->
  Decoder.wb_from_mem (Decoder.decode w) = false -> Decoder.reg_write (Decoder.decode w) = true ->
  Decoder.ebreak_hit (Decoder.decode w) = false -> Decoder.rd (Decoder.decode w) = d ->
  alu_out dontcare (fetched c w) = v ->
  executed (run sstep ps (Soc.State (fetched c w) (settled c m) b)) (Sram.dmem_addr_reg m)
    (Isa.setx (Isa.next (Isa.tick i (abs (Soc.State c m b)))) d v).
Proof.
  intros Ha Hl Hq [Hpc _ _ _ _] Hlat Hp Hs Hr Hw Hf Hrw He <- Hv. rewrite <- (ctrl_fetched c w) in *.
  eapply executed_eq; [by apply (alu_insn use_par dontcare ps (fetched c w) (settled c m) b)|].
  autorewrite with fetched in *. pose proof Hs as (Hj & Hjr & _).
  rewrite next_pc_straight, Hj, Hjr, Hrw, He, rf_write_put, Hv by done. cbn [orb].
  same_arch.
Qed.

(** ** RV32I *)

Lemma reg_small r : Isa.reg r -> urange 5 r.
Proof. done. Qed.

(** The operands of an instruction are words. *)
Lemma get_word a r : Isa.wf a -> urange 32 (Isa.get (Isa.x a) r).
Proof. intros []. by apply Isa.get_range. Qed.

(** An instruction whose result is the ALU's. *)
Lemma implements_alu i d v (D := Decoder.decode (Isa.encode i)) :
  Isa.latency i = 4%nat ->
  (forall a, Isa.step i a = Isa.setx (Isa.next (Isa.tick i a)) d (v a)) ->
  (Isa.valid i ->
     plain D /\ straight D /\ Decoder.mem_read D = false /\ Decoder.mem_write D = false /\
     Decoder.wb_from_mem D = false /\ Decoder.reg_write D = true /\ Decoder.ebreak_hit D = false /\
     Decoder.rd D = d) ->
  (Isa.valid i -> forall a, Isa.wf a ->
     Alu.alu_out (if Decoder.is_auipc D then Isa.pc a else Isa.get (Isa.x a) (Decoder.rs1 D))
       (if Decoder.alu_src2_sel D then Decoder.imm D else Isa.get (Isa.x a) (Decoder.rs2 D))
       (default dontcare (Decoder.alu_ctrl D)) = v a) ->
  implements i.
Proof.
  intros Hlat Hst Hd Hv. apply implement. intros ps c m b [Ha Hu] Hl Hq Hi Hwf _ Hcl.
  exists (Sram.dmem_addr_reg m). split; [done|]. rewrite Hst.
  destruct (Hd Hi) as (? & ? & ? & ? & ? & ? & ? & ?).
  apply alu_writes; try done; [lia|]. rewrite alu_out_fetched.
  apply (Hv Hi (abs (Soc.State c m b)) Hwf).
Qed.

(** The word of an instruction, with the facts of its format. *)
Ltac word w H := cbn [Isa.encode] in *; cbv zeta in H |- *; set (w := Z.lor _ _) in *.

Lemma op_implements f rd rs1 rs2 : implements (Isa.Op f rd rs1 rs2).
Proof.
  assert (Hw : Isa.valid (Isa.Op f rd rs1 rs2) ->
    let w := Isa.encode (Isa.Op f rd rs1 rs2) in
    Decoder.opcode w = 0x33 /\ slice 7 5 w = rd /\ slice 15 5 w = rs1 /\ slice 20 5 w = rs2 /\
    Decoder.decode_alu w = Some (alu_code f)).
  { intros (? & ? & ? & _). cbn [Isa.encode]. cbv zeta.
    assert (urange 3 (Isa.alu_funct3 f) /\ urange 7 (Isa.alu_funct7 f)) as [? ?] by (destruct f; cbn; word_lia).
    destruct (Encoding.r_word 0x33 rd (Isa.alu_funct3 f) rs1 rs2 (Isa.alu_funct7 f))
      as (Ho & Ed & E3 & E1 & E2 & E7); [word_lia|done..|].
    split_and!; [done..|]. unfold Decoder.decode_alu, Decoder.is_r_type. rewrite Ho, E3, E7. by destruct f. }
  eapply (implements_alu _ rd); [done|reflexivity|intros Hv; destruct (Hw Hv) as (Ho & Ed & E1 & E2 & Hc)..];
    rewrite (Encoding.decode_op _ Ho); signals; [done|].
  intros a Ha. rewrite E1, E2, Hc. apply alu_code_spec; by apply get_word.
Qed.

Lemma alu_shift f p q q' : Isa.is_shift f = true -> wrap 5 q = wrap 5 q' -> Isa.alu f p q = Isa.alu f p q'.
Proof. intros Hf Hq. destruct f; try discriminate Hf; cbn [Isa.alu]; by rewrite Hq. Qed.

Lemma op_imm_implements f rd rs1 k : implements (Isa.OpImm f rd rs1 k).
Proof.
  assert (Hw : Isa.valid (Isa.OpImm f rd rs1 k) ->
    let w := Isa.encode (Isa.OpImm f rd rs1 k) in
    Decoder.opcode w = 0x13 /\ slice 7 5 w = rd /\ slice 15 5 w = rs1 /\
    Decoder.decode_alu w = Some (alu_code f) /\
    if Isa.is_shift f then wrap 5 (Decoder.imm_i w) = k else Decoder.imm_i w = wrap 32 k).
  { intros (? & ? & Hs & Hk). cbn [Isa.encode]. cbv zeta.
    assert (urange 3 (Isa.alu_funct3 f) /\ urange 7 (Isa.alu_funct7 f)) as [? ?] by (destruct f; cbn; word_lia).
    destruct (Isa.is_shift f) eqn:Hf.
    - destruct (Encoding.r_word 0x13 rd (Isa.alu_funct3 f) rs1 k (Isa.alu_funct7 f))
        as (Ho & Ed & E3 & E1 & E2 & E7); [word_lia|done..|].
      rewrite Encoding.shift_amount. split_and!; [done..| |done].
      unfold Decoder.decode_alu, Decoder.is_r_type, Decoder.is_i_type. rewrite Ho, E3, E7.
      by destruct f.
    - destruct (Encoding.i_word 0x13 rd (Isa.alu_funct3 f) rs1 k)
        as (Ho & Ed & E3 & E1 & Ei); [word_lia|done..|].
      split_and!; [done..| |done].
      unfold Decoder.decode_alu, Decoder.is_r_type, Decoder.is_i_type. rewrite Ho, E3. by destruct f. }
  eapply (implements_alu _ rd); [done|reflexivity|intros Hv; destruct (Hw Hv) as (Ho & Ed & E1 & Hc & Ek)..];
    rewrite (Encoding.decode_op_imm _ Ho); signals; [done|].
  intros a Ha. rewrite E1, Hc. destruct (Isa.is_shift f) eqn:Hf.
  - rewrite alu_code_spec by (first [by apply get_word | rewrite imm_i_extract; apply wrap_range; lia]).
    apply alu_shift; [done|]. rewrite Ek. destruct Hv as (_ & _ & _ & Hk). rewrite Hf in Hk.
    rewrite wrap_narrow by lia. symmetry. by apply wrap_small.
  - rewrite Ek. apply alu_code_spec; [by apply get_word|apply wrap_range; lia].
Qed.

Lemma add_code p q :
  urange 32 p -> urange 32 q -> Alu.alu_out p q (default dontcare (Some 0)) = wrap 32 (p + q).
Proof. intros. by rewrite (alu_code_spec Isa.ADD). Qed.

Lemma lui_implements rd k : implements (Isa.Lui rd k).
Proof.
  eapply (implements_alu _ rd); [done|reflexivity|intros (? & ?)..];
    (destruct (Encoding.u_word 0x37 rd k) as (Ho & Ed & Ei); [word_lia|done..|]; cbn [Isa.encode];
     rewrite (Encoding.decode_lui _ Ho); signals); [done|].
  intros a Ha. rewrite Ei. replace (Decoder.decode_alu _) with (Some 0) by (symmetry; adds).
  rewrite add_code by (first [apply wrap_range; lia|done]). unfold Isa.get. cbn [Z.eqb].
  by rewrite Z.add_0_l, wrap_wrap by lia.
Qed.

Lemma auipc_implements rd k : implements (Isa.Auipc rd k).
Proof.
  eapply (implements_alu _ rd); [done|reflexivity|intros (? & ?)..];
    (destruct (Encoding.u_word 0x17 rd k) as (Ho & Ed & Ei); [word_lia|done..|]; cbn [Isa.encode];
     rewrite (Encoding.decode_auipc _ Ho); signals); [done|].
  intros a [Ha _ _ _ _]. rewrite Ei. replace (Decoder.decode_alu _) with (Some 0) by (symmetry; adds).
  rewrite add_code by (first [apply wrap_range; lia|done]). by rewrite wrap_add_r.
Qed.

(** An instruction that leaves memory alone and moves the program counter to [p]. *)
Lemma alu_jumps ps c m b w i p :
  let D := Decoder.decode w in
  awake ps -> length ps = 2%nat -> quiet (fetched c w) ->
  Isa.wf (abs (Soc.State c m b)) -> Isa.latency i = 4%nat ->
  plain D -> Decoder.mem_read D = false -> Decoder.mem_write D = false ->
  Decoder.wb_from_mem D = false -> Decoder.ebreak_hit D = false ->
  next_pc dontcare (fetched c w) = wrap 32 p ->
  Decoder.reg_write D = Decoder.is_jal D || Decoder.is_jalr D ->
  executed (run sstep ps (Soc.State (fetched c w) (settled c m) b)) (Sram.dmem_addr_reg m)
    (let a := Isa.goto (Isa.tick i (abs (Soc.State c m b))) p in
     if Decoder.reg_write D then Isa.setx a (Decoder.rd D) (wrap 32 (pc_reg c + 4)) else a).
Proof.
  intros D Ha Hl Hq [Hpc _ _ _ _] Hlat Hp Hr Hw Hf He Hn Hrw. subst D. rewrite <- (ctrl_fetched c w) in *.
  eapply executed_eq; [by apply (alu_insn use_par dontcare ps (fetched c w) (settled c m) b)|].
  autorewrite with fetched in *. rewrite Hn, He, Hrw, pc_plus_4_fetched by done.
  destruct (_ || _); rewrite ?rf_write_put; same_arch.
Qed.

Lemma imm_range w :
  urange 32 (Decoder.imm_i w) /\ urange 32 (Decoder.imm_s w) /\ urange 32 (Decoder.imm_b w) /\
  urange 32 (Decoder.imm_u w) /\ urange 32 (Decoder.imm_j w).
Proof.
  rewrite imm_i_extract, imm_s_extract, imm_b_extract, imm_u_extract, imm_j_extract.
  split_and!; apply wrap_range; lia.
Qed.

Lemma jal_implements rd k : implements (Isa.Jal rd k).
Proof.
  apply implement. intros ps c m b [Ha Hu] Hl Hq (Hrd & Hk) Hwf _ Hcl.
  exists (Sram.dmem_addr_reg m). split; [done|].
  destruct (Encoding.j_word 0x6F rd k) as (Ho & Ed & Ei); [word_lia|done..|]. cbn [Isa.encode] in *.
  set (w := Z.lor _ _) in *. pose proof (Encoding.decode_jal w Ho) as D.
  eapply executed_eq; [apply (alu_jumps ps c m b w (Isa.Jal rd k) (pc_reg c + k)); try done; rewrite ?D; signals; try done|].
  - cbn in Hl. lia.
  - unfold next_pc. rewrite ctrl_fetched, pc_plus_imm_fetched by (destruct Hwf; rewrite ?D; signals; first [done|apply imm_range]).
    rewrite D. signals. by rewrite Ei, wrap_add_r.
  - rewrite D. signals. by rewrite Ed.
Qed.

Lemma even_part y : urange 32 y -> 2 * slice 1 31 y = wrap 32 (2 * (y / 2)).
Proof.
  intros Hy. rewrite slice_lt by lia. change (2 ^ 1) with 2. unfold urange in Hy. word_pows.
  rewrite !wrap_small by (unfold urange; word_pows; Z.div_mod_to_equations; lia). done.
Qed.

Lemma jalr_implements rd rs1 k : implements (Isa.Jalr rd rs1 k).
Proof.
  apply implement. intros ps c m b [Ha Hu] Hl Hq (Hrd & Hr1 & Hk) Hwf _ Hcl.
  exists (Sram.dmem_addr_reg m). split; [done|].
  destruct (Encoding.i_word 0x67 rd 0 rs1 k) as (Ho & Ed & E3 & E1 & Ei); [word_lia|done|word_lia|done..|].
  cbn [Isa.encode] in *. set (w := Z.lor _ _) in *. pose proof (Encoding.decode_jalr w Ho) as D.
  eapply executed_eq; [apply (alu_jumps ps c m b w (Isa.Jalr rd rs1 k)
    (2 * (wrap 32 (Isa.get (regs c) rs1 + k) / 2))); try done; rewrite ?D; signals; try done|].
  - cbn in Hl. lia.
  - unfold next_pc. rewrite ctrl_fetched, alu_out_fetched, D. signals.
    replace (Decoder.decode_alu w) with (Some 0) by (symmetry; adds).
    rewrite E1, Ei, add_code by (first [apply wrap_range; lia|by apply (get_word (abs (Soc.State c m b)))]).
    rewrite wrap_add_r. apply even_part, wrap_range. lia.
  - rewrite D. signals. by rewrite Ed.
Qed.

(** ** Branches *)

(** The ALU operation a condition compares with. *)
Definition cond_alu (k : Isa.cond) : Isa.alu_op :=
  match k with
  | Isa.BEQ | Isa.BNE => Isa.SUB | Isa.BLT | Isa.BGE => Isa.SLT | Isa.BLTU | Isa.BGEU => Isa.SLTU
  end.

Lemma sub_zero p q : urange 32 p -> urange 32 q -> (wrap 32 (p - q) =? 0) = (p =? q).
Proof.
  intros Hp Hq. unfold urange in *. apply Bool.eq_true_iff_eq. rewrite !Z.eqb_eq. unfold wrap.
  split; [|intros ->; by rewrite Z.sub_diag].
  intros E. apply Z.mod_divide in E; [|done]. destruct E as [k E]. word_pows. nia.
Qed.

Lemma branch_signals k rs1 rs2 off (w := Isa.encode (Isa.Branch k rs1 rs2 off)) :
  Isa.valid (Isa.Branch k rs1 rs2 off) ->
  Decoder.opcode w = 0x63 /\ slice 15 5 w = rs1 /\ slice 20 5 w = rs2 /\ Decoder.imm_b w = wrap 32 off /\
  Decoder.decode_alu w = Some (alu_code (cond_alu k)) /\
  (Decoder.bit 12 w =? 1) = match k with Isa.BNE | Isa.BGE | Isa.BGEU => true | _ => false end /\
  (Decoder.bit 14 w =? 1) = match k with Isa.BEQ | Isa.BNE => false | _ => true end.
Proof.
  intros (? & ? & ?). unfold w. cbn [Isa.encode].
  destruct (Encoding.b_word 0x63 (Isa.cond_funct3 k) rs1 rs2 off) as (Ho & E3 & E1 & E2 & Ei);
    [word_lia|destruct k; cbn; word_lia|done..|].
  rewrite Encoding.bit12, Encoding.bit14, E3. split_and!; try done; [|by destruct k..].
  unfold Decoder.decode_alu, Decoder.is_r_type, Decoder.is_i_type, Decoder.is_b_type.
  rewrite Ho, E3. by destruct k.
Qed.

Lemma branch_condition_fetched c w k p q :
  urange 32 p -> urange 32 q -> alu_out dontcare (fetched c w) = Isa.alu (cond_alu k) p q ->
  Decoder.branch_if_set (Decoder.decode w) = match k with Isa.BNE | Isa.BGE | Isa.BGEU => true | _ => false end ->
  Decoder.is_branch_compare (Decoder.decode w) = match k with Isa.BEQ | Isa.BNE => false | _ => true end ->
  branch_condition dontcare (fetched c w) = Isa.holds k p q.
Proof.
  intros Hp Hq Ho Hset Hcmp. unfold branch_condition. rewrite ctrl_fetched, Hset, Hcmp, alu_zero_fetched, Ho.
  destruct k; cbn [cond_alu Isa.alu Isa.holds]; rewrite ?sub_zero, ?xorb_false_r, ?xorb_true_r by done;
    try done; by destruct (_ <? _).
Qed.

Lemma branch_implements k rs1 rs2 off : implements (Isa.Branch k rs1 rs2 off).
Proof.
  apply implement. intros ps c m b [Ha Hu] Hl Hq Hi Hwf _ Hcl.
  exists (Sram.dmem_addr_reg m). split; [done|].
  destruct (branch_signals _ _ _ _ Hi) as (Ho & E1 & E2 & Ei & Hc & Hset & Hcmp).
  set (w := Isa.encode _) in *. pose proof (Encoding.decode_branch w Ho) as D.
  pose proof (get_word (abs (Soc.State c m b)) rs1 Hwf) as Hg1.
  pose proof (get_word (abs (Soc.State c m b)) rs2 Hwf) as Hg2. cbn [abs Isa.x Soc.cpu] in Hg1, Hg2.
  set (p := Isa.get (regs c) rs1) in *. set (q := Isa.get (regs c) rs2) in *.
  assert (Hb : branch_condition dontcare (fetched c w) = Isa.holds k p q).
  { apply branch_condition_fetched; try done; [|rewrite D; signals; done..].
    rewrite alu_out_fetched, D. signals. rewrite E1, E2, Hc. by apply alu_code_spec. }
  eapply executed_eq; [apply (alu_jumps ps c m b w (Isa.Branch k rs1 rs2 off)
    (if Isa.holds k p q then pc_reg c + off else pc_reg c + 4)); try done; rewrite ?D; signals; try done|].
  - cbn in Hl. lia.
  - unfold next_pc, take_branch. rewrite ctrl_fetched, Hb.
    rewrite pc_plus_imm_fetched, pc_plus_4_fetched by (destruct Hwf; rewrite ?D; signals; first [done|apply imm_range]).
    rewrite D. signals. cbn [andb]. destruct (Isa.holds k p q); [|done]. by rewrite Ei, wrap_add_r.
  - rewrite D. signals. cbn [Isa.step abs Isa.x Soc.cpu]. fold p q. by destruct (Isa.holds k p q).
Qed.

Lemma ebreak_implements : implements Isa.Ebreak.
Proof.
  apply implement. intros ps c m b [Ha Hu] Hl Hq _ Hwf _ Hcl.
  exists (Sram.dmem_addr_reg m). split; [done|]. cbn [Isa.encode] in *. destruct Hwf as [Hpc _ _ _ _].
  assert (D : ctrl (fetched c 0x00100073) = Decoder.decode 0x00100073) by apply ctrl_fetched.
  eapply executed_eq; [apply (alu_insn use_par dontcare ps (fetched c 0x00100073) (settled c m) b);
    rewrite ?D; try done; by (cbn in Hl; lia)|].
  rewrite D, next_pc_straight by done. autorewrite with fetched.
  replace (Decoder.reg_write (Decoder.decode 0x00100073)) with true by reflexivity.
  replace (Decoder.ebreak_hit (Decoder.decode 0x00100073)) with true by reflexivity.
  replace (Decoder.rd (Decoder.decode 0x00100073)) with 0 by reflexivity.
  replace (Decoder.is_jal (Decoder.decode 0x00100073)) with false by reflexivity.
  rewrite rf_write_put. cbn [Isa.step Isa.put Z.eqb]. unfold Isa.tick. cbn [Isa.latency]. same_arch.
Qed.

(** ** Performance counters *)

Lemma rdctr_implements rd k : implements (Isa.Rdctr rd k).
Proof.
  apply implement. intros ps c m b [Ha Hu] Hl Hq (Hrd & Hk) Hwf _ Hcl.
  exists (Sram.dmem_addr_reg m). split; [done|].
  destruct (Encoding.r_word 0x5B rd 0 0 k 0) as (Ho & Ed & E3 & E1 & E2 & E7);
    [first [assumption|word_lia]..|].
  cbn [Isa.encode] in *. set (w := Isa.fields _ _ _ _ _ _) in *.
  pose proof (Encoding.decode_rdwrctr w Ho E3) as D. destruct Hwf as [Hpc _ _ _ _].
  assert (Hwen : (Decoder.bit 31 w =? 1) = false) by (by rewrite Encoding.bit31, E7).
  assert (Hctr : slice 20 2 w = k) by (rewrite Encoding.ctr_field, E2, slice_0; by apply wrap_small).
  pose proof (ctrl_fetched c w) as C.
  eapply executed_eq; [apply (rdctr_insn use_par dontcare ps (fetched c w) (settled c m) b);
    rewrite ?C, ?D; signals; rewrite ?Hwen; try done; by (cbn in Hl; lia)|].
  autorewrite with fetched. rewrite pc_plus_4_fetched, D by done. signals. rewrite Ed, Hctr, rf_write_put.
  assert (In k [0; 1; 2; 3]) as Hin by (cbn; word_lia).
  cbn [Isa.step]. unfold Isa.tick. cbn [Isa.latency].
  destruct Hin as [<-|[<-|[<-|[<-|[]]]]]; cbn [Isa.counter]; same_arch.
Qed.

Lemma wrctr_implements k rs1 : implements (Isa.Wrctr k rs1).
Proof.
  apply implement. intros ps c m b [Ha Hu] Hl Hq (Hr1 & Hk) Hwf _ Hcl.
  exists (Sram.dmem_addr_reg m). split; [done|].
  destruct (Encoding.r_word 0x5B 0 0 rs1 k 64) as (Ho & Ed & E3 & E1 & E2 & E7);
    [first [assumption|word_lia]..|].
  cbn [Isa.encode] in *. set (w := Isa.fields _ _ _ _ _ _) in *.
  pose proof (Encoding.decode_rdwrctr w Ho E3) as D. destruct Hwf as [Hpc _ _ _ _].
  assert (Hwen : (Decoder.bit 31 w =? 1) = true) by (by rewrite Encoding.bit31, E7).
  assert (Hctr : slice 20 2 w = k) by (rewrite Encoding.ctr_field, E2, slice_0; by apply wrap_small).
  pose proof (ctrl_fetched c w) as C.
  eapply executed_eq; [apply (wrctr_insn use_par dontcare ps (fetched c w) (settled c m) b);
    rewrite ?C, ?D; signals; rewrite ?Hwen, ?Ed, ?Hctr; try done; by (cbn in Hl; lia)|].
  autorewrite with fetched. rewrite pc_plus_4_fetched, D by done. signals. rewrite E1, Hctr.
  assert (In k [0; 1; 2; 3]) as Hin by (cbn; word_lia).
  cbn [Isa.step]. unfold Isa.tick. cbn [Isa.latency].
  destruct Hin as [<-|[<-|[<-|[<-|[]]]]]; cbn [Isa.set_counter]; same_arch.
Qed.

(** ** Scalar loads and stores *)

Definition mask_of (w : Isa.width) : Z :=
  match w with Isa.BYTE => 0xFF | Isa.HALF => 0xFFFF | Isa.WORD => 0xFFFFFFFF end.

Lemma response_load c m w signed a :
  Sram.wf m -> urange 32 a -> a mod Isa.bytes w = 0 ->
  Decoder.mem_sign_extend (ctrl c) = signed -> Decoder.mem_mask (ctrl c) = mask_of w ->
  (w = Isa.WORD -> signed = true) ->
  mem_data_extended (c <| alu_out_reg := a |> <| mem_data_reg := m (Sram.index a) |>)
  = Isa.load m w signed a.
Proof. intros. apply mem_data_load; try assumption; by fields. Qed.

(** The operations of [load_insn] and [store_insn], on the effective address [a]. *)
Lemma loads_word ps c m b u i w signed d a :
  let D := Decoder.decode u in
  awake ps -> length ps = 4%nat -> quiet (fetched c u) ->
  Isa.wf (abs (Soc.State c m b)) -> Isa.latency i = 6%nat ->
  plain D -> straight D -> Decoder.mem_read D = true -> Decoder.mem_write D = false ->
  Decoder.wb_from_mem D = true -> Decoder.reg_write D = true -> Decoder.ebreak_hit D = false ->
  Decoder.rd D = d -> Decoder.mem_sign_extend D = signed -> Decoder.mem_mask D = mask_of w ->
  (w = Isa.WORD -> signed = true) -> alu_out dontcare (fetched c u) = a ->
  urange 32 a -> a mod Isa.bytes w = 0 -> Sram.is_uart a = false ->
  executed (run sstep ps (Soc.State (fetched c u) (settled c m) b)) a
    ((Isa.setx (Isa.next (Isa.tick i (abs (Soc.State c m b)))) d (Isa.load (Sram.mem m) w signed a))
       <| Isa.loads := wrap 32 (load_counter c + 1) |>).
Proof.
  intros D Ha Hl Hq [Hpc _ _ Hm _] Hlat Hp Hs Hr Hw Hf Hrw He <- Hsg Hmask Hws <- Hra Hal Hua. subst D.
  rewrite <- (ctrl_fetched c u) in *.
  eapply executed_eq; [by apply (load_insn use_par dontcare ps (fetched c u) (settled c m) b)|].
  rewrite Hrw, rf_write_put.
  rewrite (response_load _ (Sram.mem (settled c m)) w signed) by assumption.
  generalize (alu_out dontcare (fetched c u)). intros a.
  autorewrite with fetched in *. rewrite pc_plus_4_fetched by done.
  same_arch.
Qed.

Lemma stores_word ps c m b u i w d a :
  let D := Decoder.decode u in
  awake ps -> length ps = 3%nat -> quiet (fetched c u) ->
  Isa.wf (abs (Soc.State c m b)) -> Isa.latency i = 5%nat ->
  plain D -> straight D -> Decoder.mem_read D = false -> Decoder.mem_write D = true ->
  Decoder.reg_write D = false -> Decoder.ebreak_hit D = false ->
  Decoder.mem_mask D = mask_of w -> Isa.get (regs c) (Decoder.rs2 D) = d -> urange 32 d ->
  alu_out dontcare (fetched c u) = a ->
  urange 32 a -> a mod Isa.bytes w = 0 ->
  Forall (fun p => Sram.req_ready use_par (Soc.uart_ready p) a = true) ps ->
  executed (run sstep ps (Soc.State (fetched c u) (settled c m) b)) (Sram.dmem_addr_reg m)
    ((Isa.next (Isa.tick i (abs (Soc.State c m b)))) <| Isa.mem := Isa.store (Sram.mem m) w a d |>
       <| Isa.stores := wrap 32 (store_counter c + 1) |>).
Proof.
  intros D Ha Hl Hq [Hpc _ _ Hm _] Hlat Hp Hs Hr Hw Hrw He Hmask <- Hd <- Hra Hal Hua. subst D.
  rewrite <- (ctrl_fetched c u) in *.
  pose proof (store_insn use_par dontcare ps (fetched c u) (settled c m) b Ha Hl Hq
    (fetched_state c u) Hp Hs Hr Hw Hrw He Hua) as H.
  rewrite (surjective_pairing (store_lanes _ _ _)) in H.
  rewrite fetched_rdata2, <- (ctrl_fetched c u), (store_lanes_spec w) in H by assumption.
  eapply executed_eq; [apply H|]. clear H.
  generalize dependent (alu_out dontcare (fetched c u)). intros a Hra Hal Hua.
  autorewrite with fetched in *. rewrite pc_plus_4_fetched by done. unfold Isa.store. same_arch.
Qed.

(** The bus accepts a request as soon as the UART does. *)
Lemma req_ready_pins ps a :
  driven ps -> Sram.req_ready use_par uart a = true ->
  Forall (fun p => Sram.req_ready use_par (Soc.uart_ready p) a = true) ps.
Proof.
  intros [_ Hu] Ha. eapply Forall_impl; [exact Hu|]. intros p Hp. unfold Sram.req_ready in *.
  destruct (_ && _); auto.
Qed.

(** The effective address. *)
Lemma address_fetched c w k rs1 :
  Decoder.alu_src2_sel (Decoder.decode w) = true -> Decoder.is_auipc (Decoder.decode w) = false ->
  Decoder.rs1 (Decoder.decode w) = rs1 -> Decoder.alu_ctrl (Decoder.decode w) = Some 0 ->
  Decoder.imm (Decoder.decode w) = wrap 32 k -> urange 32 (Isa.get (regs c) rs1) ->
  alu_out dontcare (fetched c w) = wrap 32 (Isa.get (regs c) rs1 + k).
Proof.
  intros E1 E2 <- E3 E4 Hr. rewrite alu_out_fetched, E1, E2, E3, E4.
  rewrite add_code by (done || apply wrap_range; lia). apply wrap_add_r.
Qed.

Lemma load_implements w signed rd rs1 k : implements (Isa.Load w signed rd rs1 k).
Proof.
  apply implement. intros ps c m b [Ha Hu] Hl Hq (Hrd & Hr1 & Hk & Hw) Hwf [Hal Hua] Hcl.
  destruct (Encoding.i_word 0x03 rd (Isa.width_funct3 w + if signed then 0 else 4) rs1 k)
    as (Ho & Ed & E3 & E1 & Ei); [word_lia|done|destruct w, signed; cbn; word_lia|done..|].
  cbn [Isa.encode] in *. set (u := Z.lor _ _) in *. pose proof (Encoding.decode_load u Ho) as D.
  assert (Hmask : Decoder.decode_mem_mask u = mask_of w).
  { unfold Decoder.decode_mem_mask. rewrite E3. destruct w, signed; try done. by discriminate Hw. }
  assert (Hsg : (Decoder.bit 14 u =? 0) = signed).
  { rewrite Encoding.bit14, E3. by destruct w, signed. }
  exists (wrap 32 (Isa.get (regs c) rs1 + k)). split; [unfold clean; by apply andb_false_intro1|].
  apply loads_word; try done; rewrite ?D; signals; try done; [cbn in Hl; lia| |apply wrap_range; lia].
  apply address_fetched; rewrite ?D; signals; try done; [adds|by apply (get_word (abs (Soc.State c m b)))].
Qed.

Lemma store_implements w rs2 rs1 k : implements (Isa.Store w rs2 rs1 k).
Proof.
  apply implement. intros ps c m b [Ha Hu] Hl Hq (Hr2 & Hr1 & Hk) Hwf [Hal Hua] Hcl.
  destruct (Encoding.s_word 0x23 (Isa.width_funct3 w) rs1 rs2 k)
    as (Ho & E3 & E1 & E2 & Ei); [word_lia|destruct w; cbn; word_lia|done..|].
  cbn [Isa.encode] in *. set (u := Z.lor _ _) in *. pose proof (Encoding.decode_store u Ho) as D.
  assert (Hmask : Decoder.decode_mem_mask u = mask_of w).
  { unfold Decoder.decode_mem_mask. rewrite E3. by destruct w. }
  exists (Sram.dmem_addr_reg m). split; [done|].
  apply (stores_word ps c m b u); try done; rewrite ?D; signals; rewrite ?E2; try done;
    [cbn in Hl; lia|by apply (get_word (abs (Soc.State c m b)))| |apply wrap_range; lia|by apply req_ready_pins].
  apply address_fetched; rewrite ?D; signals; try done; [adds|by apply (get_word (abs (Soc.State c m b)))].
Qed.

(** ** Packed and vector instructions *)

Lemma packed_implements op rd rs1 rs2 : implements (Isa.Packed op rd rs1 rs2).
Proof.
  apply implement. intros ps c m b [Ha Hu] Hl Hq (Hrd & Hr1 & Hr2 & Hop) Hwf _ Hcl.
  exists (Sram.dmem_addr_reg m). split; [done|].
  destruct (Encoding.r_word 0x5B rd 1 rs1 rs2 op) as (Ho & Ed & E3 & E1 & E2 & E7);
    [first [assumption|word_lia]..|].
  cbn [Isa.encode] in *. set (w := Isa.fields _ _ _ _ _ _) in *.
  pose proof (Encoding.decode_packed w Ho E3) as D. destruct Hwf as [Hpc _ _ _ _].
  assert (Hc : Decoder.decode_vmac_ctrl w = Some op).
  { unfold Decoder.decode_vmac_ctrl, Decoder.is_vmac_type. rewrite Ho, E3, E7.
    assert (In op [0; 1; 2; 3]) as Hin by (cbn; word_lia).
    by destruct Hin as [<-|[<-|[<-|[<-|[]]]]]. }
  pose proof (ctrl_fetched c w) as C. cbn [Isa.latency] in Hl.
  eapply executed_eq; [apply (packed_insn_runs use_par dontcare ps (fetched c w) (settled c m) b op);
    rewrite ?C, ?D; signals; try done; lia|].
  autorewrite with fetched. rewrite pc_plus_4_fetched, D by done. signals. rewrite E1, E2, Ed, rf_write_put.
  cbn [Isa.step]. unfold Isa.tick. cbn [Isa.latency].
  replace (4 + Vmac.latency op)%nat with (Vmac.latency op + 4)%nat by lia. same_arch.
Qed.

(** The vector fields of [funct7]: operation and element width. *)
Lemma vec_fields w o sew :
  Decoder.funct7 w = 32 * sew + o -> 0 <= sew <= 2 -> 0 <= o <= 5 ->
  Decoder.vop w = o /\ slice 5 2 (Decoder.funct7 w) = sew.
Proof.
  intros E Hs Ho. unfold Decoder.vop. rewrite E.
  assert (sew = 0 \/ sew = 1 \/ sew = 2) as [->|[->| ->]] by lia;
    assert (o = 0 \/ o = 1 \/ o = 2 \/ o = 3 \/ o = 4 \/ o = 5) as [->|[->|[->|[->|[->| ->]]]]] by lia; done.
Qed.

Lemma vector_runs ps c m b w o sew (D := Decoder.decode w) :
  awake ps -> length ps = (4 + Valu.latency o sew)%nat -> quiet (fetched c w) -> urange 32 (pc_reg c) ->
  valu_insn D -> straight D -> Decoder.wb_from_mem D = false -> Decoder.ebreak_hit D = false ->
  wrap 2 (Decoder.vec_op D) = o -> Decoder.vec_sew D = sew -> 0 <= sew <= 2 ->
  (if Decoder.is_vec_vmac D then Decoder.vec_reg_write D = false else Decoder.reg_write D = false) ->
  exists old, let r := Valu.spec o sew (Isa.get (vregs c) (Decoder.rs1 D)) (Isa.get (vregs c) (Decoder.rs2 D)) old in
  executed (run sstep ps (Soc.State (fetched c w) (settled c m) b)) (Sram.dmem_addr_reg m)
    (Isa.Arch (wrap 32 (pc_reg c + 4))
      (rf_write (Decoder.reg_write D) (Decoder.rd D) (slice 0 32 r) (regs c))
      (rf_write (Decoder.vec_reg_write D) (Decoder.rd D) r (vregs c)) (Sram.mem m)
      (wrap 32 (cycle_counter c + Z.of_nat (6 + Valu.latency o sew))) (wrap 32 (insn_counter c + 1))
      (load_counter c) (store_counter c) b).
Proof.
  intros Ha Hl Hq Hpc Hv Hs Hf He <- <- Hsew Hw. subst D. rewrite <- (ctrl_fetched c w) in *.
  exists (Valu.result (valu_inst (fetched c w))). cbv zeta.
  eapply executed_eq; [apply (valu_insn_runs use_par dontcare ps (fetched c w) (settled c m) b); try done; word_lia|].
  autorewrite with fetched in *. rewrite pc_plus_4_fetched, wrap_add_l by done.
  repeat first [reflexivity | lia | f_equal].
Qed.

Lemma vec_implements f sew vd vs1 vs2 : implements (Isa.Vec f sew vd vs1 vs2).
Proof.
  apply implement. intros ps c m b [Ha Hu] Hl Hq (Hrd & Hr1 & Hr2 & Hsew) Hwf _ Hcl.
  exists (Sram.dmem_addr_reg m). split; [done|].
  destruct (Encoding.r_word 0x5B vd 2 vs1 vs2 (32 * sew + Isa.vec_funct f)) as (Ho & Ed & E3 & E1 & E2 & E7);
    [first [assumption|destruct f; cbn [Isa.vec_funct]; word_lia]..|].
  cbn [Isa.encode] in *. set (w := Isa.fields _ _ _ _ _ _) in *.
  pose proof (Encoding.decode_vec w Ho E3) as D. destruct Hwf as [Hpc _ _ _ _].
  destruct (vec_fields w (Isa.vec_funct f) sew) as [Hvop Hs]; [done|done|by destruct f|].
  assert (Hop : wrap 2 (Decoder.decode_vec_op w) = Isa.vec_funct f).
  { unfold Decoder.decode_vec_op, Decoder.is_vec_type. rewrite Ho, E3, Hvop. by destruct f. }
  assert (Hwv : Decoder.writes_vreg w = true).
  { unfold Decoder.writes_vreg, Decoder.is_vec_type. rewrite Ho, E3, Hvop. by destruct f. }
  cbn [Isa.latency] in Hl.
  destruct (vector_runs ps c m b w (Isa.vec_funct f) sew) as [old H];
    rewrite ?D; signals; rewrite ?Hvop; try done; try lia; try (by destruct f).
  eapply executed_eq; [exact H|]. clear H. rewrite D. signals. rewrite Hwv, E1, E2, Ed, Hvop, rf_write_put.
  assert (Hnw : (Isa.vec_funct f =? Decoder.VOP_VMAC) = false) by (by destruct f). rewrite Hnw, rf_write_off.
  cbn [Isa.step]. unfold Isa.tick. cbn [Isa.latency].
  assert (Hspec : Valu.spec (Isa.vec_funct f) sew (Isa.get (vregs c) vs1) (Isa.get (vregs c) vs2) old
          = Valu.elementwise (Isa.vec_fun f) sew (Isa.get (vregs c) vs1) (Isa.get (vregs c) vs2)).
  { assert ((sew =? 3) = false) as Hns by lia. destruct f; cbn [Isa.vec_funct Valu.spec]; by rewrite ?Hns. }
  rewrite Hspec. same_arch.
Qed.

Lemma vmac_implements sew rd vs1 vs2 : implements (Isa.VMac sew rd vs1 vs2).
Proof.
  apply implement. intros ps c m b [Ha Hu] Hl Hq (Hrd & Hr1 & Hr2 & Hsew) Hwf _ Hcl.
  exists (Sram.dmem_addr_reg m). split; [done|].
  destruct (Encoding.r_word 0x5B rd 2 vs1 vs2 (32 * sew + 3)) as (Ho & Ed & E3 & E1 & E2 & E7);
    [first [assumption|word_lia]..|].
  cbn [Isa.encode] in *. set (w := Isa.fields _ _ _ _ _ _) in *.
  pose proof (Encoding.decode_vec w Ho E3) as D. destruct Hwf as [Hpc _ _ _ _].
  destruct (vec_fields w 3 sew) as [Hvop Hs]; [done|done|done|].
  assert (Hop : wrap 2 (Decoder.decode_vec_op w) = 3).
  { unfold Decoder.decode_vec_op, Decoder.is_vec_type. by rewrite Ho, E3, Hvop. }
  assert (Hwv : Decoder.writes_vreg w = false).
  { unfold Decoder.writes_vreg, Decoder.is_vec_type. by rewrite Ho, E3, Hvop. }
  cbn [Isa.latency] in Hl.
  destruct (vector_runs ps c m b w 3 sew) as [old H];
    rewrite ?D; signals; rewrite ?Hvop; try done; try lia.
  eapply executed_eq; [exact H|]. clear H. rewrite D. signals. rewrite Hwv, E1, E2, Ed, Hvop, rf_write_off.
  replace (3 =? Decoder.VOP_VMAC) with true by reflexivity. rewrite rf_write_put.
  cbn [Isa.step]. unfold Isa.tick. cbn [Isa.latency].
  assert (Hspec : slice 0 32 (Valu.spec 3 sew (Isa.get (vregs c) vs1) (Isa.get (vregs c) vs2) old)
          = Valu.dot_product sew (Isa.get (vregs c) vs1) (Isa.get (vregs c) vs2)).
  { rewrite slice_0. cbn [Valu.spec]. replace (sew =? 3) with false by lia. apply wrap_wrap. lia. }
  rewrite Hspec. same_arch.
Qed.

(** ** Vector loads and stores *)

Lemma vload_words mem a : Sram.wf mem -> Vlsu.two_words mem a = Isa.vload mem a.
Proof. intros Hm. unfold Vlsu.two_words, Isa.vload. by rewrite !wrap_small by apply Hm. Qed.

Lemma vld_implements vd rs1 : implements (Isa.Vld vd rs1).
Proof.
  apply implement. intros ps c m b [Ha Hu] Hl Hq (Hrd & Hr1) Hwf Hok Hcl.
  destruct (Encoding.r_word 0x5B vd 2 rs1 0 4) as (Ho & Ed & E3 & E1 & E2 & E7);
    [first [assumption|word_lia]..|].
  cbn [Isa.encode] in *. set (w := Isa.fields _ _ _ _ _ _) in *.
  pose proof (Encoding.decode_vec w Ho E3) as D. destruct Hwf as [Hpc _ _ Hm _].
  destruct (vec_fields w 4 0) as [Hvop Hs]; [done|done|done|].
  assert (Hwv : Decoder.writes_vreg w = true).
  { unfold Decoder.writes_vreg, Decoder.is_vec_type. by rewrite Ho, E3, Hvop. }
  pose proof (ctrl_fetched c w) as C. cbn [Isa.latency] in Hl.
  exists (wrap 32 (Isa.get (regs c) rs1 + 4)). destruct Hok as [Hok1 Hok2].
  split; [unfold clean; by apply andb_false_intro1|].
  pose proof (fetched_rdata1 c w) as R. rewrite D in R. signals. rewrite E1 in R.
  rewrite <- R. eapply executed_eq; [apply (vld_insn use_par dontcare ps (fetched c w) (settled c m) b);
    rewrite ?C, ?D, ?R; signals; rewrite ?Hvop; try done; unfold Vlsu.load_latency; lia|].
  rewrite R. autorewrite with fetched. rewrite pc_plus_4_fetched, D by done. signals.
  rewrite Hwv, rf_write_put, Ed, vload_words by done.
  cbn [Isa.step]. unfold Isa.tick, Vlsu.load_latency. cbn [Isa.latency]. same_arch.
Qed.

Lemma vst_implements vs2 rs1 : implements (Isa.Vst vs2 rs1).
Proof.
  apply implement. intros ps c m b [Ha Hu] Hl Hq (Hr2 & Hr1) Hwf Hok Hcl.
  exists (Sram.dmem_addr_reg m). split; [done|].
  destruct (Encoding.r_word 0x5B 0 2 rs1 vs2 5) as (Ho & Ed & E3 & E1 & E2 & E7);
    [first [assumption|word_lia]..|].
  cbn [Isa.encode] in *. set (w := Isa.fields _ _ _ _ _ _) in *.
  pose proof (Encoding.decode_vec w Ho E3) as D. destruct Hwf as [Hpc _ _ Hm _].
  destruct (vec_fields w 5 0) as [Hvop Hs]; [done|done|done|].
  assert (Hwv : Decoder.writes_vreg w = false).
  { unfold Decoder.writes_vreg, Decoder.is_vec_type. by rewrite Ho, E3, Hvop. }
  pose proof (ctrl_fetched c w) as C. cbn [Isa.latency] in Hl.
  pose proof (fetched_rdata1 c w) as R. rewrite D in R. signals. rewrite E1 in R.
  eapply executed_eq; [apply (vst_insn use_par dontcare ps (fetched c w) (settled c m) b);
    rewrite ?C, ?D, ?R; signals; rewrite ?Hvop; try done; unfold Vlsu.store_latency; lia|].
  autorewrite with fetched. rewrite pc_plus_4_fetched, D by done. signals. rewrite E1, E2.
  cbn [Isa.step]. unfold Isa.tick, Vlsu.store_latency. cbn [Isa.latency]. same_arch.
Qed.
End OnCore.
End Instructions.
