(* ===== verification/Refinement.v ===== *)
(** The core implements its instruction set: one instruction, whole programs by
    induction over the instructions they fetch, the state after reset, and the
    instruction sequence of [vec_mac_8] in [benchmark_wide_vec.c] run on the core. *)

From S2P Require Import Prelude Loops Vmac Valu Sram Vlsu.
From S2P Require Import Decoder Cpu Isa Execution UnitExec Instructions.

Module Refinement.
Import Cpu Execution Instructions.

(** The architectural fields after updates. *)
Ltac fields_of_step :=
  cbn [setter Isa.setx Isa.setv Isa.next Isa.goto Isa.tick Isa.pc Isa.x Isa.v Isa.mem Isa.cycle Isa.instret
    Isa.loads Isa.stores Isa.halted].

Section Runs.
(** Bus configuration, a UART that always accepts, don't-care control values. *)
Context (use_par uart : bool) (dontcare : Z).
Abbreviation sstep := (Soc.step use_par dontcare).

Lemma every_instruction i : implements use_par uart dontcare i.
Proof.
  destruct i; eauto using op_implements, op_imm_implements, lui_implements, auipc_implements,
    jal_implements, jalr_implements, branch_implements, load_implements, store_implements,
    ebreak_implements, rdctr_implements, wrctr_implements, packed_implements, vec_implements,
    vmac_implements, vld_implements, vst_implements.
Qed.

(** The SoC can run its next instruction: between two instructions, every register and
    memory word in its width, the last data read not from the UART. *)
Record fit (s : Soc.state) : Prop := Fit
  { fit_ready : ready s;
    fit_wf : Isa.wf (abs s);
    fit_clean : clean use_par (Sram.dmem_addr_reg (Soc.sram s)) }.

(** The word at the program counter is [i], whose memory access is covered. *)
Record fetches (i : Isa.instr) (a : Isa.arch) : Prop := Fetches
  { f_valid : Isa.valid i;
    f_word : Isa.mem a (Sram.index (Isa.pc a)) = Isa.encode i;
    f_access : access_ok use_par uart i a }.

(** The program fetches the instructions [l], one after another. *)
Fixpoint follows (l : list Isa.instr) (a : Isa.arch) : Prop :=
  match l with [] => True | i :: l => fetches i a /\ follows l (Isa.step i a) end.

Lemma one_instruction i ps s :
  driven uart ps -> length ps = Isa.latency i -> fit s -> fetches i (abs s) ->
  fit (run sstep ps s) /\ abs (run sstep ps s) = Isa.step i (abs s).
Proof.
  intros Ha Hl [Hr Hwf Hc] [Hv Hw Hok]. destruct s as [c m b].
  destruct (every_instruction i ps c m b) as (ra & Hra & Hr' & Ed & E); try done.
  split; [|done]. split; [done| |by rewrite Ed]. rewrite E. by apply Isa.step_preserves.
Qed.

Lemma driven_app ps qs : driven uart (ps ++ qs) <-> driven uart ps /\ driven uart qs.
Proof. unfold driven, awake. rewrite !Forall_app. tauto. Qed.

Lemma program l : forall ps s,
  driven uart ps -> length ps = Isa.latencies l -> fit s -> follows l (abs s) ->
  fit (run sstep ps s) /\ abs (run sstep ps s) = Isa.steps l (abs s).
Proof.
  induction l as [|i l IH]; intros ps s Ha Hl Hf Hp.
  - by destruct ps.
  - destruct Hp as [Hi Hp]. change (Isa.latencies (i :: l)) with (Isa.latency i + Isa.latencies l)%nat in Hl.
    assert (exists p q, ps = p ++ q /\ length p = Isa.latency i) as (p & q & -> & Hp1).
    { exists (take (Isa.latency i) ps), (drop (Isa.latency i) ps). rewrite take_drop, length_take. split; [done|lia]. }
    apply driven_app in Ha as [Ha1 Ha2]. rewrite length_app in Hl.
    unfold run. rewrite fold_left_app. fold (run sstep p s).
    destruct (one_instruction i p s Ha1 Hp1 Hf Hi) as [Hf' E]. rewrite <- E in Hp.
    destruct (IH q _ Ha2 ltac:(lia) Hf' Hp) as [Hf'' E'].
    split; [exact Hf''|]. unfold Isa.steps. cbn [fold_left]. rewrite <- E. exact E'.
Qed.

(** [C2] The core refines the instruction set: if the word at the program counter
    encodes a valid instruction, whose memory access, if any, is aligned and on the
    memory (a store may also go to a UART that accepts it), then after exactly the
    instruction's number of clock edges the core is back between two instructions,
    and registers, vector registers, memory, program counter, the four performance
    counters and the halt flag are what the instruction's meaning says. *)
Theorem instruction_refinement i ps s :
  driven uart ps -> length ps = Isa.latency i -> fit s -> fetches i (abs s) ->
  let s' := run sstep ps s in
  ready s' /\ Isa.wf (abs s') /\ abs s' = Isa.step i (abs s).
Proof. intros Ha Hl Hf Hi. by destruct (one_instruction i ps s Ha Hl Hf Hi) as [[]]. Qed.

(** [C1] Programs run on the core as on the instruction set: a program that fetches the
    instructions [l] takes the sum of their latencies in clock edges, whatever the
    outside pins do meanwhile, and ends in the state the instruction set computes, ready
    for more. *)
Theorem program_refinement l ps s :
  driven uart ps -> length ps = Isa.latencies l -> fit s -> follows l (abs s) ->
  fit (run sstep ps s) /\ abs (run sstep ps s) = Isa.steps l (abs s).
Proof. exact (program l ps s). Qed.

(** ** Reset *)

Lemma reset_edge p s (s' := sstep p s) :
  Soc.resetn p = false ->
  cpu_state (Soc.cpu s') = FETCH /\ quiet (Soc.cpu s') /\ pc_reg (Soc.cpu s') = 0 /\
  dmem_req_valid (Soc.cpu s') = false /\ Soc.break_hit s' = false /\
  cycle_counter (Soc.cpu s') = 0 /\ insn_counter (Soc.cpu s') = 0 /\
  load_counter (Soc.cpu s') = 0 /\ store_counter (Soc.cpu s') = 0 /\
  Sram.imem_addr_reg (Soc.sram s') = pc_reg (Soc.cpu s).
Proof.
  intros Hp. subst s'. destruct s as [c m b]. unfold Soc.step, Cpu.step. cbn [Soc.cpu Soc.sram Soc.break_hit].
  unfold Soc.cpu_inputs at 1. cbn [resetn]. rewrite Hp. cbn [negb].
  unfold csr_block, vmac_pins, valu_pins, vlsu_pins, Soc.cpu_inputs. cbn [resetn]. rewrite Hp. cbn [negb].
  by repeat split.
Qed.

(** At the first instruction, the counters and the break flag clear. *)
Definition restarted (s : Soc.state) : Prop :=
  let a := abs s in
  ready s /\ Isa.pc a = 0 /\ Isa.cycle a = 0 /\ Isa.instret a = 0 /\ Isa.loads a = 0 /\
  Isa.stores a = 0 /\ Isa.halted a = false.

(** [C37] Two clock edges in reset bring the core, whatever its state was, between two
    instructions with the program counter, the four counters and the break flag clear:
    no multi-cycle unit is left computing and no memory request is outstanding. *)
Theorem reset_ready ps s :
  (2 <= length ps)%nat -> Forall (fun p => Soc.resetn p = false) ps ->
  restarted (run sstep ps s).
Proof.
  destruct ps as [|p2 qs] using rev_ind; [cbn; lia|]. clear IHqs.
  destruct qs as [|p1 ps _] using rev_ind; [cbn; lia|].
  rewrite !Forall_app, !Forall_singleton. intros _ [[_ H1] H2].
  unfold run. rewrite !fold_left_app. cbn [fold_left]. set (s0 := fold_left _ ps s).
  destruct (reset_edge p1 s0 H1) as (_ & _ & Hpc & _).
  destruct (reset_edge p2 (sstep p1 s0) H2) as (Hs & Hq & Hpc' & _ & Hb & ? & ? & ? & ? & Hi).
  unfold restarted. cbv zeta. split_and!; try assumption. split; [assumption..|]. by rewrite Hi, Hpc, Hpc'.
Qed.

(** ** The UART page and the memory behind it *)

Lemma uart_index a :
  Sram.is_uart a = true -> urange 32 a -> Sram.index a = (a - 0x10000000) / 4.
Proof.
  unfold Sram.is_uart, Sram.index, slice, wrap, urange. rewrite Z.eqb_eq, !Z.shiftr_div_pow2 by lia.
  word_pows. intros. Z.div_mod_to_equations. lia.
Qed.

Lemma store_word_at m a d :
  urange 32 d -> a mod 4 = 0 -> Isa.store m Isa.WORD a d (Sram.index a) = d.
Proof.
  intros Hd Ha. unfold Isa.store, Sram.write_word. rewrite Z.eqb_refl, Ha.
  unfold Isa.store_mask. rewrite Ha. change (8 * 0) with 0. rewrite Z.shiftl_0_r, wrap_small by done.
  by apply Sram.merge_full.
Qed.

(** The data port of the memory is not deselected by the UART page: a word store to
    the UART, when the UART accepts it, also replaces a word of the first 4 KB of
    memory, where [start.ld] puts the boot code. *)
Theorem uart_store_hits_memory ps s rs2 rs1 k :
  uart = true -> driven uart ps -> length ps = 5%nat -> fit s ->
  let i := Isa.Store Isa.WORD rs2 rs1 k in let a := abs s in
  let addr := wrap 32 (Isa.get (Isa.x a) rs1 + k) in
  Isa.valid i -> Isa.mem a (Sram.index (Isa.pc a)) = Isa.encode i ->
  addr mod 4 = 0 -> Sram.is_uart addr = true ->
  Isa.mem (abs (run sstep ps s)) ((addr - 0x10000000) / 4) = Isa.get (Isa.x a) rs2.
Proof.
  intros Hu Ha Hl Hf i a addr Hv Hw Hal Hua.
  destruct (one_instruction i ps s Ha Hl Hf) as [_ ->].
  { split; [done..|]. split; [done|]. unfold Sram.req_ready. rewrite Hu. by destruct (_ && _). }
  rewrite <- uart_index by (done || apply wrap_range; lia).
  apply store_word_at; [|done]. apply get_word, Hf.
Qed.

(** ** [vec_mac_8] on the core *)

(** The [.insn] words of [vld_v1], [vld_v2] and [vmac_b_v1_v2]; the operands are the
    registers the compiler allocates. *)
Definition vld_v1 (addr : Z) : Isa.instr := Isa.Vld 1 addr.
Definition vld_v2 (addr : Z) : Isa.instr := Isa.Vld 2 addr.
Definition vmac_b_v1_v2 (result : Z) : Isa.instr := Isa.VMac 0 result 1 2.
Definition vec_mac_8 (input_ptr weight_ptr result : Z) : list Isa.instr :=
  [vld_v1 input_ptr; vld_v2 weight_ptr; vmac_b_v1_v2 result].

(** The words of a straight-line sequence, from the program counter on. *)
Definition placed_at (m : Z -> Z) (pc : Z) (l : list Isa.instr) : Prop :=
  forall k i, l !! k = Some i -> m (Sram.index (wrap 32 (pc + 4 * Z.of_nat k))) = Isa.encode i.

(** Eight signed bytes at a word-aligned address below the UART page. *)
Definition holds_at (m : Z -> Z) (p : Z) (xs : list Z) : Prop :=
  0 <= p /\ p + 8 <= 2 ^ 24 /\ p mod 4 = 0 /\ length xs = 8%nat /\ Forall (srange 8) xs /\
  Sram.bytes_at m p 8 = map (wrap 8) xs.

Lemma holds_lanes m p xs :
  Sram.wf m -> holds_at m p xs -> slanes 8 8 (Isa.vload m p) = xs.
Proof.
  intros Hm (Hp & Hmax & Hal & Hl & Hr & Hb).
  rewrite <- vload_words, Vlsu.two_words_bytes, Hb by (done || word_lia).
  transitivity (slanes 8 (length xs) (pack 8 xs)); [|by apply slanes_pack].
  rewrite Hl. f_equal. rewrite <- lanes_pack, pack_lanes by lia.
  apply wrap_small, pack_range. lia.
Qed.

Lemma holds_in_sram m p xs : holds_at m p xs -> Vlsu.in_sram p.
Proof.
  intros (Hp & Hmax & _). unfold Vlsu.in_sram, Sram.is_uart, slice, wrap.
  rewrite !Z.shiftr_div_pow2 by lia. split; apply Z.eqb_neq; word_pows; Z.div_mod_to_equations; lia.
Qed.

(** Eight products of signed bytes fit. *)
Lemma dot8_word xs ys : length xs = 8%nat -> Forall (srange 8) xs -> Forall (srange 8) ys -> srange 32 (dot xs ys).
Proof.
  intros Hl Hx Hy.
  assert (Hb : forall l, Forall (srange 8) l -> bounded 128 l).
  { intros l Hr. eapply List.Forall_impl; [|exact Hr]. intros z. unfold srange. word_pows. lia. }
  pose proof (dot_bound 128 128 xs ys ltac:(lia) ltac:(lia) (Hb _ Hx) (Hb _ Hy)) as H.
  rewrite Hl in H. unfold srange. word_pows. lia.
Qed.

Lemma vec_mac_8_follows a ra rb rd xs ys :
  Isa.wf a -> Isa.reg ra -> Isa.reg rb -> Isa.reg rd ->
  placed_at (Isa.mem a) (Isa.pc a) (vec_mac_8 ra rb rd) ->
  holds_at (Isa.mem a) (Isa.get (Isa.x a) ra) xs -> holds_at (Isa.mem a) (Isa.get (Isa.x a) rb) ys ->
  follows (vec_mac_8 ra rb rd) a.
Proof.
  intros [Hpc _ _ _ _] Ha Hb Hd Hw Hx Hy.
  pose proof (Hw 0%nat _ eq_refl) as W0. pose proof (Hw 1%nat _ eq_refl) as W1.
  pose proof (Hw 2%nat _ eq_refl) as W2. change (4 * Z.of_nat 0) with 0 in W0.
  rewrite Z.add_0_r, wrap_small in W0 by done.
  assert (Hs : forall r, r = 1 \/ r = 2 -> Isa.reg r) by (intros r [-> | ->]; unfold Isa.reg; word_lia).
  cbn [follows vec_mac_8]. split_and!; [..|done]; split;
    cbn [vld_v1 vld_v2 vmac_b_v1_v2 Isa.valid access_ok]; auto;
    try (by eapply holds_in_sram); cbn [Isa.step]; fields_of_step.
  - split_and!; auto; lia.
  - cbn [vld_v1 vld_v2 Isa.step]. fields_of_step. rewrite wrap_add_l, <- W2. do 3 f_equal. lia.
Qed.

Lemma wrap_add3 w x p q r : wrap w (wrap w (wrap w (x + p) + q) + r) = wrap w (x + p + q + r).
Proof. by rewrite (wrap_add_l w (x + p)), wrap_add_l. Qed.

(** What the sequence computes. *)
Lemma vec_mac_8_steps a ra rb rd xs ys (a' := Isa.steps (vec_mac_8 ra rb rd) a) :
  Isa.wf a -> rd <> 0 ->
  holds_at (Isa.mem a) (Isa.get (Isa.x a) ra) xs -> holds_at (Isa.mem a) (Isa.get (Isa.x a) rb) ys ->
  sgn 32 (Isa.get (Isa.x a') rd) = dot xs ys /\ Isa.mem a' = Isa.mem a /\
  Isa.pc a' = wrap 32 (Isa.pc a + 12) /\ Isa.cycle a' = wrap 32 (Isa.cycle a + 35).
Proof.
  intros [_ _ _ Hm _] Hd Hx Hy. subst a'. unfold Isa.steps.
  cbn [vec_mac_8 fold_left vld_v1 vld_v2 vmac_b_v1_v2 Isa.step]. fields_of_step.
  split_and!; [|done| |].
  - unfold Isa.get at 1, Isa.put at 1. replace (rd =? 0) with false by lia. rewrite Z.eqb_refl.
    change (Isa.get (Isa.put (Isa.put (Isa.v a) 1 (Isa.vload (Isa.mem a) (Isa.get (Isa.x a) ra))) 2
      (Isa.vload (Isa.mem a) (Isa.get (Isa.x a) rb))) 1) with (Isa.vload (Isa.mem a) (Isa.get (Isa.x a) ra)).
    change (Isa.get (Isa.put (Isa.put (Isa.v a) 1 (Isa.vload (Isa.mem a) (Isa.get (Isa.x a) ra))) 2
      (Isa.vload (Isa.mem a) (Isa.get (Isa.x a) rb))) 2) with (Isa.vload (Isa.mem a) (Isa.get (Isa.x a) rb)).
    unfold Valu.dot_product. cbn [Valu.width Valu.count_of].
    rewrite (holds_lanes _ _ xs), (holds_lanes _ _ ys), sgn_wrap by (done || lia).
    destruct Hx as (_ & _ & _ & Hl & Hrx & _), Hy as (_ & _ & _ & _ & Hry & _).
    apply sgn_small; [lia|]. by apply dot8_word.
  - rewrite wrap_add3. f_equal. lia.
  - rewrite wrap_add3. f_equal. cbn. lia.
Qed.

(** [C11] The inner step of the wide-vector kernel on the hardware: with the three
    instruction words of [vec_mac_8] at the program counter and two int8 vectors of
    eight elements in memory, 35 clock edges later the result register holds exactly
    their dot product, memory is unchanged and the core is ready for the next word. *)
Theorem vec_mac_8_runs ps s ra rb rd xs ys :
  driven uart ps -> length ps = 35%nat -> fit s ->
  Isa.reg ra -> Isa.reg rb -> Isa.reg rd -> rd <> 0 ->
  let a := abs s in
  placed_at (Isa.mem a) (Isa.pc a) (vec_mac_8 ra rb rd) ->
  holds_at (Isa.mem a) (Isa.get (Isa.x a) ra) xs -> holds_at (Isa.mem a) (Isa.get (Isa.x a) rb) ys ->
  let s' := run sstep ps s in let a' := abs s' in
  fit s' /\ sgn 32 (Isa.get (Isa.x a') rd) = dot xs ys /\ Isa.mem a' = Isa.mem a /\
  Isa.pc a' = wrap 32 (Isa.pc a + 12) /\ Isa.cycle a' = wrap 32 (Isa.cycle a + 35).
Proof.
  intros Ha Hl Hf Hra Hrb Hrd Hd a Hw Hx Hy s' a'.
  destruct (program (vec_mac_8 ra rb rd) ps s Ha Hl Hf) as [Hf' E].
  { apply (vec_mac_8_follows _ _ _ _ xs ys); try done. apply Hf. }
  split; [exact Hf'|]. subst a' s'. rewrite E. apply vec_mac_8_steps; try done. apply Hf.
Qed.
End Runs.

(** * The core at boot, with a program in memory *)

Module Boot.

(** Memory words from a list; registers from a function. *)
Definition words (l : list Z) : Z -> Z := fun i => nth (Z.to_nat i) l 0.

Definition core (x : Z -> Z) : Cpu.state :=
  Cpu.State FETCH 0 0 0 0 0 0 0 (Decoder.decode 0) 0 0 0 0 0 0 0 0 0 false false false false false
    0 0 0 false false 0 0 0 x (fun _ => 0)
    (Vmac.State 0 false (fun _ => 0) 0 false)
    (Valu.State 0 false 0 false (fun _ => 0) (fun _ => 0) (fun _ => 0) (fun _ => 0) (fun _ => 0) (fun _ => 0))
    (Vlsu.State Vlsu.IDLE 0 0 false false 0 0 0 0 false false) 0 0.
Definition soc (x : Z -> Z) (l : list Z) : Soc.state :=
  Soc.State (core x) (Sram.State (words l) 0 0 false) false.

(** The UART silent or accepting, nothing received. *)
Definition idle_pins : Soc.pins := Soc.Pins true true false 0 0.

Lemma idle_driven uart n : driven uart (repeat idle_pins n).
Proof. split; apply List.Forall_forall; intros p Hp; by apply repeat_spec in Hp as ->. Qed.

Lemma words_wf l : Forall (urange 32) l -> Sram.wf (words l).
Proof.
  intros Hl i. unfold words. destruct (nth_in_or_default (Z.to_nat i) l 0) as [H | ->]; [|word_lia].
  rewrite List.Forall_forall in Hl. by apply Hl.
Qed.

Lemma soc_fit use_par x l :
  (forall r, urange 32 (x r)) -> Forall (urange 32) l -> fit use_par (soc x l).
Proof.
  intros Hx Hl. split; [by repeat split| |done].
  split; cbn; [word_lia|exact Hx|intros; word_lia|by apply words_wf|repeat split; word_lia].
Qed.
End Boot.

(** [addi x1, x0, -7] at address 0, then the pins idle for four cycles. *)
Example instruction_refinement_witness :
  let i := Isa.OpImm Isa.ADD 1 0 (-7) in
  let s := run (Soc.step true 0) (repeat Boot.idle_pins 4) (Boot.soc (fun _ => 0) [Isa.encode i]) in
  ready s /\ Isa.wf (abs s) /\ abs s = Isa.step i (abs (Boot.soc (fun _ => 0) [Isa.encode i])).
Proof.
  apply (instruction_refinement true true 0 (Isa.OpImm Isa.ADD 1 0 (-7))).
  - apply Boot.idle_driven.
  - reflexivity.
  - apply Boot.soc_fit; [intros; word_lia|]. by repeat constructor.
  - split; [|reflexivity|exact I]. by repeat split.
Defined.

(** A counted program: x1 := 5, x2 := x1 * x1 packed, stop. *)
Definition demo : list Isa.instr := [Isa.OpImm Isa.ADD 1 0 5; Isa.Packed 2 2 1 1; Isa.Ebreak].

Example program_refinement_witness :
  let s0 := Boot.soc (fun _ => 0) (map Isa.encode demo) in
  let s := run (Soc.step false 0) (repeat Boot.idle_pins 16) s0 in
  fit false s /\ abs s = Isa.steps demo (abs s0).
Proof.
  apply (program_refinement false false 0 demo).
  - apply Boot.idle_driven.
  - reflexivity.
  - apply Boot.soc_fit; [intros; word_lia|]. by repeat constructor.
  - repeat (split; [split; [by repeat split|reflexivity|exact I]|]). exact I.
Defined.

Example reset_ready_witness :
  restarted (run (Soc.step true 0) (repeat (Soc.Pins false true false 0 0) 2)
    (Soc.State ((Boot.core (fun _ => 3)) <| cpu_state := MEM |> <| dmem_req_valid_reg := true |>)
       (Sram.State (fun _ => 1) 9 9 true) true)).
Proof.
  apply reset_ready; [cbn; lia|by repeat constructor].
Defined.

(** Two vectors of eight bytes at 64 and 72, their addresses in x5 and x6. *)
Definition regs_demo (r : Z) : Z := if r =? 5 then 64 else if r =? 6 then 72 else 0.
Definition mac_demo : list Z :=
  map Isa.encode (vec_mac_8 5 6 7) ++ repeat 0 13 ++ [0x04030201; 0xFBFAF9F8; 0x7F7F7F7F; 0x80808080].

Example vec_mac_8_runs_witness :
  let s := run (Soc.step false 0) (repeat Boot.idle_pins 35) (Boot.soc regs_demo mac_demo) in
  sgn 32 (Isa.get (Isa.x (abs s)) 7)
  = dot [1; 2; 3; 4; -8; -7; -6; -5] [127; 127; 127; 127; -128; -128; -128; -128].
Proof.
  refine (proj1 (proj2 (vec_mac_8_runs false false 0 (repeat Boot.idle_pins 35) (Boot.soc regs_demo mac_demo)
    5 6 7 [1; 2; 3; 4; -8; -7; -6; -5] [127; 127; 127; 127; -128; -128; -128; -128] _ _ _ _ _ _ _ _ _ _)));
    try (done || unfold Isa.reg; word_lia).
  - apply Boot.idle_driven.
  - apply Boot.soc_fit; [|by repeat constructor].
    intros r. unfold regs_demo. destruct (r =? 5), (r =? 6); word_lia.
  - intros [|[|[|k]]] i Hi; [injection Hi as <-; reflexivity..|]. by destruct k.
  - split_and!; try (reflexivity || cbn; lia). by repeat (apply List.Forall_cons; [word_lia|]).
  - split_and!; try (reflexivity || cbn; lia). by repeat (apply List.Forall_cons; [word_lia|]).
Defined.

(** [sw x2, 4(x1)] with x1 at the UART: word 1 of memory changes. *)
Definition regs_uart (r : Z) : Z := if r =? 1 then 0x10000000 else if r =? 2 then 65 else 0.

Example uart_store_hits_memory_witness :
  Isa.mem (abs (run (Soc.step true 0) (repeat Boot.idle_pins 5)
    (Boot.soc regs_uart [Isa.encode (Isa.Store Isa.WORD 2 1 4); 0x00100073]))) 1 = 65.
Proof.
  refine (uart_store_hits_memory true true 0 (repeat Boot.idle_pins 5)
    (Boot.soc regs_uart [Isa.encode (Isa.Store Isa.WORD 2 1 4); 0x00100073]) 2 1 4 eq_refl _ eq_refl _ _ eq_refl
    eq_refl eq_refl).
  - apply Boot.idle_driven.
  - apply Boot.soc_fit; [|by repeat constructor].
    intros r. unfold regs_uart. destruct (r =? 1), (r =? 2); word_lia.
  - by repeat split.
Defined.
End Refinement.
