(* ===== verification/Widths.v ===== *)
(** The type invariant of the hardware: every register of the core, of its execution
    units, of the register files and of the memory holds a value of its declared width,
    on every clock edge and whatever instruction words the memory contains. With it the
    program theorems apply to every state that a width-respecting power-up can reach. *)

From S2P Require Import Prelude Vmac Valu Sram Vlsu Alu Decoder Opcodes.
From S2P Require Import Immediates Cpu Isa Execution UnitExec Encoding Instructions Refinement.

Create HintDb widths.

Module Widths.
Import Cpu.

(** * Units *)

Record vmac_wf (u : Vmac.state) : Prop := VmacWf
  { wf_cycle_counter : urange 3 (Vmac.cycle_counter u);
    wf_mult_results : forall i, urange 16 (Vmac.mult_results u i);
    wf_vmac_result : urange 32 (Vmac.result u) }.

Record valu_wf (u : Valu.state) : Prop := ValuWf
  { wf_mul_counter : urange 3 (Valu.mul_counter u);
    wf_valu_result : urange 64 (Valu.result u);
    wf_mul8 : forall i, urange 8 (Valu.mul8 u i);
    wf_mul16 : forall i, urange 16 (Valu.mul16 u i);
    wf_mul32 : forall i, urange 32 (Valu.mul32 u i);
    wf_mac8 : forall i, urange 16 (Valu.mac8_prod u i);
    wf_mac16 : forall i, urange 32 (Valu.mac16_prod u i);
    wf_mac32 : forall i, urange 64 (Valu.mac32_prod u i) }.

Record vlsu_wf (u : Vlsu.state) : Prop := VlsuWf
  { wf_addr_reg : urange 32 (Vlsu.addr_reg u);
    wf_data_reg : urange 64 (Vlsu.data_reg u);
    wf_load_data : urange 64 (Vlsu.load_data u);
    wf_mem_addr : urange 32 (Vlsu.mem_addr u);
    wf_mem_wdata : urange 32 (Vlsu.mem_wdata u);
    wf_mem_wmask : urange 4 (Vlsu.mem_wmask u) }.

Lemma upd_range w (f : nat -> Z) k v i : (forall j, urange w (f j)) -> urange w v -> urange w (upd f k v i).
Proof. unfold upd. intros Hf Hv. by destruct (Nat.eqb _ _). Qed.

Lemma wrap_in w z : 0 <= w -> urange w (wrap w z).
Proof. apply wrap_range. Qed.
Lemma widen v w z : urange v z -> 0 <= v <= w -> urange w z.
Proof. intros Hz Hv. pose proof (Z.pow_le_mono_r 2 v w ltac:(lia) ltac:(lia)). unfold urange in *. lia. Qed.

Ltac small_word := solve [word_lia].
#[local] Hint Resolve upd_range wrap_range slice_range : widths.
#[local] Hint Extern 3 (0 <= _) => lia : widths.
#[local] Hint Extern 4 (urange _ _) => small_word : widths.

(** One edge of a unit keeps its widths: case analysis over the branches of [step]. *)
Ltac branches :=
  repeat match goal with |- context [if ?b then _ else _] => destruct b end;
  repeat match goal with |- context [match ?x with _ => _ end] => destruct x eqn:? end.

Lemma pack_width w n l : 0 <= w -> length l = n -> urange (w * Z.of_nat n) (pack w l).
Proof. apply Isa.pack_range'. Qed.

Lemma vmac_step_wf i u : vmac_wf u -> vmac_wf (Vmac.step i u).
Proof.
  intros [Hc Hm Hr].
  assert (P4 : forall a b c d, urange 32 (pack 8 [a; b; c; d])) by (intros; by apply (pack_width 8 4)).
  assert (P2 : forall a b, urange 32 (pack 16 [a; b])) by (intros; by apply (pack_width 16 2)).
  unfold Vmac.step, Vmac.finish, Vmac.mult. branches;
    (split; cbn [Vmac.cycle_counter Vmac.mult_results Vmac.result]; intros; auto 8 with widths).
Qed.

Lemma map_width w n f : 0 <= w -> urange (w * Z.of_nat n) (pack w (map f (seq 0 n))).
Proof. intros. apply pack_width; [done|]. by rewrite length_map, length_seq. Qed.

Lemma by_sew_width s f :
  urange 64 (Valu.by_sew s (fun w n => pack w (map (f w) (seq 0 n)))).
Proof.
  unfold Valu.by_sew. destruct (s =? _); [exact (map_width 8 8 _ ltac:(lia))|].
  destruct (s =? _); [exact (map_width 16 4 _ ltac:(lia))|exact (map_width 32 2 _ ltac:(lia))].
Qed.

Lemma valu_step_wf i u : valu_wf u -> valu_wf (Valu.step i u).
Proof.
  intros [Hc Hr H8 H16 H32 M8 M16 M32].
  pose proof (fun s x y => by_sew_width s (fun w => Valu.add_lane w x y)) as Ha.
  pose proof (fun s x y => by_sew_width s (fun w => Valu.sub_lane w x y)) as Hs.
  assert (P8 : forall f, urange 64 (pack 8 (map f (seq 0 8)))) by (intros; exact (map_width 8 8 f ltac:(lia))).
  assert (P16 : forall f, urange 64 (pack 16 (map f (seq 0 4)))) by (intros; exact (map_width 16 4 f ltac:(lia))).
  assert (P32 : forall f, urange 64 (pack 32 (map f (seq 0 2)))) by (intros; exact (map_width 32 2 f ltac:(lia))).
  assert (W : forall z, urange 64 (wrap 32 z)) by
    (intros z; exact (widen 32 64 _ (wrap_in 32 z ltac:(lia)) ltac:(lia))).
  unfold Valu.step, Valu.step_vmac, Valu.step_vmul. branches;
    unfold Valu.with_mul8, Valu.with_mul16, Valu.with_mul32, Valu.with_mac8, Valu.with_mac16, Valu.with_mac32,
      Valu.done_with, Valu.ctl, Valu.upd4, Valu.upd2, Valu.count, Valu.sum8, Valu.sum16, Valu.sum32,
      Valu.mul_lane, Valu.prod_lane;
    (split; cbn [Valu.mul_counter Valu.result Valu.mul8 Valu.mul16 Valu.mul32 Valu.mac8_prod Valu.mac16_prod
       Valu.mac32_prod]; intros; first [solve [auto 8 with widths] | apply Ha | apply Hs]).
Qed.

Lemma set_low_range d v : urange 64 (Vlsu.set_low d v).
Proof.
  unfold Vlsu.set_low. pose proof (wrap_in 32 v ltac:(lia)). pose proof (slice_range 32 32 d ltac:(lia)).
  word_lia.
Qed.
Lemma set_high_range d v : urange 64 (Vlsu.set_high d v).
Proof.
  unfold Vlsu.set_high. pose proof (wrap_in 32 v ltac:(lia)). pose proof (wrap_in 32 d ltac:(lia)).
  word_lia.
Qed.
#[local] Hint Resolve set_low_range set_high_range : widths.

Lemma vlsu_step_wf i u :
  urange 32 (Vlsu.base_addr i) -> urange 64 (Vlsu.store_data i) -> vlsu_wf u -> vlsu_wf (Vlsu.step i u).
Proof.
  intros Hb Hd [H1 H2 H3 H4 H5 H6]. unfold Vlsu.step, Vlsu.request, Vlsu.wait.
  branches; try done; (split; cbn [Vlsu.addr_reg Vlsu.data_reg Vlsu.load_data Vlsu.mem_addr Vlsu.mem_wdata
    Vlsu.mem_wmask]; branches; auto with widths).
Qed.

(** * Decoder and ALU *)

Definition maybe (w : Z) (o : option Z) : Prop := match o with Some z => urange w z | None => True end.

Record ctrl_wf (d : Decoder.outputs) : Prop := CtrlWf
  { wf_rd : urange 5 (Decoder.rd d); wf_rs1 : urange 5 (Decoder.rs1 d); wf_rs2 : urange 5 (Decoder.rs2 d);
    wf_imm : urange 32 (Decoder.imm d); wf_alu_ctrl : maybe 4 (Decoder.alu_ctrl d);
    wf_mem_mask : urange 32 (Decoder.mem_mask d); wf_vmac_ctrl : maybe 2 (Decoder.vmac_ctrl d);
    wf_ctr_id : urange 2 (Decoder.rdwrctr_ctr_id d); wf_vec_op : urange 3 (Decoder.vec_op d);
    wf_vec_sew : urange 2 (Decoder.vec_sew d) }.

(** Every literal a decoder table can give. *)
Ltac literals :=
  repeat match goal with |- context [match ?x with _ => _ end] => destruct x end;
  cbn [maybe]; solve [exact I | small_word].

Lemma decode_wf insn : ctrl_wf (Decoder.decode insn).
Proof.
  destruct (Instructions.imm_range insn) as (? & ? & ? & ? & ?).
  split; cbn [Decoder.decode Decoder.rd Decoder.rs1 Decoder.rs2 Decoder.imm Decoder.alu_ctrl
    Decoder.mem_mask Decoder.vmac_ctrl Decoder.rdwrctr_ctr_id Decoder.vec_op Decoder.vec_sew];
    try (apply slice_range; lia).
  - destruct (Decoder.is_u_type insn); [small_word|apply slice_range; lia].
  - unfold Decoder.select_imm. branches; auto with widths.
  - unfold Decoder.decode_alu. literals.
  - unfold Decoder.decode_mem_mask. literals.
  - unfold Decoder.decode_vmac_ctrl. literals.
  - unfold Decoder.decode_vec_op. literals.
  - branches; auto with widths.
Qed.

(** Every control code computes an operation of the instruction set, or zero. *)
Lemma alu_spec_op c x y : Alu.spec c x y = 0 \/ exists f, Alu.spec c x y = Isa.alu f x y.
Proof.
  destruct c as [|p|p]; [right; by exists Isa.ADD| |by left].
  do 4 (try destruct p as [p|p|]);
    first [ left; reflexivity | right; by exists Isa.SUB | right; by exists Isa.AND
          | right; by exists Isa.OR | right; by exists Isa.XOR | right; by exists Isa.SLL
          | right; by exists Isa.SRL | right; by exists Isa.SRA | right; by exists Isa.SLT
          | right; by exists Isa.SLTU ].
Qed.

Lemma alu_out_range x y c : urange 32 x -> urange 32 y -> urange 4 c -> urange 32 (Alu.alu_out x y c).
Proof.
  intros Hx Hy Hc. rewrite Alu.alu_out_spec by done.
  destruct (alu_spec_op c x y) as [-> | [f ->]]; [small_word|by apply Isa.alu_range].
Qed.

(** * The core *)

Section Core.
Context (dontcare : Z) (dontcare_range : urange 4 dontcare).

Record core_wf (c : state) : Prop := CoreWf
  { w_pc : urange 32 (pc_reg c); w_saved : urange 32 (pc_saved c); w_insn : urange 32 (insn_reg c);
    w_rdata1 : urange 32 (rdata1_reg c); w_rdata2 : urange 32 (rdata2_reg c);
    w_alu : urange 32 (alu_out_reg c); w_mem_data : urange 32 (mem_data_reg c);
    w_ctrl : ctrl_wf (ctrl c); w_vd : urange 5 (vd_reg c);
    w_csr : urange 32 (mtvec c) /\ urange 32 (mepc c) /\ urange 32 (mcause c) /\ urange 32 (mstatus c);
    w_counters : urange 32 (cycle_counter c) /\ urange 32 (insn_counter c) /\
                 urange 32 (load_counter c) /\ urange 32 (store_counter c);
    w_vs1 : urange 64 (vs1_data_reg c); w_vs2 : urange 64 (vs2_data_reg c);
    w_result : urange 64 (vec_result_reg c);
    w_req : urange 32 (dmem_req_addr_reg c) /\ urange 32 (dmem_req_wdata_reg c) /\
            urange 4 (dmem_req_wmask_reg c);
    w_regs : forall r, urange 32 (regs c r); w_vregs : forall r, urange 64 (vregs c r);
    w_units : vmac_wf (vmac_inst c) /\ valu_wf (valu_inst c) /\ vlsu_wf (vlsu_inst c);
    w_trace : urange 32 (trace_pc_reg c) /\ urange 32 (trace_insn_reg c) }.

(** Values the stages assign. *)
Lemma rf_read_range w f r : 0 <= w -> (forall q, urange w (f q)) -> urange w (rf_read f r).
Proof. apply Isa.get_range. Qed.
Lemma rf_write_range w b a d f q :
  (forall r, urange w (f r)) -> urange w d -> urange w (rf_write b a d f q).
Proof. intros. unfold rf_write. destruct (_ && _); [|done]. by destruct (q =? a). Qed.

Lemma core_alu_out_range c : core_wf c -> urange 32 (alu_out dontcare c).
Proof.
  intros H. unfold alu_out, alu_op1, alu_op2, alu_ctrl_reg, rf_rdata1, rf_rdata2.
  pose proof (wf_alu_ctrl _ (w_ctrl _ H)) as Ha. apply alu_out_range.
  - branches; [apply H|apply rf_read_range; [lia|apply H]].
  - branches; [apply H|apply rf_read_range; [lia|apply H]].
  - by destruct (Decoder.alu_ctrl (ctrl c)).
Qed.

Lemma pc_plus_range c : core_wf c -> urange 32 (pc_plus_4 c) /\ urange 32 (pc_plus_imm c).
Proof.
  intros H. unfold pc_plus_4, pc_plus_imm.
  rewrite !Alu.adder_correct by (first [apply H | small_word]). cbn [fst]. split; apply Isa.wrap_word.
Qed.

Lemma mem_data_extended_range c : core_wf c -> urange 32 (mem_data_extended c).
Proof.
  intros H.
  assert (Hb : urange 8 (mem_byte c)) by (unfold mem_byte; branches; apply slice_range; lia).
  assert (Hh : urange 16 (mem_half c)) by (unfold mem_half; branches; apply slice_range; lia).
  unfold mem_data_extended. branches;
    first [ apply H | eapply widen; [exact Hb|lia] | eapply widen; [exact Hh|lia]
          | rewrite Instructions.extend_sign_spec by (first [assumption|lia]); apply Isa.wrap_word ].
Qed.

Lemma wb_data_range c : core_wf c -> urange 32 (wb_data c).
Proof.
  intros H. unfold wb_data. destruct (pc_plus_range c H). pose proof (mem_data_extended_range c H).
  branches; first [assumption | apply H].
Qed.

Lemma store_lanes_range mask a d :
  urange 32 d -> urange 32 (store_lanes mask a d).1 /\ urange 4 (store_lanes mask a d).2.
Proof.
  intros Hd. unfold store_lanes.
  pose proof (pack_width 8 4 [d; d; d; d] ltac:(lia) eq_refl). pose proof (pack_width 16 2 [d; d] ltac:(lia) eq_refl).
  branches; cbn [fst snd]; split; first [assumption | small_word].
Qed.

(** ** One edge *)

Record inputs_wf (i : inputs) : Prop := InputsWf
  { w_imem : urange 32 (imem_rdata i); w_dmem : urange 32 (dmem_resp_rdata i) }.

(** A stage keeps the widths: every field of the updated core, from those of [s] and [t]. *)
Ltac core_fields :=
  Execution.fields;
  cbn [setter mtvec mepc mcause mstatus trace_pc_reg trace_insn_reg].
Ltac stage_wf Ht :=
  let H := fresh in pose proof Ht as H;
  destruct H as [? ? ? ? ? ? ? ? ? (? & ? & ? & ?) (? & ? & ? & ?) ? ? ? (? & ? & ?) ? ? (? & ? & ?) (? & ?)];
  split; core_fields; repeat match goal with |- _ /\ _ => split end; first [assumption | apply Isa.wrap_word | small_word | auto].

Lemma exec_alu_wf s t : core_wf s -> core_wf t -> core_wf (exec_alu dontcare s t).
Proof.
  intros Hs Ht. destruct (pc_plus_range s Hs). pose proof (core_alu_out_range s Hs).
  destruct (store_lanes_range (Decoder.mem_mask (ctrl s)) (alu_out dontcare s) (rdata2_reg s)) as [? ?];
    [apply Hs|].
  assert (urange 32 (2 * slice 1 31 (alu_out dontcare s))) by
    (pose proof (slice_range 1 31 (alu_out dontcare s) ltac:(lia)); word_lia).
  unfold exec_alu. destruct (store_lanes _ _ _) as [wd wm]. cbn [fst snd] in *.
  destruct (Decoder.is_jal (ctrl s)), (Decoder.is_jalr (ctrl s)), (take_branch dontcare s),
    (Decoder.mem_read (ctrl s)), (Decoder.mem_write (ctrl s)); cbn [orb andb negb]; stage_wf Ht.
Qed.

Lemma exec_wf s t : core_wf s -> core_wf t -> core_wf (exec dontcare s t).
Proof.
  intros Hs Ht. destruct (pc_plus_range s Hs).
  pose proof Hs as [_ _ _ Hr1 _ _ _ _ _ _ (? & ? & ? & ?) _ _ _ _ _ _ ([_ _ ?] & Hva & [_ _ Hld _ _ _]) _].
  pose proof (slice_range 0 32 (Valu.result (valu_inst s)) ltac:(lia)).
  destruct Hva as [_ ? _ _ _ _ _ _].
  unfold exec. destruct (Decoder.is_rdwrctr (ctrl s)).
  { unfold exec_rdwrctr, to_wb. branches; stage_wf Ht. }
  destruct (Decoder.is_vec_op (ctrl s)).
  { unfold exec_vec, to_wb. destruct (vec_busy s), (is_vec_mem s), (Vlsu.done (vlsu_inst s)),
      (Decoder.is_vec_load (ctrl s)), (Valu.valid_out (valu_inst s)), (Decoder.is_vec_vmac (ctrl s));
      cbn [negb]; stage_wf Ht. }
  destruct (Decoder.is_vmac (ctrl s)); [|by apply exec_alu_wf].
  unfold exec_vmac, to_wb. destruct (vmac_busy s), (Vmac.valid_out (vmac_inst s)); cbn [negb]; stage_wf Ht.
Qed.

Lemma mem_stage_wf i s t : inputs_wf i -> core_wf s -> core_wf t -> core_wf (mem_stage i s t).
Proof.
  intros [_ Hi] Hs Ht. destruct (pc_plus_range s Hs).
  unfold mem_stage, to_wb. branches; stage_wf Ht.
Qed.

Lemma fetch_wf i s t : inputs_wf i -> core_wf s -> core_wf t -> core_wf (fetch i s t).
Proof. intros [Hi _] Hs Ht. pose proof (w_pc s Hs). unfold fetch. stage_wf Ht. Qed.

Lemma decode_stage_wf s t : core_wf s -> core_wf t -> core_wf (decode_stage s t).
Proof.
  intros Hs Ht. pose proof (decode_wf (insn_reg s)) as Hd. pose proof (wf_rd _ Hd).
  pose proof (fun r => rf_read_range 32 (regs s) r ltac:(lia) (w_regs s Hs)).
  pose proof (fun r => rf_read_range 64 (vregs s) r ltac:(lia) (w_vregs s Hs)).
  unfold decode_stage, rf_rdata1, rf_rdata2, vrf_rdata1, vrf_rdata2, dec. stage_wf Ht; auto.
Qed.

Lemma wb_stage_wf s t : core_wf s -> core_wf t -> core_wf (wb_stage s t).
Proof.
  intros Hs Ht.
  assert (ctrl_wf ((ctrl s) <| Decoder.reg_write := false |> <| Decoder.vec_reg_write := false |>))
    by (destruct (w_ctrl s Hs); by split).
  unfold wb_stage. stage_wf Ht.
Qed.

Lemma fsm_reset_wf s t : core_wf s -> core_wf t -> core_wf (fsm_reset s t).
Proof.
  intros Hs Ht. unfold fsm_reset.
  match goal with |- context [_ <| ctrl := ?d |>] => assert (ctrl_wf d) by (destruct (w_ctrl s Hs); split; cbn; first [assumption|small_word]) end.
  stage_wf Ht.
Qed.

Lemma csr_block_wf i s t : core_wf s -> core_wf t -> core_wf (csr_block i s t).
Proof.
  intros Hs Ht. pose proof (w_rdata1 s Hs). unfold csr_block. branches; try done; stage_wf Ht.
Qed.

Lemma fsm_wf i s t : inputs_wf i -> core_wf s -> core_wf t -> core_wf (fsm dontcare i s t).
Proof.
  intros Hi Hs Ht. unfold fsm.
  assert (core_wf (t <| cycle_counter := wrap 32 (cycle_counter s + 1) |>)) as Ht' by (stage_wf Ht).
  destruct (cpu_state s); auto using fetch_wf, decode_stage_wf, exec_wf, mem_stage_wf, wb_stage_wf.
  stage_wf Ht'.
Qed.

Lemma core_step_wf i s : inputs_wf i -> core_wf s -> core_wf (step dontcare i s).
Proof.
  intros Hi Hs. pose proof Hs as [_ _ _ Hr1 _ _ _ _ _ _ _ _ Hv2 Hvr _ Hr Hvr' (Hm & Ha & Hl) _].
  pose proof (wb_data_range s Hs) as Hw. unfold step.
  match goal with |- context [csr_block i s ?t] => assert (core_wf t) as Ht end.
  { pose proof (fun q => rf_write_range 32 (wb_enable s) (Decoder.rd (ctrl s)) (wb_data s) (regs s) q Hr Hw).
    pose proof (fun q => rf_write_range 64 (vrf_wen s) (vd_reg s) (vec_result_reg s) (vregs s) q Hvr' Hvr).
    pose proof (vmac_step_wf (vmac_pins dontcare i s) _ Hm). pose proof (valu_step_wf (valu_pins i s) _ Ha).
    pose proof (vlsu_step_wf (vlsu_pins i s) _ Hr1 Hv2 Hl). stage_wf Hs. }
  apply (csr_block_wf i s) in Ht; [|done].
  destruct (resetn i); cbn [negb]; auto using fsm_wf, fsm_reset_wf.
Qed.
End Core.

(** * The SoC *)

Section Soc.
Context (use_par : bool) (dontcare : Z) (dontcare_range : urange 4 dontcare).
Abbreviation sstep := (Soc.step use_par dontcare).

(** What is received over the UART or the parallel port is a word. *)
Definition pins_wf (p : Soc.pins) : Prop := urange 32 (Soc.uart_rdata p) /\ urange 32 (Soc.par_rdata p).

Record soc_wf (s : Soc.state) : Prop := SocWf
  { w_core : core_wf (Soc.cpu s);
    w_mem : Sram.wf (Sram.mem (Soc.sram s));
    w_ports : urange 32 (Sram.imem_addr_reg (Soc.sram s)) /\ urange 32 (Sram.dmem_addr_reg (Soc.sram s)) }.

Lemma soc_step_wf p s : pins_wf p -> soc_wf s -> soc_wf (sstep p s).
Proof.
  intros [Hu Hp] [Hc Hm [Hi Hd]].
  pose proof Hc as [Hpc _ _ _ _ _ _ _ _ _ _ _ _ _ (Hra & _) _ _ (_ & _ & [_ _ _ Hva _ _]) _]. split.
  - unfold Soc.step. cbn [Soc.cpu]. apply core_step_wf; [done| |done].
    split; unfold Soc.cpu_inputs; cbn [imem_rdata dmem_resp_rdata]; [apply Hm|].
    unfold Sram.resp_rdata. branches; first [assumption | apply Hm].
  - unfold Soc.step. cbn [Soc.sram]. by apply Sram.step_wf.
  - assert (Ha : urange 32 (dmem_req_addr (Soc.cpu s))) by (unfold dmem_req_addr; by branches).
    unfold Soc.step, Sram.step, Soc.sram_inputs, imem_addr. cbn. split; [done|]. by branches.
Qed.

Lemma soc_wf_abs s : soc_wf s -> Isa.wf (Execution.abs s).
Proof. intros [[] Hm _]. by split. Qed.

(** The hardware's type invariant: whatever the pins do and whatever words the
    memory holds, on every clock edge every register of the core, the packed and vector
    units, the register files and the memory keeps a value of its declared width. *)
Theorem widths_invariant ps s :
  Forall pins_wf ps -> soc_wf s -> forall k, soc_wf (run sstep (take k ps) s).
Proof.
  intros Hps Hs k. revert s ps Hps Hs. induction k as [|k IH]; intros s ps Hps Hs; [done|].
  destruct ps as [|p ps]; [done|]. apply Forall_cons_1 in Hps as [Hp Hps].
  cbn [take]. rewrite run_cons. apply IH; [done|]. by apply soc_step_wf.
Qed.
End Soc.

(** The SoC at boot, five clock edges into the [vec_mac_8] program. *)
Example widths_invariant_witness :
  soc_wf (run (Soc.step false 0) (take 5 (repeat Refinement.Boot.idle_pins 35))
    (Refinement.Boot.soc Refinement.regs_demo Refinement.mac_demo)).
Proof.
  apply widths_invariant; [small_word| |].
  - by repeat constructor.
  - split; cbn; [|apply Refinement.Boot.words_wf; by repeat constructor|split; small_word].
    split; cbn; repeat match goal with |- _ /\ _ => split end; try small_word; try (intros; small_word);
      try (split; cbn; intros; small_word).
    + apply decode_wf.
    + intros r. unfold Refinement.regs_demo. destruct (r =? 5), (r =? 6); small_word.
Defined.
End Widths.
