(* ===== verification/ExtTables.v ===== *)
(** The extension tables of [bfd/elfxx-riscv.c]: the implicit subsets and the supported
    extensions with their default versions, row by row. *)

From Stdlib Require Import String.
From S2P Require Import Prelude.
#[local] Open Scope string_scope.
#[local] Open Scope Z_scope.

(** One entry of the subset list. *)
Record riscv_subset_t := Subset { sname : string; major_version : Z; minor_version : Z }.

Definition RISCV_UNKNOWN_VERSION : Z := -1.

Inductive riscv_spec_class :=
  | ISA_SPEC_CLASS_NONE | ISA_SPEC_CLASS_2P2 | ISA_SPEC_CLASS_20190608
  | ISA_SPEC_CLASS_20191213 | ISA_SPEC_CLASS_DRAFT.
#[global] Instance riscv_spec_class_eq_dec : EqDecision riscv_spec_class.
Proof. solve_decision. Defined.

(** Whether an implicit extension is added: always, or below version 2.1. *)
Definition check_implicit_always (s : riscv_subset_t) : bool := true.
Definition check_implicit_for_i (s : riscv_subset_t) : bool :=
  (major_version s <? 2) || ((major_version s =? 2) && (minor_version s <? 1)).

Record riscv_implicit_subset := Implicit
  { subset_name : string; implicit_name : string; check_func : riscv_subset_t -> bool }.

Definition riscv_implicit_subsets : list riscv_implicit_subset :=
  [ Implicit "e" "i" check_implicit_always;
    Implicit "i" "zicsr" check_implicit_for_i;
    Implicit "i" "zifencei" check_implicit_for_i;
    Implicit "g" "i" check_implicit_always;
    Implicit "g" "m" check_implicit_always;
    Implicit "g" "a" check_implicit_always;
    Implicit "g" "f" check_implicit_always;
    Implicit "g" "d" check_implicit_always;
    Implicit "g" "zicsr" check_implicit_always;
    Implicit "g" "zifencei" check_implicit_always;
    Implicit "m" "zmmul" check_implicit_always;
    Implicit "h" "zicsr" check_implicit_always;
    Implicit "q" "d" check_implicit_always;
    Implicit "v" "d" check_implicit_always;
    Implicit "v" "zve64d" check_implicit_always;
    Implicit "v" "zvl128b" check_implicit_always;
    Implicit "zve64d" "d" check_implicit_always;
    Implicit "zve64d" "zve64f" check_implicit_always;
    Implicit "zve64f" "zve32f" check_implicit_always;
    Implicit "zve64f" "zve64x" check_implicit_always;
    Implicit "zve64f" "zvl64b" check_implicit_always;
    Implicit "zve32f" "f" check_implicit_always;
    Implicit "zve32f" "zvl32b" check_implicit_always;
    Implicit "zve32f" "zve32x" check_implicit_always;
    Implicit "zve64x" "zve32x" check_implicit_always;
    Implicit "zve64x" "zvl64b" check_implicit_always;
    Implicit "zve32x" "zvl32b" check_implicit_always;
    Implicit "zvl65536b" "zvl32768b" check_implicit_always;
    Implicit "zvl32768b" "zvl16384b" check_implicit_always;
    Implicit "zvl16384b" "zvl8192b" check_implicit_always;
    Implicit "zvl8192b" "zvl4096b" check_implicit_always;
    Implicit "zvl4096b" "zvl2048b" check_implicit_always;
    Implicit "zvl2048b" "zvl1024b" check_implicit_always;
    Implicit "zvl1024b" "zvl512b" check_implicit_always;
    Implicit "zvl512b" "zvl256b" check_implicit_always;
    Implicit "zvl256b" "zvl128b" check_implicit_always;
    Implicit "zvl128b" "zvl64b" check_implicit_always;
    Implicit "zvl64b" "zvl32b" check_implicit_always;
    Implicit "zfa" "f" check_implicit_always;
    Implicit "d" "f" check_implicit_always;
    Implicit "zfh" "zfhmin" check_implicit_always;
    Implicit "zfhmin" "f" check_implicit_always;
    Implicit "f" "zicsr" check_implicit_always;
    Implicit "zqinx" "zdinx" check_implicit_always;
    Implicit "zdinx" "zfinx" check_implicit_always;
    Implicit "zhinx" "zhinxmin" check_implicit_always;
    Implicit "zhinxmin" "zfinx" check_implicit_always;
    Implicit "zfinx" "zicsr" check_implicit_always;
    Implicit "zk" "zkn" check_implicit_always;
    Implicit "zk" "zkr" check_implicit_always;
    Implicit "zk" "zkt" check_implicit_always;
    Implicit "zkn" "zbkb" check_implicit_always;
    Implicit "zkn" "zbkc" check_implicit_always;
    Implicit "zkn" "zbkx" check_implicit_always;
    Implicit "zkn" "zkne" check_implicit_always;
    Implicit "zkn" "zknd" check_implicit_always;
    Implicit "zkn" "zknh" check_implicit_always;
    Implicit "zks" "zbkb" check_implicit_always;
    Implicit "zks" "zbkc" check_implicit_always;
    Implicit "zks" "zbkx" check_implicit_always;
    Implicit "zks" "zksed" check_implicit_always;
    Implicit "zks" "zksh" check_implicit_always;
    Implicit "zvkn" "zvkned" check_implicit_always;
    Implicit "zvkn" "zvknha" check_implicit_always;
    Implicit "zvkn" "zvknhb" check_implicit_always;
    Implicit "zvkn" "zvbb" check_implicit_always;
    Implicit "zvkn" "zvkt" check_implicit_always;
    Implicit "zvkng" "zvkn" check_implicit_always;
    Implicit "zvkng" "zvkg" check_implicit_always;
    Implicit "zvknc" "zvkn" check_implicit_always;
    Implicit "zvknc" "zvbc" check_implicit_always;
    Implicit "zvks" "zvksed" check_implicit_always;
    Implicit "zvks" "zvksh" check_implicit_always;
    Implicit "zvks" "zvbb" check_implicit_always;
    Implicit "zvks" "zvkt" check_implicit_always;
    Implicit "zvksg" "zvks" check_implicit_always;
    Implicit "zvksg" "zvkg" check_implicit_always;
    Implicit "zvksc" "zvks" check_implicit_always;
    Implicit "zvksc" "zvbc" check_implicit_always;
    Implicit "smaia" "ssaia" check_implicit_always;
    Implicit "smstateen" "ssstateen" check_implicit_always;
    Implicit "smepmp" "zicsr" check_implicit_always;
    Implicit "ssaia" "zicsr" check_implicit_always;
    Implicit "sscofpmf" "zicsr" check_implicit_always;
    Implicit "ssstateen" "zicsr" check_implicit_always;
    Implicit "sstc" "zicsr" check_implicit_always ].

Definition EXT_DEFAULT : Z := 1.

Record riscv_supported_ext := Ext
  { ext_name : string; isa_spec_class : riscv_spec_class; ext_major : Z; ext_minor : Z;
    default_enable : Z }.

Definition riscv_supported_std_ext : list riscv_supported_ext :=
  [ Ext "e" ISA_SPEC_CLASS_20191213 1 9 0;
   Ext "e" ISA_SPEC_CLASS_20190608 1 9 0;
   Ext "e" ISA_SPEC_CLASS_2P2 1 9 0;
   Ext "i" ISA_SPEC_CLASS_20191213 2 1 0;
   Ext "i" ISA_SPEC_CLASS_20190608 2 1 0;
   Ext "i" ISA_SPEC_CLASS_2P2 2 0 0;
   Ext "g" ISA_SPEC_CLASS_NONE RISCV_UNKNOWN_VERSION RISCV_UNKNOWN_VERSION EXT_DEFAULT;
   Ext "m" ISA_SPEC_CLASS_20191213 2 0 0;
   Ext "m" ISA_SPEC_CLASS_20190608 2 0 0;
   Ext "m" ISA_SPEC_CLASS_2P2 2 0 0;
   Ext "a" ISA_SPEC_CLASS_20191213 2 1 0;
   Ext "a" ISA_SPEC_CLASS_20190608 2 0 0;
   Ext "a" ISA_SPEC_CLASS_2P2 2 0 0;
   Ext "f" ISA_SPEC_CLASS_20191213 2 2 0;
   Ext "f" ISA_SPEC_CLASS_20190608 2 2 0;
   Ext "f" ISA_SPEC_CLASS_2P2 2 0 0;
   Ext "d" ISA_SPEC_CLASS_20191213 2 2 0;
   Ext "d" ISA_SPEC_CLASS_20190608 2 2 0;
   Ext "d" ISA_SPEC_CLASS_2P2 2 0 0;
   Ext "q" ISA_SPEC_CLASS_20191213 2 2 0;
   Ext "q" ISA_SPEC_CLASS_20190608 2 2 0;
   Ext "q" ISA_SPEC_CLASS_2P2 2 0 0;
   Ext "c" ISA_SPEC_CLASS_20191213 2 0 0;
   Ext "c" ISA_SPEC_CLASS_20190608 2 0 0;
   Ext "c" ISA_SPEC_CLASS_2P2 2 0 0;
   Ext "v" ISA_SPEC_CLASS_DRAFT 1 0 0;
   Ext "h" ISA_SPEC_CLASS_DRAFT 1 0 0 ].

Definition riscv_supported_std_z_ext : list riscv_supported_ext :=
  [ Ext "zicbom" ISA_SPEC_CLASS_DRAFT 1 0 0;
   Ext "zicbop" ISA_SPEC_CLASS_DRAFT 1 0 0;
   Ext "zicboz" ISA_SPEC_CLASS_DRAFT 1 0 0;
   Ext "zicond" ISA_SPEC_CLASS_DRAFT 1 0 0;
   Ext "zicsr" ISA_SPEC_CLASS_20191213 2 0 0;
   Ext "zicsr" ISA_SPEC_CLASS_20190608 2 0 0;
   Ext "zifencei" ISA_SPEC_CLASS_20191213 2 0 0;
   Ext "zifencei" ISA_SPEC_CLASS_20190608 2 0 0;
   Ext "zihintpause" ISA_SPEC_CLASS_DRAFT 2 0 0;
   Ext "zmmul" ISA_SPEC_CLASS_DRAFT 1 0 0;
   Ext "zawrs" ISA_SPEC_CLASS_DRAFT 1 0 0;
   Ext "zfa" ISA_SPEC_CLASS_DRAFT 0 1 0;
   Ext "zfh" ISA_SPEC_CLASS_DRAFT 1 0 0;
   Ext "zfhmin" ISA_SPEC_CLASS_DRAFT 1 0 0;
   Ext "zfinx" ISA_SPEC_CLASS_DRAFT 1 0 0;
   Ext "zdinx" ISA_SPEC_CLASS_DRAFT 1 0 0;
   Ext "zqinx" ISA_SPEC_CLASS_DRAFT 1 0 0;
   Ext "zhinx" ISA_SPEC_CLASS_DRAFT 1 0 0;
   Ext "zhinxmin" ISA_SPEC_CLASS_DRAFT 1 0 0;
   Ext "zbb" ISA_SPEC_CLASS_DRAFT 1 0 0;
   Ext "zba" ISA_SPEC_CLASS_DRAFT 1 0 0;
   Ext "zbc" ISA_SPEC_CLASS_DRAFT 1 0 0;
   Ext "zbs" ISA_SPEC_CLASS_DRAFT 1 0 0;
   Ext "zbkb" ISA_SPEC_CLASS_DRAFT 1 0 0;
   Ext "zbkc" ISA_SPEC_CLASS_DRAFT 1 0 0;
   Ext "zbkx" ISA_SPEC_CLASS_DRAFT 1 0 0;
   Ext "zk" ISA_SPEC_CLASS_DRAFT 1 0 0;
   Ext "zkn" ISA_SPEC_CLASS_DRAFT 1 0 0;
   Ext "zknd" ISA_SPEC_CLASS_DRAFT 1 0 0;
   Ext "zkne" ISA_SPEC_CLASS_DRAFT 1 0 0;
   Ext "zknh" ISA_SPEC_CLASS_DRAFT 1 0 0;
   Ext "zkr" ISA_SPEC_CLASS_DRAFT 1 0 0;
   Ext "zks" ISA_SPEC_CLASS_DRAFT 1 0 0;
   Ext "zksed" ISA_SPEC_CLASS_DRAFT 1 0 0;
   Ext "zksh" ISA_SPEC_CLASS_DRAFT 1 0 0;
   Ext "zkt" ISA_SPEC_CLASS_DRAFT 1 0 0;
   Ext "zve32x" ISA_SPEC_CLASS_DRAFT 1 0 0;
   Ext "zve32f" ISA_SPEC_CLASS_DRAFT 1 0 0;
   Ext "zve32d" ISA_SPEC_CLASS_DRAFT 1 0 0;
   Ext "zve64x" ISA_SPEC_CLASS_DRAFT 1 0 0;
   Ext "zve64f" ISA_SPEC_CLASS_DRAFT 1 0 0;
   Ext "zve64d" ISA_SPEC_CLASS_DRAFT 1 0 0;
   Ext "zvbb" ISA_SPEC_CLASS_DRAFT 1 0 0;
   Ext "zvbc" ISA_SPEC_CLASS_DRAFT 1 0 0;
   Ext "zvkg" ISA_SPEC_CLASS_DRAFT 1 0 0;
   Ext "zvkn" ISA_SPEC_CLASS_DRAFT 1 0 0;
   Ext "zvkng" ISA_SPEC_CLASS_DRAFT 1 0 0;
   Ext "zvknc" ISA_SPEC_CLASS_DRAFT 1 0 0;
   Ext "zvkned" ISA_SPEC_CLASS_DRAFT 1 0 0;
   Ext "zvknha" ISA_SPEC_CLASS_DRAFT 1 0 0;
   Ext "zvknhb" ISA_SPEC_CLASS_DRAFT 1 0 0;
   Ext "zvksed" ISA_SPEC_CLASS_DRAFT 1 0 0;
   Ext "zvksh" ISA_SPEC_CLASS_DRAFT 1 0 0;
   Ext "zvks" ISA_SPEC_CLASS_DRAFT 1 0 0;
   Ext "zvksg" ISA_SPEC_CLASS_DRAFT 1 0 0;
   Ext "zvksc" ISA_SPEC_CLASS_DRAFT 1 0 0;
   Ext "zvkt" ISA_SPEC_CLASS_DRAFT 1 0 0;
   Ext "zvl32b" ISA_SPEC_CLASS_DRAFT 1 0 0;
   Ext "zvl64b" ISA_SPEC_CLASS_DRAFT 1 0 0;
   Ext "zvl128b" ISA_SPEC_CLASS_DRAFT 1 0 0;
   Ext "zvl256b" ISA_SPEC_CLASS_DRAFT 1 0 0;
   Ext "zvl512b" ISA_SPEC_CLASS_DRAFT 1 0 0;
   Ext "zvl1024b" ISA_SPEC_CLASS_DRAFT 1 0 0;
   Ext "zvl2048b" ISA_SPEC_CLASS_DRAFT 1 0 0;
   Ext "zvl4096b" ISA_SPEC_CLASS_DRAFT 1 0 0;
   Ext "zvl8192b" ISA_SPEC_CLASS_DRAFT 1 0 0;
   Ext "zvl16384b" ISA_SPEC_CLASS_DRAFT 1 0 0;
   Ext "zvl32768b" ISA_SPEC_CLASS_DRAFT 1 0 0;
   Ext "zvl65536b" ISA_SPEC_CLASS_DRAFT 1 0 0;
   Ext "ztso" ISA_SPEC_CLASS_DRAFT 0 1 0 ].

Definition riscv_supported_std_s_ext : list riscv_supported_ext :=
  [ Ext "smaia" ISA_SPEC_CLASS_DRAFT 1 0 0;
   Ext "smepmp" ISA_SPEC_CLASS_DRAFT 1 0 0;
   Ext "smstateen" ISA_SPEC_CLASS_DRAFT 1 0 0;
   Ext "ssaia" ISA_SPEC_CLASS_DRAFT 1 0 0;
   Ext "sscofpmf" ISA_SPEC_CLASS_DRAFT 1 0 0;
   Ext "ssstateen" ISA_SPEC_CLASS_DRAFT 1 0 0;
   Ext "sstc" ISA_SPEC_CLASS_DRAFT 1 0 0;
   Ext "svinval" ISA_SPEC_CLASS_DRAFT 1 0 0;
   Ext "svnapot" ISA_SPEC_CLASS_DRAFT 1 0 0;
   Ext "svpbmt" ISA_SPEC_CLASS_DRAFT 1 0 0 ].

Definition riscv_supported_std_zxm_ext : list riscv_supported_ext :=
  [ ].

Definition riscv_supported_vendor_x_ext : list riscv_supported_ext :=
  [ Ext "xtheadba" ISA_SPEC_CLASS_DRAFT 1 0 0;
   Ext "xtheadbb" ISA_SPEC_CLASS_DRAFT 1 0 0;
   Ext "xtheadbs" ISA_SPEC_CLASS_DRAFT 1 0 0;
   Ext "xtheadcmo" ISA_SPEC_CLASS_DRAFT 1 0 0;
   Ext "xtheadcondmov" ISA_SPEC_CLASS_DRAFT 1 0 0;
   Ext "xtheadfmemidx" ISA_SPEC_CLASS_DRAFT 1 0 0;
   Ext "xtheadfmv" ISA_SPEC_CLASS_DRAFT 1 0 0;
   Ext "xtheadint" ISA_SPEC_CLASS_DRAFT 1 0 0;
   Ext "xtheadmac" ISA_SPEC_CLASS_DRAFT 1 0 0;
   Ext "xtheadmemidx" ISA_SPEC_CLASS_DRAFT 1 0 0;
   Ext "xtheadmempair" ISA_SPEC_CLASS_DRAFT 1 0 0;
   Ext "xtheadsync" ISA_SPEC_CLASS_DRAFT 1 0 0;
   Ext "xventanacondops" ISA_SPEC_CLASS_DRAFT 1 0 0 ].

Definition riscv_all_supported_ext : list (list riscv_supported_ext) :=
  [riscv_supported_std_ext; riscv_supported_std_z_ext; riscv_supported_std_s_ext;
   riscv_supported_std_zxm_ext; riscv_supported_vendor_x_ext].
