(* ===== verification/Subsets.v ===== *)
(** The subset list of [bfd/elfxx-riscv.c]: the canonical order of extension names
    ([riscv_compare_subsets]), the sorted linked list with its tail pointer (lookup, add,
    remove), the closure under implicit extensions, the conflict checks, and the answer
    [riscv_multi_subset_supports] that decides which rows of the opcode table exist. The
    theorems: on well-formed names the order is a strict total order, the list is a
    sorted finite map in which the tail shortcut changes nothing, and the closure loop
    terminates with exactly the entries derived through rows whose check passes. *)

From Stdlib Require Import String Ascii Sorted.
From stdpp Require Import gmap sorting.
From S2P Require Import Prelude Opcodes ExtTables.
#[local] Open Scope string_scope.
#[local] Open Scope Z_scope.

Module Subsets.

(** * Characters and strings *)

Definition code (c : ascii) : Z := Z.of_nat (nat_of_ascii c).
(** [tolower], for [strcasecmp]. *)
Definition tolower (c : ascii) : Z := if (65 <=? code c) && (code c <=? 90) then code c + 32 else code c.

(** The character under a pointer, and the pointer moved on; a terminator is character
    0, and nothing is read past it. *)
Definition first (s : string) : ascii := match s with "" => "000"%char | String c _ => c end.
Definition rest (s : string) : string := match s with "" => "" | String _ s => s end.

Fixpoint strcasecmp (s1 s2 : string) : Z :=
  match s1, s2 with
  | "", "" => 0
  | "", String c2 _ => - tolower c2
  | String c1 _, "" => tolower c1
  | String c1 s1, String c2 s2 =>
      if tolower c1 =? tolower c2 then strcasecmp s1 s2 else tolower c1 - tolower c2
  end.

(** * The order of extension names *)

Inductive riscv_prefix_ext_class :=
  | RV_ISA_CLASS_Z | RV_ISA_CLASS_S | RV_ISA_CLASS_ZXM | RV_ISA_CLASS_X | RV_ISA_CLASS_SINGLE.
Definition class_num (c : riscv_prefix_ext_class) : Z :=
  match c with
  | RV_ISA_CLASS_Z => 1 | RV_ISA_CLASS_S => 2 | RV_ISA_CLASS_ZXM => 3 | RV_ISA_CLASS_X => 4
  | RV_ISA_CLASS_SINGLE => 5
  end.
#[export] Instance class_eq_dec : EqDecision riscv_prefix_ext_class.
Proof. solve_decision. Defined.

Definition parse_config : list (riscv_prefix_ext_class * string) :=
  [(RV_ISA_CLASS_ZXM, "zxm"); (RV_ISA_CLASS_Z, "z"); (RV_ISA_CLASS_S, "s"); (RV_ISA_CLASS_X, "x")].

Fixpoint prefix_class_in (l : list (riscv_prefix_ext_class * string)) (arch : string) :=
  match l with
  | [] => RV_ISA_CLASS_SINGLE
  | (c, p) :: l => if String.prefix p arch then c else prefix_class_in l arch
  end.
Definition riscv_get_prefix_class (arch : string) : riscv_prefix_ext_class :=
  prefix_class_in parse_config arch.

Definition riscv_ext_canonical_order : string := "eigmafdqlcbkjtpvnh".

(** [riscv_ext_order] after [riscv_init_ext_order]: the position of a letter, from 1. *)
Fixpoint position (c : ascii) (s : string) (order : Z) : Z :=
  match s with
  | "" => 0
  | String d s => if (c =? d)%char then order else position c s (order + 1)
  end.

Section Order.
(** What lies around [riscv_ext_order] in memory: the C code indexes it with any
    character. *)
Context (outside : ascii -> Z).

Definition riscv_ext_order (c : ascii) : Z :=
  if (97 <=? code c) && (code c <=? 122) then position c riscv_ext_canonical_order 1 else outside c.

Definition riscv_compare_subsets (subset1 subset2 : string) : Z :=
  let order1 := riscv_ext_order (first subset1) in
  let order2 := riscv_ext_order (first subset2) in
  if (0 <? order1) && (0 <? order2) then order1 - order2
  else
    let class1 := riscv_get_prefix_class subset1 in
    let class2 := riscv_get_prefix_class subset2 in
    let order1 := if decide (class1 = RV_ISA_CLASS_SINGLE) then order1 else - class_num class1 in
    let order2 := if decide (class2 = RV_ISA_CLASS_SINGLE) then order2 else - class_num class2 in
    if order1 =? order2 then
      if decide (class1 = RV_ISA_CLASS_Z) then
        let p1 := riscv_ext_order (first (rest subset1)) in
        let p2 := riscv_ext_order (first (rest subset2)) in
        if p1 =? p2 then strcasecmp (rest (rest subset1)) (rest (rest subset2)) else p1 - p2
      else strcasecmp (rest subset1) (rest subset2)
    else order2 - order1.

(** * The list *)

(** Head and tail pointers: the nodes in order, and the position of the node that [tail]
    points to. *)
Record subset_list := SubsetList { head : list riscv_subset_t; tail : option nat }.

(** The node before position [k]. *)
Definition prev (k : nat) : option nat := match k with O => None | S k => Some k end.

(** The search loop, [k] nodes passed. *)
Fixpoint scan (l : list riscv_subset_t) (subset : string) (k : nat) : bool * option nat :=
  match l with
  | [] => (false, prev k)
  | s :: l =>
      let cmp := riscv_compare_subsets (sname s) subset in
      if cmp =? 0 then (true, Some k) else if 0 <? cmp then (false, prev k) else scan l subset (S k)
  end.

(** Found, and [current]: the node, or the node to insert after. *)
Definition riscv_lookup_subset (L : subset_list) (subset : string) : bool * option nat :=
  match t ← tail L; head L !! t with
  | Some s => if riscv_compare_subsets (sname s) subset <? 0 then (false, tail L) else scan (head L) subset 0
  | None => scan (head L) subset 0
  end.

(** Link a node in after [current]; positions behind it move on. *)
Definition riscv_add_subset (L : subset_list) (subset : string) (major minor : Z) : subset_list :=
  match riscv_lookup_subset L subset with
  | (true, _) => L
  | (false, current) =>
      let k := match current with Some c => S c | None => O end in
      SubsetList (take k (head L) ++ Subset subset major minor :: drop k (head L))%list
        (match drop k (head L) with
         | [] => Some k
         | _ => (fun t => if (k <=? t)%nat then S t else t) <$> tail L
         end)
  end.

(** Unlink the first node of that name. *)
Definition riscv_remove_subset (L : subset_list) (subset : string) : subset_list :=
  match list_find (fun s => sname s = subset) (head L) with
  | None => L
  | Some (k, _) =>
      SubsetList (delete k (head L))
        (match drop (S k) (head L) with
         | [] => prev k
         | _ => (fun t => if (k <? t)%nat then pred t else t) <$> tail L
         end)
  end.

(** The copy, its tail set at the last node; the tail of the copy of an empty list is
    memory that is never written ([unset]). *)
Fixpoint riscv_copy_subset (subset : list riscv_subset_t) (k : nat) (t : option nat) : list riscv_subset_t * option nat :=
  match subset with
  | [] => ([], t)
  | s :: next =>
      let '(new_next, t) := riscv_copy_subset next (S k) t in
      (Subset (sname s) (major_version s) (minor_version s) :: new_next, match next with [] => Some k | _ => t end)
  end.
Definition riscv_copy_subset_list (unset : option nat) (L : subset_list) : subset_list :=
  let '(head, tail) := riscv_copy_subset (head L) 0 unset in SubsetList head tail.
Definition riscv_release_subset_list (L : subset_list) : subset_list := SubsetList [] None.

Definition riscv_subset_supports (L : subset_list) (feature : string) : bool :=
  (riscv_lookup_subset L feature).1.

Definition empty_list : subset_list := SubsetList [] None.

(** * Default versions *)

Definition ext_table (c : riscv_prefix_ext_class) : list riscv_supported_ext :=
  match c with
  | RV_ISA_CLASS_ZXM => riscv_supported_std_zxm_ext
  | RV_ISA_CLASS_Z => riscv_supported_std_z_ext
  | RV_ISA_CLASS_S => riscv_supported_std_s_ext
  | RV_ISA_CLASS_X => riscv_supported_vendor_x_ext
  | RV_ISA_CLASS_SINGLE => riscv_supported_std_ext
  end.

(** The versions are left alone when the name is not in the table. *)
Definition riscv_get_default_ext_version (spec : option riscv_spec_class) (name : string)
    (version : Z * Z) : Z * Z :=
  match spec with
  | None | Some ISA_SPEC_CLASS_NONE => version
  | Some spec =>
      match list_find (fun e => ext_name e = name /\
              (isa_spec_class e = ISA_SPEC_CLASS_DRAFT \/ isa_spec_class e = spec))
              (ext_table (riscv_get_prefix_class name)) with
      | Some (_, e) => (ext_major e, ext_minor e)
      | None => version
      end
  end.

(** Calls of the error handler. *)
Inductive error :=
  | x_without_version (ext : string) | no_default_version (ext : string)
  | bad_first_letter | unknown_single (c : ascii) | ends_with_number_p (ext : string)
  | unknown_prefixed (ext : string) | missing_separator
  | no_e (xlen : Z) | no_q (xlen : Z) | zfinx_conflict | zvl_alone
  | uppercase | bad_prefix
  | unknown_option (ext : string) | base_option (ext : string).

(** The parser's state: list, [xlen], and the errors reported so far. *)
Record riscv_parse_subset_t := Rps
  { subsets : subset_list; xlen : Z; errors : list error }.
#[export] Instance eta_rps : Eta riscv_parse_subset_t := fun r => Rps (subsets r) (xlen r) (errors r).
Definition report (r : riscv_parse_subset_t) (e : error) : riscv_parse_subset_t :=
  r <| errors := (errors r ++ [e])%list |>.

Section Parser.
(** [isa_spec], and whether unknown prefixed extensions are errors. *)
Context (isa_spec : option riscv_spec_class) (check_unknown_prefixed_ext : bool).

Definition unknown (v : Z * Z) : bool :=
  (v.1 =? RISCV_UNKNOWN_VERSION) || (v.2 =? RISCV_UNKNOWN_VERSION).

Definition riscv_parse_add_subset (r : riscv_parse_subset_t) (subset : string) (major minor : Z)
    (implicit : bool) : riscv_parse_subset_t :=
  let v := if unknown (major, minor) then riscv_get_default_ext_version isa_spec subset (major, minor)
           else (major, minor) in
  if negb implicit && unknown v then
    if (first subset =? "x")%char then report r (x_without_version subset)
    else if negb (subset =? "zicsr")%string && negb (subset =? "zifencei")%string
    then report r (no_default_version subset) else r
  else r <| subsets := riscv_add_subset (subsets r) subset v.1 v.2 |>.

(** * Implicit extensions *)

(** The first row of the table whose extension is there, whose implicit one is not, and
    whose check passes. *)
Definition applies (L : subset_list) (t : riscv_implicit_subset) : bool :=
  match riscv_lookup_subset L (subset_name t) with
  | (true, Some k) =>
      match head L !! k with
      | Some s => negb (riscv_lookup_subset L (implicit_name t)).1 && check_func t s
      | None => false
      end
  | _ => false
  end.

(** The restarting loop; [fuel] bounds the number of restarts. *)
Fixpoint add_implicit (fuel : nat) (r : riscv_parse_subset_t) : option riscv_parse_subset_t :=
  match list_find (fun t => applies (subsets r) t = true) riscv_implicit_subsets with
  | None => Some r
  | Some (_, t) =>
      match fuel with
      | O => None
      | S fuel =>
          add_implicit fuel (riscv_parse_add_subset r (implicit_name t)
            RISCV_UNKNOWN_VERSION RISCV_UNKNOWN_VERSION true)
      end
  end.
(** One restart per row is enough ([implicit_closure]). *)
Definition riscv_parse_add_implicit_subsets : riscv_parse_subset_t -> option riscv_parse_subset_t :=
  add_implicit (length riscv_implicit_subsets).

(** * Conflicts *)

Definition node (L : subset_list) (name : string) : option riscv_subset_t :=
  match riscv_lookup_subset L name with (true, Some k) => head L !! k | _ => None end.

Definition riscv_parse_check_conflicts (r : riscv_parse_subset_t) : bool * riscv_parse_subset_t :=
  let L := subsets r in
  let when (b : bool) (e : error) (s : bool * riscv_parse_subset_t) :=
    if b then (false, report s.2 e) else s in
  let support_zve := existsb (fun s => String.prefix "zve" (sname s)) (head L) in
  let support_zvl := existsb (fun s => String.prefix "zvl" (sname s)) (head L) in
  when (support_zvl && negb support_zve) zvl_alone
  (when (riscv_subset_supports L "zfinx" && riscv_subset_supports L "f") zfinx_conflict
  (when (match node L "q" with
         | Some s => ((major_version s <? 2) || ((major_version s =? 2) && (minor_version s <? 2)))
                     && (xlen r <? 64)
         | None => false
         end) (no_q (xlen r))
  (when (riscv_subset_supports L "e" && (32 <? xlen r)) (no_e (xlen r))
  (true, r)))).
End Parser.

(** * Instruction classes *)

Definition riscv_multi_subset_supports (l : subset_list) (insn_class : riscv_insn_class) : bool :=
  let sup := riscv_subset_supports l in
  match insn_class with
  | INSN_CLASS_I => sup "i"
  | INSN_CLASS_ZICBOM => sup "zicbom"
  | INSN_CLASS_ZICBOP => sup "zicbop"
  | INSN_CLASS_ZICBOZ => sup "zicboz"
  | INSN_CLASS_ZICOND => sup "zicond"
  | INSN_CLASS_ZICSR => sup "zicsr"
  | INSN_CLASS_ZIFENCEI => sup "zifencei"
  | INSN_CLASS_ZIHINTPAUSE => sup "zihintpause"
  | INSN_CLASS_M => sup "m"
  | INSN_CLASS_ZMMUL => sup "zmmul"
  | INSN_CLASS_A => sup "a"
  | INSN_CLASS_ZAWRS => sup "zawrs"
  | INSN_CLASS_F => sup "f"
  | INSN_CLASS_D => sup "d"
  | INSN_CLASS_Q => sup "q"
  | INSN_CLASS_C => sup "c"
  | INSN_CLASS_F_AND_C => (sup "f" && sup "c")
  | INSN_CLASS_D_AND_C => (sup "d" && sup "c")
  | INSN_CLASS_F_INX => (sup "f" || sup "zfinx")
  | INSN_CLASS_D_INX => (sup "d" || sup "zdinx")
  | INSN_CLASS_Q_INX => (sup "q" || sup "zqinx")
  | INSN_CLASS_ZFH_INX => (sup "zfh" || sup "zhinx")
  | INSN_CLASS_ZFHMIN => sup "zfhmin"
  | INSN_CLASS_ZFHMIN_INX => (sup "zfhmin" || sup "zhinxmin")
  | INSN_CLASS_ZFHMIN_AND_D_INX => ((sup "zfhmin" && sup "d") || (sup "zhinxmin" && sup "zdinx"))
  | INSN_CLASS_ZFHMIN_AND_Q_INX => ((sup "zfhmin" && sup "q") || (sup "zhinxmin" && sup "zqinx"))
  | INSN_CLASS_ZFA => sup "zfa"
  | INSN_CLASS_D_AND_ZFA => sup "d" && sup "zfa"
  | INSN_CLASS_Q_AND_ZFA => sup "q" && sup "zfa"
  | INSN_CLASS_ZFH_AND_ZFA => sup "zfh" && sup "zfa"
  | INSN_CLASS_ZBA => sup "zba"
  | INSN_CLASS_ZBB => sup "zbb"
  | INSN_CLASS_ZBC => sup "zbc"
  | INSN_CLASS_ZBS => sup "zbs"
  | INSN_CLASS_ZBKB => sup "zbkb"
  | INSN_CLASS_ZBKC => sup "zbkc"
  | INSN_CLASS_ZBKX => sup "zbkx"
  | INSN_CLASS_ZBB_OR_ZBKB => (sup "zbb" || sup "zbkb")
  | INSN_CLASS_ZBC_OR_ZBKC => (sup "zbc" || sup "zbkc")
  | INSN_CLASS_ZKND => sup "zknd"
  | INSN_CLASS_ZKNE => sup "zkne"
  | INSN_CLASS_ZKNH => sup "zknh"
  | INSN_CLASS_ZKND_OR_ZKNE => (sup "zknd" || sup "zkne")
  | INSN_CLASS_ZKSED => sup "zksed"
  | INSN_CLASS_ZKSH => sup "zksh"
  | INSN_CLASS_V => (sup "v" || sup "zve64x" || sup "zve32x")
  | INSN_CLASS_ZVEF => (sup "v" || sup "zve64d" || sup "zve64f" || sup "zve32f")
  | INSN_CLASS_ZVBB => sup "zvbb"
  | INSN_CLASS_ZVBC => sup "zvbc"
  | INSN_CLASS_ZVKG => sup "zvkg"
  | INSN_CLASS_ZVKNED => sup "zvkned"
  | INSN_CLASS_ZVKNHA => sup "zvknha"
  | INSN_CLASS_ZVKNHB => sup "zvknhb"
  | INSN_CLASS_ZVKNHA_OR_ZVKNHB => (sup "zvknha" || sup "zvknhb")
  | INSN_CLASS_ZVKSED => sup "zvksed"
  | INSN_CLASS_ZVKSH => sup "zvksh"
  | INSN_CLASS_SVINVAL => sup "svinval"
  | INSN_CLASS_H => sup "h"
  | INSN_CLASS_XTHEADBA => sup "xtheadba"
  | INSN_CLASS_XTHEADBB => sup "xtheadbb"
  | INSN_CLASS_XTHEADBS => sup "xtheadbs"
  | INSN_CLASS_XTHEADCMO => sup "xtheadcmo"
  | INSN_CLASS_XTHEADCONDMOV => sup "xtheadcondmov"
  | INSN_CLASS_XTHEADFMEMIDX => sup "xtheadfmemidx"
  | INSN_CLASS_XTHEADFMV => sup "xtheadfmv"
  | INSN_CLASS_XTHEADINT => sup "xtheadint"
  | INSN_CLASS_XTHEADMAC => sup "xtheadmac"
  | INSN_CLASS_XTHEADMEMIDX => sup "xtheadmemidx"
  | INSN_CLASS_XTHEADMEMPAIR => sup "xtheadmempair"
  | INSN_CLASS_XTHEADSYNC => sup "xtheadsync"
  | INSN_CLASS_XVENTANACONDOPS => sup "xventanacondops"
  | INSN_CLASS_NONE => false      (* internal: unreachable INSN_CLASS_* *)
  end.

(** * Well-formed names *)

(** Letters without a lower case of their own (and not a terminator). *)
Definition plain_char (c : ascii) : bool := (tolower c =? code c) && (0 <? code c).
Definition std_order (c : ascii) : Z := position c riscv_ext_canonical_order 1.
Definition chars (s : string) : list ascii := list_ascii_of_string s.

(** A standard letter, or a prefixed name; the second letter of a z name is standard. *)
Definition wf_name (s : string) : bool :=
  forallb plain_char (chars s) &&
  match riscv_get_prefix_class s with
  | RV_ISA_CLASS_SINGLE => (0 <? std_order (first s)) && (String.length s =? 1)%nat
  | RV_ISA_CLASS_Z => 0 <? std_order (first (rest s))
  | _ => true
  end.

(** The order as a lexicographic order on sort keys. *)
Definition codes (s : string) : list Z := map code (chars s).
Definition key (s : string) : list Z :=
  match riscv_get_prefix_class s with
  | RV_ISA_CLASS_SINGLE => [std_order (first s)]
  | RV_ISA_CLASS_Z => 101 :: std_order (first (rest s)) :: codes (rest (rest s))
  | c => (100 + class_num c) :: codes (rest s)
  end.
Fixpoint lex (a b : list Z) : Z :=
  match a, b with
  | [], [] => 0
  | [], y :: _ => - y
  | x :: _, [] => x
  | x :: a, y :: b => if x =? y then lex a b else x - y
  end.

Definition positive : list Z -> Prop := Forall (fun x => 0 < x).

Lemma lex_refl a : lex a a = 0.
Proof. induction a as [|x a IH]; [done|]. cbn. by rewrite Z.eqb_refl. Qed.
Lemma lex_eq a b : positive a -> positive b -> lex a b = 0 -> a = b.
Proof.
  intros Ha. revert b. induction Ha as [|x a Hx _ IH]; intros b Hb.
  - destruct Hb as [|y b Hy _]; [done|]. cbn. lia.
  - destruct Hb as [|y b Hy Hb]; cbn; [lia|]. destruct (Z.eqb_spec x y) as [-> |]; [|lia].
    intros E. f_equal. auto.
Qed.
Lemma lex_opp a b : lex b a = - lex a b.
Proof.
  revert b. induction a as [|x a IH]; intros [|y b]; cbn; try lia.
  rewrite (Z.eqb_sym y x). destruct (x =? y); [apply IH|lia].
Qed.
Lemma lex_trans a b c :
  positive a -> positive b -> positive c -> lex a b < 0 -> lex b c < 0 -> lex a c < 0.
Proof.
  intros Ha. revert b c. induction Ha as [|x a Hx _ IH]; intros b c Hb Hc.
  - destruct Hb, Hc; cbn; lia.
  - destruct Hb as [|y b Hy Hb], Hc as [|z c Hz Hc]; cbn; try lia.
    destruct (Z.eqb_spec x y), (Z.eqb_spec y z), (Z.eqb_spec x z); try lia. eauto.
Qed.

(** ** Names and their keys *)

Lemma position_range c s k : position c s k = 0 \/ k <= position c s k < k + Z.of_nat (String.length s).
Proof.
  revert k. induction s as [|d s IH]; intros k; cbn [position String.length]; [by left|].
  destruct (c =? d)%char; [right; lia|]. destruct (IH (k + 1)); [by left|right; lia].
Qed.
Lemma position_inj c d s k : 1 <= k -> 0 < position c s k -> position c s k = position d s k -> c = d.
Proof.
  revert k. induction s as [|e s IH]; intros k Hk; cbn [position]; [lia|].
  pose proof (position_range c s (k + 1)). pose proof (position_range d s (k + 1)).
  destruct (Ascii.eqb_spec c e) as [-> |], (Ascii.eqb_spec d e) as [-> |]; try done; try lia.
  apply IH. lia.
Qed.

Lemma std_order_range c : 0 <= std_order c <= 18.
Proof. unfold std_order. pose proof (position_range c riscv_ext_canonical_order 1). cbn [String.length riscv_ext_canonical_order] in *. lia. Qed.

Lemma std_order_letter c : 0 < std_order c -> riscv_ext_order c = std_order c.
Proof.
  intros H. unfold riscv_ext_order. destruct (_ && _) eqn:E; [done|]. exfalso.
  unfold std_order, riscv_ext_canonical_order in H. cbn [position] in H.
  repeat match type of H with context [(c =? ?d)%char] =>
    destruct (Ascii.eqb_spec c d) as [Hc|]; [rewrite Hc in E; by vm_compute in E|] end. lia.
Qed.

(** The first character of a prefixed name, which is no standard letter. *)
Definition class_char (c : riscv_prefix_ext_class) : ascii :=
  match c with RV_ISA_CLASS_S => "s" | RV_ISA_CLASS_X => "x" | _ => "z" end.

Lemma class_first s c :
  riscv_get_prefix_class s = c -> c <> RV_ISA_CLASS_SINGLE -> s = String (class_char c) (rest s).
Proof.
  unfold riscv_get_prefix_class. intros <- Hc. destruct s as [|a s]; [done|].
  cbn [parse_config prefix_class_in] in *.
  destruct (String.prefix "zxm" (String a s)) eqn:E1.
  { cbn [String.prefix] in E1. destruct (ascii_dec "z" a) as [Ha|]; [by rewrite <- Ha|done]. }
  destruct (String.prefix "z" (String a s)) eqn:E2.
  { cbn [String.prefix] in E2. destruct (ascii_dec "z" a) as [Ha|]; [by rewrite <- Ha|done]. }
  destruct (String.prefix "s" (String a s)) eqn:E3.
  { cbn [String.prefix] in E3. destruct (ascii_dec "s" a) as [Ha|]; [by rewrite <- Ha|done]. }
  destruct (String.prefix "x" (String a s)) eqn:E4; [|done].
  cbn [String.prefix] in E4. destruct (ascii_dec "x" a) as [Ha|]; [by rewrite <- Ha|done].
Qed.
Lemma class_order s : riscv_get_prefix_class s <> RV_ISA_CLASS_SINGLE -> riscv_ext_order (first s) = 0.
Proof.
  intros H. pose proof (class_first s _ eq_refl H) as E. rewrite E. cbn [first].
  by destruct (riscv_get_prefix_class s).
Qed.

Lemma plain_chars s : forallb plain_char (chars s) = true -> positive (codes s).
Proof.
  unfold codes, positive, plain_char. induction (chars s) as [|c l IH]; cbn; [constructor|].
  rewrite !andb_true_iff. intros ((_ & Hc) & Hl). constructor; [lia|auto].
Qed.
Lemma strcasecmp_lex s1 s2 :
  forallb plain_char (chars s1) = true -> forallb plain_char (chars s2) = true ->
  strcasecmp s1 s2 = lex (codes s1) (codes s2).
Proof.
  unfold codes, chars, plain_char. revert s2. induction s1 as [|c s1 IH]; intros [|d s2]; cbn; try done;
    rewrite ?andb_true_iff; intros; destruct_and!; rewrite ?IH by done; repeat
    match goal with H : (tolower _ =? _) = true |- _ => apply Z.eqb_eq in H; rewrite ?H; clear H end; done.
Qed.
Lemma codes_inj s1 s2 : codes s1 = codes s2 -> s1 = s2.
Proof.
  unfold codes, chars. revert s2. induction s1 as [|c s1 IH]; intros [|d s2]; cbn; try done.
  intros [= H1 H2]. f_equal; [|auto]. unfold code in H1. apply Nat2Z.inj in H1.
  by rewrite <- (ascii_nat_embedding c), <- (ascii_nat_embedding d), H1.
Qed.

(** The parts of a well-formed name. *)
Lemma wf_rest s : forallb plain_char (chars s) = true -> forallb plain_char (chars (rest s)) = true.
Proof. destruct s; cbn; [done|]. by intros [_ ?]%andb_true_iff. Qed.

Lemma key_positive s : wf_name s = true -> positive (key s).
Proof.
  unfold wf_name, key, positive. rewrite andb_true_iff. intros [Hp H].
  pose proof (plain_chars _ (wf_rest _ Hp)). pose proof (plain_chars _ (wf_rest _ (wf_rest _ Hp))).
  destruct (riscv_get_prefix_class s); cbn [class_num]; repeat constructor; try done;
    destruct_and?; lia.
Qed.

Lemma key_inj s1 s2 : wf_name s1 = true -> wf_name s2 = true -> key s1 = key s2 -> s1 = s2.
Proof.
  unfold wf_name, key. rewrite !andb_true_iff. intros [_ H1] [_ H2].
  pose proof (class_first s1) as F1. pose proof (class_first s2) as F2.
  pose proof (std_order_range (first s1)). pose proof (std_order_range (first s2)).
  destruct (riscv_get_prefix_class s1) eqn:E1, (riscv_get_prefix_class s2) eqn:E2; cbn [class_num Z.add Pos.add Pos.succ];
    try discriminate;
    try (intros [= K]; rewrite (F1 _ eq_refl), (F2 _ eq_refl) by done; f_equal; by apply codes_inj);
    try (intros [= K]; lia).
  - intros [= K1 K2]. rewrite (F1 _ eq_refl), (F2 _ eq_refl) by done. f_equal.
    destruct (rest s1) as [|c1 t1], (rest s2) as [|c2 t2]; try done. cbn [first rest] in *.
    apply codes_inj in K2 as ->. f_equal. eapply (position_inj _ _ _ 1); [lia| |exact K1]. unfold std_order in H1. lia.
  - intros [= K]. apply andb_true_iff in H1 as [H1 L1], H2 as [H2 L2]. destruct s1 as [|c1 [|]], s2 as [|c2 [|]]; try discriminate. cbn [first] in *.
    f_equal. eapply (position_inj _ _ _ 1); [lia| |exact K]. unfold std_order in *. lia.
Qed.

(** The comparison is the comparison of the keys. *)
Lemma compare_key s1 s2 :
  wf_name s1 = true -> wf_name s2 = true ->
  Z.sgn (riscv_compare_subsets s1 s2) = Z.sgn (lex (key s1) (key s2)).
Proof.
  unfold wf_name. rewrite !andb_true_iff. intros [P1 H1] [P2 H2].
  pose proof (class_order s1) as O1. pose proof (class_order s2) as O2.
  unfold riscv_compare_subsets, key. cbv zeta.
  assert (Hs : forall s, 0 < std_order (first s) -> riscv_ext_order (first s) = std_order (first s))
    by (intros; by apply std_order_letter).
  pose proof (std_order_range (first s1)). pose proof (std_order_range (first s2)).
  destruct (riscv_get_prefix_class s1) eqn:E1, (riscv_get_prefix_class s2) eqn:E2;
    try apply andb_true_iff in H1 as [H1 L1]; try apply andb_true_iff in H2 as [H2 L2];
    rewrite ?O1, ?O2 by done; rewrite ?(Hs s1), ?(Hs s2), ?(Hs (rest s1)), ?(Hs (rest s2)) by lia;
    cbn [class_num lex];
    repeat match goal with |- context [decide ?P] => destruct (decide P); try congruence end;
    rewrite ?strcasecmp_lex by (try done; by repeat apply wf_rest);
    repeat match goal with |- context [?a <? ?b] => destruct (Z.ltb_spec a b); try lia; cbn [andb] end;
    repeat match goal with |- context [?a =? ?b] => destruct (Z.eqb_spec a b); try lia end; lia || done.
Qed.

(** A strict total order on well-formed names. *)
Definition before (s1 s2 : string) : Prop := riscv_compare_subsets s1 s2 < 0.

Lemma compare_eq s1 s2 : wf_name s1 = true -> wf_name s2 = true -> riscv_compare_subsets s1 s2 = 0 <-> s1 = s2.
Proof.
  intros H1 H2. pose proof (compare_key s1 s2 H1 H2) as K. split.
  - intros E. apply key_inj; [done..|]. apply lex_eq; [by apply key_positive..|]. rewrite E in K. cbn in K. lia.
  - intros <-. rewrite lex_refl in K. cbn in K. lia.
Qed.
Lemma compare_opp s1 s2 :
  wf_name s1 = true -> wf_name s2 = true ->
  Z.sgn (riscv_compare_subsets s2 s1) = - Z.sgn (riscv_compare_subsets s1 s2).
Proof. intros. rewrite !compare_key, lex_opp by done. apply Z.sgn_opp. Qed.
Lemma before_trans s1 s2 s3 :
  wf_name s1 = true -> wf_name s2 = true -> wf_name s3 = true ->
  before s1 s2 -> before s2 s3 -> before s1 s3.
Proof.
  unfold before. intros H1 H2 H3 A B.
  pose proof (compare_key s1 s2 H1 H2). pose proof (compare_key s2 s3 H2 H3). pose proof (compare_key s1 s3 H1 H3).
  pose proof (lex_trans (key s1) (key s2) (key s3) (key_positive _ H1) (key_positive _ H2) (key_positive _ H3)).
  lia.
Qed.

(** On well-formed names (a standard letter, or a lower-case name with prefix s, x,
    zxm or z and a standard letter) [riscv_compare_subsets] is a strict total order whose
    zero is equality, whatever memory lies around its letter table: every two names
    compare, in opposite ways, and the order is transitive. *)
Theorem subset_order s1 s2 s3 :
  wf_name s1 = true -> wf_name s2 = true -> wf_name s3 = true ->
  (riscv_compare_subsets s1 s2 = 0 <-> s1 = s2) /\
  (before s1 s2 \/ s1 = s2 \/ before s2 s1) /\ (before s1 s2 -> ~ before s2 s1) /\
  (before s1 s2 -> before s2 s3 -> before s1 s3).
Proof.
  intros H1 H2 H3. pose proof (compare_eq s1 s2 H1 H2) as E. pose proof (compare_opp s1 s2 H1 H2) as O.
  split_and!; [exact E| |unfold before; lia|by apply before_trans].
  unfold before. destruct (Z.eq_dec (riscv_compare_subsets s1 s2) 0); [right; left; tauto|lia].
Qed.

(** * The list is a sorted finite map *)

Definition node_wf (s : riscv_subset_t) : Prop := wf_name (sname s) = true.
Definition node_before (a b : riscv_subset_t) : Prop := before (sname a) (sname b).

Record list_wf (L : subset_list) : Prop := ListWf
  { wf_names : Forall node_wf (head L);
    wf_sorted : StronglySorted node_before (head L);
    wf_tail : tail L = prev (length (head L)) }.

(** The versions by name. *)
Definition entry (s : riscv_subset_t) : string * (Z * Z) := (sname s, (major_version s, minor_version s)).
Definition view (L : subset_list) : gmap string (Z * Z) := list_to_map (map entry (head L)).

(** Where [current] sends a search: found at [k], or absent with [k] nodes before it. *)
Inductive located (l : list riscv_subset_t) (n : string) : bool * option nat -> Prop :=
  | Found k s : l !! k = Some s -> sname s = n -> located l n (true, Some k)
  | Absent k : (k <= length l)%nat ->
      (forall s, s ∈ take k l -> before (sname s) n) -> (forall s, s ∈ drop k l -> before n (sname s)) ->
      located l n (false, prev k).

Lemma before_cases n m :
  wf_name n = true -> wf_name m = true ->
  if riscv_compare_subsets n m =? 0 then n = m
  else if 0 <? riscv_compare_subsets n m then before m n else before n m.
Proof.
  intros Hn Hm. pose proof (compare_eq n m Hn Hm). pose proof (compare_opp n m Hn Hm).
  destruct (Z.eqb_spec (riscv_compare_subsets n m) 0); [tauto|]. unfold before.
  destruct (Z.ltb_spec 0 (riscv_compare_subsets n m)); lia.
Qed.

Lemma scan_located l pre n :
  wf_name n = true -> Forall node_wf (pre ++ l) -> StronglySorted node_before (pre ++ l) ->
  (forall s, s ∈ pre -> before (sname s) n) -> located (pre ++ l) n (scan l n (length pre)).
Proof.
  revert pre. induction l as [|s l IH]; intros pre Hn Hw Hs Hp; cbn [scan].
  - rewrite app_nil_r in *. apply Absent; [done| |].
    + by rewrite firstn_all.
    + rewrite skipn_all. intros s Hs'. by apply elem_of_nil in Hs'.
  - pose proof Hw as [_ [Hws _]%Forall_cons]%Forall_app.
    pose proof (before_cases (sname s) n Hws Hn) as Hc. cbv zeta.
    destruct (_ =? 0); [|destruct (0 <? _)].
    + apply (Found _ _ _ s); [|done]. by apply list_lookup_middle.
    + apply Absent; [rewrite length_app; lia|by rewrite take_app_length|].
      rewrite drop_app_length. intros s' [-> | Hin]%elem_of_cons; [done|].
      apply (before_trans n (sname s)); try done.
      * apply Forall_app in Hw as [_ [_ Hw]%Forall_cons]. by apply (Forall_forall node_wf l).
      * apply StronglySorted_app in Hs as (_ & _ & Hs). inversion Hs as [|? ? _ Hall]; subst.
        by apply (Forall_forall (node_before s) l).
    + replace (S (length pre)) with (length (pre ++ [s])) by (rewrite length_app; cbn; lia).
      assert (E : (pre ++ s :: l = (pre ++ [s]) ++ l)%list) by (by rewrite <- app_assoc).
      rewrite E in *. apply IH; try done.
      intros s' [Hin | ->%list_elem_of_singleton]%elem_of_app; [by apply Hp|done].
Qed.

(** The tail shortcut finds what the search finds. *)
Lemma lookup_located L n : list_wf L -> wf_name n = true -> located (head L) n (riscv_lookup_subset L n).
Proof.
  intros [Hw Hs Ht] Hn. pose proof (scan_located (head L) [] n Hn Hw Hs) as Hscan.
  unfold riscv_lookup_subset. rewrite Ht.
  destruct (head L) as [|s0 l0] using rev_ind; [apply Hscan; intros s Hin; by apply elem_of_nil in Hin|].
  clear IHl0. rewrite length_app, Nat.add_1_r. cbn [prev]. change (mbind ?f (Some ?x)) with (f x). cbv beta.
  rewrite list_lookup_middle by done.
  destruct (Z.ltb_spec (riscv_compare_subsets (sname s0) n) 0) as [Hlt|_];
    [|apply Hscan; intros s Hin; by apply elem_of_nil in Hin].
  change (Some (length l0)) with (prev (S (length l0))).
  apply Absent.
  - rewrite length_app. cbn. lia.
  - rewrite firstn_all2 by (rewrite length_app; cbn; lia). intros s [Hin | ->%list_elem_of_singleton]%elem_of_app; [|done].
    apply Forall_app in Hw as [Hw1 [Hw2 _]%Forall_cons].
    apply (before_trans _ (sname s0)); try done; [by apply (Forall_forall node_wf l0)|].
    apply StronglySorted_app in Hs as (Hs & _ & _). apply Hs; [done|]. by apply list_elem_of_singleton.
  - rewrite skipn_all2 by (rewrite length_app; cbn; lia). intros s Hin. by apply elem_of_nil in Hin.
Qed.

Lemma before_irrefl n : wf_name n = true -> ~ before n n.
Proof. intros Hn. unfold before. pose proof (compare_eq n n Hn Hn). assert (riscv_compare_subsets n n = 0) by tauto. lia. Qed.

Lemma names_nodup l : Forall node_wf l -> StronglySorted node_before l -> NoDup (map entry l).*1.
Proof.
  intros Hw Hs. induction Hs as [|s l _ IH Hall]; cbn; [constructor|].
  apply Forall_cons in Hw as [Hn Hw]. constructor; [|auto].
  rewrite list_elem_of_fmap. intros (e & E & (s' & -> & Hin)%list_elem_of_fmap).
  assert (node_before s s') as Hb by (by apply (Forall_forall (node_before s) l)).
  unfold node_before in Hb. cbn in E. rewrite <- E in Hb. by apply (before_irrefl (sname s)).
Qed.

Lemma view_spec L n v :
  list_wf L -> view L !! n = Some v <-> exists s, s ∈ head L /\ entry s = (n, v).
Proof.
  intros [Hw Hs _]. unfold view. rewrite <- elem_of_list_to_map by (by apply names_nodup).
  rewrite list_elem_of_fmap. split; intros (s & ? & ?); exists s; by split.
Qed.

(** A name is in the view exactly when a search finds it. *)
Lemma located_view L n r :
  list_wf L -> wf_name n = true -> located (head L) n r -> r.1 = bool_decide (is_Some (view L !! n)).
Proof.
  intros HL Hn [k s Hk E | k Hk Hb Ha]; cbn [fst]; symmetry.
  - apply bool_decide_eq_true. exists (major_version s, minor_version s). apply view_spec; [done|].
    exists s. split; [by eapply list_elem_of_lookup_2|]. unfold entry. by rewrite E.
  - apply bool_decide_eq_false. intros [v (s & Hin & E)%view_spec]; [|done].
    rewrite <- (take_drop k (head L)) in Hin. injection E as E _.
    apply elem_of_app in Hin as [Hin|Hin]; [apply Hb in Hin|apply Ha in Hin]; rewrite E in Hin;
      by apply (before_irrefl n).
Qed.

Lemma supports_view L n :
  list_wf L -> wf_name n = true -> riscv_subset_supports L n = bool_decide (is_Some (view L !! n)).
Proof. intros. apply located_view; try done. by apply lookup_located. Qed.

Lemma add_subset_map L n mj mn :
  list_wf L -> wf_name n = true ->
  list_wf (riscv_add_subset L n mj mn) /\
  view (riscv_add_subset L n mj mn)
  = match view L !! n with Some _ => view L | None => <[n := (mj, mn)]> (view L) end.
Proof.
  intros HL Hn. pose proof (lookup_located L n HL Hn) as Hloc.
  pose proof (located_view L n _ HL Hn Hloc) as Hv. unfold riscv_add_subset.
  destruct Hloc as [k s Hk E | k Hk Hb Ha]; cbn [fst] in Hv; symmetry in Hv.
  - apply bool_decide_eq_true in Hv as [v ->]. by split.
  - apply bool_decide_eq_false in Hv. rewrite <- eq_None_not_Some in Hv. rewrite Hv.
    replace (match prev k with Some c => S c | None => O end) with k by (by destruct k).
    pose proof HL as [Hw Hs Ht]. rewrite <- (take_drop k (head L)) in Hw, Hs.
    pose proof Hw as [Hw1 Hw2]%Forall_app. pose proof Hs as (Hs0 & Hs1 & Hs2)%StronglySorted_app.
    assert (HL' : Forall node_wf (take k (head L) ++ Subset n mj mn :: drop k (head L))%list /\
            StronglySorted node_before (take k (head L) ++ Subset n mj mn :: drop k (head L))%list).
    { split; [apply Forall_app; split; [done|]; by constructor|].
      apply StronglySorted_app. split_and!; [|done|].
      - intros s1 s2 H1 [-> | H2]%elem_of_cons; [by apply Hb|by apply Hs0].
      - constructor; [done|]. apply Forall_forall. intros s Hin. by apply Ha. }
    destruct HL' as [Hw' Hs']. split; [split; cbn [head tail]; [done..|]|].
    + rewrite length_app, length_take_le by done. cbn [length]. rewrite length_drop, Ht.
      destruct (drop k (head L)) eqn:Ed.
      * apply (f_equal length) in Ed. rewrite length_drop in Ed. cbn [length] in Ed.
        replace (length (head L) - k)%nat with O by lia. by replace (k + 1)%nat with (S k) by lia.
      * apply (f_equal length) in Ed. rewrite length_drop in Ed. cbn [length] in Ed.
        replace (k + S (length (head L) - k))%nat with (S (length (head L))) by lia.
        destruct (length (head L)) as [|m]; [lia|]. cbn [prev fmap option_fmap option_map].
        destruct (Nat.leb_spec k m); [done|lia].
    + unfold view. cbn [head]. rewrite map_app. cbn [map].
      pose proof (names_nodup _ Hw' Hs') as Hnd. rewrite map_app in Hnd. cbn [map] in Hnd.
      rewrite (list_to_map_proper _ (entry (Subset n mj mn) :: map entry (take k (head L)) ++ map entry (drop k (head L)))%list)
        by (first [done | by rewrite Permutation_middle]).
      cbn [list_to_map entry sname major_version minor_version foldr]. by rewrite <- map_app, take_drop.
Qed.

Lemma drop_S_middle {A} (l1 l2 : list A) x : drop (S (length l1)) (l1 ++ x :: l2)%list = l2.
Proof. induction l1 as [|y l1 IH]; [done|]. exact IH. Qed.

Lemma remove_subset_map L n :
  list_wf L ->
  list_wf (riscv_remove_subset L n) /\ view (riscv_remove_subset L n) = delete n (view L).
Proof.
  intros HL. pose proof HL as [Hw Hs Ht]. unfold riscv_remove_subset.
  destruct (list_find _ (head L)) as [[k s]|] eqn:Hf.
  - apply list_find_Some in Hf as (Hk & Hn & _).
    apply list_elem_of_split_length in Hk as (l1 & l2 & E & ->).
    pose proof (names_nodup _ Hw Hs) as Hnd. rewrite E in *.
    rewrite delete_middle, drop_S_middle. pose proof Hw as [Hw1 [Hws Hw2]%Forall_cons]%Forall_app.
    pose proof Hs as (Hs0 & Hs1 & Hs2)%StronglySorted_app.
    pose proof Hs2 as [Hs2' Hs2'']%StronglySorted_inv. split; [split; cbn [head tail]|].
    + by apply Forall_app.
    + apply StronglySorted_app. split_and!; try done. intros x1 x2 H1 H2. apply Hs0; [done|]. by apply elem_of_cons; right.
    + rewrite Ht, !length_app. cbn [length]. destruct l2 as [|s2 l2]; cbn [length].
      * by rewrite Nat.add_0_r.
      * replace (length l1 + S (S (length l2)))%nat with (S (S (length l1 + length l2))) by lia.
        replace (length l1 + S (length l2))%nat with (S (length l1 + length l2)) by lia. cbn [prev fmap option_fmap option_map].
        destruct (Nat.ltb_spec (length l1) (S (length l1 + length l2))); [done|lia].
    + unfold view. cbn [head]. rewrite E, !map_app. rewrite (map_app entry) in Hnd. cbn [map] in *.
      rewrite (list_to_map_proper _ (entry s :: map entry l1 ++ map entry l2)%list Hnd) by (by rewrite Permutation_middle).
      cbn [list_to_map foldr entry]. change (foldr _ ∅ ?l) with (list_to_map (M := gmap string (Z * Z)) l).
      cbn [entry fst snd]. rewrite Hn, delete_insert_id; [done|].
      apply not_elem_of_list_to_map. rewrite (Permutation_middle (map entry l1)) in Hnd || idtac.
      rewrite map_app in Hnd. cbn [map] in Hnd. rewrite <- Permutation_middle in Hnd.
      apply NoDup_cons in Hnd as [Hnd _]. cbn [entry fst] in Hnd. rewrite Hn, <- map_app in Hnd. exact Hnd.
  - split; [done|]. symmetry. apply delete_id. destruct (view L !! n) as [v|] eqn:E; [|done].
    apply view_spec in E as (s & Hin & E); [|done]. injection E as E _.
    apply list_find_None in Hf. rewrite Forall_forall in Hf. by destruct (Hf s Hin).
Qed.

(** The copy of a list that is not empty is the list. *)
Lemma copy_subset l : forall k t,
  riscv_copy_subset l k t = (l, match l with [] => t | _ => Some (k + length l - 1)%nat end).
Proof.
  induction l as [|s l IH]; intros k t; [done|]. cbn [riscv_copy_subset length]. rewrite IH.
  replace (Subset (sname s) (major_version s) (minor_version s)) with s by (by destruct s).
  destruct l; f_equal; f_equal; cbn [length]; lia.
Qed.
Lemma copy_subset_list unset L : list_wf L -> head L <> [] -> riscv_copy_subset_list unset L = L.
Proof.
  intros [_ _ Ht] Hne. unfold riscv_copy_subset_list. rewrite copy_subset. destruct L as [h t]. cbn [head tail] in *.
  destruct h as [|s h]; [done|]. rewrite Ht. cbn [length prev]. do 2 f_equal. lia.
Qed.

(** [C18] The subset list is a finite map kept sorted: from a well-formed list (names
    well-formed and strictly increasing, [tail] on the last node) a lookup, with its tail
    shortcut, finds exactly the names that are there; adding a name keeps the list
    well-formed and keeps the old versions when the name is present; removing a name
    deletes exactly that entry and keeps the list well-formed, the tail pointer
    included. *)
Theorem subset_list_map L n mj mn :
  list_wf L -> wf_name n = true ->
  riscv_subset_supports L n = bool_decide (is_Some (view L !! n)) /\
  (list_wf (riscv_add_subset L n mj mn) /\
   view (riscv_add_subset L n mj mn)
   = match view L !! n with Some _ => view L | None => <[n := (mj, mn)]> (view L) end) /\
  (list_wf (riscv_remove_subset L n) /\ view (riscv_remove_subset L n) = delete n (view L)).
Proof.
  intros HL Hn. split_and!; first [by apply supports_view | by apply add_subset_map | by apply remove_subset_map].
Qed.

(** ** Implicit extensions *)

(** The abstract closure: one row of the table applied to a map. *)
Definition applies_to (m : gmap string (Z * Z)) (t : riscv_implicit_subset) : bool :=
  match m !! subset_name t, m !! implicit_name t with
  | Some v, None => check_func t (Subset (subset_name t) v.1 v.2)
  | _, _ => false
  end.

(** Every row's names are well-formed. *)
Lemma implicit_names : Forall (fun t => wf_name (subset_name t) = true /\ wf_name (implicit_name t) = true) riscv_implicit_subsets.
Proof. by repeat (apply List.Forall_cons; [done|]). Qed.

Lemma checks_ignore_name t n : t ∈ riscv_implicit_subsets ->
  forall v, check_func t (Subset n v.1 v.2) = check_func t (Subset (subset_name t) v.1 v.2).
Proof.
  intros Hin v. assert (Forall (fun t => check_func t = check_implicit_always \/ check_func t = check_implicit_for_i) riscv_implicit_subsets) as H
    by (repeat (apply List.Forall_cons; [first [by left | by right] | ]); apply List.Forall_nil).
  rewrite Forall_forall in H. destruct (H t Hin) as [-> | ->]; done.
Qed.

Lemma found_entry L n k s :
  list_wf L -> head L !! k = Some s -> sname s = n -> view L !! n = Some (major_version s, minor_version s).
Proof.
  intros HL Hk E. apply view_spec; [done|]. exists s. split; [by eapply list_elem_of_lookup_2|].
  unfold entry. by rewrite E.
Qed.

Lemma applies_view L t : list_wf L -> t ∈ riscv_implicit_subsets -> applies L t = applies_to (view L) t.
Proof.
  intros HL Hin. pose proof implicit_names as Hall. rewrite Forall_forall in Hall.
  destruct (Hall t Hin) as [Hn Hi]. unfold applies, applies_to.
  pose proof (lookup_located L _ HL Hn) as Hloc. pose proof (located_view L _ _ HL Hn Hloc) as Hv.
  pose proof (supports_view L _ HL Hi) as Hsup. unfold riscv_subset_supports in Hsup. rewrite Hsup.
  destruct Hloc as [k s Hk E | k Hk Hb Ha]; cbn [fst] in Hv; symmetry in Hv.
  - rewrite Hk, (found_entry L _ k s HL Hk E).
    destruct (view L !! implicit_name t); [done|]. cbn [bool_decide negb andb].
    rewrite <- (checks_ignore_name t (sname s) Hin). by destruct s.
  - apply bool_decide_eq_false in Hv. rewrite <- eq_None_not_Some in Hv. by rewrite Hv.
Qed.

(** Rows whose implicit extension is still missing. *)
Definition missing (m : gmap string (Z * Z)) : nat :=
  length (filter (fun t => m !! implicit_name t = None) riscv_implicit_subsets).

Lemma filter_shorter {A} (P Q : A -> Prop) `{!forall x, Decision (P x), !forall x, Decision (Q x)} l x :
  (forall y, Q y -> P y) -> x ∈ l -> P x -> ~ Q x -> (length (filter Q l) < length (filter P l))%nat.
Proof.
  intros HQP Hin HP HQ.
  assert (Hle : forall l, (length (filter Q l) <= length (filter P l))%nat).
  { intros k. induction k as [|y k IH]; [done|]. rewrite !filter_cons.
    destruct (decide (Q y)), (decide (P y)); cbn [length]; try lia. by destruct (n (HQP y q)). }
  induction l as [|y l IH]; [by apply elem_of_nil in Hin|]. rewrite !filter_cons. specialize (Hle l).
  apply elem_of_cons in Hin as [-> | Hin].
  - rewrite decide_False, decide_True by done. cbn [length]. lia.
  - specialize (IH Hin). destruct (decide (Q y)), (decide (P y)); cbn [length]; try lia. by destruct (n (HQP y q)).
Qed.

(** The version an implicit extension gets. *)
Definition implicit_version (isa_spec : option riscv_spec_class) (n : string) : Z * Z :=
  riscv_get_default_ext_version isa_spec n (RISCV_UNKNOWN_VERSION, RISCV_UNKNOWN_VERSION).

(** What adding an implicit extension does. *)
Lemma add_implicit_view isa_spec r n (r' := riscv_parse_add_subset isa_spec r n RISCV_UNKNOWN_VERSION RISCV_UNKNOWN_VERSION true) :
  list_wf (subsets r) -> wf_name n = true -> view (subsets r) !! n = None ->
  list_wf (subsets r') /\ xlen r' = xlen r /\ errors r' = errors r /\
  view (subsets r') = <[n := implicit_version isa_spec n]> (view (subsets r)).
Proof.
  intros HL Hn Hv. unfold r', riscv_parse_add_subset. cbn [negb andb].
  change (unknown (RISCV_UNKNOWN_VERSION, RISCV_UNKNOWN_VERSION)) with true. cbv zeta iota.
  fold (implicit_version isa_spec n). set (v := implicit_version isa_spec n).
  cbn [setter subsets xlen errors].
  destruct (add_subset_map (subsets r) n v.1 v.2 HL Hn) as [Hw E]. rewrite Hv in E.
  split_and!; try done. by rewrite <- surjective_pairing in E.
Qed.

(** The entries derived from those of [m]: the given ones, and the implicit extension of
    a row, in its default version, when the row's extension is derived, in a version that
    passes the row's check, and the implicit one is not given. *)
Inductive implied (isa_spec : option riscv_spec_class) (m : gmap string (Z * Z)) : string -> Z * Z -> Prop :=
  | given n v : m !! n = Some v -> implied isa_spec m n v
  | through t v : t ∈ riscv_implicit_subsets -> implied isa_spec m (subset_name t) v ->
      check_func t (Subset (subset_name t) v.1 v.2) = true -> m !! implicit_name t = None ->
      implied isa_spec m (implicit_name t) (implicit_version isa_spec (implicit_name t)).

Lemma implied_mono isa_spec m m' n v :
  m ⊆ m' -> (forall k w, m' !! k = Some w -> implied isa_spec m k w) -> implied isa_spec m' n v -> implied isa_spec m n v.
Proof.
  intros Hsub H. induction 1 as [n v Hn | t v Hin _ IH Hc Hi]; [by apply H|].
  eapply through; [done..|]. by eapply lookup_weaken_None.
Qed.

(** Every derived version of a name is the same. *)
Lemma implied_fun isa_spec m n v w :
  implied isa_spec m n v -> implied isa_spec m n w -> v = w.
Proof. intros H1 H2. destruct H1; inversion H2; subst; congruence. Qed.

Definition closed (m : gmap string (Z * Z)) : Prop :=
  forall t, t ∈ riscv_implicit_subsets -> applies_to m t = false.

Lemma next_row L :
  list_wf L ->
  match list_find (fun t => applies L t = true) riscv_implicit_subsets with
  | None => closed (view L)
  | Some (_, t) => t ∈ riscv_implicit_subsets /\ view L !! implicit_name t = None /\
      exists v, view L !! subset_name t = Some v /\ check_func t (Subset (subset_name t) v.1 v.2) = true
  end.
Proof.
  intros HL. destruct (list_find _ _) as [[k t]|] eqn:Hf.
  - apply list_find_Some in Hf as (Hk & Ht & _).
    assert (t ∈ riscv_implicit_subsets) as Hin by (by eapply list_elem_of_lookup_2).
    rewrite applies_view in Ht by done. unfold applies_to in Ht.
    destruct (view L !! subset_name t) as [v|]; [|done]. destruct (view L !! implicit_name t); [done|]. eauto.
  - intros t Hin. rewrite <- applies_view by done. apply list_find_None in Hf.
    rewrite Forall_forall in Hf. by apply not_true_iff_false, Hf.
Qed.

(** A closed extension of [m] by derived entries has every derived entry. *)
Lemma closed_least isa_spec m m' :
  closed m' -> m ⊆ m' -> (forall n v, m' !! n = Some v -> implied isa_spec m n v) ->
  forall n v, implied isa_spec m n v -> m' !! n = Some v.
Proof.
  intros Hc Hsub Himp n v. induction 1 as [n v Hn | t v Hin Ht IH Hcheck Hi]; [by eapply lookup_weaken|].
  specialize (Hc t Hin). unfold applies_to in Hc. rewrite IH in Hc.
  destruct (m' !! implicit_name t) as [w|] eqn:E; [|congruence].
  f_equal. apply (implied_fun isa_spec m (implicit_name t)); [by apply Himp|]. by eapply through.
Qed.

Lemma add_implicit_closes isa_spec fuel : forall r,
  list_wf (subsets r) -> (missing (view (subsets r)) <= fuel)%nat ->
  exists r', add_implicit isa_spec fuel r = Some r' /\
    list_wf (subsets r') /\ xlen r' = xlen r /\ errors r' = errors r /\
    closed (view (subsets r')) /\ view (subsets r) ⊆ view (subsets r') /\
    (forall n v, view (subsets r') !! n = Some v -> implied isa_spec (view (subsets r)) n v).
Proof.
  induction fuel as [|fuel IH]; intros r HL Hm; pose proof (next_row (subsets r) HL) as Hrow; cbn [add_implicit];
    destruct (list_find _ _) as [[k t]|];
    try (exists r; split_and!; [done..|intros n v Hn; by apply given]).
  - destruct Hrow as (Hin & Hi & _).
    pose proof (filter_shorter (fun t => view (subsets r) !! implicit_name t = None) (fun _ => False)
      riscv_implicit_subsets t ltac:(done) Hin Hi ltac:(tauto)). unfold missing in Hm. lia.
  - destruct Hrow as (Hin & Hi & v & Hs & Hcheck). pose proof implicit_names as Hall. rewrite Forall_forall in Hall.
    destruct (Hall t Hin) as [_ Hwn].
    destruct (add_implicit_view isa_spec r (implicit_name t) HL Hwn Hi) as (HL' & Hx & He & Hv).
    set (r1 := riscv_parse_add_subset _ _ _ _ _ _) in *.
    destruct (IH r1 HL') as (r' & E & HL2 & Hx2 & He2 & Hc & Hsub & Himp).
    { enough (missing (view (subsets r1)) < missing (view (subsets r)))%nat by lia.
      apply (filter_shorter _ _ _ t); [|done|done|].
      - intros t' H'. rewrite Hv in H'. by apply lookup_insert_None in H' as [? _].
      - rewrite Hv, lookup_insert. by rewrite decide_True. }
    assert (Hle : view (subsets r) ⊆ view (subsets r1)) by (rewrite Hv; by apply insert_subseteq).
    exists r'. split_and!; try done; try congruence; [by etransitivity|].
    intros n w Hn. apply (implied_mono isa_spec _ (view (subsets r1))); [done| |by apply Himp].
    intros q u. rewrite Hv. intros [[<- <-] | [Hne Hq]]%lookup_insert_Some; [|by apply given].
    eapply through; [done|by apply given|done..].
Qed.

(** [C39] Adding the implicit extensions terminates, within one restart per row of the
    table, and computes exactly the closure of the list: the result is a well-formed list
    in which no row applies any more, it keeps every entry it started from, and an
    extension is in it, in a given version, exactly when that entry is derived from the
    first list by the rows whose check passes ([implied]: the version check of the rows
    for i and the default version of an added extension included); [xlen] is kept and no
    error is reported. *)
Theorem implicit_closure isa_spec r :
  list_wf (subsets r) ->
  exists r', riscv_parse_add_implicit_subsets isa_spec r = Some r' /\
    list_wf (subsets r') /\ xlen r' = xlen r /\ errors r' = errors r /\
    closed (view (subsets r')) /\ view (subsets r) ⊆ view (subsets r') /\
    (forall n v, view (subsets r') !! n = Some v <-> implied isa_spec (view (subsets r)) n v).
Proof.
  intros HL. destruct (add_implicit_closes isa_spec (length riscv_implicit_subsets) r HL)
    as (r' & E & HL' & Hx & He & Hc & Hsub & Himp); [apply length_filter|].
  exists r'. split_and!; [done..|]. intros n v. split; [apply Himp|by apply closed_least].
Qed.
End Order.

(** * Instances *)

(** What the array's neighbours hold does not matter for well-formed names. *)
Definition zeros : ascii -> Z := fun _ => 0.

Definition add_all (l : list (string * (Z * Z))) : subset_list :=
  fold_left (fun L e => riscv_add_subset zeros L e.1 e.2.1 e.2.2) l empty_list.

Lemma empty_wf outside : list_wf outside empty_list.
Proof. by repeat constructor. Qed.

Lemma add_all_wf l : Forall (fun e => wf_name e.1 = true) l -> list_wf zeros (add_all l).
Proof.
  unfold add_all. generalize (empty_wf zeros). generalize empty_list.
  induction l as [|e l IH]; intros L HL Hl; [done|]. apply Forall_cons in Hl as [He Hl].
  cbn [fold_left]. apply IH; [|done]. by apply add_subset_map.
Qed.

Example subset_order_witness :
  before zeros "zba" "zbb" \/ "zba" = "zbb" \/ before zeros "zbb" "zba".
Proof. refine (proj1 (proj2 (subset_order zeros "zba" "zbb" "svinval" _ _ _))); reflexivity. Defined.

(** Adding "m" between "i" and "c" to a list built in any order. *)
Example subset_list_map_witness :
  let L := add_all [("zicsr", (2, 0)); ("c", (2, 0)); ("i", (2, 1))] in
  view (riscv_add_subset zeros L "m" 2 0) = <["m" := (2, 0)]> (view L) /\
  map sname (head (riscv_add_subset zeros L "m" 2 0)) = ["i"; "m"; "c"; "zicsr"].
Proof.
  split; [|reflexivity].
  refine (proj2 (proj1 (proj2 (subset_list_map zeros _ "m" 2 0 _ _)))); [|reflexivity].
  apply add_all_wf. by repeat constructor.
Defined.

Definition only_i (minor : Z) : riscv_parse_subset_t := Rps (add_all [("i", (2, minor))]) 32 [].

(** The closure of "i" in version 2.1, which has nothing to add, and in version 2.0, which
    gives zicsr and zifencei. *)
Example implicit_closure_witness :
  (exists r', riscv_parse_add_implicit_subsets zeros (Some ISA_SPEC_CLASS_20191213) (only_i 1) = Some r' /\
    view (subsets r') !! "zicsr" = None /\ ~ implied (Some ISA_SPEC_CLASS_20191213) (view (subsets (only_i 1))) "zicsr" (2, 0)) /\
  (exists r', riscv_parse_add_implicit_subsets zeros (Some ISA_SPEC_CLASS_20191213) (only_i 0) = Some r' /\
    implied (Some ISA_SPEC_CLASS_20191213) (view (subsets (only_i 0))) "zicsr" (2, 0)).
Proof.
  assert (Hwf : forall mn, list_wf zeros (subsets (only_i mn))) by (intros mn; apply add_all_wf; by repeat constructor).
  split.
  - destruct (implicit_closure zeros (Some ISA_SPEC_CLASS_20191213) (only_i 1) (Hwf 1)) as (r' & E & _ & _ & _ & _ & _ & H).
    exists r'. split; [exact E|]. vm_compute in E. injection E as <-. split; [reflexivity|].
    rewrite <- H. vm_compute. discriminate.
  - destruct (implicit_closure zeros (Some ISA_SPEC_CLASS_20191213) (only_i 0) (Hwf 0)) as (r' & E & _ & _ & _ & _ & _ & H).
    exists r'. split; [exact E|]. vm_compute in E. injection E as <-. apply H. vm_compute. reflexivity.
Defined.
End Subsets.
