(* ===== verification/MissingExt.v ===== *)
(** The diagnosis of a missing extension: [riscv_multi_subset_supports_ext] of
    [bfd/elfxx-riscv.c], with which the assembler explains why an instruction is refused.
    The theorem relates it to the test it explains, [riscv_multi_subset_supports]: every
    alternative the message names does enable the instruction class. *)

From Stdlib Require Import String Ascii.
From stdpp Require Import gmap.
From S2P Require Import Prelude Opcodes ExtTables Subsets.
#[local] Open Scope string_scope.
#[local] Open Scope Z_scope.

Module MissingExt.
Import Subsets.

Section Diagnosis.
Context (outside : ascii -> Z) (isa_spec : option riscv_spec_class).

(** [None] is the internal error of the default case. *)
Definition riscv_multi_subset_supports_ext (rps : riscv_parse_subset_t) (insn_class : riscv_insn_class)
    : option string :=
  let sup := riscv_subset_supports outside (subsets rps) in
  match insn_class with
  | INSN_CLASS_I => Some "i"
  | INSN_CLASS_ZICBOM => Some "zicbom"
  | INSN_CLASS_ZICBOP => Some "zicbop"
  | INSN_CLASS_ZICBOZ => Some "zicboz"
  | INSN_CLASS_ZICOND => Some "zicond"
  | INSN_CLASS_ZICSR => Some "zicsr"
  | INSN_CLASS_ZIFENCEI => Some "zifencei"
  | INSN_CLASS_ZIHINTPAUSE => Some "zihintpause"
  | INSN_CLASS_M => Some "m"
  | INSN_CLASS_ZMMUL => Some "m' or `zmmul"
  | INSN_CLASS_A => Some "a"
  | INSN_CLASS_ZAWRS => Some "zawrs"
  | INSN_CLASS_F => Some "f"
  | INSN_CLASS_D => Some "d"
  | INSN_CLASS_Q => Some "q"
  | INSN_CLASS_C => Some "c"
  | INSN_CLASS_F_AND_C => Some (
      if negb (sup "f") && negb (sup "c") then "f' and `c"
      else if negb (sup "f") then "f"
      else "c")
  | INSN_CLASS_D_AND_C => Some (
      if negb (sup "d") && negb (sup "c") then "d' and `c"
      else if negb (sup "d") then "d"
      else "c")
  | INSN_CLASS_F_INX => Some "f' or `zfinx"
  | INSN_CLASS_D_INX => Some "d' or `zdinx"
  | INSN_CLASS_Q_INX => Some "q' or `zqinx"
  | INSN_CLASS_ZFH_INX => Some "zfh' or `zhinx"
  | INSN_CLASS_ZFHMIN => Some "zfhmin"
  | INSN_CLASS_ZFHMIN_INX => Some "zfhmin' or `zhinxmin"
  | INSN_CLASS_ZFHMIN_AND_D_INX => Some (
      if sup "zfhmin" then "d"
      else if sup "d" then "zfhmin"
      else if sup "zhinxmin" then "zdinx"
      else if sup "zdinx" then "zhinxmin"
      else "zfhmin' and `d', or `zhinxmin' and `zdinx")
  | INSN_CLASS_ZFHMIN_AND_Q_INX => Some (
      if sup "zfhmin" then "q"
      else if sup "q" then "zfhmin"
      else if sup "zhinxmin" then "zqinx"
      else if sup "zqinx" then "zhinxmin"
      else "zfhmin' and `q', or `zhinxmin' and `zqinx")
  | INSN_CLASS_ZFA => Some "zfa"
  | INSN_CLASS_D_AND_ZFA => Some (
      if negb (sup "d") && negb (sup "zfa") then "d' and `zfa"
      else if negb (sup "d") then "d"
      else "zfa")
  | INSN_CLASS_Q_AND_ZFA => Some (
      if negb (sup "q") && negb (sup "zfa") then "q' and `zfa"
      else if negb (sup "q") then "q"
      else "zfa")
  | INSN_CLASS_ZFH_AND_ZFA => Some (
      if negb (sup "zfh") && negb (sup "zfa") then "zfh' and `zfa"
      else if negb (sup "zfh") then "zfh"
      else "zfa")
  | INSN_CLASS_ZBA => Some "zba"
  | INSN_CLASS_ZBB => Some "zbb"
  | INSN_CLASS_ZBC => Some "zbc"
  | INSN_CLASS_ZBS => Some "zbs"
  | INSN_CLASS_ZBKB => Some "zbkb"
  | INSN_CLASS_ZBKC => Some "zbkc"
  | INSN_CLASS_ZBKX => Some "zbkx"
  | INSN_CLASS_ZBB_OR_ZBKB => Some "zbb' or `zbkb"
  | INSN_CLASS_ZBC_OR_ZBKC => Some "zbc' or `zbkc"
  | INSN_CLASS_ZKND => Some "zknd"
  | INSN_CLASS_ZKNE => Some "zkne"
  | INSN_CLASS_ZKNH => Some "zknh"
  | INSN_CLASS_ZKND_OR_ZKNE => Some "zknd' or `zkne"
  | INSN_CLASS_ZKSED => Some "zksed"
  | INSN_CLASS_ZKSH => Some "zksh"
  | INSN_CLASS_V => Some "v' or `zve64x' or `zve32x"
  | INSN_CLASS_ZVEF => Some "v' or `zve64d' or `zve64f' or `zve32f"
  | INSN_CLASS_ZVBB => Some "zvbb"
  | INSN_CLASS_ZVBC => Some "zvbc"
  | INSN_CLASS_ZVKG => Some "zvkg"
  | INSN_CLASS_ZVKNED => Some "zvkned"
  | INSN_CLASS_ZVKNHA => Some "zvknha"
  | INSN_CLASS_ZVKNHB => Some "zvknhb"
  | INSN_CLASS_ZVKSED => Some "zvksed"
  | INSN_CLASS_ZVKSH => Some "zvksh"
  | INSN_CLASS_SVINVAL => Some "svinval"
  | INSN_CLASS_H => Some "h"
  | INSN_CLASS_XTHEADBA => Some "xtheadba"
  | INSN_CLASS_XTHEADBB => Some "xtheadbb"
  | INSN_CLASS_XTHEADBS => Some "xtheadbs"
  | INSN_CLASS_XTHEADCMO => Some "xtheadcmo"
  | INSN_CLASS_XTHEADCONDMOV => Some "xtheadcondmov"
  | INSN_CLASS_XTHEADFMEMIDX => Some "xtheadfmemidx"
  | INSN_CLASS_XTHEADFMV => Some "xtheadfmv"
  | INSN_CLASS_XTHEADINT => Some "xtheadint"
  | INSN_CLASS_XTHEADMAC => Some "xtheadmac"
  | INSN_CLASS_XTHEADMEMIDX => Some "xtheadmemidx"
  | INSN_CLASS_XTHEADMEMPAIR => Some "xtheadmempair"
  | INSN_CLASS_XTHEADSYNC => Some "xtheadsync"
  | _ => None                    (* internal: unreachable INSN_CLASS_* *)
  end.

(** * What a message names *)

(** The words of a message, quotes and commas dropped; [or] separates the alternatives,
    [and] the extensions of one. *)
Definition letter (c : ascii) : bool :=
  ((97 <=? code c) && (code c <=? 122)) || ((48 <=? code c) && (code c <=? 57)).
Fixpoint words (w s : string) : list string :=
  match s with
  | "" => [w]
  | String c s => if (c =? " ")%char then w :: words "" s
                  else words (if letter c then w ++ String c "" else w) s
  end.
Fixpoint group (names : list string) (ws : list string) : list (list string) :=
  match ws with
  | [] => [names]
  | w :: ws => if (w =? "or")%string then names :: group [] ws
               else group (if (w =? "and")%string then names else names ++ [w])%list ws
  end.
Definition alternatives (msg : string) : list (list string) := group [] (words "" msg).

(** The list after [.option arch] adds the extensions of one alternative. *)
Definition add_names (r : riscv_parse_subset_t) (names : list string) : riscv_parse_subset_t :=
  fold_left (fun r n => riscv_parse_add_subset outside isa_spec r n RISCV_UNKNOWN_VERSION RISCV_UNKNOWN_VERSION true) names r.
Definition with_names (r : riscv_parse_subset_t) (names : list string) : option riscv_parse_subset_t :=
  riscv_parse_add_implicit_subsets outside isa_spec (add_names r names).

Lemma add_names_view names : forall r,
  list_wf outside (subsets r) -> Forall (fun n => wf_name n = true) names ->
  list_wf outside (subsets (add_names r names)) /\
  (forall n, is_Some (view (subsets r) !! n) \/ n ∈ names -> is_Some (view (subsets (add_names r names)) !! n)).
Proof.
  induction names as [|m names IH]; intros r HL Hn.
  - split; [exact HL|]. intros n [H|H]; [exact H|]. by apply elem_of_nil in H.
  - apply Forall_cons in Hn as [Hm Hn]. cbn [add_names fold_left].
    set (r1 := riscv_parse_add_subset _ _ _ _ _ _ _).
    assert (H1 : list_wf outside (subsets r1) /\
      (forall n, is_Some (view (subsets r) !! n) \/ n = m -> is_Some (view (subsets r1) !! n))).
    { unfold r1, riscv_parse_add_subset. cbn [negb andb]. cbv zeta. cbn [setter subsets].
      match goal with |- context [riscv_add_subset _ _ _ (fst ?w) _] => set (v := w) end.
      change (subsets (Rps ?a _ _)) with a.
      destruct (add_subset_map outside (subsets r) m v.1 v.2 HL Hm) as [Hw Hv]. split; [exact Hw|].
      intros n H. rewrite Hv. destruct (view (subsets r) !! m) as [x|] eqn:E; [destruct H as [H| ->]; [done|by rewrite E]|].
      destruct (decide (m = n)) as [<- | Hne]; [rewrite lookup_insert_eq; by eexists|].
      rewrite lookup_insert_ne by done. destruct H as [H| ->]; [exact H|done]. }
    destruct H1 as [HL1 H1]. destruct (IH r1 HL1 Hn) as [HL2 H2]. split; [exact HL2|].
    intros n H. apply H2. rewrite elem_of_cons in H. destruct H as [H|[->|H]]; [left; apply H1; by left|left; apply H1; by right|by right].
Qed.

(** The list the additions end in: nothing is lost, the names are there, and a row of the
    implicit table has been applied. *)
Lemma with_names_supports r names :
  list_wf outside (subsets r) -> Forall (fun n => wf_name n = true) names ->
  exists r', with_names r names = Some r' /\ list_wf outside (subsets r') /\
    (forall n, wf_name n = true -> riscv_subset_supports outside (subsets r) n = true \/ n ∈ names ->
       riscv_subset_supports outside (subsets r') n = true) /\
    (riscv_subset_supports outside (subsets r') "m" = true -> riscv_subset_supports outside (subsets r') "zmmul" = true).
Proof.
  intros HL Hn. destruct (add_names_view names r HL Hn) as [HL1 H1].
  destruct (add_implicit_closes outside isa_spec (length riscv_implicit_subsets) _ HL1) as (r' & E & HL2 & _ & _ & Hc & Hsub & _).
  { unfold missing. apply length_filter. }
  exists r'. split; [exact E|]. split; [done|].
  assert (Hsup : forall n, wf_name n = true -> riscv_subset_supports outside (subsets r') n = true <-> is_Some (view (subsets r') !! n)).
  { intros n Hw. rewrite supports_view by done. apply bool_decide_eq_true. }
  split.
  - intros n Hw H. apply Hsup; [done|]. assert (Hx : is_Some (view (subsets (add_names r names)) !! n)).
    { apply H1. destruct H as [H|H]; [left|by right]. rewrite supports_view in H by done. by apply bool_decide_eq_true in H. }
    destruct Hx as [v Hx]. exists v. by eapply lookup_weaken.
  - rewrite !Hsup by done. intros [v Hv]. destruct (view (subsets r') !! "zmmul") as [w|] eqn:Ez; [by exists w|].
    assert (Hin : Implicit "m" "zmmul" check_implicit_always ∈ riscv_implicit_subsets)
      by (repeat first [apply list_elem_of_here | apply list_elem_of_further]).
    specialize (Hc _ Hin). unfold applies_to in Hc. cbn [subset_name implicit_name] in Hc. rewrite Hv, Ez in Hc. done.
Qed.

(** Every extension a message names is well-formed. *)
Lemma messages_wf rps c msg : riscv_multi_subset_supports_ext rps c = Some msg ->
  Forall (Forall (fun n => wf_name n = true)) (alternatives msg).
Proof.
  unfold riscv_multi_subset_supports_ext. cbv zeta. generalize (riscv_subset_supports outside (subsets rps)) as sup.
  intros sup H. assert (Hc : forallb (forallb wf_name) (alternatives msg) = true).
  { destruct c; cbv beta iota in H; try discriminate H;
      repeat match type of H with context [sup ?n] => destruct (sup n) end; cbn [negb andb] in H;
      injection H as <-; vm_compute; reflexivity. }
  apply Forall_forall. intros alt Ha. apply Forall_forall. intros n Hn.
  rewrite forallb_forall in Hc. specialize (Hc alt (proj1 (list_elem_of_In _ _) Ha)).
  rewrite forallb_forall in Hc. by apply Hc, list_elem_of_In.
Qed.

(** The diagnosis over any two support functions. *)
Lemma alternative_supports (sup sup' : string -> bool) rps rps' c msg alt :
  (forall n, riscv_subset_supports outside (subsets rps) n = sup n) ->
  (forall n, riscv_subset_supports outside rps' n = sup' n) ->
  riscv_multi_subset_supports outside (subsets rps) c = false ->
  riscv_multi_subset_supports_ext rps c = Some msg -> alt ∈ alternatives msg ->
  (forall n, wf_name n = true -> sup n = true \/ n ∈ alt -> sup' n = true) ->
  (sup' "m" = true -> sup' "zmmul" = true) ->
  riscv_multi_subset_supports outside rps' c = true.
Proof.
  intros E E' Hno Hmsg Halt Hsup Hm.
  unfold riscv_multi_subset_supports, riscv_multi_subset_supports_ext in *. cbv zeta in *.
  assert (Hin : forall n, existsb (String.eqb n) alt = true -> wf_name n = true -> sup' n = true).
  { intros n H Hw. apply Hsup; [done|]. right. apply existsb_exists in H as (m & Hi & ->%String.eqb_eq). by apply list_elem_of_In. }
  assert (Hkeep : forall n, wf_name n = true -> sup n = true -> sup' n = true) by (intros; apply Hsup; [done|by left]).
  apply list_elem_of_In in Halt.
  destruct c; cbv beta iota in *; try discriminate Hmsg; rewrite ?E, ?E' in *;
    repeat match type of Hmsg with context [sup ?n] => destruct (sup n) eqn:? end; cbn [negb andb orb] in *;
    try discriminate Hno; injection Hmsg as <-; vm_compute in Halt;
    repeat match type of Halt with _ \/ _ => destruct Halt as [Halt|Halt] | False => destruct Halt end;
    subst alt;
    try (apply Hm, Hin; reflexivity);
    repeat match goal with |- context [sup' ?n] =>
      first [rewrite (Hin n eq_refl eq_refl) | rewrite (Hkeep n eq_refl) by assumption | destruct (sup' n)] end;
    reflexivity.
Qed.

(** The assembler's diagnosis is right: when an instruction class is not supported by a
    well-formed list, the message names at least one alternative, and adding the
    extensions of any one of its alternatives, as [.option arch] does, with what they
    imply, makes the class supported; the classes without a message (the internal error of
    the default case) are only the empty class, ZVKNHA_OR_ZVKNHB and XVENTANACONDOPS. *)
Theorem missing_extension_fixes r c :
  list_wf outside (subsets r) -> riscv_multi_subset_supports outside (subsets r) c = false ->
  match riscv_multi_subset_supports_ext r c with
  | Some msg => alternatives msg <> [] /\
      forall alt, alt ∈ alternatives msg ->
      exists r', with_names r alt = Some r' /\ list_wf outside (subsets r') /\
        riscv_multi_subset_supports outside (subsets r') c = true
  | None => c = INSN_CLASS_NONE \/ c = INSN_CLASS_ZVKNHA_OR_ZVKNHB \/ c = INSN_CLASS_XVENTANACONDOPS
  end.
Proof.
  intros HL Hno. destruct (riscv_multi_subset_supports_ext r c) as [msg|] eqn:Hmsg.
  - split.
    + unfold alternatives. generalize ([] : list string). induction (words "" msg) as [|w ws IH]; intros names; [done|].
      cbn [group]. destruct (_ =? _)%string; [done|apply IH].
    + intros alt Halt. pose proof (messages_wf r c msg Hmsg) as Hwf. rewrite Forall_forall in Hwf.
      destruct (with_names_supports r alt HL (Hwf alt Halt)) as (r' & E & HL' & Hs & Hm).
      exists r'. split; [exact E|]. split; [exact HL'|].
      by apply (alternative_supports (riscv_subset_supports outside (subsets r)) (riscv_subset_supports outside (subsets r')) r (subsets r') c msg alt).
  - unfold riscv_multi_subset_supports_ext in Hmsg. destruct c; try discriminate Hmsg; tauto.
Qed.
End Diagnosis.

(** [vadd.vv] on "rv32im": three ways out, and the whole "v" tree is what the first adds. *)
Example missing_extension_fixes_witness :
  let r := Rps (add_all [("i", (2, 1)); ("m", (2, 0)); ("zmmul", (1, 0))]) 32 [] in
  match riscv_multi_subset_supports_ext zeros r INSN_CLASS_V with
  | Some msg => alternatives msg = [["v"]; ["zve64x"]; ["zve32x"]] /\
      forall alt, alt ∈ alternatives msg ->
      exists r', with_names zeros (Some ISA_SPEC_CLASS_20191213) r alt = Some r' /\ list_wf zeros (subsets r') /\
        riscv_multi_subset_supports zeros (subsets r') INSN_CLASS_V = true
  | None => False
  end.
Proof.
  split; [reflexivity|].
  refine (proj2 (missing_extension_fixes zeros (Some ISA_SPEC_CLASS_20191213)
    (Rps (add_all [("i", (2, 1)); ("m", (2, 0)); ("zmmul", (1, 0))]) 32 []) INSN_CLASS_V _ _)).
  - apply add_all_wf. by repeat constructor.
  - reflexivity.
Defined.
End MissingExt.
