(* ===== verification/ArchString.v ===== *)
(** Architecture strings of [bfd/elfxx-riscv.c]: parsing ([riscv_parse_subset] with its
    version scanner, the [.option arch] updates, the default architecture) and printing
    ([riscv_arch_str] with its size estimate and buffer). The theorems: parsing
    terminates, on strings that keep to the letter table with a well-formed list, the
    print buffer is large enough, and parsing what was printed gives the list back. *)

From Stdlib Require Import String Ascii Sorted.
From stdpp Require Import gmap sorting.
From S2P Require Import Prelude Opcodes ExtTables Subsets.
#[local] Open Scope string_scope.
#[local] Open Scope Z_scope.

Module ArchString.
Import Subsets.

(** * Characters *)

Definition isdigit (c : ascii) : bool := (48 <=? code c) && (code c <=? 57).
Definition isupper (c : ascii) : bool := (65 <=? code c) && (code c <=? 90).

(** [s[n]], the terminator at the end; the string at [s + n]. *)
Definition at_ (s : string) (n : nat) : ascii := default "000"%char (String.get n s).
Fixpoint skip (n : nat) (s : string) : string := match n with O => s | S n => skip n (rest s) end.
(** The text before [s + n]. *)
Definition upto_ (n : nat) (s : string) : string := String.substring 0 n s.

(** * Versions *)

(** The loop of [riscv_parsing_subset_version]: what is left, whether the major number
    is still being read, the major number, and the number being read, an [int]: it wraps
    around here, where C leaves a number of more than 31 bits undefined. *)
Fixpoint version_loop (p : string) (major_p : bool) (major version : Z) : string * (bool * Z * Z) :=
  match p with
  | "" => (p, (major_p, major, version))
  | String c p' =>
      if (c =? "p")%char then
        if isdigit (first p') then version_loop p' false version 0 else (p, (major_p, major, version))
      else if isdigit c then version_loop p' major_p major (sgn 32 (version * 10 + (code c - 48)))
      else (p, (major_p, major, version))
  end.

Definition riscv_parsing_subset_version (p : string) : string * (Z * Z) :=
  let '(p, (major_p, major, version)) := version_loop p true 0 0 in
  let v := if (major_p : bool) then (version, 0) else (major, version) in
  (p, if (v.1 =? 0) && (v.2 =? 0) then (RISCV_UNKNOWN_VERSION, RISCV_UNKNOWN_VERSION) else v).

(** * Names *)

(** Offset of the first [stop] or of the terminator. *)
Fixpoint find_char (stop : ascii) (s : string) : nat :=
  match s with
  | "" => O
  | String c s => if (c =? stop)%char then O else S (find_char stop s)
  end.

(** Look back from offset [q] over [<major>p<minor>]; the offset after the name. *)
Fixpoint look_back (s : string) (q : nat) (any_version minor_version : bool) : nat :=
  match q with
  | O => O
  | S q' =>
      let c := at_ s q' in
      if isdigit c then look_back s q' true minor_version
      else if any_version && negb minor_version && (c =? "p")%char && isdigit (at_ s (q' - 1))
      then look_back s q' any_version true
      else q
  end.

(** Ends with <number>p. *)
Definition number_p (s : string) (q : nat) : bool :=
  (at_ s (q - 1) =? "p")%char && isdigit (at_ s (q - 2)).

Definition riscv_known_prefixed_ext (ext : string) (known : list riscv_supported_ext) : bool :=
  existsb (fun e => (ext =? ext_name e)%string) known.

Definition riscv_recognized_prefixed_ext (ext : string) : bool :=
  match riscv_get_prefix_class ext with
  | RV_ISA_CLASS_Z => riscv_known_prefixed_ext ext riscv_supported_std_z_ext
  | RV_ISA_CLASS_ZXM => riscv_known_prefixed_ext ext riscv_supported_std_zxm_ext
  | RV_ISA_CLASS_S => riscv_known_prefixed_ext ext riscv_supported_std_s_ext
  | RV_ISA_CLASS_X => negb (ext =? "x")%string
  | RV_ISA_CLASS_SINGLE => false
  end.

Section Parser.
Context (outside : ascii -> Z) (isa_spec : option riscv_spec_class) (check_unknown_prefixed_ext : bool).
Abbreviation rps := riscv_parse_subset_t.
Abbreviation parse_add_subset := (riscv_parse_add_subset outside isa_spec).

(** * Parsing *)

(** One extension at [p]: an error ends the parse ([inl]), otherwise what is left. *)
Definition one_extension (r : rps) (p : string) : rps + rps * string :=
  let cls := riscv_get_prefix_class p in
  let single := bool_decide (cls = RV_ISA_CLASS_SINGLE) in
  if single && (riscv_ext_order outside (first p) =? 0) then inl (report r (unknown_single (first p)))
  else
    let q := if single then 1%nat else look_back p (S (find_char "_" (rest p))) false false in
    if negb single && number_p p q then inl (report r (ends_with_number_p (upto_ q p)))
    else
      let '(left_, v) := riscv_parsing_subset_version (skip q p) in
      let subset := upto_ q p in
      if negb single && check_unknown_prefixed_ext && negb (riscv_recognized_prefixed_ext subset)
      then inl (report r (unknown_prefixed subset))
      else
        let g := single && (subset =? "g")%string in
        let v := if g then (RISCV_UNKNOWN_VERSION, RISCV_UNKNOWN_VERSION) else v in
        let r := parse_add_subset r subset v.1 v.2 g in
        if negb single && negb (left_ =? "")%string && negb (first left_ =? "_")%char
        then inl (report r missing_separator)
        else inr (r, left_).

(** The loop: whether the string was accepted, and the state. *)
Fixpoint extensions (fuel : nat) (r : rps) (p : string) : option (bool * rps) :=
  match p with
  | "" => Some (true, r)
  | String c p' =>
      match fuel with
      | O => None
      | S fuel =>
          if (c =? "_")%char then extensions fuel r p'
          else match one_extension r p with
               | inl r => Some (false, r)
               | inr (r, p) => extensions fuel r p
               end
      end
  end.

Definition riscv_parse_extensions (r : rps) (p : string) : option (bool * rps) :=
  if negb ((first p =? "e")%char || (first p =? "i")%char || (first p =? "g")%char)
  then Some (false, report r bad_first_letter)
  else extensions (String.length p) r p.

Definition finish (r : rps) : option (bool * rps) :=
  let* r := riscv_parse_add_implicit_subsets outside isa_spec r in
  Some (riscv_parse_check_conflicts outside r).

Definition riscv_set_default_arch (r : rps) : rps :=
  fold_left (fun r e =>
    if negb (Z.land (default_enable e) EXT_DEFAULT =? 0) then
      parse_add_subset r (ext_name e) RISCV_UNKNOWN_VERSION RISCV_UNKNOWN_VERSION (ext_name e =? "g")%string
    else r) (mjoin riscv_all_supported_ext) r.

(** [None] for [arch]: the default architecture. *)
Definition riscv_parse_subset (r : rps) (arch : option string) : option (bool * rps) :=
  match arch with
  | None => finish (riscv_set_default_arch r)
  | Some arch =>
      if existsb isupper (chars arch) then Some (false, report r uppercase)
      else
        let exts (x : Z) :=
          let* (ok, r) := riscv_parse_extensions (r <| xlen := x |>) (skip 4 arch) in
          if (ok : bool) then finish r else Some (false, r) in
        if String.prefix "rv32" arch then exts 32
        else if String.prefix "rv64" arch then exts 64
        else Some (false, if (arch =? "")%string then r else report r bad_prefix)
  end.

(** * [.option arch] *)

(** One item after its sign: the extension, its version and what is left. *)
Definition update_item (r : rps) (p : string) : rps + string * (Z * Z) * string :=
  let len := find_char "," p in
  let q := match look_back p len false false with O => if (len =? 0)%nat then O else 1%nat | q => q end in
  if (1 <? len)%nat && number_p p q then inl (report r (ends_with_number_p (upto_ q p)))
  else
    let '(left_, v) := riscv_parsing_subset_version (skip q p) in
    let subset := upto_ q p in
    if (String.length subset =? 0)%nat
       || ((String.length subset =? 1)%nat && (riscv_ext_order outside (first subset) =? 0))
       || ((1 <? String.length subset)%nat && check_unknown_prefixed_ext
           && negb (riscv_recognized_prefixed_ext subset))
    then inl (report r (unknown_option subset))
    else if (subset =? "i")%string || (subset =? "e")%string || (subset =? "g")%string
    then inl (report r (base_option subset))
    else inr (subset, v, left_).

Fixpoint update_loop (fuel : nat) (r : rps) (p : string) : option (bool * rps) :=
  match fuel with
  | O => None
  | S fuel =>
      if negb ((first p =? "+")%char || (first p =? "-")%char)
      then riscv_parse_subset (r <| subsets := riscv_release_subset_list (subsets r) |>) (Some p)
      else
        match update_item r (rest p) with
        | inl r => Some (false, r)
        | inr (subset, v, left_) =>
            let r :=
              if (first p =? "-")%char then r <| subsets := riscv_remove_subset (subsets r) subset |>
              else parse_add_subset r subset v.1 v.2 true in
            if (first left_ =? ",")%char then update_loop fuel r (rest left_) else finish r
        end
  end.
Definition riscv_update_subset (r : rps) (str : string) : option (bool * rps) :=
  update_loop (S (String.length str)) r str.
End Parser.

(** * Printing *)

(** [%u] and [%d]: decimal digits. *)
Definition digit (d : Z) : ascii := ascii_of_nat (Z.to_nat (48 + d)).
Fixpoint digits (fuel : nat) (n : Z) (tail : string) : string :=
  match fuel with
  | O => tail
  | S fuel =>
      let tail := String (digit (n mod 10)) tail in
      if n / 10 =? 0 then tail else digits fuel (n / 10) tail
  end.
(** 32-bit numbers have at most ten digits. *)
Definition decimal (n : Z) : string := digits 10 n "".
Definition signed_decimal (n : Z) : string := if n <? 0 then "-" ++ decimal (- n) else decimal n.

(** [riscv_estimate_digit], of an [unsigned]. *)
Fixpoint count_digits (fuel : nat) (num : Z) : nat :=
  match fuel with
  | O => O
  | S fuel => if num =? 0 then O else S (count_digits fuel (num / 10))
  end.
Definition riscv_estimate_digit (num : Z) : nat := if num =? 0 then 1%nat else count_digits 10 num.

Fixpoint riscv_estimate_arch_strlen1 (l : list riscv_subset_t) : nat :=
  match l with
  | [] => 6
  | s :: l =>
      riscv_estimate_arch_strlen1 l + String.length (sname s)
      + riscv_estimate_digit (wrap 32 (major_version s)) + 1
      + riscv_estimate_digit (wrap 32 (minor_version s)) + 1
  end.

(** [strncat] of [snprintf]'s text, cut to the size [n] of both buffers; [None] is a write
    past the end of the destination. *)
Definition append (n : nat) (attr_str text : string) : option string :=
  let text := upto_ (n - 1) text in
  if (String.length attr_str + String.length text <? n)%nat then Some (attr_str ++ text) else None.

Definition subset_text (s : riscv_subset_t) : string :=
  (if (sname s =? "i")%string || (sname s =? "e")%string || (sname s =? "I")%string || (sname s =? "E")%string
   then "" else "_")
  ++ sname s ++ signed_decimal (major_version s) ++ "p" ++ signed_decimal (minor_version s).

(** Skipped after [s]: i after e, and unknown versions. *)
Definition skipped (s next : riscv_subset_t) : bool :=
  ((sname s =? "e")%string && (sname next =? "i")%string)
  || (major_version next =? RISCV_UNKNOWN_VERSION) || (minor_version next =? RISCV_UNKNOWN_VERSION).

Fixpoint after (n : nat) (s : riscv_subset_t) (l : list riscv_subset_t) (attr_str : string) : option string :=
  match l with
  | [] => Some attr_str
  | next :: l =>
      if skipped s next then after n next l attr_str
      else let* attr_str := append n attr_str (subset_text next) in after n next l attr_str
  end.

Definition riscv_arch_str1 (n : nat) (l : list riscv_subset_t) (attr_str : string) : option string :=
  match l with
  | [] => Some attr_str
  | s :: l => let* attr_str := append n attr_str (subset_text s) in after n s l attr_str
  end.

Definition riscv_arch_str (xlen : Z) (L : subset_list) : option string :=
  let arch_str_len := riscv_estimate_arch_strlen1 (head L) in
  let* attr_str := append arch_str_len "" ("rv" ++ decimal xlen) in
  riscv_arch_str1 arch_str_len (head L) attr_str.

(** * Strings and numbers *)

Lemma append_cons x (a b : string) : String x a ++ b = String x (a ++ b).
Proof. done. Qed.
Lemma append_assoc (a b c : string) : (a ++ b) ++ c = a ++ (b ++ c).
Proof. induction a as [|x a IH]; [done|]. by rewrite !append_cons, IH. Qed.
Lemma append_nil_r (a : string) : a ++ "" = a.
Proof. induction a as [|x a IH]; [done|]. by rewrite !append_cons, IH. Qed.
Lemma length_append (a b : string) : String.length (a ++ b) = (String.length a + String.length b)%nat.
Proof. induction a as [|x a IH]; [done|]. rewrite append_cons. cbn [String.length]. by rewrite IH. Qed.
Lemma chars_append (a b : string) : chars (a ++ b) = (chars a ++ chars b)%list.
Proof. unfold chars. induction a as [|x a IH]; [done|]. rewrite append_cons. cbn [list_ascii_of_string]. by rewrite IH. Qed.
Lemma upto_append (a b : string) : upto_ (String.length a) (a ++ b) = a.
Proof. unfold upto_. induction a as [|x a IH]; [by destruct b|]. rewrite append_cons. cbn [String.length String.substring]. by rewrite IH. Qed.
Lemma upto_all n s : (String.length s <= n)%nat -> upto_ n s = s.
Proof.
  unfold upto_. revert n. induction s as [|x s IH]; intros [|n] H; cbn in H; try done; try lia.
  cbn [String.substring]. rewrite IH by lia. done.
Qed.
Lemma skip_append (a b : string) : skip (String.length a) (a ++ b) = b.
Proof. induction a as [|x a IH]; [done|]. exact IH. Qed.

Lemma digit_code d : 0 <= d < 10 -> code (digit d) = 48 + d.
Proof. intros H. unfold code, digit. rewrite nat_ascii_embedding; lia. Qed.
Lemma digit_isdigit d : 0 <= d < 10 -> isdigit (digit d) = true.
Proof. intros H. unfold isdigit. rewrite digit_code by done. lia. Qed.
Lemma isdigit_not c d : isdigit c = true -> isdigit d = false -> (c =? d)%char = false.
Proof. intros Hc Hd. destruct (Ascii.eqb_spec c d) as [E|]; [|done]. rewrite E in Hc. congruence. Qed.

(** The digits of a number: at least one, all digits, as many as estimated. *)
Lemma digits_shape fuel : forall n tail, 0 <= n ->
  exists u, digits fuel n tail = u ++ tail /\ forallb isdigit (chars u) = true /\ ((0 < fuel)%nat -> u <> "").
Proof.
  induction fuel as [|fuel IH]; intros n tail Hn; [exists ""; split_and!; [done..|lia]|].
  cbn [digits]. cbv zeta. pose proof (Z.mod_pos_bound n 10 ltac:(lia)).
  destruct (_ =? 0).
  - exists (String (digit (n mod 10)) ""). split_and!; try done. cbn. by rewrite digit_isdigit.
  - destruct (IH (n / 10) (String (digit (n mod 10)) tail)) as (u & -> & Hu & _); [by apply Z.div_pos|].
    exists (u ++ String (digit (n mod 10)) ""). split_and!.
    + by rewrite append_assoc.
    + rewrite chars_append, forallb_app, Hu. cbn. by rewrite digit_isdigit.
    + intros _ E. apply (f_equal String.length) in E. rewrite length_append in E. cbn in E. lia.
Qed.

Lemma digits_length fuel : forall n tail, 0 < n ->
  String.length (digits fuel n tail) = (count_digits fuel n + String.length tail)%nat.
Proof.
  induction fuel as [|fuel IH]; intros n tail Hn; [done|]. cbn [digits count_digits]. cbv zeta.
  rewrite (proj2 (Z.eqb_neq n 0)) by lia. destruct (Z.eqb_spec (n / 10) 0) as [E|].
  - rewrite E. by destruct fuel.
  - pose proof (Z.div_pos n 10). rewrite IH by lia. cbn [String.length]. lia.
Qed.

Lemma decimal_length n : 0 <= n -> String.length (decimal n) = riscv_estimate_digit n.
Proof.
  intros H. unfold decimal, riscv_estimate_digit. destruct (Z.eqb_spec n 0) as [-> |]; [done|].
  rewrite digits_length by lia. cbn [String.length]. lia.
Qed.
Lemma decimal_digits n : 0 <= n -> forallb isdigit (chars (decimal n)) = true /\ decimal n <> "".
Proof.
  intros H. unfold decimal. destruct (digits_shape 10 n "" H) as (u & -> & Hu & Hne).
  rewrite append_nil_r. split; [done|]. apply Hne. lia.
Qed.

(** Reading back what was printed. *)
Lemma version_loop_digits fuel major_p major : forall n tail, 0 <= n < 2 ^ 31 -> n < 10 ^ Z.of_nat fuel -> (0 < fuel)%nat ->
  version_loop (digits fuel n tail) major_p major 0 = version_loop tail major_p major n.
Proof.
  induction fuel as [|fuel IH]; intros n tail Hr Hn Hf; [lia|]. cbn [digits]. cbv zeta.
  pose proof (Z.mod_pos_bound n 10 ltac:(lia)) as Hm. pose proof (Z.div_mod n 10 ltac:(lia)) as Hd.
  assert (Hone : forall v, v * 10 + n mod 10 = n ->
    version_loop (String (digit (n mod 10)) tail) major_p major v = version_loop tail major_p major n).
  { intros v Ev. cbn [version_loop]. rewrite (isdigit_not _ "p"), digit_isdigit, digit_code by (done || by apply digit_isdigit).
    f_equal. replace (v * 10 + (48 + n mod 10 - 48)) with n by lia. apply sgn_small; [lia|]. unfold srange. lia. }
  destruct (Z.eqb_spec (n / 10) 0) as [E|E].
  - apply Hone. lia.
  - rewrite IH, Hone; [done|lia| | |].
    + split; [apply Z.div_pos; lia|]. apply Z.div_lt_upper_bound; lia.
    + rewrite Nat2Z.inj_succ, Z.pow_succ_r in Hn by lia. apply Z.div_lt_upper_bound; lia.
    + destruct fuel; [|lia]. rewrite Nat2Z.inj_succ, Z.pow_succ_r in Hn by lia. cbn in Hn.
      rewrite Z.div_small in E by lia. done.
Qed.
Lemma version_loop_decimal n tail major_p major : 0 <= n < 2 ^ 31 ->
  version_loop (decimal n ++ tail) major_p major 0 = version_loop tail major_p major n.
Proof.
  intros H. unfold decimal. destruct (digits_shape 10 n tail ltac:(lia)) as (u & E & _ & _).
  assert (E' : digits 10 n "" ++ tail = digits 10 n tail).
  { clear. generalize 10%nat as fuel. intros fuel.
    enough (H : forall n a b, digits fuel n (a ++ b) = digits fuel n a ++ b) by (symmetry; apply (H n "" tail)).
    clear. induction fuel as [|fuel IH]; intros n a b; [done|]. cbn [digits]. cbv zeta.
    destruct (_ =? 0); [done|]. by rewrite <- IH. }
  rewrite E', version_loop_digits; [done|done| |lia]. cbn. lia.
Qed.

(** * The print buffer *)

(** Versions the parser makes: numbers of an [int], or unknown. *)
Definition version_ok (v : Z) : Prop := -1 <= v < 2 ^ 31.
Definition node_versions_ok (s : riscv_subset_t) : Prop :=
  version_ok (major_version s) /\ version_ok (minor_version s).

#[export] Instance versions_ok_dec s : Decision (node_versions_ok s).
Proof. unfold node_versions_ok, version_ok. apply _. Defined.

Lemma signed_length v : version_ok v -> (String.length (signed_decimal v) <= riscv_estimate_digit (wrap 32 v))%nat.
Proof.
  unfold version_ok, signed_decimal. intros H. destruct (Z.ltb_spec v 0).
  - replace v with (-1) by lia. vm_compute. lia.
  - rewrite decimal_length by done. unfold wrap. by rewrite Z.mod_small by lia.
Qed.
Definition room (s : riscv_subset_t) : nat :=
  String.length (sname s) + riscv_estimate_digit (wrap 32 (major_version s)) + 1
  + riscv_estimate_digit (wrap 32 (minor_version s)) + 1.
Lemma subset_text_room s : node_versions_ok s -> (String.length (subset_text s) <= room s)%nat.
Proof.
  intros [H1%signed_length H2%signed_length]. unfold subset_text, room.
  rewrite !length_append. destruct (_ || _); cbn [String.length]; lia.
Qed.
Lemma estimate_room l : riscv_estimate_arch_strlen1 l = (6 + list_sum (map room l))%nat.
Proof. induction l as [|s l IH]; [done|]. cbn [riscv_estimate_arch_strlen1 map list_sum foldr]. change (foldr Nat.add 0%nat) with list_sum. rewrite IH. unfold room. lia. Qed.

(** The subsets that are printed after [s], and from the head. *)
Fixpoint printed_after (s : riscv_subset_t) (l : list riscv_subset_t) : list riscv_subset_t :=
  match l with
  | [] => []
  | next :: l => if skipped s next then printed_after next l else next :: printed_after next l
  end.
Definition printed (l : list riscv_subset_t) : list riscv_subset_t :=
  match l with [] => [] | s :: l => s :: printed_after s l end.
Definition texts (l : list riscv_subset_t) : string := String.concat "" (map subset_text l).
Lemma texts_cons s l : texts (s :: l) = subset_text s ++ texts l.
Proof. unfold texts. destruct l; cbn [map String.concat]; [by rewrite append_nil_r|done]. Qed.

Lemma append_fits n a t : (String.length a + String.length t < n)%nat -> append n a t = Some (a ++ t).
Proof. intros H. unfold append. rewrite upto_all by lia. by rewrite (proj2 (Nat.ltb_lt _ _)). Qed.

Lemma after_fits n l : forall s a, Forall node_versions_ok l ->
  (String.length a + list_sum (map room l) < n)%nat ->
  after n s l a = Some (a ++ texts (printed_after s l)) /\
  (String.length (a ++ texts (printed_after s l)) < n)%nat.
Proof.
  induction l as [|next l IH]; intros s a Hv Hn; cbn [after printed_after].
  - unfold texts. cbn [map String.concat] in *. rewrite append_nil_r. split; [done|lia].
  - apply Forall_cons in Hv as [Hv Hl]. cbn [map list_sum foldr] in Hn. change (foldr Nat.add 0%nat) with list_sum in Hn.
    pose proof (subset_text_room next Hv). destruct (skipped s next); [apply IH; [done|lia]|].
    rewrite append_fits by lia. cbn [mbind option_bind]. rewrite texts_cons, <- append_assoc.
    apply IH; [done|]. rewrite length_append. lia.
Qed.

Lemma arch_str_text xlen L :
  0 <= xlen < 1000 -> Forall node_versions_ok (head L) ->
  riscv_arch_str xlen L = Some ("rv" ++ decimal xlen ++ texts (printed (head L))) /\
  (String.length ("rv" ++ decimal xlen ++ texts (printed (head L))) < riscv_estimate_arch_strlen1 (head L))%nat.
Proof.
  intros Hx Hv. unfold riscv_arch_str. cbv zeta. rewrite estimate_room.
  assert (Hlen : (String.length ("rv" ++ decimal xlen) <= 5)%nat).
  { rewrite length_append, decimal_length by lia. cbn [String.length].
    enough (riscv_estimate_digit xlen <= 3)%nat by lia. unfold riscv_estimate_digit.
    destruct (Z.eqb_spec xlen 0); [lia|]. cbn [count_digits].
    assert (Hz : xlen / 10 / 10 / 10 = 0) by (rewrite !Z.div_div by lia; apply Z.div_small; lia).
    rewrite Hz. cbn. repeat destruct (_ =? 0); lia. }
  rewrite append_fits by (cbn [String.length]; lia). cbn [mbind option_bind].
  change ("" ++ ("rv" ++ decimal xlen)) with ("rv" ++ decimal xlen).
  rewrite <- (append_assoc "rv"). set (start := "rv" ++ decimal xlen) in *.
  destruct (head L) as [|s l]; cbn [riscv_arch_str1 printed].
  - unfold texts. cbn [map String.concat]. rewrite append_nil_r. cbn [list_sum foldr]. split; [done|lia].
  - apply Forall_cons in Hv as [Hs Hl]. cbn [map list_sum foldr]. change (foldr Nat.add 0%nat) with list_sum.
    pose proof (subset_text_room s Hs).
    rewrite append_fits by lia. cbn [mbind option_bind]. rewrite texts_cons, <- append_assoc.
    apply after_fits; [done|]. rewrite length_append. lia.
Qed.

(** [C40] Printing never overruns its buffers: with a one- to three-digit [xlen] and versions
    that are numbers of an [int] or unknown, every [strncat] of [riscv_arch_str] stays
    inside the estimated size, terminator included, no [snprintf] is cut, and the result
    is "rv", [xlen] and the texts of the subsets in order, the skipped ones left out. *)
Theorem arch_str_fits xlen L :
  0 <= xlen < 1000 -> Forall node_versions_ok (head L) ->
  riscv_arch_str xlen L = Some ("rv" ++ decimal xlen ++ texts (printed (head L))) /\
  (String.length ("rv" ++ decimal xlen ++ texts (printed (head L))) < riscv_estimate_arch_strlen1 (head L))%nat.
Proof. apply arch_str_text. Qed.

(** * Round trip *)

Section RoundTrip.
Context (outside : ascii -> Z) (isa_spec : option riscv_spec_class) (check : bool).
Abbreviation add_subset := (riscv_add_subset outside).

(** Adding a name that is after all the others appends it: the tail shortcut. *)
Lemma add_last L n mj mn :
  list_wf outside L -> wf_name n = true -> (forall s, s ∈ head L -> before outside (sname s) n) ->
  add_subset L n mj mn = SubsetList (head L ++ [Subset n mj mn])%list (Some (length (head L))).
Proof.
  intros HL Hn Hb. unfold riscv_add_subset.
  pose proof (before_irrefl outside n Hn) as Hirr.
  destruct (lookup_located outside L n HL Hn) as [k s Hk E | k Hk Hb' Ha].
  - destruct Hirr. rewrite <- E at 1. apply Hb. by eapply list_elem_of_lookup_2.
  - assert (Ed : drop k (head L) = []).
    { destruct (drop k (head L)) as [|s l] eqn:Ed; [done|]. destruct Hirr.
      assert (s ∈ head L) as Hin.
      { rewrite <- (take_drop k (head L)), Ed. apply elem_of_app. right. by apply elem_of_cons; left. }
      assert (wf_name (sname s) = true) as Hs.
      { destruct HL as [Hw _ _]. rewrite Forall_forall in Hw. by apply Hw. }
      apply (before_trans outside n (sname s) n); try done; [|by apply Hb].
      apply Ha. by apply elem_of_cons; left. }
    assert (k = length (head L)) as -> by (apply (f_equal length) in Ed; rewrite length_drop in Ed; cbn in Ed; lia).
    replace (match prev _ with Some c => S c | None => O end) with (length (head L)) by (by destruct (length (head L))).
    by rewrite Ed, take_ge by done.
Qed.

(** Names the parser reads back whole: no separator, and for a prefixed name a last
    letter that is no digit and no <number>p, recognised if unknown names are errors. *)
Definition readable (n : string) : bool :=
  wf_name n && negb (n =? "g")%string &&
  match riscv_get_prefix_class n with
  | RV_ISA_CLASS_SINGLE => true
  | _ => forallb (fun c => negb (c =? "_")%char) (chars n)
         && negb (isdigit (at_ n (String.length n - 1))) && negb (number_p n (String.length n))
         && (negb check || riscv_recognized_prefixed_ext n)
  end.
Definition known_versions (s : riscv_subset_t) : Prop :=
  0 <= major_version s < 2 ^ 31 /\ 0 <= minor_version s < 2 ^ 31 /\
  ~ (major_version s = 0 /\ minor_version s = 0).

#[local] Instance known_versions_dec s : Decision (known_versions s).
Proof. unfold known_versions. apply _. Defined.

(** The text of a version, and of a subset without its underscore. *)
Definition version_text (s : riscv_subset_t) : string :=
  decimal (major_version s) ++ "p" ++ decimal (minor_version s).

(** What may follow a version. *)
Definition stops (tail : string) : Prop := tail = "" \/ exists t, tail = String "_" t.

Lemma version_loop_minor p v : isdigit (first p) = true ->
  version_loop (String "p" p) true 0 v = version_loop p false v 0.
Proof. intros H. cbn [version_loop]. by rewrite H. Qed.
Lemma first_digit u tail : forallb isdigit (chars u) = true -> u <> "" -> isdigit (first (u ++ tail)) = true.
Proof. destruct u as [|c u]; [done|]. rewrite append_cons. cbn. by intros [-> _]%andb_true_iff _. Qed.

Lemma version_text_read s tail :
  known_versions s -> stops tail ->
  riscv_parsing_subset_version (version_text s ++ tail) = (tail, (major_version s, minor_version s)).
Proof.
  intros (Hmj & Hmn & Hz) Ht. unfold riscv_parsing_subset_version, version_text.
  rewrite !append_assoc, version_loop_decimal by done.
  destruct (decimal_digits (minor_version s) ltac:(lia)) as [Hd Hne].
  assert (Hp : version_loop ("p" ++ decimal (minor_version s) ++ tail) true 0 (major_version s)
             = version_loop (decimal (minor_version s) ++ tail) false (major_version s) 0).
  { apply version_loop_minor. by apply first_digit. }
  rewrite Hp, version_loop_decimal by done.
  assert (Hstop : version_loop tail false (major_version s) (minor_version s)
                = (tail, (false, major_version s, minor_version s))).
  { destruct Ht as [-> | [t ->]]; reflexivity. }
  rewrite Hstop. cbn [fst snd].
  destruct (Z.eqb_spec (major_version s) 0), (Z.eqb_spec (minor_version s) 0); cbn [andb]; first [reflexivity | tauto].
Qed.

(** ** The end of a name *)

Lemma at_append_left (a b : string) i : (i < String.length a)%nat -> at_ (a ++ b) i = at_ a i.
Proof.
  unfold at_. revert i. induction a as [|x a IH]; intros i Hi; cbn [String.length] in Hi; [lia|].
  rewrite append_cons. destruct i as [|i]; [done|]. cbn [String.get]. apply IH. lia.
Qed.
Lemma at_append_right (a b : string) i : at_ (a ++ b) (String.length a + i) = at_ b i.
Proof. unfold at_. induction a as [|x a IH]; [done|]. exact IH. Qed.
Lemma at_digits u i : forallb isdigit (chars u) = true -> (i < String.length u)%nat -> isdigit (at_ u i) = true.
Proof.
  unfold at_. revert i. induction u as [|c u IH]; intros i Hu Hi; cbn [String.length] in Hi; [lia|].
  cbn in Hu. apply andb_true_iff in Hu as [Hc Hu]. destruct i as [|i]; [done|]. apply IH; [done|lia].
Qed.

Lemma look_back_digits s k any minor n :
  (forall i, (k <= i < k + n)%nat -> isdigit (at_ s i) = true) ->
  look_back s (k + n) any minor = look_back s k (any || (0 <? n)%nat) minor.
Proof.
  revert any. induction n as [|n IH]; intros any H; [by rewrite Nat.add_0_r, orb_false_r|].
  rewrite Nat.add_succ_r. cbn [look_back]. cbv zeta. rewrite H by lia. rewrite IH by (intros i Hi; apply H; lia).
  by rewrite orb_true_r.
Qed.
Lemma look_back_p s k : at_ s k = "p"%char -> isdigit (at_ s (k - 1)) = true ->
  look_back s (S k) true false = look_back s k true true.
Proof. intros Hp Hd. cbn [look_back]. cbv zeta. by rewrite Hp, Hd. Qed.
Lemma look_back_stop s k any : (0 < k)%nat -> isdigit (at_ s (k - 1)) = false -> look_back s k any true = k.
Proof.
  destruct k as [|k]; [lia|]. intros _ Hd. rewrite Nat.sub_1_r in Hd. cbn [Nat.pred] in Hd.
  cbn [look_back]. cbv zeta. rewrite Hd. by rewrite andb_false_r.
Qed.

(** Over a version, the search ends where the name does. *)
Lemma look_back_name n u v tail :
  n <> "" -> isdigit (at_ n (String.length n - 1)) = false ->
  forallb isdigit (chars u) = true -> u <> "" -> forallb isdigit (chars v) = true -> v <> "" ->
  look_back (n ++ u ++ "p" ++ v ++ tail) (String.length n + (String.length u + S (String.length v))) false false
  = String.length n.
Proof.
  intros Hn Hl Hu Hune Hv Hvne.
  assert (Hpos : (0 < String.length n)%nat /\ (0 < String.length u)%nat /\ (0 < String.length v)%nat)
    by (destruct n, u, v; cbn; done || lia).
  assert (Hat_u : forall i, (i < String.length u)%nat -> isdigit (at_ (n ++ u ++ "p" ++ v ++ tail) (String.length n + i)) = true)
    by (intros i Hi; rewrite at_append_right, at_append_left by done; by apply at_digits).
  assert (Hat_p : at_ (n ++ u ++ "p" ++ v ++ tail) (String.length n + String.length u) = "p"%char).
  { rewrite at_append_right. replace (String.length u) with (String.length u + 0)%nat by lia. by rewrite at_append_right. }
  replace (String.length n + (String.length u + S (String.length v)))%nat
    with (S (String.length n + String.length u) + String.length v)%nat by lia.
  rewrite look_back_digits.
  - rewrite (proj2 (Nat.ltb_lt _ _)) by lia. cbn [orb]. rewrite look_back_p; [|done|].
    + rewrite look_back_digits by (intros i Hi; replace i with (String.length n + (i - String.length n))%nat by lia; apply Hat_u; lia).
      apply look_back_stop; [lia|]. by rewrite at_append_left by lia.
    + replace (String.length n + String.length u - 1)%nat with (String.length n + (String.length u - 1))%nat by lia.
      apply Hat_u. lia.
  - intros i Hi. replace i with (String.length n + (String.length u + S (i - S (String.length n + String.length u))))%nat by lia.
    rewrite !at_append_right. change ("p" ++ v ++ tail) with (String "p" (v ++ tail)).
    change (at_ (String "p" (v ++ tail)) (S ?j)) with (at_ (v ++ tail) j).
    rewrite at_append_left by lia. apply at_digits; [done|lia].
Qed.

Lemma find_char_skip stop a b : forallb (fun c => negb (c =? stop)%char) (chars a) = true ->
  find_char stop (a ++ b) = (String.length a + find_char stop b)%nat.
Proof.
  induction a as [|c a IH]; intros H; [done|]. cbn in H. apply andb_true_iff in H as [Hc Ha].
  rewrite append_cons. cbn [find_char String.length]. destruct (c =? stop)%char; [done|]. by rewrite IH.
Qed.
Lemma digits_no_char stop u : isdigit stop = false -> forallb isdigit (chars u) = true ->
  forallb (fun c => negb (c =? stop)%char) (chars u) = true.
Proof.
  intros Hs. unfold chars. induction u as [|c u IH]; cbn; [done|]. rewrite !andb_true_iff. intros [Hc Hu].
  by rewrite (isdigit_not c stop), IH.
Qed.

(** ** The class of a name is the class of a text that continues with a digit *)

Lemma prefix_digit pat n c t : isdigit c = true -> forallb (fun d => negb (isdigit d)) (chars pat) = true ->
  String.prefix pat (n ++ String c t) = String.prefix pat n.
Proof.
  intros Hc. revert n. induction pat as [|d pat IH]; intros n Hp; [by destruct n|].
  cbn in Hp. apply andb_true_iff in Hp as [Hd Hp]. destruct n as [|x n].
  - change ("" ++ String c t) with (String c t). cbn [String.prefix]. destruct (ascii_dec d c) as [E|]; [|done].
    rewrite E, Hc in Hd. done.
  - rewrite append_cons. cbn [String.prefix]. destruct (ascii_dec d x); [by apply IH|done].
Qed.
Lemma class_digit n t : isdigit (first t) = true -> riscv_get_prefix_class (n ++ t) = riscv_get_prefix_class n.
Proof.
  destruct t as [|c t]; [done|]. intros Hc. unfold riscv_get_prefix_class, parse_config.
  cbn [prefix_class_in]. by rewrite !prefix_digit by done.
Qed.

(** ** One subset *)

Lemma version_text_digit s tail : known_versions s -> isdigit (first (version_text s ++ tail)) = true.
Proof.
  intros (Hj & _ & _). destruct (decimal_digits (major_version s) ltac:(lia)) as [Hd Hne].
  unfold version_text. rewrite !append_assoc. by apply first_digit.
Qed.

(** A known version is added as it is. *)
Lemma add_known r n s : known_versions s ->
  riscv_parse_add_subset outside isa_spec r n (major_version s) (minor_version s) false
  = r <| subsets := add_subset (subsets r) n (major_version s) (minor_version s) |>.
Proof.
  intros (Hj & Hm & _). unfold riscv_parse_add_subset.
  assert (Hu : unknown (major_version s, minor_version s) = false).
  { unfold unknown, RISCV_UNKNOWN_VERSION. cbn [fst snd].
    by rewrite !(proj2 (Z.eqb_neq _ _)) by lia. }
  rewrite Hu. cbv zeta. rewrite Hu. done.
Qed.

Lemma single_name n : wf_name n = true -> riscv_get_prefix_class n = RV_ISA_CLASS_SINGLE ->
  exists c, n = String c "" /\ 0 < std_order c.
Proof.
  unfold wf_name. intros [_ H]%andb_true_iff E. rewrite E in H. apply andb_true_iff in H as [H L].
  destruct n as [|c [|]]; try done. exists c. cbn [first] in H. split; [done|lia].
Qed.

Lemma one_single r s tail :
  readable (sname s) = true -> known_versions s -> stops tail ->
  riscv_get_prefix_class (sname s) = RV_ISA_CLASS_SINGLE ->
  one_extension outside isa_spec check r (sname s ++ version_text s ++ tail)
  = inr (r <| subsets := add_subset (subsets r) (sname s) (major_version s) (minor_version s) |>, tail).
Proof.
  intros Hr Hv Ht Hc. unfold readable in Hr. rewrite !andb_true_iff in Hr. destruct Hr as ((Hw & Hg) & _).
  pose proof (class_digit (sname s) _ (version_text_digit s tail Hv)) as Hcls. rewrite Hc in Hcls.
  destruct (single_name _ Hw Hc) as (c & Ec & Ho). pose proof (std_order_letter outside c Ho) as Hord.
  unfold one_extension. rewrite Hcls. cbv zeta. rewrite bool_decide_true by done. cbn [andb negb].
  pose proof (skip_append (sname s) (version_text s ++ tail)) as Hskip.
  pose proof (upto_append (sname s) (version_text s ++ tail)) as Hupto.
  rewrite Ec in Hskip, Hupto |- *. cbn [String.length] in Hskip, Hupto.
  change (first (String c "" ++ version_text s ++ tail)) with c. rewrite Hord, (proj2 (Z.eqb_neq _ _)) by lia.
  rewrite Hskip, version_text_read by done. rewrite Hupto, <- Ec.
  apply negb_true_iff in Hg. rewrite Hg. cbn [fst snd]. by rewrite add_known.
Qed.

Lemma prefixed_readable n : readable n = true -> riscv_get_prefix_class n <> RV_ISA_CLASS_SINGLE ->
  n <> "" /\ wf_name n = true /\ forallb (fun c => negb (c =? "_")%char) (chars n) = true /\
  isdigit (at_ n (String.length n - 1)) = false /\ number_p n (String.length n) = false /\
  check && negb (riscv_recognized_prefixed_ext n) = false.
Proof.
  unfold readable. intros [[Hw _]%andb_true_iff H]%andb_true_iff Hc. split; [by destruct n|]. split; [done|].
  destruct (riscv_get_prefix_class n); try done; rewrite !andb_true_iff, !negb_true_iff in H;
    destruct H as (((? & ?) & ?) & H); split_and!; try done; by destruct check, (riscv_recognized_prefixed_ext n).
Qed.

Lemma number_p_append n t : n <> "" -> number_p (n ++ t) (String.length n) = number_p n (String.length n).
Proof.
  intros Hn. assert (0 < String.length n)%nat by (destruct n; cbn; done || lia).
  unfold number_p. by rewrite !at_append_left by lia.
Qed.

Lemma one_prefixed r s tail :
  readable (sname s) = true -> known_versions s -> stops tail ->
  riscv_get_prefix_class (sname s) <> RV_ISA_CLASS_SINGLE ->
  one_extension outside isa_spec check r (sname s ++ version_text s ++ tail)
  = inr (r <| subsets := add_subset (subsets r) (sname s) (major_version s) (minor_version s) |>, tail).
Proof.
  intros Hr Hv Ht Hc. destruct (prefixed_readable _ Hr Hc) as (Hne & _ & Hund & Hlast & Hnp & Hrec).
  pose proof (class_digit (sname s) _ (version_text_digit s tail Hv)) as Hcls.
  unfold one_extension. rewrite Hcls. cbv zeta. rewrite bool_decide_false by done. cbn [andb negb].
  destruct Hv as (Hj & Hm & Hz) eqn:HvE. clear HvE.
  destruct (decimal_digits (major_version s) ltac:(lia)) as [Hdj Hnj].
  destruct (decimal_digits (minor_version s) ltac:(lia)) as [Hdm Hnm].
  assert (Hq : S (find_char "_" (rest (sname s ++ version_text s ++ tail)))
             = (String.length (sname s) + (String.length (decimal (major_version s)) + S (String.length (decimal (minor_version s)))))%nat).
  { destruct (sname s) as [|c n]; [done|]. rewrite append_cons. cbn [rest String.length].
    unfold version_text. rewrite !append_assoc.
    cbn in Hund. apply andb_true_iff in Hund as [_ Hund].
    rewrite (find_char_skip _ n), (find_char_skip _ (decimal _)), append_cons by (done || by apply digits_no_char).
    cbn [find_char]. change ("" ++ ?x) with x. rewrite (find_char_skip _ (decimal _)) by (by apply digits_no_char).
    destruct Ht as [-> | [t ->]]; cbn; lia. }
  pose proof (look_back_name (sname s) _ _ tail Hne Hlast Hdj Hnj Hdm Hnm) as Hback.
  rewrite <- (append_assoc "p"), <- (append_assoc (decimal _)) in Hback.
  change (decimal (major_version s) ++ "p" ++ decimal (minor_version s)) with (version_text s) in Hback.
  rewrite Hq, Hback, number_p_append, Hnp, skip_append, version_text_read, upto_append, Hrec by done.
  cbn [fst snd]. rewrite add_known by done.
  destruct Ht as [-> | [t ->]]; reflexivity.
Qed.

Lemma one_read r s tail :
  readable (sname s) = true -> known_versions s -> stops tail ->
  one_extension outside isa_spec check r (sname s ++ version_text s ++ tail)
  = inr (r <| subsets := add_subset (subsets r) (sname s) (major_version s) (minor_version s) |>, tail).
Proof.
  intros. destruct (decide (riscv_get_prefix_class (sname s) = RV_ISA_CLASS_SINGLE));
    [by apply one_single|by apply one_prefixed].
Qed.

(** ** The whole list *)

Lemma readable_first n : readable n = true -> n <> "" /\ (first n =? "_")%char = false.
Proof.
  intros H. destruct (decide (riscv_get_prefix_class n = RV_ISA_CLASS_SINGLE)) as [E|E].
  - unfold readable in H. rewrite !andb_true_iff in H. destruct H as ((Hw & _) & _).
    destruct (single_name n Hw E) as (c & -> & Ho). split; [done|]. cbn [first].
    destruct (Ascii.eqb_spec c "_") as [Ec|]; [|done]. rewrite Ec in Ho. by vm_compute in Ho.
  - destruct (prefixed_readable n H E) as (Hne & _ & Hu & _). split; [done|].
    destruct n as [|c n]; [done|]. cbn in Hu. apply andb_true_iff in Hu as [Hc _]. by apply negb_true_iff in Hc.
Qed.

(** One round of the loop reads one subset. *)
Lemma extensions_step fuel r s tail :
  readable (sname s) = true -> known_versions s -> stops tail ->
  extensions outside isa_spec check (S fuel) r (sname s ++ version_text s ++ tail)
  = extensions outside isa_spec check fuel
      (r <| subsets := add_subset (subsets r) (sname s) (major_version s) (minor_version s) |>) tail.
Proof.
  intros Hr Hv Ht. pose proof (one_read r s tail Hr Hv Ht) as E.
  destruct (readable_first _ Hr) as [Hne Hf]. set (text := sname s ++ version_text s ++ tail) in *.
  assert (Ht0 : exists c t, text = String c t /\ (c =? "_")%char = false).
  { unfold text. destruct (sname s) as [|c n]; [done|]. by exists c, (n ++ version_text s ++ tail). }
  destruct Ht0 as (c & t & Et & Hc). rewrite Et in E |- *. cbn [extensions]. by rewrite Hc, E.
Qed.

(** Subsets behind the base: an underscore, then the name. *)
Definition later (s : riscv_subset_t) : Prop :=
  readable (sname s) = true /\ known_versions s /\ (sname s <> "i" /\ sname s <> "e").

Lemma known_text s : known_versions s -> readable (sname s) = true ->
  subset_text s = (if (sname s =? "i")%string || (sname s =? "e")%string then "" else "_") ++ sname s ++ version_text s.
Proof.
  intros (Hj & Hm & _) Hr. unfold subset_text, version_text, signed_decimal.
  rewrite !(proj2 (Z.ltb_ge _ _)) by lia.
  assert (HI : (sname s =? "I")%string = false /\ (sname s =? "E")%string = false).
  { split; apply String.eqb_neq; intros E; rewrite E in Hr; done. }
  destruct HI as [-> ->]. by rewrite !orb_false_r.
Qed.
Lemma later_texts s l : later s -> texts (s :: l) = String "_" (sname s ++ version_text s ++ texts l).
Proof.
  intros (Hr & Hv & Hi & He). rewrite texts_cons, known_text by done.
  rewrite (proj2 (String.eqb_neq _ _) Hi), (proj2 (String.eqb_neq _ _) He). cbn [orb].
  by rewrite !append_assoc.
Qed.
Lemma later_stops l : Forall later l -> stops (texts l).
Proof. intros [|s l' Hs Hl]; [by left|right]. rewrite later_texts by done. by eexists. Qed.

(** The list the parser builds. *)
Definition listed (l : list riscv_subset_t) : subset_list := SubsetList l (prev (length l)).

Lemma add_listed pre s :
  list_wf outside (listed (pre ++ [s])) ->
  list_wf outside (listed pre) /\
  add_subset (listed pre) (sname s) (major_version s) (minor_version s) = listed (pre ++ [s]).
Proof.
  intros [Hw Hs _]. cbn [listed head] in *. apply Forall_app in Hw as [Hw [Hn _]%Forall_cons].
  apply StronglySorted_app in Hs as (Hlt & Hs & _).
  assert (HL : list_wf outside (listed pre)) by done. split; [done|].
  rewrite add_last; [|done..|].
  - unfold listed. cbn [head]. rewrite length_app, Nat.add_1_r. cbn [prev]. by destruct s.
  - intros s' Hin. apply Hlt; [done|]. by apply list_elem_of_singleton.
Qed.
Lemma listed_prefix pre l : list_wf outside (listed (pre ++ l)) -> list_wf outside (listed pre).
Proof.
  intros [Hw Hs _]. cbn [listed head] in *. apply Forall_app in Hw as [Hw _].
  by apply StronglySorted_app in Hs as (_ & Hs & _).
Qed.

Lemma read_all l : forall pre fuel x es,
  Forall later l -> list_wf outside (listed (pre ++ l)) -> (2 * length l <= fuel)%nat ->
  extensions outside isa_spec check fuel (Rps (listed pre) x es) (texts l) = Some (true, Rps (listed (pre ++ l)) x es).
Proof.
  induction l as [|s l IH]; intros pre fuel x es Hl HL Hf; [rewrite app_nil_r; by destruct fuel|].
  apply Forall_cons in Hl as [Hs Hl]. cbn [length] in Hf. destruct fuel as [|[|fuel]]; [lia..|].
  rewrite later_texts by done.
  change (extensions outside isa_spec check (S (S fuel)) ?r (String "_" ?t)) with (extensions outside isa_spec check (S fuel) r t).
  destruct Hs as (Hr & Hv & _). rewrite extensions_step by (done || by apply later_stops).
  assert (E : (pre ++ s :: l = (pre ++ [s]) ++ l)%list) by (by rewrite <- app_assoc).
  rewrite E in HL |- *. destruct (add_listed pre s (listed_prefix _ _ HL)) as [_ Hadd].
  cbn [subsets setter xlen errors]. rewrite <- (IH (pre ++ [s])%list fuel) by (done || lia). f_equal.
  unfold setter. cbn. by rewrite Hadd.
Qed.

Lemma texts_long l : Forall later l -> (2 * length l <= String.length (texts l))%nat.
Proof.
  induction 1 as [|s l Hs Hl IH]; [cbn; lia|]. rewrite later_texts by done.
  destruct Hs as (Hr & _). destruct (readable_first _ Hr) as [Hne _].
  cbn [length String.length]. rewrite !length_append. destruct (sname s); [done|]. cbn [String.length]. lia.
Qed.

(** No upper-case letters are printed. *)
Definition no_upper (s : string) : Prop := existsb isupper (chars s) = false.
Lemma no_upper_append a b : no_upper a -> no_upper b -> no_upper (a ++ b).
Proof. unfold no_upper. rewrite chars_append, existsb_app. by intros -> ->. Qed.
Lemma no_upper_from (P : ascii -> bool) s :
  (forall c, P c = true -> isupper c = false) -> forallb P (chars s) = true -> no_upper s.
Proof.
  unfold no_upper. intros HP. induction (chars s) as [|c l IH]; cbn; [done|].
  intros [Hc Hl]%andb_true_iff. by rewrite (HP c Hc), IH.
Qed.
Lemma decimal_no_upper n : 0 <= n -> no_upper (decimal n).
Proof.
  intros H. apply (no_upper_from isdigit); [|by apply decimal_digits].
  intros c. unfold isdigit, isupper. lia.
Qed.
Lemma name_no_upper n : wf_name n = true -> no_upper n.
Proof.
  unfold wf_name. intros [H _]%andb_true_iff. apply (no_upper_from plain_char); [|done].
  intros c. unfold plain_char, tolower, isupper. destruct ((65 <=? code c) && (code c <=? 90)); lia.
Qed.
Lemma text_no_upper s : readable (sname s) = true -> known_versions s -> no_upper (subset_text s).
Proof.
  intros Hr Hv. rewrite known_text by done. destruct Hv as (Hj & Hm & _).
  assert (wf_name (sname s) = true) by (unfold readable in Hr; rewrite !andb_true_iff in Hr; tauto).
  unfold version_text. repeat apply no_upper_append;
    first [by apply name_no_upper | apply decimal_no_upper; lia | by destruct (_ || _) | done].
Qed.
Lemma texts_no_upper l : Forall (fun s => readable (sname s) = true /\ known_versions s) l -> no_upper (texts l).
Proof.
  induction 1 as [|s l [Hr Hv] _ IH]; [done|]. rewrite texts_cons.
  apply no_upper_append; [by apply text_no_upper|done].
Qed.

(** Nothing to add to a closed list. *)
Lemma closed_fixed L x es : list_wf outside L -> closed (view L) ->
  riscv_parse_add_implicit_subsets outside isa_spec (Rps L x es) = Some (Rps L x es).
Proof.
  intros HL Hc. unfold riscv_parse_add_implicit_subsets.
  assert (Hnone : list_find (fun t => applies outside L t = true) riscv_implicit_subsets = None).
  { apply list_find_None, Forall_forall. intros t Hin. by rewrite applies_view, (Hc t Hin) by done. }
  destruct (length riscv_implicit_subsets); cbn [add_implicit subsets]; by rewrite Hnone.
Qed.

(** After "i" in the order there is neither "i" nor "e". *)
Lemma after_i n : before outside "i" n -> n <> "i" /\ n <> "e".
Proof. unfold before. intros H. split; intros E; rewrite E in H; vm_compute in H; congruence. Qed.

Lemma printed_later s l :
  sname s = "i" -> Forall (fun s => readable (sname s) = true /\ known_versions s) l ->
  StronglySorted (node_before outside) (s :: l) -> Forall later l.
Proof.
  intros Es Hl [_ Hs]%StronglySorted_inv. apply Forall_forall. intros s' Hin.
  rewrite Forall_forall in Hl, Hs. destruct (Hl s' Hin) as [Hr Hv]. split; [done|]. split; [done|].
  apply after_i. rewrite <- Es. by apply Hs.
Qed.

Lemma parse_extensions_texts s l x es :
  sname s = "i" -> Forall (fun s => readable (sname s) = true /\ known_versions s) (s :: l) ->
  list_wf outside (listed (s :: l)) ->
  riscv_parse_extensions outside isa_spec check (Rps empty_list x es) (texts (s :: l))
  = Some (true, Rps (listed (s :: l)) x es).
Proof.
  intros Es [[Hr Hv] Hl]%Forall_cons HL. pose proof HL as [_ Hs _]. cbn [listed head] in Hs.
  pose proof (printed_later s l Es Hl Hs) as Hlater.
  assert (E : texts (s :: l) = sname s ++ version_text s ++ texts l)
    by (rewrite texts_cons, known_text, Es by done; by rewrite append_assoc).
  unfold riscv_parse_extensions. rewrite E.
  assert (Ef : first (sname s ++ version_text s ++ texts l) = "i"%char) by (by rewrite Es).
  rewrite Ef. cbn [orb negb]. change (negb _) with false. cbv iota.
  pose proof (texts_long l Hlater) as Hlong. rewrite length_append, Es, length_append. cbn [String.length Nat.add].
  set (fuel := (String.length (version_text s) + _)%nat).
  rewrite <- Es, extensions_step by (done || by apply later_stops).
  destruct (add_listed [] s) as [_ Hadd]; [by apply (listed_prefix [s] l)|].
  rewrite <- (read_all l [s] fuel) by (done || lia). f_equal.
  change (listed [s]) with (listed ([] ++ [s])). by rewrite <- Hadd.
Qed.

Lemma parse_printed xlen K x es :
  xlen = 32 \/ xlen = 64 -> sname <$> K !! 0%nat = Some "i" ->
  Forall (fun s => readable (sname s) = true /\ known_versions s) K ->
  list_wf outside (listed K) -> closed (view (listed K)) ->
  riscv_parse_check_conflicts outside (Rps (listed K) xlen es) = (true, Rps (listed K) xlen es) ->
  riscv_parse_subset outside isa_spec check (Rps empty_list x es) (Some ("rv" ++ decimal xlen ++ texts K))
  = Some (true, Rps (listed K) xlen es).
Proof.
  intros Hx Hi HK HL Hc Hok. destruct K as [|s K]; [done|]. cbn in Hi. injection Hi as Hi.
  pose proof (texts_no_upper _ HK) as Hup.
  assert (Hup' : existsb isupper (chars ("rv" ++ decimal xlen ++ texts (s :: K))) = false).
  { apply no_upper_append; [done|]. apply no_upper_append; [apply decimal_no_upper; lia|done]. }
  unfold riscv_parse_subset. rewrite Hup'.
  assert (Hext : riscv_parse_extensions outside isa_spec check (Rps empty_list xlen es) (texts (s :: K))
               = Some (true, Rps (listed (s :: K)) xlen es)) by (by apply parse_extensions_texts).
  assert (Hfin : finish outside isa_spec (Rps (listed (s :: K)) xlen es) = Some (true, Rps (listed (s :: K)) xlen es)).
  { unfold finish. rewrite closed_fixed by done. cbn [mbind option_bind]. by rewrite Hok. }
  set (T := texts (s :: K)) in *. destruct Hx as [-> | ->].
  - change ("rv" ++ decimal 32 ++ T) with ("rv32" ++ T). cbv zeta.
    change (String.prefix "rv32" ("rv32" ++ T)) with (String.prefix "" T).
    change (skip 4 ("rv32" ++ T)) with T. destruct T; cbn [String.prefix]; 
      change ((Rps empty_list x es) <| Subsets.xlen := 32 |>) with (Rps empty_list 32 es);
      rewrite Hext; cbn [mbind option_bind]; exact Hfin.
  - change ("rv" ++ decimal 64 ++ T) with ("rv64" ++ T). cbv zeta.
    change (String.prefix "rv32" ("rv64" ++ T)) with false. 
    change (String.prefix "rv64" ("rv64" ++ T)) with (String.prefix "" T).
    change (skip 4 ("rv64" ++ T)) with T. destruct T; cbn [String.prefix]; 
      change ((Rps empty_list x es) <| Subsets.xlen := 64 |>) with (Rps empty_list 64 es);
      rewrite Hext; cbn [mbind option_bind]; exact Hfin.
Qed.

(** [C15] Printing and parsing are inverse: when the subsets [riscv_arch_str] prints start
    with "i", have versions that are known and names the parser reads back whole, form a
    sorted list closed under the implicit extensions and raise no conflict, then parsing
    the printed string from an empty list accepts it, reports nothing, and gives exactly
    those subsets, in order, with their versions, the tail pointer and [xlen]. *)
Theorem print_parse xlen L x es (K := listed (printed (head L))) :
  xlen = 32 \/ xlen = 64 -> Forall node_versions_ok (head L) ->
  sname <$> head K !! 0%nat = Some "i" ->
  Forall (fun s => readable (sname s) = true /\ known_versions s) (head K) ->
  list_wf outside K -> closed (view K) ->
  riscv_parse_check_conflicts outside (Rps K xlen es) = (true, Rps K xlen es) ->
  exists t, riscv_arch_str xlen L = Some t /\
    riscv_parse_subset outside isa_spec check (Rps empty_list x es) (Some t) = Some (true, Rps K xlen es).
Proof.
  intros Hx Hv Hi HK HL Hc Hok. eexists. split; [apply arch_str_text; [lia|done]|].
  by apply parse_printed.
Qed.
End RoundTrip.

(** * Termination *)

Section Total.
Context (outside : ascii -> Z) (isa_spec : option riscv_spec_class).
Abbreviation good := (list_wf outside).

(** Strings without a terminator inside, and without upper-case letters. *)
Definition no_nul (s : string) : bool := forallb (fun c => 0 <? code c) (chars s).
Definition plain (s : string) : bool := forallb plain_char (chars s).

(** The memory around the letter table: [quiet true s] when the code finds a zero (no
    such extension) wherever reading extensions from [s] on may index the table outside;
    that is at characters that are neither letters nor underscores, digits only at the
    start or behind an underscore. [quiet_all]: at every character that is no letter. *)
Definition letter (c : ascii) : bool := (97 <=? code c) && (code c <=? 122).
Fixpoint quiet (start : bool) (s : string) : bool :=
  match s with
  | "" => true
  | String c s =>
      (letter c || (c =? "_")%char || (negb start && isdigit c) || (outside c =? 0)) && quiet (c =? "_")%char s
  end.
Definition quiet_all (s : string) : bool := forallb (fun c => letter c || (outside c =? 0)) (chars s).

(** Every z is followed by a standard letter. *)
Fixpoint z_standard (s : string) : bool :=
  match s with
  | "" => true
  | String c s => (negb (c =? "z")%char || (0 <? std_order (first s))) && z_standard s
  end.

(** What the parser with that setting reads safely behind the base. *)
Definition safe (check : bool) (s : string) : bool := plain s && quiet true s && (check || z_standard s).

(** What is left by a step is the end of the string it started from. *)
Definition suffix (t s : string) : Prop := exists u, s = u ++ t.
Lemma suffix_refl s : suffix s s.
Proof. by exists "". Qed.
Lemma suffix_cons c t s : suffix t s -> suffix t (String c s).
Proof. intros [u ->]. by exists (String c u). Qed.
Lemma suffix_trans a b c : suffix a b -> suffix b c -> suffix a c.
Proof. intros [u ->] [v ->]. exists (v ++ u). by rewrite append_assoc. Qed.
Lemma suffix_length t s : suffix t s -> (String.length t <= String.length s)%nat.
Proof. intros [u ->]. rewrite length_append. lia. Qed.
Lemma suffix_plain t s : suffix t s -> plain s = true -> plain t = true.
Proof. intros [u ->]. unfold plain. rewrite chars_append, forallb_app. by intros [_ ?]%andb_true_iff. Qed.
Lemma quiet_suffix t s b : suffix t s -> isdigit (first t) = false -> quiet b s = true -> quiet true t = true.
Proof.
  intros [u ->] Ht. revert b. induction u as [|c u IH]; intros b.
  - change ("" ++ t) with t. destruct t as [|c t]; [done|]. cbn [first] in Ht. cbn [quiet]. rewrite Ht.
    by rewrite !andb_false_r.
  - rewrite append_cons. cbn [quiet]. intros [_ H]%andb_true_iff. by eapply IH.
Qed.
Lemma z_standard_suffix t s : suffix t s -> z_standard s = true -> z_standard t = true.
Proof.
  intros [u ->]. induction u as [|c u IH]; [done|]. rewrite append_cons. cbn [z_standard]. intros [_ H]%andb_true_iff. auto.
Qed.
Lemma safe_suffix check t s : suffix t s -> isdigit (first t) = false -> safe check s = true -> safe check t = true.
Proof.
  unfold safe. rewrite !andb_true_iff, !orb_true_iff. intros Hs Ht ((Hp & Hq) & Hz). split_and!.
  - by eapply suffix_plain.
  - by eapply quiet_suffix.
  - destruct Hz as [Hz|Hz]; [by left|right; by eapply z_standard_suffix].
Qed.
Lemma quiet_all_suffix t s : suffix t s -> quiet_all s = true -> quiet_all t = true.
Proof. intros [u ->]. unfold quiet_all. rewrite chars_append, forallb_app. by intros [_ ?]%andb_true_iff. Qed.
Lemma quiet_all_quiet s b : quiet_all s = true -> quiet b s = true.
Proof.
  unfold quiet_all, chars. revert b. induction s as [|c s IH]; intros b; cbn; [done|].
  intros [Hc Hs]%andb_true_iff. rewrite IH by done. apply orb_true_iff in Hc as [-> | ->]; [done|by rewrite !orb_true_r].
Qed.
Lemma rest_suffix s : suffix (rest s) s.
Proof. destruct s; [by apply suffix_refl|]. cbn [rest]. by apply suffix_cons, suffix_refl. Qed.
Lemma skip_suffix n s : suffix (skip n s) s.
Proof.
  revert s. induction n as [|n IH]; intros s; [by apply suffix_refl|]. cbn [skip].
  eapply suffix_trans; [apply IH|apply rest_suffix].
Qed.
Lemma skip_length n s : String.length (skip n s) = (String.length s - n)%nat.
Proof.
  revert s. induction n as [|n IH]; intros s; cbn [skip]; [lia|]. rewrite IH. destruct s; cbn [rest String.length]; lia.
Qed.
Lemma upto_plain n s : plain s = true -> plain (upto_ n s) = true.
Proof.
  unfold plain, upto_, chars. revert n. induction s as [|c s IH]; intros [|n] H; try done.
  cbn [String.substring list_ascii_of_string forallb] in *. apply andb_true_iff in H as [-> H]. cbn [andb]. by apply IH.
Qed.
Lemma version_loop_suffix p : forall mp mj v, suffix (version_loop p mp mj v).1 p.
Proof.
  induction p as [|c p IH]; intros mp mj v; [by apply suffix_refl|]. cbn [version_loop].
  repeat case_match; first [by apply suffix_refl | by apply suffix_cons].
Qed.
Lemma version_loop_stops p : forall mp mj v, isdigit (first (version_loop p mp mj v).1) = false.
Proof.
  induction p as [|c p IH]; intros mp mj v; [done|]. cbn [version_loop].
  destruct (Ascii.eqb_spec c "p") as [-> |]; [by destruct (isdigit (first p))|].
  destruct (isdigit c) eqn:E; [done|exact E].
Qed.
Lemma version_suffix p left_ v : riscv_parsing_subset_version p = (left_, v) ->
  suffix left_ p /\ isdigit (first left_) = false.
Proof.
  unfold riscv_parsing_subset_version. pose proof (version_loop_suffix p true 0 0) as H.
  pose proof (version_loop_stops p true 0 0) as H'.
  destruct (version_loop p true 0 0) as [q [[mp mj] n]]. intros [= <- _]. by split.
Qed.

(** Every name in the tables is well-formed, and so is every name that is accepted. *)
Lemma tables_wf : forallb (fun e => wf_name (ext_name e)) (mjoin riscv_all_supported_ext) = true.
Proof. reflexivity. Qed.
Lemma recognized_wf n : plain n = true -> riscv_recognized_prefixed_ext n = true -> wf_name n = true.
Proof.
  unfold riscv_recognized_prefixed_ext, plain. intros Hp Hr. unfold wf_name. rewrite Hp. cbn [andb].
  destruct (riscv_get_prefix_class n) eqn:Hc; try done. unfold riscv_known_prefixed_ext in Hr.
  apply existsb_exists in Hr as (e & Hin & E%String.eqb_eq).
  assert (H : forallb (fun e => wf_name (ext_name e)) riscv_supported_std_z_ext = true) by reflexivity.
  rewrite forallb_forall in H. specialize (H e Hin). rewrite <- E in H. unfold wf_name in H. rewrite Hc in H.
  by apply andb_true_iff in H as [_ ?].
Qed.
Lemma single_wf c : plain_char c = true -> letter c || (outside c =? 0) = true ->
  riscv_ext_order outside c <> 0 -> wf_name (String c "") = true.
Proof.
  intros Hp Hq Ho. unfold wf_name. cbn [chars list_ascii_of_string forallb]. rewrite Hp. cbn [andb].
  destruct (decide (riscv_get_prefix_class (String c "") = RV_ISA_CLASS_SINGLE)) as [-> | Hne].
  - cbn [first String.length]. rewrite andb_true_r. apply Z.ltb_lt.
    unfold riscv_ext_order in Ho. fold (letter c) in Ho. destruct (letter c); [|lia].
    pose proof (std_order_range c). unfold std_order in *. lia.
  - by pose proof (class_order outside _ Hne).
Qed.

Lemma parse_add_good r n mj mn b : good (subsets r) -> wf_name n = true ->
  good (subsets (riscv_parse_add_subset outside isa_spec r n mj mn b)).
Proof.
  intros HL Hn. unfold riscv_parse_add_subset. cbv zeta.
  repeat match goal with |- context [if ?c then _ else _] => destruct c end;
    first [exact HL | by apply add_subset_map].
Qed.

(** The search for the end of a name stops behind a character that is no digit, nor the p
    of a version. *)
Lemma look_back_above s k q any minor : (k < q)%nat -> isdigit (at_ s k) = false ->
  (at_ s k =? "p")%char = false \/ isdigit (at_ s (k - 1)) = false -> (k < look_back s q any minor)%nat.
Proof.
  intros Hq Hd Hp. revert any minor. induction q as [|q IH]; intros any minor; [lia|]. cbn [look_back]. cbv zeta.
  destruct (decide (q = k)) as [-> | Hne].
  - rewrite Hd. destruct Hp as [-> | ->]; rewrite andb_false_r; cbn [andb]; lia.
  - repeat match goal with |- context [if ?c then _ else _] => destruct c end; first [apply IH; lia | lia].
Qed.
Lemma class_char_look s : riscv_get_prefix_class s <> RV_ISA_CLASS_SINGLE ->
  isdigit (at_ s 0) = false /\ (at_ s 0 =? "p")%char = false.
Proof.
  intros H. pose proof (class_first s _ eq_refl H) as E. rewrite E.
  by destruct (riscv_get_prefix_class s).
Qed.

(** The end of the name at [s]. *)
Definition name_end (s : string) : nat :=
  if bool_decide (riscv_get_prefix_class s = RV_ISA_CLASS_SINGLE) then 1%nat
  else look_back s (S (find_char "_" (rest s))) false false.

Lemma name_end_pos s : (0 < name_end s)%nat.
Proof.
  unfold name_end. destruct (bool_decide_reflect (riscv_get_prefix_class s = RV_ISA_CLASS_SINGLE)) as [|Hc]; [lia|].
  destruct (class_char_look s Hc) as [Hd Hp]. apply look_back_above; [lia|done|by left].
Qed.

Lemma std_not c d : 0 < std_order c -> std_order d = 0 -> c <> d.
Proof. intros H1 H2 ->. lia. Qed.
Lemma std_letter c : 0 < std_order c -> isdigit c = false /\ c <> "_"%char.
Proof.
  intros H. split; [|by apply std_not]. unfold std_order, riscv_ext_canonical_order in H. cbn [position] in H.
  repeat match type of H with context [(c =? ?d)%char] =>
    destruct (Ascii.eqb_spec c d) as [E|]; [rewrite E; reflexivity|] end. lia.
Qed.

(** A name nobody looks up is well-formed when its z has a standard letter behind. *)
Lemma unchecked_wf s :
  plain s = true -> z_standard s = true -> riscv_get_prefix_class s <> RV_ISA_CLASS_SINGLE ->
  wf_name (upto_ (name_end s) s) = true.
Proof.
  intros Hp Hz Hc. pose proof (name_end_pos s) as Hpos. pose proof (upto_plain (name_end s) s Hp) as Hpn.
  unfold plain in Hpn. unfold wf_name. rewrite Hpn. cbn [andb].
  pose proof (class_first s _ eq_refl Hc) as E. destruct s as [|c p]; [done|]. cbn [rest] in E. injection E as E.
  destruct (Ascii.eqb_spec c "z") as [-> | Hne].
  - cbn [z_standard] in Hz. apply andb_true_iff in Hz as [Hz _]. cbn [Ascii.eqb negb orb] in Hz.
    destruct p as [|d p]; [done|]. cbn [first] in Hz. apply Z.ltb_lt in Hz. destruct (std_letter d Hz) as [Hd Hu].
    assert (H2 : (1 < name_end (String "z" (String d p)))%nat).
    { unfold name_end. rewrite bool_decide_false by done. apply look_back_above; [|exact Hd|by right].
      cbn [rest find_char]. destruct (Ascii.eqb_spec d "_"); [done|lia]. }
    destruct (name_end _) as [|[|q]]; [lia..|].
    change (upto_ (S (S q)) (String "z" (String d p))) with (String "z" (String d (upto_ q p))).
    destruct (riscv_get_prefix_class (String "z" (String d (upto_ q p)))) eqn:Ec; try done.
    + cbn [rest first]. by apply Z.ltb_lt.
    + unfold riscv_get_prefix_class in Ec. cbn [parse_config prefix_class_in] in Ec. by destruct (String.prefix "zxm" _).
  - destruct (name_end _) as [|q]; [lia|]. change (upto_ (S q) (String c p)) with (String c (upto_ q p)).
    clear - E Hne Hc. destruct (riscv_get_prefix_class (String c p)); cbn [class_char] in E; try congruence;
      rewrite E; by destruct (upto_ q p).
Qed.

(** Whatever memory, setting and string: an accepted extension leaves a shorter string,
    which does not start with a digit, so the scan of the extensions ends. *)
Lemma one_extension_left check r c p :
  match one_extension outside isa_spec check r (String c p) with
  | inl _ => True
  | inr (_, p') => suffix p' p /\ isdigit (first p') = false
  end.
Proof.
  unfold one_extension. cbv zeta. fold (name_end (String c p)). pose proof (name_end_pos (String c p)) as Hq.
  destruct (riscv_parsing_subset_version (skip (name_end (String c p)) (String c p))) as [left_ v] eqn:Hv.
  repeat match goal with |- context [if ?b then inl _ else _] => destruct b end; try exact I.
  apply version_suffix in Hv as [Hv Hd]. split; [|exact Hd]. eapply suffix_trans; [exact Hv|].
  destruct (name_end _); [lia|]. cbn [skip rest]. apply skip_suffix.
Qed.

Lemma extensions_end check fuel : forall r p, (String.length p <= fuel)%nat ->
  exists b r', extensions outside isa_spec check fuel r p = Some (b, r').
Proof.
  induction fuel as [|fuel IH]; intros r [|c p] Hf; cbn [String.length] in Hf; try lia;
    cbn [extensions]; try (by exists true, r).
  destruct (c =? "_")%char; [apply IH; lia|]. pose proof (one_extension_left check r c p) as H1.
  destruct (one_extension outside isa_spec check r (String c p)) as [r' | [r' p']]; [by exists false, r'|].
  apply IH. destruct H1 as [Hs _]. pose proof (suffix_length _ _ Hs). lia.
Qed.

(** On a safe string an extension, accepted or not, leaves a well-formed list. *)
Lemma one_extension_good check r c p :
  good (subsets r) -> safe check (String c p) = true -> (c =? "_")%char = false ->
  match one_extension outside isa_spec check r (String c p) with
  | inl r' => good (subsets r')
  | inr (r', _) => good (subsets r')
  end.
Proof.
  unfold safe. rewrite !andb_true_iff. intros HL ((Hp & Hquiet) & Hz) Hu. unfold one_extension. cbv zeta.
  fold (name_end (String c p)). pose proof (name_end_pos (String c p)) as Hq.
  set (single := bool_decide _). change (first (String c p)) with c.
  destruct (single && (riscv_ext_order outside c =? 0)) eqn:Hord; [exact HL|].
  destruct (negb single && number_p _ _); [exact HL|].
  destruct (riscv_parsing_subset_version _) as [left_ v].
  destruct (negb single && check && negb _) eqn:Hrec; [exact HL|].
  assert (Hn : wf_name (upto_ (name_end (String c p)) (String c p)) = true).
  { unfold single in *. destruct (bool_decide_reflect (riscv_get_prefix_class (String c p) = RV_ISA_CLASS_SINGLE)) as [Hs|Hs].
    - unfold name_end. rewrite bool_decide_true by done. change (upto_ 1 (String c p)) with (String c (upto_ 0 p)).
      replace (upto_ 0 p) with "" by (by destruct p). cbn [andb] in Hord. apply Z.eqb_neq in Hord.
      cbn [quiet negb andb] in Hquiet. rewrite Hu, !orb_false_r in Hquiet. apply andb_true_iff in Hquiet as [Hquiet _].
      apply single_wf; [|done..]. unfold plain in Hp. cbn in Hp. by apply andb_true_iff in Hp as [? _].
    - destruct check; [|by apply unchecked_wf]. apply recognized_wf; [by apply upto_plain|]. by apply negb_false_iff in Hrec. }
  destruct (negb single && negb (left_ =? "")%string && _); by apply parse_add_good.
Qed.

Lemma extensions_total check fuel : forall r p,
  good (subsets r) -> safe check p = true -> (String.length p <= fuel)%nat ->
  exists b r', extensions outside isa_spec check fuel r p = Some (b, r') /\ good (subsets r').
Proof.
  induction fuel as [|fuel IH]; intros r [|c p] HL Hp Hf; cbn [String.length] in Hf; try lia;
    cbn [extensions]; try (by exists true, r).
  destruct (Ascii.eqb_spec c "_") as [-> | Hne].
  - apply IH; [done| |lia]. unfold safe in *. cbn [plain chars list_ascii_of_string forallb quiet z_standard] in *.
    exact Hp.
  - pose proof (one_extension_good check r c p HL Hp (proj2 (Ascii.eqb_neq _ _) Hne)) as H1.
    pose proof (one_extension_left check r c p) as H2.
    destruct (one_extension outside isa_spec check r (String c p)) as [r' | [r' p']]; [by exists false, r'|].
    destruct H2 as [Hs Hd]. apply IH; [done| |pose proof (suffix_length _ _ Hs); lia].
    eapply safe_suffix, Hp; [by apply suffix_cons|done].
Qed.

Lemma finish_total r : good (subsets r) ->
  exists b r', finish outside isa_spec r = Some (b, r') /\ good (subsets r').
Proof.
  intros HL. destruct (add_implicit_closes outside isa_spec (length riscv_implicit_subsets) r HL) as (r1 & E & HL1 & _).
  { unfold missing. apply length_filter. }
  unfold finish, riscv_parse_add_implicit_subsets. rewrite E. cbn [mbind option_bind].
  exists (riscv_parse_check_conflicts outside r1).1, (riscv_parse_check_conflicts outside r1).2.
  split; [by destruct (riscv_parse_check_conflicts outside r1)|].
  unfold riscv_parse_check_conflicts. cbv zeta.
  repeat match goal with |- context [if ?c then (false, ?x) else _] => destruct c end; exact HL1.
Qed.

Lemma default_arch_good r : good (subsets r) -> good (subsets (riscv_set_default_arch outside isa_spec r)).
Proof.
  unfold riscv_set_default_arch. pose proof tables_wf as Hw. revert Hw r.
  induction (mjoin riscv_all_supported_ext) as [|e l IH]; intros Hw r HL; [done|].
  cbn [forallb] in Hw. apply andb_true_iff in Hw as [He Hw]. cbn [fold_left]. apply IH; [done|].
  destruct (negb _); [by apply parse_add_good|done].
Qed.

Lemma not_upper_plain s : no_nul s = true -> existsb isupper (chars s) = false -> plain s = true.
Proof.
  unfold no_nul, plain. induction (chars s) as [|c l IH]; cbn; [done|].
  intros [Hc Hl]%andb_true_iff [Hu Hlu]%orb_false_iff. rewrite IH by done. rewrite andb_true_r.
  unfold isupper in Hu. unfold plain_char, tolower. rewrite Hu, Hc, Z.eqb_refl. done.
Qed.

(** What the parser reads safely: a string without terminators inside and safe behind the
    base. *)
Definition safe_arch (check : bool) (s : string) : bool :=
  no_nul s && quiet true (skip 4 s) && (check || z_standard (skip 4 s)).

Lemma parse_subset_good check r arch :
  good (subsets r) -> (forall s, arch = Some s -> safe_arch check s = true) ->
  exists b r', riscv_parse_subset outside isa_spec check r arch = Some (b, r') /\ good (subsets r').
Proof.
  intros HL Hn. destruct arch as [arch|]; cbn [riscv_parse_subset];
    [|by apply finish_total, default_arch_good].
  specialize (Hn arch eq_refl). unfold safe_arch in Hn. rewrite !andb_true_iff in Hn. destruct Hn as ((Hn & Hq) & Hz).
  destruct (existsb isupper (chars arch)) eqn:Hup; [by eexists _, _|].
  pose proof (not_upper_plain arch Hn Hup) as Hp.
  assert (Hs : safe check (skip 4 arch) = true).
  { unfold safe. rewrite Hq, Hz. by rewrite (suffix_plain _ _ (skip_suffix 4 arch) Hp). }
  assert (Hexts : forall x, exists b r',
    (let* (ok, r) := riscv_parse_extensions outside isa_spec check (r <| xlen := x |>) (skip 4 arch) in
     if (ok : bool) then finish outside isa_spec r else Some (false, r)) = Some (b, r') /\ good (subsets r')).
  { intros x. unfold riscv_parse_extensions. destruct (negb _); [by eexists _, _|].
    destruct (extensions_total check (String.length (skip 4 arch)) (r <| xlen := x |>) (skip 4 arch)) as (b & r' & -> & HL'); [done..|].
    cbn [mbind option_bind]. destruct b; [by apply finish_total|by eexists _, _]. }
  cbv zeta. destruct (String.prefix "rv32" arch); [apply Hexts|]. destruct (String.prefix "rv64" arch); [apply Hexts|].
  eexists _, _. split; [done|]. by destruct (_ =? _)%string.
Qed.

(** The strings of [.option arch]. *)
Definition safe_option (s : string) : bool := plain s && quiet_all s.
Lemma safe_option_suffix t s : suffix t s -> safe_option s = true -> safe_option t = true.
Proof.
  unfold safe_option. rewrite !andb_true_iff. intros Hs [Hp Hq]. split; [by eapply suffix_plain|by eapply quiet_all_suffix].
Qed.
Lemma safe_option_arch s : safe_option s = true -> safe_arch true s = true.
Proof.
  unfold safe_option, safe_arch. rewrite !andb_true_iff. intros [Hp Hq]. split_and!; [| |done].
  - unfold plain, no_nul, plain_char in *. revert Hp. induction (chars s) as [|c l IHl]; cbn; [done|].
    intros [[_ ->]%andb_true_iff Hl]%andb_true_iff. by apply IHl.
  - apply quiet_all_quiet. eapply quiet_all_suffix, Hq. apply skip_suffix.
Qed.

Lemma update_item_good r p :
  good (subsets r) -> safe_option p = true ->
  match update_item outside true r p with
  | inl r' => good (subsets r')
  | inr (n, _, left_) => wf_name n = true /\ suffix left_ p
  end.
Proof.
  intros HL Hs. pose proof Hs as [Hp Hq]%andb_true_iff. unfold update_item. cbv zeta.
  set (q := match look_back _ _ _ _ with O => _ | _ => _ end).
  destruct (_ && number_p p q); [exact HL|].
  destruct (riscv_parsing_subset_version (skip q p)) as [left_ v] eqn:Hv. set (n := upto_ q p).
  destruct (_ || _ || _) eqn:Hbad; [exact HL|]. destruct (_ || _ || _) in |- *; [exact HL|]. split.
  - apply orb_false_iff in Hbad as [[He H1]%orb_false_iff H2].
    pose proof (upto_plain q p Hp) as Hn. fold n in Hn. assert (En : upto_ q p = n) by done.
    clearbody n. destruct n as [|c [|d n]]; [done| |].
    + apply single_wf; [unfold plain in Hn; cbn in Hn; by apply andb_true_iff in Hn as [? _]| |].
      * destruct p as [|c' p]; [by destruct q|]. destruct q as [|q]; [done|].
        injection En as -> _. unfold quiet_all in Hq. cbn in Hq. by apply andb_true_iff in Hq as [? _].
      * cbn [String.length Nat.eqb andb first] in H1. by apply Z.eqb_neq in H1.
    + apply recognized_wf; [done|]. cbn [String.length Nat.ltb Nat.leb andb] in H2. by apply negb_false_iff in H2.
  - apply version_suffix in Hv as [Hv _]. eapply suffix_trans; [exact Hv|apply skip_suffix].
Qed.

Lemma update_loop_good fuel : forall r p,
  good (subsets r) -> safe_option p = true -> (String.length p < fuel)%nat ->
  exists b r', update_loop outside isa_spec true fuel r p = Some (b, r') /\ good (subsets r').
Proof.
  induction fuel as [|fuel IH]; intros r p HL Hp Hf; [lia|]. cbn [update_loop].
  destruct (negb _) eqn:Hsign.
  - apply parse_subset_good; [apply empty_wf|]. intros s [= <-]. by apply safe_option_arch.
  - assert (Hp1 : safe_option (rest p) = true) by (by eapply safe_option_suffix; [apply rest_suffix|]).
    assert (Hlen : (S (String.length (rest p)) <= String.length p)%nat) by (by destruct p; cbn [rest String.length]; [|lia]).
    pose proof (update_item_good r (rest p) HL Hp1) as Hitem.
    destruct (update_item outside true r (rest p)) as [r' | [[n v] left_]]; [by eexists _, _|].
    destruct Hitem as [Hn Hs]. cbv zeta. set (r1 := if (first p =? "-")%char then _ else _).
    assert (HL1 : good (subsets r1)).
    { unfold r1. destruct (first p =? "-")%char; [by apply remove_subset_map|by apply parse_add_good]. }
    destruct (first left_ =? ",")%char; [|by apply finish_total].
    pose proof (suffix_trans _ _ _ (rest_suffix left_) Hs) as Hs'.
    apply IH; [done|by eapply safe_option_suffix|]. apply suffix_length in Hs'. lia.
Qed.

(** [C25] The parser terminates. Reading the extensions of any string reaches an answer,
    whatever the memory around the letter table, the setting for unknown prefixed names
    and the state. From a well-formed list (sorted, names well-formed, tail on the last
    node), [riscv_parse_subset] reaches an answer and leaves a well-formed list, whether
    or not it reports an error, on the default architecture and on every string, in
    either case of letters, without a NUL, on which the code finds zeros where it
    indexes the letter table outside ([quiet]: so on every string whose digits follow a
    letter or a digit and which has only letters, digits and underscores behind the
    base); when unknown prefixed names are accepted, as in the disassembler, each z must
    have a standard letter behind it. With such names refused, as in the assembler,
    [riscv_update_subset] reaches an answer and leaves a well-formed list on every
    [.option arch] string without NUL and upper-case letters, additions, removals and
    resets included, if the memory that the characters other than letters select is
    zero. *)
Theorem parser_total check r arch p str :
  (exists b r', riscv_parse_extensions outside isa_spec check r p = Some (b, r')) /\
  (good (subsets r) ->
   ((forall s, arch = Some s -> safe_arch check s = true) ->
    exists b r', riscv_parse_subset outside isa_spec check r arch = Some (b, r') /\ good (subsets r')) /\
   (safe_option str = true ->
    exists b r', riscv_update_subset outside isa_spec true r str = Some (b, r') /\ good (subsets r'))).
Proof.
  split.
  - unfold riscv_parse_extensions. destruct (negb _); [by eexists _, _|by apply extensions_end].
  - intros HL. split; intros Hs; [by apply parse_subset_good|]. apply update_loop_good; [done..|lia].
Qed.

(** Letters, digits and underscores, no digit in front or behind an underscore: no memory
    outside the letter table is looked at. *)
Fixpoint inside (start : bool) (s : string) : bool :=
  match s with
  | "" => true
  | String c s => (letter c || (c =? "_")%char || (negb start && isdigit c)) && inside (c =? "_")%char s
  end.
Lemma inside_quiet s start : inside start s = true -> quiet start s = true.
Proof.
  revert start. induction s as [|c s IH]; intros start; [done|]. cbn [inside quiet].
  intros [-> H]%andb_true_iff. cbn [orb andb]. by apply IH.
Qed.
End Total.

(** * Instances *)

(** What the parser makes of the string, and the extensions in the list. *)
Definition parsed (arch : string) : subset_list :=
  match riscv_parse_subset zeros (Some ISA_SPEC_CLASS_20191213) true (Rps empty_list 0 []) (Some arch) with
  | Some (_, r) => subsets r
  | None => empty_list
  end.

Example arch_str_fits_witness :
  riscv_arch_str 32 (parsed "rv32imac_zba") = Some ("rv" ++ decimal 32 ++ texts (printed (head (parsed "rv32imac_zba")))) /\
  riscv_arch_str 32 (parsed "rv32imac_zba") = Some "rv32i2p1_m2p0_a2p1_c2p0_zmmul1p0_zba1p0".
Proof.
  split; [|vm_compute; reflexivity]. refine (proj1 (arch_str_fits 32 (parsed "rv32imac_zba") _ _)); [lia|].
  refine (bool_decide_unpack _ _). vm_compute. exact I.
Defined.

(** The list of "rv32gc" holds "g" with no known version; the printed rest reads back. *)
Definition gc_list : subset_list := listed (printed (head (parsed "rv32gc"))).
Lemma closed_check m : forallb (fun t => negb (applies_to m t)) riscv_implicit_subsets = true -> closed m.
Proof. intros H t Hin. rewrite forallb_forall in H. by apply negb_true_iff, H, list_elem_of_In. Qed.
Lemma gc_closed : closed (view gc_list).
Proof. apply closed_check. vm_compute. reflexivity. Qed.

Fixpoint sorted_check (l : list riscv_subset_t) : bool :=
  match l with
  | [] => true
  | s :: l => wf_name (sname s) && forallb (fun t => riscv_compare_subsets zeros (sname s) (sname t) <? 0) l && sorted_check l
  end.
Lemma listed_check l : sorted_check l = true -> list_wf zeros (listed l).
Proof.
  intros H. enough (Forall node_wf l /\ StronglySorted (node_before zeros) l) as [Hw Hs] by done.
  induction l as [|s l IH]; [by split; constructor|]. cbn [sorted_check] in H.
  rewrite !andb_true_iff in H. destruct H as ((Hn & Hl) & H). destruct (IH H) as [Hw Hs].
  split; constructor; try done. rewrite forallb_forall in Hl. apply Forall_forall. intros t Hin.
  apply Z.ltb_lt, Hl. by apply list_elem_of_In.
Qed.
Lemma gc_sorted : list_wf zeros gc_list.
Proof. apply listed_check. vm_compute. reflexivity. Qed.

Example print_parse_witness :
  let K := listed (printed (head (parsed "rv32gc"))) in
  map sname (head (parsed "rv32gc")) = ["i"; "g"; "m"; "a"; "f"; "d"; "c"; "zicsr"; "zifencei"; "zmmul"] /\
  exists t, riscv_arch_str 32 (parsed "rv32gc") = Some t /\
    riscv_parse_subset zeros (Some ISA_SPEC_CLASS_20191213) true (Rps empty_list 0 []) (Some t) = Some (true, Rps K 32 []).
Proof.
  split; [vm_compute; reflexivity|].
  refine (print_parse zeros (Some ISA_SPEC_CLASS_20191213) true 32 (parsed "rv32gc") 0 [] _ _ _ _ _ _ _).
  - by left.
  - refine (bool_decide_unpack _ _). vm_compute. exact I.
  - vm_compute. reflexivity.
  - refine (bool_decide_unpack _ _). vm_compute. exact I.
  - exact gc_sorted.
  - exact gc_closed.
  - vm_compute. reflexivity.
Defined.

(** An unordered string with an unknown name in it, read by the assembler and by the
    disassembler with any memory around the table, and an update that removes an
    extension. *)
Example parser_total_witness :
  (forall outside, exists b r', riscv_parse_subset outside (Some ISA_SPEC_CLASS_20191213) true (Rps empty_list 0 []) (Some "rv32ic2p0_zfoo") = Some (b, r') /\ list_wf outside (subsets r')) /\
  (forall outside, exists b r', riscv_parse_subset outside None false (Rps empty_list 0 []) (Some "rv32ic2p0_zfoo") = Some (b, r') /\ list_wf outside (subsets r')) /\
  (exists b r', riscv_update_subset zeros (Some ISA_SPEC_CLASS_20191213) true (Rps empty_list 0 []) "+zba,-c" = Some (b, r') /\ list_wf zeros (subsets r')).
Proof.
  split; [|split].
  - intros outside.
    refine (proj1 (proj2 (parser_total outside (Some ISA_SPEC_CLASS_20191213) true (Rps empty_list 0 []) (Some "rv32ic2p0_zfoo") "" "") (empty_wf _)) _).
    intros s [= <-]. unfold safe_arch. rewrite inside_quiet by reflexivity. reflexivity.
  - intros outside.
    refine (proj1 (proj2 (parser_total outside None false (Rps empty_list 0 []) (Some "rv32ic2p0_zfoo") "" "") (empty_wf _)) _).
    intros s [= <-]. unfold safe_arch. rewrite inside_quiet by reflexivity. reflexivity.
  - refine (proj2 (proj2 (parser_total zeros (Some ISA_SPEC_CLASS_20191213) true (Rps empty_list 0 []) None "" "+zba,-c") (empty_wf _)) _).
    vm_compute. reflexivity.
Defined.

(** A version number of more than 31 bits overflows the [int] it is read into: with the
    usual wrap-around this one is read as 2. *)
Theorem version_overflows : riscv_parsing_subset_version "4294967298p0" = ("", (2, 0)).
Proof. vm_compute. reflexivity. Qed.

(** [riscv_update_subset] does not refuse upper-case letters as [riscv_parse_subset]
    does: a vendor name keeps them, and being compared without regard to case it stands
    for the lower-case name as well, though its text is another one. *)
Theorem update_keeps_upper_case :
  match riscv_update_subset zeros (Some ISA_SPEC_CLASS_20191213) true (Rps empty_list 0 []) "+xFoo2p0" with
  | Some (ok, r) => ok = true /\ map sname (head (subsets r)) = ["xFoo"] /\ riscv_subset_supports zeros (subsets r) "xfoo" = true
  | None => False
  end.
Proof. vm_compute. repeat split. Qed.

(** [riscv_parse_extensions] indexes the letter table with any character, so the answer
    for a string such as "rv32i_3" is decided by the memory before the table: with a zero
    there the digit is an unknown extension and the string is refused, with a non-zero
    byte the string is accepted. *)
Theorem parse_reads_outside isa_spec :
  (exists r, riscv_parse_subset zeros isa_spec true (Rps empty_list 0 []) (Some "rv32i2p1_3") = Some (false, r)) /\
  (exists r, riscv_parse_subset (fun _ => 1) isa_spec true (Rps empty_list 0 []) (Some "rv32i2p1_3") = Some (true, r)).
Proof. destruct isa_spec as [[]|]; split; eexists; vm_compute; reflexivity. Qed.
End ArchString.
