(* ===== verification/RegNames.v ===== *)
(** The name tables of [opcodes/riscv-opc.c] that the assembler and the disassembler
    share: integer, floating-point and vector registers, rounding modes, fence sets, vector
    types and the constants of [fli]; and the decimal and hexadecimal conversions of
    [printf] that print operands. The numbers are proved to be read back by [strtol]. *)

From Stdlib Require Import SpecFloat Ascii.
From S2P Require Import Prelude Opcodes Assembler.
#[local] Open Scope string_scope.
#[local] Open Scope Z_scope.

Module RegNames.

(** * Tables *)

Definition riscv_gpr_names_numeric : list string := [
  "x0";   "x1";   "x2";   "x3";   "x4";   "x5";   "x6";   "x7";
  "x8";   "x9";   "x10";  "x11";  "x12";  "x13";  "x14";  "x15";
  "x16";  "x17";  "x18";  "x19";  "x20";  "x21";  "x22";  "x23";
  "x24";  "x25";  "x26";  "x27";  "x28";  "x29";  "x30";  "x31"].

Definition riscv_gpr_names_abi : list string := [
  "zero"; "ra";   "sp";   "gp";   "tp";   "t0";   "t1";   "t2";
  "s0";   "s1";   "a0";   "a1";   "a2";   "a3";   "a4";   "a5";
  "a6";   "a7";   "s2";   "s3";   "s4";   "s5";   "s6";   "s7";
  "s8";   "s9";   "s10";  "s11";  "t3";   "t4";   "t5";   "t6"].

Definition riscv_fpr_names_numeric : list string := [
  "f0";   "f1";   "f2";   "f3";   "f4";   "f5";   "f6";   "f7";
  "f8";   "f9";   "f10";  "f11";  "f12";  "f13";  "f14";  "f15";
  "f16";  "f17";  "f18";  "f19";  "f20";  "f21";  "f22";  "f23";
  "f24";  "f25";  "f26";  "f27";  "f28";  "f29";  "f30";  "f31"].

Definition riscv_fpr_names_abi : list string := [
  "ft0";  "ft1";  "ft2";  "ft3";  "ft4";  "ft5";  "ft6";  "ft7";
  "fs0";  "fs1";  "fa0";  "fa1";  "fa2";  "fa3";  "fa4";  "fa5";
  "fa6";  "fa7";  "fs2";  "fs3";  "fs4";  "fs5";  "fs6";  "fs7";
  "fs8";  "fs9";  "fs10"; "fs11"; "ft8";  "ft9";  "ft10"; "ft11"].

(** Rounding modes; [None] is [NULL]. *)
Definition riscv_rm : list (option string) :=
  [Some "rne"; Some "rtz"; Some "rdn"; Some "rup"; Some "rmm"; None; None; Some "dyn"].

(** FENCE: predecessor/successor sets. *)
Definition riscv_pred_succ : list (option string) := [
  None;     Some "w";  Some "r";  Some "rw";  Some "o";  Some "ow";  Some "or";  Some "orw";
  Some "i"; Some "iw"; Some "ir"; Some "irw"; Some "io"; Some "iow"; Some "ior"; Some "iorw"].

Definition riscv_vecr_names_numeric : list string := [
  "v0";   "v1";   "v2";   "v3";   "v4";   "v5";   "v6";   "v7";
  "v8";   "v9";   "v10";  "v11";  "v12";  "v13";  "v14";  "v15";
  "v16";  "v17";  "v18";  "v19";  "v20";  "v21";  "v22";  "v23";
  "v24";  "v25";  "v26";  "v27";  "v28";  "v29";  "v30";  "v31"].

Definition riscv_vecm_names_numeric : list string := ["v0.t"].

(** The [vsetvli] constants. *)
Definition riscv_vsew : list (option string) :=
  [Some "e8"; Some "e16"; Some "e32"; Some "e64"; None; None; None; None].
Definition riscv_vlmul : list (option string) :=
  [Some "m1"; Some "m2"; Some "m4"; Some "m8"; None; Some "mf8"; Some "mf4"; Some "mf2"].
Definition riscv_vta : list string := ["tu"; "ta"].
Definition riscv_vma : list string := ["mu"; "ma"].

(** The constants of [fli]: symbolic, or numeric where [NULL]. *)
Definition riscv_fli_symval : list (option string) :=
  [None; Some "min"] ++ repeat None 28 ++ [Some "inf"; Some "nan"].

(** A [float] literal [m * 2^e]. *)
Definition flt (m e : Z) : spec_float := binary_normalize 24 128 m e false.
Definition riscv_fli_numval : list spec_float := [
  flt (-1) 0; flt 0 0;    flt 1 (-16); flt 1 (-15); flt 1 (-8); flt 1 (-7); flt 1 (-4); flt 1 (-3);
  flt 1 (-2); flt 5 (-4); flt 6 (-4);  flt 7 (-4);  flt 1 (-1); flt 5 (-3); flt 6 (-3); flt 7 (-3);
  flt 1 0;    flt 5 (-2); flt 6 (-2);  flt 7 (-2);  flt 1 1;    flt 5 (-1); flt 6 (-1); flt 1 2;
  flt 1 3;    flt 1 4;    flt 1 7;     flt 1 8;     flt 1 15;   flt 1 16;   flt 0 0;    flt 0 0].

(** * Numbers *)

(** The digits of [n] in base [b], before [tail]. *)
Definition digit_char (d : Z) : ascii := ascii_of_nat (Z.to_nat (if d <? 10 then 48 + d else 87 + d)).
Fixpoint digits (b : Z) (fuel : nat) (n : Z) (tail : string) : string :=
  match fuel with
  | O => tail
  | S fuel =>
      let tail := String (digit_char (n mod b)) tail in
      if n / b =? 0 then tail else digits b fuel (n / b) tail
  end.

(** [%lu] and [%li] of a 64-bit [long], [%d] of an [int]: twenty digits suffice. *)
Definition decimal (n : Z) : string := digits 10 20 n "".
Definition signed_decimal (n : Z) : string := if n <? 0 then "-" ++ decimal (- n) else decimal n.
(** [%x] and its zero-padded forms, of a number of at most 64 bits. *)
Definition hex (n : Z) : string := digits 16 16 n "".
Fixpoint pad (k : nat) (s : string) : string :=
  match k with O => s | S k => if (String.length s <? S k)%nat then String "0" (pad k s) else s end.
Definition hex_padded (k : nat) (n : Z) : string := pad k (hex n).

(** [%a] of a finite [float], which is passed as a [double]: a leading digit 1, the
    fraction's hexadecimal digits without trailing zeros, the binary exponent. *)
Fixpoint fraction (fuel : nat) (f : Z) : string :=
  match fuel with
  | O => ""
  | S fuel => if f =? 0 then "" else
      String (digit_char (f / 2 ^ 48)) (fraction fuel (Z.shiftl (f mod 2 ^ 48) 4))
  end.
Definition hex_float (x : spec_float) : string :=
  match x with
  | S754_zero s => (if s then "-" else "") ++ "0x0p+0"
  | S754_finite s m e =>
      let k := Z.log2 (Zpos m) in
      let f := fraction 13 (Z.shiftl (Zpos m - 2 ^ k) (52 - k)) in
      (if s then "-" else "") ++ "0x1" ++ (if String.eqb f "" then "" else "." ++ f) ++ "p"
      ++ (if e + k <? 0 then "" else "+") ++ signed_decimal (e + k)
  | S754_infinity s => (if s then "-" else "") ++ "inf"
  | S754_nan => "nan"
  end.

Example fli_text :
  map hex_float riscv_fli_numval =
  ["-0x1p+0"; "0x0p+0"; "0x1p-16"; "0x1p-15"; "0x1p-8"; "0x1p-7"; "0x1p-4"; "0x1p-3";
   "0x1p-2"; "0x1.4p-2"; "0x1.8p-2"; "0x1.cp-2"; "0x1p-1"; "0x1.4p-1"; "0x1.8p-1"; "0x1.cp-1";
   "0x1p+0"; "0x1.4p+0"; "0x1.8p+0"; "0x1.cp+0"; "0x1p+1"; "0x1.4p+1"; "0x1.8p+1"; "0x1p+2";
   "0x1p+3"; "0x1p+4"; "0x1p+7"; "0x1p+8"; "0x1p+15"; "0x1p+16"; "0x0p+0"; "0x0p+0"].
Proof. by vm_compute. Qed.

(** * Lookups *)

Lemma lookup_total_Z {A} (l : list A) i : 0 <= i < Z.of_nat (length l) -> exists x, l !! Z.to_nat i = Some x.
Proof. intros. apply lookup_lt_is_Some_2. lia. Qed.

Lemma gpr_names_nodup : NoDup riscv_gpr_names_abi /\ NoDup riscv_gpr_names_numeric.
Proof. split; (refine (bool_decide_unpack _ _); vm_compute; exact I). Qed.

(** * Reading numbers back *)

Lemma digit_char_read d : 0 <= d < 10 -> Assembler.digit (digit_char d) = Some d.
Proof.
  intros H. unfold digit_char, Assembler.digit. destruct (Z.ltb_spec d 10); [|lia].
  rewrite nat_ascii_embedding by lia. rewrite Z2Nat.id by lia.
  destruct (Z.leb_spec 48 (48 + d)), (Z.leb_spec (48 + d) 57); cbn; [f_equal|..]; lia.
Qed.

(** A string that does not start with a digit. *)
Definition no_digit (s : string) : Prop :=
  match s with EmptyString => True | String c _ => Assembler.digit c = None end.

Lemma strtol_stop acc s : no_digit s -> Assembler.strtol acc s = (acc, s).
Proof. destruct s; cbn; [done|]. by intros ->. Qed.

Lemma strtol_digits fuel n acc tail :
  0 <= n < 10 ^ Z.of_nat fuel -> (0 < fuel)%nat ->
  exists k, 0 <= k /\ n < 10 ^ k /\
    Assembler.strtol acc (digits 10 fuel n tail) = Assembler.strtol (10 ^ k * acc + n) tail.
Proof.
  revert n acc tail. induction fuel as [|fuel IH]; intros n acc tail Hn Hf; [lia|]. cbn [digits].
  pose proof (Z.mod_pos_bound n 10 eq_refl) as Hd. pose proof (Z.div_mod n 10 ltac:(lia)) as Hdm.
  destruct (Z.eqb_spec (n / 10) 0) as [E|E].
  - exists 1. repeat split; [lia..|]. cbn [Assembler.strtol].
    rewrite digit_char_read by done. f_equal. lia.
  - assert (Hp : 10 ^ Z.of_nat (S fuel) = 10 * 10 ^ Z.of_nat fuel).
    { rewrite Nat2Z.inj_succ, Z.pow_succ_r by lia. done. }
    assert (0 < n / 10) by (pose proof (Z.div_pos n 10); lia).
    assert (Hq : 0 <= n / 10 < 10 ^ Z.of_nat fuel) by (split; [lia|apply Z.div_lt_upper_bound; lia]).
    assert (Hf' : (0 < fuel)%nat) by (destruct fuel; [cbn in Hq|]; lia).
    destruct (IH (n / 10) acc (String (digit_char (n mod 10)) tail) Hq Hf') as (k & Hk & Hlt & ->).
    exists (k + 1). rewrite Z.pow_add_r by lia. repeat split; [lia|nia|].
    cbn [Assembler.strtol]. rewrite digit_char_read by done. f_equal. lia.
Qed.

Lemma strtol_decimal n tail :
  urange 64 n -> no_digit tail -> Assembler.strtol 0 (decimal n ++ tail) = (n, tail).
Proof.
  intros Hn Ht.
  assert (Happ : forall fuel n t, digits 10 fuel n t ++ tail = digits 10 fuel n (t ++ tail)).
  { intros fuel. induction fuel as [|fuel IH]; intros m t; [done|]. cbn [digits].
    destruct (m / 10 =? 0); [done|]. by rewrite IH. }
  unfold decimal. rewrite Happ. change ("" ++ tail) with tail. unfold urange in Hn.
  destruct (strtol_digits 20 n 0 tail) as (k & _ & _ & ->); [cbn; lia|lia|].
  rewrite strtol_stop by done. f_equal. lia.
Qed.
End RegNames.
