(* ===== verification/CsrTable.v ===== *)
(** The control and status registers of [include/opcode/riscv-opc.h]: one row per
    [DECLARE_CSR] and [DECLARE_CSR_ALIAS] in the header's order, with the number its
    [CSR_] constant stands for, its class and the privileged specifications it belongs to;
    and the table of names the disassembler builds from them. *)

From S2P Require Import Prelude.
#[local] Open Scope string_scope.
#[local] Open Scope Z_scope.

Module CsrTable.

(** The privileged specifications of [riscv_spec_class], in order. *)
Inductive priv_spec := P_NONE | P_1P9P1 | P_1P10 | P_1P11 | P_1P12 | P_DRAFT.
Definition priv_num (p : priv_spec) : Z :=
  match p with P_NONE => 0 | P_1P9P1 => 1 | P_1P10 => 2 | P_1P11 => 3 | P_1P12 => 4 | P_DRAFT => 5 end.

Inductive riscv_csr_class :=
  | CSR_CLASS_NONE | CSR_CLASS_I | CSR_CLASS_I_32 | CSR_CLASS_F | CSR_CLASS_ZKR | CSR_CLASS_V
  | CSR_CLASS_DEBUG | CSR_CLASS_H | CSR_CLASS_H_32 | CSR_CLASS_SMAIA | CSR_CLASS_SMAIA_32
  | CSR_CLASS_SMSTATEEN | CSR_CLASS_SMSTATEEN_32 | CSR_CLASS_SSAIA | CSR_CLASS_SSAIA_AND_H
  | CSR_CLASS_SSAIA_32 | CSR_CLASS_SSAIA_AND_H_32 | CSR_CLASS_SSSTATEEN | CSR_CLASS_SSSTATEEN_AND_H
  | CSR_CLASS_SSSTATEEN_AND_H_32 | CSR_CLASS_SSCOFPMF | CSR_CLASS_SSCOFPMF_32 | CSR_CLASS_SSTC
  | CSR_CLASS_SSTC_AND_H | CSR_CLASS_SSTC_32 | CSR_CLASS_SSTC_AND_H_32.

Record csr := Csr { csr_name : string; csr_num : Z; csr_class : riscv_csr_class; define_version : priv_spec; abort_version : priv_spec }.

(** Unprivileged Counter/Timers CSRs. *)
Definition csrs_counters : list csr := [
  Csr "cycle" 0xc00 CSR_CLASS_I P_1P9P1 P_DRAFT;
  Csr "time" 0xc01 CSR_CLASS_I P_1P9P1 P_DRAFT;
  Csr "instret" 0xc02 CSR_CLASS_I P_1P9P1 P_DRAFT;
  Csr "hpmcounter3" 0xc03 CSR_CLASS_I P_1P9P1 P_DRAFT;
  Csr "hpmcounter4" 0xc04 CSR_CLASS_I P_1P9P1 P_DRAFT;
  Csr "hpmcounter5" 0xc05 CSR_CLASS_I P_1P9P1 P_DRAFT;
  Csr "hpmcounter6" 0xc06 CSR_CLASS_I P_1P9P1 P_DRAFT;
  Csr "hpmcounter7" 0xc07 CSR_CLASS_I P_1P9P1 P_DRAFT;
  Csr "hpmcounter8" 0xc08 CSR_CLASS_I P_1P9P1 P_DRAFT;
  Csr "hpmcounter9" 0xc09 CSR_CLASS_I P_1P9P1 P_DRAFT;
  Csr "hpmcounter10" 0xc0a CSR_CLASS_I P_1P9P1 P_DRAFT;
  Csr "hpmcounter11" 0xc0b CSR_CLASS_I P_1P9P1 P_DRAFT;
  Csr "hpmcounter12" 0xc0c CSR_CLASS_I P_1P9P1 P_DRAFT;
  Csr "hpmcounter13" 0xc0d CSR_CLASS_I P_1P9P1 P_DRAFT;
  Csr "hpmcounter14" 0xc0e CSR_CLASS_I P_1P9P1 P_DRAFT;
  Csr "hpmcounter15" 0xc0f CSR_CLASS_I P_1P9P1 P_DRAFT;
  Csr "hpmcounter16" 0xc10 CSR_CLASS_I P_1P9P1 P_DRAFT;
  Csr "hpmcounter17" 0xc11 CSR_CLASS_I P_1P9P1 P_DRAFT;
  Csr "hpmcounter18" 0xc12 CSR_CLASS_I P_1P9P1 P_DRAFT;
  Csr "hpmcounter19" 0xc13 CSR_CLASS_I P_1P9P1 P_DRAFT;
  Csr "hpmcounter20" 0xc14 CSR_CLASS_I P_1P9P1 P_DRAFT;
  Csr "hpmcounter21" 0xc15 CSR_CLASS_I P_1P9P1 P_DRAFT;
  Csr "hpmcounter22" 0xc16 CSR_CLASS_I P_1P9P1 P_DRAFT;
  Csr "hpmcounter23" 0xc17 CSR_CLASS_I P_1P9P1 P_DRAFT;
  Csr "hpmcounter24" 0xc18 CSR_CLASS_I P_1P9P1 P_DRAFT;
  Csr "hpmcounter25" 0xc19 CSR_CLASS_I P_1P9P1 P_DRAFT;
  Csr "hpmcounter26" 0xc1a CSR_CLASS_I P_1P9P1 P_DRAFT;
  Csr "hpmcounter27" 0xc1b CSR_CLASS_I P_1P9P1 P_DRAFT;
  Csr "hpmcounter28" 0xc1c CSR_CLASS_I P_1P9P1 P_DRAFT;
  Csr "hpmcounter29" 0xc1d CSR_CLASS_I P_1P9P1 P_DRAFT;
  Csr "hpmcounter30" 0xc1e CSR_CLASS_I P_1P9P1 P_DRAFT;
  Csr "hpmcounter31" 0xc1f CSR_CLASS_I P_1P9P1 P_DRAFT;
  Csr "cycleh" 0xc80 CSR_CLASS_I_32 P_1P9P1 P_DRAFT;
  Csr "timeh" 0xc81 CSR_CLASS_I_32 P_1P9P1 P_DRAFT;
  Csr "instreth" 0xc82 CSR_CLASS_I_32 P_1P9P1 P_DRAFT;
  Csr "hpmcounter3h" 0xc83 CSR_CLASS_I_32 P_1P9P1 P_DRAFT;
  Csr "hpmcounter4h" 0xc84 CSR_CLASS_I_32 P_1P9P1 P_DRAFT;
  Csr "hpmcounter5h" 0xc85 CSR_CLASS_I_32 P_1P9P1 P_DRAFT;
  Csr "hpmcounter6h" 0xc86 CSR_CLASS_I_32 P_1P9P1 P_DRAFT;
  Csr "hpmcounter7h" 0xc87 CSR_CLASS_I_32 P_1P9P1 P_DRAFT;
  Csr "hpmcounter8h" 0xc88 CSR_CLASS_I_32 P_1P9P1 P_DRAFT;
  Csr "hpmcounter9h" 0xc89 CSR_CLASS_I_32 P_1P9P1 P_DRAFT;
  Csr "hpmcounter10h" 0xc8a CSR_CLASS_I_32 P_1P9P1 P_DRAFT;
  Csr "hpmcounter11h" 0xc8b CSR_CLASS_I_32 P_1P9P1 P_DRAFT;
  Csr "hpmcounter12h" 0xc8c CSR_CLASS_I_32 P_1P9P1 P_DRAFT;
  Csr "hpmcounter13h" 0xc8d CSR_CLASS_I_32 P_1P9P1 P_DRAFT;
  Csr "hpmcounter14h" 0xc8e CSR_CLASS_I_32 P_1P9P1 P_DRAFT;
  Csr "hpmcounter15h" 0xc8f CSR_CLASS_I_32 P_1P9P1 P_DRAFT;
  Csr "hpmcounter16h" 0xc90 CSR_CLASS_I_32 P_1P9P1 P_DRAFT;
  Csr "hpmcounter17h" 0xc91 CSR_CLASS_I_32 P_1P9P1 P_DRAFT;
  Csr "hpmcounter18h" 0xc92 CSR_CLASS_I_32 P_1P9P1 P_DRAFT;
  Csr "hpmcounter19h" 0xc93 CSR_CLASS_I_32 P_1P9P1 P_DRAFT;
  Csr "hpmcounter20h" 0xc94 CSR_CLASS_I_32 P_1P9P1 P_DRAFT;
  Csr "hpmcounter21h" 0xc95 CSR_CLASS_I_32 P_1P9P1 P_DRAFT;
  Csr "hpmcounter22h" 0xc96 CSR_CLASS_I_32 P_1P9P1 P_DRAFT;
  Csr "hpmcounter23h" 0xc97 CSR_CLASS_I_32 P_1P9P1 P_DRAFT;
  Csr "hpmcounter24h" 0xc98 CSR_CLASS_I_32 P_1P9P1 P_DRAFT;
  Csr "hpmcounter25h" 0xc99 CSR_CLASS_I_32 P_1P9P1 P_DRAFT;
  Csr "hpmcounter26h" 0xc9a CSR_CLASS_I_32 P_1P9P1 P_DRAFT;
  Csr "hpmcounter27h" 0xc9b CSR_CLASS_I_32 P_1P9P1 P_DRAFT;
  Csr "hpmcounter28h" 0xc9c CSR_CLASS_I_32 P_1P9P1 P_DRAFT;
  Csr "hpmcounter29h" 0xc9d CSR_CLASS_I_32 P_1P9P1 P_DRAFT;
  Csr "hpmcounter30h" 0xc9e CSR_CLASS_I_32 P_1P9P1 P_DRAFT;
  Csr "hpmcounter31h" 0xc9f CSR_CLASS_I_32 P_1P9P1 P_DRAFT].

(** Privileged Supervisor CSRs. *)
Definition csrs_supervisor : list csr := [
  Csr "sstatus" 0x100 CSR_CLASS_I P_1P9P1 P_DRAFT;
  Csr "sie" 0x104 CSR_CLASS_I P_1P9P1 P_DRAFT;
  Csr "stvec" 0x105 CSR_CLASS_I P_1P9P1 P_DRAFT;
  Csr "scounteren" 0x106 CSR_CLASS_I P_1P10 P_DRAFT;
  Csr "senvcfg" 0x10a CSR_CLASS_I P_1P12 P_DRAFT;
  Csr "sscratch" 0x140 CSR_CLASS_I P_1P9P1 P_DRAFT;
  Csr "sepc" 0x141 CSR_CLASS_I P_1P9P1 P_DRAFT;
  Csr "scause" 0x142 CSR_CLASS_I P_1P9P1 P_DRAFT;
  Csr "stval" 0x143 CSR_CLASS_I P_1P10 P_DRAFT;
  Csr "sip" 0x144 CSR_CLASS_I P_1P9P1 P_DRAFT;
  Csr "satp" 0x180 CSR_CLASS_I P_1P10 P_DRAFT].

(** Privileged Machine CSRs, first half. *)
Definition csrs_machine : list csr := [
  Csr "mvendorid" 0xf11 CSR_CLASS_I P_1P9P1 P_DRAFT;
  Csr "marchid" 0xf12 CSR_CLASS_I P_1P9P1 P_DRAFT;
  Csr "mimpid" 0xf13 CSR_CLASS_I P_1P9P1 P_DRAFT;
  Csr "mhartid" 0xf14 CSR_CLASS_I P_1P9P1 P_DRAFT;
  Csr "mconfigptr" 0xf15 CSR_CLASS_I P_1P12 P_DRAFT;
  Csr "mstatus" 0x300 CSR_CLASS_I P_1P9P1 P_DRAFT;
  Csr "misa" 0x301 CSR_CLASS_I P_1P9P1 P_DRAFT;
  Csr "medeleg" 0x302 CSR_CLASS_I P_1P9P1 P_DRAFT;
  Csr "mideleg" 0x303 CSR_CLASS_I P_1P9P1 P_DRAFT;
  Csr "mie" 0x304 CSR_CLASS_I P_1P9P1 P_DRAFT;
  Csr "mtvec" 0x305 CSR_CLASS_I P_1P9P1 P_DRAFT;
  Csr "mcounteren" 0x306 CSR_CLASS_I P_1P10 P_DRAFT;
  Csr "mstatush" 0x310 CSR_CLASS_I_32 P_1P12 P_DRAFT;
  Csr "mscratch" 0x340 CSR_CLASS_I P_1P9P1 P_DRAFT;
  Csr "mepc" 0x341 CSR_CLASS_I P_1P9P1 P_DRAFT;
  Csr "mcause" 0x342 CSR_CLASS_I P_1P9P1 P_DRAFT;
  Csr "mtval" 0x343 CSR_CLASS_I P_1P10 P_DRAFT;
  Csr "mip" 0x344 CSR_CLASS_I P_1P9P1 P_DRAFT;
  Csr "mtinst" 0x34a CSR_CLASS_I P_1P12 P_DRAFT;
  Csr "mtval2" 0x34b CSR_CLASS_I P_1P12 P_DRAFT;
  Csr "menvcfg" 0x30a CSR_CLASS_I P_1P12 P_DRAFT;
  Csr "menvcfgh" 0x31a CSR_CLASS_I_32 P_1P12 P_DRAFT;
  Csr "mseccfg" 0x747 CSR_CLASS_I P_1P12 P_DRAFT;
  Csr "mseccfgh" 0x757 CSR_CLASS_I_32 P_1P12 P_DRAFT;
  Csr "pmpcfg0" 0x3a0 CSR_CLASS_I P_1P10 P_DRAFT;
  Csr "pmpcfg1" 0x3a1 CSR_CLASS_I_32 P_1P10 P_DRAFT;
  Csr "pmpcfg2" 0x3a2 CSR_CLASS_I P_1P10 P_DRAFT;
  Csr "pmpcfg3" 0x3a3 CSR_CLASS_I_32 P_1P10 P_DRAFT;
  Csr "pmpcfg4" 0x3a4 CSR_CLASS_I P_1P12 P_DRAFT;
  Csr "pmpcfg5" 0x3a5 CSR_CLASS_I_32 P_1P12 P_DRAFT;
  Csr "pmpcfg6" 0x3a6 CSR_CLASS_I P_1P12 P_DRAFT;
  Csr "pmpcfg7" 0x3a7 CSR_CLASS_I_32 P_1P12 P_DRAFT;
  Csr "pmpcfg8" 0x3a8 CSR_CLASS_I P_1P12 P_DRAFT;
  Csr "pmpcfg9" 0x3a9 CSR_CLASS_I_32 P_1P12 P_DRAFT;
  Csr "pmpcfg10" 0x3aa CSR_CLASS_I P_1P12 P_DRAFT;
  Csr "pmpcfg11" 0x3ab CSR_CLASS_I_32 P_1P12 P_DRAFT;
  Csr "pmpcfg12" 0x3ac CSR_CLASS_I P_1P12 P_DRAFT;
  Csr "pmpcfg13" 0x3ad CSR_CLASS_I_32 P_1P12 P_DRAFT;
  Csr "pmpcfg14" 0x3ae CSR_CLASS_I P_1P12 P_DRAFT;
  Csr "pmpcfg15" 0x3af CSR_CLASS_I_32 P_1P12 P_DRAFT;
  Csr "pmpaddr0" 0x3b0 CSR_CLASS_I P_1P10 P_DRAFT;
  Csr "pmpaddr1" 0x3b1 CSR_CLASS_I P_1P10 P_DRAFT;
  Csr "pmpaddr2" 0x3b2 CSR_CLASS_I P_1P10 P_DRAFT;
  Csr "pmpaddr3" 0x3b3 CSR_CLASS_I P_1P10 P_DRAFT;
  Csr "pmpaddr4" 0x3b4 CSR_CLASS_I P_1P10 P_DRAFT;
  Csr "pmpaddr5" 0x3b5 CSR_CLASS_I P_1P10 P_DRAFT;
  Csr "pmpaddr6" 0x3b6 CSR_CLASS_I P_1P10 P_DRAFT;
  Csr "pmpaddr7" 0x3b7 CSR_CLASS_I P_1P10 P_DRAFT;
  Csr "pmpaddr8" 0x3b8 CSR_CLASS_I P_1P10 P_DRAFT;
  Csr "pmpaddr9" 0x3b9 CSR_CLASS_I P_1P10 P_DRAFT;
  Csr "pmpaddr10" 0x3ba CSR_CLASS_I P_1P10 P_DRAFT;
  Csr "pmpaddr11" 0x3bb CSR_CLASS_I P_1P10 P_DRAFT;
  Csr "pmpaddr12" 0x3bc CSR_CLASS_I P_1P10 P_DRAFT;
  Csr "pmpaddr13" 0x3bd CSR_CLASS_I P_1P10 P_DRAFT;
  Csr "pmpaddr14" 0x3be CSR_CLASS_I P_1P10 P_DRAFT;
  Csr "pmpaddr15" 0x3bf CSR_CLASS_I P_1P10 P_DRAFT;
  Csr "pmpaddr16" 0x3c0 CSR_CLASS_I P_1P12 P_DRAFT;
  Csr "pmpaddr17" 0x3c1 CSR_CLASS_I P_1P12 P_DRAFT;
  Csr "pmpaddr18" 0x3c2 CSR_CLASS_I P_1P12 P_DRAFT;
  Csr "pmpaddr19" 0x3c3 CSR_CLASS_I P_1P12 P_DRAFT;
  Csr "pmpaddr20" 0x3c4 CSR_CLASS_I P_1P12 P_DRAFT;
  Csr "pmpaddr21" 0x3c5 CSR_CLASS_I P_1P12 P_DRAFT;
  Csr "pmpaddr22" 0x3c6 CSR_CLASS_I P_1P12 P_DRAFT;
  Csr "pmpaddr23" 0x3c7 CSR_CLASS_I P_1P12 P_DRAFT;
  Csr "pmpaddr24" 0x3c8 CSR_CLASS_I P_1P12 P_DRAFT;
  Csr "pmpaddr25" 0x3c9 CSR_CLASS_I P_1P12 P_DRAFT;
  Csr "pmpaddr26" 0x3ca CSR_CLASS_I P_1P12 P_DRAFT;
  Csr "pmpaddr27" 0x3cb CSR_CLASS_I P_1P12 P_DRAFT;
  Csr "pmpaddr28" 0x3cc CSR_CLASS_I P_1P12 P_DRAFT;
  Csr "pmpaddr29" 0x3cd CSR_CLASS_I P_1P12 P_DRAFT;
  Csr "pmpaddr30" 0x3ce CSR_CLASS_I P_1P12 P_DRAFT;
  Csr "pmpaddr31" 0x3cf CSR_CLASS_I P_1P12 P_DRAFT;
  Csr "pmpaddr32" 0x3d0 CSR_CLASS_I P_1P12 P_DRAFT;
  Csr "pmpaddr33" 0x3d1 CSR_CLASS_I P_1P12 P_DRAFT;
  Csr "pmpaddr34" 0x3d2 CSR_CLASS_I P_1P12 P_DRAFT;
  Csr "pmpaddr35" 0x3d3 CSR_CLASS_I P_1P12 P_DRAFT;
  Csr "pmpaddr36" 0x3d4 CSR_CLASS_I P_1P12 P_DRAFT;
  Csr "pmpaddr37" 0x3d5 CSR_CLASS_I P_1P12 P_DRAFT;
  Csr "pmpaddr38" 0x3d6 CSR_CLASS_I P_1P12 P_DRAFT;
  Csr "pmpaddr39" 0x3d7 CSR_CLASS_I P_1P12 P_DRAFT;
  Csr "pmpaddr40" 0x3d8 CSR_CLASS_I P_1P12 P_DRAFT;
  Csr "pmpaddr41" 0x3d9 CSR_CLASS_I P_1P12 P_DRAFT;
  Csr "pmpaddr42" 0x3da CSR_CLASS_I P_1P12 P_DRAFT;
  Csr "pmpaddr43" 0x3db CSR_CLASS_I P_1P12 P_DRAFT;
  Csr "pmpaddr44" 0x3dc CSR_CLASS_I P_1P12 P_DRAFT;
  Csr "pmpaddr45" 0x3dd CSR_CLASS_I P_1P12 P_DRAFT;
  Csr "pmpaddr46" 0x3de CSR_CLASS_I P_1P12 P_DRAFT;
  Csr "pmpaddr47" 0x3df CSR_CLASS_I P_1P12 P_DRAFT;
  Csr "pmpaddr48" 0x3e0 CSR_CLASS_I P_1P12 P_DRAFT;
  Csr "pmpaddr49" 0x3e1 CSR_CLASS_I P_1P12 P_DRAFT;
  Csr "pmpaddr50" 0x3e2 CSR_CLASS_I P_1P12 P_DRAFT;
  Csr "pmpaddr51" 0x3e3 CSR_CLASS_I P_1P12 P_DRAFT;
  Csr "pmpaddr52" 0x3e4 CSR_CLASS_I P_1P12 P_DRAFT;
  Csr "pmpaddr53" 0x3e5 CSR_CLASS_I P_1P12 P_DRAFT;
  Csr "pmpaddr54" 0x3e6 CSR_CLASS_I P_1P12 P_DRAFT;
  Csr "pmpaddr55" 0x3e7 CSR_CLASS_I P_1P12 P_DRAFT;
  Csr "pmpaddr56" 0x3e8 CSR_CLASS_I P_1P12 P_DRAFT;
  Csr "pmpaddr57" 0x3e9 CSR_CLASS_I P_1P12 P_DRAFT].

(** Privileged Machine CSRs, second half. *)
Definition csrs_machine_2 : list csr := [
  Csr "pmpaddr58" 0x3ea CSR_CLASS_I P_1P12 P_DRAFT;
  Csr "pmpaddr59" 0x3eb CSR_CLASS_I P_1P12 P_DRAFT;
  Csr "pmpaddr60" 0x3ec CSR_CLASS_I P_1P12 P_DRAFT;
  Csr "pmpaddr61" 0x3ed CSR_CLASS_I P_1P12 P_DRAFT;
  Csr "pmpaddr62" 0x3ee CSR_CLASS_I P_1P12 P_DRAFT;
  Csr "pmpaddr63" 0x3ef CSR_CLASS_I P_1P12 P_DRAFT;
  Csr "mcycle" 0xb00 CSR_CLASS_I P_1P9P1 P_DRAFT;
  Csr "minstret" 0xb02 CSR_CLASS_I P_1P9P1 P_DRAFT;
  Csr "mhpmcounter3" 0xb03 CSR_CLASS_I P_1P9P1 P_DRAFT;
  Csr "mhpmcounter4" 0xb04 CSR_CLASS_I P_1P9P1 P_DRAFT;
  Csr "mhpmcounter5" 0xb05 CSR_CLASS_I P_1P9P1 P_DRAFT;
  Csr "mhpmcounter6" 0xb06 CSR_CLASS_I P_1P9P1 P_DRAFT;
  Csr "mhpmcounter7" 0xb07 CSR_CLASS_I P_1P9P1 P_DRAFT;
  Csr "mhpmcounter8" 0xb08 CSR_CLASS_I P_1P9P1 P_DRAFT;
  Csr "mhpmcounter9" 0xb09 CSR_CLASS_I P_1P9P1 P_DRAFT;
  Csr "mhpmcounter10" 0xb0a CSR_CLASS_I P_1P9P1 P_DRAFT;
  Csr "mhpmcounter11" 0xb0b CSR_CLASS_I P_1P9P1 P_DRAFT;
  Csr "mhpmcounter12" 0xb0c CSR_CLASS_I P_1P9P1 P_DRAFT;
  Csr "mhpmcounter13" 0xb0d CSR_CLASS_I P_1P9P1 P_DRAFT;
  Csr "mhpmcounter14" 0xb0e CSR_CLASS_I P_1P9P1 P_DRAFT;
  Csr "mhpmcounter15" 0xb0f CSR_CLASS_I P_1P9P1 P_DRAFT;
  Csr "mhpmcounter16" 0xb10 CSR_CLASS_I P_1P9P1 P_DRAFT;
  Csr "mhpmcounter17" 0xb11 CSR_CLASS_I P_1P9P1 P_DRAFT;
  Csr "mhpmcounter18" 0xb12 CSR_CLASS_I P_1P9P1 P_DRAFT;
  Csr "mhpmcounter19" 0xb13 CSR_CLASS_I P_1P9P1 P_DRAFT;
  Csr "mhpmcounter20" 0xb14 CSR_CLASS_I P_1P9P1 P_DRAFT;
  Csr "mhpmcounter21" 0xb15 CSR_CLASS_I P_1P9P1 P_DRAFT;
  Csr "mhpmcounter22" 0xb16 CSR_CLASS_I P_1P9P1 P_DRAFT;
  Csr "mhpmcounter23" 0xb17 CSR_CLASS_I P_1P9P1 P_DRAFT;
  Csr "mhpmcounter24" 0xb18 CSR_CLASS_I P_1P9P1 P_DRAFT;
  Csr "mhpmcounter25" 0xb19 CSR_CLASS_I P_1P9P1 P_DRAFT;
  Csr "mhpmcounter26" 0xb1a CSR_CLASS_I P_1P9P1 P_DRAFT;
  Csr "mhpmcounter27" 0xb1b CSR_CLASS_I P_1P9P1 P_DRAFT;
  Csr "mhpmcounter28" 0xb1c CSR_CLASS_I P_1P9P1 P_DRAFT;
  Csr "mhpmcounter29" 0xb1d CSR_CLASS_I P_1P9P1 P_DRAFT;
  Csr "mhpmcounter30" 0xb1e CSR_CLASS_I P_1P9P1 P_DRAFT;
  Csr "mhpmcounter31" 0xb1f CSR_CLASS_I P_1P9P1 P_DRAFT;
  Csr "mcycleh" 0xb80 CSR_CLASS_I_32 P_1P9P1 P_DRAFT;
  Csr "minstreth" 0xb82 CSR_CLASS_I_32 P_1P9P1 P_DRAFT;
  Csr "mhpmcounter3h" 0xb83 CSR_CLASS_I_32 P_1P9P1 P_DRAFT;
  Csr "mhpmcounter4h" 0xb84 CSR_CLASS_I_32 P_1P9P1 P_DRAFT;
  Csr "mhpmcounter5h" 0xb85 CSR_CLASS_I_32 P_1P9P1 P_DRAFT;
  Csr "mhpmcounter6h" 0xb86 CSR_CLASS_I_32 P_1P9P1 P_DRAFT;
  Csr "mhpmcounter7h" 0xb87 CSR_CLASS_I_32 P_1P9P1 P_DRAFT;
  Csr "mhpmcounter8h" 0xb88 CSR_CLASS_I_32 P_1P9P1 P_DRAFT;
  Csr "mhpmcounter9h" 0xb89 CSR_CLASS_I_32 P_1P9P1 P_DRAFT;
  Csr "mhpmcounter10h" 0xb8a CSR_CLASS_I_32 P_1P9P1 P_DRAFT;
  Csr "mhpmcounter11h" 0xb8b CSR_CLASS_I_32 P_1P9P1 P_DRAFT;
  Csr "mhpmcounter12h" 0xb8c CSR_CLASS_I_32 P_1P9P1 P_DRAFT;
  Csr "mhpmcounter13h" 0xb8d CSR_CLASS_I_32 P_1P9P1 P_DRAFT;
  Csr "mhpmcounter14h" 0xb8e CSR_CLASS_I_32 P_1P9P1 P_DRAFT;
  Csr "mhpmcounter15h" 0xb8f CSR_CLASS_I_32 P_1P9P1 P_DRAFT;
  Csr "mhpmcounter16h" 0xb90 CSR_CLASS_I_32 P_1P9P1 P_DRAFT;
  Csr "mhpmcounter17h" 0xb91 CSR_CLASS_I_32 P_1P9P1 P_DRAFT;
  Csr "mhpmcounter18h" 0xb92 CSR_CLASS_I_32 P_1P9P1 P_DRAFT;
  Csr "mhpmcounter19h" 0xb93 CSR_CLASS_I_32 P_1P9P1 P_DRAFT;
  Csr "mhpmcounter20h" 0xb94 CSR_CLASS_I_32 P_1P9P1 P_DRAFT;
  Csr "mhpmcounter21h" 0xb95 CSR_CLASS_I_32 P_1P9P1 P_DRAFT;
  Csr "mhpmcounter22h" 0xb96 CSR_CLASS_I_32 P_1P9P1 P_DRAFT;
  Csr "mhpmcounter23h" 0xb97 CSR_CLASS_I_32 P_1P9P1 P_DRAFT;
  Csr "mhpmcounter24h" 0xb98 CSR_CLASS_I_32 P_1P9P1 P_DRAFT;
  Csr "mhpmcounter25h" 0xb99 CSR_CLASS_I_32 P_1P9P1 P_DRAFT;
  Csr "mhpmcounter26h" 0xb9a CSR_CLASS_I_32 P_1P9P1 P_DRAFT;
  Csr "mhpmcounter27h" 0xb9b CSR_CLASS_I_32 P_1P9P1 P_DRAFT;
  Csr "mhpmcounter28h" 0xb9c CSR_CLASS_I_32 P_1P9P1 P_DRAFT;
  Csr "mhpmcounter29h" 0xb9d CSR_CLASS_I_32 P_1P9P1 P_DRAFT;
  Csr "mhpmcounter30h" 0xb9e CSR_CLASS_I_32 P_1P9P1 P_DRAFT;
  Csr "mhpmcounter31h" 0xb9f CSR_CLASS_I_32 P_1P9P1 P_DRAFT;
  Csr "mcountinhibit" 0x320 CSR_CLASS_I P_1P11 P_DRAFT;
  Csr "mhpmevent3" 0x323 CSR_CLASS_I P_1P9P1 P_DRAFT;
  Csr "mhpmevent4" 0x324 CSR_CLASS_I P_1P9P1 P_DRAFT;
  Csr "mhpmevent5" 0x325 CSR_CLASS_I P_1P9P1 P_DRAFT;
  Csr "mhpmevent6" 0x326 CSR_CLASS_I P_1P9P1 P_DRAFT;
  Csr "mhpmevent7" 0x327 CSR_CLASS_I P_1P9P1 P_DRAFT;
  Csr "mhpmevent8" 0x328 CSR_CLASS_I P_1P9P1 P_DRAFT;
  Csr "mhpmevent9" 0x329 CSR_CLASS_I P_1P9P1 P_DRAFT;
  Csr "mhpmevent10" 0x32a CSR_CLASS_I P_1P9P1 P_DRAFT;
  Csr "mhpmevent11" 0x32b CSR_CLASS_I P_1P9P1 P_DRAFT;
  Csr "mhpmevent12" 0x32c CSR_CLASS_I P_1P9P1 P_DRAFT;
  Csr "mhpmevent13" 0x32d CSR_CLASS_I P_1P9P1 P_DRAFT;
  Csr "mhpmevent14" 0x32e CSR_CLASS_I P_1P9P1 P_DRAFT;
  Csr "mhpmevent15" 0x32f CSR_CLASS_I P_1P9P1 P_DRAFT;
  Csr "mhpmevent16" 0x330 CSR_CLASS_I P_1P9P1 P_DRAFT;
  Csr "mhpmevent17" 0x331 CSR_CLASS_I P_1P9P1 P_DRAFT;
  Csr "mhpmevent18" 0x332 CSR_CLASS_I P_1P9P1 P_DRAFT;
  Csr "mhpmevent19" 0x333 CSR_CLASS_I P_1P9P1 P_DRAFT;
  Csr "mhpmevent20" 0x334 CSR_CLASS_I P_1P9P1 P_DRAFT;
  Csr "mhpmevent21" 0x335 CSR_CLASS_I P_1P9P1 P_DRAFT;
  Csr "mhpmevent22" 0x336 CSR_CLASS_I P_1P9P1 P_DRAFT;
  Csr "mhpmevent23" 0x337 CSR_CLASS_I P_1P9P1 P_DRAFT;
  Csr "mhpmevent24" 0x338 CSR_CLASS_I P_1P9P1 P_DRAFT;
  Csr "mhpmevent25" 0x339 CSR_CLASS_I P_1P9P1 P_DRAFT;
  Csr "mhpmevent26" 0x33a CSR_CLASS_I P_1P9P1 P_DRAFT;
  Csr "mhpmevent27" 0x33b CSR_CLASS_I P_1P9P1 P_DRAFT;
  Csr "mhpmevent28" 0x33c CSR_CLASS_I P_1P9P1 P_DRAFT;
  Csr "mhpmevent29" 0x33d CSR_CLASS_I P_1P9P1 P_DRAFT;
  Csr "mhpmevent30" 0x33e CSR_CLASS_I P_1P9P1 P_DRAFT;
  Csr "mhpmevent31" 0x33f CSR_CLASS_I P_1P9P1 P_DRAFT].

(** Privileged Hypervisor CSRs. *)
Definition csrs_hypervisor : list csr := [
  Csr "hstatus" 0x600 CSR_CLASS_H P_NONE P_NONE;
  Csr "hedeleg" 0x602 CSR_CLASS_H P_NONE P_NONE;
  Csr "hideleg" 0x603 CSR_CLASS_H P_NONE P_NONE;
  Csr "hie" 0x604 CSR_CLASS_H P_NONE P_NONE;
  Csr "hcounteren" 0x606 CSR_CLASS_H P_NONE P_NONE;
  Csr "hgeie" 0x607 CSR_CLASS_H P_NONE P_NONE;
  Csr "htval" 0x643 CSR_CLASS_H P_NONE P_NONE;
  Csr "hip" 0x644 CSR_CLASS_H P_NONE P_NONE;
  Csr "hvip" 0x645 CSR_CLASS_H P_NONE P_NONE;
  Csr "htinst" 0x64a CSR_CLASS_H P_NONE P_NONE;
  Csr "hgeip" 0xe12 CSR_CLASS_H P_NONE P_NONE;
  Csr "henvcfg" 0x60a CSR_CLASS_H P_NONE P_NONE;
  Csr "henvcfgh" 0x61a CSR_CLASS_H_32 P_NONE P_NONE;
  Csr "hgatp" 0x680 CSR_CLASS_H P_NONE P_NONE;
  Csr "htimedelta" 0x605 CSR_CLASS_H P_NONE P_NONE;
  Csr "htimedeltah" 0x615 CSR_CLASS_H_32 P_NONE P_NONE;
  Csr "vsstatus" 0x200 CSR_CLASS_H P_NONE P_NONE;
  Csr "vsie" 0x204 CSR_CLASS_H P_NONE P_NONE;
  Csr "vstvec" 0x205 CSR_CLASS_H P_NONE P_NONE;
  Csr "vsscratch" 0x240 CSR_CLASS_H P_NONE P_NONE;
  Csr "vsepc" 0x241 CSR_CLASS_H P_NONE P_NONE;
  Csr "vscause" 0x242 CSR_CLASS_H P_NONE P_NONE;
  Csr "vstval" 0x243 CSR_CLASS_H P_NONE P_NONE;
  Csr "vsip" 0x244 CSR_CLASS_H P_NONE P_NONE;
  Csr "vsatp" 0x280 CSR_CLASS_H P_NONE P_NONE].

(** Smaia extension. *)
Definition csrs_smaia : list csr := [
  Csr "miselect" 0x350 CSR_CLASS_SMAIA P_NONE P_NONE;
  Csr "mireg" 0x351 CSR_CLASS_SMAIA P_NONE P_NONE;
  Csr "mtopei" 0x35c CSR_CLASS_SMAIA P_NONE P_NONE;
  Csr "mtopi" 0xfb0 CSR_CLASS_SMAIA P_NONE P_NONE;
  Csr "mvien" 0x308 CSR_CLASS_SMAIA P_NONE P_NONE;
  Csr "mvip" 0x309 CSR_CLASS_SMAIA P_NONE P_NONE;
  Csr "midelegh" 0x313 CSR_CLASS_SMAIA_32 P_NONE P_NONE;
  Csr "mieh" 0x314 CSR_CLASS_SMAIA_32 P_NONE P_NONE;
  Csr "mvienh" 0x318 CSR_CLASS_SMAIA_32 P_NONE P_NONE;
  Csr "mviph" 0x319 CSR_CLASS_SMAIA_32 P_NONE P_NONE;
  Csr "miph" 0x354 CSR_CLASS_SMAIA_32 P_NONE P_NONE].

(** Smstateen/Ssstateen extensions. *)
Definition csrs_smstateen : list csr := [
  Csr "mstateen0" 0x30c CSR_CLASS_SMSTATEEN P_NONE P_NONE;
  Csr "mstateen1" 0x30d CSR_CLASS_SMSTATEEN P_NONE P_NONE;
  Csr "mstateen2" 0x30e CSR_CLASS_SMSTATEEN P_NONE P_NONE;
  Csr "mstateen3" 0x30f CSR_CLASS_SMSTATEEN P_NONE P_NONE;
  Csr "sstateen0" 0x10c CSR_CLASS_SSSTATEEN P_NONE P_NONE;
  Csr "sstateen1" 0x10d CSR_CLASS_SSSTATEEN P_NONE P_NONE;
  Csr "sstateen2" 0x10e CSR_CLASS_SSSTATEEN P_NONE P_NONE;
  Csr "sstateen3" 0x10f CSR_CLASS_SSSTATEEN P_NONE P_NONE;
  Csr "hstateen0" 0x60c CSR_CLASS_SSSTATEEN_AND_H P_NONE P_NONE;
  Csr "hstateen1" 0x60d CSR_CLASS_SSSTATEEN_AND_H P_NONE P_NONE;
  Csr "hstateen2" 0x60e CSR_CLASS_SSSTATEEN_AND_H P_NONE P_NONE;
  Csr "hstateen3" 0x60f CSR_CLASS_SSSTATEEN_AND_H P_NONE P_NONE;
  Csr "mstateen0h" 0x31c CSR_CLASS_SMSTATEEN_32 P_NONE P_NONE;
  Csr "mstateen1h" 0x31d CSR_CLASS_SMSTATEEN_32 P_NONE P_NONE;
  Csr "mstateen2h" 0x31e CSR_CLASS_SMSTATEEN_32 P_NONE P_NONE;
  Csr "mstateen3h" 0x31f CSR_CLASS_SMSTATEEN_32 P_NONE P_NONE;
  Csr "hstateen0h" 0x61c CSR_CLASS_SSSTATEEN_AND_H_32 P_NONE P_NONE;
  Csr "hstateen1h" 0x61d CSR_CLASS_SSSTATEEN_AND_H_32 P_NONE P_NONE;
  Csr "hstateen2h" 0x61e CSR_CLASS_SSSTATEEN_AND_H_32 P_NONE P_NONE;
  Csr "hstateen3h" 0x61f CSR_CLASS_SSSTATEEN_AND_H_32 P_NONE P_NONE].

(** Ssaia extension. *)
Definition csrs_ssaia : list csr := [
  Csr "siselect" 0x150 CSR_CLASS_SSAIA P_NONE P_NONE;
  Csr "sireg" 0x151 CSR_CLASS_SSAIA P_NONE P_NONE;
  Csr "stopei" 0x15c CSR_CLASS_SSAIA P_NONE P_NONE;
  Csr "stopi" 0xdb0 CSR_CLASS_SSAIA P_NONE P_NONE;
  Csr "sieh" 0x114 CSR_CLASS_SSAIA_32 P_NONE P_NONE;
  Csr "siph" 0x154 CSR_CLASS_SSAIA_32 P_NONE P_NONE;
  Csr "hvien" 0x608 CSR_CLASS_SSAIA_AND_H P_NONE P_NONE;
  Csr "hvictl" 0x609 CSR_CLASS_SSAIA_AND_H P_NONE P_NONE;
  Csr "hviprio1" 0x646 CSR_CLASS_SSAIA_AND_H P_NONE P_NONE;
  Csr "hviprio2" 0x647 CSR_CLASS_SSAIA_AND_H P_NONE P_NONE;
  Csr "vsiselect" 0x250 CSR_CLASS_SSAIA_AND_H P_NONE P_NONE;
  Csr "vsireg" 0x251 CSR_CLASS_SSAIA_AND_H P_NONE P_NONE;
  Csr "vstopei" 0x25c CSR_CLASS_SSAIA_AND_H P_NONE P_NONE;
  Csr "vstopi" 0xeb0 CSR_CLASS_SSAIA_AND_H P_NONE P_NONE;
  Csr "hidelegh" 0x613 CSR_CLASS_SSAIA_AND_H_32 P_NONE P_NONE;
  Csr "hvienh" 0x618 CSR_CLASS_SSAIA_AND_H_32 P_NONE P_NONE;
  Csr "hviph" 0x655 CSR_CLASS_SSAIA_AND_H_32 P_NONE P_NONE;
  Csr "hviprio1h" 0x656 CSR_CLASS_SSAIA_AND_H_32 P_NONE P_NONE;
  Csr "hviprio2h" 0x657 CSR_CLASS_SSAIA_AND_H_32 P_NONE P_NONE;
  Csr "vsieh" 0x214 CSR_CLASS_SSAIA_AND_H_32 P_NONE P_NONE;
  Csr "vsiph" 0x254 CSR_CLASS_SSAIA_AND_H_32 P_NONE P_NONE].

(** Sscofpmf extension. *)
Definition csrs_sscofpmf : list csr := [
  Csr "scountovf" 0xda0 CSR_CLASS_SSCOFPMF P_NONE P_NONE;
  Csr "mhpmevent3h" 0x723 CSR_CLASS_SSCOFPMF_32 P_NONE P_NONE;
  Csr "mhpmevent4h" 0x724 CSR_CLASS_SSCOFPMF_32 P_NONE P_NONE;
  Csr "mhpmevent5h" 0x725 CSR_CLASS_SSCOFPMF_32 P_NONE P_NONE;
  Csr "mhpmevent6h" 0x726 CSR_CLASS_SSCOFPMF_32 P_NONE P_NONE;
  Csr "mhpmevent7h" 0x727 CSR_CLASS_SSCOFPMF_32 P_NONE P_NONE;
  Csr "mhpmevent8h" 0x728 CSR_CLASS_SSCOFPMF_32 P_NONE P_NONE;
  Csr "mhpmevent9h" 0x729 CSR_CLASS_SSCOFPMF_32 P_NONE P_NONE;
  Csr "mhpmevent10h" 0x72a CSR_CLASS_SSCOFPMF_32 P_NONE P_NONE;
  Csr "mhpmevent11h" 0x72b CSR_CLASS_SSCOFPMF_32 P_NONE P_NONE;
  Csr "mhpmevent12h" 0x72c CSR_CLASS_SSCOFPMF_32 P_NONE P_NONE;
  Csr "mhpmevent13h" 0x72d CSR_CLASS_SSCOFPMF_32 P_NONE P_NONE;
  Csr "mhpmevent14h" 0x72e CSR_CLASS_SSCOFPMF_32 P_NONE P_NONE;
  Csr "mhpmevent15h" 0x72f CSR_CLASS_SSCOFPMF_32 P_NONE P_NONE;
  Csr "mhpmevent16h" 0x730 CSR_CLASS_SSCOFPMF_32 P_NONE P_NONE;
  Csr "mhpmevent17h" 0x731 CSR_CLASS_SSCOFPMF_32 P_NONE P_NONE;
  Csr "mhpmevent18h" 0x732 CSR_CLASS_SSCOFPMF_32 P_NONE P_NONE;
  Csr "mhpmevent19h" 0x733 CSR_CLASS_SSCOFPMF_32 P_NONE P_NONE;
  Csr "mhpmevent20h" 0x734 CSR_CLASS_SSCOFPMF_32 P_NONE P_NONE;
  Csr "mhpmevent21h" 0x735 CSR_CLASS_SSCOFPMF_32 P_NONE P_NONE;
  Csr "mhpmevent22h" 0x736 CSR_CLASS_SSCOFPMF_32 P_NONE P_NONE;
  Csr "mhpmevent23h" 0x737 CSR_CLASS_SSCOFPMF_32 P_NONE P_NONE;
  Csr "mhpmevent24h" 0x738 CSR_CLASS_SSCOFPMF_32 P_NONE P_NONE;
  Csr "mhpmevent25h" 0x739 CSR_CLASS_SSCOFPMF_32 P_NONE P_NONE;
  Csr "mhpmevent26h" 0x73a CSR_CLASS_SSCOFPMF_32 P_NONE P_NONE;
  Csr "mhpmevent27h" 0x73b CSR_CLASS_SSCOFPMF_32 P_NONE P_NONE;
  Csr "mhpmevent28h" 0x73c CSR_CLASS_SSCOFPMF_32 P_NONE P_NONE;
  Csr "mhpmevent29h" 0x73d CSR_CLASS_SSCOFPMF_32 P_NONE P_NONE;
  Csr "mhpmevent30h" 0x73e CSR_CLASS_SSCOFPMF_32 P_NONE P_NONE;
  Csr "mhpmevent31h" 0x73f CSR_CLASS_SSCOFPMF_32 P_NONE P_NONE].

(** Sstc extension. *)
Definition csrs_sstc : list csr := [
  Csr "stimecmp" 0x14d CSR_CLASS_SSTC P_NONE P_NONE;
  Csr "stimecmph" 0x15d CSR_CLASS_SSTC_32 P_NONE P_NONE;
  Csr "vstimecmp" 0x24d CSR_CLASS_SSTC_AND_H P_NONE P_NONE;
  Csr "vstimecmph" 0x25d CSR_CLASS_SSTC_AND_H_32 P_NONE P_NONE].

(** Dropped CSRs. *)
Definition csrs_dropped : list csr := [
  Csr "mbase" 0x380 CSR_CLASS_I P_1P9P1 P_1P10;
  Csr "mbound" 0x381 CSR_CLASS_I P_1P9P1 P_1P10;
  Csr "mibase" 0x382 CSR_CLASS_I P_1P9P1 P_1P10;
  Csr "mibound" 0x383 CSR_CLASS_I P_1P9P1 P_1P10;
  Csr "mdbase" 0x384 CSR_CLASS_I P_1P9P1 P_1P10;
  Csr "mdbound" 0x385 CSR_CLASS_I P_1P9P1 P_1P10;
  Csr "mscounteren" 0x321 CSR_CLASS_I P_1P9P1 P_1P10;
  Csr "mhcounteren" 0x322 CSR_CLASS_I P_1P9P1 P_1P10;
  Csr "ustatus" 0x0 CSR_CLASS_I P_1P9P1 P_1P12;
  Csr "uie" 0x4 CSR_CLASS_I P_1P9P1 P_1P12;
  Csr "utvec" 0x5 CSR_CLASS_I P_1P9P1 P_1P12;
  Csr "uscratch" 0x40 CSR_CLASS_I P_1P9P1 P_1P12;
  Csr "uepc" 0x41 CSR_CLASS_I P_1P9P1 P_1P12;
  Csr "ucause" 0x42 CSR_CLASS_I P_1P9P1 P_1P12;
  Csr "utval" 0x43 CSR_CLASS_I P_1P10 P_1P12;
  Csr "uip" 0x44 CSR_CLASS_I P_1P9P1 P_1P12;
  Csr "sedeleg" 0x102 CSR_CLASS_I P_1P9P1 P_1P12;
  Csr "sideleg" 0x103 CSR_CLASS_I P_1P9P1 P_1P12].

(** Unprivileged Floating-Point CSRs. *)
Definition csrs_float : list csr := [
  Csr "fflags" 0x1 CSR_CLASS_F P_NONE P_NONE;
  Csr "frm" 0x2 CSR_CLASS_F P_NONE P_NONE;
  Csr "fcsr" 0x3 CSR_CLASS_F P_NONE P_NONE].

(** Unprivileged Debug CSRs. *)
Definition csrs_debug : list csr := [
  Csr "dcsr" 0x7b0 CSR_CLASS_DEBUG P_NONE P_NONE;
  Csr "dpc" 0x7b1 CSR_CLASS_DEBUG P_NONE P_NONE;
  Csr "dscratch0" 0x7b2 CSR_CLASS_DEBUG P_NONE P_NONE;
  Csr "dscratch1" 0x7b3 CSR_CLASS_DEBUG P_NONE P_NONE;
  Csr "tselect" 0x7a0 CSR_CLASS_DEBUG P_NONE P_NONE;
  Csr "tdata1" 0x7a1 CSR_CLASS_DEBUG P_NONE P_NONE;
  Csr "tdata2" 0x7a2 CSR_CLASS_DEBUG P_NONE P_NONE;
  Csr "tdata3" 0x7a3 CSR_CLASS_DEBUG P_NONE P_NONE;
  Csr "tinfo" 0x7a4 CSR_CLASS_DEBUG P_NONE P_NONE;
  Csr "tcontrol" 0x7a5 CSR_CLASS_DEBUG P_NONE P_NONE;
  Csr "hcontext" 0x6a8 CSR_CLASS_DEBUG P_NONE P_NONE;
  Csr "scontext" 0x5a8 CSR_CLASS_DEBUG P_NONE P_NONE;
  Csr "mcontext" 0x7a8 CSR_CLASS_DEBUG P_NONE P_NONE;
  Csr "mscontext" 0x7aa CSR_CLASS_DEBUG P_NONE P_NONE].

(** Unprivileged Scalar Crypto CSRs. *)
Definition csrs_crypto : list csr := [
  Csr "seed" 0x015 CSR_CLASS_ZKR P_NONE P_NONE].

(** Unprivileged Vector CSRs. *)
Definition csrs_vector : list csr := [
  Csr "vstart" 0x008 CSR_CLASS_V P_NONE P_NONE;
  Csr "vxsat" 0x009 CSR_CLASS_V P_NONE P_NONE;
  Csr "vxrm" 0x00a CSR_CLASS_V P_NONE P_NONE;
  Csr "vcsr" 0x00f CSR_CLASS_V P_NONE P_NONE;
  Csr "vl" 0xc20 CSR_CLASS_V P_NONE P_NONE;
  Csr "vtype" 0xc21 CSR_CLASS_V P_NONE P_NONE;
  Csr "vlenb" 0xc22 CSR_CLASS_V P_NONE P_NONE].

(** Aliases. *)
Definition csr_aliases : list csr := [
  Csr "ubadaddr" 0x43 CSR_CLASS_I P_1P9P1 P_1P10;
  Csr "sbadaddr" 0x143 CSR_CLASS_I P_1P9P1 P_1P10;
  Csr "sptbr" 0x180 CSR_CLASS_I P_1P9P1 P_1P10;
  Csr "mbadaddr" 0x343 CSR_CLASS_I P_1P9P1 P_1P10;
  Csr "mucounteren" 0x320 CSR_CLASS_I P_1P9P1 P_1P10;
  Csr "dscratch" 0x7b2 CSR_CLASS_DEBUG P_NONE P_NONE;
  Csr "mcontrol" 0x7a1 CSR_CLASS_DEBUG P_NONE P_NONE;
  Csr "mcontrol6" 0x7a1 CSR_CLASS_DEBUG P_NONE P_NONE;
  Csr "icount" 0x7a1 CSR_CLASS_DEBUG P_NONE P_NONE;
  Csr "itrigger" 0x7a1 CSR_CLASS_DEBUG P_NONE P_NONE;
  Csr "etrigger" 0x7a1 CSR_CLASS_DEBUG P_NONE P_NONE;
  Csr "tmexttrigger" 0x7a1 CSR_CLASS_DEBUG P_NONE P_NONE;
  Csr "textra32" 0x7a3 CSR_CLASS_DEBUG P_NONE P_NONE;
  Csr "textra64" 0x7a3 CSR_CLASS_DEBUG P_NONE P_NONE].

Definition declared_csrs : list csr :=
  csrs_counters ++ csrs_supervisor ++ csrs_machine ++ csrs_machine_2 ++ csrs_hypervisor ++
  csrs_smaia ++ csrs_smstateen ++ csrs_ssaia ++ csrs_sscofpmf ++ csrs_sstc ++
  csrs_dropped ++ csrs_float ++ csrs_debug ++ csrs_crypto ++ csrs_vector ++
  csr_aliases.

(** One [DECLARE_CSR] of the disassembler: the first name of a number that belongs to the
    specification is kept. *)
Definition declare_csr (spec : priv_spec) (r : csr) (hash : Z -> option string) : Z -> option string :=
  let any := (priv_num (define_version r) =? 0) && (priv_num (abort_version r) =? 0) in
  let inside := (priv_num (define_version r) <=? priv_num spec) && (priv_num spec <? priv_num (abort_version r)) in
  match hash (csr_num r) with
  | None => if any || inside then fun n => if n =? csr_num r then Some (csr_name r) else hash n else hash
  | Some _ => hash
  end.

(** [riscv_csr_hash], 4096 pointers, built anew for every CSR operand; an unset
    specification becomes the newest one. *)
Definition newest (spec : priv_spec) : priv_spec := match spec with P_NONE => P_1P12 | _ => spec end.
Definition riscv_csr_hash (spec : priv_spec) : Z -> option string :=
  fold_left (fun hash r => declare_csr (newest spec) r hash) declared_csrs (fun _ => None).

(** * The names found *)

(** Whether a row belongs to a specification. *)
Definition belongs (spec : priv_spec) (r : csr) : bool :=
  (priv_num (define_version r) =? 0) && (priv_num (abort_version r) =? 0)
  || (priv_num (define_version r) <=? priv_num spec) && (priv_num spec <? priv_num (abort_version r)).

Lemma csr_hash_first spec rows hash n :
  fold_left (fun hash r => declare_csr spec r hash) rows hash n =
  match hash n with
  | Some s => Some s
  | None => csr_name <$> find (fun r => (csr_num r =? n) && belongs spec r) rows
  end.
Proof.
  revert hash. induction rows as [|r rows IH]; intros hash; cbn [fold_left find].
  - by destruct (hash n).
  - rewrite IH. unfold declare_csr. fold (belongs spec r).
    destruct (hash (csr_num r)) as [s|] eqn:E.
    + destruct (Z.eqb_spec (csr_num r) n) as [<-|]; [by rewrite E|]. by destruct (hash n).
    + destruct (belongs spec r); cbn [andb]; rewrite ?andb_true_r, ?andb_false_r; [|by destruct (hash n)].
      rewrite (Z.eqb_sym n). destruct (Z.eqb_spec (csr_num r) n) as [<-|]; [by rewrite E|].
      by destruct (hash n).
Qed.

(** The name of a number is that of the first row of that number that belongs to the
    specification. *)
Lemma csr_hash_spec spec n :
  riscv_csr_hash spec n =
  csr_name <$> find (fun r => (csr_num r =? n) && belongs (newest spec) r) declared_csrs.
Proof. apply csr_hash_first. Qed.
End CsrTable.
