(* ===== verification/DisasmPrint.v ===== *)
(** The printing half of the disassembler ([opcodes/riscv-dis.c]): the operand
    modifiers of [print_insn_args], the addresses [maybe_print_address] pieces together
    from instruction pairs, and the text of [riscv_disassemble_insn]. Every row of the opcode
    table is proved to print, on every word, without reading outside a name table and
    without an undefined modifier. *)

From Stdlib Require Import Ascii.
From S2P Require Import Prelude Opcodes Immediates Disasm Assembler RegNames CsrTable Subsets.
Import RegNames CsrTable.
#[local] Open Scope string_scope.
#[local] Open Scope Z_scope.

Module DisasmPrint.

(** The built hash finds what a scan of the table finds. *)
Lemma lookup_ref c w : Disasm.lookup Disasm.riscv_hash c w = Disasm.scan c w Table.riscv_opcodes.
Proof. apply Disasm.lookup_scan, Disasm.table_checked. Qed.
#[local] Opaque Disasm.riscv_hash.

(** * State *)

(** A [bfd_vma] of all ones in [hi_addr] is an unset register. *)
Definition unset : Z := 2 ^ 64 - 1.

Record riscv_private_data := Private
  { gp : Z; print_addr : Z; hi_addr : list Z; to_print_addr : bool; has_gp : bool }.
#[export] Instance eta_private : Eta riscv_private_data :=
  fun p => Private (gp p) (print_addr p) (hi_addr p) (to_print_addr p) (has_gp p).

(** What printing changes: the stream (its styles left out), [info->target], the private
    data, and the privileged specification the first CSR operand settles. *)
Record state := State
  { out : string; target : Z; pd : riscv_private_data; default_priv_spec : priv_spec }.
#[export] Instance eta_state : Eta state :=
  fun s => State (out s) (target s) (pd s) (default_priv_spec s).

(** What an instruction is printed under: [info->mach], [xlen] and the two name tables. *)
Record settings := Settings
  { mach64 : bool; xlen : Z; riscv_gpr_names : list string; riscv_fpr_names : list string }.

(** Printing steps; [None] is a read outside an array. *)
Definition action : Type := state -> option state.
Definition skip : action := fun s => Some s.
Definition seq (a b : action) : action := fun s => let* s := a s in b s.
Definition when (c : bool) (a : action) : action := if c then a else skip.
Infix ">>>" := seq (at level 61, left associativity).

Definition print (text : string) : action := fun s => Some (s <| out := out s ++ text |>).
(** [print ("%s", table[i])] *)
Definition print_name (table : list string) (i : Z) : action :=
  fun s => let* t := table !! Z.to_nat i in print t s.

Definition int_of (x : Z) : Z := sgn 32 x.
Definition unsigned_of (x : Z) : Z := wrap 32 x.
Definition print_int (x : Z) : action := print (signed_decimal (int_of x)).
Definition print_hex (x : Z) : action := print ("0x" ++ hex (unsigned_of x)).

(** [arg_print] *)
Definition arg_print (val : Z) (array : list (option string)) : action :=
  print (match array !! Z.to_nat val with Some (Some s) => s | _ => "unknown" end).

Abbreviation X_SP := 2 (only parsing).
Abbreviation X_GP := 3 (only parsing).
Abbreviation X_TP := 4 (only parsing).

(** * Addresses *)

Section Print.
(** [info->print_address_func], the client's rendering of an address. *)
Context (address : Z -> string) (g : settings).

Definition print_address : action := fun s => print (address (target s)) s.

(** [maybe_print_address], [offset] an [int]. *)
Definition set_print_addr (wide : bool) (a : Z) (p : riscv_private_data) : riscv_private_data :=
  let a := if wide then wrap 64 (sgn 32 a) else a in
  let a := if xlen g =? 32 then wrap 32 a else a in
  p <| print_addr := a |> <| to_print_addr := true |>.

Definition maybe_print_address (base_reg offset : Z) (wide : bool) : action := fun s =>
  let p := pd s in
  let* hi := hi_addr p !! Z.to_nat base_reg in
  Some
    (if negb (hi =? unset) then
       let p := p <| hi_addr := <[Z.to_nat base_reg := unset]> (hi_addr p) |> in
       s <| pd := set_print_addr wide (wrap 64 ((if base_reg =? 0 then 0 else hi) + offset)) p |>
     else if (base_reg =? X_GP) && has_gp p then
       s <| pd := set_print_addr wide (wrap 64 (gp p + offset)) p |>
     else if (base_reg =? X_TP) || (base_reg =? 0) then
       s <| pd := set_print_addr wide (wrap 64 offset) p |>
     else s).

(** [pd->hi_addr[r] = a] *)
Definition set_hi_addr (r a : Z) : action := fun s =>
  let* _ := hi_addr (pd s) !! Z.to_nat r in
  Some (s <| pd := (pd s) <| hi_addr := <[Z.to_nat r := a]> (hi_addr (pd s)) |> |>).

(** * Operand modifiers *)

(** What one modifier prints and the rest of the operand string; an undefined
    modifier; or a modifier cut off by the end of the string, past which the loop would
    go on reading. *)
Inductive modifier := Modifier (a : action) (rest : string) | Undefined | Past_end.

(** The word and its address. *)
Context (l pc : Z).

Definition field (m sh : Z) : Z := Z.land (Z.shiftr l sh) m.
Definition rs1 : Z := field OP_MASK_RS1 OP_SH_RS1.
Definition rd : Z := field OP_MASK_RD OP_SH_RD.
Definition matches (m v : Z) : bool := Z.land l m =? v.
Definition gpr (i : Z) : action := print_name (riscv_gpr_names g) i.
Definition fpr (i : Z) : action := print_name (riscv_fpr_names g) i.
Definition vecr (i : Z) : action := print_name riscv_vecr_names_numeric i.

(** [info->target = imm + pc], printed as an address. *)
Definition print_target (imm : Z) : action :=
  (fun s => Some (s <| target := wrap 64 (imm + pc) |>)) >>> print_address.

(** After [C]. *)
Definition rvc_modifier (s : string) : modifier :=
  match s with
  | EmptyString => Past_end
  | String "s" r | String "w" r => Modifier (gpr (field 0x7 7 + 8)) r  (* CRS1S *)
  | String "t" r | String "x" r => Modifier (gpr (field 0x7 2 + 8)) r  (* CRS2S *)
  | String "U" r => Modifier (gpr rd) r
  | String "c" r => Modifier (gpr X_SP) r
  | String "V" r => Modifier (gpr (field 0x1f 2)) r  (* CRS2 *)
  | String "o" r | String "j" r => Modifier
      (when (matches MASK_C_ADDI MATCH_C_ADDI && negb (rd =? 0))
         (maybe_print_address rd (int_of (EXTRACT_CITYPE_IMM l)) false) >>>
       when (mach64 g && matches MASK_C_ADDIW MATCH_C_ADDIW && negb (rd =? 0))
         (maybe_print_address rd (int_of (EXTRACT_CITYPE_IMM l)) true) >>>
       print_int (EXTRACT_CITYPE_IMM l)) r
  | String "k" r => Modifier (print_int (EXTRACT_CLTYPE_LW_IMM l)) r
  | String "l" r => Modifier (print_int (EXTRACT_CLTYPE_LD_IMM l)) r
  | String "m" r => Modifier (print_int (EXTRACT_CITYPE_LWSP_IMM l)) r
  | String "n" r => Modifier (print_int (EXTRACT_CITYPE_LDSP_IMM l)) r
  | String "K" r => Modifier (print_int (EXTRACT_CIWTYPE_ADDI4SPN_IMM l)) r
  | String "L" r => Modifier (print_int (EXTRACT_CITYPE_ADDI16SP_IMM l)) r
  | String "M" r => Modifier (print_int (EXTRACT_CSSTYPE_SWSP_IMM l)) r
  | String "N" r => Modifier (print_int (EXTRACT_CSSTYPE_SDSP_IMM l)) r
  | String "p" r => Modifier (print_target (EXTRACT_CBTYPE_IMM l)) r
  | String "a" r => Modifier (print_target (EXTRACT_CJTYPE_IMM l)) r
  | String "u" r => Modifier (print_hex (Z.land (EXTRACT_CITYPE_IMM l) (2 ^ 20 - 1))) r
  | String ">" r => Modifier (print_hex (Z.land (unsigned_of (EXTRACT_CITYPE_IMM l)) 0x3f)) r
  | String "<" r => Modifier (print_hex (Z.land (unsigned_of (EXTRACT_CITYPE_IMM l)) 0x1f)) r
  | String "T" r => Modifier (fpr (field 0x1f 2)) r
  | String "D" r => Modifier (fpr (field 0x7 2 + 8)) r
  | String _ r => Modifier skip r
  end.

(** The [vtype] immediate of [vsetvli] and [vsetivli]. *)
Definition print_vtype (imm : Z) : action :=
  let imm_vlmul := Z.land imm 0x7 in
  let imm_vsew := Z.land (Z.shiftr imm 3) 0x7 in
  let imm_vta := Z.land (Z.shiftr imm 6) 0x1 in
  let imm_vma := Z.land (Z.shiftr imm 7) 0x1 in
  let imm_vtype_res := Z.shiftr imm 8 in
  match riscv_vsew !! Z.to_nat imm_vsew, riscv_vlmul !! Z.to_nat imm_vlmul,
        riscv_vta !! Z.to_nat imm_vta, riscv_vma !! Z.to_nat imm_vma, imm_vtype_res =? 0 with
  | Some (Some sew), Some (Some lmul), Some ta, Some ma, true =>
      print (sew ++ "," ++ lmul ++ "," ++ ta ++ "," ++ ma)
  | _, _, _, _, _ => print_int imm
  end.

(** After [V]. *)
Definition rvv_modifier (s : string) : modifier :=
  match s with
  | EmptyString => Past_end
  | String "d" r | String "f" r => Modifier (vecr (field 0x1f 7)) r  (* VD *)
  | String "e" r => Modifier (if field 0x1 26 =? 0 then gpr 0 else vecr (field 0x1f 7)) r
  | String "s" r => Modifier (vecr (field 0x1f 15)) r  (* VS1 *)
  | String "t" r | String "u" r | String "v" r => Modifier (vecr (field 0x1f 20)) r  (* VS2 *)
  | String "0" r => Modifier (vecr 0) r
  | String "b" r => Modifier (print_vtype (int_of (EXTRACT_RVV_VB_IMM l))) r
  | String "c" r => Modifier (print_vtype (int_of (EXTRACT_RVV_VC_IMM l))) r
  | String "i" r => Modifier (print_int (EXTRACT_RVV_VI_IMM l)) r
  | String "j" r => Modifier (print_int (EXTRACT_RVV_VI_UIMM l)) r
  | String "k" r => Modifier (print_int (EXTRACT_RVV_OFFSET l)) r
  | String "l" r => Modifier (print_int (EXTRACT_RVV_VI_UIMM6 l)) r
  | String "m" r => Modifier (when (field 0x1 25 =? 0) (print "," >>> print_name riscv_vecm_names_numeric 0)) r
  | String _ r => Modifier skip r
  end.

(** After [X]: a literal up to the next comma, or [N] bits from bit [S]. *)
Fixpoint literal (s : string) : string * string :=
  match s with
  | String "," _ | EmptyString => ("", s)
  | String c r => let '(t, r) := literal r in (String c t, r)
  end.
Definition EXTRACT_S_IMM (n s x : Z) : Z := Z.lor (RV_X x s n) (Z.shiftl (- RV_X x (s + n - 1) 1) n).
Definition imm_modifier (s : string) : modifier :=
  match s with
  | String "l" r => let '(t, r) := literal r in Modifier (print t) r
  | String "s" r =>
      match Assembler.strtol 0 r with
      | (n, String "@" r) =>
          let '(sh, r) := Assembler.strtol 0 r in
          Modifier (print (signed_decimal (sgn 64 (EXTRACT_S_IMM n sh l)))) r
      | _ => Undefined
      end
  | String "u" r =>
      match Assembler.strtol 0 r with
      | (n, String "@" r) => let '(sh, r) := Assembler.strtol 0 r in Modifier (print (decimal (wrap 64 (RV_X l sh n)))) r
      | _ => Undefined
      end
  | _ => Undefined
  end.

(** After [W]. *)
Definition various_modifier (s : string) : modifier :=
  match s with
  | String "i" (String "f" r) => Modifier (print_int (EXTRACT_STYPE_IMM l)) r
  | String "f" (String "v" r) =>
      Modifier (fun s =>
        let* sym := riscv_fli_symval !! Z.to_nat rs1 in
        match sym with
        | Some t => print t s
        | None => let* v := riscv_fli_numval !! Z.to_nat rs1 in print (hex_float v) s
        end) r
  | _ => Undefined
  end.

(** A CSR by name, or by number when none is known. *)
Definition print_csr : action := fun s =>
  let spec := newest (default_priv_spec s) in
  let csr := field 0xfff 20 in
  print (match riscv_csr_hash spec csr with Some t => t | None => "0x" ++ hex csr end)
        (s <| default_priv_spec := spec |>).

Definition address_pair : action :=
  when (matches MASK_ADDI MATCH_ADDI && negb (rs1 =? 0) || matches MASK_JALR MATCH_JALR)
    (maybe_print_address rs1 (int_of (EXTRACT_ITYPE_IMM l)) false) >>>
  when (mach64 g && matches MASK_ADDIW MATCH_ADDIW && negb (rs1 =? 0))
    (maybe_print_address rs1 (int_of (EXTRACT_ITYPE_IMM l)) true) >>>
  print_int (EXTRACT_ITYPE_IMM l).

(** One round of the switch; [s] is [oparg], [EmptyString] its terminator. *)
Definition next_modifier (s : string) : modifier :=
  match s with
  | EmptyString => Past_end
  | String "C" r => rvc_modifier r
  | String "V" r => rvv_modifier r
  | String "W" r => various_modifier r
  | String "X" r => imm_modifier r
  | String (("," | "(" | ")" | "[" | "]") as c) r => Modifier (print (String c "")) r
  | String "0" r => Modifier (when (String.eqb r "") (print "0")) r
  | String "s" r => Modifier
      (when (matches MASK_JALR MATCH_JALR) (maybe_print_address rs1 (int_of (EXTRACT_ITYPE_IMM l)) false) >>>
       gpr rs1) r
  | String "t" r => Modifier (gpr (field OP_MASK_RS2 OP_SH_RS2)) r
  | String "u" r => Modifier (print_hex (Z.shiftr (unsigned_of (EXTRACT_UTYPE_IMM l)) RISCV_IMM_BITS)) r
  | String "m" r => Modifier (arg_print (field OP_MASK_RM OP_SH_RM) riscv_rm) r
  | String "P" r => Modifier (arg_print (field OP_MASK_PRED OP_SH_PRED) riscv_pred_succ) r
  | String "Q" r => Modifier (arg_print (field OP_MASK_SUCC OP_SH_SUCC) riscv_pred_succ) r
  | String "o" r => Modifier (maybe_print_address rs1 (int_of (EXTRACT_ITYPE_IMM l)) false >>> address_pair) r
  | String "j" r => Modifier address_pair r
  | String "q" r => Modifier
      (maybe_print_address rs1 (int_of (EXTRACT_STYPE_IMM l)) false >>> print_int (EXTRACT_STYPE_IMM l)) r
  | String "a" r => Modifier (print_target (EXTRACT_JTYPE_IMM l)) r
  | String "p" r => Modifier (print_target (EXTRACT_BTYPE_IMM l)) r
  | String "d" r => Modifier
      ((if matches MASK_AUIPC MATCH_AUIPC then set_hi_addr rd (wrap 64 (pc + EXTRACT_UTYPE_IMM l))
        else if matches MASK_LUI MATCH_LUI then set_hi_addr rd (wrap 64 (EXTRACT_UTYPE_IMM l))
        else when (matches MASK_C_LUI MATCH_C_LUI) (set_hi_addr rd (wrap 64 (EXTRACT_CITYPE_LUI_IMM l)))) >>>
       gpr rd) r
  | String "y" r => Modifier (print_hex (field 3 30)) r                  (* BS *)
  | String "z" r => Modifier (gpr 0) r
  | String ">" r => Modifier (print_hex (field OP_MASK_SHAMT OP_SH_SHAMT)) r
  | String "<" r => Modifier (print_hex (field 0x1f 20)) r               (* SHAMTW *)
  | String ("S" | "U") r => Modifier (fpr rs1) r
  | String "T" r => Modifier (fpr (field OP_MASK_RS2 OP_SH_RS2)) r
  | String "D" r => Modifier (fpr rd) r
  | String "R" r => Modifier (fpr (field 0x1f 27)) r                     (* RS3 *)
  | String "E" r => Modifier print_csr r
  | String "Y" r => Modifier (print_hex (field 0xf 20)) r                (* RNUM *)
  | String "Z" r => Modifier (print_int rs1) r
  | _ => Undefined
  end.

(** How the loop ends: at the end of the operand string, or at a modifier it
    reports as an internal error. *)
Inductive ending := Finished (s : state) | Internal_error (s : state).

Fixpoint print_modifiers (fuel : nat) (oparg : string) (s : state) : option ending :=
  match fuel, oparg with
  | _, EmptyString => Some (Finished s)
  | O, _ => None
  | S fuel, String c _ =>
      match next_modifier oparg with
      | Modifier a rest => let* s := a s in print_modifiers fuel rest s
      | Undefined =>
          let* s := print ("# internal error, undefined modifier (" ++ String c ")") s in
          Some (Internal_error s)
      | Past_end => None
      end
  end.

(** Every round uses up a character. *)
Definition print_insn_args (oparg : string) (s : state) : option ending :=
  let* s := when (negb (String.eqb oparg "")) (print (String "009" "")) s in
  print_modifiers (String.length oparg) oparg s.

(** * A whole instruction *)

End Print.

(** [bfd_get_bits] of [bfd/libbfd.c], little-endian, into a 64-bit integer. *)
Fixpoint bfd_get_bits (addr : list Z) (bytes : nat) : option Z :=
  match bytes with
  | O => Some 0
  | S bytes =>
      let* b := head addr in
      let* data := bfd_get_bits (tail addr) bytes in
      Some (wrap 64 (Z.lor (Z.shiftl data 8) b))
  end.

(** [info->mach], with the ELF class of [info->section] where it decides. *)
Inductive bfd_mach := mach_riscv64 | mach_riscv32 | mach_other (elfclass64 : option bool).

(** The static variables of the file. *)
Record globals := Globals
  { cur_xlen : Z; gpr_names : list string; no_aliases : bool; riscv_subsets : Subsets.subset_list }.
#[export] Instance eta_globals : Eta globals :=
  fun g => Globals (cur_xlen g) (gpr_names g) (no_aliases g) (riscv_subsets g).

Definition known_xlen (mach : bfd_mach) (old : Z) : Z :=
  match mach with
  | mach_riscv64 => 64
  | mach_riscv32 => 32
  | mach_other (Some b) => if b : bool then 64 else 32
  | mach_other None => old
  end.

Section Instruction.
(** [outside] is what [riscv_ext_order] reads for other characters than letters; see
    [Subsets]. *)
Context (outside : ascii -> Z).

Definition config_of (g : globals) : Disasm.config :=
  Disasm.Config (no_aliases g) (cur_xlen g) (Subsets.riscv_multi_subset_supports outside (riscv_subsets g)).

Definition fpr_names (g : globals) : list string :=
  if Subsets.riscv_subset_supports outside (riscv_subsets g) "zfinx" then gpr_names g
  else if decide (gpr_names g = riscv_gpr_names_abi) then riscv_fpr_names_abi else riscv_fpr_names_numeric.

Definition settings_of (mach : bfd_mach) (g : globals) : settings :=
  Settings (match mach with mach_riscv64 => true | _ => false end) (cur_xlen g) (gpr_names g) (fpr_names g).

(** The 16-bit units of a raw instruction from the highest down, leading zeros
    skipped. *)
Fixpoint raw_units (k : nat) (packet : list Z) (printed : bool) : option string :=
  match k with
  | O => Some ""
  | S k =>
      let* word := bfd_get_bits (drop (2 * k) packet) 2 in
      if (word =? 0) && negb printed then raw_units k packet printed
      else let* t := raw_units k packet true in Some (hex_padded 4 word ++ t)
  end.
Definition print_raw (insnlen : Z) (packet : list Z) : action := fun s =>
  let* units := raw_units (Z.to_nat (insnlen / 2)) packet false in
  print (".insn" ++ String "009" "" ++ signed_decimal insnlen ++ ", 0x" ++ units) s.

Definition ending_state (e : ending) : state := match e with Finished s | Internal_error s => s end.

(** " # " and the address, when the operands gave one. *)
Definition print_comment (address : Z -> string) : action := fun s =>
  if to_print_addr (pd s) then
    let* s := (print " # " >>> print_address address) (s <| target := print_addr (pd s) |>) in
    Some (s <| pd := (pd s) <| to_print_addr := false |> |>)
  else Some s.

(** [h] is [riscv_hash], which the first call builds ([Disasm.riscv_hash]). *)
Definition riscv_disassemble_insn (h : Z -> Disasm.op_ptr) (address : Z -> string) (mach : bfd_mach) (memaddr word : Z)
    (packet : list Z) (g : globals) (s : state) : option (Disasm.report * globals * state) :=
  let s := s <| target := 0 |> in
  let raw g :=
    let* s := print_raw (Disasm.riscv_insn_length word) packet s in
    Some (Disasm.report_of word None, g, s) in
  match h (Disasm.hash_idx word) with
  | None => raw g
  | Some ops =>
      let g := g <| cur_xlen := known_xlen mach (cur_xlen g) |> in
      match Disasm.scan (config_of g) word ops with
      | None => raw g
      | Some op =>
          let* s := print (name op) s in
          let* e := print_insn_args address (settings_of mach g) word memaddr (args op) s in
          let* s := print_comment address (ending_state e) in
          Some (Disasm.report_of word (Some op), g, s)
      end
  end.

End Instruction.

(** [riscv_init_disasm_info]: [RISCV_GP_SYMBOL] is looked for in the symbol table, the
    last one wins. *)
Definition riscv_init_disasm_info (symtab : list (string * Z)) : riscv_private_data :=
  fold_left (fun p sym =>
      if String.eqb sym.1 "__global_pointer$" then p <| gp := sym.2 |> <| has_gp := true |> else p)
    symtab (Private 0 0 (repeat unset 32) false false).

(** * Printing is total *)

(** The private data of a state: one address per integer register. *)
Definition wf (s : state) : Prop := length (hi_addr (pd s)) = 32%nat.

(** A step that succeeds on every well-formed state and keeps it so. *)
Definition keeps (a : action) : Prop := forall s, wf s -> exists s', a s = Some s' /\ wf s'.

Definition tables_ok (g : settings) : Prop :=
  length (riscv_gpr_names g) = 32%nat /\ length (riscv_fpr_names g) = 32%nat.

Create HintDb printing.

Lemma keeps_skip : keeps skip.
Proof. intros s Hs. by exists s. Qed.

Lemma keeps_seq a b : keeps a -> keeps b -> keeps (a >>> b).
Proof.
  intros Ha Hb s Hs. destruct (Ha s Hs) as (s1 & E & H1). destruct (Hb s1 H1) as (s2 & E2 & H2).
  exists s2. unfold seq. by rewrite E.
Qed.

Lemma keeps_when c a : keeps a -> keeps (when c a).
Proof. intros Ha. destruct c; [done|apply keeps_skip]. Qed.

Lemma keeps_if (c : bool) a b : keeps a -> keeps b -> keeps (if c then a else b).
Proof. by destruct c. Qed.

Lemma keeps_print t : keeps (print t).
Proof. intros s Hs. by eexists. Qed.

Lemma keeps_print_name table i : 0 <= i < Z.of_nat (length table) -> keeps (print_name table i).
Proof.
  intros Hi s Hs. destruct (lookup_total_Z table i Hi) as [t E]. unfold print_name. rewrite E.
  by apply keeps_print.
Qed.

Lemma keeps_set f : (forall s, hi_addr (pd (f s)) = hi_addr (pd s)) -> keeps (fun s => Some (f s)).
Proof. intros Hf s Hs. exists (f s). unfold wf. by rewrite Hf. Qed.

#[export] Hint Resolve keeps_skip keeps_seq keeps_when keeps_if keeps_print : printing.

Lemma land_bound x m : 0 <= m -> 0 <= Z.land x m <= m.
Proof.
  intros Hm. rewrite Z.land_comm. split; [apply Z.land_nonneg; by left|].
  apply Z.ldiff_le; [done|]. apply Z.bits_inj'. intros n Hn.
  rewrite Z.ldiff_spec, Z.land_spec, Z.bits_0. by destruct (Z.testbit m n), (Z.testbit x n).
Qed.

Section Keeps.
Context (address : Z -> string) (g : settings) (Hg : tables_ok g) (l pc : Z).

Lemma keeps_gpr i : 0 <= i < 32 -> keeps (gpr g i).
Proof. intros. apply keeps_print_name. by rewrite (proj1 Hg). Qed.
Lemma keeps_fpr i : 0 <= i < 32 -> keeps (fpr g i).
Proof. intros. apply keeps_print_name. by rewrite (proj2 Hg). Qed.
Lemma keeps_vecr i : 0 <= i < 32 -> keeps (vecr i).
Proof. intros. by apply keeps_print_name. Qed.

Lemma keeps_mask : keeps (print_name riscv_vecm_names_numeric 0).
Proof. by apply keeps_print_name. Qed.

Lemma field_range m sh : 0 <= m -> 0 <= field l m sh <= m.
Proof. apply land_bound. Qed.

Lemma keeps_maybe_print_address r offset wide :
  0 <= r < 32 -> keeps (maybe_print_address g r offset wide).
Proof.
  intros Hr s Hs. unfold maybe_print_address.
  destruct (lookup_total_Z (hi_addr (pd s)) r) as [h ->]; [by rewrite Hs|]. cbn [mbind option_bind].
  eexists; split; [done|]. unfold wf in *. repeat case_match; cbn; rewrite ?length_insert; done.
Qed.

Lemma keeps_set_hi_addr r a : 0 <= r < 32 -> keeps (set_hi_addr r a).
Proof.
  intros Hr s Hs. unfold set_hi_addr.
  destruct (lookup_total_Z (hi_addr (pd s)) r) as [h ->]; [by rewrite Hs|]. cbn [mbind option_bind].
  eexists; split; [done|]. unfold wf in *. cbn. by rewrite length_insert.
Qed.

Lemma keeps_print_target imm : keeps (print_target address pc imm).
Proof. apply keeps_seq; [by apply keeps_set|]. intros s Hs. by eexists. Qed.

Lemma keeps_print_csr : keeps (print_csr l).
Proof. intros s Hs. by eexists. Qed.

Lemma keeps_print_vtype imm : keeps (print_vtype imm).
Proof. unfold print_vtype, print_int. repeat case_match; auto with printing. Qed.

Lemma keeps_fli : keeps (fun s =>
  let* sym := riscv_fli_symval !! Z.to_nat (rs1 l) in
  match sym with
  | Some t => print t s
  | None => let* v := riscv_fli_numval !! Z.to_nat (rs1 l) in print (hex_float v) s
  end).
Proof.
  intros s Hs. pose proof (field_range OP_MASK_RS1 OP_SH_RS1 ltac:(done)).
  destruct (lookup_total_Z riscv_fli_symval (rs1 l)) as [t ->]; [unfold rs1; cbn; lia|].
  destruct (lookup_total_Z riscv_fli_numval (rs1 l)) as [v ->]; [unfold rs1; cbn; lia|].
  cbn [mbind option_bind]. destruct t; by apply keeps_print.
Qed.
End Keeps.
#[export] Hint Resolve keeps_maybe_print_address keeps_set_hi_addr keeps_print_target
  keeps_print_csr keeps_mask keeps_print_vtype keeps_fli keeps_gpr keeps_fpr keeps_vecr : printing.

(** Ranges of register numbers. *)
Ltac field_bounds :=
  unfold rs1, rd;
  repeat match goal with
  | |- context [field ?l ?m ?sh] =>
      let H := fresh in pose proof (field_range l m sh ltac:(done)) as H; revert H;
      generalize (field l m sh); intros ? ?
  end; lia.
#[export] Hint Extern 2 (_ <= _ < _) => field_bounds : printing.

Section Total.
Context (address : Z -> string) (g : settings) (Hg : tables_ok g) (l pc : Z).

Definition modifier_keeps (m : modifier) : Prop :=
  match m with Modifier a _ => keeps a | _ => True end.

Ltac by_cases := repeat case_match; cbn [modifier_keeps]; unfold print_int, print_hex, arg_print; auto with printing.

Lemma rvc_modifier_keeps s : modifier_keeps (rvc_modifier address g l pc s).
Proof. unfold rvc_modifier. by_cases. Qed.

Lemma rvv_modifier_keeps s : modifier_keeps (rvv_modifier g l s).
Proof. unfold rvv_modifier. by_cases. Qed.

Lemma various_modifier_keeps s : modifier_keeps (various_modifier l s).
Proof. unfold various_modifier. by_cases. Qed.

Lemma imm_modifier_keeps s : modifier_keeps (imm_modifier l s).
Proof. unfold imm_modifier. by_cases. Qed.

Lemma keeps_address_pair : keeps (address_pair g l).
Proof. unfold address_pair, print_int. auto 6 with printing. Qed.

Hint Resolve rvc_modifier_keeps rvv_modifier_keeps various_modifier_keeps imm_modifier_keeps
  keeps_address_pair : printing.

Lemma next_modifier_keeps s : modifier_keeps (next_modifier address g l pc s).
Proof. unfold next_modifier. by_cases. Qed.
End Total.

(** * The operand strings of the table *)

Fixpoint format_ok (address : Z -> string) (g : settings) (l pc : Z) (fuel : nat) (s : string) : bool :=
  match fuel, s with
  | _, EmptyString => true
  | O, _ => false
  | S fuel, _ =>
      match next_modifier address g l pc s with
      | Modifier _ r => format_ok address g l pc fuel r
      | _ => false
      end
  end.

Lemma print_modifiers_total address g l pc fuel oparg s :
  tables_ok g -> wf s -> format_ok address g l pc fuel oparg = true ->
  exists s', print_modifiers address g l pc fuel oparg s = Some (Finished s') /\ wf s'.
Proof.
  intros Hg. revert oparg s. induction fuel as [|fuel IH]; intros [|c r] s Hs H; cbn [format_ok] in H;
    try done; try (by exists s).
  cbn [print_modifiers]. pose proof (next_modifier_keeps address g Hg l pc (String c r)) as Hk.
  destruct (next_modifier address g l pc (String c r)) as [a rest| |]; try done.
  destruct (Hk s Hs) as (s1 & -> & H1). by apply IH.
Qed.

Definition row_format_ok address g l pc (op : riscv_opcode) : bool :=
  format_ok address g l pc (String.length (args op)) (args op).

(** An earlier row that matches whenever [op] does hides it from the scan. *)
Definition hides (op r : riscv_opcode) : bool :=
  bool_decide (match_func r = match_func op) && (mask r =? mask op) && (match_bits r =? match_bits op)
  && bool_decide (insn_class r = insn_class op) && (xlen_requirement r =? xlen_requirement op)
  && (Z.land (pinfo r) INSN_ALIAS =? 0).

Lemma hides_accepts c w op r : hides op r = true -> Disasm.accepts c w op = true -> Disasm.accepts c w r = true.
Proof.
  unfold hides. rewrite !andb_true_iff, !bool_decide_eq_true, !Z.eqb_eq.
  intros (((((Hf & Hm) & Hb) & Hc) & Hx) & Ha).
  unfold Disasm.accepts. rewrite Hx, Hc, Ha. intros H. rewrite !andb_true_iff in *.
  destruct H as (((Hcall & _) & ?) & ?). repeat split; [|by rewrite andb_false_r|done..].
  revert Hcall. unfold Match.call, Match.rd_nonzero, Match.opcode. by rewrite Hf, Hm, Hb.
Qed.

(** Every row prints, can never match, or is hidden. *)
Fixpoint formats_ok address g l pc (seen ops : list riscv_opcode) : bool :=
  match ops with
  | [] => true
  | op :: rest =>
      (row_format_ok address g l pc op || bool_decide (match_func op = match_never)
       || existsb (hides op) seen)
      && formats_ok address g l pc (op :: seen) rest
  end.

Lemma formats_checked address g l pc : formats_ok address g l pc [] Table.riscv_opcodes = true.
Proof. by vm_compute. Qed.

Lemma scan_format address g l pc c w seen ops op :
  formats_ok address g l pc seen ops = true ->
  forallb (fun r => negb (Disasm.accepts c w r)) seen = true ->
  Disasm.scan c w ops = Some op -> row_format_ok address g l pc op = true.
Proof.
  revert seen. induction ops as [|r rest IH]; intros seen; cbn [formats_ok Disasm.scan]; [done|].
  intros H Hseen. apply andb_prop in H as [Hr Hrest].
  destruct (Disasm.accepts c w r) eqn:Ea.
  - intros [= ->]. apply orb_prop in Hr as [Hr|Hr]; [apply orb_prop in Hr as [Hr|Hr]; [done|]|].
    + apply bool_decide_eq_true in Hr. exfalso. revert Ea. unfold Disasm.accepts, Match.call. by rewrite Hr.
    + apply existsb_exists in Hr as (r & Hin & Hh). rewrite forallb_forall in Hseen.
      specialize (Hseen r Hin). by rewrite (hides_accepts c w op r Hh Ea) in Hseen.
  - apply (IH (r :: seen)); [done|]. cbn [forallb]. by rewrite Ea.
Qed.

(** What the scan selects prints. *)
Lemma selected_prints address g l pc c w op s :
  tables_ok g -> wf s -> Disasm.scan c w Table.riscv_opcodes = Some op ->
  exists s', print_insn_args address g l pc (args op) s = Some (Finished s') /\ wf s'.
Proof.
  intros Hg Hs Hop. unfold print_insn_args.
  destruct (keeps_when (negb (String.eqb (args op) "")) _ (keeps_print (String "009" "")) s Hs)
    as (s1 & -> & H1).
  apply print_modifiers_total; [done..|].
  exact (scan_format address g l pc c w [] _ op (formats_checked address g l pc) eq_refl Hop).
Qed.

(** * The whole instruction *)

Lemma bfd_get_bits_total n addr : (n <= length addr)%nat -> exists v, bfd_get_bits addr n = Some v.
Proof.
  revert addr. induction n as [|n IH]; intros [|b addr] H; cbn in *; try lia; try by eexists.
  destruct (IH addr ltac:(lia)) as [v ->]. by eexists.
Qed.

Lemma raw_units_total k packet printed : (2 * k <= length packet)%nat -> exists t, raw_units k packet printed = Some t.
Proof.
  revert printed. induction k as [|k IH]; intros printed H; [by eexists|]. cbn [raw_units].
  destruct (bfd_get_bits_total 2 (drop (2 * k) packet)) as [v ->]; [rewrite length_drop; lia|].
  cbn [mbind option_bind]. case_match; [apply IH; lia|].
  destruct (IH true ltac:(lia)) as [t ->]. by eexists.
Qed.

Lemma land_shiftl_high w m k j : 0 <= k <= j ->
  Z.land (Z.shiftr w (j - k)) (Z.shiftl m k) = Z.shiftl (Z.land (Z.shiftr w j) m) k.
Proof.
  intros H. apply Z.bits_inj'. intros n Hn.
  rewrite Z.land_spec, Z.shiftr_spec, !Z.shiftl_spec by lia.
  destruct (Z.leb_spec k n).
  - rewrite Z.land_spec, Z.shiftr_spec by lia. by replace (n - k + j) with (n + (j - k)) by lia.
  - rewrite !(Z.testbit_neg_r _ (n - k)) by lia. by rewrite andb_false_r.
Qed.

(** [RISCV_MAX_INSN_LEN], the size of [packet]. *)
Lemma insn_length_max w : 2 <= Disasm.riscv_insn_length w <= 22.
Proof.
  unfold Disasm.riscv_insn_length.
  pose proof (land_shiftl_high w 7 1 12 ltac:(lia)) as E1. pose proof (land_shiftl_high w 7 12 12 ltac:(lia)) as E2.
  pose proof (land_bound (Z.shiftr w 12) 7 ltac:(done)) as Hb. 
  change (Z.shiftl 7 12) with 0x7000 in E2. change (Z.shiftl 7 1) with 0xe in E1.
  rewrite Z.shiftl_mul_pow2 in E1, E2 by lia.
  change (12 - 1) with 11 in E1. change (12 - 12) with 0 in E2. rewrite Z.shiftr_0_r in E2.
  rewrite E1, E2. repeat case_match; lia.
Qed.

Lemma keeps_print_raw w packet : (22 <= length packet)%nat -> keeps (print_raw (Disasm.riscv_insn_length w) packet).
Proof.
  intros Hp s Hs. unfold print_raw. pose proof (insn_length_max w).
  destruct (raw_units_total (Z.to_nat (Disasm.riscv_insn_length w / 2)) packet false) as [t ->].
  { pose proof (Z.mul_div_le (Disasm.riscv_insn_length w) 2 ltac:(lia)).
    pose proof (Z.div_pos (Disasm.riscv_insn_length w) 2 ltac:(lia) ltac:(lia)). lia. }
  by apply keeps_print.
Qed.

Lemma keeps_print_comment address : keeps (print_comment address).
Proof. intros s Hs. unfold print_comment. destruct (to_print_addr (pd s)); by eexists. Qed.

Lemma settings_tables outside mach g : length (gpr_names g) = 32%nat -> tables_ok (settings_of outside mach g).
Proof. intros H. split; [done|]. cbn. unfold fpr_names. by repeat case_match. Qed.

(** [C9] Printing never fails: with a packet as long as the longest instruction and
    the tables of 32 names, [riscv_disassemble_insn] prints every word of every configuration
    without reading outside an array, reports exactly the entry the lookup finds, and that
    entry's operand string holds no modifier the printer does not know. *)
Theorem disassembly_total outside address mach memaddr word packet g s :
  wf s -> length (gpr_names g) = 32%nat -> (22 <= length packet)%nat ->
  exists g' s',
    riscv_disassemble_insn outside Disasm.riscv_hash address mach memaddr word packet g s =
      Some (Disasm.riscv_disassemble_insn Disasm.riscv_hash (config_of outside g') word, g', s') /\
    wf s' /\ length (gpr_names g') = 32%nat /\
    forall op t, wf t -> Disasm.lookup Disasm.riscv_hash (config_of outside g') word = Some op ->
      exists t', print_insn_args address (settings_of outside mach g') word memaddr (args op) t = Some (Finished t').
Proof.
  intros Hs Hn Hp.
  assert (Hprints : forall g' op t, length (gpr_names g') = 32%nat -> wf t ->
      Disasm.lookup Disasm.riscv_hash (config_of outside g') word = Some op ->
      exists t', print_insn_args address (settings_of outside mach g') word memaddr (args op) t
                 = Some (Finished t') /\ wf t').
  { intros g' op t Hg' Ht Hl. rewrite lookup_ref in Hl.
    by apply (selected_prints _ _ _ _ _ _ _ _ (settings_tables outside mach g' Hg') Ht Hl). }
  assert (Hraw : forall g', length (gpr_names g') = 32%nat ->
    Disasm.lookup Disasm.riscv_hash (config_of outside g') word = None ->
    exists s', print_raw (Disasm.riscv_insn_length word) packet (s <| target := 0 |>) = Some s' /\ wf s').
  { intros g' _ _. by apply keeps_print_raw. }
  unfold riscv_disassemble_insn, Disasm.riscv_disassemble_insn. unfold Disasm.lookup in *.
  destruct (Disasm.riscv_hash (Disasm.hash_idx word)) as [ops|].
  2:{ destruct (Hraw g Hn eq_refl) as (s' & -> & H'). exists g, s'. repeat split; done. }
  set (g' := g <| cur_xlen := known_xlen mach (cur_xlen g) |>).
  assert (Hn' : length (gpr_names g') = 32%nat) by done.
  specialize (Hprints g'). specialize (Hraw g' Hn'). cbn [mbind option_bind].
  destruct (Disasm.scan (config_of outside g') word ops) as [op|] eqn:E.
  - match goal with |- context [print (name op) ?x] =>
      destruct (keeps_print (name op) x Hs) as (s0 & -> & H0) end.
    cbn [mbind option_bind].
    destruct (Hprints op s0 Hn' H0 eq_refl) as (s1 & -> & H1). cbn [mbind option_bind ending_state].
    destruct (keeps_print_comment address s1 H1) as (s2 & -> & H2). exists g', s2.
    cbn [mbind option_bind]. rewrite E. repeat split; [done..|]. intros op' t Ht [= <-].
    destruct (Hprints op t Hn' Ht eq_refl) as (t' & Et & _). by exists t'.
  - destruct (Hraw eq_refl) as (s' & -> & H'). exists g', s'. cbn [mbind option_bind]. rewrite E.
    repeat split; [done..|]. by intros op' t _ [=].
Qed.

Lemma disassembly_total_witness :
  let g := Globals 0 riscv_gpr_names_abi false Subsets.empty_list in
  let s := State "" 0 (riscv_init_disasm_info []) P_NONE in
  wf s /\ length (gpr_names g) = 32%nat /\ (22 <= length (repeat 0 22))%nat /\
  exists g' s',
    riscv_disassemble_insn Subsets.zeros Disasm.riscv_hash hex mach_riscv32 0 0x13 (repeat 0 22) g s =
      Some (Disasm.riscv_disassemble_insn Disasm.riscv_hash (config_of Subsets.zeros g') 0x13, g', s').
Proof.
  cbv zeta. split; [done|]. split; [done|]. split; [cbn; lia|].
  destruct (disassembly_total Subsets.zeros hex mach_riscv32 0 0x13 (repeat 0 22)
    (Globals 0 riscv_gpr_names_abi false Subsets.empty_list)
    (State "" 0 (riscv_init_disasm_info []) P_NONE)) as (g' & s' & E & _); [done|done|cbn; lia|].
  exists g', s'. exact E.
Defined.

End DisasmPrint.
