(* ===== verification/Addresses.v ===== *)
(** The addresses the disassembler prints after an instruction pair, against the machine:
    after [lui] or [auipc], an [addi] or [jalr] with a nonzero offset, a load or a store
    through the same register is printed with the very address the instruction set
    computes at run time; a [jalr] through [gp] or [tp] is not. *)

From Stdlib Require Import Ascii.
From S2P Require Import Prelude Decoder Opcodes Immediates Disasm Custom Isa Encoding Cpu RegNames CsrTable Subsets DisasmPrint.
#[local] Open Scope string_scope.
#[local] Open Scope Z_scope.

Module Addresses.
Import DisasmPrint.
#[local] Existing Instance Custom.riscv_opcode_eq_dec.
#[local] Opaque Disasm.riscv_hash.

(** * Rows that the scan reaches *)

(** [r] asks for zeros in the whole field [m]. *)
Definition blank (r : riscv_opcode) (m : Z) : bool :=
  (Z.land (mask r) m =? m) && (Z.land (match_bits r) m =? 0).

(** No row before [op] matches a word of [op] whose fields [ms] are not zero. *)
Fixpoint selects (ms : list Z) (op : riscv_opcode) (ops : list riscv_opcode) : bool :=
  match ops with
  | [] => false
  | r :: rest =>
      if decide (r = op) then true
      else (bool_decide (match_func r = match_never) || Custom.conflict r op || existsb (blank r) ms)
           && selects ms op rest
  end.

Lemma land_eq_lxor w v m : Z.land (Z.lxor w v) m = 0 <-> Z.land w m = Z.land v m.
Proof.
  rewrite <- (Z.lxor_eq_0_iff (Z.land w m)). enough (Z.land (Z.lxor w v) m = Z.lxor (Z.land w m) (Z.land v m)) as -> by done.
  apply Z.bits_inj'. intros n Hn. rewrite !Z.land_spec, !Z.lxor_spec, !Z.land_spec.
  by destruct (Z.testbit m n); rewrite ?andb_true_r, ?andb_false_r.
Qed.

Lemma blank_sound r m w : blank r m = true -> Z.land w m <> 0 -> Match.call r w = false.
Proof.
  unfold blank. rewrite andb_true_iff, !Z.eqb_eq. intros [Hm Hz] Hw. apply not_true_is_false. intros Hc.
  apply Disasm.call_opcode in Hc. pose proof (Disasm.opcode_land _ _ m Hc Hm). congruence.
Qed.

Lemma scan_selects c w ms op ops :
  selects ms op ops = true -> Forall (fun m => Z.land w m <> 0) ms ->
  Match.opcode op w = true -> Disasm.accepts c w op = true -> Disasm.scan c w ops = Some op.
Proof.
  intros Hs Hms Ho Ha. induction ops as [|r rest IH]; [done|]. cbn [selects Disasm.scan] in *.
  destruct (decide (r = op)) as [->|]; [by rewrite Ha|].
  apply andb_prop in Hs as [Hr Hrest]. unfold Disasm.accepts at 1.
  assert (Match.call r w = false) as ->; [|by apply IH].
  apply orb_prop in Hr as [Hr|Hr]; [apply orb_prop in Hr as [Hr|Hr]|].
  { apply bool_decide_eq_true in Hr. unfold Match.call. by rewrite Hr. }
  { by apply (Custom.conflict_sound _ op). }
  apply existsb_exists in Hr as (m & Hin & Hb). apply (blank_sound r m w Hb).
  rewrite Forall_forall in Hms. by apply Hms, list_elem_of_In.
Qed.

(** The uncompressed row of a mnemonic with given operands. *)
Definition row (n a : string) : riscv_opcode :=
  default (RiscvOpcode "" 0 INSN_CLASS_NONE "" 0 0 match_never 0)
    (List.find (fun op => bool_decide (name op = n /\ args op = a /\ insn_class op = INSN_CLASS_I))
       Table.riscv_opcodes).

(** The instruction pairs: the first sets a register, the second adds to it. *)
Definition sets (i : Isa.instr) : option Z :=
  match i with Isa.Lui rd _ | Isa.Auipc rd _ => Some rd | _ => None end.
Definition first_row (i : Isa.instr) : riscv_opcode :=
  match i with Isa.Lui _ _ => row "lui" "d,u" | _ => row "auipc" "d,u" end.

Definition load_name (w : Isa.width) (signed : bool) : string :=
  match w, signed with
  | Isa.BYTE, true => "lb" | Isa.BYTE, false => "lbu"
  | Isa.HALF, true => "lh" | Isa.HALF, false => "lhu"
  | Isa.WORD, _ => "lw"
  end.
Definition store_name (w : Isa.width) : string :=
  match w with Isa.BYTE => "sb" | Isa.HALF => "sh" | Isa.WORD => "sw" end.

(** Register and offset of the address an instruction computes, and the row that prints
    it: loads and stores with any offset, [addi] with any destination, and [jalr] with any
    link register. A zero offset makes [addi] print as [mv] and [jalr] without its offset,
    with no address; a [jalr] through [gp] or [tp] prints another address
    ([call_through_tp]). *)
Definition uses (i : Isa.instr) : option (Z * Z) :=
  match i with
  | Isa.OpImm Isa.ADD _ r k => if k =? 0 then None else Some (r, k)
  | Isa.Load _ _ _ r k | Isa.Store _ _ r k => Some (r, k)
  | Isa.Jalr _ r k => if (k =? 0) || (r =? 3) || (r =? 4) then None else Some (r, k)
  | _ => None
  end.
Definition second_row (i : Isa.instr) : riscv_opcode :=
  match i with
  | Isa.OpImm _ _ _ _ => row "add" "d,s,j"
  | Isa.Load w signed _ _ _ => row (load_name w signed) "d,o(s)"
  | Isa.Store w _ _ _ => row (store_name w) "t,q(s)"
  | Isa.Jalr 0 _ _ => row "jr" "o(s)"
  | Isa.Jalr 1 _ _ => row "jalr" "o(s)"
  | _ => row "jalr" "d,o(s)"
  end.
Definition second_fields (i : Isa.instr) : list Z :=
  match i with
  | Isa.OpImm _ _ _ _ => [MASK_RS1; MASK_IMM]
  | Isa.Jalr 0 _ _ => [MASK_IMM]
  | Isa.Jalr 1 _ _ => [MASK_RD; MASK_IMM]
  | Isa.Jalr _ _ _ => [Z.shiftl (Z.ones 4) 8; MASK_IMM]
  | _ => []
  end.

Lemma first_selects i rd : sets i = Some rd -> selects [] (first_row i) Table.riscv_opcodes = true.
Proof. destruct i; try done; intros _; by vm_compute. Qed.

Lemma second_selects i rk : Isa.valid i -> uses i = Some rk ->
  selects (second_fields i) (second_row i) Table.riscv_opcodes = true.
Proof.
  destruct i; try done; cbn [uses].
  - match goal with |- context [Isa.Jalr ?d _ _] => destruct d as [|[]|] end; intros _ _; by vm_compute.
  - destruct w, signed; intros _ _; by vm_compute.
  - destruct w; intros _ _; by vm_compute.
Qed.

(** * What a step does to the private data *)

(** From private data [p] the step succeeds, leaves [p'] and only appends to the
    output. *)
Definition moves (p : riscv_private_data) (a : action) (p' : riscv_private_data) : Prop :=
  forall s, pd s = p -> exists s' t, a s = Some s' /\ pd s' = p' /\ out s' = out s ++ t.

(** The same of a string of modifiers. *)
Definition runs address g l pc (oparg : string) (p p' : riscv_private_data) : Prop :=
  forall fuel s, (String.length oparg <= fuel)%nat -> pd s = p ->
    exists s' t, print_modifiers address g l pc fuel oparg s = Some (Finished s') /\
                 pd s' = p' /\ out s' = out s ++ t.

Lemma string_app_assoc (a b c : string) : a ++ (b ++ c) = (a ++ b) ++ c.
Proof. induction a as [|x a IH]; [done|]. exact (f_equal (String x) IH). Qed.
Lemma string_app_nil (a : string) : a ++ "" = a.
Proof. induction a as [|x a IH]; [done|]. exact (f_equal (String x) IH). Qed.

Create HintDb moving.

Lemma moves_skip p : moves p skip p.
Proof. intros s Hs. exists s, "". by rewrite string_app_nil. Qed.
Lemma moves_print p t : moves p (print t) p.
Proof. intros s Hs. by eexists _, t. Qed.
Lemma moves_seq p1 p2 p3 a b : moves p1 a p2 -> moves p2 b p3 -> moves p1 (a >>> b) p3.
Proof.
  intros Ha Hb s Hs. destruct (Ha s Hs) as (s1 & t1 & E1 & H1 & O1).
  destruct (Hb s1 H1) as (s2 & t2 & E2 & H2 & O2). exists s2, (t1 ++ t2). unfold seq. rewrite E1.
  cbn [mbind option_bind]. by rewrite E2, O2, O1, string_app_assoc.
Qed.
Lemma moves_gpr g p i : tables_ok g -> 0 <= i < 32 -> moves p (gpr g i) p.
Proof.
  intros [Hg _] Hi s Hs. unfold gpr, print_name.
  destruct (RegNames.lookup_total_Z (riscv_gpr_names g) i) as [t ->]; [lia|]. by apply moves_print.
Qed.
Lemma moves_when p p' (c : bool) a :
  (c = true -> moves p a p') -> (c = false -> p' = p) -> moves p (when c a) p'.
Proof. intros Ht Hf. destruct c; [by apply Ht|]. rewrite Hf by done. apply moves_skip. Qed.

(** An address is found when the register was set, and not otherwise. *)
Definition found g (p : riscv_private_data) (r hi offset : Z) : riscv_private_data :=
  set_print_addr g false (wrap 64 ((if r =? 0 then 0 else hi) + offset))
    (p <| hi_addr := <[Z.to_nat r := unset]> (hi_addr p) |>).
Lemma moves_found g p r hi offset :
  hi_addr p !! Z.to_nat r = Some hi -> hi <> unset ->
  moves p (maybe_print_address g r offset false) (found g p r hi offset).
Proof.
  intros Hr Hhi s <-. unfold maybe_print_address. rewrite Hr. cbn [mbind option_bind].
  destruct (Z.eqb_spec hi unset); [done|]. eexists _, "". split; [done|]. by rewrite string_app_nil.
Qed.
Lemma moves_unset g p r offset wide :
  hi_addr p !! Z.to_nat r = Some unset -> r <> 3 -> r <> 4 -> r <> 0 ->
  moves p (maybe_print_address g r offset wide) p.
Proof.
  intros Hr H3 H4 H0 s <-. unfold maybe_print_address. rewrite Hr. cbn [mbind option_bind].
  rewrite Z.eqb_refl. cbn [negb]. destruct (Z.eqb_spec r 3), (Z.eqb_spec r 4), (Z.eqb_spec r 0); try done.
  exists s, "". by rewrite string_app_nil.
Qed.
Lemma moves_set_hi p r a :
  length (hi_addr p) = 32%nat -> 0 <= r < 32 ->
  moves p (set_hi_addr r a) (p <| hi_addr := <[Z.to_nat r := a]> (hi_addr p) |>).
Proof.
  intros Hp Hr s <-. unfold set_hi_addr.
  destruct (RegNames.lookup_total_Z (hi_addr (pd s)) r) as [h ->]; [lia|]. eexists _, "".
  split; [done|]. by rewrite string_app_nil.
Qed.

Lemma runs_nil address g l pc p : runs address g l pc "" p p.
Proof. intros fuel s _ Hs. exists s, "". rewrite string_app_nil. by destruct fuel. Qed.
Lemma runs_cons address g l pc s a rest p1 p2 p3 :
  next_modifier address g l pc s = Modifier a rest -> (String.length rest < String.length s)%nat ->
  moves p1 a p2 -> runs address g l pc rest p2 p3 -> runs address g l pc s p1 p3.
Proof.
  intros Hn Hlt Ha Hr fuel st Hf Hs. destruct s as [|c s]; [by cbn in Hlt; lia|].
  destruct fuel as [|fuel]; [cbn in Hf; lia|].
  cbn [print_modifiers]. rewrite Hn. destruct (Ha st Hs) as (s1 & t1 & -> & H1 & O1).
  cbn [mbind option_bind]. destruct (Hr fuel s1) as (s2 & t2 & -> & H2 & O2); [cbn in Hf, Hlt; lia|done|].
  exists s2, (t1 ++ t2). by rewrite O2, O1, string_app_assoc.
Qed.

(** * The operand strings of the pairs *)

(** A pattern that differs from the word in an opcode bit does not match. *)
Lemma matches_opcode l m v o :
  Decoder.opcode l = o -> Z.land (Z.land m 0x7f) (Z.lxor v o) <> 0 -> matches l m v = false.
Proof.
  intros Ho Hd. apply not_true_is_false. unfold matches. rewrite Z.eqb_eq. intros <-. apply Hd.
  rewrite <- Ho. unfold Decoder.opcode, slice. rewrite Z.shiftr_0_r. unfold wrap. rewrite <- Z.land_ones by lia.
  apply Z.bits_inj'. intros n Hn. rewrite !Z.land_spec, Z.lxor_spec, !Z.land_spec, Z.bits_0.
  change 127 with (Z.ones 7). by destruct (Z.testbit m n), (Z.testbit (Z.ones 7) n), (Z.testbit l n).
Qed.

Lemma land_field l lo w : 0 <= lo -> 0 <= w ->
  Z.land l (Z.shiftl (Z.ones w) lo) = Z.shiftl (slice lo w l) lo.
Proof.
  intros Hlo Hw. unfold slice, wrap. rewrite <- Z.land_ones by done.
  rewrite <- land_shiftl_high by lia. by rewrite Z.sub_diag, Z.shiftr_0_r.
Qed.
Lemma land_opcode l : Z.land l 0x7f = Decoder.opcode l.
Proof. change 0x7f with (Z.shiftl (Z.ones 7) 0). rewrite land_field by lia. apply Z.shiftl_0_r. Qed.
Lemma land_funct3 l : Z.land l 0x707f = Z.lor (Decoder.opcode l) (Z.shiftl (Decoder.funct3 l) 12).
Proof.
  change 0x707f with (Z.lor 0x7f (Z.shiftl (Z.ones 3) 12)).
  by rewrite Z.land_lor_distr_r, land_opcode, land_field by lia.
Qed.

(** The register fields, read as the decoder reads them. *)
Lemma field_slice l sh : 0 <= sh -> field l 0x1f sh = slice sh 5 l.
Proof. intros. unfold field, slice, wrap. by rewrite <- Z.land_ones by lia. Qed.
Lemma field5 l sh : 0 <= sh -> 0 <= field l 0x1f sh < 32.
Proof. intros. pose proof (field_range l 0x1f sh ltac:(done)). lia. Qed.

Ltac next_round := eapply runs_cons; [reflexivity|cbn; lia| |].
Ltac opcode_mask := eapply matches_opcode; [eassumption|by vm_compute].

Section Runs.
Context (address : Z -> string) (g : settings) (l pc : Z) (p : riscv_private_data).
Context (Hg : tables_ok g) (Hm : mach64 g = false) (Hp : length (hi_addr p) = 32%nat).

Lemma moves_field q sh : 0 <= sh -> moves q (gpr g (field l 0x1f sh)) q.
Proof. intros. by apply moves_gpr, field5. Qed.

(** [d] of other instructions than [lui] and [auipc]. *)
Lemma moves_d q a :
  next_modifier address g l pc "d" = Modifier a "" ->
  Z.land (Decoder.opcode l) 3 = 3 -> Decoder.opcode l <> 0x17 -> Decoder.opcode l <> 0x37 -> moves q a q.
Proof.
  cbn [next_modifier]. intros [= <-] H3 H17 H37. apply moves_seq with q; [|by apply moves_field].
  unfold matches. rewrite !land_opcode.
  destruct (Z.eqb_spec (Decoder.opcode l) MATCH_AUIPC); [done|]. destruct (Z.eqb_spec (Decoder.opcode l) MATCH_LUI); [done|].
  apply moves_when; [|done]. intros E. apply Z.eqb_eq in E. exfalso.
  assert (Z.land (Z.land l MASK_C_LUI) 3 = 1) as Hc by (by rewrite E).
  rewrite <- Z.land_assoc in Hc. change (Z.land MASK_C_LUI 3) with (Z.land 0x7f 3) in Hc.
  rewrite Z.land_assoc, land_opcode in Hc. congruence.
Qed.

Lemma matches_i o f v : Decoder.opcode l = o -> Decoder.funct3 l = f ->
  matches l 0x707f v = (Z.lor o (Z.shiftl f 12) =? v).
Proof. intros <- <-. unfold matches. by rewrite land_funct3. Qed.

(** The register read, set by the first instruction. *)
Context (r hi : Z) (Hr : slice 15 5 l = r) (H0 : r <> 0).
Context (Hset : hi_addr p !! Z.to_nat r = Some hi) (Hhi : hi <> unset).

Lemma rs1_r : rs1 l = r.
Proof. unfold rs1. by rewrite field_slice by lia. Qed.

Lemma moves_found_rs1 offset :
  moves p (maybe_print_address g (rs1 l) offset false) (found g p r hi offset).
Proof. rewrite rs1_r. by apply moves_found. Qed.

(** [address_pair] and the [s] of a load or store. *)
Lemma moves_no_pair q : Decoder.opcode l = 0x03 \/ Decoder.opcode l = 0x23 ->
  moves q (address_pair g l) q /\ matches l MASK_JALR MATCH_JALR = false.
Proof.
  intros Ho.
  assert (matches l MASK_ADDI MATCH_ADDI = false) as E1 by (destruct Ho; opcode_mask).
  assert (matches l MASK_JALR MATCH_JALR = false) as E2 by (destruct Ho; opcode_mask).
  split; [|done]. unfold address_pair. rewrite Hm, E1, E2. cbn [andb orb].
  apply moves_seq with q; [|apply moves_print]. apply moves_seq with q; apply moves_skip.
Qed.

Lemma moves_s q a : next_modifier address g l pc "s" = Modifier a "" ->
  matches l MASK_JALR MATCH_JALR = false -> moves q a q.
Proof.
  cbn [next_modifier]. intros [= <-] ->. apply moves_seq with q; [apply moves_skip|].
  by apply moves_field.
Qed.

Definition with_offset (k : Z) : riscv_private_data := found g p r hi (int_of k).

Lemma run_load : Decoder.opcode l = 0x03 ->
  runs address g l pc "d,o(s)" p (with_offset (EXTRACT_ITYPE_IMM l)).
Proof.
  intros Ho. destruct (moves_no_pair (with_offset (EXTRACT_ITYPE_IMM l)) (or_introl Ho)) as [Hpair HJ].
  next_round; [eapply moves_d; [reflexivity|by rewrite Ho..]|].
  next_round; [apply moves_print|].
  next_round; [eapply moves_seq; [apply moves_found_rs1|exact Hpair]|].
  next_round; [apply moves_print|].
  next_round; [by eapply moves_s|]. next_round; [apply moves_print|apply runs_nil].
Qed.

Lemma run_store : Decoder.opcode l = 0x23 ->
  runs address g l pc "t,q(s)" p (with_offset (EXTRACT_STYPE_IMM l)).
Proof.
  intros Ho. destruct (moves_no_pair p (or_intror Ho)) as [_ HJ].
  next_round; [by apply moves_field|]. next_round; [apply moves_print|].
  next_round; [eapply moves_seq; [apply moves_found_rs1|apply moves_print]|].
  next_round; [apply moves_print|].
  next_round; [by eapply moves_s|]. next_round; [apply moves_print|apply runs_nil].
Qed.

Lemma run_addi : Decoder.opcode l = 0x13 -> Decoder.funct3 l = 0 ->
  runs address g l pc "d,s,j" p (with_offset (EXTRACT_ITYPE_IMM l)).
Proof.
  intros Ho Hf.
  assert (matches l MASK_JALR MATCH_JALR = false) as HJ by opcode_mask.
  next_round; [eapply moves_d; [reflexivity|by rewrite Ho..]|]. next_round; [apply moves_print|].
  next_round; [by eapply moves_s|]. next_round; [apply moves_print|].
  next_round; [|apply runs_nil]. unfold address_pair. rewrite Hm, HJ. cbn [andb].
  rewrite (matches_i _ _ _ Ho Hf), rs1_r. destruct (Z.eqb_spec r 0); [done|]. cbn [andb negb orb Z.eqb].
  eapply moves_seq; [eapply moves_seq; [by apply moves_found|apply moves_skip]|apply moves_print].
Qed.

Lemma run_jalr : Decoder.opcode l = 0x67 -> Decoder.funct3 l = 0 -> r <> 3 -> r <> 4 ->
  runs address g l pc "o(s)" p (with_offset (EXTRACT_ITYPE_IMM l)).
Proof.
  intros Ho Hf H3 H4. pose proof (field5 l 15 ltac:(done)) as Hb. fold (rs1 l) in Hb. rewrite rs1_r in Hb.
  set (q := with_offset (EXTRACT_ITYPE_IMM l)).
  assert (Hq : hi_addr q !! Z.to_nat r = Some unset).
  { unfold q, with_offset, found, set_print_addr. cbn. apply list_lookup_insert_eq. lia. }
  assert (Hu : forall k, moves q (maybe_print_address g (rs1 l) k false) q).
  { intros k. rewrite rs1_r. by apply moves_unset. }
  assert (HJ : matches l MASK_JALR MATCH_JALR = true) by (by rewrite (matches_i _ _ _ Ho Hf)).
  next_round.
  { eapply moves_seq; [apply moves_found_rs1|]. unfold address_pair. rewrite Hm, HJ, orb_true_r.
    eapply moves_seq; [eapply moves_seq; [apply Hu|apply moves_skip]|apply moves_print]. }
  next_round; [apply moves_print|].
  next_round; [rewrite HJ; eapply moves_seq; [apply Hu|by apply moves_field]|].
  next_round; [apply moves_print|apply runs_nil].
Qed.
Lemma run_jalr_d : Decoder.opcode l = 0x67 -> Decoder.funct3 l = 0 -> r <> 3 -> r <> 4 ->
  runs address g l pc "d,o(s)" p (with_offset (EXTRACT_ITYPE_IMM l)).
Proof.
  intros Ho Hf H3 H4. next_round; [eapply moves_d; [reflexivity|by rewrite Ho..]|].
  next_round; [apply moves_print|by apply run_jalr].
Qed.
End Runs.

(** The first of a pair. *)
Lemma run_upper address g l pc p hi :
  tables_ok g -> length (hi_addr p) = 32%nat ->
  (Decoder.opcode l = 0x37 /\ hi = wrap 64 (EXTRACT_UTYPE_IMM l) \/
   Decoder.opcode l = 0x17 /\ hi = wrap 64 (pc + EXTRACT_UTYPE_IMM l)) ->
  runs address g l pc "d,u" p (p <| hi_addr := <[Z.to_nat (slice 7 5 l) := hi]> (hi_addr p) |>).
Proof.
  intros Hg Hp H. assert (Hrd : rd l = slice 7 5 l) by (unfold rd; by rewrite field_slice by lia).
  rewrite <- Hrd. pose proof (field5 l 7 ltac:(done)) as Hb.
  next_round; [eapply moves_seq; [|by apply moves_field]|].
  2:{ next_round; [apply moves_print|]. next_round; [apply moves_print|apply runs_nil]. }
  unfold matches. rewrite !land_opcode. destruct H as [[-> ->]|[-> ->]]; by apply moves_set_hi.
Qed.

(** * Whole instructions *)

Abbreviation rv32 g := (g <| cur_xlen := known_xlen mach_riscv32 (cur_xlen g) |>).

Section Pair.
Context (outside : Ascii.ascii -> Z) (address : Z -> string).

Abbreviation disassemble := (riscv_disassemble_insn outside Disasm.riscv_hash address).

Lemma disassembled mach memaddr word packet g s op p'
    (g' := g <| cur_xlen := known_xlen mach (cur_xlen g) |>) :
  Disasm.scan (config_of outside g') word Table.riscv_opcodes = Some op ->
  runs address (settings_of outside mach g') word memaddr (args op) (pd s) p' ->
  exists s' t,
    disassemble mach memaddr word packet g s = Some (Disasm.report_of word (Some op), g', s') /\
    pd s' = p' <| to_print_addr := false |> /\
    out s' = out s ++ t ++ (if to_print_addr p' then " # " ++ address (print_addr p') else "").
Proof.
  intros Hscan Hruns. rewrite <- lookup_ref in Hscan. unfold Disasm.lookup in Hscan.
  unfold riscv_disassemble_insn. destruct (Disasm.riscv_hash (Disasm.hash_idx word)) as [ops|]; [|done].
  cbv zeta. fold g'. rewrite Hscan. cbn [mbind option_bind].
  match goal with |- context [print (name op) ?x] =>
    destruct (moves_print (pd s) (name op) x eq_refl) as (s0 & t0 & -> & H0 & O0) end.
  cbn [mbind option_bind]. unfold print_insn_args.
  destruct (moves_when (pd s) (pd s) (negb (String.eqb (args op) "")) (print (String "009" ""))
    (fun _ => moves_print _ _) (fun _ => eq_refl) s0 H0) as (s1 & t1 & -> & H1 & O1).
  cbn [mbind option_bind].
  destruct (Hruns (String.length (args op)) s1 ltac:(done) H1) as (s2 & t2 & -> & H2 & O2).
  cbn [mbind option_bind ending_state]. unfold print_comment. rewrite H2.
  cbn in O0. destruct (to_print_addr p') eqn:Ep.
  - eexists _, (t0 ++ t1 ++ t2). split; [reflexivity|]. cbn. rewrite H2. split; [done|].
    by rewrite O2, O1, O0, <- !string_app_assoc.
  - eexists _, (t0 ++ t1 ++ t2). split; [reflexivity|].
    rewrite H2, string_app_nil, O2, O1, O0, <- !string_app_assoc. split; [|done].
    destruct p'; cbn in Ep |- *. by subst.
Qed.

(** What the configuration must allow. *)
Record plain (g : globals) : Prop := Plain
  { plain_names : length (gpr_names g) = 32%nat;
    plain_aliases : no_aliases g = false;
    plain_base : Subsets.riscv_subset_supports outside (riscv_subsets g) "i" = true }.

Lemma plain_xlen g x : plain g -> plain (g <| cur_xlen := x |>).
Proof. intros [? ? ?]. by split. Qed.

(** Every row of the pairs is of the base instruction set, plainly matched. *)
Definition base_row (op : riscv_opcode) : bool :=
  bool_decide (match_func op = match_opcode) && bool_decide (insn_class op = INSN_CLASS_I)
  && (xlen_requirement op =? 0).

Lemma base_accepts g w op :
  plain g -> base_row op = true -> Z.land w (mask op) = Z.land (match_bits op) (mask op) ->
  Match.opcode op w = true /\ Disasm.accepts (config_of outside g) w op = true.
Proof.
  intros [_ Ha Hi]. unfold base_row. rewrite !andb_true_iff, !bool_decide_eq_true, Z.eqb_eq.
  intros [[Hf Hc] Hx] Hw.
  assert (Match.opcode op w = true) as Ho by (unfold Match.opcode; by apply Z.eqb_eq, land_eq_lxor).
  split; [done|]. unfold Disasm.accepts, Match.call. rewrite Hf, Ho, Hc, Hx. cbn. by rewrite Ha, Hi.
Qed.

Lemma scan_row g w ms op :
  plain g -> base_row op = true -> Z.land w (mask op) = Z.land (match_bits op) (mask op) ->
  selects ms op Table.riscv_opcodes = true -> Forall (fun m => Z.land w m <> 0) ms ->
  Disasm.scan (config_of outside g) w Table.riscv_opcodes = Some op.
Proof.
  intros Hg Hb Hw Hs Hms. destruct (base_accepts g w op Hg Hb Hw). by apply (scan_selects _ _ ms).
Qed.

(** ** The first instruction *)

Definition upper_value (i : Isa.instr) (pc : Z) : Z :=
  match i with Isa.Lui _ imm => imm | Isa.Auipc _ imm => pc + imm | _ => 0 end.

Lemma first_word i rd pc :
  Isa.valid i -> sets i = Some rd ->
  let l := Isa.encode i in
  exists hi, (Decoder.opcode l = 0x37 /\ hi = wrap 64 (EXTRACT_UTYPE_IMM l) \/
              Decoder.opcode l = 0x17 /\ hi = wrap 64 (pc + EXTRACT_UTYPE_IMM l)) /\
    slice 7 5 l = rd /\ wrap 32 hi = wrap 32 (upper_value i pc) /\
    Z.land l (mask (first_row i)) = Z.land (match_bits (first_row i)) (mask (first_row i)) /\
    (pc mod 2 = 0 -> hi <> unset).
Proof.
  intros Hv Hi. assert (Heven : forall x, EXTRACT_UTYPE_IMM x mod 2 = 0).
  { intros x. apply Z.bits_inj'. intros n Hn. rewrite Z.bits_0. unfold EXTRACT_UTYPE_IMM.
    rewrite <- (Z.pow_1_r 2), <- Z.land_ones, Z.land_spec by lia.
    destruct (Z.eqb_spec n 0) as [->|]; [|by rewrite (Z.ones_spec_high 1) by lia; rewrite andb_false_r].
    by rewrite Z.lor_spec, !Z.shiftl_spec, !(Z.testbit_neg_r _ (0 - _)) by lia. }
  assert (Hodd : forall y, y mod 2 = 0 -> wrap 64 y <> unset).
  { intros y Hy E. apply (f_equal (wrap 1)) in E. rewrite wrap_narrow in E by lia.
    unfold wrap in E. rewrite Z.pow_1_r, Hy in E. done. }
  destruct i; try done; injection Hi as ->; destruct Hv as [Hrd Hk]; cbn [Isa.encode upper_value first_row].
  - destruct (Encoding.u_word 0x37 rd imm ltac:(done) Hrd Hk) as (Ho & Hd & Hu).
    eexists. split; [left; split; [exact Ho|reflexivity]|]. split; [done|].
    rewrite imm_u_extract in Hu. split; [by rewrite wrap_narrow by lia|].
    change (mask (row "lui" "d,u")) with 0x7f. rewrite land_opcode, Ho. split; [done|]. intros _. by apply Hodd.
  - destruct (Encoding.u_word 0x17 rd imm ltac:(done) Hrd Hk) as (Ho & Hd & Hu).
    eexists. split; [right; split; [exact Ho|reflexivity]|]. split; [done|].
    rewrite imm_u_extract in Hu. split; [rewrite wrap_narrow by lia; by rewrite <- wrap_add_r, Hu, wrap_add_r|].
    change (mask (row "auipc" "d,u")) with 0x7f. rewrite land_opcode, Ho. split; [done|].
    intros Hpc. apply Hodd. by rewrite Z.add_mod, Hpc, Heven by lia.
Qed.

(** ** The second instruction *)

Lemma imm_i_nonzero l k :
  Decoder.imm_i l = wrap 32 k -> VALID_ITYPE_IMM k = true -> k <> 0 -> Z.land l MASK_IMM <> 0.
Proof.
  intros Hi Hv Hk Hl. change MASK_IMM with (Z.shiftl (Z.ones 12) 20) in Hl.
  rewrite land_field in Hl by lia. apply Z.shiftl_eq_0_iff in Hl; [|lia].
  assert (Decoder.imm_i l = 0) as E.
  { pose proof (Custom.slice_testbit 20 12 l 11 ltac:(lia) ltac:(lia) ltac:(lia)) as Hb.
    rewrite Hl, Z.bits_0 in Hb. change (false = Z.testbit l 31) in Hb. unfold Decoder.imm_i, Decoder.sign. by rewrite <- Hb, Hl. }
  apply Hk. unfold VALID_ITYPE_IMM in Hv. apply Z.eqb_eq in Hv.
  rewrite itype_trip in Hv. apply simm_fixed in Hv as [Hv _]; [|lia].
  rewrite <- (sgn_small 32 k); [rewrite <- sgn_wrap, <- Hi, E by lia; done|lia|unfold srange in *; lia].
Qed.

Lemma field_nonzero l lo w : 0 <= lo -> 0 <= w -> slice lo w l <> 0 -> Z.land l (Z.shiftl (Z.ones w) lo) <> 0.
Proof. intros Hlo Hw Hs E. rewrite land_field, Z.shiftl_eq_0_iff in E by done. done. Qed.

(** How an instruction of the second kind prints, and what it adds. *)
Definition prints_offset (i : Isa.instr) (r k : Z) : Prop :=
  let l := Isa.encode i in
  slice 15 5 l = r /\
  Z.land l (mask (second_row i)) = Z.land (match_bits (second_row i)) (mask (second_row i)) /\
  Forall (fun m => Z.land l m <> 0) (second_fields i) /\
  exists off, wrap 32 off = wrap 32 k /\
    forall g pc p hi, tables_ok g -> mach64 g = false -> length (hi_addr p) = 32%nat -> r <> 0 ->
      hi_addr p !! Z.to_nat r = Some hi -> hi <> unset ->
      runs address g l pc (args (second_row i)) p (found g p r hi (int_of off)).

Lemma addi_prints rd r k :
  Isa.valid (Isa.OpImm Isa.ADD rd r k) -> k <> 0 -> r <> 0 -> prints_offset (Isa.OpImm Isa.ADD rd r k) r k.
Proof.
  intros (Hd & Hr & _ & Hk) Hk0 Hr0.
  destruct (Encoding.i_word 0x13 rd 0 r k ltac:(done) Hd ltac:(done) Hr Hk) as (Ho & _ & Hf & Hs & Hi).
  unfold prints_offset. change (second_row _) with (row "add" "d,s,j").
  cbn [Isa.encode Isa.is_shift Isa.alu_funct3]. split; [done|]. split; [|split].
  - change (mask (row "add" "d,s,j")) with 0x707f. by rewrite land_funct3, Ho, Hf.
  - constructor; [|constructor; [by eapply imm_i_nonzero|done]]. change MASK_RS1 with (Z.shiftl (Z.ones 5) 15).
    apply field_nonzero; [lia..|]. by rewrite Hs.
  - eexists. split; [etransitivity; [symmetry; apply imm_i_extract|exact Hi]|]. intros. by apply run_addi.
Qed.

Lemma rd_above_1 l d : slice 7 5 l = d -> 1 < d -> slice 8 4 l <> 0.
Proof.
  rewrite !slice_lt by lia. unfold wrap. change (2 ^ 7) with 128. change (2 ^ 8) with 256.
  change (2 ^ 5) with 32. change (2 ^ 4) with 16. Z.to_euclidean_division_equations. lia.
Qed.

(** The row of [jalr] by its link register, the fields that row needs, and its operands. *)
Lemma jalr_row d r k l (i := Isa.Jalr d r k) :
  0 <= d < 32 -> Decoder.opcode l = 0x67 -> Decoder.funct3 l = 0 -> slice 7 5 l = d -> Z.land l MASK_IMM <> 0 ->
  Z.land l (mask (second_row i)) = Z.land (match_bits (second_row i)) (mask (second_row i)) /\
  Forall (fun m => Z.land l m <> 0) (second_fields i) /\
  (args (second_row i) = "o(s)" \/ args (second_row i) = "d,o(s)").
Proof.
  intros Hd Ho Hf Hrd Himm.
  assert (Hm : Z.land l (Z.lor 0x707f (Z.shiftl (Z.ones 5) 7)) = Z.lor 0x67 (Z.shiftl d 7))
    by (by rewrite Z.land_lor_distr_r, land_funct3, Ho, Hf, land_field, Hrd by lia).
  assert (d = 0 \/ d = 1 \/ 1 < d) as [-> | [-> | H1]] by lia.
  - split; [exact Hm|]. split; [by constructor|by left].
  - split; [exact Hm|]. split; [|by left]. constructor; [|by constructor].
    change MASK_RD with (Z.shiftl (Z.ones 5) 7). apply field_nonzero; [lia..|]. by rewrite Hrd.
  - assert (second_row i = row "jalr" "d,o(s)" /\ second_fields i = [Z.shiftl (Z.ones 4) 8; MASK_IMM]) as [-> ->]
      by (unfold i; destruct d as [|[]|]; done || lia).
    split; [change (mask (row "jalr" "d,o(s)")) with 0x707f; by rewrite land_funct3, Ho, Hf|]. split; [|by right].
    constructor; [|by constructor]. apply field_nonzero; [lia..|]. by eapply rd_above_1.
Qed.

Lemma jalr_prints d r k :
  Isa.valid (Isa.Jalr d r k) -> k <> 0 -> r <> 3 -> r <> 4 -> prints_offset (Isa.Jalr d r k) r k.
Proof.
  intros (Hd & Hr & Hk) Hk0 H3 H4.
  destruct (Encoding.i_word 0x67 d 0 r k ltac:(done) Hd ltac:(done) Hr Hk) as (Ho & Hrd & Hf & Hs & Hi).
  destruct (jalr_row d r k (Isa.encode (Isa.Jalr d r k)) Hd Ho Hf Hrd) as (Hm & Hfs & Ha); [by eapply imm_i_nonzero|].
  split; [exact Hs|]. split; [exact Hm|]. split; [exact Hfs|].
  eexists. split; [etransitivity; [symmetry; apply imm_i_extract|exact Hi]|]. intros.
  destruct Ha as [-> | ->]; [by apply run_jalr|by apply run_jalr_d].
Qed.

Lemma load_prints w signed rd r k :
  Isa.valid (Isa.Load w signed rd r k) -> prints_offset (Isa.Load w signed rd r k) r k.
Proof.
  intros (Hd & Hr & Hk & Hw).
  destruct (Encoding.i_word 0x03 rd (Isa.width_funct3 w + if signed then 0 else 4) r k ltac:(done) Hd
    ltac:(by destruct w, signed) Hr Hk) as (Ho & _ & Hf & Hs & Hi).
  unfold prints_offset. cbn [Isa.encode second_row second_fields]. split; [done|]. split; [|split].
  - transitivity (Z.land (Isa.encode (Isa.Load w signed rd r k)) 0x707f); [by destruct w, signed|].
    rewrite land_funct3. cbn [Isa.encode]. rewrite Ho, Hf. destruct w, signed; try done. by specialize (Hw eq_refl).
  - done.
  - eexists. split; [etransitivity; [symmetry; apply imm_i_extract|exact Hi]|]. intros.
    assert (args (row (load_name w signed) "d,o(s)") = "d,o(s)") as -> by (by destruct w, signed). by apply run_load.
Qed.

Lemma store_prints w rs2 r k :
  Isa.valid (Isa.Store w rs2 r k) -> prints_offset (Isa.Store w rs2 r k) r k.
Proof.
  intros (Hd & Hr & Hk).
  destruct (Encoding.s_word 0x23 (Isa.width_funct3 w) r rs2 k ltac:(done) ltac:(by destruct w) Hr Hd Hk)
    as (Ho & Hf & Hs & _ & Hi).
  unfold prints_offset. cbn [Isa.encode second_row second_fields]. split; [done|]. split; [|split].
  - transitivity (Z.land (Isa.encode (Isa.Store w rs2 r k)) 0x707f); [by destruct w|].
    rewrite land_funct3. cbn [Isa.encode]. rewrite Ho, Hf. by destruct w.
  - done.
  - eexists. split; [etransitivity; [symmetry; apply imm_s_extract|exact Hi]|]. intros.
    assert (args (row (store_name w) "t,q(s)") = "t,q(s)") as -> by (by destruct w). by apply run_store.
Qed.

Lemma second_word i r k : Isa.valid i -> uses i = Some (r, k) -> r <> 0 -> prints_offset i r k.
Proof.
  intros Hv Hu Hr. destruct i; try done; cbn [uses] in Hu.
  - destruct f; try done. destruct (Z.eqb_spec imm 0); [done|]. injection Hu as -> ->. by apply addi_prints.
  - match goal with |- prints_offset (Isa.Jalr ?d ?q ?x) _ _ =>
      destruct (Z.eqb_spec x 0), (Z.eqb_spec q 3), (Z.eqb_spec q 4); try done end.
    injection Hu as -> ->. by apply jalr_prints.
  - injection Hu as -> ->. by apply load_prints.
  - injection Hu as -> ->. by apply store_prints.
Qed.

(** ** The pair *)

Lemma plain_tables g : plain g -> tables_ok (settings_of outside mach_riscv32 g).
Proof. intros [Hn _ _]. by apply settings_tables. Qed.

Lemma second_base i : base_row (second_row i) = true.
Proof.
  destruct i;
    try match goal with
        | |- context [Isa.Jalr ?d _ _] => destruct d as [|[]|]
        | |- context [Isa.Load ?w ?signed _ _ _] => destruct w, signed
        | |- context [Isa.Store ?w _ _ _] => destruct w
        end; by vm_compute.
Qed.
Lemma first_base i : args (first_row i) = "d,u" /\ base_row (first_row i) = true.
Proof. destruct i; by vm_compute. Qed.

Lemma first_printed g s i rd pc packet :
  plain g -> wf s -> pc mod 2 = 0 -> Isa.valid i -> sets i = Some rd ->
  exists hi s' r,
    disassemble mach_riscv32 pc (Isa.encode i) packet g s = Some (r, rv32 g, s') /\
    hi_addr (pd s') = <[Z.to_nat rd := hi]> (hi_addr (pd s)) /\
    hi <> unset /\ wrap 32 hi = wrap 32 (upper_value i pc) /\ 0 <= rd < 32.
Proof.
  intros Hg Hs Hpc Hv Hsets. assert (Hg1 : plain (rv32 g)) by by apply plain_xlen.
  destruct (first_word i rd pc Hv Hsets) as (hi & Hhi & Hrd & Hval & Hrow & Hset).
  pose proof (first_base i) as Hargs.
  pose proof (run_upper address (settings_of outside mach_riscv32 (rv32 g)) (Isa.encode i) pc (pd s) hi
    (plain_tables _ Hg1) Hs Hhi) as Hrun.
  rewrite Hrd, <- (proj1 Hargs) in Hrun.
  destruct (disassembled mach_riscv32 pc _ packet g s _ _
    (scan_row _ _ [] _ Hg1 (proj2 Hargs) Hrow (first_selects i rd Hsets) (Forall_nil_2 _)) Hrun)
    as (s1 & t & E & P & _).
  exists hi, s1. eexists. split; [exact E|]. rewrite P. repeat split; [by apply Hset|done|..];
    rewrite <- Hrd; pose proof (slice_range 7 5 (Isa.encode i) ltac:(lia)); unfold urange in *; lia.
Qed.

Lemma found_address (g : settings) p r hi off k :
  xlen g = 32 -> r <> 0 -> wrap 32 off = wrap 32 k ->
  print_addr (found g p r hi (int_of off)) = wrap 32 (hi + k).
Proof.
  intros Hx Hr Ho. unfold found, set_print_addr. rewrite Hx. cbn [print_addr setter Z.eqb Pos.eqb].
  destruct (Z.eqb_spec r 0); [done|].
  by rewrite wrap_narrow, <- wrap_add_r, wrap_sgn, Ho, wrap_add_r by lia.
Qed.

Lemma second_printed g s i rd k hi pc packet :
  plain g -> wf s -> Isa.valid i -> uses i = Some (rd, k) -> rd <> 0 ->
  hi_addr (pd s) !! Z.to_nat rd = Some hi -> hi <> unset ->
  exists s' r text,
    disassemble mach_riscv32 pc (Isa.encode i) packet g s = Some (r, rv32 g, s') /\
    out s' = text ++ " # " ++ address (wrap 32 (hi + k)).
Proof.
  intros Hg Hs Hv Huses H0 Hset Hhi. assert (Hg1 : plain (rv32 g)) by by apply plain_xlen.
  destruct (second_word i rd k Hv Huses H0) as (_ & Hrow & Hfields & off & Hoff & Hrun).
  specialize (Hrun (settings_of outside mach_riscv32 (rv32 g)) pc (pd s) hi (plain_tables _ Hg1) eq_refl
    Hs H0 Hset Hhi).
  pose proof (second_base i) as Hbase.
  destruct (disassembled mach_riscv32 pc _ packet g s _ _
    (scan_row _ _ _ _ Hg1 Hbase Hrow (second_selects i _ Hv Huses) Hfields) Hrun) as (s1 & t & E & _ & O).
  exists s1. eexists _, (out s ++ t). split; [exact E|]. rewrite O, <- string_app_assoc.
  assert (Hx : xlen (settings_of outside mach_riscv32 (rv32 g)) = 32) by reflexivity.
  by rewrite (found_address _ (pd s) rd hi off k Hx H0 Hoff).
Qed.

Lemma upper_register i a rd :
  sets i = Some rd -> rd <> 0 -> Isa.get (Isa.x (Isa.step i a)) rd = wrap 32 (upper_value i (Isa.pc a)).
Proof.
  intros Hs H0. assert (He : (rd =? 0) = false) by lia.
  destruct i; try discriminate Hs; injection Hs as ->; cbn; unfold Isa.get, Isa.put; rewrite He, Z.eqb_refl; done.
Qed.

End Pair.

(** * Concrete pairs *)

(** RV32I, an empty symbol table. *)
Definition rv32i : globals :=
  Globals 0 RegNames.riscv_gpr_names_abi false (Subsets.add_all [("i", (2, 1))]).
Definition fresh : state := State "" 0 (riscv_init_disasm_info []) CsrTable.P_NONE.
Definition at_0x100 : Isa.arch := Isa.Arch 0x100 (fun _ => 0) (fun _ => 0) (fun _ => 0) 0 0 0 0 false.


(** A call through [tp] after [auipc tp] prints the bare offset: the modifier [o] looks
    the register up twice, and the second time falls back to the thread pointer's zero. *)
Definition prints (l : list Z) (pc : Z) : option string :=
  out ∘ snd <$> foldr (fun w k pc '(g, s) =>
      let* r := riscv_disassemble_insn Subsets.zeros Disasm.riscv_hash RegNames.hex mach_riscv32 pc w [] g s in
      k (pc + 4) (r.1.2, r.2))
    (fun _ gs => Some gs) l pc (rv32i, fresh).
Theorem call_through_tp :
  prints [Isa.encode (Isa.Auipc 4 0x1000); Isa.encode (Isa.Jalr 1 4 8)] 0x100
  = Some "auipc	tp,0x1jalr	8(tp) # 8".
Proof. by vm_compute. Qed.
End Addresses.
