(* ===== verification/RawDirective.v ===== *)
(** The raw [.insn] directive that [riscv_disassemble_insn] ([opcodes/riscv-dis.c]) falls
    back to: the hexadecimal digits it prints denote the bytes of the instruction, except
    that an all-zero instruction prints no digit at all. *)

From Stdlib Require Import Ascii.
From S2P Require Import Prelude Opcodes Disasm RegNames CsrTable Subsets Immediates DisasmPrint.
#[local] Open Scope string_scope.
#[local] Open Scope Z_scope.

Module RawDirective.
Import RegNames DisasmPrint.

(** The number a string of hexadecimal digits denotes. *)
Definition hex_digit (c : ascii) : option Z :=
  let n := Z.of_nat (nat_of_ascii c) in
  if (48 <=? n) && (n <=? 57) then Some (n - 48)
  else if (97 <=? n) && (n <=? 102) then Some (n - 87) else None.
Fixpoint read_hex (acc : Z) (s : string) : option Z :=
  match s with
  | EmptyString => Some acc
  | String c s => let* d := hex_digit c in read_hex (16 * acc + d) s
  end.

Lemma read_hex_app acc s t :
  read_hex acc (s ++ t) = (let* v := read_hex acc s in read_hex v t).
Proof.
  revert acc. induction s as [|c s IH]; intros acc; [done|].
  change (String c s ++ t) with (String c (s ++ t)). cbn [read_hex].
  destruct (hex_digit c); [apply IH|done].
Qed.

Lemma length_app_string s t : String.length (s ++ t) = (String.length s + String.length t)%nat.
Proof. induction s as [|c s IH]; [done|]. exact (f_equal S IH). Qed.

Lemma read_hex_acc acc s :
  read_hex acc s = (let* v := read_hex 0 s in Some (acc * 16 ^ Z.of_nat (String.length s) + v)).
Proof.
  revert acc. induction s as [|c s IH]; intros acc; [cbn; f_equal; lia|]. cbn [read_hex String.length].
  destruct (hex_digit c) as [d|]; [|done]. cbn [mbind option_bind]. rewrite IH, (IH (16 * 0 + d)).
  destruct (read_hex 0 s); [|done]. cbn [mbind option_bind]. f_equal.
  rewrite Nat2Z.inj_succ, Z.pow_succ_r by lia. lia.
Qed.

(** Digits and zero padding read back. *)
Lemma hex_digit_char d : 0 <= d < 16 -> hex_digit (digit_char d) = Some d.
Proof.
  intros H. unfold hex_digit, digit_char. destruct (Z.ltb_spec d 10); rewrite nat_ascii_embedding by lia;
    rewrite Z2Nat.id by lia.
  - destruct (Z.leb_spec 48 (48 + d)), (Z.leb_spec (48 + d) 57); cbn [andb]; try lia. f_equal. lia.
  - destruct (Z.leb_spec 48 (87 + d)), (Z.leb_spec (87 + d) 57); cbn [andb]; try lia.
    destruct (Z.leb_spec 97 (87 + d)), (Z.leb_spec (87 + d) 102); cbn [andb]; try lia. f_equal. lia.
Qed.

Lemma digits_read fuel n acc tail :
  0 <= n < 16 ^ Z.of_nat fuel -> (0 < fuel)%nat ->
  exists k, (n < 16 ^ Z.of_nat k) /\ (Z.of_nat k <= 1 \/ 16 ^ (Z.of_nat k - 1) <= n) /\
    String.length (digits 16 fuel n tail) = (k + String.length tail)%nat /\
    read_hex acc (digits 16 fuel n tail) = read_hex (16 ^ Z.of_nat k * acc + n) tail.
Proof.
  revert n acc tail. induction fuel as [|fuel IH]; intros n acc tail Hn Hf; [lia|]. cbn [digits].
  pose proof (Z.mod_pos_bound n 16 eq_refl) as Hd. pose proof (Z.div_mod n 16 ltac:(lia)) as Hdm.
  destruct (Z.eqb_spec (n / 16) 0) as [E|E].
  - exists 1%nat. split; [cbn; lia|]. split; [left; lia|]. split; [done|].
    cbn [read_hex]. rewrite hex_digit_char by done. cbn [mbind option_bind]. f_equal. cbn. lia.
  - assert (Hp : 16 ^ Z.of_nat (S fuel) = 16 * 16 ^ Z.of_nat fuel).
    { rewrite Nat2Z.inj_succ, Z.pow_succ_r by lia. done. }
    assert (0 < n / 16) by (pose proof (Z.div_pos n 16); lia).
    assert (Hq : 0 <= n / 16 < 16 ^ Z.of_nat fuel) by (split; [lia|apply Z.div_lt_upper_bound; lia]).
    assert (Hf' : (0 < fuel)%nat) by (destruct fuel; [cbn in Hq|]; lia).
    destruct (IH (n / 16) acc (String (digit_char (n mod 16)) tail) Hq Hf') as (k & Hlt & Hge & -> & ->).
    assert (Hk : (0 < k)%nat) by (destruct k; [cbn in Hlt|]; lia).
    exists (S k). rewrite Nat2Z.inj_succ, Z.pow_succ_r by lia. split; [lia|]. split; [right|split].
    + replace (Z.succ (Z.of_nat k) - 1) with (Z.succ (Z.of_nat k - 1)) by lia. rewrite Z.pow_succ_r by lia.
      destruct Hge as [Hge|Hge]; [|lia]. replace (Z.of_nat k - 1) with 0 by lia. lia.
    + cbn [String.length]. lia.
    + cbn [read_hex]. rewrite hex_digit_char by done. cbn [mbind option_bind]. f_equal. lia.
Qed.

Lemma pad_read k s :
  read_hex 0 (pad k s) = read_hex 0 s /\
  ((String.length s <= k)%nat -> String.length (pad k s) = k).
Proof.
  induction k as [|k [IHr IHl]]; cbn [pad]; [split; [done|lia]|].
  destruct (Nat.ltb_spec (String.length s) (S k)).
  - split; [exact IHr|]. intros _. cbn [String.length]. rewrite IHl by lia. done.
  - split; [done|lia].
Qed.

(** Every 16-bit unit prints as four digits that read back. *)
Lemma unit_reads w : urange 16 w ->
  read_hex 0 (hex_padded 4 w) = Some w /\ String.length (hex_padded 4 w) = 4%nat.
Proof.
  intros [H0 H1]. change (2 ^ 16) with 65536 in H1. unfold hex_padded, hex.
  assert (Hw : 0 <= w < 16 ^ Z.of_nat 16) by (split; [done|by apply Z.lt_trans with 65536]).
  destruct (digits_read 16 w 0 "" Hw) as (k & _ & Hk & Hl & Hr); [lia|].
  destruct (pad_read 4 (digits 16 16 w "")) as [-> Hp]. rewrite Hr, Hp.
  - cbn [read_hex]. split; [f_equal; lia|done].
  - rewrite Hl. cbn [String.length]. destruct (Nat.le_gt_cases k 4); [lia|]. exfalso.
    destruct Hk as [Hk|Hk]; [lia|].
    assert (16 ^ 4 <= 16 ^ (Z.of_nat k - 1)) by (apply Z.pow_le_mono_r; lia). change (16 ^ 4) with 65536 in *. lia.
Qed.

Lemma bfd_get_bits_pack addr n v :
  (n <= 8)%nat -> Forall (urange 8) addr -> (n <= length addr)%nat ->
  bfd_get_bits addr n = Some v -> v = pack 8 (take n addr).
Proof.
  revert addr v. induction n as [|n IH]; intros addr v Hn Ha Hl; [by intros [= <-]|].
  destruct addr as [|b addr]; [cbn in Hl; lia|]. apply Forall_cons in Ha as [Hb Ha].
  cbn [bfd_get_bits head tail take pack]. cbn [mbind option_bind].
  destruct (bfd_get_bits addr n) as [d|] eqn:E; [|done]. cbn [mbind option_bind].
  intros [= <-]. rewrite (IH addr d); [|lia|done|cbn in Hl; lia|done].
  pose proof (pack_range 8 (take n addr) ltac:(lia)) as Hp. rewrite length_take in Hp.
  rewrite <- add_lor, (wrap_small 8 b) by (done || lia).
  rewrite wrap_small; [ring|].
  assert (2 ^ (8 * Z.of_nat (n `min` length addr)) <= 2 ^ 56) by (apply Z.pow_le_mono_r; lia).
  unfold urange in *. change (2 ^ 8) with 256 in *. change (2 ^ 56) with 72057594037927936 in *.
  change (2 ^ 64) with 18446744073709551616. lia.
Qed.

Lemma unit_value packet k :
  Forall (urange 8) packet -> (2 * S k <= length packet)%nat ->
  exists u, bfd_get_bits (drop (2 * k) packet) 2 = Some u /\ urange 16 u /\
    pack 8 (take (2 * S k) packet) = pack 8 (take (2 * k) packet) + 2 ^ (16 * Z.of_nat k) * u.
Proof.
  intros Hp Hl. assert (Hd : (2 <= length (drop (2 * k) packet))%nat) by (rewrite length_drop; lia).
  destruct (bfd_get_bits_total 2 _ Hd) as [u Hu]. exists u. split; [done|].
  apply bfd_get_bits_pack in Hu; [|lia|by apply Forall_drop|done].
  split.
  - subst u. pose proof (pack_range 8 (take 2 (drop (2 * k) packet)) ltac:(lia)) as H.
    by rewrite length_take, Nat.min_l in H by done.
  - replace (2 * S k)%nat with (2 * k + 2)%nat by lia.
    rewrite <- take_take_drop, pack_app, length_take, Nat.min_l, <- Hu by lia. do 3 f_equal. lia.
Qed.

Lemma units_value k packet :
  Forall (urange 8) packet -> (2 * k <= length packet)%nat ->
  let v := pack 8 (take (2 * k) packet) in
  exists t t', raw_units k packet true = Some t /\ raw_units k packet false = Some t' /\
    read_hex 0 t = Some v /\ String.length t = (4 * k)%nat /\
    read_hex 0 t' = Some v /\ (t' = "" <-> v = 0).
Proof.
  intros Hp Hl. cbv zeta. induction k as [|k IH].
  { exists "", "". cbn. repeat split; done. }
  destruct (unit_value packet k Hp Hl) as (u & Eu & Hu & ->).
  destruct IH as (t & t' & Et & Et' & Rt & Lt & Rt' & Ht'); [lia|].
  destruct (unit_reads u Hu) as [Ru Lu].
  pose proof (pack_range 8 (take (2 * k) packet) ltac:(lia)) as Hv.
  pose proof (Z.pow_pos_nonneg 2 (16 * Z.of_nat k) ltac:(lia) ltac:(lia)) as Hpow.
  assert (Rcat : read_hex 0 (hex_padded 4 u ++ t) =
                 Some (pack 8 (take (2 * k) packet) + 2 ^ (16 * Z.of_nat k) * u)).
  { rewrite read_hex_app, Ru. cbn [mbind option_bind]. rewrite read_hex_acc, Rt. cbn [mbind option_bind].
    f_equal. rewrite Lt. replace (Z.of_nat (4 * k)) with (4 * Z.of_nat k) by lia.
    rewrite Z.pow_mul_r by lia. change (16 ^ 4) with (2 ^ 16). rewrite <- Z.pow_mul_r by lia. lia. }
  assert (Lcat : String.length (hex_padded 4 u ++ t) = (4 * S k)%nat).
  { rewrite length_app_string. lia. }
  cbn [raw_units]. rewrite Eu. cbn [mbind option_bind]. rewrite Et. cbn [mbind option_bind negb].
  rewrite andb_false_r, andb_true_r. exists (hex_padded 4 u ++ t).
  destruct (Z.eqb_spec u 0) as [->|Hu0].
  - exists t'. rewrite Z.mul_0_r, Z.add_0_r in *. repeat split; try done; by apply Ht'.
  - exists (hex_padded 4 u ++ t). repeat split; try done.
    + intros E. rewrite E in Lcat. cbn in Lcat. lia.
    + intros E. destruct Hu as [Hu _], Hv as [Hv _]. nia.
Qed.

(** The digits of the raw directive read back as the little-endian number its
    bytes spell, for instructions of every length; and there are no digits exactly when all
    the bytes are zero. *)
Theorem raw_digits k packet :
  Forall (urange 8) packet -> (2 * k <= length packet)%nat ->
  exists t, raw_units k packet false = Some t /\
    read_hex 0 t = Some (pack 8 (take (2 * k) packet)) /\
    (t = "" <-> pack 8 (take (2 * k) packet) = 0).
Proof.
  intros Hp Hl. destruct (units_value k packet Hp Hl) as (t & t' & _ & E & _ & _ & R & H).
  by exists t'.
Qed.

Lemma raw_digits_witness :
  Forall (urange 8) [0x5b; 0x10; 0; 0] /\ (2 * 2 <= length [0x5b; 0x10; 0; 0])%nat /\
  exists t, raw_units 2 [0x5b; 0x10; 0; 0] false = Some t /\ read_hex 0 t = Some 0x105b.
Proof.
  assert (H : Forall (urange 8) [0x5b; 0x10; 0; 0]) by (refine (bool_decide_unpack _ _); vm_compute; exact I).
  split; [exact H|]. split; [cbn; lia|].
  destruct (raw_digits 2 [0x5b; 0x10; 0; 0] H) as (t & E & R & _); [cbn; lia|].
  exists t. split; [exact E|]. rewrite R. reflexivity.
Defined.

(** Without the compressed extension a zero halfword prints as [.insn 2, 0x]. *)
Theorem zero_halfword_prints_nothing s :
  print_raw 2 [0; 0] s = Some (s <| out := out s ++ ".insn	2, 0x" |>).
Proof. reflexivity. Qed.
End RawDirective.
