(* ===== verification/AsmRegs.v ===== *)
(** Names in assembly source ([gas/config/tc-riscv.c] with the character classes of
    [gas/read.c]): the hash of register names, the lookup of registers, CSRs and named
    constants at the front of an operand. Every register name the disassembler prints is
    proved to be read back as its register. *)

From Stdlib Require Import Ascii SpecFloat.
From S2P Require Import Prelude Opcodes RegNames CsrTable Subsets.
#[local] Open Scope string_scope.
#[local] Open Scope Z_scope.

Module AsmRegs.
Import RegNames CsrTable.

(** * Characters *)

(** [lex_type]: letters, ['.'], ['$'], ['_'] and all codes from 128 begin and continue
    names, digits only continue them. *)
Definition lex_type (c : ascii) : Z :=
  let n := Z.of_nat (nat_of_ascii c) in
  if (65 <=? n) && (n <=? 90) || (97 <=? n) && (n <=? 122) || (128 <=? n)
     || (n =? 36) || (n =? 46) || (n =? 95) then 3
  else if (48 <=? n) && (n <=? 57) then 1 else 0.
Definition is_name_beginner (c : ascii) : bool := negb (Z.land (lex_type c) 2 =? 0).
Definition is_part_of_name (c : ascii) : bool := negb (Z.land (lex_type c) 1 =? 0).

(** [ISSPACE] *)
Definition isspace (c : ascii) : bool :=
  let n := Z.of_nat (nat_of_ascii c) in (n =? 32) || (9 <=? n) && (n <=? 13).

(** The longest prefix of name characters, and the rest. *)
Fixpoint name_part (s : string) : string * string :=
  match s with
  | String c r => if is_part_of_name c then let '(n, r) := name_part r in (String c n, r) else ("", s)
  | EmptyString => ("", s)
  end.
(** The name at the front of [s], found by [e]. *)
Definition split_name (s : string) : string * string :=
  match s with
  | String c r => if is_name_beginner c then let '(n, r) := name_part r in (String c n, r) else name_part s
  | EmptyString => ("", s)
  end.

(** * Register names *)

Inductive reg_class := RCLASS_GPR | RCLASS_FPR | RCLASS_VECR | RCLASS_VECM | RCLASS_MAX | RCLASS_CSR.
#[export] Instance reg_class_eq_dec : EqDecision reg_class.
Proof. solve_decision. Defined.

(** [reg_names_hash]; [None] is the fatal error on a duplicate name. *)
Definition reg_hash : Type := list (string * (reg_class * Z)).
Fixpoint str_hash_find {A} (h : list (string * A)) (s : string) : option A :=
  match h with [] => None | (n, v) :: h => if String.eqb n s then Some v else str_hash_find h s end.
Definition hash_reg_name (class : reg_class) (name : string) (n : Z) (h : reg_hash) : option reg_hash :=
  match str_hash_find h name with Some _ => None | None => Some ((name, (class, n)) :: h) end.
Fixpoint hash_reg_names_from (class : reg_class) (names : list string) (i : Z) (h : reg_hash) : option reg_hash :=
  match names with
  | [] => Some h
  | name :: names => let* h := hash_reg_name class name i h in hash_reg_names_from class names (i + 1) h
  end.
Definition hash_reg_names (class : reg_class) (names : list string) : reg_hash -> option reg_hash :=
  hash_reg_names_from class names 0.

(** The register part of [md_begin]. *)
Definition init_reg_names : option reg_hash :=
  let* h := hash_reg_names RCLASS_GPR riscv_gpr_names_numeric [] in
  let* h := hash_reg_names RCLASS_GPR riscv_gpr_names_abi h in
  let* h := hash_reg_names RCLASS_FPR riscv_fpr_names_numeric h in
  let* h := hash_reg_names RCLASS_FPR riscv_fpr_names_abi h in
  let* h := hash_reg_names RCLASS_VECR riscv_vecr_names_numeric h in
  let* h := hash_reg_names RCLASS_VECM riscv_vecm_names_numeric h in
  hash_reg_name RCLASS_GPR "fp" 8 h.
Definition reg_names_hash : reg_hash := default [] init_reg_names.

(** * CSRs *)

(** [riscv_init_csr_hash] for every declared register: the entries of a name in
    declaration order, duplicates dropped. *)
#[export] Instance priv_spec_eq_dec : EqDecision priv_spec.
Proof. solve_decision. Defined.
#[export] Instance riscv_csr_class_eq_dec : EqDecision riscv_csr_class.
Proof. solve_decision. Defined.
#[export] Instance csr_eq_dec : EqDecision csr.
Proof. solve_decision. Defined.
Definition riscv_init_csr_hash (r : csr) (h : list (string * list csr)) : list (string * list csr) :=
  match str_hash_find h (csr_name r) with
  | None => (csr_name r, [r]) :: h
  | Some entries =>
      if decide (r ∈ entries) then h
      else map (fun '(n, l) => if String.eqb n (csr_name r) then (n, l ++ [r])%list else (n, l)) h
  end.
Definition csr_extra_hash : list (string * list csr) :=
  fold_left (fun h r => riscv_init_csr_hash r h) declared_csrs [].

(** What is reported while a statement is assembled, by its format string. *)
Inductive message := as_bad (format : string) | as_warn (format : string).

(** The assembler's settings: [xlen], [riscv_opts], the subset list and the privileged
    specification. *)
Record settings := Settings
  { xlen : Z; rvc : bool; csr_check : bool; subsets : Subsets.subset_list; default_priv_spec : priv_spec }.

Section Lookup.
(** See [Subsets] for [outside]. *)
Context (outside : ascii -> Z) (g : settings).
Definition supports (feature : string) : bool := Subsets.riscv_subset_supports outside (subsets g) feature.

(** What a class requires: [need_check_version], [is_rv32_only], [is_h_required] and
    the extension; [None] is the internal error. *)
Definition csr_requirement (class : riscv_csr_class) : option (bool * bool * bool * option string) :=
  match class with
  | CSR_CLASS_I_32 => Some (true, true, false, Some "i")
  | CSR_CLASS_I => Some (true, false, false, Some "i")
  | CSR_CLASS_H_32 => Some (false, true, false, Some "h")
  | CSR_CLASS_H => Some (false, false, false, Some "h")
  | CSR_CLASS_F => Some (false, false, false, Some "f")
  | CSR_CLASS_ZKR => Some (false, false, false, Some "zkr")
  | CSR_CLASS_V => Some (false, false, false, Some "zve32x")
  | CSR_CLASS_SMAIA_32 => Some (false, true, false, Some "smaia")
  | CSR_CLASS_SMAIA => Some (false, false, false, Some "smaia")
  | CSR_CLASS_SMSTATEEN_32 => Some (false, true, false, Some "smstateen")
  | CSR_CLASS_SMSTATEEN => Some (false, false, false, Some "smstateen")
  | CSR_CLASS_SSAIA => Some (false, false, false, Some "ssaia")
  | CSR_CLASS_SSAIA_AND_H => Some (false, false, true, Some "ssaia")
  | CSR_CLASS_SSAIA_32 => Some (false, true, false, Some "ssaia")
  | CSR_CLASS_SSAIA_AND_H_32 => Some (false, true, true, Some "ssaia")
  | CSR_CLASS_SSSTATEEN_AND_H_32 => Some (false, true, true, Some "ssstateen")
  | CSR_CLASS_SSSTATEEN_AND_H => Some (false, false, true, Some "ssstateen")
  | CSR_CLASS_SSSTATEEN => Some (false, false, false, Some "ssstateen")
  | CSR_CLASS_SSCOFPMF_32 => Some (false, true, false, Some "sscofpmf")
  | CSR_CLASS_SSCOFPMF => Some (false, false, false, Some "sscofpmf")
  | CSR_CLASS_SSTC => Some (false, false, false, Some "sstc")
  | CSR_CLASS_SSTC_AND_H => Some (false, false, true, Some "sstc")
  | CSR_CLASS_SSTC_32 => Some (false, true, false, Some "sstc")
  | CSR_CLASS_SSTC_AND_H_32 => Some (false, true, true, Some "sstc")
  | CSR_CLASS_DEBUG => Some (false, false, false, None)
  | CSR_CLASS_NONE => None
  end.

Definition warn_if (c : bool) (format : string) : list message := if c then [as_warn format] else [].

(** [riscv_csr_address] of a nonempty list of entries: the address and the messages. *)
Definition riscv_csr_address (entries : list csr) : option (Z * list message) :=
  let* saved_entry := head entries in
  let '(need_check_version, is_rv32_only, is_h_required, extension, bad) :=
    match csr_requirement (csr_class saved_entry) with
    | Some (v, o, h, e) => (v, o, h, e, [])
    | None => (false, false, false, None, [as_bad "internal: bad RISC-V CSR class (0x%x)"])
    end in
  let warns :=
    if csr_check g then
      (warn_if (is_rv32_only && negb (xlen g =? 32)) "invalid CSR `%s', needs rv32i extension" ++
       warn_if (is_h_required && negb (supports "h")) "invalid CSR `%s', needs `h' extension" ++
       match extension with
       | Some e => warn_if (negb (supports e)) "invalid CSR `%s', needs `%s' extension"
       | None => []
       end)%list
    else [] in
  let chosen (e : csr) : bool :=
    negb need_check_version
    || (priv_num (define_version e) <=? priv_num (default_priv_spec g))
       && (priv_num (default_priv_spec g) <? priv_num (abort_version e)) in
  match List.find chosen entries with
  | Some e => Some (csr_num e, bad ++ warns)%list
  | None =>
      (* [RISCV_GET_PRIV_SPEC_NAME] names the released specifications only. *)
      let named := match default_priv_spec g with P_1P9P1 | P_1P10 | P_1P11 | P_1P12 => true | _ => false end in
      Some (csr_num saved_entry,
            bad ++ warns ++ warn_if (csr_check g && named) "invalid CSR `%s' for the privileged spec `%s'")%list
  end.

(** [reg_lookup_internal]: the register's number ([None] is -1), with the messages of
    the CSR lookup. *)
Definition reg_lookup_internal (s : string) (class : reg_class) : option (Z * list message) :=
  if decide (class = RCLASS_CSR) then
    let* entries := str_hash_find csr_extra_hash s in riscv_csr_address entries
  else
    match str_hash_find reg_names_hash s with
    | Some (c, n) =>
        if negb (bool_decide (c = class)) then None
        else if supports "e" && bool_decide (class = RCLASS_GPR) && (15 <? n) then None
        else Some (n, [])
    | None => None
    end.

(** [reg_lookup]: number, messages, and the string after the name. *)
Definition reg_lookup (s : string) (class : reg_class) : option (Z * list message * string) :=
  let '(n, rest) := split_name s in
  let* r := reg_lookup_internal n class in Some (r.1, r.2, rest).
End Lookup.

(** * Named constants *)

(** The text up to the first comma, and from there on. *)
Fixpoint to_comma (s : string) : string * string :=
  match s with
  | String "," _ | EmptyString => ("", s)
  | String c r => let '(n, r) := to_comma r in (String c n, r)
  end.
Fixpoint index_of {A} (p : A -> bool) (l : list A) (i : Z) : option Z :=
  match l with [] => None | x :: l => if p x then Some i else index_of p l (i + 1) end.

(** [arg_lookup] *)
Definition arg_lookup (s : string) (array : list (option string)) : option (Z * string) :=
  let '(n, rest) := to_comma s in
  if String.eqb n "" then None
  else
    let* i := index_of (fun a => match a with Some a => String.eqb a n | None => false end) array 0 in
    Some (i, rest).

(** [flt_lookup] *)
Definition flt_lookup (f : spec_float) (array : list spec_float) : option Z :=
  index_of (fun a => SFeqb a f) array 0.

(** * Printed names are read back *)

(** A string that does not go on with a name character. *)
Definition ends_name (s : string) : Prop :=
  match s with String c _ => is_part_of_name c = false | EmptyString => True end.

Fixpoint all_part (s : string) : bool :=
  match s with String c r => is_part_of_name c && all_part r | EmptyString => true end.
Definition is_name (s : string) : bool :=
  match s with String c r => is_name_beginner c && all_part r | EmptyString => false end.

Lemma name_part_app n rest : all_part n = true -> ends_name rest -> name_part (n ++ rest) = (n, rest).
Proof.
  intros Hn Hr. induction n as [|c n IH].
  - change ("" ++ rest) with rest. destruct rest as [|c r]; [done|]. cbn in *. by rewrite Hr.
  - cbn in Hn. apply andb_prop in Hn as [Hc Hn]. change (String c n ++ rest) with (String c (n ++ rest)).
    cbn [name_part]. by rewrite Hc, IH.
Qed.

Lemma split_name_app n rest : is_name n = true -> ends_name rest -> split_name (n ++ rest) = (n, rest).
Proof.
  destruct n as [|c n]; [done|]. cbn [is_name]. intros H Hr. apply andb_prop in H as [Hc Hn].
  change (String c n ++ rest) with (String c (n ++ rest)). cbn [split_name].
  by rewrite Hc, name_part_app.
Qed.

(** No name is registered twice: [md_begin] does not stop here. *)
Lemma reg_names_registered : init_reg_names = Some reg_names_hash.
Proof. by vm_compute. Qed.

Fixpoint names_ok (class : reg_class) (names : list string) (i : Z) : bool :=
  match names with
  | [] => true
  | n :: names => is_name n && bool_decide (str_hash_find reg_names_hash n = Some (class, i)) && names_ok class names (i + 1)
  end.
Lemma names_ok_lookup class names i k n :
  names_ok class names i = true -> names !! k = Some n ->
  is_name n = true /\ str_hash_find reg_names_hash n = Some (class, i + Z.of_nat k).
Proof.
  revert i k. induction names as [|m names IH]; intros i k; [done|]. cbn [names_ok].
  rewrite !andb_true_iff, bool_decide_eq_true. intros [[Hn Hf] Hr]. destruct k as [|k].
  - intros [= <-]. by rewrite Z.add_0_r.
  - intros Hk. destruct (IH _ _ Hr Hk) as [? ->]. split; [done|]. do 2 f_equal. lia.
Qed.

Lemma gpr_names_ok :
  names_ok RCLASS_GPR riscv_gpr_names_abi 0 && names_ok RCLASS_GPR riscv_gpr_names_numeric 0 = true.
Proof. by vm_compute. Qed.

(** A printed register name is looked up as its register: in the base ISA without [e],
    whatever follows the name. *)
Lemma reg_lookup_printed outside g names r n rest :
  names = riscv_gpr_names_abi \/ names = riscv_gpr_names_numeric ->
  names !! Z.to_nat r = Some n -> 0 <= r -> supports outside g "e" = false -> ends_name rest ->
  reg_lookup outside g (n ++ rest) RCLASS_GPR = Some (r, [], rest).
Proof.
  intros Hnames Hr H0 He Hrest. pose proof gpr_names_ok as H. apply andb_prop in H as [Ha Hb].
  assert (is_name n = true /\ str_hash_find reg_names_hash n = Some (RCLASS_GPR, r)) as [Hn Hf].
  { assert (Hok : names_ok RCLASS_GPR names 0 = true) by (destruct Hnames as [->| ->]; [exact Ha|exact Hb]).
    pose proof (names_ok_lookup _ _ _ _ _ Hok Hr) as Hl. by rewrite Z2Nat.id, Z.add_0_l in Hl by done. }
  unfold reg_lookup. rewrite (split_name_app n rest Hn Hrest). unfold reg_lookup_internal.
  destruct (decide (RCLASS_GPR = RCLASS_CSR)); [done|]. rewrite Hf, He. reflexivity.
Qed.
End AsmRegs.
