(* ===== verification/AsmIp.v ===== *)
(** The assembler of one statement: [riscv_ip] of [gas/config/tc-riscv.c] on every operand
    letter of the opcode table, with its small-expression and relocation-operator parsers.
    The expression parser of [gas/expr.c] and [strtof] are parameters; symbols an
    expression defers are not kept. [AsmProofs] and [CustomText] prove its properties. *)

From Stdlib Require Import Ascii SpecFloat.
From S2P Require Import Prelude Opcodes Immediates Disasm Assembler Custom RegNames CsrTable Subsets MissingExt AsmRegs.
#[local] Open Scope string_scope.
#[local] Open Scope Z_scope.

Module AsmIp.
Import RegNames CsrTable AsmRegs.

(** * Expressions and relocations *)

Inductive expr_op := O_illegal | O_absent | O_constant | O_symbol | O_register | O_big | O_other.
#[export] Instance expr_op_eq_dec : EqDecision expr_op.
Proof. solve_decision. Defined.
Record expressionS := Expr { X_op : expr_op; X_add_number : Z; X_add_symbol : string }.
#[export] Instance eta_expr : Eta expressionS := fun e => Expr (X_op e) (X_add_number e) (X_add_symbol e).

Inductive reloc :=
  | RELOC_UNUSED | RELOC_32 | RELOC_12_PCREL | RISCV_JMP | RISCV_CALL_PLT
  | RISCV_TPREL_HI20 | RISCV_PCREL_HI20 | RISCV_GOT_HI20 | RISCV_TLS_GOT_HI20 | RISCV_TLS_GD_HI20 | RISCV_HI20
  | RISCV_LO12_I | RISCV_TPREL_LO12_I | RISCV_PCREL_LO12_I
  | RISCV_LO12_S | RISCV_TPREL_LO12_S | RISCV_PCREL_LO12_S | RISCV_TPREL_ADD.

Definition percent_ops : Type := list (string * reloc).
Definition percent_op_utype : percent_ops :=
  [("tprel_hi", RISCV_TPREL_HI20); ("pcrel_hi", RISCV_PCREL_HI20); ("got_pcrel_hi", RISCV_GOT_HI20);
   ("tls_ie_pcrel_hi", RISCV_TLS_GOT_HI20); ("tls_gd_pcrel_hi", RISCV_TLS_GD_HI20); ("hi", RISCV_HI20)].
Definition percent_op_itype : percent_ops :=
  [("lo", RISCV_LO12_I); ("tprel_lo", RISCV_TPREL_LO12_I); ("pcrel_lo", RISCV_PCREL_LO12_I)].
Definition percent_op_stype : percent_ops :=
  [("lo", RISCV_LO12_S); ("tprel_lo", RISCV_TPREL_LO12_S); ("pcrel_lo", RISCV_PCREL_LO12_S)].
Definition percent_op_rtype : percent_ops := [("tprel_add", RISCV_TPREL_ADD)].
Definition percent_op_null : percent_ops := [].

(** [opcode_name_list] *)
Definition opcode_name_list : list (string * Z) :=
  [("C0", 0x0); ("C1", 0x1); ("C2", 0x2);
   ("LOAD", 0x03); ("LOAD_FP", 0x07); ("CUSTOM_0", 0x0b); ("MISC_MEM", 0x0f); ("OP_IMM", 0x13);
   ("AUIPC", 0x17); ("OP_IMM_32", 0x1b);
   ("STORE", 0x23); ("STORE_FP", 0x27); ("CUSTOM_1", 0x2b); ("AMO", 0x2f); ("OP", 0x33); ("LUI", 0x37);
   ("OP_32", 0x3b);
   ("MADD", 0x43); ("MSUB", 0x47); ("NMADD", 0x4f); ("NMSUB", 0x4b); ("OP_FP", 0x53); ("OP_V", 0x57);
   ("CUSTOM_2", 0x5b);
   ("BRANCH", 0x63); ("JALR", 0x67); ("JAL", 0x6f); ("SYSTEM", 0x73); ("CUSTOM_3", 0x7b)].

(** * The state of one attempt *)

(** The statement's rest, the instruction word, the immediate, its relocation and the
    relocation operators allowed, where the last expression ended, and what is reported. *)
Record ip_state := Ip
  { asarg : string; insn_opcode : Z; imm_expr : expressionS; imm_reloc : reloc; p : percent_ops;
    expr_parse_end : string; insn_with_csr : bool; explicit_priv_attr : bool; messages : list message }.
#[export] Instance eta_ip : Eta ip_state := fun s =>
  Ip (asarg s) (insn_opcode s) (imm_expr s) (imm_reloc s) (p s) (expr_parse_end s) (insn_with_csr s)
     (explicit_priv_attr s) (messages s).

(** One operand: go on with the rest of [oparg]; try the next entry; an operand letter
    the parser does not know; or a read past the end of the statement. *)
Inductive outcome :=
  | Continue (oparg : string) (s : ip_state) | Break (s : ip_state) | Unknown_operand | Overrun.

Definition report (m : message) (s : ip_state) : ip_state := s <| messages := (messages s ++ [m])%list |>.
Definition bad_unless (ok : bool) (format : string) (s : ip_state) : ip_state :=
  if ok then s else report (as_bad format) s.
Definition value (s : ip_state) : Z := X_add_number (imm_expr s).
Definition constant (s : ip_state) : bool := bool_decide (X_op (imm_expr s) = O_constant).
Definition set_op (o : expr_op) (s : ip_state) : ip_state := s <| imm_expr := (imm_expr s) <| X_op := o |> |>.
Definition set_value (v : Z) (s : ip_state) : ip_state := s <| imm_expr := (imm_expr s) <| X_add_number := v |> |>.
(** [asarg = expr_parse_end] *)
Definition parsed (s : ip_state) : ip_state := s <| asarg := expr_parse_end s |>.
(** [INSERT_OPERAND] and [insn_opcode |= ...]. *)
Definition insert (m sh v : Z) (s : ip_state) : ip_state :=
  s <| insn_opcode := Custom.insert_bits (insn_opcode s) v m sh |>.
Definition or_bits (bits : Z) (s : ip_state) : ip_state :=
  s <| insn_opcode := Z.lor (insn_opcode s) (wrap 64 bits) |>.
Definition field (m sh : Z) (s : ip_state) : Z := Z.land (Z.shiftr (insn_opcode s) sh) m.

Section Parse.
(** [expression] with [probing_insn_operands] at a string: the expression and what
    follows; [strtof] with the error flag; [bfd_reloc_type_lookup] of the output format. *)
Context (expression : bool -> string -> expressionS * string).
Context (strtof : string -> spec_float * bool * string).
Context (reloc_supported : reloc -> bool).
Context (outside : ascii -> Z) (g : settings).

Definition my_getExpression (probing : bool) (str : string) (s : ip_state) : ip_state :=
  let '(e, rest) := expression probing str in s <| imm_expr := e |> <| expr_parse_end := rest |>.

(** [normalize_constant_expr]; [IS_ZEXT_32BIT_NUM] holds of 33-bit signed numbers. *)
Definition is_zext_32bit_num (x : Z) : bool :=
  let high := Z.land x (Z.lnot 0xffffffff) in (high =? 0) || (high =? Z.lnot 0xffffffff).
Definition normalize_constant_expr (s : ip_state) : ip_state :=
  if 32 <? xlen g then s
  else if bool_decide (X_op (imm_expr s) = O_constant \/ X_op (imm_expr s) = O_symbol)
          && is_zext_32bit_num (value s)
  then set_value (Z.lxor (Z.land (value s) 0xffffffff) 0x80000000 - 0x80000000) s
  else s.

Definition check_absolute_expr (maybe_csr : bool) (s : ip_state) : ip_state :=
  let s :=
    if decide (X_op (imm_expr s) = O_big) then report (as_bad "unsupported large constant") s
    else if maybe_csr && bool_decide (X_op (imm_expr s) = O_symbol) then report (as_bad "unknown CSR `%s'") s
    else bad_unless (constant s) "instruction %s requires absolute expression" s in
  normalize_constant_expr s.

(** ** Relocation operators *)

(** [strncasecmp]: what follows a prefix, letter case ignored. *)
Fixpoint drop_prefix (name s : string) : option string :=
  match name, s with
  | EmptyString, _ => Some s
  | String a name, String b s => if Subsets.tolower a =? Subsets.tolower b then drop_prefix name s else None
  | _, EmptyString => None
  end.
Fixpoint drop_while (f : ascii -> bool) (s : string) : string :=
  match s with String c r => if f c then drop_while f r else s | EmptyString => s end.

(** [str] points at the ['%']; the result at the bracket. *)
Fixpoint parse_relocation (ops : percent_ops) (str : string) : option (string * reloc) :=
  match ops with
  | [] => None
  | (name, r) :: ops =>
      match str with
      | String _ after =>
          match drop_prefix name after with
          | Some rest =>
              match drop_while isspace rest with
              | String "(" _ as at_bracket => Some (at_bracket, r)
              | _ => parse_relocation ops str
              end
          | None => parse_relocation ops str
          end
      | EmptyString => None
      end
  end.
Definition set_reloc (r : reloc) (s : ip_state) : ip_state :=
  if reloc_supported r then s <| imm_reloc := r |>
  else report (as_bad "internal: relocation %s isn't supported by the current ABI") (s <| imm_reloc := RELOC_UNUSED |>).

(** Blanks and opening brackets. *)
Fixpoint skip_open (str : string) (depth : nat) : string * nat :=
  match str with
  | String "(" r => skip_open r (S depth)
  | String (" " | "009") r => skip_open r depth
  | _ => (str, depth)
  end.
(** Closing brackets, as many as [depth]. *)
Fixpoint skip_close (str : string) (depth : nat) : string * nat :=
  match depth, str with
  | S d, String ")" r => skip_close r d
  | S _, String (" " | "009") r => skip_close r depth
  | _, _ => (str, depth)
  end.

Definition starts_with (c : ascii) (s : string) : bool :=
  match s with String d _ => Ascii.eqb c d | EmptyString => false end.

(** [my_getSmallExpression] at [asarg]: the number of relocation operators used. The
    loop runs at most twice. *)
Definition crux_expression (reloc_index : Z) (crux : string) (crux_depth : nat) (str : string) (str_depth : nat)
    (s : ip_state) : Z * ip_state :=
  if starts_with "%" str then (0, set_op O_illegal s)
  else
    let probing := Nat.eqb str_depth 0 && (reloc_index =? 0) in
    let s := my_getExpression probing crux s in
    let '(str, open) := skip_close (expr_parse_end s) crux_depth in
    let s := bad_unless (Nat.eqb open 0) "unclosed '('" s in
    (reloc_index, s <| expr_parse_end := str |>).
Definition small_expression (ops : percent_ops) (str : string) (s : ip_state) : Z * ip_state :=
  let '(str1, depth1) := skip_open str 0 in
  match (if starts_with "%" str1 then parse_relocation ops str1 else None) with
  | Some (str2, r) =>
      let '(str3, depth3) := skip_open str2 depth1 in
      crux_expression 1 str2 depth1 str3 depth3 (set_reloc r s)
  | None => crux_expression 0 str 0 str1 depth1 s
  end.
Definition my_getSmallExpression (s : ip_state) : Z * ip_state := small_expression (p s) (asarg s) s.

(** [my_getOpcodeExpression] *)
Definition my_getOpcodeExpression (s : ip_state) : Z * ip_state :=
  let '(n, rest) := split_name (asarg s) in
  let s := s <| expr_parse_end := rest |> in
  match str_hash_find opcode_name_list n with
  | Some v => (0, set_value v (set_op O_constant s))
  | None => small_expression percent_op_null (asarg s) s
  end.

(** [my_getVsetvliExpression]: each of the four constants is optional, in order. *)
Definition skip_comma (s : string) : string := match s with String "," r => r | _ => s end.
Definition vset_constant (array : list (option string)) (str : string) : option Z * string :=
  match arg_lookup str array with Some (v, r) => (Some v, skip_comma r) | None => (None, str) end.
Definition my_getVsetvliExpression (s : ip_state) : ip_state :=
  let '(sew, str) := vset_constant riscv_vsew (asarg s) in
  let '(lmul, str) := vset_constant riscv_vlmul str in
  let '(ta, str) := vset_constant (map Some riscv_vta) str in
  let '(ma, str) := vset_constant (map Some riscv_vma) str in
  match sew, lmul, ta, ma with
  | None, None, None, None => my_getExpression true str s
  | _, _, _, _ =>
      let shifted o sh := Z.shiftl (default 0 o) sh in
      set_value (Z.lor (Z.lor (Z.lor (shifted lmul 0) (shifted sew 3)) (shifted ta 6)) (shifted ma 7))
        (set_op O_constant s) <| expr_parse_end := str |>
  end.

(** [riscv_handle_implicit_zero_offset] at [asarg]. *)
Fixpoint has_open (s : string) : bool :=
  match s with String c r => Ascii.eqb c "(" || has_open r | EmptyString => false end.
Definition implicit_zero (s : ip_state) : option ip_state :=
  match asarg s with
  | String "(" r => if has_open r then None else Some (set_value 0 (set_op O_constant s))
  | _ => None
  end.

(** ** Operand schemes *)

(** A register of a class. *)
Definition with_reg (class : reg_class) (s : ip_state) (k : Z -> ip_state -> outcome) : outcome :=
  match reg_lookup outside g (asarg s) class with
  | Some (regno, msgs, rest) => k regno (s <| asarg := rest |> <| messages := (messages s ++ msgs)%list |>)
  | None => Break s
  end.
Definition reg_if (class : reg_class) (ok : Z -> ip_state -> bool) (act : Z -> ip_state -> ip_state)
    (r : string) (s : ip_state) : outcome :=
  with_reg class s (fun regno s => if ok regno s then Continue r (act regno s) else Break s).
Definition any (regno : Z) (s : ip_state) : bool := true.
Definition high (regno : Z) (s : ip_state) : bool := (8 <=? regno) && (regno <=? 15).
Definition insert8 (m sh regno : Z) : ip_state -> ip_state := insert m sh (regno mod 8).
Definition keep (regno : Z) (s : ip_state) : ip_state := s.

(** A compressed immediate, ending at [rvc_imm_done]. *)
Definition rvc_imm_done (r : string) (s : ip_state) : outcome := Continue r (set_op O_absent (parsed s)).
Definition rvc_imm (ok : Z -> bool) (enc : Z -> Z) (r : string) (s : ip_state) : outcome :=
  let '(n, s) := my_getSmallExpression s in
  if negb (n =? 0) || negb (constant s) || negb (ok (value s)) then Break s
  else rvc_imm_done r (or_bits (enc (value s)) s).
Definition rvc_offset (ok : Z -> bool) (enc : Z -> Z) (r : string) (s : ip_state) : outcome :=
  match implicit_zero s with Some s => Continue r s | None => rvc_imm ok enc r s end.

(** [rvc_lui] *)
Definition rvc_lui (r : string) (s : ip_state) : outcome :=
  let v := value s in
  if negb (constant s) || (v <=? 0) || (2 ^ 20 <=? v) || ((2 ^ 6 / 2 <=? v) && (v <? 2 ^ 20 - 2 ^ 6 / 2)) then Break s
  else rvc_imm_done r (or_bits (ENCODE_CITYPE_IMM v) s).

(** A field given by a small expression in [0 .. limit - 1]. *)
Definition funct (limit m sh : Z) (format : string) (r : string) (s : ip_state) : outcome :=
  let '(n, s) := my_getSmallExpression s in
  if negb (n =? 0) || negb (constant s) || (value s <? 0) || (limit <=? value s) then Break (report (as_bad format) s)
  else Continue r (parsed (set_op O_absent (insert m sh (value s) s))).
Definition opcode_field (ok : Z -> bool) (m sh : Z) (format : string) (r : string) (s : ip_state) : outcome :=
  let '(n, s) := my_getOpcodeExpression s in
  if negb (n =? 0) || negb (constant s) || negb (ok (value s)) then Break (report (as_bad format) s)
  else Continue r (parsed (set_op O_absent (insert m sh (value s) s))).

(** An absolute expression, complained about but inserted when out of range. *)
Definition absolute (maybe_csr : bool) (ok : Z -> bool) (format : string) (act : Z -> ip_state -> ip_state)
    (r : string) (s : ip_state) : outcome :=
  let s := check_absolute_expr maybe_csr (my_getExpression true (asarg s) s) in
  let s := bad_unless (ok (value s)) format s in
  Continue r (parsed (set_op O_absent (act (value s) s))).
Definition at_most (n v : Z) : bool := wrap 64 v <=? n.
Definition between (lo hi v : Z) : bool := (lo <=? v) && (v <=? hi).

(** [branch] and [jump]. *)
Definition branch (r : string) (s : ip_state) : outcome :=
  let s := s <| imm_reloc := RELOC_12_PCREL |> in Continue r (parsed (my_getExpression true (asarg s) s)).
Definition jump (r : string) (s : ip_state) : outcome :=
  let s := parsed (my_getExpression true (asarg s) s) in Continue r (s <| imm_reloc := RISCV_JMP |>).

(** [alu_op] and [load_store]; [c] is the operand letter. *)
Definition alu_op (c : ascii) (r : string) (s : ip_state) : outcome :=
  let '(n, s) := my_getSmallExpression s in
  if negb (n =? 0) then Continue r (parsed s)
  else
    let s := normalize_constant_expr s in
    if negb (constant s) || (Ascii.eqb c "0" && negb (value s =? 0)) || Ascii.eqb c "1"
       || (2 ^ 12 / 2 <=? value s) || (value s <? - (2 ^ 12 / 2)) then Break s
    else Continue r (parsed s).
Definition load_store (c : ascii) (r : string) (s : ip_state) : outcome :=
  match implicit_zero s with Some s => Continue r s | None => alu_op c r s end.

(** ** Operand letters *)

(** After [C]. *)
Definition rvc_operand (s : string) (st : ip_state) : outcome :=
  match s with
  | String "s" r => reg_if RCLASS_GPR high (insert8 0x7 7) r st
  | String "w" r => reg_if RCLASS_GPR (fun n t => field 0x7 7 t + 8 =? n) keep r st
  | String "t" r => reg_if RCLASS_GPR high (insert8 0x7 2) r st
  | String "x" r => reg_if RCLASS_GPR (fun n t => field 0x7 2 t + 8 =? n) keep r st
  | String "U" r => reg_if RCLASS_GPR (fun n t => field OP_MASK_RD OP_SH_RD t =? n) keep r st
  | String "V" r => reg_if RCLASS_GPR any (insert 0x1f 2) r st
  | String "c" r => reg_if RCLASS_GPR (fun n _ => n =? 2) keep r st
  | String "z" r => reg_if RCLASS_GPR (fun n _ => n =? 0) keep r st
  | String ">" r => rvc_imm (fun v => wrap 64 v <? xlen g) ENCODE_CITYPE_IMM r st
  | String "5" r => rvc_imm (fun v => between 0 31 v && VALID_CLTYPE_IMM v) ENCODE_CLTYPE_IMM r st
  | String "6" r => rvc_imm (fun v => between 0 63 v && VALID_CSSTYPE_IMM v) ENCODE_CSSTYPE_IMM r st
  | String "8" r => rvc_imm (fun v => between 0 255 v && VALID_CIWTYPE_IMM v) ENCODE_CIWTYPE_IMM r st
  | String "j" r => rvc_imm (fun v => negb (v =? 0) && VALID_CITYPE_IMM v) ENCODE_CITYPE_IMM r st
  | String "k" r => rvc_offset VALID_CLTYPE_LW_IMM ENCODE_CLTYPE_LW_IMM r st
  | String "l" r => rvc_offset VALID_CLTYPE_LD_IMM ENCODE_CLTYPE_LD_IMM r st
  | String "m" r => rvc_offset VALID_CITYPE_LWSP_IMM ENCODE_CITYPE_LWSP_IMM r st
  | String "n" r => rvc_offset VALID_CITYPE_LDSP_IMM ENCODE_CITYPE_LDSP_IMM r st
  | String "o" r => rvc_imm VALID_CITYPE_IMM ENCODE_CITYPE_IMM r st
  | String "K" r =>
      rvc_imm (fun v => negb (v =? 0) && VALID_CIWTYPE_ADDI4SPN_IMM v) ENCODE_CIWTYPE_ADDI4SPN_IMM r st
  | String "L" r => rvc_imm VALID_CITYPE_ADDI16SP_IMM ENCODE_CITYPE_ADDI16SP_IMM r st
  | String "M" r => rvc_offset VALID_CSSTYPE_SWSP_IMM ENCODE_CSSTYPE_SWSP_IMM r st
  | String "N" r => rvc_offset VALID_CSSTYPE_SDSP_IMM ENCODE_CSSTYPE_SDSP_IMM r st
  | String "u" r =>
      let '(n, st) := my_getSmallExpression (st <| p := percent_op_utype |>) in
      if negb (n =? 0) then Break st else rvc_lui r st
  | String "v" r =>
      let '(n, st) := my_getSmallExpression st in
      if negb (n =? 0) || negb (Z.land (value st) (2 ^ 12 - 1) =? 0) || negb (sgn 32 (value st) =? value st)
      then Break st else rvc_lui r (set_value (Z.shiftr (wrap 32 (value st)) RISCV_IMM_BITS) st)
  | String "p" r => branch r st
  | String "a" r => jump r st
  | String "S" r => reg_if RCLASS_FPR high (insert8 0x7 7) r st
  | String "D" r => reg_if RCLASS_FPR high (insert8 0x7 2) r st
  | String "T" r => reg_if RCLASS_FPR any (insert 0x1f 2) r st
  | String "F" (String "6" r) => funct 64 0x3f 10 "bad value for compressed funct6 field, value must be 0...63" r st
  | String "F" (String "4" r) => funct 16 0xf 12 "bad value for compressed funct4 field, value must be 0...15" r st
  | String "F" (String "3" r) => funct 8 0x7 13 "bad value for compressed funct3 field, value must be 0...7" r st
  | String "F" (String "2" r) => funct 4 0x3 5 "bad value for compressed funct2 field, value must be 0...3" r st
  | _ => Unknown_operand
  end.

(** After [V]. *)
Definition set_vsetvl (ok : Z -> bool) (enc : Z -> Z) (format : string) (r : string) (s : ip_state) : outcome :=
  let s := check_absolute_expr false (my_getVsetvliExpression s) in
  let s := bad_unless (ok (value s)) format s in
  Continue r (parsed (set_op O_absent (or_bits (enc (value s)) s))).

Definition rvv_operand (s : string) (st : ip_state) : outcome :=
  let vec := reg_if RCLASS_VECR any in
  match s with
  | String "d" r => vec (insert 0x1f 7) r st
  | String "e" r =>
      (* a scalar register other than x0 is skipped before the vector register is looked for *)
      let vector st := with_reg RCLASS_VECR st (fun n st => Continue r (insert 0x1f 7 n (insert 0x1 26 1 st))) in
      match reg_lookup outside g (asarg st) RCLASS_GPR with
      | Some (regno, msgs, rest) =>
          let st := st <| asarg := rest |> <| messages := (messages st ++ msgs)%list |> in
          if regno =? 0 then Continue r (insert 0x1 26 0 st) else vector st
      | None => vector st
      end
  | String "f" r =>
      with_reg RCLASS_VECR st (fun n st =>
        if field 0x1 26 st =? 0 then Continue r (insert 0x1f 7 n st)
        else if field 0x1f 7 st =? n then Continue r st else Break st)
  | String "s" r => vec (insert 0x1f 15) r st
  | String "t" r => vec (insert 0x1f 20) r st
  | String "u" r => vec (fun n st => insert 0x1f 20 n (insert 0x1f 15 n st)) r st
  | String "v" r => vec (fun n st => insert 0x1f 20 n (insert 0x1f 15 n (insert 0x1f 7 n st))) r st
  | String "0" r => reg_if RCLASS_VECR (fun n _ => n =? 0) keep r st
  | String "b" r => set_vsetvl VALID_RVV_VB_IMM ENCODE_RVV_VB_IMM "bad value for vsetivli immediate field, value must be 0..1023" r st
  | String "c" r => set_vsetvl VALID_RVV_VC_IMM ENCODE_RVV_VC_IMM "bad value for vsetvli immediate field, value must be 0..2047" r st
  | String "i" r => absolute false (between (-16) 15) "bad value for vector immediate field, value must be -16...15" (insert 0x1f 15) r st
  | String "j" r => absolute false (between 0 31) "bad value for vector immediate field, value must be 0...31" (insert 0x1f 15) r st
  | String "k" r => absolute false (between (-15) 16) "bad value for vector immediate field, value must be -15...16"
                      (fun v => insert 0x1f 15 (v - 1)) r st
  | String "l" r => absolute false (between 0 63) "bad value for vector immediate field, value must be 0...63"
                      (fun v => or_bits (ENCODE_RVV_VI_UIMM6 v)) r st
  | String "m" r =>
      match asarg st with
      | EmptyString => Continue r (insert 0x1 25 1 st)
      | String "," rest =>
          reg_if RCLASS_VECM (fun n _ => n =? 0) (fun _ => insert 0x1 25 0) r (st <| asarg := rest |>)
      | _ => Break st
      end
  | String "M" r => reg_if RCLASS_VECM (fun n _ => n =? 0) (fun _ => insert 0x1 25 0) r st
  | String "T" r => reg_if RCLASS_VECR (fun n _ => negb (n =? 0)) (insert 0x3f 26) r st
  | _ => Unknown_operand
  end.

(** After [W]. *)
Definition prefetch_offset (r : string) (st : ip_state) : outcome :=
  match implicit_zero st with
  | Some st => Continue r st
  | None =>
      absolute false (fun v => (Z.land (wrap 32 v) 0x1f =? 0) && between (- (2 ^ 12 / 2)) (2 ^ 12 / 2 - 1) v)
        "improper prefetch offset (%ld)"
        (fun v => or_bits (ENCODE_STYPE_IMM (Z.land (wrap 32 v) (wrap 32 (Z.lnot 0x1f))))) r st
  end.
Definition fli_value (r : string) (st : ip_state) : outcome :=
  match arg_lookup (asarg st) riscv_fli_symval with
  | Some (regno, rest) => Continue r (insert OP_MASK_RS1 OP_SH_RS1 regno (st <| asarg := rest |>))
  | None =>
      let '(f, errno, rest) := strtof (asarg st) in
      let st := st <| asarg := rest |> in
      match (if errno || SFeqb f (S754_zero false) then None else flt_lookup f riscv_fli_numval) with
      | Some regno => Continue r (insert OP_MASK_RS1 OP_SH_RS1 regno st)
      | None => Break (report (as_bad "bad fli constant operand, supported constants must be in decimal or hexadecimal floating-point literal form") st)
      end
  end.
Definition various_operand (s : string) (st : ip_state) : outcome :=
  match s with
  | String "i" (String "f" r) => prefetch_offset r st
  | String "f" (String "v" r) => fli_value r st
  | _ => Unknown_operand
  end.

(** After [X]. A literal is skipped over by its length, whatever the statement holds
    and even past its end. *)
Fixpoint str_skip (n : nat) (s : string) : option string :=
  match n, s with O, _ => Some s | S n, String _ s => str_skip n s | S _, EmptyString => None end.
Definition literal (r : string) (st : ip_state) : outcome :=
  let '(lit, r) := to_comma r in
  let st := bad_unless (String.prefix lit (asarg st)) "unexpected literal (%s)" st in
  match str_skip (String.length lit) (asarg st) with
  | Some rest => Continue r (st <| asarg := rest |>)
  | None => Overrun
  end.
Definition validate_u_imm (n v : Z) : bool := wrap 64 v <? 2 ^ n.
Definition validate_s_imm (n v : Z) : bool := (v <? 2 ^ (n - 1)) && (- 2 ^ (n - 1) <=? v).
Definition imm_field (sign : bool) (r : string) (st : ip_state) : outcome :=
  match Assembler.strtol 0 r with
  | (n, String "@" r) =>
      let '(sh, r) := Assembler.strtol 0 r in
      absolute false (if sign then validate_s_imm n else validate_u_imm n)
        (if sign then "improper immediate value (%li)" else "improper immediate value (%lu)")
        (insert (2 ^ n - 1) sh) r st
  | _ => Unknown_operand
  end.
Definition imm_operand (s : string) (st : ip_state) : outcome :=
  match s with
  | String "l" r => literal r st
  | String "s" r => imm_field true r st
  | String "u" r => imm_field false r st
  | _ => Unknown_operand
  end.

(** A general or floating-point register, with the blank after it. *)
Definition skip_blank (st : ip_state) : ip_state :=
  match asarg st with String " " r => st <| asarg := r |> | _ => st end.
Definition gpr_operand (m sh : Z) (r : string) (st : ip_state) : outcome :=
  with_reg RCLASS_GPR st (fun n st => Continue r (insert m sh n (skip_blank st))).
Definition fpr_operand (act : Z -> ip_state -> ip_state) (r : string) (st : ip_state) : outcome :=
  with_reg (if supports outside g "zfinx" then RCLASS_GPR else RCLASS_FPR) st
    (fun n st => Continue r (act n (skip_blank st))).

Definition csr_operand (r : string) (st : ip_state) : outcome :=
  let st := st <| insn_with_csr := true |> <| explicit_priv_attr := true |> in
  match reg_lookup outside g (asarg st) RCLASS_CSR with
  | Some (regno, msgs, rest) =>
      Continue r (insert 0xfff 20 regno (st <| asarg := rest |> <| messages := (messages st ++ msgs)%list |>))
  | None => absolute true (at_most 0xfff) "improper CSR address (%lu)" (insert 0xfff 20) r st
  end.

Definition named (array : list (option string)) (m sh : Z) (r : string) (st : ip_state) : outcome :=
  match arg_lookup (asarg st) array with
  | Some (regno, rest) => Continue r (insert m sh regno (st <| asarg := rest |>))
  | None => Break st
  end.

(** One round of the outer switch but the end of the operand string; [asarg] is past
    its blanks. *)
Definition operand (s : string) (st : ip_state) : outcome :=
  match s with
  | EmptyString => Unknown_operand
  | String "C" r => rvc_operand r st
  | String "V" r => rvv_operand r st
  | String (("," | "(" | ")" | "[" | "]") as c) r =>
      match asarg st with
      | String d rest => if Ascii.eqb d c then Continue r (st <| asarg := rest |>) else Break st
      | EmptyString => Break st
      end
  | String "<" r => absolute false (at_most 31) "improper shift amount (%lu)" (insert 0x1f 20) r st
  | String ">" r => absolute false (fun v => wrap 64 v <? xlen g) "improper shift amount (%lu)" (insert OP_MASK_SHAMT OP_SH_SHAMT) r st
  | String "Z" r => absolute false (at_most 31) "improper CSRxI immediate (%lu)" (insert OP_MASK_RS1 OP_SH_RS1) r st
  | String "E" r => csr_operand r st
  | String "m" r => named riscv_rm OP_MASK_RM OP_SH_RM r st
  | String "P" r => named riscv_pred_succ OP_MASK_PRED OP_SH_PRED r st
  | String "Q" r => named riscv_pred_succ OP_MASK_SUCC OP_SH_SUCC r st
  | String "d" r => gpr_operand OP_MASK_RD OP_SH_RD r st
  | String "s" r => gpr_operand OP_MASK_RS1 OP_SH_RS1 r st
  | String "t" r => gpr_operand OP_MASK_RS2 OP_SH_RS2 r st
  | String "r" r => gpr_operand 0x1f 27 r st
  | String "D" r => fpr_operand (insert OP_MASK_RD OP_SH_RD) r st
  | String "S" r => fpr_operand (insert OP_MASK_RS1 OP_SH_RS1) r st
  | String "T" r => fpr_operand (insert OP_MASK_RS2 OP_SH_RS2) r st
  | String "U" r => fpr_operand (fun n st => insert OP_MASK_RS2 OP_SH_RS2 n (insert OP_MASK_RS1 OP_SH_RS1 n st)) r st
  | String "R" r => fpr_operand (insert 0x1f 27) r st
  | String "I" r =>
      let st := my_getExpression true (asarg st) st in
      if bool_decide (X_op (imm_expr st) <> O_big /\ X_op (imm_expr st) <> O_constant) then Break st
      else Continue r (parsed (normalize_constant_expr st))
  | String "A" r =>
      let st := normalize_constant_expr (my_getExpression true (asarg st) st) in
      if bool_decide (X_op (imm_expr st) <> O_symbol) then Break st
      else Continue r (parsed (st <| imm_reloc := RELOC_32 |>))
  | String "B" r =>
      let st := normalize_constant_expr (my_getExpression true (asarg st) st) in
      if bool_decide (X_op (imm_expr st) <> O_symbol /\ X_op (imm_expr st) <> O_constant) then Break st
      else Continue r (parsed (if bool_decide (X_op (imm_expr st) = O_symbol) then st <| imm_reloc := RELOC_32 |> else st))
  | String "j" r => alu_op "j" r (st <| p := percent_op_itype |> <| imm_reloc := RISCV_LO12_I |>)
  | String "q" r => load_store "q" r (st <| p := percent_op_stype |> <| imm_reloc := RISCV_LO12_S |>)
  | String "o" r => load_store "o" r (st <| p := percent_op_itype |> <| imm_reloc := RISCV_LO12_I |>)
  | String "1" r => alu_op "1" r (st <| p := percent_op_rtype |>)
  | String "0" r => load_store "0" r st
  | String "p" r => branch r st
  | String "u" r =>
      let '(n, st) := my_getSmallExpression (st <| p := percent_op_utype |>) in
      if negb (n =? 0) then Continue r (parsed st)
      else if negb (constant st) then Break st
      else
        let st := bad_unless (between 0 (2 ^ 20 - 1) (value st)) "lui expression not in range 0..1048575" st in
        Continue r (parsed (set_value (sgn 64 (Z.shiftl (value st) RISCV_IMM_BITS)) (st <| imm_reloc := RISCV_HI20 |>)))
  | String "a" r => jump r st
  | String "c" r =>
      let st := parsed (my_getExpression true (asarg st) st) in
      let st := if String.eqb (asarg st) "@plt" then st <| asarg := "" |> else st in
      Continue r (st <| imm_reloc := RISCV_CALL_PLT |>)
  | String "O" (String "4" r) =>
      opcode_field (fun v => between 0 127 v && (Z.land v 3 =? 3)) OP_MASK_OP 0
        "bad value for opcode field, value must be 0...127 and lower 2 bits must be 0x3" r st
  | String "O" (String "2" r) =>
      opcode_field (between 0 2) 0x3 0 "bad value for opcode field, value must be 0...2" r st
  | String "F" (String "7" r) => funct 128 0x7f 25 "bad value for funct7 field, value must be 0...127" r st
  | String "F" (String "3" r) => funct 8 0x7 12 "bad value for funct3 field, value must be 0...7" r st
  | String "F" (String "2" r) => funct 4 0x3 25 "bad value for funct2 field, value must be 0...3" r st
  | String "y" r => absolute false (at_most 3) "Improper bs immediate (%lu)" (insert 3 30) r st
  | String "Y" r => absolute false (at_most 10) "Improper rnum immediate (%lu)" (insert 0xf 20) r st
  | String "z" r =>
      let '(n, st) := my_getSmallExpression st in
      if negb (n =? 0) || negb (constant st) || negb (value st =? 0) then Break st
      else Continue r (set_op O_absent (parsed st))
  | String "W" r => various_operand r st
  | String "X" r => imm_operand r st
  | _ => Unknown_operand
  end.

(** ** The end of the operands *)

(** Which CSR instruction a word is, and whether it writes a read-only register. *)
Definition is_insn (m v insn : Z) : bool := Z.land (Z.lxor insn v) m =? 0.
Inductive csr_insn_type := INSN_NOT_CSR | INSN_CSRRW | INSN_CSRRS | INSN_CSRRC.
Definition riscv_csr_insn_type (insn : Z) : csr_insn_type :=
  if is_insn MASK_CSRRW MATCH_CSRRW insn || is_insn MASK_CSRRWI MATCH_CSRRWI insn then INSN_CSRRW
  else if is_insn MASK_CSRRS MATCH_CSRRS insn || is_insn MASK_CSRRSI MATCH_CSRRSI insn then INSN_CSRRS
  else if is_insn MASK_CSRRC MATCH_CSRRC insn || is_insn MASK_CSRRCI MATCH_CSRRCI insn then INSN_CSRRC
  else INSN_NOT_CSR.
Definition riscv_csr_read_only_check (insn : Z) : bool :=
  let csr := Z.land (Z.shiftr insn 20) 0xfff in
  let rs1 := Z.land (Z.shiftr insn 15) 0x1f in
  let readonly := Z.shiftr (Z.land csr (Z.shiftl 3 10)) 10 =? 3 in
  negb (readonly &&
    match riscv_csr_insn_type insn with
    | INSN_CSRRS | INSN_CSRRC => negb (rs1 =? 0)
    | INSN_CSRRW => true
    | INSN_NOT_CSR => false
    end).
Definition riscv_is_priv_insn (insn : Z) : bool :=
  is_insn MASK_SRET MATCH_SRET insn || is_insn MASK_MRET MATCH_MRET insn
  || is_insn MASK_SFENCE_VMA MATCH_SFENCE_VMA insn || is_insn MASK_WFI MATCH_WFI insn
  || is_insn MASK_SFENCE_VM MATCH_SFENCE_VM insn.

(** How an attempt with one entry ends; [Refused] carries a new error message. *)
Inductive attempt :=
  | Assembled (s : ip_state) | Refused (msg : option string) (s : ip_state) | Fatal | Past_end.

Definition finish (insn : riscv_opcode) (st : ip_state) : attempt :=
  let w := insn_opcode st in
  let at_end st := if String.eqb (asarg st) "" then Assembled (st <| insn_with_csr := false |>) else Refused None st in
  if pinfo insn =? INSN_MACRO then at_end st
  else if negb (Match.call insn w) then Refused None st
  else if (Disasm.riscv_insn_length (if (match_bits insn =? 0) && (mask insn =? 0) then w else match_bits insn) =? 2)
          && negb (rvc g)
  then Refused None st
  else
    let st := if riscv_is_priv_insn w then st <| explicit_priv_attr := true |> else st in
    let st :=
      if insn_with_csr st && csr_check g && negb (riscv_csr_read_only_check w)
      then report (as_warn "read-only CSR is written `%s'") (st <| insn_with_csr := false |>) else st in
    if negb (Z.land (pinfo insn) INSN_V_EEW64 =? 0) && supports outside g "zve32x" && negb (supports outside g "zve64x")
    then Refused (Some "illegal opcode for zve32x") st
    else at_end st.

(** [asarg += strspn (asarg, " \t")] before every operand. *)
Definition blank (c : ascii) : bool := Ascii.eqb c " " || Ascii.eqb c "009".
Definition skip_blanks (st : ip_state) : ip_state := st <| asarg := drop_while blank (asarg st) |>.

(** The operand loop; every operand uses up a letter. *)
Fixpoint operands (insn : riscv_opcode) (fuel : nat) (oparg : string) (st : ip_state) : attempt :=
  let st := skip_blanks st in
  match oparg, fuel with
  | EmptyString, _ => finish insn st
  | _, O => Fatal
  | _, S fuel =>
      match operand oparg st with
      | Continue rest st => operands insn fuel rest st
      | Break st => Refused None st
      | Unknown_operand => Fatal
      | Overrun => Past_end
      end
  end.

(** ** The entries of a mnemonic *)

Record riscv_ip_error := Error { msg : option string; missing_ext : option string }.
#[export] Instance eta_error : Eta riscv_ip_error := fun e => Error (msg e) (missing_ext e).

Inductive ip_result :=
  | Returned (e : riscv_ip_error) (insn : option riscv_opcode) (s : ip_state) | Died | Read_past_end.

(** [create_insn] and the resets of each round. *)
Definition reset (insn : riscv_opcode) (start : string) (st : ip_state) : ip_state :=
  set_op O_absent st <| insn_opcode := match_bits insn |> <| imm_reloc := RELOC_UNUSED |>
    <| p := percent_op_null |> <| asarg := start |>.

(** [asargStart] is [start]; [last] is the entry [ip] was last created with. *)
Fixpoint try_entries (insns : list riscv_opcode) (start : string) (e : riscv_ip_error)
    (last : option riscv_opcode) (st : ip_state) : ip_result :=
  match insns with
  | [] => Returned e last st
  | insn :: insns =>
      if negb (xlen_requirement insn =? 0) && negb (xlen_requirement insn =? xlen g) then
        try_entries insns start e last st
      else if negb (Subsets.riscv_multi_subset_supports outside (subsets g) (insn_class insn)) then
        let ext := MissingExt.riscv_multi_subset_supports_ext outside
                     (Subsets.Rps (subsets g) (xlen g) []) (insn_class insn) in
        try_entries insns start (e <| missing_ext := ext |>) last st
      else
        let e := Error (Some "illegal operands") None in
        match operands insn (String.length (args insn)) (args insn) (reset insn start st) with
        | Assembled st => Returned (e <| msg := None |>) (Some insn) st
        | Refused m st =>
            try_entries insns start (match m with Some _ => e <| msg := m |> | None => e end) (Some insn)
              (st <| insn_with_csr := false |>)
        | Fatal => Died
        | Past_end => Read_past_end
        end
  end.

(** The name ends at the first blank, which is dropped. *)
Fixpoint split_statement (str : string) : string * string :=
  match str with
  | EmptyString => ("", "")
  | String c r => if isspace c then ("", r) else let '(n, r) := split_statement r in (String c n, r)
  end.

(** [riscv_ip]; [parse_end] is what the previous expression left. *)
Definition initial (parse_end : string) (priv_attr : bool) : ip_state :=
  Ip "" 0 (Expr O_absent 0 "") RELOC_UNUSED percent_op_null parse_end false priv_attr [].
Definition riscv_ip (hash : list (string * list riscv_opcode)) (str : string) (st : ip_state) : ip_result :=
  let '(name, start) := split_statement str in
  try_entries (Assembler.candidates name hash) start (Error (Some "unrecognized opcode") None) None st.
End Parse.
End AsmIp.
