(* ===== verification/AsmProofs.v ===== *)
(** The assembler's statement parser ([AsmIp]) with the start-up self-check ([Assembler])
    and the disassembler ([Disasm], [DisasmPrint]): the parser knows every operand string the
    self-check knows; an assembled word matches its row and disassembles; the text
    printed for a custom instruction assembles to the same word. *)

From Stdlib Require Import Ascii SpecFloat.
From S2P Require Import Prelude Opcodes Immediates Disasm Assembler Custom RegNames CsrTable Subsets MissingExt DisasmPrint AsmRegs AsmIp.
#[local] Open Scope string_scope.
#[local] Open Scope Z_scope.

Module AsmProofs.
Import AsmRegs AsmIp.

Section Proofs.
Context (expression : bool -> string -> expressionS * string).
Context (strtof : string -> spec_float * bool * string).
Context (reloc_supported : reloc -> bool).
Context (outside : ascii -> Z) (g : AsmRegs.settings).

(** * The operand letters *)

(** The outcome is no surprise: it goes on after the operand, or gives up. *)
Definition known (r : string) (o : outcome) : Prop :=
  match o with Continue r' _ => r' = r | Break _ => True | Unknown_operand | Overrun => False end.
(** The one operand that can run past the end of the statement. *)
Definition is_literal (s : string) : bool :=
  match s with String "X" (String "l" _) => true | _ => false end.

Create HintDb parsing.

Lemma known_with_reg class s k r : (forall n t, known r (k n t)) -> known r (with_reg outside g class s k).
Proof. intros H. unfold with_reg. destruct (reg_lookup _ _ _ _) as [[[n m] rest]|]; [apply H|exact I]. Qed.
Lemma known_reg_if class ok act r s : known r (reg_if outside g class ok act r s).
Proof. apply known_with_reg. intros n t. by destruct (ok n t). Qed.
Lemma known_rvc_imm ok enc r s : known r (rvc_imm expression reloc_supported ok enc r s).
Proof. unfold rvc_imm. repeat case_match; done. Qed.
Lemma known_rvc_offset ok enc r s : known r (rvc_offset expression reloc_supported ok enc r s).
Proof. unfold rvc_offset. case_match; [done|apply known_rvc_imm]. Qed.
Lemma known_rvc_lui r s : known r (rvc_lui r s).
Proof. unfold rvc_lui. by case_match. Qed.
Lemma known_funct limit m sh f r s : known r (funct expression reloc_supported limit m sh f r s).
Proof. unfold funct. repeat case_match; done. Qed.
Lemma known_opcode_field ok m sh f r s : known r (opcode_field expression reloc_supported ok m sh f r s).
Proof. unfold opcode_field. repeat case_match; done. Qed.
Lemma known_absolute csr ok f act r s : known r (absolute expression g csr ok f act r s).
Proof. done. Qed.
Lemma known_alu_op c r s : known r (alu_op expression reloc_supported g c r s).
Proof. unfold alu_op. repeat case_match; done. Qed.
Lemma known_load_store c r s : known r (load_store expression reloc_supported g c r s).
Proof. unfold load_store. case_match; [done|apply known_alu_op]. Qed.
Lemma known_named a m sh r s : known r (named a m sh r s).
Proof. unfold named. by repeat case_match. Qed.
Lemma known_fpr act r s : known r (fpr_operand outside g act r s).
Proof. by apply known_with_reg. Qed.
Lemma known_gpr m sh r s : known r (gpr_operand outside g m sh r s).
Proof. by apply known_with_reg. Qed.
Lemma known_csr r s : known r (csr_operand expression outside g r s).
Proof. unfold csr_operand. by repeat case_match. Qed.
Hint Resolve known_reg_if known_rvc_imm known_rvc_offset known_rvc_lui known_funct known_opcode_field
  known_absolute known_alu_op known_load_store known_named known_fpr known_gpr known_csr : parsing.

(** What the self-check reads of an operand, the parser knows and reads as far. *)
Ltac by_letter c :=
  destruct c as [[] [] [] [] [] [] [] []]; try discriminate.
Ltac same_rest := intros [= _ <-] || intros [= <-].

Lemma known_branch r s : known r (branch expression r s).
Proof. done. Qed.
Lemma known_jump r s : known r (jump expression r s).
Proof. done. Qed.
Lemma known_set_vsetvl ok enc f r s : known r (set_vsetvl expression g ok enc f r s).
Proof. done. Qed.
Hint Resolve known_branch known_jump known_set_vsetvl : parsing.
Ltac scheme := try (intros [= _ <-]; auto with parsing; fail).

Lemma rvc_known s st u r :
  Assembler.rvc_operand s = Some (u, r) ->
  known r (rvc_operand expression reloc_supported outside g s st).
Proof.
  destruct s as [|c s]; [done|]. by_letter c; cbn [Assembler.rvc_operand rvc_operand]; scheme.
  - (* u *) intros [= _ <-]. destruct (my_getSmallExpression _ _ _) as [n t]. case_match; [done|auto with parsing].
  - (* v *) intros [= _ <-]. destruct (my_getSmallExpression _ _ _) as [n t]. case_match; [done|auto with parsing].
  - (* F *) destruct s as [|d s]; [done|]. by_letter d; scheme.
Qed.

Lemma rvv_known s st u r :
  Assembler.rvv_operand s = Some (u, r) -> known r (rvv_operand expression outside g s st).
Proof.
  destruct s as [|c s]; [done|].
  by_letter c; cbn [Assembler.rvv_operand rvv_operand Assembler.both Assembler.use_bits]; scheme.
  - (* m *) intros [= _ <-]. destruct (asarg st) as [|d rest]; [done|]. destruct d as [[] [] [] [] [] [] [] []]; auto with parsing; exact I.
  - (* e *) intros [= _ <-]. destruct (reg_lookup outside g (asarg st) RCLASS_GPR) as [[[n m] rest]|];
      [case_match; [done|]|]; by apply known_with_reg.
  - (* f *) intros [= _ <-]. apply known_with_reg. intros n t. by repeat case_match.
Qed.

(** A literal is skipped, or the statement ends in it. *)
Lemma literal_known r st :
  match literal r st with Continue r' _ => r' = Assembler.to_comma r | Overrun => True | _ => False end.
Proof.
  unfold literal. assert (AsmRegs.to_comma r = ((AsmRegs.to_comma r).1, Assembler.to_comma r)) as ->.
  { induction r as [|c r IH]; [done|]. cbn [AsmRegs.to_comma Assembler.to_comma].
    by_letter c; destruct (AsmRegs.to_comma r); cbn in *; congruence. }
  by destruct (str_skip _ _).
Qed.

Lemma imm_known s st u r :
  is_literal (String "X" s) = false ->
  Assembler.imm_operand s = Some (u, r) -> known r (imm_operand expression g s st).
Proof.
  intros Hl. destruct s as [|c s]; [done|]. by_letter c; try discriminate Hl; cbn [Assembler.imm_operand imm_operand].
  all: unfold imm_field; repeat case_match; try discriminate; by intros [= _ <-].
Qed.

Lemma known_if (b : bool) r x y : known r x -> known r y -> known r (if b then x else y).
Proof. by destruct b. Qed.
Lemma known_small r st k :
  (forall n t, known r (k n t)) ->
  known r (let '(n, t) := my_getSmallExpression expression reloc_supported st in k n t).
Proof. by destruct (my_getSmallExpression _ _ _). Qed.
Lemma known_literal_char c r st :
  known r match asarg st with
          | String d rest => if Ascii.eqb d c then Continue r (st <| asarg := rest |>) else Break st
          | EmptyString => Break st
          end.
Proof. destruct (asarg st); [done|]. by apply known_if. Qed.

Lemma various_known s st u r :
  Assembler.next_operand (String "W" s) = Some (u, r) -> known r (various_operand expression strtof g s st).
Proof.
  destruct s as [|c s]; [done|]. destruct s as [|d s]; [by by_letter c|].
  by_letter c; by_letter d; intros [= _ <-]; cbn [various_operand].
  - unfold prefetch_offset. case_match; [done|apply known_absolute].
  - unfold fli_value. case_match; [by case_match|]. destruct (strtof _) as [[f e] rest]. by case_match.
Qed.

Lemma operand_known s st u r :
  is_literal s = false -> Assembler.next_operand s = Some (u, r) ->
  known r (operand expression strtof reloc_supported outside g s st).
Proof.
  intros Hl. destruct s as [|c s]; [done|].
  by_letter c; cbn [operand]; try apply various_known;
    cbn [Assembler.next_operand Assembler.both Assembler.use_bits];
    try (apply rvc_known || apply rvv_known || by apply imm_known); scheme.
  all: try (intros [= _ <-]; first [apply known_literal_char | done | by apply known_if
                                   | apply known_small; intros n t; repeat apply known_if; done]; fail).
  all: destruct s as [|d s]; [done|]; by_letter d; scheme.
Qed.

(** An operand string with a literal in it. *)
Fixpoint takes_literal (fuel : nat) (s : string) : bool :=
  match s, fuel with
  | EmptyString, _ | _, O => false
  | _, S fuel =>
      is_literal s || match Assembler.next_operand s with Some (_, r) => takes_literal fuel r | None => false end
  end.

(** What passes the self-check's loop is never fatal, and only a literal runs past
    the statement. *)
Definition expected (literal : bool) (a : attempt) : Prop :=
  match a with Fatal => False | Past_end => literal = true | _ => True end.

Lemma finish_known literal insn st : expected literal (finish outside g insn st).
Proof. unfold finish. repeat case_match; done. Qed.

Lemma operands_known insn fuel oparg used st u :
  Assembler.operands fuel oparg used = Some u ->
  expected (takes_literal fuel oparg) (operands expression strtof reloc_supported outside g insn fuel oparg st).
Proof.
  revert oparg used st. induction fuel as [|fuel IH]; intros oparg used st.
  - destruct oparg; [|done]. intros _. cbn [operands]. apply finish_known.
  - destruct oparg as [|c r]; [intros _; apply finish_known|].
    cbn [Assembler.operands operands takes_literal].
    destruct (Assembler.next_operand (String c r)) as [[v rest]|] eqn:E; [|done]. intros H.
    destruct (is_literal (String c r)) eqn:El.
    + destruct c as [[] [] [] [] [] [] [] []]; try discriminate El.
      destruct r as [|d r]; [done|]. destruct d as [[] [] [] [] [] [] [] []]; try discriminate El.
      injection E as <- <-. cbn [operand imm_operand]. pose proof (literal_known r (skip_blanks st)) as Hl.
      destruct (literal _ _); try done. subst. specialize (IH _ _ s H).
      destruct (operands _ _ _ _ _ _ _ _ _); done.
    + pose proof (operand_known _ (skip_blanks st) _ _ El E) as Hk.
      destruct (operand _ _ _ _ _ _ _); try done. cbn [known] in Hk. subst. by eapply IH.
Qed.

(** * The entries of a mnemonic *)

Abbreviation ip := (riscv_ip expression strtof reloc_supported outside g).
Abbreviation try := (try_entries expression strtof reloc_supported outside g).
Abbreviation run_operands := (operands expression strtof reloc_supported outside g).

(** The operand string of an entry is known in full. *)
Definition operands_valid (op : riscv_opcode) : bool :=
  bool_decide (is_Some (Assembler.operands (String.length (args op)) (args op) (mask op))).

(** How an attempt with a list of entries ends. *)
Definition answered (insns : list riscv_opcode) (r : ip_result) : Prop :=
  match r with
  | Returned _ _ _ => True
  | Died => False
  | Read_past_end => exists op, op ∈ insns /\ takes_literal (String.length (args op)) (args op) = true
  end.

Lemma try_entries_known insns start e last st :
  forallb operands_valid insns = true -> answered insns (try insns start e last st).
Proof.
  revert e last st. induction insns as [|op insns IH]; intros e last st; [done|]. cbn [forallb try_entries].
  rewrite andb_true_iff. intros [Ho Hr]. apply bool_decide_eq_true in Ho as [u Ho].
  assert (Hcons : forall r, answered insns r -> answered (op :: insns) r).
  { intros r. destruct r; try done. intros (o & ? & ?). exists o. split; [by right|done]. }
  case_match; [by apply Hcons, IH|]. case_match; [by apply Hcons, IH|].
  pose proof (operands_known op _ _ _ (reset op start st) _ Ho) as Hk.
  destruct (run_operands _ _ _ _); cbn [expected] in Hk; [done|by apply Hcons, IH|done|].
  exists op. split; [left|done].
Qed.

(** An entry that fits the settings and reads the whole statement. *)
Definition fits (op : riscv_opcode) : Prop :=
  (xlen_requirement op = 0 \/ xlen_requirement op = xlen g) /\
  Subsets.riscv_multi_subset_supports outside (subsets g) (insn_class op) = true.
Definition assembles (op : riscv_opcode) (start : string) (st' : ip_state) : Prop :=
  exists st, run_operands op (String.length (args op)) (args op) (reset op start st) = Assembled st'.

Lemma try_entries_sound insns start e last st e' insn st' :
  try insns start e last st = Returned e' insn st' -> msg e <> None -> msg e' = None ->
  exists op, insn = Some op /\ op ∈ insns /\ fits op /\ assembles op start st'.
Proof.
  revert e last st. induction insns as [|op insns IH]; intros e last st; cbn [try_entries].
  { intros [= -> _ _]. done. }
  intros H He He'. assert (Hcons : (exists o, insn = Some o /\ o ∈ insns /\ fits o /\ assembles o start st') ->
    exists o, insn = Some o /\ o ∈ op :: insns /\ fits o /\ assembles o start st').
  { intros (o & ? & ? & ? & ?). exists o. split_and!; try done. by right. }
  destruct (negb _ && negb _) eqn:Ex; [by apply Hcons, (IH _ _ _ H)|].
  destruct (negb (Subsets.riscv_multi_subset_supports _ _ _)) eqn:Es; [by apply Hcons, (IH _ _ _ H)|].
  destruct (run_operands _ _ _ _) as [t|m t| |] eqn:E; [|..]; try done.
  - injection H as <- <- <-. exists op. split; [done|]. split; [left|]. split; [|by exists st].
    split; [|by apply negb_false_iff in Es].
    apply andb_false_iff in Ex as [Ex|Ex]; apply negb_false_iff, Z.eqb_eq in Ex; auto.
  - apply Hcons, (IH _ _ _ H); [|done]. by destruct m.
Qed.

(** The last step of an assembled instruction. *)
Lemma operands_finish insn fuel oparg st st' :
  run_operands insn fuel oparg st = Assembled st' -> exists t, finish outside g insn t = Assembled st'.
Proof.
  revert oparg st. induction fuel as [|fuel IH]; intros oparg st; destruct oparg as [|c r]; cbn [operands];
    try done; try (intros H; by eexists).
  destruct (operand _ _ _ _ _ _ _); try done. apply IH.
Qed.

Lemma finish_matches insn t st' :
  finish outside g insn t = Assembled st' ->
  asarg st' = "" /\ (pinfo insn <> INSN_MACRO -> Match.call insn (insn_opcode st') = true).
Proof.
  unfold finish. intros H.
  assert (Hend : forall t, (if String.eqb (asarg t) "" then Assembled (t <| insn_with_csr := false |>) else Refused None t)
                           = Assembled st' -> asarg st' = "" /\ insn_opcode st' = insn_opcode t).
  { intros u. destruct (String.eqb_spec (asarg u) ""); [|done]. intros [= <-]. done. }
  destruct (Z.eqb_spec (pinfo insn) INSN_MACRO); [by apply Hend in H as [? _]|].
  destruct (Match.call insn (insn_opcode t)) eqn:Em; [|done]. cbn [negb] in H.
  case_match; [done|]. case_match; [done|]. apply Hend in H as [? Hw]. split; [done|]. intros _. rewrite Hw.
  repeat case_match; done.
Qed.
End Proofs.

(** The tables, the macros included. *)
Lemma operands_valid_checked :
  forallb operands_valid Table.riscv_opcodes && forallb operands_valid Table.riscv_insn_types = true.
Proof. by vm_compute. Qed.

Lemma entries_valid nm ops : forallb operands_valid ops = true -> forallb operands_valid (Assembler.entries nm ops) = true.
Proof.
  rewrite !forallb_forall. intros H op Hin. apply H, list_elem_of_In.
  apply list_elem_of_In, list_elem_of_filter in Hin as [_ ?]. done.
Qed.

Lemma candidates_entries fuel dir ops h nm :
  Assembler.init_opcode_hash fuel dir ops [] = Some h -> Assembler.candidates nm h = Assembler.entries nm ops.
Proof. intros H. exact (Assembler.init_hash_step _ _ _ _ _ H nm). Qed.
Lemma op_hash_entries h nm :
  Assembler.op_hash = Some h -> Assembler.candidates nm h = Assembler.entries nm Table.riscv_opcodes.
Proof. apply candidates_entries. Qed.
Lemma insn_type_hash_entries h nm :
  Assembler.insn_type_hash = Some h -> Assembler.candidates nm h = Assembler.entries nm Table.riscv_insn_types.
Proof. apply candidates_entries. Qed.

(** [C8] No statement makes the assembler die: whatever the text, the architecture, the
    outcome of the expression parser and the state, [riscv_ip] with either opcode table comes
    back with an assembled instruction or an error message, and never reaches its fatal
    error on an unknown operand letter; it reads past the end of the statement only for a
    mnemonic with a literal operand. *)
Theorem riscv_ip_never_dies expression strtof reloc_supported outside g h str st :
  Assembler.op_hash = Some h \/ Assembler.insn_type_hash = Some h ->
  answered (Assembler.candidates (split_statement str).1 h)
    (riscv_ip expression strtof reloc_supported outside g h str st).
Proof.
  intros H. unfold riscv_ip. destruct (split_statement str) as [nm start]. apply try_entries_known.
  pose proof operands_valid_checked as Hc. apply andb_prop in Hc as [Hops Htypes]. cbn [fst].
  destruct H as [H|H]; [rewrite (op_hash_entries h nm H)|rewrite (insn_type_hash_entries h nm H)];
    apply entries_valid; assumption.
Qed.

Lemma scan_finds c w op ops : op ∈ ops -> Disasm.accepts c w op = true -> exists op', Disasm.scan c w ops = Some op'.
Proof.
  induction 1 as [op ops|op r ops _ IH]; intros Ha; cbn [Disasm.scan]; [rewrite Ha; by eexists|].
  case_match; [by eexists|]. by apply IH.
Qed.

(** [C7] What assembles, disassembles: when [riscv_ip] reports no error for a real
    instruction, it chose an entry of the mnemonic that fits XLEN and extensions, read the
    statement to its end, the word matches the entry, and the disassembler of the same
    architecture finds an instruction in the word. *)
Theorem assembled_is_disassembled expression strtof reloc_supported outside g h str st e insn st' c :
  Assembler.op_hash = Some h ->
  riscv_ip expression strtof reloc_supported outside g h str st = Returned e insn st' -> msg e = None ->
  Disasm.no_aliases c = false -> Disasm.xlen c = xlen g ->
  (forall cl, Disasm.subset_supports c cl = Subsets.riscv_multi_subset_supports outside (subsets g) cl) ->
  exists op, insn = Some op /\ op ∈ Table.riscv_opcodes /\ name op = (split_statement str).1 /\ fits outside g op /\ asarg st' = "" /\
    (pinfo op <> INSN_MACRO ->
     Match.call op (insn_opcode st') = true /\
     exists op', Disasm.entry (Disasm.riscv_disassemble_insn Disasm.riscv_hash c (insn_opcode st')) = Some op').
Proof.
  intros Hh. unfold riscv_ip. destruct (split_statement str) as [nm start]. cbn [fst].
  intros Hr He Hna Hx Hsub.
  destruct (try_entries_sound _ _ _ _ _ _ _ _ _ _ _ _ _ Hr ltac:(done) He) as (op & -> & Hin & [Hxl Hs] & t & Ht).
  rewrite (op_hash_entries h nm Hh) in Hin. clear Hh Hr.
  apply list_elem_of_filter in Hin as [Hn Hin].
  destruct (operands_finish _ _ _ _ _ _ _ _ _ _ Ht) as [u Hu].
  destruct (finish_matches _ _ _ _ _ Hu) as [Hend Hm].
  exists op. split; [reflexivity|]. split; [exact Hin|]. split; [exact Hn|]. split; [exact (conj Hxl Hs)|].
  split; [exact Hend|]. intros Hp. specialize (Hm Hp). split; [exact Hm|].
  assert (Ha : Disasm.accepts c (insn_opcode st') op = true).
  { unfold Disasm.accepts. rewrite Hm, Hna, Hsub, Hs, Hx. cbn. rewrite andb_true_r.
    destruct Hxl as [-> | ->]; cbn; [done|]. by rewrite Z.eqb_refl, andb_false_r. }
  destruct (scan_finds c _ _ _ Hin Ha) as [op' Hop']. exists op'.
  unfold Disasm.riscv_disassemble_insn. rewrite DisasmPrint.lookup_ref, Hop'. reflexivity.
Qed.

(** * Concrete statements *)

(** Decimal constants only; no floating-point literals. *)
Definition decimal_constant (probing : bool) (str : string) : expressionS * string :=
  let '(n, rest) := Assembler.strtol 0 str in (Expr O_constant n "", rest).
Definition no_float (str : string) : spec_float * bool * string := (S754_nan, true, str).
Definition with_extensions (l : list (string * (Z * Z))) : AsmRegs.settings :=
  AsmRegs.Settings 32 false true (Subsets.add_all l) CsrTable.P_NONE.
Definition rv32im : AsmRegs.settings := with_extensions [("i", (2, 1)); ("m", (2, 0))].
Abbreviation run g := (riscv_ip decimal_constant no_float (fun _ => true) Subsets.zeros g).

(** A statement against the entries of its mnemonic. *)
Lemma run_entries g h str st :
  Assembler.op_hash = Some h ->
  run g h str st =
  let '(nm, start) := split_statement str in
  try_entries decimal_constant no_float (fun _ => true) Subsets.zeros g (Assembler.entries nm Table.riscv_opcodes) start
    (Error (Some "unrecognized opcode") None) None st.
Proof. intros Hh. unfold riscv_ip. destruct (split_statement str). by rewrite (op_hash_entries h _ Hh). Qed.

(** An extension that is not enabled: no entry has a literal operand, so it is answered. *)
Lemma riscv_ip_never_dies_witness :
  exists h e insn st, Assembler.op_hash = Some h /\
    run rv32im h "fadd.s fa0,fa1,fa2" (initial "" false) = Returned e insn st.
Proof.
  destruct Assembler.op_hash_built as [h Hh].
  pose proof (riscv_ip_never_dies decimal_constant no_float (fun _ => true) Subsets.zeros rv32im h
    "fadd.s fa0,fa1,fa2" (initial "" false) (or_introl Hh)) as Ha.
  change ((split_statement "fadd.s fa0,fa1,fa2").1) with "fadd.s" in Ha. rewrite (op_hash_entries h _ Hh) in Ha.
  destruct (run rv32im h "fadd.s fa0,fa1,fa2" (initial "" false)) as [e insn st| |] eqn:E.
  - exists h, e, insn, st. split; [exact Hh|exact E].
  - destruct Ha.
  - exfalso. destruct Ha as (op & Hin & Hl).
    assert (Hn : forallb (fun o => negb (takes_literal (String.length (args o)) (args o)))
                   (Assembler.entries "fadd.s" Table.riscv_opcodes) = true) by (vm_compute; reflexivity).
    rewrite forallb_forall in Hn. specialize (Hn op (proj1 (list_elem_of_In _ _) Hin)). rewrite Hl in Hn.
    discriminate Hn.
Defined.

(** A load. *)
Lemma assembled_is_disassembled_witness :
  exists h st op, Assembler.op_hash = Some h /\
    run rv32im h "lw a0,8(sp)" (initial "" false) = Returned (Error None None) (Some op) st /\
    Match.call op (insn_opcode st) = true.
Proof.
  destruct Assembler.op_hash_built as [h Hh].
  pose proof (run_entries rv32im h "lw a0,8(sp)" (initial "" false) Hh) as Hr.
  remember (run rv32im h "lw a0,8(sp)" (initial "" false)) as result eqn:E. symmetry in E. vm_compute in Hr.
  destruct result as [e insn st| |]; [|discriminate Hr..].
  destruct (assembled_is_disassembled decimal_constant no_float (fun _ => true) Subsets.zeros rv32im h
    "lw a0,8(sp)" (initial "" false) e insn st
    (Disasm.Config false 32 (Subsets.riscv_multi_subset_supports Subsets.zeros (subsets rv32im))))
    as (op & Hi & _ & _ & _ & _ & Hm).
  - exact Hh.
  - exact E.
  - injection Hr as -> _ _. reflexivity.
  - reflexivity.
  - reflexivity.
  - reflexivity.
  - exists h, st, op. split; [exact Hh|]. injection Hr as -> -> ->. split; [rewrite Hi in E; exact E|].
    apply Hm. injection Hi as <-. discriminate.
Defined.

(** A literal operand is skipped by its length even when the statement has ended: the
    parser goes on behind the end of the statement. *)
Theorem literal_overruns h :
  Assembler.op_hash = Some h ->
  run (with_extensions [("i", (2, 1)); ("xtheadmempair", (1, 0))]) h "th.lwd a0,a1,(a2),0," (initial "" false)
  = Read_past_end.
Proof. intros Hh. rewrite (run_entries _ _ _ _ Hh). by vm_compute. Qed.
End AsmProofs.
