(* ===== verification/CustomText.v ===== *)
(** The custom extension as text: the line the disassembler ([DisasmPrint]) prints for an
    assembled custom instruction is a statement from which the assembler ([AsmIp]) makes the
    same word again. *)

From Stdlib Require Import Ascii SpecFloat.
From S2P Require Import Prelude Opcodes Disasm Assembler Decoder Custom RegNames CsrTable Subsets DisasmPrint Addresses AsmRegs AsmIp AsmProofs.
#[local] Open Scope string_scope.
#[local] Open Scope Z_scope.

Module CustomText.
Import RegNames AsmProofs.
#[local] Existing Instance DisasmPrint.eta_state.
#[local] Existing Instance DisasmPrint.eta_globals.
#[local] Existing Instance Custom.riscv_opcode_eq_dec.
#[local] Opaque Disasm.riscv_hash.

(** * Operand strings of registers *)

Lemma string_assoc (a b c : string) : (a ++ b) ++ c = a ++ (b ++ c).
Proof. induction a as [|x a IH]; [done|]. exact (f_equal (String x) IH). Qed.
Lemma string_nil (a : string) : a ++ "" = a.
Proof. induction a as [|x a IH]; [done|]. exact (f_equal (String x) IH). Qed.

(** A register letter ends the string or is followed by a comma. *)
Fixpoint separated (s : string) : bool :=
  match s with
  | EmptyString => true
  | String "," r => separated r
  | String ("d" | "s" | "t") (String "," r) => separated r
  | String ("d" | "s" | "t") EmptyString => true
  | _ => false
  end.

(** The register fields an operand string names, in order. *)
Fixpoint fields (s : string) (l : Z) : list Z :=
  match s with
  | EmptyString => []
  | String "d" r => slice 7 5 l :: fields r l
  | String "s" r => slice 15 5 l :: fields r l
  | String "t" r => slice 20 5 l :: fields r l
  | String _ r => fields r l
  end.

(** The text of an operand string with its registers. *)
Definition name_of (names : list string) (r : Z) : string := default "" (names !! Z.to_nat r).
Fixpoint text (names : list string) (s : string) (regs : list Z) : string :=
  match s, regs with
  | String "," s, _ => "," ++ text names s regs
  | String _ s, r :: regs => name_of names r ++ text names s regs
  | _, _ => ""
  end.

Definition printed_names (names : list string) : Prop :=
  names = riscv_gpr_names_abi \/ names = riscv_gpr_names_numeric.

Lemma name_lookup names r : printed_names names -> urange 5 r -> names !! Z.to_nat r = Some (name_of names r).
Proof.
  intros Hn [H0 H1]. change (2 ^ 5) with 32 in H1. unfold name_of.
  destruct (RegNames.lookup_total_Z names r) as [t ->]; [|done].
  destruct Hn as [-> | ->]; exact (conj H0 H1).
Qed.

Definition register_letters : list (ascii * Z) := [("d"%char, 7); ("s"%char, 15); ("t"%char, 20)].
Ltac by_register H :=
  unfold register_letters in H; rewrite !elem_of_cons in H;
  destruct H as [[= -> ->]|[[= -> ->]|[[= -> ->]|H]]]; [..|by apply not_elem_of_nil in H].

(** A register string begins with a comma or one of the three letters. *)
Lemma separated_cases oparg : separated oparg = true ->
  oparg = "" \/ (exists r, oparg = String "," r /\ separated r = true) \/
  exists c sh r, oparg = String c r /\ (c, sh) ∈ register_letters /\
    separated r = true /\ (r = "" \/ exists r', r = String "," r').
Proof.
  destruct oparg as [|c r]; [auto|]. intros H. right.
  assert (Hr : forall c sh, (c, sh) ∈ register_letters ->
    match r with String "," r => separated r | "" => true | _ => false end = true ->
    exists c' sh r', String c r = String c' r' /\ (c', sh) ∈ register_letters /\
      separated r' = true /\ (r' = "" \/ exists r'', r' = String "," r'')).
  { clear. intros c sh Hin Hr. exists c, sh, r. split; [done|]. split; [done|].
    destruct r as [|d r]; [by auto|]. destruct d as [[] [] [] [] [] [] [] []]; try done. split; [done|]. right. by eexists. }
  destruct c as [[] [] [] [] [] [] [] []]; try discriminate H.
  - right. eapply (Hr _ 15); [unfold register_letters; set_solver|exact H].
  - left. by exists r.
  - right. eapply (Hr _ 20); [unfold register_letters; set_solver|exact H].
  - right. eapply (Hr _ 7); [unfold register_letters; set_solver|exact H].
Qed.

(** * Printing *)

Section Print.
Context (address : Z -> string) (g : DisasmPrint.settings) (l pc : Z).
Context (Hg : printed_names (DisasmPrint.riscv_gpr_names g)) (Hl : Decoder.opcode l = 0x5b).
Abbreviation names := (DisasmPrint.riscv_gpr_names g).

Definition append (t : string) (s : DisasmPrint.state) : DisasmPrint.state :=
  s <| DisasmPrint.out := DisasmPrint.out s ++ t |>.

Lemma append_append t u s : append u (append t s) = append (t ++ u) s.
Proof. destruct s. unfold append. cbn. by rewrite string_assoc. Qed.

Lemma gpr_prints sh s : 0 <= sh ->
  DisasmPrint.gpr g (DisasmPrint.field l 0x1f sh) s = Some (append (name_of names (slice sh 5 l)) s).
Proof.
  intros Hsh. unfold DisasmPrint.gpr, DisasmPrint.print_name.
  assert (DisasmPrint.field l 0x1f sh = slice sh 5 l) as ->.
  { unfold DisasmPrint.field, slice, wrap. by rewrite <- Z.land_ones by lia. }
  rewrite (name_lookup names) by (done || (apply slice_range; lia)). done.
Qed.

(** In the custom opcode no operand letter touches the remembered addresses. *)
Lemma not_matched m v : Z.land (Z.land m 0x7f) (Z.lxor v 0x5b) <> 0 -> DisasmPrint.matches l m v = false.
Proof.
  intros Hd. apply not_true_is_false. unfold DisasmPrint.matches. rewrite Z.eqb_eq. intros <-. apply Hd.
  rewrite <- Hl. unfold Decoder.opcode, slice. rewrite Z.shiftr_0_r. unfold wrap. rewrite <- Z.land_ones by lia.
  apply Z.bits_inj'. intros n Hn. rewrite !Z.land_spec, Z.lxor_spec, !Z.land_spec, Z.bits_0.
  change 127 with (Z.ones 7). by destruct (Z.testbit m n), (Z.testbit (Z.ones 7) n), (Z.testbit l n).
Qed.

Lemma letter_prints c sh r s :
  (c, sh) ∈ register_letters ->
  exists a, DisasmPrint.next_modifier address g l pc (String c r) = DisasmPrint.Modifier a r /\
            a s = Some (append (name_of names (slice sh 5 l)) s).
Proof.
  intros H. by_register H; eexists; (split; [reflexivity|]); unfold DisasmPrint.seq.
  - rewrite !not_matched by (by vm_compute). by apply gpr_prints.
  - rewrite not_matched by (by vm_compute). by apply gpr_prints.
  - by apply gpr_prints.
Qed.

Lemma append_nil s : append "" s = s.
Proof. destruct s. unfold append. cbn. by rewrite string_nil. Qed.

Lemma print_registers fuel oparg s :
  separated oparg = true -> (String.length oparg <= fuel)%nat ->
  DisasmPrint.print_modifiers address g l pc fuel oparg s =
  Some (DisasmPrint.Finished (append (text names oparg (fields oparg l)) s)).
Proof.
  revert oparg s. induction fuel as [|fuel IH]; intros oparg s Hs Hf.
  - destruct oparg; [|cbn in Hf; lia]. cbn. by rewrite append_nil.
  - destruct (separated_cases _ Hs) as [-> | [(r & -> & Hr)|(c & sh & r & -> & Hc & Hr & _)]].
    + cbn. by rewrite append_nil.
    + cbn [DisasmPrint.print_modifiers DisasmPrint.next_modifier DisasmPrint.print mbind option_bind].
      rewrite (IH r) by (done || cbn in Hf; lia). cbn [fields].
      change (text names (String "," r) (fields r l)) with ("," ++ text names r (fields r l)).
      do 2 f_equal. symmetry. rewrite <- append_append. reflexivity.
    + cbn [DisasmPrint.print_modifiers].
      destruct (letter_prints c sh r s Hc) as (a & -> & ->). cbn [mbind option_bind].
      rewrite (IH r) by (done || cbn in Hf; lia). rewrite append_append.
      by by_register Hc.
Qed.
End Print.

(** * Reading *)

Section Read.
Context (expression : bool -> string -> AsmIp.expressionS * string).
Context (strtof : string -> spec_float * bool * string).
Context (reloc_supported : AsmIp.reloc -> bool).
Context (outside : ascii -> Z) (g : AsmRegs.settings) (names : list string).
Context (Hnames : printed_names names) (He : AsmRegs.supports outside g "e" = false).
Import AsmIp.

(** Names begin with a letter. *)
Definition begins (s : string) : bool :=
  match s with String c _ => negb (blank c) && AsmRegs.is_part_of_name c | EmptyString => false end.
Lemma name_begins r : urange 5 r -> begins (name_of names r) = true.
Proof.
  intros Hr. pose proof (name_lookup names r Hnames Hr) as Hl. apply list_elem_of_lookup_2 in Hl.
  assert (H : forallb begins riscv_gpr_names_abi && forallb begins riscv_gpr_names_numeric = true) by by vm_compute.
  apply andb_prop in H as [Ha Hn]. rewrite forallb_forall in Ha, Hn.
  destruct Hnames as [E|E]; rewrite E in Hl |- *; [apply Ha|apply Hn]; by apply list_elem_of_In.
Qed.

Lemma skip_name r rest st : urange 5 r -> asarg st = name_of names r ++ rest -> skip_blanks st = st.
Proof.
  intros Hr Ha. pose proof (name_begins r Hr) as Hb. unfold skip_blanks.
  assert (drop_while blank (asarg st) = asarg st) as ->; [|by destruct st].
  rewrite Ha. destruct (name_of names r) as [|c n]; [done|]. apply andb_prop in Hb as [Hb _].
  apply negb_true_iff in Hb. change (String c n ++ rest) with (String c (n ++ rest)).
  cbn [drop_while]. by rewrite Hb.
Qed.

Lemma gpr_reads m sh oparg r rest st :
  urange 5 r -> asarg st = name_of names r ++ rest -> rest = "" \/ (exists t, rest = String "," t) ->
  gpr_operand outside g m sh oparg (skip_blanks st) = Continue oparg (insert m sh r (st <| asarg := rest |>)).
Proof.
  intros Hr Ha Hrest. rewrite (skip_name r rest) by done. unfold gpr_operand, with_reg.
  rewrite Ha, (AsmRegs.reg_lookup_printed outside g names r (name_of names r) rest Hnames);
    [|by apply name_lookup|apply Hr|done|destruct Hrest as [-> | [t ->]]; done].
  destruct st as [? ? ? ? ? ? ? ? ms]. unfold skip_blank. cbn. rewrite app_nil_r.
  destruct Hrest as [-> | [t ->]]; done.
Qed.

Lemma skip_comma_free t st : asarg st = String "," t -> skip_blanks st = st.
Proof. intros Ha. unfold skip_blanks. destruct st; cbn in Ha. by subst. Qed.

(** The word the operands make, as [Custom.insert_regs] has it. *)
Lemma text_head s regs : separated s = true -> s = "" \/ (exists r, s = String "," r) ->
  text names s regs = "" \/ exists t, text names s regs = String "," t.
Proof. intros Hs [-> | [r ->]]; [by left|]. right. by eexists. Qed.

Lemma read_registers op fuel oparg regs st w :
  separated oparg = true -> (String.length oparg <= fuel)%nat -> Forall (urange 5) regs ->
  Custom.insert_regs oparg regs (insn_opcode st) = Some w -> asarg st = text names oparg regs ->
  operands expression strtof reloc_supported outside g op fuel oparg st =
  finish outside g op (st <| asarg := "" |> <| insn_opcode := w |>).
Proof.
  revert oparg regs st. induction fuel as [|fuel IH]; intros oparg regs st Hs Hf Hregs Hw Ha.
  { destruct oparg; [|cbn in Hf; lia]. destruct regs; [|done]. injection Hw as <-. cbn in Ha.
    destruct st; cbn in Ha. subst. done. }
  destruct (separated_cases _ Hs) as [-> | [(r & -> & Hr)|(c & sh & r & -> & Hc & Hr & Hn)]].
  - destruct regs; [|done]. injection Hw as <-. cbn in Ha. destruct st; cbn in Ha. subst. done.
  - change (text names (String "," r) regs) with (String "," (text names r regs)) in Ha.
    cbn [operands operand]. rewrite (skip_comma_free _ _ Ha), Ha. cbn [Ascii.eqb Bool.eqb].
    rewrite (IH r regs _ Hr); [by destruct st|cbn in Hf; lia|done|by destruct regs|done].
  - destruct regs as [|x regs]; [by by_register Hc|]. apply Forall_cons in Hregs as [Hx Hregs].
    assert (Ht : asarg st = name_of names x ++ text names r regs) by (rewrite Ha; by by_register Hc).
    assert (Hop : operand expression strtof reloc_supported outside g (String c r) (skip_blanks st)
                  = gpr_operand outside g 0x1f sh r (skip_blanks st)) by (by by_register Hc).
    assert (Hw' : Custom.insert_regs r regs (Custom.insert_bits (insn_opcode st) x 0x1f sh) = Some w)
      by (by by_register Hc).
    cbn [operands]. rewrite Hop, (gpr_reads _ _ _ x (text names r regs)) by (done || by apply text_head).
    rewrite (IH r regs _ Hr); [by destruct st|cbn in Hf; lia|done|exact Hw'|done].
Qed.
End Read.

(** * The custom rows *)

Fixpoint no_space (s : string) : bool :=
  match s with String c r => negb (AsmRegs.isspace c) && no_space r | EmptyString => true end.
Lemma split_name n c rest : no_space n = true -> AsmRegs.isspace c = true ->
  AsmIp.split_statement (n ++ String c rest) = (n, rest).
Proof.
  intros Hn Hc. induction n as [|d n IH].
  - change ("" ++ String c rest) with (String c rest). cbn [AsmIp.split_statement]. by rewrite Hc.
  - cbn [no_space] in Hn. apply andb_prop in Hn as [Hd Hn]. apply negb_true_iff in Hd.
    change (String d n ++ String c rest) with (String d (n ++ String c rest)).
    cbn [AsmIp.split_statement]. by rewrite Hd, IH.
Qed.

(** Each custom mnemonic has one entry, found by its name, with register operands. *)
Definition text_check (op : riscv_opcode) : bool :=
  bool_decide (Assembler.entries (name op) Table.riscv_opcodes = [op]) && no_space (name op)
  && separated (args op) && (Disasm.riscv_insn_length (match_bits op) =? 4)
  && negb (match_bits op =? 0) && (slice 0 7 (match_bits op) =? 0x5b).
Lemma text_checked : forallb text_check Custom.custom_ops = true.
Proof. by vm_compute. Qed.
Lemma text_facts op : op ∈ Custom.custom_ops ->
  Assembler.entries (name op) Table.riscv_opcodes = [op] /\ no_space (name op) = true /\
  separated (args op) = true /\ Disasm.riscv_insn_length (match_bits op) = 4 /\ match_bits op <> 0 /\
  slice 0 7 (match_bits op) = 0x5b.
Proof.
  intros Hin. pose proof text_checked as H. rewrite forallb_forall in H.
  specialize (H op (proj1 (list_elem_of_In _ _) Hin)). unfold text_check in H.
  rewrite !andb_true_iff, bool_decide_eq_true, !Z.eqb_eq, negb_true_iff, Z.eqb_neq in H. tauto.
Qed.

Lemma custom_fields op w regs : op ∈ Custom.custom_ops ->
  take (Custom.arity op) (Custom.reg_fields w) = regs -> fields (args op) w = regs.
Proof.
  intros Hin <-. destruct (Custom.custom_facts op Hin) as (_ & _ & _ & [[Ha _]|[Ha _]]);
    unfold Custom.arity; rewrite Ha; reflexivity.
Qed.

Definition statement (names : list string) (op : riscv_opcode) (regs : list Z) : string :=
  name op ++ String "009" (text names (args op) regs).

Section Statement.
Context (outside : ascii -> Z) (names : list string) (Hnames : printed_names names).
Context (op : riscv_opcode) (regs : list Z) (w : Z).
Context (Hop : op ∈ Custom.custom_ops) (Hlen : length regs = Custom.arity op) (Hregs : Forall (urange 5) regs).
Context (Hw : Custom.assemble op regs = Some w).

(** The line printed. *)
Lemma statement_printed address mach pc packet (g : DisasmPrint.globals) s :
  DisasmPrint.gpr_names g = names ->
  Subsets.riscv_subset_supports outside (DisasmPrint.riscv_subsets g) "i" = true ->
  DisasmPrint.to_print_addr (DisasmPrint.pd s) = false ->
  exists r g' s', DisasmPrint.riscv_disassemble_insn outside Disasm.riscv_hash address mach pc w packet g s = Some (r, g', s') /\
    DisasmPrint.out s' = DisasmPrint.out s ++ statement names op regs.
Proof.
  intros Hg Hi Hs.
  destruct (Custom.assemble_custom op regs Hop Hlen Hregs) as (w' & Hw' & Ho & _ & Hf & H7 & _).
  rewrite Hw in Hw'. injection Hw' as <-.
  destruct (Custom.custom_facts op Hop) as ((Hu & Hfn & Hc & Hx & Hp) & _).
  destruct (text_facts op Hop) as (_ & _ & Hsep & _ & _ & H5b). rewrite H5b in H7.
  set (g' := g <| DisasmPrint.cur_xlen := DisasmPrint.known_xlen mach (DisasmPrint.cur_xlen g) |>).
  assert (Hscan : Disasm.scan (DisasmPrint.config_of outside g') w Table.riscv_opcodes = Some op).
  { apply Custom.scan_unambiguous; [exact Hu|exact Ho|]. unfold Disasm.accepts, Match.call.
    rewrite Hfn, Ho, Hp, Hx, Hc. cbn. rewrite Hi. by destruct (DisasmPrint.no_aliases g). }
  rewrite <- DisasmPrint.lookup_ref in Hscan. unfold Disasm.lookup in Hscan.
  unfold DisasmPrint.riscv_disassemble_insn. destruct (Disasm.riscv_hash (Disasm.hash_idx w)) as [ops|]; [|done].
  cbv zeta. fold g'. rewrite Hscan. unfold DisasmPrint.print at 1. cbn [mbind option_bind].
  unfold DisasmPrint.print_insn_args.
  assert (Hne : negb (String.eqb (args op) "") = true).
  { destruct (Custom.custom_facts op Hop) as (_ & _ & _ & [[-> _]|[-> _]]); reflexivity. }
  assert (Hn : DisasmPrint.riscv_gpr_names (DisasmPrint.settings_of outside mach g') = names) by exact Hg.
  rewrite Hne. cbn [DisasmPrint.when DisasmPrint.print mbind option_bind].
  rewrite (print_registers address (DisasmPrint.settings_of outside mach g') w pc) by
    (done || by rewrite Hn).
  rewrite Hn.
  cbn [mbind option_bind DisasmPrint.ending_state]. unfold DisasmPrint.print_comment, append.
  destruct s as [o t p d]. cbn in Hs |- *. rewrite Hs. do 3 eexists. split; [reflexivity|]. cbn.
  rewrite (custom_fields op w regs Hop Hf). unfold statement. by rewrite !string_assoc.
Qed.

(** The line read. *)
Lemma statement_read expression strtof reloc_supported (g : AsmRegs.settings) h parse_end priv_attr :
  Assembler.op_hash = Some h -> AsmRegs.supports outside g "i" = true -> AsmRegs.supports outside g "e" = false ->
  exists st, AsmIp.riscv_ip expression strtof reloc_supported outside g h (statement names op regs)
      (AsmIp.initial parse_end priv_attr) = AsmIp.Returned (AsmIp.Error None None) (Some op) st /\
    AsmIp.insn_opcode st = w /\ AsmIp.messages st = [].
Proof.
  intros Hh Hi He. unfold AsmIp.riscv_ip, statement.
  destruct (text_facts op Hop) as (Hent & Hns & Hsep & Hlen4 & H0 & _).
  rewrite (split_name _ "009" _ Hns eq_refl), (op_hash_entries h _ Hh), Hent. clear Hh.
  destruct (Custom.custom_facts op Hop) as ((_ & Hfn & Hc & Hx & Hp) & _).
  cbn [AsmIp.try_entries]. rewrite Hx, Hc.
  change (Subsets.riscv_multi_subset_supports outside (AsmRegs.subsets g) INSN_CLASS_I) with (AsmRegs.supports outside g "i").
  rewrite Hi. cbn [negb andb Z.eqb].
  unfold Custom.assemble in Hw.
  destruct (Custom.insert_regs (args op) regs (match_bits op)) as [w'|] eqn:Eins; [|discriminate Hw].
  cbn [mbind option_bind] in Hw. destruct (Match.call op w') eqn:Em; [|discriminate Hw]. injection Hw as ->.
  rewrite (read_registers expression strtof reloc_supported outside g names Hnames He op _ _ regs _ w Hsep)
    by (done || exact Eins).
  unfold AsmIp.finish. cbn. rewrite Hp, Em. cbn.
  assert (Disasm.riscv_insn_length (if (match_bits op =? 0) && (mask op =? 0) then w else match_bits op) = 4) as ->.
  { apply Z.eqb_neq in H0. by rewrite H0. }
  cbn. destruct (AsmIp.riscv_is_priv_insn w); cbn; eexists; (split; [reflexivity|done]).
Qed.
End Statement.

(** [C5] The custom extension survives the trip through text: for each of the eighteen
    instructions and any registers, the line that the disassembler prints for the assembled
    word (any address and XLEN, either register naming, any alias setting) is a statement which
    the assembler accepts without a message, choosing the same row and making the same word,
    on every architecture with [i] but not [e]. *)
Theorem custom_text_roundtrip outside address expression strtof reloc_supported mach pc packet
    (gd : DisasmPrint.globals) s (ga : AsmRegs.settings) h parse_end priv_attr op regs :
  op ∈ Custom.custom_ops -> length regs = Custom.arity op -> Forall (urange 5) regs ->
  printed_names (DisasmPrint.gpr_names gd) ->
  Subsets.riscv_subset_supports outside (DisasmPrint.riscv_subsets gd) "i" = true ->
  DisasmPrint.to_print_addr (DisasmPrint.pd s) = false ->
  Assembler.op_hash = Some h -> AsmRegs.supports outside ga "i" = true -> AsmRegs.supports outside ga "e" = false ->
  exists w r gd' s' line st,
    Custom.assemble op regs = Some w /\
    DisasmPrint.riscv_disassemble_insn outside Disasm.riscv_hash address mach pc w packet gd s = Some (r, gd', s') /\
    DisasmPrint.out s' = DisasmPrint.out s ++ line /\
    AsmIp.riscv_ip expression strtof reloc_supported outside ga h line (AsmIp.initial parse_end priv_attr)
      = AsmIp.Returned (AsmIp.Error None None) (Some op) st /\
    AsmIp.insn_opcode st = w /\ AsmIp.messages st = [].
Proof.
  intros Hop Hlen Hregs Hn Hi Hs Hh Hia He.
  destruct (Custom.assemble_custom op regs Hop Hlen Hregs) as (w & Hw & _).
  destruct (statement_printed outside _ Hn op regs w Hop Hlen Hregs Hw address mach pc packet gd s eq_refl Hi Hs)
    as (r & gd' & s' & Hd & Ho).
  destruct (statement_read outside _ Hn op regs w Hop Hregs Hw expression strtof reloc_supported ga h
    parse_end priv_attr Hh Hia He) as (st & Hr & Hst).
  exists w, r, gd', s', (statement (DisasmPrint.gpr_names gd) op regs), st.
  split; [exact Hw|]. split; [exact Hd|]. split; [exact Ho|]. split; [exact Hr|exact Hst].
Qed.

(** [vmac.b a0,ra,sp] on RV32IM: the printed line, read back. *)
Lemma custom_text_roundtrip_witness :
  exists h w r gd' s' line st,
    Assembler.op_hash = Some h /\
    Custom.assemble Custom.row_vmac_b [10; 1; 2] = Some w /\
    DisasmPrint.riscv_disassemble_insn Subsets.zeros Disasm.riscv_hash RegNames.hex DisasmPrint.mach_riscv32 0x100 w []
      Addresses.rv32i Addresses.fresh = Some (r, gd', s') /\
    DisasmPrint.out s' = DisasmPrint.out Addresses.fresh ++ line /\
    AsmIp.riscv_ip decimal_constant no_float (fun _ => true) Subsets.zeros rv32im h line (AsmIp.initial "" false)
      = AsmIp.Returned (AsmIp.Error None None) (Some Custom.row_vmac_b) st /\
    AsmIp.insn_opcode st = w /\ AsmIp.messages st = [].
Proof.
  destruct Assembler.op_hash_built as [h Hh]. exists h.
  destruct (custom_text_roundtrip Subsets.zeros RegNames.hex decimal_constant no_float (fun _ => true)
    DisasmPrint.mach_riscv32 0x100 [] Addresses.rv32i Addresses.fresh rv32im h "" false Custom.row_vmac_b [10; 1; 2])
    as (w & r & gd' & s' & line & st & H).
  - refine (bool_decide_unpack _ _). vm_compute. exact I.
  - reflexivity.
  - refine (bool_decide_unpack _ _). vm_compute. exact I.
  - left. reflexivity.
  - vm_compute. reflexivity.
  - reflexivity.
  - exact Hh.
  - vm_compute. reflexivity.
  - vm_compute. reflexivity.
  - exists w, r, gd', s', line, st. exact (conj Hh H).
Defined.

Example statement_text :
  statement riscv_gpr_names_abi Custom.row_vmac_b [10; 1; 2] = "vmac.b" ++ String "009" "a0,ra,sp".
Proof. by vm_compute. Qed.
End CustomText.
