(* ===== verification/LoadConst.v ===== *)
(** Loading constants: [load_const] of [gas/config/tc-riscv.c], the expansion of [li] into
    [lui], [addi], [addiw] and [slli], and [riscv_ext], the shift pairs of the extension
    macros. The lines are proved to leave the constant in the register, on RV32 by the
    instruction set of the core. *)

From S2P Require Import Prelude Opcodes Immediates Isa RegNames.
#[local] Open Scope string_scope.
#[local] Open Scope Z_scope.

Module LoadConst.

(** The lines given to [md_assemblef], by their formats; [Add32] is [ADD32_INSN]. *)
Inductive line :=
  | Lui (rd imm : Z) | Addi (rd rs imm : Z) | Add32 (rd rs imm : Z)
  | Slli (rd rs shift : Z) | Srli (rd rs shift : Z) | Srai (rd rs shift : Z).

Definition ADD32_INSN (xlen : Z) : string := if xlen =? 64 then "addiw" else "addi".
Definition text (xlen : Z) (i : line) : string :=
  let x r := "x" ++ RegNames.signed_decimal r in
  let shift n rd rs s := n ++ " " ++ x rd ++ ", " ++ x rs ++ ", 0x" ++ RegNames.hex s in
  let add n rd rs imm := n ++ " " ++ x rd ++ ", " ++ x rs ++ ", " ++ RegNames.signed_decimal imm in
  match i with
  | Lui rd imm => "lui " ++ x rd ++ ", 0x" ++ RegNames.hex imm
  | Addi rd rs imm => add "addi" rd rs imm
  | Add32 rd rs imm => add (ADD32_INSN xlen) rd rs imm
  | Slli rd rs s => shift "slli" rd rs s
  | Srli rd rs s => shift "srli" rd rs s
  | Srai rd rs s => shift "srai" rd rs s
  end.

(** * The expansion *)

(** [IS_SEXT_32BIT_NUM] *)
Definition is_sext_32bit_num (x : Z) : bool :=
  let high := Z.land x (Z.lnot 0x7fffffff) in (high =? 0) || (high =? Z.lnot 0x7fffffff).

(** [while (((upper >> shift) & 1) == 0) shift++] *)
Fixpoint lowest_bit (fuel : nat) (upper shift : Z) : option Z :=
  match fuel with
  | O => None
  | S fuel => if Z.land (Z.shiftr upper shift) 1 =? 0 then lowest_bit fuel upper (shift + 1) else Some shift
  end.

Definition sign : Z := Z.shiftl 1 (RISCV_IMM_BITS - 1).
Definition lower_part (v : Z) : Z := Z.lxor (Z.land v (sign + sign - 1)) sign - sign.
Definition upper_part (v : Z) : Z := sgn 64 (v - lower_part v).

(** [load_const] of a constant [v], an [offsetT]; [upper.X_add_number -= lower.X_add_number]
    overflows next to [INT64_MAX], where the model wraps. *)
Fixpoint load_const (fuel : nat) (xlen reg v : Z) : option (list line) :=
  match fuel with
  | O => None
  | S fuel =>
      let lower := lower_part v in
      let upper := upper_part v in
      if (32 <? xlen) && negb (is_sext_32bit_num v) then
        let* shift := lowest_bit 64 upper RISCV_IMM_BITS in
        let* l := load_const fuel xlen reg (Z.shiftr upper shift) in
        Some (l ++ Slli reg reg shift :: if lower =? 0 then [] else [Addi reg reg lower])%list
      else
        let hi_reg := if upper =? 0 then 0 else reg in
        Some ((if upper =? 0 then [] else [Lui reg (Z.shiftr (wrap 32 upper) RISCV_IMM_BITS)]) ++
              (if negb (lower =? 0) || (hi_reg =? 0) then [Add32 reg hi_reg lower] else []))%list
  end.

(** [riscv_ext] *)
Definition riscv_ext (destreg srcreg shift : Z) (sign : bool) : list line :=
  [Slli destreg srcreg shift;
   if sign then Srai destreg destreg shift else Srli destreg destreg shift].

(** * What the lines do *)

(** Operands in the range of their fields. *)
Definition encodable (xlen : Z) (i : line) : Prop :=
  match i with
  | Lui _ imm => urange 20 imm
  | Addi _ _ imm | Add32 _ _ imm => srange 12 imm
  | Slli _ _ s | Srli _ _ s | Srai _ _ s => 0 <= s < xlen
  end.

(** On RV64, after the base instruction set: registers are functions, [x0] reads zero. *)
Definition exec64 (f : Z -> Z) (i : line) : Z -> Z :=
  match i with
  | Lui rd imm => Isa.put f rd (wrap 64 (sgn 32 (imm * 2 ^ 12)))
  | Addi rd rs imm => Isa.put f rd (wrap 64 (Isa.get f rs + imm))
  | Add32 rd rs imm => Isa.put f rd (wrap 64 (sgn 32 (Isa.get f rs + imm)))
  | Slli rd rs s => Isa.put f rd (wrap 64 (Z.shiftl (Isa.get f rs) s))
  | Srli rd rs s => Isa.put f rd (Z.shiftr (Isa.get f rs) s)
  | Srai rd rs s => Isa.put f rd (wrap 64 (Z.shiftr (sgn 64 (Isa.get f rs)) s))
  end.
Definition run64 (l : list line) (f : Z -> Z) : Z -> Z := fold_left exec64 l f.

(** On RV32, as instructions of the core. *)
Definition instr32 (i : line) : Isa.instr :=
  match i with
  | Lui rd imm => Isa.Lui rd (sgn 32 (imm * 2 ^ 12))
  | Addi rd rs imm | Add32 rd rs imm => Isa.OpImm Isa.ADD rd rs imm
  | Slli rd rs s => Isa.OpImm Isa.SLL rd rs s
  | Srli rd rs s => Isa.OpImm Isa.SRL rd rs s
  | Srai rd rs s => Isa.OpImm Isa.SRA rd rs s
  end.

(** ** The parts of a constant *)

Lemma lxor_sign w u : 0 < w -> urange w u -> Z.lxor u (2 ^ (w - 1)) - 2 ^ (w - 1) = sgn w u.
Proof.
  intros Hw Hu. unfold sgn. rewrite wrap_small by done. pose proof (pow2_half w Hw) as Hh.
  unfold urange in Hu. pose proof (pow2_pos (w - 1)).
  assert (Hland : forall a, 0 <= a < 2 ^ (w - 1) -> Z.land a (2 ^ (w - 1)) = 0).
  { intros a Ha. apply Z.bits_inj'. intros n Hn. rewrite Z.land_spec, Z.pow2_bits_eqb, Z.bits_0 by lia.
    destruct (Z.eqb_spec (w - 1) n) as [<-|]; [|apply andb_false_r]. rewrite andb_true_r.
    rewrite <- (Z.mod_small a (2 ^ (w - 1))) by done. apply Z.mod_pow2_bits_high. lia. }
  destruct (Z.ltb_spec u (2 ^ (w - 1))).
  - rewrite <- Z.add_nocarry_lxor by (apply Hland; lia). lia.
  - assert (Hu' : u = Z.lxor (u - 2 ^ (w - 1)) (2 ^ (w - 1))) by (rewrite <- Z.add_nocarry_lxor by (apply Hland; lia); lia).
    rewrite Hu' at 1. rewrite Z.lxor_assoc, Z.lxor_nilpotent, Z.lxor_0_r. lia.
Qed.

Lemma lower_sgn v : lower_part v = sgn 12 v.
Proof.
  unfold lower_part. change (sign + sign - 1) with (Z.ones 12). rewrite Z.land_ones by lia.
  rewrite <- sgn_wrap by lia. apply (lxor_sign 12 (wrap 12 v)); [lia|]. by apply wrap_range.
Qed.

Lemma sext_spec v : is_sext_32bit_num v = true <-> srange 32 v.
Proof.
  unfold is_sext_32bit_num, srange. change 0x7fffffff with (Z.ones 31). rewrite <- Z.ldiff_land, Z.ldiff_ones_r by lia.
  change (Z.lnot (Z.ones 31)) with (Z.shiftl (-1) 31). rewrite orb_true_iff, !Z.eqb_eq, !Z.shiftl_mul_pow2, Z.shiftr_div_pow2 by lia.
  change (2 ^ (32 - 1)) with (2 ^ 31). word_pows. Z.div_mod_to_equations. lia.
Qed.

Lemma wrap_sgn_narrow k w y : 0 <= k <= w -> wrap k (sgn w y) = wrap k y.
Proof. intros. by rewrite <- (wrap_narrow k w (sgn w y)), wrap_sgn, wrap_narrow by lia. Qed.

Lemma wrap_parts k v : 0 <= k <= 64 -> wrap k (upper_part v + lower_part v) = wrap k v.
Proof.
  intros. unfold upper_part. rewrite <- wrap_add_l, wrap_sgn_narrow, wrap_add_l by lia. f_equal. lia.
Qed.
Lemma upper_aligned v : wrap 12 (upper_part v) = 0.
Proof.
  unfold upper_part. rewrite wrap_sgn_narrow, lower_sgn, <- wrap_sub, wrap_sgn, wrap_sub by lia. by rewrite Z.sub_diag.
Qed.
Lemma lower_range v : srange 12 (lower_part v).
Proof. rewrite lower_sgn. by apply sgn_range. Qed.

(** What [lui] makes of the upper part. *)
Lemma lui_imm v : urange 20 (Z.shiftr (wrap 32 (upper_part v)) 12).
Proof.
  rewrite Z.shiftr_div_pow2 by lia. pose proof (wrap_range 32 (upper_part v) ltac:(lia)).
  unfold urange in *. word_pows. Z.div_mod_to_equations. lia.
Qed.
Lemma lui_value v : Z.shiftr (wrap 32 (upper_part v)) 12 * 2 ^ 12 = wrap 32 (upper_part v).
Proof.
  rewrite Z.shiftr_div_pow2 by lia. pose proof (upper_aligned v) as Ha.
  rewrite <- (wrap_narrow 12 32) in Ha by lia. unfold wrap at 1 in Ha.
  rewrite Z.mul_comm. symmetry. apply Z.div_exact; [lia|exact Ha].
Qed.

(** ** The search for a set bit *)

Lemma land1 x : Z.land x 1 = x mod 2.
Proof. apply (Z.land_ones x 1). lia. Qed.

Lemma lowest_bit_finds fuel u s :
  0 <= s -> wrap s u = 0 -> wrap (s + Z.of_nat fuel) u <> 0 ->
  exists k, lowest_bit fuel u s = Some k /\ s <= k < s + Z.of_nat fuel /\ wrap k u = 0.
Proof.
  revert s. induction fuel as [|fuel IH]; intros s Hs Hz Hn; [by rewrite Z.add_0_r in Hn|].
  cbn [lowest_bit]. destruct (Z.eqb_spec (Z.land (Z.shiftr u s) 1) 0) as [E|E].
  - destruct (IH (s + 1)) as (k & -> & Hk & Hw); [lia| |by replace (s + 1 + Z.of_nat fuel) with (s + Z.of_nat (S fuel)) by lia|].
    + rewrite land1, Z.shiftr_div_pow2 in E by lia. unfold wrap in *. rewrite Z.pow_add_r by lia. change (2 ^ 1) with 2.
      rewrite Z.rem_mul_r by (try apply Z.pow_nonzero; lia). rewrite Hz, E. lia.
    + exists k. repeat split; lia || done.
  - exists s. repeat split; lia || done.
Qed.

Lemma upper_bit v : upper_part v <> 0 ->
  exists k, lowest_bit 64 (upper_part v) 12 = Some k /\ 12 <= k < 64 /\ wrap k (upper_part v) = 0.
Proof.
  intros Hu. assert (Hr : srange 64 (upper_part v)) by (by apply sgn_range).
  assert (Hn : wrap 64 (upper_part v) <> 0).
  { intros E. apply Hu. rewrite <- (sgn_small 64 (upper_part v)) by (done || lia).
    rewrite (wrap_eq_sgn 64 _ 0); [done|by rewrite E]. }
  destruct (lowest_bit_finds 64 (upper_part v) 12) as (k & E & Hk & Hw); [lia|apply upper_aligned| |].
  { intros E. apply Hn. by rewrite <- (wrap_narrow 64 (12 + Z.of_nat 64)), E by lia. }
  exists k. split; [done|]. split; [|done]. split; [lia|].
  destruct (Z.ltb_spec k 64); [done|]. exfalso. apply Hn. by rewrite <- (wrap_narrow 64 k), Hw by lia.
Qed.

Lemma reduced_range w v k : 13 <= w <= 64 -> srange w v -> 12 <= k ->
  srange (w - 11) (Z.shiftr (upper_part v) k).
Proof.
  intros Hw Hv Hk.
  assert (H12 : srange (w - 11) (Z.shiftr (upper_part v) 12)).
  { pose proof (lower_range v) as Hl. pose proof (sgn_range 64 (v - lower_part v) ltac:(lia)) as Hu. fold (upper_part v) in Hu.
    assert (Hp : 2 ^ (w - 1) = 2 ^ 12 * 2 ^ (w - 13)) by (rewrite <- Z.pow_add_r by lia; f_equal; lia).
    assert (Hq : 2 ^ (w - 11 - 1) = 2 * 2 ^ (w - 13)) by (rewrite <- Z.pow_succ_r by lia; f_equal; lia).
    assert (H1 : 1 <= 2 ^ (w - 13)) by (pose proof (pow2_pos (w - 13)); lia).
    rewrite Z.shiftr_div_pow2 by lia. unfold srange in *. rewrite Hq. rewrite Hp in Hv.
    destruct (Z.eqb_spec w 64) as [->|Hn].
    - word_pows. Z.div_mod_to_equations. lia.
    - assert (Heq : upper_part v = v - lower_part v).
      { apply sgn_small; [lia|]. unfold srange. assert (2 ^ (w - 13) <= 2 ^ 50) by (apply Z.pow_le_mono_r; lia).
        word_pows. lia. }
      rewrite Heq. word_pows. Z.div_mod_to_equations. lia. }
  replace k with (12 + (k - 12)) by lia. rewrite <- Z.shiftr_shiftr by lia.
  revert H12. generalize (Z.shiftr (upper_part v) 12). intros y Hy.
  rewrite Z.shiftr_div_pow2 by lia. pose proof (pow2_pos (k - 12)). unfold srange in *. Z.div_mod_to_equations. nia.
Qed.

(** A constant that needs the shift: more than 32 bits, with a set bit in the upper part. *)
Lemma wide_upper w v : 0 < w <= 64 -> srange w v -> is_sext_32bit_num v = false ->
  32 < w /\ exists k, lowest_bit 64 (upper_part v) 12 = Some k /\ 12 <= k < 64 /\ wrap k (upper_part v) = 0.
Proof.
  intros Hw Hv Es. assert (Hn : ~ srange 32 v) by (intros H; apply sext_spec in H; congruence).
  assert (Hmono : forall b, w <= b -> srange b v).
  { intros b Hb. unfold srange in *. assert (2 ^ (w - 1) <= 2 ^ (b - 1)) by (apply Z.pow_le_mono_r; lia). lia. }
  split; [destruct (Z.ltb_spec 32 w); [done|]; destruct Hn; by apply Hmono|].
  apply upper_bit. intros E. apply Hn. pose proof (lower_range v) as Hl. pose proof (wrap_parts 64 v ltac:(lia)) as Hp.
  rewrite E, Z.add_0_l in Hp. apply wrap_eq_sgn in Hp.
  assert (Hl64 : srange 64 (lower_part v)) by (unfold srange in *; word_pows; lia).
  rewrite (sgn_small 64 v), (sgn_small 64 (lower_part v)) in Hp by (apply Hmono; lia) || done || lia.
  unfold srange in *. word_pows. lia.
Qed.

(** Four rounds are enough for every register, [x0] too. *)
Lemma load_const_returns n fuel xlen reg w v :
  (n <= fuel)%nat -> 0 < w <= 64 -> w <= 31 + 11 * Z.of_nat n -> srange w v ->
  is_Some (load_const (S fuel) xlen reg v).
Proof.
  revert fuel w v. induction n as [|n IH]; intros fuel w v Hn Hw Hb Hv; cbn [load_const];
    (destruct (is_sext_32bit_num v) eqn:Es; [rewrite andb_false_r; by eexists|]);
    destruct (wide_upper w v Hw Hv Es) as [Hw32 (k & Ek & Hk & Hz)]; [lia|].
  destruct ((32 <? xlen) && negb false); [|by eexists]. change RISCV_IMM_BITS with 12. rewrite Ek. cbn [mbind option_bind].
  destruct fuel as [|fuel]; [lia|].
  destruct (IH fuel (w - 11) (Z.shiftr (upper_part v) k)) as [l El]; [lia..|apply reduced_range; done || lia|].
  rewrite El. by eexists.
Qed.

(** ** RV64 *)

(** The lines have operands in range and leave the constant in the register. *)
Definition loads (xlen : Z) (l : list line) (reg v : Z) : Prop :=
  Forall (encodable xlen) l /\ forall f q, run64 l f q = Isa.put f reg (wrap 64 v) q.

Lemma wrap_shifts w k x : 0 <= k <= w -> Z.shiftr (wrap w (Z.shiftl x k)) k = wrap (w - k) x.
Proof.
  intros. apply Z.bits_inj'. intros n Hn.
  rewrite Z.shiftr_spec, !testbit_wrap, Z.shiftl_spec by lia.
  replace (n + k - k) with n by lia. f_equal. apply Bool.eq_true_iff_eq. rewrite !Z.ltb_lt. lia.
Qed.
Lemma sgn_shifts w k x : 0 <= k < w -> Z.shiftr (sgn w (wrap w (Z.shiftl x k))) k = sgn (w - k) x.
Proof.
  intros. rewrite sgn_wrap by lia. apply Z.bits_inj'. intros n Hn.
  rewrite Z.shiftr_spec, !testbit_sgn, Z.shiftl_spec by lia. f_equal. lia.
Qed.

Section RV64.
Context (reg : Z) (Hreg : reg <> 0).

Lemma get_put f a : Isa.get (Isa.put f reg a) reg = a.
Proof. unfold Isa.get, Isa.put. by rewrite (proj2 (Z.eqb_neq reg 0) Hreg), Z.eqb_refl. Qed.
Lemma put_put f a b q : Isa.put (Isa.put f reg a) reg b q = Isa.put f reg b q.
Proof. unfold Isa.put. rewrite (proj2 (Z.eqb_neq reg 0) Hreg). by destruct (q =? reg). Qed.

(** A further line on the same register. *)
Lemma loads_snoc l u i v :
  loads 64 l reg u -> encodable 64 i ->
  (forall g, Isa.get g reg = wrap 64 u -> exec64 g i = Isa.put g reg (wrap 64 v)) -> loads 64 (l ++ [i]) reg v.
Proof.
  intros [Hl Hu] Hi Hx. split; [by apply Forall_app; split; [|constructor]|].
  intros f q. unfold run64. rewrite fold_left_app. fold (run64 l f). cbn [fold_left].
  rewrite Hx.
  - unfold Isa.put. rewrite (proj2 (Z.eqb_neq reg 0) Hreg). destruct (Z.eqb_spec q reg); [done|].
    rewrite Hu. unfold Isa.put. rewrite (proj2 (Z.eqb_neq reg 0) Hreg). by destruct (Z.eqb_spec q reg).
  - rewrite <- (get_put f (wrap 64 u)). unfold Isa.get. by rewrite Hu.
Qed.

Lemma loads_one i v :
  encodable 64 i -> (forall g, exec64 g i = Isa.put g reg (wrap 64 v)) -> loads 64 [i] reg v.
Proof. intros Hi Hx. split; [by constructor|]. intros f q. cbn. by rewrite Hx. Qed.

Lemma load_const_32 fuel v : srange 32 v ->
  exists l, load_const (S fuel) 64 reg v = Some l /\ (length l <= 2)%nat /\ loads 64 l reg v.
Proof.
  intros Hv. cbn [load_const]. rewrite (proj2 (sext_spec v) Hv). cbn [negb andb Z.ltb Z.compare Pos.compare Pos.compare_cont].
  pose proof (lower_range v) as Hlow.
  assert (Hlv : lower_part v = v - upper_part v).
  { unfold upper_part. rewrite sgn_small; [lia|lia|]. unfold srange in *. word_pows. lia. }
  assert (H32 : wrap 64 (sgn 32 v) = wrap 64 v) by (by rewrite sgn_small).
  destruct (Z.eqb_spec (upper_part v) 0) as [E|E].
  - eexists. split; [reflexivity|]. rewrite orb_true_r. split; [cbn; lia|]. apply loads_one; [exact Hlow|].
    intros g. cbn [exec64]. change (Isa.get g 0) with 0. rewrite Z.add_0_l, Hlv, E, Z.sub_0_r. by rewrite H32.
  - assert (Hl : loads 64 [Lui reg (Z.shiftr (wrap 32 (upper_part v)) 12)] reg (sgn 32 (upper_part v))).
    { apply loads_one; [apply lui_imm|]. intros g. cbn [exec64]. by rewrite lui_value, sgn_wrap by lia. }
    eexists. split; [reflexivity|]. rewrite (proj2 (Z.eqb_neq reg 0) Hreg), orb_false_r.
    destruct (Z.eqb_spec (lower_part v) 0) as [E0|E0]; cbn [negb].
    + split; [cbn; lia|]. rewrite app_nil_r. replace (upper_part v) with v in * by lia.
      destruct Hl as [? Hl]. split; [done|]. intros f q. by rewrite Hl, H32.
    + split; [cbn; lia|]. apply loads_snoc with (sgn 32 (upper_part v)); [exact Hl|exact Hlow|].
      intros g Hg. cbn [exec64]. rewrite Hg. f_equal. rewrite <- H32. f_equal. apply wrap_eq_sgn.
      rewrite <- wrap_add_l, (wrap_narrow 32 64), wrap_sgn, wrap_add_l, wrap_parts by lia. done.
Qed.

Lemma shift_back k u : 0 <= k <= 64 -> wrap k u = 0 -> wrap 64 (Z.shiftl (wrap 64 (Z.shiftr u k)) k) = wrap 64 u.
Proof.
  intros Hk Hz. rewrite !Z.shiftl_mul_pow2, Z.shiftr_div_pow2 by lia.
  rewrite <- wrap_mul, wrap_wrap, wrap_mul by lia. f_equal. unfold wrap in Hz.
  rewrite Z.mul_comm. symmetry. apply Z.div_exact; [pose proof (pow2_pos k); lia|done].
Qed.

Lemma load_const_wide n fuel w v :
  (n <= fuel)%nat -> 0 < w <= 64 -> w <= 31 + 11 * Z.of_nat n -> srange w v ->
  exists l, load_const (S fuel) 64 reg v = Some l /\ (length l <= 2 + 2 * n)%nat /\ loads 64 l reg v.
Proof.
  revert fuel w v. induction n as [|n IH]; intros fuel w v Hn Hw Hb Hv.
  all: destruct (is_sext_32bit_num v) eqn:Es;
    [destruct (load_const_32 fuel v (proj1 (sext_spec v) Es)) as (l & E & Hl & H); exists l; repeat split; try done; try apply H; lia|].
  - destruct (wide_upper w v Hw Hv Es). lia.
  - destruct fuel as [|fuel]; [lia|]. destruct (wide_upper w v Hw Hv Es) as [Hw32 (k & Ek & Hk & Hz)].
    destruct (IH fuel (w - 11) (Z.shiftr (upper_part v) k)) as (l & El & Hlen & Hl); [lia| |lia|apply reduced_range; done || lia|]; [lia|].
    assert (Hs : loads 64 (l ++ [Slli reg reg k]) reg (upper_part v)).
    { apply loads_snoc with (Z.shiftr (upper_part v) k); [done|cbn; lia|].
      intros g Hg. cbn [exec64]. rewrite Hg. f_equal. by apply shift_back; [lia|]. }
    pose proof (wrap_parts 64 v ltac:(lia)) as Hp. remember (S fuel) as fuel1 eqn:Ef. cbn [load_const].
    rewrite Es. cbn [negb andb Z.ltb Z.compare Pos.compare Pos.compare_cont].
    change RISCV_IMM_BITS with 12. rewrite Ek. cbn [mbind option_bind]. rewrite El. cbn [mbind option_bind].
    destruct (Z.eqb_spec (lower_part v) 0) as [E0|E0]; (eexists; split; [reflexivity|]).
    + split; [rewrite length_app; cbn; lia|]. rewrite E0, Z.add_0_r in Hp.
      destruct Hs as [? Hs]. split; [done|]. intros f q. by rewrite Hs, Hp.
    + split; [rewrite length_app; cbn; lia|].
      change (Slli reg reg k :: [Addi reg reg (lower_part v)]) with ([Slli reg reg k] ++ [Addi reg reg (lower_part v)])%list.
      rewrite app_assoc. apply loads_snoc with (upper_part v); [done|exact (lower_range v)|].
      intros g Hg. cbn [exec64]. by rewrite Hg, wrap_add_l, Hp.
Qed.

(** [riscv_ext] on a 64-bit register *)
Lemma riscv_ext_64 rs shift sign f q :
  0 <= shift < 64 ->
  run64 (riscv_ext reg rs shift sign) f q =
    Isa.put f reg (if sign then wrap 64 (sgn (64 - shift) (Isa.get f rs)) else wrap (64 - shift) (Isa.get f rs)) q.
Proof.
  intros Hs. unfold run64, riscv_ext. cbn [fold_left]. destruct sign; cbn [exec64]; rewrite get_put, put_put.
  - by rewrite sgn_shifts.
  - by rewrite wrap_shifts by lia.
Qed.
End RV64.

(** ** RV32 *)

Section RV32.
Context (reg : Z) (Hreg : Isa.reg reg) (Hpos : reg <> 0).

(** The lines put [d] in the register and change nothing else. *)
Definition sets (d : Z) (n : nat) (a b : Isa.arch) : Prop :=
  (forall q, Isa.x b q = Isa.put (Isa.x a) reg d q) /\ Isa.v b = Isa.v a /\ Isa.mem b = Isa.mem a /\
  Isa.pc b = wrap 32 (Isa.pc a + 4 * Z.of_nat n).

Lemma sets_get d n a b : sets d n a b -> Isa.get (Isa.x b) reg = d.
Proof. intros [Hx _]. rewrite <- (get_put reg Hpos (Isa.x a) d). unfold Isa.get. by rewrite Hx. Qed.

Lemma sets_one i d a : Isa.step i a = Isa.setx (Isa.next (Isa.tick i a)) reg d -> sets d 1 a (Isa.step i a).
Proof. by intros ->. Qed.

Lemma sets_more i d e n a b :
  sets d n a b -> Isa.step i b = Isa.setx (Isa.next (Isa.tick i b)) reg e -> sets e (S n) a (Isa.step i b).
Proof.
  intros (Hx & Hv & Hm & Hp) ->. split; [|split; [exact Hv|split; [exact Hm|]]].
  - intros q. cbn. rewrite <- (put_put reg Hpos (Isa.x a) d e q). unfold Isa.put.
    rewrite (proj2 (Z.eqb_neq reg 0) Hpos). destruct (q =? reg) eqn:E; [done|]. rewrite Hx. unfold Isa.put.
    by rewrite (proj2 (Z.eqb_neq reg 0) Hpos), E.
  - cbn. rewrite Hp, wrap_add_l. f_equal. lia.
Qed.

Lemma load_const_rv32 fuel v a :
  exists l, load_const (S fuel) 32 reg v = Some l /\ (length l <= 2)%nat /\
    Forall Isa.valid (map instr32 l) /\ sets (wrap 32 v) (length l) a (Isa.steps (map instr32 l) a).
Proof.
  cbn [load_const]. cbn [andb Z.ltb Z.compare Pos.compare Pos.compare_cont]. pose proof (lower_range v) as Hlow.
  pose proof (wrap_parts 32 v ltac:(lia)) as Hp.
  assert (Hadd : forall rs, Isa.reg rs -> Isa.valid (instr32 (Add32 reg rs (lower_part v)))).
  { intros rs Hrs. split; [done|]. split; [done|]. split; [discriminate|].
    apply (proj1 (base_immediates_encodable _)). by split; [|apply Z.mod_1_r]. }
  destruct (Z.eqb_spec (upper_part v) 0) as [E|E].
  - rewrite orb_true_r. rewrite E, Z.add_0_l in Hp. eexists. split; [reflexivity|]. split; [cbn; lia|].
    split; [by apply Forall_singleton, Hadd|]. apply sets_one.
    cbn. by rewrite Z.add_0_l, wrap_wrap, Hp by lia.
  - rewrite (proj2 (Z.eqb_neq reg 0) Hpos), orb_false_r. set (u := Z.shiftr (wrap 32 (upper_part v)) RISCV_IMM_BITS).
    assert (Hlui : Isa.valid (instr32 (Lui reg u))).
    { split; [done|]. apply (proj1 (proj2 (proj2 (proj2 (base_immediates_encodable _))))). unfold u. rewrite lui_value, sgn_wrap by lia.
      split; [by apply sgn_range|]. change (wrap 12 (sgn 32 (upper_part v)) = 0). rewrite wrap_sgn_narrow by lia. apply upper_aligned. }
    assert (Hset : sets (wrap 32 (upper_part v)) 1 a (Isa.step (instr32 (Lui reg u)) a)).
    { apply sets_one. cbn. unfold u. by rewrite lui_value, sgn_wrap, wrap_sgn by lia. }
    destruct (Z.eqb_spec (lower_part v) 0) as [E0|E0]; cbn [negb]; (eexists; split; [reflexivity|]).
    + rewrite E0, Z.add_0_r in Hp. split; [cbn; lia|]. split; [by apply Forall_singleton|]. by rewrite <- Hp.
    + split; [cbn; lia|]. split; [apply Forall_cons; split; [exact Hlui|by apply Forall_singleton, Hadd]|].
      change (sets (wrap 32 v) 2 a (Isa.step (instr32 (Add32 reg reg (lower_part v))) (Isa.step (instr32 (Lui reg u)) a))).
      revert Hset. generalize (Isa.step (instr32 (Lui reg u)) a). intros b Hset. apply (sets_more _ _ _ _ _ _ Hset).
      cbn. by rewrite (sets_get _ _ _ _ Hset), wrap_add, Hp.
Qed.

(** The lines are [lui] and [addi] on the register, with operands in range. *)
Definition base_line (i : line) : Prop :=
  match i with
  | Lui rd imm => rd = reg /\ urange 20 imm
  | Add32 rd rs imm => rd = reg /\ (rs = reg \/ rs = 0) /\ srange 12 imm
  | _ => False
  end.
Lemma load_const_lines fuel v l : load_const (S fuel) 32 reg v = Some l -> Forall base_line l.
Proof.
  cbn [load_const]. cbn [andb Z.ltb Z.compare Pos.compare Pos.compare_cont]. intros [= <-].
  pose proof (lower_range v) as Hlow. pose proof (lui_imm v) as Hlui. apply Forall_app. split.
  - destruct (_ =? 0); [done|]. apply Forall_singleton. by split.
  - destruct (_ || _); [|done]. apply Forall_singleton. split; [done|]. split; [|done]. destruct (upper_part v =? 0); tauto.
Qed.

(** [riscv_ext] on the core *)
Lemma riscv_ext_rv32 rs shift sign a :
  Isa.reg rs -> urange 5 shift ->
  Forall Isa.valid (map instr32 (riscv_ext reg rs shift sign)) /\
  sets (if sign then wrap 32 (sgn (32 - shift) (Isa.get (Isa.x a) rs)) else wrap (32 - shift) (Isa.get (Isa.x a) rs)) 2
    a (Isa.steps (map instr32 (riscv_ext reg rs shift sign)) a).
Proof.
  intros Hrs Hs. split; [destruct sign; (apply Forall_cons; split; [|apply Forall_singleton]); by split_and!|].
  assert (Hsh : 0 <= shift < 32) by exact Hs. assert (H32 : urange 32 shift) by (unfold urange; word_pows; lia).
  set (d := wrap 32 (Z.shiftl (Isa.get (Isa.x a) rs) shift)).
  assert (Hset : sets d 1 a (Isa.step (instr32 (Slli reg rs shift)) a)).
  { apply sets_one. cbn. by rewrite (wrap_small 32 shift), (wrap_small 5 shift). }
  destruct sign; cbn [riscv_ext map]; (change (Isa.steps [?i; ?j] a) with (Isa.step j (Isa.step i a)));
    revert Hset; generalize (Isa.step (instr32 (Slli reg rs shift)) a); intros b Hset; apply (sets_more _ _ _ _ _ _ Hset);
    cbn; rewrite (sets_get _ _ _ _ Hset), (wrap_small 32 shift), (wrap_small 5 shift) by done; unfold d.
  - by rewrite sgn_shifts.
  - by rewrite wrap_shifts by lia.
Qed.
End RV32.

(** [C23] [li] loads its constant: for every signed 64-bit constant and register but [x0],
    [load_const] returns lines whose operands are in the range of their fields. On RV64 there
    are at most eight, and the last leaves exactly the constant in the register; on RV32 there
    are at most two, they are instructions of the core, and running them leaves the constant's
    low word. No other register, vector register or memory word changes. *)
Theorem li_loads reg v :
  Isa.reg reg -> reg <> 0 -> srange 64 v ->
  (exists l, load_const 4 64 reg v = Some l /\ (length l <= 8)%nat /\ loads 64 l reg v) /\
  (forall a, exists l, load_const 4 32 reg v = Some l /\ (length l <= 2)%nat /\ Forall Isa.valid (map instr32 l) /\
     sets reg (wrap 32 v) (length l) a (Isa.steps (map instr32 l) a)).
Proof.
  intros Hr H0 Hv. split.
  - exact (load_const_wide reg H0 3 3 64 v (le_n 3) ltac:(lia) ltac:(lia) Hv).
  - intros a. exact (load_const_rv32 reg Hr H0 3 v a).
Qed.

Lemma li_loads_witness :
  exists l, load_const 4 64 5 0x123456789abcdef0 = Some l /\ (length l <= 8)%nat /\ loads 64 l 5 0x123456789abcdef0.
Proof. apply (li_loads 5 0x123456789abcdef0); [by compute|done|by compute]. Defined.

Example li_text :
  option_map (map (text 64)) (load_const 4 64 5 0x123456789abcdef0) =
  Some ["lui x5, 0x247"; "addiw x5, x5, -1875"; "slli x5, x5, 0xe"; "addi x5, x5, -947";
        "slli x5, x5, 0xc"; "addi x5, x5, 1511"; "slli x5, x5, 0xd"; "addi x5, x5, -272"].
Proof. vm_compute. reflexivity. Qed.
Example li_text_32 : option_map (map (text 32)) (load_const 4 32 5 0x12345678) = Some ["lui x5, 0x12345"; "addi x5, x5, 1656"].
Proof. by vm_compute. Qed.
End LoadConst.
