(* ===== verification/Macros.v ===== *)
(** The macro instructions: [macro_build], [append_insn], [vector_macro], [macro] and
    [md_assemble] of [gas/config/tc-riscv.c]. A statement assembles into instruction words,
    fixups, relaxable branches, internal labels and diagnostics; frags are not kept. *)

From Stdlib Require Import Ascii SpecFloat.
From S2P Require Import Prelude Opcodes Immediates Disasm Assembler Custom Isa RegNames Subsets AsmRegs AsmIp AsmProofs CustomText LoadConst.
#[local] Open Scope string_scope.
#[local] Open Scope Z_scope.

Module Macros.
Import AsmRegs AsmIp LoadConst.
#[local] Existing Instance Custom.riscv_opcode_eq_dec.
Abbreviation OP_MASK_VMASK := 0x1 (only parsing).
Abbreviation OP_SH_VMASK := 25 (only parsing).
Abbreviation OP_MASK_VFUNCT6 := 0x3f (only parsing).
Abbreviation OP_SH_VFUNCT6 := 26 (only parsing).

#[export] Instance reloc_eq_dec : EqDecision reloc.
Proof. solve_decision. Defined.

(** * Output *)

(** What is appended to the section: an instruction, one with a fixup on an expression, a
    relaxable branch or jump, the label of [make_internal_label]; or a message. *)
Inductive emission :=
  | Insn (op : riscv_opcode) (w : Z)
  | Fixup (op : riscv_opcode) (w : Z) (e : expressionS) (r : reloc)
  | Relaxed (op : riscv_opcode) (w : Z) (e : expressionS) (jump : bool)
  | Label
  | Diagnostic (m : message).

Definition FAKE_LABEL_NAME : string := "L0" ++ String "001"%char "".

Section Assemble.
Context (hash : list (string * list riscv_opcode)) (reloc_supported : reloc -> bool).
(** [xlen], [abi_xlen], [riscv_opts.pic], [now_seg == absolute_section] *)
Context (xlen abi_xlen : Z) (pic absolute : bool).

(** [append_insn]; [None] when an assertion fails or there is no [howto]. *)
Definition append_insn (op : riscv_opcode) (w : Z) (address : option expressionS) (r : reloc) : option (list emission) :=
  if decide (r = RELOC_UNUSED) then Some [Insn op w]
  else
    let* e := address in
    if bool_decide (r = RELOC_12_PCREL \/ r = RISCV_JMP) then
      Some (if absolute then [Diagnostic (as_bad "relaxable branches not supported in absolute section")]
            else [Relaxed op w e (bool_decide (r = RISCV_JMP))])
    else if reloc_supported r then Some [Fixup op w e r] else None.

(** ** [macro_build] *)

Inductive arg := Int (n : Z) | Rel (r : reloc).

(** The operands of the format; [ep] tells whether there is an expression. *)
Fixpoint macro_operands (fmt : string) (args : list arg) (ep : bool) (w : Z) (r : reloc) : option (Z * reloc) :=
  match fmt, args with
  | EmptyString, _ => Some (w, r)
  | String "," fmt, _ => macro_operands fmt args ep w r
  | String "V" (String "d" fmt), Int n :: args => macro_operands fmt args ep (Custom.insert_bits w n OP_MASK_VD OP_SH_VD) r
  | String "V" (String "s" fmt), Int n :: args => macro_operands fmt args ep (Custom.insert_bits w n OP_MASK_VS1 OP_SH_VS1) r
  | String "V" (String "t" fmt), Int n :: args => macro_operands fmt args ep (Custom.insert_bits w n OP_MASK_VS2 OP_SH_VS2) r
  | String "V" (String "m" fmt), Int n :: args =>
      if n =? -1 then macro_operands fmt args ep (Custom.insert_bits w 1 OP_MASK_VMASK OP_SH_VMASK) r
      else if n =? 0 then macro_operands fmt args ep (Custom.insert_bits w 0 OP_MASK_VMASK OP_SH_VMASK) r
      else None
  | String "d" fmt, Int n :: args => macro_operands fmt args ep (Custom.insert_bits w n OP_MASK_RD OP_SH_RD) r
  | String "s" fmt, Int n :: args => macro_operands fmt args ep (Custom.insert_bits w n OP_MASK_RS1 OP_SH_RS1) r
  | String "t" fmt, Int n :: args => macro_operands fmt args ep (Custom.insert_bits w n OP_MASK_RS2 OP_SH_RS2) r
  | String ("j" | "u" | "q") fmt, Rel r :: args => if ep then macro_operands fmt args ep w r else None
  | _, _ => None
  end.

(** [while (riscv_insn_length (mo->match) < 4) mo++] *)
Fixpoint skip_rvc (p : list riscv_opcode) : option riscv_opcode :=
  match p with
  | op :: p => if Disasm.riscv_insn_length (match_bits op) <? 4 then skip_rvc p else Some op
  | [] => None
  end.

Definition macro_build (ep : option expressionS) (nm fmt : string) (args : list arg) : option (list emission) :=
  let* p := Assembler.find nm hash in
  let* mo := skip_rvc p in
  if decide (name mo = nm) then
    let* built := macro_operands fmt args (bool_decide (is_Some ep)) (match_bits mo) RELOC_UNUSED in
    let '(w, r) := built in
    if bool_decide (r = RELOC_UNUSED) then
      match ep with None => append_insn mo w ep r | Some _ => None end
    else match ep with Some _ => append_insn mo w ep r | None => None end
  else None.

(** ** Addresses and calls *)

Definition pcrel_access (destreg tempreg : Z) (ep : expressionS) (lo_insn lo_pattern : string) (hi lo : reloc)
    : option (list emission) :=
  let ep2 := Expr O_symbol 0 FAKE_LABEL_NAME in
  let* a := macro_build (Some ep) "auipc" "d,u" [Int tempreg; Rel hi] in
  let* b := macro_build (Some ep2) lo_insn lo_pattern [Int destreg; Int tempreg; Rel lo] in
  Some (Label :: a ++ b)%list.
Definition pcrel_load (destreg tempreg : Z) (ep : expressionS) (lo_insn : string) (hi lo : reloc) :=
  pcrel_access destreg tempreg ep lo_insn "d,s,j" hi lo.
Definition pcrel_store (srcreg tempreg : Z) (ep : expressionS) (lo_insn : string) (hi lo : reloc) :=
  pcrel_access srcreg tempreg ep lo_insn "t,s,q" hi lo.

Definition riscv_call (destreg tempreg : Z) (ep : expressionS) (r : reloc) : option (list emission) :=
  let* a := macro_build (Some ep) "auipc" "d,u" [Int tempreg; Rel r] in
  let* b := macro_build None "jalr" "d,s" [Int destreg; Int tempreg] in
  Some (a ++ b)%list.

(** ** [vector_macro] *)

(** The builds one after the other. *)
Fixpoint builds (l : list (string * string * list arg)) : option (list emission) :=
  match l with
  | [] => Some []
  | (nm, fmt, args) :: l => let* a := macro_build None nm fmt args in let* b := builds l in Some (a ++ b)%list
  end.

(** The two cases differ in the comparison. *)
Definition vmsge (compare : string) (vd vs1 vs2 vm vtemp : Z) : option (list emission) :=
  if negb (vm =? 0) then
    builds [(compare, "Vd,Vt,sVm", [Int vd; Int vs2; Int vs1; Int (-1)]);
            ("vmnand.mm", "Vd,Vt,Vs", [Int vd; Int vd; Int vd])]
  else if negb (vtemp =? 0) then
    if vd =? vm then
      builds [(compare, "Vd,Vt,s", [Int vtemp; Int vs2; Int vs1]);
              ("vmandnot.mm", "Vd,Vt,Vs", [Int vd; Int vm; Int vtemp])]
    else
      builds [(compare, "Vd,Vt,s", [Int vtemp; Int vs2; Int vs1]);
              ("vmandnot.mm", "Vd,Vt,Vs", [Int vtemp; Int vm; Int vtemp]);
              ("vmandnot.mm", "Vd,Vt,Vs", [Int vd; Int vd; Int vm]);
              ("vmor.mm", "Vd,Vt,Vs", [Int vd; Int vtemp; Int vd])]
  else if negb (vd =? vm) then
    builds [(compare, "Vd,Vt,sVm", [Int vd; Int vs2; Int vs1; Int vm]);
            ("vmxor.mm", "Vd,Vt,Vs", [Int vd; Int vd; Int vm])]
  else Some [Diagnostic (as_bad "must provide temp if destination overlaps mask")].

Definition operand_field (w m sh : Z) : Z := Z.land (Z.shiftr w sh) m.
Definition vector_macro (op : riscv_opcode) (w : Z) : option (list emission) :=
  let vd := operand_field w OP_MASK_VD OP_SH_VD in
  let vs1 := operand_field w OP_MASK_VS1 OP_SH_VS1 in
  let vs2 := operand_field w OP_MASK_VS2 OP_SH_VS2 in
  let vm := operand_field w OP_MASK_VMASK OP_SH_VMASK in
  let vtemp := operand_field w OP_MASK_VFUNCT6 OP_SH_VFUNCT6 in
  match mask op with
  | M_VMSGE => vmsge "vmslt.vx" vd vs1 vs2 vm vtemp
  | M_VMSGEU => vmsge "vmsltu.vx" vd vs1 vs2 vm vtemp
  | _ => Some []
  end.

(** ** [macro] *)

(** What a macro makes: output at once, or lines for [md_assemble]. *)
Inductive expansion := Output (l : list emission) | Lines (l : list line).

Definition LOAD_ADDRESS_INSN : string := if abi_xlen =? 64 then "ld" else "lw".
Definition load_constant (reg : Z) (e : expressionS) : option (list expansion) :=
  if decide (X_op e = O_constant) then
    let* l := load_const 4 xlen reg (X_add_number e) in Some [Lines l]
  else Some [Output [Diagnostic (as_bad "unsupported large constant")]].

Definition macro (op : riscv_opcode) (w : Z) (imm_expr : expressionS) (imm_reloc : reloc) : option (list expansion) :=
  let rd := operand_field w OP_MASK_RD OP_SH_RD in
  let rs1 := operand_field w OP_MASK_RS1 OP_SH_RS1 in
  let rs2 := operand_field w OP_MASK_RS2 OP_SH_RS2 in
  let out l := let* l := l in Some [Output l] in
  let load dest temp insn := out (pcrel_load dest temp imm_expr insn RISCV_PCREL_HI20 RISCV_PCREL_LO12_I) in
  let store insn := out (pcrel_store rs2 rs1 imm_expr insn RISCV_PCREL_HI20 RISCV_PCREL_LO12_S) in
  let ext shift sign := Some [Lines (riscv_ext rd rs1 shift sign)] in
  match mask op with
  | M_LI => load_constant rd imm_expr
  | M_LA | M_LLA | M_LGA =>
      let large := if is_sext_32bit_num (X_add_number imm_expr) then [] else [Output [Diagnostic (as_bad "offset too large")]] in
      let* l :=
        if decide (X_op imm_expr = O_constant) then load_constant rd imm_expr
        else if (pic && (mask op =? M_LA)) || (mask op =? M_LGA)
        then out (pcrel_load rd rd imm_expr LOAD_ADDRESS_INSN RISCV_GOT_HI20 RISCV_PCREL_LO12_I)
        else load rd rd "addi" in
      Some (large ++ l)%list
  | M_LA_TLS_GD => out (pcrel_load rd rd imm_expr "addi" RISCV_TLS_GD_HI20 RISCV_PCREL_LO12_I)
  | M_LA_TLS_IE => out (pcrel_load rd rd imm_expr LOAD_ADDRESS_INSN RISCV_TLS_GOT_HI20 RISCV_PCREL_LO12_I)
  | M_LB => load rd rd "lb" | M_LBU => load rd rd "lbu" | M_LH => load rd rd "lh" | M_LHU => load rd rd "lhu"
  | M_LW => load rd rd "lw" | M_LWU => load rd rd "lwu" | M_LD => load rd rd "ld"
  | M_FLW => load rd rs1 "flw" | M_FLD => load rd rs1 "fld"
  | M_SB => store "sb" | M_SH => store "sh" | M_SW => store "sw" | M_SD => store "sd"
  | M_FSW => store "fsw" | M_FSD => store "fsd"
  | M_CALL => out (riscv_call rd rs1 imm_expr imm_reloc)
  | M_ZEXTH => ext (xlen - 16) false | M_ZEXTW => ext (xlen - 32) false
  | M_SEXTB => ext (xlen - 8) true | M_SEXTH => ext (xlen - 16) true
  | M_VMSGE | M_VMSGEU => out (vector_macro op w)
  | M_FLH => load rd rs1 "flh" | M_FSH => store "fsh"
  | _ => Some [Output [Diagnostic (as_bad "internal: macro %s not implemented")]]
  end.
End Assemble.

(** * Every built word is an instruction *)

(** The bits a format writes. *)
Fixpoint field_mask (fmt : string) : Z :=
  match fmt with
  | EmptyString => 0
  | String "V" (String c fmt) =>
      Z.lor (match c with
             | "d"%char => Z.shiftl (Z.ones 5) 7 | "s"%char => Z.shiftl (Z.ones 5) 15
             | "t"%char => Z.shiftl (Z.ones 5) 20 | "m"%char => Z.shiftl (Z.ones 1) 25 | _ => 0 end) (field_mask fmt)
  | String "d" fmt => Z.lor (Z.shiftl (Z.ones 5) 7) (field_mask fmt)
  | String "s" fmt => Z.lor (Z.shiftl (Z.ones 5) 15) (field_mask fmt)
  | String "t" fmt => Z.lor (Z.shiftl (Z.ones 5) 20) (field_mask fmt)
  | String _ fmt => field_mask fmt
  end.

Lemma land_insert m w v n sh :
  urange 64 w -> 0 <= sh -> 0 <= n -> Z.land m (Z.shiftl (Z.ones n) sh) = 0 ->
  Z.land (Custom.insert_bits w v (Z.ones n) sh) m = Z.land w m.
Proof.
  intros Hr Hs Hn Hm. apply Z.bits_inj'. intros i Hi. apply (f_equal (fun z => Z.testbit z i)) in Hm.
  rewrite Z.land_spec, Z.shiftl_spec, Z.bits_0 in Hm by done.
  rewrite !Z.land_spec, Custom.insert_bits_testbit by done.
  destruct (Z.testbit m i); [|by rewrite !andb_false_r].
  cbn [andb] in Hm. rewrite Hm. cbn [negb]. by rewrite !andb_true_r, andb_false_r, orb_false_r.
Qed.

Lemma land_lor_0 m a b : Z.land m (Z.lor a b) = 0 -> Z.land m a = 0 /\ Z.land m b = 0.
Proof. rewrite Z.land_lor_distr_r. apply Z.lor_eq_0_iff. Qed.

(** What a format leaves alone. *)
Definition framed (m w : Z) (o : option (Z * reloc)) : Prop :=
  match o with Some (w', _) => urange 64 w' /\ Z.land w' m = Z.land w m | None => True end.

Lemma framed_step m w v n sh fm o :
  urange 64 w -> 0 <= sh -> 0 <= n -> Z.land m (Z.lor (Z.shiftl (Z.ones n) sh) fm) = 0 ->
  (urange 64 (Custom.insert_bits w v (Z.ones n) sh) -> Z.land m fm = 0 -> framed m (Custom.insert_bits w v (Z.ones n) sh) o) ->
  framed m w o.
Proof.
  intros Hr Hs Hn Hm Ho. apply land_lor_0 in Hm as [Hf Hm].
  specialize (Ho (Custom.insert_bits_range _ _ _ _ Hr) Hm). unfold framed in *.
  destruct o as [[w' r]|]; [|done]. by rewrite (land_insert m w v n sh Hr Hs Hn Hf) in Ho.
Qed.

Ltac by_insert IH n sh Hr Hm :=
  match goal with |- framed ?m ?w (match ?args with _ => _ end) =>
    destruct args as [|[?|?] args]; try exact I;
    refine (framed_step m w _ n sh _ _ Hr _ _ Hm _); [done|done|]; intros ? ?; by apply IH
  end.
Ltac by_reloc IH :=
  match goal with |- framed ?m ?w (match ?args with _ => _ end) =>
    destruct args as [|[?|?] args]; try exact I; case_match; [by apply IH|exact I]
  end.
Lemma operands_framed m k fmt args ep w r :
  (String.length fmt <= k)%nat -> urange 64 w -> Z.land m (field_mask fmt) = 0 ->
  framed m w (macro_operands fmt args ep w r).
Proof.
  revert fmt args w r. induction k as [|k IH]; intros fmt args w r Hk Hr Hm.
  { destruct fmt; [done|cbn in Hk; lia]. }
  destruct fmt as [|c fmt]; [done|]. cbn in Hk.
  assert (Hfmt : (String.length fmt <= k)%nat) by lia.
  destruct c as [[] [] [] [] [] [] [] []]; cbn [field_mask] in Hm;
    try (destruct args as [|[n|n] args]; exact I); cbn [macro_operands].
  - by_insert IH 5 15 Hr Hm.
  - by_reloc IH.
  - by_reloc IH.
  - destruct fmt as [|c fmt]; [done|]. cbn in Hk. assert (Hfmt' : (String.length fmt <= k)%nat) by lia.
    destruct c as [[] [] [] [] [] [] [] []]; try exact I.
    + by_insert IH 5 15 Hr Hm.
    + destruct args as [|[n|n] args]; try exact I.
      destruct (n =? -1); [|destruct (n =? 0); [|exact I]];
        (refine (framed_step m w _ 1 25 _ _ Hr _ _ Hm _); [done|done|]; intros ? ?; by apply IH).
    + by_insert IH 5 20 Hr Hm.
    + by_insert IH 5 7 Hr Hm.
  - by_reloc IH.
  - by apply IH.
  - by_insert IH 5 20 Hr Hm.
  - by_insert IH 5 7 Hr Hm.
Qed.

(** The entry [macro_build] finds for a mnemonic. *)
Definition built_from (nm : string) : option riscv_opcode := skip_rvc (Assembler.entries nm Table.riscv_opcodes).

(** A row of the mnemonic that every word built from the entry and a format matches. *)
Definition covers (mo : riscv_opcode) (fm : Z) (op : riscv_opcode) : bool :=
  bool_decide (match_func op = match_opcode) && negb (pinfo op =? INSN_MACRO) && (Z.land (mask op) fm =? 0)
  && (Z.land (match_bits mo) (mask op) =? Z.land (match_bits op) (mask op)).
Definition buildable (b : string * string) : bool :=
  match built_from b.1 with
  | Some mo => bool_decide (name mo = b.1) && (0 <=? match_bits mo) && (match_bits mo <? 2 ^ 64)
               && existsb (covers mo (field_mask b.2)) (Assembler.entries b.1 Table.riscv_opcodes)
  | None => false
  end.

(** The word is an instruction of the table, with the entry's name; no message says that
    the macro is not implemented. *)
Definition not_implemented : message := as_bad "internal: macro %s not implemented".
Definition real_word (op : riscv_opcode) (w : Z) : Prop :=
  exists op', op' ∈ Table.riscv_opcodes /\ name op' = name op /\ pinfo op' <> INSN_MACRO /\ Match.call op' w = true.
Definition real (e : emission) : Prop :=
  match e with
  | Insn op w | Fixup op w _ _ | Relaxed op w _ _ => real_word op w
  | Label => True
  | Diagnostic m => m <> not_implemented end.

Lemma land_lxor_0 m a b : Z.land a m = Z.land b m -> Z.land (Z.lxor a b) m = 0.
Proof.
  intros H. apply Z.bits_inj'. intros i Hi. apply (f_equal (fun z => Z.testbit z i)) in H.
  rewrite !Z.land_spec in H. rewrite Z.land_spec, Z.lxor_spec, Z.bits_0.
  destruct (Z.testbit m i); [|apply andb_false_r]. rewrite !andb_true_r in H. rewrite H.
  by rewrite andb_true_r, xorb_nilpotent.
Qed.

Lemma covers_real mo fm op w nm :
  covers mo fm op = true -> op ∈ Assembler.entries nm Table.riscv_opcodes -> name mo = nm ->
  (forall m, Z.land m fm = 0 -> Z.land w m = Z.land (match_bits mo) m) -> real_word mo w.
Proof.
  intros Hc Hin Hn Hw. unfold covers in Hc. rewrite !andb_true_iff, bool_decide_eq_true, negb_true_iff, Z.eqb_neq, !Z.eqb_eq in Hc.
  destruct Hc as [[[Hm Hp] Hf] He]. apply list_elem_of_filter in Hin as [Hop Hin].
  exists op. split; [done|]. split; [congruence|]. split; [done|]. unfold Match.call. rewrite Hm. unfold Match.opcode.
  apply Z.eqb_eq, land_lxor_0. by rewrite (Hw _ Hf), He.
Qed.

Lemma built_from_hash h nm mo : Assembler.op_hash = Some h -> built_from nm = Some mo ->
  exists p, Assembler.find nm h = Some p /\ skip_rvc p = Some mo.
Proof.
  intros Hh. unfold built_from. rewrite <- (AsmProofs.op_hash_entries h nm Hh). unfold Assembler.candidates.
  clear Hh. destruct (Assembler.find nm h) as [p|]; [|discriminate]. intros H. exists p. split; [done|]. revert H.
  induction p as [|op p IH]; [done|]. cbn [Assembler.same_name skip_rvc].
  destruct (decide (name op = nm)); [|discriminate]. cbn [skip_rvc]. by case_match.
Qed.

Section Real.
Context (h : list (string * list riscv_opcode)).
Context (Hfind : forall nm mo, built_from nm = Some mo -> exists p, Assembler.find nm h = Some p /\ skip_rvc p = Some mo).
Context (reloc_supported : reloc -> bool) (Hsup : forall r, reloc_supported r = true) (absolute : bool).

(** Building with a checked format. *)
Lemma build_real ep nm fmt args :
  buildable (nm, fmt) = true ->
  (forall w, exists w' r, macro_operands fmt args (bool_decide (is_Some ep)) w RELOC_UNUSED = Some (w', r) /\
    match ep with None => r = RELOC_UNUSED | Some _ => r <> RELOC_UNUSED end) ->
  exists l, macro_build h reloc_supported absolute ep nm fmt args = Some l /\ Forall real l.
Proof.
  unfold buildable. cbn [fst snd]. destruct (built_from nm) as [mo|] eqn:Eb; [|discriminate].
  rewrite !andb_true_iff, bool_decide_eq_true, Z.leb_le, Z.ltb_lt, existsb_exists.
  intros [[[Hn H0] H64] (op & Hin & Hc)] Hops. apply list_elem_of_In in Hin.
  destruct (Hfind nm mo Eb) as (p & Ep & Es). unfold macro_build.
  rewrite Ep. cbn [mbind option_bind]. rewrite Es. cbn [mbind option_bind].
  destruct (decide (name mo = nm)) as [_|]; [|done].
  destruct (Hops (match_bits mo)) as (w & r & Ho & Hr). rewrite Ho. cbn [mbind option_bind].
  assert (Hw : real_word mo w).
  { apply (covers_real mo (field_mask fmt) op w nm Hc Hin Hn). intros m Hm.
    pose proof (operands_framed m (String.length fmt) fmt args (bool_decide (is_Some ep)) (match_bits mo) RELOC_UNUSED
      ltac:(lia) (conj H0 H64) Hm) as Hf. rewrite Ho in Hf. apply Hf. }
  unfold append_insn. destruct ep as [e|].
  - rewrite (bool_decide_eq_false_2 _ Hr). destruct (decide (r = RELOC_UNUSED)) as [->|_]; [done|]. cbn [mbind option_bind].
    destruct (bool_decide (r = RELOC_12_PCREL \/ r = RISCV_JMP)); [destruct absolute|rewrite Hsup]; (eexists; split; [reflexivity|]); by repeat constructor.
  - subst r. rewrite bool_decide_eq_true_2 by done. cbn. eexists. split; [reflexivity|]. by repeat constructor.
Qed.

(** The formats the macros use. *)
Definition built : list (string * string) :=
  [("auipc", "d,u"); ("jalr", "d,s");
   ("addi", "d,s,j"); ("lb", "d,s,j"); ("lbu", "d,s,j"); ("lh", "d,s,j"); ("lhu", "d,s,j"); ("lw", "d,s,j");
   ("lwu", "d,s,j"); ("ld", "d,s,j"); ("flh", "d,s,j"); ("flw", "d,s,j"); ("fld", "d,s,j");
   ("sb", "t,s,q"); ("sh", "t,s,q"); ("sw", "t,s,q"); ("sd", "t,s,q"); ("fsh", "t,s,q"); ("fsw", "t,s,q"); ("fsd", "t,s,q");
   ("vmslt.vx", "Vd,Vt,sVm"); ("vmslt.vx", "Vd,Vt,s"); ("vmsltu.vx", "Vd,Vt,sVm"); ("vmsltu.vx", "Vd,Vt,s");
   ("vmnand.mm", "Vd,Vt,Vs"); ("vmandnot.mm", "Vd,Vt,Vs"); ("vmor.mm", "Vd,Vt,Vs"); ("vmxor.mm", "Vd,Vt,Vs")].
Lemma built_checked : forallb buildable built = true.
Proof. by vm_compute. Qed.
Lemma built_buildable b : b ∈ built -> buildable b = true.
Proof. intros H. exact (proj1 (forallb_forall buildable built) built_checked b (proj1 (list_elem_of_In _ _) H)). Qed.
#[local] Opaque buildable.
Ltac in_built := refine (bool_decide_unpack _ _); vm_compute; exact I.

Definition returns (o : option (list emission)) : Prop := exists l, o = Some l /\ Forall real l.

Lemma returns_app a b : returns a -> returns b -> returns (let* x := a in let* y := b in Some (x ++ y)%list).
Proof. intros (x & -> & Hx) (y & -> & Hy). eexists. split; [reflexivity|]. by apply Forall_app. Qed.

Lemma pcrel_returns dest temp e insn pattern hi lo :
  (insn, pattern) ∈ built -> pattern = "d,s,j" \/ pattern = "t,s,q" -> hi <> RELOC_UNUSED -> lo <> RELOC_UNUSED ->
  returns (pcrel_access h reloc_supported absolute dest temp e insn pattern hi lo).
Proof.
  intros Hb Hp Hhi Hlo. unfold pcrel_access.
  destruct (build_real (Some e) "auipc" "d,u" [Int temp; Rel hi]) as (a & -> & Ha);
    [by apply built_buildable; in_built|intros w; cbn; do 2 eexists; split; [reflexivity|done]|].
  destruct (build_real (Some (Expr O_symbol 0 FAKE_LABEL_NAME)) insn pattern [Int dest; Int temp; Rel lo]) as (b & -> & Hb');
    [by apply built_buildable|intros w; destruct Hp as [-> | ->]; cbn; do 2 eexists; (split; [reflexivity|done])|].
  eexists. split; [reflexivity|]. constructor; [done|]. by apply Forall_app.
Qed.

Lemma call_returns dest temp e r : r <> RELOC_UNUSED -> returns (riscv_call h reloc_supported absolute dest temp e r).
Proof.
  intros Hr. apply returns_app; apply build_real.
  - by apply built_buildable; in_built.
  - intros w. cbn. do 2 eexists. split; [reflexivity|done].
  - by apply built_buildable; in_built.
  - intros w. cbn. do 2 eexists. split; [reflexivity|done].
Qed.

(** Builds without an expression. *)
Lemma builds_return l :
  Forall (fun '(nm, fmt, args) => (nm, fmt) ∈ built /\
    forall w, exists w', macro_operands fmt args false w RELOC_UNUSED = Some (w', RELOC_UNUSED)) l ->
  returns (builds h reloc_supported absolute l).
Proof.
  induction 1 as [|[[nm fmt] args] l [Hb Ho] _ IH]; [by exists []|]. apply returns_app; [|exact IH].
  apply build_real; [by apply built_buildable|]. intros w. destruct (Ho w) as [w' Hw]. by exists w', RELOC_UNUSED.
Qed.

Lemma vmsge_returns compare vd vs1 vs2 vm vtemp : compare = "vmslt.vx" \/ compare = "vmsltu.vx" ->
  returns (vmsge h reloc_supported absolute compare vd vs1 vs2 vm vtemp).
Proof.
  intros Hc. unfold vmsge. destruct (Z.eqb_spec vm 0) as [->|_]; cbn [negb].
  - repeat case_match; (apply builds_return || (eexists; split; [reflexivity|by repeat constructor]));
      repeat (apply Forall_cons; split); try apply Forall_nil; try done;
      (split; [destruct Hc as [-> | ->]; in_built|intros w; cbn; by eexists]).
  - apply builds_return. repeat (apply Forall_cons; split); try apply Forall_nil; try done;
      (split; [destruct Hc as [-> | ->]; in_built|intros w; cbn; by eexists]).
Qed.

(** A macro's output. *)
Definition expands (o : option (list expansion)) : Prop :=
  exists l, o = Some l /\ Forall (fun x => match x with Output l => Forall real l | Lines _ => True end) l.
Lemma expands_output o : returns o -> expands (let* l := o in Some [Output l]).
Proof. intros (l & -> & Hl). eexists. split; [reflexivity|]. by repeat constructor. Qed.
Lemma expands_load insn dest temp e hi : (insn, "d,s,j") ∈ built -> hi <> RELOC_UNUSED ->
  expands (let* l := pcrel_load h reloc_supported absolute dest temp e insn hi RISCV_PCREL_LO12_I in Some [Output l]).
Proof. intros Hb Hhi. by apply expands_output, pcrel_returns; auto. Qed.
Lemma expands_store insn src temp e : (insn, "t,s,q") ∈ built ->
  expands (let* l := pcrel_store h reloc_supported absolute src temp e insn RISCV_PCREL_HI20 RISCV_PCREL_LO12_S in Some [Output l]).
Proof. intros Hb. by apply expands_output, pcrel_returns; auto. Qed.
Lemma expands_const xlen reg e : srange 64 (X_add_number e) -> expands (load_constant xlen reg e).
Proof.
  intros He. unfold load_constant. destruct (decide _).
  - destruct (load_const_returns 3 3 xlen reg 64 (X_add_number e) (le_n 3) ltac:(lia) ltac:(lia) He) as [l ->].
    eexists. split; [reflexivity|]. by repeat constructor.
  - eexists. split; [reflexivity|]. by repeat constructor.
Qed.
Lemma expands_app l o : Forall (fun x => match x with Output l => Forall real l | Lines _ => True end) l ->
  expands o -> expands (let* x := o in Some (l ++ x)%list).
Proof. intros Hl (x & -> & Hx). eexists. split; [reflexivity|]. by apply Forall_app. Qed.

Lemma expands_address xlen abi_xlen pic op w e r :
  srange 64 (X_add_number e) -> mask op = M_LA \/ mask op = M_LLA \/ mask op = M_LGA ->
  expands (macro h reloc_supported xlen abi_xlen pic absolute op w e r).
Proof.
  intros He Hop.
  assert (Hl : expands
    (let large := if is_sext_32bit_num (X_add_number e) then [] else [Output [Diagnostic (as_bad "offset too large")]] in
     let rd := operand_field w OP_MASK_RD OP_SH_RD in
     let* l :=
       if decide (X_op e = O_constant) then load_constant xlen rd e
       else if (pic && (mask op =? M_LA)) || (mask op =? M_LGA)
       then let* l := pcrel_load h reloc_supported absolute rd rd e (LOAD_ADDRESS_INSN abi_xlen) RISCV_GOT_HI20 RISCV_PCREL_LO12_I in Some [Output l]
       else let* l := pcrel_load h reloc_supported absolute rd rd e "addi" RISCV_PCREL_HI20 RISCV_PCREL_LO12_I in Some [Output l] in
     Some (large ++ l)%list)).
  { cbv zeta. apply expands_app; [by case_match; repeat constructor|].
    destruct (decide _); [by apply expands_const|]. unfold LOAD_ADDRESS_INSN.
    repeat case_match; apply expands_load; (in_built || discriminate). }
  unfold macro. destruct Hop as [E|[E|E]]; rewrite E in Hl |- *; exact Hl.
Qed.

(** The macros with a case of their own. *)
Definition implemented : list Z :=
  [M_LA; M_LLA; M_LGA; M_LA_TLS_GD; M_LA_TLS_IE; M_LB; M_LBU; M_LH; M_LHU; M_LW; M_LWU; M_LD; M_SB; M_SH; M_SW; M_SD;
   M_FLW; M_FLD; M_FSW; M_FSD; M_CALL; M_LI; M_ZEXTH; M_ZEXTW; M_SEXTB; M_SEXTH; M_VMSGE; M_VMSGEU; M_FLH; M_FSH].

Lemma macro_expands xlen abi_xlen pic op w e r :
  srange 64 (X_add_number e) -> (mask op = M_CALL -> r <> RELOC_UNUSED) -> mask op ∈ implemented ->
  expands (macro h reloc_supported xlen abi_xlen pic absolute op w e r).
Proof.
  intros He Hr Hin.
  assert (Hall : Forall (fun k => mask op = k -> expands (macro h reloc_supported xlen abi_xlen pic absolute op w e r)) implemented);
    [|rewrite Forall_forall in Hall; by apply (Hall (mask op))].
  assert (Hext : forall shift sign, expands (Some [Lines (riscv_ext (operand_field w OP_MASK_RD OP_SH_RD)
    (operand_field w OP_MASK_RS1 OP_SH_RS1) shift sign)])) by (intros; eexists; split; [done|by repeat constructor]).
  clear Hin. repeat (apply Forall_cons; split); try exact (List.Forall_nil _); intros E.
  1-3: apply expands_address; [exact He|]; rewrite E; tauto.
  all: unfold macro; rewrite E.
  all: unfold LOAD_ADDRESS_INSN; try destruct (abi_xlen =? 64).
  all: lazymatch goal with
       | |- expands (Some _) => apply Hext
       | |- expands (load_constant _ _ _) => apply expands_const, He
       | |- context [pcrel_load] => apply expands_load; [in_built|discriminate]
       | |- context [pcrel_store] => apply expands_store; in_built
       | |- context [riscv_call] => apply expands_output, call_returns; exact (Hr E)
       | |- context [vector_macro] => apply expands_output; unfold vector_macro; rewrite E; apply vmsge_returns; tauto
       end.
Qed.
End Real.

(** The macro rows of the table. *)
Definition macro_row (op : riscv_opcode) : bool :=
  negb (pinfo op =? INSN_MACRO) ||
  (if bool_decide (name op ∈ ["flq"; "fsq"]) then bool_decide (mask op = M_FLQ \/ mask op = M_FSQ)
   else bool_decide (mask op ∈ implemented)).
Lemma macro_rows_checked : forallb macro_row Table.riscv_opcodes = true.
Proof. by vm_compute. Qed.

(** [C10] Every macro expands: for every macro row of the opcode table, whatever the operands
    (a 64-bit expression value; [call] has its relocation), [macro] meets no failed assertion
    and no fatal error in [macro_build], every word it appends is an instruction of the table
    of the mnemonic asked for, and no message says that the macro is missing, with two
    exceptions: [flq] and [fsq], for which that message is all that comes out. *)
Theorem macros_expand h reloc_supported xlen abi_xlen pic absolute op w e r :
  Assembler.op_hash = Some h -> (forall r, reloc_supported r = true) ->
  op ∈ Table.riscv_opcodes -> pinfo op = INSN_MACRO ->
  srange 64 (X_add_number e) -> (mask op = M_CALL -> r <> RELOC_UNUSED) ->
  if bool_decide (name op ∈ ["flq"; "fsq"])
  then macro h reloc_supported xlen abi_xlen pic absolute op w e r = Some [Output [Diagnostic not_implemented]]
  else exists l, macro h reloc_supported xlen abi_xlen pic absolute op w e r = Some l /\
         Forall (fun x => match x with Output l => Forall real l | Lines _ => True end) l.
Proof.
  intros Hh Hsup Hin Hp He Hr.
  pose proof (proj1 (forallb_forall macro_row Table.riscv_opcodes) macro_rows_checked op (proj1 (list_elem_of_In _ _) Hin)) as Hrow.
  unfold macro_row in Hrow. rewrite Hp in Hrow. cbn [negb orb Z.eqb Pos.eqb] in Hrow.
  destruct (bool_decide (name op ∈ _)).
  - apply bool_decide_eq_true in Hrow. unfold macro. destruct Hrow as [E|E]; by rewrite E.
  - apply bool_decide_eq_true in Hrow.
    apply macro_expands; [exact (fun nm mo => built_from_hash h nm mo Hh)|exact Hsup|exact He|exact Hr|exact Hrow].
Qed.

(** [la a0,sym], not position-independent: [auipc] and [addi] behind a label. *)
Definition row_la : riscv_opcode := row "la" 0 INSN_CLASS_I "d,B" 0 M_LA match_never INSN_MACRO.
Lemma macros_expand_witness :
  exists h l, Assembler.op_hash = Some h /\
    macro h (fun _ => true) 32 32 false false row_la (Z.shiftl 10 7) (Expr O_symbol 0 "sym") RELOC_32 = Some l /\
    Forall (fun x => match x with Output l => Forall real l | Lines _ => True end) l.
Proof.
  destruct Assembler.op_hash_built as [h Hh].
  destruct (macros_expand h (fun _ => true) 32 32 false false row_la (Z.shiftl 10 7) (Expr O_symbol 0 "sym") RELOC_32 Hh) as (l & Hl & Hr).
  - reflexivity.
  - refine (bool_decide_unpack _ _). vm_compute. exact I.
  - vm_compute. reflexivity.
  - vm_compute. split; [discriminate|reflexivity].
  - discriminate.
  - exists h, l. exact (conj Hh (conj Hl Hr)).
Defined.
End Macros.
