(* ===== verification/MaskCompare.v ===== *)
(** The mask compare macros [vmsge.vx] and [vmsgeu.vx]: what the instructions of [Macros.vmsge]
    compute, element by element. The base vector extension has only the opposite compare. *)

From S2P Require Import Prelude Opcodes Assembler Custom AsmRegs AsmIp Macros.
#[local] Open Scope string_scope.
#[local] Open Scope Z_scope.

Module MaskCompare.
Import AsmRegs AsmIp Macros.

(** * The mask instructions *)

(** Mask bit of an element in a vector register. *)
Definition masks : Type := Z -> Z -> bool.
Definition set_mask (M : masks) (vd : Z) (f : Z -> bool) : masks := fun r i => if r =? vd then f i else M r i.

(** The four mask operations, operands [vs2] and [vs1]. *)
Definition mask_op (nm : string) : option (bool -> bool -> bool) :=
  if String.eqb nm "vmnand.mm" then Some (fun a b => negb (a && b))
  else if String.eqb nm "vmandnot.mm" then Some (fun a b => a && negb b)
  else if String.eqb nm "vmor.mm" then Some orb
  else if String.eqb nm "vmxor.mm" then Some xorb
  else None.

(** One instruction, after the vector specification: a masked compare leaves the elements
    that [v0] switches off. [less nm vs2 rs1 i] is the comparison of element [i] of [vs2] with
    the scalar, which no instruction of the sequences changes before it is used. *)
Section Exec.
Context (less : string -> Z -> Z -> Z -> bool).

Definition exec_mask (M : masks) (e : emission) : option masks :=
  match e with
  | Insn op w =>
      let vd := slice 7 5 w in let v1 := slice 15 5 w in let v2 := slice 20 5 w in
      match mask_op (name op) with
      | Some f => Some (set_mask M vd (fun i => f (M v2 i) (M v1 i)))
      | None =>
          if String.eqb (name op) "vmslt.vx" || String.eqb (name op) "vmsltu.vx"
          then Some (set_mask M vd (fun i => if (slice 25 1 w =? 1) || M 0 i then less (name op) v2 v1 i else M vd i))
          else None
      end
  | _ => None
  end.
Fixpoint run (l : list emission) (M : masks) : option masks :=
  match l with [] => Some M | e :: l => let* M := exec_mask M e in run l M end.

(** * The builds *)

Context (h : list (string * list riscv_opcode)).
Context (Hfind : forall nm mo, built_from nm = Some mo -> exists p, Assembler.find nm h = Some p /\ skip_rvc p = Some mo).
Context (reloc_supported : reloc -> bool) (absolute : bool).
Abbreviation build := (macro_build h reloc_supported absolute None).

Lemma build_insn nm mo fmt args w :
  built_from nm = Some mo -> name mo = nm -> macro_operands fmt args false (match_bits mo) RELOC_UNUSED = Some (w, RELOC_UNUSED) ->
  build nm fmt args = Some [Insn mo w].
Proof.
  intros Hb Hn Ho. destruct (Hfind nm mo Hb) as (p & Hp & Hs). unfold macro_build. rewrite Hp. cbn [mbind option_bind].
  rewrite Hs. cbn [mbind option_bind]. destruct (decide (name mo = nm)) as [_|Hne]; [|destruct (Hne Hn)].
  rewrite bool_decide_eq_false_2 by (by intros [? ?]). rewrite Ho. reflexivity.
Qed.

(** The entries found, with a clear mask bit. *)
Definition found (nm : string) : bool :=
  match built_from nm with
  | Some mo => String.eqb (name mo) nm && (0 <=? match_bits mo) && (match_bits mo <? 2 ^ 64)
               && (slice 25 1 (match_bits mo) =? if String.eqb nm "vmslt.vx" || String.eqb nm "vmsltu.vx" then 0 else 1)
  | None => false
  end.
Lemma all_found : forallb found ["vmslt.vx"; "vmsltu.vx"; "vmnand.mm"; "vmandnot.mm"; "vmor.mm"; "vmxor.mm"] = true.
Proof. by vm_compute. Qed.
Lemma found_spec nm : found nm = true -> exists mo, built_from nm = Some mo /\ name mo = nm /\ urange 64 (match_bits mo) /\
  slice 25 1 (match_bits mo) = if String.eqb nm "vmslt.vx" || String.eqb nm "vmsltu.vx" then 0 else 1.
Proof.
  unfold found. destruct (built_from nm) as [mo|]; [|discriminate].
  rewrite !andb_true_iff, String.eqb_eq, Z.leb_le, Z.ltb_lt, Z.eqb_eq. intros [[[H1 H2] H3] H4]. by exists mo.
Qed.

Ltac read_fields Hm :=
  repeat first
    [ rewrite Custom.slice_insert_same by (done || lia || by repeat apply Custom.insert_bits_range)
    | rewrite Custom.slice_insert_other by (done || lia || by repeat apply Custom.insert_bits_range) ].

Ltac mask_field :=
  match goal with |- context [Custom.insert_bits ?a ?b 1 25] =>
    change (Custom.insert_bits a b 1 25) with (Custom.insert_bits a b (Z.ones 1) 25) end.

(** The effects of the two kinds of instruction. *)
Definition logic (f : bool -> bool -> bool) (d t s : Z) (M : masks) : masks := set_mask M d (fun i => f (M t i) (M s i)).
Definition compared (nm : string) (unmasked : bool) (d t s : Z) (M : masks) : masks :=
  set_mask M d (fun i => if unmasked || M 0 i then less nm t s i else M d i).

(** A mask operation, [Vd,Vt,Vs]. *)
Lemma logic_build nm f d t s :
  found nm = true -> mask_op nm = Some f -> urange 5 d -> urange 5 t -> urange 5 s ->
  exists e, build nm "Vd,Vt,Vs" [Int d; Int t; Int s] = Some [e] /\
    forall M, exec_mask M e = Some (logic f d t s M).
Proof.
  intros Hf Ho Hd Ht Hs. destruct (found_spec nm Hf) as (mo & Hb & Hn & Hm & _).
  eexists. split; [by apply (build_insn nm mo)|]. intros M. unfold exec_mask. rewrite Hn, Ho.
  change 0x1f with (Z.ones 5). unfold logic. by read_fields Hm.
Qed.

(** The compare, with the mask bit set, clear or left as in the entry. *)
Lemma compare_build nm d t s fmt args unmasked :
  nm = "vmslt.vx" \/ nm = "vmsltu.vx" -> urange 5 d -> urange 5 t -> urange 5 s ->
  (fmt, args, unmasked) ∈ [("Vd,Vt,sVm", [Int (-1)], true); ("Vd,Vt,sVm", [Int 0], false); ("Vd,Vt,s", [], false)] ->
  exists e, build nm fmt (Int d :: Int t :: Int s :: args) = Some [e] /\
    forall M, exec_mask M e = Some (compared nm unmasked d t s M).
Proof.
  intros Hnm Hd Ht Hs Hfm.
  assert (Hf : found nm = true) by (destruct Hnm as [-> | ->]; by vm_compute).
  assert (Ho : mask_op nm = None) by (destruct Hnm as [-> | ->]; by vm_compute).
  assert (Hc : String.eqb nm "vmslt.vx" || String.eqb nm "vmsltu.vx" = true) by (destruct Hnm as [-> | ->]; by vm_compute).
  destruct (found_spec nm Hf) as (mo & Hb & Hn & Hm & Hbit). rewrite Hc in Hbit.
  rewrite !elem_of_cons in Hfm.
  destruct Hfm as [[= -> -> ->]|[[= -> -> ->]|[[= -> -> ->]|Hfm]]]; [..|by apply not_elem_of_nil in Hfm];
    (eexists; split; [by apply (build_insn nm mo)|]); intros M; unfold exec_mask, compared; rewrite Hn, Ho, Hc;
    change 0x1f with (Z.ones 5); try mask_field; read_fields Hm; try rewrite Hbit; reflexivity.
Qed.

(** ** The sequences *)

(** [vd >= scalar] where the element is active, the old bit elsewhere; no other register
    but the temporary changes. *)
Definition greater_equal (nm : string) (vd vs2 vs1 vtemp : Z) (masked : bool) (M M' : masks) : Prop :=
  (forall i, M' vd i = if negb masked || M 0 i then negb (less nm vs2 vs1 i) else M vd i) /\
  forall r i, r <> vd -> (r = vtemp -> vtemp = 0) -> M' r i = M r i.

Context (compare : string) (Hcmp : compare = "vmslt.vx" \/ compare = "vmsltu.vx").
Context (vd vs1 vs2 vtemp : Z) (Hd : urange 5 vd) (H1 : urange 5 vs1) (H2 : urange 5 vs2) (Ht : urange 5 vtemp).
Abbreviation sequence vm := (vmsge h reloc_supported absolute compare vd vs1 vs2 vm vtemp).

Lemma run_builds l M :
  Forall (fun '((nm, fmt, args), f) => exists e, build nm fmt args = Some [e] /\ forall M, exec_mask M e = Some (f M)) l ->
  exists es, builds h reloc_supported absolute (map fst l) = Some es /\
    run es M = Some (fold_left (fun M f => f M) (map snd l) M).
Proof.
  intros Hl. revert M. induction Hl as [|[[[nm fmt] args] f] l (e & He & Hx) _ IH]; intros M; [by exists []|].
  destruct (IH (f M)) as (es & Hes & Hr). exists (e :: es). cbn [map fst snd builds fold_left]. rewrite He, Hes.
  split; [done|]. cbn [run]. by rewrite Hx.
Qed.

(** The four sequences. *)
Ltac by_builds :=
  repeat (apply Forall_cons; split); try exact (List.Forall_nil _);
  [eapply (compare_build compare); [exact Hcmp|done..|rewrite !elem_of_cons; tauto]|by apply logic_build..].
Ltac masks_agree M :=
  unfold logic, compared, set_mask; cbv beta;
  repeat match goal with |- context [Z.eqb ?a ?b] => destruct (Z.eqb_spec a b); try congruence; try (exfalso; tauto) end;
  try match goal with E : vd = 0 |- _ => rewrite E end;
  repeat match goal with
         | |- context [M ?r ?i] => destruct (M r i) | |- context [less ?nm ?t ?s ?i] => destruct (less nm t s i)
         end; done.
Ltac sequence_runs l M :=
  edestruct (run_builds l M) as (? & He & Hr); [by_builds|];
  do 2 eexists; split; [exact He|]; split; [exact Hr|]; cbn [map fst snd fold_left]; split; intros; masks_agree M.

Lemma unmasked_result vm M : vm <> 0 -> exists l M',
  sequence vm = Some l /\ run l M = Some M' /\ greater_equal compare vd vs2 vs1 vtemp false M M'.
Proof.
  intros Hvm. unfold vmsge. rewrite (proj2 (Z.eqb_neq vm 0) Hvm). cbn [negb].
  sequence_runs [(compare, "Vd,Vt,sVm", [Int vd; Int vs2; Int vs1; Int (-1)], compared compare true vd vs2 vs1);
    ("vmnand.mm", "Vd,Vt,Vs", [Int vd; Int vd; Int vd], logic (fun a b => negb (a && b)) vd vd vd)] M.
Qed.

Lemma masked_result M : (vd = 0 -> vtemp <> 0) -> vtemp <> vd -> exists l M',
  sequence 0 = Some l /\ run l M = Some M' /\ greater_equal compare vd vs2 vs1 vtemp true M M'.
Proof.
  intros Hv Hne. unfold vmsge. cbn [negb Z.eqb].
  destruct (Z.eqb_spec vtemp 0) as [Et|Et]; cbn [negb]; destruct (Z.eqb_spec vd 0) as [Ed|Ed]; cbn [negb]; [tauto|..].
  - sequence_runs [(compare, "Vd,Vt,sVm", [Int vd; Int vs2; Int vs1; Int 0], compared compare false vd vs2 vs1);
      ("vmxor.mm", "Vd,Vt,Vs", [Int vd; Int vd; Int 0], logic xorb vd vd 0)] M.
  - sequence_runs [(compare, "Vd,Vt,s", [Int vtemp; Int vs2; Int vs1], compared compare false vtemp vs2 vs1);
      ("vmandnot.mm", "Vd,Vt,Vs", [Int vd; Int 0; Int vtemp], logic (fun a b => a && negb b) vd 0 vtemp)] M.
  - sequence_runs [(compare, "Vd,Vt,s", [Int vtemp; Int vs2; Int vs1], compared compare false vtemp vs2 vs1);
      ("vmandnot.mm", "Vd,Vt,Vs", [Int vtemp; Int 0; Int vtemp], logic (fun a b => a && negb b) vtemp 0 vtemp);
      ("vmandnot.mm", "Vd,Vt,Vs", [Int vd; Int vd; Int 0], logic (fun a b => a && negb b) vd vd 0);
      ("vmor.mm", "Vd,Vt,Vs", [Int vd; Int vtemp; Int vd], logic orb vd vtemp vd)] M.
Qed.

(** A temporary that is the destination. *)
Lemma same_temp_result M : vd <> 0 -> vtemp = vd -> exists l M',
  sequence 0 = Some l /\ run l M = Some M' /\ forall i, M' vd i = false.
Proof.
  intros Hv Hne. unfold vmsge. cbn [negb Z.eqb].
  destruct (Z.eqb_spec vtemp 0) as [Et|Et]; cbn [negb]; [congruence|]. destruct (Z.eqb_spec vd 0) as [Ed|Ed]; [done|].
  edestruct (run_builds [(compare, "Vd,Vt,s", [Int vtemp; Int vs2; Int vs1], compared compare false vtemp vs2 vs1);
      ("vmandnot.mm", "Vd,Vt,Vs", [Int vtemp; Int 0; Int vtemp], logic (fun a b => a && negb b) vtemp 0 vtemp);
      ("vmandnot.mm", "Vd,Vt,Vs", [Int vd; Int vd; Int 0], logic (fun a b => a && negb b) vd vd 0);
      ("vmor.mm", "Vd,Vt,Vs", [Int vd; Int vtemp; Int vd], logic orb vd vtemp vd)] M) as (? & He & Hr); [by_builds|].
  do 2 eexists. split; [exact He|]. split; [exact Hr|]. cbn [map fst snd fold_left]. intros i. masks_agree M.
Qed.
End Exec.

Lemma operand_field_slice w n sh : 0 <= n -> operand_field w (Z.ones n) sh = slice sh n w.
Proof. intros. unfold operand_field, slice, wrap. by rewrite <- Z.land_ones. Qed.

(** The instruction that the macro is made of. *)
Definition comparison (op : riscv_opcode) : string := if mask op =? M_VMSGE then "vmslt.vx" else "vmsltu.vx".

Lemma vector_macro_sequence h reloc_supported absolute op w :
  mask op = M_VMSGE \/ mask op = M_VMSGEU ->
  vector_macro h reloc_supported absolute op w =
    vmsge h reloc_supported absolute (comparison op) (slice 7 5 w) (slice 15 5 w) (slice 20 5 w) (slice 25 1 w) (slice 26 6 w).
Proof.
  intros Hop. rewrite <- !operand_field_slice by done. unfold vector_macro, comparison. by destruct Hop as [-> | ->].
Qed.
Lemma comparison_name op : comparison op = "vmslt.vx" \/ comparison op = "vmsltu.vx".
Proof. unfold comparison. destruct (_ =? _); tauto. Qed.

(** [C24] The compare macros compare: for a statement [vmsge.vx] or [vmsgeu.vx] whose
    destination is not [v0] unless there is a temporary, and whose temporary is neither [v0]
    (that is none) nor the destination, the instructions of [vector_macro] assemble and,
    run on the mask registers, set exactly the active elements of the destination to the
    negated opposite compare, keep its inactive elements (all of them active when the
    statement is unmasked) and change no register but the destination and the temporary. *)
Theorem mask_compare less h reloc_supported absolute op w M
    (vd := slice 7 5 w) (vs1 := slice 15 5 w) (vs2 := slice 20 5 w) (vtemp := slice 26 6 w) (masked := slice 25 1 w =? 0) :
  Assembler.op_hash = Some h -> mask op = M_VMSGE \/ mask op = M_VMSGEU -> urange 31 w ->
  (masked = true -> (vd = 0 -> vtemp <> 0) /\ vtemp <> vd) ->
  exists l M', vector_macro h reloc_supported absolute op w = Some l /\ run less l M = Some M' /\
    greater_equal less (comparison op) vd vs2 vs1 vtemp masked M M'.
Proof.
  intros Hh Hop Hw Hm. rewrite (vector_macro_sequence h reloc_supported absolute op w Hop). fold vd vs1 vs2 vtemp.
  pose proof (fun nm mo => built_from_hash h nm mo Hh) as Hfind. clear Hh.
  assert (Ht : urange 5 vtemp).
  { unfold vtemp, slice. rewrite Z.shiftr_div_pow2 by lia. unfold urange in *. word_pows.
    assert (0 <= w / 67108864 < 32) by (Z.div_mod_to_equations; lia). rewrite wrap_small; [lia|]. unfold urange. word_pows. lia. }
  assert (Hr : forall sh, urange 5 (slice sh 5 w)) by (intros; apply slice_range; lia).
  unfold masked in *. destruct (Z.eqb_spec (slice 25 1 w) 0) as [E|E].
  - rewrite E. destruct (Hm eq_refl). apply masked_result; auto using comparison_name; apply Hr.
  - apply unmasked_result; auto using comparison_name; apply Hr.
Qed.

(** [vmsge.vx v4, v8, a1, v0.t, v12] *)
Definition masked_row : riscv_opcode := row "vmsge.vx" 0 INSN_CLASS_V "Vd,Vt,s,VM,VT" 0 M_VMSGE match_opcode INSN_MACRO.
Definition masked_word : Z := Z.lor (Z.shiftl 12 26) (Z.lor (Z.shiftl 8 20) (Z.lor (Z.shiftl 11 15) (Z.shiftl 4 7))).
Lemma mask_compare_witness :
  exists h l M', Assembler.op_hash = Some h /\
    vector_macro h (fun _ => true) false masked_row masked_word = Some l /\
    run (fun _ _ _ i => i <? 3) l (fun r i => Z.odd (r + i)) = Some M' /\ map (M' 4) [0; 1; 2; 3; 4; 5] = [false; false; false; true; false; true].
Proof.
  destruct Assembler.op_hash_built as [h Hh].
  destruct (mask_compare (fun _ _ _ i => i <? 3) h (fun _ => true) false masked_row masked_word (fun r i => Z.odd (r + i)))
    as (l & M' & Hl & Hr & Hg & _); 
    [exact Hh|left; reflexivity|vm_compute; split; [discriminate|reflexivity]|vm_compute; intros _; split; [intros E; discriminate E|discriminate]|].
  exists h, l, M'. split; [exact Hh|]. split; [exact Hl|]. split; [exact Hr|].
  cbn [map]. change 4 with (slice 7 5 masked_word) at 1 2 3 4 5 6. rewrite !Hg. reflexivity.
Defined.

(** The assembler does not exclude a temporary that is the destination: such a statement
    assembles, and clears the whole destination. *)
Theorem mask_compare_same_temp less h reloc_supported absolute op w M :
  Assembler.op_hash = Some h -> mask op = M_VMSGE \/ mask op = M_VMSGEU -> urange 31 w ->
  slice 25 1 w = 0 -> slice 26 6 w = slice 7 5 w -> slice 7 5 w <> 0 ->
  exists l M', vector_macro h reloc_supported absolute op w = Some l /\ run less l M = Some M' /\
    forall i, M' (slice 7 5 w) i = false.
Proof.
  intros Hh Hop Hw Hm Ht Hd. rewrite (vector_macro_sequence h reloc_supported absolute op w Hop), Hm, Ht.
  pose proof (fun nm mo => built_from_hash h nm mo Hh) as Hfind. clear Hh.
  assert (Hr : forall sh, urange 5 (slice sh 5 w)) by (intros; apply slice_range; lia).
  apply same_temp_result; auto using comparison_name.
Qed.
End MaskCompare.
