(* ===== verification/Relax.v ===== *)
(** Branch relaxation: [relaxed_branch_length], [riscv_relax_frag] and
    [md_convert_frag_branch] of [gas/config/tc-riscv.c], and the fixups that [md_apply_fix]
    resolves in place. A branch out of the reach of its format becomes the opposite branch
    over a jump; it is proved to go where the branch was to go, on the core. *)

From S2P Require Import Prelude Opcodes Immediates Custom Isa.
#[local] Open Scope Z_scope.

Module Relax.

(** * The frag of a branch *)

Definition RELAX_BRANCH_ENCODE (uncond rvc : bool) (length : Z) : Z :=
  Z.lor 0xc0000000 (Z.lor (if uncond then 1 else 0) (Z.lor (if rvc then 2 else 0) (Z.shiftl length 2))).
Definition RELAX_BRANCH_P (i : Z) : bool := Z.land i 0xf0000000 =? 0xc0000000.
Definition RELAX_BRANCH_LENGTH (i : Z) : Z := Z.land (Z.shiftr i 2) 0xF.
Definition RELAX_BRANCH_RVC (i : Z) : bool := negb (Z.land i 2 =? 0).
Definition RELAX_BRANCH_UNCOND (i : Z) : bool := negb (Z.land i 1 =? 0).

Lemma relax_branch_fields uncond rvc n : 0 <= n < 16 ->
  let i := RELAX_BRANCH_ENCODE uncond rvc n in
  RELAX_BRANCH_P i = true /\ RELAX_BRANCH_LENGTH i = n /\ RELAX_BRANCH_RVC i = rvc /\ RELAX_BRANCH_UNCOND i = uncond.
Proof.
  intros Hn. assert (H : forallb (fun k => forallb (fun '(u, r) =>
      let i := RELAX_BRANCH_ENCODE u r (Z.of_nat k) in
      RELAX_BRANCH_P i && (RELAX_BRANCH_LENGTH i =? Z.of_nat k) && Bool.eqb (RELAX_BRANCH_RVC i) r
      && Bool.eqb (RELAX_BRANCH_UNCOND i) u) [(true, true); (true, false); (false, true); (false, false)]) (seq 0 16) = true)
    by by vm_compute.
  rewrite forallb_forall in H. specialize (H (Z.to_nat n) ltac:(apply in_seq; lia)). rewrite forallb_forall in H.
  specialize (H (uncond, rvc) ltac:(destruct uncond, rvc; cbn; tauto)). cbv zeta beta in H |- *.
  rewrite Z2Nat.id in H by lia. rewrite !andb_true_iff, Z.eqb_eq, !Bool.eqb_true_iff in H. tauto.
Qed.

(** What a symbol is when its value is asked for. *)
Record symbol := Sym { is_defined : bool; is_weak : bool; same_section : bool; sym_value : Z }.

(** The variable part starts [fr_fix] bytes into the frag; [insn] is the word placed there. *)
Record frag := Frag
  { fr_subtype : Z; fr_var : Z; fr_address : Z; fr_fix : Z; fr_offset : Z; fr_symbol : option symbol; insn : Z }.
#[export] Instance eta_frag : Eta frag := fun f =>
  Frag (fr_subtype f) (fr_var f) (fr_address f) (fr_fix f) (fr_offset f) (fr_symbol f) (insn f).

Definition RISCV_BRANCH_REACH : Z := 2 ^ RISCV_IMM_BITS * 2.
Definition RVC_JUMP_REACH : Z := 2 ^ 11 * 2.
Definition RVC_BRANCH_REACH : Z := 2 ^ 8 * 2.

(** [(bfd_vma) (val + reach / 2) < reach] *)
Definition reaches (reach v : Z) : bool := wrap 64 (v + reach / 2) <? reach.

Definition displacement (f : frag) (s : symbol) : Z := sym_value s + fr_offset f - (fr_address f + fr_fix f).

Definition relaxed_branch_length (fragp : option frag) : Z :=
  match fragp with
  | None => 8
  | Some f =>
      let jump := RELAX_BRANCH_UNCOND (fr_subtype f) in
      let rvc := RELAX_BRANCH_RVC (fr_subtype f) in
      let length := if jump then 4 else 8 in
      match fr_symbol f with
      | Some s =>
          if is_defined s && negb (is_weak s) && same_section s then
            let v := displacement f s in
            if rvc && reaches (if jump then RVC_JUMP_REACH else RVC_BRANCH_REACH) v then 2
            else if reaches RISCV_BRANCH_REACH v then 4
            else if negb jump && rvc then 6
            else length
          else length
      | None => length
      end
  end.

(** With [update] set, and its value stored in [fr_var]; the growth is returned. *)
Definition update (f : frag) : frag :=
  let n := relaxed_branch_length (Some f) in
  f <| fr_subtype := RELAX_BRANCH_ENCODE (RELAX_BRANCH_UNCOND (fr_subtype f)) (RELAX_BRANCH_RVC (fr_subtype f)) n |>
    <| fr_var := n |>.
Definition riscv_relax_frag (f : frag) : Z * frag :=
  if RELAX_BRANCH_P (fr_subtype f) then let f' := update f in (fr_var f' - fr_var f, f') else (0, f).
Definition md_estimate_size_before_relax (f : frag) : Z * frag :=
  let n := relaxed_branch_length (Some f) in (n, f <| fr_var := n |>).

(** * Conversion *)

Inductive fixup := JMP | PCREL12 | RVC_JUMP | RVC_BRANCH.
(** Instruction words with their sizes and the fixups on the frag's symbol. *)
Record piece := Piece { size : Z; word : Z; fix_ : option fixup }.

(** The RVC branch as a RISC-V one; [None] is [abort]. *)
Definition expand_rvc (insn : Z) : option Z :=
  let rs1 := 8 + Z.land (Z.shiftr insn 7) 0x7 in
  if Z.land insn MASK_C_J =? MATCH_C_J then Some MATCH_JAL
  else if Z.land insn MASK_C_JAL =? MATCH_C_JAL then Some (Z.lor MATCH_JAL (Z.shiftl X_RA OP_SH_RD))
  else if Z.land insn MASK_C_BEQZ =? MATCH_C_BEQZ then Some (Z.lor MATCH_BEQ (Z.shiftl rs1 OP_SH_RS1))
  else if Z.land insn MASK_C_BNEZ =? MATCH_C_BNEZ then Some (Z.lor MATCH_BNE (Z.shiftl rs1 OP_SH_RS1))
  else None.

Definition jump_piece : piece := Piece 4 MATCH_JAL (Some JMP).
(** The second [switch], on a RISC-V word. *)
Definition convert_base (uncond : bool) (length insn : Z) : option (list piece) :=
  match length with
  | 8 =>
      if uncond then None
      else Some [Piece 4 (Z.lor (Z.lxor insn (Z.lxor MATCH_BEQ MATCH_BNE)) (ENCODE_BTYPE_IMM 8)) None; jump_piece]
  | 4 => Some [Piece 4 insn (Some (if uncond then JMP else PCREL12))]
  | _ => None
  end.
Definition md_convert_frag_branch (f : frag) : option (list piece) :=
  let length := RELAX_BRANCH_LENGTH (fr_subtype f) in
  let uncond := RELAX_BRANCH_UNCOND (fr_subtype f) in
  if negb (fr_var f =? length) then None
  else if RELAX_BRANCH_RVC (fr_subtype f) then
    match length with
    | 8 | 4 => let* w := expand_rvc (insn f) in convert_base uncond length w
    | 6 => Some [Piece 2 (Z.lor (Z.lxor (insn f) (Z.lxor MATCH_C_BEQZ MATCH_C_BNEZ)) (ENCODE_CBTYPE_IMM 6)) None; jump_piece]
    | 2 => Some [Piece 2 (insn f) (Some (if uncond then RVC_JUMP else RVC_BRANCH))]
    | _ => None
    end
  else convert_base uncond length (insn f).

(** * Fixups *)

(** [md_apply_fix] of a fixup with a symbol; [delta] is [target - md_pcrel_from (fixP)]. *)
Definition apply_fix (k : fixup) (w delta : Z) : Z :=
  match k with
  | JMP => Z.lor w (ENCODE_JTYPE_IMM delta)
  | PCREL12 => Z.lor w (ENCODE_BTYPE_IMM delta)
  | RVC_BRANCH => Z.lor w (ENCODE_CBTYPE_IMM delta)
  | RVC_JUMP => Z.lor w (ENCODE_CJTYPE_IMM delta)
  end.
Fixpoint resolve (l : list piece) (v : Z) : list Z :=
  match l with
  | [] => []
  | p :: l => (match fix_ p with Some k => apply_fix k (word p) v | None => word p end) :: resolve l (v - size p)
  end.
Definition total (l : list piece) : Z := fold_right (fun p n => size p + n) 0 l.

(** * Ranges *)

Lemma reaches_spec n v : 1 < n <= 64 -> srange 64 v -> reaches (2 ^ n) v = true <-> srange n v.
Proof.
  intros Hn Hv. unfold reaches, srange, wrap in *. rewrite Z.ltb_lt.
  assert (Hh : 2 ^ n = 2 * 2 ^ (n - 1)) by (apply pow2_half; lia).
  replace (2 ^ n / 2) with (2 ^ (n - 1)) by (rewrite Hh, Z.mul_comm, Z.div_mul by lia; lia).
  assert (2 ^ (n - 1) <= 2 ^ 63) by (apply Z.pow_le_mono_r; lia).
  assert (0 < 2 ^ (n - 1)) by (apply pow2_pos; lia). change (2 ^ (64 - 1)) with (2 ^ 63) in Hv.
  assert (2 ^ 64 = 2 * 2 ^ 63) by reflexivity. rewrite Hh. Z.div_mod_to_equations. nia.
Qed.

(** A known symbol of the section, at a displacement. *)
Definition target_at (f : frag) (v : Z) : Prop :=
  exists s, fr_symbol f = Some s /\ is_defined s = true /\ is_weak s = false /\ same_section s = true /\ displacement f s = v.

Lemma length_known f v : target_at f v -> srange 64 v ->
  let jump := RELAX_BRANCH_UNCOND (fr_subtype f) in let rvc := RELAX_BRANCH_RVC (fr_subtype f) in
  relaxed_branch_length (Some f) =
    if rvc && bool_decide (srange (if jump then 12 else 9) v) then 2
    else if bool_decide (srange 13 v) then 4 else if jump then 4 else if rvc then 6 else 8.
Proof.
  intros (s & Es & Hd & Hw & Hs & Hv) Hr. unfold relaxed_branch_length. cbv zeta. rewrite Es, Hd, Hw, Hs, Hv. cbn [negb andb].
  assert (Hb : forall n, 1 < n <= 64 -> reaches (2 ^ n) v = bool_decide (srange n v)).
  { intros n Hn. apply Bool.eq_true_iff_eq. by rewrite bool_decide_eq_true, reaches_spec. }
  change RISCV_BRANCH_REACH with (2 ^ 13). change RVC_JUMP_REACH with (2 ^ 12). change RVC_BRANCH_REACH with (2 ^ 9).
  destruct (RELAX_BRANCH_UNCOND _); rewrite !Hb by lia; destruct (RELAX_BRANCH_RVC _); cbn [negb andb]; reflexivity.
Qed.

(** * On the core *)

Definition negate (c : Isa.cond) : Isa.cond :=
  match c with
  | Isa.BEQ => Isa.BNE | Isa.BNE => Isa.BEQ | Isa.BLT => Isa.BGE | Isa.BGE => Isa.BLT
  | Isa.BLTU => Isa.BGEU | Isa.BGEU => Isa.BLTU
  end.
Lemma holds_negate c p q : Isa.holds (negate c) p q = negb (Isa.holds c p q).
Proof. destruct c; cbn; by rewrite ?negb_involutive. Qed.

Definition all_conds : list Isa.cond := [Isa.BEQ; Isa.BNE; Isa.BLT; Isa.BGE; Isa.BLTU; Isa.BGEU].
(** The word of a branch or jump, before its offset is known. *)
Lemma invert_branch c rs1 rs2 : Isa.reg rs1 -> Isa.reg rs2 ->
  Z.lxor (Isa.encode (Isa.Branch c rs1 rs2 0)) (Z.lxor MATCH_BEQ MATCH_BNE) = Isa.encode (Isa.Branch (negate c) rs1 rs2 0).
Proof.
  intros H1 H2. assert (H : forallb (fun c => forallb (fun a => forallb (fun b =>
    Z.lxor (Isa.encode (Isa.Branch c a b 0)) (Z.lxor MATCH_BEQ MATCH_BNE) =? Isa.encode (Isa.Branch (negate c) a b 0))
    Isa.registers) Isa.registers) all_conds = true) by by vm_compute.
  rewrite forallb_forall in H. specialize (H c ltac:(destruct c; cbn; tauto)).
  apply (Isa.forall_registers _ rs1) in H; [|done]. apply (Isa.forall_registers _ rs2) in H; [|done]. by apply Z.eqb_eq.
Qed.
Lemma branch_offset c rs1 rs2 off :
  Z.lor (Isa.encode (Isa.Branch c rs1 rs2 0)) (ENCODE_BTYPE_IMM off) = Isa.encode (Isa.Branch c rs1 rs2 off).
Proof. cbn [Isa.encode]. change (ENCODE_BTYPE_IMM 0) with 0. by rewrite Z.lor_0_r. Qed.
Lemma jump_offset rd off : Z.lor (Isa.encode (Isa.Jal rd 0)) (ENCODE_JTYPE_IMM off) = Isa.encode (Isa.Jal rd off).
Proof. cbn [Isa.encode]. change (ENCODE_JTYPE_IMM 0) with 0. by rewrite Z.lor_0_r. Qed.

(** Instructions at an address, run from the program counter until control leaves them or
    the fuel is used up; they are four bytes each. *)
Fixpoint flow (fuel : nat) (base : Z) (l : list Isa.instr) (a : Isa.arch) : Isa.arch :=
  match fuel with
  | O => a
  | S fuel =>
      match l !! Z.to_nat (wrap 32 (Isa.pc a - base) / 4) with
      | Some i => flow fuel base l (Isa.step i a)
      | None => a
      end
  end.

(** Control has moved, nothing else that a branch may not touch. *)
Definition moved (target : Z) (a b : Isa.arch) : Prop :=
  Isa.pc b = wrap 32 target /\ Isa.x b = Isa.x a /\ Isa.v b = Isa.v a /\ Isa.mem b = Isa.mem a.

(** What a converted branch must do. *)
Definition branches (c : Isa.cond) (rs1 rs2 v : Z) (l : list Isa.instr) : Prop :=
  forall a, moved (Isa.pc a + if Isa.holds c (Isa.get (Isa.x a) rs1) (Isa.get (Isa.x a) rs2) then v else 4 * Z.of_nat (length l))
    a (flow (length l) (Isa.pc a) l a).

Lemma near_branch c rs1 rs2 v : branches c rs1 rs2 v [Isa.Branch c rs1 rs2 v].
Proof.
  intros a. cbn [length flow]. rewrite Z.sub_diag. cbn [wrap]. change (Z.to_nat (wrap 32 0 / 4)) with 0%nat.
  cbn [lookup list_lookup]. unfold Isa.step. by destruct (Isa.holds c _ _).
Qed.

Lemma at_offset p d : urange 32 d -> wrap 32 (wrap 32 (p + d) - p) = d.
Proof.
  intros Hd. rewrite <- (wrap_small 32 d Hd) at 2. rewrite <- wrap_sub, wrap_wrap, wrap_sub by lia. f_equal. lia.
Qed.
Lemma far_branch c rs1 rs2 v : branches c rs1 rs2 v [Isa.Branch (negate c) rs1 rs2 8; Isa.Jal 0 (v - 4)].
Proof.
  intros a. cbn [length flow]. rewrite Z.sub_diag. change (Z.to_nat (wrap 32 0 / 4)) with 0%nat.
  cbn [lookup list_lookup]. cbn [Isa.step]. rewrite holds_negate.
  destruct (Isa.holds c _ _); cbn [negb]; cbn; rewrite at_offset by by compute.
  - change (Z.to_nat (4 / 4)) with 1%nat. repeat split. cbn. rewrite wrap_add_l. f_equal. lia.
  - by change (Z.to_nat (8 / 4)) with 2%nat.
Qed.

(** The frag of a branch or jump without RVC, and of one with it. *)
Definition branch_frag (f : frag) (uncond rvc : bool) : Prop :=
  exists n, 0 <= n < 16 /\ fr_subtype f = RELAX_BRANCH_ENCODE uncond rvc n.

Lemma converted f uncond rvc v : branch_frag f uncond rvc -> target_at f v -> srange 64 v ->
  let n := if rvc && bool_decide (srange (if uncond then 12 else 9) v) then 2
           else if bool_decide (srange 13 v) then 4 else if uncond then 4 else if rvc then 6 else 8 in
  fr_var (update f) = n /\
  md_convert_frag_branch (update f) =
    if rvc then
      if n =? 6 then Some [Piece 2 (Z.lor (Z.lxor (insn f) (Z.lxor MATCH_C_BEQZ MATCH_C_BNEZ)) (ENCODE_CBTYPE_IMM 6)) None; jump_piece]
      else if n =? 2 then Some [Piece 2 (insn f) (Some (if uncond then RVC_JUMP else RVC_BRANCH))]
      else let* w := expand_rvc (insn f) in convert_base uncond n w
    else convert_base uncond n (insn f).
Proof.
  intros (k & Hk & Hsub) Ht Hv n. destruct (relax_branch_fields uncond rvc k Hk) as (_ & _ & Hr & Hu).
  pose proof (length_known f v Ht Hv) as Hn. cbv zeta in Hn. rewrite Hsub, Hr, Hu in Hn. fold n in Hn.
  assert (Hlt : 0 <= n < 16) by (unfold n; repeat case_match; lia).
  destruct (relax_branch_fields uncond rvc n Hlt) as (_ & Hl & Hr' & Hu').
  assert (Hvar : fr_var (update f) = n) by exact Hn.
  assert (Hs : fr_subtype (update f) = RELAX_BRANCH_ENCODE uncond rvc n).
  { change (fr_subtype (update f)) with
      (RELAX_BRANCH_ENCODE (RELAX_BRANCH_UNCOND (fr_subtype f)) (RELAX_BRANCH_RVC (fr_subtype f)) (relaxed_branch_length (Some f))).
    by rewrite Hn, Hsub, Hr, Hu. }
  split; [exact Hvar|]. unfold md_convert_frag_branch. cbv zeta. rewrite Hvar, Hs, Hl, Hr', Hu', Z.eqb_refl. cbn [negb].
  change (insn (update f)) with (insn f). destruct rvc; [|done]. unfold n. cbn [andb]. repeat case_match; done.
Qed.

Lemma valid_branch c rs1 rs2 v : Isa.reg rs1 -> Isa.reg rs2 -> srange 13 v -> v mod 2 = 0 -> Isa.valid (Isa.Branch c rs1 rs2 v).
Proof.
  intros H1 H2 Hv He. split; [done|]. split; [done|]. apply (proj1 (proj2 (proj2 (base_immediates_encodable v)))). by split.
Qed.
Lemma valid_jump rd v : Isa.reg rd -> srange 21 v -> v mod 2 = 0 -> Isa.valid (Isa.Jal rd v).
Proof.
  intros Hr Hv He. split; [done|]. apply (proj2 (proj2 (proj2 (proj2 (base_immediates_encodable v))))). by split.
Qed.
Lemma even_minus v k : v mod 2 = 0 -> k mod 2 = 0 -> (v - k) mod 2 = 0.
Proof. intros. Z.div_mod_to_equations. lia. Qed.
Lemma srange_wide n v : 0 < n <= 64 -> srange n v -> srange 64 v.
Proof. intros Hn Hv. unfold srange in *. assert (2 ^ (n - 1) <= 2 ^ (64 - 1)) by (apply Z.pow_le_mono_r; lia). lia. Qed.

(** The pieces are these instructions, as long as the length computed. *)
Definition becomes (f : frag) (v : Z) (l : list Isa.instr) : Prop :=
  exists pieces, md_convert_frag_branch (update f) = Some pieces /\ total pieces = fr_var (update f) /\
    fr_var (update f) = 4 * Z.of_nat (length l) /\ resolve pieces v = map Isa.encode l /\ Forall Isa.valid l.

(** [C4] Relaxation keeps a branch's meaning: a conditional branch of the core whose target is
    a known label of the section, at an even displacement that a jump can cover, is laid out in
    exactly the bytes [relaxed_branch_length] reserves, as the branch itself when its format
    can hold the displacement and otherwise as the opposite branch over a jump; the words, with
    their fixups resolved, are valid instructions, and running them goes to the target if the
    condition holds and past them if not, touching no register and no memory. *)
Theorem branch_relaxed c rs1 rs2 f v :
  Isa.reg rs1 -> Isa.reg rs2 -> branch_frag f false false -> insn f = Isa.encode (Isa.Branch c rs1 rs2 0) ->
  target_at f v -> srange 21 (v - 4) -> v mod 2 = 0 ->
  exists l, becomes f v l /\ branches c rs1 rs2 v l /\ (length l = 1%nat <-> srange 13 v).
Proof.
  intros H1 H2 Hf Hi Ht Hv He.
  assert (H64 : srange 64 v) by (unfold srange in *; word_pows; lia).
  destruct (converted f false false v Hf Ht H64) as [Hn Hc]. cbn [andb] in Hn, Hc. rewrite Hi in Hc.
  destruct (bool_decide (srange 13 v)) eqn:E; [apply bool_decide_eq_true in E|apply bool_decide_eq_false in E].
  - exists [Isa.Branch c rs1 rs2 v]. split; [|split; [apply near_branch|done]].
    eexists. split; [exact Hc|]. rewrite Hn. split; [done|]. split; [done|].
    split; [cbn [resolve fix_ word apply_fix map]; by rewrite branch_offset|]. by apply Forall_singleton, valid_branch.
  - exists [Isa.Branch (negate c) rs1 rs2 8; Isa.Jal 0 (v - 4)]. split; [|split; [apply far_branch|by split]].
    eexists. split; [exact Hc|]. rewrite Hn. split; [done|]. split; [done|]. split.
    + cbn [resolve fix_ word apply_fix map jump_piece size]. by rewrite invert_branch, branch_offset, <- (jump_offset 0).
    + apply Forall_cons. split; [by apply valid_branch|]. apply Forall_singleton, valid_jump; [by split|done|by apply even_minus].
Qed.

(** A jump keeps its word; the linker catches one out of range. *)
Lemma jump_relaxed rd f v :
  Isa.reg rd -> branch_frag f true false -> insn f = Isa.encode (Isa.Jal rd 0) -> target_at f v -> srange 21 v -> v mod 2 = 0 ->
  becomes f v [Isa.Jal rd v].
Proof.
  intros Hr Hf Hi Ht Hv He. destruct (converted f true false v Hf Ht (srange_wide 21 v ltac:(lia) Hv)) as [Hn Hc].
  cbn [andb] in Hn, Hc. rewrite Hi in Hc. assert (Hs : (if bool_decide (srange 13 v) then 4 else 4) = 4) by by destruct (bool_decide _).
  rewrite Hs in Hn, Hc. eexists. split; [exact Hc|]. rewrite Hn. split; [done|]. split; [done|].
  split; [cbn [resolve fix_ word apply_fix map]; by rewrite jump_offset|]. by apply Forall_singleton, valid_jump.
Qed.

(** ** Compressed branches *)

Definition cbranch (ne : bool) (r : Z) : Z := Z.lor (if ne then MATCH_C_BNEZ else MATCH_C_BEQZ) (Z.shiftl r 7).
Lemma cbranch_words ne r : urange 3 r ->
  expand_rvc (cbranch ne r) = Some (Isa.encode (Isa.Branch (if ne then Isa.BNE else Isa.BEQ) (8 + r) 0 0)) /\
  Z.lxor (cbranch ne r) (Z.lxor MATCH_C_BEQZ MATCH_C_BNEZ) = cbranch (negb ne) r /\ Isa.reg (8 + r).
Proof.
  intros [H0 H1]. change (2 ^ 3) with 8 in H1.
  assert (r = 0 \/ r = 1 \/ r = 2 \/ r = 3 \/ r = 4 \/ r = 5 \/ r = 6 \/ r = 7) as H by lia.
  destruct ne; repeat destruct H as [->|H]; try subst r; repeat split; reflexivity || done.
Qed.

(** [C22] A compressed conditional branch whose label is near or far: it stays [c.beqz] or
    [c.bnez] when the nine-bit offset of its format reaches, becomes the base branch on the
    same register when thirteen bits do, and otherwise the opposite compressed branch over
    a jump to the label; the words carry the offset to the label in their format, and take
    exactly the bytes relaxation reserved. *)
Theorem rvc_branch_relaxed ne r f v :
  urange 3 r -> branch_frag f false true -> insn f = cbranch ne r -> target_at f v -> srange 21 (v - 2) -> v mod 2 = 0 ->
  exists pieces, md_convert_frag_branch (update f) = Some pieces /\ total pieces = fr_var (update f) /\
    if bool_decide (srange 9 v)
    then resolve pieces v = [Z.lor (cbranch ne r) (ENCODE_CBTYPE_IMM v)] /\ VALID_CBTYPE_IMM v = true
    else let i := Isa.Branch (if ne then Isa.BNE else Isa.BEQ) (8 + r) 0 v in
    if bool_decide (srange 13 v) then resolve pieces v = [Isa.encode i] /\ Isa.valid i
    else resolve pieces v = [Z.lor (cbranch (negb ne) r) (ENCODE_CBTYPE_IMM 6); Isa.encode (Isa.Jal 0 (v - 2))] /\
         Isa.valid (Isa.Jal 0 (v - 2)).
Proof.
  intros Hr Hf Hi Ht Hv He. destruct (cbranch_words ne r Hr) as (Hx & Hinv & Hreg).
  assert (H64 : srange 64 v) by (unfold srange in *; word_pows; lia).
  destruct (converted f false true v Hf Ht H64) as [Hn Hc]. cbn [andb] in Hn, Hc. rewrite Hi, Hx, Hinv in Hc.
  destruct (bool_decide (srange 9 v)) eqn:E9; [|destruct (bool_decide (srange 13 v)) eqn:E13];
    rewrite Hn; (eexists; split; [exact Hc|]); (split; [done|]).
  - apply bool_decide_eq_true in E9. split; [done|]. apply signed_valid with 9 1; [lia|apply cbtype_trip|by split].
  - apply bool_decide_eq_true in E13. split; [cbn [resolve fix_ word apply_fix map]; by rewrite branch_offset|].
    by apply valid_branch.
  - cbn [resolve fix_ word apply_fix jump_piece size]. rewrite <- (jump_offset 0). split; [done|].
    apply valid_jump; [by split|done|by apply even_minus].
Qed.

(** [bne x5, x6] to a label 5000 bytes ahead, and back. *)
Definition far_frag (d : Z) : frag :=
  Frag (RELAX_BRANCH_ENCODE false false 8) 4 0x100 0x20 0 (Some (Sym true false true (0x120 + d))) (Isa.encode (Isa.Branch Isa.BNE 5 6 0)).
Lemma branch_relaxed_witness :
  exists l, becomes (far_frag 5000) 5000 l /\ branches Isa.BNE 5 6 5000 l.
Proof.
  destruct (branch_relaxed Isa.BNE 5 6 (far_frag 5000) 5000) as (l & Hb & Hl & _);
    [by compute|by compute|by exists 8|done|by eexists|by compute|done|]. by exists l.
Defined.
Definition far_cfrag (d : Z) : frag :=
  Frag (RELAX_BRANCH_ENCODE false true 8) 2 0x100 0x20 0 (Some (Sym true false true (0x120 + d))) (cbranch false 3).
(** [c.beqz x11] to a label 5000 bytes ahead. *)
Lemma rvc_branch_relaxed_witness :
  exists pieces, md_convert_frag_branch (update (far_cfrag 5000)) = Some pieces /\ total pieces = 6 /\
    resolve pieces 5000 = [Z.lor (cbranch true 3) (ENCODE_CBTYPE_IMM 6); Isa.encode (Isa.Jal 0 4998)].
Proof.
  destruct (rvc_branch_relaxed false 3 (far_cfrag 5000) 5000) as (pieces & E & Ht & Hw);
    [by compute|by exists 8|done|by eexists|by compute|done|].
  exists pieces. split; [exact E|]. split; [exact Ht|exact (proj1 Hw)].
Defined.
Example far_words :
  option_map (fun l => resolve l 5000) (md_convert_frag_branch (update (far_frag 5000))) =
    Some [Isa.encode (Isa.Branch Isa.BEQ 5 6 8); Isa.encode (Isa.Jal 0 4996)].
Proof. by vm_compute. Qed.
End Relax.
