(* ===== verification/Statements.v ===== *)
(** Whole statements: [md_assemble] of [gas/config/tc-riscv.c], which gives a statement to
    [riscv_ip] and appends the instruction or expands the macro, and the fixups on constants
    that [md_apply_fix] resolves. The pseudo-instruction [li] is followed from its text to
    the instruction words and what they do on the core. The set-up at the first statement and
    the mapping symbols are left out. *)

From Stdlib Require Import Ascii SpecFloat.
From S2P Require Import Prelude Opcodes Immediates Disasm Assembler Custom Isa RegNames Subsets AsmRegs AsmIp AsmProofs CustomText LoadConst Macros.
#[local] Open Scope string_scope.
#[local] Open Scope Z_scope.

Module Statements.
Import RegNames AsmIp Macros.
#[local] Existing Instance Custom.riscv_opcode_eq_dec.

(** * Fixups on constants *)

Definition RISCV_CONST_HIGH_PART (v : Z) : Z := Z.land (v + 2 ^ RISCV_IMM_BITS / 2) (Z.lnot (2 ^ RISCV_IMM_BITS - 1)).
(** [None] is [abort]. *)
Definition riscv_apply_const_reloc (r : reloc) (v : Z) : option Z :=
  match r with
  | RELOC_32 => Some v
  | RISCV_HI20 => Some (ENCODE_UTYPE_IMM (RISCV_CONST_HIGH_PART v))
  | RISCV_LO12_S => Some (ENCODE_STYPE_IMM v)
  | RISCV_LO12_I => Some (ENCODE_ITYPE_IMM v)
  | _ => None
  end.

(** The word in the object file, where the assembler alone determines it. *)
Definition fixed_word (e : emission) : option Z :=
  match e with
  | Insn _ w => Some w
  | Fixup _ w e r =>
      if bool_decide (X_op e = O_constant /\ (r = RISCV_HI20 \/ r = RISCV_LO12_I \/ r = RISCV_LO12_S)) then
        let* b := riscv_apply_const_reloc r (X_add_number e) in Some (Z.lor b w)
      else None
  | _ => None
  end.

Section Assemble.
Context (expression : bool -> string -> expressionS * string).
Context (strtof : string -> spec_float * bool * string).
Context (reloc_supported : reloc -> bool).
Context (outside : ascii -> Z) (g : AsmRegs.settings) (h : list (string * list riscv_opcode)).
Context (abi_xlen : Z) (pic absolute : bool).

(** What one statement leaves for the next: [expr_parse_end], [explicit_priv_attr]. *)
Definition kept : Type := string * bool.

Definition error_message (e : riscv_ip_error) : AsmRegs.message :=
  AsmRegs.as_bad (match missing_ext e with Some _ => "%s `%s', extension `%s' required" | None => "%s `%s'" end).

(** The lines of a macro go through [md_assemble], here [asm]. *)
Fixpoint assemble_lines (asm : string -> kept -> option (list emission * kept)) (l : list LoadConst.line) (c : kept)
    : option (list emission * kept) :=
  match l with
  | [] => Some ([], c)
  | i :: l =>
      let* a := asm (LoadConst.text (AsmRegs.xlen g) i) c in
      let* b := assemble_lines asm l a.2 in
      Some ((a.1 ++ b.1)%list, b.2)
  end.
Fixpoint expand (asm : string -> kept -> option (list emission * kept)) (l : list expansion) (c : kept)
    : option (list emission * kept) :=
  match l with
  | [] => Some ([], c)
  | x :: l =>
      let* a := match x with Output es => Some (es, c) | Lines ls => assemble_lines asm ls c end in
      let* b := expand asm l a.2 in
      Some ((a.1 ++ b.1)%list, b.2)
  end.

(** [None]: an internal assertion, a fatal error or a read past the statement's end. *)
Fixpoint md_assemble (fuel : nat) (str : string) (c : kept) : option (list emission * kept) :=
  match fuel with
  | O => None
  | S fuel =>
      match riscv_ip expression strtof reloc_supported outside g h str (initial c.1 c.2) with
      | Returned e insn st =>
          let c := (expr_parse_end st, explicit_priv_attr st) in
          let said := map Diagnostic (messages st) in
          match msg e, insn with
          | Some _, _ => Some ((said ++ [Diagnostic (error_message e)])%list, c)
          | None, Some op =>
              if pinfo op =? INSN_MACRO then
                let* l := macro h reloc_supported (AsmRegs.xlen g) abi_xlen pic absolute op (insn_opcode st) (imm_expr st) (imm_reloc st) in
                let* r := expand (md_assemble fuel) l c in
                Some ((said ++ r.1)%list, r.2)
              else
                let* l := append_insn reloc_supported absolute op (insn_opcode st) (Some (imm_expr st)) (imm_reloc st) in
                Some ((said ++ l)%list, c)
          | None, None => None
          end
      | Died | Read_past_end => None
      end
  end.
End Assemble.

(** The lines of the macros are not macros: two levels of [md_assemble] are enough. *)
Lemma lines_not_macros :
  forallb (fun nm => forallb (fun op => negb (pinfo op =? INSN_MACRO)) (Assembler.entries nm Table.riscv_opcodes))
    ["lui"; "addi"; "addiw"; "slli"; "srli"; "srai"] = true.
Proof. by vm_compute. Qed.

(** * Numbers as text *)

Definition digit_of (c : ascii) : option Z :=
  let n := Z.of_nat (nat_of_ascii c) in
  if (48 <=? n) && (n <=? 57) then Some (n - 48)
  else if (97 <=? n) && (n <=? 102) then Some (n - 87) else None.
Fixpoint number (b acc : Z) (s : string) : Z * string :=
  match s with
  | EmptyString => (acc, s)
  | String c r => match digit_of c with Some d => if d <? b then number b (b * acc + d) r else (acc, s) | None => (acc, s) end
  end.

(** Constants as [gas/expr.c] reads them: decimal, a sign, hexadecimal. *)
Definition constant_expression (probing : bool) (str : string) : expressionS * string :=
  let '(n, rest) :=
    match str with
    | String "-" r => let '(n, rest) := number 10 0 r in (- n, rest)
    | String "0" (String "x" r) => number 16 0 r
    | _ => number 10 0 str
    end in
  (Expr O_constant n "", rest).

Lemma digit_of_char d : 0 <= d < 16 -> digit_of (digit_char d) = Some d.
Proof.
  intros Hd. assert (H : forallb (fun k => bool_decide (digit_of (digit_char (Z.of_nat k)) = Some (Z.of_nat k))) (seq 0 16) = true)
    by by vm_compute.
  rewrite forallb_forall in H. specialize (H (Z.to_nat d) ltac:(apply in_seq; lia)).
  rewrite Z2Nat.id in H by lia. by apply bool_decide_eq_true in H.
Qed.

Lemma number_digits b fuel n : 1 < b <= 16 -> 0 <= n < b ^ Z.of_nat fuel ->
  forall acc tail, exists k, number b acc (digits b fuel n tail) = number b (acc * b ^ Z.of_nat k + n) tail.
Proof.
  intros Hb. revert n. induction fuel as [|fuel IH]; intros n Hn acc tail.
  - exists 0%nat. cbn in Hn. replace n with 0 by lia. cbn. f_equal. lia.
  - rewrite Nat2Z.inj_succ, Z.pow_succ_r in Hn by lia. cbn [digits].
    pose proof (Z.mod_pos_bound n b ltac:(lia)) as Hm. pose proof (Z.div_mod n b ltac:(lia)) as Hd.
    assert (Hc : forall x, number b x (String (digit_char (n mod b)) tail) = number b (b * x + n mod b) tail).
    { intros x. cbn [number]. rewrite digit_of_char by lia. by rewrite (proj2 (Z.ltb_lt _ _)) by lia. }
    destruct (Z.eqb_spec (n / b) 0) as [E|E].
    + exists 1%nat. rewrite Hc. f_equal. rewrite E in Hd. change (b ^ Z.of_nat 1) with (b ^ 1). rewrite Z.pow_1_r. lia.
    + destruct (IH (n / b) ltac:(split; [apply Z.div_pos; lia|apply Z.div_lt_upper_bound; lia]) acc (String (digit_char (n mod b)) tail)) as [k Hk].
      exists (S k). rewrite Hk, Hc. f_equal. rewrite Nat2Z.inj_succ, Z.pow_succ_r by lia. nia.
Qed.

Lemma number_all b fuel n : 1 < b <= 16 -> 0 <= n < b ^ Z.of_nat fuel -> number b 0 (digits b fuel n "") = (n, "").
Proof. intros Hb Hn. destruct (number_digits b fuel n Hb Hn 0 "") as [k ->]. by rewrite Z.mul_0_l. Qed.

(** [0x%x] and [%d] of the lines are read back. *)
Lemma reads_hex probing n : urange 20 n -> constant_expression probing ("0x" ++ hex n) = (Expr O_constant n "", "").
Proof.
  intros Hn. unfold constant_expression, hex. change ("0x" ++ ?s) with (String "0" (String "x" s)). cbv iota.
  rewrite number_all; [done|lia|]. unfold urange in Hn. split; [lia|].
  apply Z.lt_trans with (2 ^ 20); [lia|by vm_compute].
Qed.
Definition decimals : list Z := map (fun k => Z.of_nat k - 2048) (seq 0 4096).
Lemma in_decimals n : srange 12 n -> In n decimals.
Proof.
  intros [H0 H1]. change (2 ^ (12 - 1)) with 2048 in *. unfold decimals. replace n with (Z.of_nat (Z.to_nat (n + 2048)) - 2048) by lia.
  apply (in_map (fun k => Z.of_nat k - 2048)), in_seq. lia.
Qed.
Lemma reads_decimal probing n : srange 12 n -> constant_expression probing (signed_decimal n) = (Expr O_constant n "", "").
Proof.
  intros Hn. assert (H : forallb (fun n => match constant_expression probing (signed_decimal n) with
      | (Expr O_constant m EmptyString, EmptyString) => m =? n | _ => false end) decimals = true) by by vm_compute.
  rewrite forallb_forall in H. specialize (H n (in_decimals n Hn)).
  destruct (constant_expression probing (signed_decimal n)) as [[[] m [|]] [|]]; try discriminate H.
  apply Z.eqb_eq in H. by subst.
Qed.

(** A number begins with a digit or a sign. *)
Definition plain (s : string) : bool :=
  match s with String c _ => Ascii.eqb c "-" || bool_decide (is_Some (digit_of c)) | EmptyString => false end.
Lemma plain_decimal n : srange 12 n -> plain (signed_decimal n) = true.
Proof.
  intros Hn. assert (H : forallb (fun n => plain (signed_decimal n)) decimals = true) by by vm_compute.
  rewrite forallb_forall in H. by apply H, in_decimals.
Qed.
Lemma plain_free s : plain s = true ->
  drop_while blank s = s /\ starts_with "%" s = false /\ skip_open s 0 = (s, 0%nat).
Proof. destruct s as [|c s]; [done|]. destruct c as [[] [] [] [] [] [] [] []]; done. Qed.

Lemma register_text r : urange 5 r -> "x" ++ signed_decimal r = CustomText.name_of riscv_gpr_names_numeric r.
Proof.
  intros Hr. assert (H : forallb (fun r => String.eqb ("x" ++ signed_decimal r) (CustomText.name_of riscv_gpr_names_numeric r))
    Isa.registers = true) by by vm_compute.
  apply (Isa.forall_registers _ r) in H; [|done]. by apply String.eqb_eq.
Qed.

(** * The rows *)

Definition row_lui : riscv_opcode := row "lui" 0 INSN_CLASS_I "d,u" MATCH_LUI MASK_LUI match_opcode 0.
Definition row_addi : riscv_opcode := row "addi" 0 INSN_CLASS_I "d,s,j" MATCH_ADDI MASK_ADDI match_opcode 0.
Definition row_li : riscv_opcode :=
  row "li" 0 INSN_CLASS_I "d,j" MATCH_ADDI (Z.lor MASK_ADDI MASK_RS1) match_opcode INSN_ALIAS.
Definition row_li_macro : riscv_opcode := row "li" 0 INSN_CLASS_I "d,I" 0 M_LI match_never INSN_MACRO.

(** The words built on them match them. *)
Lemma rows_match rd rs :
  Match.call row_lui (Custom.insert_bits MATCH_LUI rd 0x1f 7) = true /\
  Match.call row_addi (Custom.insert_bits (Custom.insert_bits MATCH_ADDI rd 0x1f 7) rs 0x1f 15) = true /\
  Match.call row_li (Custom.insert_bits MATCH_ADDI rd 0x1f 7) = true.
Proof.
  split_and!.
  - change (Match.opcode row_lui (Custom.insert_bits (match_bits row_lui) rd (Z.ones 5) 7) = true).
    rewrite Custom.opcode_insert by done. apply Custom.opcode_self.
  - change (Match.opcode row_addi (Custom.insert_bits (Custom.insert_bits (match_bits row_addi) rd (Z.ones 5) 7) rs (Z.ones 5) 15) = true).
    rewrite !Custom.opcode_insert by (done || by apply Custom.insert_bits_range). apply Custom.opcode_self.
  - change (Match.opcode row_li (Custom.insert_bits (match_bits row_li) rd (Z.ones 5) 7) = true).
    rewrite Custom.opcode_insert by done. apply Custom.opcode_self.
Qed.

(** * Reading the lines *)

Section Read.
Context (expression : bool -> string -> expressionS * string).
Context (strtof : string -> spec_float * bool * string).
Context (reloc_supported : reloc -> bool).
Context (outside : ascii -> Z) (g : AsmRegs.settings).
Context (He : AsmRegs.supports outside g "e" = false).
Abbreviation ops := (operands expression strtof reloc_supported outside g).

Lemma skip_plain st : plain (asarg st) = true -> skip_blanks st = st.
Proof. intros H. unfold skip_blanks. rewrite (proj1 (plain_free _ H)). by destruct st. Qed.
Lemma skip_space s st : plain s = true -> asarg st = String " " s -> skip_blanks st = st <| asarg := s |>.
Proof. intros H Ha. unfold skip_blanks. rewrite Ha. cbn [drop_while blank]. by rewrite (proj1 (plain_free _ H)). Qed.

Lemma ops_register c sh r op fuel oparg rest st :
  (c, sh) ∈ CustomText.register_letters -> urange 5 r -> asarg st = "x" ++ signed_decimal r ++ rest ->
  rest = "" \/ (exists t, rest = String "," t) ->
  ops op (S fuel) (String c oparg) st = ops op fuel oparg (insert 0x1f sh r (st <| asarg := rest |>)).
Proof.
  intros Hc Hr Ha Hrest.
  assert (Hop : forall st, operand expression strtof reloc_supported outside g (String c oparg) st = gpr_operand outside g 0x1f sh oparg st)
    by (intros; by CustomText.by_register Hc).
  cbn [operands]. rewrite Hop.
  rewrite (CustomText.gpr_reads outside g riscv_gpr_names_numeric (or_intror eq_refl) He 0x1f sh oparg r rest st); try done.
  rewrite Ha, <- (register_text r Hr). by rewrite <- CustomText.string_assoc.
Qed.
Lemma ops_space op fuel oparg t st :
  asarg st = String " " t -> ops op fuel oparg st = ops op fuel oparg (st <| asarg := t |>).
Proof.
  intros Ha. assert (E : skip_blanks st = skip_blanks (st <| asarg := t |>)) by (unfold skip_blanks; rewrite Ha; by destruct st).
  destruct fuel; cbn [operands]; by rewrite E.
Qed.
Lemma ops_comma op fuel oparg t st :
  asarg st = String "," t -> ops op (S fuel) (String "," oparg) st = ops op fuel oparg (st <| asarg := t |>).
Proof. intros Ha. cbn [operands operand]. by rewrite (CustomText.skip_comma_free t st Ha), Ha. Qed.

(** A number where an immediate is read. *)
Lemma small_plain s n st : plain s = true -> expression true s = (Expr O_constant n "", "") -> asarg st = s ->
  my_getSmallExpression expression reloc_supported st = (0, st <| imm_expr := Expr O_constant n "" |> <| expr_parse_end := "" |>).
Proof.
  intros Hp Hx Ha. destruct (plain_free s Hp) as (_ & Hpc & Ho).
  unfold my_getSmallExpression, small_expression. rewrite Ha, Ho, Hpc. unfold crux_expression. rewrite Hpc.
  cbn [Nat.eqb andb Z.eqb]. unfold my_getExpression. rewrite Hx. by destruct st.
Qed.

(** The number of [lui]. *)
Lemma ops_upper op fuel s n st :
  plain s = true -> expression true s = (Expr O_constant n "", "") -> asarg st = String " " s -> urange 20 n ->
  ops op (S fuel) "u" st =
  finish outside g op (st <| asarg := "" |> <| p := percent_op_utype |> <| expr_parse_end := "" |>
    <| imm_expr := Expr O_constant (sgn 64 (Z.shiftl n RISCV_IMM_BITS)) "" |> <| imm_reloc := RISCV_HI20 |>).
Proof.
  intros Hp Hx Ha [H0 H1]. cbn [operands]. rewrite (skip_space s st Hp Ha).
  unfold operand. cbv iota. rewrite (small_plain s n); [|exact Hp|exact Hx|by destruct st].
  assert (Hb : between 0 (2 ^ 20 - 1) n = true) by (unfold between; rewrite andb_true_iff, !Z.leb_le; lia).
  destruct st. cbn in *. rewrite Hb. cbn. destruct fuel; reflexivity.
Qed.

(** [normalize_constant_expr] of a constant. *)
Definition normal (n : Z) : Z :=
  if negb (32 <? AsmRegs.xlen g) && is_zext_32bit_num n then Z.lxor (Z.land n 0xffffffff) 0x80000000 - 0x80000000 else n.
Lemma normalize_constant n s st :
  imm_expr st = Expr O_constant n s -> normalize_constant_expr g st = st <| imm_expr := Expr O_constant (normal n) s |>.
Proof.
  intros Hi. unfold normalize_constant_expr, normal. destruct st as [? ? ie ? ? ? ? ? ?]. cbn in Hi. subst ie.
  destruct (32 <? AsmRegs.xlen g); [done|]. cbn. rewrite bool_decide_eq_true_2 by by left. cbn.
  by destruct (is_zext_32bit_num n).
Qed.

Lemma normal_small n : AsmRegs.xlen g = 32 -> srange 12 n -> normal n = n.
Proof.
  intros Hx Hn. unfold normal. rewrite Hx. cbn [negb andb Z.ltb Z.compare Pos.compare Pos.compare_cont].
  assert (H : forallb (fun n => (if is_zext_32bit_num n then Z.lxor (Z.land n 0xffffffff) 0x80000000 - 0x80000000 else n) =? n) decimals = true)
    by by vm_compute.
  rewrite forallb_forall in H. by apply Z.eqb_eq, H, in_decimals.
Qed.

(** The number of [addi]: accepted if it fits twelve bits. *)
Lemma ops_lower op fuel s n st :
  plain s = true -> expression true s = (Expr O_constant n "", "") -> skip_blanks st = st <| asarg := s |> ->
  ops op (S fuel) "j" st =
  if decide (srange 12 (normal n)) then
    finish outside g op (st <| asarg := "" |> <| p := percent_op_itype |> <| imm_reloc := RISCV_LO12_I |>
      <| expr_parse_end := "" |> <| imm_expr := Expr O_constant (normal n) "" |>)
  else Refused None (st <| asarg := s |> <| p := percent_op_itype |> <| imm_reloc := RISCV_LO12_I |>
      <| expr_parse_end := "" |> <| imm_expr := Expr O_constant (normal n) "" |>).
Proof.
  intros Hp Hx Ha. cbn [operands]. rewrite Ha. unfold operand. cbv iota. unfold alu_op.
  rewrite (small_plain s n); [|exact Hp|exact Hx|by destruct st]. cbn [Z.eqb negb].
  rewrite (normalize_constant n "") by done. unfold value, constant. cbn [imm_expr X_add_number X_op].
  rewrite bool_decide_eq_true_2 by done. cbn [negb orb andb Ascii.eqb Bool.eqb].
  match goal with |- context [X_add_number ?x] => change (X_add_number x) with (normal n) end.
  destruct (decide (srange 12 (normal n))) as [Hr|Hr]; unfold srange in Hr.
  - change (2 ^ (12 - 1)) with (2 ^ 12 / 2) in Hr.
    rewrite (proj2 (Z.leb_gt (2 ^ 12 / 2) (normal n))), (proj2 (Z.ltb_ge (normal n) (- (2 ^ 12 / 2)))) by lia.
    destruct st. cbn. destruct fuel; reflexivity.
  - change (2 ^ (12 - 1)) with (2 ^ 12 / 2) in Hr.
    assert (E : (2 ^ 12 / 2 <=? normal n) || (normal n <? - (2 ^ 12 / 2)) = true).
    { destruct (Z.leb_spec (2 ^ 12 / 2) (normal n)); [done|]. cbn [orb]. apply Z.ltb_lt. lia. }
    rewrite E. by destruct st.
Qed.

(** The instruction word, the immediate and its relocation, without a message. *)
Definition assembled_as (op : riscv_opcode) (w n : Z) (r : reloc) (a : attempt) : Prop :=
  exists st, a = Assembled st /\ insn_opcode st = w /\ imm_expr st = Expr O_constant n "" /\ imm_reloc st = r /\ messages st = [].

Lemma finish_word op st n r :
  pinfo op <> INSN_MACRO -> Z.land (pinfo op) INSN_V_EEW64 = 0 -> Match.call op (insn_opcode st) = true ->
  match_bits op <> 0 -> Disasm.riscv_insn_length (match_bits op) = 4 ->
  asarg st = "" -> insn_with_csr st = false -> messages st = [] -> imm_expr st = Expr O_constant n "" -> imm_reloc st = r ->
  assembled_as op (insn_opcode st) n r (finish outside g op st).
Proof.
  intros Hp Hv Hm H0 Hl Ha Hc Hms Hi Hr. unfold finish. apply Z.eqb_neq in Hp, H0. rewrite Hp, Hm, H0, Hv. cbn [andb negb Z.eqb].
  rewrite Hl. cbn [Z.eqb Pos.eqb andb]. destruct st as [? ? ? ? ? ? ? ? ?]. cbn in *. subst.
  destruct (riscv_is_priv_insn _); cbn; eexists; (split; [reflexivity|done]).
Qed.
Lemma finish_macro op st n r :
  pinfo op = INSN_MACRO -> asarg st = "" -> messages st = [] -> imm_expr st = Expr O_constant n "" -> imm_reloc st = r ->
  assembled_as op (insn_opcode st) n r (finish outside g op st).
Proof.
  intros Hp Ha Hms Hi Hr. unfold finish. rewrite Hp. cbn [Z.eqb Pos.eqb]. rewrite Ha. cbn. eexists. split; [reflexivity|].
  by destruct st.
Qed.

Context (Hi : AsmRegs.supports outside g "i" = true).
Context (Hc : Subsets.riscv_multi_subset_supports outside (AsmRegs.subsets g) INSN_CLASS_C = false).
Abbreviation tries := (try_entries expression strtof reloc_supported outside g).

(** Rows of the compressed extension are passed over. *)
Lemma skip_compressed op insns start e last st :
  xlen_requirement op = 0 -> insn_class op = INSN_CLASS_C ->
  exists e', tries (op :: insns) start e last st = tries insns start e' last st.
Proof. intros Hx Hcl. cbn [try_entries]. rewrite Hx, Hcl, Hc. cbn. by eexists. Qed.

(** A base row is tried. *)
Lemma try_base op insns start e last st :
  xlen_requirement op = 0 -> insn_class op = INSN_CLASS_I ->
  tries (op :: insns) start e last st =
  match ops op (String.length (args op)) (args op) (reset op start st) with
  | Assembled st => Returned (Error None None) (Some op) st
  | Refused m st =>
      tries insns start (match m with Some _ => Error m None | None => Error (Some "illegal operands") None end) (Some op)
        (st <| insn_with_csr := false |>)
  | Fatal => Died
  | Past_end => Read_past_end
  end.
Proof.
  intros Hx Hcl. cbn [try_entries]. rewrite Hx, Hcl.
  change (Subsets.riscv_multi_subset_supports outside (AsmRegs.subsets g) INSN_CLASS_I) with (AsmRegs.supports outside g "i").
  rewrite Hi. cbn [negb andb Z.eqb]. destruct (ops op _ _ _) as [|m ? | |]; try done.
Qed.
Definition compressed (op : riscv_opcode) : Prop := xlen_requirement op = 0 /\ insn_class op = INSN_CLASS_C.
Lemma skip_prefix pre insns start e last st :
  Forall compressed pre -> exists e', tries (pre ++ insns) start e last st = tries insns start e' last st.
Proof.
  intros Hp. revert e. induction Hp as [|op pre [Hx Hcl] _ IH]; intros e; [by exists e|].
  destruct (skip_compressed op (pre ++ insns) start e last st Hx Hcl) as [e1 H1]. cbn [app]. rewrite H1. apply IH.
Qed.

(** The rows of a mnemonic: compressed ones, then these. *)
Definition rows_end (nm : string) (rows : list riscv_opcode) : bool :=
  let l := Assembler.entries nm Table.riscv_opcodes in
  let pre := take (length l - length rows) l in
  bool_decide (l = (pre ++ rows)%list) && forallb (fun op => bool_decide (compressed op)) pre.
Lemma rows_checked : rows_end "lui" [row_lui] && rows_end "addi" [row_addi] && rows_end "li" [row_li; row_li_macro] = true.
Proof. by vm_compute. Qed.

Context (h : list (string * list riscv_opcode)).
Context (Hh : forall nm, Assembler.candidates nm h = Assembler.entries nm Table.riscv_opcodes).

Lemma ip_rows nm rows start st :
  rows_end nm rows = true -> CustomText.no_space nm = true ->
  exists e, riscv_ip expression strtof reloc_supported outside g h (nm ++ String " " start) st = tries rows start e None st.
Proof.
  intros Hr Hn. apply andb_prop in Hr as [Hl Hp]. apply bool_decide_eq_true in Hl.
  unfold riscv_ip. rewrite (CustomText.split_name nm " " start Hn eq_refl), Hh, Hl.
  apply skip_prefix. apply Forall_forall. intros op Hin. rewrite forallb_forall in Hp.
  specialize (Hp op (proj1 (list_elem_of_In _ _) Hin)). by apply bool_decide_eq_true in Hp.
Qed.

(** The answer of [riscv_ip]. *)
Definition answered_as (op : riscv_opcode) (w n : Z) (r : reloc) (res : ip_result) : Prop :=
  exists st, res = Returned (Error None None) (Some op) st /\
    insn_opcode st = w /\ imm_expr st = Expr O_constant n "" /\ imm_reloc st = r /\ messages st = [].
Lemma try_answered op insns start e last st w n r :
  xlen_requirement op = 0 -> insn_class op = INSN_CLASS_I ->
  assembled_as op w n r (ops op (String.length (args op)) (args op) (reset op start st)) ->
  answered_as op w n r (tries (op :: insns) start e last st).
Proof. intros Hx Hcl (st' & E & H). rewrite try_base, E by done. by exists st'. Qed.

Lemma read_lui rd n pe pa :
  urange 5 rd -> urange 20 n -> expression true ("0x" ++ hex n) = (Expr O_constant n "", "") ->
  answered_as row_lui (Custom.insert_bits MATCH_LUI rd 0x1f 7) (sgn 64 (Z.shiftl n RISCV_IMM_BITS)) RISCV_HI20
    (riscv_ip expression strtof reloc_supported outside g h (LoadConst.text 32 (LoadConst.Lui rd n)) (initial pe pa)).
Proof.
  intros Hrd Hn Hx. pose proof rows_checked as Hrows. apply andb_prop in Hrows as [Hrows _]. apply andb_prop in Hrows as [Hrows _].
  destruct (ip_rows "lui" [row_lui] (("x" ++ signed_decimal rd) ++ ", 0x" ++ hex n) (initial pe pa) Hrows eq_refl) as [e E].
  change (LoadConst.text 32 (LoadConst.Lui rd n)) with ("lui" ++ String " " (("x" ++ signed_decimal rd) ++ ", 0x" ++ hex n)).
  rewrite E. clear E. apply try_answered; [done|done|]. change (String.length (args row_lui)) with 3%nat.
  change (args row_lui) with "d,u".
  rewrite (ops_register "d"%char 7 rd row_lui 2 ",u" (", 0x" ++ hex n));
    [|by apply list_elem_of_here|done|by rewrite CustomText.string_assoc|right; by eexists].
  rewrite (ops_comma row_lui 1 "u" (" 0x" ++ hex n)) by done.
  rewrite (ops_upper row_lui 0 ("0x" ++ hex n) n) by done.
  apply (finish_word row_lui); [discriminate|reflexivity|exact (proj1 (rows_match rd 0))|discriminate|reflexivity..].
Qed.

(** [addi rd, rs, n] on RV32. *)
Lemma read_addi rd rs n pe pa :
  AsmRegs.xlen g = 32 -> urange 5 rd -> urange 5 rs -> srange 12 n -> expression true (signed_decimal n) = (Expr O_constant n "", "") ->
  answered_as row_addi (Custom.insert_bits (Custom.insert_bits MATCH_ADDI rd 0x1f 7) rs 0x1f 15) n RISCV_LO12_I
    (riscv_ip expression strtof reloc_supported outside g h (LoadConst.text 32 (LoadConst.Addi rd rs n)) (initial pe pa)).
Proof.
  intros Hxl Hrd Hrs Hn Hx. pose proof rows_checked as Hrows. apply andb_prop in Hrows as [Hrows _]. apply andb_prop in Hrows as [_ Hrows].
  set (imm := ", " ++ signed_decimal n). set (start := ("x" ++ signed_decimal rd) ++ ", " ++ ("x" ++ signed_decimal rs) ++ imm).
  destruct (ip_rows "addi" [row_addi] start (initial pe pa) Hrows eq_refl) as [e E].
  change (LoadConst.text 32 (LoadConst.Addi rd rs n)) with ("addi" ++ String " " start).
  rewrite E. clear E. apply try_answered; [done|done|]. change (String.length (args row_addi)) with 5%nat.
  change (args row_addi) with "d,s,j".
  rewrite (ops_register "d"%char 7 rd row_addi 4 ",s,j" (", " ++ ("x" ++ signed_decimal rs) ++ imm));
    [|by apply list_elem_of_here|done|unfold start; by rewrite CustomText.string_assoc|right; by eexists].
  rewrite (ops_comma row_addi 3 "s,j" (" " ++ ("x" ++ signed_decimal rs) ++ imm)) by done.
  rewrite (ops_space row_addi 3 "s,j" (("x" ++ signed_decimal rs) ++ imm)) by done.
  rewrite (ops_register "s"%char 15 rs row_addi 2 ",j" imm);
    [|by apply list_elem_of_further, list_elem_of_here|done|by rewrite CustomText.string_assoc|right; by eexists].
  rewrite (ops_comma row_addi 1 "j" (" " ++ signed_decimal n)) by done.
  rewrite (ops_lower row_addi 0 (signed_decimal n) n);
    [|by apply plain_decimal|done|by apply (skip_space (signed_decimal n)); [apply plain_decimal|]].
  rewrite (normal_small n Hxl Hn). rewrite decide_True by done. apply (finish_word row_addi); [discriminate|reflexivity|exact (proj1 (proj2 (rows_match rd rs)))|discriminate|reflexivity..].
Qed.

(** The number of [li]. *)
Lemma ops_any op fuel s n st :
  plain s = true -> expression true s = (Expr O_constant n "", "") -> asarg st = s ->
  ops op (S fuel) "I" st =
  finish outside g op (st <| asarg := "" |> <| expr_parse_end := "" |> <| imm_expr := Expr O_constant (normal n) "" |>).
Proof.
  intros Hp Hx Ha. cbn [operands]. rewrite (skip_plain st) by by rewrite Ha. unfold operand. cbv iota zeta.
  unfold my_getExpression. rewrite Ha, Hx. cbv iota zeta.
  rewrite bool_decide_eq_false_2 by (cbn; tauto). rewrite (normalize_constant n "") by done.
  destruct st. cbn. destruct fuel; reflexivity.
Qed.

(** [li rd,s]: the row of [addi] if the number fits, else the macro. *)
Definition li_statement (rd : Z) (s : string) : string := "li" ++ String " " ("x" ++ signed_decimal rd ++ String "," s).
Lemma read_li rd s n pe pa :
  urange 5 rd -> plain s = true -> expression true s = (Expr O_constant n "", "") ->
  let res := riscv_ip expression strtof reloc_supported outside g h (li_statement rd s) (initial pe pa) in
  if decide (srange 12 (normal n))
  then answered_as row_li (Custom.insert_bits MATCH_ADDI rd 0x1f 7) (normal n) RISCV_LO12_I res
  else answered_as row_li_macro (Custom.insert_bits 0 rd 0x1f 7) (normal n) RELOC_UNUSED res.
Proof.
  intros Hrd Hp Hx res. subst res. pose proof rows_checked as Hrows. apply andb_prop in Hrows as [_ Hrows].
  set (start := "x" ++ signed_decimal rd ++ String "," s).
  destruct (ip_rows "li" [row_li; row_li_macro] start (initial pe pa) Hrows eq_refl) as [e E].
  unfold li_statement. fold start. rewrite E. clear E.
  assert (Hj : ops row_li 3 "d,j" (reset row_li start (initial pe pa)) =
    ops row_li 1 "j" (insert 0x1f 7 rd (reset row_li start (initial pe pa) <| asarg := String "," s |>) <| asarg := s |>)).
  { rewrite (ops_register "d"%char 7 rd row_li 2 ",j" (String "," s)); [|by apply list_elem_of_here|done|done|right; by eexists].
    by rewrite (ops_comma row_li 1 "j" s). }
  rewrite (ops_lower row_li 0 s n) in Hj; [|done|done|by apply skip_plain].
  destruct (decide (srange 12 (normal n))) as [Hs|Hs].
  - apply try_answered; [done|done|]. change (String.length (args row_li)) with 3%nat. change (args row_li) with "d,j".
    rewrite Hj. apply (finish_word row_li); [discriminate|reflexivity|exact (proj2 (proj2 (rows_match rd 0)))|discriminate|reflexivity..].
  - rewrite try_base by done. change (String.length (args row_li)) with 3%nat. change (args row_li) with "d,j".
    rewrite Hj. cbv iota. apply try_answered; [done|done|]. change (String.length (args row_li_macro)) with 3%nat.
    change (args row_li_macro) with "d,I".
    match goal with |- assembled_as _ _ _ _ (ops _ _ _ (reset _ _ ?t)) => set (st1 := t) end.
    rewrite (ops_register "d"%char 7 rd row_li_macro 2 ",I" (String "," s)); [|by apply list_elem_of_here|done|done|right; by eexists].
    rewrite (ops_comma row_li_macro 1 "I" s) by done.
    rewrite (ops_any row_li_macro 0 s n) by done. by apply (finish_macro row_li_macro).
Qed.
End Read.

(** * The words *)

Lemma lui_word rd n : urange 5 rd -> urange 20 n ->
  fixed_word (Fixup row_lui (Custom.insert_bits MATCH_LUI rd 0x1f 7) (Expr O_constant (sgn 64 (Z.shiftl n RISCV_IMM_BITS)) "") RISCV_HI20) =
  Some (Isa.encode (LoadConst.instr32 (LoadConst.Lui rd n))).
Proof.
  intros Hr Hn. assert (H : forallb (fun r => Custom.insert_bits MATCH_LUI r 0x1f 7 =? Isa.fields 0x37 r 0 0 0 0) Isa.registers = true) by by vm_compute.
  apply (Isa.forall_registers _ rd) in H; [|done]. apply Z.eqb_eq in H.
  assert (Hv : sgn 64 (Z.shiftl n RISCV_IMM_BITS) = n * 2 ^ 12).
  { change RISCV_IMM_BITS with 12. rewrite Z.shiftl_mul_pow2 by lia. apply sgn_small; [lia|]. unfold srange, urange in *. word_pows. lia. }
  unfold fixed_word. cbn [X_op X_add_number riscv_apply_const_reloc].
  rewrite bool_decide_eq_true_2 by (split; [done|by left]). cbn [mbind option_bind]. f_equal.
  cbn [LoadConst.instr32 Isa.encode]. rewrite H, Z.lor_comm, Hv. f_equal.
  assert (Hh : RISCV_CONST_HIGH_PART (n * 2 ^ 12) = n * 2 ^ 12).
  { unfold RISCV_CONST_HIGH_PART. change (2 ^ RISCV_IMM_BITS - 1) with (Z.ones 12). rewrite <- Z.ldiff_land, Z.ldiff_ones_r by lia.
    rewrite Z.shiftl_mul_pow2, Z.shiftr_div_pow2 by lia. f_equal. change (2 ^ RISCV_IMM_BITS / 2) with 2048.
    rewrite Z.div_add_l by lia. change (2048 / 2 ^ 12) with 0. lia. }
  rewrite Hh. unfold ENCODE_UTYPE_IMM. f_equal. unfold RV_X. apply Z.bits_inj'. intros i Hi.
  rewrite !Z.land_spec, !Z.shiftr_spec by done. change (Z.shiftl 1 20 - 1) with (Z.ones 20).
  destruct (Z.ltb_spec i 20) as [Hlt|Hge]; [|by rewrite (Z.ones_spec_high 20 i), !andb_false_r by lia].
  rewrite testbit_sgn by lia. by rewrite Z.min_l by lia.
Qed.

Lemma addi_word rd rs n : urange 5 rd -> urange 5 rs ->
  fixed_word (Fixup row_addi (Custom.insert_bits (Custom.insert_bits MATCH_ADDI rd 0x1f 7) rs 0x1f 15) (Expr O_constant n "") RISCV_LO12_I) =
  Some (Isa.encode (LoadConst.instr32 (LoadConst.Addi rd rs n))).
Proof.
  intros Hr Hs. assert (H : forallb (fun r => forallb (fun s =>
      Custom.insert_bits (Custom.insert_bits MATCH_ADDI r 0x1f 7) s 0x1f 15 =? Isa.fields 0x13 r 0 s 0 0) Isa.registers) Isa.registers = true) by by vm_compute.
  apply (Isa.forall_registers _ rd) in H; [|done]. apply (Isa.forall_registers _ rs) in H; [|done].
  apply Z.eqb_eq in H. unfold fixed_word. cbn [X_op X_add_number riscv_apply_const_reloc].
  rewrite bool_decide_eq_true_2 by (split; [done|right; by left]). cbn [mbind option_bind]. f_equal.
  rewrite H. apply Z.lor_comm.
Qed.

(** * [li] *)

Section Li.
Context (expression : bool -> string -> expressionS * string).
Context (strtof : string -> spec_float * bool * string).
Context (reloc_supported : reloc -> bool) (Hsup : forall r, reloc_supported r = true).
Context (outside : ascii -> Z) (g : AsmRegs.settings).
Context (Hx : AsmRegs.xlen g = 32) (Hi : AsmRegs.supports outside g "i" = true) (He : AsmRegs.supports outside g "e" = false).
Context (Hc : Subsets.riscv_multi_subset_supports outside (AsmRegs.subsets g) INSN_CLASS_C = false).
Context (h : list (string * list riscv_opcode)).
Context (Hh : forall nm, Assembler.candidates nm h = Assembler.entries nm Table.riscv_opcodes).
Context (abi_xlen : Z) (pic absolute : bool).
Context (Hhex : forall n, urange 20 n -> expression true ("0x" ++ hex n) = (Expr O_constant n "", "")).
Context (Hdec : forall n, srange 12 n -> expression true (signed_decimal n) = (Expr O_constant n "", "")).
Abbreviation assemble := (md_assemble expression strtof reloc_supported outside g h abi_xlen pic absolute).

(** A macro's answer. *)
Lemma assemble_macro fuel str op st c l :
  riscv_ip expression strtof reloc_supported outside g h str (initial c.1 c.2) = Returned (Error None None) (Some op) st ->
  pinfo op = INSN_MACRO -> messages st = [] ->
  macro h reloc_supported (AsmRegs.xlen g) abi_xlen pic absolute op (insn_opcode st) (imm_expr st) (imm_reloc st) = Some [Lines l] ->
  assemble (S fuel) str c = assemble_lines g (assemble fuel) l (expr_parse_end st, explicit_priv_attr st).
Proof.
  intros E Hp Hm Hmac. cbn [md_assemble]. rewrite E. cbn [msg]. rewrite Hp. cbn [Z.eqb Pos.eqb]. rewrite Hmac, Hm.
  cbn [mbind option_bind expand map app fst snd].
  destruct (assemble_lines g (assemble fuel) l _) as [[es c']|]; [|done]. cbn. by rewrite app_nil_r.
Qed.

(** An answer with a constant becomes a fixup. *)
Lemma assemble_answered fuel str op w n r c :
  answered_as op w n r (riscv_ip expression strtof reloc_supported outside g h str (initial c.1 c.2)) ->
  pinfo op <> INSN_MACRO -> r = RISCV_HI20 \/ r = RISCV_LO12_I ->
  exists c', assemble (S fuel) str c = Some ([Fixup op w (Expr O_constant n "") r], c').
Proof.
  intros (st & E & Hw & Hie & Hr & Hm) Hp Hrel. cbn [md_assemble]. rewrite E. cbn [msg]. apply Z.eqb_neq in Hp. rewrite Hp, Hw, Hie, Hr, Hm.
  unfold append_insn. destruct Hrel as [-> | ->]; cbn; rewrite Hsup; by eexists.
Qed.

Lemma assemble_line reg i fuel c : urange 5 reg -> LoadConst.base_line reg i ->
  exists e c', assemble (S fuel) (LoadConst.text 32 i) c = Some ([e], c') /\ fixed_word e = Some (Isa.encode (LoadConst.instr32 i)).
Proof.
  intros Hr Hb. destruct i as [rd n|rd rs n|rd rs n| | |]; try done.
  - destruct Hb as [-> Hn]. eexists.
    destruct (assemble_answered fuel (LoadConst.text 32 (LoadConst.Lui reg n)) row_lui _ _ _ c
      (read_lui expression strtof reloc_supported outside g He Hi Hc h Hh reg n c.1 c.2 Hr Hn (Hhex n Hn))) as [c' ->];
      [done|by left|]. eexists. split; [reflexivity|]. by apply lui_word.
  - destruct Hb as (-> & Hrs & Hn). assert (Hrs' : urange 5 rs) by (destruct Hrs as [-> | ->]; [done|by split]). eexists.
    destruct (assemble_answered fuel (LoadConst.text 32 (LoadConst.Addi reg rs n)) row_addi _ _ _ c
      (read_addi expression strtof reloc_supported outside g He Hi Hc h Hh reg rs n c.1 c.2 Hx Hr Hrs' Hn (Hdec n Hn))) as [c' E];
      [done|by right|]. change (LoadConst.text 32 (LoadConst.Add32 reg rs n)) with (LoadConst.text 32 (LoadConst.Addi reg rs n)).
    rewrite E. eexists. split; [reflexivity|]. by apply addi_word.
Qed.

Lemma assemble_all reg l fuel c : urange 5 reg -> Forall (LoadConst.base_line reg) l ->
  exists es c', assemble_lines g (assemble (S fuel)) l c = Some (es, c') /\
    mapM fixed_word es = Some (map Isa.encode (map LoadConst.instr32 l)).
Proof.
  intros Hr Hl. revert c. induction Hl as [|i l Hb _ IH]; intros c; [by exists [], c|].
  destruct (assemble_line reg i fuel c Hr Hb) as (e & c1 & E & Hw). destruct (IH c1) as (es & c2 & El & Hws).
  exists (e :: es), c2. cbn [assemble_lines]. rewrite Hx, E. cbn [mbind option_bind snd fst]. rewrite El. split; [done|].
  cbn [mapM mbind option_bind]. rewrite Hw. cbn [mbind option_bind]. change (mapM fixed_word es) with (mapM fixed_word es). by rewrite Hws.
Qed.

Lemma normal_rv32 n : normal g n = if is_zext_32bit_num n then sgn 32 n else n.
Proof.
  unfold normal. rewrite Hx. cbn [negb andb Z.ltb Z.compare Pos.compare Pos.compare_cont]. destruct (is_zext_32bit_num n); [|done].
  change 0xffffffff with (Z.ones 32). change 0x80000000 with (2 ^ (32 - 1)). rewrite Z.land_ones by lia. fold (wrap 32 n).
  rewrite LoadConst.lxor_sign by (done || by apply wrap_range). by rewrite sgn_wrap.
Qed.
Lemma normal_range n : srange 64 n -> srange 64 (normal g n).
Proof.
  intros Hn. rewrite normal_rv32. destruct (is_zext_32bit_num n); [|done]. pose proof (sgn_range 32 n ltac:(lia)). unfold srange in *. word_pows. lia.
Qed.
Lemma normal_wrap n : wrap 32 (normal g n) = wrap 32 n.
Proof. rewrite normal_rv32. destruct (is_zext_32bit_num n); [|done]. by apply wrap_sgn. Qed.

(** What [li] is to do, as output of the assembler. *)
Definition loads_constant (reg v : Z) (o : option (list emission * kept)) : Prop :=
  exists es c l, o = Some (es, c) /\ mapM fixed_word es = Some (map Isa.encode l) /\ (length l <= 2)%nat /\ Forall Isa.valid l /\
    forall a, LoadConst.sets reg (wrap 32 v) (length l) a (Isa.steps l a).

Lemma li_row reg n : urange 5 reg -> reg <> 0 -> srange 12 n ->
  fixed_word (Fixup row_li (Custom.insert_bits MATCH_ADDI reg 0x1f 7) (Expr O_constant n "") RISCV_LO12_I) =
    Some (Isa.encode (Isa.OpImm Isa.ADD reg 0 n)) /\
  Isa.valid (Isa.OpImm Isa.ADD reg 0 n) /\
  forall a, LoadConst.sets reg (wrap 32 n) 1 a (Isa.steps [Isa.OpImm Isa.ADD reg 0 n] a).
Proof.
  intros Hr H0 Hn. split; [|split].
  - change (Isa.OpImm Isa.ADD reg 0 n) with (LoadConst.instr32 (LoadConst.Addi reg 0 n)).
    rewrite <- (addi_word reg 0 n Hr ltac:(by split)). assert (H : forallb (fun r =>
      Custom.insert_bits (Custom.insert_bits MATCH_ADDI r 0x1f 7) 0 0x1f 15 =? Custom.insert_bits MATCH_ADDI r 0x1f 7) Isa.registers = true)
      by by vm_compute.
    apply (Isa.forall_registers _ reg) in H; [|done]. apply Z.eqb_eq in H. rewrite H. reflexivity.
  - split; [done|]. split; [by split|]. split; [discriminate|]. apply (proj1 (base_immediates_encodable n)).
    by split; [|apply Z.mod_1_r].
  - intros a. apply LoadConst.sets_one. cbn. by rewrite Z.add_0_l, wrap_wrap by lia.
Qed.

Lemma li_loads_constant reg s v c :
  urange 5 reg -> reg <> 0 -> srange 64 v -> plain s = true -> expression true s = (Expr O_constant v "", "") ->
  loads_constant reg v (assemble 2 (li_statement reg s) c).
Proof.
  intros Hr H0 Hv Hp Hs. pose proof (read_li expression strtof reloc_supported outside g He Hi Hc h Hh reg s v c.1 c.2 Hr Hp Hs) as Hip.
  cbv zeta in Hip. destruct (decide (srange 12 (normal g v))) as [Hn|Hn].
  - destruct (assemble_answered 1 _ row_li _ _ _ c Hip) as [c' E]; [done|by right|].
    destruct (li_row reg (normal g v) Hr H0 Hn) as (Hw & Hval & Hsem).
    exists [Fixup row_li (Custom.insert_bits MATCH_ADDI reg 0x1f 7) (Expr O_constant (normal g v) "") RISCV_LO12_I], c',
      [Isa.OpImm Isa.ADD reg 0 (normal g v)]. rewrite E. split; [done|].
    split; [cbn [mapM mbind option_bind]; by rewrite Hw|]. split; [cbn; lia|]. split; [by apply Forall_singleton|].
    rewrite <- normal_wrap. exact Hsem.
  - destruct Hip as (st & E & Hw & Hie & Hrel & Hm). set (zero := Isa.Arch 0 (fun _ => 0) (fun _ => 0) (fun _ => 0) 0 0 0 0 false).
    destruct (LoadConst.load_const_rv32 reg Hr H0 3 (normal g v) zero) as (l & El & Hlen & Hval & _).
    destruct (assemble_all reg l 0 (expr_parse_end st, explicit_priv_attr st) Hr (LoadConst.load_const_lines reg 3 _ _ El)) as (es & c' & Eas & Hws).
    exists es, c', (map LoadConst.instr32 l). split; [|split; [exact Hws|split; [by rewrite length_map|split; [exact Hval|]]]].
    + rewrite (assemble_macro 1 _ row_li_macro st c l E eq_refl Hm); [exact Eas|]. rewrite Hw, Hie, Hrel.
      assert (Hf : operand_field (Custom.insert_bits 0 reg 0x1f 7) OP_MASK_RD OP_SH_RD = reg).
      { assert (H : forallb (fun r => operand_field (Custom.insert_bits 0 r 0x1f 7) OP_MASK_RD OP_SH_RD =? r) Isa.registers = true) by by vm_compute.
        apply (Isa.forall_registers _ reg) in H; [|done]. by apply Z.eqb_eq. }
      unfold macro. change (mask row_li_macro) with 24. cbv zeta iota. rewrite Hf. unfold load_constant. cbn [X_op X_add_number].
      rewrite decide_True by done. by rewrite Hx, El.
    + intros a. destruct (LoadConst.load_const_rv32 reg Hr H0 3 (normal g v) a) as (l' & El' & _ & _ & Hsets).
      rewrite El in El'. injection El' as <-. by rewrite length_map, <- normal_wrap.
Qed.
End Li.

(** [C3] [li] from text to meaning: on RV32I without compressed instructions, [md_assemble] of
    [li xR,imm], for every register but [x0] and every 64-bit constant that the expression
    parser reads, comes back with one or two fixups and no message; their resolved words are
    the encodings of valid instructions of the core, and running them leaves the constant's
    low word in the register and changes nothing else. The intermediate lines that
    [load_const] prints are read back by the same assembler; the expression parser is any
    one that reads [0x%x] and [%d] numbers. *)
Theorem li_assembles expression strtof reloc_supported outside g h abi_xlen pic absolute reg s v c :
  Assembler.op_hash = Some h -> (forall r, reloc_supported r = true) ->
  AsmRegs.xlen g = 32 -> AsmRegs.supports outside g "i" = true -> AsmRegs.supports outside g "e" = false ->
  Subsets.riscv_multi_subset_supports outside (AsmRegs.subsets g) INSN_CLASS_C = false ->
  (forall n, urange 20 n -> expression true ("0x" ++ hex n) = (Expr O_constant n "", "")) ->
  (forall n, srange 12 n -> expression true (signed_decimal n) = (Expr O_constant n "", "")) ->
  urange 5 reg -> reg <> 0 -> srange 64 v -> plain s = true -> expression true s = (Expr O_constant v "", "") ->
  loads_constant reg v (md_assemble expression strtof reloc_supported outside g h abi_xlen pic absolute 2 (li_statement reg s) c).
Proof.
  intros Hh Hsup Hx Hi He Hc Hhex Hdec Hr H0 Hv Hp Hs.
  exact (li_loads_constant expression strtof reloc_supported Hsup outside g Hx Hi He Hc h
    (fun nm => AsmProofs.op_hash_entries h nm Hh) abi_xlen pic absolute Hhex Hdec reg s v c Hr H0 Hv Hp Hs).
Qed.

(** [li x5,0x12345678] on RV32IM. *)
Lemma li_assembles_witness :
  exists h, Assembler.op_hash = Some h /\
    loads_constant 5 0x12345678 (md_assemble constant_expression AsmProofs.no_float (fun _ => true) Subsets.zeros AsmProofs.rv32im h
      32 false false 2 "li x5,0x12345678" ("", false)).
Proof.
  destruct Assembler.op_hash_built as [h Hh]. exists h. split; [exact Hh|].
  apply (li_assembles constant_expression AsmProofs.no_float (fun _ => true) Subsets.zeros AsmProofs.rv32im h 32 false false
    5 "0x12345678" 0x12345678 ("", false) Hh).
  - reflexivity.
  - reflexivity.
  - vm_compute. reflexivity.
  - vm_compute. reflexivity.
  - vm_compute. reflexivity.
  - exact (reads_hex true).
  - exact (reads_decimal true).
  - vm_compute. split; [discriminate|reflexivity].
  - discriminate.
  - vm_compute. split; [discriminate|reflexivity].
  - vm_compute. reflexivity.
  - vm_compute. reflexivity.
Defined.
End Statements.
