(* ===== verification/Uart.v ===== *)
(** The serial port of [uart.v]: the transmit and receive state machines with their baud
    counters, and the bus response. The theorems: a frame is ten bit times of 434 clocks
    on the line, a receiver decides by the line at ten instants, and a byte sent by one
    port is what the other receives. *)

From S2P Require Import Prelude.

Module Uart.

Inductive tx_fsm := TX_IDLE | TX_START | TX_DATA | TX_STOP.
Inductive rx_fsm := RX_IDLE | RX_START | RX_DATA | RX_STOP.
Definition tx_code (st : tx_fsm) : Z :=
  match st with TX_IDLE => 0 | TX_START => 1 | TX_DATA => 2 | TX_STOP => 3 end.
Definition rx_code (st : rx_fsm) : Z :=
  match st with RX_IDLE => 0 | RX_START => 1 | RX_DATA => 2 | RX_STOP => 3 end.

Definition CLOCK_DIV : Z := 434.

Record inputs := Inputs
  { resetn : bool; rx : bool;
    req_valid : bool; req_addr : Z; req_write : bool; req_data : Z; resp_ready : bool }.

(** The registers, by the clocked block that writes them. *)
Record transmitter := Tx { tx_state : tx_fsm; tx_baud_counter : Z; tx_counter : Z; data_to_send : Z }.
Record receiver := Rx
  { rx_state : rx_fsm; rx_baud_counter : Z; rx_counter : Z; rx_byte : Z;
    rx_line_prev : bool; rx_byte_valid : bool }.
Record response := Resp { resp_data : Z; resp_valid : bool }.
Record state := State { transmit : transmitter; receive : receiver; respond : response }.

Section Port.
(** [config_loopback], a register that is only ever initialised, to 0; what the bits of
    [status] that nothing drives read as. *)
Context (config_loopback : bool) (undriven : Z).

(** * Wires *)

Definition req_ready (s : state) : bool := match tx_state (transmit s) with TX_IDLE => true | _ => false end.
Definition status (s : state) : Z :=
  Z.lor (Z.ldiff undriven 0x303)
    (Z.lor (tx_code (tx_state (transmit s))) (Z.shiftl (rx_code (rx_state (receive s))) 8)).
Definition tx_line (t : transmitter) : bool :=
  match tx_state t with
  | TX_IDLE => true
  | TX_START => false
  | TX_STOP => true
  | TX_DATA => Z.testbit (data_to_send t) (tx_counter t)
  end.
Definition tx (s : state) : bool := tx_line (transmit s).

(** * Clocked blocks *)

Definition respond_step (i : inputs) (s : state) : response :=
  let idle := Resp 0xdeadbeef false in
  if negb (resetn i) then idle
  else if req_valid i && resp_ready i then
    match req_addr i with
    | 0x04 => Resp ((if rx_byte_valid (receive s) then 2 ^ 8 else 0) + rx_byte (receive s)) true
    | 0x08 => Resp (status s) true
    | _ => idle
    end
  else idle.

(** A baud counter is ten bits wide. *)
Definition tick (n : Z) : Z := wrap 10 (n + 1).

Definition tx_step (i : inputs) (r : receiver) (t : transmitter) : transmitter :=
  let 'Tx st baud counter data := t in
  if negb (resetn i) then Tx TX_IDLE baud counter 0
  else
    match st with
    | TX_IDLE =>
        if config_loopback && rx_byte_valid r then Tx TX_START 0 0 (rx_byte r)
        else if negb config_loopback && req_valid i && req_write i && (req_addr i =? 0)
        then Tx TX_START 0 0 (slice 0 8 (req_data i))
        else t
    | TX_START => if baud =? CLOCK_DIV - 1 then Tx TX_DATA 0 counter data else Tx TX_START (tick baud) counter data
    | TX_DATA =>
        if baud =? CLOCK_DIV - 1 then
          if counter =? 7 then Tx TX_STOP 0 0 data else Tx TX_DATA 0 (wrap 3 (counter + 1)) data
        else Tx TX_DATA (tick baud) counter data
    | TX_STOP => if baud =? CLOCK_DIV - 1 then Tx TX_IDLE 0 counter data else Tx TX_STOP (tick baud) counter data
    end.

(** [rx_byte[c] <= v] *)
Definition put_bit (byte c : Z) (v : bool) : Z := if v then Z.setbit byte c else Z.clearbit byte c.

Definition rx_step (resetn rx : bool) (r : receiver) : receiver :=
  let 'Rx st baud counter byte prev _ := r in
  if negb resetn then Rx RX_IDLE 0 0 0 true false
  else
    match st with
    | RX_IDLE => if prev && negb rx then Rx RX_START 0 counter 0 rx false else Rx RX_IDLE baud counter byte rx false
    | RX_START =>
        if baud =? CLOCK_DIV / 2 then
          if negb rx then Rx RX_DATA 0 0 byte rx false else Rx RX_IDLE 0 counter byte rx false
        else Rx RX_START (tick baud) counter byte rx false
    | RX_DATA =>
        if baud =? CLOCK_DIV - 1 then
          let byte := put_bit byte counter rx in
          if counter =? 7 then Rx RX_STOP 0 counter byte rx false
          else Rx RX_DATA 0 (wrap 3 (counter + 1)) byte rx false
        else Rx RX_DATA (tick baud) counter byte rx false
    | RX_STOP =>
        if baud =? CLOCK_DIV - 1 then Rx RX_IDLE 0 counter byte rx rx
        else Rx RX_STOP (tick baud) counter byte rx false
    end.

Definition step (i : inputs) (s : state) : state :=
  State (tx_step i (receive s) (transmit s)) (rx_step (resetn i) (rx i) (receive s)) (respond_step i s).
End Port.

(** * Transmission *)

(** The level of the line in clock [k] of the frame of [b]: a low bit, the eight data
    bits from the lowest, a high bit, [CLOCK_DIV] clocks each. *)
Definition frame (b k : Z) : bool :=
  let n := k / CLOCK_DIV in
  if n =? 0 then false else if n =? 9 then true else Z.testbit b (n - 1).
Definition frame_clocks : Z := 10 * CLOCK_DIV.

(** The transmitter in clock [k] of the frame. *)
Definition sending (b k : Z) : transmitter :=
  let n := k / CLOCK_DIV in let r := k mod CLOCK_DIV in
  if n =? 0 then Tx TX_START r 0 b else if n =? 9 then Tx TX_STOP r 0 b else Tx TX_DATA r (n - 1) b.

Lemma sending_line b k : tx_line (sending b k) = frame b k.
Proof. unfold sending, frame. by destruct (k / CLOCK_DIV =? 0), (k / CLOCK_DIV =? 9). Qed.
Lemma sending_busy b k : tx_state (sending b k) <> TX_IDLE.
Proof. unfold sending. by destruct (k / CLOCK_DIV =? 0), (k / CLOCK_DIV =? 9). Qed.

(** Quotient and remainder of the next clock. *)
Lemma next_clock k : 0 <= k ->
  (k mod CLOCK_DIV = CLOCK_DIV - 1 /\ (k + 1) mod CLOCK_DIV = 0 /\ (k + 1) / CLOCK_DIV = k / CLOCK_DIV + 1) \/
  (k mod CLOCK_DIV < CLOCK_DIV - 1 /\ (k + 1) mod CLOCK_DIV = k mod CLOCK_DIV + 1 /\ (k + 1) / CLOCK_DIV = k / CLOCK_DIV).
Proof. unfold CLOCK_DIV. intros Hk. Z.div_mod_to_equations. lia. Qed.

Lemma tick_small n : 0 <= n < CLOCK_DIV - 1 -> tick n = n + 1.
Proof. unfold CLOCK_DIV. intros H. apply wrap_small. word_lia. Qed.

Lemma sending_step loop i r b k : resetn i = true -> 0 <= k < frame_clocks - 1 ->
  tx_step loop i r (sending b k) = sending b (k + 1).
Proof.
  intros Hr Hk. unfold frame_clocks in Hk. unfold sending.
  assert (Hn : 0 <= k / CLOCK_DIV <= 9) by (unfold CLOCK_DIV in *; Z.div_mod_to_equations; lia).
  pose proof (Z.mod_pos_bound k CLOCK_DIV ltac:(done)) as Hm.
  assert (Hlast : k / CLOCK_DIV = 9 -> k mod CLOCK_DIV < CLOCK_DIV - 1) by (unfold CLOCK_DIV in *; Z.div_mod_to_equations; lia).
  destruct (next_clock k ltac:(lia)) as [(H1 & H2 & H3)|(H1 & H2 & H3)]; rewrite H2, H3; clear H2 H3;
    destruct (Z.eqb_spec (k / CLOCK_DIV) 0) as [E0|E0], (Z.eqb_spec (k / CLOCK_DIV) 9) as [E9|E9]; try lia;
    unfold tx_step; rewrite Hr; cbn [negb].
  all: try (rewrite (proj2 (Z.eqb_neq (k mod CLOCK_DIV) _)), tick_small by lia).
  all: try rewrite (proj2 (Z.eqb_eq (k mod CLOCK_DIV) _)) by lia.
  all: try done.
  - by rewrite E0.
  - destruct (Z.eqb_spec (k / CLOCK_DIV - 1) 7) as [E7|E7].
    + replace (k / CLOCK_DIV + 1) with 9 by lia. done.
    + rewrite (proj2 (Z.eqb_neq (k / CLOCK_DIV + 1) 0)), (proj2 (Z.eqb_neq (k / CLOCK_DIV + 1) 9)) by lia.
      rewrite wrap_small by word_lia. f_equal. lia.
Qed.

(** Clocked in any way outside reset, an idle transmitter that takes a byte sends its
    frame. *)
Definition awake (ins : list inputs) : Prop := Forall (fun i => resetn i = true) ins.

Lemma sending_run loop b ins rs : forall k,
  awake ins -> length rs = length ins -> 0 <= k -> k + Z.of_nat (length ins) < frame_clocks ->
  run (fun ir => tx_step loop ir.1 ir.2) (combine ins rs) (sending b k) = sending b (k + Z.of_nat (length ins)).
Proof.
  revert rs. induction ins as [|i ins IH]; intros rs k Ha Hl Hk Hn; cbn [length] in *.
  - change (combine [] rs) with (@nil (inputs * receiver)). unfold run. cbn [fold_left Z.of_nat]. by rewrite Z.add_0_r.
  - destruct rs as [|r rs]; [discriminate Hl|]. injection Hl as Hl. apply Forall_cons in Ha as [Hi Ha].
    cbn [combine]. rewrite run_cons. cbn [fst snd]. rewrite sending_step by (done || lia).
    rewrite IH by (done || lia). f_equal. lia.
Qed.

(** * Reception *)

(** The receiver after sample [k] of a frame whose samples follow [b]. *)
Definition receiving (b c0 k : Z) (prev : bool) : receiver :=
  if k <? CLOCK_DIV / 2 + 1 then Rx RX_START k c0 0 prev false
  else
    let j := k - (CLOCK_DIV / 2 + 1) in
    let n := j / CLOCK_DIV in let r := j mod CLOCK_DIV in
    if n <? 8 then Rx RX_DATA r n (wrap n b) prev false else Rx RX_STOP r 7 b prev false.

(** The instant of decision [n] of a frame: 0 the start bit, 1 to 8 the data, 9 the stop. *)
Definition instant (n : Z) : Z := CLOCK_DIV / 2 + 1 + n * CLOCK_DIV.

(** What the receiver looks at: the falling edge and the ten decisions. *)
Record carries (line : Z -> bool) (b : Z) : Prop := Carries
  { edge : line 0 = false;
    start_bit : line (instant 0) = false;
    data_bits : forall n, 0 <= n < 8 -> line (instant (n + 1)) = Z.testbit b n;
    stop_bit : line (instant 9) = true }.

Lemma put_bit_wrap b n : 0 <= n -> put_bit (wrap n b) n (Z.testbit b n) = wrap (n + 1) b.
Proof.
  intros Hn. apply Z.bits_inj'. intros i Hi. rewrite testbit_wrap by lia. unfold put_bit.
  destruct (Z.testbit b n) eqn:E; [rewrite Z.setbit_eqb by done|rewrite Z.clearbit_eqb];
    rewrite testbit_wrap by lia; destruct (Z.eqb_spec n i) as [<- | Hne]; cbn [orb negb].
  - by rewrite E, (proj2 (Z.ltb_lt n (n + 1))) by lia.
  - destruct (Z.ltb_spec i n), (Z.ltb_spec i (n + 1)); try lia; done.
  - by rewrite andb_false_r, E, andb_false_r.
  - rewrite andb_true_r. destruct (Z.ltb_spec i n), (Z.ltb_spec i (n + 1)); try lia; done.
Qed.

Lemma receiving_step line b c0 k prev :
  carries line b -> urange 8 b -> 0 <= k < instant 9 - 1 ->
  rx_step true (line (k + 1)) (receiving b c0 k prev) = receiving b c0 (k + 1) (line (k + 1)).
Proof.
  intros [_ Hstart Hdata _] Hb Hk. unfold instant in *. change (CLOCK_DIV / 2) with 217 in *.
  unfold receiving. change (CLOCK_DIV / 2) with 217. cbv zeta.
  destruct (Z.ltb_spec k (217 + 1)) as [Hlt|Hge].
  - unfold rx_step. cbn [negb]. change (CLOCK_DIV / 2) with 217.
    destruct (Z.eqb_spec k 217) as [-> | Hne].
    + replace (line (217 + 1)) with false by (symmetry; exact Hstart).
      transitivity (Rx RX_DATA 0 0 (wrap 0 b) false false); [|reflexivity].
      unfold wrap. by rewrite Z.mod_1_r.
    + rewrite tick_small by (unfold CLOCK_DIV; lia). by rewrite (proj2 (Z.ltb_lt (k + 1) _)) by lia.
  - rewrite (proj2 (Z.ltb_ge (k + 1) _)) by lia. set (j := k - (217 + 1)).
    replace (k + 1 - (217 + 1)) with (j + 1) by lia.
    pose proof (Z.mod_pos_bound j CLOCK_DIV ltac:(done)) as Hm.
    assert (Hn : 0 <= j / CLOCK_DIV <= 8) by (unfold CLOCK_DIV in *; Z.div_mod_to_equations; lia).
    assert (Hlast : j / CLOCK_DIV = 8 -> j mod CLOCK_DIV < CLOCK_DIV - 1) by (unfold CLOCK_DIV in *; Z.div_mod_to_equations; lia).
    pose proof (Z.div_mod j CLOCK_DIV ltac:(done)) as Hdm.
    destruct (next_clock j ltac:(lia)) as [(H1 & H2 & H3)|(H1 & H2 & H3)]; rewrite H2, H3;
      destruct (Z.ltb_spec (j / CLOCK_DIV) 8) as [H8|H8]; try lia; unfold rx_step; cbn [negb].
    + rewrite (proj2 (Z.eqb_eq (j mod CLOCK_DIV) _)) by lia.
      assert (Hbit : line (k + 1) = Z.testbit b (j / CLOCK_DIV)).
      { rewrite <- Hdata by lia. f_equal. unfold CLOCK_DIV in *. lia. }
      rewrite Hbit, put_bit_wrap by lia. destruct (Z.eqb_spec (j / CLOCK_DIV) 7) as [E7|E7].
      * rewrite E7. cbn [Z.add Pos.add Pos.succ Z.ltb Z.compare Pos.compare Pos.compare_cont]. by rewrite wrap_small.
      * rewrite (proj2 (Z.ltb_lt (j / CLOCK_DIV + 1) 8)) by lia. by rewrite (wrap_small 3) by word_lia.
    + rewrite (proj2 (Z.eqb_neq (j mod CLOCK_DIV) _)), tick_small by lia. done.
    + rewrite (proj2 (Z.eqb_neq (j mod CLOCK_DIV) _)), tick_small by lia. done.
Qed.

(** [n] samples of the line, from sample [k] on. *)
Definition samples (line : Z -> bool) (k : Z) (n : nat) : list bool := map (fun j => line (k + Z.of_nat j)) (seq 0 n).
Lemma samples_S line k n : samples line k (S n) = line k :: samples line (k + 1) n.
Proof.
  unfold samples. cbn [seq map]. rewrite Z.add_0_r. f_equal. rewrite <- seq_shift, map_map. apply map_ext. intros j. f_equal. lia.
Qed.

Lemma receiving_run line b c0 n : forall k, carries line b -> urange 8 b -> 0 <= k -> k + Z.of_nat n < instant 9 ->
  run (rx_step true) (samples line (k + 1) n) (receiving b c0 k (line k)) = receiving b c0 (k + Z.of_nat n) (line (k + Z.of_nat n)).
Proof.
  induction n as [|n IH]; intros k Hc Hb Hk Hn; [cbn [Z.of_nat]; by rewrite Z.add_0_r|].
  rewrite samples_S, run_cons, receiving_step by (done || lia). rewrite IH by (done || lia).
  by replace (k + Z.of_nat (S n)) with (k + 1 + Z.of_nat n) by lia.
Qed.

(** Idle, with the line high. *)
Definition listening (r : receiver) : Prop := rx_state r = RX_IDLE /\ rx_line_prev r = true.

Lemma receive_frame line b r : carries line b -> urange 8 b -> listening r ->
  run (rx_step true) (samples line 0 (Z.to_nat (instant 9 + 1))) r = Rx RX_IDLE 0 7 b true true.
Proof.
  intros Hc Hb [Hst Hp]. destruct r as [st baud c0 byte prev valid]. cbn in Hst, Hp. rewrite Hst, Hp.
  change (Z.to_nat (instant 9 + 1)) with (S (Z.to_nat (instant 9 - 1) + 1)). rewrite samples_S, run_cons.
  assert (E0 : rx_step true (line 0) (Rx RX_IDLE baud c0 byte true valid) = receiving b c0 0 (line 0)).
  { destruct Hc as [-> _ _ _]. reflexivity. }
  rewrite E0. unfold samples. rewrite seq_app, map_app, run_app. fold (samples line (0 + 1) (Z.to_nat (instant 9 - 1))).
  rewrite receiving_run by (done || vm_compute; done || lia). cbn [seq map Nat.add run fold_left].
  replace (0 + Z.of_nat (Z.to_nat (instant 9 - 1))) with (instant 9 - 1) by (vm_compute; reflexivity).
  replace (0 + 1 + Z.of_nat (Z.to_nat (instant 9 - 1))) with (instant 9) by (vm_compute; reflexivity).
  rewrite (stop_bit line b Hc). unfold receiving, run. by destruct Hc as [_ _ _ _].
Qed.

(** * Two ports *)

Lemma frame_carries b : carries (frame b) b.
Proof.
  split; [reflexivity..| |reflexivity]. intros n Hn. unfold frame, instant.
  replace ((CLOCK_DIV / 2 + 1 + (n + 1) * CLOCK_DIV) / CLOCK_DIV) with (n + 1)
    by (change (CLOCK_DIV / 2) with 217; unfold CLOCK_DIV; Z.div_mod_to_equations; lia).
  rewrite (proj2 (Z.eqb_neq (n + 1) 0)), (proj2 (Z.eqb_neq (n + 1) 9)) by lia. f_equal. lia.
Qed.

(** A write of a byte to the transmit register. *)
Definition sends (i : inputs) (b : Z) : Prop :=
  resetn i = true /\ req_valid i = true /\ req_write i = true /\ req_addr i = 0 /\ slice 0 8 (req_data i) = b.

Lemma send_step i r t b : sends i b -> tx_state t = TX_IDLE -> tx_step false i r t = sending b 0.
Proof.
  intros (Hr & Hv & Hw & Ha & <-) Ht. destruct t as [st baud c d]. cbn in Ht. rewrite Ht.
  unfold tx_step. rewrite Hr, Hv, Hw, Ha. reflexivity.
Qed.

Section Link.
Context (undriven : Z) (loop : bool).

(** Port [a] without loopback and port [b] whose receiver hears it. *)
Definition link_step (i : inputs * inputs) (s : state * state) : state * state :=
  (step false undriven i.1 s.1,
   let 'Inputs rn _ v ad w d rr := i.2 in step loop undriven (Inputs rn (tx s.1) v ad w d rr) s.2).

Lemma link_receive i s : resetn i.2 = true ->
  receive (link_step i s).2 = rx_step true (tx s.1) (receive s.2).
Proof. destruct i as [? [? ? ? ? ? ? ?]]. cbn. by intros ->. Qed.

Lemma link_run b ins : forall k s,
  Forall (fun i => resetn i.1 = true /\ resetn i.2 = true) ins ->
  transmit s.1 = sending b k -> 0 <= k -> k + Z.of_nat (length ins) < frame_clocks ->
  receive (run link_step ins s).2 = run (rx_step true) (samples (frame b) k (length ins)) (receive s.2) /\
  transmit (run link_step ins s).1 = sending b (k + Z.of_nat (length ins)).
Proof.
  induction ins as [|i ins IH]; intros k s Ha Ht Hk Hn; cbn [length] in *.
  - cbn [Z.of_nat]. rewrite Z.add_0_r. by split.
  - apply Forall_cons in Ha as [[H1 H2] Ha]. rewrite run_cons, samples_S, run_cons.
    replace (k + Z.of_nat (S (length ins))) with (k + 1 + Z.of_nat (length ins)) by lia.
    rewrite <- sending_line, <- Ht. change (tx_line (transmit s.1)) with (tx s.1). rewrite <- (link_receive i s H2).
    apply IH; [done| |lia..]. cbn [link_step fst step transmit]. rewrite Ht. apply sending_step; [done|lia].
Qed.

(** [C17] What one port sends the other receives: when a byte is written to an idle
    transmitter and the other port listens on its line, then after 4126 clocks, that
    of the write included (three more than nine and a half bit times of 434 clocks),
    whatever the other inputs do, the receiver holds the byte with its valid flag up and
    listens again, while the sender is in the stop bit; one clock later the flag is down
    and the byte still there. *)
Theorem uart_roundtrip i0 ins i b s :
  Z.of_nat (length ins) = instant 9 + 1 -> Forall (fun i => resetn i.1 = true /\ resetn i.2 = true) (i0 :: ins ++ [i]) ->
  sends i0.1 b -> tx_state (transmit s.1) = TX_IDLE -> listening (receive s.2) ->
  let s' := run link_step (i0 :: ins) s in
  rx_byte_valid (receive s'.2) = true /\ rx_byte (receive s'.2) = b /\
  tx_state (transmit s'.1) = TX_STOP /\ listening (receive s'.2) /\
  rx_byte_valid (receive (link_step i s').2) = false /\ rx_byte (receive (link_step i s').2) = b.
Proof.
  intros Hl Ha Hs Ht Hlis. apply Forall_cons in Ha as [[H1 H2] [Ha [[_ Hi] _]%Forall_cons]%Forall_app].
  cbv zeta. rewrite run_cons. set (s1 := link_step i0 s).
  assert (Ht1 : transmit s1.1 = sending b 0) by (by apply send_step).
  assert (Hlis1 : listening (receive s1.2)).
  { unfold s1. rewrite link_receive by done. unfold tx, tx_line. rewrite Ht. destruct Hlis as [Hst Hp].
    destruct (receive s.2) as [st baud c0 byte prev valid]. cbn in Hst, Hp. rewrite Hst, Hp. by split. }
  assert (Hb : urange 8 b) by (destruct Hs as (_ & _ & _ & _ & <-); apply slice_range; lia).
  destruct (link_run b ins 0 s1 Ha Ht1 ltac:(lia)) as [Er Et]; [rewrite Hl; vm_compute; done|].
  rewrite Hl in Et. replace (length ins) with (Z.to_nat (instant 9 + 1)) in Er by lia.
  rewrite (receive_frame _ b _ (frame_carries b) Hb Hlis1) in Er.
  rewrite link_receive by done. unfold tx. rewrite Er, Et. split_and!; try reflexivity. by split.
Qed.
End Link.

Definition quiet_port : inputs := Inputs true true false 0 false 0 true.
Definition write_a : inputs := Inputs true true true 0 true 0x41 true.
Definition idle_port : state :=
  State (Tx TX_IDLE 0 0 0) (Rx RX_IDLE 0 0 0 true false) (Resp 0 false).

Example uart_roundtrip_witness :
  let s' := run (link_step 0 false) ((write_a, quiet_port) :: repeat (quiet_port, quiet_port) (Z.to_nat (instant 9 + 1)))
              (idle_port, idle_port) in
  rx_byte_valid (receive s'.2) = true /\ rx_byte (receive s'.2) = 0x41.
Proof.
  destruct (uart_roundtrip 0 false (write_a, quiet_port) (repeat (quiet_port, quiet_port) (Z.to_nat (instant 9 + 1)))
    (quiet_port, quiet_port) 0x41 (idle_port, idle_port)) as (V & B & _).
  - rewrite repeat_length. reflexivity.
  - constructor; [done|]. apply Forall_app. split; [|by repeat constructor].
    apply List.Forall_forall. intros p Hp. by apply repeat_spec in Hp as ->.
  - by repeat split.
  - reflexivity.
  - by split.
  - split; [exact V|exact B].
Defined.
End Uart.
