(* ===== verification/Top.v ===== *)
(** The whole of [top.v]: core, memory, UART, the parallel port of the simulator and the
    break flag, on the chip's own pins. The theorems: the chip is the SoC of [Cpu.v] under
    the pins the UART and the port give it, so the refinement of the instruction set
    carries over; and a store to the transmit register puts the byte's frame on the serial
    line. *)

From S2P Require Import Prelude Vmac Valu Sram Vlsu.
From S2P Require Import Decoder Cpu Isa Encoding Execution UnitExec Instructions Refinement Uart.

Module Top.
Import Cpu Execution UnitExec Instructions Refinement.

Record pins := Pins { resetn : bool; rx : bool; par_rx : Z; par_rx_valid : bool }.

Record state := State
  { soc : Soc.state; uart0 : Uart.state;
    sim_use_par_txrx : bool;
    par_rx_ack : bool; par_rx_valid_latch : bool; par_rx_latch : Z;
    par_tx : Z; par_tx_valid : bool }.

Section Chip.
(** What undriven wires and don't-care control values read as. *)
Context (undriven dontcare : Z).

(** ** Wires *)

Definition on_uart_page (s : state) : bool := Sram.is_uart (dmem_req_addr (Soc.cpu (soc s))).
Definition uart_req_valid (s : state) : bool :=
  on_uart_page s && negb (sim_use_par_txrx s) && dmem_req_valid (Soc.cpu (soc s)).

(** [{23'd0, par_rx_valid_latch, par_rx_latch}], or 0 at the status address. *)
Definition par_rdata (s : state) : Z :=
  if wrap 12 (Sram.dmem_addr_reg (Soc.sram (soc s))) =? 8 then 0
  else (if par_rx_valid_latch s then 2 ^ 8 else 0) + par_rx_latch s.

(** The SoC's side of the UART and of the parallel port. *)
Definition soc_pins (p : pins) (s : state) : Soc.pins :=
  Soc.Pins (resetn p) (Uart.req_ready (uart0 s)) (Uart.resp_valid (Uart.respond (uart0 s)))
    (Uart.resp_data (Uart.respond (uart0 s))) (par_rdata s).

Definition uart_inputs (p : pins) (s : state) : Uart.inputs :=
  let c := Soc.cpu (soc s) in
  Uart.Inputs (resetn p) (rx p) (uart_req_valid s) (wrap 8 (dmem_req_addr c)) (dmem_req_write c)
    (dmem_req_wdata c) true.                        (* dmem_resp_ready is constant 1 *)

Definition tx (s : state) : bool := Uart.tx (uart0 s).

(** ** Clocked blocks *)

Definition par_access (s : state) : bool :=
  dmem_req_valid (Soc.cpu (soc s)) && on_uart_page s && sim_use_par_txrx s.

Definition step (p : pins) (s : state) : state :=
  let c := Soc.cpu (soc s) in
  let received := par_access s && negb (dmem_req_write c) && par_rx_valid p in
  let sent := par_access s && dmem_req_write c in
  {| soc := Soc.step (sim_use_par_txrx s) dontcare (soc_pins p s) (soc s);
     uart0 := Uart.step false undriven (uart_inputs p s) (uart0 s);
     sim_use_par_txrx := if negb (resetn p) then false else sim_use_par_txrx s;
     par_rx_ack := resetn p && received;
     par_rx_valid_latch := if negb (resetn p) then par_rx_valid_latch s else received;
     par_rx_latch := if negb (resetn p) then par_rx_latch s else if received then par_rx p else 0;
     par_tx := if negb (resetn p) then 0 else if sent then wrap 8 (dmem_req_wdata c) else par_tx s;
     par_tx_valid := resetn p && sent |}.

(** * The chip is the SoC under the pins it gives it *)

Definition awake (ps : list pins) : Prop := Forall (fun p => resetn p = true) ps.

Fixpoint pins_along (ps : list pins) (s : state) : list Soc.pins :=
  match ps with [] => [] | p :: ps => soc_pins p s :: pins_along ps (step p s) end.

Lemma pins_along_length ps : forall s, length (pins_along ps s) = length ps.
Proof. induction ps as [|p ps IH]; intros s; [done|]. cbn [pins_along length]. by rewrite IH. Qed.
Lemma pins_along_awake ps : forall s, awake ps -> Execution.awake (pins_along ps s).
Proof. induction ps as [|p ps IH]; intros s Ha; [constructor|]. apply Forall_cons in Ha as [Hp Ha]. constructor; [done|by apply IH]. Qed.

Lemma step_use_par p s : resetn p = true -> sim_use_par_txrx (step p s) = sim_use_par_txrx s.
Proof. intros H. unfold step. cbn. by rewrite H. Qed.

Lemma run_soc ps : forall s, awake ps ->
  soc (run step ps s) = run (Soc.step (sim_use_par_txrx s) dontcare) (pins_along ps s) (soc s) /\
  sim_use_par_txrx (run step ps s) = sim_use_par_txrx s.
Proof.
  induction ps as [|p ps IH]; intros s Ha; [done|]. apply Forall_cons in Ha as [Hp Ha].
  cbn [pins_along]. rewrite !run_cons. destruct (IH (step p s) Ha) as [-> ->].
  by rewrite step_use_par.
Qed.

(** Programs that keep off the UART page run on the chip as on the instruction set. *)
Lemma chip_program l ps s :
  awake ps -> length ps = Isa.latencies l -> fit (sim_use_par_txrx s) (soc s) ->
  follows (sim_use_par_txrx s) false l (abs (soc s)) ->
  fit (sim_use_par_txrx s) (soc (run step ps s)) /\ abs (soc (run step ps s)) = Isa.steps l (abs (soc s)).
Proof.
  intros Ha Hl Hf Hp. destruct (run_soc ps s Ha) as [-> _].
  apply (program _ false); [|by rewrite pins_along_length|done|done].
  split; [by apply pins_along_awake|]. apply Forall_forall. discriminate.
Qed.

(** * Transmission *)

(** The UART outside a request keeps sending. *)
Lemma keeps_sending ps b : forall s k, awake ps -> Uart.transmit (uart0 s) = Uart.sending b k ->
  0 <= k -> k + Z.of_nat (length ps) < Uart.frame_clocks ->
  Uart.transmit (uart0 (run step ps s)) = Uart.sending b (k + Z.of_nat (length ps)).
Proof.
  induction ps as [|p ps IH]; intros s k Ha Ht Hk Hn; cbn [length] in *.
  - cbn [Z.of_nat]. by rewrite Z.add_0_r.
  - apply Forall_cons in Ha as [Hp Ha]. rewrite run_cons.
    replace (k + Z.of_nat (S (length ps))) with (k + 1 + Z.of_nat (length ps)) by lia.
    apply IH; [done| |lia..]. cbn [step uart0 Uart.step Uart.transmit]. rewrite Ht.
    apply Uart.sending_step; [done|lia].
Qed.

(** An idle transmitter without a request stays idle. *)
Lemma stays_idle p s : resetn p = true -> Uart.tx_state (Uart.transmit (uart0 s)) = Uart.TX_IDLE ->
  dmem_req_valid (Soc.cpu (soc s)) = false -> Uart.transmit (uart0 (step p s)) = Uart.transmit (uart0 s).
Proof.
  intros Hp Ht Hv. cbn [step uart0 Uart.step Uart.transmit]. destruct (Uart.transmit (uart0 s)) as [st ba co d].
  cbn [Uart.tx_state] in Ht. rewrite Ht. unfold Uart.tx_step, uart_inputs, uart_req_valid.
  cbn [Uart.resetn Uart.req_valid]. by rewrite Hp, Hv, andb_false_r.
Qed.

(** ** The edges of a store *)

Section Store.
Context (use_par : bool).
Abbreviation sstep := (Soc.step use_par dontcare).

Lemma fetch_no_request p c m b :
  Soc.resetn p = true -> ready (Soc.State c m b) -> dmem_req_valid (Soc.cpu (sstep p (Soc.State c m b))) = false.
Proof.
  intros Hr [Hs Hq _]. cbn [Soc.cpu] in *.
  pose proof (quiet_unstarted c Hq) as Hun. pose proof Hq as [Hu _ (Hb & _ & _) Hrq].
  rewrite step_soc by (done || unfold in_wb; by rewrite Hs). cbn [Soc.cpu]. unfold fsm. rewrite Hs.
  apply no_request; [exact Hb|exact Hrq].
Qed.

(** What is on the data port after the execute edge of a store. *)
Record puts (c : Cpu.state) (a d : Z) : Prop := Puts
  { put_stage : cpu_state c = MEM; put_units : units_rest c; put_unstarted : unstarted c;
    put_busy : vec_busy c = false; put_valid : dmem_req_valid_reg c = true; put_write : dmem_req_write_reg c = true;
    put_addr : dmem_req_addr_reg c = a; put_data : wrap 8 (dmem_req_wdata_reg c) = wrap 8 d;
    put_no_read : Decoder.mem_read (ctrl c) = false }.

Lemma puts_port c a d : puts c a d ->
  dmem_req_valid c = true /\ dmem_req_write c = true /\ dmem_req_addr c = a /\ wrap 8 (dmem_req_wdata c) = wrap 8 d.
Proof.
  intros [_ _ _ Hb Hv Hw Ha Hd _]. unfold dmem_req_valid, dmem_req_write, dmem_req_addr, dmem_req_wdata, vec_mem_active.
  rewrite Hb, andb_false_r. done.
Qed.

Lemma store_lanes_low mask a d : mask = mask_of Isa.BYTE \/ mask = mask_of Isa.HALF \/ mask = mask_of Isa.WORD ->
  wrap 8 (store_lanes mask a d).1 = wrap 8 d.
Proof.
  intros [-> | [-> | ->]]; unfold store_lanes; cbn [mask_of Z.eqb Pos.eqb fst].
  - by apply (pack_cons_low 8).
  - rewrite <- (wrap_narrow 8 16 d), <- (pack_cons_low 16 d [d]), (wrap_narrow 8 16) by lia. done.
  - done.
Qed.

Lemma requested_puts f mask : quiet f -> Decoder.mem_write (ctrl f) = true -> Decoder.mem_read (ctrl f) = false ->
  Decoder.mem_mask (ctrl f) = mask -> mask = mask_of Isa.BYTE \/ mask = mask_of Isa.HALF \/ mask = mask_of Isa.WORD ->
  puts (requested dontcare f) (alu_out dontcare f) (rdata2_reg f).
Proof.
  intros Hq Hw Hr Hm Hmask. pose proof (quiet_unstarted f Hq) as Hun. pose proof Hq as [Hu _ (Hb & _ & _) _].
  unfold requested. rewrite Hw. pose proof (store_lanes_low mask (alu_out dontcare f) (rdata2_reg f) Hmask) as Hlow.
  rewrite <- Hm in Hlow. split; fields; first [assumption | reflexivity | by destruct Hu].
Qed.

Lemma store_requests w rs2 rs1 k p1 p2 p3 c m b (i := Isa.Store w rs2 rs1 k) (a := abs (Soc.State c m b)) :
  Execution.awake [p1; p2; p3] -> ready (Soc.State c m b) -> Isa.valid i -> Isa.wf a ->
  Sram.mem m (Sram.index (pc_reg c)) = Isa.encode i ->
  exists c3, run sstep [p1; p2; p3] (Soc.State c m b) = Soc.State c3 (settled c m) b /\
    puts c3 (wrap 32 (Isa.get (regs c) rs1 + k)) (Isa.get (regs c) rs2).
Proof.
  intros Ha Hr (Hr2 & Hr1 & Hk) Hwf Hw.
  apply Forall_cons in Ha as [H1 [H2 [H3 _]%Forall_cons]%Forall_cons].
  destruct (Encoding.s_word 0x23 (Isa.width_funct3 w) rs1 rs2 k)
    as (Ho & E3 & E1 & E2 & Ei); [word_lia|destruct w; cbn; word_lia|done..|].
  subst i. cbn [Isa.encode] in *. set (u := Z.lor _ _) in *. pose proof (Encoding.decode_store u Ho) as D.
  assert (Hmask : Decoder.decode_mem_mask u = mask_of w).
  { unfold Decoder.decode_mem_mask. rewrite E3. by destruct w. }
  pose proof (fetched_quiet c u (r_quiet _ Hr)) as Hq.
  assert (Haddr : alu_out dontcare (fetched c u) = wrap 32 (Isa.get (regs c) rs1 + k)).
  { apply address_fetched; rewrite ?D; signals; try done; [adds|by apply (get_word (abs (Soc.State c m b)))]. }
  exists (requested dontcare (fetched c u)). split.
  - rewrite run_decoded, Hw by done. unfold run. cbn [fold_left]. fold (settled c m).
    rewrite exec_edge by (done || apply fetched_state). rewrite request_edge; [done| | |];
      rewrite ctrl_fetched, D; signals; by repeat split.
  - rewrite <- Haddr. replace (Isa.get (regs c) rs2) with (rdata2_reg (fetched c u)).
    + apply (requested_puts _ (mask_of w)); [exact Hq|rewrite ctrl_fetched, D; signals; done..|destruct w; auto].
    + rewrite fetched_rdata2, D. signals. by rewrite E2.
Qed.

(** The edge that hands the request over, and the last one. *)
Lemma store_accepted p c m b a d :
  Soc.resetn p = true -> puts c a d -> Sram.req_ready use_par (Soc.uart_ready p) a = true ->
  let s' := sstep p (Soc.State c m b) in
  cpu_state (Soc.cpu s') = WB /\ dmem_req_valid (Soc.cpu s') = false /\
  Vlsu.fsm_state (vlsu_inst (Soc.cpu s')) = Vlsu.IDLE.
Proof.
  intros Hr [Hs Hu Hun Hb Hv Hw <- _ Hmr] Hrdy. cbv zeta. rewrite mem_edge by done. rewrite Hv, Hmr. cbn [negb Soc.cpu].
  unfold to_wb, dmem_req_valid, vec_mem_active. fields. rewrite Hb, andb_false_r. destruct Hu as [_ _ [[Hi _] _]]. done.
Qed.

(** In write-back the core does not look at the bus. *)
Lemma wb_ignores_bus p p' s :
  Soc.resetn p = Soc.resetn p' -> cpu_state (Soc.cpu s) = WB -> Vlsu.fsm_state (vlsu_inst (Soc.cpu s)) = Vlsu.IDLE ->
  sstep p s = sstep p' s.
Proof.
  intros Hr Hs Hi. unfold Soc.step. f_equal; [|by rewrite Hr]. unfold Cpu.step.
  assert (Hfsm : forall q t, fsm dontcare (Soc.cpu_inputs use_par q s) (Soc.cpu s) t
    = wb_stage (Soc.cpu s) (t <| cycle_counter := wrap 32 (cycle_counter (Soc.cpu s) + 1) |>))
    by (intros q t; unfold fsm; by rewrite Hs).
  rewrite !Hfsm.
  assert (Hvm : vmac_pins dontcare (Soc.cpu_inputs use_par p s) (Soc.cpu s) = vmac_pins dontcare (Soc.cpu_inputs use_par p' s) (Soc.cpu s))
    by (unfold vmac_pins; cbn; by rewrite Hr).
  assert (Hva : valu_pins (Soc.cpu_inputs use_par p s) (Soc.cpu s) = valu_pins (Soc.cpu_inputs use_par p' s) (Soc.cpu s))
    by (unfold valu_pins; cbn; by rewrite Hr).
  assert (Hvl : Vlsu.step (vlsu_pins (Soc.cpu_inputs use_par p s) (Soc.cpu s)) (vlsu_inst (Soc.cpu s))
              = Vlsu.step (vlsu_pins (Soc.cpu_inputs use_par p' s) (Soc.cpu s)) (vlsu_inst (Soc.cpu s)))
    by (unfold Vlsu.step; rewrite Hi; unfold vlsu_pins; cbn; by rewrite Hr).
  assert (Hcsr : forall t, csr_block (Soc.cpu_inputs use_par p s) (Soc.cpu s) t = csr_block (Soc.cpu_inputs use_par p' s) (Soc.cpu s) t)
    by (intros t; unfold csr_block; cbn [Cpu.resetn Soc.cpu_inputs]; by rewrite Hr).
  rewrite Hvm, Hva, Hvl, Hcsr. cbn [Cpu.resetn Soc.cpu_inputs]. by rewrite Hr.
Qed.
End Store.

(** The transmitter through the first edges of a store. *)
Lemma store_edges w rs2 rs1 k p1 p2 p3 p4 p5 s (i := Isa.Store w rs2 rs1 k) (a := abs (soc s)) :
  sim_use_par_txrx s = false -> awake [p1; p2; p3; p4; p5] -> fit false (soc s) ->
  Isa.valid i -> Isa.mem a (Sram.index (Isa.pc a)) = Isa.encode i ->
  wrap 32 (Isa.get (Isa.x a) rs1 + k) = 0x10000000 -> Uart.tx_state (Uart.transmit (uart0 s)) = Uart.TX_IDLE ->
  let s3 := run step [p1; p2; p3] s in let s4 := step p4 s3 in
  Uart.transmit (uart0 (step p1 s)) = Uart.transmit (uart0 s) /\
  Uart.transmit (uart0 (run step [p1; p2] s)) = Uart.transmit (uart0 s) /\
  Uart.transmit (uart0 s3) = Uart.transmit (uart0 s) /\
  Uart.transmit (uart0 s4) = Uart.sending (wrap 8 (Isa.get (Isa.x a) rs2)) 0 /\
  cpu_state (Soc.cpu (soc s4)) = WB /\ Vlsu.fsm_state (vlsu_inst (Soc.cpu (soc s4))) = Vlsu.IDLE.
Proof.
  intros Hpar Ha [Hr Hwf Hcl] Hv Hw Haddr Ht.
  apply Forall_cons in Ha as [H1 [H2 [H3 [H4 [H5 _]%Forall_cons]%Forall_cons]%Forall_cons]%Forall_cons].
  assert (Ha3 : awake [p1; p2; p3]) by (by repeat constructor).
  destruct (run_soc [p1; p2; p3] s Ha3) as [E3 Ep3]. cbn [pins_along] in E3. rewrite Hpar in E3, Ep3.
  destruct (run_soc [p1; p2] s) as [E2 _]; [by repeat constructor|]. cbn [pins_along] in E2. rewrite Hpar in E2.
  destruct (run_soc [p1] s) as [E1 _]; [by repeat constructor|]. cbn [pins_along] in E1. rewrite Hpar in E1.
  destruct (soc s) as [c m b] eqn:Es.
  pose proof (fetch_no_request false (soc_pins p1 s) c m b H1 Hr) as Hn1.
  assert (Hn2 : dmem_req_valid (Soc.cpu (soc (run step [p1; p2] s))) = false).
  { rewrite E2, run_decoded by done. cbn [run fold_left Soc.cpu].
    destruct (fetched_quiet c (Sram.mem m (Sram.index (pc_reg c))) (r_quiet _ Hr)) as [_ _ (Hb & _ & _) Hq]. by apply no_request. }
  assert (Hn0 : dmem_req_valid (Soc.cpu (soc s)) = false).
  { rewrite Es. destruct (r_quiet _ Hr) as [_ _ (Hb & _ & _) Hq]. by apply no_request. }
  assert (T1 : Uart.transmit (uart0 (step p1 s)) = Uart.transmit (uart0 s)) by (by apply stays_idle).
  assert (T2 : Uart.transmit (uart0 (run step [p1; p2] s)) = Uart.transmit (uart0 s)).
  { change (run step [p1; p2] s) with (step p2 (step p1 s)). rewrite stays_idle; [done|done|by rewrite T1|].
    change (step p1 s) with (run step [p1] s). by rewrite E1. }
  assert (T3 : Uart.transmit (uart0 (run step [p1; p2; p3] s)) = Uart.transmit (uart0 s)).
  { change (run step [p1; p2; p3] s) with (step p3 (run step [p1; p2] s)). rewrite stays_idle; [done|done|by rewrite T2|done]. }
  destruct (store_requests false w rs2 rs1 k (soc_pins p1 s) (soc_pins p2 (step p1 s)) (soc_pins p3 (step p2 (step p1 s))) c m b)
    as (c3 & R3 & Hput); [by repeat constructor|done..|].
  change (Isa.x a) with (regs c) in *. rewrite Haddr in Hput. rewrite R3 in E3. cbv zeta.
  set (s3 := run step [p1; p2; p3] s) in *.
  destruct (puts_port c3 _ _ Hput) as (Pv & Pw & Pa & Pd).
  split_and!; try done.
  - cbn [step uart0 Uart.step Uart.transmit]. apply Uart.send_step; [|by rewrite T3].
    unfold Uart.sends, uart_inputs, uart_req_valid, on_uart_page.
    cbn [Uart.resetn Uart.req_valid Uart.req_write Uart.req_addr Uart.req_data]. rewrite E3, Ep3. cbn [Soc.cpu].
    rewrite Pv, Pw, Pa. split_and!; first [done | by rewrite slice_0].
  - cbn [step soc]. rewrite E3, Ep3. refine (proj1 (store_accepted false _ _ _ _ _ _ _ Hput _)); [done|].
    unfold Sram.req_ready, soc_pins, Uart.req_ready. cbn [Soc.uart_ready]. by rewrite T3, Ht.
  - cbn [step soc]. rewrite E3, Ep3. refine (proj2 (proj2 (store_accepted false _ _ _ _ _ _ _ Hput _))); [done|].
    unfold Sram.req_ready, soc_pins, Uart.req_ready. cbn [Soc.uart_ready]. by rewrite T3, Ht.
Qed.

(** [C16] A store to the UART sends the byte: on the chip with the UART selected and its
    transmitter idle, a store instruction whose address is the transmit register retires
    in its five clocks with the architectural effect the instruction set gives it, and
    from then on the serial line carries, clock by clock, the frame of the stored value's
    low byte, whatever the program does meanwhile; the UART accepts nothing more until the
    frame is over. *)
Theorem store_transmits w rs2 rs1 k ps qs s (i := Isa.Store w rs2 rs1 k) (a := abs (soc s)) :
  sim_use_par_txrx s = false -> awake (ps ++ qs) -> length ps = 5%nat -> fit false (soc s) ->
  Isa.valid i -> Isa.mem a (Sram.index (Isa.pc a)) = Isa.encode i ->
  wrap 32 (Isa.get (Isa.x a) rs1 + k) = 0x10000000 ->
  Uart.tx_state (Uart.transmit (uart0 s)) = Uart.TX_IDLE ->
  1 + Z.of_nat (length qs) < Uart.frame_clocks ->
  let s5 := run step ps s in let s' := run step qs s5 in
  (fit false (soc s5) /\ abs (soc s5) = Isa.step i a) /\
  tx s' = Uart.frame (wrap 8 (Isa.get (Isa.x a) rs2)) (1 + Z.of_nat (length qs)) /\
  Uart.req_ready (uart0 s') = false.
Proof.
  intros Hpar [Ha Hq]%Forall_app Hl Hf Hv Hw Haddr Ht Hn. cbv zeta.
  destruct ps as [|p1 [|p2 [|p3 [|p4 [|p5 [|]]]]]]; try discriminate Hl. clear Hl.
  destruct (store_edges w rs2 rs1 k p1 p2 p3 p4 p5 s Hpar Ha Hf Hv Hw Haddr Ht) as (T1 & T2 & T3 & T4 & Hwb & Hidle).
  set (s4 := step p4 (run step [p1; p2; p3] s)) in *.
  pose proof Ha as [H1 [H2 [H3 [H4 [H5 _]%Forall_cons]%Forall_cons]%Forall_cons]%Forall_cons]%Forall_cons.
  split.
  - destruct (run_soc [p1; p2; p3; p4; p5] s Ha) as [-> _]. rewrite Hpar.
    destruct (run_soc [p1; p2; p3; p4] s) as [E4 Ep4]; [by repeat constructor|]. rewrite Hpar in E4, Ep4.
    set (q5 := soc_pins p5 s4).
    set (q5' := Soc.Pins (resetn p5) true (Soc.uart_valid q5) (Soc.uart_rdata q5) (Soc.par_rdata q5)).
    assert (Ep : pins_along [p1; p2; p3; p4; p5] s = (pins_along [p1; p2; p3; p4] s ++ [q5])%list) by done.
    rewrite Ep, run_app. change (run ?f [q5] ?x) with (f q5 x). rewrite <- E4.
    change (run step [p1; p2; p3; p4] s) with s4 in *.
    rewrite (wb_ignores_bus false q5 q5') by done. rewrite E4.
    change (Soc.step false dontcare q5' ?x) with (run (Soc.step false dontcare) [q5'] x). rewrite <- run_app.
    apply (one_instruction false true).
    + assert (Hready : forall t, Uart.transmit (uart0 t) = Uart.transmit (uart0 s) -> Uart.req_ready (uart0 t) = true)
        by (intros t E; unfold Uart.req_ready; by rewrite E, Ht).
      split; [by repeat constructor|]. cbn [pins_along app].
      repeat (apply List.Forall_cons; [intros _; first [reflexivity | by apply Hready]|]). apply List.Forall_nil.
    + done.
    + done.
    + split; [done..|]. unfold access_ok, i. cbv zeta. fold a. rewrite Haddr. split; [by destruct w|reflexivity].
  - assert (T5 : Uart.transmit (uart0 (run step [p1; p2; p3; p4; p5] s)) = Uart.sending (wrap 8 (Isa.get (Isa.x a) rs2)) 1).
    { change (run step [p1; p2; p3; p4; p5] s) with (run step [p5] s4).
      apply (keeps_sending [p5] _ s4 0); [by repeat constructor|done|done|by vm_compute]. }
    pose proof (keeps_sending qs _ _ 1 Hq T5 ltac:(lia) Hn) as T.
    unfold tx, Uart.tx, Uart.req_ready. rewrite T. split; [apply Uart.sending_line|].
    pose proof (Uart.sending_busy (wrap 8 (Isa.get (Isa.x a) rs2)) (1 + Z.of_nat (length qs))) as Hb.
    by destruct (Uart.tx_state (Uart.sending _ _)).
Qed.
End Chip.

(** [sw x2, 0(x1)] with x1 at the UART: 500 clocks later the lowest bit of 65 is on the
    line. *)
Definition quiet_pins : pins := Pins true true 0 false.
Definition idle_uart : Uart.state :=
  Uart.State (Uart.Tx Uart.TX_IDLE 0 0 0) (Uart.Rx Uart.RX_IDLE 0 0 0 true false) (Uart.Resp 0 false).
Definition chip (x : Z -> Z) (l : list Z) : state := State (Boot.soc x l) idle_uart false false false 0 0 false.
Definition regs_uart (r : Z) : Z := if r =? 1 then 0x10000000 else if r =? 2 then 65 else 0.
Definition sw_uart : Isa.instr := Isa.Store Isa.WORD 2 1 0.

Example store_transmits_witness :
  let s5 := run (step 0 0) (repeat quiet_pins 5) (chip regs_uart [Isa.encode sw_uart; 0x00100073]) in
  abs (soc s5) = Isa.step sw_uart (abs (Boot.soc regs_uart [Isa.encode sw_uart; 0x00100073])) /\
  tx (run (step 0 0) (repeat quiet_pins 500) s5) = true.
Proof.
  destruct (store_transmits 0 0 Isa.WORD 2 1 0 (repeat quiet_pins 5) (repeat quiet_pins 500)
    (chip regs_uart [Isa.encode sw_uart; 0x00100073])) as ((_ & E) & T & _); try reflexivity.
  - rewrite <- repeat_app. apply List.Forall_forall. intros p Hp. by apply repeat_spec in Hp as ->.
  - apply Boot.soc_fit; [|by repeat constructor].
    intros r. unfold regs_uart. destruct (r =? 1), (r =? 2); word_lia.
  - by repeat split.
  - split; [exact E|]. rewrite T. reflexivity.
Defined.
End Top.
