(* ===== verification/SewCompare.v ===== *)
(** The dot-product benchmark [sw/mnist-newlib/benchmark_sew_compare.c]: one dot
    product through the 4-lane PVMAC and the VMAC at the three element widths, over
    the arrays [init_test_data] fills. The theorem: whatever the arrays hold, PVMAC and
    VMAC.B agree and are exact; VMAC.H and VMAC.W are exact while the sums fit
    [int32_t]; [main] leaves the dot products of the initial data in its results. *)

From S2P Require Import Prelude Loops Valu VectorUnit Kernels Inference.
Import Arrays Kernels.

Module SewCompare.

Definition TEST_SIZE : nat := 64.

(** The global arrays, with the addresses the vector loads use. *)
Record data := Data
  { test_a : list Z; test_b : list Z; test_a16 : list Z; test_b16 : list Z;
    test_a32 : list Z; test_b32 : list Z }.
Record placement := Placement
  { at_a : Z; at_b : Z; at_a16 : Z; at_b16 : Z; at_a32 : Z; at_b32 : Z }.

(** [for (i = 0; i < n; i++) { p[i] = (i % mp) - cp; q[i] = (i % mq) - cq; }] on arrays of
    [w]-bit integers; the counter and the remainders are [int]. *)
Definition fill (w : Z) (n : nat) (mp cp mq cq : Z) (pq : list Z * list Z)
    : option (list Z * list Z) :=
  loop (upto n) (fun i pq =>
    let* p := store (fst pq) i (sgn w (Z.rem (Z.of_nat i) mp - cp)) in
    let* q := store (snd pq) i (sgn w (Z.rem (Z.of_nat i) mq - cq)) in
    Some (p, q)) pq.

Definition init_test_data (d : data) : option data :=
  let* (a, b) := fill 8 TEST_SIZE 10 5 7 3 (test_a d, test_b d) in
  let* (a16, b16) := fill 16 (TEST_SIZE / 2) 100 50 70 35 (test_a16 d, test_b16 d) in
  let* (a32, b32) := fill 32 (TEST_SIZE / 4) 1000 500 700 350 (test_a32 d, test_b32 d) in
  Some (Data a b a16 b16 a32 b32).

(** [sum = 0; for i in ixs sum += term(i); return sum;] *)
Definition accumulate (ixs : list nat) (term : nat -> option Z) : option Z :=
  loop ixs (fun i sum => let* t := term i in add32 sum t) 0.

Section Vector.
Context `{VectorUnit}.

(** The four bytes of [a] from [i], packed little endian, read as [int32_t] when passed. *)
Definition packed_at (a : list Z) (i : nat) : option Z :=
  let* x3 := a !! (i + 3)%nat in let* x2 := a !! (i + 2)%nat in
  let* x1 := a !! (i + 1)%nat in let* x0 := a !! i in
  Some (pack4 x0 x1 x2 x3).

Definition dot_product_pvmac (d : data) : option Z :=
  accumulate (every 4 (TEST_SIZE / 4)) (fun i =>
    let* a_packed := packed_at (test_a d) i in
    let* b_packed := packed_at (test_b d) i in
    Some (pvmac a_packed b_packed)).

(** [vld_v1(&x[i]); vld_v2(&y[i]); vmac()] *)
Definition vld_vmac (sew w ax ay : Z) (x y : list Z) (i : nat) : option Z :=
  let* v1 := vld_elem ax w x i in
  let* v2 := vld_elem ay w y i in
  Some (vmac sew v1 v2).

Definition dot_product_vmac_b (pl : placement) (d : data) : option Z :=
  accumulate (every 8 (TEST_SIZE / 8))
    (vld_vmac 0 8 (at_a pl) (at_b pl) (test_a d) (test_b d)).
Definition dot_product_vmac_h (pl : placement) (d : data) : option Z :=
  accumulate (every 4 (TEST_SIZE / 2 / 4))
    (vld_vmac 1 16 (at_a16 pl) (at_b16 pl) (test_a16 d) (test_b16 d)).
Definition dot_product_vmac_w (pl : placement) (d : data) : option Z :=
  accumulate (every 2 (TEST_SIZE / 4 / 2))
    (vld_vmac 2 32 (at_a32 pl) (at_b32 pl) (test_a32 d) (test_b32 d)).

(** [result_pvmac], [result_vmac_b], [result_vmac_h], [result_vmac_w]. *)
Record results := Results { r_pvmac : Z; r_vmac_b : Z; r_vmac_h : Z; r_vmac_w : Z }.

(** [for (iter = 0; iter < 100; iter++) result = f();] *)
Definition repeated (f : option Z) (result : Z) : option Z :=
  loop (upto 100) (fun _ _ => f) result.

(** [main], less the cycle counters and the two messages. *)
Definition main (pl : placement) (d : data) (r : results) : option results :=
  let* d := init_test_data d in
  let* _ := dot_product_pvmac d in
  let* _ := dot_product_vmac_b pl d in
  let* _ := dot_product_vmac_h pl d in
  let* _ := dot_product_vmac_w pl d in
  let* p := repeated (dot_product_pvmac d) (r_pvmac r) in
  let* b := repeated (dot_product_vmac_b pl d) (r_vmac_b r) in
  let* h := repeated (dot_product_vmac_h pl d) (r_vmac_h r) in
  let* w := repeated (dot_product_vmac_w pl d) (r_vmac_w r) in
  Some (Results p b h w).
End Vector.

(** The arrays have their declared types, and each lies in memory, 8-aligned. *)
Definition data_ok (d : data) : Prop :=
  (ints 8 TEST_SIZE (test_a d) /\ ints 8 TEST_SIZE (test_b d)) /\
  (ints 16 (TEST_SIZE / 2) (test_a16 d) /\ ints 16 (TEST_SIZE / 2) (test_b16 d)) /\
  (ints 32 (TEST_SIZE / 4) (test_a32 d) /\ ints 32 (TEST_SIZE / 4) (test_b32 d)).
Definition placement_ok (pl : placement) : Prop :=
  (placed (at_a pl) 64 /\ placed (at_b pl) 64) /\
  (placed (at_a16 pl) 64 /\ placed (at_b16 pl) 64) /\
  (placed (at_a32 pl) 64 /\ placed (at_b32 pl) 64).

(** ** Chunked dot products *)

Lemma accumulate_chunks k q A B term x y :
  length x = (q * k)%nat -> length y = (q * k)%nat ->
  0 <= A -> 0 <= B -> bounded A x -> bounded B y -> Z.of_nat (q * k) * (A * B) < 2 ^ 31 ->
  (forall i, i ∈ every k q -> term i = Some (dot (take k (drop i x)) (take k (drop i y)))) ->
  accumulate (every k q) term = Some (dot x y).
Proof.
  intros Hx Hy HA HB Hbx Hby Hmax Ht. unfold accumulate.
  rewrite (loop_sum _ _ (fun i => dot (take k (drop i x)) (take k (drop i y))) 0
    (Z.of_nat k * (A * B))); [|nia| |rewrite length_every; cbn; nia].
  - by rewrite dot_chunks.
  - intros i Hi. split; [by apply Ht|].
    etransitivity; [apply (dot_bound A B)|]; [done..| | |].
    + by apply bounded_take, bounded_drop.
    + by apply bounded_take, bounded_drop.
    + rewrite length_take. apply Z.mul_le_mono_nonneg_r; [nia|lia].
Qed.

Section Laws.
Context `{U : VectorUnit} `{!VectorUnitLaws U}.

Lemma packed_at_pack a i :
  (i + 4 <= length a)%nat -> packed_at a i = Some (sgn 32 (pack 8 (take 4 (drop i a)))).
Proof.
  intros Hi. unfold packed_at. rewrite !lookup_nth_lt by lia. cbn [mbind option_bind].
  by rewrite pack4_spec, chunk4 by lia.
Qed.

(** One step of a vector dot product. *)
Lemma vld_vmac_chunk s k n q A B ax ay x y i :
  0 <= s <= 2 -> Valu.width s = 8 * Z.of_nat k -> Valu.count_of s = n -> (k * n = 8)%nat ->
  ints (8 * Z.of_nat k) (q * n) x -> ints (8 * Z.of_nat k) (q * n) y ->
  placed ax (k * (q * n)) -> placed ay (k * (q * n)) ->
  0 <= A -> 0 <= B -> bounded A x -> bounded B y -> Z.of_nat n * (A * B) < 2 ^ 31 ->
  i ∈ every n q ->
  vld_vmac s (8 * Z.of_nat k) ax ay x y i = Some (dot (take n (drop i x)) (take n (drop i y))).
Proof.
  intros Hs Hw Hc Hkn Hx Hy Px Py HA HB Hbx Hby Hmax Hi.
  assert (HW : matrix (8 * Z.of_nat k) 1 (q * n) [y]).
  { destruct Hy as [Hl Hr]. split; [split; [done|]|]; by constructor. }
  rewrite <- (vmac_term_chunk s k n (q * n) q A B ax ay x [y] 0 y i); try done.
  - unfold vmac_term, vld_vmac. cbn [concat]. rewrite app_nil_r. by rewrite Nat.mul_0_l.
  - by rewrite Nat.mul_1_l.
Qed.

Lemma pvmac_exact d : data_ok d -> dot_product_pvmac d = Some (dot (test_a d) (test_b d)).
Proof.
  intros ((Ha & Hb) & _). pose proof Ha as [La Ra]. pose proof Hb as [Lb Rb].
  apply (accumulate_chunks 4 16 (2 ^ 7) (2 ^ 7)); try done; try by apply (srange_bounded 8).
  intros i Hi. apply elem_of_every in Hi as (t & -> & Ht).
  rewrite !packed_at_pack by (rewrite ?La, ?Lb; unfold TEST_SIZE; lia). cbn [mbind option_bind].
  rewrite pvmac_pack; [by rewrite int8_chunk_exact by (done || lia)|..];
    (split; [apply length_chunk; rewrite ?La, ?Lb; unfold TEST_SIZE; lia|by apply chunk_range]).
Qed.

(** A dot product of [q] groups of [n] elements of [k] bytes. *)
Lemma vmac_exact s k n q A B ax ay x y :
  0 <= s <= 2 -> Valu.width s = 8 * Z.of_nat k -> Valu.count_of s = n -> (k * n = 8)%nat ->
  ints (8 * Z.of_nat k) (q * n) x -> ints (8 * Z.of_nat k) (q * n) y ->
  placed ax (k * (q * n)) -> placed ay (k * (q * n)) ->
  0 <= A -> 0 <= B -> bounded A x -> bounded B y -> Z.of_nat (q * n) * (A * B) < 2 ^ 31 ->
  (0 < q)%nat ->
  accumulate (every n q) (vld_vmac s (8 * Z.of_nat k) ax ay x y) = Some (dot x y).
Proof.
  intros Hs Hw Hc Hkn Hx Hy Px Py HA HB Hbx Hby Hmax Hq.
  apply (accumulate_chunks n q A B); [apply Hx|apply Hy|done..|].
  intros i Hi. apply (vld_vmac_chunk s k n q A B); try done. nia.
Qed.

Lemma vmac_b_exact pl d :
  data_ok d -> placement_ok pl -> dot_product_vmac_b pl d = Some (dot (test_a d) (test_b d)).
Proof.
  intros ((Ha & Hb) & _) ((Pa & Pb) & _).
  apply (vmac_exact 0 1 8 8 (2 ^ 7) (2 ^ 7)); try (done || lia);
    apply (srange_bounded 8); [done|apply Ha|done|apply Hb].
Qed.

(** The magnitudes of the two operands keep an [n]-term dot product inside [int32_t]. *)
Definition sum_fits (n : nat) (x y : list Z) : Prop :=
  exists A B, 0 <= A /\ 0 <= B /\ bounded A x /\ bounded B y /\ Z.of_nat n * (A * B) < 2 ^ 31.

Lemma vmac_h_exact pl d :
  data_ok d -> placement_ok pl -> sum_fits (TEST_SIZE / 2) (test_a16 d) (test_b16 d) ->
  dot_product_vmac_h pl d = Some (dot (test_a16 d) (test_b16 d)).
Proof.
  intros (_ & (Ha & Hb) & _) (_ & (Pa & Pb) & _) (A & B & HA & HB & HbA & HbB & Hm).
  apply (vmac_exact 1 2 4 8 A B); try (done || lia).
Qed.

Lemma vmac_w_exact pl d :
  data_ok d -> placement_ok pl -> sum_fits (TEST_SIZE / 4) (test_a32 d) (test_b32 d) ->
  dot_product_vmac_w pl d = Some (dot (test_a32 d) (test_b32 d)).
Proof.
  intros (_ & _ & Ha & Hb) (_ & _ & Pa & Pb) (A & B & HA & HB & HbA & HbB & Hm).
  apply (vmac_exact 2 4 2 8 A B); try (done || lia).
Qed.

(** [C26] Whatever the typed arrays hold, the PVMAC loop and the VMAC.B loop are total,
    agree, and return the exact dot product of the int8 arrays; the VMAC.H and VMAC.W loops
    return the exact dot products of theirs whenever the magnitudes keep the sums inside
    [int32_t]. *)
Theorem sew_dot_products pl d :
  data_ok d -> placement_ok pl ->
  dot_product_pvmac d = Some (dot (test_a d) (test_b d)) /\
  dot_product_vmac_b pl d = dot_product_pvmac d /\
  (sum_fits (TEST_SIZE / 2) (test_a16 d) (test_b16 d) ->
   dot_product_vmac_h pl d = Some (dot (test_a16 d) (test_b16 d))) /\
  (sum_fits (TEST_SIZE / 4) (test_a32 d) (test_b32 d) ->
   dot_product_vmac_w pl d = Some (dot (test_a32 d) (test_b32 d))).
Proof.
  intros Hd Hp. rewrite vmac_b_exact, pvmac_exact by done.
  split_and!; try done; intros Hf; [by apply vmac_h_exact|by apply vmac_w_exact].
Qed.
End Laws.

(** ** The benchmark *)

Definition ramp (w : Z) (n : nat) (m c : Z) : list Z :=
  map (fun i => sgn w (Z.rem (Z.of_nat i) m - c)) (upto n).

Lemma fill_eq w n mp cp mq cq p q :
  length p = n -> length q = n -> fill w n mp cp mq cq (p, q) = Some (ramp w n mp cp, ramp w n mq cq).
Proof.
  intros Hp Hq. unfold fill.
  apply (loop_pair _ (fun i p => store p i (sgn w (Z.rem (Z.of_nat i) mp - cp)))
                     (fun i q => store q i (sgn w (Z.rem (Z.of_nat i) mq - cq))));
    apply (loop_fill n (fun i => Some (sgn w (Z.rem (Z.of_nat i) _ - _)))); done.
Qed.

(** What [init_test_data] leaves. *)
Definition initial : data :=
  Data (ramp 8 64 10 5) (ramp 8 64 7 3) (ramp 16 32 100 50) (ramp 16 32 70 35)
    (ramp 32 16 1000 500) (ramp 32 16 700 350).

Lemma init_test_data_eq d : data_ok d -> init_test_data d = Some initial.
Proof.
  intros (([La _] & [Lb _]) & ([La16 _] & [Lb16 _]) & [La32 _] & [Lb32 _]).
  unfold init_test_data. by rewrite !fill_eq by done.
Qed.

Lemma initial_ok : data_ok initial.
Proof. unfold data_ok. refine (bool_decide_unpack _ _). vm_compute. exact I. Qed.

Lemma initial_fits :
  sum_fits (TEST_SIZE / 2) (test_a16 initial) (test_b16 initial) /\
  sum_fits (TEST_SIZE / 4) (test_a32 initial) (test_b32 initial).
Proof.
  split; [exists 50, 35|exists 500, 350]; (split_and!; [lia|lia| | |done]);
    refine (bool_decide_unpack _ _); vm_compute; exact I.
Qed.

Lemma repeated_eq x r : repeated (Some x) r = Some x.
Proof. reflexivity. Qed.

Section Benchmark.
Context `{U : VectorUnit} `{!VectorUnitLaws U}.

(** The benchmark runs to its end from any typed global data and leaves the same
    value in [result_pvmac] and [result_vmac_b], and in the other two results the dot
    products of the int16 and int32 ramps: no sum overflows, no access is out of bounds. *)
Theorem sew_benchmark pl d r :
  data_ok d -> placement_ok pl ->
  main pl d r = Some (Results (-22) (-22) 24256 2699240).
Proof.
  intros Hd Hp. unfold main. rewrite init_test_data_eq by done. cbn [mbind option_bind].
  pose proof initial_ok as Hi. destruct initial_fits as [Fh Fw].
  rewrite pvmac_exact, vmac_b_exact, vmac_h_exact, vmac_w_exact by done.
  cbn [mbind option_bind]. rewrite !repeated_eq. cbn [mbind option_bind].
  vm_compute. reflexivity.
Qed.
End Benchmark.

(** ** On the hardware *)

#[local] Instance hw : VectorUnit := Hardware.unit_of Hardware.at_reset.
#[local] Instance hw_laws : VectorUnitLaws hw := Hardware.laws_of Hardware.at_reset.

Definition linked : placement := Placement 0x1000 0x1040 0x1080 0x10c0 0x1100 0x1140.
Definition bss : data :=
  Data (repeat 0 64) (repeat 0 64) (repeat 0 32) (repeat 0 32) (repeat 0 16) (repeat 0 16).

Lemma linked_ok : placement_ok linked.
Proof. unfold placement_ok. refine (bool_decide_unpack _ _). vm_compute. exact I. Qed.

Lemma bss_ok : data_ok bss.
Proof. unfold data_ok. refine (bool_decide_unpack _ _). vm_compute. exact I. Qed.

Example sew_dot_products_witness :
  dot_product_vmac_b linked initial = dot_product_pvmac initial /\
  dot_product_vmac_h linked initial = Some (dot (test_a16 initial) (test_b16 initial)).
Proof.
  destruct (sew_dot_products linked initial initial_ok linked_ok) as (_ & Hb & Hh & _).
  split; [exact Hb|]. apply Hh, initial_fits.
Defined.

Example sew_benchmark_witness :
  main linked bss (Results 0 0 0 0) = Some (Results (-22) (-22) 24256 2699240).
Proof. exact (sew_benchmark linked bss (Results 0 0 0 0) bss_ok linked_ok). Defined.
End SewCompare.
