(* ===== verification/FixedPoint.v ===== *)
(** The scalar benchmarks with biases: [sw/mnist-host/benchmark_int8_relu.c] (int8
    weights, [int32_t] accumulator, scaled ReLU), [sw/mnist-host/benchmark_int32_relu.c]
    (Q16.16, [int64_t] accumulator) and [sw/mnist-newlib/benchmark_int32.c] (Q16.16,
    [int32_t] accumulator, piecewise-linear sigmoid). Floats are the [binary32] and
    [binary64] values of [SpecFloat]. The theorems: the int8 and the 64-bit network are total
    on all typed data and compute their reference network; the 32-bit one under a
    magnitude bound; the int8 benchmark exits with 0 exactly from eight right answers on. *)

From Stdlib Require Import SpecFloat.
From S2P Require Import Prelude Loops VectorUnit Kernels Inference.
Import Kernels Inference.

Module FixedPoint.

(** * Floats *)

(** [float] and [double]: precision and exponent of the infinities. *)
Definition float_mul : spec_float -> spec_float -> spec_float := SFmul 24 128.
Definition float_div : spec_float -> spec_float -> spec_float := SFdiv 24 128.
Definition float_of_int (n : Z) : spec_float := binary_normalize 24 128 n 0 false.
(** The usual conversion of a [float] operand compared with a [double]. *)
Definition to_double (x : spec_float) : spec_float :=
  match x with
  | S754_finite s m e => binary_normalize 53 1024 (cond_Zopp s (Zpos m)) e s
  | _ => x
  end.

(** [(int32_t)x]: truncation toward zero; undefined behaviour outside [int32_t]. *)
Definition int32_of_float (x : spec_float) : option Z :=
  match x with
  | S754_zero _ => Some 0
  | S754_finite s m e => int_op 32 (cond_Zopp s (Z.shiftl (Zpos m) e))
  | _ => None
  end.

(** [float_to_fp] and [float_to_q16]: [(int32_t)(x * 65536)]. *)
Definition float_to_q16 (x : spec_float) : option Z :=
  int32_of_float (float_mul x (float_of_int 65536)).

(** * Layers with biases *)

(** [for j { acc = init(j); for i { acc += term(j, i); } out[j] = finish(j, acc); }]
    with a [w]-bit accumulator. *)
Definition mac_layer (w : Z) (n m : nat) (init : nat -> option Z) (term : nat -> nat -> option Z)
    (finish : nat -> Z -> option Z) (out : list Z) : option (list Z) :=
  loop (upto n) (fun j out =>
    let* acc := init j in
    let* acc := loop (upto m) (fun i acc => let* t := term j i in int_op w (acc + t)) acc in
    let* v := finish j acc in
    store out j v) out.

(** The arrays [hidden] and [output] of the activation structures. *)
Record activations := Activations { hidden : list Z; output : list Z }.

(** Weight tables and biases. *)
Record weights := Weights
  { W1 : list (list Z); b1 : list Z; W2 : list (list Z); b2 : list Z }.

(** ** int8 with ReLU *)

Definition relu_int8 (x : Z) : Z :=
  let scaled := Z.shiftr x 10 in
  if scaled <=? 0 then 0 else if scaled >? 127 then 127 else sgn 8 scaled.

(** [(int32_t)x[i] * (int32_t)W[i][j]] *)
Definition int8_term (x : list Z) (W : list (list Z)) (j i : nat) : option Z :=
  let* a := x !! i in let* b := get2 W i j in mul32 a b.

(** [acc += (int32_t)b[j] * k] *)
Definition add_bias (b : list Z) (k : Z) (j : nat) (acc : Z) : option Z :=
  let* v := b !! j in let* t := mul32 v k in add32 acc t.

Definition mlp_predict_int8_relu (wt : weights) (input_i8 : list Z) (act : activations)
    : option (nat * activations) :=
  let* h := mac_layer 32 HIDDEN_SIZE INPUT_SIZE (fun _ => Some 0) (int8_term input_i8 (W1 wt))
    (fun j acc => let* acc := add_bias (b1 wt) 64 j acc in Some (relu_int8 acc)) (hidden act) in
  let* o := mac_layer 32 OUTPUT_SIZE HIDDEN_SIZE (fun _ => Some 0) (int8_term h (W2 wt))
    (add_bias (b2 wt) 32) (output act) in
  let* pred := argmax_value o OUTPUT_SIZE in
  Some (pred, Activations h o).

(** ** Q16.16 with ReLU and a 64-bit accumulator *)

Definition relu_q16 (x : Z) : Z := if x >? 0 then x else 0.

(** [((int64_t)x[i] * (int64_t)W[i][j]) >> 16] *)
Definition q16_term (x : list Z) (W : list (list Z)) (j i : nat) : option Z :=
  let* a := x !! i in let* b := get2 W i j in
  let* p := int_op 64 (a * b) in Some (Z.shiftr p 16).

(** [input_q16[i] = float_to_q16(input_float[i])] *)
Definition convert_input (input_float : list spec_float) (input_q16 : list Z) : option (list Z) :=
  loop (upto INPUT_SIZE) (fun i q =>
    let* v := (let* x := input_float !! i in float_to_q16 x) in store q i v) input_q16.

Definition mlp_predict_q16_relu (wt : weights) (input_float : list spec_float) (local : list Z)
    (act : activations) : option (nat * activations) :=
  let* input_q16 := convert_input input_float local in
  let* h := mac_layer 64 HIDDEN_SIZE INPUT_SIZE (fun _ => Some 0) (q16_term input_q16 (W1 wt))
    (fun j acc => let* b := b1 wt !! j in let* acc := int_op 64 (acc + b) in
                  Some (relu_q16 (sgn 32 acc))) (hidden act) in
  let* o := mac_layer 64 OUTPUT_SIZE HIDDEN_SIZE (fun _ => Some 0) (q16_term h (W2 wt))
    (fun j acc => let* b := b2 wt !! j in let* acc := int_op 64 (acc + b) in
                  Some (sgn 32 acc)) (output act) in
  let* pred := argmax_value o OUTPUT_SIZE in
  Some (pred, Activations h o).

(** ** Q16.16 with sigmoid and a 32-bit accumulator *)

Definition FP_ONE : Z := Z.shiftl 1 16.

Definition fp_mul (a b : Z) : option Z :=
  let* temp := int_op 64 (a * b) in Some (sgn 32 (Z.shiftr temp 16)).

Definition sigmoid_fp (x : Z) : option Z :=
  let* five_fp := mul32 5 FP_ONE in
  if x <? - five_fp then Some 0 else
  if x >? five_fp then Some FP_ONE else
  let* result := add32 (Z.shiftr FP_ONE 1) (Z.shiftr x 2) in
  if result <? 0 then Some 0 else if result >? FP_ONE then Some FP_ONE else Some result.

Definition fp_term (x : list Z) (W : list (list Z)) (j i : nat) : option Z :=
  let* a := x !! i in let* b := get2 W i j in fp_mul a b.

Definition mlp_predict_int32 (wt : weights) (input_float : list spec_float) (local : list Z)
    (act : activations) : option (nat * activations) :=
  let* input_fp := convert_input input_float local in
  let* h := mac_layer 32 HIDDEN_SIZE INPUT_SIZE (fun j => b1 wt !! j) (fp_term input_fp (W1 wt))
    (fun _ acc => sigmoid_fp acc) (hidden act) in
  let* o := mac_layer 32 OUTPUT_SIZE HIDDEN_SIZE (fun j => b2 wt !! j) (fp_term h (W2 wt))
    (fun _ acc => Some acc) (output act) in
  let* pred := argmax_value o OUTPUT_SIZE in
  Some (pred, Activations h o).

(** ** The int8 benchmark *)

Definition NUM_TEST_SAMPLES : nat := 10.

(** The warm-up and the benchmark loop of [main] for a network [predict]: how many
    samples are classified as labelled. *)
Definition count_correct {I} (predict : I -> activations -> option (nat * activations))
    (images : list I) (labels : list Z) (act : activations) : option Z :=
  let* img := images !! 0%nat in
  let* (_, act) := predict img act in
  let* (correct, _) := loop (upto NUM_TEST_SAMPLES) (fun i s =>
    let* img := images !! i in
    let* (prediction, act) := predict img (snd s) in
    let* label := labels !! i in
    let* correct := add32 (fst s) (if decide (Z.of_nat prediction = label) then 1 else 0) in
    Some (correct, act)) (0, act) in
  Some correct.

(** [accuracy = (float)correct / NUM_TEST_SAMPLES * 100; return (accuracy >= 80.0) ? 0 : 1;] *)
Definition exit_code (correct : Z) : Z :=
  let accuracy := float_mul
    (float_div (float_of_int correct) (float_of_int (Z.of_nat NUM_TEST_SAMPLES)))
    (float_of_int 100) in
  if SFleb (binary_normalize 53 1024 80 0 false) (to_double accuracy) then 0 else 1.

Definition main_int8 (wt : weights) (test_images_i8 : list (list Z)) (test_labels : list Z)
    (act : activations) : option Z :=
  let* correct := count_correct (mlp_predict_int8_relu wt) test_images_i8 test_labels act in
  Some (exit_code correct).

(** * Reference networks *)

(** [sum_i f(x_i, y_i)] *)
Definition fold2 (f : Z -> Z -> Z) (x y : list Z) : Z := sumZ (zip_with f x y).

(** Neuron [j]: the activation of the accumulated products with column [j] and the bias. *)
Definition neurons (n : nat) (mul : Z -> Z -> Z) (act : Z -> Z) (k : Z) (x : list Z)
    (W : list (list Z)) (b : list Z) : list Z :=
  map (fun j => act (fold2 mul x (column W j) + nth j b 0 * k)) (upto n).

(** The outcome [r] is that of the network with these activations: both layers, and
    the first class of maximal output. *)
Definition network (mul : Z -> Z -> Z) (act1 act2 : Z -> Z) (k1 k2 : Z) (wt : weights) (x : list Z)
    (r : option (nat * activations)) : Prop :=
  let h := neurons HIDDEN_SIZE mul act1 k1 x (W1 wt) (b1 wt) in
  let o := neurons OUTPUT_SIZE mul act2 k2 h (W2 wt) (b2 wt) in
  exists p, r = Some (p, Activations h o) /\ first_max o OUTPUT_SIZE p.

(** Typed tables of [w]-bit weights. *)
Definition weights_ok (w : Z) (wt : weights) : Prop :=
  matrix w INPUT_SIZE HIDDEN_SIZE (W1 wt) /\ ints w HIDDEN_SIZE (b1 wt) /\
  matrix w HIDDEN_SIZE OUTPUT_SIZE (W2 wt) /\ ints w OUTPUT_SIZE (b2 wt).
Definition act_ok (act : activations) : Prop :=
  length (hidden act) = HIDDEN_SIZE /\ length (output act) = OUTPUT_SIZE.

#[export] Instance weights_ok_dec w wt : Decision (weights_ok w wt).
Proof. unfold weights_ok. apply _. Defined.

(** ** Layers *)

Lemma fold2_nth f x y :
  length x = length y ->
  sumZ (map (fun i => f (nth i x 0) (nth i y 0)) (upto (length x))) = fold2 f x y.
Proof.
  revert y. induction x as [|a x IH]; intros [|b y] Hl; try done. unfold upto.
  cbn [length seq map]. rewrite <- seq_shift, map_map. cbn [sumZ foldr nth].
  unfold fold2. cbn [zip_with sumZ foldr]. f_equal. apply IH. by injection Hl.
Qed.

Lemma mac_layer_eq w n m init term finish out (c : nat -> Z) (f : nat -> nat -> Z) (h : nat -> Z) B :
  length out = n -> 0 <= B ->
  (forall j, (j < n)%nat ->
     init j = Some (c j) /\ Z.abs (c j) + Z.of_nat m * B < 2 ^ (w - 1) /\
     (forall i, (i < m)%nat -> term j i = Some (f j i) /\ Z.abs (f j i) <= B) /\
     finish j (c j + sumZ (map (f j) (upto m))) = Some (h j)) ->
  mac_layer w n m init term finish out = Some (map h (upto n)).
Proof.
  intros Hlen HB Hj. unfold mac_layer.
  rewrite (loop_ext _ _ (fun j o => let* v := (let* acc := init j in
    let* acc := loop (upto m) (fun i acc => let* t := term j i in int_op w (acc + t)) acc in
    finish j acc) in store o j v)).
  2:{ intros j t _. destruct (init j); cbn; [|done]. by destruct (loop (upto m) _ _). }
  apply loop_fill; [done|]. intros j Hlt. destruct (Hj j Hlt) as (-> & Hmax & Ht & Hf).
  cbn [mbind option_bind]. rewrite (loop_sum_w w _ _ (f j) (c j) B); [done|done| |].
  - intros i Hi. apply Ht. by apply elem_of_upto.
  - unfold upto. by rewrite length_seq.
Qed.

(** The same for a product of the input and the weights, bounded by [B]. *)
Lemma neuron_layer w n m mul act k (c : nat -> Z) init term finish x W b out B :
  length x = m -> shape m n W -> length out = n -> 0 <= B ->
  (forall j, (j < n)%nat -> init j = Some (c j) /\ Z.abs (c j) + Z.of_nat m * B < 2 ^ (w - 1)) ->
  (forall j i, (j < n)%nat -> (i < m)%nat ->
     let v := mul (nth i x 0) (nth i (column W j) 0) in
     term j i = Some v /\ Z.abs v <= B) ->
  (forall j, (j < n)%nat -> let s := fold2 mul x (column W j) in
     Z.abs s <= Z.of_nat m * B ->
     finish j (c j + s) = Some (act (s + nth j b 0 * k))) ->
  mac_layer w n m init term finish out = Some (neurons n mul act k x W b).
Proof.
  intros Hx HW Hout HB Hinit Hterm Hfin. unfold neurons.
  apply (mac_layer_eq _ _ _ _ _ _ _ c (fun j i => mul (nth i x 0) (nth i (column W j) 0)) _ B); [done..|].
  intros j Hj. destruct (Hinit j Hj) as [Hc Hb]. split_and!; [done|done|auto|].
  assert (Hs : sumZ (map (fun i => mul (nth i x 0) (nth i (column W j) 0)) (upto m))
    = fold2 mul x (column W j)).
  { rewrite <- fold2_nth, Hx; [done|]. rewrite Hx, length_column. by destruct HW. }
  rewrite Hs. apply Hfin; [done|]. rewrite <- Hs.
  etransitivity; [apply (sumZ_bound _ B)|].
  - apply Forall_map, Forall_forall. intros i Hi. apply Hterm; [done|by apply elem_of_upto].
  - rewrite length_map. unfold upto. by rewrite length_seq.
Qed.

Lemma length_neurons n mul act k x W b : length (neurons n mul act k x W b) = n.
Proof. unfold neurons, upto. by rewrite length_map, length_seq. Qed.

Lemma neurons_range w n mul act k x W b :
  (forall z, srange w (act z)) -> Forall (srange w) (neurons n mul act k x W b).
Proof. intros Ha. apply Forall_map, Forall_true. intros j. apply Ha. Qed.

Lemma column_range w m n W j :
  0 < w -> matrix w m n W -> (j < n)%nat -> ints w m (column W j).
Proof.
  intros Hw HW Hj. apply (matrix_row w n m (transpose n W) j); [by apply (transpose_matrix w m n)|].
  unfold transpose, upto. by rewrite list_lookup_fmap, lookup_seq_lt by done.
Qed.

Lemma ints_nth w n l i : 0 < w -> ints w n l -> srange w (nth i l 0).
Proof.
  intros Hw [_ Hl]. rewrite nth_lookup. destruct (l !! i) eqn:E; cbn.
  - by apply (Forall_lookup_1 _ _ _ _ Hl E).
  - unfold srange. pose proof (pow2_pos (w - 1)). lia.
Qed.

(** The tail of every network. *)
Lemma network_intro mul act1 act2 k1 k2 wt x :
  let h := neurons HIDDEN_SIZE mul act1 k1 x (W1 wt) (b1 wt) in
  let o := neurons OUTPUT_SIZE mul act2 k2 h (W2 wt) (b2 wt) in
  network mul act1 act2 k1 k2 wt x
    (let* p := argmax_value o OUTPUT_SIZE in Some (p, Activations h o)).
Proof.
  intros h o. destruct (argmax_value_first o OUTPUT_SIZE) as (p & -> & Hp);
    [unfold OUTPUT_SIZE; lia|by unfold o; rewrite length_neurons|].
  exists p. done.
Qed.

(** ** int8 *)

Definition relu_1024 (z : Z) : Z := Z.max 0 (Z.min (z / 1024) 127).

Lemma relu_int8_eq x : relu_int8 x = relu_1024 x.
Proof.
  unfold relu_int8, relu_1024. rewrite Z.shiftr_div_pow2 by lia. change (2 ^ 10) with 1024.
  set (q := x / 1024). destruct (Z.leb_spec q 0); [lia|]. destruct (Z.gtb_spec q 127); [lia|].
  rewrite sgn_small; [lia..|]. word_lia.
Qed.

Lemma int8_layer n m act k x W b out finish :
  ints 8 m x -> matrix 8 m n W -> ints 8 n b -> length out = n ->
  Z.of_nat m <= 784 -> 0 <= k <= 64 ->
  (forall j acc v, b !! j = Some v -> Z.abs acc <= 784 * 2 ^ 14 -> srange 8 v ->
     finish j acc = Some (act (acc + v * k))) ->
  mac_layer 32 n m (fun _ => Some 0) (int8_term x W) finish out = Some (neurons n Z.mul act k x W b).
Proof.
  intros Hx HW [Hlb Hb] Hout Hm Hk Hfin.
  apply (neuron_layer _ _ _ _ _ _ (fun _ => 0) _ _ _ _ _ _ _ (2 ^ 14)); try done.
  - apply Hx.
  - apply HW.
  - intros j _. split; [done|]. change (32 - 1) with 31. word_pows. lia.
  - intros j i Hj Hi. cbn zeta. pose proof (ints_nth 8 m x i eq_refl Hx) as Ha.
    pose proof (ints_nth 8 m _ i eq_refl (column_range 8 _ _ _ _ eq_refl HW Hj)) as Hc.
    unfold int8_term. rewrite lookup_nth_lt by (destruct Hx; lia). cbn [mbind option_bind].
    rewrite (get2_nth m n) by (done || apply HW). cbn [mbind option_bind].
    assert (Hv : Z.abs (nth i x 0 * nth i (column W j) 0) <= 2 ^ 14)
      by (rewrite Z.abs_mul; unfold srange in *; word_pows; nia).
    split; [|done]. unfold mul32, int_op. rewrite decide_True; [done|]. word_lia.
  - intros j Hj s Hs. rewrite Z.add_0_l.
    apply (Hfin j s (nth j b 0)); [apply lookup_nth_lt; lia|nia|by apply (ints_nth 8 n); [|split]].
Qed.

Lemma add_bias_eq b k j acc v :
  b !! j = Some v -> Z.abs acc <= 784 * 2 ^ 14 -> srange 8 v -> 0 <= k <= 64 ->
  add_bias b k j acc = Some (acc + v * k).
Proof.
  intros Hv Hacc Hr Hk. unfold add_bias. rewrite Hv. cbn [mbind option_bind].
  unfold mul32, add32, int_op, srange in *. change (32 - 1) with 31. word_pows.
  rewrite decide_True by nia. cbn [mbind option_bind]. rewrite decide_True by nia. done.
Qed.

Lemma predict_int8 wt input act :
  weights_ok 8 wt -> ints 8 INPUT_SIZE input -> act_ok act ->
  network Z.mul relu_1024 id 64 32 wt input (mlp_predict_int8_relu wt input act).
Proof.
  intros (M1 & B1 & M2 & B2) Hx [Hh Ho]. unfold mlp_predict_int8_relu.
  rewrite (int8_layer HIDDEN_SIZE INPUT_SIZE relu_1024 64 input (W1 wt) (b1 wt)); try done.
  2:{ intros j acc v Hv Ha Hr. rewrite (add_bias_eq _ _ _ _ _ Hv) by done. cbn [mbind option_bind].
      by rewrite relu_int8_eq. }
  cbn [mbind option_bind].
  rewrite (int8_layer OUTPUT_SIZE HIDDEN_SIZE id 32 _ (W2 wt) (b2 wt)); try done.
  - apply network_intro.
  - split; [apply length_neurons|]. apply neurons_range. intros z. unfold relu_1024. word_lia.
  - intros j acc v Hv Ha Hr. by apply add_bias_eq.
Qed.

(** [C27] The host int8 network is total on all typed weights, biases and inputs:
    every access is in bounds and no [int32_t] operation overflows. The hidden activations
    are the sums plus 64 times the bias, divided by 1024 rounding down and clamped
    to [0, 127], the outputs are the sums plus 32 times the bias, and the prediction is the
    first class of maximal output. *)
Theorem int8_relu_network wt input act :
  weights_ok 8 wt -> ints 8 INPUT_SIZE input -> act_ok act ->
  network Z.mul (fun z => Z.max 0 (Z.min (z / 1024) 127)) id 64 32 wt input
    (mlp_predict_int8_relu wt input act).
Proof. intros. by apply predict_int8. Qed.

(** ** The benchmark *)

Lemma network_act mul act1 act2 k1 k2 wt x p a :
  network mul act1 act2 k1 k2 wt x (Some (p, a)) -> act_ok a.
Proof. intros (q & E & _). injection E as -> ->. split; apply length_neurons. Qed.

(** The class the int8 network assigns to an image. *)
Definition classifies (wt : weights) (x : list Z) (p : nat) : Prop :=
  exists a, network Z.mul relu_1024 id 64 32 wt x (Some (p, a)).

Lemma predict_class wt x act :
  weights_ok 8 wt -> ints 8 INPUT_SIZE x -> act_ok act ->
  exists p a, mlp_predict_int8_relu wt x act = Some (p, a) /\ classifies wt x p /\ act_ok a.
Proof.
  intros Hw Hx Ha. pose proof (predict_int8 wt x act Hw Hx Ha) as Hn.
  pose proof Hn as (p & E & _). rewrite E in *. exists p. eexists. split_and!; [done|by eexists|].
  by apply (network_act _ _ _ _ _ _ _ _ _ Hn).
Qed.

(** How many predictions match their labels. *)
Definition matches (classes : list nat) (labels : list Z) : Z :=
  sumZ (zip_with (fun p l => if decide (Z.of_nat p = l) then 1 else 0) classes labels).

Lemma matches_snoc cs ls p l : length cs = length ls ->
  matches (cs ++ [p]) (ls ++ [l]) = matches cs ls + (if decide (Z.of_nat p = l) then 1 else 0).
Proof.
  intros H. unfold matches. rewrite zip_with_app, sumZ_app by done. cbn. lia.
Qed.

Lemma matches_bound cs ls : 0 <= matches cs ls <= Z.of_nat (length cs).
Proof.
  revert ls. induction cs as [|p cs IH]; intros [|l ls]; unfold matches in *;
    cbn [zip_with sumZ foldr length]; try lia.
  specialize (IH ls). unfold sumZ in IH. destruct (decide _); lia.
Qed.

Lemma count_correct_eq wt images labels act :
  weights_ok 8 wt -> Forall (ints 8 INPUT_SIZE) images -> length images = NUM_TEST_SAMPLES ->
  length labels = NUM_TEST_SAMPLES -> act_ok act ->
  exists classes, Forall2 (classifies wt) images classes /\
    count_correct (mlp_predict_int8_relu wt) images labels act = Some (matches classes labels).
Proof.
  intros Hw Hi Hli Hll Ha. unfold count_correct.
  destruct (lookup_lt_is_Some_2 images 0) as [x0 E0]; [rewrite Hli; unfold NUM_TEST_SAMPLES; lia|].
  rewrite E0. cbn [mbind option_bind].
  destruct (predict_class wt x0 act Hw (Forall_lookup_1 _ _ _ _ Hi E0) Ha) as (p0 & a0 & -> & _ & Ha0).
  cbn [mbind option_bind].
  destruct (loop_upto_inv (fun n s => act_ok (snd s) /\ exists classes,
      Forall2 (classifies wt) (take n images) classes /\ fst s = matches classes (take n labels))
    NUM_TEST_SAMPLES (fun i s =>
      let* img := images !! i in
      let* (prediction, act) := mlp_predict_int8_relu wt img (snd s) in
      let* label := labels !! i in
      let* correct := add32 (fst s) (if decide (Z.of_nat prediction = label) then 1 else 0) in
      Some (correct, act)) (0, a0)) as ([n a] & -> & _ & classes & Hc & Hn).
  - split; [done|]. exists []. by split.
  - intros i [n a] Hlt [Hok (cs & Hcs & Hn)]. cbn [fst snd] in *.
    destruct (lookup_lt_is_Some_2 images i) as [x Ex]; [lia|].
    destruct (lookup_lt_is_Some_2 labels i) as [l El]; [lia|].
    rewrite Ex. cbn [mbind option_bind].
    destruct (predict_class wt x a Hw (Forall_lookup_1 _ _ _ _ Hi Ex) Hok) as (p & a' & -> & Hp & Ha').
    cbn [mbind option_bind]. rewrite El. cbn [mbind option_bind].
    pose proof (Forall2_length _ _ _ Hcs) as Hlen. rewrite length_take in Hlen.
    pose proof (matches_bound cs (take i labels)) as Hb. unfold NUM_TEST_SAMPLES in *.
    unfold add32, int_op. rewrite decide_True by (destruct (decide _); word_lia).
    cbn [mbind option_bind]. eexists. split; [done|]. split; [done|]. cbn [fst].
    exists (cs ++ [p]). rewrite Nat.add_1_r, (take_S_r _ _ _ Ex), (take_S_r _ _ _ El). split.
    + apply Forall2_app; [done|]. by constructor.
    + rewrite matches_snoc; [by rewrite Hn|]. rewrite length_take. lia.
  - cbn [mbind option_bind fst] in *. exists classes.
    rewrite take_ge in Hc by lia. rewrite take_ge in Hn by lia. by rewrite Hn.
Qed.

Lemma exit_code_eq n : 0 <= n <= 10 -> exit_code n = if 8 <=? n then 0 else 1.
Proof.
  intros Hn. assert (H : forallb (fun k => exit_code k =? (if 8 <=? k then 0 else 1))
    (map Z.of_nat (seq 0 11)) = true) by (vm_compute; reflexivity).
  rewrite forallb_forall in H. apply Z.eqb_eq, H, in_map_iff.
  exists (Z.to_nat n). split; [lia|]. apply in_seq. lia.
Qed.

(** The host int8 benchmark runs to its end on all typed tables, images and labels
    and exits with 0 exactly when the network classifies at least eight of the ten images as
    labelled: the [float] accuracy and its comparison with the [double] 80.0 round nothing
    across the threshold. *)
Theorem int8_benchmark_exit wt images labels act :
  weights_ok 8 wt -> Forall (ints 8 INPUT_SIZE) images -> length images = NUM_TEST_SAMPLES ->
  length labels = NUM_TEST_SAMPLES -> act_ok act ->
  exists classes, Forall2 (classifies wt) images classes /\
    main_int8 wt images labels act = Some (if 8 <=? matches classes labels then 0 else 1).
Proof.
  intros Hw Hi Hli Hll Ha.
  destruct (count_correct_eq wt images labels act Hw Hi Hli Hll Ha) as (cs & Hc & E).
  exists cs. split; [done|]. unfold main_int8. rewrite E. cbn [mbind option_bind].
  rewrite exit_code_eq; [done|]. pose proof (matches_bound cs labels).
  apply Forall2_length in Hc. rewrite <- Hc, Hli in H. exact H.
Qed.

(** ** Q16.16 *)

(** The rounded-down Q16.16 product. *)
Definition q16_mul (a b : Z) : Z := a * b / 65536.

Lemma q16_mul_bound A B a b :
  0 <= A -> 0 <= B -> Z.abs a <= A -> Z.abs b <= B -> Z.abs (q16_mul a b) <= A * B / 65536 + 1.
Proof.
  intros HA HB Ha Hb. unfold q16_mul. assert (Hp : - (A * B) <= a * b <= A * B) by nia.
  Z.div_mod_to_equations. nia.
Qed.

Lemma convert_input_eq xs qs local :
  Forall2 (fun x q => float_to_q16 x = Some q) xs qs -> length xs = INPUT_SIZE ->
  length local = INPUT_SIZE -> convert_input xs local = Some qs.
Proof.
  intros Hxq Hx Hl. pose proof (Forall2_length _ _ _ Hxq) as Hq. unfold convert_input.
  rewrite (loop_fill INPUT_SIZE _ (fun i => nth i qs 0)); [|done|].
  - f_equal. rewrite <- Hx, Hq. etransitivity; [exact (map_nth_upto id qs 0)|apply map_id].
  - intros j Hj. destruct (lookup_lt_is_Some_2 xs j) as [x Ex]; [lia|].
    rewrite Ex. cbn [mbind option_bind].
    destruct (Forall2_lookup_l _ _ _ _ _ Hxq Ex) as (q & Eq & E).
    by rewrite E, (nth_lookup qs), Eq.
Qed.

(** The conversion only produces [int32_t] values. *)
Lemma converted_range xs qs : Forall2 (fun x q => float_to_q16 x = Some q) xs qs -> Forall (srange 32) qs.
Proof.
  induction 1 as [|x q xs qs E _ IH]; constructor; [|done].
  unfold float_to_q16, int32_of_float in E. destruct (float_mul _ _); simplify_eq; [done|].
  unfold int_op in E. by destruct (decide _); simplify_eq.
Qed.

(** The operands of a term. *)
Lemma lookup_operands m n x W j i :
  length x = m -> shape m n W -> (j < n)%nat -> (i < m)%nat ->
  x !! i = Some (nth i x 0) /\ get2 W i j = Some (nth i (column W j) 0).
Proof. intros Hx HW Hj Hi. split; [apply lookup_nth_lt; lia|by apply (get2_nth m n)]. Qed.

Lemma int64_product a b : srange 32 a -> srange 32 b -> int_op 64 (a * b) = Some (a * b).
Proof. intros Ha Hb. unfold int_op. rewrite decide_True; [done|]. unfold srange in *. word_pows. nia. Qed.

Lemma q16_layer n m act x W b out finish :
  ints 32 m x -> matrix 32 m n W -> ints 32 n b -> length out = n -> Z.of_nat m <= 784 ->
  (forall j acc v, b !! j = Some v -> Z.abs acc <= 784 * (2 ^ 46 + 1) -> srange 32 v ->
     finish j acc = Some (act (acc + v * 1))) ->
  mac_layer 64 n m (fun _ => Some 0) (q16_term x W) finish out
  = Some (neurons n q16_mul act 1 x W b).
Proof.
  intros Hx HW [Hlb Hb] Hout Hm Hfin.
  apply (neuron_layer _ _ _ _ _ _ (fun _ => 0) _ _ _ _ _ _ _ (2 ^ 46 + 1)); try done.
  - apply Hx.
  - apply HW.
  - intros j _. split; [done|]. change (64 - 1) with 63. word_pows. lia.
  - intros j i Hj Hi. cbn zeta. pose proof (ints_nth 32 m x i eq_refl Hx) as Ha.
    pose proof (ints_nth 32 m _ i eq_refl (column_range 32 _ _ _ _ eq_refl HW Hj)) as Hc.
    destruct (lookup_operands m n x W j i (proj1 Hx) (proj1 HW) Hj Hi) as [Ex Ew].
    unfold q16_term. rewrite Ex. cbn [mbind option_bind]. rewrite Ew. cbn [mbind option_bind].
    rewrite int64_product by done. cbn [mbind option_bind].
    rewrite Z.shiftr_div_pow2 by lia. split; [done|].
    apply (q16_mul_bound (2 ^ 31) (2 ^ 31)); unfold srange in *; lia.
  - intros j Hj s Hs. rewrite Z.add_0_l.
    apply (Hfin j s (nth j b 0)); [apply lookup_nth_lt; lia|nia|by apply (ints_nth 32 n); [|split]].
Qed.

Lemma bias_q16 (b : list Z) (j : nat) acc v :
  b !! j = Some v -> Z.abs acc <= 784 * (2 ^ 46 + 1) -> srange 32 v ->
  (let* b := b !! j in int_op 64 (acc + b)) = Some (acc + v * 1).
Proof.
  intros Hv Ha Hr. rewrite Hv. cbn [mbind option_bind]. unfold int_op.
  rewrite decide_True; [by rewrite Z.mul_1_r|]. word_lia.
Qed.

Lemma relu_q16_eq z : relu_q16 z = Z.max 0 z.
Proof. unfold relu_q16. destruct (Z.gtb_spec z 0); lia. Qed.

(** [C28] The host Q16.16 network with the 64-bit accumulator is total on all [int32_t]
    weights and biases and all inputs whose conversion is defined: no 64-bit operation
    overflows. Neurons are the sums of the rounded-down products plus the bias, read as
    [int32_t], through a ReLU in the hidden layer. *)
Theorem q16_relu_network wt input_float input_q16 local act :
  weights_ok 32 wt -> act_ok act -> length local = INPUT_SIZE -> length input_float = INPUT_SIZE ->
  Forall2 (fun x q => float_to_q16 x = Some q) input_float input_q16 ->
  network (fun a b => a * b / 65536) (fun z => Z.max 0 (sgn 32 z)) (sgn 32) 1 1 wt input_q16
    (mlp_predict_q16_relu wt input_float local act).
Proof.
  intros (M1 & B1 & M2 & B2) [Hh Ho] Hl Hx Hxq. fold q16_mul.
  assert (Hq : ints 32 INPUT_SIZE input_q16).
  { split; [by rewrite <- (Forall2_length _ _ _ Hxq)|by apply (converted_range input_float)]. }
  unfold mlp_predict_q16_relu. rewrite (convert_input_eq _ _ _ Hxq) by done. cbn [mbind option_bind].
  rewrite (q16_layer HIDDEN_SIZE INPUT_SIZE (fun z => Z.max 0 (sgn 32 z)) input_q16 (W1 wt) (b1 wt)); try done.
  2:{ intros j acc v Hv Ha Hr. rewrite <- relu_q16_eq. pose proof (bias_q16 _ _ _ _ Hv Ha Hr) as E.
      rewrite Hv in *. cbn [mbind option_bind] in *. by rewrite E. }
  cbn [mbind option_bind].
  rewrite (q16_layer OUTPUT_SIZE HIDDEN_SIZE (sgn 32) _ (W2 wt) (b2 wt)); try done.
  - apply (network_intro q16_mul (fun z => Z.max 0 (sgn 32 z)) (sgn 32) 1 1).
  - split; [apply length_neurons|]. apply neurons_range. intros z.
    pose proof (sgn_range 32 z eq_refl). unfold srange in *. lia.
  - intros j acc v Hv Ha Hr. pose proof (bias_q16 _ _ _ _ Hv Ha Hr) as E.
    rewrite Hv in *. cbn [mbind option_bind] in *. by rewrite E.
Qed.

(** ** Q16.16 with a 32-bit accumulator *)

(** The piecewise-linear sigmoid: one half plus a quarter of [x], clamped to [0, 1]. *)
Definition sigmoid_line (x : Z) : Z := Z.max 0 (Z.min (32768 + x / 4) 65536).

(** The cut-offs at five never matter: the line leaves [0, 1] at two already. *)
Lemma sigmoid_fp_eq x : srange 32 x -> sigmoid_fp x = Some (sigmoid_line x).
Proof.
  intros Hx. unfold sigmoid_fp, sigmoid_line, FP_ONE.
  change (mul32 5 (Z.shiftl 1 16)) with (Some 327680). cbn [mbind option_bind].
  change (Z.shiftl 1 16) with 65536. change (Z.shiftr 65536 1) with 32768.
  rewrite Z.shiftr_div_pow2 by lia. change (2 ^ 2) with 4. unfold srange in Hx.
  assert (Hq : - 2 ^ 29 <= x / 4 < 2 ^ 29) by (word_pows; Z.div_mod_to_equations; lia).
  destruct (Z.ltb_spec x (- (327680))); [f_equal; Z.div_mod_to_equations; lia|].
  destruct (Z.gtb_spec x 327680); [f_equal; Z.div_mod_to_equations; lia|].
  unfold add32, int_op. rewrite decide_True by word_lia. cbn [mbind option_bind].
  destruct (Z.ltb_spec (32768 + x / 4) 0); [f_equal; lia|].
  destruct (Z.gtb_spec (32768 + x / 4) 65536); f_equal; lia.
Qed.

Lemma fp_mul_eq A B a b :
  0 <= A -> 0 <= B -> Z.abs a <= A -> Z.abs b <= B -> A * B / 65536 + 1 < 2 ^ 31 ->
  fp_mul a b = Some (q16_mul a b).
Proof.
  intros HA HB Ha Hb Hm. pose proof (q16_mul_bound A B a b HA HB Ha Hb) as Hp. unfold fp_mul, int_op.
  assert (A * B < 2 ^ 47) by (word_pows; Z.div_mod_to_equations; nia).
  rewrite decide_True by (unfold srange; word_pows; nia). cbn [mbind option_bind].
  rewrite Z.shiftr_div_pow2 by lia. change (a * b / 2 ^ 16) with (q16_mul a b).
  rewrite sgn_small; [done|lia|]. word_lia.
Qed.

(** Magnitude bounds that keep a layer's accumulator inside [int32_t]. *)
Record layer_fits (m : nat) (A B C : Z) (x : list Z) (W : list (list Z)) (b : list Z) : Prop := Fits
  { fits_A : 0 <= A; fits_B : 0 <= B; fits_C : 0 <= C; fits_x : bounded A x;
    fits_W : Forall (bounded B) W; fits_b : bounded C b;
    fits_sum : C + Z.of_nat m * (A * B / 65536 + 1) < 2 ^ 31 }.

Lemma bounded_column B W j : 0 <= B -> Forall (bounded B) W -> bounded B (column W j).
Proof.
  intros HB HW. unfold bounded, column. apply Forall_map. apply (Forall_impl _ _ _ HW).
  intros r Hr. by apply bounded_nth.
Qed.

Lemma fp_layer n m A B C act x W b out finish :
  layer_fits m A B C x W b -> length x = m -> shape m n W -> length b = n -> length out = n ->
  (0 < m)%nat -> (forall j acc, srange 32 acc -> finish j acc = Some (act acc)) ->
  mac_layer 32 n m (fun j => b !! j) (fp_term x W) finish out
  = Some (neurons n q16_mul act 1 x W b).
Proof.
  intros [HA HB HC Hbx HbW Hbb Hsum] Hx HW Hb Hout Hm Hfin.
  set (T := A * B / 65536 + 1) in *. assert (HT : 0 <= T) by (unfold T; Z.div_mod_to_equations; nia).
  apply (neuron_layer _ _ _ _ _ _ (fun j => nth j b 0) _ _ _ _ _ _ _ T); try done.
  - intros j Hj. split; [apply lookup_nth_lt; lia|].
    pose proof (bounded_nth C b j HC Hbb). change (32 - 1) with 31. lia.
  - intros j i Hj Hi. cbn zeta. pose proof (bounded_nth A x i HA Hbx) as Ha.
    pose proof (bounded_nth B _ i HB (bounded_column B W j HB HbW)) as Hc.
    destruct (lookup_operands m n x W j i Hx HW Hj Hi) as [Ex Ew].
    unfold fp_term. rewrite Ex. cbn [mbind option_bind]. rewrite Ew. cbn [mbind option_bind].
    rewrite (fp_mul_eq A B) by (done || fold T; nia). split; [done|]. by apply q16_mul_bound.
  - intros j Hj s Hs. pose proof (bounded_nth C b j HC Hbb).
    rewrite (Z.add_comm s), Z.mul_1_r. apply Hfin. unfold srange. change (32 - 1) with 31. lia.
Qed.

(** The newlib Q16.16 network with the 32-bit accumulator: under magnitude bounds on
    the converted inputs, the weights and the biases no [int32_t] sum overflows, and the
    network is the one of rounded-down products, biases and the line clamped to [0, 1] as
    sigmoid, without its cut-offs at plus and minus five. *)
Theorem q16_sigmoid_network wt input_float input_q16 local act A B C B2 C2 :
  weights_ok 32 wt -> act_ok act -> length local = INPUT_SIZE -> length input_float = INPUT_SIZE ->
  Forall2 (fun x q => float_to_q16 x = Some q) input_float input_q16 ->
  layer_fits INPUT_SIZE A B C input_q16 (W1 wt) (b1 wt) ->
  0 <= B2 -> 0 <= C2 -> Forall (bounded B2) (W2 wt) -> bounded C2 (b2 wt) ->
  C2 + Z.of_nat HIDDEN_SIZE * (B2 + 1) < 2 ^ 31 ->
  network (fun a b => a * b / 65536) (fun z => Z.max 0 (Z.min (32768 + z / 4) 65536)) id 1 1
    wt input_q16 (mlp_predict_int32 wt input_float local act).
Proof.
  intros (M1 & B1 & M2 & B2ok) [Hh Ho] Hl Hx Hxq Hfit HB2 HC2 HbW2 Hbb2 Hsum2. fold q16_mul sigmoid_line.
  pose proof (Forall2_length _ _ _ Hxq) as Hq. unfold mlp_predict_int32.
  rewrite (convert_input_eq _ _ _ Hxq) by done. cbn [mbind option_bind].
  rewrite (fp_layer HIDDEN_SIZE INPUT_SIZE A B C sigmoid_line input_q16 (W1 wt) (b1 wt)); try done.
  - cbn [mbind option_bind].
    rewrite (fp_layer OUTPUT_SIZE HIDDEN_SIZE 65536 B2 C2 id _ (W2 wt) (b2 wt)); try done.
    + apply (network_intro q16_mul sigmoid_line id 1 1).
    + split; try done; [|by rewrite (Z.mul_comm 65536), Z.div_mul].
      apply Forall_map, Forall_true. intros j. cbn. unfold sigmoid_line. lia.
    + apply M2.
    + apply B2ok.
    + unfold HIDDEN_SIZE. lia.
  - by rewrite <- Hq.
  - apply M1.
  - apply B1.
  - unfold INPUT_SIZE. lia.
  - intros j acc Hr. by apply sigmoid_fp_eq.
Qed.

(** ** Instances *)

(** Constant tables and buffers. *)
Definition flat (u c v d : Z) : weights :=
  Weights (repeat (repeat u HIDDEN_SIZE) INPUT_SIZE) (repeat c HIDDEN_SIZE)
    (repeat (repeat v OUTPUT_SIZE) HIDDEN_SIZE) (repeat d OUTPUT_SIZE).
Definition blank : activations := Activations (repeat 0 HIDDEN_SIZE) (repeat 0 OUTPUT_SIZE).
(** The [float] one half. *)
Definition half : spec_float := S754_finite false 8388608 (-24).

Lemma flat_ok w u c v d :
  srange w u -> srange w c -> srange w v -> srange w d -> weights_ok w (flat u c v d).
Proof. intros. split_and!; by (apply matrix_repeat || apply ints_repeat). Qed.

Lemma blank_ok : act_ok blank.
Proof. split; apply repeat_length. Qed.

Lemma half_converts n : Forall2 (fun x q => float_to_q16 x = Some q) (repeat half n) (repeat 32768 n).
Proof.
  assert (E : float_to_q16 half = Some 32768) by (vm_compute; reflexivity).
  induction n; constructor; done.
Qed.

Example int8_relu_network_witness :
  network Z.mul (fun z => Z.max 0 (Z.min (z / 1024) 127)) id 64 32 (flat 127 (-128) (-128) 127)
    (repeat 127 INPUT_SIZE)
    (mlp_predict_int8_relu (flat 127 (-128) (-128) 127) (repeat 127 INPUT_SIZE) blank).
Proof.
  apply int8_relu_network; [by apply flat_ok|by apply ints_repeat|apply blank_ok].
Defined.

Example int8_benchmark_exit_witness :
  exists cs, main_int8 (flat 1 2 3 4) (repeat (repeat 100 INPUT_SIZE) 10) [0; 0; 0; 0; 0; 0; 0; 0; 1; 2] blank
    = Some (if 8 <=? matches cs [0; 0; 0; 0; 0; 0; 0; 0; 1; 2] then 0 else 1).
Proof.
  destruct (int8_benchmark_exit (flat 1 2 3 4) (repeat (repeat 100 INPUT_SIZE) 10)
    [0; 0; 0; 0; 0; 0; 0; 0; 1; 2] blank) as (cs & _ & E).
  - by apply flat_ok.
  - by apply Forall_repeat, ints_repeat.
  - apply repeat_length.
  - reflexivity.
  - apply blank_ok.
  - exists cs. exact E.
Defined.

Example q16_relu_network_witness :
  network (fun a b => a * b / 65536) (fun z => Z.max 0 (sgn 32 z)) (sgn 32) 1 1
    (flat (-29386) 20434 74588 26073) (repeat 32768 INPUT_SIZE)
    (mlp_predict_q16_relu (flat (-29386) 20434 74588 26073) (repeat half INPUT_SIZE)
       (repeat 0 INPUT_SIZE) blank).
Proof.
  apply q16_relu_network; [by apply flat_ok|apply blank_ok|apply repeat_length|apply repeat_length|].
  apply half_converts.
Defined.

(** The extreme values of the shipped tables. *)
Example q16_sigmoid_network_witness :
  network (fun a b => a * b / 65536) (fun z => Z.max 0 (Z.min (32768 + z / 4) 65536)) id 1 1
    (flat (-62318) 48163 (-209539) (-16367)) (repeat 32768 INPUT_SIZE)
    (mlp_predict_int32 (flat (-62318) 48163 (-209539) (-16367)) (repeat half INPUT_SIZE)
       (repeat 0 INPUT_SIZE) blank).
Proof.
  apply (q16_sigmoid_network _ _ _ _ _ 65536 62318 48163 209539 16367);
    [by apply flat_ok|apply blank_ok|apply repeat_length|apply repeat_length|apply half_converts|..].
  - split; [lia|lia|lia|by apply bounded_repeat|by apply bounded_repeat2|by apply bounded_repeat|reflexivity].
  - lia.
  - lia.
  - by apply bounded_repeat2.
  - by apply bounded_repeat.
  - reflexivity.
Defined.
End FixedPoint.
