(* ===== verification/Print.v ===== *)
(** The console output of the bare-metal tests, [sw/test/print.c]: [puts],
    [printint] and [printf] over the external [putchar], whose effect is to append a byte
    to the output. Characters are their codes, [int] operations are checked, the local
    buffer of [printint] keeps its size. The theorems: when [printint] is defined and
    which numeral it prints; [printf] prints a format's pieces in order. *)

From S2P Require Import Prelude Loops.

Module Print.

(** The codes of a string literal. *)
Definition codes (s : string) : list Z := map (fun c => Z.of_nat (Ascii.nat_of_ascii c)) (String.list_ascii_of_string s).

(** The output so far; [putchar] appends a byte. *)
Definition putchar (c : Z) (out : list Z) : list Z := out ++ [wrap 8 c].

(** [for (; *s; s++) putchar( *s);] on a string, its terminator left out. *)
Definition put_string (s : list Z) (out : list Z) : list Z := fold_left (fun out c => putchar c out) s out.

Definition puts (s : list Z) (out : list Z) : list Z := putchar 10 (put_string s out).

(** [static char digits[] = "0123456789ABCDEF"], with its terminator. *)
Definition digits : list Z := codes "0123456789ABCDEF" ++ [0].
(** [a[d]]: undefined outside the array. *)
Definition index (a : list Z) (d : Z) : option Z := if d <? 0 then None else a !! Z.to_nat d.

(** [do buf[i++] = digits[x % base]; while ((x /= base) != 0);]. Each turn stores
    one element, so [length buf + 1] turns of fuel are as good as any number. *)
Fixpoint put_digits (fuel : nat) (x base : Z) (buf : list Z) (i : nat) : option (list Z * nat) :=
  match fuel with
  | O => None
  | S fuel =>
      let* _ := assert (base <> 0) in
      let* d := index digits (Z.rem x base) in
      let* buf := store buf i d in
      let x := Z.quot x base in
      if x =? 0 then Some (buf, S i) else put_digits fuel x base buf (S i)
  end.

(** [while (--i >= 0) putchar(buf[i]);] *)
Fixpoint put_back (i : nat) (buf out : list Z) : option (list Z) :=
  match i with
  | O => Some out
  | S i => let* c := buf !! i in put_back i buf (putchar c out)
  end.

(** [buf] is the uninitialised local buffer. *)
Definition printint (buf : list Z) (xx base sgn : Z) (out : list Z) : option (list Z) :=
  let neg := negb (sgn =? 0) && (xx <? 0) in
  let* x := if neg then int_op 32 (- xx) else Some xx in
  let* (buf, i) := put_digits (S (length buf)) x base buf 0 in
  let* (buf, i) := if neg then let* buf := store buf i 45 in Some (buf, S i) else Some (buf, i) in
  put_back i buf out.

(** The variable arguments: [int]s and strings, which may be null. *)
Inductive arg := Int (n : Z) | Ptr (s : option (list Z)).

Definition va_int (args : list arg) : option (Z * list arg) :=
  match args with Int n :: args => Some (n, args) | _ => None end.
Definition va_ptr (args : list arg) : option (option (list Z) * list arg) :=
  match args with Ptr s :: args => Some (s, args) | _ => None end.

(** The loop over the format; the terminator is the end of the list. *)
Fixpoint printf (buf fmt : list Z) (args : list arg) (out : list Z) : option (list Z) :=
  match fmt with
  | [] => Some out
  | c :: fmt =>
      if negb (c =? 37) then printf buf fmt args (putchar c out)
      else match fmt with
           | [] => Some out
           | c :: fmt =>
               if c =? 100 then let* (n, args) := va_int args in
                 let* out := printint buf n 10 1 out in printf buf fmt args out
               else if (c =? 120) || (c =? 112) then let* (n, args) := va_int args in
                 let* out := printint buf n 16 0 out in printf buf fmt args out
               else if c =? 115 then let* (s, args) := va_ptr args in
                 printf buf fmt args (put_string (default (codes "(null)") s) out)
               else if c =? 37 then printf buf fmt args (putchar 37 out)
               else printf buf fmt args (putchar c (putchar 37 out))
           end
  end.

(** * Numerals *)

Definition digit_value (c : Z) : Z := if c <=? 57 then c - 48 else c - 55.
Definition reads (base : Z) (s : list Z) : Z := fold_left (fun v c => v * base + digit_value c) s 0.

(** [s] is the numeral of [n]: digits of the base, no leading zero, and it reads as [n]. *)
Definition numeral (base n : Z) (s : list Z) : Prop :=
  s <> [] /\ Forall (fun c => c ∈ take (Z.to_nat base) digits) s /\ reads base s = n /\
  (head s = Some 48 -> s = [48]).

Lemma reads_snoc base s c : reads base (s ++ [c]) = reads base s * base + digit_value c.
Proof. unfold reads. by rewrite fold_left_app. Qed.

Lemma digit_ok base d : 2 <= base <= 16 -> 0 <= d < base ->
  exists c, index digits d = Some c /\ digit_value c = d /\ c ∈ take (Z.to_nat base) digits /\
    (c = 48 -> d = 0) /\ urange 8 c.
Proof.
  intros Hb Hd. unfold index. destruct (Z.ltb_spec d 0); [lia|].
  assert (Hlt : (Z.to_nat d < 16)%nat) by lia.
  destruct (lookup_lt_is_Some_2 digits (Z.to_nat d)) as [c Hc]; [cbn; lia|].
  exists c. split; [done|].
  assert (Hv : digit_value c = d /\ (c = 48 -> d = 0) /\ urange 8 c).
  { rewrite <- (Z2Nat.id d) by lia. revert Hc. generalize (Z.to_nat d) Hlt.
    intros n Hn. do 16 (destruct n as [|n]; [intros [= <-]; by vm_compute|]). lia. }
  destruct Hv as (Hv & Hz & Hr). split_and!; [done| |done|done].
  apply list_elem_of_lookup. exists (Z.to_nat d). by rewrite lookup_take_lt by lia.
Qed.

Lemma numeral_nonempty base n s : numeral base n s -> (0 < length s)%nat.
Proof. intros [Hs _]. destruct s; [done|cbn; lia]. Qed.

(** A numeral followed by a digit. *)
Lemma numeral_snoc base q d c s :
  numeral base q s -> q <> 0 -> index digits d = Some c -> digit_value c = d ->
  c ∈ take (Z.to_nat base) digits -> numeral base (q * base + d) (s ++ [c]).
Proof.
  intros (Hs & Hf & Hr & Hh) Hq Hc Hv Hin. split_and!.
  - by destruct s.
  - apply Forall_app. by rewrite Forall_singleton.
  - by rewrite reads_snoc, Hr, Hv.
  - destruct s as [|a s]; [done|]. cbn. intros [= ->]. specialize (Hh eq_refl).
    rewrite Hh in Hr. cbn in Hr. lia.
Qed.

Lemma numeral_digit base d c :
  index digits d = Some c -> digit_value c = d -> c ∈ take (Z.to_nat base) digits ->
  numeral base d [c].
Proof. intros Hc Hv Hin. split_and!; [done|by apply Forall_singleton|done|by intros [= ->]]. Qed.

(** ** The digit loop *)

Definition chars (s : list Z) : Prop := Forall (urange 8) s.

Lemma put_digits_eq k fuel x base buf i :
  2 <= base <= 16 -> 0 <= x < base ^ Z.of_nat k -> (0 < k <= fuel)%nat -> (i + k <= length buf)%nat ->
  exists buf' ds, put_digits fuel x base buf i = Some (buf', i + length ds)%nat /\
    length buf' = length buf /\ take (i + length ds) buf' = take i buf ++ ds /\
    numeral base x (rev ds) /\ (length ds <= k)%nat /\ chars ds.
Proof.
  intros Hb. revert fuel x buf i. induction k as [|k IH]; intros fuel x buf i Hx Hk Hi; [lia|].
  destruct fuel as [|fuel]; [lia|]. cbn [put_digits].
  assert (Hm : 0 <= Z.rem x base < base) by (apply Z.rem_bound_pos; lia).
  destruct (digit_ok base (Z.rem x base) Hb Hm) as (c & Hc & Hv & Hin & Hz & Hr).
  unfold assert. rewrite decide_True by lia. cbn [mbind option_bind]. rewrite Hc. cbn [mbind option_bind].
  rewrite store_lt by lia. cbn [mbind option_bind].
  assert (Hq : x = Z.quot x base * base + Z.rem x base)
    by (rewrite (Z.quot_rem' x base) at 1; lia).
  assert (Ht : take (S i) (<[i:=c]> buf) = take i buf ++ [c]).
  { rewrite (take_S_r _ i c) by (apply list_lookup_insert_eq; lia). by rewrite take_insert_ge by lia. }
  set (q := Z.quot x base) in *. destruct (Z.eqb_spec q 0) as [E|E].
  - exists (<[i:=c]> buf), [c]. cbn [length rev app]. rewrite Nat.add_1_r, length_insert.
    split_and!; [done|done|done| |lia|by apply Forall_singleton].
    rewrite Hq, E. by apply numeral_digit.
  - assert (Hq0 : 0 <= q) by (apply Z.quot_pos; lia).
    destruct (IH fuel q (<[i:=c]> buf) (S i)) as (buf' & ds & -> & Hl & Htk & Hn & Hlen & Hch).
    + split; [done|]. rewrite Nat2Z.inj_succ, Z.pow_succ_r in Hx by lia. nia.
    + split; [|lia]. destruct k; [|lia]. change (Z.of_nat 1) with 1 in Hx.
      rewrite Z.pow_1_r in Hx. assert (q = 0) by (apply Z.quot_small; lia). done.
    + rewrite length_insert. lia.
    + exists buf', (c :: ds). cbn [length rev]. rewrite Nat.add_succ_r.
      split_and!; [done|by rewrite Hl, length_insert| | |lia|by constructor].
      * cbn [Nat.add] in Htk. rewrite Htk, Ht, <- app_assoc. done.
      * rewrite Hq at 1. by apply numeral_snoc.
Qed.

(** A negative operand sooner or later indexes [digits] below its start. *)
Lemma put_digits_negative fuel x base buf i : 2 <= base -> x < 0 -> put_digits fuel x base buf i = None.
Proof.
  intros Hb. revert x buf i. induction fuel as [|fuel IH]; intros x buf i Hx; [done|]. cbn [put_digits].
  unfold assert. rewrite decide_True by lia. cbn [mbind option_bind].
  assert (Hq : x = base * Z.quot x base + Z.rem x base) by apply Z.quot_rem'.
  pose proof (Z.rem_bound_abs x base ltac:(lia)) as Hr.
  unfold index. destruct (Z.ltb_spec (Z.rem x base) 0); [done|].
  destruct (digits !! _); [|done]. cbn [mbind option_bind]. destruct (store _ _ _); [|done].
  cbn [mbind option_bind].
  destruct (Z.eqb_spec (Z.quot x base) 0) as [E|E]; [lia|]. apply IH. nia.
Qed.

Lemma put_string_eq s out : chars s -> put_string s out = out ++ s.
Proof.
  unfold put_string. intros Hs. revert out. induction Hs as [|c s Hc _ IH]; intros out; cbn.
  - by rewrite app_nil_r.
  - rewrite IH. unfold putchar. by rewrite wrap_small, <- app_assoc by done.
Qed.

Lemma put_back_eq i buf out :
  (i <= length buf)%nat -> chars (take i buf) -> put_back i buf out = Some (out ++ rev (take i buf)).
Proof.
  revert out. induction i as [|i IH]; intros out Hi Hc; cbn [put_back take rev].
  - by rewrite app_nil_r.
  - destruct (lookup_lt_is_Some_2 buf i) as [c E]; [lia|]. rewrite E. cbn [mbind option_bind].
    rewrite (take_S_r _ _ _ E) in Hc |- *. apply Forall_app in Hc as [Hc Hc1].
    rewrite IH by (done || lia). rewrite rev_app_distr. cbn. unfold putchar.
    rewrite wrap_small by (by apply Forall_cons in Hc1 as [? _]). by rewrite <- app_assoc.
Qed.

(** What [printint] prints. *)
Definition int_text (n base : Z) (s : list Z) : Prop :=
  if n <? 0 then exists t, s = 45 :: t /\ numeral base (- n) t else numeral base n s.

Lemma printint_eq buf n base sg out :
  (base = 10 \/ base = 16) -> length buf = 16%nat -> srange 32 n ->
  (0 <= n \/ sg <> 0 /\ n <> - 2 ^ 31) ->
  exists s, printint buf n base sg out = Some (out ++ s) /\ int_text n base s.
Proof.
  intros Hb Hl Hn Hdef. assert (Hb' : 2 <= base <= 16) by lia. unfold printint, int_text.
  assert (Hpow : 2 ^ 31 <= base ^ 10) by (destruct Hb as [->| ->]; by vm_compute).
  assert (Hneg : negb (sg =? 0) && (n <? 0) = (n <? 0)).
  { destruct (Z.eqb_spec sg 0); cbn; [|done]. destruct (Z.ltb_spec n 0); [lia|done]. }
  rewrite Hneg. set (m := if n <? 0 then - n else n).
  assert (Hx : (if n <? 0 then int_op 32 (- n) else Some n) = Some m /\ 0 <= m < base ^ Z.of_nat 10).
  { change (Z.of_nat 10) with 10. unfold m, int_op, srange in *. change (32 - 1) with 31 in *.
    destruct (Z.ltb_spec n 0); [rewrite decide_True by lia|]; (split; [done|lia]). }
  destruct Hx as [-> Hm]. cbn [mbind option_bind]. rewrite Hl.
  destruct (put_digits_eq 10 17 m base buf 0 Hb' Hm) as (buf' & ds & -> & Hl' & Htk & Hnum & Hlen & Hch); [lia..|].
  cbn [mbind option_bind Nat.add] in *. cbn [take app] in Htk. unfold m in *. clear m.
  destruct (Z.ltb_spec n 0); cbn [mbind option_bind].
  - rewrite store_lt by lia. cbn [mbind option_bind].
    assert (Ht : take (S (length ds)) (<[length ds:=45]> buf') = ds ++ [45]).
    { rewrite (take_S_r _ _ 45) by (apply list_lookup_insert_eq; lia).
      by rewrite take_insert_ge, Htk by lia. }
    rewrite put_back_eq; [|rewrite length_insert; lia|].
    + rewrite Ht, rev_app_distr. eexists. split; [done|]. by exists (rev ds).
    + rewrite Ht. apply Forall_app. by rewrite Forall_singleton.
  - rewrite put_back_eq by (rewrite ?Htk; done || lia). rewrite Htk. by eexists.
Qed.

(** [C29] [printint] in base 10 or 16 is defined exactly on the nonnegative integers and,
    when asked for signs, on the negative ones whose opposite is representable; it then
    prints the numeral of the number with a minus sign before it where there is one, never
    overrunning its 16-byte buffer. In every other case it has undefined behaviour: it
    negates the least [int], or reads [digits] at a negative index. *)
Theorem printint_exact buf n base sg out :
  (base = 10 \/ base = 16) -> length buf = 16%nat -> srange 32 n ->
  if decide (0 <= n \/ sg <> 0 /\ n <> - 2 ^ 31)
  then exists s, printint buf n base sg out = Some (out ++ s) /\ int_text n base s
  else printint buf n base sg out = None.
Proof.
  intros Hb Hl Hn. destruct (decide _) as [Hd|Hd]; [by apply printint_eq|].
  unfold printint. destruct (Z.eqb_spec sg 0) as [E|E]; cbn [negb andb].
  - cbn [mbind option_bind]. by rewrite put_digits_negative by lia.
  - assert (n = - 2 ^ 31) as -> by lia. reflexivity.
Qed.

(** ** Formats *)

(** What a format is made of. *)
Inductive piece :=
  | Lit (c : Z)                   (* a character *)
  | Dec (n : Z)                   (* %d *)
  | Hex (letter : Z) (n : Z)      (* %x, %p *)
  | Str (s : option (list Z))     (* %s *)
  | Percent                       (* %% *)
  | Unknown (c : Z).              (* any other letter *)

Definition template (p : piece) : list Z :=
  match p with
  | Lit c => [c] | Dec _ => [37; 100] | Hex l _ => [37; l] | Str _ => [37; 115]
  | Percent => [37; 37] | Unknown c => [37; c]
  end.
Definition arguments (p : piece) : list arg :=
  match p with Dec n | Hex _ n => [Int n] | Str s => [Ptr s] | _ => [] end.
(** The text of a piece. *)
Definition prints (p : piece) (s : list Z) : Prop :=
  match p with
  | Lit c => s = [c]
  | Dec n => int_text n 10 s
  | Hex _ n => numeral 16 n s
  | Str t => s = default (codes "(null)") t
  | Percent => s = [37]
  | Unknown c => s = [37; c]
  end.
(** Nonzero bytes, representable arguments, [%x] of nonnegative ones. *)
Definition piece_ok (p : piece) : Prop :=
  match p with
  | Lit c => 0 < c < 256 /\ c <> 37
  | Dec n => - 2 ^ 31 < n < 2 ^ 31
  | Hex l n => (l = 120 \/ l = 112) /\ 0 <= n < 2 ^ 31
  | Str None | Percent => True
  | Str (Some t) => Forall (fun c => 0 < c < 256) t
  | Unknown c => 0 < c < 256 /\ c ∉ [100; 120; 112; 115; 37]
  end.

Lemma putchar_eq c out : urange 8 c -> putchar c out = out ++ [c].
Proof. intros Hc. unfold putchar. by rewrite wrap_small. Qed.

Lemma printf_piece buf p fmt args out :
  piece_ok p -> length buf = 16%nat ->
  exists s, prints p s /\
    printf buf (template p ++ fmt) (arguments p ++ args) out = printf buf fmt args (out ++ s).
Proof.
  intros Hp Hl. destruct p as [c|n|l n|t| |c]; cbn [template arguments prints app piece_ok] in *.
  - destruct Hp as [Hc Hn]. exists [c]. split; [done|]. cbn [printf].
    rewrite (proj2 (Z.eqb_neq c 37) Hn). cbn [negb]. by rewrite putchar_eq by (unfold urange; lia).
  - destruct (printint_eq buf n 10 1 out) as (s & E & Hs); [by left|done| |right; lia|].
    { unfold srange. change (32 - 1) with 31. lia. }
    exists s. split; [done|]. cbn -[printint]. by rewrite E.
  - destruct Hp as [Hlt Hn]. destruct (printint_eq buf n 16 0 out) as (s & E & Hs); [by right|done| |left; lia|].
    { unfold srange. change (32 - 1) with 31. lia. }
    exists s. unfold int_text in Hs. rewrite (proj2 (Z.ltb_ge n 0)) in Hs by lia. split; [done|].
    destruct Hlt as [->| ->]; cbn -[printint]; by rewrite E.
  - eexists. split; [done|]. cbn. rewrite put_string_eq; [done|].
    destruct t as [t|]; cbn [default]; [|unfold chars; refine (bool_decide_unpack _ _); vm_compute; exact I].
    apply (Forall_impl _ _ _ Hp). intros c Hc. unfold urange. lia.
  - eexists. split; [done|]. done.
  - destruct Hp as [Hc Hn]. eexists. split; [done|]. cbn [printf].
    rewrite !not_elem_of_cons in Hn.
    destruct Hn as (? & ? & ? & ? & ? & _). rewrite !(proj2 (Z.eqb_neq c _)) by done. cbn.
    rewrite putchar_eq by (unfold urange; lia). unfold putchar. by rewrite <- app_assoc.
Qed.

(** [printf] prints its format piece by piece: for every sequence of pieces with
    representable arguments (nonnegative under [%x]), the format made of their templates
    and the arguments they take print the concatenation of their texts, characters as they
    are, [%d] and [%x] as numerals, [%s] as the string or [(null)], unknown letters with
    their percent sign; arguments that are left over are ignored. *)
Theorem printf_renders buf ps rest out :
  Forall piece_ok ps -> length buf = 16%nat ->
  exists texts, Forall2 prints ps texts /\
    printf buf (concat (map template ps)) (concat (map arguments ps) ++ rest) out
    = Some (out ++ concat texts).
Proof.
  intros Hps Hl. revert out. induction Hps as [|p ps Hp _ IH]; intros out; cbn [map concat].
  - exists []. split; [constructor|]. cbn. by rewrite app_nil_r.
  - destruct (printf_piece buf p (concat (map template ps)) (concat (map arguments ps) ++ rest) out Hp Hl)
      as (s & Hs & E).
    destruct (IH (out ++ s)) as (ts & Hts & E').
    exists (s :: ts). split; [by constructor|]. rewrite <- app_assoc, E, E', <- app_assoc. done.
Qed.

(** [printf("n=%d 0x%x %s %q\n", -120, 255, 0)] *)
Example printf_runs :
  printf (repeat 0 16) (codes "n=%d 0x%x %s %q%%!") [Int (-120); Int 255; Ptr None] []
  = Some (codes "n=-120 0xFF (null) %q%!").
Proof. reflexivity. Qed.

Example printint_exact_witness :
  (exists s, printint (repeat 0 16) (-2147483647) 10 1 [] = Some ([] ++ s) /\
     int_text (-2147483647) 10 s) /\
  printint (repeat 0 16) (-559038737) 16 0 [] = None.
Proof.
  split.
  - apply (printint_exact (repeat 0 16) (-2147483647) 10 1 []); [by left|done|done].
  - apply (printint_exact (repeat 0 16) (-559038737) 16 0 []); [by right|done|done].
Defined.

Example printf_renders_witness :
  exists texts, Forall2 prints [Lit 110; Dec (-120); Hex 120 255; Str None; Unknown 113] texts /\
    printf (repeat 0 16) (codes "n%d%x%s%q") [Int (-120); Int 255; Ptr None; Int 7] []
    = Some ([] ++ concat texts).
Proof.
  apply (printf_renders (repeat 0 16) [Lit 110; Dec (-120); Hex 120 255; Str None; Unknown 113] [Int 7] []);
    [|done].
  repeat (apply Forall_cons; split); try (by split; [|done]); try done.
  - split; [by left|done].
  - split; [done|]. refine (bool_decide_unpack _ _). vm_compute. exact I.
Defined.
End Print.
