(* ===== verification/Matmul.v ===== *)
(** The matrix benchmark [sw/mnist-newlib/matmul.c]: [matmul] on 8 x 8 [int32_t]
    arrays, and what [main] reports on its two constant matrices. The theorems: [matmul]
    is total and gives the matrix product while the entries keep the sums inside
    [int32_t]; the result check of [main] compares with a constant that is not the product's. *)

From S2P Require Import Prelude Loops Kernels Inference.
Import Kernels Inference.

Module Matmul.

Definition N : nat := 8.

(** [A[i][k] * B[k][j]] *)
Definition product_term (A B : list (list Z)) (i j k : nat) : option Z :=
  let* a := get2 A i k in let* b := get2 B k j in mul32 a b.

Definition matmul (A B C : list (list Z)) : option (list (list Z)) :=
  loop (upto N) (fun i C =>
    loop (upto N) (fun j C =>
      let* sum := loop (upto N) (fun k sum =>
        let* t := product_term A B i j k in add32 sum t) 0 in
      store2 C i j sum) C) C.

(** The initialisers of [A] and [B]: rows 1 to 8 and 8 to 1, rotated. *)
Definition A : list (list Z) :=
  [[1; 2; 3; 4; 5; 6; 7; 8]; [2; 3; 4; 5; 6; 7; 8; 1]; [3; 4; 5; 6; 7; 8; 1; 2];
   [4; 5; 6; 7; 8; 1; 2; 3]; [5; 6; 7; 8; 1; 2; 3; 4]; [6; 7; 8; 1; 2; 3; 4; 5];
   [7; 8; 1; 2; 3; 4; 5; 6]; [8; 1; 2; 3; 4; 5; 6; 7]].
Definition B : list (list Z) :=
  [[8; 7; 6; 5; 4; 3; 2; 1]; [7; 6; 5; 4; 3; 2; 1; 8]; [6; 5; 4; 3; 2; 1; 8; 7];
   [5; 4; 3; 2; 1; 8; 7; 6]; [4; 3; 2; 1; 8; 7; 6; 5]; [3; 2; 1; 8; 7; 6; 5; 4];
   [2; 1; 8; 7; 6; 5; 4; 3]; [1; 8; 7; 6; 5; 4; 3; 2]].

(** [main], less the counters and the printing of the matrices: the result matrix
    and whether the verification line says PASS. *)
Definition main (C : list (list Z)) : option (list (list Z) * bool) :=
  let* C := matmul A B C in
  let* C := matmul A B C in
  let* c := get2 C 0 0 in
  let expected := 204 in
  Some (C, bool_decide (c = expected)).

(** * Correctness *)

(** Row [i], column [j] of the product: the dot product of a row and a column. *)
Definition mat_product (A B : list (list Z)) : list (list Z) :=
  map (fun row => map (fun j => dot row (column B j)) (upto N)) A.

Lemma product_entry a b A B row i j :
  shape N N A -> shape N N B -> Forall (bounded a) A -> Forall (bounded b) B ->
  0 <= a -> 0 <= b -> 8 * (a * b) < 2 ^ 31 -> A !! i = Some row -> (j < N)%nat ->
  loop (upto N) (fun k sum => let* t := product_term A B i j k in add32 sum t) 0
  = Some (dot row (column B j)).
Proof.
  intros SA SB HA HB Ha Hb Hm Hrow Hj.
  pose proof (shape_row _ _ _ _ _ SA Hrow) as Hl. pose proof (Forall_lookup_1 _ _ _ _ HA Hrow) as Hbr.
  assert (Hc : bounded b (column B j)).
  { unfold bounded, column. apply Forall_map. apply (Forall_impl _ _ _ HB). intros r. by apply bounded_nth. }
  rewrite (loop_sum _ _ (fun k => nth k row 0 * nth k (column B j) 0) 0 (a * b)); [|nia| |].
  - rewrite Z.add_0_l, <- Hl, dot_nth; [done|]. rewrite length_column, Hl. by destruct SB.
  - intros k Hk%elem_of_upto.
    pose proof (bounded_nth a row k Ha Hbr). pose proof (bounded_nth b (column B j) k Hb Hc).
    assert (Hp : Z.abs (nth k row 0 * nth k (column B j) 0) <= a * b) by (rewrite Z.abs_mul; nia).
    split; [|done]. unfold product_term. rewrite (get2_row _ _ _ _ Hrow) by lia. cbn [mbind option_bind].
    rewrite (get2_nth N N) by done. cbn [mbind option_bind]. unfold mul32, int_op.
    rewrite decide_True; [done|]. word_lia.
  - unfold upto. rewrite length_seq. unfold N. lia.
Qed.

Lemma matmul_eq a b A B C :
  shape N N A -> shape N N B -> shape N N C -> Forall (bounded a) A -> Forall (bounded b) B ->
  0 <= a -> 0 <= b -> 8 * (a * b) < 2 ^ 31 -> matmul A B C = Some (mat_product A B).
Proof.
  intros SA SB SC HA HB Ha Hb Hm. unfold matmul.
  rewrite (loop_fill2 N N _ (fun i j => dot (nth i A []) (column B j))); [|done|].
  - f_equal. unfold mat_product. etransitivity;
      [|exact (map_nth_upto (fun row => map (fun j => dot row (column B j)) (upto N)) A [])].
    by rewrite (proj1 SA).
  - intros i j Hi Hj. destruct (lookup_lt_is_Some_2 A i) as [row Hrow]; [by destruct SA as [-> _]|].
    rewrite (nth_lookup A), Hrow. cbn [default]. by apply (product_entry a b).
Qed.

(** [matmul] is total and overwrites any 8 x 8 array with the matrix product, whenever
    magnitude bounds on the two operands keep eight products inside [int32_t]. *)
Theorem matmul_correct a b A B C :
  shape N N A -> shape N N B -> shape N N C -> Forall (bounded a) A -> Forall (bounded b) B ->
  0 <= a -> 0 <= b -> 8 * (a * b) < 2 ^ 31 -> matmul A B C = Some (mat_product A B).
Proof. apply matmul_eq. Qed.

(** The benchmark computes the product of its matrices and then reports FAIL: the
    constant 204 is not the entry the product has, which is 120. *)
Theorem matmul_reports_fail C :
  shape N N C -> main C = Some (mat_product A B, false) /\ get2 (mat_product A B) 0 0 = Some 120.
Proof.
  intros SC. unfold main.
  assert (Hm : forall C, shape N N C -> matmul A B C = Some (mat_product A B)).
  { intros C' SC'. apply (matmul_eq 8 8); try done; refine (bool_decide_unpack _ _); vm_compute; exact I. }
  rewrite Hm by done. cbn [mbind option_bind].
  rewrite Hm by (refine (bool_decide_unpack _ _); vm_compute; exact I).
  split; reflexivity.
Qed.

Example matmul_correct_witness :
  matmul A B (repeat (repeat 0 8) 8) = Some (mat_product A B).
Proof.
  apply (matmul_correct 8 8); try lia; try apply shape_repeat;
    refine (bool_decide_unpack _ _); vm_compute; exact I.
Defined.
End Matmul.
