(* ===== verification/Syscalls.v ===== *)
(** The C library's system calls, [sw/mnist-newlib/syscalls.c] (the same file as
    [sw/sw-newlib/syscalls.c]): console output, the heap, and the calls that always
    answer the same. The theorem: the blocks of a sequence of [_sbrk] calls lie
    one after the other above [_end], and nothing stops them from reaching the stack. *)

From S2P Require Import Prelude.

Module Syscalls.

Section Link.
(** [_end], the address the linker script gives the end of the data. *)
Context (_end : Z).

(** The static variable of [_sbrk], [errno], and the bytes written to the UART. *)
Record state := State { heap_end : Z; errno : Z; uart : list Z; halted : bool }.

Definition ENOENT : Z := 2.

Definition _sbrk (incr : Z) (s : state) : Z * state :=
  let h := if heap_end s =? 0 then wrap 32 _end else heap_end s in
  let h := wrap 32 (h + incr) in
  (wrap 32 (h - incr), State h (errno s) (uart s) (halted s)).

(** [*(volatile int * )0x10000000 = c] with [c] a [char], which is unsigned on RISC-V. *)
Definition emit (c : Z) (s : state) : state :=
  State (heap_end s) (errno s) (uart s ++ [wrap 8 c]) (halted s).

Definition _write (bytes : list Z) (s : state) : Z * state :=
  (Z.of_nat (length bytes), fold_left (fun s c => emit c s) bytes s).

Definition _read (len : Z) (s : state) : Z * state := (0, s).
Definition _close (s : state) : Z * state := (0, s).
Definition _fstat (s : state) : Z * state := (-1, State (heap_end s) ENOENT (uart s) (halted s)).

(** [asm volatile ("ebreak")] *)
Definition _exit (s : state) : state := State (heap_end s) (errno s) (uart s) true.
Definition unimplemented_syscall (s : state) : state :=
  let text := "Unimplemented system call called!" in
  _exit (fold_left (fun s c => emit c s)
    (map (fun c => Z.of_nat (Ascii.nat_of_ascii c)) (String.list_ascii_of_string text) ++ [10]) s).

(** A sequence of [_sbrk] calls: the pointers returned. *)
Fixpoint sbrks (incrs : list Z) (s : state) : list Z * state :=
  match incrs with
  | [] => ([], s)
  | n :: incrs => let (p, s) := _sbrk n s in
                  let (ps, s) := sbrks incrs s in (p :: ps, s)
  end.

(** The break before the next call. *)
Definition brk (s : state) : Z := if heap_end s =? 0 then wrap 32 _end else heap_end s.

(** Start addresses of blocks laid out one after the other from [a]. *)
Fixpoint layout (a : Z) (sizes : list Z) : list Z :=
  match sizes with [] => [] | n :: sizes => a :: layout (a + n) sizes end.

Lemma sbrk_eq n s :
  urange 32 (brk s) -> 0 < brk s + n < 2 ^ 32 ->
  _sbrk n s = (brk s, State (brk s + n) (errno s) (uart s) (halted s)).
Proof.
  intros Hb Hn. unfold _sbrk. fold (brk s). rewrite (wrap_small 32 (brk s + n)) by (unfold urange; lia).
  replace (brk s + n - n) with (brk s) by lia. by rewrite wrap_small by done.
Qed.

(** As long as the break stays inside the address space, a sequence of [_sbrk] calls
    returns the start addresses of blocks laid out one after the other from the current
    break, initially [_end], and leaves the break at their end: the heap never hands
    out the same byte twice. No bound other than the address space is checked. *)
Theorem sbrk_blocks incrs s :
  0 < brk s -> Forall (fun n => 0 <= n) incrs -> brk s + sumZ incrs < 2 ^ 32 ->
  let (ps, s') := sbrks incrs s in
  ps = layout (brk s) incrs /\ brk s' = brk s + sumZ incrs /\ uart s' = uart s.
Proof.
  intros Hb Hn. revert s Hb. induction Hn as [|n incrs Hn Hns IH]; intros s Hb Hsum.
  - cbn. split_and!; [done|lia|done].
  - assert (Hpos : 0 <= sumZ incrs) by (clear -Hns; induction Hns; unfold sumZ in *; cbn [foldr] in *; lia).
    cbn [sumZ foldr] in Hsum. fold (sumZ incrs) in Hsum. cbn [sbrks].
    rewrite sbrk_eq by (unfold urange; lia). set (s1 := State _ _ _ _).
    assert (Hb1 : brk s1 = brk s + n).
    { unfold brk at 1. unfold s1. cbn [heap_end]. by rewrite (proj2 (Z.eqb_neq _ 0)) by lia. }
    specialize (IH s1 ltac:(lia) ltac:(lia)). destruct (sbrks incrs s1) as [ps s'].
    destruct IH as (-> & Hs & Hu). rewrite Hb1 in *. cbn [layout sumZ foldr]. fold (sumZ incrs).
    split_and!; [done|lia|done].
Qed.

Lemma write_eq bytes s :
  _write bytes s = (Z.of_nat (length bytes),
    State (heap_end s) (errno s) (uart s ++ map (wrap 8) bytes) (halted s)).
Proof.
  unfold _write. f_equal. revert s. induction bytes as [|c bytes IH]; intros s; cbn.
  - rewrite app_nil_r. by destruct s.
  - rewrite IH. cbn. by rewrite <- app_assoc.
Qed.
End Link.

(** Three blocks above an [_end] of 0x12340, the last past the stack pointer
    [start.S] sets, 4 MB less 16. *)
Example sbrk_blocks_witness :
  let (ps, s') := sbrks 0x12340 [4096; 100; 0x400000] (State 0 0 [] false) in
  ps = [0x12340; 0x13340; 0x133a4] /\ brk 0x12340 s' = 0x4133a4 /\ uart s' = [].
Proof.
  refine (sbrk_blocks 0x12340 [4096; 100; 0x400000] (State 0 0 [] false) _ _ _).
  - reflexivity.
  - refine (bool_decide_unpack _ _). vm_compute. exact I.
  - reflexivity.
Defined.
End Syscalls.
