(* ===== verification/TestMain.v ===== *)
(** The packed-MAC part of the bare-metal test program [sw/test/main.c]: its
    operands, the [pvmac] it runs on the hardware and the C expression it prints beside it as
    the exact result. The theorem: the expression is not the dot product it claims
    to be, and differs from the instruction's result. *)

From S2P Require Import Prelude VectorUnit.

Module TestMain.

(** [a = [1,2,3,4]], [b = [10,20,30,40]], one byte each, most significant first. *)
Definition a : Z := Z.lor (Z.lor (Z.lor (Z.shiftl 1 24) (Z.shiftl 2 16)) (Z.shiftl 3 8)) 4.
Definition b : Z := Z.lor (Z.lor (Z.lor (Z.shiftl 10 24) (Z.shiftl 20 16)) (Z.shiftl 30 8)) 40.

(** [(int8_t)((a >> s) & 0xFF) * (int8_t)((b >> s) & 0xFF)] *)
Definition lane_product (s a b : Z) : Z :=
  sgn 8 (Z.land (Z.shiftr a s) 0xFF) * sgn 8 (Z.land (Z.shiftr b s) 0xFF).

(** The last mask is [unsigned], and with it the last addition. *)
Definition packed_multiply_accumulate_exact (a b : Z) : option Z :=
  let* low := int_op 32 (Z.land (lane_product 0 a b) 0xFF + Z.land (lane_product 8 a b) 0xFF00) in
  let high := wrap 32 (wrap 32 (Z.land (lane_product 16 a b) 0xFF0000)
    + Z.land (wrap 32 (sgn 8 (Z.shiftr a 24) * sgn 8 (Z.shiftr b 24))) 0xFF000000) in
  Some (sgn 32 (wrap 32 (low + high))).

(** On the operands of the test the instruction gives the dot product 300, as the
    comment beside it expects, and the expression printed as the exact result gives 160: its
    masks keep a different byte of each product instead of the products. *)
Theorem exact_result_differs `{U : VectorUnit} `{!VectorUnitLaws U} :
  pvmac a b = 300 /\ packed_multiply_accumulate_exact a b = Some 160.
Proof. split; [rewrite pvmac_dot; vm_compute; reflexivity|vm_compute; reflexivity]. Qed.
End TestMain.
